(* ===== verification/_CoqProject ===== *)
-Q . S2P
Prelude.v
Effects.v
Tables.v
DspCore.v
Arith56.v
Cpu.v
Control.v
ParMove.v
Alu.v
Exec.v
Arith56Spec.v
CpuRun.v
AluSpec.v
CarrySpec.v
NormSpec.v
BitSpec.v
AddressSpec.v
HostSpec.v
Safety.v
LoopSpec.v
MemSpec.v
DivSpec.v
MoveSpec.v
ExecSpec.v
Throws.v
Machine.v
MachineSpec.v
Mmu.v
MmuWalk.v
MmuSpec.v
MmuAccess.v
MmuTheorems.v
MmuErrors.v
MmuExample.v
Mfp.v
MfpSpec.v
MfpTick.v
Blitter.v
BlitterSpec.v
BlitterBus.v
Rtc.v
RtcSpec.v
Ikbd.v
IkbdSpec.v
IkbdEvents.v
IkbdMouse.v
IkbdExample.v
Planes.v
Videl.v
VidelSpec.v
VidelScreen.v
M68k.v
M68kArith.v
M68kStack.v
M68kFrame.v
M68kExc.v
M68kBus.v
M68kIrq.v
M68kRegs.v
M68kExample.v
Maptab.v
NatFeat.v
NatFeatSpec.v
Xhdi.v
XhdiSpec.v
Midi.v
Joypads.v
Aradata.v
Md5.v
Md5Spec.v
Scc.v
SccSpec.v
Yamaha.v
Fdc.v
FdcSpec.v
Sound.v
SoundSpec.v
System.v
SystemIrq.v
SystemExample.v
