(* ===== verification/Prelude.v ===== *)
(** * A verification library for ARAnyM

    ARAnyM emulates an Atari Falcon.  This library verifies the parts of it that carry
    the emulated machine: the digital signal processor, the 68040 (exceptions, interrupts,
    registers, memory management; not the single instructions), physical memory and the
    hardware bus, the devices, and the native features by which programs call the emulator.

    ** The program

    The 68040 interpreter ([src/uae_cpu/newcpu.cpp]) executes instructions, polls
    the request flags between them and catches the C++ exceptions by which the
    rest of the code reports faults.  It reads and writes through the memory management unit
    ([src/uae_cpu/cpummu.cpp], [cpummu.h]): transparent registers, two levels of
    translation cache, a table walk, and a bus error thrown as a C++ exception when an
    access is denied.  What comes out is a physical access
    ([src/uae_cpu/memory-uae.h]), to RAM or to the hardware space, where
    [src/hardware.cpp] finds the device by its address range, an object of the class
    [BASE_IO] ([src/include/icio.h]).  The MFP ([src/mfp.cpp]) collects interrupt
    requests and raises a flag the processor polls, as does the serial controller ([src/scc.cpp]);
    the host's timer feeds the MFP's timer C ([src/main.cpp]).  The keyboard ([src/ikbd.cpp],
    [src/acia.cpp]) queues bytes for the guest and pulls a line of the MFP, the disk
    controller ([src/acsifdc.cpp]) copies sectors to memory and pulls another, the sound DMA
    ([src/audio_dma.cpp]) reads samples from memory in a callback of the host's sound system.  The
    video chip ([src/videl.cpp]) draws the video memory on a surface of the host, by blocks whose
    checksum changed.  The blitter ([src/blitter.cpp]) moves memory by itself; the clock
    ([src/rtc.cpp]) keeps 64 bytes; small devices are the sound chip's ports, MIDI, joypads and
    the emulator's own registers.  A program calls a native feature ([src/natfeats.cpp]) by an
    instruction the interpreter passes on: by name it gets a number, with the number it calls the
    feature, e.g. the hard disk driver ([src/natfeat/xhdi.cpp]).

    The DSP ([src/dsp_core.c], [src/dsp_cpu.c], glue in [src/dsp.cpp]) has three
    memories X, Y and P, two 56-bit accumulators A and B, four 24-bit data registers,
    eight address registers with an offset and a modifier each, a 15-level hardware
    stack and loop registers.  [dsp56k_exec_thread] runs in a thread of its own and
    calls [dsp56k_execute_instruction] while [running] is set: fetch, decode through
    tables of functions, execute (for an ALU instruction: read the sources of the
    parallel moves, do the operation, write the destinations), update the PC (REP and
    DO loops), look for interrupts.  The 68040 side calls [dsp_core_read_host] and
    [dsp_core_write_host]: two mailboxes of 24-bit words with status bits on both
    sides, protected by a mutex; before the DSP runs, the first 512 words written are
    the bootstrap program.

    ** Modelling

    Integers are [Z] with the wrap-around of each C type written out ([u32], [u16],
    [u8], [s16], [s32] below), and [int] arithmetic that could overflow as [int_result].
    Arrays are finite maps that read 0 where nothing was stored, as
    after [memset], or lists; the accessors check the C bounds.  C functions without effects are
    functions.  The others are computations of one of two monads:

    - [M S A] of [Effects] for the DSP: from a state to an outcome that returns, faults
      ([Fault]: an index out of bounds, the wrong member of a union), or is inside a
      call to SDL.  SDL (threads, mutex, semaphore) is not part of the sources: a call
      stays uninterpreted, and the theorems quantify over its answers ([alone], the
      thread runs without interference) or over everything the other thread may do
      meanwhile ([wp] and [keeps] against a protocol).
    - [X S A] of [Throws] for the 68040 side, which is sequential and throws: to
      [Ret], [Throw n] (vector [n]) or [Undef] (not defined by C++: out of bounds, host
      memory outside the machine, overflow of [int], division by zero, [abort()]), with
      the state also after a throw.

    Objects of the C++ code are records; a device on the bus is the record [BASE_IO] of
    its virtual methods over the state of the machine, and an object inside a larger
    state is reached through a lens ([System]).  What the emulated program does between
    the modelled operations is a list of operations in the theorems, any list.

    Parts meet at interfaces, type classes with their laws: [Bus] and [RamBus] (the blitter's
    memory), [RamIn] and [Ram] (memory as a program in a given mode, or the supervisor, sees it: the memory management unit implements it), [Acks] (interrupt acknowledge:
    the MFP and the serial controller implement it), [NFState] and [XHState] (the variables of the
    native features within the devices).  Code of the host is a class, too: [SDL] and [SDLAudio],
    [SerialPort], [Parallel], [FloppyHost].

    The configuration has [FULLMMU] and [PROTECT2K], not [FIXED_VIDEORAM],
    [HW_SIGSEGV], [EXTENDED_SIGSEGV], [NOCHECKBOUNDARY], [BLITTER_MEMMOVE] and
    [RTC_TIMER]; [ARAM_PAGE_CHECK] is a parameter.  Host addresses are written as the
    Atari address they stand for.  The clock of the host, files (their bytes) and the
    parallel port (busy or not) are arguments.  Output to [stderr] is left out where it is for the
    user of the emulator, and the code under [DSP_DISASM], [DSP_COUNT_IPS] and [DEBUG].

    ** Files

    Shared:
    - [Prelude]: notation, C integers, arrays, tactics and arithmetic lemmas.
    - [Effects], [Throws]: the two kinds of computations, their rules and tactics.

    The DSP:
    - [Tables]: the constants [x_rom] and [y_rom] of [dsp_core.c].
    - [DspCore]: [dsp_core.h] and [dsp_core.c]; record [dsp_core_t], one definition
      per C function, the thread hooks as one field [thread_ops].
    - [Arith56]: "56bit arithmetic" and "Set/clear ccr bits" of [dsp_cpu.c]; the
      record [a56] is the C array [Uint32 dest[3]].
    - [Cpu]: the static variables of [dsp_cpu.c] (record [cpu_t]), memory, stack,
      address generation, condition test, limiter.
    - [Control]: the instructions without parallel moves.
    - [ParMove]: [dsp_parmove_read], the [dsp_pm_*] functions, [dsp_parmove_write].
    - [Alu]: the ALU instructions.
    - [Exec]: dispatch tables, PC update, interrupts, execution, the class [DSP].
    - [Arith56Spec], [CpuRun], [AluSpec], [CarrySpec], [DivSpec], [NormSpec],
      [MoveSpec]: arithmetic, ALU instructions and moves.  [BitSpec]: bit instructions.
    - [AddressSpec], [MemSpec], [LoopSpec], [ExecSpec]: addresses, memory, stack
      and loops, interrupts and decoding.
    - [HostSpec]: the host port.  [Safety]: memory safety.

    Memory and the bus:
    - [Machine], [MachineSpec]: processor registers, physical memory, [BASE_IO] and the
      dispatch of hardware accesses.
    - [Mmu]: [cpummu.cpp], [cpummu.h] and the accesses of [memory-uae.h].
    - [MmuWalk], [MmuSpec], [MmuAccess]: the table walk, the invariant of the caches,
      the accesses.  [MmuTheorems], [MmuErrors]: the theorems.  [MmuExample]: a
      concrete machine with translation on, and where the caches go wrong.

    The processor:
    - [M68k]: [newcpu.cpp] with [registers.h], [newcpu.h], [spcflags.h], [m68k.h]; the table of the
      instructions is an argument.
    - [M68kArith]: long multiplication and division.  [M68kStack], [M68kFrame], [M68kExc], [M68kBus]:
      stacks, frames, exceptions, bus errors.  [M68kIrq]: interrupts.  [M68kRegs]: control registers, calls of the
      host, the execution loop.  [M68kExample]: a processor with translation on.

    The devices:
    - [Mfp], [MfpSpec], [MfpTick]: the MFP, its poll by the processor, the 200 Hz tick.
    - [Blitter], [BlitterSpec], [BlitterBus]: the blitter over the interface [Bus], and
      the machine's memory as an instance of it.
    - [Rtc], [RtcSpec]: the clock and the non-volatile memory.
    - [Ikbd], [IkbdSpec], [IkbdEvents], [IkbdMouse], [IkbdExample]: the keyboard
      processor and its serial interface, wired to the MFP.
    - [Planes], [Videl], [VidelSpec], [VidelScreen]: bitplanes, the video chip, its surface.
    - [Scc], [SccSpec]: the serial controller.
    - [Yamaha]: the sound chip's ports and the printer.  [Fdc], [FdcSpec]: DMA chip, floppy, SCSI registers.
    - [Sound], [SoundSpec]: DMA sound, the crossbar, the conversion of sample rates.
    - [Midi], [Joypads], [Aradata]: the small devices, with their theorems.
    - [System]: the table of devices of [HWInit], over the models of
      all devices but IDE, DSP and blitter, which are arguments.  [SystemIrq]: the
      processor over these devices.  [SystemExample]: a concrete machine for both.

    Services:
    - [Maptab], [NatFeat], [NatFeatSpec]: the character set, the table and the calls of the native
      features, the basic features and formatted output.
    - [Xhdi], [XhdiSpec]: the hard disk driver.
    - [Md5], [Md5Spec]: the checksum by which ROM images are identified.

    The files without an [Example] file of their own end with a concrete instance of their
    theorems.

    A definition has the name of the C function it translates, with a prefix for
    methods of the same name ([mfp_handleRead], [ikbd_handleRead]).  Code that the
    source repeats is one definition with parameters ([bit_instruction],
    [shift_and_combine], [logic_op], [pm_to_reg], [hop_op], [rescale]), and a long function may be
    cut in named parts ([update_rep], [update_do], [enter_interrupt], [root_part]).

    ** What is shown

    The comment of each theorem states its assumptions; the most important ones are also given here.

    - Memory management: accesses through the two caches are accesses to a flat memory
      behind the translation tree the operating system wrote, in plain RAM and with the same
      transparent registers for data and instructions; longwords are read back
      across pages; denied accesses throw with the frame of the access and change
      nothing, if no line of a device is left in their place of the cache; flushing makes the caches agree with changed tables, and a page fault
      can be served and the access repeated.
    - Processor: an exception and its RTE leave the interrupted program as it was, on all three stacks, bus
      errors included; in master mode this is so for the autovector interrupts only; a second fault ends the emulation; pending
      interrupts are served up to the highest level;
      the status register and the control registers are read back; long division divides; calls of the host keep
      the registers.
    - MFP: an invariant of every reachable state says that no request is missed; polls
      serve all requests in order of priority, with a vector base that is not 0; requests are made exactly by active
      edges; the tick loses no time.  Serial controller: its invariant, and the vector names the most urgent request.
    - Blitter: a blit that does not overlap itself or its source is the closed form on memory.  Clock: registers read as the time
      of the host; memory cells, checksum and files are consistent.
    - Video: the parallel bit exchange converts bitplanes to pixels; the surface shows the video memory up to collisions of the checksum,
      for widths that are multiples of 16.
    - Keyboard: the ring is a bounded queue; every command and event returns and stays
      in its buffers; commands are framed; mouse packets add up to the motion; a key
      raises the interrupt, reaches the handler of the guest and is read there, over the bus.
    - Disks: the floppy controller transfers sectors of an array, with the geometry found on the image; the hard disk driver
      is a flat array, for writes behind the root sector it makes up.
    - Sound: the callback fills the host's buffer with the frame, resampled to the host's rate, around and around or with silence at its end, with an
      interrupt for each end, and returns.  MIDI, printer, joypads, mouse position: what is sent is received.
    - Native features: a feature is found by name and called with its arguments; text for [stderr] arrives; strings survive the
      conversion to UTF-8 and back; numerals are right and fit their buffer.  The checksum is that of RFC 1321.
    - Bus: after any accesses from the start on, an access in a device's range reaches that device, in both images of the
      hardware space, and is a bus error where there is none.
    - DSP arithmetic: the 56-bit operations against arithmetic on [Z] (value modulo
      2^56, signed overflow, carry), the multiplier, convergent rounding, the
      condition codes, and on top of them the instructions ADD, SUB, ADC, SBC, CMP
      followed by a condition, MAC, the logical instructions, NORM and division by
      24 DIVs; every ALU opcode keeps the register widths; the limiter saturates.
    - DSP addresses and memory: linear, circular and bit-reversed updates; the memory
      map with its aliases, and read after write.
    - DSP control: the hardware stack refines a list; subroutines, DO and REP loops and
      interrupts return where they should; masked interrupts wait; bit
      instructions change the bit they name.
    - DSP host port: each direction refines a queue (without loss, order kept) for
      programs that watch the status bits, TRDY is an invariant under
      interference, the bootstrap loads the 512 words.
    - DSP safety: from start-up no run leaves an array (the hardware stack apart), a
      dispatch table or the active member of the union, whatever the host does.
    - The data ROMs hold the G.711 expansions and a sine.

    Some lemmas record defects of the source, by a run: for the DSP
    [double_buffer_loses_word], [full_duplex_corrupts], [modulo_upper_half_escapes],
    [fifteenth_push_overruns], [jsset_register_runs_jsclr],
    [receive_interrupt_breaks_trdy]; for the rest those of [MfpTick], [BlitterBus], [RtcSpec], [Joypads], [Maptab] and
    the files named [Example].  The hypotheses of the theorems next to
    them are what the source needs to be right.

    ** Bounds and fuel

    The loops with fuel of the DSP are [first_bit] and [buffer_size] (16 turns: the bits of a
    16-bit register), [reverse_bits] (exactly [revbits] turns), [skip_forward] and
    [skip_backward] (the modifier shrinks by at least one per turn, so its value
    is enough; [modulo_loops_finish] shows that all of them stop by their own
    condition), [only_nops] (the distance to the PC), [parmove_write_loop] (the
    length of the move), [execute_while_running], where the fuel is the number
    of instructions, any number in the theorems, because the DSP need not stop.

    Of the rest: [fill_atc_l1_check] (2 turns: the [goto] back is taken at most once), [blit_lines]
    (65536, the 16-bit line counter), [mouse_loop] (a turn takes away at least one
    of the motion), [ex_rte] (2 frames: the throwaway frame and the one below), [update_blocks] and [sum_file] (a turn takes at
    least one byte), [rescale] (a turn writes at least one unit), [callback_loop] (any number above the number of
    sample instants asked for), [host_utf8_loop] and [Atari2HostUtf8Copy] (a turn takes a byte of the string or of the room),
    [putl_digits] (33: the buffer has 32 characters), [load_file] (a turn reads at least one byte); the loops over strings of the
    guest ([puts_loop], [debugprintf]) have the length of the string as fuel, since the source has no bound.  The
    execution loop [m68k_execute] and [stopped_loop] take lists, one entry per turn.  Running out
    of fuel is the outcome [Undef No_fuel] on the 68040 side, which the theorems exclude.

    ** Not modelled

    The 68040 instructions (generated by [gencpu.c] during the build, so that there is no source of
    them) and the FPU (floating point of the host); the JIT compiler (machine code of the host); [VidelZoom] and drawing on
    the host's window (floating point, SDL); the IDE interface ([src/ide.cpp], [src/ata.cpp], code of another emulator); the native features for
    files, network, graphics, CD-ROM, PCI and USB (services of the host; generated code for OpenGL); the
    disassemblers; user interface, configuration and host-specific code.  [EmulOp] and the loaders of operating systems are
    arguments. *)

From Stdlib Require Import ZArith Lia Bool.
From stdpp Require Import base gmap list numbers.

(** ** Notation of the C operators

    All integers are [Z].  A C operation that can leave its type's range is
    written with an explicit wrap-around: [u32], [u16], [u8] are the
    conversions to [Uint32], [Uint16], [Uint8], and [s16] and [s32] those to
    [Sint16] and [int]. *)

Declare Scope c_scope.
Delimit Scope c_scope with c.
Open Scope Z_scope.

Definition u32 (x : Z) : Z := x mod 4294967296.
Definition u16 (x : Z) : Z := x mod 65536.
Definition u8 (x : Z) : Z := x mod 256.
Definition s16 (x : Z) : Z := (x + 32768) mod 65536 - 32768.
Definition s32 (z : Z) : Z := (z + 2 ^ 31) mod 2 ^ 32 - 2 ^ 31.

Infix ".&" := Z.land (at level 43, left associativity) : c_scope.
Infix ".^" := Z.lxor (at level 44, left associativity) : c_scope.
Infix ".|" := Z.lor (at level 45, left associativity) : c_scope.
Infix ">>" := Z.shiftr (at level 42, left associativity) : c_scope.
Notation "a << b" := (u32 (Z.shiftl a b)) (at level 42, left associativity) : c_scope.
Notation "a +u b" := (u32 (Z.add a b)) (at level 41, left associativity) : c_scope.
Notation "a -u b" := (u32 (Z.sub a b)) (at level 41, left associativity) : c_scope.
Open Scope c_scope.

(** [BITMASK(x)], an [int] expression of the source. *)
Definition BITMASK (x : Z) : Z := Z.shiftl 1 x - 1.

(** The truth value of a C condition [x & m]. *)
Definition tst (x m : Z) : bool := negb (Z.land x m =? 0).

(** The value of a C comparison used as an integer. *)
Definition c_bool (b : bool) : Z := if b then 1 else 0.

(** ** Arrays

    A C array is a finite map from its index (a pair of indices for a
    two-dimensional one); the cells of [memset] or static storage that were
    never written read as 0.  Bounds are checked where the array is used. *)

Definition aget `{Countable K} (a : gmap K Z) (k : K) : Z := default 0 (a !! k).
Definition aset `{Countable K} (k : K) (v : Z) (a : gmap K Z) : gmap K Z := <[k:=v]> a.

(** [memcpy] of a list into a row, from a column on. *)
Fixpoint aload (row col : Z) (l : list Z) (a : gmap (Z * Z) Z) : gmap (Z * Z) Z :=
  match l with
  | [] => a
  | x :: l => aload row (col + 1) l (aset (row, col) x a)
  end.

Definition in_range (lo hi x : Z) : bool := (lo <=? x) && (x <? hi).

Lemma in_range_true lo hi x : lo <= x < hi → in_range lo hi x = true.
Proof. unfold in_range. lia. Qed.

Section Arrays.
Context `{Countable K}.
Implicit Types (a : gmap K Z) (k : K).

Lemma aget_aset_eq a k v : aget (aset k v a) k = v.
Proof. unfold aget, aset. by rewrite lookup_insert_eq. Qed.

Lemma aget_aset_ne a k k' v : k' ≠ k → aget (aset k' v a) k = aget a k.
Proof. intros. unfold aget, aset. by rewrite lookup_insert_ne. Qed.

Lemma aget_aset a k k' v :
  aget (aset k' v a) k = if decide (k' = k) then v else aget a k.
Proof. case_decide; subst; [apply aget_aset_eq | by apply aget_aset_ne]. Qed.

Lemma aget_empty k : aget ∅ k = 0.
Proof. unfold aget. by rewrite lookup_empty. Qed.

(** A pointwise bound on the cells of an array is kept by a store. *)
Lemma aset_forall (P : Z → Prop) a k v :
  (∀ i, P (aget a i)) → P v → ∀ i, P (aget (aset k v a) i).
Proof. intros Ha Hv i. rewrite aget_aset. by case_decide. Qed.
End Arrays.

(** ** Machine integers *)

(** Decide the comparisons [a <? b] of a goal. *)
Ltac ltb_lia := repeat match goal with |- context [?a <? ?b] =>
  first [rewrite (proj2 (Z.ltb_lt a b)) by lia | rewrite (proj2 (Z.ltb_ge a b)) by lia] end.

Ltac zdiv_lia := Z.to_euclidean_division_equations; lia.

Lemma u32_range x : 0 <= u32 x < 4294967296.
Proof. unfold u32. apply Z.mod_pos_bound; lia. Qed.
Lemma u16_range x : 0 <= u16 x < 65536.
Proof. unfold u16. apply Z.mod_pos_bound; lia. Qed.
Lemma u8_range x : 0 <= u8 x < 256.
Proof. unfold u8. apply Z.mod_pos_bound; lia. Qed.
Lemma s16_range x : -32768 <= s16 x < 32768.
Proof. unfold s16. pose proof (Z.mod_pos_bound (x + 32768) 65536). lia. Qed.
Lemma u32_small x : 0 <= x < 4294967296 → u32 x = x.
Proof. apply Z.mod_small. Qed.
Lemma u16_small x : 0 <= x < 65536 → u16 x = x.
Proof. apply Z.mod_small. Qed.
Lemma u8_small x : 0 <= x < 256 → u8 x = x.
Proof. apply Z.mod_small. Qed.
Lemma s32_small z : 0 <= z < 2 ^ 31 → s32 z = z.
Proof. intros. unfold s32. rewrite Z.mod_small; lia. Qed.
Lemma s16_small x : -32768 <= x < 32768 → s16 x = x.
Proof. intros. unfold s16. rewrite Z.mod_small; lia. Qed.

Lemma BITMASK_ones n : 0 <= n → BITMASK n = Z.ones n.
Proof. intros. unfold BITMASK. rewrite Z.ones_equiv, Z.shiftl_1_l. lia. Qed.

Lemma land_BITMASK x n : 0 <= n → x .& BITMASK n = x mod 2 ^ n.
Proof. intros. by rewrite BITMASK_ones, Z.land_ones. Qed.

Lemma land_BITMASK_range x n : 0 <= n → 0 <= x .& BITMASK n < 2 ^ n.
Proof. intros. rewrite land_BITMASK by done. apply Z.mod_pos_bound. lia. Qed.

Lemma land_range_r x m n : 0 <= n → 0 <= m < 2 ^ n → 0 <= x .& m < 2 ^ n.
Proof.
  intros Hn Hm. assert (m = m mod 2 ^ n) as -> by (by rewrite Z.mod_small).
  rewrite <-Z.land_ones, Z.land_assoc, Z.land_ones by done.
  apply Z.mod_pos_bound. lia.
Qed.

Lemma land_range_l x m n : 0 <= n → 0 <= x < 2 ^ n → 0 <= x .& m < 2 ^ n.
Proof. rewrite Z.land_comm. apply land_range_r. Qed.

Lemma bits_range x n : 0 <= n → (∀ i, n <= i → Z.testbit x i = false) → 0 <= x < 2 ^ n.
Proof.
  intros Hn Hx. assert (x = x mod 2 ^ n) as ->; [|apply Z.mod_pos_bound; lia].
  apply Z.bits_inj'. intros i Hi. destruct (Z.lt_ge_cases i n).
  - by rewrite Z.mod_pow2_bits_low.
  - rewrite Z.mod_pow2_bits_high by lia. by apply Hx.
Qed.

Lemma range_bits x n i : 0 <= x < 2 ^ n → n <= i → Z.testbit x i = false.
Proof.
  intros Hx Hi. destruct (Z.lt_ge_cases n 0).
  - rewrite Z.pow_neg_r in Hx by lia. lia.
  - rewrite <-(Z.mod_small x (2 ^ n)) by lia. apply Z.mod_pow2_bits_high. lia.
Qed.

Lemma lor_range x y n : 0 <= n → 0 <= x < 2 ^ n → 0 <= y < 2 ^ n → 0 <= x .| y < 2 ^ n.
Proof.
  intros Hn Hx Hy. apply bits_range; [done|]. intros i Hi.
  by rewrite Z.lor_spec, !(range_bits _ n).
Qed.

Lemma lxor_range x y n : 0 <= n → 0 <= x < 2 ^ n → 0 <= y < 2 ^ n → 0 <= x .^ y < 2 ^ n.
Proof.
  intros Hn Hx Hy. apply bits_range; [done|]. intros i Hi.
  by rewrite Z.lxor_spec, !(range_bits _ n).
Qed.

Lemma shiftr_range x k n : 0 <= k → 0 <= x < n → 0 <= x >> k < n.
Proof.
  intros Hk Hx. rewrite Z.shiftr_div_pow2 by done.
  assert (0 < 2 ^ k) by lia. split; [apply Z.div_pos; lia|].
  apply Z.le_lt_trans with x; [|lia]. apply Z.div_le_upper_bound; [lia|]. nia.
Qed.

Lemma tst_testbit x n : 0 <= n → tst x (Z.shiftl 1 n) = Z.testbit x n.
Proof.
  intros Hn. unfold tst. rewrite Z.shiftl_1_l.
  destruct (Z.testbit x n) eqn:E.
  - destruct (Z.eqb_spec (x .& 2 ^ n) 0) as [H0|]; [|done].
    apply (f_equal (λ z, Z.testbit z n)) in H0.
    rewrite Z.land_spec, E, Z.pow2_bits_true, Z.bits_0 in H0 by done. done.
  - replace (x .& 2 ^ n) with 0; [done|]. symmetry.
    apply Z.bits_inj'. intros i Hi. rewrite Z.land_spec, Z.bits_0.
    destruct (decide (n = i)) as [<-|]; [by rewrite E|].
    by rewrite Z.pow2_bits_false, andb_false_r.
Qed.

Lemma pow2_32 k : 0 <= k < 32 → 1 << k = 2 ^ k.
Proof.
  intros. rewrite Z.shiftl_1_l. apply u32_small. split; [apply Z.pow_nonneg; lia|].
  change 4294967296 with (2 ^ 32). apply Z.pow_lt_mono_r; lia.
Qed.

Lemma tst_bit x k : 0 <= k < 32 → tst x (1 << k) = Z.testbit x k.
Proof.
  intros. rewrite <-tst_testbit by lia. f_equal. rewrite pow2_32 by done.
  by rewrite Z.shiftl_1_l.
Qed.

Lemma c_bool_range b : 0 <= c_bool b < 2.
Proof. destruct b; simpl; lia. Qed.

Lemma bit_range x k : 0 <= (x >> k) .& 1 < 2.
Proof. apply (land_range_r _ 1 1); lia. Qed.

Lemma bit_cases x k : (x >> k) .& 1 = 0 ∨ (x >> k) .& 1 = 1.
Proof. pose proof (bit_range x k). lia. Qed.

(** ** Finite checks *)

(** The indices 0 .. n-1. *)
Definition indices (n : nat) : list Z := map Z.of_nat (seq 0 n).

Lemma indices_forallb n (f : Z → bool) :
  forallb f (indices n) = true → ∀ i, 0 <= i < Z.of_nat n → f i = true.
Proof.
  intros Hf i Hi. rewrite forallb_forall in Hf. apply Hf. unfold indices.
  rewrite in_map_iff. exists (Z.to_nat i). split; [lia|]. apply in_seq. lia.
Qed.

(** ** Bit operations as integer arithmetic

    [carith] turns masks and shifts by constants into divisions and
    remainders, which [zdiv_lia] decides. *)

Create Rewrite HintDb carith.

Lemma mask_mod x n m : 0 <= n → m = 2 ^ n → x .& BITMASK n = x mod m.
Proof. intros ? ->. by apply land_BITMASK. Qed.
Lemma shr_div x n m : 0 <= n → m = 2 ^ n → x >> n = x / m.
Proof. intros ? ->. by apply Z.shiftr_div_pow2. Qed.
Lemma shl_mul x n m : 0 <= n → m = 2 ^ n → Z.shiftl x n = x * m.
Proof. intros ? ->. by apply Z.shiftl_mul_pow2. Qed.
Lemma mask_1 x : x .& 1 = x mod 2.
Proof. apply (Z.land_ones _ 1). lia. Qed.
Lemma mask_3 x : x .& 3 = x mod 4.
Proof. apply (Z.land_ones _ 2). lia. Qed.
Lemma mask_255 x : x .& 255 = x mod 256.
Proof. apply (Z.land_ones _ 8). lia. Qed.
Lemma mask_7 x : x .& BITMASK 7 = x mod 128.
Proof. by apply mask_mod. Qed.
Lemma mask_8 x : x .& BITMASK 8 = x mod 256.
Proof. by apply mask_mod. Qed.
Lemma mask_12 x : x .& BITMASK 12 = x mod 4096.
Proof. by apply mask_mod. Qed.
Lemma mask_16 x : x .& BITMASK 16 = x mod 65536.
Proof. by apply mask_mod. Qed.
Lemma mask_23 x : x .& BITMASK 23 = x mod 8388608.
Proof. by apply mask_mod. Qed.
Lemma mask_24 x : x .& BITMASK 24 = x mod 16777216.
Proof. by apply mask_mod. Qed.
Lemma shr_1 x : x >> 1 = x / 2.
Proof. by apply shr_div. Qed.
Lemma shr_7 x : x >> 7 = x / 128.
Proof. by apply shr_div. Qed.
Lemma shr_8 x : x >> 8 = x / 256.
Proof. by apply shr_div. Qed.
Lemma shr_12 x : x >> 12 = x / 4096.
Proof. by apply shr_div. Qed.
Lemma shr_16 x : x >> 16 = x / 65536.
Proof. by apply shr_div. Qed.
Lemma shr_21 x : x >> 21 = x / 2097152.
Proof. by apply shr_div. Qed.
Lemma shr_22 x : x >> 22 = x / 4194304.
Proof. by apply shr_div. Qed.
Lemma shr_23 x : x >> 23 = x / 8388608.
Proof. by apply shr_div. Qed.
Lemma shr_24 x : x >> 24 = x / 16777216.
Proof. by apply shr_div. Qed.
Lemma shl_1 x : Z.shiftl x 1 = x * 2.
Proof. by apply shl_mul. Qed.
Lemma shl_2 x : Z.shiftl x 2 = x * 4.
Proof. by apply shl_mul. Qed.
Lemma shl_8 x : Z.shiftl x 8 = x * 256.
Proof. by apply shl_mul. Qed.
Lemma shl_12 x : Z.shiftl x 12 = x * 4096.
Proof. by apply shl_mul. Qed.
Lemma shl_16 x : Z.shiftl x 16 = x * 65536.
Proof. by apply shl_mul. Qed.
Lemma shl_23 x : Z.shiftl x 23 = x * 8388608.
Proof. by apply shl_mul. Qed.
#[export] Hint Rewrite mask_1 mask_3 mask_255 mask_7 mask_8 mask_12 mask_16 mask_23 mask_24
  shr_1 shr_7 shr_8 shr_12 shr_16 shr_21 shr_22 shr_23 shr_24
  shl_1 shl_2 shl_8 shl_12 shl_16 shl_23 : carith.
Ltac carith := autorewrite with carith.

(** Disjoint bits add up. *)
Lemma lor_disjoint_add a b n : 0 <= n → 0 <= b < 2 ^ n → (a * 2 ^ n) .| b = a * 2 ^ n + b.
Proof.
  intros Hn Hb. rewrite Z.add_nocarry_lxor; [symmetry; apply Z.lxor_lor|];
    apply Z.bits_inj'; intros i Hi; rewrite Z.land_spec, Z.bits_0;
    (destruct (Z.lt_ge_cases i n);
     [by rewrite Z.mul_pow2_bits_low|by rewrite (range_bits b n), andb_false_r]).
Qed.

(** Clearing or setting one bit of a 16-bit register. *)
Definition put_bit (k : Z) (b : bool) (sr : Z) : Z :=
  (sr .& (BITMASK 16 - (1 << k))) .| (c_bool b << k).

Lemma pow2_16 k : 0 <= k < 16 → 0 < 2 ^ k < 65536.
Proof.
  intros. split; [apply Z.pow_pos_nonneg; lia|].
  change 65536 with (2 ^ 16). apply Z.pow_lt_mono_r; lia.
Qed.

Lemma bitmask16_minus k i : 0 <= k < 16 → 0 <= i →
  Z.testbit (BITMASK 16 - (1 << k)) i = (i <? 16) && negb (i =? k).
Proof.
  intros Hk Hi. destruct (Z.ltb_spec i 16).
  - assert (∀ k, 0 <= k < Z.of_nat 16 → forallb (λ i,
      eqb (Z.testbit (BITMASK 16 - (1 << k)) i) (negb (i =? k))) (indices 16) = true) as Hc.
    { apply indices_forallb. vm_compute. reflexivity. }
    apply eqb_prop. apply (indices_forallb 16 _ (Hc k ltac:(lia))). lia.
  - rewrite andb_false_l. apply range_bits with 16; [|done].
    assert (0 <= u32 (Z.shiftl 1 k) < 65536); [|change (BITMASK 16) with 65535; change (2 ^ 16) with 65536; lia].
    pose proof (pow2_16 k Hk). rewrite Z.shiftl_1_l, u32_small; lia.
Qed.

Lemma put_bit_spec k b sr i : 0 <= k < 16 → 0 <= i →
  Z.testbit (put_bit k b sr) i = if i =? k then b else (i <? 16) && Z.testbit sr i.
Proof.
  intros Hk Hi. unfold put_bit. rewrite Z.lor_spec, Z.land_spec, bitmask16_minus by done.
  assert (Z.testbit (c_bool b << k) i = (i =? k) && b) as ->.
  { destruct b; cbn [c_bool].
    - pose proof (pow2_16 k Hk).
      by rewrite Z.shiftl_1_l, u32_small, andb_true_r, Z.pow2_bits_eqb, Z.eqb_sym by lia.
    - rewrite Z.shiftl_0_l, andb_false_r. apply Z.bits_0. }
  destruct (i =? k), (i <? 16), (Z.testbit sr i), b; reflexivity.
Qed.

(** Bits of an 8-bit register after [x &= 0xff-(1<<k)] and [x |= 1<<k]. *)
Lemma clear_bit_spec x k j : 0 <= k < 8 → 0 <= j →
  Z.testbit (x .& (0xff - (1 << k))) j = Z.testbit x j && (j <? 8) && negb (j =? k).
Proof.
  intros Hk Hj. rewrite Z.land_spec, <-andb_assoc. f_equal. destruct (Z.ltb_spec j 8).
  - assert (∀ k, 0 <= k < Z.of_nat 8 → forallb (λ j,
      eqb (Z.testbit (0xff - (1 << k)) j) (negb (j =? k))) (indices 8) = true) as Hc.
    { apply indices_forallb. vm_compute. reflexivity. }
    apply eqb_prop, (indices_forallb 8 _ (Hc k ltac:(lia))). lia.
  - apply range_bits with 8; [|done]. rewrite pow2_32 by lia.
    assert (0 < 2 ^ k < 2 ^ 8) by (split; [lia|apply Z.pow_lt_mono_r; lia]).
    change (2 ^ 8) with 256 in *. lia.
Qed.

Lemma set_bit_spec x k j : 0 <= k < 32 → 0 <= j →
  Z.testbit (x .| (1 << k)) j = Z.testbit x j || (j =? k).
Proof. intros. by rewrite Z.lor_spec, pow2_32, Z.pow2_bits_eqb, Z.eqb_sym by lia. Qed.

Lemma u8_bits x j : 0 <= j → Z.testbit (u8 x) j = Z.testbit x j && (j <? 8).
Proof.
  intros. unfold u8. change 256 with (2 ^ 8). destruct (Z.ltb_spec j 8).
  - by rewrite Z.mod_pow2_bits_low, andb_true_r by lia.
  - by rewrite Z.mod_pow2_bits_high, andb_false_r by lia.
Qed.

(** ** Fields of a word

    A mask of the upper bits rounds down, and a shifted field is a quotient. *)

Lemma land_high x n m : 0 <= n <= m → 0 <= x < 2 ^ m → x .& (2 ^ m - 2 ^ n) = x / 2 ^ n * 2 ^ n.
Proof.
  intros Hn Hx.
  assert (2 ^ m - 2 ^ n = Z.shiftl (Z.ones (m - n)) n) as ->.
  { rewrite Z.ones_equiv, Z.shiftl_mul_pow2, <-Z.sub_1_r, Z.mul_sub_distr_r, <-Z.pow_add_r by lia.
    replace (m - n + n) with m by lia. lia. }
  rewrite <-Z.shiftl_mul_pow2, <-Z.shiftr_div_pow2 by lia.
  apply Z.bits_inj'. intros i Hi. rewrite Z.land_spec, !Z.shiftl_spec by done.
  destruct (Z.lt_ge_cases i n); [by rewrite !(Z.testbit_neg_r _ (i - n)), andb_false_r by lia|].
  rewrite Z.shiftr_spec by lia. replace (i - n + n) with i by lia.
  destruct (Z.lt_ge_cases i m).
  - by rewrite Z.ones_spec_low, andb_true_r by lia.
  - by rewrite (range_bits x m), andb_false_l by lia.
Qed.

Lemma land_field x k j : 0 <= k → 0 <= j →
  (x >> k) .& (2 ^ (j + 2) - 4) = (x / 2 ^ (k + 2)) mod 2 ^ j * 4.
Proof.
  intros Hk Hj.
  assert (2 ^ (j + 2) - 4 = Z.shiftl (Z.ones j) 2) as ->.
  { rewrite Z.ones_equiv, Z.shiftl_mul_pow2, Z.pow_add_r by lia. change (2 ^ 2) with 4. lia. }
  change 4 with (2 ^ 2).
  rewrite <-Z.land_ones, <-Z.shiftr_div_pow2, <-(Z.shiftl_mul_pow2 (_ .& _)) by lia.
  apply Z.bits_inj'. intros i Hi. rewrite Z.land_spec, !Z.shiftl_spec by done.
  destruct (Z.lt_ge_cases i 2); [by rewrite !(Z.testbit_neg_r _ (i - 2)), andb_false_r by lia|].
  rewrite Z.land_spec, !Z.shiftr_spec by lia. by replace (i - 2 + (k + 2)) with (i + k) by lia.
Qed.

(** A C condition [x & m] for a power of two. *)
Lemma tst_pow x m k : 0 <= k → m = 2 ^ k → tst x m = Z.testbit x k.
Proof. intros Hk ->. rewrite <-Z.shiftl_1_l. by apply tst_testbit. Qed.

(** Words that agree above a bit have the same upper part. *)
Lemma div_pow2_bits x y n : 0 <= n →
  (∀ i, n <= i → Z.testbit x i = Z.testbit y i) → x / 2 ^ n = y / 2 ^ n.
Proof.
  intros Hn H. rewrite <-!Z.shiftr_div_pow2 by done. apply Z.bits_inj'. intros i Hi.
  rewrite !Z.shiftr_spec by done. apply H. lia.
Qed.
