(* ===== verification/Effects.v ===== *)
(** * Effects: state, undefined behaviour and calls into SDL

    The emulator is C code over a mutable state.  A piece of it is a function
    [M S A] from the state to an outcome:

    - [Done a s]: it returned [a] in state [s];
    - [Fault f]: it performed an access the C language leaves undefined
      (an index outside an array, the wrong member of a union);
    - [Call c s k]: it is inside the SDL function [c] (a mutex, semaphore or
      thread operation), the state being [s].  SDL is not part of the sources,
      so the call is left uninterpreted: [k r s'] is what happens when it
      returns [r] and the state has become [s'], which differs from [s] if
      another thread ran meanwhile.

    Two ways of reading a computation are used by the theorems.  [alone]
    answers every call with a value of a given oracle and an unchanged state:
    the thread runs without interference.  [wp] is a weakest precondition
    against a protocol: every state handed to SDL satisfies a guarantee, and
    the states SDL hands back are any that a rely relation allows. *)

From S2P Require Import Prelude.
From stdpp Require Import base gmap list numbers.
Open Scope Z_scope.
Open Scope c_scope.

(** The accesses whose failure is modelled. *)
Inductive fault :=
  | Oob_registers | Oob_stack | Oob_ram | Oob_rom | Oob_ramint | Oob_periph
  | Oob_hostport | Oob_parmove | Oob_table | Bad_union.

(** The SDL functions the emulator calls. *)
Inductive sdl_call :=
  | SDL_LockMutex | SDL_UnlockMutex
  | SDL_SemWait | SDL_SemValue | SDL_SemPost
  | SDL_CreateSemaphore | SDL_DestroySemaphore
  | SDL_CreateMutex | SDL_DestroyMutex
  | SDL_CreateThread | SDL_WaitThread.

#[export] Instance fault_eq_dec : EqDecision fault.
Proof. solve_decision. Defined.
#[export] Instance sdl_call_eq_dec : EqDecision sdl_call.
Proof. solve_decision. Defined.

Inductive out (S A : Type) :=
  | Done (a : A) (s : S)
  | Fault (f : fault)
  | Call (c : sdl_call) (s : S) (k : Z → S → out S A).
Arguments Done {S A} a s.
Arguments Fault {S A} f.
Arguments Call {S A} c s k.

Definition M (S A : Type) : Type := S → out S A.

Declare Scope eff_scope.
Delimit Scope eff_scope with eff.

Definition ret {S A} (a : A) : M S A := λ s, Done a s.

Fixpoint obind {S A B} (o : out S A) (f : A → M S B) : out S B :=
  match o with
  | Done a s => f a s
  | Fault e => Fault e
  | Call c s k => Call c s (λ r s', obind (k r s') f)
  end.

Definition bind {S A B} (m : M S A) (f : A → M S B) : M S B := λ s, obind (m s) f.

Notation "'let*' x := m 'in' k" := (bind m (λ x, k))
  (at level 10, x name, m at level 100, k at level 200) : eff_scope.
Notation "'let*' ' p := m 'in' k" := (bind m (λ x, match x with p => k end))
  (at level 10, p strict pattern, m at level 100, k at level 200) : eff_scope.
Notation "m ;; k" := (bind m (λ _, k)) (at level 100, k at level 200, right associativity) : eff_scope.
Open Scope eff_scope.

(** Primitive computations. *)
Definition gets {S A} (f : S → A) : M S A := λ s, Done (f s) s.
Definition modify {S} (f : S → S) : M S unit := λ s, Done tt (f s).
Definition undefined {S A} (e : fault) : M S A := λ _, Fault e.
Definition sdl {S} (c : sdl_call) : M S Z := λ s, Call c s (λ r s', Done r s').
Definition when {S} (b : bool) (m : M S unit) : M S unit := if b then m else ret tt.

(** Running part of a computation on a component of the state. *)
Fixpoint ozoom {S T A} (get : S → T) (put : T → S → S) (o : out T A) (s : S) : out S A :=
  match o with
  | Done a t => Done a (put t s)
  | Fault e => Fault e
  | Call c t k => Call c (put t s) (λ r s', ozoom get put (k r (get s')) s')
  end.

Definition zoom {S T A} (get : S → T) (put : T → S → S) (m : M T A) : M S A :=
  λ s, ozoom get put (m (get s)) s.

(** ** Running without interference *)

Inductive res (S A : Type) := Ok (a : A) (s : S) | Err (f : fault).
Arguments Ok {S A} a s.
Arguments Err {S A} f.

Fixpoint oalone {S A} (h : sdl_call → Z) (o : out S A) : res S A :=
  match o with
  | Done a s => Ok a s
  | Fault e => Err e
  | Call c s k => oalone h (k (h c) s)
  end.

Definition alone {S A} (h : sdl_call → Z) (m : M S A) (s : S) : res S A := oalone h (m s).

Arguments alone : simpl never.

Section Alone.
Context {S : Type} (h : sdl_call → Z).

Lemma oalone_obind {A B} (o : out S A) (f : A → M S B) :
  oalone h (obind o f) =
  match oalone h o with Ok a s => alone h (f a) s | Err e => Err e end.
Proof. induction o; simpl; auto. Qed.

Lemma alone_bind {A B} (m : M S A) (f : A → M S B) s :
  alone h (bind m f) s =
  match alone h m s with Ok a s' => alone h (f a) s' | Err e => Err e end.
Proof. apply oalone_obind. Qed.

Lemma alone_bind_ok {A B} (m : M S A) (f : A → M S B) s a s' :
  alone h m s = Ok a s' → alone h (bind m f) s = alone h (f a) s'.
Proof. rewrite alone_bind. by intros ->. Qed.

Lemma alone_ret {A} (a : A) (s : S) : alone h (ret a) s = Ok a s.
Proof. done. Qed.
Lemma alone_gets {A} (f : S → A) (s : S) : alone h (gets f) s = Ok (f s) s.
Proof. done. Qed.
Lemma alone_modify (f : S → S) s : alone h (modify f) s = Ok tt (f s).
Proof. done. Qed.
Lemma alone_sdl c (s : S) : alone h (sdl c) s = Ok (h c) s.
Proof. done. Qed.
Lemma alone_when b (m : M S unit) s :
  alone h (when b m) s = if b then alone h m s else Ok tt s.
Proof. by destruct b. Qed.
Lemma alone_if {A} (b : bool) (m n : M S A) s :
  alone h (if b then m else n) s = if b then alone h m s else alone h n s.
Proof. by destruct b. Qed.

Lemma alone_zoom {T A} (get : S → T) (put : T → S → S) (m : M T A) s :
  (∀ t s, get (put t s) = t) → (∀ t t' s, put t (put t' s) = put t s) →
  alone h (zoom get put m) s =
  match alone h m (get s) with Ok a t => Ok a (put t s) | Err e => Err e end.
Proof.
  intros Hgp Hpp. unfold alone, zoom. generalize (m (get s)) as o. intros o.
  revert s. induction o as [a t|e|c t k IH]; intros s; simpl; [done..|].
  rewrite Hgp, IH. destruct (oalone h (k (h c) t)); [by rewrite Hpp|done].
Qed.
End Alone.

Create HintDb eff.
Create Rewrite HintDb eff.
#[export] Hint Rewrite @alone_bind @alone_ret @alone_gets @alone_modify @alone_sdl
  @alone_when : eff.
Ltac eff := repeat (progress (autorewrite with eff; cbv beta iota)).

(** ** Weakest preconditions against a protocol *)

Record protocol (S : Type) := Protocol {
  pr_guar : S → Prop;           (* holds whenever SDL is entered *)
  pr_rely : S → S → Prop;       (* what the other thread may do meanwhile *)
  pr_fault : fault → Prop;      (* the faults that are tolerated *)
}.
Arguments pr_guar {S} p s.
Arguments pr_rely {S} p s s'.
Arguments pr_fault {S} p f.
Arguments Protocol {S} _ _ _.

Fixpoint owp {S A} (P : protocol S) (Q : A → S → Prop) (o : out S A) : Prop :=
  match o with
  | Done a s => Q a s
  | Fault e => pr_fault P e
  | Call c s k => pr_guar P s ∧ ∀ r s', pr_rely P s s' → owp P Q (k r s')
  end.

Definition wp {S A} (P : protocol S) (m : M S A) (Q : A → S → Prop) (s : S) : Prop :=
  owp P Q (m s).

Section Wp.
Context {S : Type} (P : protocol S).

Lemma owp_mono {A} (Q Q' : A → S → Prop) o :
  (∀ a s, Q a s → Q' a s) → owp P Q o → owp P Q' o.
Proof. intros HQ. induction o as [a s|e|c s k IH]; simpl; [auto..|]. intros [? ?]; split; auto. Qed.

Lemma wp_mono {A} (m : M S A) (Q Q' : A → S → Prop) s :
  wp P m Q s → (∀ a s, Q a s → Q' a s) → wp P m Q' s.
Proof. intros ? HQ. by eapply owp_mono. Qed.

Lemma owp_obind {A B} (o : out S A) (f : A → M S B) Q :
  owp P (λ a s, wp P (f a) Q s) o → owp P Q (obind o f).
Proof. induction o as [a s|e|c s k IH]; simpl; [auto..|]. intros [? ?]; split; auto. Qed.

Lemma wp_bind {A B} (m : M S A) (f : A → M S B) Q s :
  wp P m (λ a s', wp P (f a) Q s') s → wp P (bind m f) Q s.
Proof. apply owp_obind. Qed.

Lemma wp_ret {A} (a : A) (Q : A → S → Prop) s : Q a s → wp P (ret a) Q s.
Proof. done. Qed.
Lemma wp_gets {A} (f : S → A) (Q : A → S → Prop) s : Q (f s) s → wp P (gets f) Q s.
Proof. done. Qed.
Lemma wp_modify (f : S → S) (Q : unit → S → Prop) s : Q tt (f s) → wp P (modify f) Q s.
Proof. done. Qed.
Lemma wp_undefined {A} e (Q : A → S → Prop) s : pr_fault P e → wp P (undefined e) Q s.
Proof. done. Qed.
Lemma wp_sdl c (Q : Z → S → Prop) s :
  pr_guar P s → (∀ r s', pr_rely P s s' → Q r s') → wp P (sdl c) Q s.
Proof. by split. Qed.
Lemma wp_when (b : bool) m (Q : unit → S → Prop) s :
  (b = true → wp P m Q s) → (b = false → Q tt s) → wp P (when b m) Q s.
Proof. destruct b; intros; [auto | apply wp_ret; auto]. Qed.
Lemma wp_if {A} (b : bool) (m n : M S A) Q s :
  (b = true → wp P m Q s) → (b = false → wp P n Q s) →
  wp P (if b then m else n) Q s.
Proof. destruct b; auto. Qed.

(** A computation on a component, against the protocol the component sees. *)
Lemma wp_zoom {T A} (PT : protocol T) (get : S → T) (put : T → S → S)
    (m : M T A) (Q : A → S → Prop) s :
  (∀ t s, get (put t s) = t) → (∀ t t' s, put t (put t' s) = put t s) →
  (∀ e, pr_fault PT e → pr_fault P e) →
  (∀ t, pr_guar PT t → pr_guar P (put t s)) →
  (∀ t s', pr_guar PT t → pr_rely P (put t s) s' →
     pr_rely PT t (get s') ∧ s' = put (get s') s) →
  wp PT m (λ a t, Q a (put t s)) (get s) →
  wp P (zoom get put m) Q s.
Proof.
  intros Hgp Hpp Hf Hg Hr. unfold wp, zoom. generalize (m (get s)) as o.
  assert (∀ o s0, (∀ t, put t s0 = put t s) →
    owp PT (λ a t, Q a (put t s)) o → owp P Q (ozoom get put o s0)) as Hgen.
  { induction o as [a t|e|c t k IH]; intros s0 Hs0 H; simpl in *.
    - by rewrite Hs0.
    - auto.
    - destruct H as [HG HK]. rewrite Hs0. split; [auto|]. intros r s' Hs'.
      destruct (Hr _ _ HG Hs') as [HR Heq]. apply IH; [|auto].
      intros t'. by rewrite Heq, Hpp. }
  intros o. by apply Hgen.
Qed.

(** Soundness of [wp] for an undisturbed run. *)
Lemma wp_alone {A} (h : sdl_call → Z) (m : M S A) Q s :
  (∀ s, pr_guar P s → pr_rely P s s) → wp P m Q s →
  match alone h m s with Ok a s' => Q a s' | Err e => pr_fault P e end.
Proof.
  intros Hrefl. unfold wp, alone. generalize (m s) as o.
  induction o as [a t|e|c t k IH]; simpl; [done..|]. intros [HG HK]. by apply IH, HK, Hrefl.
Qed.
End Wp.

#[export] Hint Resolve wp_ret wp_gets wp_modify : eff.

(** ** Invariants

    [keeps P m Q]: from a state satisfying the guarantee of [P], which is an
    invariant stable under the rely, the computation ends in such a state with a
    result satisfying [Q]; the invariant also holds at every call of SDL, where
    the other thread may change the state as the rely allows; the only faults
    are the tolerated ones. *)

Class Stable {S} (P : protocol S) : Prop :=
  stable s s' : pr_guar P s → pr_rely P s s' → pr_guar P s'.

Definition keeps {S A} (P : protocol S) (m : M S A) (Q : A → Prop) : Prop :=
  ∀ s, pr_guar P s → wp P m (λ a s', pr_guar P s' ∧ Q a) s.

(** The other thread does anything that keeps the invariant. *)
Definition inv_protocol {S} (I : S → Prop) (F : fault → Prop) : protocol S :=
  Protocol I (λ _ s', I s') F.
#[export] Instance inv_protocol_stable {S} (I : S → Prop) F : Stable (inv_protocol I F).
Proof. by intros s s' _ H. Qed.

Definition any {A} (_ : A) : Prop := True.

Section Keeps.
Context {S : Type} (P : protocol S).

Lemma keeps_bind {A B} (m : M S A) (f : A → M S B) Q R :
  keeps P m Q → (∀ a, Q a → keeps P (f a) R) → keeps P (bind m f) R.
Proof.
  intros Hm Hf s Hs. apply wp_bind. eapply wp_mono; [by apply Hm|]. intros a s' [Hs' Ha]. by apply Hf.
Qed.
Lemma keeps_mono {A} (m : M S A) (Q R : A → Prop) :
  keeps P m Q → (∀ a, Q a → R a) → keeps P m R.
Proof. intros Hm HQ s Hs. eapply wp_mono; [by apply Hm|]. intros a s' [? ?]. auto. Qed.
Lemma keeps_ret {A} (a : A) (Q : A → Prop) : Q a → keeps P (ret a) Q.
Proof. intros H s Hs. by split. Qed.
Lemma keeps_gets {A} (f : S → A) (Q : A → Prop) : (∀ s, pr_guar P s → Q (f s)) → keeps P (gets f) Q.
Proof. intros H s Hs. split; auto. Qed.
Lemma keeps_modify (f : S → S) : (∀ s, pr_guar P s → pr_guar P (f s)) → keeps P (modify f) any.
Proof. intros H s Hs. split; [by apply H|done]. Qed.
Lemma keeps_undefined {A} e (Q : A → Prop) : pr_fault P e → keeps P (undefined e) Q.
Proof. by intros H s Hs. Qed.
Lemma keeps_sdl `{Stable S P} c : keeps P (sdl c) any.
Proof. intros s Hs. split; [done|]. intros r s' Hs'. split; [by eapply stable|done]. Qed.
Lemma keeps_when b (m : M S unit) : (b = true → keeps P m any) → keeps P (when b m) any.
Proof. destruct b; [auto|]. intros _. by apply keeps_ret. Qed.
Lemma keeps_if {A} (b : bool) (m n : M S A) Q :
  (b = true → keeps P m Q) → (b = false → keeps P n Q) → keeps P (if b then m else n) Q.
Proof. destruct b; auto. Qed.

(** An undisturbed run keeps the invariant. *)
Lemma keeps_alone {A} (h : sdl_call → Z) (m : M S A) Q s :
  (∀ s, pr_guar P s → pr_rely P s s) → keeps P m Q → pr_guar P s →
  match alone h m s with Ok a s' => pr_guar P s' ∧ Q a | Err e => pr_fault P e end.
Proof. intros Hrefl Hm Hs. by apply (wp_alone P), Hm. Qed.

(** A stronger guarantee under the same rely. *)
Lemma wp_weaken {A} (P' : protocol S) (m : M S A) Q s :
  (∀ s, pr_guar P s → pr_guar P' s) → (∀ s s', pr_rely P' s s' → pr_rely P s s') →
  (∀ e, pr_fault P e → pr_fault P' e) → wp P m Q s → wp P' m Q s.
Proof.
  intros Hg Hr Hf. unfold wp. generalize (m s) as o.
  induction o as [a t|e|c t k IH]; simpl; [auto..|]. intros [HG HK]. split; auto.
Qed.
End Keeps.

(** A computation on a component, the rely of the whole being seen by the
    component as its own. *)
Lemma keeps_zoom {S T A} (P : protocol S) (PT : protocol T)
    (get : S → T) (put : T → S → S) (m : M T A) Q : Stable P →
  (∀ t s, get (put t s) = t) →
  (∀ s, pr_guar P s → pr_guar PT (get s)) →
  (∀ t s, pr_guar P s → pr_guar PT t → pr_guar P (put t s)) →
  (∀ s s', pr_guar P s → pr_rely P s s' → pr_rely PT (get s) (get s')) →
  (∀ e, pr_fault PT e → pr_fault P e) →
  keeps PT m Q → keeps P (zoom get put m) Q.
Proof.
  intros Hst Hgp HJ HI HR HF Hm s Hs. pose proof (Hm (get s) (HJ s Hs)) as H. unfold wp, zoom in *.
  revert H Hs. generalize (m (get s)) as o. intros o. revert s.
  induction o as [a t|e|c t k IH]; intros s H Hs; simpl in *.
  - destruct H. by split; [apply HI|].
  - auto.
  - destruct H as [HG HK]. assert (pr_guar P (put t s)) as Hp by (by apply HI).
    split; [done|]. intros r s' Hs'. apply IH; [|by eapply stable].
    apply HK. rewrite <-(Hgp t s). by apply HR.
Qed.

(** [keeps] walks through a computation: sequencing, branches and the leaves
    known to the hint database [keeps]; what is left are the leaves it could not
    prove and the conditions of the invariant.  A leaf with an unknown
    postcondition gets the trivial one. *)
Create HintDb keeps.
#[export] Hint Extern 0 (Stable _) => apply _ : keeps.
Ltac keeps_step :=
  lazymatch goal with
  | |- keeps _ (bind _ _) _ => eapply keeps_bind; [|intros ? ?]
  | |- keeps _ (when _ _) _ => apply keeps_when; intros ?
  | |- keeps _ (if _ then _ else _) _ => apply keeps_if; intros ?
  | |- keeps _ (match ?x with _ => _ end) _ => destruct x eqn:?
  | |- keeps _ (modify _) _ => apply keeps_modify; intros ? ?; cbn [pr_guar inv_protocol] in *
  | |- keeps _ (sdl _) _ => apply keeps_sdl; apply _
  | |- keeps _ (undefined _) ?Q =>
      tryif is_evar Q then apply (keeps_undefined _ _ any); try done
      else apply keeps_undefined; try done
  | |- keeps _ (ret _) ?Q => tryif is_evar Q then apply (keeps_ret _ _ any) else apply keeps_ret
  | |- keeps _ (gets _) ?Q => tryif is_evar Q then apply (keeps_gets _ _ any) else apply keeps_gets
  | |- any _ => exact Logic.I
  | |- ∀ _, _ → any _ => intros ? ?; exact Logic.I
  end.
Ltac keeps := repeat first [solve [eauto 4 with keeps nocore] | progress keeps_step; cbv beta zeta].
