(* ===== verification/Tables.v ===== *)
(** * The data ROMs of the DSP

    The 512 words [dsp_core_init] copies to x:$100-$1ff (a mu-law and an A-law
    expansion table) and y:$100-$1ff (one period of a sine), transcribed from
    [src/dsp_core.c], with the closed forms they tabulate. *)

From S2P Require Import Prelude.
From stdpp Require Import base list numbers.
Open Scope Z_scope.
Open Scope c_scope.

(** x_rom, entries M_00 to M_7F. *)
Definition x_rom_mulaw : list Z := [
  0x7d7c00; 0x797c00; 0x757c00; 0x717c00; 0x6d7c00; 0x697c00; 0x657c00; 0x617c00;
  0x5d7c00; 0x597c00; 0x557c00; 0x517c00; 0x4d7c00; 0x497c00; 0x457c00; 0x417c00;
  0x3e7c00; 0x3c7c00; 0x3a7c00; 0x387c00; 0x367c00; 0x347c00; 0x327c00; 0x307c00;
  0x2e7c00; 0x2c7c00; 0x2a7c00; 0x287c00; 0x267c00; 0x247c00; 0x227c00; 0x207c00;
  0x1efc00; 0x1dfc00; 0x1cfc00; 0x1bfc00; 0x1afc00; 0x19fc00; 0x18fc00; 0x17fc00;
  0x16fc00; 0x15fc00; 0x14fc00; 0x13fc00; 0x12fc00; 0x11fc00; 0x10fc00; 0x0ffc00;
  0x0f3c00; 0x0ebc00; 0x0e3c00; 0x0dbc00; 0x0d3c00; 0x0cbc00; 0x0c3c00; 0x0bbc00;
  0x0b3c00; 0x0abc00; 0x0a3c00; 0x09bc00; 0x093c00; 0x08bc00; 0x083c00; 0x07bc00;
  0x075c00; 0x071c00; 0x06dc00; 0x069c00; 0x065c00; 0x061c00; 0x05dc00; 0x059c00;
  0x055c00; 0x051c00; 0x04dc00; 0x049c00; 0x045c00; 0x041c00; 0x03dc00; 0x039c00;
  0x036c00; 0x034c00; 0x032c00; 0x030c00; 0x02ec00; 0x02cc00; 0x02ac00; 0x028c00;
  0x026c00; 0x024c00; 0x022c00; 0x020c00; 0x01ec00; 0x01cc00; 0x01ac00; 0x018c00;
  0x017400; 0x016400; 0x015400; 0x014400; 0x013400; 0x012400; 0x011400; 0x010400;
  0x00f400; 0x00e400; 0x00d400; 0x00c400; 0x00b400; 0x00a400; 0x009400; 0x008400;
  0x007800; 0x007000; 0x006800; 0x006000; 0x005800; 0x005000; 0x004800; 0x004000;
  0x003800; 0x003000; 0x002800; 0x002000; 0x001800; 0x001000; 0x000800; 0x000000].

(** x_rom, entries A_80 to A_FF. *)
Definition x_rom_alaw : list Z := [
  0x158000; 0x148000; 0x178000; 0x168000; 0x118000; 0x108000; 0x138000; 0x128000;
  0x1d8000; 0x1c8000; 0x1f8000; 0x1e8000; 0x198000; 0x188000; 0x1b8000; 0x1a8000;
  0x0ac000; 0x0a4000; 0x0bc000; 0x0b4000; 0x08c000; 0x084000; 0x09c000; 0x094000;
  0x0ec000; 0x0e4000; 0x0fc000; 0x0f4000; 0x0cc000; 0x0c4000; 0x0dc000; 0x0d4000;
  0x560000; 0x520000; 0x5e0000; 0x5a0000; 0x460000; 0x420000; 0x4e0000; 0x4a0000;
  0x760000; 0x720000; 0x7e0000; 0x7a0000; 0x660000; 0x620000; 0x6e0000; 0x6a0000;
  0x2b0000; 0x290000; 0x2f0000; 0x2d0000; 0x230000; 0x210000; 0x270000; 0x250000;
  0x3b0000; 0x390000; 0x3f0000; 0x3d0000; 0x330000; 0x310000; 0x370000; 0x350000;
  0x015800; 0x014800; 0x017800; 0x016800; 0x011800; 0x010800; 0x013800; 0x012800;
  0x01d800; 0x01c800; 0x01f800; 0x01e800; 0x019800; 0x018800; 0x01b800; 0x01a800;
  0x005800; 0x004800; 0x007800; 0x006800; 0x001800; 0x000800; 0x003800; 0x002800;
  0x00d800; 0x00c800; 0x00f800; 0x00e800; 0x009800; 0x008800; 0x00b800; 0x00a800;
  0x056000; 0x052000; 0x05e000; 0x05a000; 0x046000; 0x042000; 0x04e000; 0x04a000;
  0x076000; 0x072000; 0x07e000; 0x07a000; 0x066000; 0x062000; 0x06e000; 0x06a000;
  0x02b000; 0x029000; 0x02f000; 0x02d000; 0x023000; 0x021000; 0x027000; 0x025000;
  0x03b000; 0x039000; 0x03f000; 0x03d000; 0x033000; 0x031000; 0x037000; 0x035000].

(** y_rom, entries S_00 to S_7F. *)
Definition y_rom_first_half : list Z := [
  0x000000; 0x03242b; 0x0647d9; 0x096a90; 0x0c8bd3; 0x0fab27; 0x12c810; 0x15e214;
  0x18f8b8; 0x1c0b82; 0x1f19f9; 0x2223a5; 0x25280c; 0x2826b9; 0x2b1f35; 0x2e110a;
  0x30fbc5; 0x33def3; 0x36ba20; 0x398cdd; 0x3c56ba; 0x3f174a; 0x41ce1e; 0x447acd;
  0x471ced; 0x49b415; 0x4c3fe0; 0x4ebfe9; 0x5133cd; 0x539b2b; 0x55f5a5; 0x5842dd;
  0x5a827a; 0x5cb421; 0x5ed77d; 0x60ec38; 0x62f202; 0x64e889; 0x66cf81; 0x68a69f;
  0x6a6d99; 0x6c2429; 0x6dca0d; 0x6f5f03; 0x70e2cc; 0x72552d; 0x73b5ec; 0x7504d3;
  0x7641af; 0x776c4f; 0x788484; 0x798a24; 0x7a7d05; 0x7b5d04; 0x7c29fc; 0x7ce3cf;
  0x7d8a5f; 0x7e1d94; 0x7e9d56; 0x7f0992; 0x7f6237; 0x7fa737; 0x7fd888; 0x7ff622;
  0x7fffff; 0x7ff622; 0x7fd888; 0x7fa737; 0x7f6237; 0x7f0992; 0x7e9d56; 0x7e1d94;
  0x7d8a5f; 0x7ce3cf; 0x7c29fc; 0x7b5d04; 0x7a7d05; 0x798a24; 0x788484; 0x776c4f;
  0x7641af; 0x7504d3; 0x73b5ec; 0x72552d; 0x70e2cc; 0x6f5f03; 0x6dca0d; 0x6c2429;
  0x6a6d99; 0x68a69f; 0x66cf81; 0x64e889; 0x62f202; 0x60ec38; 0x5ed77d; 0x5cb421;
  0x5a827a; 0x5842dd; 0x55f5a5; 0x539b2b; 0x5133cd; 0x4ebfe9; 0x4c3fe0; 0x49b415;
  0x471ced; 0x447acd; 0x41ce1e; 0x3f174a; 0x3c56ba; 0x398cdd; 0x36ba20; 0x33def3;
  0x30fbc5; 0x2e110a; 0x2b1f35; 0x2826b9; 0x25280c; 0x2223a5; 0x1f19f9; 0x1c0b82;
  0x18f8b8; 0x15e214; 0x12c810; 0x0fab27; 0x0c8bd3; 0x096a90; 0x0647d9; 0x03242b].

(** y_rom, entries S_80 to S_FF. *)
Definition y_rom_second_half : list Z := [
  0x000000; 0xfcdbd5; 0xf9b827; 0xf69570; 0xf3742d; 0xf054d9; 0xed37f0; 0xea1dec;
  0xe70748; 0xe3f47e; 0xe0e607; 0xdddc5b; 0xdad7f4; 0xd7d947; 0xd4e0cb; 0xd1eef6;
  0xcf043b; 0xcc210d; 0xc945e0; 0xc67323; 0xc3a946; 0xc0e8b6; 0xbe31e2; 0xbb8533;
  0xb8e313; 0xb64beb; 0xb3c020; 0xb14017; 0xaecc33; 0xac64d5; 0xaa0a5b; 0xa7bd23;
  0xa57d86; 0xa34bdf; 0xa12883; 0x9f13c8; 0x9d0dfe; 0x9b1777; 0x99307f; 0x975961;
  0x959267; 0x93dbd7; 0x9235f3; 0x90a0fd; 0x8f1d34; 0x8daad3; 0x8c4a14; 0x8afb2d;
  0x89be51; 0x8893b1; 0x877b7c; 0x8675dc; 0x8582fb; 0x84a2fc; 0x83d604; 0x831c31;
  0x8275a1; 0x81e26c; 0x8162aa; 0x80f66e; 0x809dc9; 0x8058c9; 0x802778; 0x8009de;
  0x800000; 0x8009de; 0x802778; 0x8058c9; 0x809dc9; 0x80f66e; 0x8162aa; 0x81e26c;
  0x8275a1; 0x831c31; 0x83d604; 0x84a2fc; 0x8582fb; 0x8675dc; 0x877b7c; 0x8893b1;
  0x89be51; 0x8afb2d; 0x8c4a14; 0x8daad3; 0x8f1d34; 0x90a0fd; 0x9235f3; 0x93dbd7;
  0x959267; 0x975961; 0x99307f; 0x9b1777; 0x9d0dfe; 0x9f13c8; 0xa12883; 0xa34bdf;
  0xa57d86; 0xa7bd23; 0xaa0a5b; 0xac64d5; 0xaecc33; 0xb14017; 0xb3c020; 0xb64beb;
  0xb8e313; 0xbb8533; 0xbe31e2; 0xc0e8b6; 0xc3a946; 0xc67323; 0xc945e0; 0xcc210d;
  0xcf043b; 0xd1eef6; 0xd4e0cb; 0xd7d947; 0xdad7f4; 0xdddc5b; 0xe0e607; 0xe3f47e;
  0xe70748; 0xea1dec; 0xed37f0; 0xf054d9; 0xf3742d; 0xf69570; 0xf9b827; 0xfcdbd5].

Definition x_rom : list Z := x_rom_mulaw ++ x_rom_alaw.
Definition y_rom : list Z := y_rom_first_half ++ y_rom_second_half.

(** ** Closed forms *)

(** ITU-T G.711 mu-law expansion of the magnitude code [c] (stored inverted),
    a 14-bit value left-aligned in a 24-bit fraction. *)
Definition mulaw_expand (c : Z) : Z :=
  let g := 127 - c in
  Z.shiftl (Z.shiftl (2 * (g .& 15) + 33) (g >> 4) - 33) 10.

(** ITU-T G.711 A-law expansion of the code [c] (even bits inverted). *)
Definition alaw_expand (c : Z) : Z :=
  let x := (c .^ 85) .& 127 in
  let e := x >> 4 in
  let m := x .& 15 in
  Z.shiftl (if e =? 0 then 2 * m + 1 else Z.shiftl (2 * m + 33) (e - 1)) 11.

(** The 24-bit two's complement reading of a ROM word. *)
Definition rom_signed (x : Z) : Z := if x <? 8388608 then x else x - 16777216.

Definition sine (i : Z) : Z := rom_signed (nth (Z.to_nat (i mod 256)) y_rom 0).
Definition cosine (i : Z) : Z := sine (i + 64).

Lemma x_rom_mulaw_expand : x_rom_mulaw = map mulaw_expand (indices 128).
Proof. vm_compute. reflexivity. Qed.

Lemma x_rom_alaw_expand : x_rom_alaw = map (λ i, alaw_expand (128 + i)) (indices 128).
Proof. vm_compute. reflexivity. Qed.

Lemma x_rom_length : length x_rom = 256%nat.
Proof. reflexivity. Qed.
Lemma y_rom_length : length y_rom = 256%nat.
Proof. reflexivity. Qed.

Lemma sine_period i : sine (i + 256) = sine i.
Proof. unfold sine. replace (i + 256) with (i + 1 * 256) by lia. by rewrite Z_mod_plus_full. Qed.

Lemma sine_mod i : sine (i mod 256) = sine i.
Proof. unfold sine. by rewrite Zmod_mod. Qed.

(** One entry rotated by the first one is the next entry, up to the rounding
    of the table to 24 bits. *)
Definition rotation_error (i : Z) : Z :=
  Z.abs (sine (i + 1) * 8388608 - (sine i * cosine 1 + cosine i * sine 1)).
Definition circle_error (i : Z) : Z :=
  Z.abs (sine i * sine i + cosine i * cosine i - 70368744177664).

Definition sine_checks (i : Z) : bool :=
  (rotation_error i <? 16777216) && (circle_error i <? 16777216).

Lemma sine_checks_all i : sine_checks i = true.
Proof.
  assert (sine_checks i = sine_checks (i mod 256)) as ->.
  { unfold sine_checks, rotation_error, circle_error, cosine, sine.
    by rewrite !(Zplus_mod_idemp_l i), Zmod_mod. }
  revert i. assert (∀ i, 0 <= i < Z.of_nat 256 → sine_checks i = true) as H.
  { apply indices_forallb. vm_compute. reflexivity. }
  intros i. apply H. change (Z.of_nat 256) with 256. apply Z.mod_pos_bound. lia.
Qed.

(** the companding ROM.  [x_rom] expands both G.711 laws: entry [c] holds the mu-law value of code
    [c] below 128 and the A-law value of code [c] from 128 on. *)
Theorem x_rom_expands_g711 c :
  0 <= c < 256 →
  nth (Z.to_nat c) x_rom 0 = if c <? 128 then mulaw_expand c else alaw_expand c.
Proof.
  intros Hc.
  assert (∀ i, 0 <= i < Z.of_nat 256 →
    (nth (Z.to_nat i) x_rom 0 =? (if i <? 128 then mulaw_expand i else alaw_expand i)) = true) as H.
  { apply indices_forallb. vm_compute. reflexivity. }
  apply Z.eqb_eq, H. lia.
Qed.

(** The first code of each law. *)
Lemma x_rom_expands_g711_witness :
  nth (Z.to_nat 0) x_rom 0 = mulaw_expand 0 ∧ nth (Z.to_nat 128) x_rom 0 = alaw_expand 128.
Proof. split; [apply (x_rom_expands_g711 0)|apply (x_rom_expands_g711 128)]; lia. Defined.

(** the sine ROM.  [y_rom] tabulates one period of a sine of amplitude
    2^23: it starts at phase 0 and peaks a quarter period later; for every
    index, entry and quarter-period-later entry lie on the circle of radius
    2^23 (error of the squared radius below 2^24, one unit in the last place),
    and the next entry is the entry turned by the angle of the first one (error
    below two units in the last place). *)
Theorem y_rom_is_sine i :
  sine 0 = 0 ∧ sine 64 = 8388607 ∧
  rotation_error i < 16777216 ∧ circle_error i < 16777216.
Proof.
  pose proof (sine_checks_all i) as H. unfold sine_checks in H.
  apply andb_true_iff in H as [H1 H2]. apply Z.ltb_lt in H1, H2. auto.
Qed.
