(* ===== verification/DspCore.v ===== *)
(** * dsp_core: the state of the DSP and its host port

    Models [src/include/dsp_core.h] and [src/dsp_core.c]: the record
    [dsp_core_t], initialisation, reset and shutdown, the mutex and semaphore
    hooks, and the host port, the pair of mailboxes through which the 68040
    (the "host") and the DSP exchange 24-bit words. *)

From S2P Require Import Prelude Effects Tables.
From stdpp Require Import base gmap list numbers.
Open Scope Z_scope.
Open Scope c_scope.
Open Scope eff_scope.

(** ** Constants of dsp_core.h and dsp_cpu.h *)

Abbreviation DSP_RAMSIZE := 32768 (only parsing).

(* dsp_core.h *)
Abbreviation CPU_HOST_ICR := 0x00 (only parsing).
Abbreviation CPU_HOST_CVR := 0x01 (only parsing).
Abbreviation CPU_HOST_ISR := 0x02 (only parsing).
Abbreviation CPU_HOST_IVR := 0x03 (only parsing).
Abbreviation CPU_HOST_RX0 := 0x04 (only parsing).
Abbreviation CPU_HOST_RXH := 0x05 (only parsing).
Abbreviation CPU_HOST_RXM := 0x06 (only parsing).
Abbreviation CPU_HOST_RXL := 0x07 (only parsing).
Abbreviation CPU_HOST_TX0 := 0x04 (only parsing).
Abbreviation CPU_HOST_TXH := 0x05 (only parsing).
Abbreviation CPU_HOST_TXM := 0x06 (only parsing).
Abbreviation CPU_HOST_TXL := 0x07 (only parsing).
Abbreviation CPU_HOST_ICR_RREQ := 0x00 (only parsing).
Abbreviation CPU_HOST_ICR_TREQ := 0x01 (only parsing).
Abbreviation CPU_HOST_ICR_HF0 := 0x03 (only parsing).
Abbreviation CPU_HOST_ICR_HF1 := 0x04 (only parsing).
Abbreviation CPU_HOST_ICR_HM0 := 0x05 (only parsing).
Abbreviation CPU_HOST_ICR_HM1 := 0x06 (only parsing).
Abbreviation CPU_HOST_ICR_INIT := 0x07 (only parsing).
Abbreviation CPU_HOST_CVR_HC := 0x07 (only parsing).
Abbreviation CPU_HOST_ISR_RXDF := 0x00 (only parsing).
Abbreviation CPU_HOST_ISR_TXDE := 0x01 (only parsing).
Abbreviation CPU_HOST_ISR_TRDY := 0x02 (only parsing).
Abbreviation CPU_HOST_ISR_HF2 := 0x03 (only parsing).
Abbreviation CPU_HOST_ISR_HF3 := 0x04 (only parsing).
Abbreviation CPU_HOST_ISR_DMA := 0x06 (only parsing).
Abbreviation CPU_HOST_ISR_HREQ := 0x07 (only parsing).
Abbreviation DSP_PBC := 0x20 (only parsing).
Abbreviation DSP_PCC := 0x21 (only parsing).
Abbreviation DSP_PBDDR := 0x22 (only parsing).
Abbreviation DSP_PCDDR := 0x23 (only parsing).
Abbreviation DSP_PBD := 0x24 (only parsing).
Abbreviation DSP_PCD := 0x25 (only parsing).
Abbreviation DSP_HOST_HCR := 0x28 (only parsing).
Abbreviation DSP_HOST_HSR := 0x29 (only parsing).
Abbreviation DSP_HOST_HRX := 0x2b (only parsing).
Abbreviation DSP_HOST_HTX := 0x2b (only parsing).
Abbreviation DSP_SSI_CRA := 0x2c (only parsing).
Abbreviation DSP_SSI_CRB := 0x2d (only parsing).
Abbreviation DSP_SSI_SR := 0x2e (only parsing).
Abbreviation DSP_SSI_TSR := 0x2e (only parsing).
Abbreviation DSP_SSI_RX := 0x2f (only parsing).
Abbreviation DSP_SSI_TX := 0x2f (only parsing).
Abbreviation DSP_BCR := 0x3e (only parsing).
Abbreviation DSP_IPR := 0x3f (only parsing).
Abbreviation DSP_HOST_HCR_HRIE := 0x00 (only parsing).
Abbreviation DSP_HOST_HCR_HTIE := 0x01 (only parsing).
Abbreviation DSP_HOST_HCR_HCIE := 0x02 (only parsing).
Abbreviation DSP_HOST_HCR_HF2 := 0x03 (only parsing).
Abbreviation DSP_HOST_HCR_HF3 := 0x04 (only parsing).
Abbreviation DSP_HOST_HSR_HRDF := 0x00 (only parsing).
Abbreviation DSP_HOST_HSR_HTDE := 0x01 (only parsing).
Abbreviation DSP_HOST_HSR_HCP := 0x02 (only parsing).
Abbreviation DSP_HOST_HSR_HF0 := 0x03 (only parsing).
Abbreviation DSP_HOST_HSR_HF1 := 0x04 (only parsing).
Abbreviation DSP_HOST_HSR_DMA := 0x07 (only parsing).
Abbreviation DSP_SSI_CRB_TIE := 0xe (only parsing).
Abbreviation DSP_SSI_CRB_RIE := 0xf (only parsing).
Abbreviation DSP_SSI_SR_TUE := 0x4 (only parsing).
Abbreviation DSP_SSI_SR_ROE := 0x5 (only parsing).
Abbreviation DSP_SSI_SR_TDF := 0x6 (only parsing).
Abbreviation DSP_SSI_SR_RDF := 0x7 (only parsing).
Abbreviation DSP_INTERRUPT_NONE := 0x0 (only parsing).
Abbreviation DSP_INTERRUPT_FAST := 0x1 (only parsing).
Abbreviation DSP_INTERRUPT_LONG := 0x2 (only parsing).
(* dsp_cpu.h *)
Abbreviation DSP_OMR_MA := 0x00 (only parsing).
Abbreviation DSP_OMR_MB := 0x01 (only parsing).
Abbreviation DSP_OMR_DE := 0x02 (only parsing).
Abbreviation DSP_OMR_SD := 0x06 (only parsing).
Abbreviation DSP_OMR_EA := 0x07 (only parsing).
Abbreviation DSP_SR_C := 0x00 (only parsing).
Abbreviation DSP_SR_V := 0x01 (only parsing).
Abbreviation DSP_SR_Z := 0x02 (only parsing).
Abbreviation DSP_SR_N := 0x03 (only parsing).
Abbreviation DSP_SR_U := 0x04 (only parsing).
Abbreviation DSP_SR_E := 0x05 (only parsing).
Abbreviation DSP_SR_L := 0x06 (only parsing).
Abbreviation DSP_SR_I0 := 0x08 (only parsing).
Abbreviation DSP_SR_I1 := 0x09 (only parsing).
Abbreviation DSP_SR_S0 := 0x0a (only parsing).
Abbreviation DSP_SR_S1 := 0x0b (only parsing).
Abbreviation DSP_SR_T := 0x0d (only parsing).
Abbreviation DSP_SR_LF := 0x0f (only parsing).
Abbreviation DSP_REG_X0 := 0x04 (only parsing).
Abbreviation DSP_REG_X1 := 0x05 (only parsing).
Abbreviation DSP_REG_Y0 := 0x06 (only parsing).
Abbreviation DSP_REG_Y1 := 0x07 (only parsing).
Abbreviation DSP_REG_A0 := 0x08 (only parsing).
Abbreviation DSP_REG_B0 := 0x09 (only parsing).
Abbreviation DSP_REG_A2 := 0x0a (only parsing).
Abbreviation DSP_REG_B2 := 0x0b (only parsing).
Abbreviation DSP_REG_A1 := 0x0c (only parsing).
Abbreviation DSP_REG_B1 := 0x0d (only parsing).
Abbreviation DSP_REG_A := 0x0e (only parsing).
Abbreviation DSP_REG_B := 0x0f (only parsing).
Abbreviation DSP_REG_R0 := 0x10 (only parsing).
Abbreviation DSP_REG_R1 := 0x11 (only parsing).
Abbreviation DSP_REG_R2 := 0x12 (only parsing).
Abbreviation DSP_REG_R3 := 0x13 (only parsing).
Abbreviation DSP_REG_R4 := 0x14 (only parsing).
Abbreviation DSP_REG_R5 := 0x15 (only parsing).
Abbreviation DSP_REG_R6 := 0x16 (only parsing).
Abbreviation DSP_REG_R7 := 0x17 (only parsing).
Abbreviation DSP_REG_N0 := 0x18 (only parsing).
Abbreviation DSP_REG_N1 := 0x19 (only parsing).
Abbreviation DSP_REG_N2 := 0x1a (only parsing).
Abbreviation DSP_REG_N3 := 0x1b (only parsing).
Abbreviation DSP_REG_N4 := 0x1c (only parsing).
Abbreviation DSP_REG_N5 := 0x1d (only parsing).
Abbreviation DSP_REG_N6 := 0x1e (only parsing).
Abbreviation DSP_REG_N7 := 0x1f (only parsing).
Abbreviation DSP_REG_M0 := 0x20 (only parsing).
Abbreviation DSP_REG_M1 := 0x21 (only parsing).
Abbreviation DSP_REG_M2 := 0x22 (only parsing).
Abbreviation DSP_REG_M3 := 0x23 (only parsing).
Abbreviation DSP_REG_M4 := 0x24 (only parsing).
Abbreviation DSP_REG_M5 := 0x25 (only parsing).
Abbreviation DSP_REG_M6 := 0x26 (only parsing).
Abbreviation DSP_REG_M7 := 0x27 (only parsing).
Abbreviation DSP_REG_SR := 0x39 (only parsing).
Abbreviation DSP_REG_OMR := 0x3a (only parsing).
Abbreviation DSP_REG_SP := 0x3b (only parsing).
Abbreviation DSP_REG_SSH := 0x3c (only parsing).
Abbreviation DSP_REG_SSL := 0x3d (only parsing).
Abbreviation DSP_REG_LA := 0x3e (only parsing).
Abbreviation DSP_REG_LC := 0x3f (only parsing).
Abbreviation DSP_REG_NULL := 0x00 (only parsing).
Abbreviation DSP_REG_LCSAVE := 0x30 (only parsing).
Abbreviation DSP_SPACE_X := 0x00 (only parsing).
Abbreviation DSP_SPACE_Y := 0x01 (only parsing).
Abbreviation DSP_SPACE_P := 0x02 (only parsing).

(** The implementations of [lockMutex], [unlockMutex], [pauseThread] and
    [resumeThread]: [dsp_core_init] installs the [...Null] or the [...Thread]
    family. *)
Inductive thread_ops_t := OpsNull | OpsThread.

Record dsp_core_t := DspCore {
  thread : bool; (* SDL_Thread *: not NULL *)
  semaphore : bool; (* SDL_sem *: not NULL *)
  mutex : bool; (* SDL_mutex *: not NULL *)
  use_thread : Z; (* threaded emulation *)
  running : Z; (* executing instructions *)
  pc : Z; (* Uint16 *)
  registers : gmap Z Z; (* Uint32 [64] *)
  stack : gmap (Z * Z) Z; (* Uint16 [2][15], row 0 = SSH, row 1 = SSL *)
  ram : gmap (Z * Z) Z; (* Uint32 [3][DSP_RAMSIZE] *)
  rom : gmap (Z * Z) Z; (* Uint32 [2][512] *)
  ramint : gmap (Z * Z) Z; (* Uint32 [3][512] *)
  periph : gmap (Z * Z) Z; (* Uint32 [2][64], [x|y]:0xffc0-0xffff *)
  hostport : gmap Z Z; (* Uint8 [8], CPU side *)
  loop_rep : Z; (* executing rep *)
  swi_inter : Z; (* SWI pending *)
  bootstrap_pos : Z; (* Uint16 *)
  interrupt_state : Z; (* Uint16 *)
  interrupt_instr_fetch : Z; (* Uint32 *)
  interrupt_save_pc : Z; (* Uint32 *)
  thread_ops : thread_ops_t; (* the four function pointers *)
}.

(** Assignments to the fields. *)
Definition set_thread (v : bool) (c : dsp_core_t) : dsp_core_t :=
  DspCore v (semaphore c) (mutex c) (use_thread c) (running c) (pc c) (registers c) (stack c)
    (ram c) (rom c) (ramint c) (periph c) (hostport c) (loop_rep c) (swi_inter c)
    (bootstrap_pos c) (interrupt_state c) (interrupt_instr_fetch c) (interrupt_save_pc c)
    (thread_ops c).
Definition set_semaphore (v : bool) (c : dsp_core_t) : dsp_core_t :=
  DspCore (thread c) v (mutex c) (use_thread c) (running c) (pc c) (registers c) (stack c) (ram c)
    (rom c) (ramint c) (periph c) (hostport c) (loop_rep c) (swi_inter c) (bootstrap_pos c)
    (interrupt_state c) (interrupt_instr_fetch c) (interrupt_save_pc c) (thread_ops c).
Definition set_mutex (v : bool) (c : dsp_core_t) : dsp_core_t :=
  DspCore (thread c) (semaphore c) v (use_thread c) (running c) (pc c) (registers c) (stack c)
    (ram c) (rom c) (ramint c) (periph c) (hostport c) (loop_rep c) (swi_inter c)
    (bootstrap_pos c) (interrupt_state c) (interrupt_instr_fetch c) (interrupt_save_pc c)
    (thread_ops c).
Definition set_use_thread (v : Z) (c : dsp_core_t) : dsp_core_t :=
  DspCore (thread c) (semaphore c) (mutex c) v (running c) (pc c) (registers c) (stack c) (ram c)
    (rom c) (ramint c) (periph c) (hostport c) (loop_rep c) (swi_inter c) (bootstrap_pos c)
    (interrupt_state c) (interrupt_instr_fetch c) (interrupt_save_pc c) (thread_ops c).
Definition set_running (v : Z) (c : dsp_core_t) : dsp_core_t :=
  DspCore (thread c) (semaphore c) (mutex c) (use_thread c) v (pc c) (registers c) (stack c)
    (ram c) (rom c) (ramint c) (periph c) (hostport c) (loop_rep c) (swi_inter c)
    (bootstrap_pos c) (interrupt_state c) (interrupt_instr_fetch c) (interrupt_save_pc c)
    (thread_ops c).
Definition set_pc (v : Z) (c : dsp_core_t) : dsp_core_t :=
  DspCore (thread c) (semaphore c) (mutex c) (use_thread c) (running c) v (registers c) (stack c)
    (ram c) (rom c) (ramint c) (periph c) (hostport c) (loop_rep c) (swi_inter c)
    (bootstrap_pos c) (interrupt_state c) (interrupt_instr_fetch c) (interrupt_save_pc c)
    (thread_ops c).
Definition set_registers (v : gmap Z Z) (c : dsp_core_t) : dsp_core_t :=
  DspCore (thread c) (semaphore c) (mutex c) (use_thread c) (running c) (pc c) v (stack c) (ram c)
    (rom c) (ramint c) (periph c) (hostport c) (loop_rep c) (swi_inter c) (bootstrap_pos c)
    (interrupt_state c) (interrupt_instr_fetch c) (interrupt_save_pc c) (thread_ops c).
Definition set_stack (v : gmap (Z * Z) Z) (c : dsp_core_t) : dsp_core_t :=
  DspCore (thread c) (semaphore c) (mutex c) (use_thread c) (running c) (pc c) (registers c) v
    (ram c) (rom c) (ramint c) (periph c) (hostport c) (loop_rep c) (swi_inter c)
    (bootstrap_pos c) (interrupt_state c) (interrupt_instr_fetch c) (interrupt_save_pc c)
    (thread_ops c).
Definition set_ram (v : gmap (Z * Z) Z) (c : dsp_core_t) : dsp_core_t :=
  DspCore (thread c) (semaphore c) (mutex c) (use_thread c) (running c) (pc c) (registers c)
    (stack c) v (rom c) (ramint c) (periph c) (hostport c) (loop_rep c) (swi_inter c)
    (bootstrap_pos c) (interrupt_state c) (interrupt_instr_fetch c) (interrupt_save_pc c)
    (thread_ops c).
Definition set_rom (v : gmap (Z * Z) Z) (c : dsp_core_t) : dsp_core_t :=
  DspCore (thread c) (semaphore c) (mutex c) (use_thread c) (running c) (pc c) (registers c)
    (stack c) (ram c) v (ramint c) (periph c) (hostport c) (loop_rep c) (swi_inter c)
    (bootstrap_pos c) (interrupt_state c) (interrupt_instr_fetch c) (interrupt_save_pc c)
    (thread_ops c).
Definition set_ramint (v : gmap (Z * Z) Z) (c : dsp_core_t) : dsp_core_t :=
  DspCore (thread c) (semaphore c) (mutex c) (use_thread c) (running c) (pc c) (registers c)
    (stack c) (ram c) (rom c) v (periph c) (hostport c) (loop_rep c) (swi_inter c)
    (bootstrap_pos c) (interrupt_state c) (interrupt_instr_fetch c) (interrupt_save_pc c)
    (thread_ops c).
Definition set_periph (v : gmap (Z * Z) Z) (c : dsp_core_t) : dsp_core_t :=
  DspCore (thread c) (semaphore c) (mutex c) (use_thread c) (running c) (pc c) (registers c)
    (stack c) (ram c) (rom c) (ramint c) v (hostport c) (loop_rep c) (swi_inter c)
    (bootstrap_pos c) (interrupt_state c) (interrupt_instr_fetch c) (interrupt_save_pc c)
    (thread_ops c).
Definition set_hostport (v : gmap Z Z) (c : dsp_core_t) : dsp_core_t :=
  DspCore (thread c) (semaphore c) (mutex c) (use_thread c) (running c) (pc c) (registers c)
    (stack c) (ram c) (rom c) (ramint c) (periph c) v (loop_rep c) (swi_inter c) (bootstrap_pos c)
    (interrupt_state c) (interrupt_instr_fetch c) (interrupt_save_pc c) (thread_ops c).
Definition set_loop_rep (v : Z) (c : dsp_core_t) : dsp_core_t :=
  DspCore (thread c) (semaphore c) (mutex c) (use_thread c) (running c) (pc c) (registers c)
    (stack c) (ram c) (rom c) (ramint c) (periph c) (hostport c) v (swi_inter c) (bootstrap_pos c)
    (interrupt_state c) (interrupt_instr_fetch c) (interrupt_save_pc c) (thread_ops c).
Definition set_swi_inter (v : Z) (c : dsp_core_t) : dsp_core_t :=
  DspCore (thread c) (semaphore c) (mutex c) (use_thread c) (running c) (pc c) (registers c)
    (stack c) (ram c) (rom c) (ramint c) (periph c) (hostport c) (loop_rep c) v (bootstrap_pos c)
    (interrupt_state c) (interrupt_instr_fetch c) (interrupt_save_pc c) (thread_ops c).
Definition set_bootstrap_pos (v : Z) (c : dsp_core_t) : dsp_core_t :=
  DspCore (thread c) (semaphore c) (mutex c) (use_thread c) (running c) (pc c) (registers c)
    (stack c) (ram c) (rom c) (ramint c) (periph c) (hostport c) (loop_rep c) (swi_inter c) v
    (interrupt_state c) (interrupt_instr_fetch c) (interrupt_save_pc c) (thread_ops c).
Definition set_interrupt_state (v : Z) (c : dsp_core_t) : dsp_core_t :=
  DspCore (thread c) (semaphore c) (mutex c) (use_thread c) (running c) (pc c) (registers c)
    (stack c) (ram c) (rom c) (ramint c) (periph c) (hostport c) (loop_rep c) (swi_inter c)
    (bootstrap_pos c) v (interrupt_instr_fetch c) (interrupt_save_pc c) (thread_ops c).
Definition set_interrupt_instr_fetch (v : Z) (c : dsp_core_t) : dsp_core_t :=
  DspCore (thread c) (semaphore c) (mutex c) (use_thread c) (running c) (pc c) (registers c)
    (stack c) (ram c) (rom c) (ramint c) (periph c) (hostport c) (loop_rep c) (swi_inter c)
    (bootstrap_pos c) (interrupt_state c) v (interrupt_save_pc c) (thread_ops c).
Definition set_interrupt_save_pc (v : Z) (c : dsp_core_t) : dsp_core_t :=
  DspCore (thread c) (semaphore c) (mutex c) (use_thread c) (running c) (pc c) (registers c)
    (stack c) (ram c) (rom c) (ramint c) (periph c) (hostport c) (loop_rep c) (swi_inter c)
    (bootstrap_pos c) (interrupt_state c) (interrupt_instr_fetch c) v (thread_ops c).
Definition set_thread_ops (v : thread_ops_t) (c : dsp_core_t) : dsp_core_t :=
  DspCore (thread c) (semaphore c) (mutex c) (use_thread c) (running c) (pc c) (registers c)
    (stack c) (ram c) (rom c) (ramint c) (periph c) (hostport c) (loop_rep c) (swi_inter c)
    (bootstrap_pos c) (interrupt_state c) (interrupt_instr_fetch c) (interrupt_save_pc c) v.

(** Computations on the DSP state. *)
Definition K (A : Type) : Type := M dsp_core_t A.

(** Cells of the host port and of the peripheral registers. *)
Definition hp (i : Z) (c : dsp_core_t) : Z := aget (hostport c) i.
Definition set_hp (i v : Z) (c : dsp_core_t) : dsp_core_t :=
  set_hostport (aset i v (hostport c)) c.
Definition px (i : Z) (c : dsp_core_t) : Z := aget (periph c) (DSP_SPACE_X, i).
Definition set_px (i v : Z) (c : dsp_core_t) : dsp_core_t :=
  set_periph (aset (DSP_SPACE_X, i) v (periph c)) c.

(** ** Mutex and thread hooks *)

Definition lockMutex : K unit := λ c,
  match thread_ops c with
  | OpsNull => ret tt c
  | OpsThread => bind (sdl SDL_LockMutex) (λ _, ret tt) c
  end.

Definition unlockMutex : K unit := λ c,
  match thread_ops c with
  | OpsNull => ret tt c
  | OpsThread => bind (sdl SDL_UnlockMutex) (λ _, ret tt) c
  end.

Definition pauseThread : K unit := λ c,
  match thread_ops c with
  | OpsNull => ret tt c
  | OpsThread => bind (sdl SDL_SemWait) (λ _, ret tt) c
  end.

Definition resumeThread : K unit := λ c,
  match thread_ops c with
  | OpsNull => ret tt c
  | OpsThread =>
      (let* v := sdl SDL_SemValue in
       when (v =? 0) (sdl SDL_SemPost ;; ret tt)) c
  end.

(** The hooks do not touch the state themselves. *)
Section Hooks.
Context (P : protocol dsp_core_t) `{Stable dsp_core_t P}.

(** A choice by the installed family of hooks. *)
Lemma keeps_ops {A} (m n : K A) Q : keeps P m Q → keeps P n Q →
  keeps P (λ c, match thread_ops c with OpsNull => m c | OpsThread => n c end) Q.
Proof. intros Hm Hn c Hc. unfold wp. destruct (thread_ops c); [by apply Hm|by apply Hn]. Qed.

Lemma keeps_lock : keeps P lockMutex any.
Proof. apply keeps_ops; keeps. Qed.
Lemma keeps_unlock : keeps P unlockMutex any.
Proof. apply keeps_ops; keeps. Qed.
Lemma keeps_pause : keeps P pauseThread any.
Proof. apply keeps_ops; keeps. Qed.
Lemma keeps_resume : keeps P resumeThread any.
Proof. apply keeps_ops; keeps. Qed.
End Hooks.
#[export] Hint Resolve keeps_lock keeps_unlock keeps_pause keeps_resume : keeps.

(** ** Initialisation, shutdown and reset *)

(** [memset(dsp_core, 0, sizeof(dsp_core_t))]. *)
Definition zeroed_core : dsp_core_t :=
  DspCore false false false 0 0 0 ∅ ∅ ∅ ∅ ∅ ∅ ∅ 0 0 0 0 0 0 OpsNull.

Definition dsp_core_init (use_thread : Z) : dsp_core_t :=
  let c := zeroed_core in
  let c := set_rom (aload DSP_SPACE_X 0x100 x_rom (rom c)) c in
  let c := set_rom (aload DSP_SPACE_Y 0x100 y_rom (rom c)) c in
  let c := set_use_thread use_thread c in
  if negb (use_thread =? 0) then set_thread_ops OpsThread c
  else set_thread_ops OpsNull c.

Definition dsp_core_shutdown : K unit :=
  modify (set_running 0) ;;
  let* th := gets thread in
  when th
    (resumeThread ;;
     sdl SDL_WaitThread ;;
     modify (set_thread false)) ;;
  let* sem := gets semaphore in
  when sem (sdl SDL_DestroySemaphore ;; modify (set_semaphore false)) ;;
  let* mu := gets mutex in
  when mu (sdl SDL_DestroyMutex ;; modify (set_mutex false)).

(** The [for] loop that sets M0 .. M7. *)
Definition reset_m_registers (r : gmap Z Z) : gmap Z Z :=
  fold_left (λ r i, aset (DSP_REG_M0 + i) 0x00ffff r) [0;1;2;3;4;5;6;7] r.

(** The assignments of [dsp_core_reset], between the shutdown and the creation
    of the thread. *)
Definition reset_state (c : dsp_core_t) : dsp_core_t :=
  let c := set_periph ∅ c in
  let c := set_stack ∅ c in
  let c := set_registers ∅ c in
  let c := set_bootstrap_pos 0 c in
  let c := set_pc 0x0000 c in
  let c := set_registers (aset DSP_REG_OMR 0x02 (registers c)) c in
  let c := set_registers (reset_m_registers (registers c)) c in
  let c := set_interrupt_state DSP_INTERRUPT_NONE c in
  let c := set_interrupt_instr_fetch (u32 (-1)) c in
  let c := set_interrupt_save_pc (u32 (-1)) c in
  let c := set_swi_inter 0 c in
  let c := set_px DSP_HOST_HSR (1 << DSP_HOST_HSR_HTDE) c in
  let c := set_hp CPU_HOST_CVR 0x12 c in
  let c := set_hp CPU_HOST_ISR ((1 << CPU_HOST_ISR_TRDY) .| (1 << CPU_HOST_ISR_TXDE)) c in
  let c := set_hp CPU_HOST_IVR 0x0f c in
  let c := set_px DSP_IPR 0 c in
  let c := set_px DSP_BCR 0xffff c in
  set_loop_rep 0 c.

(** [dsp56k_init_cpu], called when no thread is used, only makes the CPU's
    global pointer designate this state, which the model does by construction. *)
Definition dsp_core_reset : K unit :=
  dsp_core_shutdown ;;
  modify reset_state ;;
  let* ut := gets use_thread in
  when (negb (ut =? 0))
    (let* sem := gets semaphore in
     when (negb sem)
       (let* r := sdl SDL_CreateSemaphore in modify (set_semaphore (negb (r =? 0)))) ;;
     let* mu := gets mutex in
     when (negb mu)
       (let* r := sdl SDL_CreateMutex in modify (set_mutex (negb (r =? 0)))) ;;
     let* th := gets thread in
     when (negb th)
       (let* r := sdl SDL_CreateThread in modify (set_thread (negb (r =? 0))))).

(** ** CPU <-> DSP host interface transfers *)

Definition dsp_core_hostport_update_trdy (c : dsp_core_t) : dsp_core_t :=
  let c := set_hp CPU_HOST_ISR (hp CPU_HOST_ISR c .& (0xff - (1 << CPU_HOST_ISR_TRDY))) c in
  let trdy := (hp CPU_HOST_ISR c >> CPU_HOST_ISR_TXDE)
              .& u32 (Z.lnot (px DSP_HOST_HSR c >> DSP_HOST_HSR_HRDF)) in
  set_hp CPU_HOST_ISR (u8 (hp CPU_HOST_ISR c .| ((trdy .& 1) << CPU_HOST_ISR_TRDY))) c.

Definition dsp_core_dsp2host (c : dsp_core_t) : dsp_core_t :=
  if tst (hp CPU_HOST_ISR c) (1 << CPU_HOST_ISR_RXDF) then c else
  if tst (px DSP_HOST_HSR c) (1 << DSP_HOST_HSR_HTDE) then c else
  let c := set_hp CPU_HOST_RXL (u8 (px DSP_HOST_HTX c)) c in
  let c := set_hp CPU_HOST_RXM (u8 (px DSP_HOST_HTX c >> 8)) c in
  let c := set_hp CPU_HOST_RXH (u8 (px DSP_HOST_HTX c >> 16)) c in
  let c := set_px DSP_HOST_HSR (px DSP_HOST_HSR c .| (1 << DSP_HOST_HSR_HTDE)) c in
  set_hp CPU_HOST_ISR (u8 (hp CPU_HOST_ISR c .| (1 << CPU_HOST_ISR_RXDF))) c.

Definition dsp_core_host2dsp (c : dsp_core_t) : dsp_core_t :=
  if tst (hp CPU_HOST_ISR c) (1 << CPU_HOST_ISR_TXDE) then c else
  if tst (px DSP_HOST_HSR c) (1 << DSP_HOST_HSR_HRDF) then c else
  let c := set_px DSP_HOST_HRX (hp CPU_HOST_TXL c) c in
  let c := set_px DSP_HOST_HRX (px DSP_HOST_HRX c .| (hp CPU_HOST_TXM c << 8)) c in
  let c := set_px DSP_HOST_HRX (px DSP_HOST_HRX c .| (hp CPU_HOST_TXH c << 16)) c in
  let c := set_px DSP_HOST_HSR (px DSP_HOST_HSR c .| (1 << DSP_HOST_HSR_HRDF)) c in
  let c := set_hp CPU_HOST_ISR (u8 (hp CPU_HOST_ISR c .| (1 << CPU_HOST_ISR_TXDE))) c in
  dsp_core_hostport_update_trdy c.

Definition dsp_core_hostport_dspread (c : dsp_core_t) : dsp_core_t :=
  let c := set_px DSP_HOST_HSR (px DSP_HOST_HSR c .& (0xff - (1 << DSP_HOST_HSR_HRDF))) c in
  let c := dsp_core_hostport_update_trdy c in
  dsp_core_host2dsp c.

Definition dsp_core_hostport_dspwrite (c : dsp_core_t) : dsp_core_t :=
  let c := set_px DSP_HOST_HSR (px DSP_HOST_HSR c .& (0xff - (1 << DSP_HOST_HSR_HTDE))) c in
  dsp_core_dsp2host c.

Definition dsp_core_hostport_cpuread (c : dsp_core_t) : dsp_core_t :=
  let c := set_hp CPU_HOST_ISR (hp CPU_HOST_ISR c .& (0xff - (1 << CPU_HOST_ISR_RXDF))) c in
  dsp_core_dsp2host c.

Definition dsp_core_hostport_cpuwrite (c : dsp_core_t) : dsp_core_t :=
  let c := set_hp CPU_HOST_ISR (hp CPU_HOST_ISR c .& (0xff - (1 << CPU_HOST_ISR_TXDE))) c in
  let c := dsp_core_hostport_update_trdy c in
  dsp_core_host2dsp c.

(** ** Reads and writes of the host port by the CPU *)

(** [hostport[addr]] with [addr] supplied by the caller. *)
Definition ld_hostport (addr : Z) : K Z :=
  if in_range 0 8 addr then gets (hp addr) else undefined Oob_hostport.

Definition dsp_core_read_host (addr : Z) : K Z :=
  lockMutex ;;
  let* value := ld_hostport addr in
  when (addr =? CPU_HOST_RXL)
    (modify dsp_core_hostport_cpuread ;;
     resumeThread) ;;
  unlockMutex ;;
  ret value.

(** [ramint[DSP_SPACE_P][bootstrap_pos] = value]. *)
Definition bootstrap_store : K unit := λ c,
  if in_range 0 512 (bootstrap_pos c) then
    Done tt (set_ramint
      (aset (DSP_SPACE_P, bootstrap_pos c)
        ((hp CPU_HOST_TXH c << 16) .| (hp CPU_HOST_TXM c << 8) .| hp CPU_HOST_TXL c)
        (ramint c)) c)
  else Fault Oob_ramint.

Definition write_host_icr (value : Z) (c : dsp_core_t) : dsp_core_t :=
  let hf := (1 << DSP_HOST_HSR_HF1) .| (1 << DSP_HOST_HSR_HF0) in
  let c := set_hp CPU_HOST_ICR (value .& 0xfb) c in
  let c := set_px DSP_HOST_HSR (px DSP_HOST_HSR c .& (0xff - hf)) c in
  set_px DSP_HOST_HSR (px DSP_HOST_HSR c .| (hp CPU_HOST_ICR c .& hf)) c.

Definition write_host_txl (value : Z) : K unit :=
  modify (set_hp CPU_HOST_TXL value) ;;
  let* run := gets running in
  if run =? 0 then
    bootstrap_store ;;
    modify (λ c, set_bootstrap_pos (u16 (bootstrap_pos c + 1)) c) ;;
    let* pos := gets bootstrap_pos in
    when (pos =? 0x200) (modify (set_running 1) ;; resumeThread)
  else
    modify dsp_core_hostport_cpuwrite ;;
    resumeThread.

(** The [switch(addr)] of [dsp_core_write_host]; [value] is a [Uint8]. *)
Definition write_host_switch (addr value : Z) : K unit :=
  if addr =? CPU_HOST_ICR then modify (write_host_icr value)
  else if addr =? CPU_HOST_CVR then
    modify (set_hp CPU_HOST_CVR (value .& 0x9f)) ;;
    when (tst value (1 << 7))
      (modify (λ c, set_px DSP_HOST_HSR (px DSP_HOST_HSR c .| (1 << DSP_HOST_HSR_HCP)) c) ;;
       resumeThread)
  else if (addr =? CPU_HOST_ISR) || (addr =? CPU_HOST_TX0) then ret tt
  else if (addr =? CPU_HOST_IVR) || (addr =? CPU_HOST_TXH) || (addr =? CPU_HOST_TXM) then
    modify (set_hp addr value)
  else if addr =? CPU_HOST_TXL then write_host_txl value
  else ret tt.

Definition dsp_core_write_host (addr value : Z) : K unit :=
  lockMutex ;;
  write_host_switch addr (u8 value) ;;
  unlockMutex.
