(* ===== verification/Cpu.v ===== *)
(** * dsp_cpu: registers, memory, stack and effective addresses

    The state of the instruction interpreter of [src/dsp_cpu.c] (the DSP of
    [DspCore] plus the file's static variables) and the helpers all its
    instructions share: register and memory access, the hardware stack,
    effective address calculation and the condition code test. *)

From S2P Require Import Prelude Effects DspCore Arith56.
From stdpp Require Import base gmap list numbers.
Open Scope Z_scope.
Open Scope c_scope.
Open Scope eff_scope.

(** [parmove_dest_u]: a pointer to a cell of [registers] or a DSP address. *)
Inductive parmove_dest_u :=
  | host_pointer (numreg : Z)
  | dsp_address (addr : Z).

(** The static variables of dsp_cpu.c; [core] is what [dsp_core] points to. *)
Record cpu_t := Cpu {
  core : dsp_core_t;
  cur_inst_len : Z;
  cur_inst : Z;
  tmp_parmove_src : gmap (Z * Z) Z;
  tmp_parmove_dest : gmap (Z * Z) parmove_dest_u;
  tmp_parmove_start : gmap Z Z;
  tmp_parmove_len : gmap Z Z;
  tmp_parmove_type : gmap Z Z;
  tmp_parmove_space : gmap Z Z;
  pc_on_rep : Z;
}.

Definition set_core (v : dsp_core_t) (s : cpu_t) : cpu_t :=
  Cpu v (cur_inst_len s) (cur_inst s) (tmp_parmove_src s) (tmp_parmove_dest s)
    (tmp_parmove_start s) (tmp_parmove_len s) (tmp_parmove_type s) (tmp_parmove_space s)
    (pc_on_rep s).
Definition set_cur_inst_len (v : Z) (s : cpu_t) : cpu_t :=
  Cpu (core s) v (cur_inst s) (tmp_parmove_src s) (tmp_parmove_dest s)
    (tmp_parmove_start s) (tmp_parmove_len s) (tmp_parmove_type s) (tmp_parmove_space s)
    (pc_on_rep s).
Definition set_cur_inst (v : Z) (s : cpu_t) : cpu_t :=
  Cpu (core s) (cur_inst_len s) v (tmp_parmove_src s) (tmp_parmove_dest s)
    (tmp_parmove_start s) (tmp_parmove_len s) (tmp_parmove_type s) (tmp_parmove_space s)
    (pc_on_rep s).
Definition set_tmp_parmove_src (v : gmap (Z * Z) Z) (s : cpu_t) : cpu_t :=
  Cpu (core s) (cur_inst_len s) (cur_inst s) v (tmp_parmove_dest s)
    (tmp_parmove_start s) (tmp_parmove_len s) (tmp_parmove_type s) (tmp_parmove_space s)
    (pc_on_rep s).
Definition set_tmp_parmove_dest (v : gmap (Z * Z) parmove_dest_u) (s : cpu_t) : cpu_t :=
  Cpu (core s) (cur_inst_len s) (cur_inst s) (tmp_parmove_src s) v
    (tmp_parmove_start s) (tmp_parmove_len s) (tmp_parmove_type s) (tmp_parmove_space s)
    (pc_on_rep s).
Definition set_tmp_parmove_start (v : gmap Z Z) (s : cpu_t) : cpu_t :=
  Cpu (core s) (cur_inst_len s) (cur_inst s) (tmp_parmove_src s) (tmp_parmove_dest s)
    v (tmp_parmove_len s) (tmp_parmove_type s) (tmp_parmove_space s) (pc_on_rep s).
Definition set_tmp_parmove_len (v : gmap Z Z) (s : cpu_t) : cpu_t :=
  Cpu (core s) (cur_inst_len s) (cur_inst s) (tmp_parmove_src s) (tmp_parmove_dest s)
    (tmp_parmove_start s) v (tmp_parmove_type s) (tmp_parmove_space s) (pc_on_rep s).
Definition set_tmp_parmove_type (v : gmap Z Z) (s : cpu_t) : cpu_t :=
  Cpu (core s) (cur_inst_len s) (cur_inst s) (tmp_parmove_src s) (tmp_parmove_dest s)
    (tmp_parmove_start s) (tmp_parmove_len s) v (tmp_parmove_space s) (pc_on_rep s).
Definition set_tmp_parmove_space (v : gmap Z Z) (s : cpu_t) : cpu_t :=
  Cpu (core s) (cur_inst_len s) (cur_inst s) (tmp_parmove_src s) (tmp_parmove_dest s)
    (tmp_parmove_start s) (tmp_parmove_len s) (tmp_parmove_type s) v (pc_on_rep s).
Definition set_pc_on_rep (v : Z) (s : cpu_t) : cpu_t :=
  Cpu (core s) (cur_inst_len s) (cur_inst s) (tmp_parmove_src s) (tmp_parmove_dest s)
    (tmp_parmove_start s) (tmp_parmove_len s) (tmp_parmove_type s) (tmp_parmove_space s) v.

(** Static storage before the first instruction. *)
Definition cpu_init (c : dsp_core_t) : cpu_t := Cpu c 0 0 ∅ ∅ ∅ ∅ ∅ ∅ 0.

(** Computations of the interpreter, and a function of dsp_core.c called by it. *)
Definition C (A : Type) : Type := M cpu_t A.
Definition on_core {A} (m : K A) : C A := zoom core set_core m.
Definition mod_core (f : dsp_core_t → dsp_core_t) : C unit :=
  modify (λ s, set_core (f (core s)) s).

(** ** Registers *)

Definition rd (n : Z) : C Z :=
  if in_range 0 64 n then gets (λ s, aget (registers (core s)) n) else undefined Oob_registers.

Definition wr_core (n v : Z) (c : dsp_core_t) : dsp_core_t :=
  set_registers (aset n v (registers c)) c.

Definition wr (n v : Z) : C unit :=
  if in_range 0 64 n then mod_core (wr_core n v) else undefined Oob_registers.

(** [registers[n] = f(registers[n])]. *)
Definition upd (n : Z) (f : Z → Z) : C unit := let* x := rd n in wr n (f x).

Definition get_pc : C Z := gets (λ s, pc (core s)).
(** [pc] is a [Uint16]: the assignment truncates. *)
Definition put_pc (v : Z) : C unit := mod_core (set_pc (u16 v)).
Definition get_inst : C Z := gets cur_inst.
Definition get_inst_len : C Z := gets cur_inst_len.
Definition put_inst_len (v : Z) : C unit := modify (set_cur_inst_len v).

(** Number of significant bits of each register. *)
Definition registers_mask : list Z :=
  [0;0;0;0; 24;24;24;24; 24;24;8;8; 24;24;24;24;
   16;16;16;16; 16;16;16;16; 16;16;16;16; 16;16;16;16;
   16;16;16;16; 16;16;16;16; 0;0;0;0; 0;0;0;0;
   0;0;0;0; 0;0;0;0; 0;16;8;6; 6;6;16;16].

Definition reg_mask (n : Z) : Z := BITMASK (nth (Z.to_nat n) registers_mask 0).

(** The accumulator pair A (n = 0) or B (n = 1) as three words. *)
Definition rd_accu (n : Z) : C a56 :=
  let* x0 := rd (DSP_REG_A2 + n) in
  let* x1 := rd (DSP_REG_A1 + n) in
  let* x2 := rd (DSP_REG_A0 + n) in
  ret (A56 x0 x1 x2).

Definition wr_accu (n : Z) (d : a56) : C unit :=
  wr (DSP_REG_A2 + n) (w0 d) ;;
  wr (DSP_REG_A1 + n) (w1 d) ;;
  wr (DSP_REG_A0 + n) (w2 d).

(** ** Memory *)

(** Array reads and writes with the C bounds. *)
Definition ld2 (d1 d2 : Z) (e : fault) (f : dsp_core_t → gmap (Z * Z) Z) (i j : Z) : K Z :=
  if in_range 0 d1 i && in_range 0 d2 j then gets (λ c, aget (f c) (i, j)) else undefined e.

Definition st_ramint (i j v : Z) : K unit :=
  if in_range 0 3 i && in_range 0 512 j
  then modify (λ c, set_ramint (aset (i, j) v (ramint c)) c) else undefined Oob_ramint.
Definition st_periph (i j v : Z) : K unit :=
  if in_range 0 2 i && in_range 0 64 j
  then modify (λ c, set_periph (aset (i, j) v (periph c)) c) else undefined Oob_periph.
Definition st_ram (i j v : Z) : K unit :=
  if in_range 0 3 i && in_range 0 32768 j
  then modify (λ c, set_ram (aset (i, j) v (ram c)) c) else undefined Oob_ram.

(** Both indices are in bounds whatever the address. *)
Definition read_memory_p (address : Z) (c : dsp_core_t) : Z :=
  let address := u16 address in
  if address <? 0x200 then aget (ramint c) (DSP_SPACE_P, address) .& BITMASK 24
  else aget (ram c) (DSP_SPACE_P, address .& (DSP_RAMSIZE - 1)) .& BITMASK 24.

Definition rom_enabled (c : dsp_core_t) : bool :=
  tst (aget (registers c) DSP_REG_OMR) (1 << DSP_OMR_DE).

Definition core_read_memory (space address : Z) : K Z :=
  let address := u16 address in
  if address <? 0x100 then
    let* v := ld2 3 512 Oob_ramint ramint space address in ret (v .& BITMASK 24)
  else if space =? DSP_SPACE_P then gets (read_memory_p address)
  else
  let* de := gets rom_enabled in
  if de && (address <? 0x200) then
    let* v := ld2 2 512 Oob_rom rom space address in ret (v .& BITMASK 24)
  else if 0xffc0 <=? address then
    lockMutex ;;
    when ((space =? DSP_SPACE_X) && (address =? 0xffc0 + DSP_HOST_HRX))
      (modify dsp_core_hostport_dspread) ;;
    let* v := ld2 2 64 Oob_periph periph space (address - 0xffc0) in
    unlockMutex ;;
    ret (v .& BITMASK 24)
  else
    let address := if space =? DSP_SPACE_X then u16 (address + (DSP_RAMSIZE >> 1)) else address in
    let* v := ld2 3 32768 Oob_ram ram DSP_SPACE_P (address .& (DSP_RAMSIZE - 1)) in
    ret (v .& BITMASK 24).

Definition read_memory (space address : Z) : C Z := on_core (core_read_memory space address).

(** The assignments to the host control register. *)
Definition write_hcr (value : Z) (c : dsp_core_t) : dsp_core_t :=
  let hf := (1 << CPU_HOST_ISR_HF3) .| (1 << CPU_HOST_ISR_HF2) in
  let c := set_px DSP_HOST_HCR value c in
  let c := set_hp CPU_HOST_ISR (hp CPU_HOST_ISR c .& (BITMASK 8 - hf)) c in
  set_hp CPU_HOST_ISR (u8 (hp CPU_HOST_ISR c .| (px DSP_HOST_HCR c .& hf))) c.

Definition write_periph_x (reg value : Z) : K unit :=
  lockMutex ;;
  (if reg =? DSP_HOST_HTX then
     modify (set_px DSP_HOST_HTX value) ;; modify dsp_core_hostport_dspwrite
   else if reg =? DSP_HOST_HCR then modify (write_hcr value)
   else if reg =? DSP_HOST_HSR then ret tt
   else st_periph DSP_SPACE_X reg value) ;;
  unlockMutex.

Definition write_external (address value : Z) : K unit :=
  st_ram DSP_SPACE_P (address .& (DSP_RAMSIZE - 1)) value.

Definition core_write_memory_raw (space address value : Z) : K unit :=
  let address := u16 address in
  let value := value .& BITMASK 24 in
  if address <? 0x100 then st_ramint space address value
  else if space =? DSP_SPACE_X then
    let* de := gets rom_enabled in
    if de && (address <? 0x200) then ret tt
    else if 0xffc0 <=? address then write_periph_x (address - 0xffc0) value
    else write_external (u16 (address + (DSP_RAMSIZE >> 1))) value
  else if space =? DSP_SPACE_Y then
    let* de := gets rom_enabled in
    if de && (address <? 0x200) then ret tt
    else if 0xffc0 <=? address then st_periph DSP_SPACE_Y (address - 0xffc0) value
    else write_external address value
  else if space =? DSP_SPACE_P then
    if address <? 0x200 then st_ramint DSP_SPACE_P address value
    else write_external address value
  else write_external address value.

(** [write_memory] is the macro for [write_memory_raw]. *)
Definition write_memory (space address value : Z) : C unit :=
  on_core (core_write_memory_raw space address value).

Definition fetch_p (address : Z) : C Z := gets (λ s, read_memory_p address (core s)).

(** ** Hardware stack *)

Definition st_stack (row i v : Z) : K unit :=
  if in_range 0 15 i then modify (λ c, set_stack (aset (row, i) v (stack c)) c)
  else undefined Oob_stack.
Definition ld_stack (row i : Z) : K Z := ld2 2 15 Oob_stack stack row i.

Definition dsp_stack_push (curpc cursr : Z) : C unit :=
  let* sp := rd DSP_REG_SP in
  if sp =? 0x0f then on_core pauseThread
  else
    upd DSP_REG_SP (λ x, x +u 1) ;;
    upd DSP_REG_SSH (λ x, x +u 1) ;;
    upd DSP_REG_SSL (λ x, x +u 1) ;;
    let* ssh := rd DSP_REG_SSH in
    on_core (st_stack 0 ssh (u16 curpc)) ;;
    let* ssl := rd DSP_REG_SSL in
    on_core (st_stack 1 ssl (u16 cursr)).

(** The stores through [newpc] and [newsr] are parameters (for a local variable
    they do nothing and the result is used); none happens when the stack is
    empty. *)
Definition dsp_stack_pop (store_pc store_sr : Z → C unit) : C (option (Z * Z)) :=
  let* sp := rd DSP_REG_SP in
  if sp =? 0x00 then on_core pauseThread ;; ret None
  else
    let* ssh := rd DSP_REG_SSH in
    let* newpc := on_core (ld_stack 0 ssh) in
    store_pc newpc ;;
    let* ssl := rd DSP_REG_SSL in
    let* newsr := on_core (ld_stack 1 ssl) in
    store_sr newsr ;;
    upd DSP_REG_SP (λ x, x -u 1) ;;
    upd DSP_REG_SSH (λ x, x -u 1) ;;
    upd DSP_REG_SSL (λ x, x -u 1) ;;
    ret (Some (newpc, newsr)).

(** A pointer to a local variable. *)
Definition to_local (_ : Z) : C unit := ret tt.

(** ** Address register updates *)

(** [for (revbits=0;revbits<16;revbits++) if (value & (1<<revbits)) break;] *)
Fixpoint first_bit (fuel : nat) (value revbits : Z) : Z :=
  match fuel with
  | O => revbits
  | S fuel => if tst value (1 << revbits) then revbits else first_bit fuel value (revbits + 1)
  end.

(** [for (i=0;i<revbits;i++) if (r_reg & (1<<i)) value |= 1<<(revbits-i-1);]
    with [fuel] iterations left. *)
Fixpoint reverse_bits (fuel : nat) (revbits r_reg i value : Z) : Z :=
  match fuel with
  | O => value
  | S fuel =>
      reverse_bits fuel revbits r_reg (i + 1)
        (if tst r_reg (1 << i) then value .| (1 << (revbits - i - 1)) else value)
  end.

(** The new value of Rn, from Nn and Rn. *)
Definition bitreverse_value (n_reg r_reg : Z) : Z :=
  let revbits := first_bit 16 n_reg 0 + 1 in
  let himask := u32 (BITMASK 16 - BITMASK revbits) in
  let value := reverse_bits (Z.to_nat revbits) revbits r_reg 0 (r_reg .& himask) in
  let value := (value +u 1) .& BITMASK revbits in
  let r_reg := (r_reg .& himask) .| value in
  reverse_bits (Z.to_nat revbits) revbits r_reg 0 (r_reg .& himask).

Definition dsp_update_rn_bitreverse (numreg : Z) : C unit :=
  let* n_reg := rd (DSP_REG_N0 + numreg) in
  let* r_reg := rd (DSP_REG_R0 + numreg) in
  wr (DSP_REG_R0 + numreg) (bitreverse_value n_reg r_reg).

(** [while (bufsize < modulo) { bufsize <<= 1; bufmask <<= 1; }] *)
Fixpoint buffer_size (fuel : nat) (modulo bufsize bufmask : Z) : Z * Z :=
  match fuel with
  | O => (bufsize, bufmask)
  | S fuel =>
      if bufsize <? modulo then
        buffer_size fuel modulo (u16 (Z.shiftl bufsize 1)) (u16 (Z.shiftl bufmask 1))
      else (bufsize, bufmask)
  end.

(** [while (modifier>bufsize) { r_reg += bufsize; modifier -= bufsize; }] *)
Fixpoint skip_forward (fuel : nat) (bufsize r_reg modifier : Z) : Z * Z :=
  match fuel with
  | O => (r_reg, modifier)
  | S fuel =>
      if bufsize <? modifier then
        skip_forward fuel bufsize (s16 (r_reg + bufsize)) (s16 (modifier - bufsize))
      else (r_reg, modifier)
  end.

(** [while (modifier<-bufsize) { r_reg -= bufsize; modifier += bufsize; }] *)
Fixpoint skip_backward (fuel : nat) (bufsize r_reg modifier : Z) : Z * Z :=
  match fuel with
  | O => (r_reg, modifier)
  | S fuel =>
      if modifier <? - bufsize then
        skip_backward fuel bufsize (s16 (r_reg - bufsize)) (s16 (modifier + bufsize))
      else (r_reg, modifier)
  end.

(** The new value of Rn, from Mn, Rn and the modifier. *)
Definition modulo_value (m_reg rn modifier : Z) : Z :=
  let orig_modifier := modifier in
  let modulo := u16 (m_reg + 1) in
  let '(bufsize, bufmask) := buffer_size 16 modulo 1 (BITMASK 16) in
  let lobound := u16 (rn .& bufmask) in
  let hibound := u16 (lobound + modulo - 1) in
  let r_reg := s16 rn in
  let '(r_reg, modifier) :=
    if modulo <? orig_modifier then
      let '(r_reg, modifier) := skip_forward (Z.to_nat modifier) bufsize r_reg modifier in
      skip_backward (Z.to_nat (- modifier)) bufsize r_reg modifier
    else (r_reg, modifier) in
  let r_reg := s16 (r_reg + modifier) in
  let r_reg :=
    if negb (orig_modifier =? modulo) then
      if hibound <? r_reg then s16 (r_reg - modulo)
      else if r_reg <? lobound then s16 (r_reg + modulo)
      else r_reg
    else r_reg in
  u32 r_reg .& BITMASK 16.

Definition dsp_update_rn_modulo (numreg modifier : Z) : C unit :=
  let* m_reg := rd (DSP_REG_M0 + numreg) in
  let* r_reg := rd (DSP_REG_R0 + numreg) in
  wr (DSP_REG_R0 + numreg) (modulo_value m_reg r_reg (s16 modifier)).

Definition linear_value (rn modifier : Z) : Z :=
  u32 (s16 (s16 rn + modifier)) .& BITMASK 16.

Definition dsp_update_rn (numreg modifier : Z) : C unit :=
  let modifier := s16 modifier in
  let* m := rd (DSP_REG_M0 + numreg) in
  let m_reg := u16 m in
  if m_reg =? 0 then dsp_update_rn_bitreverse numreg
  else if (1 <=? m_reg) && (m_reg <=? 32767) then dsp_update_rn_modulo numreg modifier
  else if m_reg =? 65535 then
    let* r := rd (DSP_REG_R0 + numreg) in
    wr (DSP_REG_R0 + numreg) (linear_value r modifier)
  else ret tt.

(** Returns [(retour, *dst_addr)]. *)
Definition dsp_calc_ea (ea_mode : Z) : C (Z * Z) :=
  let value := (ea_mode >> 3) .& BITMASK 3 in
  let numreg := ea_mode .& BITMASK 3 in
  let rn := DSP_REG_R0 + numreg in
  if value =? 0 then
    let* a := rd rn in
    let* n := rd (DSP_REG_N0 + numreg) in
    dsp_update_rn numreg (u32 (- n)) ;; ret (0, a)
  else if value =? 1 then
    let* a := rd rn in
    let* n := rd (DSP_REG_N0 + numreg) in
    dsp_update_rn numreg n ;; ret (0, a)
  else if value =? 2 then
    let* a := rd rn in dsp_update_rn numreg (-1) ;; ret (0, a)
  else if value =? 3 then
    let* a := rd rn in dsp_update_rn numreg 1 ;; ret (0, a)
  else if value =? 4 then
    let* a := rd rn in ret (0, a)
  else if value =? 5 then
    let* curreg := rd rn in
    let* n := rd (DSP_REG_N0 + numreg) in
    dsp_update_rn numreg n ;;
    let* a := rd rn in
    wr rn curreg ;; ret (0, a)
  else if value =? 6 then
    let* p := get_pc in
    let* a := fetch_p (p + 1) in
    let* len := get_inst_len in
    put_inst_len (len +u 1) ;;
    ret (c_bool (negb (numreg =? 0)), a)
  else
    dsp_update_rn numreg (-1) ;;
    let* a := rd rn in ret (0, a).

(** The address alone, where the caller ignores the result. *)
Definition calc_ea_addr (ea_mode : Z) : C Z :=
  let* '(_, a) := dsp_calc_ea ea_mode in ret a.

(** ** Condition code test *)

Abbreviation DSP_SR_NV := 8 (only parsing).
Abbreviation DSP_SR_ZUE := 9 (only parsing).
Abbreviation DSP_SR_ZNV := 10 (only parsing).

Definition CCR_BIT (x y : Z) : Z := (x >> y) .& 1.

Definition cc_code_map : list Z :=
  [DSP_SR_C; DSP_SR_NV; DSP_SR_Z; DSP_SR_N; DSP_SR_ZUE; DSP_SR_E; DSP_SR_L; DSP_SR_ZNV].

Definition calc_cc (sr cc_code : Z) : bool :=
  let value := sr .& BITMASK 8 in
  let value := value .| ((CCR_BIT value DSP_SR_N .^ CCR_BIT value DSP_SR_V) << DSP_SR_NV) in
  let value := value .| (((CCR_BIT value DSP_SR_Z
      .| (Z.lnot (CCR_BIT value DSP_SR_U) .& Z.lnot (CCR_BIT value DSP_SR_E))) .& 1)
      << DSP_SR_ZUE) in
  let value := value .| ((CCR_BIT value DSP_SR_Z .| CCR_BIT value DSP_SR_NV) << DSP_SR_ZNV) in
  CCR_BIT value (nth (Z.to_nat (cc_code .& BITMASK 3)) cc_code_map 0) =? (cc_code >> 3) .& 1.

Definition dsp_calc_cc (cc_code : Z) : C bool :=
  let* sr := rd DSP_REG_SR in ret (calc_cc sr cc_code).

(** ** Accumulator limiting *)

(** Reads an accumulator through the limiter and stores it through [dest];
    the result says whether it was limited, with the value stored (for a [dest]
    that is a local variable).  [dest] is stored before the status register is
    updated, as in the source. *)
Definition dsp_pm_read_accu24 (numreg : Z) (dest : Z → C unit) : C (bool * Z) :=
  let* sr := rd DSP_REG_SR in
  let scaling := ccr_scaling sr in
  let numreg := numreg .& 1 in
  let* a2 := rd (DSP_REG_A2 + numreg) in
  let* a1 := rd (DSP_REG_A1 + numreg) in
  let value := a2 .& 0xff in
  let '(value, numbits) :=
    if scaling =? 0 then ((value << 1) .| ((a1 >> 23) .& 1), 9)
    else if scaling =? 2 then ((value << 2) .| ((a1 >> 22) .& 3), 10)
    else (value, 8) in
  if (value =? 0) || (value =? BITMASK numbits) then
    dest a1 ;; ret (false, a1)
  else if tst a2 (1 << 7) then
    dest 0x00800000 ;; upd DSP_REG_SR (λ x, x .| (1 << DSP_SR_L)) ;; ret (true, 0x00800000)
  else
    dest 0x007fffff ;; upd DSP_REG_SR (λ x, x .| (1 << DSP_SR_L)) ;; ret (true, 0x007fffff).
