(* ===== verification/Control.v ===== *)
(** * Instructions without parallel moves

    Bit manipulation, jumps and subroutines, hardware loops, control register
    moves, peripheral moves, DIV, NORM and Tcc of [src/dsp_cpu.c].  An
    instruction reads [cur_inst] and acts on the state; a jump sets
    [cur_inst_len] to 0 so that the PC is not advanced afterwards. *)

From S2P Require Import Prelude Effects DspCore Arith56 Cpu.
From stdpp Require Import base gmap list numbers.
Open Scope Z_scope.
Open Scope c_scope.
Open Scope eff_scope.

Definition is_accu (numreg : Z) : bool := (numreg =? DSP_REG_A) || (numreg =? DSP_REG_B).

(** [registers[DSP_REG_SR] &= BITMASK(16)-m; registers[DSP_REG_SR] |= v]. *)
Definition sr_assign (m v sr : Z) : Z := (sr .& (BITMASK 16 - m)) .| v.

(** Sign extension of a 24-bit value in bits 47..24. *)
Definition sign_ext (value : Z) : Z := if tst value (1 << 23) then 0xff else 0.

(** Load of a 24-bit value in an accumulator, sign extended. *)
Definition load_accu (numreg value : Z) : C unit :=
  wr (DSP_REG_A2 + (numreg .& 1)) 0 ;;
  when (tst value (1 << 23)) (wr (DSP_REG_A2 + (numreg .& 1)) 0xff) ;;
  wr (DSP_REG_A1 + (numreg .& 1)) (value .& BITMASK 24) ;;
  wr (DSP_REG_A0 + (numreg .& 1)) 0.

(** The value of a source register, limited if it is an accumulator. *)
Definition read_source (numreg : Z) : C Z :=
  if is_accu numreg then
    let* '(_, value) := dsp_pm_read_accu24 numreg to_local in ret value
  else rd numreg.

Definition dsp_undefined : C unit := put_inst_len 0.

Definition dsp_nop : C unit := ret tt.
Definition dsp_illegal : C unit := ret tt.
Definition dsp_reset : C unit := ret tt.

Definition dsp_andi : C unit :=
  let* inst := get_inst in
  let value := (inst >> 8) .& BITMASK 8 in
  let regnum := inst .& BITMASK 2 in
  if regnum =? 0 then upd DSP_REG_SR (λ x, x .& ((value << 8) .| BITMASK 8))
  else if regnum =? 1 then upd DSP_REG_SR (λ x, x .& ((BITMASK 8 << 8) .| value))
  else if regnum =? 2 then upd DSP_REG_OMR (λ x, x .& value)
  else ret tt.

Definition dsp_ori : C unit :=
  let* inst := get_inst in
  let value := (inst >> 8) .& BITMASK 8 in
  let regnum := inst .& BITMASK 2 in
  if regnum =? 0 then upd DSP_REG_SR (λ x, x .| (value << 8))
  else if regnum =? 1 then upd DSP_REG_SR (λ x, x .| value)
  else if regnum =? 2 then upd DSP_REG_OMR (λ x, x .| value)
  else ret tt.

(** ** Bit instructions *)

(** Operand fields shared by the bit instructions and the bit jumps. *)
Definition bit_memspace (inst : Z) : Z := (inst >> 6) .& 1.
Definition bit_value (inst : Z) : Z := (inst >> 8) .& BITMASK 6.
Definition bit_number (inst : Z) : Z := inst .& BITMASK 5.
Definition bit_mode (inst : Z) : Z := (inst >> 14) .& BITMASK 2.

(** The address of the operand: aa, ea or pp (modes 0, 1 and 2). *)
Definition bit_addr (inst : Z) : C Z :=
  if bit_mode inst =? 0 then ret (bit_value inst)
  else if bit_mode inst =? 1 then calc_ea_addr (bit_value inst)
  else ret (0xffc0 + bit_value inst).

(** The register operand of mode 3: A and B stand for A1 and B1. *)
Definition bit_reg (inst : Z) : Z :=
  let numreg := bit_value inst in
  if is_accu numreg then DSP_REG_A1 + (numreg .& 1) else numreg.

Definition set_carry (newcarry : Z) : C unit :=
  upd DSP_REG_SR (sr_assign (1 << DSP_SR_C) (newcarry << DSP_SR_C)).

(** BCHG, BCLR and BSET differ in the new value and in the extension byte
    written when bit 23 of A or B changes. *)
Definition bit_instruction (newvalue : Z → Z → Z → Z) (ext : Z → Z) : C unit :=
  let* inst := get_inst in
  let memspace := bit_memspace inst in
  let numbit := bit_number inst in
  if bit_mode inst =? 3 then
    let srcreg := bit_value inst in
    let numreg := bit_reg inst in
    let* value := rd numreg in
    let newcarry := (value >> numbit) .& 1 in
    wr numreg (newvalue newcarry numbit value) ;;
    when (is_accu srcreg && (numbit =? 23))
      (wr (DSP_REG_A2 + (srcreg .& 1)) (ext newcarry)) ;;
    set_carry newcarry
  else
    let* addr := bit_addr inst in
    let* value := read_memory memspace addr in
    let newcarry := (value >> numbit) .& 1 in
    write_memory memspace addr (newvalue newcarry numbit value) ;;
    set_carry newcarry.

Definition dsp_bchg : C unit :=
  bit_instruction
    (λ newcarry numbit value,
       if negb (newcarry =? 0) then value -u (1 << numbit) else value +u (1 << numbit))
    (λ newcarry, if negb (newcarry =? 0) then 0x00 else 0xff).

Definition dsp_bclr : C unit :=
  bit_instruction
    (λ _ numbit value, value .& (0xffffffff -u (1 << numbit)))
    (λ _, 0x00).

Definition dsp_bset : C unit :=
  bit_instruction
    (λ _ numbit value, value .| (1 << numbit))
    (λ _, 0xff).

Definition dsp_btst : C unit :=
  let* inst := get_inst in
  let numbit := bit_number inst in
  let* value :=
    (if bit_mode inst =? 3 then rd (bit_reg inst)
     else let* addr := bit_addr inst in read_memory (bit_memspace inst) addr) in
  set_carry ((value >> numbit) .& 1).

(** The operand of a bit jump, with the address and space it was read from
    (the source's invalid values for a register). *)
Definition bit_jump_operand (inst : Z) : C (Z * Z * Z) :=
  if bit_mode inst =? 3 then
    let* value := rd (bit_reg inst) in ret (value, 0xffff0000, 0xffff0000)
  else
    let* addr := bit_addr inst in
    let* value := read_memory (bit_memspace inst) addr in
    ret (value, addr, bit_memspace inst).

Definition inc_inst_len : C unit := let* len := get_inst_len in put_inst_len (len +u 1).

(** [for (i=newpc; i<pc; i++)]: only NOPs from the jump address to [pc]? *)
Fixpoint only_nops (fuel : nat) (c : dsp_core_t) (i : Z) : bool :=
  match fuel with
  | O => true
  | S fuel => if negb (read_memory_p i c =? 0) then false else only_nops fuel c (i + 1)
  end.

(** Does the jump to [newpc] only poll the tested bit? *)
Definition polling_loop (c : dsp_core_t) (newpc : Z) : bool :=
  let pollingLoop := newpc =? pc c in
  let pollingLoop :=
    if negb pollingLoop && (newpc <? pc c) then only_nops (Z.to_nat (pc c - newpc)) c newpc
    else pollingLoop in
  if negb pollingLoop && (newpc +u 2 =? pc c) then
    (read_memory_p newpc c =? 0x08f4a0) && (read_memory_p (newpc + 1) c =? 0x000001)
  else pollingLoop.

Definition dsp_jclr : C unit :=
  let* inst := get_inst in
  let numbit := bit_number inst in
  let* '(value, addr, memspace) := bit_jump_operand inst in
  inc_inst_len ;;
  when (value .& (1 << numbit) =? 0)
    (let* p := get_pc in
     let* newpc := fetch_p (p + 1) in
     let* pollingLoop := gets (λ s, polling_loop (core s) newpc) in
     when (pollingLoop && (memspace =? DSP_SPACE_X) && (addr =? 0xffc0 + DSP_HOST_HSR))
       (when (numbit =? DSP_HOST_HSR_HRDF) (on_core pauseThread) ;;
        when (numbit =? DSP_HOST_HSR_HTDE) (on_core pauseThread)) ;;
     put_pc newpc ;;
     put_inst_len 0).

Definition dsp_jset : C unit :=
  let* inst := get_inst in
  let numbit := bit_number inst in
  let* '(value, _, _) := bit_jump_operand inst in
  inc_inst_len ;;
  when (tst value (1 << numbit))
    (let* p := get_pc in
     let* newpc := fetch_p (p + 1) in
     put_pc newpc ;;
     put_inst_len 0).

(** Push the return address and the status register. *)
Definition push_return : C unit :=
  let* p := get_pc in
  let* len := get_inst_len in
  let* sr := rd DSP_REG_SR in
  dsp_stack_push (p +u len) sr.

Definition bit_jump_sub (taken : Z → Z → bool) : C unit :=
  let* inst := get_inst in
  let numbit := bit_number inst in
  let* '(value, _, _) := bit_jump_operand inst in
  inc_inst_len ;;
  when (taken value numbit)
    (push_return ;;
     let* p := get_pc in
     let* newpc := fetch_p (p + 1) in
     put_pc newpc ;;
     put_inst_len 0).

Definition dsp_jsclr : C unit := bit_jump_sub (λ value numbit, value .& (1 << numbit) =? 0).
Definition dsp_jsset : C unit := bit_jump_sub (λ value numbit, tst value (1 << numbit)).

(** ** Jumps and subroutines *)

Definition hibyte (inst : Z) : Z := (inst >> 16) .& BITMASK 8.

(** Target and condition of Jcc and JScc: [long] and [short] are the two
    opcodes with an effective address and with a 12-bit address. *)
Definition cond_target (long short inst : Z) : C (Z * Z) :=
  if hibyte inst =? long then
    let* newpc := calc_ea_addr ((inst >> 8) .& BITMASK 6) in
    ret (newpc, inst .& BITMASK 4)
  else if hibyte inst =? short then
    ret (inst .& BITMASK 12, (inst >> 12) .& BITMASK 4)
  else let* p := get_pc in ret (p, 0).

Definition dsp_jcc : C unit :=
  let* inst := get_inst in
  let* '(newpc, cc_code) := cond_target 0x0a 0x0e inst in
  let* cc := dsp_calc_cc cc_code in
  when cc (put_pc newpc ;; put_inst_len 0).

Definition dsp_jscc : C unit :=
  let* inst := get_inst in
  let* '(newpc, cc_code) := cond_target 0x0b 0x0f inst in
  let* cc := dsp_calc_cc cc_code in
  when cc (push_return ;; put_pc newpc ;; put_inst_len 0).

Definition dsp_jmp : C unit :=
  let* inst := get_inst in
  let* newpc :=
    (if hibyte inst =? 0x0a then calc_ea_addr ((inst >> 8) .& BITMASK 6)
     else if hibyte inst =? 0x0c then ret (inst .& BITMASK 12)
     else get_pc) in
  put_inst_len 0 ;;
  let* p := get_pc in
  if newpc =? p then on_core pauseThread else put_pc newpc.

Definition dsp_jsr : C unit :=
  let* inst := get_inst in
  let* newpc :=
    (if (inst >> 12) .& BITMASK 4 =? 0 then ret (inst .& BITMASK 12)
     else calc_ea_addr ((inst >> 8) .& BITMASK 6)) in
  let* state := gets (λ s, interrupt_state (core s)) in
  (if negb (state =? DSP_INTERRUPT_LONG) then push_return
   else mod_core (set_interrupt_state DSP_INTERRUPT_NONE)) ;;
  put_pc newpc ;;
  put_inst_len 0.

(** [newpc] and [newsr] start at 0: an empty stack leaves them. *)
Definition dsp_rti : C unit :=
  let* popped := dsp_stack_pop to_local to_local in
  let '(newpc, newsr) := default (0, 0) popped in
  put_pc newpc ;;
  wr DSP_REG_SR newsr ;;
  put_inst_len 0.

Definition dsp_rts : C unit :=
  let* popped := dsp_stack_pop to_local to_local in
  let '(newpc, _) := default (0, 0) popped in
  put_pc newpc ;;
  put_inst_len 0.

Definition dsp_stop : C unit := on_core pauseThread.
Definition dsp_wait : C unit := on_core pauseThread.
Definition dsp_swi : C unit := mod_core (set_swi_inter 1).

(** ** Hardware loops *)

Definition imm12 (inst : Z) : Z := ((inst >> 8) .& BITMASK 8) +u ((inst .& BITMASK 4) << 8).

Definition dsp_do_aa : C unit :=
  let* inst := get_inst in
  let* v := read_memory ((inst >> 6) .& 1) ((inst >> 8) .& BITMASK 6) in
  wr DSP_REG_LC (v .& BITMASK 16).

Definition dsp_do_imm : C unit := let* inst := get_inst in wr DSP_REG_LC (imm12 inst).

Definition dsp_do_ea : C unit :=
  let* inst := get_inst in
  let* addr := calc_ea_addr ((inst >> 8) .& BITMASK 6) in
  let* v := read_memory ((inst >> 6) .& 1) addr in
  wr DSP_REG_LC (v .& BITMASK 16).

Definition dsp_do_reg : C unit :=
  let* inst := get_inst in
  let numreg := (inst >> 8) .& BITMASK 6 in
  (if is_accu numreg then dsp_pm_read_accu24 numreg (wr DSP_REG_LC) ;; ret tt
   else let* v := rd numreg in wr DSP_REG_LC v) ;;
  upd DSP_REG_LC (λ x, x .& BITMASK 16).

Definition loop_mode (inst : Z) : Z :=
  (((inst >> 14) .& BITMASK 2) << 1) .| ((inst >> 7) .& 1).

Definition opcodes_do : list (C unit) :=
  [dsp_do_aa; dsp_do_imm; dsp_do_ea; dsp_do_imm;
   dsp_undefined; dsp_do_imm; dsp_do_reg; dsp_do_imm].

(** A call through a table of functions. *)
Definition dispatch (table : list (C unit)) (i : Z) : C unit :=
  match table !! Z.to_nat i with Some f => f | None => undefined Oob_table end.

Definition dsp_do : C unit :=
  let* inst := get_inst in
  let* la := rd DSP_REG_LA in
  let* lc := rd DSP_REG_LC in
  dsp_stack_push la lc ;;
  let* p := get_pc in
  let* newla := fetch_p (p + 1) in
  wr DSP_REG_LA (newla .& BITMASK 16) ;;
  inc_inst_len ;;
  push_return ;;
  upd DSP_REG_SR (λ x, x .| (1 << DSP_SR_LF)) ;;
  dispatch opcodes_do (loop_mode inst).

(** Pop the loop's return address and SR, then the outer LA and LC. *)
Definition dsp_enddo : C unit :=
  dsp_stack_pop to_local (wr DSP_REG_SR) ;;
  dsp_stack_pop (wr DSP_REG_LA) (wr DSP_REG_LC) ;;
  ret tt.

Definition dsp_rep_aa : C unit :=
  let* inst := get_inst in
  let* v := read_memory ((inst >> 6) .& 1) ((inst >> 8) .& BITMASK 6) in
  wr DSP_REG_LC v.

Definition dsp_rep_imm : C unit := let* inst := get_inst in wr DSP_REG_LC (imm12 inst).

Definition dsp_rep_ea : C unit :=
  let* inst := get_inst in
  let* addr := calc_ea_addr ((inst >> 8) .& BITMASK 6) in
  let* v := read_memory ((inst >> 6) .& 1) addr in
  wr DSP_REG_LC v.

Definition dsp_rep_reg : C unit :=
  let* inst := get_inst in
  let numreg := (inst >> 8) .& BITMASK 6 in
  (if is_accu numreg then dsp_pm_read_accu24 numreg (wr DSP_REG_LC) ;; ret tt
   else let* v := rd numreg in wr DSP_REG_LC v) ;;
  upd DSP_REG_LC (λ x, x .& BITMASK 16).

Definition opcodes_rep : list (C unit) :=
  [dsp_rep_aa; dsp_rep_imm; dsp_rep_ea; dsp_rep_imm;
   dsp_undefined; dsp_rep_imm; dsp_rep_reg; dsp_rep_imm].

Definition dsp_rep : C unit :=
  let* inst := get_inst in
  let* lc := rd DSP_REG_LC in
  wr DSP_REG_LCSAVE lc ;;
  dispatch opcodes_rep (loop_mode inst) ;;
  modify (set_pc_on_rep 1) ;;
  mod_core (set_loop_rep 1).

(** ** Moves *)

Definition dsp_lua : C unit :=
  let* inst := get_inst in
  let srcreg := (inst >> 8) .& BITMASK 3 in
  let* srcsave := rd (DSP_REG_R0 + srcreg) in
  dsp_calc_ea ((inst >> 8) .& BITMASK 5) ;;
  let* srcnew := rd (DSP_REG_R0 + srcreg) in
  wr (DSP_REG_R0 + srcreg) srcsave ;;
  let dstreg := inst .& BITMASK 3 in
  if tst inst (1 << 3) then wr (DSP_REG_N0 + dstreg) srcnew
  else wr (DSP_REG_R0 + dstreg) srcnew.

Definition dsp_movec_reg : C unit :=
  let* inst := get_inst in
  let numreg2 := (inst >> 8) .& BITMASK 6 in
  let numreg1 := inst .& BITMASK 6 in
  if tst inst (1 << 15) then
    (if is_accu numreg2 then dsp_pm_read_accu24 numreg2 (wr numreg1) ;; ret tt
     else let* v := rd numreg2 in wr numreg1 v) ;;
    upd numreg1 (λ x, x .& reg_mask numreg1)
  else if is_accu numreg2 then
    let* value := rd numreg1 in load_accu numreg2 value
  else
    let* v := rd numreg1 in
    wr numreg2 v ;;
    upd numreg2 (λ x, x .& reg_mask numreg2).

Definition dsp_movec_aa : C unit :=
  let* inst := get_inst in
  let numreg := inst .& BITMASK 6 in
  let addr := (inst >> 8) .& BITMASK 6 in
  let memspace := (inst >> 6) .& 1 in
  if tst inst (1 << 15) then
    let* v := read_memory memspace addr in
    wr numreg v ;;
    upd numreg (λ x, x .& reg_mask numreg)
  else let* v := rd numreg in write_memory memspace addr v.

Definition dsp_movec_imm : C unit :=
  let* inst := get_inst in
  wr (inst .& BITMASK 6) ((inst >> 8) .& BITMASK 8).

Definition dsp_movec_ea : C unit :=
  let* inst := get_inst in
  let numreg := inst .& BITMASK 6 in
  let ea_mode := (inst >> 8) .& BITMASK 6 in
  let memspace := (inst >> 6) .& 1 in
  if tst inst (1 << 15) then
    let* '(retour, addr) := dsp_calc_ea ea_mode in
    (if negb (retour =? 0) then wr numreg addr
     else let* v := read_memory memspace addr in wr numreg v) ;;
    upd numreg (λ x, x .& reg_mask numreg)
  else
    let* '(_, addr) := dsp_calc_ea ea_mode in
    let* v := rd numreg in write_memory memspace addr v.

Definition opcodes_movec : list (C unit) :=
  [dsp_undefined; dsp_undefined; dsp_undefined; dsp_movec_reg;
   dsp_movec_aa; dsp_movec_ea; dsp_movec_imm; dsp_movec_imm].

Definition dsp_movec : C unit :=
  let* inst := get_inst in
  dispatch opcodes_movec (((inst >> 14) .& 5) .| ((inst >> 6) .& (1 << 1))).

Definition dsp_movem : C unit :=
  let* inst := get_inst in
  let numreg := inst .& BITMASK 6 in
  let* addr :=
    (if tst inst (1 << 14) then calc_ea_addr ((inst >> 8) .& BITMASK 6)
     else ret ((inst >> 8) .& BITMASK 6)) in
  if tst inst (1 << 15) then
    let* value := fetch_p addr in
    if is_accu numreg then load_accu numreg value
    else wr numreg value ;; upd numreg (λ x, x .& reg_mask numreg)
  else
    let* value := read_source numreg in
    write_memory DSP_SPACE_P addr value.

(** ** Peripheral moves *)

Definition dsp_movep_0 : C unit :=
  let* inst := get_inst in
  let addr := 0xffc0 + (inst .& BITMASK 6) in
  let memspace := (inst >> 16) .& 1 in
  let numreg := (inst >> 8) .& BITMASK 6 in
  if tst inst (1 << 15) then
    let* value := read_source numreg in
    write_memory memspace addr value
  else
    let* value := read_memory memspace addr in
    if is_accu numreg then load_accu numreg value
    else wr numreg value ;; upd numreg (λ x, x .& reg_mask numreg).

Definition dsp_movep_1 : C unit :=
  let* inst := get_inst in
  let xyaddr := 0xffc0 + (inst .& BITMASK 6) in
  let* paddr := calc_ea_addr ((inst >> 8) .& BITMASK 6) in
  let memspace := (inst >> 16) .& 1 in
  if tst inst (1 << 15) then
    let* v := fetch_p paddr in write_memory memspace xyaddr v
  else
    let* v := read_memory memspace xyaddr in write_memory DSP_SPACE_P paddr v.

Definition dsp_movep_2 : C unit :=
  let* inst := get_inst in
  let peraddr := 0xffc0 + (inst .& BITMASK 6) in
  let perspace := (inst >> 16) .& 1 in
  let ea_mode := (inst >> 8) .& BITMASK 6 in
  let easpace := (inst >> 6) .& 1 in
  let* '(retour, addr) := dsp_calc_ea ea_mode in
  if tst inst (1 << 15) then
    if negb (retour =? 0) then write_memory perspace peraddr addr
    else let* v := read_memory easpace addr in write_memory perspace peraddr v
  else
    let* v := read_memory perspace peraddr in write_memory easpace addr v.

Definition opcodes_movep : list (C unit) :=
  [dsp_movep_0; dsp_movep_1; dsp_movep_2; dsp_movep_2].

Definition dsp_movep : C unit :=
  let* inst := get_inst in
  dispatch opcodes_movep ((inst >> 6) .& BITMASK 2).

(** ** Division step, normalisation step and conditional transfer *)

Definition div_srcreg (inst : Z) : Z :=
  let v := (inst >> 4) .& BITMASK 2 in
  if v =? 0 then DSP_REG_X0
  else if v =? 1 then DSP_REG_Y0
  else if v =? 2 then DSP_REG_X1
  else DSP_REG_Y1.

(** The division step on the accumulator; returns it with the flags of the
    shift.  [carry] is the C bit before the instruction. *)
Definition div_step (src carry : Z) (dest : a56) : a56 * Z :=
  let source := A56 (sign_ext src) src 0 in
  let '(shifted, newsr) := dsp_asl56 dest in
  let d :=
    if negb (((w0 dest >> 7) .& 1) .^ ((src >> 23) .& 1) =? 0)
    then fst (dsp_add56 source shifted)
    else fst (dsp_sub56 source shifted) in
  (A56 (w0 d) (w1 d) (w2 d .| carry), newsr).

Definition dsp_div : C unit :=
  let* inst := get_inst in
  let destreg := (inst >> 3) .& 1 in
  let* src := rd (div_srcreg inst) in
  let* dest := rd_accu destreg in
  let* sr := rd DSP_REG_SR in
  let '(d, newsr) := div_step src ((sr >> DSP_SR_C) .& 1) dest in
  wr_accu destreg d ;;
  upd DSP_REG_SR (λ x,
    let x := sr_assign ((1 << DSP_SR_C) .| (1 << DSP_SR_V))
               ((1 -u ((w0 d >> 7) .& 1)) << DSP_SR_C) x in
    let x := x .| (newsr .& (1 << DSP_SR_L)) in
    x .| (newsr .& (1 << DSP_SR_V))).

Definition norm_euz (sr : Z) : Z :=
  let cur_e := (sr >> DSP_SR_E) .& 1 in
  u32 (Z.lnot cur_e) .& ((sr >> DSP_SR_U) .& 1)
  .& u32 (Z.lnot ((sr >> DSP_SR_Z) .& 1)) .& 1.

Definition dsp_norm : C unit :=
  let* inst := get_inst in
  let* cursr := rd DSP_REG_SR in
  let cur_e := (cursr >> DSP_SR_E) .& 1 in
  let cur_euz := norm_euz cursr in
  let numreg := (inst >> 3) .& 1 in
  let rreg := DSP_REG_R0 + ((inst >> 8) .& BITMASK 3) in
  let* dest := rd_accu numreg in
  let* '(dest, newsr) :=
    (if negb (cur_euz =? 0) then
       upd rreg (λ x, (x -u 1) .& BITMASK 16) ;; ret (dsp_asl56 dest)
     else if negb (cur_e =? 0) then
       upd rreg (λ x, (x +u 1) .& BITMASK 16) ;; ret (dsp_asr56 dest)
     else ret (dest, 0)) in
  wr_accu numreg dest ;;
  upd DSP_REG_SR (ccr_all dest) ;;
  upd DSP_REG_SR (sr_assign ((1 << DSP_SR_V) .| (1 << DSP_SR_C)) newsr).

Definition registers_tcc : list (Z * Z) :=
  [(DSP_REG_B, DSP_REG_A); (DSP_REG_A, DSP_REG_B);
   (DSP_REG_NULL, DSP_REG_NULL); (DSP_REG_NULL, DSP_REG_NULL);
   (DSP_REG_NULL, DSP_REG_NULL); (DSP_REG_NULL, DSP_REG_NULL);
   (DSP_REG_NULL, DSP_REG_NULL); (DSP_REG_NULL, DSP_REG_NULL);
   (DSP_REG_X0, DSP_REG_A); (DSP_REG_X0, DSP_REG_B);
   (DSP_REG_Y0, DSP_REG_A); (DSP_REG_Y0, DSP_REG_B);
   (DSP_REG_X1, DSP_REG_A); (DSP_REG_X1, DSP_REG_B);
   (DSP_REG_Y1, DSP_REG_A); (DSP_REG_Y1, DSP_REG_B)].

(** [tmp_parmove_src[i][j] = v]. *)
Definition st_src (i j v : Z) : C unit :=
  if in_range 0 2 i && in_range 0 3 j
  then modify (λ s, set_tmp_parmove_src (aset (i, j) v (tmp_parmove_src s)) s)
  else undefined Oob_parmove.
Definition ld_src (i j : Z) : C Z :=
  if in_range 0 2 i && in_range 0 3 j
  then gets (λ s, aget (tmp_parmove_src s) (i, j)) else undefined Oob_parmove.

Definition dsp_tcc : C unit :=
  let* inst := get_inst in
  let cc_code := (inst >> 12) .& BITMASK 4 in
  let* cc := dsp_calc_cc cc_code in
  when cc
    (let '(regsrc1, regdest1) :=
       nth (Z.to_nat ((inst >> 3) .& BITMASK 4)) registers_tcc (DSP_REG_NULL, DSP_REG_NULL) in
     (if is_accu regsrc1 then
        let* a := rd_accu (regsrc1 .& 1) in
        st_src 0 0 (w0 a) ;; st_src 0 1 (w1 a) ;; st_src 0 2 (w2 a)
      else
        let* value := rd regsrc1 in
        st_src 0 0 (sign_ext value) ;; st_src 0 1 value ;; st_src 0 2 0) ;;
     let* x0 := ld_src 0 0 in
     let* x1 := ld_src 0 1 in
     let* x2 := ld_src 0 2 in
     wr_accu (regdest1 .& 1) (A56 x0 x1 x2) ;;
     when (tst inst (1 << 16))
       (let* v := rd (DSP_REG_R0 + ((inst >> 8) .& BITMASK 3)) in
        wr (DSP_REG_R0 + (inst .& BITMASK 3)) v)).
