(* ===== verification/ParMove.v ===== *)
(** * Parallel moves

    An ALU instruction of the DSP carries up to two data moves.  The emulator
    first reads all their sources into [tmp_parmove_*] ([dsp_parmove_read]),
    executes the ALU operation, then writes the destinations
    ([dsp_parmove_write]).  This file models that part of [src/dsp_cpu.c]. *)

From S2P Require Import Prelude Effects DspCore Arith56 Cpu Control.
From stdpp Require Import base gmap list numbers.
Open Scope Z_scope.
Open Scope c_scope.
Open Scope eff_scope.

(** Stores to the static arrays; the row is always a constant 0 or 1. *)
Definition st_dest (i j : Z) (d : parmove_dest_u) : C unit :=
  modify (λ s, set_tmp_parmove_dest (<[(i, j) := d]> (tmp_parmove_dest s)) s).
Definition st_start (i v : Z) : C unit :=
  modify (λ s, set_tmp_parmove_start (aset i v (tmp_parmove_start s)) s).
Definition st_len (i v : Z) : C unit :=
  modify (λ s, set_tmp_parmove_len (aset i v (tmp_parmove_len s)) s).
Definition st_type (i v : Z) : C unit :=
  modify (λ s, set_tmp_parmove_type (aset i v (tmp_parmove_type s)) s).
Definition st_space (i v : Z) : C unit :=
  modify (λ s, set_tmp_parmove_space (aset i v (tmp_parmove_space s)) s).

(** ** Writing the destinations *)

Definition parmove_write_one (i j : Z) : C unit :=
  let* ty := gets (λ s, aget (tmp_parmove_type s) i) in
  let* src := ld_src i j in
  let* dest := gets (λ s, tmp_parmove_dest s !! (i, j)) in
  if negb (ty =? 0) then
    match dest with
    | Some (dsp_address a) =>
        let* space := gets (λ s, aget (tmp_parmove_space s) i) in
        write_memory space a src
    | _ => undefined Bad_union
    end
  else
    match dest with
    | Some (host_pointer n) => wr n src
    | _ => undefined Bad_union
    end.

(** [for (j=start; j<start+len; j++)] *)
Fixpoint parmove_write_loop (fuel : nat) (i j : Z) : C unit :=
  match fuel with
  | O => ret tt
  | S fuel => parmove_write_one i j ;; parmove_write_loop fuel i (j + 1)
  end.

Definition parmove_write_row (i : Z) : C unit :=
  let* len := gets (λ s, aget (tmp_parmove_len s) i) in
  let* start := gets (λ s, aget (tmp_parmove_start s) i) in
  parmove_write_loop (Z.to_nat len) i start.

Definition dsp_parmove_write : C unit :=
  parmove_write_row 0 ;; parmove_write_row 1.

(** ** Setting up the moves *)

Definition dsp_pm_writereg (numreg position : Z) : C unit :=
  if is_accu numreg then
    st_dest position 0 (host_pointer (DSP_REG_A2 + (numreg .& 1))) ;;
    st_dest position 1 (host_pointer (DSP_REG_A1 + (numreg .& 1))) ;;
    st_dest position 2 (host_pointer (DSP_REG_A0 + (numreg .& 1))) ;;
    st_start position 0 ;;
    st_len position 3
  else
    st_dest position 1 (host_pointer numreg) ;;
    st_start position 1 ;;
    st_len position 1.

(** Sources and destination of a move of the 24-bit [value] to a register. *)
Definition pm_to_reg (position numreg value : Z) : C unit :=
  st_src position 0 (sign_ext value) ;;
  st_src position 1 (value .& reg_mask numreg) ;;
  st_src position 2 0x000000 ;;
  dsp_pm_writereg numreg position ;;
  st_type position 0.

(** Source register of a move to memory, limited if it is an accumulator. *)
Definition pm_from_reg (position numreg : Z) : C unit :=
  if is_accu numreg then dsp_pm_read_accu24 numreg (st_src position 1) ;; ret tt
  else let* v := rd numreg in st_src position 1 v.

(** Destination of a move of one word to memory. *)
Definition pm_to_mem (position space addr : Z) : C unit :=
  st_dest position 1 (dsp_address addr) ;;
  st_start position 1 ;;
  st_len position 1 ;;
  st_type position 1 ;;
  st_space position space.

Definition dsp_pm_0 : C unit :=
  let* inst := get_inst in
  let memspace := (inst >> 15) .& 1 in
  let numreg := (inst >> 16) .& 1 in
  let* dummy := calc_ea_addr ((inst >> 8) .& BITMASK 6) in
  dsp_pm_read_accu24 numreg (st_src 0 1) ;;
  pm_to_mem 0 memspace dummy ;;
  let* value := rd (DSP_REG_X0 + (memspace << 1)) in
  st_src 1 0 (sign_ext value) ;;
  st_src 1 1 value ;;
  st_src 1 2 0x000000 ;;
  st_dest 1 0 (host_pointer (DSP_REG_A2 + numreg)) ;;
  st_dest 1 1 (host_pointer (DSP_REG_A1 + numreg)) ;;
  st_dest 1 2 (host_pointer (DSP_REG_A0 + numreg)) ;;
  st_start 1 0 ;;
  st_len 1 3 ;;
  st_type 1 0.

(** The register selected by a two-bit field: 0 and 1 are [first] and the next
    one, 2 is A and 3 is B. *)
Definition pm_xy_reg (r0 r1 field : Z) : Z :=
  if field =? 0 then r0 else if field =? 1 then r1
  else if field =? 2 then DSP_REG_A else DSP_REG_B.

Definition dsp_pm_1 : C unit :=
  let* inst := get_inst in
  let* '(retour, xy_addr) := dsp_calc_ea ((inst >> 8) .& BITMASK 6) in
  let memspace := (inst >> 14) .& 1 in
  let y := negb (memspace =? 0) in
  let numreg :=
    if y then pm_xy_reg DSP_REG_Y0 DSP_REG_Y1 ((inst >> 16) .& BITMASK 2)
    else pm_xy_reg DSP_REG_X0 DSP_REG_X1 ((inst >> 18) .& BITMASK 2) in
  (if tst inst (1 << 15) then
     let* value :=
       (if negb (retour =? 0) then ret xy_addr else read_memory memspace xy_addr) in
     pm_to_reg 0 numreg value
   else
     pm_from_reg 0 numreg ;;
     pm_to_mem 0 memspace xy_addr) ;;
  let numreg := if y then DSP_REG_A + ((inst >> 19) .& 1) else DSP_REG_A + ((inst >> 17) .& 1) in
  dsp_pm_read_accu24 numreg (st_src 1 1) ;;
  let numreg := if y then DSP_REG_X0 + ((inst >> 18) .& 1) else DSP_REG_Y0 + ((inst >> 16) .& 1) in
  let* v := ld_src 1 1 in
  st_src 1 1 (v .& reg_mask numreg) ;;
  st_dest 1 1 (host_pointer numreg) ;;
  st_start 1 1 ;;
  st_len 1 1 ;;
  st_type 1 0.

Definition dsp_pm_2_2 : C unit :=
  let* inst := get_inst in
  let srcreg := (inst >> 13) .& BITMASK 5 in
  let dstreg := (inst >> 8) .& BITMASK 5 in
  st_src 0 2 0x000000 ;;
  st_src 0 1 0x000000 ;;
  st_src 0 0 0x000000 ;;
  (if is_accu srcreg then
     dsp_pm_read_accu24 srcreg (st_src 0 1) ;;
     let* v := ld_src 0 1 in
     when (tst v (1 << 23)) (st_src 0 0 0x0000ff)
   else
     let* r := rd srcreg in
     st_src 0 1 (r .& reg_mask srcreg) ;;
     when (is_accu dstreg)
       (let* v := ld_src 0 1 in
        when (tst v (1 << 23)) (st_src 0 0 0x0000ff))) ;;
  dsp_pm_writereg dstreg 0 ;;
  st_type 0 0.

Definition pm_3_left_aligned (dest : Z) : bool :=
  (dest =? DSP_REG_X0) || (dest =? DSP_REG_X1) || (dest =? DSP_REG_Y0) || (dest =? DSP_REG_Y1)
  || (dest =? DSP_REG_A) || (dest =? DSP_REG_B).

Definition dsp_pm_3 : C unit :=
  let* inst := get_inst in
  let dest := (inst >> 16) .& BITMASK 5 in
  let srcvalue := (inst >> 8) .& BITMASK 8 in
  let srcvalue := if pm_3_left_aligned dest then srcvalue << 16 else srcvalue in
  st_src 0 0 0x000000 ;;
  when (is_accu dest && tst srcvalue (1 << 23)) (st_src 0 0 0x0000ff) ;;
  st_src 0 1 (srcvalue .& reg_mask dest) ;;
  st_src 0 2 0x000000 ;;
  dsp_pm_writereg dest 0 ;;
  st_type 0 0.

Definition dsp_pm_2 : C unit :=
  let* inst := get_inst in
  if (inst >> 8) .& 0xffff =? 0x2000 then ret tt
  else if (inst >> 8) .& 0xffe0 =? 0x2040 then
    dsp_calc_ea ((inst >> 8) .& BITMASK 5) ;; ret tt
  else if (inst >> 8) .& 0xfc00 =? 0x2000 then dsp_pm_2_2
  else dsp_pm_3.

Definition registers_lmove : list (Z * Z) :=
  [(DSP_REG_A1, DSP_REG_A0); (DSP_REG_B1, DSP_REG_B0);
   (DSP_REG_X1, DSP_REG_X0); (DSP_REG_Y1, DSP_REG_Y0);
   (DSP_REG_A, DSP_REG_A); (DSP_REG_B, DSP_REG_B);
   (DSP_REG_A, DSP_REG_B); (DSP_REG_B, DSP_REG_A)].

(** Sources of a long move to memory. *)
Definition pm_4x_sources (numreg l0 l1 : Z) : C unit :=
  if numreg <? 4 then
    let* v0 := rd l0 in
    st_src 0 1 v0 ;;
    let* v1 := rd l1 in
    st_src 1 1 v1
  else if numreg <? 6 then
    let* '(limited, _) := dsp_pm_read_accu24 l0 (st_src 0 1) in
    if (limited : bool) then
      let* v := ld_src 0 1 in
      st_src 1 1 (if tst v (1 << 23) then 0 else 0xffffff)
    else
      let* v := rd (DSP_REG_A0 + (l0 .& 1)) in
      st_src 1 1 v
  else
    dsp_pm_read_accu24 l0 (st_src 0 1) ;;
    dsp_pm_read_accu24 l1 (st_src 1 1) ;;
    ret tt.

Definition dsp_pm_4x (immediat l_addr : Z) : C unit :=
  let* inst := get_inst in
  let l_addr := l_addr .& BITMASK 16 in
  let numreg := ((inst >> 16) .& BITMASK 2) .| ((inst >> 17) .& (1 << 2)) in
  let '(l0, l1) := nth (Z.to_nat numreg) registers_lmove (0, 0) in
  if tst inst (1 << 15) then
    let* value := read_memory DSP_SPACE_X l_addr in
    st_src 0 0 (sign_ext value) ;;
    st_src 0 1 (value .& reg_mask l0) ;;
    st_src 0 2 0x000000 ;;
    let* value := read_memory DSP_SPACE_Y l_addr in
    (if l0 =? l1 then st_src 0 2 (value .& reg_mask l1)
     else
       st_src 1 0 (sign_ext value) ;;
       st_src 1 1 (value .& reg_mask l1) ;;
       st_src 1 2 0x000000) ;;
    dsp_pm_writereg l0 0 ;;
    st_type 0 0 ;;
    when (negb (l0 =? l1)) (dsp_pm_writereg l1 1 ;; st_type 1 0)
  else
    pm_4x_sources numreg l0 l1 ;;
    pm_to_mem 0 DSP_SPACE_X l_addr ;;
    pm_to_mem 1 DSP_SPACE_Y l_addr.

(** The address of a move with an absolute or an effective address. *)
Definition pm_address (inst : Z) : C (Z * Z) :=
  let value := (inst >> 8) .& BITMASK 6 in
  if tst inst (1 << 14) then dsp_calc_ea value else ret (0, value).

Definition pm_numreg (inst : Z) : Z :=
  ((inst >> 16) .& BITMASK 3) .| ((inst >> 17) .& (BITMASK 2 << 3)).

Definition dsp_pm_5 : C unit :=
  let* inst := get_inst in
  let* '(retour, xy_addr) := pm_address inst in
  let memspace := (inst >> 19) .& 1 in
  let numreg := pm_numreg inst in
  if tst inst (1 << 15) then
    let* value :=
      (if negb (retour =? 0) then ret xy_addr else read_memory memspace xy_addr) in
    pm_to_reg 0 numreg value
  else
    pm_from_reg 0 numreg ;;
    pm_to_mem 0 memspace xy_addr.

Definition dsp_pm_4 : C unit :=
  let* inst := get_inst in
  if pm_numreg inst >> 2 =? 0 then
    let* '(retour, l_addr) := pm_address inst in
    dsp_pm_4x retour l_addr
  else dsp_pm_5.

(** The two effective addresses of an X:Y: move. *)
Definition pm_8_ea1 (inst : Z) : Z :=
  let ea1 := (inst >> 8) .& BITMASK 5 in
  if ea1 >> 3 =? 0 then ea1 .| (1 << 5) else ea1.

Definition pm_8_ea2 (inst : Z) : Z :=
  let ea2 := ((inst >> 13) .& BITMASK 2) .| ((inst >> 17) .& (BITMASK 2 << 3)) in
  let ea2 := if pm_8_ea1 inst .& (1 << 2) =? 0 then ea2 .| (1 << 2) else ea2 in
  if ea2 >> 3 =? 0 then ea2 .| (1 << 5) else ea2.

(** One half of an X:Y: move: a load or a store at [addr]. *)
Definition pm_8_half (position space numreg addr : Z) (load : bool) : C unit :=
  if load then
    let* value := read_memory space addr in
    pm_to_reg position numreg value
  else
    pm_from_reg position numreg ;;
    pm_to_mem position space addr.

Definition dsp_pm_8 : C unit :=
  let* inst := get_inst in
  let* dummy1 := calc_ea_addr (pm_8_ea1 inst) in
  let* dummy2 := calc_ea_addr (pm_8_ea2 inst) in
  let numreg1 := pm_xy_reg DSP_REG_X0 DSP_REG_X1 ((inst >> 18) .& BITMASK 2) in
  let numreg2 := pm_xy_reg DSP_REG_Y0 DSP_REG_Y1 ((inst >> 16) .& BITMASK 2) in
  pm_8_half 0 DSP_SPACE_X numreg1 dummy1 (tst inst (1 << 15)) ;;
  pm_8_half 1 DSP_SPACE_Y numreg2 dummy2 (tst inst (1 << 22)).

Definition opcodes_parmove : list (C unit) :=
  [dsp_pm_0; dsp_pm_1; dsp_pm_2; dsp_pm_3; dsp_pm_4; dsp_pm_5; dsp_pm_5; dsp_pm_5;
   dsp_pm_8; dsp_pm_8; dsp_pm_8; dsp_pm_8; dsp_pm_8; dsp_pm_8; dsp_pm_8; dsp_pm_8].

Definition dsp_parmove_read : C unit :=
  st_len 1 0 ;;
  st_len 0 0 ;;
  let* inst := get_inst in
  dispatch opcodes_parmove ((inst >> 20) .& BITMASK 4).
