(* ===== verification/Alu.v ===== *)
(** * ALU instructions

    The instructions of [src/dsp_cpu.c] that work on the accumulators and can
    be combined with parallel moves. *)

From S2P Require Import Prelude Effects DspCore Arith56 Cpu Control ParMove.
From stdpp Require Import base gmap list numbers.
Open Scope Z_scope.
Open Scope c_scope.
Open Scope eff_scope.

(** ** Operands *)

(** X or Y, a 48-bit source. *)
Definition src_long (hi lo : Z) : C a56 :=
  let* x1 := rd hi in
  let* x2 := rd lo in
  ret (A56 (sign_ext x1) x1 x2).

(** X0, X1, Y0 or Y1 as the upper word of a 56-bit source. *)
Definition src_word (r : Z) : C a56 :=
  let* x1 := rd r in ret (A56 (sign_ext x1) x1 0).

Definition src_words (srcreg : Z) : C (option a56) :=
  if srcreg =? 4 then let* a := src_word DSP_REG_X0 in ret (Some a)
  else if srcreg =? 5 then let* a := src_word DSP_REG_Y0 in ret (Some a)
  else if srcreg =? 6 then let* a := src_word DSP_REG_X1 in ret (Some a)
  else if srcreg =? 7 then let* a := src_word DSP_REG_Y1 in ret (Some a)
  else ret None.

(** The [switch(srcreg)] of ADD and SUB; [None] is the undefined source. *)
Definition add_source (destreg srcreg : Z) : C (option a56) :=
  if srcreg =? 1 then let* a := rd_accu (destreg .^ 1) in ret (Some a)
  else if srcreg =? 2 then let* a := src_long DSP_REG_X1 DSP_REG_X0 in ret (Some a)
  else if srcreg =? 3 then let* a := src_long DSP_REG_Y1 DSP_REG_Y0 in ret (Some a)
  else src_words srcreg.

(** The [switch(srcreg)] of CMP, CMPM and TFR. *)
Definition cmp_source (destreg srcreg : Z) : C (option a56) :=
  if srcreg =? 0 then let* a := rd_accu (destreg .^ 1) in ret (Some a)
  else src_words srcreg.

Definition alu_dest (inst : Z) : Z := (inst >> 3) .& 1.

Definition VC_mask : Z := (1 << DSP_SR_V) .| (1 << DSP_SR_C).

(** The end of most instructions: condition codes of the result, then V, C
    and L from the operation. *)
Definition alu_flags (d : a56) (newsr sr : Z) : Z := sr_assign VC_mask newsr (ccr_all d sr).

Definition alu_finish (destreg : Z) (d : a56) (newsr : Z) : C unit :=
  wr_accu destreg d ;;
  upd DSP_REG_SR (ccr_all d) ;;
  upd DSP_REG_SR (sr_assign VC_mask newsr).

(** ** Addition and subtraction *)

Definition dsp_add : C unit :=
  let* inst := get_inst in
  let destreg := alu_dest inst in
  let* dest := rd_accu destreg in
  let* src := add_source destreg ((inst >> 4) .& BITMASK 3) in
  match src with
  | Some source =>
      let '(d, newsr) := dsp_add56 source dest in alu_finish destreg d newsr
  | None => ret tt
  end.

Definition dsp_sub : C unit :=
  let* inst := get_inst in
  let destreg := alu_dest inst in
  let* dest := rd_accu destreg in
  let* src := add_source destreg ((inst >> 4) .& BITMASK 3) in
  match src with
  | Some source =>
      let '(d, newsr) := dsp_sub56 source dest in alu_finish destreg d newsr
  | None => ret tt
  end.

(** The source of ADC and SBC. *)
Definition adc_source (inst : Z) : C a56 :=
  if (inst >> 4) .& 1 =? 0 then src_long DSP_REG_X1 DSP_REG_X0
  else src_long DSP_REG_Y1 DSP_REG_Y0.

Definition dsp_adc : C unit :=
  let* inst := get_inst in
  let* sr := rd DSP_REG_SR in
  let curcarry := (sr >> DSP_SR_C) .& 1 in
  let destreg := alu_dest inst in
  let* dest := rd_accu destreg in
  let* source := adc_source inst in
  let '(d, newsr) := dsp_add56 source dest in
  let '(d, newsr) :=
    if negb (curcarry =? 0) then
      let '(d', sr') := dsp_add56 (A56 0 0 1) d in (d', newsr .| sr')
    else (d, newsr) in
  alu_finish destreg d newsr.

Definition dsp_sbc : C unit :=
  let* inst := get_inst in
  let* sr := rd DSP_REG_SR in
  let curcarry := (sr >> DSP_SR_C) .& 1 in
  let destreg := alu_dest inst in
  let* dest := rd_accu destreg in
  let* source := adc_source inst in
  let '(d, newsr) := dsp_sub56 source dest in
  let '(d, newsr) :=
    if negb (curcarry =? 0) then
      let '(d', sr') := dsp_sub56 (A56 0 0 1) d in (d', newsr .| sr')
    else (d, newsr) in
  alu_finish destreg d newsr.

(** ADDL, ADDR, SUBL and SUBR: shift the destination, then add or subtract the
    other accumulator. *)
Definition shift_and_combine (shift : a56 → a56 * Z) (op : a56 → a56 → a56 * Z) : C unit :=
  let* inst := get_inst in
  let numreg := alu_dest inst in
  let* dest := rd_accu numreg in
  let '(d, newsr) := shift dest in
  let* source := rd_accu (numreg .^ 1) in
  let '(d, newsr') := op source d in
  alu_finish numreg d (newsr .| newsr').

Definition dsp_addl : C unit := shift_and_combine dsp_asl56 dsp_add56.
Definition dsp_addr : C unit := shift_and_combine dsp_asr56 dsp_add56.
Definition dsp_subl : C unit := shift_and_combine dsp_asl56 dsp_sub56.
Definition dsp_subr : C unit := shift_and_combine dsp_asr56 dsp_sub56.

(** ** Comparison, negation and absolute value *)

Definition dsp_cmp : C unit :=
  let* inst := get_inst in
  let destreg := alu_dest inst in
  let* dest := rd_accu destreg in
  let* src := cmp_source destreg ((inst >> 4) .& BITMASK 3) in
  match src with
  | Some source =>
      let '(d, newsr) := dsp_sub56 source dest in
      upd DSP_REG_SR (ccr_all d) ;;
      upd DSP_REG_SR (sr_assign VC_mask newsr)
  | None => ret tt
  end.

Definition dsp_cmpm : C unit :=
  let* inst := get_inst in
  let destreg := alu_dest inst in
  let* dest := rd_accu destreg in
  let dest := fst (dsp_abs56 dest) in
  let* src := cmp_source destreg ((inst >> 4) .& BITMASK 3) in
  match src with
  | Some source =>
      let source := fst (dsp_abs56 source) in
      let '(d, newsr) := dsp_sub56 source dest in
      upd DSP_REG_SR (ccr_all d) ;;
      upd DSP_REG_SR (sr_assign VC_mask newsr)
  | None => ret tt
  end.

(** The most negative accumulator, whose magnitude does not fit. *)
Definition is_min56 (d : a56) : bool := (w2 d =? 0) && (w1 d =? 0) && (w0 d =? 0x80).

Definition overflow_flags (overflowed : Z) : Z :=
  (overflowed << DSP_SR_L) .| (overflowed << DSP_SR_V).

Definition dsp_abs : C unit :=
  let* inst := get_inst in
  let numreg := alu_dest inst in
  let* dest := rd_accu numreg in
  let overflowed := c_bool (is_min56 dest) in
  let d := fst (dsp_abs56 dest) in
  wr_accu numreg d ;;
  upd DSP_REG_SR (sr_assign (1 << DSP_SR_V) (overflow_flags overflowed)) ;;
  upd DSP_REG_SR (ccr_all d).

Definition dsp_neg : C unit :=
  let* inst := get_inst in
  let srcreg := alu_dest inst in
  let* source := rd_accu srcreg in
  let overflowed := c_bool (is_min56 source) in
  let d := fst (dsp_sub56 source zero56) in
  wr_accu srcreg d ;;
  upd DSP_REG_SR (sr_assign (1 << DSP_SR_V) (overflow_flags overflowed)) ;;
  upd DSP_REG_SR (ccr_all d).

Definition dsp_clr : C unit :=
  let* inst := get_inst in
  let numreg := alu_dest inst in
  wr_accu numreg zero56 ;;
  upd DSP_REG_SR
    (sr_assign ((1 << DSP_SR_E) .| (1 << DSP_SR_N) .| (1 << DSP_SR_V))
       ((1 << DSP_SR_U) .| (1 << DSP_SR_Z))).

Definition dsp_tst : C unit :=
  let* inst := get_inst in
  let* d := rd_accu (alu_dest inst) in
  upd DSP_REG_SR (ccr_all d) ;;
  upd DSP_REG_SR (sr_assign (1 << DSP_SR_V) 0).

Definition dsp_tfr : C unit :=
  let* inst := get_inst in
  let destreg := alu_dest inst in
  let* src := cmp_source destreg ((inst >> 4) .& BITMASK 3) in
  match src with
  | Some source => wr_accu destreg source
  | None => ret tt
  end.

(** ** Shifts and rounding *)

Definition arith_shift (shift : a56 → a56 * Z) : C unit :=
  let* inst := get_inst in
  let numreg := alu_dest inst in
  let* dest := rd_accu numreg in
  let '(d, newsr) := shift dest in
  wr_accu numreg d ;;
  upd DSP_REG_SR (sr_assign VC_mask newsr) ;;
  upd DSP_REG_SR (ccr_all d).

Definition dsp_asl : C unit := arith_shift dsp_asl56.
Definition dsp_asr : C unit := arith_shift dsp_asr56.

Definition dsp_rnd : C unit :=
  let* inst := get_inst in
  let numreg := alu_dest inst in
  let* dest := rd_accu numreg in
  let* sr := rd DSP_REG_SR in
  let d := dsp_rnd56 sr dest in
  wr_accu numreg d ;;
  upd DSP_REG_SR (ccr_all d).

(** ** Multiplication *)

Definition registers_mpy : list (Z * Z) :=
  [(DSP_REG_X0, DSP_REG_X0); (DSP_REG_Y0, DSP_REG_Y0);
   (DSP_REG_X1, DSP_REG_X0); (DSP_REG_Y1, DSP_REG_Y0);
   (DSP_REG_X0, DSP_REG_Y1); (DSP_REG_Y0, DSP_REG_X0);
   (DSP_REG_X1, DSP_REG_Y0); (DSP_REG_Y1, DSP_REG_X1)].

(** The product selected by the instruction, negated if bit 2 is set. *)
Definition mpy_product (inst : Z) : C a56 :=
  let '(srcreg1, srcreg2) :=
    nth (Z.to_nat ((inst >> 4) .& BITMASK 3)) registers_mpy (0, 0) in
  let* x := rd srcreg1 in
  let* y := rd srcreg2 in
  let source := dsp_mul56 x y in
  ret (if tst inst (1 << 2) then fst (dsp_sub56 source zero56) else source).

Definition dsp_mpy : C unit :=
  let* inst := get_inst in
  let* d := mpy_product inst in
  wr_accu (alu_dest inst) d ;;
  upd DSP_REG_SR (ccr_all d) ;;
  upd DSP_REG_SR (sr_assign (1 << DSP_SR_V) 0).

Definition dsp_mpyr : C unit :=
  let* inst := get_inst in
  let* p := mpy_product inst in
  let* sr := rd DSP_REG_SR in
  let d := dsp_rnd56 sr p in
  wr_accu (alu_dest inst) d ;;
  upd DSP_REG_SR (ccr_all d) ;;
  upd DSP_REG_SR (sr_assign (1 << DSP_SR_V) 0).

Definition dsp_mac : C unit :=
  let* inst := get_inst in
  let* source := mpy_product inst in
  let destreg := alu_dest inst in
  let* dest := rd_accu destreg in
  let '(d, newsr) := dsp_add56 source dest in
  wr_accu destreg d ;;
  upd DSP_REG_SR (ccr_all d) ;;
  upd DSP_REG_SR (sr_assign (1 << DSP_SR_V) (newsr .& 0xfe)).

Definition dsp_macr : C unit :=
  let* inst := get_inst in
  let* source := mpy_product inst in
  let destreg := alu_dest inst in
  let* dest := rd_accu destreg in
  let '(d, newsr) := dsp_add56 source dest in
  let* sr := rd DSP_REG_SR in
  let d := dsp_rnd56 sr d in
  wr_accu destreg d ;;
  upd DSP_REG_SR (ccr_all d) ;;
  upd DSP_REG_SR (sr_assign (1 << DSP_SR_V) (newsr .& 0xfe)).

(** ** Logical instructions on A1 or B1 *)

Definition logic_srcreg (inst : Z) : Z :=
  let v := (inst >> 4) .& BITMASK 2 in
  if v =? 1 then DSP_REG_Y0
  else if v =? 2 then DSP_REG_X1
  else if v =? 3 then DSP_REG_Y1
  else DSP_REG_X0.

Definition NZV_mask : Z := (1 << DSP_SR_N) .| (1 << DSP_SR_Z) .| (1 << DSP_SR_V).

(** N and Z from a 24-bit result, V cleared. *)
Definition logic_flags (x sr : Z) : Z :=
  let sr := sr_assign NZV_mask (((x >> 23) .& 1) << DSP_SR_N) sr in
  sr .| (c_bool (x =? 0) << DSP_SR_Z).

Definition logic_op (f : Z → Z → Z) : C unit :=
  let* inst := get_inst in
  let dstreg := DSP_REG_A1 + alu_dest inst in
  let* d := rd dstreg in
  let* s := rd (logic_srcreg inst) in
  wr dstreg (f d s .& BITMASK 24) ;;
  let* x := rd dstreg in
  upd DSP_REG_SR (logic_flags x).

Definition dsp_and : C unit := logic_op Z.land.
Definition dsp_or : C unit := logic_op Z.lor.
Definition dsp_eor : C unit := logic_op Z.lxor.

Definition dsp_not : C unit :=
  let* inst := get_inst in
  let dstreg := DSP_REG_A1 + alu_dest inst in
  let* d := rd dstreg in
  wr dstreg (u32 (Z.lnot d) .& BITMASK 24) ;;
  let* x := rd dstreg in
  upd DSP_REG_SR (logic_flags x).

Definition CNZV_mask : Z :=
  (1 << DSP_SR_C) .| (1 << DSP_SR_N) .| (1 << DSP_SR_Z) .| (1 << DSP_SR_V).

(** C, N and Z after a logical shift, V cleared. *)
Definition shift_flags (newcarry x sr : Z) : Z :=
  let sr := sr_assign CNZV_mask newcarry sr in
  let sr := sr .| (((x >> 23) .& 1) << DSP_SR_N) in
  sr .| (c_bool (x =? 0) << DSP_SR_Z).

Definition dsp_lsl : C unit :=
  let* inst := get_inst in
  let numreg := DSP_REG_A1 + alu_dest inst in
  let* d := rd numreg in
  let newcarry := (d >> 23) .& 1 in
  wr numreg ((d << 1) .& BITMASK 24) ;;
  let* x := rd numreg in
  upd DSP_REG_SR (shift_flags newcarry x).

(** LSR does not mask the register and does not set N. *)
Definition dsp_lsr : C unit :=
  let* inst := get_inst in
  let numreg := DSP_REG_A1 + alu_dest inst in
  let* d := rd numreg in
  let newcarry := d .& 1 in
  wr numreg (d >> 1) ;;
  let* x := rd numreg in
  upd DSP_REG_SR (λ sr, sr_assign CNZV_mask newcarry sr .| (c_bool (x =? 0) << DSP_SR_Z)).

Definition dsp_rol : C unit :=
  let* inst := get_inst in
  let dstreg := DSP_REG_A1 + alu_dest inst in
  let* d := rd dstreg in
  let newcarry := (d >> 23) .& 1 in
  wr dstreg (((d << 1) .| newcarry) .& BITMASK 24) ;;
  let* x := rd dstreg in
  upd DSP_REG_SR (shift_flags newcarry x).

Definition dsp_ror : C unit :=
  let* inst := get_inst in
  let dstreg := DSP_REG_A1 + alu_dest inst in
  let* d := rd dstreg in
  let newcarry := d .& 1 in
  wr dstreg (((d >> 1) .| (newcarry << 23)) .& BITMASK 24) ;;
  let* x := rd dstreg in
  upd DSP_REG_SR (shift_flags newcarry x).

Definition dsp_move : C unit := ret tt.

Definition dsp_move_pm : C unit := dsp_parmove_read ;; dsp_parmove_write.
