(* ===== verification/Exec.v ===== *)
(** * Decoding, program counter, interrupts and execution

    The dispatch tables of [src/dsp_cpu.c], one instruction cycle
    ([dsp56k_execute_instruction]) with the update of the PC (REP and DO
    loops) and the interrupts, and the execution loops. *)

From S2P Require Import Prelude Effects DspCore Arith56 Cpu Control ParMove Alu.
From stdpp Require Import base gmap list numbers.
Open Scope Z_scope.
Open Scope c_scope.
Open Scope eff_scope.

(** ** High byte opcodes *)

Definition opcode8h_0 : C unit :=
  let* inst := get_inst in
  if inst <=? 0x00008c then
    if inst =? 0x000000 then dsp_nop
    else if inst =? 0x000004 then dsp_rti
    else if inst =? 0x000005 then dsp_illegal
    else if inst =? 0x000006 then dsp_swi
    else if inst =? 0x00000c then dsp_rts
    else if inst =? 0x000084 then dsp_reset
    else if inst =? 0x000086 then dsp_wait
    else if inst =? 0x000087 then dsp_stop
    else if inst =? 0x00008c then dsp_enddo
    else ret tt
  else
    if inst .& 0xf8 =? 0x0000b8 then dsp_andi
    else if inst .& 0xf8 =? 0x0000f8 then dsp_ori
    else ret tt.

Definition opcode8h_1 : C unit :=
  let* inst := get_inst in
  if inst .& 0xfff000 =? 0x018000 then dsp_div
  else if inst .& 0xfff000 =? 0x01d000 then dsp_norm
  else ret tt.

Definition opcode8h_4 : C unit :=
  let* inst := get_inst in
  if (inst >> 5) .& BITMASK 3 =? 0 then dsp_lua
  else if (inst >> 5) .& BITMASK 3 =? 5 then dsp_movec
  else ret tt.

Definition opcode8h_6 : C unit :=
  let* inst := get_inst in
  if tst inst (1 << 5) then dsp_rep else dsp_do.

Definition opcodes_0809 : list (C unit) :=
  [dsp_move_pm; dsp_move_pm; dsp_move_pm; dsp_move_pm;
   dsp_movep; dsp_movep; dsp_movep; dsp_movep;
   dsp_move_pm; dsp_move_pm; dsp_move_pm; dsp_move_pm;
   dsp_movep; dsp_movep; dsp_movep; dsp_movep].

Definition opcode8h_8 : C unit :=
  let* inst := get_inst in
  dispatch opcodes_0809 ((inst >> 12) .& BITMASK 4).

Definition opcodes_0a : list (C unit) :=
  [dsp_bclr; dsp_bset; dsp_bclr; dsp_bset; dsp_jclr; dsp_jset; dsp_jclr; dsp_jset;
   dsp_bclr; dsp_bset; dsp_bclr; dsp_bset; dsp_jclr; dsp_jset; dsp_jclr; dsp_jset;
   dsp_bclr; dsp_bset; dsp_bclr; dsp_bset; dsp_jclr; dsp_jset; dsp_jclr; dsp_jset;
   dsp_jclr; dsp_jset; dsp_bclr; dsp_bset; dsp_jmp; dsp_jcc; dsp_undefined; dsp_undefined].

Definition opcodes_0b : list (C unit) :=
  [dsp_bchg; dsp_btst; dsp_bchg; dsp_btst; dsp_jsclr; dsp_jsset; dsp_jsclr; dsp_jsset;
   dsp_bchg; dsp_btst; dsp_bchg; dsp_btst; dsp_jsclr; dsp_jsset; dsp_jsclr; dsp_jsset;
   dsp_bchg; dsp_btst; dsp_bchg; dsp_btst; dsp_jsclr; dsp_jsset; dsp_jsclr; dsp_jsset;
   dsp_jsclr; dsp_jsclr; dsp_bchg; dsp_btst; dsp_jsr; dsp_jscc; dsp_undefined; dsp_undefined].

(** Index of the tables 0a and 0b. *)
Definition opcode_0ab (inst : Z) : Z :=
  ((inst >> 11) .& (BITMASK 2 << 3)) .| ((inst >> 5) .& BITMASK 3).

Definition opcode8h_a : C unit :=
  let* inst := get_inst in dispatch opcodes_0a (opcode_0ab inst).

Definition opcode8h_b : C unit :=
  let* inst := get_inst in dispatch opcodes_0b (opcode_0ab inst).

Definition opcodes8h : list (C unit) :=
  [opcode8h_0; opcode8h_1; dsp_tcc; dsp_tcc; opcode8h_4; dsp_movec; opcode8h_6; dsp_movem;
   opcode8h_8; opcode8h_8; opcode8h_a; opcode8h_b; dsp_jmp; dsp_jsr; dsp_jcc; dsp_jscc].

(** ** ALU opcodes *)

Definition opcodes_alu003f : list (C unit) :=
  [(* 0x00 - 0x0f *)
   dsp_move; dsp_tfr; dsp_addr; dsp_tst; dsp_undefined; dsp_cmp; dsp_subr; dsp_cmpm;
   dsp_undefined; dsp_tfr; dsp_addr; dsp_tst; dsp_undefined; dsp_cmp; dsp_subr; dsp_cmpm;
   (* 0x10 - 0x1f *)
   dsp_add; dsp_rnd; dsp_addl; dsp_clr; dsp_sub; dsp_undefined; dsp_subl; dsp_not;
   dsp_add; dsp_rnd; dsp_addl; dsp_clr; dsp_sub; dsp_undefined; dsp_subl; dsp_not;
   (* 0x20 - 0x2f *)
   dsp_add; dsp_adc; dsp_asr; dsp_lsr; dsp_sub; dsp_sbc; dsp_abs; dsp_ror;
   dsp_add; dsp_adc; dsp_asr; dsp_lsr; dsp_sub; dsp_sbc; dsp_abs; dsp_ror;
   (* 0x30 - 0x3f *)
   dsp_add; dsp_adc; dsp_asl; dsp_lsl; dsp_sub; dsp_sbc; dsp_neg; dsp_rol;
   dsp_add; dsp_adc; dsp_asl; dsp_lsl; dsp_sub; dsp_sbc; dsp_neg; dsp_rol].

Definition opcodes_alu407f : list (C unit) :=
  [dsp_add; dsp_tfr; dsp_or; dsp_eor; dsp_sub; dsp_cmp; dsp_and; dsp_cmpm;
   dsp_add; dsp_tfr; dsp_or; dsp_eor; dsp_sub; dsp_cmp; dsp_and; dsp_cmpm].

Definition opcodes_alu80ff : list (C unit) := [dsp_mpy; dsp_mpyr; dsp_mac; dsp_macr].

Definition dispatch_alu (inst : Z) : C unit :=
  let value := inst .& BITMASK 8 in
  if value <? 0x40 then dispatch opcodes_alu003f value
  else if value <? 0x80 then dispatch opcodes_alu407f (value .& BITMASK 4)
  else dispatch opcodes_alu80ff (value .& BITMASK 2).

(** ** Update of the PC *)

(** A REP in progress: stay on the instruction or leave the repetition. *)
Definition update_rep : C unit :=
  let* rep := gets (λ s, loop_rep (core s)) in
  when (negb (rep =? 0))
    (let* on_rep := gets pc_on_rep in
     if on_rep =? 0 then
       upd DSP_REG_LC (λ x, x -u 1) ;;
       upd DSP_REG_LC (λ x, x .& BITMASK 16) ;;
       let* lc := rd DSP_REG_LC in
       if 0 <? lc then put_inst_len 0
       else
         mod_core (set_loop_rep 0) ;;
         let* save := rd DSP_REG_LCSAVE in
         wr DSP_REG_LC save
     else
       let* lc := rd DSP_REG_LC in
       when (lc =? 0) (wr DSP_REG_LC 0x010000) ;;
       modify (set_pc_on_rep 0)).

(** The end of a DO loop, tested with the updated PC. *)
Definition update_do : C unit :=
  let* sr := rd DSP_REG_SR in
  when (tst sr (1 << DSP_SR_LF))
    (let* p := get_pc in
     let* la := rd DSP_REG_LA in
     when (p =? la +u 1)
       (upd DSP_REG_LC (λ x, x -u 1) ;;
        upd DSP_REG_LC (λ x, x .& BITMASK 16) ;;
        let* lc := rd DSP_REG_LC in
        if lc =? 0 then
          dsp_stack_pop to_local (wr DSP_REG_SR) ;;
          dsp_stack_pop (wr DSP_REG_LA) (wr DSP_REG_LC) ;;
          ret tt
        else
          let* ssh := rd DSP_REG_SSH in
          let* newpc := on_core (ld_stack 0 ssh) in
          put_pc newpc)).

Definition dsp_postexecute_update_pc : C unit :=
  update_rep ;;
  let* len := get_inst_len in
  when (0 <? len) (let* p := get_pc in put_pc (p + len)) ;;
  update_do.

(** ** Interrupts *)

Definition put_fetch (v : Z) : C unit := mod_core (set_interrupt_instr_fetch v).

Definition ipl_of (shift : Z) (c : dsp_core_t) : Z := (px DSP_IPR c >> shift) .& BITMASK 2.

(** Clear bits of a peripheral register in X space. *)
Definition px_clear (reg mask : Z) (c : dsp_core_t) : dsp_core_t :=
  set_px reg (px reg c .& (0xff - mask)) c.

Definition locked (f : dsp_core_t → dsp_core_t) : K unit :=
  lockMutex ;; modify f ;; unlockMutex.

Definition dsp_hi_interrupts : C Z :=
  let* host_hcr := gets (λ s, px DSP_HOST_HCR (core s)) in
  let* host_hsr := gets (λ s, px DSP_HOST_HSR (core s)) in
  let* ipl_hi := gets (λ s, ipl_of 10 (core s)) in
  if tst host_hcr (1 << DSP_HOST_HCR_HCIE) && tst host_hsr (1 << DSP_HOST_HSR_HCP) then
    on_core (locked (λ c,
      let c := px_clear DSP_HOST_HSR (1 << DSP_HOST_HSR_HCP) c in
      set_hp CPU_HOST_CVR (hp CPU_HOST_CVR c .& (0xff - (1 << CPU_HOST_CVR_HC))) c)) ;;
    let* cvr := gets (λ s, hp CPU_HOST_CVR (core s)) in
    put_fetch (u32 ((cvr .& BITMASK 5) * 2)) ;;
    ret ipl_hi
  else if tst host_hcr (1 << DSP_HOST_HCR_HRIE) && tst host_hsr (1 << DSP_HOST_HSR_HRDF) then
    on_core (locked (px_clear DSP_HOST_HSR (1 << DSP_HOST_HSR_HRDF))) ;;
    put_fetch 0x0020 ;;
    ret ipl_hi
  else if tst host_hcr (1 << DSP_HOST_HCR_HTIE) && (host_hsr .& (1 << DSP_HOST_HSR_HTDE) =? 0) then
    on_core (locked (px_clear DSP_HOST_HSR (1 << DSP_HOST_HSR_HTDE))) ;;
    put_fetch 0x0022 ;;
    ret ipl_hi
  else ret 99.

Definition dsp_ssi_interrupts : C Z :=
  let* ssi_crb := gets (λ s, px DSP_SSI_CRB (core s)) in
  let* ssi_sr := gets (λ s, px DSP_SSI_SR (core s)) in
  let* ipl_ssi := gets (λ s, ipl_of 12 (core s)) in
  let rdf_roe_mask := (1 << DSP_SSI_SR_RDF) .| (1 << DSP_SSI_SR_ROE) in
  let tdf_tue_mask := (1 << DSP_SSI_SR_TDF) .| (1 << DSP_SSI_SR_TUE) in
  let rie := tst ssi_crb (1 << DSP_SSI_CRB_RIE) in
  let tie := tst ssi_crb (1 << DSP_SSI_CRB_TIE) in
  if rie && (ssi_sr .& rdf_roe_mask =? rdf_roe_mask) then
    mod_core (px_clear DSP_SSI_SR (1 << DSP_SSI_SR_ROE)) ;;
    put_fetch 0x000e ;; ret ipl_ssi
  else if rie && (ssi_sr .& rdf_roe_mask =? 1 << DSP_SSI_SR_RDF) then
    put_fetch 0x000c ;; ret ipl_ssi
  else if tie && (ssi_sr .& tdf_tue_mask =? tdf_tue_mask) then
    mod_core (px_clear DSP_SSI_SR (1 << DSP_SSI_SR_TUE)) ;;
    put_fetch 0x0012 ;; ret ipl_ssi
  else if tie && (ssi_sr .& tdf_tue_mask =? 1 << DSP_SSI_SR_TDF) then
    put_fetch 0x0010 ;; ret ipl_ssi
  else ret 99.

(** The end of a fast interrupt. *)
Definition fast_interrupt_end : C unit :=
  let* p := get_pc in
  let* fetch := gets (λ s, interrupt_instr_fetch (core s)) in
  when (fetch +u 2 <=? p)
    (when (p =? fetch +u 2)
       (let* save := gets (λ s, interrupt_save_pc (core s)) in put_pc save) ;;
     put_fetch (u32 (-1)) ;;
     mod_core (set_interrupt_state DSP_INTERRUPT_NONE) ;;
     mod_core (set_interrupt_save_pc (u32 (-1)))).

(** The peripheral interrupts, the higher priority level first, HI before SSI
    at equal levels. *)
Definition peripheral_interrupts (ipl : Z) : C Z :=
  let* ipl_hi := gets (λ s, ipl_of 10 (core s)) in
  let* ipl_ssi := gets (λ s, ipl_of 12 (core s)) in
  if ipl_ssi <=? ipl_hi then
    let* r := (if ipl <=? ipl_hi then dsp_hi_interrupts else ret 99) in
    if r =? 99 then (if ipl <=? ipl_ssi then dsp_ssi_interrupts else ret 99) else ret r
  else
    let* r := (if ipl <=? ipl_ssi then dsp_ssi_interrupts else ret 99) in
    if r =? 99 then (if ipl <=? ipl_hi then dsp_hi_interrupts else ret 99) else ret r.

(** Is an instruction of the vector a JSR, which makes the interrupt a long one? *)
Definition vector_is_jsr (instr : Z) : bool :=
  (hibyte instr =? 0xd) || (opcode_0ab instr =? 0x1c).

(** Enter the interrupt whose vector was raised at level [ipl_to_raise]. *)
Definition enter_interrupt (ipl_to_raise : Z) : C unit :=
  let* fetch := gets (λ s, interrupt_instr_fetch (core s)) in
  let* instr1 := fetch_p fetch in
  let* instr2 := fetch_p (fetch + 1) in
  if vector_is_jsr instr1 || vector_is_jsr instr2 then
    mod_core (set_interrupt_state DSP_INTERRUPT_LONG) ;;
    let* p := get_pc in
    let* sr := rd DSP_REG_SR in
    dsp_stack_push p sr ;;
    upd DSP_REG_SR (sr_assign
      ((1 << DSP_SR_LF) .| (1 << DSP_SR_T) .| (1 << DSP_SR_S1) .| (1 << DSP_SR_S0)
       .| (1 << DSP_SR_I0) .| (1 << DSP_SR_I1))
      (ipl_to_raise << DSP_SR_I0)) ;;
    let* fetch := gets (λ s, interrupt_instr_fetch (core s)) in
    put_pc fetch ;;
    put_fetch (u32 (-1)) ;;
    mod_core (set_interrupt_save_pc (u32 (-1)))
  else
    mod_core (set_interrupt_state DSP_INTERRUPT_FAST) ;;
    let* p := get_pc in
    mod_core (set_interrupt_save_pc p) ;;
    put_pc fetch.

Definition dsp_postexecute_interrupts : C unit :=
  let* rep := gets (λ s, loop_rep (core s)) in
  if negb (rep =? 0) then ret tt else
  let* state := gets (λ s, interrupt_state (core s)) in
  if state =? DSP_INTERRUPT_FAST then fast_interrupt_end else
  let* sr := rd DSP_REG_SR in
  let* swi := gets (λ s, swi_inter (core s)) in
  if tst sr (1 << DSP_SR_T) then
    put_fetch 0x0004 ;; enter_interrupt 3
  else if swi =? 1 then
    mod_core (set_swi_inter 0) ;; put_fetch 0x0006 ;; enter_interrupt 3
  else
    let ipl := (sr >> DSP_SR_I0) .& BITMASK 2 in
    if ipl =? 3 then ret tt else
    let* ipl_to_raise := peripheral_interrupts ipl in
    when (negb (ipl_to_raise =? 99)) (enter_interrupt ipl_to_raise).

(** ** Execution *)

Definition dsp56k_execute_instruction : C unit :=
  let* p := get_pc in
  let* inst := fetch_p p in
  modify (set_cur_inst inst) ;;
  put_inst_len 1 ;;
  let value := hibyte inst in
  (if (value <? 0x10) && negb (inst .& 0xfe4000 =? 0x080000) then dispatch opcodes8h value
   else
     dsp_parmove_read ;;
     dispatch_alu inst ;;
     dsp_parmove_write) ;;
  dsp_postexecute_update_pc ;;
  dsp_postexecute_interrupts.

(** [while(running) dsp56k_execute_instruction();], at most [fuel] turns; the
    result says whether the loop was left. *)
Fixpoint execute_while_running (fuel : nat) : C bool :=
  match fuel with
  | O => ret false
  | S fuel =>
      let* r := gets (λ s, running (core s)) in
      if r =? 0 then ret true
      else dsp56k_execute_instruction ;; execute_while_running fuel
  end.

(** The body of the DSP thread: wait for the bootstrap, then run. *)
Definition dsp56k_exec_thread (fuel : nat) : C bool :=
  on_core pauseThread ;; execute_while_running fuel.

(** ** The 68040's view *)

(** [DSP::exec_insts] ([dsp.cpp]): at most [num_inst] instructions, while the DSP runs. *)
Fixpoint exec_insts (num_inst : nat) : C unit :=
  let* r := gets (λ s, running (core s)) in
  if r =? 0 then ret tt else
  match num_inst with
  | O => ret tt
  | S n => dsp56k_execute_instruction ;; exec_insts n
  end.

(** The host port on the bus, from address [HWoffset] on. *)
Definition dsp_handleRead (HWoffset addr : Z) : C Z := on_core (dsp_core_read_host (addr -u HWoffset)).
Definition dsp_handleWrite (HWoffset addr value : Z) : C unit := on_core (dsp_core_write_host (addr -u HWoffset) value).
