(* ===== verification/Arith56Spec.v ===== *)
(** * Correctness of the 56-bit arithmetic

    Each operation of [Arith56] computes the intended integer function on the
    56-bit two's complement numbers its three words denote, and sets V, L and C
    exactly when the result overflows, or carries. *)

From S2P Require Import Prelude Effects DspCore Arith56.
From stdpp Require Import base list numbers.
Open Scope Z_scope.
Open Scope c_scope.

Abbreviation two24 := 16777216 (only parsing).
Abbreviation two55 := 36028797018963968 (only parsing).
Abbreviation two56 := 72057594037927936 (only parsing).

(** The words are in the range of the hardware registers A2, A1 and A0. *)
Definition wf56 (d : a56) : Prop :=
  0 <= w0 d < 256 ∧ 0 <= w1 d < two24 ∧ 0 <= w2 d < two24.

(** The unsigned and the two's complement value. *)
Definition val56 (d : a56) : Z := w0 d * 281474976710656 + w1 d * two24 + w2 d.
Definition sval56 (d : a56) : Z := if w0 d <? 128 then val56 d else val56 d - two56.

(** Two's complement reading of a 24-bit register. *)
Definition s24 (x : Z) : Z := if x <? 8388608 then x else x - two24.

Definition fits56 (x : Z) : bool := (- two55 <=? x) && (x <? two55).

Lemma val56_range d : wf56 d → 0 <= val56 d < two56.
Proof. unfold wf56, val56. lia. Qed.

Lemma sval56_range d : wf56 d → - two55 <= sval56 d < two55.
Proof. unfold wf56, sval56, val56. intros. destruct (Z.ltb_spec (w0 d) 128); lia. Qed.

Lemma sval56_mod d : wf56 d → sval56 d mod two56 = val56 d.
Proof.
  intros H. pose proof (val56_range d H). unfold sval56. destruct (w0 d <? 128).
  - by apply Z.mod_small.
  - rewrite <-(Z_mod_plus_full _ 1). rewrite Z.mod_small; lia.
Qed.

Lemma val56_inj d d' : wf56 d → wf56 d' → val56 d = val56 d' → d = d'.
Proof.
  destruct d as [a b c], d' as [x y z]. unfold wf56, val56; cbn [w0 w1 w2].
  intros. f_equal; lia.
Qed.

(** A representable value is the signed reading of the words congruent to it. *)
Lemma sval56_unique d x : wf56 d → fits56 x = true → val56 d = x mod two56 → sval56 d = x.
Proof.
  intros H Hx Hv. pose proof (sval56_range d H). rewrite <-(sval56_mod d H) in Hv.
  unfold fits56 in Hx. zdiv_lia.
Qed.

Lemma sign_bit x : 0 <= x < 256 → (x >> 7) .& 1 = c_bool (128 <=? x).
Proof. intros. carith. unfold c_bool. destruct (Z.leb_spec 128 x); zdiv_lia. Qed.

Lemma sval56_neg d : wf56 d → (128 <=? w0 d) = (sval56 d <? 0).
Proof.
  intros H. pose proof (val56_range d H). unfold sval56.
  destruct (Z.ltb_spec (w0 d) 128); lia.
Qed.

Lemma below56_val x y : wf56 x → wf56 y → below56 x y = (val56 x <? val56 y).
Proof.
  unfold wf56, below56, val56. intros.
  repeat (case_match; try lia).
Qed.

(** ** Addition and subtraction *)

(** The words of a sum, with the carries between them. *)
Lemma add56_words s d : wf56 s → wf56 d →
  wf56 (fst (dsp_add56 s d)) ∧ val56 (fst (dsp_add56 s d)) = (val56 d + val56 s) mod two56.
Proof.
  destruct s as [a b c], d as [x y z]. unfold wf56, val56, dsp_add56; cbn [w0 w1 w2 fst].
  carith. intros. rewrite (u32_small (z + c)) by lia.
  set (k1 := (z + c) / two24 mod 2).
  assert (k1 = (z + c) / two24 ∧ 0 <= k1 <= 1) as [E1 ?] by (unfold k1; zdiv_lia).
  rewrite (u32_small (b + k1)), (u32_small (y + (b + k1))) by lia.
  set (k2 := (y + (b + k1)) / two24 mod 2).
  assert (k2 = (y + (b + k1)) / two24 ∧ 0 <= k2 <= 1) as [E2 ?] by (unfold k2; zdiv_lia).
  rewrite (u32_small (a + k2)), (u32_small (x + (a + k2))) by lia.
  clearbody k1 k2. zdiv_lia.
Qed.

(** A borrow is the 25th bit of a wrapped difference. *)
Lemma borrow_bit x : - 33554432 < x < two24 →
  u32 x / two24 mod 2 = (- (x / two24)) mod 2 ∧ u32 x mod two24 = x mod two24.
Proof. unfold u32. intros. split; zdiv_lia. Qed.

Lemma sub56_words s d : wf56 s → wf56 d →
  wf56 (fst (dsp_sub56 s d)) ∧ val56 (fst (dsp_sub56 s d)) = (val56 d - val56 s) mod two56.
Proof.
  destruct s as [a b c], d as [x y z]. unfold wf56, val56, dsp_sub56; cbn [w0 w1 w2 fst].
  carith. intros. destruct (borrow_bit (z - c)) as [-> ->]; [lia|].
  set (k1 := (- ((z - c) / two24)) mod 2).
  assert (k1 = - ((z - c) / two24) ∧ 0 <= k1 <= 1) as [E1 ?] by (unfold k1; zdiv_lia).
  rewrite (u32_small (b + k1)) by lia.
  destruct (borrow_bit (y - (b + k1))) as [-> ->]; [lia|].
  set (k2 := (- ((y - (b + k1)) / two24)) mod 2).
  assert (k2 = - ((y - (b + k1)) / two24) ∧ 0 <= k2 <= 1) as [E2 ?] by (unfold k2; zdiv_lia).
  rewrite (u32_small (a + k2)) by lia. clearbody k1 k2.
  assert (u32 (x - (a + k2)) mod 256 = (x - (a + k2)) mod 256) as -> by (unfold u32; zdiv_lia).
  zdiv_lia.
Qed.

(** The overflow of an addition read from three sign bits. *)
Lemma add_overflow_bits s d r : wf56 s → wf56 d → wf56 r →
  val56 r = (val56 d + val56 s) mod two56 →
  (c_bool (128 <=? w0 s) .^ c_bool (128 <=? w0 r))
    .& (c_bool (128 <=? w0 d) .^ c_bool (128 <=? w0 r))
  = c_bool (negb (fits56 (sval56 d + sval56 s))).
Proof.
  intros Hs Hd Hr Hv. rewrite !sval56_neg by done.
  pose proof (sval56_range _ Hs). pose proof (sval56_range _ Hd). pose proof (sval56_range _ Hr).
  rewrite <-!sval56_mod in Hv by done. rewrite <-Zplus_mod in Hv. unfold fits56.
  destruct (Z.ltb_spec (sval56 s) 0), (Z.ltb_spec (sval56 d) 0), (Z.ltb_spec (sval56 r) 0),
    (Z.leb_spec (- two55) (sval56 d + sval56 s)), (Z.ltb_spec (sval56 d + sval56 s) two55);
    try reflexivity; exfalso; zdiv_lia.
Qed.

Lemma sub_overflow_bits s d r : wf56 s → wf56 d → wf56 r →
  val56 r = (val56 d - val56 s) mod two56 →
  (c_bool (128 <=? w0 s) .^ c_bool (128 <=? w0 d))
    .& (c_bool (128 <=? w0 r) .^ c_bool (128 <=? w0 d))
  = c_bool (negb (fits56 (sval56 d - sval56 s))).
Proof.
  intros Hs Hd Hr Hv. rewrite !sval56_neg by done.
  pose proof (sval56_range _ Hs). pose proof (sval56_range _ Hd). pose proof (sval56_range _ Hr).
  rewrite <-!sval56_mod in Hv by done. rewrite <-Zminus_mod in Hv. unfold fits56.
  destruct (Z.ltb_spec (sval56 s) 0), (Z.ltb_spec (sval56 d) 0), (Z.ltb_spec (sval56 r) 0),
    (Z.leb_spec (- two55) (sval56 d - sval56 s)), (Z.ltb_spec (sval56 d - sval56 s) two55);
    try reflexivity; exfalso; zdiv_lia.
Qed.

(** Bitwise complement of the words. *)
Lemma not56_val d : wf56 d →
  let n := A56 (u32 (Z.lnot (w0 d)) .& BITMASK 8) (u32 (Z.lnot (w1 d)) .& BITMASK 24)
             (u32 (Z.lnot (w2 d)) .& BITMASK 24) in
  wf56 n ∧ val56 n = two56 - 1 - val56 d.
Proof.
  unfold wf56, val56, Z.lnot, Z.pred; cbn [w0 w1 w2]. carith. intros H.
  assert (∀ x, u32 x mod two24 = x mod two24) as E24 by (unfold u32; intros; zdiv_lia).
  assert (∀ x, u32 x mod 256 = x mod 256) as E8 by (unfold u32; intros; zdiv_lia).
  rewrite !E24, E8. zdiv_lia.
Qed.

Lemma add56_flags s d : wf56 s → wf56 d →
  snd (dsp_add56 s d) =
  newsr_of (c_bool (negb (fits56 (sval56 d + sval56 s))))
           (c_bool (two56 <=? val56 d + val56 s)).
Proof.
  intros Hs Hd. destruct (add56_words s d Hs Hd) as [Hr Hv].
  destruct (not56_val d Hd) as [Hn En].
  rewrite <-(add_overflow_bits s d _ Hs Hd Hr Hv).
  rewrite <-!sign_bit by (destruct Hs, Hd, Hr; lia).
  assert ((two56 <=? val56 d + val56 s) = below56
    (A56 (u32 (Z.lnot (w0 d)) .& BITMASK 8) (u32 (Z.lnot (w1 d)) .& BITMASK 24)
      (u32 (Z.lnot (w2 d)) .& BITMASK 24)) s) as ->.
  { rewrite below56_val, En by done. lia. }
  reflexivity.
Qed.

Lemma sub56_flags s d : wf56 s → wf56 d →
  snd (dsp_sub56 s d) =
  newsr_of (c_bool (negb (fits56 (sval56 d - sval56 s))))
           (c_bool (val56 d <? val56 s)).
Proof.
  intros Hs Hd. destruct (sub56_words s d Hs Hd) as [Hr Hv].
  rewrite <-(sub_overflow_bits s d _ Hs Hd Hr Hv).
  rewrite <-!sign_bit by (destruct Hs, Hd, Hr; lia).
  rewrite <-below56_val by done. reflexivity.
Qed.

(** ** Shifts *)

Lemma lor_double a b : 0 <= b < 2 → (a * 2) .| b = a * 2 + b.
Proof. intros. apply (lor_disjoint_add a b 1); lia. Qed.

Lemma asl56_words d : wf56 d →
  wf56 (fst (dsp_asl56 d)) ∧ val56 (fst (dsp_asl56 d)) = (2 * val56 d) mod two56.
Proof.
  destruct d as [x y z]. unfold wf56, val56, dsp_asl56; cbn [w0 w1 w2 fst]. carith.
  intros. rewrite !u32_small by lia. rewrite !lor_double by zdiv_lia. zdiv_lia.
Qed.

Lemma asl56_flags d : wf56 d →
  snd (dsp_asl56 d) =
  newsr_of (c_bool (negb (fits56 (2 * sval56 d)))) (c_bool (two55 <=? val56 d)).
Proof.
  intros H. destruct (asl56_words d H) as [Hr Hv].
  assert ((two55 <=? val56 d) = (128 <=? w0 d)) as ->.
  { destruct H as (?&?&?). unfold val56. lia. }
  assert (negb (fits56 (2 * sval56 d)) =
    negb (c_bool (128 <=? w0 d) =? c_bool (128 <=? w0 (fst (dsp_asl56 d))))) as ->.
  { rewrite !sval56_neg by done. pose proof (sval56_range _ H). pose proof (sval56_range _ Hr).
    rewrite <-!sval56_mod, Zmult_mod_idemp_r in Hv by done. unfold fits56.
    destruct (Z.ltb_spec (sval56 d) 0), (Z.ltb_spec (sval56 (fst (dsp_asl56 d))) 0),
      (Z.leb_spec (- two55) (2 * sval56 d)), (Z.ltb_spec (2 * sval56 d) two55);
      try reflexivity; exfalso; zdiv_lia. }
  rewrite <-!sign_bit by (destruct H, Hr; lia). reflexivity.
Qed.

Lemma sign_extend_7 x : 0 <= x < 128 →
  x .| ((x .& (1 << 6)) << 1) = if 64 <=? x then x + 128 else x.
Proof.
  intros. apply Z.eqb_eq. revert x H. change 128 with (Z.of_nat 128) at 1.
  apply indices_forallb. vm_compute. reflexivity.
Qed.

Lemma asr56_words d : wf56 d →
  wf56 (fst (dsp_asr56 d)) ∧ sval56 (fst (dsp_asr56 d)) = sval56 d / 2.
Proof.
  destruct d as [x y z]. unfold wf56, sval56, val56, dsp_asr56; cbn [w0 w1 w2 fst].
  intros. rewrite sign_extend_7 by (apply (land_BITMASK_range _ 7); lia). carith.
  rewrite !(u32_small (_ * 8388608)) by zdiv_lia.
  rewrite !(Z.lor_comm _ (_ * 8388608)).
  rewrite !(lor_disjoint_add _ _ 23) by zdiv_lia. change (2 ^ 23) with 8388608.
  destruct (Z.leb_spec 64 (x / 2 mod 128)), (Z.ltb_spec x 128);
    [exfalso; zdiv_lia| | |exfalso; zdiv_lia].
  - rewrite (proj2 (Z.ltb_ge _ _)) by zdiv_lia. zdiv_lia.
  - rewrite (proj2 (Z.ltb_lt _ _)) by zdiv_lia. zdiv_lia.
Qed.

Lemma asr56_flags d : wf56 d → snd (dsp_asr56 d) = newsr_of 0 (val56 d mod 2).
Proof.
  destruct d as [x y z]. unfold wf56, val56, dsp_asr56, newsr_of; cbn [w0 w1 w2 snd].
  carith. intros. assert (z mod 2 = (x * 281474976710656 + y * two24 + z) mod 2) as -> by zdiv_lia.
  reflexivity.
Qed.

(** ** Absolute value *)

Lemma wf_zero56 : wf56 zero56.
Proof. unfold wf56; simpl; lia. Qed.

Lemma tst_7 x : 0 <= x < 256 → tst x (1 << 7) = (128 <=? x).
Proof.
  intros. apply eqb_prop. revert x H. change 256 with (Z.of_nat 256).
  apply indices_forallb. vm_compute. reflexivity.
Qed.

Lemma neg56_words d : wf56 d →
  wf56 (fst (dsp_sub56 d zero56)) ∧
  sval56 (fst (dsp_sub56 d zero56)) = if sval56 d =? - two55 then - two55 else - sval56 d.
Proof.
  intros H. destruct (sub56_words d zero56 H wf_zero56) as [Hr Hv]. split; [done|].
  pose proof (sval56_range d H). pose proof (sval56_range _ Hr).
  change (val56 zero56) with 0 in Hv. rewrite <-!sval56_mod in Hv by done.
  destruct (Z.eqb_spec (sval56 d) (- two55)); zdiv_lia.
Qed.

Lemma abs56_words d : wf56 d →
  wf56 (fst (dsp_abs56 d)) ∧
  sval56 (fst (dsp_abs56 d)) = if sval56 d =? - two55 then - two55 else Z.abs (sval56 d).
Proof.
  intros H. unfold dsp_abs56. rewrite tst_7 by (destruct H; lia). rewrite sval56_neg by done.
  destruct (Z.ltb_spec (sval56 d) 0).
  - destruct (neg56_words d H) as [? ->]. split; [done|].
    destruct (sval56 d =? - two55); lia.
  - simpl. split; [done|]. destruct (Z.eqb_spec (sval56 d) (- two55)); lia.
Qed.

(** ** Multiplication *)

Lemma tst_23 x : 0 <= x < two24 → tst x (1 << 23) = (8388608 <=? x).
Proof.
  intros. change (1 << 23) with (Z.shiftl 1 23). rewrite tst_testbit by lia.
  destruct (Z.leb_spec 8388608 x).
  - apply Z.testbit_true; [lia|]. change (2 ^ 23) with 8388608. zdiv_lia.
  - apply Z.testbit_false; [lia|]. change (2 ^ 23) with 8388608. zdiv_lia.
Qed.

Lemma mul56_magnitude_abs x : 0 <= x < two24 → mul56_magnitude x = Z.abs (s24 x).
Proof.
  intros. unfold mul56_magnitude, s24. rewrite tst_23 by done. carith.
  change (1 << 24) with two24. unfold u32.
  destruct (Z.leb_spec 8388608 x), (Z.ltb_spec x 8388608); try lia. zdiv_lia.
Qed.

(** The words of the unsigned product of two magnitudes. *)
Lemma mul56_parts a b : 0 <= a <= 8388608 → 0 <= b <= 8388608 →
  let a0 := a mod 4096 in let a1 := a / 4096 in
  let b0 := b mod 4096 in let b1 := b / 4096 in
  (0 <= a0 * b0 < two24 ∧ 0 <= a1 * b0 < two24 ∧ 0 <= a0 * b1 < two24 ∧
   0 <= a1 * b1 <= 4194304) ∧
  a * b = a0 * b0 + (a1 * b0 + a0 * b1) * 4096 + a1 * b1 * two24.
Proof.
  intros Ha Hb a0 a1 b0 b1.
  assert (0 <= a0 < 4096 ∧ 0 <= a1 <= 2048 ∧ a = a1 * 4096 + a0) as (?&?&Ea)
    by (unfold a0, a1; zdiv_lia).
  assert (0 <= b0 < 4096 ∧ 0 <= b1 <= 2048 ∧ b = b1 * 4096 + b0) as (?&?&Eb)
    by (unfold b0, b1; zdiv_lia).
  clearbody a0 a1 b0 b1. subst a b. split; [repeat split; nia|ring].
Qed.

Definition mul56_unsigned (a b : Z) : a56 := A56 0 (a * b / two24) (a * b mod two24).

Lemma mul56_unsigned_wf a b : 0 <= a <= 8388608 → 0 <= b <= 8388608 →
  wf56 (mul56_unsigned a b) ∧ val56 (mul56_unsigned a b) = a * b ∧ 0 <= a * b <= 70368744177664.
Proof.
  intros. assert (0 <= a * b <= 70368744177664) as Hp by nia.
  unfold wf56, val56, mul56_unsigned; cbn [w0 w1 w2]. set (p := a * b) in *. clearbody p.
  zdiv_lia.
Qed.

(** The partial products, accumulated. *)
Lemma mul56_accumulate_words p0 p1 p2 p3 :
  0 <= p0 < two24 → 0 <= p1 < two24 → 0 <= p2 < two24 → 0 <= p3 <= 4194304 →
  p0 + (p1 + p2) * 4096 + p3 * two24 <= 70368744177664 →
  mul56_accumulate p0 p1 p2 p3 =
  A56 0 ((p0 + (p1 + p2) * 4096 + p3 * two24) / two24)
        ((p0 + (p1 + p2) * 4096 + p3 * two24) mod two24).
Proof.
  intros H0 H1 H2 H3 HP. unfold mul56_accumulate. carith.
  rewrite !(u32_small (_ * 4096)) by zdiv_lia.
  rewrite !(u32_small (p0 + _)) by zdiv_lia.
  rewrite (u32_small (p0 + _ + _)) by zdiv_lia.
  rewrite !(u32_small (_ + p2 / 4096 mod 4096)) by zdiv_lia.
  rewrite !(u32_small (_ + p3)) by zdiv_lia.
  cbv zeta. set (d2 := p0 + _ + _). set (d1 := _ + p3).
  assert (0 <= d2 < 67108864) by (unfold d2; zdiv_lia).
  assert (0 <= d1 ∧ d1 * two24 + d2 = p0 + (p1 + p2) * 4096 + p3 * two24) as [? E]
    by (unfold d1, d2; zdiv_lia).
  rewrite <-E in *. clearbody d1 d2. clear E H0 H1 H2 H3 p0 p1 p2 p3.
  rewrite (Z.mod_small (d2 / two24)) by zdiv_lia.
  destruct (Z.eqb_spec (d2 / two24) 0); cbn [negb]; carith.
  - rewrite (Z.mod_small (d1 / two24)) by zdiv_lia.
    replace (d1 / two24) with 0 by zdiv_lia. cbn [negb Z.eqb]. f_equal; zdiv_lia.
  - rewrite (u32_small (d1 + _)) by zdiv_lia.
    rewrite (Z.mod_small ((d1 + _) / two24)) by zdiv_lia.
    replace ((d1 + d2 / two24) / two24) with 0 by zdiv_lia. cbn [negb Z.eqb].
    f_equal; zdiv_lia.
Qed.

Lemma s24_abs_range x : 0 <= x < two24 → 0 <= Z.abs (s24 x) <= 8388608.
Proof. intros. unfold s24. destruct (Z.ltb_spec x 8388608); lia. Qed.

Lemma tst_23_s24 x : 0 <= x < two24 → tst x (1 << 23) = (s24 x <? 0).
Proof. intros. rewrite tst_23 by done. unfold s24. destruct (Z.ltb_spec x 8388608); lia. Qed.

(** The multiplier shifts the product of the magnitudes and restores the sign. *)
Lemma mul56_shape x y : 0 <= x < two24 → 0 <= y < two24 →
  dsp_mul56 x y =
  let dest := fst (dsp_asl56 (mul56_unsigned (Z.abs (s24 x)) (Z.abs (s24 y)))) in
  if xorb (s24 x <? 0) (s24 y <? 0) then fst (dsp_sub56 dest zero56) else dest.
Proof.
  intros Hx Hy. unfold dsp_mul56. rewrite !tst_23_s24, !mul56_magnitude_abs by done.
  pose proof (s24_abs_range x Hx) as Ha. pose proof (s24_abs_range y Hy) as Hb.
  generalize dependent (Z.abs (s24 x)). intros a Ha.
  generalize dependent (Z.abs (s24 y)). intros b Hb.
  destruct (mul56_parts a b Ha Hb) as [(P0 & P1 & P2 & P3) E].
  destruct (mul56_unsigned_wf a b Ha Hb) as (_&_&HP).
  carith. rewrite (Z.mod_small (a / 4096)), (Z.mod_small (b / 4096)) by zdiv_lia.
  rewrite !(u32_small (_ * _)) by lia.
  rewrite mul56_accumulate_words by lia. rewrite <-E.
  destruct (s24 x <? 0), (s24 y <? 0); reflexivity.
Qed.

Lemma mul56_signed x y : 0 <= x < two24 → 0 <= y < two24 →
  wf56 (dsp_mul56 x y) ∧ sval56 (dsp_mul56 x y) = 2 * s24 x * s24 y.
Proof.
  intros Hx Hy. rewrite mul56_shape by done. cbv zeta.
  pose proof (s24_abs_range x Hx) as Ha. pose proof (s24_abs_range y Hy) as Hb.
  destruct (mul56_unsigned_wf _ _ Ha Hb) as (Hu & Hv & HP).
  destruct (asl56_words _ Hu) as [Hd Ed]. rewrite Hv in Ed.
  set (d := fst (dsp_asl56 _)) in *. clearbody d.
  assert (sval56 d = 2 * (Z.abs (s24 x) * Z.abs (s24 y))) as Es.
  { apply sval56_unique; [done| |done]. unfold fits56. lia. }
  rewrite <-Z.abs_mul in Es, HP.
  destruct (neg56_words d Hd) as [Hn En].
  destruct (Z.ltb_spec (s24 x) 0), (Z.ltb_spec (s24 y) 0); cbn [xorb];
    (split; [done|]); rewrite ?En, ?Es; try nia.
  all: rewrite (proj2 (Z.eqb_neq _ _)) by lia; nia.
Qed.

(** ** Convergent rounding *)

(** [r] is [x] rounded to a multiple of [q], a tie going to an even multiple. *)
Definition convergent (q x r : Z) : Prop :=
  r mod q = 0 ∧ 2 * Z.abs (r - x) <= q ∧ (2 * Z.abs (r - x) = q → r mod (2 * q) = 0).

(** The weight of the last bit kept, by the scaling bits S1 and S0 of [sr]. *)
Definition rounding_unit (sr : Z) : Z :=
  if tst sr (1 << DSP_SR_S0) then 33554432
  else if tst sr (1 << DSP_SR_S1) then 8388608 else two24.

(** Masking to the bits [k] .. [n-1]. *)
Lemma mask_high x k n m : 0 <= k <= n → m = Z.shiftl (Z.ones (n - k)) k →
  x .& m = x mod 2 ^ n - x mod 2 ^ k.
Proof.
  intros Hk ->.
  assert (x .& Z.shiftl (Z.ones (n - k)) k = Z.shiftl (Z.land (Z.shiftr x k) (Z.ones (n - k))) k) as ->.
  { apply Z.bits_inj'. intros i Hi. rewrite Z.land_spec, !Z.shiftl_spec, Z.land_spec by done.
    destruct (Z.lt_ge_cases i k).
    - rewrite !(Z.testbit_neg_r _ (i - k)) by lia. by rewrite andb_false_r.
    - rewrite Z.shiftr_spec by lia. by rewrite Z.sub_add. }
  rewrite Z.land_ones, Z.shiftl_mul_pow2, Z.shiftr_div_pow2 by lia.
  replace (2 ^ n) with (2 ^ k * 2 ^ (n - k)) by (rewrite <-Z.pow_add_r by lia; f_equal; lia).
  rewrite Z.rem_mul_r by (apply Z.pow_nonzero || apply Z.pow_pos_nonneg; lia). lia.
Qed.

Lemma mask_fffffe x : 0 <= x < two24 → x .& 0xfffffe = x - x mod 2.
Proof. intros. rewrite (mask_high x 1 24) by done. rewrite (Z.mod_small x) by done. done. Qed.
Lemma mask_fffffc x : 0 <= x < two24 → x .& (0xffffff - 0x3) = x - x mod 4.
Proof. intros. rewrite (mask_high x 2 24) by done. rewrite (Z.mod_small x) by done. done. Qed.
Lemma mask_800000 x : 0 <= x < two24 → x .& 0x800000 = x - x mod 8388608.
Proof. intros. rewrite (mask_high x 23 24) by done. rewrite (Z.mod_small x) by done. done. Qed.
Lemma mask_7fffff x : x .& 0x7fffff = x mod 8388608.
Proof. apply (Z.land_ones _ 23). lia. Qed.

(** The sum with the rounding constant. *)
Lemma rnd_sum c d : wf56 c → wf56 d →
  wf56 (fst (dsp_add56 c d)) ∧
  val56 (fst (dsp_add56 c d)) = (sval56 d + val56 c) mod two56.
Proof.
  intros Hc Hd. destruct (add56_words c d Hc Hd) as [? ->]. split; [done|].
  by rewrite <-(sval56_mod d), Zplus_mod_idemp_l.
Qed.

Lemma rnd56_convergent sr d : wf56 d →
  wf56 (dsp_rnd56 sr d) ∧
  ∃ r, convergent (rounding_unit sr) (sval56 d) r ∧ val56 (dsp_rnd56 sr d) = r mod two56.
Proof.
  intros H. unfold dsp_rnd56, rounding_unit, convergent.
  destruct (tst sr (1 << DSP_SR_S0)); [|destruct (tst sr (1 << DSP_SR_S1))].
  - destruct (rnd_sum (A56 0 1 0) d) as [Hw Hv]; [vm_compute; intuition congruence|done|].
    destruct (fst (dsp_add56 (A56 0 1 0) d)) as [a b c].
    unfold wf56, val56 in *; cbn [w0 w1 w2] in *. carith.
    rewrite mask_fffffc, !mask_fffffe by (try case_match; try rewrite mask_fffffc; zdiv_lia).
    set (S := sval56 d) in *. clearbody S.
    destruct ((c =? 0) && (b mod 2 =? 0)) eqn:E.
    + split; [zdiv_lia|].
      exists (S + two24 - c - (b mod 4) * two24). zdiv_lia.
    + split; [zdiv_lia|].
      exists (S + two24 - c - (b mod 2) * two24). zdiv_lia.
  - destruct (rnd_sum (A56 0 0 (1 << 22)) d) as [Hw Hv]; [vm_compute; intuition congruence|done|].
    change (val56 (A56 0 0 (1 << 22))) with 4194304 in Hv.
    destruct (fst (dsp_add56 (A56 0 0 (1 << 22)) d)) as [a b c].
    unfold wf56, val56 in *; cbn [w0 w1 w2] in *. rewrite mask_7fffff.
    set (S := sval56 d) in *. clearbody S.
    destruct (Z.eqb_spec (c mod 8388608) 0); rewrite mask_800000 by lia.
    + split; [zdiv_lia|]. exists (S + 4194304 - c). zdiv_lia.
    + split; [zdiv_lia|]. exists (S + 4194304 - c mod 8388608). zdiv_lia.
  - destruct (rnd_sum (A56 0 0 (1 << 23)) d) as [Hw Hv]; [vm_compute; intuition congruence|done|].
    change (val56 (A56 0 0 (1 << 23))) with 8388608 in Hv.
    destruct (fst (dsp_add56 (A56 0 0 (1 << 23)) d)) as [a b c].
    unfold wf56, val56 in *; cbn [w0 w1 w2] in *.
    set (S := sval56 d) in *. clearbody S.
    destruct (Z.eqb_spec c 0); rewrite ?mask_fffffe by lia.
    + split; [zdiv_lia|]. exists (S + 8388608 - (b mod 2) * two24). zdiv_lia.
    + split; [zdiv_lia|]. exists (S + 8388608 - c). zdiv_lia.
Qed.

(** ** Condition codes *)

(** The bound of the fractional part: 2^47, moved by the scaling mode. *)
Definition ccr_bound (scaling : Z) : Z :=
  if scaling =? 0 then 140737488355328
  else if scaling =? 1 then 281474976710656 else 70368744177664.

Definition within (b x : Z) : bool := (- b <=? x) && (x <? b).

Lemma c_bool_testbit sr n : 0 <= n → c_bool (Z.testbit sr n) = sr / 2 ^ n mod 2.
Proof. intros. rewrite <-Z.testbit_spec' by done. by destruct (Z.testbit sr n). Qed.

Lemma bit_testbit x k : 0 <= k → (x >> k) .& 1 = c_bool (Z.testbit x k).
Proof. intros. rewrite c_bool_testbit by lia. by rewrite mask_1, Z.shiftr_div_pow2 by lia. Qed.

Lemma ccr_scaling_bits sr :
  ccr_scaling sr = c_bool (Z.testbit sr 10) + 2 * c_bool (Z.testbit sr 11).
Proof.
  unfold ccr_scaling. rewrite (mask_mod _ 2 4), (shr_div _ 10 1024) by done.
  rewrite !c_bool_testbit by done. change (2 ^ 10) with 1024. change (2 ^ 11) with 2048.
  zdiv_lia.
Qed.

Lemma ccr_scaling_put_bit k b sr : 0 <= k < 10 → ccr_scaling (put_bit k b sr) = ccr_scaling sr.
Proof.
  intros. rewrite !ccr_scaling_bits, !put_bit_spec by lia.
  by rewrite !(proj2 (Z.eqb_neq _ k)) by lia.
Qed.

Lemma ccr_scaling_range sr : 0 <= ccr_scaling sr < 4.
Proof. apply (land_BITMASK_range _ 2). lia. Qed.

Lemma ccr_negative_put d sr : wf56 d →
  dsp_ccr_negative (w0 d) sr = put_bit DSP_SR_N (sval56 d <? 0) sr.
Proof.
  intros H. unfold dsp_ccr_negative, put_bit. rewrite <-sval56_neg by done.
  rewrite sign_bit by (destruct H; lia). done.
Qed.

Lemma ccr_zero_put d sr : wf56 d →
  dsp_ccr_zero (w0 d) (w1 d) (w2 d) sr = put_bit DSP_SR_Z (sval56 d =? 0) sr.
Proof.
  intros H. unfold dsp_ccr_zero, put_bit. carith. destruct H as (?&?&?).
  rewrite !Z.mod_small by done.
  replace (sval56 d =? 0) with ((w2 d =? 0) && (w1 d =? 0) && (w0 d =? 0));
    [by destruct (w2 d =? 0), (w1 d =? 0), (w0 d =? 0)|].
  unfold sval56, val56. destruct (Z.ltb_spec (w0 d) 128); lia.
Qed.

(** The integer part of the accumulator as the source assembles it. *)
Lemma lor_quad a b : 0 <= b < 4 → (a * 4) .| b = a * 4 + b.
Proof. intros. apply (lor_disjoint_add a b 2); lia. Qed.

Lemma ccr_extension_put d sr : wf56 d → ccr_scaling sr ≠ 3 →
  dsp_ccr_extension (w0 d) (w1 d) sr =
  put_bit DSP_SR_E (negb (within (ccr_bound (ccr_scaling sr)) (sval56 d))) sr.
Proof.
  intros (H0&H1&H2) Hs. pose proof (ccr_scaling_range sr).
  unfold dsp_ccr_extension, put_bit, ccr_bound, within.
  assert (∀ b v, (if (b : bool) then 0 else 1 << DSP_SR_E) = c_bool (negb v) << DSP_SR_E ↔ b = v) as Hb
    by (by intros [] []).
  carith. change (BITMASK 9) with 511. change (BITMASK 8) with 255. change (BITMASK 10) with 1023.
  rewrite (Z.mod_small (w0 d)), (u32_small (w0 d * 2)), (u32_small (w0 d * 4)) by lia.
  rewrite lor_double, lor_quad by zdiv_lia.
  assert (ccr_scaling sr = 0 ∨ ccr_scaling sr = 1 ∨ ccr_scaling sr = 2) as [-> | [-> | ->]] by lia;
    cbn [Z.eqb Pos.eqb]; f_equal; apply Hb; unfold sval56, val56;
    destruct (Z.ltb_spec (w0 d) 128); apply eq_true_iff_eq; zdiv_lia.
Qed.

Definition unnormalized_bits (bound : Z) (d : a56) : bool :=
  (val56 d / (bound / 2) mod 4 =? 0) || (val56 d / (bound / 2) mod 4 =? 3).

Lemma mask_2 x : x .& 2 = 2 * (x / 2 mod 2).
Proof.
  rewrite (mask_high x 1 2) by done. change (2 ^ 1) with 2. change (2 ^ 2) with 4. zdiv_lia.
Qed.

Lemma ccr_unnormalized_put d sr : wf56 d → ccr_scaling sr ≠ 3 →
  dsp_ccr_unnormalized (w0 d) (w1 d) sr =
  put_bit DSP_SR_U (unnormalized_bits (ccr_bound (ccr_scaling sr)) d) sr.
Proof.
  intros (H0&H1&H2) Hs. pose proof (ccr_scaling_range sr).
  unfold dsp_ccr_unnormalized, put_bit, ccr_bound, unnormalized_bits, val56.
  change (BITMASK 2) with 3. carith. rewrite (u32_small (w0 d * 2)), mask_2 by lia.
  rewrite (Z.mul_comm 2), lor_double by zdiv_lia.
  assert (ccr_scaling sr = 0 ∨ ccr_scaling sr = 1 ∨ ccr_scaling sr = 2) as [-> | [-> | ->]] by lia;
    cbn [Z.eqb Pos.eqb]; f_equal; f_equal; f_equal; f_equal.
  - change (140737488355328 / 2) with 70368744177664.
    f_equal; f_equal; zdiv_lia.
  - change (281474976710656 / 2) with 140737488355328.
    f_equal; f_equal; zdiv_lia.
  - change (70368744177664 / 2) with 35184372088832.
    f_equal; f_equal; zdiv_lia.
Qed.

(** For a result without integer part, U says that its first two fraction bits
    agree: it lies in the lower half of the range. *)
Lemma unnormalized_within d scaling : wf56 d → 0 <= scaling <= 2 →
  within (ccr_bound scaling) (sval56 d) = true →
  unnormalized_bits (ccr_bound scaling) d = within (ccr_bound scaling / 2) (sval56 d).
Proof.
  intros H Hs. pose proof (val56_range d H). unfold within, unnormalized_bits.
  assert (sval56 d = val56 d ∧ val56 d < two55 ∨ sval56 d = val56 d - two56 ∧ two55 <= val56 d)
    as HS by (destruct H as (?&?&?); unfold sval56, val56; destruct (Z.ltb_spec (w0 d) 128); lia).
  generalize dependent (sval56 d). intros S HS. generalize dependent (val56 d). intros V HV HS.
  assert (∃ h k, ccr_bound scaling = 2 * h ∧ two56 = 4 * h * k ∧ 0 < h ∧ 0 < k) as (h & k & -> & E & Hh & Hk).
  { unfold ccr_bound. assert (scaling = 0 ∨ scaling = 1 ∨ scaling = 2) as [-> | [-> | ->]] by lia.
    - by exists 70368744177664, 256.
    - by exists 140737488355328, 128.
    - by exists 35184372088832, 512. }
  rewrite Z.mul_comm, Z.div_mul by lia. intros Hw. apply andb_prop in Hw as [Hw1 Hw2].
  rewrite Z.leb_le in Hw1. rewrite Z.ltb_lt in Hw2.
  assert (V / h mod 4 = S / h mod 4) as ->.
  { destruct HS as [[-> ?]|[-> ?]]; [done|]. rewrite E.
    replace (V - 4 * h * k) with (V + (- (4 * k)) * h) by lia.
    rewrite Z.div_add by lia. replace (V / h + - (4 * k)) with (V / h + (- k) * 4) by lia.
    by rewrite Z_mod_plus_full. }
  assert (S / h = -2 ∧ S < -h ∨ S / h = -1 ∧ -h <= S < 0 ∨ S / h = 0 ∧ 0 <= S < h ∨ S / h = 1 ∧ h <= S)
    as [[-> ?]|[[-> ?]|[[-> ?]|[-> ?]]]];
    [|change (-2 mod 4) with 2; lia|change (-1 mod 4) with 3; lia
     |change (0 mod 4) with 0; lia|change (1 mod 4) with 1; lia].
  pose proof (Z.div_mod S h ltac:(lia)). pose proof (Z.mod_pos_bound S h ltac:(lia)).
  assert (-2 <= S / h <= 1) by nia. nia.
Qed.

Lemma ccr_all_put d sr : wf56 d → ccr_scaling sr ≠ 3 →
  ccr_all d sr =
  put_bit DSP_SR_Z (sval56 d =? 0) (put_bit DSP_SR_N (sval56 d <? 0)
   (put_bit DSP_SR_U (unnormalized_bits (ccr_bound (ccr_scaling sr)) d)
    (put_bit DSP_SR_E (negb (within (ccr_bound (ccr_scaling sr)) (sval56 d))) sr))).
Proof.
  intros H Hs. unfold ccr_all. rewrite ccr_extension_put by done.
  rewrite ccr_unnormalized_put, ccr_scaling_put_bit by (rewrite ?ccr_scaling_put_bit; [done|lia..]).
  by rewrite ccr_negative_put, ccr_zero_put.
Qed.

(** ** The theorems *)

Lemma newsr_of_bits o c i : 0 <= i →
  Z.testbit (newsr_of (c_bool o) (c_bool c)) i =
  if i =? DSP_SR_C then c else if (i =? DSP_SR_V) || (i =? DSP_SR_L) then o else false.
Proof.
  intros Hi. destruct (Z.lt_ge_cases i 16).
  - assert (forallb (λ i, eqb (Z.testbit (newsr_of (c_bool o) (c_bool c)) i)
      (if i =? DSP_SR_C then c else if (i =? DSP_SR_V) || (i =? DSP_SR_L) then o else false))
      (indices 16) = true) as Hc by (destruct o, c; vm_compute; reflexivity).
    apply eqb_prop. apply (indices_forallb 16 _ Hc). lia.
  - rewrite (range_bits _ 16); [|by destruct o, c|done].
    destruct (Z.eqb_spec i 0), (Z.eqb_spec i 1), (Z.eqb_spec i 6); try lia; done.
Qed.

(** What an operation with flags promises: the words of the result are in range
    and hold [exact] modulo 2^56, V and L report that the signed result
    [signed] does not fit, C is [carry], and no other flag is returned. *)
Definition computes (r : a56 * Z) (exact signed : Z) (carry : bool) : Prop :=
  wf56 (fst r) ∧ val56 (fst r) = exact mod two56 ∧
  (fits56 signed = true → sval56 (fst r) = signed) ∧
  ∀ i, 0 <= i → Z.testbit (snd r) i =
    if i =? DSP_SR_C then carry
    else if (i =? DSP_SR_V) || (i =? DSP_SR_L) then negb (fits56 signed) else false.

Lemma computes_intro r exact signed carry :
  wf56 (fst r) → val56 (fst r) = exact mod two56 → exact mod two56 = signed mod two56 →
  snd r = newsr_of (c_bool (negb (fits56 signed))) (c_bool carry) →
  computes r exact signed carry.
Proof.
  intros Hw Hv Hm Hs. repeat split; try done; [apply Hw..| |].
  - intros Hf. apply sval56_unique; [done..|congruence].
  - intros i Hi. rewrite Hs. by apply newsr_of_bits.
Qed.

Lemma add56_computes s d : wf56 s → wf56 d →
  computes (dsp_add56 s d) (val56 d + val56 s) (sval56 d + sval56 s)
    (two56 <=? val56 d + val56 s).
Proof.
  intros Hs Hd. destruct (add56_words s d Hs Hd). apply computes_intro; try done.
  - by rewrite <-(sval56_mod s), <-(sval56_mod d), <-Zplus_mod.
  - by apply add56_flags.
Qed.

Lemma sub56_computes s d : wf56 s → wf56 d →
  computes (dsp_sub56 s d) (val56 d - val56 s) (sval56 d - sval56 s) (val56 d <? val56 s).
Proof.
  intros Hs Hd. destruct (sub56_words s d Hs Hd). apply computes_intro; try done.
  - by rewrite <-(sval56_mod s), <-(sval56_mod d), <-Zminus_mod.
  - by apply sub56_flags.
Qed.

(** C32: the 56-bit adder.  For operands held in registers of the right width,
    [dsp_add56] stores the sum modulo 2^56; V and L are set exactly when the
    signed sum is not representable, and otherwise the stored number is that
    sum; C is the carry out of bit 55; no other flag bit is returned. *)
Theorem add56_correct s d : wf56 s → wf56 d →
  computes (dsp_add56 s d) (val56 d + val56 s) (sval56 d + sval56 s)
    (two56 <=? val56 d + val56 s).
Proof. apply add56_computes. Qed.

Lemma add56_correct_witness :
  computes (dsp_add56 (A56 0x7f 0xffffff 0xffffff) (A56 0 0 1)) two55 two55 false.
Proof. apply (add56_correct (A56 0x7f 0xffffff 0xffffff) (A56 0 0 1)); vm_compute; intuition congruence. Defined.

(** the 56-bit subtractor.  [dsp_sub56] stores [dest - source] modulo 2^56;
    V and L are set exactly when the signed difference is not representable,
    and otherwise the stored number is that difference; C is the borrow. *)
Theorem sub56_correct s d : wf56 s → wf56 d →
  computes (dsp_sub56 s d) (val56 d - val56 s) (sval56 d - sval56 s) (val56 d <? val56 s).
Proof. apply sub56_computes. Qed.

Lemma sub56_correct_witness :
  computes (dsp_sub56 (A56 0 0 1) (A56 0 0 0)) (-1) (-1) true.
Proof. apply (sub56_correct (A56 0 0 1) (A56 0 0 0)); vm_compute; intuition congruence. Defined.

(** C30: the multiplier.  Assembled from four 12-bit partial products, the
    result of [dsp_mul56] is the exact fractional product of its operands: in
    56 bits, twice the product of the two signed 24-bit integers, for every
    pair of operands including -1.0 times -1.0. *)
Theorem mul56_correct x y : 0 <= x < two24 → 0 <= y < two24 →
  wf56 (dsp_mul56 x y) ∧ sval56 (dsp_mul56 x y) = 2 * s24 x * s24 y.
Proof. apply mul56_signed. Qed.

Lemma mul56_correct_witness :
  wf56 (dsp_mul56 0x800000 0x800000) ∧ sval56 (dsp_mul56 0x800000 0x800000) = 140737488355328.
Proof. apply (mul56_correct 0x800000 0x800000); lia. Defined.

(** convergent rounding.  In every scaling mode [dsp_rnd56] replaces the
    accumulator by the nearest multiple of the mode's rounding unit, the
    even multiple in case of a tie, modulo 2^56. *)
Theorem rnd56_correct sr d : wf56 d →
  wf56 (dsp_rnd56 sr d) ∧
  ∃ r, convergent (rounding_unit sr) (sval56 d) r ∧ val56 (dsp_rnd56 sr d) = r mod two56.
Proof. apply rnd56_convergent. Qed.

Lemma rnd56_correct_witness :
  wf56 (dsp_rnd56 0 (A56 0 2 0x800000)) ∧
  ∃ r, convergent (rounding_unit 0) (sval56 (A56 0 2 0x800000)) r ∧
       val56 (dsp_rnd56 0 (A56 0 2 0x800000)) = r mod two56.
Proof. apply (rnd56_correct 0 (A56 0 2 0x800000)). vm_compute; intuition congruence. Defined.

(** the shifters.  [dsp_asl56] doubles the accumulator modulo 2^56, sets V
    and L exactly when the doubled signed value does not fit, and C to the bit
    shifted out; [dsp_asr56] halves the signed value rounding down, sets C to
    the bit shifted out and clears V and L. *)
Theorem shift56_correct d : wf56 d →
  computes (dsp_asl56 d) (2 * val56 d) (2 * sval56 d) (two55 <=? val56 d) ∧
  wf56 (fst (dsp_asr56 d)) ∧ sval56 (fst (dsp_asr56 d)) = sval56 d / 2 ∧
  ∀ i, 0 <= i → Z.testbit (snd (dsp_asr56 d)) i = (i =? DSP_SR_C) && Z.odd (val56 d).
Proof.
  intros H. destruct (asl56_words d H), (asr56_words d H). split; [|split; [done|split; [done|]]].
  - apply computes_intro; try done; [|by apply asl56_flags].
    by rewrite <-(sval56_mod d), Zmult_mod_idemp_r.
  - intros i Hi. rewrite asr56_flags by done. change 0 with (c_bool false) at 1.
    replace (val56 d mod 2) with (c_bool (Z.odd (val56 d)))
      by (rewrite Zmod_odd; by destruct (Z.odd (val56 d))).
    rewrite newsr_of_bits by done. by destruct (i =? DSP_SR_C), ((i =? DSP_SR_V) || (i =? DSP_SR_L)).
Qed.

Lemma shift56_correct_witness :
  sval56 (fst (dsp_asr56 (A56 0xff 0xffffff 0xfffffd))) = -3 / 2.
Proof. apply (shift56_correct (A56 0xff 0xffffff 0xfffffd)). vm_compute; intuition congruence. Defined.

(** absolute value and negation.  [dsp_abs56] yields the magnitude of the
    accumulator and [dsp_sub56 _ zero56] its opposite, except for the most
    negative number, which both leave unchanged. *)
Theorem abs56_correct d : wf56 d →
  wf56 (fst (dsp_abs56 d)) ∧ wf56 (fst (dsp_sub56 d zero56)) ∧
  if sval56 d =? - two55 then fst (dsp_abs56 d) = d ∧ fst (dsp_sub56 d zero56) = d
  else sval56 (fst (dsp_abs56 d)) = Z.abs (sval56 d) ∧
       sval56 (fst (dsp_sub56 d zero56)) = - sval56 d.
Proof.
  intros H. destruct (abs56_words d H) as [Ha Ea], (neg56_words d H) as [Hn En].
  split; [done|]. split; [done|]. destruct (Z.eqb_spec (sval56 d) (- two55)) as [E|]; [|done].
  split; apply val56_inj; try done; rewrite <-!sval56_mod by done; congruence.
Qed.

Lemma abs56_correct_witness :
  fst (dsp_abs56 (A56 0x80 0 0)) = A56 0x80 0 0 ∧ fst (dsp_sub56 (A56 0x80 0 0) zero56) = A56 0x80 0 0.
Proof. apply (abs56_correct (A56 0x80 0 0)). vm_compute; intuition congruence. Defined.

(** the condition codes.  In the three defined scaling modes, the four
    calls that end an ALU instruction set E iff the result has an integer part
    (it leaves [-2^47, 2^47), scaled), N iff it is negative, Z iff it is zero,
    and, when there is no integer part, U iff the result is unnormalised (it
    lies in the lower half of that range); all other bits of the status
    register are kept. *)
Theorem ccr_correct d sr : wf56 d → ccr_scaling sr ≠ 3 →
  let b := ccr_bound (ccr_scaling sr) in
  let sr' := ccr_all d sr in
  Z.testbit sr' DSP_SR_N = (sval56 d <? 0) ∧
  Z.testbit sr' DSP_SR_Z = (sval56 d =? 0) ∧
  Z.testbit sr' DSP_SR_E = negb (within b (sval56 d)) ∧
  (within b (sval56 d) = true → Z.testbit sr' DSP_SR_U = within (b / 2) (sval56 d)) ∧
  (∀ i, 0 <= i < 16 → i ≠ DSP_SR_N → i ≠ DSP_SR_Z → i ≠ DSP_SR_E → i ≠ DSP_SR_U →
     Z.testbit sr' i = Z.testbit sr i).
Proof.
  intros H Hs b sr'. subst b sr'. rewrite ccr_all_put by done.
  repeat split; intros; rewrite !put_bit_spec by lia; cbn [Z.eqb Pos.eqb]; try done.
  - apply unnormalized_within; try done. pose proof (ccr_scaling_range sr). lia.
  - rewrite (proj2 (Z.ltb_lt i 16)) by lia.
    rewrite !(proj2 (Z.eqb_neq i _)) by done. done.
Qed.

Lemma ccr_correct_witness :
  Z.testbit (ccr_all (A56 0xff 0xc00000 0) 0xc300) DSP_SR_U =
  within (140737488355328 / 2) (sval56 (A56 0xff 0xc00000 0)).
Proof.
  apply (ccr_correct (A56 0xff 0xc00000 0) 0xc300); [vm_compute; intuition congruence|
    vm_compute; congruence|vm_compute; reflexivity].
Defined.
