(* ===== verification/CpuRun.v ===== *)
(** * Running the interpreter's register operations

    Equations that evaluate computations of [Cpu] which touch registers only,
    the rewrite database [run] that applies them, and the width invariant of
    the register file.  They carry the instruction-level theorems. *)

From S2P Require Import Prelude Effects DspCore Arith56 Arith56Spec Cpu.
From stdpp Require Import base gmap list numbers.
Open Scope Z_scope.
Open Scope c_scope.
Open Scope eff_scope.

(** Register [n] of a state, and its assignment. *)
Definition reg (n : Z) (s : cpu_t) : Z := aget (registers (core s)) n.
Definition set_reg (n v : Z) (s : cpu_t) : cpu_t := set_core (wr_core n v (core s)) s.

(** The accumulator A ([n] = 0) or B ([n] = 1). *)
Definition accu (n : Z) (s : cpu_t) : a56 :=
  A56 (reg (DSP_REG_A2 + n) s) (reg (DSP_REG_A1 + n) s) (reg (DSP_REG_A0 + n) s).
Definition set_accu (n : Z) (d : a56) (s : cpu_t) : cpu_t :=
  set_reg (DSP_REG_A0 + n) (w2 d)
    (set_reg (DSP_REG_A1 + n) (w1 d) (set_reg (DSP_REG_A2 + n) (w0 d) s)).

(** Every register is within the width [registers_mask] gives it. *)
Definition reg_bits (n : Z) : Z := nth (Z.to_nat n) registers_mask 0.
Definition regs_ok (s : cpu_t) : Prop :=
  ∀ n, DSP_REG_X0 <= n < DSP_REG_A → 0 <= reg n s < 2 ^ reg_bits n.

(** A concrete state: the given registers and current instruction, all else 0. *)
Definition regs_state (inst : Z) (l : list (Z * Z)) : cpu_t :=
  set_cur_inst inst (foldr (λ '(n, v) s, set_reg n v s) (cpu_init zeroed_core) l).

(** ** Register file *)

Lemma regs_ok_check s :
  forallb (λ n, in_range 0 (2 ^ reg_bits (n + 4)) (reg (n + 4) s)) (indices 10) = true → regs_ok s.
Proof.
  intros H n Hn. pose proof (indices_forallb 10 _ H (n - 4) ltac:(lia)) as Hc.
  cbv beta in Hc. replace (n - 4 + 4) with n in Hc by lia. unfold in_range in Hc. lia.
Qed.

Lemma reg_set_reg_eq n v s : reg n (set_reg n v s) = v.
Proof. apply aget_aset_eq. Qed.
Lemma reg_set_reg_ne n m v s : n ≠ m → reg m (set_reg n v s) = reg m s.
Proof. intros. by apply aget_aset_ne. Qed.

Lemma accu_set_accu n d s : accu n (set_accu n d s) = d.
Proof.
  unfold accu, set_accu. destruct d as [a b c]; cbn [w0 w1 w2].
  by rewrite reg_set_reg_eq, !(reg_set_reg_ne (DSP_REG_A0 + n)), reg_set_reg_eq,
    (reg_set_reg_ne (DSP_REG_A1 + n)), reg_set_reg_eq by lia.
Qed.

Lemma reg_set_accu n m d s : 0 <= n <= 1 → m < 8 ∨ 14 <= m → reg m (set_accu n d s) = reg m s.
Proof. intros. unfold set_accu. by rewrite !reg_set_reg_ne by lia. Qed.

Lemma accu_set_sr n v s : 0 <= n <= 1 → accu n (set_reg DSP_REG_SR v s) = accu n s.
Proof. intros. unfold accu. by rewrite !reg_set_reg_ne by lia. Qed.

Lemma accu_other n m d s : 0 <= n <= 1 → 0 <= m <= 1 → n ≠ m →
  accu m (set_accu n d s) = accu m s.
Proof. intros. unfold accu, set_accu. by rewrite !reg_set_reg_ne by lia. Qed.

Lemma set_reg_twice n v v' s : set_reg n v (set_reg n v' s) = set_reg n v s.
Proof.
  unfold set_reg, set_core, wr_core, set_registers, aset; cbn. by rewrite insert_insert_eq.
Qed.

Lemma accu_wf n s : 0 <= n <= 1 → regs_ok s → wf56 (accu n s).
Proof.
  intros Hn Hr. unfold wf56, accu; cbn [w0 w1 w2].
  assert (n = 0 ∨ n = 1) as [-> | ->] by lia.
  - exact (conj (Hr 10 ltac:(lia)) (conj (Hr 12 ltac:(lia)) (Hr 8 ltac:(lia)))).
  - exact (conj (Hr 11 ltac:(lia)) (conj (Hr 13 ltac:(lia)) (Hr 9 ltac:(lia)))).
Qed.

Lemma word_ok n s : DSP_REG_X0 <= n <= DSP_REG_Y1 → regs_ok s → 0 <= reg n s < two24.
Proof.
  intros Hn Hr. pose proof (Hr n ltac:(lia)) as H.
  assert (n = 4 ∨ n = 5 ∨ n = 6 ∨ n = 7) as [-> | [-> | [-> | ->]]] by lia; exact H.
Qed.

(** ** Evaluation *)

Section Run.
Context {A : Type}.

Lemma bind_run {S B} (m : M S B) (f : B → M S A) (s s' : S) b :
  m s = Done b s' → bind m f s = f b s'.
Proof. unfold bind. by intros ->. Qed.

Lemma rd_run n s : 0 <= n < 64 → rd n s = Done (reg n s) s.
Proof. intros. unfold rd, in_range. by replace ((0 <=? n) && (n <? 64)) with true by lia. Qed.
Lemma wr_run n v s : 0 <= n < 64 → wr n v s = Done tt (set_reg n v s).
Proof. intros. unfold wr, in_range. by replace ((0 <=? n) && (n <? 64)) with true by lia. Qed.

Lemma bind_rd n (f : Z → C A) s : 0 <= n < 64 → bind (rd n) f s = f (reg n s) s.
Proof. intros. by apply bind_run, rd_run. Qed.
Lemma bind_wr n v (f : unit → C A) s : 0 <= n < 64 → bind (wr n v) f s = f tt (set_reg n v s).
Proof. intros. by apply bind_run, wr_run. Qed.

Lemma upd_run n g s : 0 <= n < 64 → upd n g s = Done tt (set_reg n (g (reg n s)) s).
Proof. intros. unfold upd. unfold bind. rewrite rd_run by done. cbn. by apply wr_run. Qed.
Lemma bind_upd n g (f : unit → C A) s : 0 <= n < 64 →
  bind (upd n g) f s = f tt (set_reg n (g (reg n s)) s).
Proof. intros. by apply bind_run, upd_run. Qed.

Lemma bind_ret {S B} (b : B) (f : B → M S A) (s : S) : bind (ret b) f s = f b s.
Proof. done. Qed.
Lemma bind_gets {B} (g : cpu_t → B) (f : B → C A) s : bind (gets g) f s = f (g s) s.
Proof. done. Qed.
Lemma bind_modify g (f : unit → C A) s : bind (modify g) f s = f tt (g s).
Proof. done. Qed.
Lemma bind_get_inst (f : Z → C A) s : bind get_inst f s = f (cur_inst s) s.
Proof. done. Qed.

Lemma rd_accu_run n s : 0 <= n <= 1 → rd_accu n s = Done (accu n s) s.
Proof.
  intros. unfold rd_accu. unfold bind. rewrite rd_run by lia; cbn [obind].
  rewrite rd_run by lia; cbn [obind]. by rewrite rd_run by lia.
Qed.
Lemma bind_rd_accu n (f : a56 → C A) s : 0 <= n <= 1 → bind (rd_accu n) f s = f (accu n s) s.
Proof. intros. by apply bind_run, rd_accu_run. Qed.

Lemma wr_accu_run n d s : 0 <= n <= 1 → wr_accu n d s = Done tt (set_accu n d s).
Proof.
  intros. unfold wr_accu, bind. rewrite wr_run by lia; cbn [obind].
  rewrite wr_run by lia; cbn [obind]. by rewrite wr_run by lia.
Qed.
Lemma bind_wr_accu n d (f : unit → C A) s : 0 <= n <= 1 →
  bind (wr_accu n d) f s = f tt (set_accu n d s).
Proof. intros. by apply bind_run, wr_accu_run. Qed.
End Run.

Create Rewrite HintDb run.
#[export] Hint Rewrite @bind_rd @bind_wr @bind_upd @bind_rd_accu @bind_wr_accu
  rd_run wr_run upd_run rd_accu_run wr_accu_run using lia : run.
#[export] Hint Rewrite @bind_ret @bind_gets @bind_modify @bind_get_inst
  reg_set_reg_eq set_reg_twice : run.
Ltac run := autorewrite with run.
