(* ===== verification/AluSpec.v ===== *)
(** * Correctness of the ALU instructions

    The instructions of [Alu] run on a machine state: what the destination
    accumulator and each condition code are afterwards, in terms of the signed
    numbers the registers hold, and that nothing else changes.  The condition
    codes are then related to the conditional instructions: after a CMP, the
    conditions GE, LT, GT, LE, EQ and NE are the signed comparisons. *)

From S2P Require Import Prelude Effects DspCore Arith56 Arith56Spec Cpu CpuRun Control ParMove Alu.
From stdpp Require Import base gmap list numbers sets.
Open Scope Z_scope.
Open Scope c_scope.
Open Scope eff_scope.

(** A condition code of a state. *)
Definition flag (k : Z) (s : cpu_t) : bool := Z.testbit (reg DSP_REG_SR s) k.

(** The 56-bit two's complement number congruent to [z]. *)
Definition wrap56 (z : Z) : Z := (z + two55) mod two56 - two55.

(** The condition codes of a signed result [v]: V and the sticky L from its
    overflow, N, Z and E from the number stored. *)
Definition result_codes (v : Z) (s s' : cpu_t) : Prop :=
  flag DSP_SR_V s' = negb (fits56 v) ∧
  flag DSP_SR_L s' = flag DSP_SR_L s || negb (fits56 v) ∧
  flag DSP_SR_N s' = (wrap56 v <? 0) ∧
  flag DSP_SR_Z s' = (wrap56 v =? 0) ∧
  flag DSP_SR_E s' = negb (within (ccr_bound (ccr_scaling (reg DSP_REG_SR s))) (wrap56 v)).

(** [s'] differs from [s] in the status register only. *)
Definition only_sr (s s' : cpu_t) : Prop := ∃ v, s' = set_reg DSP_REG_SR v s.

(** [s'] differs from [s] in accumulator [n] and the status register only. *)
Definition only_accu_sr (n : Z) (s s' : cpu_t) : Prop :=
  ∃ d v, s' = set_reg DSP_REG_SR v (set_accu n d s).

(** ** Flags *)

Lemma sr_assign_bits m v sr i : 0 <= i →
  Z.testbit (sr_assign m v sr) i =
  (Z.testbit sr i && Z.testbit (BITMASK 16 - m) i) || Z.testbit v i.
Proof. intros. unfold sr_assign. by rewrite Z.lor_spec, Z.land_spec. Qed.

Lemma sval56_wrap d v : wf56 d → val56 d = v mod two56 → sval56 d = wrap56 v.
Proof.
  intros H Hv. pose proof (sval56_range d H). pose proof (sval56_mod d H). unfold wrap56.
  zdiv_lia.
Qed.

Lemma wrap56_fits v : fits56 v = true → wrap56 v = v.
Proof. unfold fits56, wrap56. intros. zdiv_lia. Qed.

(** The codes left by [ccr_all] followed by the assignment of V, L and perhaps C:
    [m] is the mask of the bits assigned. *)
Lemma assigned_bits m d newsr sr : wf56 d → ccr_scaling sr ≠ 3 →
  m = VC_mask ∨ m = 1 << DSP_SR_V →
  (∀ i, i ∈ [DSP_SR_N; DSP_SR_Z; DSP_SR_E; DSP_SR_U] → Z.testbit newsr i = false) →
  let sr' := sr_assign m newsr (ccr_all d sr) in
  Z.testbit sr' DSP_SR_V = Z.testbit newsr DSP_SR_V ∧
  Z.testbit sr' DSP_SR_L = Z.testbit sr DSP_SR_L || Z.testbit newsr DSP_SR_L ∧
  Z.testbit sr' DSP_SR_N = (sval56 d <? 0) ∧
  Z.testbit sr' DSP_SR_Z = (sval56 d =? 0) ∧
  Z.testbit sr' DSP_SR_E = negb (within (ccr_bound (ccr_scaling sr)) (sval56 d)) ∧
  Z.testbit sr' DSP_SR_C =
    (Z.testbit sr DSP_SR_C && negb (m =? VC_mask)) || Z.testbit newsr DSP_SR_C.
Proof.
  intros H Hs Hm Hn sr'. subst sr'. rewrite ccr_all_put by done.
  rewrite !sr_assign_bits, !put_bit_spec by lia.
  cbn [Z.eqb Z.ltb Z.compare Pos.eqb Pos.compare Pos.compare_cont].
  rewrite (Hn DSP_SR_N), (Hn DSP_SR_Z), (Hn DSP_SR_E) by set_solver.
  assert (Z.testbit (BITMASK 16 - m) 1 = false ∧ Z.testbit (BITMASK 16 - m) 6 = true ∧
    Z.testbit (BITMASK 16 - m) 3 = true ∧ Z.testbit (BITMASK 16 - m) 2 = true ∧
    Z.testbit (BITMASK 16 - m) 5 = true ∧ Z.testbit (BITMASK 16 - m) 0 = negb (m =? VC_mask))
    as (-> & -> & -> & -> & -> & ->) by (destruct Hm; by subst m).
  rewrite ?andb_false_r, ?andb_true_r, ?orb_false_r, ?orb_false_l, ?andb_true_l. done.
Qed.

(** ** The end of an instruction *)

Lemma alu_dest_range inst : 0 <= alu_dest inst <= 1.
Proof. pose proof (bit_range inst 3). unfold alu_dest. lia. Qed.

Lemma alu_finish_run n d newsr s : 0 <= n <= 1 →
  alu_finish n d newsr s =
  Done tt (set_reg DSP_REG_SR (alu_flags d newsr (reg DSP_REG_SR s)) (set_accu n d s)).
Proof.
  intros. unfold alu_finish. run. rewrite reg_set_accu by lia. done.
Qed.

(** An operation that [computes] a signed value leaves its condition codes. *)
Lemma computes_codes r exact signed carry s s' :
  computes r exact signed carry → exact mod two56 = signed mod two56 →
  ccr_scaling (reg DSP_REG_SR s) ≠ 3 →
  reg DSP_REG_SR s' = alu_flags (fst r) (snd r) (reg DSP_REG_SR s) →
  result_codes signed s s' ∧ flag DSP_SR_C s' = carry.
Proof.
  intros (Hw & Hv & _ & Hb) Hm Hs Hr.
  assert (sval56 (fst r) = wrap56 signed) as E by (apply sval56_wrap; congruence).
  destruct (assigned_bits VC_mask (fst r) (snd r) (reg DSP_REG_SR s))
    as (HV & HL & HN & HZ & HE & HC); [done|done|by left| |].
  { intros i Hi. rewrite Hb; set_unfold; destruct Hi as [-> | [-> | [-> | [-> | []]]]]; done. }
  rewrite Z.eqb_refl, andb_false_r, orb_false_l in HC.
  unfold result_codes, flag. rewrite Hr. unfold alu_flags.
  rewrite HV, HC, HL, HN, HZ, HE, !Hb, E by done. done.
Qed.

Lemma add_mod_signed s d : wf56 s → wf56 d →
  (val56 d + val56 s) mod two56 = (sval56 d + sval56 s) mod two56.
Proof. intros. by rewrite <-(sval56_mod s), <-(sval56_mod d), <-Zplus_mod. Qed.
Lemma sub_mod_signed s d : wf56 s → wf56 d →
  (val56 d - val56 s) mod two56 = (sval56 d - sval56 s) mod two56.
Proof. intros. by rewrite <-(sval56_mod s), <-(sval56_mod d), <-Zminus_mod. Qed.

(** ** Operands *)

(** The operand selected by the field JJJ, as a signed 56-bit number: the
    other accumulator, X or Y, or one of X0, Y0, X1, Y1 in the upper word. *)
Definition operand (n j : Z) (s : cpu_t) : option Z :=
  if j =? 1 then Some (sval56 (accu (1 - n) s))
  else if j =? 2 then Some (s24 (reg DSP_REG_X1 s) * two24 + reg DSP_REG_X0 s)
  else if j =? 3 then Some (s24 (reg DSP_REG_Y1 s) * two24 + reg DSP_REG_Y0 s)
  else if j =? 4 then Some (s24 (reg DSP_REG_X0 s) * two24)
  else if j =? 5 then Some (s24 (reg DSP_REG_Y0 s) * two24)
  else if j =? 6 then Some (s24 (reg DSP_REG_X1 s) * two24)
  else if j =? 7 then Some (s24 (reg DSP_REG_Y1 s) * two24)
  else None.

Lemma sign_ext_value x y : 0 <= x < two24 → 0 <= y < two24 →
  wf56 (A56 (sign_ext x) x y) ∧ sval56 (A56 (sign_ext x) x y) = s24 x * two24 + y.
Proof.
  intros. unfold sign_ext. rewrite tst_23 by done. unfold wf56, sval56, val56, s24; cbn [w0 w1 w2].
  destruct (Z.leb_spec 8388608 x), (Z.ltb_spec x 8388608); try lia; cbn [Z.ltb Z.compare Pos.compare Pos.compare_cont]; lia.
Qed.

Lemma xor_1 n : 0 <= n <= 1 → n .^ 1 = 1 - n.
Proof. intros. by assert (n = 0 ∨ n = 1) as [-> | ->] by lia. Qed.

Lemma src_word_run r s : DSP_REG_X0 <= r <= DSP_REG_Y1 →
  src_word r s = Done (A56 (sign_ext (reg r s)) (reg r s) 0) s.
Proof. intros. unfold src_word. by run. Qed.

Lemma src_long_run r s : DSP_REG_X0 <= r <= DSP_REG_Y0 →
  src_long (r + 1) r s = Done (A56 (sign_ext (reg (r + 1) s)) (reg (r + 1) s) (reg r s)) s.
Proof. intros. unfold src_long. by run. Qed.

(** A source that is read is well formed and denotes a signed number. *)
Definition source_is (m : C (option a56)) (v : option Z) (s : cpu_t) : Prop :=
  match v with
  | Some x => ∃ a, m s = Done (Some a) s ∧ wf56 a ∧ sval56 a = x
  | None => m s = Done None s
  end.

Lemma src_word_is r s : DSP_REG_X0 <= r <= DSP_REG_Y1 → regs_ok s →
  source_is (let* a := src_word r in ret (Some a)) (Some (s24 (reg r s) * two24)) s.
Proof.
  intros Hr Hs. destruct (sign_ext_value (reg r s) 0) as [Hw Hv]; [by apply word_ok|lia|].
  eexists. split; [by rewrite (bind_run _ _ _ _ _ (src_word_run r s Hr))|]. split; [done|lia].
Qed.

Lemma src_long_is r s : r = DSP_REG_X0 ∨ r = DSP_REG_Y0 → regs_ok s →
  source_is (let* a := src_long (r + 1) r in ret (Some a))
    (Some (s24 (reg (r + 1) s) * two24 + reg r s)) s.
Proof.
  intros Hr Hs. destruct (sign_ext_value (reg (r + 1) s) (reg r s)) as [Hw Hv];
    [apply word_ok; [lia|done]..|].
  eexists. split; [by rewrite (bind_run _ _ _ _ _ (src_long_run r s ltac:(lia)))|]. done.
Qed.

Lemma src_accu_is n s : 0 <= n <= 1 → regs_ok s →
  source_is (let* a := rd_accu (n .^ 1) in ret (Some a)) (Some (sval56 (accu (1 - n) s))) s.
Proof.
  intros Hn Hs. exists (accu (1 - n) s). rewrite xor_1 by done. run. split; [done|].
  split; [apply accu_wf; [lia|done]|done].
Qed.

Lemma src_words_is j s : regs_ok s →
  source_is (src_words j) (if 4 <=? j then operand 0 j s else None) s.
Proof.
  intros Hs. unfold src_words, operand.
  destruct (Z.eqb_spec j 4) as [-> |]; [by apply src_word_is|].
  destruct (Z.eqb_spec j 5) as [-> |]; [by apply src_word_is|].
  destruct (Z.eqb_spec j 6) as [-> |]; [by apply src_word_is|].
  destruct (Z.eqb_spec j 7) as [-> |]; [by apply src_word_is|].
  destruct (Z.leb_spec 4 j); [|done].
  destruct (Z.eqb_spec j 1), (Z.eqb_spec j 2), (Z.eqb_spec j 3); by try lia.
Qed.

Lemma add_source_is n j s : 0 <= n <= 1 → regs_ok s → source_is (add_source n j) (operand n j s) s.
Proof.
  intros Hn Hs. pose proof (src_words_is j s Hs) as H. unfold add_source, operand in *.
  destruct (Z.eqb_spec j 1) as [-> |]; [by apply src_accu_is|].
  destruct (Z.eqb_spec j 2) as [-> |]; [by apply (src_long_is DSP_REG_X0); [left|]|].
  destruct (Z.eqb_spec j 3) as [-> |]; [by apply (src_long_is DSP_REG_Y0); [right|]|].
  destruct (Z.leb_spec 4 j); [done|].
  by repeat (rewrite (proj2 (Z.eqb_neq j _)) by lia).
Qed.

(** CMP, CMPM and TFR select the other accumulator with 0. *)
Definition cmp_operand (n j : Z) (s : cpu_t) : option Z :=
  if j =? 0 then Some (sval56 (accu (1 - n) s)) else if 4 <=? j then operand n j s else None.

Lemma cmp_source_is n j s : 0 <= n <= 1 → regs_ok s →
  source_is (cmp_source n j) (cmp_operand n j s) s.
Proof.
  intros Hn Hs. pose proof (src_words_is j s Hs) as H. unfold cmp_source, cmp_operand.
  destruct (Z.eqb_spec j 0); [by apply src_accu_is|]. destruct (Z.leb_spec 4 j); [|done].
  unfold operand in *. by rewrite !(proj2 (Z.eqb_neq j _)) in * by lia.
Qed.

(** The field JJJ of an instruction. *)
Definition jjj (inst : Z) : Z := (inst >> 4) .& BITMASK 3.

(** The state after accumulator [n] received the signed value [v]. *)
Definition accu_becomes (n v : Z) (s s' : cpu_t) : Prop :=
  wf56 (accu n s') ∧ sval56 (accu n s') = wrap56 v ∧ result_codes v s s' ∧ only_accu_sr n s s'.

(** An addition or subtraction into an accumulator. *)
Lemma finish_becomes n r exact signed carry s : 0 <= n <= 1 →
  computes r exact signed carry → exact mod two56 = signed mod two56 →
  ccr_scaling (reg DSP_REG_SR s) ≠ 3 →
  ∃ s', alu_finish n (fst r) (snd r) s = Done tt s' ∧
        accu_becomes n signed s s' ∧ flag DSP_SR_C s' = carry.
Proof.
  intros Hn Hc Hm Hs. rewrite alu_finish_run by done. eexists. split; [done|].
  destruct (computes_codes r exact signed carry s
    (set_reg DSP_REG_SR (alu_flags (fst r) (snd r) (reg DSP_REG_SR s)) (set_accu n (fst r) s)))
    as [Hcodes Hcarry]; [done..|by run|].
  destruct Hc as (Hw & Hv & _). split; [|done]. unfold accu_becomes.
  rewrite accu_set_sr, accu_set_accu by done. split; [done|]. split; [|split; [done|]].
  - apply sval56_wrap; [done|congruence].
  - by eexists _, _.
Qed.

(** ADD and SUB are one scheme: an operation applied to the destination and the
    operand, then [alu_finish]. *)
Definition accumulate (op : a56 → a56 → a56 * Z) : C unit :=
  let* inst := get_inst in
  let destreg := alu_dest inst in
  let* dest := rd_accu destreg in
  let* src := add_source destreg (jjj inst) in
  match src with
  | Some source => let '(d, newsr) := op source dest in alu_finish destreg d newsr
  | None => ret tt
  end.

Lemma accumulate_correct op (f : Z → Z → Z) s :
  (∀ a d, wf56 a → wf56 d → ∃ exact carry,
     computes (op a d) exact (f (sval56 d) (sval56 a)) carry ∧
     exact mod two56 = f (sval56 d) (sval56 a) mod two56) →
  regs_ok s → ccr_scaling (reg DSP_REG_SR s) ≠ 3 →
  let n := alu_dest (cur_inst s) in
  match operand n (jjj (cur_inst s)) s with
  | Some x => ∃ s', accumulate op s = Done tt s' ∧ accu_becomes n (f (sval56 (accu n s)) x) s s'
  | None => accumulate op s = Done tt s
  end.
Proof.
  intros Hop Hr Hs n. assert (0 <= n <= 1) as Hn by apply alu_dest_range.
  pose proof (add_source_is n (jjj (cur_inst s)) s Hn Hr) as H.
  unfold accumulate. rewrite bind_get_inst, bind_rd_accu by done. fold n.
  destruct (operand n (jjj (cur_inst s)) s) as [x|]; [|by rewrite (bind_run _ _ _ _ _ H)].
  destruct H as (a & H & Hw & <-). rewrite (bind_run _ _ _ _ _ H).
  destruct (Hop a (accu n s) Hw (accu_wf n s Hn Hr)) as (exact & carry & Hc & Hm).
  destruct (finish_becomes n _ _ _ _ s Hn Hc Hm Hs) as (s' & E & Hb & _).
  exists s'. split; [|done]. by destruct (op a (accu n s)).
Qed.

(** ** Conditions *)

(** The sixteen conditions of the conditional instructions, from the codes. *)
Definition condition (cc : Z) (c v z n u e l : bool) : bool :=
  match cc with
  | 0 => negb c                          (* CC *)
  | 1 => eqb n v                         (* GE *)
  | 2 => negb z                          (* NE *)
  | 3 => negb n                          (* PL *)
  | 4 => negb (z || (negb u && negb e))  (* NN *)
  | 5 => negb e                          (* EC *)
  | 6 => negb l                          (* LC *)
  | 7 => negb (z || xorb n v)            (* GT *)
  | 8 => c                               (* CS *)
  | 9 => xorb n v                        (* LT *)
  | 10 => z                              (* EQ *)
  | 11 => n                              (* MI *)
  | 12 => z || (negb u && negb e)        (* NR *)
  | 13 => e                              (* ES *)
  | 14 => l                              (* LS *)
  | _ => z || xorb n v                   (* LE *)
  end.

Definition sr_condition (cc sr : Z) : bool :=
  condition cc (Z.testbit sr DSP_SR_C) (Z.testbit sr DSP_SR_V) (Z.testbit sr DSP_SR_Z)
    (Z.testbit sr DSP_SR_N) (Z.testbit sr DSP_SR_U) (Z.testbit sr DSP_SR_E)
    (Z.testbit sr DSP_SR_L).

(** Only the low byte of the status register matters. *)
Lemma calc_cc_low sr cc : calc_cc sr cc = calc_cc (sr mod 256) cc.
Proof. unfold calc_cc. rewrite !mask_8. by rewrite Z.mod_mod. Qed.

Lemma sr_condition_low sr cc : sr_condition cc sr = sr_condition cc (sr mod 256).
Proof. unfold sr_condition. change 256 with (2 ^ 8). by rewrite !Z.mod_pow2_bits_low by lia. Qed.

Lemma calc_cc_condition sr cc : 0 <= cc < 16 → calc_cc sr cc = sr_condition cc sr.
Proof.
  intros Hcc. rewrite calc_cc_low, sr_condition_low.
  assert (0 <= sr mod 256 < 256) as H by (apply Z.mod_pos_bound; lia).
  revert H. generalize (sr mod 256) as x. intros x Hx. apply eqb_prop.
  assert (∀ cc, 0 <= cc < Z.of_nat 16 → forallb (λ x, eqb (calc_cc x cc) (sr_condition cc x))
    (indices 256) = true) as Hc by (apply indices_forallb; vm_compute; reflexivity).
  apply (indices_forallb 256 _ (Hc cc ltac:(lia))). lia.
Qed.

(** ** Comparison *)

Lemma cmp_codes s x : regs_ok s → ccr_scaling (reg DSP_REG_SR s) ≠ 3 →
  cmp_operand (alu_dest (cur_inst s)) (jjj (cur_inst s)) s = Some x →
  ∃ s', dsp_cmp s = Done tt s' ∧ only_sr s s' ∧
    result_codes (sval56 (accu (alu_dest (cur_inst s)) s) - x) s s' ∧ - two55 <= x < two55.
Proof.
  set (n := alu_dest (cur_inst s)). assert (0 <= n <= 1) as Hn by apply alu_dest_range.
  intros Hr Hs Hx. pose proof (cmp_source_is n (jjj (cur_inst s)) s Hn Hr) as H.
  rewrite Hx in H. destruct H as (a & H & Hw & <-).
  unfold dsp_cmp. rewrite bind_get_inst, bind_rd_accu by done. fold n. fold (jjj (cur_inst s)).
  rewrite (bind_run _ _ _ _ _ H). pose proof (accu_wf n s Hn Hr) as Ha.
  pose proof (sub56_computes a (accu n s) Hw Ha) as Hc.
  destruct (dsp_sub56 a (accu n s)) as [d newsr]. run. eexists. split; [done|].
  split; [by eexists|]. split; [|by apply sval56_range]. eapply proj1, computes_codes; [done|by apply sub_mod_signed|done|by run].
Qed.

(** N xor V is the sign of the exact difference of two 56-bit numbers. *)
Lemma wrap56_sign x y : - two55 <= x < two55 → - two55 <= y < two55 →
  xorb (wrap56 (x - y) <? 0) (negb (fits56 (x - y))) = (x <? y) ∧ (wrap56 (x - y) =? 0) = (x =? y).
Proof.
  intros. unfold fits56, wrap56.
  assert (((x - y) + two55) mod two56 = (x - y) + two55 ∧ - two55 <= x - y < two55 ∨
          ((x - y) + two55) mod two56 = (x - y) + two55 + two56 ∧ x - y < - two55 ∨
          ((x - y) + two55) mod two56 = (x - y) + two55 - two56 ∧ two55 <= x - y)
    as [[-> ?]|[[-> ?]|[-> ?]]] by zdiv_lia; (split; [|lia]);
    destruct (Z.leb_spec (- two55) (x - y)), (Z.ltb_spec (x - y) two55); try lia;
    cbn [andb negb]; rewrite ?xorb_false_r, ?xorb_true_r; lia.
Qed.

(** ** Multiplication *)

(** The two factors the field QQQ selects. *)
Definition factors (inst : Z) : Z * Z := nth (Z.to_nat (jjj inst)) registers_mpy (0, 0).

(** The signed product, negated by bit 2 of the instruction. *)
Definition product (s : cpu_t) : Z :=
  let '(r1, r2) := factors (cur_inst s) in
  let p := 2 * s24 (reg r1 s) * s24 (reg r2 s) in
  if tst (cur_inst s) (1 << 2) then - p else p.

Lemma factors_range inst : let '(r1, r2) := factors inst in
  DSP_REG_X0 <= r1 <= DSP_REG_Y1 ∧ DSP_REG_X0 <= r2 <= DSP_REG_Y1.
Proof.
  unfold factors. assert (0 <= jjj inst < Z.of_nat 8) as H by (apply (land_BITMASK_range _ 3); lia).
  revert H. generalize (jjj inst) as j. intros j Hj.
  pose proof (indices_forallb 8 (λ j, let '(r1, r2) := nth (Z.to_nat j) registers_mpy (0, 0) in
    (4 <=? r1) && (r1 <=? 7) && (4 <=? r2) && (r2 <=? 7)) eq_refl j Hj) as Hc.
  cbv beta in Hc. destruct (nth (Z.to_nat j) registers_mpy (0, 0)). lia.
Qed.

Lemma s24_range x : 0 <= x < two24 → - 8388608 <= s24 x < 8388608.
Proof. unfold s24. destruct (Z.ltb_spec x 8388608); lia. Qed.

Lemma mpy_product_run s : regs_ok s →
  ∃ p, mpy_product (cur_inst s) s = Done p s ∧ wf56 p ∧ sval56 p = product s.
Proof.
  intros Hr. pose proof (factors_range (cur_inst s)) as Hf. unfold mpy_product, product.
  fold (jjj (cur_inst s)). fold (factors (cur_inst s)). destruct (factors (cur_inst s)) as [r1 r2].
  run. destruct Hf as [H1 H2]. pose proof (word_ok r1 s H1 Hr) as Hx.
  pose proof (word_ok r2 s H2 Hr) as Hy. pose proof (s24_range _ Hx). pose proof (s24_range _ Hy).
  destruct (mul56_signed _ _ Hx Hy) as [Hw Hv]. eexists. split; [done|].
  destruct (tst (cur_inst s) (1 << 2)); [|done].
  destruct (neg56_words _ Hw) as [Hwn Hvn]. split; [done|]. rewrite Hvn, Hv.
  rewrite (proj2 (Z.eqb_neq _ _)); [done|nia].
Qed.

(** V and L of an addition whose carry is dropped. *)
Lemma mask_fe x i : 0 <= i → Z.testbit (x .& 0xfe) i = Z.testbit x i && (1 <=? i) && (i <? 8).
Proof.
  intros Hi. rewrite Z.land_spec, <-andb_assoc. f_equal.
  destruct (Z.lt_ge_cases i 8).
  - apply eqb_prop, (indices_forallb 8 (λ i, eqb (Z.testbit 254 i) ((1 <=? i) && (i <? 8))));
      [reflexivity|lia].
  - rewrite (range_bits 254 8) by lia. lia.
Qed.

Lemma mac_finish_codes r exact signed carry s s' :
  computes r exact signed carry → exact mod two56 = signed mod two56 →
  ccr_scaling (reg DSP_REG_SR s) ≠ 3 →
  reg DSP_REG_SR s' =
    sr_assign (1 << DSP_SR_V) (snd r .& 0xfe) (ccr_all (fst r) (reg DSP_REG_SR s)) →
  result_codes signed s s' ∧ flag DSP_SR_C s' = flag DSP_SR_C s.
Proof.
  intros (Hw & Hv & _ & Hb) Hm Hs Hr.
  assert (sval56 (fst r) = wrap56 signed) as E by (apply sval56_wrap; congruence).
  destruct (assigned_bits (1 << DSP_SR_V) (fst r) (snd r .& 0xfe) (reg DSP_REG_SR s))
    as (HV & HL & HN & HZ & HE & HC); [done|done|by right| |].
  { intros i Hi. rewrite mask_fe, Hb; set_unfold; destruct Hi as [-> | [-> | [-> | [-> | []]]]]; done. }
  rewrite !mask_fe, !Hb in HV, HL, HC by done.
  unfold result_codes, flag. rewrite Hr, HV, HL, HN, HZ, HE, HC, E.
  change (1 << 1 =? VC_mask) with false. cbn. by rewrite !andb_true_r, andb_false_r, orb_false_r.
Qed.

(** ** The theorems *)

(** ADD and SUB.  With the data registers within their widths and a defined
    scaling mode, each instruction combines the operand its JJJ field selects
    (the other accumulator, X, Y, or a 24-bit register) with the destination:
    the accumulator holds the sum or difference modulo 2^56, V tells whether
    the exact signed result did not fit, L remembers it, N, Z and E describe the
    number stored, and only that accumulator and the status register change.
    An undefined operand leaves the state as it was. *)
Theorem add_sub_correct s : regs_ok s → ccr_scaling (reg DSP_REG_SR s) ≠ 3 →
  let n := alu_dest (cur_inst s) in
  match operand n (jjj (cur_inst s)) s with
  | Some x =>
      (∃ s', dsp_add s = Done tt s' ∧ accu_becomes n (sval56 (accu n s) + x) s s') ∧
      (∃ s', dsp_sub s = Done tt s' ∧ accu_becomes n (sval56 (accu n s) - x) s s')
  | None => dsp_add s = Done tt s ∧ dsp_sub s = Done tt s
  end.
Proof.
  intros Hr Hs n.
  pose proof (accumulate_correct dsp_add56 Z.add s) as Hadd.
  pose proof (accumulate_correct dsp_sub56 Z.sub s) as Hsub. cbv zeta in *. fold n in Hadd, Hsub.
  change (dsp_add s) with (accumulate dsp_add56 s). change (dsp_sub s) with (accumulate dsp_sub56 s).
  destruct (operand n (jjj (cur_inst s)) s); (split; [apply Hadd|apply Hsub]; try done; intros;
    eexists _, _; (split; [by (apply add56_computes || apply sub56_computes)
                          |by (apply add_mod_signed || apply sub_mod_signed)])).
Qed.

(** the sixteen conditions.  [dsp_calc_cc] decides each condition code
    field exactly as the conditions CC, GE, NE, PL, NN, EC, LC, GT, CS, LT, EQ,
    MI, NR, ES, LS and LE are defined from the bits of the status register. *)
Theorem calc_cc_correct s cc : 0 <= cc < 16 →
  dsp_calc_cc cc s = Done (sr_condition cc (reg DSP_REG_SR s)) s.
Proof. intros. unfold dsp_calc_cc. run. by rewrite <-calc_cc_condition. Qed.

(** C34: comparison then condition.  After [CMP x, d] the conditions GE, LT, GT,
    LE, EQ and NE of [dsp_calc_cc] are the signed comparisons of the destination
    with the operand, even when the difference overflows 56 bits; the
    accumulator and everything but the status register are unchanged.  The
    registers have their widths, and the scaling mode is not the reserved one. *)
Theorem cmp_conditions s x : regs_ok s → ccr_scaling (reg DSP_REG_SR s) ≠ 3 →
  cmp_operand (alu_dest (cur_inst s)) (jjj (cur_inst s)) s = Some x →
  ∃ s', dsp_cmp s = Done tt s' ∧ only_sr s s' ∧
    let d := sval56 (accu (alu_dest (cur_inst s)) s) in
    dsp_calc_cc 1 s' = Done (x <=? d) s' ∧ dsp_calc_cc 9 s' = Done (d <? x) s' ∧
    dsp_calc_cc 7 s' = Done (x <? d) s' ∧ dsp_calc_cc 15 s' = Done (d <=? x) s' ∧
    dsp_calc_cc 10 s' = Done (d =? x) s' ∧ dsp_calc_cc 2 s' = Done (negb (d =? x)) s'.
Proof.
  intros Hr Hs Hx. destruct (cmp_codes s x Hr Hs Hx) as (s' & E & Hsr & (HV & HL & HN & HZ & HE) & Hrange).
  exists s'. split; [done|]. split; [done|]. set (d := sval56 _) in *. cbv zeta.
  assert (- two55 <= d < two55) by (apply sval56_range, accu_wf; [apply alu_dest_range|done]).
  destruct (wrap56_sign d x) as [Hlt Heq]; [done..|].
  unfold dsp_calc_cc. run. unfold flag in *.
  rewrite !calc_cc_condition by lia. unfold sr_condition, condition. rewrite HV, HN, HZ, Heq.
  destruct (wrap56 (d - x) <? 0), (fits56 (d - x)); cbn [negb xorb eqb orb] in *;
  repeat split; do 2 f_equal; lia.
Qed.

(** C33: MAC.  The instruction adds to the destination the exact signed product
    of the two registers its QQQ field selects, negated if bit 2 is set: the
    accumulator holds the result modulo 2^56 with V, L, N, Z and E as for an
    addition, the carry is kept, and nothing but the accumulator and the status
    register changes.  The registers have their widths, and the scaling mode is not the reserved one. *)
Theorem dsp_mac_correct s : regs_ok s → ccr_scaling (reg DSP_REG_SR s) ≠ 3 →
  let n := alu_dest (cur_inst s) in
  ∃ s', dsp_mac s = Done tt s' ∧ accu_becomes n (sval56 (accu n s) + product s) s s' ∧
        flag DSP_SR_C s' = flag DSP_SR_C s.
Proof.
  intros Hr Hs n. assert (0 <= n <= 1) as Hn by apply alu_dest_range.
  destruct (mpy_product_run s Hr) as (p & Hp & Hw & <-).
  unfold dsp_mac. rewrite bind_get_inst, (bind_run _ _ _ _ _ Hp). fold n.
  rewrite bind_rd_accu by done. pose proof (accu_wf n s Hn Hr) as Ha.
  pose proof (add56_computes p (accu n s) Hw Ha) as Hc. pose proof (add_mod_signed p _ Hw Ha) as Hm.
  destruct (dsp_add56 p (accu n s)) as [d newsr] eqn:E. run. rewrite reg_set_accu by lia.
  eexists. split; [done|].
  destruct (mac_finish_codes (d, newsr) _ _ _ s (set_reg DSP_REG_SR (sr_assign (1 << DSP_SR_V)
    (newsr .& 254) (ccr_all d (reg DSP_REG_SR s))) (set_accu n d s)) Hc Hm Hs) as [Hcodes HC];
    [by run|]. split; [|done].
  destruct Hc as (Hwd & Hvd & _). unfold accu_becomes. rewrite accu_set_sr, accu_set_accu by done.
  split; [done|]. split; [apply sval56_wrap; [done|by rewrite <-Hm]|]. split; [done|by eexists _, _].
Qed.

(** A state with A = 2^55 - 1, B = -2^55, and factors in X0 and Y0. *)
Definition alu_example (inst : Z) : cpu_t :=
  regs_state inst [(DSP_REG_A2, 0x7f); (DSP_REG_A1, 0xffffff); (DSP_REG_A0, 0xffffff);
    (DSP_REG_B2, 0x80); (DSP_REG_X0, 0x400000); (DSP_REG_Y0, 0xc00000); (DSP_REG_SR, 0x0301)].

Lemma add_sub_correct_witness :
  ∃ s', dsp_add (alu_example 0x40) = Done tt s' ∧
        accu_becomes 0 (36028797018963967 + 0x400000 * two24) (alu_example 0x40) s'.
Proof.
  apply (add_sub_correct (alu_example 0x40)); [apply regs_ok_check; vm_compute; reflexivity
    |vm_compute; congruence].
Defined.

Lemma calc_cc_correct_witness :
  dsp_calc_cc 8 (alu_example 0) = Done true (alu_example 0).
Proof. apply (calc_cc_correct (alu_example 0) 8). lia. Defined.

Lemma cmp_conditions_witness :
  ∃ s', dsp_cmp (alu_example 0x05) = Done tt s' ∧ dsp_calc_cc 7 s' = Done true s'.
Proof.
  destruct (cmp_conditions (alu_example 0x05) (- two55)) as (s' & E & _ & _ & _ & H & _);
    [apply regs_ok_check; vm_compute; reflexivity|vm_compute; congruence|vm_compute; reflexivity|].
  exists s'. exact (conj E H).
Defined.

Lemma dsp_mac_correct_witness :
  ∃ s', dsp_mac (alu_example 0xda) = Done tt s' ∧
    accu_becomes 1 (- two55 - 2 * 0x400000 * 0x400000) (alu_example 0xda) s' ∧
    flag DSP_SR_C s' = true.
Proof.
  apply (dsp_mac_correct (alu_example 0xda)); [apply regs_ok_check; vm_compute; reflexivity
    |vm_compute; congruence].
Defined.
