(* ===== verification/CarrySpec.v ===== *)
(** * Correctness of the instructions with carry, of the logic and of NORM

    ADC and SBC chain two 56-bit operations and combine their flags; the logical
    instructions work on the middle word of an accumulator; NORM is one step of
    normalisation. *)

From S2P Require Import Prelude Effects DspCore Arith56 Arith56Spec Cpu CpuRun Control ParMove Alu AluSpec.
From stdpp Require Import base gmap list numbers sets.
Open Scope Z_scope.
Open Scope c_scope.
Open Scope eff_scope.

(** ** ADC and SBC *)

(** A result that stands for the signed number [v], with the flag word of a
    given overflow and carry. *)
Definition result56 (r : a56 * Z) (v : Z) (overflow carry : bool) : Prop :=
  wf56 (fst r) ∧ val56 (fst r) = v mod two56 ∧
  ∀ i, 0 <= i → Z.testbit (snd r) i =
    if i =? DSP_SR_C then carry
    else if (i =? DSP_SR_V) || (i =? DSP_SR_L) then overflow else false.

Lemma computes_result r exact signed carry :
  computes r exact signed carry → exact mod two56 = signed mod two56 →
  result56 r signed (negb (fits56 signed)) carry.
Proof. intros (Hw & Hv & _ & Hb) Hm. split; [done|]. split; [congruence|done]. Qed.

Lemma add56_result a d : wf56 a → wf56 d →
  result56 (dsp_add56 a d) (sval56 d + sval56 a) (negb (fits56 (sval56 d + sval56 a)))
    (two56 <=? val56 d + val56 a).
Proof. intros. eapply computes_result; [by apply add56_computes|by apply add_mod_signed]. Qed.

Lemma sub56_result a d : wf56 a → wf56 d →
  result56 (dsp_sub56 a d) (sval56 d - sval56 a) (negb (fits56 (sval56 d - sval56 a)))
    (val56 d <? val56 a).
Proof. intros. eapply computes_result; [by apply sub56_computes|by apply sub_mod_signed]. Qed.

(** The second operation of ADC and SBC, with the flags of both. *)
Definition with_carry (op : a56 → a56 → a56 * Z) (c : Z) (source dest : a56) : a56 * Z :=
  let '(d, newsr) := op source dest in
  if negb (c =? 0) then let '(d', sr') := op (A56 0 0 1) d in (d', newsr .| sr') else (d, newsr).

Lemma result56_chain r1 r2 v1 v2 v o1 c1 o2 c2 :
  result56 r1 v1 o1 c1 → result56 r2 v2 o2 c2 → v2 mod two56 = v mod two56 →
  result56 (fst r2, snd r1 .| snd r2) v (o1 || o2) (c1 || c2).
Proof.
  intros (_ & _ & H1) (Hw & Hv & H2) Hm. split; [done|]. split; [by cbn; rewrite Hv|].
  intros i Hi. cbn [snd]. rewrite Z.lor_spec, H1, H2 by done.
  by destruct (i =? DSP_SR_C), ((i =? DSP_SR_V) || (i =? DSP_SR_L)).
Qed.

Lemma wf_one56 : wf56 (A56 0 0 1) ∧ sval56 (A56 0 0 1) = 1 ∧ val56 (A56 0 0 1) = 1.
Proof. by vm_compute. Qed.

Lemma sval_of_result r v o c : result56 r v o c → sval56 (fst r) = wrap56 v.
Proof. intros (Hw & Hv & _). by apply sval56_wrap. Qed.

(** ADC reports an overflow when either addition overflows: in the one case
    [d + s = -2^55 - 1] with a carry both do and cancel out. *)
Lemma adc_result c a d : 0 <= c <= 1 → wf56 a → wf56 d →
  let v := sval56 d + sval56 a in
  result56 (with_carry dsp_add56 c a d) (v + c)
    (negb (fits56 (v + c)) || ((c =? 1) && (v =? - two55 - 1)))
    (two56 <=? val56 d + val56 a + c).
Proof.
  intros Hc Ha Hd v. pose proof (add56_result a d Ha Hd) as H1. fold v in H1.
  pose proof (sval56_range a Ha) as Ra. pose proof (sval56_range d Hd) as Rd.
  pose proof (val56_range a Ha) as Ua. pose proof (val56_range d Hd) as Ud.
  unfold with_carry. destruct (dsp_add56 a d) as [d1 n1] eqn:E.
  assert (c = 0 ∨ c = 1) as [-> | ->] by lia; cbn [Z.eqb negb Pos.eqb andb].
  - by rewrite !Z.add_0_r, orb_false_r.
  - destruct wf_one56 as (Hw1 & Hs1 & Hv1). pose proof H1 as (Hd1 & Hval1 & _). cbn [fst] in Hd1, Hval1.
    pose proof (add56_result _ d1 Hw1 Hd1) as H2. rewrite Hs1, Hv1 in H2.
    pose proof (sval_of_result _ _ _ _ H1) as Hsv. cbn [fst] in Hsv. rewrite Hsv, Hval1 in H2.
    pose proof (add_mod_signed a d Ha Hd) as Hm. fold v in Hm. rewrite <-Hm in H2.
    destruct (dsp_add56 (A56 0 0 1) d1) as [d2 n2].
    pose proof (result56_chain _ _ _ _ (v + 1) _ _ _ _ H1 H2) as H. cbn [fst snd] in H.
    unfold v in *. clear H1 H2 E Hval1 Hsv Hm.
    replace (negb (fits56 (sval56 d + sval56 a + 1)) || (sval56 d + sval56 a =? - two55 - 1))
      with (negb (fits56 (sval56 d + sval56 a)) || negb (fits56 (wrap56 (sval56 d + sval56 a) + 1))).
    2: { unfold fits56, wrap56. zdiv_lia. }
    replace (two56 <=? val56 d + val56 a + 1)
      with ((two56 <=? val56 d + val56 a) || (two56 <=? (val56 d + val56 a) mod two56 + 1)).
    2: { zdiv_lia. }
    apply H. unfold wrap56. zdiv_lia.
Qed.

Lemma sbc_result c a d : 0 <= c <= 1 → wf56 a → wf56 d →
  let v := sval56 d - sval56 a in
  result56 (with_carry dsp_sub56 c a d) (v - c)
    (negb (fits56 (v - c)) || ((c =? 1) && (v =? two55)))
    (val56 d <? val56 a + c).
Proof.
  intros Hc Ha Hd v. pose proof (sub56_result a d Ha Hd) as H1. fold v in H1.
  pose proof (sval56_range a Ha) as Ra. pose proof (sval56_range d Hd) as Rd.
  pose proof (val56_range a Ha) as Ua. pose proof (val56_range d Hd) as Ud.
  unfold with_carry. destruct (dsp_sub56 a d) as [d1 n1] eqn:E.
  assert (c = 0 ∨ c = 1) as [-> | ->] by lia; cbn [Z.eqb negb Pos.eqb andb].
  - by rewrite Z.sub_0_r, Z.add_0_r, orb_false_r.
  - destruct wf_one56 as (Hw1 & Hs1 & Hv1). pose proof H1 as (Hd1 & Hval1 & _). cbn [fst] in Hd1, Hval1.
    pose proof (sub56_result _ d1 Hw1 Hd1) as H2. rewrite Hs1, Hv1 in H2.
    pose proof (sval_of_result _ _ _ _ H1) as Hsv. cbn [fst] in Hsv. rewrite Hsv, Hval1 in H2.
    pose proof (sub_mod_signed a d Ha Hd) as Hm. fold v in Hm. rewrite <-Hm in H2.
    destruct (dsp_sub56 (A56 0 0 1) d1) as [d2 n2].
    pose proof (result56_chain _ _ _ _ (v - 1) _ _ _ _ H1 H2) as H. cbn [fst snd] in H.
    unfold v in *. clear H1 H2 E Hval1 Hsv Hm.
    replace (negb (fits56 (sval56 d - sval56 a - 1)) || (sval56 d - sval56 a =? two55))
      with (negb (fits56 (sval56 d - sval56 a)) || negb (fits56 (wrap56 (sval56 d - sval56 a) - 1))).
    2: { unfold fits56, wrap56. zdiv_lia. }
    replace (val56 d <? val56 a + 1)
      with ((val56 d <? val56 a) || ((val56 d - val56 a) mod two56 <? 1)).
    2: { zdiv_lia. }
    apply H. unfold wrap56. zdiv_lia.
Qed.

(** The state after accumulator [n] received [v], with the given V and C. *)
Definition accu_gets (n v : Z) (overflow carry : bool) (s s' : cpu_t) : Prop :=
  wf56 (accu n s') ∧ sval56 (accu n s') = wrap56 v ∧
  flag DSP_SR_V s' = overflow ∧ flag DSP_SR_L s' = flag DSP_SR_L s || overflow ∧
  flag DSP_SR_C s' = carry ∧
  flag DSP_SR_N s' = (wrap56 v <? 0) ∧ flag DSP_SR_Z s' = (wrap56 v =? 0) ∧
  flag DSP_SR_E s' = negb (within (ccr_bound (ccr_scaling (reg DSP_REG_SR s))) (wrap56 v)) ∧
  only_accu_sr n s s'.

Lemma finish_gets n r v o c s : 0 <= n <= 1 → result56 r v o c →
  ccr_scaling (reg DSP_REG_SR s) ≠ 3 →
  ∃ s', alu_finish n (fst r) (snd r) s = Done tt s' ∧ accu_gets n v o c s s'.
Proof.
  intros Hn Hr Hs. rewrite alu_finish_run by done. eexists. split; [done|].
  pose proof (sval_of_result _ _ _ _ Hr) as E. pose proof Hr as (Hw & _ & Hb).
  destruct (assigned_bits VC_mask (fst r) (snd r) (reg DSP_REG_SR s))
    as (HV & HL & HN & HZ & HE & HC); [done|done|by left| |].
  { intros i Hi. rewrite Hb; set_unfold; destruct Hi as [-> | [-> | [-> | [-> | []]]]]; done. }
  rewrite Z.eqb_refl, andb_false_r, orb_false_l in HC.
  unfold accu_gets, flag. rewrite accu_set_sr, accu_set_accu, reg_set_reg_eq by done. unfold alu_flags.
  rewrite HV, HC, HL, HN, HZ, HE, !Hb, E by done. repeat split; try done; [apply Hw..|].
  by eexists _, _.
Qed.

(** The 48-bit operand of ADC and SBC, X or Y by bit 4. *)
Definition carry_operand (s : cpu_t) : Z :=
  if (cur_inst s >> 4) .& 1 =? 0 then s24 (reg DSP_REG_X1 s) * two24 + reg DSP_REG_X0 s
  else s24 (reg DSP_REG_Y1 s) * two24 + reg DSP_REG_Y0 s.

Lemma adc_source_is s : regs_ok s →
  ∃ a, adc_source (cur_inst s) s = Done a s ∧ wf56 a ∧ sval56 a = carry_operand s.
Proof.
  intros Hs. unfold adc_source, carry_operand.
  destruct ((cur_inst s >> 4) .& 1 =? 0); eexists.
  - split; [by apply (src_long_run DSP_REG_X0)|]. apply sign_ext_value; by apply word_ok.
  - split; [by apply (src_long_run DSP_REG_Y0)|]. apply sign_ext_value; by apply word_ok.
Qed.

(** ADC and SBC are one scheme. *)
Definition carry_instruction (op : a56 → a56 → a56 * Z) : C unit :=
  let* inst := get_inst in
  let* sr := rd DSP_REG_SR in
  let destreg := alu_dest inst in
  let* dest := rd_accu destreg in
  let* source := adc_source inst in
  let '(d, newsr) := op source dest in
  let '(d, newsr) :=
    if negb ((sr >> DSP_SR_C) .& 1 =? 0) then
      let '(d', sr') := op (A56 0 0 1) d in (d', newsr .| sr')
    else (d, newsr) in
  alu_finish destreg d newsr.

Lemma carry_instruction_run op s v o c : regs_ok s → ccr_scaling (reg DSP_REG_SR s) ≠ 3 →
  let n := alu_dest (cur_inst s) in
  (∀ a, wf56 a → sval56 a = carry_operand s →
     result56 (with_carry op (c_bool (flag DSP_SR_C s)) a (accu n s)) v o c) →
  ∃ s', carry_instruction op s = Done tt s' ∧ accu_gets n v o c s s'.
Proof.
  intros Hr Hs n Hop. assert (0 <= n <= 1) as Hn by apply alu_dest_range.
  destruct (adc_source_is s Hr) as (a & E & Hw & Ha).
  unfold carry_instruction. run. fold n. rewrite ?bind_rd_accu by done.
  rewrite (bind_run _ _ _ _ _ E).
  assert ((reg DSP_REG_SR s >> DSP_SR_C) .& 1 = c_bool (flag DSP_SR_C s)) as ->.
  { by apply bit_testbit. }
  destruct (finish_gets n _ _ _ _ s Hn (Hop a Hw Ha) Hs) as (s' & E' & Hg).
  exists s'. split; [|done]. rewrite <-E'. unfold with_carry.
  destruct (op a (accu n s)) as [d1 n1]. by destruct (if negb _ then _ else _).
Qed.

(** ADC and SBC.  The destination receives the sum of itself, X or Y and
    the carry (the difference, with the carry as a borrow) modulo 2^56; C is the
    carry or borrow of the whole operation, N, Z and E describe the number
    stored and nothing else changes.  V is set when the exact result does not
    fit; also, because each of the two additions may report it, in the one case
    where the first overflows by one unit and the carry brings the result back
    into range. *)
Theorem adc_sbc_correct s : regs_ok s → ccr_scaling (reg DSP_REG_SR s) ≠ 3 →
  let n := alu_dest (cur_inst s) in
  let d := sval56 (accu n s) in
  let x := carry_operand s in
  let c := c_bool (flag DSP_SR_C s) in
  (∃ s', dsp_adc s = Done tt s' ∧
     accu_gets n (d + x + c) (negb (fits56 (d + x + c)) || ((c =? 1) && (d + x =? - two55 - 1)))
       (two56 <=? d mod two56 + x mod two56 + c) s s') ∧
  (∃ s', dsp_sbc s = Done tt s' ∧
     accu_gets n (d - x - c) (negb (fits56 (d - x - c)) || ((c =? 1) && (d - x =? two55)))
       (d mod two56 <? x mod two56 + c) s s').
Proof.
  intros Hr Hs n d x c. assert (0 <= n <= 1) as Hn by apply alu_dest_range.
  pose proof (accu_wf n s Hn Hr) as Hd. pose proof (c_bool_range (flag DSP_SR_C s)) as Hc. fold c in Hc.
  change (dsp_adc s) with (carry_instruction dsp_add56 s).
  change (dsp_sbc s) with (carry_instruction dsp_sub56 s).
  split; apply carry_instruction_run; try done; fold n c; intros a Hw Ha; fold x in Ha;
    rewrite <-Ha; unfold d; rewrite !sval56_mod by done; [apply adc_result|apply sbc_result]; try done; lia.
Qed.

(** The defect: A = -2^55 and X = -1 with the carry set; the sum -2^55 fits and
    is stored, but V is set. *)
Definition adc_example : cpu_t :=
  regs_state 0x21 [(DSP_REG_A2, 0x80); (DSP_REG_X1, 0xffffff); (DSP_REG_X0, 0xffffff); (DSP_REG_SR, 1)].

Lemma adc_sbc_correct_witness :
  ∃ s', dsp_adc adc_example = Done tt s' ∧ accu_gets 0 (- two55) true true adc_example s'.
Proof.
  apply (adc_sbc_correct adc_example); [apply regs_ok_check; vm_compute; reflexivity
    |vm_compute; congruence].
Defined.

(** ** Logical instructions *)

(** [s'] is [s] with the word [v] in A1 or B1, N and Z those of [v], V clear, C
    as given and the other bits of the status register kept. *)
Definition word_becomes (n v : Z) (carry : bool) (s s' : cpu_t) : Prop :=
  (∃ sr', s' = set_reg DSP_REG_SR sr' (set_reg (DSP_REG_A1 + n) v s)) ∧
  flag DSP_SR_N s' = Z.testbit v 23 ∧ flag DSP_SR_Z s' = (v =? 0) ∧
  flag DSP_SR_V s' = false ∧ flag DSP_SR_C s' = carry ∧
  ∀ i, 4 <= i < 16 → flag i s' = flag i s.

(** The bits that N, Z and the carry contribute to the status register. *)
Lemma flag_word_bits b k i : 0 <= k < 16 → 0 <= i →
  Z.testbit (c_bool b << k) i = b && (i =? k).
Proof.
  intros Hk Hi. destruct b; cbn [c_bool andb].
  - rewrite Z.shiftl_1_l, u32_small, Z.pow2_bits_eqb, Z.eqb_sym by
      (try split; try apply Z.pow_nonneg; try apply (Z.pow_lt_mono_r 2 k 32); lia). done.
  - rewrite Z.shiftl_0_l. apply Z.bits_0.
Qed.

Lemma logic_flags_bits x sr i : 0 <= i < 16 → Z.testbit (logic_flags x sr) i =
  if i =? DSP_SR_N then Z.testbit x 23
  else if i =? DSP_SR_Z then x =? 0
  else if i =? DSP_SR_V then false else Z.testbit sr i.
Proof.
  intros Hi. unfold logic_flags. rewrite Z.lor_spec, sr_assign_bits by lia.
  rewrite bit_testbit, !flag_word_bits by lia.
  pose proof (indices_forallb 16 (λ i, eqb (Z.testbit (BITMASK 16 - NZV_mask) i)
    (negb (i =? DSP_SR_N) && negb (i =? DSP_SR_Z) && negb (i =? DSP_SR_V))) eq_refl i Hi) as E.
  apply eqb_prop in E. rewrite E.
  destruct (Z.eqb_spec i DSP_SR_N) as [-> |]; [by destruct (Z.testbit sr _), (Z.testbit x 23), (x =? 0)|].
  destruct (Z.eqb_spec i DSP_SR_Z) as [-> |]; [by destruct (Z.testbit sr _), (Z.testbit x 23), (x =? 0)|].
  by destruct (Z.testbit sr i), (Z.testbit x 23), (x =? 0), (i =? DSP_SR_V).
Qed.

Lemma shift_flags_bits c x sr i : 0 <= i < 16 → Z.testbit (shift_flags (c_bool c) x sr) i =
  if i =? DSP_SR_C then c else Z.testbit (logic_flags x sr) i.
Proof.
  intros Hi. rewrite logic_flags_bits by done. unfold shift_flags.
  rewrite !Z.lor_spec, sr_assign_bits by lia.
  rewrite bit_testbit, !flag_word_bits by lia.
  replace (Z.testbit (c_bool c) i) with (c && (i =? 0))
    by (rewrite <-(flag_word_bits c 0 i) by lia; by destruct c).
  pose proof (indices_forallb 16 (λ i, eqb (Z.testbit (BITMASK 16 - CNZV_mask) i)
    (negb (i =? DSP_SR_C) && negb (i =? DSP_SR_N) && negb (i =? DSP_SR_Z) && negb (i =? DSP_SR_V)))
    eq_refl i Hi) as E.
  apply eqb_prop in E. rewrite E.
  destruct (Z.eqb_spec i DSP_SR_C) as [-> |]; [by destruct (Z.testbit sr _), (Z.testbit x 23), (x =? 0), c|].
  destruct (Z.eqb_spec i DSP_SR_N) as [-> |]; [by destruct (Z.testbit sr _), (Z.testbit x 23), (x =? 0), c|].
  destruct (Z.eqb_spec i DSP_SR_Z) as [-> |]; [by destruct (Z.testbit sr _), (Z.testbit x 23), (x =? 0), c|].
  by destruct (Z.testbit sr i), (Z.testbit x 23), (x =? 0), c, (i =? DSP_SR_V).
Qed.

Lemma logic_becomes n v s : 0 <= n <= 1 →
  word_becomes n v (flag DSP_SR_C s) s
    (set_reg DSP_REG_SR (logic_flags v (reg DSP_REG_SR s)) (set_reg (DSP_REG_A1 + n) v s)).
Proof.
  intros Hn. unfold word_becomes, flag. rewrite reg_set_reg_eq. split; [by eexists|].
  rewrite !logic_flags_bits by lia. do 4 (split; [done|]). intros i Hi.
  rewrite logic_flags_bits by lia. by rewrite !(proj2 (Z.eqb_neq i _)) by lia.
Qed.

Lemma shift_becomes n v c s : 0 <= n <= 1 →
  word_becomes n v c s
    (set_reg DSP_REG_SR (shift_flags (c_bool c) v (reg DSP_REG_SR s)) (set_reg (DSP_REG_A1 + n) v s)).
Proof.
  intros Hn. unfold word_becomes, flag. rewrite reg_set_reg_eq. split; [by eexists|].
  rewrite !shift_flags_bits, !logic_flags_bits by lia. do 4 (split; [done|]). intros i Hi.
  rewrite shift_flags_bits, logic_flags_bits by lia. by rewrite !(proj2 (Z.eqb_neq i _)) by lia.
Qed.

(** The middle word of an accumulator. *)
Lemma middle_ok n s : 0 <= n <= 1 → regs_ok s → 0 <= reg (DSP_REG_A1 + n) s < two24.
Proof. intros Hn Hs. by destruct (accu_wf n s Hn Hs) as (_ & H & _). Qed.

Lemma logic_op_run f s : let n := alu_dest (cur_inst s) in
  let v := f (reg (DSP_REG_A1 + n) s) (reg (logic_srcreg (cur_inst s)) s) in
  0 <= v < two24 →
  ∃ s', logic_op f s = Done tt s' ∧ word_becomes n v (flag DSP_SR_C s) s s'.
Proof.
  intros n v Hv. pose proof (alu_dest_range (cur_inst s) : 0 <= n <= 1) as Hn.
  assert (4 <= logic_srcreg (cur_inst s) < 8) by (unfold logic_srcreg; repeat case_match; lia).
  unfold logic_op. rewrite bind_get_inst. fold n. run. fold v.
  rewrite mask_24, Z.mod_small by done. rewrite reg_set_reg_ne by lia.
  eexists. split; [reflexivity|]. by apply logic_becomes.
Qed.

Lemma not_run s : regs_ok s → let n := alu_dest (cur_inst s) in
  ∃ s', dsp_not s = Done tt s' ∧
        word_becomes n (two24 - 1 - reg (DSP_REG_A1 + n) s) (flag DSP_SR_C s) s s'.
Proof.
  intros Hs n. pose proof (alu_dest_range (cur_inst s) : 0 <= n <= 1) as Hn.
  pose proof (middle_ok n s Hn Hs). unfold dsp_not. rewrite bind_get_inst. fold n. run.
  replace (u32 (Z.lnot (reg (DSP_REG_A1 + n) s)) .& BITMASK 24)
    with (two24 - 1 - reg (DSP_REG_A1 + n) s)
    by (rewrite mask_24; unfold Z.lnot, Z.pred, u32; zdiv_lia).
  rewrite reg_set_reg_ne by lia. eexists. split; [reflexivity|]. by apply logic_becomes.
Qed.

(** A shift or rotation of the middle word: the bit shifted out and the new word. *)
Definition shift_instruction (out : Z → Z) (f : Z → Z) : C unit :=
  let* inst := get_inst in
  let numreg := DSP_REG_A1 + alu_dest inst in
  let* d := rd numreg in
  let newcarry := out d in
  wr numreg (f d) ;;
  let* x := rd numreg in
  upd DSP_REG_SR (shift_flags newcarry x).

Lemma shift_instruction_run out f c v s : let n := alu_dest (cur_inst s) in
  out (reg (DSP_REG_A1 + n) s) = c_bool c → f (reg (DSP_REG_A1 + n) s) = v →
  ∃ s', shift_instruction out f s = Done tt s' ∧ word_becomes n v c s s'.
Proof.
  intros n Hc Hv. pose proof (alu_dest_range (cur_inst s) : 0 <= n <= 1) as Hn.
  unfold shift_instruction. rewrite bind_get_inst. fold n. run. rewrite Hc, Hv, reg_set_reg_ne by lia.
  eexists. split; [reflexivity|]. by apply shift_becomes.
Qed.

Lemma low_carry d : d .& 1 = c_bool (Z.odd d).
Proof. rewrite mask_1, Zmod_odd. by destruct (Z.odd d). Qed.

(** LSR leaves N clear without computing it. *)
Lemma lsr_flags c d sr : 0 <= d < two24 →
  sr_assign CNZV_mask c sr .| (c_bool (d >> 1 =? 0) << DSP_SR_Z) = shift_flags c (d >> 1) sr.
Proof.
  intros Hd. unfold shift_flags. rewrite bit_testbit, Z.shiftr_spec by lia.
  rewrite (range_bits d 24) by (exact Hd || lia). cbn [c_bool]. by rewrite Z.lor_0_r.
Qed.

Lemma lsr_run s : regs_ok s → let n := alu_dest (cur_inst s) in
  let d := reg (DSP_REG_A1 + n) s in
  ∃ s', dsp_lsr s = Done tt s' ∧ word_becomes n (d / 2) (Z.odd d) s s'.
Proof.
  intros Hs n d. pose proof (alu_dest_range (cur_inst s) : 0 <= n <= 1) as Hn.
  unfold dsp_lsr. rewrite bind_get_inst. fold n. run. fold d.
  rewrite lsr_flags, low_carry, shr_1, reg_set_reg_ne by (by apply middle_ok) || lia.
  eexists. split; [reflexivity|]. by apply shift_becomes.
Qed.

Lemma rol_word d : 0 <= d < two24 →
  ((d << 1) .| ((d >> 23) .& 1)) .& BITMASK 24 = 2 * d mod two24 + d / 8388608.
Proof.
  intros Hd. carith. rewrite u32_small by lia. rewrite lor_double by zdiv_lia. zdiv_lia.
Qed.

Lemma ror_word d : 0 <= d < two24 →
  ((d >> 1) .| ((d .& 1) << 23)) .& BITMASK 24 = d / 2 + d mod 2 * 8388608.
Proof.
  intros Hd. rewrite Z.lor_comm. carith. rewrite u32_small by zdiv_lia.
  rewrite (lor_disjoint_add _ _ 23) by (change (2 ^ 23) with 8388608; zdiv_lia).
  change (2 ^ 23) with 8388608. zdiv_lia.
Qed.

(** the logical instructions.  On A1 or B1, AND, OR and EOR combine the word
    with the selected register bit by bit, NOT complements it, LSL, LSR, ROL and
    ROR shift or rotate its 24 bits; N and Z describe the new word, V is clear,
    C is kept by the former and receives the bit shifted out in the latter, and
    nothing else changes.  A rotation does not go through the carry: ROR undoes
    ROL. *)
Theorem logic_correct s : regs_ok s →
  let n := alu_dest (cur_inst s) in
  let d := reg (DSP_REG_A1 + n) s in
  let x := reg (logic_srcreg (cur_inst s)) s in
  let gives m v c := ∃ s', m s = Done tt s' ∧ word_becomes n v c s s' in
  let rol y := 2 * y mod two24 + y / 8388608 in
  let ror y := y / 2 + y mod 2 * 8388608 in
  gives dsp_and (Z.land d x) (flag DSP_SR_C s) ∧ gives dsp_or (Z.lor d x) (flag DSP_SR_C s) ∧
  gives dsp_eor (Z.lxor d x) (flag DSP_SR_C s) ∧ gives dsp_not (two24 - 1 - d) (flag DSP_SR_C s) ∧
  gives dsp_lsl (2 * d mod two24) (Z.testbit d 23) ∧ gives dsp_lsr (d / 2) (Z.odd d) ∧
  gives dsp_rol (rol d) (Z.testbit d 23) ∧ gives dsp_ror (ror d) (Z.odd d) ∧
  ror (rol d) = d.
Proof.
  intros Hs n d x gives rol ror. pose proof (alu_dest_range (cur_inst s) : 0 <= n <= 1) as Hn.
  pose proof (middle_ok n s Hn Hs : 0 <= d < two24) as Hd.
  assert (4 <= logic_srcreg (cur_inst s) < 8) as Hsrc by (unfold logic_srcreg; repeat case_match; lia).
  pose proof (word_ok (logic_srcreg (cur_inst s)) s ltac:(lia) Hs : 0 <= x < two24) as Hx.
  split; [apply logic_op_run, (land_range_l _ _ 24); done || lia|].
  split; [apply logic_op_run, (lor_range _ _ 24); done || lia|].
  split; [apply logic_op_run, (lxor_range _ _ 24); done || lia|].
  split; [by apply not_run|].
  split; [apply (shift_instruction_run (λ d, (d >> 23) .& 1) (λ d, (d << 1) .& BITMASK 24));
    [by apply bit_testbit|]; fold n d; carith; unfold u32; zdiv_lia|].
  split; [by apply lsr_run|].
  split; [apply (shift_instruction_run (λ d, (d >> 23) .& 1)
    (λ d, ((d << 1) .| ((d >> 23) .& 1)) .& BITMASK 24)); [by apply bit_testbit|by apply rol_word]|].
  split; [apply (shift_instruction_run (λ d, d .& 1)
    (λ d, ((d >> 1) .| ((d .& 1) << 23)) .& BITMASK 24)); [apply low_carry|by apply ror_word]|].
  unfold ror, rol. zdiv_lia.
Qed.

Lemma logic_correct_witness :
  ∃ s', dsp_rol (alu_example 0x37) = Done tt s' ∧ word_becomes 0 0xffffff true (alu_example 0x37) s'.
Proof.
  destruct (logic_correct (alu_example 0x37)) as (_ & _ & _ & _ & _ & _ & H & _);
    [apply regs_ok_check; vm_compute; reflexivity|exact H].
Defined.
