(* ===== verification/NormSpec.v ===== *)
(** * Normalisation

    NORM shifts the accumulator by one bit towards the normalised range and
    counts the shift in an address register.  Repeated, it normalises: this is
    how DSP programs convert to floating point. *)

From S2P Require Import Prelude Effects DspCore Arith56 Arith56Spec Cpu CpuRun Control ParMove Alu AluSpec.
From stdpp Require Import base gmap list numbers sets.
Open Scope Z_scope.
Open Scope c_scope.
Open Scope eff_scope.

(** The bound of the range without integer part, in the scaling mode of [s]. *)
Definition bound_of (s : cpu_t) : Z := ccr_bound (ccr_scaling (reg DSP_REG_SR s)).

(** E, U and Z describe accumulator [n], as after an instruction that wrote it. *)
Definition codes_describe (n : Z) (s : cpu_t) : Prop :=
  let v := sval56 (accu n s) in
  flag DSP_SR_E s = negb (within (bound_of s) v) ∧ flag DSP_SR_Z s = (v =? 0) ∧
  (within (bound_of s) v = true → flag DSP_SR_U s = within (bound_of s / 2) v).

(** The change of the exponent and the new value, for the bound [b]. *)
Definition norm_shift (b v : Z) : Z :=
  if negb (within b v) then 1 else if within (b / 2) v && negb (v =? 0) then -1 else 0.
Definition norm_value (b v : Z) : Z :=
  if norm_shift b v =? 1 then v / 2 else if norm_shift b v =? -1 then 2 * v else v.

Definition norm_dest (inst : Z) : Z := (inst >> 3) .& 1.
Definition norm_reg (inst : Z) : Z := DSP_REG_R0 + ((inst >> 8) .& BITMASK 3).

(** ** One step *)

Lemma bit_flag k s : 0 <= k → (reg DSP_REG_SR s >> k) .& 1 = c_bool (flag k s).
Proof. apply bit_testbit. Qed.

Lemma norm_euz_flag s :
  norm_euz (reg DSP_REG_SR s) = c_bool (negb (flag DSP_SR_E s) && flag DSP_SR_U s && negb (flag DSP_SR_Z s)).
Proof.
  unfold norm_euz. rewrite !bit_flag by lia.
  by destruct (flag DSP_SR_E s), (flag DSP_SR_U s), (flag DSP_SR_Z s).
Qed.

Lemma norm_euz_describes n s : codes_describe n s →
  negb (norm_euz (reg DSP_REG_SR s) =? 0) = (norm_shift (bound_of s) (sval56 (accu n s)) =? -1) ∧
  flag DSP_SR_E s = (norm_shift (bound_of s) (sval56 (accu n s)) =? 1).
Proof.
  intros (HE & HZ & HU). rewrite norm_euz_flag, HE, HZ. unfold norm_shift.
  destruct (within (bound_of s) (sval56 (accu n s))); cbn [negb andb]; [|by split].
  rewrite HU by done. by destruct (within _ _), (_ =? 0).
Qed.

(** The codes left at the end describe the result. *)
Lemma norm_tail n d o c s : 0 <= n <= 1 → wf56 d → ccr_scaling (reg DSP_REG_SR s) ≠ 3 →
  let s' := set_reg DSP_REG_SR (sr_assign VC_mask (newsr_of (c_bool o) (c_bool c))
              (ccr_all d (reg DSP_REG_SR s))) (set_accu n d s) in
  ccr_scaling (reg DSP_REG_SR s') = ccr_scaling (reg DSP_REG_SR s) ∧ codes_describe n s'.
Proof.
  intros Hn Hd Hs s'.
  assert (∀ i, 0 <= i < 16 → i ≠ DSP_SR_C → i ≠ DSP_SR_V → i ≠ DSP_SR_L →
    Z.testbit (reg DSP_REG_SR s') i = Z.testbit (ccr_all d (reg DSP_REG_SR s)) i) as Hb.
  { intros i Hi H0 H1 H6. unfold s'. rewrite reg_set_reg_eq, sr_assign_bits, newsr_of_bits by lia.
    rewrite !(proj2 (Z.eqb_neq i _)) by done. cbn [orb]. rewrite orb_false_r.
    pose proof (indices_forallb 16 (λ i, eqb (Z.testbit (BITMASK 16 - VC_mask) i)
      (negb (i =? DSP_SR_C) && negb (i =? DSP_SR_V))) eq_refl i Hi) as E.
    apply eqb_prop in E. rewrite E, !(proj2 (Z.eqb_neq i _)) by done. apply andb_true_r. }
  assert (ccr_scaling (reg DSP_REG_SR s') = ccr_scaling (reg DSP_REG_SR s)) as Es.
  { rewrite !ccr_scaling_bits. rewrite (Hb 10), (Hb 11), ccr_all_put by done.
    by rewrite !put_bit_spec by lia. }
  split; [done|]. unfold codes_describe, bound_of, flag. rewrite Es, !Hb, ccr_all_put by done.
  assert (accu n s' = d) as -> by (unfold s'; by rewrite accu_set_sr, accu_set_accu).
  rewrite !put_bit_spec by lia. cbn [Z.eqb Pos.eqb]. split; [done|]. split; [done|].
  intros Hw. pose proof (ccr_scaling_range (reg DSP_REG_SR s)). apply unnormalized_within; done || lia.
Qed.

(** The facts that a step keeps and the next one needs. *)
Definition norm_ready (n : Z) (s : cpu_t) : Prop :=
  wf56 (accu n s) ∧ ccr_scaling (reg DSP_REG_SR s) ≠ 3 ∧ codes_describe n s.

Lemma accu_set_other m n v s : 0 <= n <= 1 → 14 <= m → accu n (set_reg m v s) = accu n s.
Proof. intros. unfold accu. by rewrite !reg_set_reg_ne by lia. Qed.

(** What a step promises, with the exponent change [e] and the new value [v]. *)
Definition norm_result (n r e v : Z) (s s' : cpu_t) : Prop :=
  cur_inst s' = cur_inst s ∧ bound_of s' = bound_of s ∧ norm_ready n s' ∧
  sval56 (accu n s') = v ∧ reg r s' = (reg r s + e) mod 65536.

(** The end of the instruction, from the state [s1] where the address register
    was updated. *)
Lemma norm_finish n r e d o c s s1 : 0 <= n <= 1 → 16 <= r < 24 →
  wf56 d → ccr_scaling (reg DSP_REG_SR s) ≠ 3 →
  reg DSP_REG_SR s1 = reg DSP_REG_SR s → cur_inst s1 = cur_inst s →
  reg r s1 = (reg r s + e) mod 65536 →
  ∃ s', (wr_accu n d ;; upd DSP_REG_SR (ccr_all d) ;;
         upd DSP_REG_SR (sr_assign VC_mask (newsr_of (c_bool o) (c_bool c)))) s1 = Done tt s' ∧
        norm_result n r e (sval56 d) s s'.
Proof.
  intros Hn Hr Hd Hs Hsr Hi Hrr. rewrite <-Hsr in Hs.
  destruct (norm_tail n d o c s1 Hn Hd Hs) as [Es Hc].
  run. rewrite reg_set_accu by lia. eexists. split; [reflexivity|].
  split; [done|]. split; [unfold bound_of; by rewrite Es, Hsr|].
  assert (accu n (set_reg DSP_REG_SR (sr_assign VC_mask (newsr_of (c_bool o) (c_bool c))
    (ccr_all d (reg DSP_REG_SR s1))) (set_accu n d s1)) = d) as Ea by (by rewrite accu_set_sr, accu_set_accu).
  unfold norm_ready. rewrite Ea, Es. split; [done|]. split; [done|].
  by rewrite reg_set_reg_ne, reg_set_accu by lia.
Qed.

Lemma norm_step s : let n := norm_dest (cur_inst s) in let r := norm_reg (cur_inst s) in
  norm_ready n s → 0 <= reg r s < 65536 →
  ∃ s', dsp_norm s = Done tt s' ∧
    norm_result n r (norm_shift (bound_of s) (sval56 (accu n s)))
      (norm_value (bound_of s) (sval56 (accu n s))) s s'.
Proof.
  intros n r (Hw & Hs & Hd) Hr.
  assert (0 <= n <= 1) as Hn by (pose proof (bit_range (cur_inst s) 3); unfold n, norm_dest; lia).
  assert (16 <= r < 24) as Hrr
    by (unfold r, norm_reg; pose proof (land_BITMASK_range (cur_inst s >> 8) 3 ltac:(lia)); lia).
  destruct (norm_euz_describes n s Hd) as [He1 He2].
  pose proof (bit_flag DSP_SR_E s ltac:(lia)) as HE.
  pose proof (sval56_range _ Hw) as Hv.
  unfold norm_value. unfold dsp_norm. rewrite bind_get_inst, bind_rd by lia. cbv zeta.
  fold (norm_dest (cur_inst s)) (norm_reg (cur_inst s)). fold n r. rewrite bind_rd_accu by done.
  rewrite He1, HE, He2. set (e := norm_shift _ _) in *.
  assert (e = -1 ∧ within (bound_of s / 2) (sval56 (accu n s)) = true ∨ e = 1 ∨ e = 0) as He.
  { unfold e, norm_shift. destruct (within (bound_of s) _), (within (bound_of s / 2) _), (sval56 (accu n s) =? 0); cbn; auto. }
  destruct He as [[-> Hin] | [-> | ->]]; cbn [Z.eqb Pos.eqb negb c_bool].
  - rewrite (bind_run _ _ _ (set_reg r ((reg r s -u 1) .& BITMASK 16) s) (dsp_asl56 (accu n s)))
      by (by run).
    destruct (asl56_words _ Hw) as [Hwd Hvd]. pose proof (asl56_flags _ Hw) as Hf.
    destruct (dsp_asl56 (accu n s)) as [d newsr]. cbn [fst snd] in *. subst newsr.
    assert (sval56 d = 2 * sval56 (accu n s)) as <-.
    { apply sval56_unique; [done| |by rewrite Hvd, <-(sval56_mod (accu n s)), Zmult_mod_idemp_r].
      revert Hin. unfold within, bound_of, ccr_bound, fits56. repeat case_match; zdiv_lia. }
    apply norm_finish; try done; [by rewrite reg_set_reg_ne by lia|].
    rewrite reg_set_reg_eq, mask_16. unfold u32. zdiv_lia.
  - rewrite (bind_run _ _ _ (set_reg r ((reg r s +u 1) .& BITMASK 16) s) (dsp_asr56 (accu n s)))
      by (by run).
    destruct (asr56_words _ Hw) as [Hwd <-]. pose proof (asr56_flags _ Hw) as Hf.
    destruct (dsp_asr56 (accu n s)) as [d newsr]. cbn [fst snd] in *. subst newsr.
    replace (newsr_of 0 (val56 (accu n s) mod 2))
      with (newsr_of (c_bool false) (c_bool (Z.odd (val56 (accu n s)))))
      by (f_equal; rewrite Zmod_odd; by destruct (Z.odd _)).
    apply norm_finish; try done; [by rewrite reg_set_reg_ne by lia|].
    rewrite reg_set_reg_eq, mask_16. unfold u32. zdiv_lia.
  - rewrite bind_ret. apply (norm_finish n r 0 (accu n s) false false s s); try done.
    by rewrite Z.add_0_r, Z.mod_small.
Qed.

(** ** Repetition *)

Fixpoint repeat_norm (k : nat) : C unit :=
  match k with
  | O => ret tt
  | S k => dsp_norm ;; repeat_norm k
  end.

(** Value and exponent after [k] steps. *)
Fixpoint norm_steps (k : nat) (b v e : Z) : Z * Z :=
  match k with
  | O => (v, e)
  | S k => norm_steps k b (norm_value b v) (e + norm_shift b v)
  end.

Lemma repeat_norm_run k s : let n := norm_dest (cur_inst s) in let r := norm_reg (cur_inst s) in
  norm_ready n s → 0 <= reg r s < 65536 →
  ∃ s', repeat_norm k s = Done tt s' ∧
    let '(v, e) := norm_steps k (bound_of s) (sval56 (accu n s)) 0 in
    norm_result n r e v s s'.
Proof.
  cbv zeta.
  assert (∀ t e, norm_ready (norm_dest (cur_inst s)) t → cur_inst t = cur_inst s →
    bound_of t = bound_of s →
    reg (norm_reg (cur_inst s)) t = (reg (norm_reg (cur_inst s)) s + e) mod 65536 →
    ∃ s', repeat_norm k t = Done tt s' ∧
      let '(v, e) := norm_steps k (bound_of s) (sval56 (accu (norm_dest (cur_inst s)) t)) e in
      norm_result (norm_dest (cur_inst s)) (norm_reg (cur_inst s)) e v s s') as H.
  { induction k as [|k IH]; intros t e Hs Hi Hb Hr; cbn [repeat_norm norm_steps].
    - by exists t.
    - destruct (norm_step t) as (s1 & E & Hi1 & Hb1 & Hs1 & Hv1 & Hr1); rewrite ?Hi in *; [done| |].
      { rewrite Hr. apply Z.mod_pos_bound. lia. }
      rewrite (bind_run _ _ _ _ _ E), <-Hb, <-Hv1, Hb.
      apply IH; [done|congruence|congruence|]. rewrite Hr1, Hr, Zplus_mod_idemp_l, Hb. f_equal. lia. }
  intros Hs Hr. apply (H s 0); try done. by rewrite Z.add_0_r, Z.mod_small.
Qed.

(** A number with an integer part is halved until it has none. *)
Lemma norm_steps_down j b v e : 0 < b → b mod 2 = 0 → - (b * 2 ^ Z.of_nat j) <= v < b * 2 ^ Z.of_nat j →
  ∃ k, (k <= j)%nat ∧ norm_steps k b v e = (v / 2 ^ Z.of_nat k, e + Z.of_nat k) ∧
    within b (v / 2 ^ Z.of_nat k) = true ∧
    (k = 0%nat ∨ within (b / 2) (v / 2 ^ Z.of_nat k) = false).
Proof.
  intros Hb He. revert v e. induction j as [|j IH]; intros v e Hv.
  - exists 0%nat. change (2 ^ Z.of_nat 0) with 1 in *. rewrite Z.div_1_r, Z.add_0_r.
    assert (within b v = true) as E by (unfold within; lia). rewrite E. auto.
  - destruct (within b v) eqn:Ew.
    { exists 0%nat. change (2 ^ Z.of_nat 0) with 1. rewrite Z.div_1_r, Z.add_0_r, Ew. auto with lia. }
    assert (2 ^ Z.of_nat (S j) = 2 * 2 ^ Z.of_nat j) as E2
      by (rewrite Nat2Z.inj_succ, Z.pow_succ_r by lia; done).
    destruct (IH (v / 2) (e + 1)) as (k & Hk & E & Hw & Hor).
    { rewrite E2 in Hv. set (p := b * 2 ^ Z.of_nat j) in *.
      replace (b * (2 * 2 ^ Z.of_nat j)) with (2 * p) in Hv by (unfold p; lia). zdiv_lia. }
    exists (S k). assert (2 ^ Z.of_nat (S k) = 2 * 2 ^ Z.of_nat k) as ->
      by (rewrite Nat2Z.inj_succ, Z.pow_succ_r by lia; done).
    rewrite <-Z.div_div by lia. split; [lia|]. split.
    + cbn [norm_steps]. unfold norm_value, norm_shift. rewrite Ew. cbn [negb Z.eqb Pos.eqb].
      rewrite E. f_equal. lia.
    + split; [done|]. right. destruct Hor as [-> |]; [|done].
      change (2 ^ Z.of_nat 0) with 1. rewrite Z.div_1_r. revert Ew. unfold within. zdiv_lia.
Qed.

(** A number in the lower half of the range is doubled until it leaves it. *)
Lemma norm_steps_up j b v e : 0 < b → b mod 2 = 0 → within b v = true → v ≠ 0 →
  b / 2 < Z.abs v * 2 ^ Z.of_nat j →
  ∃ k, (k <= j)%nat ∧ norm_steps k b v e = (v * 2 ^ Z.of_nat k, e - Z.of_nat k) ∧
    within b (v * 2 ^ Z.of_nat k) = true ∧ within (b / 2) (v * 2 ^ Z.of_nat k) = false.
Proof.
  intros Hb He. revert v e. induction j as [|j IH]; intros v e Hw Hz Hj.
  - exists 0%nat. change (2 ^ Z.of_nat 0) with 1 in *. rewrite Z.mul_1_r, Z.sub_0_r.
    split; [lia|]. split; [done|]. split; [done|]. unfold within. lia.
  - destruct (within (b / 2) v) eqn:Ew.
    2: { exists 0%nat. change (2 ^ Z.of_nat 0) with 1. rewrite Z.mul_1_r, Z.sub_0_r. auto with lia. }
    assert (∀ i, 2 ^ Z.of_nat (S i) = 2 * 2 ^ Z.of_nat i) as E2
      by (intros; rewrite Nat2Z.inj_succ, Z.pow_succ_r by lia; done).
    destruct (IH (2 * v) (e + -1)) as (k & Hk & E & Hr).
    { revert Ew. unfold within. zdiv_lia. }
    { lia. }
    { rewrite E2 in Hj. rewrite Z.abs_mul. change (Z.abs 2) with 2. lia. }
    exists (S k). rewrite E2. replace (v * (2 * 2 ^ Z.of_nat k)) with (2 * v * 2 ^ Z.of_nat k) by lia.
    split; [lia|]. split; [|done]. cbn [norm_steps]. unfold norm_value, norm_shift.
    rewrite Hw, Ew, (proj2 (Z.eqb_neq v 0)) by done. cbn [negb andb Z.eqb Pos.eqb].
    rewrite E. f_equal. lia.
Qed.

Definition normalised (b v : Z) : Prop := v = 0 ∨ within b v = true ∧ within (b / 2) v = false.

(** The number [v] divided by 2^e, rounded down. *)
Definition scaled (v e : Z) : Z := if 0 <=? e then v / 2 ^ e else v * 2 ^ (- e).

Lemma bound_of_cases s : bound_of s = 2 ^ 47 ∨ bound_of s = 2 ^ 48 ∨ bound_of s = 2 ^ 46.
Proof. unfold bound_of, ccr_bound. repeat case_match; auto. Qed.

Lemma norm_steps_normalise s v : - two55 <= v < two55 →
  ∃ k, (k <= 48)%nat ∧ let '(v', e) := norm_steps k (bound_of s) v 0 in
    normalised (bound_of s) v' ∧ v' = scaled v e.
Proof.
  intros Hv. pose proof (bound_of_cases s) as Hc. set (b := bound_of s) in *. clearbody b.
  change (2 ^ 47) with 140737488355328 in Hc. change (2 ^ 48) with 281474976710656 in Hc.
  change (2 ^ 46) with 70368744177664 in Hc.
  assert (0 < b ∧ b mod 2 = 0) as [Hb He] by zdiv_lia.
  destruct (within b v) eqn:Ew; [destruct (Z.eq_dec v 0) as [-> | Hz]|].
  - exists 0%nat. cbn. split; [lia|]. split; [by left|]. done.
  - destruct (norm_steps_up 48 b v 0) as (k & Hk & E & Hr); try done.
    { change (2 ^ Z.of_nat 48) with 281474976710656. zdiv_lia. }
    exists k. rewrite E. split; [done|]. split; [by right|]. unfold scaled.
    replace (0 - Z.of_nat k) with (- Z.of_nat k) by lia.
    destruct (Z.leb_spec 0 (- Z.of_nat k)); [|by rewrite Z.opp_involutive].
    assert (k = 0%nat) as -> by lia. cbn. rewrite Z.div_1_r. lia.
  - destruct (norm_steps_down 9 b v 0) as (k & Hk & E & Hin & Hor); try done.
    { change (2 ^ Z.of_nat 9) with 512. lia. }
    exists k. rewrite E. split; [lia|]. unfold scaled. rewrite Z.add_0_l.
    replace (0 <=? Z.of_nat k) with true by lia. split; [|done]. right. split; [done|].
    destruct Hor as [-> |]; [|done]. change (2 ^ Z.of_nat 0) with 1 in Hin.
    rewrite Z.div_1_r in Hin. congruence.
Qed.

(** C36: NORM normalises.  If E, U and Z describe the accumulator, at most 48
    NORM instructions bring it, in each of the three scaling modes, to zero or to a number
    without integer part whose first fraction bit differs from the sign; the
    address register counts the exponent: the result is the original number
    divided by two to the power of the register's change, rounded down. *)
Theorem norm_normalises s : let n := norm_dest (cur_inst s) in let r := norm_reg (cur_inst s) in
  wf56 (accu n s) → ccr_scaling (reg DSP_REG_SR s) ≠ 3 → codes_describe n s →
  0 <= reg r s < 65536 →
  ∃ k e s', (k <= 48)%nat ∧ repeat_norm k s = Done tt s' ∧
    normalised (bound_of s) (sval56 (accu n s')) ∧
    sval56 (accu n s') = scaled (sval56 (accu n s)) e ∧
    reg r s' = (reg r s + e) mod 65536.
Proof.
  intros n r Hw Hs Hd Hr.
  destruct (norm_steps_normalise s (sval56 (accu n s))) as (k & Hk & Hn); [by apply sval56_range|].
  destruct (repeat_norm_run k s) as (s' & E & Hs'); [done|done|]. fold n r in Hs'.
  destruct (norm_steps k (bound_of s) (sval56 (accu n s)) 0) as [v e].
  destruct Hn as [Hn ->], Hs' as (_ & _ & _ & Hv & He). exists k, e, s'. by rewrite Hv.
Qed.

(** A = 2^30, without integer part and unnormalised. *)
Definition norm_example : cpu_t :=
  regs_state 0x01d915 [(DSP_REG_A1, 64); (DSP_REG_SR, 0x10)].

Lemma norm_normalises_witness :
  ∃ k e s', (k <= 48)%nat ∧ repeat_norm k norm_example = Done tt s' ∧
    normalised 140737488355328 (sval56 (accu 0 s')) ∧ sval56 (accu 0 s') = scaled (2 ^ 30) e.
Proof.
  destruct (norm_normalises norm_example) as (k & e & s' & Hk & E & Hn & Hv & _);
    [vm_compute; intuition congruence|vm_compute; congruence
    |repeat split|vm_compute; intuition congruence|].
  exists k, e, s'. split; [exact Hk|]. split; [exact E|]. split; [exact Hn|exact Hv].
Defined.
