(* ===== verification/BitSpec.v ===== *)
(** * Correctness of the bit instructions

    BSET, BCLR, BCHG and BTST on a register and on a word of internal memory:
    exactly the named bit changes and its old value goes to the carry. *)

From S2P Require Import Prelude Effects DspCore Arith56 Arith56Spec Cpu CpuRun Control.
From stdpp Require Import base gmap list numbers.
Open Scope Z_scope.
Open Scope c_scope.
Open Scope eff_scope.

(** A word of internal memory, and its assignment. *)
Definition word_at (space a : Z) (s : cpu_t) : Z := aget (ramint (core s)) (space, a) .& BITMASK 24.
Definition set_word (space a v : Z) (s : cpu_t) : cpu_t :=
  set_core (set_ramint (aset (space, a) v (ramint (core s))) (core s)) s.

(** The carry receives a bit. *)
Definition carry_becomes (b : bool) (s : cpu_t) : cpu_t :=
  set_reg DSP_REG_SR (put_bit DSP_SR_C b (reg DSP_REG_SR s)) s.

(** The three changes of a bit, as the source computes them. *)
Lemma bclr_value w k : 0 <= w < two24 → 0 <= k < 24 → w .& (0xffffffff -u (1 << k)) = Z.clearbit w k.
Proof.
  intros Hw Hk. rewrite pow2_32 by lia. apply Z.bits_inj'. intros i Hi.
  rewrite Z.land_spec, Z.clearbit_eqb by lia.
  destruct (Z.lt_ge_cases i 24); [|by rewrite (range_bits w 24)].
  assert (∀ k, 0 <= k < Z.of_nat 24 → forallb (λ i,
    eqb (Z.testbit (0xffffffff -u 2 ^ k) i) (negb (k =? i))) (indices 24) = true) as Hc.
  { apply indices_forallb. vm_compute. reflexivity. }
  f_equal. apply eqb_prop. apply (indices_forallb 24 _ (Hc k ltac:(lia))). lia.
Qed.

Lemma bset_value w k : 0 <= k < 24 → w .| (1 << k) = Z.setbit w k.
Proof. intros. unfold Z.setbit. by rewrite pow2_32, Z.shiftl_1_l by lia. Qed.

Lemma bchg_value w k : 0 <= w < two24 → 0 <= k < 24 →
  (if Z.testbit w k then w -u (1 << k) else w +u (1 << k)) = w .^ 2 ^ k.
Proof.
  intros Hw Hk. rewrite pow2_32 by lia.
  assert (0 < 2 ^ k <= 8388608) by (split; [lia|apply (Z.pow_le_mono_r 2 k 23); lia]).
  destruct (Z.testbit w k) eqn:E.
  - assert (2 ^ k <= w).
    { pose proof (Z.mul_div_le w (2 ^ k) ltac:(lia)). pose proof (Z.div_pos w (2 ^ k) ltac:(lia) ltac:(lia)).
      destruct (Z.eq_dec (w / 2 ^ k) 0) as [E0|]; [|nia]. by rewrite Z.testbit_true, E0 in E by lia. }
    rewrite u32_small by lia. rewrite Z.sub_nocarry_ldiff.
    { apply Z.bits_inj'. intros i Hi. rewrite Z.ldiff_spec, Z.lxor_spec, Z.pow2_bits_eqb by lia.
      destruct (Z.eqb_spec k i) as [<-|]; [by rewrite E|by destruct (Z.testbit w i)]. }
    apply Z.bits_inj'. intros i Hi.
    rewrite Z.ldiff_spec, Z.pow2_bits_eqb, Z.bits_0 by lia.
    by destruct (Z.eqb_spec k i) as [<-|]; [rewrite E|].
  - rewrite u32_small by lia. apply Z.add_nocarry_lxor. apply Z.bits_inj'. intros i Hi.
    rewrite Z.land_spec, Z.pow2_bits_eqb, Z.bits_0 by lia.
    destruct (Z.eqb_spec k i) as [<-|]; [by rewrite E|apply andb_false_r].
Qed.

(** ** Runs *)

Lemma set_carry_run b s : set_carry (c_bool b) s = Done tt (carry_becomes b s).
Proof. unfold set_carry. by run. Qed.

Lemma read_internal space a s : 0 <= space <= 1 → 0 <= a < 256 →
  read_memory space a s = Done (word_at space a s) s.
Proof.
  intros Hs Ha. unfold read_memory, on_core, zoom, core_read_memory. rewrite u16_small by lia.
  replace (a <? 256) with true by lia. unfold ld2, in_range.
  replace ((0 <=? space) && (space <? 3) && ((0 <=? a) && (a <? 512))) with true by lia.
  destruct s. reflexivity.
Qed.

Lemma write_internal space a v s : 0 <= space <= 1 → 0 <= a < 256 → 0 <= v < two24 →
  write_memory space a v s = Done tt (set_word space a v s).
Proof.
  intros Hs Ha Hv. unfold write_memory, on_core, zoom, core_write_memory_raw. rewrite u16_small by lia.
  replace (a <? 256) with true by lia. unfold st_ramint, in_range.
  replace ((0 <=? space) && (space <? 3) && ((0 <=? a) && (a <? 512))) with true by lia.
  rewrite mask_24, Z.mod_small by done. reflexivity.
Qed.

Lemma bit_fields inst : 0 <= bit_memspace inst <= 1 ∧ 0 <= bit_value inst < 64 ∧ 0 <= bit_reg inst < 64.
Proof.
  unfold bit_memspace, bit_reg, bit_value. pose proof (bit_range inst 6).
  pose proof (land_BITMASK_range (inst >> 8) 6 ltac:(lia)) as Hv. change (2 ^ 6) with 64 in Hv.
  split; [lia|]. split; [lia|]. case_match; [|lia].
  pose proof (land_range_r ((inst >> 8) .& BITMASK 6) 1 1 ltac:(lia) ltac:(lia)). lia.
Qed.

(** The extension byte follows bit 23 when the operand is A or B. *)
Definition with_ext (inst e : Z) (s : cpu_t) : cpu_t :=
  if is_accu (bit_value inst) && (bit_number inst =? 23)
  then set_reg (DSP_REG_A2 + (bit_value inst .& 1)) e s else s.

Section BitInstruction.
Context (newvalue : Z → Z → Z → Z) (ext : Z → Z) (s : cpu_t).
Let inst := cur_inst s.
Let k := bit_number inst.

Lemma bit_memory_run v : bit_mode inst = 0 → 0 <= k →
  let w := word_at (bit_memspace inst) (bit_value inst) s in
  newvalue (c_bool (Z.testbit w k)) k w = v → 0 <= v < two24 →
  bit_instruction newvalue ext s =
  Done tt (carry_becomes (Z.testbit w k) (set_word (bit_memspace inst) (bit_value inst) v s)).
Proof.
  intros Hm Hk w Hv Hr. destruct (bit_fields inst) as (H1 & H2 & _).
  unfold bit_instruction. rewrite bind_get_inst. fold inst k. rewrite Hm. cbn [Z.eqb].
  unfold bit_addr. rewrite Hm. cbn [Z.eqb]. rewrite bind_ret.
  rewrite (bind_run _ _ _ _ _ (read_internal (bit_memspace inst) (bit_value inst) s ltac:(lia) ltac:(lia))). fold w.
  rewrite bit_testbit, Hv by done.
  rewrite (bind_run _ _ _ _ _ (write_internal (bit_memspace inst) (bit_value inst) v s ltac:(lia) ltac:(lia) Hr)).
  apply set_carry_run.
Qed.

Lemma bit_register_run v : bit_mode inst = 3 → 0 <= k →
  let w := reg (bit_reg inst) s in
  newvalue (c_bool (Z.testbit w k)) k w = v →
  bit_instruction newvalue ext s =
  Done tt (carry_becomes (Z.testbit w k)
    (with_ext inst (ext (c_bool (Z.testbit w k))) (set_reg (bit_reg inst) v s))).
Proof.
  intros Hm Hk w Hv. destruct (bit_fields inst) as (_ & _ & H3).
  unfold bit_instruction. rewrite bind_get_inst. fold inst k. rewrite Hm. cbn [Z.eqb Pos.eqb].
  rewrite bind_rd by lia. fold w. rewrite bit_testbit, Hv by done. rewrite bind_wr by lia.
  unfold with_ext. fold k. pose proof (land_range_r (bit_value inst) 1 1 ltac:(lia) ltac:(lia)).
  destruct (is_accu (bit_value inst) && (k =? 23)); cbn [when].
  - rewrite bind_wr by lia. apply set_carry_run.
  - rewrite bind_ret. apply set_carry_run.
Qed.
End BitInstruction.

Lemma btst_run s : let inst := cur_inst s in
  bit_mode inst = 0 ∨ bit_mode inst = 3 → 0 <= bit_number inst →
  let w := if bit_mode inst =? 3 then reg (bit_reg inst) s
           else word_at (bit_memspace inst) (bit_value inst) s in
  dsp_btst s = Done tt (carry_becomes (Z.testbit w (bit_number inst)) s).
Proof.
  intros inst Hm Hk w. destruct (bit_fields inst) as (H1 & H2 & H3).
  unfold dsp_btst. rewrite bind_get_inst. fold inst.
  assert ((if bit_mode inst =? 3 then rd (bit_reg inst)
     else let* addr := bit_addr inst in read_memory (bit_memspace inst) addr) s = Done w s) as E.
  { unfold w, bit_addr. destruct Hm as [-> | ->]; cbn [Z.eqb Pos.eqb].
    - rewrite bind_ret. apply read_internal; lia.
    - apply rd_run. lia. }
  rewrite (bind_run _ _ _ _ _ E), bit_testbit by done. apply set_carry_run.
Qed.

(** the bit instructions.  For a bit below 24 of an internal memory word
    (short absolute address) or of a register, BSET sets the bit, BCLR clears it,
    BCHG inverts it and BTST leaves the operand; the old bit goes to the carry,
    the extension byte of A or B follows a change of bit 23, and nothing else
    changes. *)
Theorem bit_instructions_correct s :
  let inst := cur_inst s in
  let k := bit_number inst in
  k < 24 →
  (bit_mode inst = 0 →
     let w := word_at (bit_memspace inst) (bit_value inst) s in
     let stores v := Done tt (carry_becomes (Z.testbit w k)
                       (set_word (bit_memspace inst) (bit_value inst) v s)) in
     dsp_bset s = stores (Z.setbit w k) ∧ dsp_bclr s = stores (Z.clearbit w k) ∧
     dsp_bchg s = stores (w .^ 2 ^ k) ∧ dsp_btst s = Done tt (carry_becomes (Z.testbit w k) s)) ∧
  (bit_mode inst = 3 → 0 <= reg (bit_reg inst) s < two24 →
     let w := reg (bit_reg inst) s in
     let stores v e := Done tt (carry_becomes (Z.testbit w k)
                         (with_ext inst e (set_reg (bit_reg inst) v s))) in
     dsp_bset s = stores (Z.setbit w k) 0xff ∧ dsp_bclr s = stores (Z.clearbit w k) 0x00 ∧
     dsp_bchg s = stores (w .^ 2 ^ k) (if Z.testbit w k then 0x00 else 0xff) ∧
     dsp_btst s = Done tt (carry_becomes (Z.testbit w k) s)).
Proof.
  intros inst k Hk. assert (0 <= k) as Hk0 by (apply (land_BITMASK_range inst 5); lia).
  assert (∀ w, 0 <= w < two24 → 0 <= Z.setbit w k < two24 ∧ 0 <= Z.clearbit w k < two24 ∧
    0 <= w .^ 2 ^ k < two24) as Hr.
  { intros w Hw. assert (0 <= 2 ^ k < two24) by (split; [lia|apply (Z.pow_lt_mono_r 2 k 24); lia]).
    rewrite <-bset_value, <-bclr_value, pow2_32 by lia.
    split; [apply (lor_range _ _ 24); lia|]. split; [apply (land_range_l _ _ 24); lia|].
    apply (lxor_range _ _ 24); lia. }
  assert (∀ w, (if negb (c_bool (Z.testbit w k) =? 0) then w -u (1 << k) else w +u (1 << k)) =
    if Z.testbit w k then w -u (1 << k) else w +u (1 << k)) as Hif by (intros; by destruct (Z.testbit w k)).
  split.
  - intros Hm w stores.
    assert (0 <= w < two24) as Hw by (apply (land_BITMASK_range _ 24); lia). destruct (Hr w Hw) as (R1 & R2 & R3).
    split; [apply bit_memory_run; try done; by apply bset_value|].
    split; [apply bit_memory_run; try done; by apply bclr_value|].
    split; [apply bit_memory_run; try done; fold inst k w; by rewrite Hif, bchg_value|].
    pose proof (btst_run s ltac:(by left) Hk0) as E. cbv zeta in E. fold inst in E. rewrite Hm in E. done.
  - intros Hm Hw w stores.
    split; [apply (bit_register_run _ (λ _, 0xff)); try done; by apply bset_value|].
    split; [apply (bit_register_run _ (λ _, 0x00)); try done; by apply bclr_value|].
    split.
    + unfold stores. replace (if Z.testbit w k then 0 else 255)
        with ((λ c, if negb (c =? 0) then 0x00 else 0xff) (c_bool (Z.testbit w k)))
        by (by destruct (Z.testbit w k)).
      apply bit_register_run; try done. fold inst k w. by rewrite Hif, bchg_value.
    + pose proof (btst_run s ltac:(by right) Hk0) as E. cbv zeta in E. fold inst in E. rewrite Hm in E. done.
Qed.

(** BSET #4,Y:$12. *)
Lemma bit_instructions_correct_witness :
  dsp_bset (regs_state 0x0a1264 []) =
  Done tt (carry_becomes false (set_word 1 0x12 16 (regs_state 0x0a1264 []))).
Proof. apply (bit_instructions_correct (regs_state 0x0a1264 [])); [vm_compute; congruence|reflexivity]. Defined.
