(* ===== verification/AddressSpec.v ===== *)
(** * Correctness of the address arithmetic

    The three update modes of the address registers: linear, modulo (circular
    buffers) and bit-reversed (the access order of the fast Fourier transform),
    against their descriptions as integer functions. *)

From S2P Require Import Prelude Effects DspCore Arith56 Arith56Spec Cpu CpuRun.
From Stdlib Require Import ZArith Lia.
From stdpp Require Import base gmap list numbers.
Open Scope Z_scope.
Open Scope c_scope.
Open Scope eff_scope.

(** ** Reference definitions *)

(** [x] with its [k] low bits in the opposite order. *)
Fixpoint rev (k : nat) (x : Z) : Z :=
  match k with
  | O => 0
  | S k => Z.b2z (Z.odd x) * 2 ^ Z.of_nat k + rev k (x / 2)
  end.

(** The least power of two, up to 2^15, that is at least [n]. *)
Definition is_buffer_size (n b : Z) : Prop :=
  ∃ k, 0 <= k <= 15 ∧ b = 2 ^ k ∧ n <= b ∧ (k = 0 ∨ b < 2 * n).

(** ** Bit reversal *)

Lemma rev_bits k x j : 0 <= j →
  Z.testbit (rev k x) j = (j <? Z.of_nat k) && Z.testbit x (Z.of_nat k - 1 - j).
Proof.
  revert x j. induction k as [|k IH]; intros x j Hj; cbn [rev].
  { rewrite Z.bits_0. change (Z.of_nat 0) with 0. by rewrite (proj2 (Z.ltb_ge j 0)). }
  rewrite !Nat2Z.inj_succ.
  assert (0 <= rev k (x / 2) < 2 ^ Z.of_nat k).
  { apply bits_range; [lia|]. intros i Hi. rewrite IH by lia.
    ltb_lia. done. }
  rewrite <-lor_disjoint_add, Z.lor_spec, IH by lia.
  destruct (Z.lt_ge_cases j (Z.of_nat k)).
  - rewrite Z.mul_pow2_bits_low by lia.
    ltb_lia.
    cbn [andb orb]. rewrite Z.div2_bits by lia. f_equal. lia.
  - rewrite Z.mul_pow2_bits by lia. ltb_lia.
    cbn [andb]. rewrite orb_false_r.
    destruct (Z.eq_dec j (Z.of_nat k)) as [-> |].
    + ltb_lia. cbn [andb].
      replace (Z.of_nat k - Z.of_nat k) with 0 by lia.
      replace (Z.succ (Z.of_nat k) - 1 - Z.of_nat k) with 0 by lia.
      rewrite (Z.bit0_odd x). by destruct (Z.odd x).
    + ltb_lia. cbn [andb].
      apply (range_bits _ 1); [destruct (Z.odd x); cbn; lia|lia].
Qed.

Lemma rev_range k x : 0 <= rev k x < 2 ^ Z.of_nat k.
Proof.
  apply bits_range; [lia|]. intros i Hi. rewrite rev_bits by lia.
  by ltb_lia.
Qed.

Lemma rev_rev k x : rev k (rev k x) = x mod 2 ^ Z.of_nat k.
Proof.
  apply Z.bits_inj'. intros j Hj. rewrite rev_bits by done.
  destruct (Z.lt_ge_cases j (Z.of_nat k)).
  - rewrite rev_bits, Z.mod_pow2_bits_low by lia.
    ltb_lia.
    cbn [andb]. f_equal. lia.
  - rewrite Z.mod_pow2_bits_high by lia. by ltb_lia.
Qed.

(** The bits the source's loop sets: bit [revbits-1-i] for each bit [i] left. *)
Lemma reverse_bits_spec fuel revbits r i v j : 0 <= i → revbits <= 17 →
  i + Z.of_nat fuel = revbits → 0 <= j →
  Z.testbit (reverse_bits fuel revbits r i v) j =
  Z.testbit v j || ((j <? revbits - i) && Z.testbit r (revbits - 1 - j)).
Proof.
  revert i v. induction fuel as [|fuel IH]; intros i v Hi Hr Hf Hj; cbn [reverse_bits].
  { ltb_lia. by rewrite orb_false_r. }
  rewrite IH by lia. rewrite tst_bit by lia.
  assert (Z.testbit (if Z.testbit r i then v .| (1 << (revbits - i - 1)) else v) j =
    Z.testbit v j || (Z.testbit r i && (revbits - i - 1 =? j))) as ->.
  { destruct (Z.testbit r i); [|by rewrite orb_false_r].
    rewrite Z.lor_spec. f_equal. rewrite pow2_32 by lia. by rewrite Z.pow2_bits_eqb by lia. }
  rewrite <-orb_assoc. f_equal. destruct (Z.eqb_spec (revbits - i - 1) j) as [<- |].
  - replace (revbits - 1 - (revbits - i - 1)) with i by lia.
    ltb_lia.
    cbn [andb]. by rewrite andb_true_r, orb_false_r.
  - rewrite andb_false_r, orb_false_l.
    by replace (j <? revbits - (i + 1)) with (j <? revbits - i) by lia.
Qed.

(** On a value without low bits, the loop adds the reversed low bits of [r]. *)
Lemma reverse_bits_rev k r v : (k <= 16)%nat → v mod 2 ^ Z.of_nat k = 0 →
  reverse_bits k (Z.of_nat k) r 0 v = v + rev k r.
Proof.
  intros Hk Hv. pose proof (rev_range k r).
  assert (v = v / 2 ^ Z.of_nat k * 2 ^ Z.of_nat k) as Ev.
  { pose proof (Z.div_mod v (2 ^ Z.of_nat k) ltac:(lia)). lia. }
  rewrite Ev at 2. rewrite <-lor_disjoint_add by lia. rewrite <-Ev.
  apply Z.bits_inj'. intros j Hj. rewrite reverse_bits_spec by lia.
  rewrite Z.lor_spec, rev_bits by done. by replace (Z.of_nat k - 0) with (Z.of_nat k) by lia.
Qed.

Lemma rev_mod k x y : x mod 2 ^ Z.of_nat k = y mod 2 ^ Z.of_nat k → rev k x = rev k y.
Proof.
  intros E. apply Z.bits_inj'. intros j Hj. rewrite !rev_bits by done.
  destruct (Z.lt_ge_cases j (Z.of_nat k)); ltb_lia; cbn [andb]; [|done].
  rewrite <-(Z.mod_pow2_bits_low x (Z.of_nat k)), E, Z.mod_pow2_bits_low by lia. done.
Qed.

Lemma first_bit_spec n fuel i k : 0 <= i <= k → k < i + Z.of_nat fuel → k < 16 →
  Z.testbit n k = true → (∀ j, 0 <= j < k → Z.testbit n j = false) →
  first_bit fuel n i = k.
Proof.
  intros Hi Hf Hk Hn Hlow. revert i Hi Hf. induction fuel as [|fuel IH]; intros i Hi Hf.
  - cbn in Hf. lia.
  - cbn [first_bit]. rewrite tst_bit by lia. destruct (Z.eq_dec i k) as [-> |]; [by rewrite Hn|].
    rewrite Hlow by lia. apply IH; lia.
Qed.

(** The mask of the bits above the [k] reversed ones. *)
Lemma himask_spec x k : 0 <= k <= 16 → 0 <= x < 65536 →
  x .& u32 (BITMASK 16 - BITMASK k) = x - x mod 2 ^ k.
Proof.
  intros Hk Hx. rewrite (mask_high x k 16).
  - change (2 ^ 16) with 65536. by rewrite (Z.mod_small x 65536).
  - lia.
  - assert (0 < 2 ^ k <= 2 ^ 16) by (split; [lia|apply Z.pow_le_mono_r; lia]).
    change (2 ^ 16) with 65536 in *. unfold BITMASK. rewrite !Z.shiftl_1_l.
    change (2 ^ 16) with 65536. rewrite u32_small by lia.
    rewrite Z.shiftl_mul_pow2, Z.ones_equiv by lia. unfold Z.pred.
    rewrite Z.mul_add_distr_r, <-Z.pow_add_r by lia. replace (16 - k + k) with 16 by lia. lia.
Qed.

(** One update: the low [k] bits are reversed, incremented and reversed back. *)
Lemma bitreverse_value_spec n r k : (1 <= k <= 16)%nat → 0 <= r < 65536 →
  first_bit 16 n 0 = Z.of_nat k - 1 →
  bitreverse_value n r =
  r - r mod 2 ^ Z.of_nat k + rev k ((rev k r + 1) mod 2 ^ Z.of_nat k).
Proof.
  intros Hk Hr Hf. unfold bitreverse_value. rewrite Hf.
  replace (Z.of_nat k - 1 + 1) with (Z.of_nat k) by lia. rewrite Nat2Z.id.
  set (P := 2 ^ Z.of_nat k). assert (0 < P <= 65536) as HP.
  { subst P. split; [lia|]. change 65536 with (2 ^ 16). apply Z.pow_le_mono_r; lia. }
  assert (4294967296 mod P = 0) as H32.
  { subst P. rewrite <-(Z.mod_mul (2 ^ (32 - Z.of_nat k)) (2 ^ Z.of_nat k)) by lia.
    rewrite <-Z.pow_add_r by lia. f_equal. change 4294967296 with (2 ^ 32). f_equal. lia. }
  pose proof (Z.mod_pos_bound r P ltac:(lia)) as Hm. pose proof (Z.div_mod r P ltac:(lia)) as Hd.
  assert ((r - r mod P) mod P = 0) as Hhi
    by (replace (r - r mod P) with (r / P * P) by lia; apply Z.mod_mul; lia).
  rewrite himask_spec by lia. fold P. rewrite (reverse_bits_rev k r (r - r mod P)) by (exact Hhi || lia).
  rewrite (land_BITMASK _ (Z.of_nat k)) by lia. fold P.
  assert (u32 (r - r mod P + rev k r + 1) mod P = (rev k r + 1) mod P) as ->.
  { unfold u32. rewrite Z.mod_mod_divide by (apply Z.mod_divide; [lia|done]).
    rewrite <-Z.add_assoc, Zplus_mod, Hhi, Z.add_0_l. by rewrite Z.mod_mod by lia. }
  pose proof (Z.mod_pos_bound (rev k r + 1) P ltac:(lia)) as Hv.
  set (v := (rev k r + 1) mod P) in *. clearbody v.
  assert ((r - r mod P) .| v = r - r mod P + v) as ->.
  { replace (r - r mod P) with (r / P * P) by lia. by apply lor_disjoint_add; [lia|]. }
  assert ((r - r mod P + v) mod P = v) as Ev.
  { rewrite Zplus_mod, Hhi, Z.add_0_l, Z.mod_mod by lia. by apply Z.mod_small. }
  assert (r / P * P + P <= 65536) as Htop.
  { assert (65536 mod P = 0) as H16; [|].
    { subst P. rewrite <-(Z.mod_mul (2 ^ (16 - Z.of_nat k)) (2 ^ Z.of_nat k)) by lia.
      rewrite <-Z.pow_add_r by lia. f_equal. change 65536 with (2 ^ 16). f_equal. lia. }
    pose proof (Z.div_mod 65536 P ltac:(lia)). assert (r / P < 65536 / P); nia. }
  assert (0 <= r / P * P) by (apply Z.mul_nonneg_nonneg; [apply Z.div_pos|]; lia).
  rewrite himask_spec by (replace (r - r mod P) with (r / P * P) by lia; lia).
  fold P. rewrite Ev.
  replace (r - r mod P + v - v) with (r - r mod P) by lia.
  rewrite reverse_bits_rev by (exact Hhi || lia). f_equal. apply rev_mod. fold P.
  rewrite Ev. symmetry. by apply Z.mod_small.
Qed.

(** ** Circular buffers *)

Lemma buffer_size_spec fuel modulo k : 0 <= k → 1 <= modulo <= 32768 →
  k + Z.of_nat fuel = 16 → (k = 0 ∨ 2 ^ k < 2 * modulo) →
  ∃ j, 0 <= j <= 15 ∧ modulo <= 2 ^ j ∧ (j = 0 ∨ 2 ^ j < 2 * modulo) ∧
    buffer_size fuel modulo (2 ^ k) (65536 - 2 ^ k) = (2 ^ j, 65536 - 2 ^ j).
Proof.
  revert k. induction fuel as [|fuel IH]; intros k Hk Hm Hf Hlow.
  - assert (k = 16) as -> by lia. change (2 ^ 16) with 65536 in Hlow. lia.
  - cbn [buffer_size]. assert (0 <= k <= 15) as Hk' by lia. assert (0 < 2 ^ k) by lia.
    destruct (Z.ltb_spec (2 ^ k) modulo).
    + assert (2 ^ (k + 1) = 2 * 2 ^ k) as E by (rewrite Z.pow_add_r by lia; lia).
      carith. replace (u16 (2 ^ k * 2)) with (2 ^ (k + 1)) by (rewrite u16_small; lia).
      replace (u16 ((65536 - 2 ^ k) * 2)) with (65536 - 2 ^ (k + 1)) by (unfold u16; zdiv_lia).
      apply IH; lia.
    + by exists k.
Qed.

(** The bounds of the buffer that holds [rn]. *)
Lemma buffer_bounds modulo rn : 1 <= modulo <= 32768 → 0 <= rn < 65536 →
  ∃ b, is_buffer_size modulo b ∧ 1 <= b ∧
    let '(bufsize, bufmask) := buffer_size 16 modulo 1 (BITMASK 16) in
    bufsize = b ∧ u16 (rn .& bufmask) = rn - rn mod b.
Proof.
  intros Hm Hr. destruct (buffer_size_spec 16 modulo 0) as (j & Hj & Hb & Hlow & E); [lia..|].
  change (BITMASK 16) with (65536 - 2 ^ 0). change 1 with (2 ^ 0) at 2. rewrite E.
  exists (2 ^ j). split; [by exists j|]. split; [lia|]. split; [done|].
  assert (0 < 2 ^ j <= 2 ^ 15) by (split; [lia|apply Z.pow_le_mono_r; lia]).
  change (2 ^ 15) with 32768 in *. change 65536 with (2 ^ 16).
  rewrite (mask_high rn j 16); [|lia|].
  - change (2 ^ 16) with 65536. rewrite (Z.mod_small rn 65536) by done.
    pose proof (Z.mod_pos_bound rn (2 ^ j) ltac:(lia)). pose proof (Z.mod_le rn (2 ^ j)).
    apply u16_small. lia.
  - rewrite Z.shiftl_mul_pow2, Z.ones_equiv by lia. unfold Z.pred.
    rewrite Z.mul_add_distr_r, <-Z.pow_add_r by lia. replace (16 - j + j) with 16 by lia. lia.
Qed.

(** A step of less than the modulus, from inside the buffer. *)
Lemma modulo_value_wraps m rn d b : 1 <= m <= 32767 → 0 <= rn < 32768 →
  is_buffer_size (m + 1) b →
  let lo := rn - rn mod b in
  rn - lo <= m → lo + 2 * (m + 1) <= 32769 → - (m + 1) < d < m + 1 →
  modulo_value m rn d = lo + (rn - lo + d) mod (m + 1).
Proof.
  intros Hm Hr Hb lo Hin Htop Hd. unfold modulo_value.
  rewrite (u16_small (m + 1)) by lia.
  destruct (buffer_bounds (m + 1) rn) as (b' & Hb' & Hpos & E); [lia..|].
  destruct (buffer_size 16 (m + 1) 1 (BITMASK 16)) as [bufsize bufmask]. destruct E as [-> ->].
  assert (b' = b) as ->.
  { destruct Hb as (k & Hk & -> & Hk1 & Hk2), Hb' as (k' & Hk' & -> & Hk1' & Hk2').
    destruct (Z.lt_trichotomy k k') as [Hlt | [-> | Hlt]]; [|done|].
    - pose proof (Z.pow_le_mono_r 2 (k + 1) k' ltac:(lia) ltac:(lia)) as Hp.
      rewrite Z.pow_add_r in Hp by lia. lia.
    - pose proof (Z.pow_le_mono_r 2 (k' + 1) k ltac:(lia) ltac:(lia)) as Hp.
      rewrite Z.pow_add_r in Hp by lia. lia. }
  fold lo. pose proof (Z.mod_pos_bound rn b ltac:(lia)). pose proof (Z.mod_le rn b ltac:(lia) ltac:(lia)).
  assert (0 <= lo <= rn) as Hlo by lia. clearbody lo.
  rewrite (u16_small (lo + (m + 1) - 1)) by lia.
  replace (m + 1 <? d) with false by lia. rewrite (s16_small rn), (s16_small (rn + d)) by lia.
  replace (negb (d =? m + 1)) with true by lia.
  assert (∀ x, 0 <= x < 32768 → u32 x .& BITMASK 16 = x) as Hx.
  { intros. rewrite u32_small by lia. carith. apply Z.mod_small. lia. }
  set (M := m + 1) in *. assert (0 <= rn - lo < M) by lia. clearbody M.
  destruct (Z.ltb_spec (lo + M - 1) (rn + d)); [|destruct (Z.ltb_spec (rn + d) lo)].
  - rewrite s16_small, Hx by lia. rewrite <-(Z_mod_plus_full _ (-1)), Z.mod_small by lia. lia.
  - rewrite s16_small, Hx by lia. rewrite <-(Z_mod_plus_full _ 1), Z.mod_small by lia. lia.
  - rewrite Hx by lia. rewrite Z.mod_small by lia. lia.
Qed.

(** ** Runs of the update *)

Definition rn_of (numreg : Z) (s : cpu_t) : Z := reg (DSP_REG_R0 + numreg) s.

Lemma update_rn_run numreg modifier s : 0 <= numreg < 8 →
  dsp_update_rn numreg modifier s =
  Done tt
   (let m := u16 (reg (DSP_REG_M0 + numreg) s) in
    let r := rn_of numreg s in
    if m =? 0 then
      set_reg (DSP_REG_R0 + numreg) (bitreverse_value (reg (DSP_REG_N0 + numreg) s) r) s
    else if m <=? 32767 then
      set_reg (DSP_REG_R0 + numreg)
        (modulo_value (reg (DSP_REG_M0 + numreg) s) r (s16 (s16 modifier))) s
    else if m =? 65535 then
      set_reg (DSP_REG_R0 + numreg) (linear_value r (s16 modifier)) s
    else s).
Proof.
  intros. unfold dsp_update_rn, rn_of. run.
  set (m := u16 (reg (DSP_REG_M0 + numreg) s)). assert (0 <= m) by apply u16_range.
  destruct (Z.eqb_spec m 0).
  - unfold dsp_update_rn_bitreverse. by run.
  - replace (1 <=? m) with true by lia. cbn [andb]. destruct (m <=? 32767).
    + unfold dsp_update_rn_modulo. by run.
    + destruct (m =? 65535); [by run|done].
Qed.

Lemma linear_value_spec r d : 0 <= r < 65536 → -32768 <= d < 32768 → linear_value r d = (r + d) mod 65536.
Proof.
  intros. unfold linear_value, s16. carith.
  assert (∀ x, u32 x mod 65536 = x mod 65536) as ->.
  { intros x. unfold u32. by rewrite Z.mod_mod_divide by (by exists 65536). }
  zdiv_lia.
Qed.

Lemma bitreverse_step n base k j : (1 <= k <= 16)%nat → first_bit 16 n 0 = Z.of_nat k - 1 →
  0 <= base → base + 2 ^ Z.of_nat k <= 65536 → base mod 2 ^ Z.of_nat k = 0 →
  0 <= j < 2 ^ Z.of_nat k →
  bitreverse_value n (base + rev k j) = base + rev k ((j + 1) mod 2 ^ Z.of_nat k).
Proof.
  intros Hk Hf Hb Htop Hal Hj. pose proof (rev_range k j) as Hr.
  rewrite (bitreverse_value_spec n _ k) by (done || lia).
  assert ((base + rev k j) mod 2 ^ Z.of_nat k = rev k j) as E.
  { rewrite Zplus_mod, Hal, Z.add_0_l, Z.mod_mod by lia. by apply Z.mod_small. }
  rewrite E. replace (base + rev k j - rev k j) with base by lia.
  rewrite (rev_mod k (base + rev k j) (rev k j)) by (rewrite E; symmetry; by apply Z.mod_small).
  by rewrite rev_rev, (Z.mod_small j).
Qed.

(** linear addressing.  With Mn = 0xffff an update adds the modifier to Rn
    modulo 2^16, for every modifier the callers pass, and changes nothing else. *)
Theorem linear_update numreg d s : 0 <= numreg < 8 →
  reg (DSP_REG_M0 + numreg) s = 0xffff → 0 <= rn_of numreg s < 65536 →
  dsp_update_rn numreg d s =
  Done tt (set_reg (DSP_REG_R0 + numreg) ((rn_of numreg s + d) mod 65536) s).
Proof.
  intros Hn Hm Hr. rewrite update_rn_run, Hm by done. cbv zeta.
  change (u16 65535 =? 0) with false. change (u16 65535 <=? 32767) with false.
  change (u16 65535 =? 65535) with true. cbv iota.
  rewrite linear_value_spec by (apply s16_range || done). do 2 f_equal. unfold s16. zdiv_lia.
Qed.

(** circular buffers.  With Mn = m between 1 and 32767 and Rn inside its
    buffer (the m+1 words from the multiple [lo] of the least power of two that
    holds them), an update by less than the buffer's length moves Rn around the
    buffer: its offset becomes the sum modulo m+1.  The buffer must leave room
    for one more turn below address 0x8000, because the source compares the
    signed address with its bounds. *)
Theorem modulo_update numreg d b s : 0 <= numreg < 8 →
  let m := reg (DSP_REG_M0 + numreg) s in
  let r := rn_of numreg s in
  let lo := r - r mod b in
  1 <= m <= 32767 → 0 <= r < 32768 → is_buffer_size (m + 1) b →
  r - lo <= m → lo + 2 * (m + 1) <= 32769 → - (m + 1) < d < m + 1 →
  dsp_update_rn numreg d s =
  Done tt (set_reg (DSP_REG_R0 + numreg) (lo + (r - lo + d) mod (m + 1)) s).
Proof.
  intros Hn m r lo Hm Hr Hb Hin Htop Hd. rewrite update_rn_run by done. cbv zeta. fold m r.
  rewrite (u16_small m) by lia. rewrite !(s16_small d) by lia.
  replace (m =? 0) with false by lia. replace (m <=? 32767) with true by lia.
  by rewrite (modulo_value_wraps m r d b).
Qed.

Definition modulo_example : cpu_t :=
  regs_state 0 [(DSP_REG_R0 + 2, 0x1013); (DSP_REG_M0 + 2, 20)].

Lemma modulo_update_witness :
  dsp_update_rn 2 5 modulo_example =
  Done tt (set_reg (DSP_REG_R0 + 2) (0x1000 + (19 + 5) mod 21) modulo_example).
Proof.
  apply (modulo_update 2 5 32 modulo_example); try (vm_compute; intuition congruence).
  exists 5. vm_compute. intuition congruence.
Defined.

Lemma linear_update_witness :
  let s := regs_state 0 [(DSP_REG_R0, 1); (DSP_REG_M0, 0xffff)] in
  dsp_update_rn 0 (-2) s = Done tt (set_reg DSP_REG_R0 0xffff s).
Proof.
  apply (linear_update 0 (-2) (regs_state 0 [(DSP_REG_R0, 1); (DSP_REG_M0, 0xffff)]));
    vm_compute; intuition congruence.
Defined.

(** bit-reversed addressing.  If the lowest set bit of Nn is bit k-1 (the
    buffer has 2^k words) and [base] is a multiple of 2^k, then [j] updates from
    [base] reach [base] plus the bit reversal of [j], and the 2^k addresses of
    the buffer are all visited: the update is the reversed-carry increment. *)
Theorem bitreverse_orbit n base k : (1 <= k <= 16)%nat →
  Z.testbit n (Z.of_nat k - 1) = true → (∀ i, 0 <= i < Z.of_nat k - 1 → Z.testbit n i = false) →
  0 <= base → base + 2 ^ Z.of_nat k <= 65536 → base mod 2 ^ Z.of_nat k = 0 →
  (∀ j, Nat.iter j (bitreverse_value n) base = base + rev k (Z.of_nat j mod 2 ^ Z.of_nat k)) ∧
  (∀ a, base <= a < base + 2 ^ Z.of_nat k →
     ∃ j, Z.of_nat j < 2 ^ Z.of_nat k ∧ Nat.iter j (bitreverse_value n) base = a).
Proof.
  intros Hk Hn Hlow Hb Htop Hal.
  assert (first_bit 16 n 0 = Z.of_nat k - 1) as Hf by (apply first_bit_spec; try done; lia).
  assert (∀ j, Nat.iter j (bitreverse_value n) base =
    base + rev k (Z.of_nat j mod 2 ^ Z.of_nat k)) as Hiter.
  { induction j as [|j IH].
    - change (Nat.iter 0 (bitreverse_value n) base) with base. change (Z.of_nat 0) with 0. rewrite Z.mod_0_l by lia.
      assert (rev k 0 = 0) as ->; [|by rewrite Z.add_0_r].
      apply Z.bits_inj'. intros i Hi. by rewrite rev_bits, !Z.bits_0, andb_false_r.
    - change (Nat.iter (S j) (bitreverse_value n) base)
        with (bitreverse_value n (Nat.iter j (bitreverse_value n) base)).
      rewrite IH, bitreverse_step; try done.
      + rewrite Zplus_mod_idemp_l. do 3 f_equal. lia.
      + apply Z.mod_pos_bound. lia. }
  split; [done|]. intros a Ha. pose proof (rev_range k (a - base)) as Hr.
  exists (Z.to_nat (rev k (a - base))). rewrite Hiter, Z2Nat.id by lia. split; [lia|].
  rewrite (Z.mod_small (rev k (a - base))), rev_rev, Z.mod_small by lia. lia.
Qed.

Lemma bitreverse_orbit_witness :
  map (λ j, Nat.iter j (bitreverse_value 4) 0x100) (seq 0 8) =
  [0x100; 0x104; 0x102; 0x106; 0x101; 0x105; 0x103; 0x107].
Proof.
  destruct (bitreverse_orbit 4 0x100 3) as [H _];
    [lia|reflexivity| |lia|vm_compute; congruence|reflexivity|].
  - intros i Hi. assert (i = 0 ∨ i = 1) as [-> | ->] by (cbn in Hi; lia); reflexivity.
  - cbn [seq map]. rewrite !H. vm_compute. reflexivity.
Defined.

(** In the upper half of the address space the signed comparison takes every
    address for one below the buffer: a step of one from the base of a buffer
    of four words leaves the buffer. *)
Lemma modulo_upper_half_escapes :
  dsp_update_rn 0 1 (regs_state 0 [(DSP_REG_R0, 0x9000); (DSP_REG_M0, 3)]) =
  Done tt (set_reg DSP_REG_R0 0x9005 (regs_state 0 [(DSP_REG_R0, 0x9000); (DSP_REG_M0, 3)])).
Proof. rewrite update_rn_run by lia. vm_compute. reflexivity. Qed.

(** *** The loops stop *)

(** The buffer size is found within 16 turns. *)
Lemma buffer_size_finishes modulo k : 1 <= modulo <= 32768 →
  modulo <= fst (buffer_size 16 modulo 1 (BITMASK 16)) ∧
  buffer_size (16 + k) modulo 1 (BITMASK 16) = buffer_size 16 modulo 1 (BITMASK 16).
Proof.
  intros Hm. destruct (buffer_size_spec 16 modulo 0) as (j & _ & Hj & _ & E); [lia..|].
  change (65536 - 2 ^ 0) with (BITMASK 16) in E. change (2 ^ 0) with 1 in E. rewrite E.
  split; [done|]. revert E. generalize 16%nat, 1, (BITMASK 16).
  intros fuel. induction fuel as [|fuel IH]; intros b bm E; cbn [buffer_size Nat.add] in *.
  - injection E as -> ->. destruct k; cbn [buffer_size]; [done|]. by replace (2 ^ j <? modulo) with false by lia.
  - destruct (b <? modulo); [by apply IH|done].
Qed.

Lemma skip_forward_finishes k fuel b r m : 1 <= b → m <= Z.of_nat fuel → -32768 <= m < 32768 →
  snd (skip_forward fuel b r m) <= b ∧ skip_forward (fuel + k) b r m = skip_forward fuel b r m.
Proof.
  intros Hb. revert r m. induction fuel as [|fuel IH]; intros r m Hf Hm; cbn [skip_forward Nat.add].
  - split; [cbn; lia|]. destruct k; cbn [skip_forward]; [done|]. by replace (b <? m) with false by lia.
  - destruct (Z.ltb_spec b m); [|by split]. rewrite (s16_small (m - b)) by lia. apply IH; lia.
Qed.

Lemma skip_backward_finishes k fuel b r m : 1 <= b → - m <= Z.of_nat fuel → -32768 <= m < 32768 →
  - b <= snd (skip_backward fuel b r m) ∧ skip_backward (fuel + k) b r m = skip_backward fuel b r m.
Proof.
  intros Hb. revert r m. induction fuel as [|fuel IH]; intros r m Hf Hm; cbn [skip_backward Nat.add].
  - split; [cbn; lia|]. destruct k; cbn [skip_backward]; [done|]. by replace (m <? - b) with false by lia.
  - destruct (Z.ltb_spec m (- b)); [|by split]. rewrite (s16_small (m + b)) by lia. apply IH; lia.
Qed.

(** the loops of the circular update stop.  For every modulus and every
    16-bit modifier, the three [while] loops are left by their own condition
    within the turns [modulo_value] gives them: the buffer holds the modulus,
    the modifier is at most a buffer size in magnitude, and more turns would
    change nothing. *)
Theorem modulo_loops_finish modulo b r m k :
  1 <= modulo <= 32768 → 1 <= b → -32768 <= m < 32768 →
  (modulo <= fst (buffer_size 16 modulo 1 (BITMASK 16)) ∧
   buffer_size (16 + k) modulo 1 (BITMASK 16) = buffer_size 16 modulo 1 (BITMASK 16)) ∧
  (snd (skip_forward (Z.to_nat m) b r m) <= b ∧
   skip_forward (Z.to_nat m + k) b r m = skip_forward (Z.to_nat m) b r m) ∧
  (- b <= snd (skip_backward (Z.to_nat (- m)) b r m) ∧
   skip_backward (Z.to_nat (- m) + k) b r m = skip_backward (Z.to_nat (- m)) b r m).
Proof.
  intros. split; [by apply buffer_size_finishes|].
  split; [apply skip_forward_finishes|apply skip_backward_finishes]; lia.
Qed.

Lemma modulo_loops_finish_witness :
  snd (skip_forward (Z.to_nat 1000) 32 5 1000) <= 32.
Proof. apply (modulo_loops_finish 20 32 5 1000 0); lia. Defined.
