(* ===== verification/HostSpec.v ===== *)
(** * Correctness of the host port

    The host port as the two programs see it.  The DSP sends with HTX and HTDE
    and the host receives with RXH, RXM, RXL and RXDF: a queue of two words.
    The host sends with TXH, TXM, TXL, TXDE and TRDY and the DSP receives with
    HRX and HRDF.  The theorems show that TRDY always tells the truth, that the
    first direction is a first-in first-out queue, that the second loses
    nothing when the host waits for TRDY, and how the bootstrap loads the
    program memory. *)

From S2P Require Import Prelude Effects Tables DspCore Arith56 Cpu.
From stdpp Require Import base gmap list numbers.
Open Scope Z_scope.
Open Scope c_scope.
Open Scope eff_scope.

(** ** Cells and flags *)

Lemma hp_set_hp_eq i v c : hp i (set_hp i v c) = v.
Proof. apply aget_aset_eq. Qed.
Lemma hp_set_hp_ne i j v c : i ≠ j → hp j (set_hp i v c) = hp j c.
Proof. intros. by apply aget_aset_ne. Qed.
Lemma px_set_px_eq i v c : px i (set_px i v c) = v.
Proof. apply aget_aset_eq. Qed.
Lemma px_set_px_ne i j v c : i ≠ j → px j (set_px i v c) = px j c.
Proof. intros. apply aget_aset_ne. congruence. Qed.
Lemma hp_set_px i j v c : hp j (set_px i v c) = hp j c.
Proof. done. Qed.
Lemma px_set_hp i j v c : px j (set_hp i v c) = px j c.
Proof. done. Qed.

Create Rewrite HintDb port.
#[export] Hint Rewrite hp_set_hp_eq px_set_px_eq hp_set_px px_set_hp : port.
#[export] Hint Rewrite hp_set_hp_ne px_set_px_ne using lia : port.
Ltac port := autorewrite with port.

(** Status bits: of the ISR on the host side, of the HSR on the DSP side. *)
Definition isr (k : Z) (c : dsp_core_t) : bool := Z.testbit (hp CPU_HOST_ISR c) k.
Definition hsr (k : Z) (c : dsp_core_t) : bool := Z.testbit (px DSP_HOST_HSR c) k.

Lemma tst_isr k c : 0 <= k < 32 → tst (hp CPU_HOST_ISR c) (1 << k) = isr k c.
Proof. apply tst_bit. Qed.
Lemma tst_hsr k c : 0 <= k < 32 → tst (px DSP_HOST_HSR c) (1 << k) = hsr k c.
Proof. apply tst_bit. Qed.

Lemma isr_clear k j c : 0 <= k < 8 → 0 <= j < 8 →
  isr j (set_hp CPU_HOST_ISR (hp CPU_HOST_ISR c .& (0xff - (1 << k))) c) = isr j c && negb (j =? k).
Proof.
  intros. unfold isr. port. rewrite clear_bit_spec by lia. ltb_lia. by rewrite andb_true_r.
Qed.
Lemma isr_set k j c : 0 <= k < 8 → 0 <= j < 8 →
  isr j (set_hp CPU_HOST_ISR (u8 (hp CPU_HOST_ISR c .| (1 << k))) c) = isr j c || (j =? k).
Proof.
  intros. unfold isr. port. rewrite u8_bits, set_bit_spec by lia. ltb_lia. by rewrite andb_true_r.
Qed.
Lemma hsr_clear k j c : 0 <= k < 8 → 0 <= j < 8 →
  hsr j (set_px DSP_HOST_HSR (px DSP_HOST_HSR c .& (0xff - (1 << k))) c) = hsr j c && negb (j =? k).
Proof.
  intros. unfold hsr. port. rewrite clear_bit_spec by lia. ltb_lia. by rewrite andb_true_r.
Qed.
Lemma hsr_set k j c : 0 <= k < 8 → 0 <= j < 8 →
  hsr j (set_px DSP_HOST_HSR (px DSP_HOST_HSR c .| (1 << k)) c) = hsr j c || (j =? k).
Proof. intros. unfold hsr. port. by rewrite set_bit_spec by lia. Qed.
Lemma isr_set_px i v j c : isr j (set_px i v c) = isr j c.
Proof. done. Qed.
Lemma hsr_set_hp i v j c : hsr j (set_hp i v c) = hsr j c.
Proof. done. Qed.
Lemma isr_set_hp i v j c : i ≠ CPU_HOST_ISR → isr j (set_hp i v c) = isr j c.
Proof. intros. unfold isr. by port. Qed.
Lemma hsr_set_px i v j c : i ≠ DSP_HOST_HSR → hsr j (set_px i v c) = hsr j c.
Proof. intros. unfold hsr. by port. Qed.
#[export] Hint Rewrite isr_clear isr_set hsr_clear hsr_set isr_set_hp hsr_set_px using lia : port.
#[export] Hint Rewrite isr_set_px hsr_set_hp : port.

(** ** TRDY *)

Lemma isr_update_trdy j c : 0 <= j < 8 →
  isr j (dsp_core_hostport_update_trdy c) =
  if j =? CPU_HOST_ISR_TRDY
  then isr CPU_HOST_ISR_TXDE c && negb (hsr DSP_HOST_HSR_HRDF c) else isr j c.
Proof.
  intros Hj. unfold dsp_core_hostport_update_trdy.
  set (c1 := set_hp CPU_HOST_ISR (hp CPU_HOST_ISR c .& (0xff - (1 << CPU_HOST_ISR_TRDY))) c).
  assert (∀ x, x .& 1 = c_bool (Z.testbit x 0)) as Hb.
  { intros x. rewrite mask_1, Zmod_odd, Z.bit0_odd. by destruct (Z.odd x). }
  rewrite Hb, Z.land_spec, Z.shiftr_spec by done. unfold u32.
  rewrite (Z.mod_pow2_bits_low _ 32) by lia. rewrite Z.lnot_spec, Z.shiftr_spec by done.
  change (Z.testbit (hp CPU_HOST_ISR c1) (0 + 1)) with (isr CPU_HOST_ISR_TXDE c1).
  change (Z.testbit (px DSP_HOST_HSR c1) (0 + 0)) with (hsr DSP_HOST_HSR_HRDF c1).
  assert (isr CPU_HOST_ISR_TXDE c1 = isr CPU_HOST_ISR_TXDE c) as ->.
  { unfold c1. rewrite isr_clear by lia. apply andb_true_r. }
  change (hsr DSP_HOST_HSR_HRDF c1) with (hsr DSP_HOST_HSR_HRDF c).
  assert (isr j c1 = isr j c && negb (j =? CPU_HOST_ISR_TRDY)) as Hc1 by (apply isr_clear; lia).
  destruct (isr CPU_HOST_ISR_TXDE c && negb (hsr DSP_HOST_HSR_HRDF c)).
  - unfold c_bool. change (Z.shiftl 1 CPU_HOST_ISR_TRDY mod 4294967296) with (1 << CPU_HOST_ISR_TRDY).
    rewrite isr_set, Hc1 by lia. by destruct (j =? 2), (isr j c).
  - unfold isr at 1. port. rewrite u8_bits by lia. change (Z.shiftl (c_bool false) 2 mod 4294967296) with 0.
    rewrite Z.lor_0_r. fold (isr j c1). rewrite Hc1. ltb_lia. by destruct (j =? 2), (isr j c).
Qed.

Lemma hp_update_trdy i c : i ≠ CPU_HOST_ISR → hp i (dsp_core_hostport_update_trdy c) = hp i c.
Proof. intros. unfold dsp_core_hostport_update_trdy. cbv zeta. by port. Qed.
Lemma px_update_trdy i c : px i (dsp_core_hostport_update_trdy c) = px i c.
Proof. done. Qed.
Lemma hsr_update_trdy i c : hsr i (dsp_core_hostport_update_trdy c) = hsr i c.
Proof. done. Qed.
#[export] Hint Rewrite isr_update_trdy hp_update_trdy using lia : port.
#[export] Hint Rewrite px_update_trdy hsr_update_trdy : port.

(** ** From the DSP to the host *)

(** The word in the host's receive registers. *)
Definition rx_word (c : dsp_core_t) : Z :=
  hp CPU_HOST_RXH c * 65536 + hp CPU_HOST_RXM c * 256 + hp CPU_HOST_RXL c.

(** The words on their way to the host, the oldest first. *)
Definition to_host (c : dsp_core_t) : list Z :=
  (if isr CPU_HOST_ISR_RXDF c then [rx_word c] else []) ++
  (if hsr DSP_HOST_HSR_HTDE c then [] else [px DSP_HOST_HTX c]).

(** A word waits in HTX only behind a word in the receive registers. *)
Definition to_host_ok (c : dsp_core_t) : Prop :=
  (isr CPU_HOST_ISR_RXDF c = false → hsr DSP_HOST_HSR_HTDE c = true) ∧
  (hsr DSP_HOST_HSR_HTDE c = false → 0 <= px DSP_HOST_HTX c < 16777216).

Lemma bytes_of_word w : 0 <= w < 16777216 →
  u8 (w >> 16) * 65536 + u8 (w >> 8) * 256 + u8 w = w.
Proof. intros. carith. unfold u8. zdiv_lia. Qed.

(** The transfer between the two registers is invisible. *)
Lemma dsp2host_spec c :
  (hsr DSP_HOST_HSR_HTDE c = false → 0 <= px DSP_HOST_HTX c < 16777216) →
  to_host (dsp_core_dsp2host c) = to_host c ∧ to_host_ok (dsp_core_dsp2host c).
Proof.
  intros Hw. unfold dsp_core_dsp2host. rewrite tst_isr, tst_hsr by lia.
  destruct (isr CPU_HOST_ISR_RXDF c) eqn:ER; [by split; [|split; [congruence|exact Hw]]|].
  destruct (hsr DSP_HOST_HSR_HTDE c) eqn:EH; [by split; [|split; [|congruence]]|].
  unfold to_host_ok, to_host, rx_word. cbv zeta. port. rewrite ER, EH. cbn [orb app].
  split; [|by split]. change (0 =? 0) with true. change (1 =? 1) with true. cbn [app].
  by rewrite bytes_of_word by auto.
Qed.

(** A DSP write to HTX when it is empty appends to the queue. *)
Lemma dspwrite_spec v c : to_host_ok c → hsr DSP_HOST_HSR_HTDE c = true → 0 <= v < 16777216 →
  let c' := dsp_core_hostport_dspwrite (set_px DSP_HOST_HTX v c) in
  to_host c' = to_host c ++ [v] ∧ to_host_ok c'.
Proof.
  intros [H1 H2] HE Hv c'. unfold c', dsp_core_hostport_dspwrite. cbv zeta.
  set (c1 := set_px DSP_HOST_HSR _ _).
  assert (px DSP_HOST_HTX c1 = v) as Ex by (unfold c1; by port).
  assert (hsr DSP_HOST_HSR_HTDE c1 = false) as Eh.
  { unfold c1. rewrite px_set_px_ne by lia. 
    rewrite <-(px_set_px_ne DSP_HOST_HTX DSP_HOST_HSR v c) by lia. rewrite hsr_clear by lia.
    apply andb_false_r. }
  destruct (dsp2host_spec c1) as [-> ?]; [by rewrite Ex|]. split; [|done].
  unfold to_host. rewrite Ex, Eh, HE, app_nil_r. done.
Qed.

(** Reading RXL when a word is there removes it. *)
Lemma cpuread_spec c : to_host_ok c → isr CPU_HOST_ISR_RXDF c = true →
  let c' := dsp_core_hostport_cpuread c in
  to_host c = rx_word c :: to_host c' ∧ to_host_ok c'.
Proof.
  intros [H1 H2] HR c'. unfold c', dsp_core_hostport_cpuread. cbv zeta.
  set (c1 := set_hp CPU_HOST_ISR _ c).
  destruct (dsp2host_spec c1) as [-> ?]; [done|]. split; [|done].
  unfold to_host. rewrite HR. unfold c1 at 1. rewrite isr_clear by lia.
  change (0 =? 0) with true. by rewrite andb_false_r.
Qed.

(** ** Running the host port functions without interference *)

Section Alone.
Context (h : sdl_call → Z).

Lemma alone_lock c : alone h lockMutex c = Ok tt c.
Proof. unfold alone, lockMutex. by destruct (thread_ops c). Qed.
Lemma alone_unlock c : alone h unlockMutex c = Ok tt c.
Proof. unfold alone, unlockMutex. by destruct (thread_ops c). Qed.
Lemma alone_pause c : alone h pauseThread c = Ok tt c.
Proof. unfold alone, pauseThread. by destruct (thread_ops c). Qed.
Lemma alone_resume c : alone h resumeThread c = Ok tt c.
Proof.
  unfold alone, resumeThread. destruct (thread_ops c); [done|]. cbn.
  by destruct (h SDL_SemValue =? 0).
Qed.
#[local] Hint Rewrite alone_lock alone_unlock alone_resume : eff.

Lemma alone_ld_hostport addr c : 0 <= addr < 8 → alone h (ld_hostport addr) c = Ok (hp addr c) c.
Proof. intros. unfold ld_hostport, in_range. by replace ((0 <=? addr) && (addr <? 8)) with true by lia. Qed.

(** A byte read by the host. *)
Lemma alone_read_host addr c : 0 <= addr < 8 →
  alone h (dsp_core_read_host addr) c =
  Ok (hp addr c) (if addr =? CPU_HOST_RXL then dsp_core_hostport_cpuread c else c).
Proof.
  intros. unfold dsp_core_read_host. eff.
  rewrite alone_ld_hostport by done. eff.
  destruct (addr =? CPU_HOST_RXL); by eff.
Qed.

(** A word written by the DSP to X:$FFEB. *)
Lemma alone_write_htx v c : 0 <= v < 16777216 →
  alone h (core_write_memory_raw DSP_SPACE_X (0xffc0 + DSP_HOST_HTX) v) c =
  Ok tt (dsp_core_hostport_dspwrite (set_px DSP_HOST_HTX v c)).
Proof.
  intros Hv. unfold core_write_memory_raw. change (u16 (0xffc0 + DSP_HOST_HTX)) with 0xffeb.
  rewrite mask_24, Z.mod_small by done. cbn [Z.ltb Z.compare Pos.compare Pos.compare_cont Z.eqb].
  eff. rewrite andb_false_r. cbn. 
  unfold write_periph_x. change (65515 - 65472 =? 43) with true. by eff.
Qed.

(** A word read by the DSP from X:$FFEB. *)
Lemma alone_read_hrx c :
  alone h (core_read_memory DSP_SPACE_X (0xffc0 + DSP_HOST_HRX)) c =
  Ok (px DSP_HOST_HRX (dsp_core_hostport_dspread c) .& BITMASK 24) (dsp_core_hostport_dspread c).
Proof.
  unfold core_read_memory. change (u16 (0xffc0 + DSP_HOST_HRX)) with 0xffeb.
  change (0xffeb <? 0x100) with false. change (DSP_SPACE_X =? DSP_SPACE_P) with false.
  eff. change (0xffeb <? 0x200) with false. rewrite andb_false_r.
  change (0xffc0 <=? 0xffeb) with true. change (0xffeb =? 0xffc0 + DSP_HOST_HRX) with true.
  unfold ld2. change (in_range 0 2 DSP_SPACE_X && in_range 0 64 (0xffeb - 0xffc0)) with true.
  change ((DSP_SPACE_X =? DSP_SPACE_X) && true) with true. by eff.
Qed.
End Alone.
#[export] Hint Rewrite alone_lock alone_unlock alone_resume alone_pause : eff.

(** ** Traffic towards the host *)

(** What the two programs do: the DSP writes HTX after it saw HTDE set, the host
    reads RXH, RXM and RXL after it saw RXDF set.  A step carries the words sent
    and the words received. *)
Inductive to_host_step (h : sdl_call → Z) :
    dsp_core_t → list Z → list Z → dsp_core_t → Prop :=
  | dsp_sends c v c' :
      hsr DSP_HOST_HSR_HTDE c = true → 0 <= v < 16777216 →
      alone h (core_write_memory_raw DSP_SPACE_X (0xffc0 + DSP_HOST_HTX) v) c = Ok tt c' →
      to_host_step h c [v] [] c'
  | host_receives c b2 b1 b0 c1 c2 c' :
      isr CPU_HOST_ISR_RXDF c = true →
      alone h (dsp_core_read_host CPU_HOST_RXH) c = Ok b2 c1 →
      alone h (dsp_core_read_host CPU_HOST_RXM) c1 = Ok b1 c2 →
      alone h (dsp_core_read_host CPU_HOST_RXL) c2 = Ok b0 c' →
      to_host_step h c [] [b2 * 65536 + b1 * 256 + b0] c'.

(** Sequences of steps of a relation that carries sent and received words. *)
Inductive traffic (step : dsp_core_t → list Z → list Z → dsp_core_t → Prop) :
    dsp_core_t → list Z → list Z → dsp_core_t → Prop :=
  | traffic_nil c : traffic step c [] [] c
  | traffic_cons c s r c1 ss rs c2 :
      step c s r c1 → traffic step c1 ss rs c2 → traffic step c (s ++ ss) (r ++ rs) c2.

(** A step relation that keeps an invariant and moves the words of a queue. *)
Definition moves_queue (step : dsp_core_t → list Z → list Z → dsp_core_t → Prop)
    (ok : dsp_core_t → Prop) (queue : dsp_core_t → list Z) : Prop :=
  ∀ c s r c', ok c → step c s r c' → ok c' ∧ queue c ++ s = r ++ queue c'.

Lemma traffic_fifo step ok queue c ss rs c' : moves_queue step ok queue →
  ok c → traffic step c ss rs c' → ok c' ∧ queue c ++ ss = rs ++ queue c'.
Proof.
  intros Hq Hok Ht. induction Ht as [c|c s r c1 ss rs c2 Hs Ht IH].
  - by rewrite app_nil_r.
  - destruct (Hq _ _ _ _ Hok Hs) as [Hok1 E1]. destruct (IH Hok1) as [Hok2 E2].
    split; [done|]. by rewrite app_assoc, E1, <-app_assoc, E2, app_assoc.
Qed.

Lemma to_host_step_moves h : moves_queue (to_host_step h) to_host_ok to_host.
Proof.
  intros c s r c' Hok Hstep. destruct Hstep as [c v c' HE Hv Hw|c b2 b1 b0 c1 c2 c' HR H2 H1 H0].
  - rewrite alone_write_htx in Hw by done. injection Hw as <-.
    destruct (dspwrite_spec v c Hok HE Hv) as [-> ?]. by split.
  - rewrite alone_read_host in H2 by lia. injection H2 as <- <-.
    rewrite alone_read_host in H1 by lia. injection H1 as <- <-.
    rewrite alone_read_host in H0 by lia. injection H0 as <- <-.
    destruct (cpuread_spec c Hok HR) as [E ?]. split; [done|]. by rewrite app_nil_r, E.
Qed.

(** ** From the host to the DSP *)

(** TRDY is set exactly when both registers of this direction are empty. *)
Definition trdy_ok (c : dsp_core_t) : Prop :=
  isr CPU_HOST_ISR_TRDY c = isr CPU_HOST_ISR_TXDE c && negb (hsr DSP_HOST_HSR_HRDF c).

(** The word in HRX, when the host never writes before TRDY. *)
Definition from_host (c : dsp_core_t) : list Z :=
  if hsr DSP_HOST_HSR_HRDF c then [px DSP_HOST_HRX c] else [].

Definition from_host_ok (c : dsp_core_t) : Prop :=
  trdy_ok c ∧ isr CPU_HOST_ISR_TXDE c = true ∧ running c ≠ 0 ∧
  (hsr DSP_HOST_HSR_HRDF c = true → 0 <= px DSP_HOST_HRX c < 16777216).

(** The transfer of a word, when the transmit registers are full and HRX empty. *)
Lemma host2dsp_full c : isr CPU_HOST_ISR_TXDE c = false → hsr DSP_HOST_HSR_HRDF c = false →
  let c' := dsp_core_host2dsp c in
  px DSP_HOST_HRX c' = hp CPU_HOST_TXL c .| (hp CPU_HOST_TXM c << 8) .| (hp CPU_HOST_TXH c << 16) ∧
  hsr DSP_HOST_HSR_HRDF c' = true ∧ isr CPU_HOST_ISR_TXDE c' = true ∧ trdy_ok c' ∧
  running c' = running c.
Proof.
  intros HT HH c'. unfold c', dsp_core_host2dsp. rewrite tst_isr, tst_hsr, HT, HH by lia. cbv zeta.
  unfold trdy_ok. port. rewrite HT, HH. cbn. done.
Qed.

Lemma host2dsp_other c : isr CPU_HOST_ISR_TXDE c = true ∨ hsr DSP_HOST_HSR_HRDF c = true →
  dsp_core_host2dsp c = c.
Proof.
  intros H. unfold dsp_core_host2dsp. rewrite tst_isr, tst_hsr by lia.
  destruct (isr CPU_HOST_ISR_TXDE c), (hsr DSP_HOST_HSR_HRDF c); by try destruct H.
Qed.

Lemma host2dsp_trdy c : trdy_ok c → trdy_ok (dsp_core_host2dsp c).
Proof.
  intros H. destruct (isr CPU_HOST_ISR_TXDE c) eqn:E1; [by rewrite host2dsp_other by auto|].
  destruct (hsr DSP_HOST_HSR_HRDF c) eqn:E2; [by rewrite host2dsp_other by auto|].
  by destruct (host2dsp_full c E1 E2) as (_ & _ & _ & ? & _).
Qed.

Lemma trdy_update c : trdy_ok (dsp_core_hostport_update_trdy c).
Proof. unfold trdy_ok. by port. Qed.

Lemma word_of_bytes b2 b1 b0 : 0 <= b2 < 256 → 0 <= b1 < 256 → 0 <= b0 < 256 →
  b0 .| (b1 << 8) .| (b2 << 16) = b2 * 65536 + b1 * 256 + b0.
Proof.
  intros. carith. rewrite !u32_small by lia. rewrite (Z.lor_comm b0).
  pose proof (lor_disjoint_add b1 b0 8) as E1. change (2 ^ 8) with 256 in E1. rewrite E1 by lia.
  rewrite Z.lor_comm. pose proof (lor_disjoint_add b2 (b1 * 256 + b0) 16) as E2.
  change (2 ^ 16) with 65536 in E2. rewrite E2 by lia. lia.
Qed.

(** Clearing one status bit, then recomputing TRDY and moving a word if possible. *)
Lemma dspread_one c : isr CPU_HOST_ISR_TXDE c = true →
  let c' := dsp_core_hostport_dspread c in
  px DSP_HOST_HRX c' = px DSP_HOST_HRX c ∧ hsr DSP_HOST_HSR_HRDF c' = false ∧
  isr CPU_HOST_ISR_TXDE c' = true ∧ trdy_ok c' ∧ running c' = running c.
Proof.
  intros HT c'. unfold c', dsp_core_hostport_dspread. cbv zeta. rewrite host2dsp_other.
  - port. rewrite HT. split; [done|]. split; [by rewrite andb_false_r|]. split; [done|].
    split; [apply trdy_update|done].
  - left. by port.
Qed.

Lemma cpuwrite_empty c : hsr DSP_HOST_HSR_HRDF c = false →
  let c' := dsp_core_hostport_cpuwrite c in
  px DSP_HOST_HRX c' = hp CPU_HOST_TXL c .| (hp CPU_HOST_TXM c << 8) .| (hp CPU_HOST_TXH c << 16) ∧
  hsr DSP_HOST_HSR_HRDF c' = true ∧ isr CPU_HOST_ISR_TXDE c' = true ∧ trdy_ok c' ∧
  running c' = running c.
Proof.
  intros HH c'. unfold c', dsp_core_hostport_cpuwrite. cbv zeta.
  set (c1 := dsp_core_hostport_update_trdy _).
  assert (∀ i, i ≠ CPU_HOST_ISR → hp i c1 = hp i c) as Hhp by (intros; unfold c1; by port).
  destruct (host2dsp_full c1) as (E & H); [unfold c1; port; apply andb_false_r|done|].
  rewrite E, !Hhp by lia. done.
Qed.

Section Alone2.
Context (h : sdl_call → Z).

(** A byte of a transmit register written by the host, while the DSP runs. *)
Lemma alone_write_tx addr v c : addr = CPU_HOST_TXH ∨ addr = CPU_HOST_TXM →
  alone h (dsp_core_write_host addr v) c = Ok tt (set_hp addr (u8 v) c).
Proof.
  intros H. unfold dsp_core_write_host, write_host_switch. destruct H as [-> | ->];
    cbn [Z.eqb Pos.eqb orb]; by eff.
Qed.

Lemma alone_write_txl v c : running c ≠ 0 →
  alone h (dsp_core_write_host CPU_HOST_TXL v) c =
  Ok tt (dsp_core_hostport_cpuwrite (set_hp CPU_HOST_TXL (u8 v) c)).
Proof.
  intros H. unfold dsp_core_write_host, write_host_switch.
  cbn [Z.eqb Pos.eqb orb]. unfold write_host_txl. eff.
  change (running (set_hp CPU_HOST_TXL (u8 v) c)) with (running c).
  rewrite (proj2 (Z.eqb_neq _ 0)) by done. by eff.
Qed.
End Alone2.

(** What the two programs do in this direction: the host writes TXH, TXM and TXL
    after it saw TRDY set, the DSP reads HRX after it saw HRDF set. *)
Inductive from_host_step (h : sdl_call → Z) :
    dsp_core_t → list Z → list Z → dsp_core_t → Prop :=
  | host_sends c b2 b1 b0 c1 c2 c' :
      isr CPU_HOST_ISR_TRDY c = true → 0 <= b2 < 256 → 0 <= b1 < 256 → 0 <= b0 < 256 →
      alone h (dsp_core_write_host CPU_HOST_TXH b2) c = Ok tt c1 →
      alone h (dsp_core_write_host CPU_HOST_TXM b1) c1 = Ok tt c2 →
      alone h (dsp_core_write_host CPU_HOST_TXL b0) c2 = Ok tt c' →
      from_host_step h c [b2 * 65536 + b1 * 256 + b0] [] c'
  | dsp_receives c v c' :
      hsr DSP_HOST_HSR_HRDF c = true →
      alone h (core_read_memory DSP_SPACE_X (0xffc0 + DSP_HOST_HRX)) c = Ok v c' →
      from_host_step h c [] [v] c'.

Lemma from_host_step_moves h : moves_queue (from_host_step h) from_host_ok from_host.
Proof.
  intros c s r c' (Htrdy & HT & Hrun & Hw) Hstep. unfold from_host, from_host_ok.
  destruct Hstep as [c b2 b1 b0 c1 c2 c' HR H2 H1 H0 E2 E1 E0|c v c' HR E].
  - rewrite alone_write_tx in E2 by auto. injection E2 as <-.
    rewrite alone_write_tx in E1 by auto. injection E1 as <-.
    rewrite alone_write_txl in E0 by done. injection E0 as <-.
    unfold trdy_ok in Htrdy. rewrite HR, HT in Htrdy. cbn [andb] in Htrdy. symmetry in Htrdy.
    apply negb_true_iff in Htrdy.
    set (c3 := set_hp CPU_HOST_TXL (u8 b0) _).
    assert (hp CPU_HOST_TXL c3 = b0 ∧ hp CPU_HOST_TXM c3 = b1 ∧ hp CPU_HOST_TXH c3 = b2)
      as (B0 & B1 & B2) by (unfold c3; port; by rewrite !u8_small).
    destruct (cpuwrite_empty c3) as (Ex & Hh & Ht & Hok & Hr); [done|].
    rewrite B0, B1, B2, word_of_bytes in Ex by done.
    rewrite Hh, Ht, Hr, Ex, Htrdy. split; [|done]. repeat split; try done; lia.
  - rewrite alone_read_hrx in E. injection E as <- <-.
    destruct (dspread_one c HT) as (Ex & Hh & Ht & Hok & Hr). rewrite Hh, Ht, Hr, Ex, HR.
    carith. rewrite Z.mod_small by auto. split; [|done]. by repeat split.
Qed.

(** ** TRDY is an invariant of the host port *)

(** Steps that leave the three status bits TRDY depends on. *)
Lemma trdy_frame c c' :
  hp CPU_HOST_ISR c' = hp CPU_HOST_ISR c → px DSP_HOST_HSR c' = px DSP_HOST_HSR c →
  trdy_ok c → trdy_ok c'.
Proof. unfold trdy_ok, isr, hsr. by intros -> ->. Qed.

Lemma dsp2host_trdy c : trdy_ok c → trdy_ok (dsp_core_dsp2host c).
Proof.
  intros H. unfold dsp_core_dsp2host. rewrite tst_isr, tst_hsr by lia.
  destruct (isr CPU_HOST_ISR_RXDF c); [done|]. destruct (hsr DSP_HOST_HSR_HTDE c); [done|].
  unfold trdy_ok in *. cbv zeta. port. cbn [Z.eqb Pos.eqb]. by rewrite !orb_false_r.
Qed.

Lemma dspwrite_trdy c : trdy_ok c → trdy_ok (dsp_core_hostport_dspwrite c).
Proof.
  intros H. apply dsp2host_trdy. unfold trdy_ok in *. port. cbn [Z.eqb Pos.eqb negb]. by rewrite andb_true_r.
Qed.
Lemma cpuread_trdy c : trdy_ok c → trdy_ok (dsp_core_hostport_cpuread c).
Proof.
  intros H. apply dsp2host_trdy. unfold trdy_ok in *. port. cbn [Z.eqb Pos.eqb negb]. by rewrite !andb_true_r.
Qed.
Lemma dspread_trdy c : trdy_ok (dsp_core_hostport_dspread c).
Proof. apply host2dsp_trdy, trdy_update. Qed.
Lemma cpuwrite_trdy c : trdy_ok (dsp_core_hostport_cpuwrite c).
Proof. apply host2dsp_trdy, trdy_update. Qed.

(** The host flags are copied without touching the other bits. *)
Lemma write_hcr_trdy v c : trdy_ok c → trdy_ok (write_hcr v c).
Proof.
  intros H. unfold trdy_ok, write_hcr, isr, hsr in *. cbv zeta. port.
  rewrite !u8_bits, !Z.lor_spec, !Z.land_spec by lia. cbn. by rewrite !andb_false_r, !orb_false_r, !andb_true_r.
Qed.
Lemma write_icr_trdy v c : trdy_ok c → trdy_ok (write_host_icr v c).
Proof.
  intros H. unfold trdy_ok, write_host_icr, isr, hsr in *. cbv zeta. port.
  rewrite !Z.lor_spec, !Z.land_spec by lia. cbn. by rewrite !andb_false_r, !orb_false_r, !andb_true_r.
Qed.

(** Every access to the host port, from either side, keeps TRDY truthful. *)
Section Trdy.
Abbreviation keeps_trdy m := (keeps (inv_protocol trdy_ok (λ _, True)) m any).

Lemma read_host_trdy addr : keeps_trdy (dsp_core_read_host addr).
Proof. unfold dsp_core_read_host, ld_hostport. keeps. by apply cpuread_trdy. Qed.

(** Assignments outside the two status registers. *)
Lemma set_hp_trdy i v c : i ≠ CPU_HOST_ISR → trdy_ok c → trdy_ok (set_hp i v c).
Proof. intros. apply trdy_frame with c; [by port|done..]. Qed.
Lemma set_px_trdy i v c : i ≠ DSP_HOST_HSR → trdy_ok c → trdy_ok (set_px i v c).
Proof. intros. apply trdy_frame with c; [done|by port|done]. Qed.
Lemma set_hcp_trdy c : trdy_ok c →
  trdy_ok (set_px DSP_HOST_HSR (px DSP_HOST_HSR c .| (1 << DSP_HOST_HSR_HCP)) c).
Proof. unfold trdy_ok. intros H. port. cbn [Z.eqb]. by rewrite orb_false_r. Qed.

Lemma bootstrap_store_trdy : keeps_trdy bootstrap_store.
Proof. intros c Hc. unfold wp, bootstrap_store. by destruct (in_range _ _ _). Qed.
Hint Resolve bootstrap_store_trdy : keeps.

Lemma write_host_trdy addr v : keeps_trdy (dsp_core_write_host addr v).
Proof.
  unfold dsp_core_write_host, write_host_switch, write_host_txl. keeps;
    auto using set_hp_trdy, set_hcp_trdy, write_icr_trdy, cpuwrite_trdy.
  apply set_hp_trdy; [lia|done].
Qed.

Lemma read_memory_trdy space address : keeps_trdy (core_read_memory space address).
Proof. unfold core_read_memory, ld2. keeps. apply dspread_trdy. Qed.

Lemma write_memory_trdy space address v : keeps_trdy (core_write_memory_raw space address v).
Proof.
  unfold core_write_memory_raw, write_periph_x, write_external, st_ramint, st_periph, st_ram.
  keeps; try (by apply (trdy_frame s)).
  - by apply set_px_trdy.
  - by apply dspwrite_trdy.
  - by apply write_hcr_trdy.
  - apply set_px_trdy; [lia|done].
  - apply (trdy_frame s); [done| |done]. by apply aget_aset_ne.
Qed.

End Trdy.

(** The status registers after a reset. *)
Lemma hp_set_loop_rep i v c : hp i (set_loop_rep v c) = hp i c.
Proof. done. Qed.
Lemma px_set_loop_rep i v c : px i (set_loop_rep v c) = px i c.
Proof. done. Qed.
Lemma reset_isr c : hp CPU_HOST_ISR (reset_state c) = 6.
Proof. unfold reset_state. rewrite hp_set_loop_rep. by port. Qed.
Lemma reset_hsr c : px DSP_HOST_HSR (reset_state c) = 2.
Proof. unfold reset_state. rewrite px_set_loop_rep. by port. Qed.
Lemma reset_trdy c : trdy_ok (reset_state c).
Proof. unfold trdy_ok, isr, hsr. by rewrite reset_isr, reset_hsr. Qed.

(** ** Bootstrap *)

(** The host sends the words of a program while the DSP is stopped. *)
Fixpoint host_sends_words (l : list Z) : K unit :=
  match l with
  | [] => ret tt
  | w :: l =>
      dsp_core_write_host CPU_HOST_TXH (w >> 16) ;;
      dsp_core_write_host CPU_HOST_TXM (w >> 8) ;;
      dsp_core_write_host CPU_HOST_TXL w ;;
      host_sends_words l
  end.

(** One word arriving at the stopped DSP. *)
Definition boot_word (w : Z) (c : dsp_core_t) : dsp_core_t :=
  let c := set_hp CPU_HOST_TXL (u8 w)
    (set_hp CPU_HOST_TXM (u8 (w >> 8)) (set_hp CPU_HOST_TXH (u8 (w >> 16)) c)) in
  let c := set_ramint (aset (DSP_SPACE_P, bootstrap_pos c) w (ramint c)) c in
  let c := set_bootstrap_pos (bootstrap_pos c + 1) c in
  if bootstrap_pos c =? 0x200 then set_running 1 c else c.

Section Bootstrap.
Context (h : sdl_call → Z).

Lemma alone_boot_word w c : running c = 0 → 0 <= bootstrap_pos c < 512 → 0 <= w < 16777216 →
  alone h (host_sends_words [w]) c = Ok tt (boot_word w c).
Proof.
  intros Hr Hp Hw. cbn [host_sends_words]. eff. rewrite alone_write_tx by auto. eff.
  rewrite alone_write_tx by auto. eff. unfold dsp_core_write_host, write_host_switch.
  cbn [Z.eqb Pos.eqb orb]. unfold write_host_txl. eff.
  set (c1 := set_hp CPU_HOST_TXL _ _). change (running c1) with (running c). rewrite Hr.
  change (0 =? 0) with true. cbv iota. eff.
  assert (alone h bootstrap_store c1 =
    Ok tt (set_ramint (aset (DSP_SPACE_P, bootstrap_pos c) w (ramint c)) c1)) as ->.
  { unfold alone, bootstrap_store. change (bootstrap_pos c1) with (bootstrap_pos c).
    unfold in_range. replace ((0 <=? bootstrap_pos c) && (bootstrap_pos c <? 512)) with true by lia.
    cbn [oalone]. do 3 f_equal. unfold c1. port.
    rewrite (Z.lor_comm (_ << 16)), (Z.lor_comm _ (u8 w)), Z.lor_assoc by done.
    rewrite word_of_bytes by apply u8_range. by rewrite bytes_of_word. }
  eff. unfold boot_word. cbv zeta. fold c1.
  change (bootstrap_pos c1) with (bootstrap_pos c). change (ramint c1) with (ramint c).
  set (c2 := set_ramint _ c1). change (bootstrap_pos c2) with (bootstrap_pos c).
  rewrite (u16_small (bootstrap_pos c + 1)) by lia.
  set (c3 := set_bootstrap_pos _ c2). destruct (bootstrap_pos c3 =? 512); by eff.
Qed.

Lemma alone_boot_cons w l c :
  alone h (host_sends_words (w :: l)) c =
  match alone h (host_sends_words [w]) c with
  | Ok _ c' => alone h (host_sends_words l) c'
  | Err e => Err e
  end.
Proof. cbn [host_sends_words]. eff. repeat (case_match; eff; try done). Qed.

Lemma boot_word_fields w c : running c = 0 →
  bootstrap_pos (boot_word w c) = bootstrap_pos c + 1 ∧
  ramint (boot_word w c) = aset (DSP_SPACE_P, bootstrap_pos c) w (ramint c) ∧
  running (boot_word w c) = if bootstrap_pos c + 1 =? 512 then 1 else 0.
Proof.
  intros Hr. unfold boot_word. cbv zeta.
  set (c1 := set_hp CPU_HOST_TXL _ _). change (bootstrap_pos c1) with (bootstrap_pos c).
  change (ramint c1) with (ramint c).
  set (c2 := set_ramint _ c1). change (bootstrap_pos c2) with (bootstrap_pos c).
  set (c3 := set_bootstrap_pos _ c2). change (bootstrap_pos c3) with (bootstrap_pos c + 1).
  destruct (bootstrap_pos c + 1 =? 512); [done|]. by split; [|split].
Qed.

Lemma boot_words l c : l ≠ [] → running c = 0 → 0 <= bootstrap_pos c →
  bootstrap_pos c + Z.of_nat (length l) = 512 → Forall (λ w, 0 <= w < 16777216) l →
  ∃ c', alone h (host_sends_words l) c = Ok tt c' ∧ running c' = 1 ∧
    (∀ i w, l !! i = Some w → aget (ramint c') (DSP_SPACE_P, bootstrap_pos c + Z.of_nat i) = w) ∧
    (∀ k, k.1 ≠ DSP_SPACE_P ∨ k.2 < bootstrap_pos c → aget (ramint c') k = aget (ramint c) k).
Proof.
  revert c. induction l as [|w l IH]; intros c Hl Hr Hp Hlen Hw; [done|].
  inversion_clear Hw as [|? ? Hw1 Hws]. cbn [length] in Hlen. rewrite Nat2Z.inj_succ in Hlen.
  rewrite alone_boot_cons, alone_boot_word by (done || lia).
  destruct (boot_word_fields w c Hr) as (Ep & Er & Erun).
  destruct (decide (l = [])) as [-> |Hne].
  - exists (boot_word w c). cbn [length] in Hlen. split; [done|]. rewrite Erun, Er.
    replace (bootstrap_pos c + 1 =? 512) with true by lia. split; [done|]. split.
    + intros [|i] w' E; [|done]. injection E as <-. rewrite Z.add_0_r. apply aget_aset_eq.
    + intros [k1 k2] Hk. apply aget_aset_ne. intros [= ? ?]. cbn in Hk. lia.
  - assert (Z.of_nat (length l) ≠ 0) by (destruct l; [done|cbn; lia]).
    destruct (IH (boot_word w c)) as (c' & E & Hrun & Hin & Hout); try done; try (rewrite ?Ep; lia).
    { rewrite Erun. by replace (bootstrap_pos c + 1 =? 512) with false by lia. }
    exists c'. split; [done|]. split; [done|]. rewrite Ep, Er in *. split.
    + intros [|i] w' Ei.
      * injection Ei as <-. rewrite Z.add_0_r, Hout by (right; cbn; lia). apply aget_aset_eq.
      * rewrite <-(Hin i w' Ei). do 2 f_equal. lia.
    + intros k Hk. rewrite Hout by (destruct Hk; [by left|right; lia]).
      apply aget_aset_ne. intros <-. cbn in Hk. lia.
Qed.
End Bootstrap.

(** ** The theorems *)

(** C13: DSP to host, a first-in first-out queue.  Whatever the interleaving of
    the DSP's writes to HTX (each after seeing HTDE) and of the host's reads of
    RXH, RXM and RXL (each after seeing RXDF), the words received are exactly
    the words sent, in order: what was waiting plus what was sent is what was
    received plus what still waits.  At most two words wait, and a word that
    waits is announced by RXDF. *)
Theorem to_host_fifo h c sent received c' :
  to_host_ok c → traffic (to_host_step h) c sent received c' →
  to_host c ++ sent = received ++ to_host c' ∧ (length (to_host c') <= 2)%nat ∧
  (to_host c' ≠ [] → isr CPU_HOST_ISR_RXDF c' = true).
Proof.
  intros Hok Ht.
  destruct (traffic_fifo _ _ _ _ _ _ _ (to_host_step_moves h) Hok Ht) as [[H1 _] E].
  split; [done|]. unfold to_host.
  destruct (isr CPU_HOST_ISR_RXDF c'), (hsr DSP_HOST_HSR_HTDE c'); cbn; repeat split; try lia; try done.
Qed.

(** C14: host to DSP, no loss.  When the host sends each word (TXH, TXM, TXL)
    after seeing TRDY, and the DSP reads HRX after seeing HRDF, the DSP receives
    exactly the words sent, in order. *)
Theorem from_host_lossless h c sent received c' :
  from_host_ok c → traffic (from_host_step h) c sent received c' →
  from_host c ++ sent = received ++ from_host c' ∧ from_host_ok c'.
Proof.
  intros Hok Ht.
  destruct (traffic_fifo _ _ _ _ _ _ _ (from_host_step_moves h) Hok Ht) as [? ?]. done.
Qed.

(** TRDY tells the truth.  "TRDY is set iff TXDE is set and HRDF is clear"
    is an invariant of every access to the host port: reads and writes of any
    host register by the host, and reads and writes of any memory location by
    the DSP, with any interference between their SDL calls that itself keeps
    the invariant. *)
Theorem trdy_invariant :
  (∀ addr, keeps (inv_protocol trdy_ok (λ _, True)) (dsp_core_read_host addr) any) ∧
  (∀ addr v, keeps (inv_protocol trdy_ok (λ _, True)) (dsp_core_write_host addr v) any) ∧
  (∀ space address, keeps (inv_protocol trdy_ok (λ _, True)) (core_read_memory space address) any) ∧
  (∀ space address v, keeps (inv_protocol trdy_ok (λ _, True)) (core_write_memory_raw space address v) any) ∧
  (∀ c, trdy_ok (reset_state c)).
Proof.
  split; [exact read_host_trdy|]. split; [exact write_host_trdy|].
  split; [exact read_memory_trdy|]. split; [exact write_memory_trdy|].
  exact reset_trdy.
Qed.

(** bootstrap.  512 words sent by the host to a reset DSP are stored in
    order in the internal program memory; the last one starts the DSP, and no
    other internal memory changes. *)
Theorem bootstrap_loads h l c :
  running c = 0 → bootstrap_pos c = 0 → length l = 512%nat →
  Forall (λ w, 0 <= w < 16777216) l →
  ∃ c', alone h (host_sends_words l) c = Ok tt c' ∧ running c' = 1 ∧
    (∀ i w, l !! i = Some w → read_memory_p (Z.of_nat i) c' = w) ∧
    (∀ k, k.1 ≠ DSP_SPACE_P → aget (ramint c') k = aget (ramint c) k).
Proof.
  intros Hr Hp Hl Hw. destruct (boot_words h l c) as (c' & E & Hrun & Hin & Hout);
    [by intros -> | done | lia | rewrite Hl; lia | done |].
  exists c'. split; [done|]. split; [done|]. rewrite Hp in *. split.
  - intros i w Hi. assert (i < 512)%nat by (rewrite <-Hl; by eapply lookup_lt_Some).
    pose proof (Forall_lookup_1 _ _ _ _ Hw Hi) as Hwi. cbv beta in Hwi.
    unfold read_memory_p. rewrite u16_small by lia. cbv zeta. ltb_lia.
    pose proof (Hin i w Hi) as Hv. rewrite Z.add_0_l in Hv. rewrite Hv. carith. by apply Z.mod_small.
  - intros k Hk. apply Hout. by left.
Qed.

(** *** Examples *)

(** A DSP that was reset and started (its tables of constants left out). *)
Definition started : dsp_core_t := set_running 1 (reset_state (set_thread_ops OpsThread zeroed_core)).
Definition silent (_ : sdl_call) : Z := 0.

(** Drop the result of a run. *)
Definition after {A} (r : res dsp_core_t A) (c : dsp_core_t) : dsp_core_t :=
  match r with Ok _ c' => c' | Err _ => c end.

Definition dsp_send (v : Z) (c : dsp_core_t) : dsp_core_t :=
  after (alone silent (core_write_memory_raw DSP_SPACE_X (0xffc0 + DSP_HOST_HTX) v) c) c.
Definition host_send (v : Z) (c : dsp_core_t) : dsp_core_t :=
  after (alone silent (host_sends_words [v]) c) c.

Lemma to_host_fifo_witness :
  ∃ c', [] ++ [0x112233; 0x445566] = [0x112233] ++ to_host c' ∧ (length (to_host c') <= 2)%nat ∧
        (to_host c' ≠ [] → isr CPU_HOST_ISR_RXDF c' = true).
Proof.
  exists (dsp_core_hostport_cpuread (dsp_send 0x445566 (dsp_send 0x112233 started))).
  apply (to_host_fifo silent started); [by vm_compute|].
  change [0x112233; 0x445566] with ([0x112233] ++ [0x445566] ++ [] ++ ([] : list Z)).
  change [0x112233] with ([] ++ [] ++ [0x112233] ++ ([] : list Z)) at 2.
  eapply traffic_cons; [apply dsp_sends with (c' := dsp_send 0x112233 started);
    [reflexivity|lia|vm_compute; reflexivity]|].
  eapply traffic_cons; [apply dsp_sends with (c' := dsp_send 0x445566 (dsp_send 0x112233 started));
    [vm_compute; reflexivity|lia|vm_compute; reflexivity]|].
  eapply traffic_cons; [|apply traffic_nil].
  set (c := dsp_send 0x445566 _).
  apply (host_receives silent c 0x11 0x22 0x33 c c); [vm_compute; reflexivity|..];
    rewrite alone_read_host by lia; (f_equal; vm_compute; reflexivity).
Defined.

Lemma from_host_lossless_witness :
  [] ++ [0x112233] = [] ++ from_host (host_send 0x112233 started) ∧
  from_host_ok (host_send 0x112233 started).
Proof.
  apply (from_host_lossless silent started); [by vm_compute|].
  apply (traffic_cons (from_host_step silent) started [0x112233] []
    (host_send 0x112233 started) [] []); [|apply traffic_nil].
  apply (host_sends silent started 0x11 0x22 0x33 (set_hp CPU_HOST_TXH 0x11 started)
    (set_hp CPU_HOST_TXM 0x22 (set_hp CPU_HOST_TXH 0x11 started))); try lia; vm_compute; reflexivity.
Defined.

Lemma bootstrap_loads_witness :
  ∃ c', alone silent (host_sends_words (indices 512)) (reset_state zeroed_core) = Ok tt c' ∧
        running c' = 1 ∧ read_memory_p 300 c' = 300.
Proof.
  destruct (bootstrap_loads silent (indices 512) (reset_state zeroed_core))
    as (c' & E & Hr & Hm & _); [reflexivity|reflexivity|reflexivity| |].
  - apply Forall_forall. intros w Hw.
    unfold indices in Hw. apply in_map_iff in Hw as (n & <- & Hn). apply in_seq in Hn. lia.
  - exists c'. split; [exact E|]. split; [exact Hr|]. by apply (Hm 300%nat 300).
Defined.

(** *** Defects *)

(** Two words sent by the host before the DSP reads (it saw TXDE set, which
    announces a free register): the read of HRX moves the second word into HRX
    before it reads it, so that the first is lost and the second read twice. *)
Lemma double_buffer_loses_word :
  let c := host_send 0x000002 (host_send 0x000001 started) in
  isr CPU_HOST_ISR_TXDE (host_send 0x000001 started) = true ∧
  ∃ c1 c2,
    alone silent (core_read_memory DSP_SPACE_X (0xffc0 + DSP_HOST_HRX)) c = Ok 2 c1 ∧
    hsr DSP_HOST_HSR_HRDF c1 = true ∧
    alone silent (core_read_memory DSP_SPACE_X (0xffc0 + DSP_HOST_HRX)) c1 = Ok 2 c2.
Proof.
  set (c := host_send 0x000002 _). split; [vm_compute; reflexivity|].
  exists (dsp_core_hostport_dspread c), (dsp_core_hostport_dspread (dsp_core_hostport_dspread c)).
  rewrite !alone_read_hrx. split; [f_equal; vm_compute; reflexivity|].
  split; [vm_compute; reflexivity|]. f_equal; vm_compute; reflexivity.
Qed.

(** HTX and HRX are one array cell, and so are the receive and the transmit
    bytes of the host: a word of the DSP that waits in HTX is replaced by a
    word the host sends meanwhile. *)
Lemma full_duplex_corrupts :
  let c := dsp_send 0x222222 (dsp_send 0x111111 started) in
  to_host c = [0x111111; 0x222222] ∧ to_host (host_send 0x333333 c) = [0x333333; 0x333333].
Proof. vm_compute. by split. Qed.
