(* ===== verification/Safety.v ===== *)
(** * Memory safety of the interpreter

    No instruction, whatever its 24 bits and whatever the state of the machine,
    makes the interpreter index an array out of its bounds, call through a
    table outside its entries or read the wrong member of the parallel move
    union, with one exception: the hardware stack, whose index registers a
    program can set ([Oob_stack]).  The invariant is what the parallel moves
    leave in [tmp_parmove_*]; it holds at every SDL call, and the other thread
    may change anything as long as it keeps it. *)

From S2P Require Import Prelude Effects Tables DspCore Arith56 Cpu Control ParMove Alu Exec.
From stdpp Require Import base gmap list numbers.
Open Scope Z_scope.
Open Scope c_scope.
Open Scope eff_scope.

(** ** The invariant *)

(** The entries of row [i] between its start and its length: the destination
    has the member its type announces, a register index is in range and a
    memory space is X, Y or P. *)
Definition row_ok (i : Z) (s : cpu_t) : Prop :=
  let len := aget (tmp_parmove_len s) i in
  let start := aget (tmp_parmove_start s) i in
  let ty := aget (tmp_parmove_type s) i in
  ∀ j, start <= j < start + len → 0 <= j < 3 ∧
    match tmp_parmove_dest s !! (i, j) with
    | Some (host_pointer n) => ty = 0 ∧ 0 <= n < 64
    | Some (dsp_address _) => ty ≠ 0 ∧ 0 <= aget (tmp_parmove_space s) i < 2
    | None => False
    end.

Definition rows_ok (s : cpu_t) : Prop := row_ok 0 s ∧ row_ok 1 s.

(** The only fault that can happen. *)
Definition stack_fault (e : fault) : Prop := e = Oob_stack.

(** The other thread (the host) changes [dsp_core] only. *)
Definition host_only (s s' : cpu_t) : Prop := ∃ c, s' = set_core c s.
Definition cpu_protocol (I : cpu_t → Prop) : protocol cpu_t := Protocol I host_only stack_fault.

(** Invariants about the static variables of dsp_cpu.c. *)
Class Static (I : cpu_t → Prop) : Prop := static c s : I s → I (set_core c s).
#[export] Instance cpu_protocol_stable I : Static I → Stable (cpu_protocol I).
Proof. intros HI s s' Hs [c ->]. by apply HI. Qed.
#[export] Instance rows_ok_static : Static rows_ok.
Proof. by intros c s Hs. Qed.

Abbreviation safe m Q := (keeps (cpu_protocol rows_ok) m Q).
Abbreviation safe_core m Q := (keeps (inv_protocol (λ _, True) stack_fault) m Q).

(** ** Index ranges *)

Ltac note_range H :=
  let T := type of H in
  match T with context [2 ^ ?k] =>
    let m := eval vm_compute in (2 ^ k) in change (2 ^ k) with m in H
  end.

(** [fields] records the ranges of the masked fields of a goal; [idx] proves that
    an index built from them is in range. *)
Ltac fields :=
  repeat match goal with
  | |- context [?x .& BITMASK ?k] =>
      lazymatch goal with
      | _ : 0 <= x .& BITMASK k < _ |- _ => fail
      | _ => let H := fresh "Hm" in
             pose proof (land_BITMASK_range x k ltac:(lia)) as H; note_range H
      end
  | |- context [?x .& 1] =>
      lazymatch goal with
      | _ : 0 <= x .& 1 < _ |- _ => fail
      | _ => pose proof (land_range_r x 1 1 ltac:(lia) ltac:(lia) : 0 <= x .& 1 < 2)
      end
  end.

Lemma bit_value_range inst : 0 <= bit_value inst < 64.
Proof. unfold bit_value. fields. lia. Qed.
Lemma bit_reg_range inst : 0 <= bit_reg inst < 64.
Proof. pose proof (bit_value_range inst). unfold bit_reg. destruct (is_accu _); [fields; lia|done]. Qed.
Lemma div_srcreg_range inst : 4 <= div_srcreg inst < 8.
Proof. unfold div_srcreg. repeat case_match; lia. Qed.
Lemma logic_srcreg_range inst : 4 <= logic_srcreg inst < 8.
Proof. unfold logic_srcreg. repeat case_match; lia. Qed.

Ltac idx :=
  try match goal with
  | |- context [bit_reg ?x] => pose proof (bit_reg_range x)
  | |- context [div_srcreg ?x] => pose proof (div_srcreg_range x)
  | |- context [logic_srcreg ?x] => pose proof (logic_srcreg_range x)
  end;
  unfold alu_dest, bit_memspace, bit_value; fields; lia.

(** ** Primitive operations *)

Section Generic.
Context (I : cpu_t → Prop) `{Static I}.

Lemma keeps_on_core {A} (m : K A) : safe_core m any → keeps (cpu_protocol I) (on_core m) any.
Proof.
  intros Hm. apply (keeps_zoom _ (inv_protocol (λ _, True) stack_fault)); try done; [apply _|].
  intros t s Hs _. by apply static.
Qed.
Lemma keeps_mod_core f : keeps (cpu_protocol I) (mod_core f) any.
Proof. apply keeps_modify. intros s Hs. by apply static. Qed.
Lemma keeps_wr n v : 0 <= n < 64 → keeps (cpu_protocol I) (wr n v) any.
Proof.
  intros. unfold wr, in_range. replace ((0 <=? n) && (n <? 64)) with true by lia. apply keeps_mod_core.
Qed.
End Generic.

Lemma safe_rd n : 0 <= n < 64 → safe (rd n) any.
Proof. intros. unfold rd, in_range. replace ((0 <=? n) && (n <? 64)) with true by lia. keeps. Qed.
Lemma safe_wr n v : 0 <= n < 64 → safe (wr n v) any.
Proof. apply keeps_wr, _. Qed.
Lemma safe_upd n f : 0 <= n < 64 → safe (upd n f) any.
Proof. intros. unfold upd. eapply keeps_bind; [by apply safe_rd|]. intros. by apply safe_wr. Qed.
Lemma safe_mod_core f : safe (mod_core f) any.
Proof. apply keeps_mod_core, _. Qed.
Lemma safe_put_pc v : safe (put_pc v) any.
Proof. apply safe_mod_core. Qed.
Lemma safe_put_inst_len v : safe (put_inst_len v) any.
Proof. unfold put_inst_len. by keeps. Qed.
Lemma safe_gets {A} (f : cpu_t → A) : safe (gets f) any.
Proof. by apply keeps_gets. Qed.
Lemma safe_fetch_p a : safe (fetch_p a) any.
Proof. apply safe_gets. Qed.
Lemma safe_on_core {A} (m : K A) : safe_core m any → safe (on_core m) any.
Proof. apply keeps_on_core, _. Qed.
Lemma safe_pause : safe (on_core pauseThread) any.
Proof. apply safe_on_core, keeps_pause, _. Qed.
#[export] Hint Resolve safe_mod_core safe_put_pc safe_put_inst_len safe_gets safe_fetch_p safe_pause : keeps.
#[export] Hint Extern 1 (keeps _ (rd _) _) => (apply safe_rd; idx) : keeps.
#[export] Hint Extern 1 (keeps _ (wr _ _) _) => (apply safe_wr; idx) : keeps.
#[export] Hint Extern 1 (keeps _ (upd _ _) _) => (apply safe_upd; idx) : keeps.
#[export] Hint Extern 1 (keeps _ get_inst _) => (apply safe_gets) : keeps.
#[export] Hint Extern 1 (keeps _ get_pc _) => (apply safe_gets) : keeps.
#[export] Hint Extern 1 (keeps _ get_inst_len _) => (apply safe_gets) : keeps.

(** ** Memory *)

(** An access that the bounds exclude. *)
Ltac oob :=
  exfalso;
  repeat match goal with
  | H : context [?x .& (DSP_RAMSIZE - 1)] |- _ =>
      lazymatch goal with
      | _ : 0 <= x .& (DSP_RAMSIZE - 1) < 32768 |- _ => fail
      | _ => pose proof (land_range_r x (DSP_RAMSIZE - 1) 15 ltac:(lia) ltac:(lia)
                         : 0 <= x .& (DSP_RAMSIZE - 1) < 32768)
      end
  end; unfold in_range in *; lia.

Lemma safe_core_read space address : 0 <= space < 2 →
  safe_core (core_read_memory space address) any.
Proof.
  intros Hs. pose proof (u16_range address). unfold core_read_memory, ld2. keeps; oob.
Qed.

Lemma safe_core_write space address v : 0 <= space < 3 →
  safe_core (core_write_memory_raw space address v) any.
Proof.
  intros Hs. pose proof (u16_range address).
  unfold core_write_memory_raw, write_periph_x, write_external, st_ramint, st_periph, st_ram.
  keeps; try done; oob.
Qed.

Lemma safe_read space address : 0 <= space < 2 → safe (read_memory space address) any.
Proof. intros. by apply safe_on_core, safe_core_read. Qed.
Lemma safe_write space address v : 0 <= space < 3 → safe (write_memory space address v) any.
Proof. intros. by apply safe_on_core, safe_core_write. Qed.
#[export] Hint Extern 1 (keeps _ (read_memory _ _) _) => (apply safe_read; idx) : keeps.
#[export] Hint Extern 1 (keeps _ (write_memory _ _ _) _) =>
  (apply safe_write; idx) : keeps.

(** ** Registers, stack and addresses *)

Lemma safe_rd_accu n : 0 <= n < 2 → safe (rd_accu n) any.
Proof. intros. unfold rd_accu. keeps. Qed.
Lemma safe_wr_accu n d : 0 <= n < 2 → safe (wr_accu n d) any.
Proof. intros. unfold wr_accu. keeps. Qed.
#[export] Hint Extern 1 (keeps _ (rd_accu _) _) => (apply safe_rd_accu; idx) : keeps.
#[export] Hint Extern 1 (keeps _ (wr_accu _ _) _) => (apply safe_wr_accu; idx) : keeps.

(** The stack can be left through SSH and SSL. *)
Lemma safe_st_stack row i v : safe (on_core (st_stack row i v)) any.
Proof. apply safe_on_core. unfold st_stack. keeps; done. Qed.
Lemma safe_ld_stack row i : safe (on_core (ld_stack row i)) any.
Proof. apply safe_on_core. unfold ld_stack, ld2. keeps; done. Qed.
#[export] Hint Resolve safe_st_stack safe_ld_stack : keeps.

Lemma safe_stack_push p sr : safe (dsp_stack_push p sr) any.
Proof. unfold dsp_stack_push. keeps. Qed.
Lemma safe_stack_pop f g : (∀ v, safe (f v) any) → (∀ v, safe (g v) any) → safe (dsp_stack_pop f g) any.
Proof. intros Hf Hg. unfold dsp_stack_pop. keeps; auto. Qed.
Lemma safe_to_local v : safe (to_local v) any.
Proof. by apply keeps_ret. Qed.
Lemma safe_wr_any n : 0 <= n < 64 → ∀ v, safe (wr n v) any.
Proof. intros. by apply safe_wr. Qed.
#[export] Hint Resolve safe_stack_push safe_stack_pop safe_to_local : keeps.

Lemma safe_update_rn numreg d : 0 <= numreg < 8 → safe (dsp_update_rn numreg d) any.
Proof.
  intros. unfold dsp_update_rn, dsp_update_rn_bitreverse, dsp_update_rn_modulo. keeps.
Qed.
#[export] Hint Extern 1 (keeps _ (dsp_update_rn _ _) _) => (apply safe_update_rn; idx) : keeps.

Lemma safe_calc_ea mode : safe (dsp_calc_ea mode) any.
Proof. unfold dsp_calc_ea. keeps. Qed.
Lemma safe_calc_ea_addr mode : safe (calc_ea_addr mode) any.
Proof. unfold calc_ea_addr. eapply keeps_bind; [apply safe_calc_ea|]. intros [? ?] _. keeps. Qed.
#[export] Hint Resolve safe_calc_ea safe_calc_ea_addr : keeps.

Lemma safe_calc_cc cc : safe (dsp_calc_cc cc) any.
Proof. unfold dsp_calc_cc. keeps. Qed.
#[export] Hint Resolve safe_calc_cc : keeps.

Lemma safe_read_accu24 n f : (∀ v, safe (f v) any) → safe (dsp_pm_read_accu24 n f) any.
Proof.
  intros. unfold dsp_pm_read_accu24. keeps; auto.
Qed.
#[export] Hint Resolve safe_read_accu24 : keeps.

(** ** Instructions without parallel moves *)

Lemma safe_load_accu n v : safe (load_accu n v) any.
Proof. unfold load_accu. keeps. Qed.
Lemma safe_read_source n : 0 <= n < 64 → safe (read_source n) any.
Proof. intros. unfold read_source. keeps. Qed.
Lemma safe_set_carry c : safe (set_carry c) any.
Proof. unfold set_carry. keeps. Qed.
Lemma safe_inc_inst_len : safe inc_inst_len any.
Proof. unfold inc_inst_len. keeps. Qed.
Lemma safe_push_return : safe push_return any.
Proof. unfold push_return. keeps. Qed.
#[export] Hint Resolve safe_load_accu safe_set_carry safe_inc_inst_len safe_push_return : keeps.
#[export] Hint Extern 1 (keeps _ (read_source _) _) => (apply safe_read_source; idx) : keeps.

Lemma safe_bit_addr inst : safe (bit_addr inst) any.
Proof. unfold bit_addr. keeps. Qed.
#[export] Hint Resolve safe_bit_addr : keeps.
Lemma safe_bit_instruction f g : safe (bit_instruction f g) any.
Proof. unfold bit_instruction. keeps. Qed.
Lemma safe_btst : safe dsp_btst any.
Proof. unfold dsp_btst. keeps. Qed.
Lemma safe_bit_jump_operand inst : safe (bit_jump_operand inst) any.
Proof. unfold bit_jump_operand. keeps. Qed.
#[export] Hint Resolve safe_bit_instruction safe_btst safe_bit_jump_operand : keeps.
Lemma safe_jclr : safe dsp_jclr any.
Proof. unfold dsp_jclr. keeps. Qed.
Lemma safe_jset : safe dsp_jset any.
Proof. unfold dsp_jset. keeps. Qed.
Lemma safe_bit_jump_sub f : safe (bit_jump_sub f) any.
Proof. unfold bit_jump_sub. keeps. Qed.
Lemma safe_cond_target l sh inst : safe (cond_target l sh inst) any.
Proof. unfold cond_target. keeps. Qed.
#[export] Hint Resolve safe_jclr safe_jset safe_bit_jump_sub safe_cond_target : keeps.
Lemma safe_jcc : safe dsp_jcc any.
Proof. unfold dsp_jcc. keeps. Qed.
Lemma safe_jscc : safe dsp_jscc any.
Proof. unfold dsp_jscc. keeps. Qed.
Lemma safe_jmp : safe dsp_jmp any.
Proof. unfold dsp_jmp. keeps. Qed.
Lemma safe_jsr : safe dsp_jsr any.
Proof. unfold dsp_jsr. keeps. Qed.
Lemma safe_rti : safe dsp_rti any.
Proof. unfold dsp_rti. keeps. Qed.
Lemma safe_rts : safe dsp_rts any.
Proof. unfold dsp_rts. keeps. Qed.
Lemma safe_undefined : safe dsp_undefined any.
Proof. unfold dsp_undefined. keeps. Qed.
Lemma safe_enddo : safe dsp_enddo any.
Proof. unfold dsp_enddo. keeps. Qed.
Lemma safe_andi : safe dsp_andi any.
Proof. unfold dsp_andi. keeps. Qed.
Lemma safe_ori : safe dsp_ori any.
Proof. unfold dsp_ori. keeps. Qed.
Lemma safe_swi : safe dsp_swi any.
Proof. unfold dsp_swi. keeps. Qed.
#[export] Hint Resolve safe_jcc safe_jscc safe_jmp safe_jsr safe_rti safe_rts safe_undefined
  safe_enddo safe_andi safe_ori safe_swi : keeps.

(** A call through a table. *)
Lemma safe_dispatch P (table : list (C unit)) i :
  Forall (λ f, keeps P f any) table → 0 <= i < Z.of_nat (length table) →
  keeps P (dispatch table i) any.
Proof.
  intros Ht Hi. unfold dispatch.
  destruct (table !! Z.to_nat i) as [f|] eqn:E; [by apply (Forall_lookup_1 _ _ _ _ Ht E)|].
  apply lookup_ge_None in E. lia.
Qed.

(** Every entry of a table is safe. *)
Ltac table := repeat first [apply Forall_nil | apply Forall_cons]; keeps.

Lemma safe_do_entries : Forall (λ f, safe f any) opcodes_do.
Proof. unfold opcodes_do, dsp_do_aa, dsp_do_imm, dsp_do_ea, dsp_do_reg. table. Qed.
Lemma safe_rep_entries : Forall (λ f, safe f any) opcodes_rep.
Proof. unfold opcodes_rep, dsp_rep_aa, dsp_rep_imm, dsp_rep_ea, dsp_rep_reg. table. Qed.

Lemma loop_mode_range inst : 0 <= loop_mode inst < 8.
Proof.
  unfold loop_mode. apply (lor_range _ _ 3); [lia| |].
  - fields. rewrite shl_1. rewrite u32_small by lia. lia.
  - fields. lia.
Qed.

Lemma safe_do : safe dsp_do any.
Proof.
  unfold dsp_do. keeps. apply safe_dispatch; [apply safe_do_entries|apply loop_mode_range].
Qed.
Lemma safe_rep : safe dsp_rep any.
Proof.
  unfold dsp_rep. keeps. apply safe_dispatch; [apply safe_rep_entries|apply loop_mode_range].
Qed.
Lemma safe_lua : safe dsp_lua any.
Proof. unfold dsp_lua. keeps. Qed.
#[export] Hint Resolve safe_do safe_rep safe_lua : keeps.

Lemma safe_movec_entries : Forall (λ f, safe f any) opcodes_movec.
Proof.
  unfold opcodes_movec, dsp_movec_reg, dsp_movec_aa, dsp_movec_ea, dsp_movec_imm. table.
Qed.
Lemma safe_movec : safe dsp_movec any.
Proof.
  unfold dsp_movec. keeps. apply safe_dispatch; [apply safe_movec_entries|].
  apply (lor_range _ _ 3); [lia|by apply land_range_r; [lia|vm_compute]..].
Qed.
Lemma safe_movem : safe dsp_movem any.
Proof. unfold dsp_movem. keeps. Qed.
Lemma safe_movep_entries : Forall (λ f, safe f any) opcodes_movep.
Proof. unfold opcodes_movep, dsp_movep_0, dsp_movep_1, dsp_movep_2. table. Qed.
Lemma safe_movep : safe dsp_movep any.
Proof.
  unfold dsp_movep. keeps. apply safe_dispatch; [apply safe_movep_entries|]. cbn. fields. lia.
Qed.
Lemma safe_div : safe dsp_div any.
Proof. unfold dsp_div. keeps. Qed.
Lemma safe_norm : safe dsp_norm any.
Proof. unfold dsp_norm. keeps. Qed.
#[export] Hint Resolve safe_movec safe_movem safe_movep safe_div safe_norm : keeps.

Lemma safe_st_src i j v : 0 <= i < 2 → 0 <= j < 3 → safe (st_src i j v) any.
Proof. intros. unfold st_src. rewrite !in_range_true by done. by keeps. Qed.
Lemma safe_ld_src i j : 0 <= i < 2 → 0 <= j < 3 → safe (ld_src i j) any.
Proof. intros. unfold ld_src. rewrite !in_range_true by done. by keeps. Qed.
#[export] Hint Extern 1 (keeps _ (st_src _ _ _) _) => (apply safe_st_src; lia) : keeps.
#[export] Hint Extern 1 (keeps _ (ld_src _ _) _) => (apply safe_ld_src; lia) : keeps.

(** A pair of registers chosen in a table by an index. *)
Lemma nth_pair_range (l : list (Z * Z)) i d hi :
  forallb (λ p, in_range 0 hi p.1 && in_range 0 hi p.2) (d :: l) = true →
  let '(a, b) := nth i l d in 0 <= a < hi ∧ 0 <= b < hi.
Proof.
  intros H. rewrite forallb_forall in H.
  assert (In (nth i l d) (d :: l)) as Hin.
  { destruct (nth_in_or_default i l d) as [?| ->]; [by right|by left]. }
  specialize (H _ Hin). destruct (nth i l d). unfold in_range in H. cbn in H. lia.
Qed.

Lemma safe_tcc : safe dsp_tcc any.
Proof.
  unfold dsp_tcc. keeps.
  pose proof (nth_pair_range registers_tcc (Z.to_nat ((a >> 3) .& BITMASK 4)) (0, 0) 64 eq_refl) as Hr.
  rewrite Heqp in Hr. apply safe_rd. lia.
Qed.
#[export] Hint Resolve safe_tcc : keeps.

(** ** Parallel moves *)

(** Two states with the same row. *)
Definition same_row (i : Z) (s s' : cpu_t) : Prop :=
  aget (tmp_parmove_start s') i = aget (tmp_parmove_start s) i ∧
  aget (tmp_parmove_len s') i = aget (tmp_parmove_len s) i ∧
  aget (tmp_parmove_type s') i = aget (tmp_parmove_type s) i ∧
  aget (tmp_parmove_space s') i = aget (tmp_parmove_space s) i ∧
  ∀ j, tmp_parmove_dest s' !! (i, j) = tmp_parmove_dest s !! (i, j).

Lemma same_row_ok i s s' : same_row i s s' → row_ok i s → row_ok i s'.
Proof.
  intros (E1 & E2 & E3 & E4 & E5) H j Hj. rewrite E1, E2 in Hj. rewrite E3, E4, E5. by apply H.
Qed.

(** [rows] computes the fields of the rows after a series of assignments;
    [row_same] and [row_new] prove that a row was kept or set up. *)
Ltac rows :=
  cbn [tmp_parmove_start tmp_parmove_len tmp_parmove_type tmp_parmove_space tmp_parmove_dest
    set_tmp_parmove_start set_tmp_parmove_len set_tmp_parmove_type set_tmp_parmove_space
    set_tmp_parmove_dest set_tmp_parmove_src set_core];
  repeat first [rewrite aget_aset_eq | rewrite aget_aset_ne by congruence
    | rewrite lookup_insert_eq | rewrite lookup_insert_ne by congruence].
Ltac row_same := eapply same_row_ok; [|eassumption]; repeat split; intros; rows; reflexivity.
Ltac row_new :=
  intros j; rows; intros ?Hj;
  (assert (j = 0 ∨ j = 1 ∨ j = 2) as [-> | [-> | ->]] by lia);
  try (exfalso; lia); rows; fields; (split; [lia|split; first [lia | done]]).

Lemma safe_pm_to_mem i space a : i = 0 ∨ i = 1 → 0 <= space < 2 → safe (pm_to_mem i space a) any.
Proof.
  intros [-> | ->] Hs s [H0 H1];
    unfold wp, pm_to_mem, st_dest, st_start, st_len, st_type, st_space, modify, bind; cbn [obind owp];
    (split; [split|done]); [row_new|row_same|row_same|row_new].
Qed.

(** Destinations in registers, with what follows. *)
Lemma safe_writereg {A} numreg i (k : C A) Q : i = 0 ∨ i = 1 → 0 <= numreg < 64 → safe k Q →
  safe (dsp_pm_writereg numreg i ;; st_type i 0 ;; k) Q.
Proof.
  intros Hi Hn Hk s [H0 H1]. unfold wp, dsp_pm_writereg.
  destruct (is_accu numreg), Hi as [-> | ->];
    unfold st_dest, st_start, st_len, st_type, modify, bind; cbn [obind];
    apply Hk; (split; first [row_new|row_same]).
Qed.

Lemma safe_writereg_end numreg i : i = 0 ∨ i = 1 → 0 <= numreg < 64 →
  safe (dsp_pm_writereg numreg i ;; st_type i 0) any.
Proof.
  intros Hi Hn s Hs. pose proof (safe_writereg numreg i (ret tt) any Hi Hn) as H.
  specialize (H ltac:(by apply keeps_ret) s Hs). revert H. unfold wp, bind, dsp_pm_writereg.
  by destruct (is_accu numreg).
Qed.

Lemma safe_pm_to_reg i numreg v : i = 0 ∨ i = 1 → 0 <= numreg < 64 → safe (pm_to_reg i numreg v) any.
Proof.
  intros. unfold pm_to_reg. do 3 (eapply keeps_bind; [apply safe_st_src; lia|intros _ _]).
  by apply safe_writereg_end.
Qed.
Lemma safe_pm_from_reg i numreg : i = 0 ∨ i = 1 → 0 <= numreg < 64 → safe (pm_from_reg i numreg) any.
Proof. intros. unfold pm_from_reg. keeps. Qed.
#[export] Hint Extern 1 (keeps _ (pm_to_mem _ _ _) _) => (apply safe_pm_to_mem; [lia|idx]) : keeps.
#[export] Hint Extern 1 (keeps _ (pm_to_reg _ _ _) _) => (apply safe_pm_to_reg; [lia|idx]) : keeps.
#[export] Hint Extern 1 (keeps _ (pm_from_reg _ _) _) => (apply safe_pm_from_reg; [lia|idx]) : keeps.

(** The destinations of the second move of a class I move: an accumulator. *)
Lemma safe_accu_dest numreg : 0 <= numreg < 2 →
  safe (st_dest 1 0 (host_pointer (DSP_REG_A2 + numreg)) ;;
        st_dest 1 1 (host_pointer (DSP_REG_A1 + numreg)) ;;
        st_dest 1 2 (host_pointer (DSP_REG_A0 + numreg)) ;;
        st_start 1 0 ;; st_len 1 3 ;; st_type 1 0) any.
Proof.
  intros Hn s [H0 H1]. unfold wp, st_dest, st_start, st_len, st_type, modify, bind; cbn [obind owp].
  split; [split; [row_same|row_new]|done].
Qed.

Lemma safe_word_dest numreg : 0 <= numreg < 64 →
  safe (st_dest 1 1 (host_pointer numreg) ;; st_start 1 1 ;; st_len 1 1 ;; st_type 1 0) any.
Proof.
  intros Hn s [H0 H1]. unfold wp, st_dest, st_start, st_len, st_type, modify, bind; cbn [obind owp].
  split; [split; [row_same|row_new]|done].
Qed.
#[export] Hint Extern 1 (keeps _ (bind (st_dest _ 0 _) _) _) => (apply safe_accu_dest; idx) : keeps.
#[export] Hint Extern 1 (keeps _ (bind (st_dest _ 1 _) _) _) =>
  (apply safe_word_dest; case_match; idx) : keeps.
#[export] Hint Extern 1 (keeps _ (bind (dsp_pm_writereg _ _) _) _) =>
  (apply safe_writereg_end; [lia|idx]) : keeps.
#[export] Hint Extern 2 (keeps _ (bind (dsp_pm_writereg _ _) _) _) =>
  (apply safe_writereg; [lia|idx|apply keeps_when; intros]) : keeps.

Lemma bit_shl_range x : 0 <= (x .& 1) << 1 <= 2.
Proof. fields. rewrite shl_1, u32_small by lia. lia. Qed.

Lemma safe_pm_0 : safe dsp_pm_0 any.
Proof. unfold dsp_pm_0. keeps. apply safe_rd. pose proof (bit_shl_range (a >> 15)). lia. Qed.

Lemma xy_reg_range r0 r1 f : 0 <= r0 < 64 → 0 <= r1 < 64 → 0 <= pm_xy_reg r0 r1 f < 64.
Proof. intros. unfold pm_xy_reg. repeat case_match; lia. Qed.

Lemma safe_pm_1 : safe dsp_pm_1 any.
Proof.
  unfold dsp_pm_1. keeps.
  - apply safe_pm_to_reg; [lia|]. case_match; by apply xy_reg_range.
  - apply safe_pm_from_reg; [lia|]. case_match; by apply xy_reg_range.
Qed.

Lemma safe_pm_2_2 : safe dsp_pm_2_2 any.
Proof. unfold dsp_pm_2_2. keeps. Qed.
Lemma safe_pm_3 : safe dsp_pm_3 any.
Proof. unfold dsp_pm_3. keeps. Qed.
#[export] Hint Resolve safe_pm_2_2 safe_pm_3 : keeps.
Lemma safe_pm_2 : safe dsp_pm_2 any.
Proof. unfold dsp_pm_2. keeps. Qed.

Lemma numreg_range inst : 0 <= pm_numreg inst < 32.
Proof.
  unfold pm_numreg. apply (lor_range _ _ 5); [lia| |]; [|by apply land_range_r; [lia|vm_compute]].
  fields. lia.
Qed.
Lemma safe_pm_address inst : safe (pm_address inst) any.
Proof. unfold pm_address. keeps. Qed.
#[export] Hint Resolve safe_pm_address : keeps.
Lemma safe_pm_5 : safe dsp_pm_5 any.
Proof.
  unfold dsp_pm_5. keeps; pose proof (numreg_range a).
  - apply safe_pm_to_reg; lia.
  - apply safe_pm_from_reg; lia.
Qed.

Lemma safe_pm_4x imm a : safe (dsp_pm_4x imm a) any.
Proof.
  unfold dsp_pm_4x, pm_4x_sources. eapply keeps_bind; [apply safe_gets|]. intros inst _. cbv zeta.
  pose proof (nth_pair_range registers_lmove (Z.to_nat (((inst >> 16) .& BITMASK 2) .| ((inst >> 17) .& (1 << 2))))
    (0, 0) 64 eq_refl) as Hr. destruct (nth _ registers_lmove (0, 0)) as [l0 l1]. keeps.
Qed.
#[export] Hint Resolve safe_pm_5 safe_pm_4x : keeps.
Lemma safe_pm_4 : safe dsp_pm_4 any.
Proof. unfold dsp_pm_4. keeps. Qed.

Lemma safe_pm_8_half i space numreg a load : i = 0 ∨ i = 1 → 0 <= space < 2 → 0 <= numreg < 64 →
  safe (pm_8_half i space numreg a load) any.
Proof. intros. unfold pm_8_half. keeps. Qed.
Lemma safe_pm_8 : safe dsp_pm_8 any.
Proof.
  unfold dsp_pm_8. keeps; (apply safe_pm_8_half; [lia|lia|by apply xy_reg_range]).
Qed.

Lemma safe_parmove_entries : Forall (λ f, safe f any) opcodes_parmove.
Proof.
  unfold opcodes_parmove. repeat first [apply Forall_nil | apply Forall_cons];
    auto using safe_pm_0, safe_pm_1, safe_pm_2, safe_pm_3, safe_pm_4, safe_pm_5, safe_pm_8.
Qed.

(** Emptying a row. *)
Lemma safe_len_0 i : i = 0 ∨ i = 1 → safe (st_len i 0) any.
Proof.
  intros [-> | ->] s [H0 H1]; (split; [split|done]);
    first [row_same | intros j; rows; lia].
Qed.

Lemma safe_parmove_read : safe dsp_parmove_read any.
Proof.
  unfold dsp_parmove_read. do 2 (eapply keeps_bind; [apply safe_len_0; lia|intros _ _]).
  eapply keeps_bind; [apply safe_gets|]. intros inst _. apply safe_dispatch; [apply safe_parmove_entries|].
  cbn [length opcodes_parmove]. fields. lia.
Qed.


(** ** Writing the destinations *)

(** The prepared moves are those of [X]. *)
Definition same_moves (X s : cpu_t) : Prop :=
  tmp_parmove_dest s = tmp_parmove_dest X ∧ tmp_parmove_start s = tmp_parmove_start X ∧
  tmp_parmove_len s = tmp_parmove_len X ∧ tmp_parmove_type s = tmp_parmove_type X ∧
  tmp_parmove_space s = tmp_parmove_space X.
#[export] Instance same_moves_static X : Static (same_moves X).
Proof. by intros c s H. Qed.

Lemma same_moves_rows X s : rows_ok X → same_moves X s → rows_ok s.
Proof.
  intros [H0 H1] (E1 & E2 & E3 & E4 & E5).
  split; [apply (same_row_ok 0 X)|apply (same_row_ok 1 X)]; try done;
    unfold same_row; rewrite E1, E2, E3, E4, E5; done.
Qed.

Lemma write_one_moves X i j : row_ok i X → i = 0 ∨ i = 1 →
  aget (tmp_parmove_start X) i <= j < aget (tmp_parmove_start X) i + aget (tmp_parmove_len X) i →
  keeps (cpu_protocol (same_moves X)) (parmove_write_one i j) any.
Proof.
  intros Hr Hi Hj. destruct (Hr j Hj) as [Hj3 Hd]. unfold parmove_write_one, ld_src.
  eapply keeps_bind; [apply (keeps_gets _ _ (λ ty, ty = aget (tmp_parmove_type X) i))|intros ty ->].
  { intros s (_ & _ & _ & -> & _). done. }
  rewrite !in_range_true by lia. eapply keeps_bind; [by apply (keeps_gets _ _ any)|intros src _].
  eapply keeps_bind; [apply (keeps_gets _ _ (λ d, d = tmp_parmove_dest X !! (i, j)))|intros d ->].
  { intros s (-> & _). done. }
  destruct (tmp_parmove_dest X !! (i, j)) as [[n|a]|]; [| |done].
  - destruct Hd as [-> Hn]. by apply keeps_wr; [apply _|].
  - destruct Hd as [Ht Hsp]. rewrite (proj2 (Z.eqb_neq _ 0)) by done. cbn [negb].
    eapply keeps_bind; [apply (keeps_gets _ _ (λ sp, sp = aget (tmp_parmove_space X) i))|intros sp ->].
    { intros s (_ & _ & _ & _ & ->). done. }
    apply keeps_on_core; [apply _|]. apply safe_core_write. lia.
Qed.

Lemma write_loop_moves X i fuel j : row_ok i X → i = 0 ∨ i = 1 →
  aget (tmp_parmove_start X) i <= j →
  j + Z.of_nat fuel <= aget (tmp_parmove_start X) i + aget (tmp_parmove_len X) i →
  keeps (cpu_protocol (same_moves X)) (parmove_write_loop fuel i j) any.
Proof.
  intros Hr Hi. revert j. induction fuel as [|fuel IH]; intros j Hj Hf; cbn [parmove_write_loop].
  - by apply keeps_ret.
  - eapply keeps_bind; [apply write_one_moves; try done; lia|intros _ _]. apply IH; lia.
Qed.

Lemma safe_write_row i : i = 0 ∨ i = 1 → safe (parmove_write_row i) any.
Proof.
  intros Hi s Hs. assert (row_ok i s) as Hr by (destruct Hs, Hi as [-> | ->]; done).
  apply (wp_weaken (cpu_protocol (same_moves s))); try done.
  { intros s'. by apply same_moves_rows. }
  apply (wp_mono _ _ (λ a s', same_moves s s' ∧ any a));
    [|intros a s' [Hm _]; split; [by apply (same_moves_rows s)|done]].
  unfold parmove_write_row, wp, bind, gets; cbn [obind].
  destruct (Z.le_gt_cases 0 (aget (tmp_parmove_len s) i)).
  - apply (write_loop_moves s i (Z.to_nat (aget (tmp_parmove_len s) i))); try done; lia.
  - replace (Z.to_nat (aget (tmp_parmove_len s) i)) with 0%nat by lia. by split.
Qed.

Lemma safe_parmove_write : safe dsp_parmove_write any.
Proof.
  unfold dsp_parmove_write. eapply keeps_bind; [by apply safe_write_row; left|intros _ _].
  by apply safe_write_row; right.
Qed.
#[export] Hint Resolve safe_parmove_read safe_parmove_write : keeps.

(** ** ALU instructions *)

Lemma safe_src_word r : 0 <= r < 64 → safe (src_word r) any.
Proof. intros. unfold src_word. keeps. Qed.
Lemma safe_src_long r r' : 0 <= r < 64 → 0 <= r' < 64 → safe (src_long r r') any.
Proof. intros. unfold src_long. keeps. Qed.
#[export] Hint Extern 1 (keeps _ (src_word _) _) => (apply safe_src_word; lia) : keeps.
#[export] Hint Extern 1 (keeps _ (src_long _ _) _) => (apply safe_src_long; lia) : keeps.

Lemma other_range inst : 0 <= alu_dest inst .^ 1 < 2.
Proof. apply (lxor_range _ _ 1); [lia| |lia]. unfold alu_dest. fields. lia. Qed.
#[export] Hint Extern 1 (keeps _ (rd_accu (alu_dest ?i .^ 1)) _) =>
  (apply safe_rd_accu; apply (other_range i)) : keeps.

Lemma safe_add_source inst j : safe (add_source (alu_dest inst) j) any.
Proof. unfold add_source, src_words. keeps. Qed.
Lemma safe_cmp_source inst j : safe (cmp_source (alu_dest inst) j) any.
Proof. unfold cmp_source, src_words. keeps. Qed.
Lemma safe_adc_source inst : safe (adc_source inst) any.
Proof. unfold adc_source. keeps. Qed.
Lemma safe_alu_finish inst d f : safe (alu_finish (alu_dest inst) d f) any.
Proof. unfold alu_finish. keeps. Qed.
#[export] Hint Resolve safe_add_source safe_cmp_source safe_adc_source safe_alu_finish : keeps.

Lemma safe_mpy_product inst : safe (mpy_product inst) any.
Proof.
  unfold mpy_product.
  pose proof (nth_pair_range registers_mpy (Z.to_nat ((inst >> 4) .& BITMASK 3)) (0, 0) 64 eq_refl) as Hr.
  destruct (nth _ registers_mpy (0, 0)). keeps.
Qed.
#[export] Hint Resolve safe_mpy_product : keeps.

Lemma safe_alu : safe dsp_add any ∧ safe dsp_sub any ∧ safe dsp_adc any ∧ safe dsp_sbc any ∧
  (∀ f g, safe (shift_and_combine f g) any) ∧ safe dsp_cmp any ∧ safe dsp_cmpm any.
Proof.
  repeat split; unfold dsp_add, dsp_sub, dsp_adc, dsp_sbc, shift_and_combine, dsp_cmp, dsp_cmpm;
    intros; keeps.
Qed.
Lemma safe_alu_unary : safe dsp_abs any ∧ safe dsp_neg any ∧ safe dsp_clr any ∧ safe dsp_tst any ∧
  safe dsp_tfr any ∧ (∀ f, safe (arith_shift f) any) ∧ safe dsp_rnd any.
Proof.
  repeat split; unfold dsp_abs, dsp_neg, dsp_clr, dsp_tst, dsp_tfr, arith_shift, dsp_rnd;
    intros; keeps.
Qed.
Lemma safe_alu_mul : safe dsp_mpy any ∧ safe dsp_mpyr any ∧ safe dsp_mac any ∧ safe dsp_macr any.
Proof. repeat split; unfold dsp_mpy, dsp_mpyr, dsp_mac, dsp_macr; keeps. Qed.
Lemma safe_alu_logic : (∀ f, safe (logic_op f) any) ∧ safe dsp_not any ∧ safe dsp_lsl any ∧
  safe dsp_lsr any ∧ safe dsp_rol any ∧ safe dsp_ror any.
Proof.
  repeat split; unfold logic_op, dsp_not, dsp_lsl, dsp_lsr, dsp_rol, dsp_ror; intros; keeps.
Qed.

Lemma safe_move : safe dsp_move any.
Proof. by apply keeps_ret. Qed.
Lemma safe_move_pm : safe dsp_move_pm any.
Proof. unfold dsp_move_pm. keeps. Qed.

(** The entries of the three ALU tables. *)
Ltac alu_entries :=
  destruct safe_alu as (?&?&?&?&?&?&?), safe_alu_unary as (?&?&?&?&?&?&?),
    safe_alu_mul as (?&?&?&?), safe_alu_logic as (?&?&?&?&?&?);
  pose proof safe_move; pose proof safe_undefined;
  repeat first [apply Forall_nil | apply Forall_cons];
  first [assumption | match goal with
    | H : ∀ f g, keeps _ (shift_and_combine f g) _ |- _ => apply H
    | H : ∀ f, keeps _ (arith_shift f) _ |- _ => apply H
    | H : ∀ f, keeps _ (logic_op f) _ |- _ => apply H
    end].

Lemma safe_alu003f : Forall (λ f, safe f any) opcodes_alu003f.
Proof. alu_entries. Qed.
Lemma safe_alu407f : Forall (λ f, safe f any) opcodes_alu407f.
Proof. alu_entries. Qed.
Lemma safe_alu80ff : Forall (λ f, safe f any) opcodes_alu80ff.
Proof. alu_entries. Qed.

Lemma safe_dispatch_alu inst : safe (dispatch_alu inst) any.
Proof.
  unfold dispatch_alu. pose proof (land_BITMASK_range inst 8 ltac:(lia)) as H. note_range H.
  apply keeps_if; intros E; [apply safe_dispatch; [apply safe_alu003f|cbn; lia]|].
  apply keeps_if; intros E'.
  - apply safe_dispatch; [apply safe_alu407f|]. cbn [length opcodes_alu407f]. fields. lia.
  - apply safe_dispatch; [apply safe_alu80ff|]. cbn [length opcodes_alu80ff]. fields. lia.
Qed.
#[export] Hint Resolve safe_dispatch_alu : keeps.

(** ** Decoding *)

Lemma index_0ab_range inst : 0 <= opcode_0ab inst < 32.
Proof.
  unfold opcode_0ab. apply (lor_range _ _ 5); [lia|by apply land_range_r; [lia|vm_compute]|].
  fields. lia.
Qed.

Lemma safe_bit_entries : safe dsp_bchg any ∧ safe dsp_bclr any ∧ safe dsp_bset any ∧
  safe dsp_jsclr any ∧ safe dsp_jsset any.
Proof.
  unfold dsp_bchg, dsp_bclr, dsp_bset, dsp_jsclr, dsp_jsset. repeat split;
    first [apply safe_bit_instruction | apply safe_bit_jump_sub].
Qed.

(** The entries of the tables for the high byte opcodes. *)
Ltac opcode_entries :=
  destruct safe_bit_entries as (?&?&?&?&?); pose proof safe_move_pm; pose proof safe_movep;
  pose proof safe_jclr; pose proof safe_jset; pose proof safe_jmp; pose proof safe_jcc;
  pose proof safe_jsr; pose proof safe_jscc; pose proof safe_undefined; pose proof safe_btst;
  repeat first [apply Forall_nil | apply Forall_cons]; assumption.

Lemma safe_0809 : Forall (λ f, safe f any) opcodes_0809.
Proof. opcode_entries. Qed.
Lemma safe_0a : Forall (λ f, safe f any) opcodes_0a.
Proof. opcode_entries. Qed.
Lemma safe_0b : Forall (λ f, safe f any) opcodes_0b.
Proof. opcode_entries. Qed.

Lemma safe_opcode8h_0 : safe opcode8h_0 any.
Proof. unfold opcode8h_0, dsp_nop, dsp_illegal, dsp_reset, dsp_stop, dsp_wait. keeps. Qed.
Lemma safe_opcode8h_1 : safe opcode8h_1 any.
Proof. unfold opcode8h_1. keeps. Qed.
Lemma safe_opcode8h_4 : safe opcode8h_4 any.
Proof. unfold opcode8h_4. keeps. Qed.
Lemma safe_opcode8h_6 : safe opcode8h_6 any.
Proof. unfold opcode8h_6. keeps. Qed.
Lemma safe_opcode8h_8 : safe opcode8h_8 any.
Proof. unfold opcode8h_8. keeps. apply safe_dispatch; [apply safe_0809|]. cbn [length opcodes_0809]. fields. lia. Qed.
Lemma safe_opcode8h_a : safe opcode8h_a any.
Proof. unfold opcode8h_a. keeps. apply safe_dispatch; [apply safe_0a|apply index_0ab_range]. Qed.
Lemma safe_opcode8h_b : safe opcode8h_b any.
Proof. unfold opcode8h_b. keeps. apply safe_dispatch; [apply safe_0b|apply index_0ab_range]. Qed.

Lemma safe_8h : Forall (λ f, safe f any) opcodes8h.
Proof.
  repeat first [apply Forall_nil | apply Forall_cons];
    auto using safe_opcode8h_0, safe_opcode8h_1, safe_opcode8h_4, safe_opcode8h_6, safe_opcode8h_8,
      safe_opcode8h_a, safe_opcode8h_b with keeps.
Qed.

(** ** Program counter and interrupts *)

Lemma safe_update_pc : safe dsp_postexecute_update_pc any.
Proof.
  unfold dsp_postexecute_update_pc, update_rep, update_do. keeps.
Qed.

Lemma safe_locked f : safe (on_core (locked f)) any.
Proof. apply safe_on_core. unfold locked. keeps; done. Qed.
Lemma safe_put_fetch v : safe (put_fetch v) any.
Proof. apply safe_mod_core. Qed.
#[export] Hint Resolve safe_locked safe_put_fetch : keeps.

Lemma safe_enter_interrupt ipl : safe (enter_interrupt ipl) any.
Proof. unfold enter_interrupt. keeps. Qed.
Lemma safe_peripheral_interrupts ipl : safe (peripheral_interrupts ipl) any.
Proof. unfold peripheral_interrupts, dsp_hi_interrupts, dsp_ssi_interrupts. keeps. Qed.
#[export] Hint Resolve safe_enter_interrupt safe_peripheral_interrupts : keeps.
Lemma safe_interrupts : safe dsp_postexecute_interrupts any.
Proof. unfold dsp_postexecute_interrupts, fast_interrupt_end. keeps. Qed.
#[export] Hint Resolve safe_update_pc safe_interrupts : keeps.

Lemma safe_execute : safe dsp56k_execute_instruction any.
Proof.
  unfold dsp56k_execute_instruction. keeps. apply safe_dispatch; [apply safe_8h|].
  cbn [length opcodes8h]. unfold hibyte in *. pose proof (land_BITMASK_range (a0 >> 16) 8 ltac:(lia)). lia.
Qed.

Lemma safe_while fuel : safe (execute_while_running fuel) any.
Proof. induction fuel; cbn [execute_while_running]; keeps. apply safe_execute. Qed.

(** C4: memory safety of the interpreter.  From any state whose prepared
    parallel moves are consistent (as after start-up), executing one
    instruction, or running the DSP thread for any number of instructions,
    never indexes an array out of bounds, calls through a table outside its
    entries or reads the wrong union member, except possibly the hardware
    stack; the consistency is restored at the end and holds at every SDL call,
    while the host may change the shared state in any way. *)
Theorem execution_safe :
  keeps (cpu_protocol rows_ok) dsp56k_execute_instruction any ∧
  (∀ fuel, keeps (cpu_protocol rows_ok) (dsp56k_exec_thread fuel) any) ∧
  (∀ c, rows_ok (cpu_init c)).
Proof.
  split; [exact safe_execute|]. split.
  - intros fuel. unfold dsp56k_exec_thread. eapply keeps_bind; [apply safe_pause|intros _ _].
    apply safe_while.
  - intros c. split; intros j; cbn [cpu_init tmp_parmove_start tmp_parmove_len];
      rewrite aget_empty; lia.
Qed.
