(* ===== verification/LoopSpec.v ===== *)
(** * Correctness of the hardware stack, subroutines and hardware loops

    The stack as a list of frames, subroutine calls as balanced pushes and
    pops, and the two loop instructions: REP repeats the next instruction as
    often as LC says, DO, with its count in the instruction, a register or memory, repeats
    a block and restores the outer loop at its end. *)

From S2P Require Import Prelude Effects DspCore Arith56 Arith56Spec Cpu CpuRun Control ParMove Alu Exec AddressSpec Safety.
From stdpp Require Import base gmap list numbers.
Open Scope Z_scope.
Open Scope c_scope.
Open Scope eff_scope.

(** ** Stack *)

(** SSH and SSL are the index of the top, as SP: the stack has not been
    manipulated by hand. *)
Definition stack_ok (s : cpu_t) : Prop :=
  reg DSP_REG_SSH s = reg DSP_REG_SP s ∧ reg DSP_REG_SSL s = reg DSP_REG_SP s ∧
  0 <= reg DSP_REG_SP s <= 15.

Definition sp (s : cpu_t) : Z := reg DSP_REG_SP s.
Definition cell (row i : Z) (s : cpu_t) : Z := aget (stack (core s)) (row, i).
Definition set_cell (row i v : Z) (s : cpu_t) : cpu_t :=
  set_core (set_stack (aset (row, i) v (stack (core s))) (core s)) s.
Definition set_sp (v : Z) (s : cpu_t) : cpu_t :=
  set_reg DSP_REG_SSL v (set_reg DSP_REG_SSH v (set_reg DSP_REG_SP v s)).

Lemma st_stack_run row i v s : 0 <= i < 15 → on_core (st_stack row i v) s = Done tt (set_cell row i v s).
Proof.
  intros. unfold on_core, zoom, st_stack, in_range.
  by replace ((0 <=? i) && (i <? 15)) with true by lia.
Qed.
Lemma ld_stack_run row i s : 0 <= row < 2 → 0 <= i < 15 →
  on_core (ld_stack row i) s = Done (cell row i s) s.
Proof.
  intros. unfold on_core, zoom, ld_stack, ld2, in_range.
  replace ((0 <=? row) && (row <? 2) && ((0 <=? i) && (i <? 15))) with true by lia. cbn.
  by destruct s.
Qed.

Lemma reg_set_cell n row i v s : reg n (set_cell row i v s) = reg n s.
Proof. done. Qed.
Lemma cell_set_reg n v row i s : cell row i (set_reg n v s) = cell row i s.
Proof. done. Qed.
Lemma cell_set_cell_eq row i v s : cell row i (set_cell row i v s) = v.
Proof. apply aget_aset_eq. Qed.
Lemma cell_set_cell_ne row i row' i' v s : (row, i) ≠ (row', i') →
  cell row' i' (set_cell row i v s) = cell row' i' s.
Proof. intros. by apply aget_aset_ne. Qed.
#[export] Hint Rewrite reg_set_cell cell_set_reg cell_set_cell_eq : run.
#[export] Hint Rewrite cell_set_cell_ne reg_set_reg_ne using (congruence || lia) : run.

(** The state after a push. *)
Definition pushed (p sr : Z) (s : cpu_t) : cpu_t :=
  set_cell 1 (sp s + 1) (u16 sr) (set_cell 0 (sp s + 1) (u16 p) (set_sp (sp s + 1) s)).

Lemma push_run p sr s : stack_ok s → sp s < 14 → dsp_stack_push p sr s = Done tt (pushed p sr s).
Proof.
  intros (Eh & El & Hr) Hsp. unfold sp in *. unfold dsp_stack_push.
  rewrite bind_rd by lia. replace (reg DSP_REG_SP s =? 15) with false by lia.
  run. rewrite Eh, El, !u32_small by lia.
  erewrite bind_run; [|apply st_stack_run; lia]. run. rewrite ?El, ?u32_small by lia.
  rewrite st_stack_run by lia. done.
Qed.

(** A store of a popped value that leaves the stack alone. *)
Definition quiet (f : Z → C unit) (F : Z → cpu_t → cpu_t) : Prop :=
  ∀ v s, f v s = Done tt (F v s) ∧ (∀ row i, cell row i (F v s) = cell row i s) ∧
    reg DSP_REG_SP (F v s) = reg DSP_REG_SP s ∧ reg DSP_REG_SSH (F v s) = reg DSP_REG_SSH s ∧
    reg DSP_REG_SSL (F v s) = reg DSP_REG_SSL s.

Lemma quiet_local : quiet to_local (λ _ s, s).
Proof. done. Qed.
Lemma quiet_wr n : 0 <= n < 64 → n < DSP_REG_SP ∨ DSP_REG_SSL < n → quiet (wr n) (set_reg n).
Proof.
  intros Hn Hne v s. split; [by apply wr_run|]. split; [done|]. by rewrite !reg_set_reg_ne by lia.
Qed.

Lemma pop_run f g F G s : quiet f F → quiet g G → stack_ok s → 1 <= sp s <= 14 →
  dsp_stack_pop f g s =
  Done (Some (cell 0 (sp s) s, cell 1 (sp s) s))
    (set_sp (sp s - 1) (G (cell 1 (sp s) s) (F (cell 0 (sp s) s) s))).
Proof.
  intros HF HG (Eh & El & Hr) Hsp. unfold sp in *. unfold dsp_stack_pop.
  rewrite bind_rd by lia. replace (reg DSP_REG_SP s =? 0) with false by lia. run.
  erewrite bind_run; [|apply ld_stack_run; lia]. rewrite Eh.
  destruct (HF (cell 0 (reg DSP_REG_SP s) s) s) as (E1 & Ec & Ep & Eh1 & El1).
  rewrite (bind_run _ _ _ _ _ E1). run. rewrite El1, El.
  erewrite bind_run; [|apply ld_stack_run; lia]. rewrite Ec.
  set (s1 := F _ s) in *.
  destruct (HG (cell 1 (reg DSP_REG_SP s) s) s1) as (E2 & _ & Ep2 & Eh2 & El2).
  rewrite (bind_run _ _ _ _ _ E2). run.
  by rewrite Ep2, Eh2, El2, Ep, Eh1, El1, Eh, El, !u32_small by lia.
Qed.

Lemma sp_set_sp v s : sp (set_sp v s) = v.
Proof. unfold sp, set_sp. by run. Qed.
Lemma reg_set_sp n v s : n < DSP_REG_SP ∨ DSP_REG_SSL < n → reg n (set_sp v s) = reg n s.
Proof. intros. unfold set_sp. by run. Qed.
Lemma stack_ok_set_sp v s : 0 <= v <= 15 → stack_ok (set_sp v s).
Proof. intros. unfold stack_ok, set_sp. run. lia. Qed.
Lemma cell_set_sp row i v s : cell row i (set_sp v s) = cell row i s.
Proof. done. Qed.

Lemma sp_pushed p sr s : sp (pushed p sr s) = sp s + 1.
Proof. apply (sp_set_sp (sp s + 1) s). Qed.
Lemma stack_ok_pushed p sr s : stack_ok s → sp s < 14 → stack_ok (pushed p sr s).
Proof. intros (_ & _ & ?) ?. unfold sp in *. apply stack_ok_set_sp. unfold sp. lia. Qed.
Lemma reg_pushed n p sr s : n < DSP_REG_SP ∨ DSP_REG_SSL < n → reg n (pushed p sr s) = reg n s.
Proof. apply reg_set_sp. Qed.
Lemma cell_pushed row p sr s : row = 0 ∨ row = 1 →
  cell row (sp s + 1) (pushed p sr s) = if row =? 0 then u16 p else u16 sr.
Proof. intros [-> | ->]; unfold pushed; by run. Qed.
Lemma cell_pushed_below row i p sr s : i <= sp s → cell row i (pushed p sr s) = cell row i s.
Proof. intros. unfold pushed. by rewrite !cell_set_cell_ne, cell_set_sp by (intros [= ? ?]; lia). Qed.

(** ** Subroutines *)

Lemma on_pc_run v s : put_pc v s = Done tt (set_core (set_pc (u16 v) (core s)) s).
Proof. done. Qed.

(** [s'] holds the same stack as [s]: what a subroutine that is balanced leaves. *)
Definition same_stack (s s' : cpu_t) : Prop :=
  stack_ok s' ∧ sp s' = sp s ∧ ∀ row i, i <= sp s → cell row i s' = cell row i s.

(** The end of JSR: jump and forbid the increment of the PC. *)
Definition jumped (v : Z) (s : cpu_t) : cpu_t :=
  set_cur_inst_len 0 (set_core (set_pc (u16 v) (core s)) s).

Lemma jsr_run s : stack_ok s → sp s < 14 → interrupt_state (core s) ≠ DSP_INTERRUPT_LONG →
  (cur_inst s >> 12) .& BITMASK 4 = 0 →
  dsp_jsr s = Done tt (jumped (cur_inst s .& BITMASK 12)
    (pushed (pc (core s) +u cur_inst_len s) (reg DSP_REG_SR s) s)).
Proof.
  intros Hok Hsp Hint Hmode. unfold dsp_jsr. rewrite bind_get_inst, Hmode. cbn [Z.eqb]. run.
  rewrite (proj2 (Z.eqb_neq _ _)) by done. cbn [negb].
  assert (push_return s = Done tt (pushed (pc (core s) +u cur_inst_len s) (reg DSP_REG_SR s) s)) as E.
  { unfold push_return, get_pc, get_inst_len. run. by rewrite push_run. }
  rewrite (bind_run _ _ _ _ _ E). done.
Qed.

Lemma rts_run s : stack_ok s → 1 <= sp s <= 14 →
  dsp_rts s = Done tt (jumped (cell 0 (sp s) s) (set_sp (sp s - 1) s)).
Proof.
  intros Hok Hsp. unfold dsp_rts.
  rewrite (bind_run _ _ _ _ _ (pop_run _ _ _ _ s quiet_local quiet_local Hok Hsp)). done.
Qed.

Lemma rti_run s : stack_ok s → 1 <= sp s <= 14 →
  ∃ s', dsp_rti s = Done tt s' ∧ pc (core s') = u16 (cell 0 (sp s) s) ∧
    reg DSP_REG_SR s' = cell 1 (sp s) s ∧ sp s' = sp s - 1.
Proof.
  intros Hok Hsp. unfold dsp_rti.
  rewrite (bind_run _ _ _ _ _ (pop_run _ _ _ _ s quiet_local quiet_local Hok Hsp)).
  cbn [default from_option id]. rewrite (bind_run _ _ _ _ _ (on_pc_run _ _)).
  rewrite bind_wr by lia. eexists. split; [reflexivity|]. split; [done|].
  set (s1 := set_sp _ s). split; [exact (reg_set_reg_eq DSP_REG_SR _ s1)|].
  transitivity (reg DSP_REG_SP (set_reg DSP_REG_SR (cell 1 (sp s) s) s1)); [done|].
  rewrite reg_set_reg_ne by lia. apply sp_set_sp.
Qed.

(** ** The stack as a list of frames, the top first *)

Fixpoint frames_below (n : nat) (s : cpu_t) : list (Z * Z) :=
  match n with
  | O => []
  | S k => (cell 0 (Z.of_nat n) s, cell 1 (Z.of_nat n) s) :: frames_below k s
  end.
Definition frames (s : cpu_t) : list (Z * Z) := frames_below (Z.to_nat (sp s)) s.

Lemma frames_below_ext n s s' :
  (∀ row i, i <= Z.of_nat n → cell row i s' = cell row i s) → frames_below n s' = frames_below n s.
Proof.
  induction n as [|n IH]; intros H; cbn [frames_below]; [done|].
  rewrite !H by lia. f_equal. apply IH. intros row i Hi. apply H. lia.
Qed.

Lemma frames_pushed p sr s : 0 <= sp s → frames (pushed p sr s) = (u16 p, u16 sr) :: frames s.
Proof.
  intros H. unfold frames. rewrite sp_pushed. replace (Z.to_nat (sp s + 1)) with (S (Z.to_nat (sp s))) by lia.
  cbn [frames_below]. replace (Z.of_nat (S (Z.to_nat (sp s)))) with (sp s + 1) by lia.
  rewrite !cell_pushed by auto. cbn [Z.eqb]. f_equal. apply frames_below_ext.
  intros row i Hi. apply cell_pushed_below. lia.
Qed.

Lemma frames_popped s : 1 <= sp s →
  frames s = (cell 0 (sp s) s, cell 1 (sp s) s) :: frames (set_sp (sp s - 1) s).
Proof.
  intros H. unfold frames. rewrite sp_set_sp.
  replace (Z.to_nat (sp s)) with (S (Z.to_nat (sp s - 1))) by lia. cbn [frames_below].
  replace (Z.of_nat (S (Z.to_nat (sp s - 1)))) with (sp s) by lia.
  f_equal. by apply frames_below_ext.
Qed.

(** the hardware stack is a stack.  While SP, SSH and SSL agree, a push
    below 14 entries adds a frame, truncated to 16 bits, a pop returns the top
    frame and removes it, no other register changes, a pop of the empty stack
    or a push on the full one pauses the DSP and changes nothing. *)
Theorem stack_refines_list p sr s : stack_ok s →
  (sp s < 14 → ∃ s', dsp_stack_push p sr s = Done tt s' ∧ stack_ok s' ∧
     frames s' = (u16 p, u16 sr) :: frames s ∧
     ∀ n, n < DSP_REG_SP ∨ DSP_REG_SSL < n → reg n s' = reg n s) ∧
  (1 <= sp s <= 14 → ∃ s' top rest, frames s = top :: rest ∧
     dsp_stack_pop to_local to_local s = Done (Some top) s' ∧ stack_ok s' ∧ frames s' = rest ∧
     ∀ n, n < DSP_REG_SP ∨ DSP_REG_SSL < n → reg n s' = reg n s) ∧
  (sp s = 15 → ∀ h, alone h (dsp_stack_push p sr) s = Ok tt s) ∧
  (sp s = 0 → ∀ h, alone h (dsp_stack_pop to_local to_local) s = Ok None s).
Proof.
  intros Hok. pose proof Hok as (_ & _ & Hr). fold (sp s) in Hr. split; [|split; [|split]].
  - intros Hsp. exists (pushed p sr s). rewrite push_run by done. split; [done|].
    split; [by apply stack_ok_pushed|]. split; [apply frames_pushed; lia|].
    intros n Hn. by apply reg_pushed.
  - intros Hsp. exists (set_sp (sp s - 1) s), (cell 0 (sp s) s, cell 1 (sp s) s).
    exists (frames (set_sp (sp s - 1) s)). split; [apply frames_popped; lia|].
    split; [by rewrite (pop_run _ _ _ _ s quiet_local quiet_local)|].
    split; [apply stack_ok_set_sp; lia|]. split; [done|]. intros n Hn. by apply reg_set_sp.
  - intros Hsp h. unfold alone, dsp_stack_push. rewrite bind_rd by lia. fold (sp s). rewrite Hsp.
    cbn. unfold on_core, zoom, pauseThread. destruct s as [c ? ? ? ? ? ? ? ? ?]; cbn.
    by destruct (thread_ops c).
  - intros Hsp h. unfold alone, dsp_stack_pop. rewrite bind_rd by lia. fold (sp s). rewrite Hsp.
    cbn. unfold on_core, zoom, pauseThread. destruct s as [c ? ? ? ? ? ? ? ? ?]; cbn.
    by destruct (thread_ops c).
Qed.

(** subroutines return.  A JSR to an absolute address stacks the address
    of the next instruction and SR and jumps; if the subroutine leaves the
    stack as it found it, its RTS jumps back to that address and its RTI
    restores SR as well, with the stack pointer of before the call. *)
Theorem subroutine_returns s s2 : stack_ok s → sp s < 14 →
  interrupt_state (core s) ≠ DSP_INTERRUPT_LONG → (cur_inst s >> 12) .& BITMASK 4 = 0 →
  0 <= reg DSP_REG_SR s < 65536 →
  let target := cur_inst s .& BITMASK 12 in
  let return_pc := u16 (pc (core s) + cur_inst_len s) in
  ∃ s1, dsp_jsr s = Done tt s1 ∧ pc (core s1) = target ∧ cur_inst_len s1 = 0 ∧
    (same_stack s1 s2 →
       (∃ s3, dsp_rts s2 = Done tt s3 ∧ pc (core s3) = return_pc ∧ sp s3 = sp s) ∧
       (∃ s3, dsp_rti s2 = Done tt s3 ∧ pc (core s3) = return_pc ∧ sp s3 = sp s ∧
              reg DSP_REG_SR s3 = reg DSP_REG_SR s)).
Proof.
  intros Hok Hsp Hint Hmode Hsr target return_pc. pose proof Hok as (_ & _ & Hr). fold (sp s) in Hr.
  rewrite jsr_run by done. eexists. split; [done|]. set (s1 := pushed _ _ s).
  split; [apply u16_small; pose proof (land_BITMASK_range (cur_inst s) 12); lia|]. split; [done|].
  intros (Hok2 & Hsp2 & Hc). change (sp (jumped _ s1)) with (sp s1) in *.
  assert (sp s1 = sp s + 1) as E1 by apply sp_pushed. rewrite E1 in Hsp2.
  assert (∀ row, cell row (sp s2) s2 = cell row (sp s + 1) s1) as Hc2
    by (intros; rewrite Hsp2; apply Hc; lia).
  assert (u16 (u16 (pc (core s) +u cur_inst_len s)) = return_pc) as Ep.
  { unfold return_pc, u16, u32. rewrite Z.mod_mod by lia. by rewrite Z.mod_mod_divide by (by exists 65536). }
  split.
  - rewrite rts_run by (done || lia). eexists. split; [done|]. split.
    + rewrite <-Ep, Hc2. unfold s1. by rewrite cell_pushed by auto.
    + rewrite <-(Z.add_simpl_r (sp s) 1), <-Hsp2. apply sp_set_sp.
  - destruct (rti_run s2) as (s3 & E & Hpc & Hsr3 & Hsp3); [done|lia|]. exists s3.
    split; [done|]. rewrite Hpc, Hsr3, Hsp3, !Hc2. unfold s1. rewrite !cell_pushed by auto.
    cbn [Z.eqb]. split; [done|]. split; [lia|]. by apply u16_small.
Qed.

(** ** REP *)

(** One pass over the repeated instruction, which has one word: its effect is
    elsewhere, [update_rep] then decides whether to stay on it. *)
Definition rep_pass : C unit := modify (set_cur_inst_len 1) ;; update_rep.
Fixpoint rep_passes (k : nat) : C unit :=
  match k with O => ret tt | S k => rep_pass ;; rep_passes k end.

Definition repeating (lc : Z) (s : cpu_t) : Prop :=
  loop_rep (core s) = 1 ∧ pc_on_rep s = 0 ∧ reg DSP_REG_LC s = lc.

Lemma rep_pass_run lc s : repeating lc s → 1 <= lc <= 65536 →
  rep_pass s = Done tt
    (if lc =? 1 then
       set_reg DSP_REG_LC (reg DSP_REG_LCSAVE s)
         (set_core (set_loop_rep 0 (core (set_reg DSP_REG_LC 0 (set_cur_inst_len 1 s))))
           (set_reg DSP_REG_LC 0 (set_cur_inst_len 1 s)))
     else set_cur_inst_len 0 (set_reg DSP_REG_LC (lc - 1) (set_cur_inst_len 1 s))).
Proof.
  intros (Hl & Hp & Hlc) Hr. unfold rep_pass. rewrite bind_modify.
  set (s1 := set_cur_inst_len 1 s). unfold update_rep. rewrite bind_gets.
  change (loop_rep (core s1)) with (loop_rep (core s)). rewrite Hl. cbn [Z.eqb negb when]. rewrite bind_gets.
  change (pc_on_rep s1) with (pc_on_rep s). rewrite Hp. cbn [Z.eqb]. run.
  change (reg DSP_REG_LC s1) with (reg DSP_REG_LC s). rewrite Hlc. carith.
  rewrite u32_small, Z.mod_small by lia.
  destruct (Z.eqb_spec lc 1) as [-> |].
  - change (1 - 1) with 0. change (0 <? 0) with false. cbv iota.
    set (s2 := set_reg DSP_REG_LC 0 s1). 
    rewrite (bind_run (mod_core (set_loop_rep 0)) _ s2 (set_core (set_loop_rep 0 (core s2)) s2) tt) by done.
    run. do 2 f_equal. unfold s2.
    transitivity (reg DSP_REG_LCSAVE (set_reg DSP_REG_LC 0 s1)); [done|]. by rewrite reg_set_reg_ne by lia.
  - replace (0 <? lc - 1) with true by lia. done.
Qed.

Lemma rep_passes_run k lc s : repeating lc s → 1 <= lc <= 65536 → Z.of_nat k < lc →
  ∃ s', rep_passes k s = Done tt s' ∧ repeating (lc - Z.of_nat k) s' ∧
    (k ≠ 0%nat → cur_inst_len s' = 0) ∧ reg DSP_REG_LCSAVE s' = reg DSP_REG_LCSAVE s ∧
    pc (core s') = pc (core s).
Proof.
  revert lc s. induction k as [|k IH]; intros lc s Hs Hr Hk.
  - exists s. rewrite Z.sub_0_r. done.
  - cbn [rep_passes]. rewrite (bind_run _ _ _ _ _ (rep_pass_run lc s Hs Hr)).
    rewrite (proj2 (Z.eqb_neq lc 1)) by lia. set (s1 := set_cur_inst_len 0 _).
    destruct (IH (lc - 1) s1) as (s' & E & H1 & H2 & H3 & H4); [|lia|lia|].
    { destruct Hs as (? & ? & ?). split; [done|]. split; [done|]. apply reg_set_reg_eq. }
    exists s'. split; [done|].
    replace (lc - Z.of_nat (S k)) with (lc - 1 - Z.of_nat k) by lia. split; [done|]. split.
    + intros _. destruct k; [|by apply H2]. by injection E as <-.
    + split; [|done]. rewrite H3. by apply (reg_set_reg_ne DSP_REG_LC _ (lc - 1) (set_cur_inst_len 1 s)).
Qed.

Lemma bind_done_inv {S A B} (m : M S A) (f : A → M S B) s b s2 :
  bind m f s = Done b s2 → ∃ a s1, m s = Done a s1 ∧ f a s1 = Done b s2.
Proof. unfold bind. destruct (m s) as [a s1|e|c s1 k]; [by exists a, s1|done..]. Qed.

Lemma rep_passes_app j k s s1 : rep_passes j s = Done tt s1 → rep_passes (j + k) s = rep_passes k s1.
Proof.
  revert s. induction j as [|j IH]; intros s E; cbn [rep_passes Nat.add] in *; [by injection E as ->|].
  apply bind_done_inv in E as ([] & s2 & E1 & E2). rewrite (bind_run _ _ _ _ _ E1). by apply IH.
Qed.

(** REP counts.  While a REP is in progress with LC = n, the repeated
    instruction is executed exactly n times: each of the first n-1 passes keeps
    the PC on it and decrements LC, the n-th ends the repetition, lets the PC
    advance and restores LC.  The REP itself turns a count of 0 into 65536. *)
Theorem rep_counts n s : repeating n s → 1 <= n <= 65536 →
  (∀ k, (0 < k)%nat → Z.of_nat k < n →
     ∃ s', rep_passes k s = Done tt s' ∧ loop_rep (core s') = 1 ∧ cur_inst_len s' = 0 ∧
           reg DSP_REG_LC s' = n - Z.of_nat k) ∧
  (∃ s', rep_passes (Z.to_nat n) s = Done tt s' ∧ loop_rep (core s') = 0 ∧ cur_inst_len s' = 1 ∧
         reg DSP_REG_LC s' = reg DSP_REG_LCSAVE s) ∧
  (∀ t, loop_rep (core t) = 1 → pc_on_rep t = 1 → ∃ t', update_rep t = Done tt t' ∧
     repeating (if reg DSP_REG_LC t =? 0 then 65536 else reg DSP_REG_LC t) t').
Proof.
  intros Hs Hn. split; [|split].
  - intros k Hk Hlt. destruct (rep_passes_run k n s Hs Hn Hlt) as (s' & E & (H1 & _ & H2) & H3 & _).
    exists s'. split; [done|]. split; [done|]. split; [apply H3; lia|done].
  - replace (Z.to_nat n) with (Z.to_nat (n - 1) + 1)%nat by lia.
    destruct (rep_passes_run (Z.to_nat (n - 1)) n s Hs Hn ltac:(lia)) as (s1 & E & H1 & _ & H3 & _).
    rewrite Z2Nat.id in H1 by lia. replace (n - (n - 1)) with 1 in H1 by lia.
    eexists. split.
    + rewrite (rep_passes_app _ _ _ _ E). cbn [rep_passes].
      rewrite (bind_run _ _ _ _ _ (rep_pass_run 1 s1 H1 ltac:(lia))). reflexivity.
    + cbn [Z.eqb Pos.eqb]. split; [done|]. split; [done|]. rewrite <-H3. apply reg_set_reg_eq.
  - intros t Hl Hp. unfold update_rep. rewrite bind_gets, Hl. cbn [Z.eqb negb when].
    rewrite bind_gets, Hp. cbn [Z.eqb]. run.
    destruct (reg DSP_REG_LC t =? 0); cbn [when]; run; eexists; (split; [reflexivity|]).
    + split; [done|]. split; [done|]. apply (reg_set_reg_eq DSP_REG_LC).
    + by split.
Qed.

(** ** DO *)

(** The state in which a DO reads its count: the loop is stacked, LA and LF are set. *)
Definition do_stacked (s : cpu_t) : cpu_t :=
  let c := core s in
  let s1 := pushed (reg DSP_REG_LA s) (reg DSP_REG_LC s) s in
  let s2 := set_reg DSP_REG_LA (read_memory_p (pc c + 1) c .& BITMASK 16) s1 in
  let s3 := set_cur_inst_len (cur_inst_len s +u 1) s2 in
  let s4 := pushed (pc c +u (cur_inst_len s +u 1)) (reg DSP_REG_SR s) s3 in
  set_reg DSP_REG_SR (reg DSP_REG_SR s .| (1 << DSP_SR_LF)) s4.

Lemma reg_set_inst_len n v s : reg n (set_cur_inst_len v s) = reg n s.
Proof. done. Qed.

Lemma stack_ok_frame s s' : reg DSP_REG_SP s' = reg DSP_REG_SP s →
  reg DSP_REG_SSH s' = reg DSP_REG_SSH s → reg DSP_REG_SSL s' = reg DSP_REG_SSL s →
  stack_ok s → stack_ok s'.
Proof. unfold stack_ok. by intros -> -> ->. Qed.

Lemma do_run s : stack_ok s → sp s < 13 →
  dsp_do s = dispatch opcodes_do (loop_mode (cur_inst s)) (do_stacked s).
Proof.
  intros Hok Hsp. unfold dsp_do, do_stacked. rewrite bind_get_inst. run.
  rewrite (bind_run _ _ _ _ _ (push_run _ _ s Hok ltac:(lia))).
  set (s1 := pushed (reg DSP_REG_LA s) (reg DSP_REG_LC s) s).
  unfold get_pc, fetch_p. rewrite !bind_gets. change (pc (core s1)) with (pc (core s)).
  change (read_memory_p (pc (core s) + 1) (core s1)) with (read_memory_p (pc (core s) + 1) (core s)).
  rewrite bind_wr by lia. set (s2 := set_reg DSP_REG_LA _ s1).
  rewrite (bind_run inc_inst_len _ s2 (set_cur_inst_len (cur_inst_len s +u 1) s2) tt) by done.
  set (s3 := set_cur_inst_len _ s2).
  assert (stack_ok s3) as Hok3.
  { apply (stack_ok_frame s1); [unfold s3, s2; rewrite reg_set_inst_len; by run..|].
    by apply stack_ok_pushed; [|lia]. }
  assert (sp s3 = sp s + 1) as Hsp3.
  { unfold sp, s3, s2. rewrite reg_set_inst_len. run. apply sp_pushed. }
  assert (reg DSP_REG_SR s3 = reg DSP_REG_SR s) as Hsr.
  { unfold s3, s2. rewrite reg_set_inst_len. run. unfold s1. by rewrite reg_pushed by lia. }
  assert (push_return s3 = Done tt (pushed (pc (core s) +u (cur_inst_len s +u 1)) (reg DSP_REG_SR s) s3)) as E.
  { unfold push_return, get_pc, get_inst_len. rewrite !bind_gets, bind_rd by lia. rewrite Hsr.
    apply push_run; [done|lia]. }
  rewrite (bind_run _ _ _ _ _ E), bind_upd by lia. by rewrite reg_pushed, Hsr by lia.
Qed.

Lemma do_stacked_facts s : stack_ok s → sp s < 13 →
  stack_ok (do_stacked s) ∧ sp (do_stacked s) = sp s + 2 ∧
  cell 0 (sp s + 2) (do_stacked s) = u16 (pc (core s) + (cur_inst_len s + 1)) ∧
  cell 1 (sp s + 2) (do_stacked s) = u16 (reg DSP_REG_SR s) ∧
  cell 0 (sp s + 1) (do_stacked s) = u16 (reg DSP_REG_LA s) ∧
  cell 1 (sp s + 1) (do_stacked s) = u16 (reg DSP_REG_LC s) ∧
  reg DSP_REG_LA (do_stacked s) = read_memory_p (pc (core s) + 1) (core s) .& BITMASK 16.
Proof.
  intros Hok Hsp. unfold do_stacked. cbv zeta.
  set (s1 := pushed (reg DSP_REG_LA s) _ s). set (s2 := set_reg DSP_REG_LA _ s1).
  set (s3 := set_cur_inst_len _ s2). set (s4 := pushed _ (reg DSP_REG_SR s) s3).
  set (s5 := set_reg DSP_REG_SR _ s4).
  assert (sp s3 = sp s + 1) as Hsp3.
  { unfold sp, s3, s2. rewrite reg_set_inst_len. run. apply sp_pushed. }
  assert (stack_ok s3) as Hok3.
  { apply (stack_ok_frame s1); [unfold s3, s2; rewrite reg_set_inst_len; by run..|].
    by apply stack_ok_pushed; [|lia]. }
  assert (stack_ok s4) as Hok4 by (apply stack_ok_pushed; [done|lia]).
  assert (sp s4 = sp s + 2) as Hsp4 by (unfold s4; rewrite sp_pushed; lia).
  split; [apply (stack_ok_frame s4); [unfold s5; by run..|done]|].
  split; [unfold sp, s5; run; done|].
  split. { unfold s5. run. unfold s4. replace (sp s + 2) with (sp s3 + 1) by lia.
    rewrite cell_pushed by auto. cbn [Z.eqb]. unfold u16, u32.
    rewrite Z.mod_mod_divide by (by exists 65536). by rewrite <-Zplus_mod_idemp_r,
      Z.mod_mod_divide, Zplus_mod_idemp_r by (by exists 65536). }
  split. { unfold s5. run. unfold s4. replace (sp s + 2) with (sp s3 + 1) by lia.
    by rewrite cell_pushed by auto. }
  split. { unfold s5. run. unfold s4. rewrite cell_pushed_below by lia.
    transitivity (cell 0 (sp s + 1) s1); [done|]. unfold s1. by rewrite cell_pushed by auto. }
  split. { unfold s5. run. unfold s4. rewrite cell_pushed_below by lia.
    transitivity (cell 1 (sp s + 1) s1); [done|]. unfold s1. by rewrite cell_pushed by auto. }
  unfold s5. run. unfold s4. rewrite reg_pushed by lia.
  unfold s3. rewrite reg_set_inst_len. apply reg_set_reg_eq.
Qed.

(** At the end of the block. *)
Definition at_loop_end (s : cpu_t) : Prop :=
  tst (reg DSP_REG_SR s) (1 << DSP_SR_LF) = true ∧ pc (core s) = u32 (reg DSP_REG_LA s + 1).

Lemma update_do_step n s : at_loop_end s → reg DSP_REG_LC s = n → 0 <= n <= 65535 →
  update_do s =
  (if (n - 1) mod 65536 =? 0 then
     dsp_stack_pop to_local (wr DSP_REG_SR) ;;
     dsp_stack_pop (wr DSP_REG_LA) (wr DSP_REG_LC) ;;
     ret tt
   else
     let* ssh := rd DSP_REG_SSH in
     let* newpc := on_core (ld_stack 0 ssh) in
     put_pc newpc) (set_reg DSP_REG_LC ((n - 1) mod 65536) s).
Proof.
  intros [Hlf Hpc] Hlc Hn. unfold update_do. rewrite bind_rd, Hlf by lia. cbn [when].
  unfold get_pc. rewrite bind_gets, bind_rd by lia. rewrite Hpc, Z.eqb_refl. cbn [when].
  run. rewrite Hlc. carith. unfold u32. by rewrite Z.mod_mod_divide by (by exists 65536).
Qed.

Lemma loop_continues n s : at_loop_end s → reg DSP_REG_LC s = n → n ≠ 1 → 0 <= n <= 65535 →
  stack_ok s → 1 <= sp s <= 14 →
  ∃ s', update_do s = Done tt s' ∧ pc (core s') = u16 (cell 0 (sp s) s) ∧
    reg DSP_REG_LC s' = (n - 1) mod 65536 ∧ same_stack s s'.
Proof.
  intros He Hlc Hn1 Hn Hok Hsp. pose proof Hok as (Eh & El & _). rewrite (update_do_step n) by (done || lia).
  rewrite (proj2 (Z.eqb_neq ((n - 1) mod 65536) 0)) by (Z.to_euclidean_division_equations; lia). run. rewrite Eh.
  erewrite bind_run; [|apply ld_stack_run; unfold sp in *; lia].
  eexists. split; [reflexivity|]. split; [done|]. split; [apply (reg_set_reg_eq DSP_REG_LC _ s)|].
  set (s1 := set_reg DSP_REG_LC _ s).
  assert (∀ k, DSP_REG_SP <= k <= DSP_REG_SSL → reg k s1 = reg k s) as Hk
    by (intros; unfold s1; by run).
  split; [|by split; [apply (Hk DSP_REG_SP)|]].
  apply (stack_ok_frame s); [apply (Hk DSP_REG_SP)|apply (Hk DSP_REG_SSH)|apply (Hk DSP_REG_SSL)|done]; lia.
Qed.

Lemma loop_leaves s : at_loop_end s → reg DSP_REG_LC s = 1 → stack_ok s → 2 <= sp s <= 14 →
  ∃ s', update_do s = Done tt s' ∧ pc (core s') = pc (core s) ∧ sp s' = sp s - 2 ∧
    reg DSP_REG_SR s' = cell 1 (sp s) s ∧ reg DSP_REG_LA s' = cell 0 (sp s - 1) s ∧
    reg DSP_REG_LC s' = cell 1 (sp s - 1) s.
Proof.
  intros He Hlc Hok Hsp. rewrite (update_do_step 1) by (done || lia). change ((1 - 1) mod 65536 =? 0) with true. cbv iota.
  set (s1 := set_reg DSP_REG_LC ((1 - 1) mod 65536) s).
  assert (sp s1 = sp s) as E1 by (unfold sp, s1; by run).
  assert (stack_ok s1) as Hok1 by (apply (stack_ok_frame s); [unfold s1; by run..|done]).
  erewrite bind_run; [|apply (pop_run _ _ _ _ s1 quiet_local (quiet_wr DSP_REG_SR ltac:(lia) ltac:(lia)) Hok1); lia].
  rewrite E1. change (cell 0 (sp s) s1) with (cell 0 (sp s) s). change (cell 1 (sp s) s1) with (cell 1 (sp s) s).
  set (s2 := set_sp (sp s - 1) _).
  assert (sp s2 = sp s - 1) as E2 by apply sp_set_sp.
  assert (stack_ok s2) as Hok2 by (apply stack_ok_set_sp; lia).
  erewrite bind_run; [|apply (pop_run _ _ _ _ s2 (quiet_wr DSP_REG_LA ltac:(lia) ltac:(lia))
    (quiet_wr DSP_REG_LC ltac:(lia) ltac:(lia)) Hok2); lia].
  rewrite E2. eexists. split; [reflexivity|]. split; [done|]. split; [rewrite sp_set_sp; lia|].
  rewrite !reg_set_sp by lia. run. unfold s2. by rewrite reg_set_sp, reg_set_reg_eq by lia.
Qed.

(** *** The count *)

(** The operand of a DO: a memory word, a register or an immediate number. *)
Definition loop_operand (inst : Z) : C Z :=
  let v := (inst >> 8) .& BITMASK 6 in
  let space := (inst >> 6) .& 1 in
  match loop_mode inst with
  | 0 => read_memory space v
  | 2 => let* a := calc_ea_addr v in read_memory space a
  | 6 => read_source v
  | _ => ret (imm12 inst)
  end.

Definition value_of {A} (d : A) (o : out cpu_t A) : A := match o with Done a _ => a | _ => d end.
Definition do_count (s : cpu_t) : Z := value_of 0 (loop_operand (cur_inst s) (do_stacked s)) .& BITMASK 16.

(** The instruction is a DO, and its operand is not in the 64 words of the peripherals. *)
Definition count_readable (s : cpu_t) : Prop :=
  loop_mode (cur_inst s) ≠ 4 ∧
  (loop_mode (cur_inst s) = 2 → u16 (value_of 0 (calc_ea_addr ((cur_inst s >> 8) .& BITMASK 6) (do_stacked s))) < 0xffc0).

(** Reading the count leaves the loop alone. *)
Definition loop_kept (s s' : cpu_t) : Prop :=
  (∀ k, DSP_REG_SP <= k <= DSP_REG_SSL ∨ k = DSP_REG_LA → reg k s' = reg k s) ∧ ∀ row i, cell row i s' = cell row i s.

Lemma loop_kept_refl s : loop_kept s s.
Proof. by split. Qed.
Lemma loop_kept_trans s1 s2 s3 : loop_kept s1 s2 → loop_kept s2 s3 → loop_kept s1 s3.
Proof. intros [H1 C1] [H2 C2]. split; [intros k Hk; by rewrite H2, H1|intros row i; by rewrite C2, C1]. Qed.
Lemma loop_kept_set n v s : n < DSP_REG_SP ∨ DSP_REG_SSL < n → n ≠ DSP_REG_LA → loop_kept s (set_reg n v s).
Proof. intros H1 H2. split; [|done]. intros k Hk. apply reg_set_reg_ne. lia. Qed.

(** Computations that do so. *)
Definition keeps_loop {A} (m : C A) : Prop := ∀ s, ∃ a s', m s = Done a s' ∧ loop_kept s s'.

Lemma keeps_loop_bind {A B} (m : C A) (f : A → C B) : keeps_loop m → (∀ a, keeps_loop (f a)) → keeps_loop (bind m f).
Proof.
  intros Hm Hf s. destruct (Hm s) as (a & s1 & E1 & K1). destruct (Hf a s1) as (b & s2 & E2 & K2).
  exists b, s2. rewrite (bind_run _ _ _ _ _ E1). split; [done|by eapply loop_kept_trans].
Qed.
Lemma keeps_loop_ret {A} (a : A) : keeps_loop (ret a).
Proof. intros s. exists a, s. split; [done|apply loop_kept_refl]. Qed.
Lemma keeps_loop_gets {A} (f : cpu_t → A) : keeps_loop (gets f).
Proof. intros s. exists (f s), s. split; [done|apply loop_kept_refl]. Qed.
Lemma keeps_loop_rd n : 0 <= n < 64 → keeps_loop (rd n).
Proof. intros Hn s. exists (reg n s), s. split; [by apply rd_run|apply loop_kept_refl]. Qed.
Lemma keeps_loop_wr n v : 0 <= n < 64 → n < DSP_REG_SP ∨ DSP_REG_SSL < n → n ≠ DSP_REG_LA → keeps_loop (wr n v).
Proof. intros Hn H1 H2 s. exists tt, (set_reg n v s). split; [by apply wr_run|by apply loop_kept_set]. Qed.
Lemma keeps_loop_update numreg modifier : 0 <= numreg < 8 → keeps_loop (dsp_update_rn numreg modifier).
Proof.
  intros Hn s. rewrite update_rn_run by done. cbv zeta. eexists _, _. split; [reflexivity|].
  repeat case_match; apply loop_kept_refl || (apply loop_kept_set; lia).
Qed.
Lemma keeps_loop_len v : keeps_loop (put_inst_len v).
Proof. intros s. by exists tt, (set_cur_inst_len v s). Qed.

Ltac keeps_loop :=
  repeat match goal with
  | |- keeps_loop (bind _ _) => apply keeps_loop_bind; [|intros ?]
  | |- keeps_loop (if ?b then _ else _) => destruct b
  | |- keeps_loop (match ?p with _ => _ end) => destruct p
  | |- keeps_loop (ret _) => apply keeps_loop_ret
  | |- keeps_loop (gets _) => apply keeps_loop_gets
  | |- keeps_loop (rd _) => apply keeps_loop_rd; lia
  | |- keeps_loop (wr _ _) => apply keeps_loop_wr; lia
  | |- keeps_loop (dsp_update_rn _ _) => apply keeps_loop_update; lia
  | |- keeps_loop (put_inst_len _) => apply keeps_loop_len
  end.

Lemma keeps_loop_ea ea : keeps_loop (calc_ea_addr ea).
Proof.
  pose proof (land_BITMASK_range ea 3 ltac:(lia)) as Hn. unfold calc_ea_addr, dsp_calc_ea, get_pc, fetch_p, get_inst_len. cbv zeta.
  set (n := ea .& BITMASK 3) in *. change (2 ^ 3) with 8 in Hn. keeps_loop.
Qed.

(** Outside the peripherals, a read of X or Y memory has no effect. *)
Lemma read_plain space a s : 0 <= space <= 1 → u16 a < 0xffc0 → ∃ v, read_memory space a s = Done v s.
Proof.
  intros Hs Ha. pose proof (u16_range a) as Hr.
  assert (∀ d n e f i c, 0 <= space < d → 0 <= i < n → (let* v := ld2 d n e f space i in ret (v .& BITMASK 24)) c = Done (aget (f c) (space, i) .& BITMASK 24) c) as Hld.
  { intros d n e f i c H1 H2. unfold ld2, in_range. by replace ((0 <=? space) && (space <? d) && ((0 <=? i) && (i <? n))) with true by lia. }
  assert (∀ x, 0 <= x .& (DSP_RAMSIZE - 1) < 32768) as Hx by (intros x; apply (land_range_r x _ 15); lia).
  assert (∃ v, core_read_memory space a (core s) = Done v (core s)) as (v & E).
  { unfold core_read_memory. cbv zeta. destruct (Z.ltb_spec (u16 a) 256); [rewrite Hld by lia; by eexists|].
    replace (space =? DSP_SPACE_P) with false by lia. rewrite (bind_run _ _ (core s) (core s) (rom_enabled (core s))) by done. destruct (rom_enabled (core s) && (u16 a <? 512)) eqn:E.
    { rewrite Hld by lia. by eexists. }
    replace (0xffc0 <=? u16 a) with false by lia. set (b := if space =? DSP_SPACE_X then _ else _). specialize (Hx b).
    unfold ld2, in_range. replace (_ && ((0 <=? b .& (DSP_RAMSIZE - 1)) && (b .& (DSP_RAMSIZE - 1) <? 32768))) with true by lia. by eexists. }
  exists v. unfold read_memory, on_core, zoom. rewrite E. by destruct s.
Qed.

(** An accumulator goes through the limiter, which sets L. *)
Lemma limiter_kept numreg s : ∃ b v s1 s2, dsp_pm_read_accu24 numreg to_local s = Done (b, v) s1 ∧
  dsp_pm_read_accu24 numreg (wr DSP_REG_LC) s = Done (b, v) s2 ∧ reg DSP_REG_LC s2 = v ∧ loop_kept s s2.
Proof.
  pose proof (land_range_r numreg 1 1 ltac:(lia) ltac:(lia)) as Hn. unfold dsp_pm_read_accu24. cbv zeta. set (n := numreg .& 1) in *. run.
  repeat match goal with |- context [if ?b then _ else _] => destruct b end; run; eexists _, _, _, _; split_and!; try reflexivity.
  all: try (run; reflexivity).
  all: repeat (eapply loop_kept_trans; [|apply loop_kept_set; lia]); apply loop_kept_refl.
Qed.

Lemma count_read s : count_readable s →
  ∃ s', dispatch opcodes_do (loop_mode (cur_inst s)) (do_stacked s) = Done tt s' ∧ reg DSP_REG_LC s' = do_count s ∧ loop_kept (do_stacked s) s'.
Proof.
  intros [H4 H2]. unfold do_count, loop_operand. pose proof (loop_mode_range (cur_inst s)) as Hr. set (inst := cur_inst s) in *.
  set (v := (inst >> 8) .& BITMASK 6) in *. set (space := (inst >> 6) .& 1). set (s0 := do_stacked s) in *.
  assert (cur_inst s0 = inst) as Ei by done. clearbody s0.
  assert (0 <= v < 64) as Hv by (apply (land_BITMASK_range _ 6); lia).
  assert (0 <= space <= 1) as Hs by (pose proof (land_range_r (inst >> 6) 1 1); unfold space; lia).
  assert (∀ x s1, loop_kept s0 s1 → reg DSP_REG_LC (set_reg DSP_REG_LC x s1) = x ∧ loop_kept s0 (set_reg DSP_REG_LC x s1)) as Hset.
  { intros x s1 K. split; [apply reg_set_reg_eq|]. eapply loop_kept_trans; [exact K|apply loop_kept_set; lia]. }
  assert (loop_mode inst = 0 ∨ loop_mode inst = 2 ∨ loop_mode inst = 6 ∨
    loop_mode inst = 1 ∨ loop_mode inst = 3 ∨ loop_mode inst = 5 ∨ loop_mode inst = 7) as [E|[E|[E|Hm]]] by lia.
  - rewrite E. change (dispatch opcodes_do 0) with dsp_do_aa. unfold dsp_do_aa. rewrite bind_get_inst, Ei. fold v space.
    destruct (read_plain space v s0 Hs) as (x & Ex); [rewrite u16_small; lia|]. rewrite (bind_run _ _ _ _ _ Ex), Ex. cbn [value_of].
    rewrite wr_run by lia. eexists. split; [reflexivity|]. apply Hset, loop_kept_refl.
  - rewrite E. specialize (H2 E). change (dispatch opcodes_do 2) with dsp_do_ea. unfold dsp_do_ea.
    rewrite bind_get_inst, Ei. fold v space. destruct (keeps_loop_ea v s0) as (ad & s1 & E1 & K1). rewrite E1 in H2.
    rewrite !(bind_run _ _ _ _ _ E1). destruct (read_plain space ad s1 Hs H2) as (x & Ex). rewrite (bind_run _ _ _ _ _ Ex), Ex. cbn [value_of].
    rewrite wr_run by lia. eexists. split; [reflexivity|]. by apply Hset.
  - rewrite E. change (dispatch opcodes_do 6) with dsp_do_reg. unfold dsp_do_reg, read_source.
    rewrite bind_get_inst, Ei. cbv zeta. fold v. destruct (is_accu v).
    + destruct (limiter_kept v s0) as (b & x & s1 & s2 & E1 & E2 & Hl & K). rewrite (bind_run _ _ _ _ _ E1). cbn [value_of ret].
      erewrite bind_run by (by rewrite (bind_run _ _ _ _ _ E2)). rewrite upd_run, Hl by lia. eexists. split; [reflexivity|]. by apply Hset.
    + rewrite rd_run by lia. cbn [value_of]. erewrite bind_run by (rewrite bind_rd by lia; by apply wr_run).
      rewrite upd_run, reg_set_reg_eq by lia. eexists. split; [reflexivity|]. apply Hset, loop_kept_set; lia.
  - assert (imm12 inst .& BITMASK 16 = imm12 inst) as Ew.
    { unfold imm12. pose proof (land_BITMASK_range (inst >> 8) 8 ltac:(lia)) as H8. pose proof (land_BITMASK_range inst 4 ltac:(lia)) as H4'.
      change (2 ^ 8) with 256 in H8. change (2 ^ 4) with 16 in H4'. rewrite mask_16, shl_8, Z.mod_small; [done|]. rewrite !u32_small; rewrite ?u32_small; lia. }
    assert (dispatch opcodes_do (loop_mode inst) s0 = Done tt (set_reg DSP_REG_LC (imm12 inst) s0)) as ->.
    { transitivity (dsp_do_imm s0); [by destruct Hm as [->|[->|[->| ->]]]|]. unfold dsp_do_imm. rewrite bind_get_inst, Ei. by apply wr_run. }
    assert (value_of 0 (match loop_mode inst with 0 => read_memory space v | 2 => let* a := calc_ea_addr v in read_memory space a
      | 6 => read_source v | _ => ret (imm12 inst) end s0) = imm12 inst) as -> by (by destruct Hm as [->|[->|[->| ->]]]).
    rewrite Ew. eexists. split; [reflexivity|]. apply Hset, loop_kept_refl.
Qed.

(** What a DO leaves. *)
Lemma do_entered_facts s : count_readable s → stack_ok s → sp s < 13 →
  ∃ s1, dsp_do s = Done tt s1 ∧ reg DSP_REG_LC s1 = do_count s ∧
  reg DSP_REG_LA s1 = read_memory_p (pc (core s) + 1) (core s) .& BITMASK 16 ∧
  stack_ok s1 ∧ sp s1 = sp s + 2 ∧
  cell 0 (sp s + 2) s1 = u16 (pc (core s) + (cur_inst_len s + 1)) ∧ cell 1 (sp s + 2) s1 = u16 (reg DSP_REG_SR s) ∧
  cell 0 (sp s + 1) s1 = u16 (reg DSP_REG_LA s) ∧ cell 1 (sp s + 1) s1 = u16 (reg DSP_REG_LC s).
Proof.
  intros Hc Hok Hsp. destruct (do_stacked_facts s Hok Hsp) as (Hok1 & Hsp1 & C0 & C1 & C2 & C3 & HLA).
  destruct (count_read s Hc) as (s1 & E & HLC & K & Kc). exists s1.
  rewrite do_run, !Kc, (K DSP_REG_LA) by (done || lia). split_and!; [exact E|exact HLC|exact HLA| | |exact C0|exact C1|exact C2|exact C3].
  - apply (stack_ok_frame (do_stacked s)); [apply K; lia..|exact Hok1].
  - transitivity (sp (do_stacked s)); [apply (K DSP_REG_SP); lia|exact Hsp1].
Qed.


(** *** Examples *)

Lemma stack_refines_list_witness :
  ∃ s', dsp_stack_push 0x1234 0x0300 (regs_state 0 []) = Done tt s' ∧ frames s' = [(0x1234, 0x0300)].
Proof.
  destruct (stack_refines_list 0x1234 0x0300 (regs_state 0 [])) as [Hpush _];
    [by repeat split|].
  destruct Hpush as (s' & E & _ & Hf & _); [reflexivity|]. exists s'. split; [exact E|exact Hf].
Defined.

Lemma subroutine_returns_witness :
  let s := set_cur_inst_len 1 (regs_state 0x0d0123 [(DSP_REG_SR, 0x300)]) in
  ∃ s1 s3, dsp_jsr s = Done tt s1 ∧ pc (core s1) = 0x123 ∧ dsp_rts s1 = Done tt s3 ∧ pc (core s3) = 1.
Proof.
  intros s. set (s1 := jumped 0x123 (pushed 1 0x300 s)).
  destruct (subroutine_returns s s1) as (s1' & E & Hpc & _ & H); [by vm_compute..|].
  assert (dsp_jsr s = Done tt s1) as E1 by (vm_compute; reflexivity).
  rewrite E1 in E. injection E as <-.
  destruct H as [(s3 & E3 & Hpc3 & _) _]; [by repeat split|].
  exists s1, s3. split; [exact E1|]. split; [exact Hpc|]. split; [exact E3|exact Hpc3].
Defined.

Definition rep_example : cpu_t :=
  let s := regs_state 0 [(DSP_REG_LC, 3); (DSP_REG_LCSAVE, 77)] in
  set_core (set_loop_rep 1 (core s)) s.

Lemma rep_counts_witness :
  ∃ s', rep_passes 3 rep_example = Done tt s' ∧ loop_rep (core s') = 0 ∧ cur_inst_len s' = 1 ∧
        reg DSP_REG_LC s' = 77.
Proof.
  destruct (rep_counts 3 rep_example) as (_ & H & _); [by vm_compute|lia|]. exact H.
Defined.

(** A DO with its count, 5, in X0; and the ends of its first and of its last turn. *)
Definition do_example : cpu_t :=
  set_cur_inst_len 1 (regs_state 0x06c400 [(DSP_REG_SR, 0x300); (DSP_REG_LA, 0x50); (DSP_REG_LC, 7); (DSP_REG_X0, 0x20005)]).
Definition end_of_turn (n : Z) (s : cpu_t) : cpu_t :=
  set_core (set_pc 1 (core (set_reg DSP_REG_LC n s))) (set_reg DSP_REG_LC n s).


(** The arrays behind the stack have 15 entries, indexed by SSH and SSL after
    their increment: the fifteenth push is out of bounds, although the check on
    SP lets it through. *)
Lemma fifteenth_push_overruns :
  dsp_stack_push 0 0 (regs_state 0 [(DSP_REG_SP, 14); (DSP_REG_SSH, 14); (DSP_REG_SSL, 14)]) =
  Fault Oob_stack.
Proof. reflexivity. Qed.
