(* ===== verification/MemSpec.v ===== *)
(** * Correctness of the memory map

    The DSP's three address spaces X, Y and P are mapped onto internal memory,
    two tables of constants, the peripheral registers and one external memory
    that they share.  Reads and writes of the interpreter are shown to be reads
    and writes of a single abstract memory indexed by the place an address
    denotes. *)

From S2P Require Import Prelude Effects Tables DspCore Arith56 Cpu HostSpec.
From stdpp Require Import base gmap list numbers.
Open Scope Z_scope.
Open Scope c_scope.
Open Scope eff_scope.

(** ** The abstract memory *)

Inductive place :=
  | Internal (space a : Z)
  | Table (space a : Z)
  | Peripheral (space a : Z)
  | External (a : Z).
#[export] Instance place_eq_dec : EqDecision place.
Proof. solve_decision. Defined.

(** The place of an address; [de] is the data ROM enable bit of OMR. *)
Definition locate (de : bool) (space address : Z) : place :=
  let a := address mod 65536 in
  if a <? 0x100 then Internal space a
  else if space =? DSP_SPACE_P then
    if a <? 0x200 then Internal DSP_SPACE_P a else External (a mod 32768)
  else if de && (a <? 0x200) then Table space a
  else if 0xffc0 <=? a then Peripheral space (a - 0xffc0)
  else External ((if space =? DSP_SPACE_X then a + 16384 else a) mod 32768).

Definition contents (c : dsp_core_t) (p : place) : Z :=
  match p with
  | Internal space a => aget (ramint c) (space, a)
  | Table space a => aget (rom c) (space, a)
  | Peripheral space a => aget (periph c) (space, a)
  | External a => aget (ram c) (DSP_SPACE_P, a)
  end.

Definition is_table (p : place) : bool := match p with Table _ _ => true | _ => false end.

(** The places with effects beyond a plain store: the X peripheral registers. *)
Definition plain (p : place) : bool :=
  match p with Peripheral space _ => negb (space =? DSP_SPACE_X) | _ => true end.

(** ** Lemmas *)

Lemma ramsize_mask x : x .& (DSP_RAMSIZE - 1) = x mod 32768.
Proof. apply (Z.land_ones x 15). lia. Qed.

Lemma u16_ramsize x : u16 x mod 32768 = x mod 32768.
Proof. unfold u16. by rewrite Z.mod_mod_divide by (by exists 2). Qed.

Section Alone.
Context (h : sdl_call → Z).

Lemma alone_ld2 d1 d2 e f i j c : 0 <= i < d1 → 0 <= j < d2 →
  alone h (ld2 d1 d2 e f i j) c = Ok (aget (f c) (i, j)) c.
Proof.
  intros. unfold ld2, in_range. by replace ((0 <=? i) && (i <? d1) && ((0 <=? j) && (j <? d2))) with true by lia.
Qed.

Lemma alone_read space address c : 0 <= space < 3 → plain (locate (rom_enabled c) space address) = true →
  alone h (core_read_memory space address) c =
  Ok (contents c (locate (rom_enabled c) space address) mod 16777216) c.
Proof.
  intros Hs Hp. unfold core_read_memory, locate in *. fold (u16 address) in *.
  pose proof (u16_range address). cbv zeta in *.
  destruct (Z.ltb_spec (u16 address) 256).
  { eff. rewrite alone_ld2 by lia. eff. by carith. }
  destruct (Z.eqb_spec space DSP_SPACE_P) as [-> |].
  { eff. unfold read_memory_p. rewrite (u16_small (u16 address)) by done. cbv zeta.
    destruct (u16 address <? 512); by rewrite ?ramsize_mask, mask_24. }
  eff. destruct (rom_enabled c && (u16 address <? 512)) eqn:E.
  { rewrite alone_bind, alone_ld2 by lia. eff. by carith. }
  destruct (Z.leb_spec 65472 (u16 address)).
  { cbn [plain] in Hp. destruct (Z.eqb_spec space DSP_SPACE_X); [done|]. cbn [andb].
    eff. rewrite alone_ld2 by lia. eff. by carith. }
  change (DSP_RAMSIZE >> 1) with 16384.
  destruct (Z.eqb_spec space DSP_SPACE_X) as [-> |]; eff; rewrite ramsize_mask, ?u16_ramsize;
    (rewrite alone_ld2; [|lia|apply Z.mod_pos_bound; lia]); eff; by carith.
Qed.

(** A store to one place: [c'] differs from [c] there only. *)
Definition stored (p : place) (v : Z) (c c' : dsp_core_t) : Prop :=
  (∀ q, contents c' q = if decide (q = p) then v else contents c q) ∧
  registers c' = registers c ∧ hostport c' = hostport c ∧ pc c' = pc c ∧ stack c' = stack c.

Lemma st_ramint_run i j v c : 0 <= i < 3 → 0 <= j < 512 →
  ∃ c', alone h (st_ramint i j v) c = Ok tt c' ∧ stored (Internal i j) v c c'.
Proof.
  intros. unfold st_ramint, in_range.
  replace ((0 <=? i) && (i <? 3) && ((0 <=? j) && (j <? 512))) with true by lia.
  eexists. split; [reflexivity|]. split; [|done]. intros [s a|s a|s a|a]; try done. cbn.
  rewrite aget_aset. by repeat case_decide; try congruence.
Qed.
Lemma st_periph_run i j v c : 0 <= i < 2 → 0 <= j < 64 →
  ∃ c', alone h (st_periph i j v) c = Ok tt c' ∧ stored (Peripheral i j) v c c'.
Proof.
  intros. unfold st_periph, in_range.
  replace ((0 <=? i) && (i <? 2) && ((0 <=? j) && (j <? 64))) with true by lia.
  eexists. split; [reflexivity|]. split; [|done]. intros [s a|s a|s a|a]; try done. cbn.
  rewrite aget_aset. by repeat case_decide; try congruence.
Qed.
Lemma write_external_run a v c :
  ∃ c', alone h (write_external a v) c = Ok tt c' ∧ stored (External (a mod 32768)) v c c'.
Proof.
  unfold write_external, st_ram. rewrite ramsize_mask.
  pose proof (Z.mod_pos_bound a 32768 ltac:(lia)). unfold in_range.
  replace (_ && _) with true by lia.
  eexists. split; [reflexivity|]. split; [|done]. intros [s b|s b|s b|b]; try done. cbn.
  rewrite aget_aset. by repeat case_decide; try congruence.
Qed.

Lemma alone_write space address v c : 0 <= space < 3 →
  let p := locate (rom_enabled c) space address in
  plain p = true →
  ∃ c', alone h (core_write_memory_raw space address v) c = Ok tt c' ∧
    if is_table p then c' = c else stored p (v mod 16777216) c c'.
Proof.
  intros Hs p Hp. subst p. unfold core_write_memory_raw, locate in *. fold (u16 address) in *.
  pose proof (u16_range address). cbv zeta in *. rewrite mask_24.
  destruct (Z.ltb_spec (u16 address) 256).
  { cbn [is_table]. apply st_ramint_run; lia. }
  change (DSP_RAMSIZE >> 1) with 16384.
  destruct (Z.eqb_spec space DSP_SPACE_P) as [-> |].
  { cbn [Z.eqb Pos.eqb]. destruct (Z.ltb_spec (u16 address) 512); cbn [is_table].
    - apply st_ramint_run; lia.
    - apply write_external_run. }
  assert (space = DSP_SPACE_X ∨ space = DSP_SPACE_Y) as [-> | ->] by lia; cbn [Z.eqb Pos.eqb] in *;
    eff; (destruct (rom_enabled c && (u16 address <? 512)); [by exists c|]);
    destruct (Z.leb_spec 65472 (u16 address)); cbn [is_table plain Z.eqb negb] in *; try done.
  - rewrite <-u16_ramsize. apply write_external_run.
  - apply st_periph_run; lia.
  - apply write_external_run.
Qed.
End Alone.

(** ** The theorems *)

(** the memory map.  Apart from the X peripheral registers, reading any
    address of X, Y or P returns the 24-bit contents of the place it denotes
    and changes nothing, and writing it stores the low 24 bits of the value at
    that place and nowhere else, or does nothing if the place belongs to a table
    of constants. *)
Theorem memory_map h space address v c : 0 <= space < 3 →
  let p := locate (rom_enabled c) space address in
  plain p = true →
  alone h (core_read_memory space address) c = Ok (contents c p mod 16777216) c ∧
  ∃ c', alone h (core_write_memory_raw space address v) c = Ok tt c' ∧
    if is_table p then c' = c else stored p (v mod 16777216) c c'.
Proof. intros Hs p Hp. split; [by apply alone_read|by apply alone_write]. Qed.

Lemma memory_map_witness :
  let c := started in
  alone silent (core_read_memory DSP_SPACE_X 0x1000) c = Ok 0 c ∧
  ∃ c', alone silent (core_write_memory_raw DSP_SPACE_X 0x1000 0x1234567) c = Ok tt c' ∧
        stored (External 0x5000) 0x234567 c c'.
Proof. apply (memory_map silent DSP_SPACE_X 0x1000 0x1234567 started); [lia|reflexivity]. Defined.

(** read after write, through any alias.  After a write to an address of
    one space, reading an address of a space that denotes the same place, not
    in the tables of constants, returns the low 24 bits written; reading an
    address that denotes another place returns what it held before.  In
    particular X:a and P:a+$4000, and Y:a and P:a, are the same external words
    from $200 up to $FFBF. *)
Theorem read_after_write h space a v space' a' c : 0 <= space < 3 → 0 <= space' < 3 →
  let p := locate (rom_enabled c) space a in
  let p' := locate (rom_enabled c) space' a' in
  plain p = true → plain p' = true → is_table p = false →
  ∃ c', alone h (core_write_memory_raw space a v) c = Ok tt c' ∧
    alone h (core_read_memory space' a') c' =
      Ok (if decide (p' = p) then v mod 16777216 else contents c p' mod 16777216) c' ∧
    (∀ b, 0x200 <= b < 0xffc0 →
       locate (rom_enabled c) DSP_SPACE_Y b = locate (rom_enabled c) DSP_SPACE_P b ∧
       (b + 0x4000 < 65536 →
        locate (rom_enabled c) DSP_SPACE_X b = locate (rom_enabled c) DSP_SPACE_P (b + 0x4000))).
Proof.
  intros Hs Hs' p p' Hp Hp' Ht. destruct (alone_write h space a v c Hs Hp) as (c' & E & Hc).
  fold p in Hc. rewrite Ht in Hc. destruct Hc as (Hc & Hr & _). exists c'. split; [done|].
  assert (rom_enabled c' = rom_enabled c) as Er by (unfold rom_enabled; by rewrite Hr).
  split.
  - rewrite alone_read, Er by (rewrite ?Er; done). fold p'. rewrite Hc.
    case_decide; [by rewrite Z.mod_mod by lia|done].
  - intros b Hb. unfold locate. rewrite !(Z.mod_small b 65536) by lia.
    cbn [Z.eqb Pos.eqb]. ltb_lia. rewrite andb_false_r.
    replace (0xffc0 <=? b) with false by lia. split; [done|]. intros Hb4.
    rewrite (Z.mod_small (b + 0x4000) 65536) by lia. by ltb_lia.
Qed.

Lemma read_after_write_witness :
  ∃ c', alone silent (core_write_memory_raw DSP_SPACE_X 0x0300 0xabcdef) started = Ok tt c' ∧
        alone silent (core_read_memory DSP_SPACE_P 0x4300) c' = Ok 0xabcdef c'.
Proof.
  destruct (read_after_write silent DSP_SPACE_X 0x0300 0xabcdef DSP_SPACE_P 0x4300 started)
    as (c' & E & R & _); [lia|lia|reflexivity..|].
  exists c'. split; [exact E|exact R].
Defined.
