(* ===== verification/DivSpec.v ===== *)
(** * Division

    The DSP divides with DIV, one step of a non-restoring division; 24 of them
    (REP #24, DIV) leave the quotient in the low word of the accumulator.  The
    emulator's step is shown to be that step, and 24 of them to compute the
    quotient. *)

From S2P Require Import Prelude Effects DspCore Arith56 Arith56Spec Cpu CpuRun Control ParMove Alu AluSpec.
From stdpp Require Import base gmap list numbers.
Open Scope Z_scope.
Open Scope c_scope.

(** [n] steps: each takes the carry left by the previous one, the complement of
    the sign of its result. *)
Fixpoint div_steps (n : nat) (src carry : Z) (d : a56) : a56 * Z :=
  match n with
  | O => (d, carry)
  | S n => let d' := fst (div_step src carry d) in
           div_steps n src (1 -u ((w0 d' >> 7) .& 1)) d'
  end.

(** ** One step *)

Lemma lor_carry x c : 0 <= x → x mod 2 = 0 → 0 <= c < 2 → x .| c = x + c.
Proof.
  intros Hx He Hc. assert (x = x / 2 * 2) as E by zdiv_lia. rewrite E at 1.
  rewrite lor_double by lia. lia.
Qed.

Lemma div_step_value src c d : 0 <= src < 8388608 → 0 <= c < 2 → wf56 d →
  - 281474976710656 <= sval56 d < 281474976710656 →
  let d' := fst (div_step src c d) in
  wf56 d' ∧ sval56 d' = 2 * sval56 d - (if sval56 d <? 0 then - src else src) * two24 + c.
Proof.
  intros Hs Hc Hd Hr d'. subst d'. unfold div_step.
  destruct (sign_ext_value src 0) as [Hw Hv]; [lia|lia|].
  assert (s24 src = src) as Es by (unfold s24; by replace (src <? 8388608) with true by lia).
  rewrite Es, Z.add_0_r in Hv. set (source := A56 (sign_ext src) src 0) in *.
  destruct (asl56_words d Hd) as [Hw1 Hv1]. destruct (dsp_asl56 d) as [sh newsr]. cbn [fst] in *.
  rewrite sign_bit by apply Hd. rewrite sval56_neg by done.
  assert (((src >> 23) .& 1) = 0) as -> by (carith; zdiv_lia). rewrite Z.lxor_0_r.
  assert (sval56 sh = 2 * sval56 d) as Esh.
  { apply sval56_unique; [done|unfold fits56; lia|]. rewrite Hv1.
    by rewrite <-(sval56_mod d), Zmult_mod_idemp_r. }
  assert (∃ r, (if negb (c_bool (sval56 d <? 0) =? 0) then fst (dsp_add56 source sh)
     else fst (dsp_sub56 source sh)) = r ∧ wf56 r ∧
    sval56 r = 2 * sval56 d - (if sval56 d <? 0 then - src else src) * two24) as (r & -> & Hwr & Er).
  { destruct (sval56 d <? 0); cbn [c_bool Z.eqb negb].
    - destruct (add56_words source sh Hw Hw1) as [Hwr Hvr]. eexists. split; [done|]. split; [done|].
      apply sval56_unique; [done|unfold fits56; lia|].
      rewrite Hvr, <-(sval56_mod source), <-(sval56_mod sh), <-Zplus_mod, Esh, Hv by done. f_equal; lia.
    - destruct (sub56_words source sh Hw Hw1) as [Hwr Hvr]. eexists. split; [done|]. split; [done|].
      apply sval56_unique; [done|unfold fits56; lia|].
      rewrite Hvr, <-(sval56_mod source), <-(sval56_mod sh), <-Zminus_mod, Esh, Hv by done. f_equal; lia. }
  cbn [fst]. assert (w2 r mod 2 = 0) as Heven.
  { assert (val56 r mod 2 = 0) as Hev; [|unfold val56 in Hev; destruct Hwr as (?&?&?); zdiv_lia].
    rewrite <-(sval56_mod r), Er by done. destruct (sval56 d <? 0); zdiv_lia. }
  rewrite lor_carry by (destruct Hwr as (?&?&?); done || lia).
  destruct Hwr as (?&?&?). unfold wf56, sval56, val56 in *; cbn [w0 w1 w2] in *.
  destruct (w0 r <? 128); zdiv_lia.
Qed.

(** ** The loop *)

(** After [i] steps on the dividend [D]: the accumulator is the partial
    remainder [y] plus the quotient bits [Q] found so far, and the carry is the
    next quotient bit. *)
Definition div_inv (src D i : Z) (d : a56) (c : Z) : Prop :=
  ∃ y Q, wf56 d ∧ sval56 d = y + Q ∧ y mod 2 ^ i = 0 ∧ 0 <= Q < 2 ^ (i - 1) ∧
    - (src * two24) <= y < src * two24 ∧ c = c_bool (0 <=? y) ∧
    2 ^ i * D = y + src * two24 * (2 * Q + 1).

(** The sign of the accumulator is that of the partial remainder. *)
Lemma remainder_sign y Q m : 0 < m → y mod m = 0 → 0 <= Q < m → (y + Q <? 0) = (y <? 0).
Proof.
  intros Hm Hy HQ. pose proof (Z.div_mod y m ltac:(lia)) as E. rewrite Hy, Z.add_0_r in E.
  assert (y < 0 → y <= - m) by (intros; destruct (Z.lt_ge_cases (y / m) 0); nia).
  destruct (Z.ltb_spec y 0), (Z.ltb_spec (y + Q) 0); lia.
Qed.

(** The carry computed from the sign bit. *)
Lemma carry_of_sign d : wf56 d → 1 -u ((w0 d >> 7) .& 1) = c_bool (negb (sval56 d <? 0)).
Proof.
  intros H. rewrite sign_bit by apply H. rewrite sval56_neg by done. by destruct (sval56 d <? 0).
Qed.

Lemma two24_pow : two24 = 2 ^ 24.
Proof. reflexivity. Qed.

Lemma src_multiple x i : 0 <= i <= 24 → (x * two24) mod 2 ^ i = 0.
Proof.
  intros Hi. rewrite two24_pow. replace 24 with (24 - i + i) by lia.
  rewrite Z.pow_add_r, Z.mul_assoc by lia. apply Z.mod_mul. lia.
Qed.

Lemma div_first src D d : 0 < src < 8388608 → wf56 d → sval56 d = D → 0 <= D < src * two24 →
  let d' := fst (div_step src 0 d) in div_inv src D 1 d' (1 -u ((w0 d' >> 7) .& 1)).
Proof.
  intros Hs Hd HD Hr d'. destruct (div_step_value src 0 d) as [Hw Hv]; [lia|lia|done|lia|].
  fold d' in Hw, Hv. rewrite HD in Hv. replace (D <? 0) with false in Hv by lia.
  exists (2 * D - src * two24), 0. rewrite carry_of_sign, Hv by done.
  split; [done|]. split; [lia|]. split; [rewrite Z.pow_1_r; zdiv_lia|].
  split; [cbn; lia|]. split; [lia|]. split; [f_equal; lia|]. lia.
Qed.

Lemma div_next src D i d c : 0 < src < 8388608 → 1 <= i <= 23 → div_inv src D i d c →
  let d' := fst (div_step src c d) in div_inv src D (i + 1) d' (1 -u ((w0 d' >> 7) .& 1)).
Proof.
  intros Hs Hi (y & Q & Hd & Hx & Hy & HQ & Hb & Hc & HD) d'.
  assert (2 ^ i = 2 * 2 ^ (i - 1)) as Hp by (rewrite <-Z.pow_succ_r by lia; f_equal; lia).
  assert (2 ^ i <= 2 ^ 23) as Hp23 by (apply Z.pow_le_mono_r; lia). change (2 ^ 23) with 8388608 in Hp23.
  assert (0 <= c < 2) as Hc2 by (rewrite Hc; apply c_bool_range).
  destruct (div_step_value src c d) as [Hw Hv]; [lia|done|done|lia|]. fold d' in Hw, Hv.
  rewrite Hx, (remainder_sign y Q (2 ^ i)) in Hv by lia.
  set (y' := 2 * y - (if y <? 0 then - src else src) * two24). set (Q' := 2 * Q + c).
  assert (y' mod 2 ^ (i + 1) = 0) as Hy'.
  { unfold y'. rewrite Zminus_mod, src_multiple, Z.sub_0_r, Z.mod_mod by lia.
    rewrite Z.pow_add_r, Z.mul_comm by lia. rewrite Z.pow_1_r. rewrite Z.mul_mod_distr_r by lia. lia. }
  assert (0 <= Q' < 2 ^ (i + 1 - 1)) as HQ' by (replace (i + 1 - 1) with i by lia; unfold Q'; lia).
  assert (sval56 d' = y' + Q') as Hx' by (unfold y', Q'; lia).
  assert (2 ^ (i + 1) = 2 * 2 ^ i) as Hp1 by (rewrite <-Z.pow_succ_r by lia; f_equal; lia).
  exists y', Q'. rewrite carry_of_sign, Hx', (remainder_sign y' Q' (2 ^ (i + 1))) by
    (done || (replace (i + 1 - 1) with i in HQ' by lia; lia)).
  split; [done|]. split; [done|]. split; [done|]. split; [done|]. split; [|split; [f_equal; lia|]].
  - unfold y'. destruct (Z.ltb_spec y 0); lia.
  - rewrite Hp1, <-Z.mul_assoc, HD. unfold y', Q'. rewrite Hc.
    destruct (Z.leb_spec 0 y), (Z.ltb_spec y 0); cbn [c_bool]; lia.
Qed.

Lemma div_steps_inv n src D i d c : 0 < src < 8388608 → 1 <= i → i + Z.of_nat n <= 24 →
  div_inv src D i d c →
  div_inv src D (i + Z.of_nat n) (fst (div_steps n src c d)) (snd (div_steps n src c d)).
Proof.
  intros Hs. revert i d c. induction n as [|n IH]; intros i d c Hi Hn H; cbn [div_steps].
  - by rewrite Z.add_0_r.
  - replace (i + Z.of_nat (S n)) with (i + 1 + Z.of_nat n) by lia. apply IH; [lia|lia|].
    apply div_next; [done|lia|done].
Qed.

Lemma div_steps_S n src c d : div_steps (S n) src c d =
  let d' := fst (div_step src c d) in div_steps n src (1 -u ((w0 d' >> 7) .& 1)) d'.
Proof. reflexivity. Qed.

Lemma division_steps n src d : Z.of_nat n = 23 → 0 < src < 8388608 → wf56 d →
  0 <= sval56 d < src * two24 → w2 (fst (div_steps (S n) src 0 d)) = sval56 d / (2 * src).
Proof.
  intros Hn Hs Hd Hr. set (D := sval56 d) in *. rewrite div_steps_S.
  pose proof (div_first src D d Hs Hd eq_refl Hr) as H1. cbv zeta in *.
  pose proof (div_steps_inv n src D 1 _ _ Hs ltac:(lia) ltac:(lia) H1)
    as (y & Q & Hw & Hx & Hy & HQ & Hb & _ & HD).
  set (r := fst (div_steps n src _ _)) in *. clearbody r. rewrite Hn in *.
  change (2 ^ (1 + 23)) with two24 in *. change (2 ^ (1 + 23 - 1)) with 8388608 in *.
  assert (w2 r = Q) as ->.
  { assert (val56 r mod two24 = Q) as E.
    - rewrite <-(sval56_mod r), Hx by done. rewrite Z.mod_mod_divide by (by exists 4294967296).
      rewrite Zplus_mod, Hy, Z.add_0_l, Z.mod_mod by lia. apply Z.mod_small. lia.
    - unfold val56 in E. destruct Hw as (?&?&?). zdiv_lia. }
  apply Z.div_unique with (D - 2 * src * Q); nia.
Qed.

(** ** The instruction *)

Fixpoint repeat_div (n : nat) : C unit :=
  match n with O => ret tt | S n => bind dsp_div (λ _, repeat_div n) end.

Definition sr_carry (s : cpu_t) : Z := (reg DSP_REG_SR s >> DSP_SR_C) .& 1.

Lemma low_bit x : (x >> 0) .& 1 = c_bool (Z.testbit x 0).
Proof. rewrite Z.shiftr_0_r, mask_1, Zmod_odd, Z.bit0_odd. by destruct (Z.odd x). Qed.

(** DIV applies one step and leaves the complement of the sign in the carry. *)
Lemma dsp_div_run s :
  let n := (cur_inst s >> 3) .& 1 in
  let d := fst (div_step (reg (div_srcreg (cur_inst s)) s) (sr_carry s) (accu n s)) in
  ∃ v, dsp_div s = Done tt (set_reg DSP_REG_SR v (set_accu n d s)) ∧
    (v >> DSP_SR_C) .& 1 = 1 -u ((w0 d >> 7) .& 1).
Proof.
  intros n. pose proof (alu_dest_range (cur_inst s) : 0 <= n <= 1) as Hn.
  assert (0 <= div_srcreg (cur_inst s) < 64) by (unfold div_srcreg; repeat case_match; lia).
  unfold dsp_div, sr_carry. run. fold n. run.
  destruct (div_step _ _ (accu n s)) as [d newsr]. cbv zeta. cbn [fst]. run.
  eexists. split; [reflexivity|]. rewrite low_bit, !Z.lor_spec, sr_assign_bits, !Z.land_spec by done.
  destruct (bit_cases (w0 d) 7) as [-> | ->]; cbn; by rewrite ?andb_false_r, ?orb_true_r, ?orb_false_r.
Qed.

Lemma repeat_div_run k s :
  let n := (cur_inst s >> 3) .& 1 in
  ∃ s', repeat_div k s = Done tt s' ∧
    accu n s' = fst (div_steps k (reg (div_srcreg (cur_inst s)) s) (sr_carry s) (accu n s)).
Proof.
  intros n. pose proof (alu_dest_range (cur_inst s) : 0 <= n <= 1) as Hn.
  assert (4 <= div_srcreg (cur_inst s) < 8) by (unfold div_srcreg; repeat case_match; lia).
  revert s n Hn H. induction k as [|k IH]; intros s n Hn H; [by exists s|].
  destruct (dsp_div_run s) as (v & E & Hv). fold n in E, Hv. cbn [repeat_div].
  rewrite (bind_run _ _ _ _ _ E), div_steps_S. cbv zeta. set (d := fst (div_step _ _ _)) in *.
  set (s1 := set_reg DSP_REG_SR v _). destruct (IH s1) as (s' & E' & Hs'); [done..|].
  exists s'. split; [done|].
  change ((cur_inst s1 >> 3) .& 1) with n in Hs'. change (cur_inst s1) with (cur_inst s) in Hs'.
  rewrite Hs'. unfold s1 at 3. rewrite accu_set_sr, accu_set_accu by done. do 2 f_equal.
  - unfold s1. by rewrite reg_set_reg_ne, reg_set_accu by lia.
  - unfold sr_carry, s1. by rewrite reg_set_reg_eq.
Qed.

(** C35: division.  For a positive divisor in the register DIV selects and a
    non-negative dividend in the accumulator smaller than the divisor (as
    fractions), 24 DIV instructions starting with the carry clear leave in the
    low word of the accumulator the quotient rounded down (dividend * 2^23 /
    divisor on the scale of fractions). *)
Theorem division_correct s :
  let n := (cur_inst s >> 3) .& 1 in
  let src := reg (div_srcreg (cur_inst s)) s in
  0 < src < 8388608 → wf56 (accu n s) → 0 <= sval56 (accu n s) < src * two24 →
  Z.testbit (reg DSP_REG_SR s) DSP_SR_C = false →
  ∃ s', repeat_div 24 s = Done tt s' ∧ w2 (accu n s') = sval56 (accu n s) / (2 * src).
Proof.
  intros n src Hs Hw Hr Hc. destruct (repeat_div_run 24 s) as (s' & E & Hs').
  exists s'. split; [done|]. fold n src in Hs'. rewrite Hs'.
  unfold sr_carry. rewrite low_bit, Hc. by apply division_steps.
Qed.

Definition div_example : cpu_t :=
  regs_state 0x018040 [(DSP_REG_A1, 0x200000); (DSP_REG_X0, 0x600000); (DSP_REG_SR, 0x0300)].

Lemma division_correct_witness :
  ∃ s', repeat_div 24 div_example = Done tt s' ∧ w2 (accu 0 s') = 0x200000 * two24 / (2 * 0x600000).
Proof.
  apply (division_correct div_example); [by vm_compute..|reflexivity].
Defined.
