(* ===== verification/MoveSpec.v ===== *)
(** * Data moves: the limiter and register widths

    Reading an accumulator for a move goes through the limiter, which
    saturates.  The ALU instructions keep every data register within its
    width. *)

From S2P Require Import Prelude Effects DspCore Arith56 Arith56Spec Cpu CpuRun Control ParMove Alu.
From S2P Require Import Exec AluSpec Safety.
From stdpp Require Import base gmap list numbers.
Open Scope Z_scope.
Open Scope c_scope.
Open Scope eff_scope.

(** ** The limiter *)

(** Saturation to a 24-bit signed number. *)
Definition saturate24 (x : Z) : Z := Z.max (-8388608) (Z.min 8388607 x).

(** The value a move of accumulator [d] reads in scaling mode [sc], and whether
    it was limited. *)
Definition limited (sc : Z) (d : a56) : bool := negb (within (ccr_bound sc) (sval56 d)).
Definition limiter (sc : Z) (d : a56) : Z :=
  if limited sc d then (if sval56 d <? 0 then 0x800000 else 0x7fffff) else w1 d.

(** The integer part the source compares with all zeros and all ones. *)
Lemma limiter_test sc d : wf56 d → 0 <= sc <= 2 →
  (let '(value, numbits) :=
     if sc =? 0 then (((w0 d .& 0xff) << 1) .| ((w1 d >> 23) .& 1), 9)
     else if sc =? 2 then (((w0 d .& 0xff) << 2) .| ((w1 d >> 22) .& 3), 10)
     else (w0 d .& 0xff, 8) in
   (value =? 0) || (value =? BITMASK numbits)) = within (ccr_bound sc) (sval56 d).
Proof.
  intros (H0 & H1 & H2) Hs. unfold ccr_bound, within. carith.
  change (BITMASK 9) with 511. change (BITMASK 8) with 255. change (BITMASK 10) with 1023.
  rewrite (Z.mod_small (w0 d)), (u32_small (w0 d * 2)), (u32_small (w0 d * 4)) by lia.
  rewrite lor_double, lor_quad by zdiv_lia.
  assert (sc = 0 ∨ sc = 1 ∨ sc = 2) as [-> | [-> | ->]] by lia; cbn [Z.eqb Pos.eqb];
    change (BITMASK 9) with 511; change (BITMASK 8) with 255; change (BITMASK 10) with 1023;
    unfold sval56, val56; destruct (Z.ltb_spec (w0 d) 128); apply eq_true_iff_eq; zdiv_lia.
Qed.

Lemma read_accu24_run n s : 0 <= n <= 1 → regs_ok s → ccr_scaling (reg DSP_REG_SR s) ≠ 3 →
  let sc := ccr_scaling (reg DSP_REG_SR s) in
  dsp_pm_read_accu24 n to_local s =
  Done (limited sc (accu n s), limiter sc (accu n s))
    (if limited sc (accu n s) then set_reg DSP_REG_SR (reg DSP_REG_SR s .| (1 << DSP_SR_L)) s else s).
Proof.
  intros Hn Hr Hs sc. pose proof (accu_wf n s Hn Hr) as Hw. pose proof (ccr_scaling_range (reg DSP_REG_SR s)).
  fold sc in Hs, H. pose proof (limiter_test sc (accu n s) Hw ltac:(lia)) as Ht.
  unfold dsp_pm_read_accu24. run. fold sc.
  assert (n .& 1 = n) as -> by (by assert (n = 0 ∨ n = 1) as [-> | ->] by lia).
  run. change (reg (DSP_REG_A2 + n) s) with (w0 (accu n s)).
  change (reg (DSP_REG_A1 + n) s) with (w1 (accu n s)).
  destruct (if sc =? 0 then _ else _) as [value numbits]. rewrite Ht.
  unfold limiter, limited. destruct (within (ccr_bound sc) (sval56 (accu n s))); cbn [negb].
  - done.
  - rewrite tst_7 by apply Hw. rewrite sval56_neg by done.
    destruct (sval56 (accu n s) <? 0); unfold to_local; run; done.
Qed.

Lemma limiter_value d : wf56 d → s24 (limiter 0 d) = saturate24 (sval56 d / two24).
Proof.
  intros (H0 & H1 & H2). unfold limiter, limited, within.
  set (hi := if w0 d <? 128 then w0 d else w0 d - 256).
  assert (sval56 d = (hi * two24 + w1 d) * two24 + w2 d) as ->
    by (unfold sval56, val56, hi; destruct (w0 d <? 128); lia).
  rewrite Z.div_add_l, (Z.div_small (w2 d)), Z.add_0_r by lia.
  assert (-128 <= hi < 128) as Hhi by (unfold hi; destruct (Z.ltb_spec (w0 d) 128); lia). clearbody hi.
  assert (ccr_bound 0 = 140737488355328) as Hb by reflexivity. generalize dependent (ccr_bound 0).
  intros b Hb. unfold saturate24, s24.
  destruct (Z.leb_spec (- b) ((hi * two24 + w1 d) * two24 + w2 d)),
    (Z.ltb_spec ((hi * two24 + w1 d) * two24 + w2 d) b); cbn [andb negb];
    try (destruct (Z.ltb_spec ((hi * two24 + w1 d) * two24 + w2 d) 0));
    try change (8388608 <? 8388608) with false; try change (8388607 <? 8388608) with true;
    cbv iota; try lia; destruct (Z.ltb_spec (w1 d) 8388608); lia.
Qed.

(** limiting.  In a defined scaling mode, reading an accumulator for a
    move returns its middle word when it has no integer part, and otherwise the
    most negative or most positive word according to its sign, setting L and
    nothing else.  Without scaling this is saturation of the accumulator,
    rounded down to 24 bits. *)
Theorem limiter_saturates n s : 0 <= n <= 1 → regs_ok s → ccr_scaling (reg DSP_REG_SR s) ≠ 3 →
  let sc := ccr_scaling (reg DSP_REG_SR s) in
  dsp_pm_read_accu24 n to_local s =
  Done (limited sc (accu n s), limiter sc (accu n s))
    (if limited sc (accu n s) then set_reg DSP_REG_SR (reg DSP_REG_SR s .| (1 << DSP_SR_L)) s else s) ∧
  (sc = 0 → s24 (limiter sc (accu n s)) = saturate24 (sval56 (accu n s) / two24)).
Proof.
  intros Hn Hr Hs sc. split; [by apply read_accu24_run|]. intros ->.
  apply limiter_value, accu_wf; done.
Qed.

Lemma limiter_saturates_witness :
  s24 (limiter 0 (accu 1 (alu_example 0))) = saturate24 (- two55 / two24).
Proof.
  apply (limiter_saturates 1 (alu_example 0)); [lia|apply regs_ok_check; vm_compute; reflexivity
    |vm_compute; congruence|reflexivity].
Defined.

(** ** Register widths *)

Definition width_protocol : protocol cpu_t := inv_protocol regs_ok (λ _, False).
Abbreviation wide m Q := (keeps width_protocol m Q).

Definition word24 (x : Z) : Prop := 0 <= x < two24.
Definition opt_wf (o : option a56) : Prop := match o with Some a => wf56 a | None => True end.

Lemma regs_ok_set n v s : n < 4 ∨ 14 <= n ∨ 0 <= v < 2 ^ reg_bits n → regs_ok s → regs_ok (set_reg n v s).
Proof.
  intros Hn Hs m Hm. destruct (decide (n = m)) as [-> |].
  - rewrite reg_set_reg_eq. lia.
  - rewrite reg_set_reg_ne by done. by apply Hs.
Qed.

Lemma wide_rd n : 0 <= n < 64 → wide (rd n) any.
Proof. intros Hn s Hs. unfold wp. by rewrite rd_run. Qed.
Lemma wide_word n : 4 <= n < 8 ∨ 12 <= n < 14 → wide (rd n) word24.
Proof.
  intros Hn s Hs. unfold wp. rewrite rd_run by lia. split; [done|].
  assert (n = 12 ∨ n = 13 ∨ DSP_REG_X0 <= n <= DSP_REG_Y1) as [-> | [-> | ?]] by lia.
  - exact (Hs 12 ltac:(lia)).
  - exact (Hs 13 ltac:(lia)).
  - by apply word_ok.
Qed.
Lemma wide_rd_accu n : 0 <= n <= 1 → wide (rd_accu n) wf56.
Proof. intros Hn s Hs. unfold wp. rewrite rd_accu_run by done. split; [done|by apply accu_wf]. Qed.
Lemma wide_wr_accu n d : 0 <= n <= 1 → wf56 d → wide (wr_accu n d) any.
Proof.
  intros Hn (H0 & H1 & H2) s Hs. unfold wp. rewrite wr_accu_run by done. split; [|done].
  unfold set_accu. assert (n = 0 ∨ n = 1) as [-> | ->] by lia;
    repeat (apply regs_ok_set; [right; right; assumption|]); done.
Qed.
Lemma wide_upd_sr f : wide (upd DSP_REG_SR f) any.
Proof. intros s Hs. unfold wp. rewrite upd_run by lia. split; [|done]. by apply regs_ok_set; [lia|]. Qed.
Lemma wide_wr_word n v : 12 <= n < 14 → word24 v → wide (wr n v) any.
Proof.
  intros Hn Hv s Hs. unfold wp. rewrite wr_run by lia. split; [|done]. apply regs_ok_set; [|done].
  right; right. assert (n = 12 ∨ n = 13) as [-> | ->] by lia; exact Hv.
Qed.
Lemma wide_inst : wide get_inst any.
Proof. by apply (keeps_gets _ _ any). Qed.

Create HintDb wide.
#[local] Hint Resolve wide_upd_sr wide_inst : wide.
#[local] Hint Extern 1 (keeps _ (rd (DSP_REG_A1 + alu_dest ?i)) _) =>
  (apply wide_word; pose proof (alu_dest_range i); lia) : wide.
#[local] Hint Extern 1 (keeps _ (rd (logic_srcreg ?i)) _) =>
  (apply wide_word; pose proof (logic_srcreg_range i); lia) : wide.
#[local] Hint Extern 2 (keeps _ (rd DSP_REG_SR) _) => (apply wide_rd; lia) : wide.
#[local] Hint Extern 1 (keeps _ (rd_accu (alu_dest ?i)) _) =>
  (apply wide_rd_accu; apply alu_dest_range) : wide.
#[local] Hint Extern 1 (keeps _ (rd_accu (alu_dest ?i .^ 1)) _) =>
  (apply wide_rd_accu; pose proof (other_range i); lia) : wide.

(** Results of the 56-bit operations are well formed. *)
Lemma wf_add a b d n : dsp_add56 a b = (d, n) → wf56 a → wf56 b → wf56 d.
Proof. intros E Ha Hb. pose proof (proj1 (add56_words a b Ha Hb)) as H. by rewrite E in H. Qed.
Lemma wf_sub a b d n : dsp_sub56 a b = (d, n) → wf56 a → wf56 b → wf56 d.
Proof. intros E Ha Hb. pose proof (proj1 (sub56_words a b Ha Hb)) as H. by rewrite E in H. Qed.
Lemma wf_asl a d n : dsp_asl56 a = (d, n) → wf56 a → wf56 d.
Proof. intros E Ha. pose proof (proj1 (asl56_words a Ha)) as H. by rewrite E in H. Qed.
Lemma wf_asr a d n : dsp_asr56 a = (d, n) → wf56 a → wf56 d.
Proof. intros E Ha. pose proof (proj1 (asr56_words a Ha)) as H. by rewrite E in H. Qed.
Lemma wf_neg a : wf56 a → wf56 (fst (dsp_sub56 a zero56)).
Proof. intros. by apply neg56_words. Qed.
Lemma wf_abs a : wf56 a → wf56 (fst (dsp_abs56 a)).
Proof. intros. by apply abs56_words. Qed.
Lemma wf_rnd sr a : wf56 a → wf56 (dsp_rnd56 sr a).
Proof. intros. by apply rnd56_convergent. Qed.
Lemma wf_one : wf56 (A56 0 0 1).
Proof. by vm_compute. Qed.
#[local] Hint Resolve wf_add wf_sub wf_asl wf_asr wf_neg wf_abs wf_rnd wf_one wf_zero56 : wide.
#[local] Hint Extern 1 (keeps _ (wr_accu (alu_dest ?i) _) _) =>
  (apply wide_wr_accu; [apply alu_dest_range|]) : wide.
Ltac wides := repeat first [solve [eauto 6 with wide nocore] | progress keeps_step; cbv beta zeta].

Lemma wide_src_word r : 4 <= r < 8 → wide (src_word r) wf56.
Proof.
  intros Hr. unfold src_word. eapply keeps_bind; [apply wide_word; lia|]. intros x Hx.
  apply keeps_ret. by apply (sign_ext_value x 0).
Qed.
Lemma wide_src_long r r' : 4 <= r < 8 → 4 <= r' < 8 → wide (src_long r r') wf56.
Proof.
  intros Hr Hr'. unfold src_long. eapply keeps_bind; [apply wide_word; lia|]. intros x Hx.
  eapply keeps_bind; [apply wide_word; lia|]. intros y Hy. apply keeps_ret. by apply (sign_ext_value x y).
Qed.
#[local] Hint Extern 1 (keeps _ (src_word _) _) => (apply wide_src_word; lia) : wide.
#[local] Hint Extern 1 (keeps _ (src_long _ _) _) => (apply wide_src_long; lia) : wide.

(** An operand wrapped in [Some]. *)
Lemma wide_some (m : C a56) : wide m wf56 → wide (let* a := m in ret (Some a)) opt_wf.
Proof. intros Hm. eapply keeps_bind; [exact Hm|]. intros a Ha. by apply keeps_ret. Qed.
#[local] Hint Resolve wide_some : wide.

Lemma wide_src_words j : wide (src_words j) opt_wf.
Proof. unfold src_words. repeat (apply keeps_if; intros _; [solve [eauto with wide]|]). by apply keeps_ret. Qed.
Lemma wide_add_source i j : wide (add_source (alu_dest i) j) opt_wf.
Proof.
  unfold add_source. do 3 (apply keeps_if; intros _; [solve [eauto with wide]|]). apply wide_src_words.
Qed.
Lemma wide_cmp_source i j : wide (cmp_source (alu_dest i) j) opt_wf.
Proof. unfold cmp_source. apply keeps_if; intros _; [solve [eauto with wide]|]. apply wide_src_words. Qed.
Lemma wide_adc_source i : wide (adc_source i) wf56.
Proof. unfold adc_source. apply keeps_if; intros _; eauto with wide. Qed.
Lemma wide_alu_finish i d n : wf56 d → wide (alu_finish (alu_dest i) d n) any.
Proof. intros. unfold alu_finish. wides. Qed.
#[local] Hint Resolve wide_add_source wide_cmp_source wide_adc_source wide_alu_finish : wide.

Lemma wide_mpy_product i : wide (mpy_product i) wf56.
Proof.
  unfold mpy_product. pose proof (factors_range i) as Hf. unfold factors, jjj in Hf.
  destruct (nth _ registers_mpy (0, 0)) as [r1 r2]. destruct Hf.
  eapply keeps_bind; [apply wide_word; lia|]. intros x Hx.
  eapply keeps_bind; [apply wide_word; lia|]. intros y Hy.
  apply keeps_ret. destruct (mul56_signed x y Hx Hy) as [Hw _].
  destruct (tst i (1 << 2)); [by apply wf_neg|done].
Qed.
#[local] Hint Resolve wide_mpy_product : wide.

(** The operand and the operation of ADD and SUB. *)
Lemma wide_arith : wide dsp_add any ∧ wide dsp_sub any ∧ wide dsp_cmp any ∧ wide dsp_cmpm any ∧
  wide dsp_tfr any.
Proof.
  unfold dsp_add, dsp_sub, dsp_cmp, dsp_cmpm, dsp_tfr. split; [|split; [|split; [|split]]]; wides.
Qed.

Lemma wide_carry : wide dsp_adc any ∧ wide dsp_sbc any.
Proof.
  unfold dsp_adc, dsp_sbc. split.
  all: eapply keeps_bind; [apply wide_inst|intros inst _].
  all: eapply keeps_bind; [apply wide_rd; lia|intros sr _]; cbv zeta.
  all: eapply keeps_bind; [apply wide_rd_accu, alu_dest_range|intros dest Hd].
  all: eapply keeps_bind; [apply wide_adc_source|intros src Hs].
  - destruct (dsp_add56 src dest) as [d n] eqn:E. destruct (negb _); [|eauto with wide].
    destruct (dsp_add56 (A56 0 0 1) d) as [d' n'] eqn:E'. eauto with wide.
  - destruct (dsp_sub56 src dest) as [d n] eqn:E. destruct (negb _); [|eauto with wide].
    destruct (dsp_sub56 (A56 0 0 1) d) as [d' n'] eqn:E'. eauto with wide.
Qed.

Lemma wide_shift_combine shift op :
  (∀ a d n, shift a = (d, n) → wf56 a → wf56 d) →
  (∀ a b d n, op a b = (d, n) → wf56 a → wf56 b → wf56 d) → wide (shift_and_combine shift op) any.
Proof. intros Hsh Hop. unfold shift_and_combine. wides. Qed.
Lemma wide_arith_shift shift : (∀ a d n, shift a = (d, n) → wf56 a → wf56 d) → wide (arith_shift shift) any.
Proof. intros Hsh. unfold arith_shift. wides. Qed.

Lemma wide_unary : wide dsp_abs any ∧ wide dsp_neg any ∧ wide dsp_clr any ∧ wide dsp_tst any ∧
  wide dsp_rnd any ∧ wide dsp_mpy any ∧ wide dsp_mpyr any ∧ wide dsp_mac any ∧ wide dsp_macr any.
Proof.
  unfold dsp_abs, dsp_neg, dsp_clr, dsp_tst, dsp_rnd, dsp_mpy, dsp_mpyr, dsp_mac, dsp_macr.
  repeat split; wides.
Qed.

Lemma word24_mask x : word24 (x .& BITMASK 24).
Proof. apply (land_BITMASK_range x 24). lia. Qed.
Lemma word24_half x : word24 x → word24 (x >> 1).
Proof. intros. by apply shiftr_range. Qed.
#[local] Hint Resolve word24_mask word24_half : wide.
#[local] Hint Extern 1 (keeps _ (wr (DSP_REG_A1 + alu_dest ?i) _) _) =>
  (apply wide_wr_word; [pose proof (alu_dest_range i); lia|]) : wide.

Lemma wide_logic : (∀ f, wide (logic_op f) any) ∧ wide dsp_not any ∧ wide dsp_lsl any ∧
  wide dsp_lsr any ∧ wide dsp_rol any ∧ wide dsp_ror any.
Proof.
  unfold logic_op, dsp_not, dsp_lsl, dsp_lsr, dsp_rol, dsp_ror. repeat split; intros; wides.
Qed.

(** The entries of the ALU tables. *)
Ltac wide_entries :=
  destruct wide_arith as (?&?&?&?&?), wide_carry as (?&?), wide_unary as (?&?&?&?&?&?&?&?&?),
    wide_logic as (?&?&?&?&?&?);
  repeat first [apply Forall_nil | apply Forall_cons];
  first [assumption
        | by apply wide_shift_combine; eauto with wide
        | by apply wide_arith_shift; eauto with wide
        | match goal with H : ∀ f, keeps _ (logic_op f) _ |- _ => apply H end
        | by apply keeps_ret
        | by apply keeps_modify].

Lemma wide_alu003f : Forall (λ f, wide f any) opcodes_alu003f.
Proof. wide_entries. Qed.
Lemma wide_alu407f : Forall (λ f, wide f any) opcodes_alu407f.
Proof. wide_entries. Qed.
Lemma wide_alu80ff : Forall (λ f, wide f any) opcodes_alu80ff.
Proof. wide_entries. Qed.

(** C38: register widths.  Every ALU instruction, for every one of its 256
    encodings, keeps X0, X1, Y0, Y1 and the parts A0, A1, B0, B1 within 24 bits
    and A2, B2 within 8 bits, performs no invalid access and completes. *)
Theorem alu_keeps_widths inst h s : regs_ok s →
  ∃ s', alone h (dispatch_alu inst) s = Ok tt s' ∧ regs_ok s'.
Proof.
  intros Hs. assert (wide (dispatch_alu inst) any) as Hw.
  { unfold dispatch_alu. pose proof (land_BITMASK_range inst 8 ltac:(lia)) as H. note_range H.
    apply keeps_if; intros E; [apply safe_dispatch; [apply wide_alu003f|cbn; lia]|].
    apply keeps_if; intros E'; (apply safe_dispatch; [apply wide_alu407f || apply wide_alu80ff|]);
      cbn [length opcodes_alu407f opcodes_alu80ff]; fields; lia. }
  pose proof (keeps_alone width_protocol h _ any s ltac:(done) Hw Hs) as H.
  destruct (alone h (dispatch_alu inst) s) as [[] s'|e]; [|done]. exists s'. by destruct H.
Qed.

Lemma alu_keeps_widths_witness :
  ∃ s', alone (λ _, 0) (dispatch_alu 0x40) (alu_example 0x40) = Ok tt s' ∧ regs_ok s'.
Proof. apply (alu_keeps_widths 0x40 (λ _, 0) (alu_example 0x40)). apply regs_ok_check. vm_compute. reflexivity. Defined.

(** ** Parallel register moves *)

(** The prepared moves and their source values are those of [X]. *)
Definition moves_kept (X s : cpu_t) : Prop :=
  same_moves X s ∧ tmp_parmove_src s = tmp_parmove_src X.

(** One entry of row 0 written to a register. *)
Lemma write_one_register j n v s : 0 <= j < 3 → 0 <= n < 64 →
  aget (tmp_parmove_type s) 0 = 0 → aget (tmp_parmove_src s) (0, j) = v →
  tmp_parmove_dest s !! (0, j) = Some (host_pointer n) →
  parmove_write_one 0 j s = Done tt (set_reg n v s).
Proof.
  intros Hj Hn Ht Hs Hd. unfold parmove_write_one, ld_src. rewrite bind_gets, Ht.
  rewrite !in_range_true by lia. cbn [andb]. rewrite !bind_gets, Hs, Hd. cbn [Z.eqb negb].
  by apply wr_run.
Qed.

(** A row that is not used. *)
Lemma write_row_empty i s : aget (tmp_parmove_len s) i = 0 → parmove_write_row i s = Done tt s.
Proof. intros H. unfold parmove_write_row. by rewrite !bind_gets, H. Qed.

(** The sources and destination of a move to [dst], prepared in row 0. *)
Definition prepared (dst e v : Z) (X : cpu_t) : Prop :=
  aget (tmp_parmove_type X) 0 = 0 ∧ aget (tmp_parmove_len X) 1 = 0 ∧
  aget (tmp_parmove_src X) (0, 1) = v ∧
  if is_accu dst then
    aget (tmp_parmove_start X) 0 = 0 ∧ aget (tmp_parmove_len X) 0 = 3 ∧
    aget (tmp_parmove_src X) (0, 0) = e ∧ aget (tmp_parmove_src X) (0, 2) = 0 ∧
    tmp_parmove_dest X !! (0, 0) = Some (host_pointer (DSP_REG_A2 + (dst .& 1))) ∧
    tmp_parmove_dest X !! (0, 1) = Some (host_pointer (DSP_REG_A1 + (dst .& 1))) ∧
    tmp_parmove_dest X !! (0, 2) = Some (host_pointer (DSP_REG_A0 + (dst .& 1)))
  else
    aget (tmp_parmove_start X) 0 = 1 ∧ aget (tmp_parmove_len X) 0 = 1 ∧
    tmp_parmove_dest X !! (0, 1) = Some (host_pointer dst).

Lemma prepared_write dst e v s : 0 <= dst < 64 → prepared dst e v s →
  dsp_parmove_write s =
  Done tt (if is_accu dst then set_accu (dst .& 1) (A56 e v 0) s else set_reg dst v s).
Proof.
  intros Hd (Ht & Hl1 & Hv & H).
  pose proof (land_range_r dst 1 1 ltac:(lia) ltac:(lia)) as Hb. change (2 ^ 1) with 2 in Hb.
  assert (parmove_write_row 0 s = Done tt
    (if is_accu dst then set_accu (dst .& 1) (A56 e v 0) s else set_reg dst v s)) as E.
  { unfold parmove_write_row. rewrite !bind_gets. destruct (is_accu dst).
    - destruct H as (-> & -> & He & H2 & D0 & D1 & D2).
      change (Z.to_nat 3) with 3%nat. cbn [parmove_write_loop].
      rewrite (bind_run _ _ _ _ _ (write_one_register 0 (DSP_REG_A2 + (dst .& 1)) e s ltac:(lia) ltac:(lia) Ht He D0)).
      set (s1 := set_reg _ e s).
      rewrite (bind_run _ _ _ _ _ (write_one_register 1 (DSP_REG_A1 + (dst .& 1)) v s1 ltac:(lia) ltac:(lia) Ht Hv D1)).
      set (s2 := set_reg _ v s1).
      by rewrite (bind_run _ _ _ _ _ (write_one_register 2 (DSP_REG_A0 + (dst .& 1)) 0 s2 ltac:(lia) ltac:(lia) Ht H2 D2)).
    - destruct H as (-> & -> & D1). change (Z.to_nat 1) with 1%nat. cbn [parmove_write_loop].
      by rewrite (bind_run _ _ _ _ _ (write_one_register 1 dst v s ltac:(lia) ltac:(lia) Ht Hv D1)). }
  unfold dsp_parmove_write. rewrite (bind_run _ _ _ _ _ E). apply write_row_empty.
  by destruct (is_accu dst).
Qed.

(** Evaluates reads of the arrays of prepared moves. *)
Ltac moves :=
  repeat first [rewrite aget_aset_eq | rewrite aget_aset_ne by done
               | rewrite lookup_insert_eq | rewrite lookup_insert_ne by done].

Ltac projections :=
  cbn [core tmp_parmove_src tmp_parmove_dest tmp_parmove_start tmp_parmove_len tmp_parmove_type
       set_tmp_parmove_src set_tmp_parmove_dest set_tmp_parmove_start set_tmp_parmove_len
       set_tmp_parmove_type].

(** Preparing a register-to-register move. *)
Lemma pm_2_2_prepares s : let inst := cur_inst s in
  let src := (inst >> 13) .& BITMASK 5 in
  let dst := (inst >> 8) .& BITMASK 5 in
  let v := reg src s .& reg_mask src in
  is_accu src = false → aget (tmp_parmove_len s) 1 = 0 →
  ∃ s1, dsp_pm_2_2 s = Done tt s1 ∧ core s1 = core s ∧ prepared dst (sign_ext v) v s1.
Proof.
  intros inst src dst v Hsrc Hl.
  assert (0 <= src < 32) as Hs by (apply (land_BITMASK_range _ 5); lia).
  unfold dsp_pm_2_2. rewrite bind_get_inst. fold inst src dst. rewrite Hsrc.
  unfold st_src. cbn [in_range Z.leb Z.ltb Z.compare Pos.compare Pos.compare_cont andb].
  rewrite !bind_modify. set (t := set_tmp_parmove_src _ _).
  assert (∃ t2, (let* r := rd src in
     modify (λ s, set_tmp_parmove_src (aset (0, 1) (r .& reg_mask src) (tmp_parmove_src s)) s) ;;
     when (is_accu dst)
       (let* v := ld_src 0 1 in
        when (tst v (1 << 23))
          (modify (λ s, set_tmp_parmove_src (aset (0, 0) 0xff (tmp_parmove_src s)) s)))) t = Done tt t2 ∧
     core t2 = core s ∧ tmp_parmove_len t2 = tmp_parmove_len s ∧
     aget (tmp_parmove_src t2) (0, 1) = v ∧ aget (tmp_parmove_src t2) (0, 2) = 0 ∧
     (is_accu dst = true → aget (tmp_parmove_src t2) (0, 0) = sign_ext v))
    as (t2 & E & Hc & Hl2 & H1 & H2 & H0).
  { rewrite bind_rd by lia. change (reg src t .& reg_mask src) with v. rewrite bind_modify.
    destruct (is_accu dst); cbn [when].
    - unfold ld_src. cbn [in_range Z.leb Z.ltb Z.compare Pos.compare Pos.compare_cont andb].
      rewrite bind_gets. cbn [tmp_parmove_src set_tmp_parmove_src]. rewrite aget_aset_eq.
      unfold sign_ext. destruct (tst v (1 << 23)); cbn [when]; eexists; (split; [reflexivity|]);
        unfold t; projections; moves; auto 10.
    - eexists. split; [reflexivity|]. unfold t.
      projections. moves; repeat split; done. }
  rewrite (bind_run _ _ _ _ _ E). clearbody t. unfold dsp_pm_writereg, prepared.
  destruct (is_accu dst) eqn:Ed; eexists; (split; [reflexivity|]); projections; moves; rewrite Hl2;
    moves; repeat split; auto.
Qed.

(** parallel moves read before the ALU operates.  An instruction with a
    register-to-register move takes the value of the source register before its
    ALU operation; whatever the operation makes of the registers and memories,
    as long as it leaves the prepared move alone, the destination then receives
    that value, sign extended to 56 bits if it is an accumulator, and nothing
    else changes. *)
Theorem parallel_move_reads_first s :
  let inst := cur_inst s in
  let src := (inst >> 13) .& BITMASK 5 in
  let dst := (inst >> 8) .& BITMASK 5 in
  let v := reg src s .& reg_mask src in
  (inst >> 20) .& BITMASK 4 = 2 → (inst >> 8) .& 0xffff ≠ 0x2000 →
  (inst >> 8) .& 0xffe0 ≠ 0x2040 → (inst >> 8) .& 0xfc00 = 0x2000 → is_accu src = false →
  ∃ s1, dsp_parmove_read s = Done tt s1 ∧ core s1 = core s ∧
    ∀ s2, moves_kept s1 s2 →
      dsp_parmove_write s2 =
      Done tt (if is_accu dst then set_accu (dst .& 1) (A56 (sign_ext v) v 0) s2
               else set_reg dst v s2).
Proof.
  intros inst src dst v Hop Hnop Hea Hmv Hsrc.
  set (t := set_tmp_parmove_len (aset 0 0 (aset 1 0 (tmp_parmove_len s))) s).
  destruct (pm_2_2_prepares t) as (s1 & E & Hc & Hp); [done|by unfold t; projections; moves|].
  exists s1. split; [|split; [done|]].
  - unfold dsp_parmove_read, st_len. rewrite !bind_modify, bind_get_inst.
    change (cur_inst _) with inst at 1. rewrite Hop.
    change (dispatch opcodes_parmove 2) with dsp_pm_2. unfold dsp_pm_2. rewrite bind_get_inst.
    change (cur_inst _) with inst. rewrite !(proj2 (Z.eqb_neq _ _)), Hmv by done. exact E.
  - intros s2 ((E1 & E2 & E3 & E4 & E5) & E6). apply prepared_write.
    { assert (0 <= dst < 32) by (apply (land_BITMASK_range _ 5); lia). lia. }
    unfold prepared in *. rewrite E1, E2, E3, E4, E6. exact Hp.
Qed.

(** ADD X0,A with X0 moved to B. *)
Lemma parallel_move_reads_first_witness :
  ∃ s1, dsp_parmove_read (alu_example 0x208f40) = Done tt s1 ∧ core s1 = core (alu_example 0x208f40).
Proof.
  destruct (parallel_move_reads_first (alu_example 0x208f40)) as (s1 & E & Hc & _);
    [reflexivity|vm_compute; congruence|vm_compute; congruence|reflexivity|reflexivity|].
  exists s1. split; [exact E|exact Hc].
Defined.
