(* ===== verification/ExecSpec.v ===== *)
(** * Correctness of decoding and interrupts *)

From S2P Require Import Prelude Effects Tables DspCore Arith56 Arith56Spec Cpu CpuRun Control ParMove.
From S2P Require Import Alu Exec AluSpec HostSpec LoopSpec Safety.
From stdpp Require Import base gmap list numbers.
Open Scope Z_scope.
Open Scope c_scope.
Open Scope eff_scope.

(** ** Interrupts *)

(** The interrupt priority level of the processor and of a source. *)
Definition ipl (s : cpu_t) : Z := (reg DSP_REG_SR s >> DSP_SR_I0) .& BITMASK 2.
Definition ipl_hi (s : cpu_t) : Z := ipl_of 10 (core s).
Definition ipl_ssi (s : cpu_t) : Z := ipl_of 12 (core s).

(** No interrupt may be taken: a REP is in progress, or neither trace nor SWI is
    pending and the processor is at level 3 or above both peripherals. *)
Definition masked (s : cpu_t) : Prop :=
  loop_rep (core s) ≠ 0 ∨
  (interrupt_state (core s) ≠ DSP_INTERRUPT_FAST ∧
   tst (reg DSP_REG_SR s) (1 << DSP_SR_T) = false ∧ swi_inter (core s) ≠ 1 ∧
   (ipl s = 3 ∨ ipl_hi s < ipl s ∧ ipl_ssi s < ipl s)).

(** masking.  When no interrupt may be taken, the interrupt phase of an
    instruction changes nothing, whatever the peripherals request. *)
Theorem masked_interrupts_wait s : masked s → dsp_postexecute_interrupts s = Done tt s.
Proof.
  intros [Hrep | (Hf & Ht & Hswi & Hipl)]; unfold dsp_postexecute_interrupts; rewrite bind_gets.
  { by rewrite (proj2 (Z.eqb_neq _ _)) by done. }
  destruct (negb (loop_rep (core s) =? 0)); [done|].
  rewrite bind_gets, (proj2 (Z.eqb_neq _ DSP_INTERRUPT_FAST)) by done.
  rewrite bind_rd, bind_gets, Ht by lia. rewrite (proj2 (Z.eqb_neq _ 1)) by done.
  fold (ipl s). destruct (Z.eqb_spec (ipl s) 3); [done|]. destruct Hipl as [? | [Hh Hs]]; [done|].
  assert (peripheral_interrupts (ipl s) s = Done 99 s) as E.
  { unfold peripheral_interrupts. rewrite !bind_gets. fold (ipl_hi s) (ipl_ssi s).
    replace (ipl s <=? ipl_hi s) with false by lia. replace (ipl s <=? ipl_ssi s) with false by lia.
    by destruct (ipl_ssi s <=? ipl_hi s). }
  by rewrite (bind_run _ _ _ _ _ E).
Qed.

Lemma masked_interrupts_wait_witness :
  dsp_postexecute_interrupts (regs_state 0 [(DSP_REG_SR, 0x0300)]) =
  Done tt (regs_state 0 [(DSP_REG_SR, 0x0300)]).
Proof.
  apply (masked_interrupts_wait (regs_state 0 [(DSP_REG_SR, 0x0300)])).
  right. split; [by vm_compute|]. split; [by vm_compute|]. split; [by vm_compute|]. left. by vm_compute.
Defined.

(** The status register inside a long interrupt of level [lvl]. *)
Definition interrupt_sr (lvl sr : Z) : Z :=
  sr_assign ((1 << DSP_SR_LF) .| (1 << DSP_SR_T) .| (1 << DSP_SR_S1) .| (1 << DSP_SR_S0)
             .| (1 << DSP_SR_I0) .| (1 << DSP_SR_I1)) (lvl << DSP_SR_I0) sr.

(** A vector that holds a JSR. *)
Definition long_vector (s : cpu_t) : Prop :=
  let f := interrupt_instr_fetch (core s) in
  vector_is_jsr (read_memory_p f (core s)) || vector_is_jsr (read_memory_p (f + 1) (core s)) = true.

(** The last assignments of the entry: go to the vector and forget it. *)
Definition at_vector (t : cpu_t) : cpu_t :=
  let c := core t in
  set_core (set_interrupt_save_pc (u32 (-1)) (set_interrupt_instr_fetch (u32 (-1))
    (set_pc (u16 (interrupt_instr_fetch c)) c))) t.

Lemma at_vector_facts t : (∀ n, reg n (at_vector t) = reg n t) ∧
  (∀ row i, cell row i (at_vector t) = cell row i t) ∧
  pc (core (at_vector t)) = u16 (interrupt_instr_fetch (core t)) ∧
  interrupt_state (core (at_vector t)) = interrupt_state (core t).
Proof. done. Qed.

Lemma at_vector_run t :
  bind (gets (λ s, interrupt_instr_fetch (core s))) (λ fetch,
    put_pc fetch ;; put_fetch (u32 (-1)) ;; mod_core (set_interrupt_save_pc (u32 (-1)))) t =
  Done tt (at_vector t).
Proof. reflexivity. Qed.

Lemma enter_long_run lvl s : stack_ok s → sp s < 14 → long_vector s →
  let t := set_core (set_interrupt_state DSP_INTERRUPT_LONG (core s)) s in
  enter_interrupt lvl s = Done tt (at_vector (set_reg DSP_REG_SR
    (interrupt_sr lvl (reg DSP_REG_SR s)) (pushed (pc (core s)) (reg DSP_REG_SR s) t))).
Proof.
  intros Hok Hsp Hv t. unfold enter_interrupt, fetch_p. rewrite !bind_gets. rewrite Hv.
  rewrite (bind_run (mod_core (set_interrupt_state DSP_INTERRUPT_LONG)) _ s t tt) by done.
  unfold get_pc. rewrite bind_gets, bind_rd by lia.
  change (pc (core t)) with (pc (core s)). change (reg DSP_REG_SR t) with (reg DSP_REG_SR s).
  rewrite (bind_run _ _ _ _ _ (push_run _ _ t Hok Hsp)). set (t1 := pushed _ _ t).
  rewrite bind_upd by lia. assert (reg DSP_REG_SR t1 = reg DSP_REG_SR s) as ->
    by (unfold t1; rewrite reg_pushed by lia; done).
  exact (at_vector_run _).
Qed.

Lemma enter_long lvl s : stack_ok s → sp s < 14 → long_vector s →
  ∃ s1, enter_interrupt lvl s = Done tt s1 ∧
    interrupt_state (core s1) = DSP_INTERRUPT_LONG ∧
    pc (core s1) = u16 (interrupt_instr_fetch (core s)) ∧
    reg DSP_REG_SR s1 = interrupt_sr lvl (reg DSP_REG_SR s) ∧
    stack_ok s1 ∧ sp s1 = sp s + 1 ∧
    cell 0 (sp s1) s1 = u16 (pc (core s)) ∧ cell 1 (sp s1) s1 = u16 (reg DSP_REG_SR s).
Proof.
  intros Hok Hsp Hv. rewrite enter_long_run by done. eexists. split; [done|].
  set (t := set_core _ s). set (t1 := pushed _ _ t). set (t2 := set_reg DSP_REG_SR _ t1).
  destruct (at_vector_facts t2) as (Hr & Hc & Hpc & Hst).
  assert (∀ n, DSP_REG_SP <= n <= DSP_REG_SSL → reg n (at_vector t2) = reg n t1) as Hn
    by (intros; rewrite Hr; unfold t2; by run).
  assert (sp (at_vector t2) = sp s + 1) as Esp.
  { transitivity (sp t1); [apply (Hn DSP_REG_SP); lia|]. apply (sp_pushed _ _ t). }
  split; [done|]. split; [done|]. split; [rewrite Hr; apply reg_set_reg_eq|].
  split; [apply (stack_ok_frame t1); [apply (Hn DSP_REG_SP); lia|apply (Hn DSP_REG_SSH); lia
      |apply (Hn DSP_REG_SSL); lia|by apply stack_ok_pushed]|].
  split; [done|]. rewrite Esp, !Hc. unfold t2. rewrite !cell_set_reg. unfold t1.
  change (sp s + 1) with (sp t + 1). by rewrite !cell_pushed by auto.
Qed.

Lemma interrupt_sr_level lvl sr : 0 <= lvl < 4 → (interrupt_sr lvl sr >> DSP_SR_I0) .& BITMASK 2 = lvl.
Proof.
  intros Hl. unfold interrupt_sr, sr_assign.
  rewrite Z.shiftr_lor, Z.land_lor_distr_l, Z.shiftr_land, <-Z.land_assoc.
  change (Z.land _ (BITMASK 2)) with 0 at 1. rewrite Z.land_0_r, Z.lor_0_l.
  by assert (lvl = 0 ∨ lvl = 1 ∨ lvl = 2 ∨ lvl = 3) as [-> | [-> | [-> | ->]]] by lia.
Qed.

(** A JSR executed as the first instruction of a long interrupt. *)
Lemma jsr_in_interrupt s : interrupt_state (core s) = DSP_INTERRUPT_LONG →
  (cur_inst s >> 12) .& BITMASK 4 = 0 →
  ∃ s', dsp_jsr s = Done tt s' ∧ pc (core s') = u16 (cur_inst s .& BITMASK 12) ∧
    interrupt_state (core s') = DSP_INTERRUPT_NONE ∧ same_stack s s' = same_stack s s.
Proof.
  intros Hi Hm. unfold dsp_jsr. rewrite bind_get_inst, Hm. cbn [Z.eqb]. rewrite bind_ret, bind_gets, Hi.
  cbn [Z.eqb Pos.eqb negb]. eexists. split; [reflexivity|]. done.
Qed.

(** long interrupts.  If the interrupt vector holds a JSR, entering the
    interrupt stacks the PC and SR, raises the processor to the level of the
    interrupt and goes to the vector; the JSR there does not stack anything
    again; and once the handler has left the stack as it was, RTI resumes the
    interrupted program: PC, SR and stack pointer are those of before. *)
Theorem long_interrupt_returns lvl s : stack_ok s → sp s < 14 → long_vector s → 0 <= lvl < 4 →
  0 <= pc (core s) < 65536 → 0 <= reg DSP_REG_SR s < 65536 →
  ∃ s1, enter_interrupt lvl s = Done tt s1 ∧
    pc (core s1) = u16 (interrupt_instr_fetch (core s)) ∧ ipl s1 = lvl ∧
    (∀ i, (i >> 12) .& BITMASK 4 = 0 → ∃ s2, dsp_jsr (set_cur_inst i s1) = Done tt s2 ∧
       pc (core s2) = u16 (i .& BITMASK 12) ∧ sp s2 = sp s1) ∧
    (∀ s2, same_stack s1 s2 → ∃ s3, dsp_rti s2 = Done tt s3 ∧ pc (core s3) = pc (core s) ∧
       reg DSP_REG_SR s3 = reg DSP_REG_SR s ∧ sp s3 = sp s).
Proof.
  intros Hok Hsp Hv Hl Hpc Hsr.
  destruct (enter_long lvl s Hok Hsp Hv) as (s1 & E & Hst & Hp & HS & Hok1 & Hsp1 & Hc0 & Hc1).
  pose proof Hok as (_ & _ & Hr). fold (sp s) in Hr.
  exists s1. split; [done|]. split; [done|]. split; [unfold ipl; rewrite HS; by apply interrupt_sr_level|].
  split.
  - intros i Hi. destruct (jsr_in_interrupt (set_cur_inst i s1) Hst Hi) as (s2 & E2 & Hp2 & _ & Hsame).
    exists s2. split; [done|]. split; [done|].
    assert (same_stack (set_cur_inst i s1) s2) as (_ & Hs & _) by (by rewrite Hsame). done.
  - intros s2 (Hok2 & Hsp2 & Hc2).
    destruct (rti_run s2) as (s3 & E3 & Hp3 & HS3 & Hs3); [done|lia|]. exists s3.
    rewrite Hp3, HS3, Hs3, Hsp2, !Hc2, Hc0, Hc1, !u16_small by (rewrite ?u16_small; lia).
    repeat split; try done; lia.
Qed.

(** An interrupt at P:$0020 whose vector is a JSR to $0123. *)
Definition interrupt_example : cpu_t :=
  let s := regs_state 0 [(DSP_REG_SR, 0x0001)] in
  let c := set_ramint (aset (DSP_SPACE_P, 0x20) 0x0d0123 (ramint (core s))) (core s) in
  set_core (set_interrupt_instr_fetch 0x20 (set_pc 0x456 c)) s.

Lemma long_interrupt_returns_witness :
  ∃ s1, enter_interrupt 2 interrupt_example = Done tt s1 ∧ pc (core s1) = 0x20 ∧ ipl s1 = 2.
Proof.
  destruct (long_interrupt_returns 2 interrupt_example) as (s1 & E & Hp & Hi & _);
    [by vm_compute|by vm_compute|by vm_compute|lia|by vm_compute|by vm_compute|].
  exists s1. split; [exact E|]. split; [exact Hp|exact Hi].
Defined.

(** *** Fast interrupts *)

(** The state while the two instructions of a fast interrupt execute: the PC of
    the interrupted program is kept aside. *)
Definition in_fast_interrupt (fetch save : Z) (s : cpu_t) : Prop :=
  interrupt_state (core s) = DSP_INTERRUPT_FAST ∧ interrupt_instr_fetch (core s) = fetch ∧
  interrupt_save_pc (core s) = save ∧ loop_rep (core s) = 0.

(** The entry of a fast interrupt. *)
Definition fast_entered (s : cpu_t) : cpu_t :=
  let c := core s in
  set_core (set_pc (u16 (interrupt_instr_fetch c))
    (set_interrupt_save_pc (pc c) (set_interrupt_state DSP_INTERRUPT_FAST c))) s.

Lemma enter_fast lvl s : ¬ long_vector s → enter_interrupt lvl s = Done tt (fast_entered s).
Proof.
  intros Hv. unfold long_vector in Hv. cbv zeta in Hv. apply not_true_is_false in Hv.
  unfold enter_interrupt, fetch_p. rewrite !bind_gets. by rewrite Hv.
Qed.

Lemma fast_phase fetch save s : in_fast_interrupt fetch save s → 0 <= fetch < 65534 →
  dsp_postexecute_interrupts s =
  Done tt (if pc (core s) <? fetch + 2 then s else
    let c := core s in
    set_core (set_interrupt_save_pc (u32 (-1)) (set_interrupt_state DSP_INTERRUPT_NONE
      (set_interrupt_instr_fetch (u32 (-1))
        (if pc c =? fetch + 2 then set_pc (u16 save) c else c)))) s).
Proof.
  intros (Hst & Hf & Hsv & Hl) Hr. unfold dsp_postexecute_interrupts. rewrite bind_gets, Hl.
  cbn [Z.eqb negb]. rewrite bind_gets, Hst. cbn [Z.eqb Pos.eqb]. unfold fast_interrupt_end, get_pc.
  rewrite !bind_gets, Hf. rewrite u32_small by lia.
  destruct (Z.ltb_spec (pc (core s)) (fetch + 2)).
  - by replace (fetch + 2 <=? pc (core s)) with false by lia.
  - replace (fetch + 2 <=? pc (core s)) with true by lia. cbn [when].
    destruct (pc (core s) =? fetch + 2); cbn [when]; [|done].
    rewrite <-Hsv. reflexivity.
Qed.

(** fast interrupts.  If the vector holds no JSR, entering the interrupt
    only sets the PC to the vector and remembers the PC: registers, SR and stack
    are untouched.  While the interrupt lasts no other interrupt is taken; when
    its two words have been executed the PC is again the one remembered and
    interrupts are possible again; if the program jumped elsewhere, the interrupt
    ends without touching the PC. *)
Theorem fast_interrupt_returns lvl s : ¬ long_vector s →
  0 <= interrupt_instr_fetch (core s) < 65534 → 0 <= pc (core s) < 65536 → loop_rep (core s) = 0 →
  let fetch := interrupt_instr_fetch (core s) in
  ∃ s1, enter_interrupt lvl s = Done tt s1 ∧ pc (core s1) = fetch ∧
    in_fast_interrupt fetch (pc (core s)) s1 ∧
    registers (core s1) = registers (core s) ∧ stack (core s1) = stack (core s) ∧
    ∀ s2, in_fast_interrupt fetch (pc (core s)) s2 →
      ∃ s3, dsp_postexecute_interrupts s2 = Done tt s3 ∧
        if pc (core s2) <? fetch + 2 then s3 = s2
        else interrupt_state (core s3) = DSP_INTERRUPT_NONE ∧
             pc (core s3) = if pc (core s2) =? fetch + 2 then pc (core s) else pc (core s2).
Proof.
  intros Hv Hf Hp Hl fetch. exists (fast_entered s). rewrite enter_fast by done.
  split; [done|]. split; [apply u16_small; lia|]. do 3 (split; [done|]).
  intros s2 H2. rewrite (fast_phase _ _ _ H2) by done. eexists. split; [done|].
  destruct (pc (core s2) <? fetch + 2); [done|]. split; [done|]. cbv zeta.
  destruct (pc (core s2) =? fetch + 2); [|done]. cbn. apply u16_small. lia.
Qed.

(** SWI at P:$0456 with two NOPs at its vector. *)
Lemma fast_interrupt_returns_witness :
  let s := set_core (set_interrupt_instr_fetch 6 (set_pc 0x456 zeroed_core)) (cpu_init zeroed_core) in
  ∃ s1, enter_interrupt 3 s = Done tt s1 ∧ pc (core s1) = 6.
Proof.
  intros s. destruct (fast_interrupt_returns 3 s) as (s1 & E & Hpc & _);
    [by vm_compute|by vm_compute|by vm_compute|reflexivity|].
  exists s1. split; [exact E|exact Hpc].
Defined.

(** ** Decoding *)

(** The first test of [dsp56k_execute_instruction]: is the instruction one
    without parallel moves? *)
Definition no_parmove (inst : Z) : bool :=
  (hibyte inst <? 0x10) && negb (inst .& 0xfe4000 =? 0x080000).

(** The bits of the test that matter for the opcodes $08 and $09. *)
Lemma opcode_0809_bits inst : hibyte inst = 8 ∨ hibyte inst = 9 → Z.testbit inst 14 = false →
  inst .& 0xfe4000 = 0x080000.
Proof.
  intros H H14.
  assert (inst .& 0xfe0000 = 0x080000) as E.
  { transitivity (Z.shiftl (hibyte inst .& 0xfe) 16).
    - unfold hibyte. rewrite !Z.shiftl_land, Z.shiftl_mul_pow2, Z.shiftr_div_pow2 by lia.
      rewrite Z.land_assoc || idtac.
      apply Z.bits_inj'. intros i Hi. rewrite !Z.land_spec.
      change (Z.shiftl (BITMASK 8) 16) with 0xff0000. change (Z.shiftl 0xfe 16) with 0xfe0000.
      destruct (Z.lt_ge_cases i 16).
      + rewrite Z.mul_pow2_bits_low by lia. rewrite andb_false_l.
        assert (Z.testbit 0xfe0000 i = false) as ->; [|by rewrite andb_false_r].
        apply eqb_prop, (indices_forallb 16 (λ i, eqb (Z.testbit 0xfe0000 i) false)); [reflexivity|lia].
      + rewrite Z.mul_pow2_bits, Z.div_pow2_bits by lia. replace (i - 16 + 16) with i by lia.
        destruct (Z.lt_ge_cases i 24).
        * assert (Z.testbit 0xff0000 i = true) as ->; [|by rewrite andb_true_r].
          pose proof (indices_forallb 8 (λ j, Z.testbit 0xff0000 (j + 16)) eq_refl (i - 16) ltac:(lia)) as Hb.
          cbv beta in Hb. by replace (i - 16 + 16) with i in Hb by lia.
        * by rewrite (range_bits 0xfe0000 24), !andb_false_r by lia.
    - destruct H as [-> | ->]; reflexivity. }
  change 0xfe4000 with (Z.lor 0xfe0000 (2 ^ 14)). rewrite Z.land_lor_distr_r, E.
  assert (inst .& 2 ^ 14 = 0) as ->; [|done].
  apply Z.bits_inj'. intros i Hi. rewrite Z.land_spec, Z.pow2_bits_eqb, Z.bits_0 by lia.
  destruct (Z.eqb_spec 14 i) as [<-|]; [by rewrite H14|apply andb_false_r].
Qed.

(** Once the first test has let an opcode $08 or $09 through, bit 14 is set, so
    the rows of [opcodes_0809] with [dsp_move_pm] are never selected. *)
Lemma movep_rows inst : hibyte inst = 8 ∨ hibyte inst = 9 → no_parmove inst = true →
  opcodes_0809 !! Z.to_nat ((inst >> 12) .& BITMASK 4) = Some dsp_movep.
Proof.
  intros H Hn.
  assert (Z.testbit inst 14 = true) as H14.
  { destruct (Z.testbit inst 14) eqn:E; [done|]. unfold no_parmove in Hn.
    by rewrite (opcode_0809_bits inst), andb_false_r in Hn. }
  set (v := (inst >> 12) .& BITMASK 4).
  assert (Z.testbit v 2 = true) as Hv.
  { unfold v. rewrite Z.land_spec, Z.shiftr_spec by lia. change (2 + 12) with 14. by rewrite H14. }
  pose proof (land_BITMASK_range (inst >> 12) 4 ltac:(lia)) as Hr. fold v in Hr.
  change (2 ^ 4) with 16 in Hr.
  assert (v ∈ [0; 1; 2; 3; 4; 5; 6; 7; 8; 9; 10; 11; 12; 13; 14; 15]) as Hin by (set_unfold; lia).
  clearbody v. set_unfold in Hin. destruct_or! Hin; subst v; by try discriminate.
Qed.

(** MOVEP decoding.  An instruction with opcode $08 or $09 that
    [dsp56k_execute_instruction] routes to the opcodes without parallel move is
    executed as MOVEP, whatever the state: the eight rows of [opcodes_0809] that
    name [dsp_move_pm] are unreachable. *)
Theorem opcode_0809_is_movep s :
  hibyte (cur_inst s) = 8 ∨ hibyte (cur_inst s) = 9 → no_parmove (cur_inst s) = true →
  opcode8h_8 s = dsp_movep s.
Proof.
  intros H Hn. unfold opcode8h_8, get_inst, bind, gets. cbn [obind]. unfold dispatch.
  by rewrite (movep_rows _ H Hn).
Qed.

(** MOVEP X:(R0)+,X:$FFEB. *)
Lemma opcode_0809_is_movep_witness :
  opcode8h_8 (set_cur_inst 0x08d8ab (regs_state 0 [])) = dsp_movep (set_cur_inst 0x08d8ab (regs_state 0 [])).
Proof. apply opcode_0809_is_movep; [by left|reflexivity]. Defined.

(** ** Two defects of the tables and of the host interrupts *)

(** The row "11 001" of [opcodes_0b] (a bit of a register is set: JSSET) holds
    the function of JSCLR; the corresponding row of [opcodes_0a] is right. *)
Lemma jsset_register_runs_jsclr s : opcode_0ab (cur_inst s) = 25 →
  opcode8h_b s = dsp_jsclr s ∧ opcode8h_a s = dsp_jset s.
Proof.
  intros E. unfold opcode8h_a, opcode8h_b, get_inst, bind, gets. cbn [obind]. by rewrite E.
Qed.

(** Taking the host receive interrupt clears HRDF but leaves TRDY as it was, so
    TRDY no longer tells the truth. *)
Definition receive_interrupt_example : cpu_t := cpu_init (set_px DSP_HOST_HCR 1 (host_send 1 started)).

Lemma receive_interrupt_breaks_trdy :
  trdy_ok (core receive_interrupt_example) ∧
  match alone silent dsp_hi_interrupts receive_interrupt_example with
  | Ok _ s => ¬ trdy_ok (core s)
  | Err _ => False
  end.
Proof. split; vm_compute; [done|discriminate]. Qed.
