(* ===== verification/Throws.v ===== *)
(** * Throws: computations of the 68040 side

    The processor, its memory management unit and the devices on the bus are C++
    code over a mutable state that throws exceptions ([THROW(2)] is a bus error of
    the emulated machine).  A piece of it is a function [X S A] from a state to an
    outcome and the state it leaves, also when it throws:

    - [Ret a]: it returned [a];
    - [Throw n]: it threw [m68k_exception(n)];
    - [Undef f]: it left what the C++ language defines: it touched host memory
      outside the emulated machine or an array outside its bounds, called
      [abort()], divided by zero, overflowed an [int], or a loop went on longer than
      its bound ([No_fuel]).

    [xkeeps I m]: [m] keeps the invariant [I], as long as it stays defined;
    [xtotal I Q m]: it stays defined and returns, too. *)

From S2P Require Import Prelude.
From stdpp Require Import base gmap list numbers.
Open Scope Z_scope.
Open Scope c_scope.

Inductive ufault := Oob_host | Oob_atc | Oob_device | Abort_called | No_fuel | Int_overflow | Div_by_zero.

Inductive xout (A : Type) := Ret (a : A) | Throw (n : Z) | Undef (f : ufault).
Arguments Ret {A} a.
Arguments Throw {A} n.
Arguments Undef {A} f.

Definition X (S A : Type) : Type := S → xout A * S.

Declare Scope x_scope.
Delimit Scope x_scope with x.

Definition xret {S A} (a : A) : X S A := λ s, (Ret a, s).

Definition xbind {S A B} (m : X S A) (f : A → X S B) : X S B := λ s,
  match m s with
  | (Ret a, s') => f a s'
  | (Throw n, s') => (Throw n, s')
  | (Undef e, s') => (Undef e, s')
  end.

Notation "'let*' x := m 'in' k" := (xbind m (λ x, k))
  (at level 10, x name, m at level 100, k at level 200) : x_scope.
Notation "m ;; k" := (xbind m (λ _, k)) (at level 100, k at level 200, right associativity) : x_scope.
Open Scope x_scope.

Definition xget {S A} (f : S → A) : X S A := λ s, (Ret (f s), s).
Definition xmod {S} (f : S → S) : X S unit := λ s, (Ret tt, f s).
Definition throw {S A} (n : Z) : X S A := λ s, (Throw n, s).
Definition xundef {S A} (f : ufault) : X S A := λ s, (Undef f, s).
Definition xwhen {S} (b : bool) (m : X S unit) : X S unit := if b then m else xret tt.

(** [TRY] with its [CATCH]. *)
Definition try_catch {S A} (m : X S A) (h : Z → X S A) : X S A := λ s,
  match m s with
  | (Throw n, s') => h n s'
  | r => r
  end.

(** A loop over a list. *)
Fixpoint xfor {S A} (l : list A) (f : A → X S unit) : X S unit :=
  match l with
  | [] => xret tt
  | a :: l => f a ;; xfor l f
  end.

(** A loop that fills an array. *)
Fixpoint xmap {S A B} (f : A → X S B) (l : list A) : X S (list B) :=
  match l with
  | [] => xret []
  | a :: l => let* b := f a in let* bs := xmap f l in xret (b :: bs)
  end.

(** A computation on a component of the state. *)
Definition xzoom {S T A} (get : S → T) (put : T → S → S) (m : X T A) : X S A := λ s,
  match m (get s) with (r, t) => (r, put t s) end.

(** The results of [int] arithmetic. *)
Definition int_result {S} (z : Z) : X S Z := if in_range (- 2 ^ 31) (2 ^ 31) z then xret z else xundef Int_overflow.
Definition int_div {S} (a b : Z) : X S Z := if b =? 0 then xundef Div_by_zero else int_result (Z.quot a b).

(** ** Rules *)

Lemma xbind_ret {S A B} (m : X S A) (f : A → X S B) s a s' :
  m s = (Ret a, s') → xbind m f s = f a s'.
Proof. unfold xbind. by intros ->. Qed.

Lemma xbind_ext {S A B} (m : X S A) (f g : A → X S B) s :
  (∀ a s', f a s' = g a s') → xbind m f s = xbind m g s.
Proof. intros H. unfold xbind. destruct (m s) as [[]]; auto. Qed.

Lemma xbind_throw {S A B} (m : X S A) (f : A → X S B) s n s' :
  m s = (Throw n, s') → xbind m f s = (Throw n, s').
Proof. unfold xbind. by intros ->. Qed.

Lemma try_catch_ret {S A} (m : X S A) h s a s' :
  m s = (Ret a, s') → try_catch m h s = (Ret a, s').
Proof. unfold try_catch. by intros ->. Qed.

Lemma try_catch_throw {S A} (m : X S A) h s n s' :
  m s = (Throw n, s') → try_catch m h s = h n s'.
Proof. unfold try_catch. by intros ->. Qed.

Lemma int_run {S} z (s : S) : - 2 ^ 31 <= z < 2 ^ 31 → int_result z s = (Ret z, s).
Proof. intros H. unfold int_result. by rewrite in_range_true. Qed.

Lemma int_div_run {S} a b (s : S) : 0 <= a < 2 ^ 31 → 0 < b → int_div a b s = (Ret (a / b), s).
Proof.
  intros Ha Hb. unfold int_div. rewrite (proj2 (Z.eqb_neq b 0)), Z.quot_div_nonneg by lia. apply int_run.
  pose proof (Z.div_pos a b). pose proof (Z.div_le_upper_bound a b a). nia.
Qed.

(** ** Invariants *)

Definition xkeeps {S A} (I : S → Prop) (m : X S A) : Prop :=
  ∀ s, I s → match m s with (Undef _, _) => True | (_, s') => I s' end.

Section Xkeeps.
Context {S : Type} (I : S → Prop).

Lemma xkeeps_bind {A B} (m : X S A) (f : A → X S B) :
  xkeeps I m → (∀ a, xkeeps I (f a)) → xkeeps I (xbind m f).
Proof.
  intros Hm Hf s Hs. specialize (Hm s Hs). unfold xbind. destruct (m s) as [[a|n|e] s']; [|done..].
  by apply Hf.
Qed.
Lemma xkeeps_ret {A} (a : A) : xkeeps I (xret a).
Proof. by intros s Hs. Qed.
Lemma xkeeps_get {A} (f : S → A) : xkeeps I (xget f).
Proof. by intros s Hs. Qed.
Lemma xkeeps_mod (f : S → S) : (∀ s, I s → I (f s)) → xkeeps I (xmod f).
Proof. intros H s Hs. by apply H. Qed.
Lemma xkeeps_undef {A} e : xkeeps (A := A) I (xundef e).
Proof. by intros s Hs. Qed.
Lemma xkeeps_when b m : xkeeps I m → xkeeps I (xwhen b m).
Proof. destruct b; [done|]. intros _. apply xkeeps_ret. Qed.
Lemma xkeeps_for {A} (l : list A) (f : A → X S unit) :
  (∀ a, a ∈ l → xkeeps I (f a)) → xkeeps I (xfor l f).
Proof.
  induction l as [|a l IH]; intros H; [by intros s Hs|]. apply xkeeps_bind; [apply H; by left|].
  intros _. apply IH. intros b Hb. apply H. by right.
Qed.
Lemma xkeeps_if {A} (b : bool) (m n : X S A) : xkeeps I m → xkeeps I n → xkeeps I (if b then m else n).
Proof. by destruct b. Qed.
Lemma xkeeps_throw {A} n : xkeeps (A := A) I (throw n).
Proof. by intros s Hs. Qed.
Lemma xkeeps_try {A} (m : X S A) h : xkeeps I m → (∀ n, xkeeps I (h n)) → xkeeps I (try_catch m h).
Proof.
  intros Hm Hh s Hs. specialize (Hm s Hs). unfold try_catch. destruct (m s) as [[a|n|e] s']; [done| |done]. by apply Hh.
Qed.
(** The rest needs to be considered for the results that are possible only. *)
Lemma xkeeps_bind_ret {A B} (m : X S A) (f : A → X S B) :
  xkeeps I m → (∀ a s s', m s = (Ret a, s') → xkeeps I (f a)) → xkeeps I (xbind m f).
Proof.
  intros Hm Hf s Hs. specialize (Hm s Hs). unfold xbind. destruct (m s) as [[a|n|e] s'] eqn:E; [|done..].
  by apply (Hf a s s' E).
Qed.
(** A computation that looks at the state first. *)
Lemma xkeeps_look {A B} (g : S → A) (f : A → X S B) :
  (∀ s, I s → match f (g s) s with (Undef _, _) => True | (_, s') => I s' end) →
  xkeeps I (let* a := xget g in f a).
Proof. intros H s Hs. by apply H. Qed.
End Xkeeps.

(** [xtotal I Q m]: from states in [I], [m] returns a value in [Q] and a state in [I]. *)
Definition xtotal {S A} (I : S → Prop) (Q : A → Prop) (m : X S A) : Prop :=
  ∀ s, I s → ∃ a s', m s = (Ret a, s') ∧ Q a ∧ I s'.

Section Xtotal.
Context {S : Type} (I : S → Prop).

Lemma xtotal_bind {A B} (P : A → Prop) (Q : B → Prop) (m : X S A) (f : A → X S B) :
  xtotal I P m → (∀ a, P a → xtotal I Q (f a)) → xtotal I Q (xbind m f).
Proof.
  intros Hm Hf s Hs. destruct (Hm s Hs) as (a & s' & E & Ha & Hs'). rewrite (xbind_ret _ _ _ _ _ E). by apply Hf.
Qed.
Lemma xtotal_ret {A} (Q : A → Prop) a : Q a → xtotal I Q (xret a).
Proof. intros Ha s Hs. by exists a, s. Qed.
Lemma xtotal_get {A} (Q : A → Prop) (f : S → A) : (∀ s, I s → Q (f s)) → xtotal I Q (xget f).
Proof. intros H s Hs. exists (f s), s. auto. Qed.
Lemma xtotal_mod (Q : unit → Prop) (f : S → S) : Q tt → (∀ s, I s → I (f s)) → xtotal I Q (xmod f).
Proof. intros Hq H s Hs. exists tt, (f s). auto. Qed.
Lemma xtotal_when (Q : unit → Prop) (b : bool) m : Q tt → (b = true → xtotal I Q m) → xtotal I Q (xwhen b m).
Proof. intros Hq Hm. destruct b; [by apply Hm|by apply xtotal_ret]. Qed.
Lemma xtotal_if {A} (Q : A → Prop) (b : bool) m n :
  (b = true → xtotal I Q m) → (b = false → xtotal I Q n) → xtotal I Q (if b then m else n).
Proof. destruct b; auto. Qed.
Lemma xtotal_weaken {A} (P Q : A → Prop) m : xtotal I P m → (∀ a, P a → Q a) → xtotal I Q m.
Proof. intros Hm H s Hs. destruct (Hm s Hs) as (a & s' & ? & ? & ?). exists a, s'. auto. Qed.
End Xtotal.

Create HintDb xkeeps.
#[export] Hint Resolve xkeeps_ret xkeeps_get xkeeps_undef xkeeps_throw : xkeeps.
Ltac xkeeps_step :=
  lazymatch goal with
  | |- xkeeps _ (xbind _ _) => apply xkeeps_bind; [|intros ?]
  | |- xkeeps _ (xwhen _ _) => apply xkeeps_when
  | |- xkeeps _ (if _ then _ else _) => apply xkeeps_if
  | |- xkeeps _ (xfor _ _) => apply xkeeps_for; intros ? ?
  | |- xkeeps _ (try_catch _ _) => apply xkeeps_try; [|intros ?]
  | |- xkeeps _ (match ?x with _ => _ end) => destruct x eqn:?
  | |- xkeeps _ (let _ := _ in _) => cbv zeta
  end.
Ltac xkeeps := repeat first [solve [eauto 3 with xkeeps nocore] | progress xkeeps_step; cbv beta].

Lemma xkeeps_map {S A B} (I : S → Prop) (f : A → X S B) l : (∀ a, xkeeps I (f a)) → xkeeps I (xmap f l).
Proof. intros H. induction l as [|a l IH]; cbn [xmap]; xkeeps; try done. Qed.
Lemma xkeeps_zoom {S T A} (I : S → Prop) (get : S → T) put (m : X T A) : (∀ t s, I s → I (put t s)) → xkeeps I (xzoom get put m).
Proof. intros H s Hs. unfold xzoom. specialize (H (m (get s)).2 s Hs). by destruct (m (get s)) as [[] ?]. Qed.

Lemma xfor_returns {S A} (f : A → X S unit) l s : (∀ a s, a ∈ l → ∃ s', f a s = (Ret tt, s')) →
  ∃ s', xfor l f s = (Ret tt, s').
Proof.
  revert s. induction l as [|a l IH]; intros s H; [by eexists|]. destruct (H a s) as (s1 & E); [by left|].
  destruct (IH s1) as (s2 & E2); [intros b t Hb; apply H; by right|]. exists s2. cbn [xfor]. by erewrite xbind_ret by exact E.
Qed.

Lemma xmap_run {S A B} (f : A → X S B) (g : A → B) l s : (∀ a, a ∈ l → f a s = (Ret (g a), s)) →
  xmap f l s = (Ret (g <$> l), s).
Proof.
  induction l as [|a l IH]; intros H; [done|]. cbn [xmap]. erewrite xbind_ret by (apply H; by left).
  erewrite xbind_ret by (apply IH; intros b Hb; apply H; by right). done.
Qed.
