(* ===== verification/Machine.v ===== *)
(** * Machine: processor registers, physical memory and the hardware bus

    Models the part of [src/uae_cpu/registers.h] the memory management unit uses,
    the physical memory of [src/uae_cpu/memory-uae.h] (the [phys_*] functions and
    the boundary checks), the class [BASE_IO] of [src/include/icio.h] with its
    default methods ([src/fakeio.cpp]), and the dispatch of hardware accesses to
    the devices ([src/hardware.cpp]).

    Configuration: [FULLMMU] and [PROTECT2K] defined, [FIXED_VIDEORAM],
    [HW_SIGSEGV], [EXTENDED_SIGSEGV] and [NOCHECKBOUNDARY] not; [ARAM_PAGE_CHECK]
    is a parameter.  [unsigned long] has 64 bits.  A host address is written as the
    Atari address it stands for, so [MEMBaseDiff], [read_offset] and
    [write_offset] are 0. *)

From S2P Require Import Prelude Throws.
From stdpp Require Import base gmap list numbers.
Open Scope Z_scope.
Open Scope c_scope.
Open Scope x_scope.

(** ** State *)

(** The fields of [regstruct] the modelled code reads or writes. *)
Record regstruct := Regs {
  m68k_areg : Z → Z;  (* [regs[8 + n]] *)
  sr_s : bool;  (* [s], the supervisor flag *)
  sfc : Z;
  dfc : Z;
  urp : Z;
  srp : Z;
  mmu_tc : Z;  (* [tc] *)
  mmu_enabled : bool;
  mmu_pagesize_8k : bool;
  dtt0 : Z;
  dtt1 : Z;
  itt0 : Z;
  itt1 : Z;
  mmusr : Z;
  mmu_fault_addr : Z;
  mmu_ssw : Z;
  wb3_data : Z;
  wb3_status : Z;
}.

Definition set_urp (v : Z) (r : regstruct) : regstruct :=
  Regs r.(m68k_areg) r.(sr_s) r.(sfc) r.(dfc) v r.(srp) r.(mmu_tc) r.(mmu_enabled)
    r.(mmu_pagesize_8k) r.(dtt0) r.(dtt1) r.(itt0) r.(itt1) r.(mmusr) r.(mmu_fault_addr)
    r.(mmu_ssw) r.(wb3_data) r.(wb3_status).
Definition set_srp (v : Z) (r : regstruct) : regstruct :=
  Regs r.(m68k_areg) r.(sr_s) r.(sfc) r.(dfc) r.(urp) v r.(mmu_tc) r.(mmu_enabled)
    r.(mmu_pagesize_8k) r.(dtt0) r.(dtt1) r.(itt0) r.(itt1) r.(mmusr) r.(mmu_fault_addr)
    r.(mmu_ssw) r.(wb3_data) r.(wb3_status).
Definition set_mmu_tc (v : Z) (r : regstruct) : regstruct :=
  Regs r.(m68k_areg) r.(sr_s) r.(sfc) r.(dfc) r.(urp) r.(srp) v r.(mmu_enabled)
    r.(mmu_pagesize_8k) r.(dtt0) r.(dtt1) r.(itt0) r.(itt1) r.(mmusr) r.(mmu_fault_addr)
    r.(mmu_ssw) r.(wb3_data) r.(wb3_status).
Definition set_mmu_enabled (v : bool) (r : regstruct) : regstruct :=
  Regs r.(m68k_areg) r.(sr_s) r.(sfc) r.(dfc) r.(urp) r.(srp) r.(mmu_tc) v r.(mmu_pagesize_8k)
    r.(dtt0) r.(dtt1) r.(itt0) r.(itt1) r.(mmusr) r.(mmu_fault_addr) r.(mmu_ssw) r.(wb3_data)
    r.(wb3_status).
Definition set_mmu_pagesize_8k (v : bool) (r : regstruct) : regstruct :=
  Regs r.(m68k_areg) r.(sr_s) r.(sfc) r.(dfc) r.(urp) r.(srp) r.(mmu_tc) r.(mmu_enabled) v r.(dtt0)
    r.(dtt1) r.(itt0) r.(itt1) r.(mmusr) r.(mmu_fault_addr) r.(mmu_ssw) r.(wb3_data)
    r.(wb3_status).
Definition set_dtt0 (v : Z) (r : regstruct) : regstruct :=
  Regs r.(m68k_areg) r.(sr_s) r.(sfc) r.(dfc) r.(urp) r.(srp) r.(mmu_tc) r.(mmu_enabled)
    r.(mmu_pagesize_8k) v r.(dtt1) r.(itt0) r.(itt1) r.(mmusr) r.(mmu_fault_addr) r.(mmu_ssw)
    r.(wb3_data) r.(wb3_status).
Definition set_dtt1 (v : Z) (r : regstruct) : regstruct :=
  Regs r.(m68k_areg) r.(sr_s) r.(sfc) r.(dfc) r.(urp) r.(srp) r.(mmu_tc) r.(mmu_enabled)
    r.(mmu_pagesize_8k) r.(dtt0) v r.(itt0) r.(itt1) r.(mmusr) r.(mmu_fault_addr) r.(mmu_ssw)
    r.(wb3_data) r.(wb3_status).
Definition set_itt0 (v : Z) (r : regstruct) : regstruct :=
  Regs r.(m68k_areg) r.(sr_s) r.(sfc) r.(dfc) r.(urp) r.(srp) r.(mmu_tc) r.(mmu_enabled)
    r.(mmu_pagesize_8k) r.(dtt0) r.(dtt1) v r.(itt1) r.(mmusr) r.(mmu_fault_addr) r.(mmu_ssw)
    r.(wb3_data) r.(wb3_status).
Definition set_itt1 (v : Z) (r : regstruct) : regstruct :=
  Regs r.(m68k_areg) r.(sr_s) r.(sfc) r.(dfc) r.(urp) r.(srp) r.(mmu_tc) r.(mmu_enabled)
    r.(mmu_pagesize_8k) r.(dtt0) r.(dtt1) r.(itt0) v r.(mmusr) r.(mmu_fault_addr) r.(mmu_ssw)
    r.(wb3_data) r.(wb3_status).
Definition set_mmusr (v : Z) (r : regstruct) : regstruct :=
  Regs r.(m68k_areg) r.(sr_s) r.(sfc) r.(dfc) r.(urp) r.(srp) r.(mmu_tc) r.(mmu_enabled)
    r.(mmu_pagesize_8k) r.(dtt0) r.(dtt1) r.(itt0) r.(itt1) v r.(mmu_fault_addr) r.(mmu_ssw)
    r.(wb3_data) r.(wb3_status).
Definition set_mmu_fault_addr (v : Z) (r : regstruct) : regstruct :=
  Regs r.(m68k_areg) r.(sr_s) r.(sfc) r.(dfc) r.(urp) r.(srp) r.(mmu_tc) r.(mmu_enabled)
    r.(mmu_pagesize_8k) r.(dtt0) r.(dtt1) r.(itt0) r.(itt1) r.(mmusr) v r.(mmu_ssw) r.(wb3_data)
    r.(wb3_status).
Definition set_mmu_ssw (v : Z) (r : regstruct) : regstruct :=
  Regs r.(m68k_areg) r.(sr_s) r.(sfc) r.(dfc) r.(urp) r.(srp) r.(mmu_tc) r.(mmu_enabled)
    r.(mmu_pagesize_8k) r.(dtt0) r.(dtt1) r.(itt0) r.(itt1) r.(mmusr) r.(mmu_fault_addr) v
    r.(wb3_data) r.(wb3_status).
Definition set_wb3_data (v : Z) (r : regstruct) : regstruct :=
  Regs r.(m68k_areg) r.(sr_s) r.(sfc) r.(dfc) r.(urp) r.(srp) r.(mmu_tc) r.(mmu_enabled)
    r.(mmu_pagesize_8k) r.(dtt0) r.(dtt1) r.(itt0) r.(itt1) r.(mmusr) r.(mmu_fault_addr)
    r.(mmu_ssw) v r.(wb3_status).
Definition set_wb3_status (v : Z) (r : regstruct) : regstruct :=
  Regs r.(m68k_areg) r.(sr_s) r.(sfc) r.(dfc) r.(urp) r.(srp) r.(mmu_tc) r.(mmu_enabled)
    r.(mmu_pagesize_8k) r.(dtt0) r.(dtt1) r.(itt0) r.(itt1) r.(mmusr) r.(mmu_fault_addr)
    r.(mmu_ssw) r.(wb3_data) v.

(** A line of the address translation caches ([cpummu.h]). *)
Record mmu_atc_line := Line {
  tag : Z;
  is_tt : bool;  (* [tt] *)
  valid_data : bool;
  valid_inst : bool;
  global : bool;
  modified : bool;
  write_protect : bool;
  hw : bool;
  bus_fault : bool;
  phys : Z;
}.

Definition set_tag (v : Z) (l : mmu_atc_line) : mmu_atc_line :=
  Line v l.(is_tt) l.(valid_data) l.(valid_inst) l.(global) l.(modified) l.(write_protect) l.(hw)
    l.(bus_fault) l.(phys).
Definition set_is_tt (v : bool) (l : mmu_atc_line) : mmu_atc_line :=
  Line l.(tag) v l.(valid_data) l.(valid_inst) l.(global) l.(modified) l.(write_protect) l.(hw)
    l.(bus_fault) l.(phys).
Definition set_valid_data (v : bool) (l : mmu_atc_line) : mmu_atc_line :=
  Line l.(tag) l.(is_tt) v l.(valid_inst) l.(global) l.(modified) l.(write_protect) l.(hw)
    l.(bus_fault) l.(phys).
Definition set_valid_inst (v : bool) (l : mmu_atc_line) : mmu_atc_line :=
  Line l.(tag) l.(is_tt) l.(valid_data) v l.(global) l.(modified) l.(write_protect) l.(hw)
    l.(bus_fault) l.(phys).
Definition set_global (v : bool) (l : mmu_atc_line) : mmu_atc_line :=
  Line l.(tag) l.(is_tt) l.(valid_data) l.(valid_inst) v l.(modified) l.(write_protect) l.(hw)
    l.(bus_fault) l.(phys).
Definition set_modified (v : bool) (l : mmu_atc_line) : mmu_atc_line :=
  Line l.(tag) l.(is_tt) l.(valid_data) l.(valid_inst) l.(global) v l.(write_protect) l.(hw)
    l.(bus_fault) l.(phys).
Definition set_write_protect (v : bool) (l : mmu_atc_line) : mmu_atc_line :=
  Line l.(tag) l.(is_tt) l.(valid_data) l.(valid_inst) l.(global) l.(modified) v l.(hw)
    l.(bus_fault) l.(phys).
Definition set_hw (v : bool) (l : mmu_atc_line) : mmu_atc_line :=
  Line l.(tag) l.(is_tt) l.(valid_data) l.(valid_inst) l.(global) l.(modified) l.(write_protect) v
    l.(bus_fault) l.(phys).
Definition set_bus_fault (v : bool) (l : mmu_atc_line) : mmu_atc_line :=
  Line l.(tag) l.(is_tt) l.(valid_data) l.(valid_inst) l.(global) l.(modified) l.(write_protect)
    l.(hw) v l.(phys).
Definition set_phys (v : Z) (l : mmu_atc_line) : mmu_atc_line :=
  Line l.(tag) l.(is_tt) l.(valid_data) l.(valid_inst) l.(global) l.(modified) l.(write_protect)
    l.(hw) l.(bus_fault) v.

(** The machine; [D] is the state of the devices. *)
Record machine (D : Type) := Machine {
  regs : regstruct;
  mem : gmap Z Z;  (* host memory, by Atari address *)
  atc_l1 : Z → mmu_atc_line;  (* [super][data][rw][idx], flattened *)
  atc_l2 : bool → Z → mmu_atc_line;  (* [super][idx] *)
  current_atc : bool;  (* the half of [atc_l1] it points to *)
  read_page : Z;
  write_page : Z;
  spcflags : Z;
  dev : D;  (* the devices *)
}.
Arguments regs {D} _.
Arguments mem {D} _.
Arguments atc_l1 {D} _.
Arguments atc_l2 {D} _.
Arguments current_atc {D} _.
Arguments read_page {D} _.
Arguments write_page {D} _.
Arguments spcflags {D} _.
Arguments dev {D} _.
Arguments Machine {D} _ _ _ _ _ _ _ _ _.

Definition set_regs {D} (v : regstruct) (s : machine D) : machine D :=
  Machine v s.(mem) s.(atc_l1) s.(atc_l2) s.(current_atc) s.(read_page) s.(write_page)
    s.(spcflags) s.(dev).
Definition set_mem {D} (v : gmap Z Z) (s : machine D) : machine D :=
  Machine s.(regs) v s.(atc_l1) s.(atc_l2) s.(current_atc) s.(read_page) s.(write_page)
    s.(spcflags) s.(dev).
Definition set_atc_l1 {D} (v : Z → mmu_atc_line) (s : machine D) : machine D :=
  Machine s.(regs) s.(mem) v s.(atc_l2) s.(current_atc) s.(read_page) s.(write_page)
    s.(spcflags) s.(dev).
Definition set_atc_l2 {D} (v : bool → Z → mmu_atc_line) (s : machine D) : machine D :=
  Machine s.(regs) s.(mem) s.(atc_l1) v s.(current_atc) s.(read_page) s.(write_page)
    s.(spcflags) s.(dev).
Definition set_current_atc {D} (v : bool) (s : machine D) : machine D :=
  Machine s.(regs) s.(mem) s.(atc_l1) s.(atc_l2) v s.(read_page) s.(write_page) s.(spcflags)
    s.(dev).
Definition set_read_page {D} (v : Z) (s : machine D) : machine D :=
  Machine s.(regs) s.(mem) s.(atc_l1) s.(atc_l2) s.(current_atc) v s.(write_page) s.(spcflags)
    s.(dev).
Definition set_write_page {D} (v : Z) (s : machine D) : machine D :=
  Machine s.(regs) s.(mem) s.(atc_l1) s.(atc_l2) s.(current_atc) s.(read_page) v s.(spcflags)
    s.(dev).
Definition set_spcflags {D} (v : Z) (s : machine D) : machine D :=
  Machine s.(regs) s.(mem) s.(atc_l1) s.(atc_l2) s.(current_atc) s.(read_page) s.(write_page) v
    s.(dev).
Definition set_dev {D} (v : D) (s : machine D) : machine D :=
  Machine s.(regs) s.(mem) s.(atc_l1) s.(atc_l2) s.(current_atc) s.(read_page) s.(write_page)
    s.(spcflags) v.

Definition mod_regs {D} (f : regstruct → regstruct) : X (machine D) unit :=
  xmod (λ s, set_regs (f s.(regs)) s).

(** What the configuration and the command line fix. *)
Class Config := {
  FastRAM_SIZE : Z;
  VideoRAMBase : Z;
  ARAM_PAGE_CHECK : bool;
}.

Abbreviation STRAM_END := 0x0e00000 (only parsing).
Abbreviation FastRAM_BEGIN := 0x1000000 (only parsing).
Abbreviation ARANYMVRAMSIZE := 0x00100000 (only parsing).
Abbreviation ARAM_PAGE_MASK := 0x7ff (only parsing).

(** ** Big-endian memory *)

Fixpoint be_get (n : nat) (m : gmap Z Z) (a : Z) : Z :=
  match n with
  | O => 0
  | S k => be_get k m a * 256 + u8 (aget m (a + Z.of_nat k))
  end.

Fixpoint be_put (n : nat) (a v : Z) (m : gmap Z Z) : gmap Z Z :=
  match n with
  | O => m
  | S k => be_put k a (v / 256) (aset (a + Z.of_nat k) (u8 v) m)
  end.

Section Machine.
Context {cfg : Config} {D : Type}.
Abbreviation M := (X (machine D)).

(** The host memory that is allocated: RAM, ROM, hardware space and FastRAM in one
    block, and the video RAM. *)
Definition host_ok (a n : Z) : bool :=
  ((0 <=? a) && (a + n <=? FastRAM_BEGIN + FastRAM_SIZE))
  || ((VideoRAMBase <=? a) && (a + n <=? VideoRAMBase + ARANYMVRAMSIZE)).

(** [do_get_mem_byte] .. [do_get_mem_quad], [n] being the number of bytes. *)
Definition do_get_mem (n : nat) (a : Z) : M Z :=
  if host_ok a (Z.of_nat n) then xget (λ s, be_get n s.(mem) a) else xundef Oob_host.

Definition do_put_mem (n : nat) (a v : Z) : M unit :=
  if host_ok a (Z.of_nat n) then xmod (λ s, set_mem (be_put n a v s.(mem)) s)
  else xundef Oob_host.

(** ** Boundary checks *)

Definition test_ram_boundary (addr size : Z) (super write : bool) : bool :=
  let video := (VideoRAMBase <=? addr) && (addr <=? u32 (VideoRAMBase + ARANYMVRAMSIZE - size)) in
  if addr <=? FastRAM_BEGIN + FastRAM_SIZE - size then
    if negb super && (addr <? 0x800) then false
    else if negb write || (FastRAM_BEGIN <=? addr)
            || ((8 <=? addr) && (addr <=? STRAM_END - size)) then true
    else video
  else video.

Definition check_ram_boundary (addr size : Z) (write : bool) : M unit :=
  let* super := xget (λ s, s.(regs).(sr_s)) in
  if test_ram_boundary addr size super write then xret tt else
  mod_regs (set_mmu_fault_addr addr) ;;
  mod_regs (set_mmu_ssw (Z.shiftl (size .& 3) 5 .| (if write then 0 else Z.shiftl 1 8))) ;;
  throw 2.

Definition phys_valid_address (addr : Z) (write : bool) (sz : Z) : M bool :=
  let* super := xget (λ s, s.(regs).(sr_s)) in
  xret (test_ram_boundary addr sz super write).

Definition BUS_ERROR {A} (a : Z) : M A :=
  mod_regs (set_mmu_fault_addr a) ;; throw 2.

(** ** Devices *)

(** An object of a class derived from [BASE_IO]: its virtual methods, with [hw_offset] and
    [hw_size] in them. *)
Record BASE_IO := BaseIO {
  isMyHWRegister : Z → bool;
  reset : M unit;
  handleRead : Z → M Z;
  handleReadW : Z → M Z;
  handleReadL : Z → M Z;
  handleWrite : Z → Z → M unit;
  handleWriteW : Z → Z → M unit;
  handleWriteL : Z → Z → M unit;
}.

(** The methods of [BASE_IO] itself; [reset] does nothing. *)
Definition base_isMyHWRegister (off size addr : Z) : bool := (off <=? addr) && (addr <? u32 (off + size)).

(** The wide accesses call the narrow ones of the object, so they take those as
    arguments. *)
Definition base_handleRead (addr : Z) : M Z := do_get_mem 1 addr.
Definition base_handleWrite (addr value : Z) : M unit := do_put_mem 1 addr value.

Definition base_handleReadW (read : Z → M Z) (addr : Z) : M Z :=
  let* a := read addr in
  let* b := read (addr +u 1) in
  xret (Z.shiftl a 8 .| b).

Definition base_handleReadL (readW : Z → M Z) (addr : Z) : M Z :=
  let* a := readW addr in
  let* b := readW (addr +u 2) in
  xret ((a << 16) .| b).

Definition base_handleWriteW (write : Z → Z → M unit) (addr value : Z) : M unit :=
  write addr (value >> 8) ;; write (addr +u 1) (u8 value).

Definition base_handleWriteL (writeW : Z → Z → M unit) (addr value : Z) : M unit :=
  writeW addr (value >> 16) ;; writeW (addr +u 2) (u16 value).

(** A device that overrides the byte accesses only. *)
Definition byte_device (off size : Z) (rst : M unit) (read : Z → M Z) (write : Z → Z → M unit)
    : BASE_IO :=
  let readW := base_handleReadW read in
  let writeW := base_handleWriteW write in
  BaseIO (base_isMyHWRegister off size) rst read readW (base_handleReadL readW) write writeW (base_handleWriteL writeW).

End Machine.
Arguments BASE_IO D : clear implicits.

(** The table [arhw] of the devices. *)
Class Hardware {cfg : Config} (D : Type) := arhw : list (BASE_IO D).

Section Bus.
Context {cfg : Config} {D : Type} {hwd : Hardware D}.
Abbreviation M := (X (machine D)).

Definition getModule (addr : Z) : option (BASE_IO D) :=
  find (λ b, isMyHWRegister b addr) arhw.

Definition HWget_l (addr : Z) : M Z :=
  match getModule addr with Some p => handleReadL p addr | None => BUS_ERROR addr end.
Definition HWget_w (addr : Z) : M Z :=
  match getModule addr with Some p => handleReadW p addr | None => BUS_ERROR addr end.
Definition HWget_b (addr : Z) : M Z :=
  match getModule addr with Some p => handleRead p addr | None => BUS_ERROR addr end.
Definition HWput_l (addr value : Z) : M unit :=
  match getModule addr with Some p => handleWriteL p addr value | None => BUS_ERROR addr end.
Definition HWput_w (addr value : Z) : M unit :=
  match getModule addr with Some p => handleWriteW p addr value | None => BUS_ERROR addr end.
Definition HWput_b (addr value : Z) : M unit :=
  match getModule addr with Some p => handleWrite p addr value | None => BUS_ERROR addr end.

(** [HWReset]: every device in the order of the table. *)
Definition HWReset : M unit := foldr (λ b m, reset b ;; m) (xret tt) arhw.

(** ** Physical accesses *)

Definition hw_mirror (addr : Z) : Z := if addr <? 0xff000000 then addr else addr .& 0x00ffffff.
Definition in_hw_space (addr : Z) : bool := (addr .& 0xfff00000) =? 0x00f00000.

(** The common body of [phys_get_byte] .. [phys_get_quad]. *)
Definition phys_get (n : nat) (hwget : Z → M Z) (addr : Z) : M Z :=
  let* page := xget read_page in
  if ARAM_PAGE_CHECK && ((addr .^ page) <=? ARAM_PAGE_MASK) then do_get_mem n addr else
  let addr := hw_mirror addr in
  if in_hw_space addr then hwget addr else
  check_ram_boundary addr (Z.of_nat n) false ;;
  xwhen ARAM_PAGE_CHECK (xmod (set_read_page addr)) ;;
  do_get_mem n addr.

Definition phys_put (n : nat) (hwput : Z → Z → M unit) (addr v : Z) : M unit :=
  let* page := xget write_page in
  if ARAM_PAGE_CHECK && ((addr .^ page) <=? ARAM_PAGE_MASK) then do_put_mem n addr v else
  let addr := hw_mirror addr in
  if in_hw_space addr then hwput addr v else
  check_ram_boundary addr (Z.of_nat n) true ;;
  xwhen ARAM_PAGE_CHECK (xmod (set_write_page addr)) ;;
  do_put_mem n addr v.

Definition phys_get_quad : Z → M Z := phys_get 8 HWget_l.
Definition phys_get_long : Z → M Z := phys_get 4 HWget_l.
Definition phys_get_word : Z → M Z := phys_get 2 HWget_w.
Definition phys_get_byte : Z → M Z := phys_get 1 HWget_b.
Definition phys_put_quad : Z → Z → M unit := phys_put 8 (λ a v, HWput_l a (u32 v)).
Definition phys_put_long : Z → Z → M unit := phys_put 4 HWput_l.
Definition phys_put_word : Z → Z → M unit := phys_put 2 (λ a v, HWput_w a (u16 v)).
Definition phys_put_byte : Z → Z → M unit := phys_put 1 (λ a v, HWput_b a (u8 v)).

Definition flush_internals : M unit :=
  xwhen ARAM_PAGE_CHECK (xmod (set_read_page 0xeeeeeeee) ;; xmod (set_write_page 0xeeeeeeee)).

End Bus.
