(* ===== verification/MachineSpec.v ===== *)
(** * MachineSpec: physical memory and the hardware dispatch

    Big-endian loads and stores, what a physical access to RAM does, and the
    dispatch of hardware accesses.  [ConfigOk] is what [main_unix.cpp] and the
    configuration file guarantee about the layout of memory. *)

From S2P Require Import Prelude Throws Machine.
From stdpp Require Import base gmap list numbers.
Open Scope Z_scope.
Open Scope c_scope.
Open Scope x_scope.

(** FastRAM ends on a page below the video RAM, which is page aligned too and has
    room above it. *)
Class ConfigOk {cfg : Config} : Prop := {
  fastram_size : 0 <= FastRAM_SIZE;
  fastram_page : FastRAM_SIZE mod 4096 = 0;
  fastram_end : 0x1000000 + FastRAM_SIZE <= VideoRAMBase;
  vram_page : VideoRAMBase mod 4096 = 0;
  vram_end : VideoRAMBase + 0x100000 <= 0xff000000;
}.

(** ** Big-endian loads and stores *)

Lemma be_get_range n m a : 0 <= be_get n m a < 256 ^ Z.of_nat n.
Proof.
  induction n as [|n IH]; [cbn; lia|]. cbn [be_get].
  pose proof (u8_range (aget m (a + Z.of_nat n))).
  rewrite Nat2Z.inj_succ, Z.pow_succ_r by lia. lia.
Qed.

Lemma be_get_ext n m m' a :
  (∀ x, a <= x < a + Z.of_nat n → aget m x = aget m' x) → be_get n m a = be_get n m' a.
Proof.
  induction n as [|n IH]; intros H; [done|]. cbn [be_get].
  rewrite IH by (intros; apply H; lia). by rewrite H by lia.
Qed.

Lemma be_put_ne n m a v x : x < a ∨ a + Z.of_nat n <= x → aget (be_put n a v m) x = aget m x.
Proof.
  revert m v. induction n as [|n IH]; intros m v Hx; [done|]. cbn [be_put].
  rewrite IH by lia. apply aget_aset_ne. lia.
Qed.

Lemma be_get_put_disjoint n k m a b v :
  b + Z.of_nat k <= a ∨ a + Z.of_nat n <= b → be_get k (be_put n a v m) b = be_get k m b.
Proof. intros H. apply be_get_ext. intros x Hx. apply be_put_ne. lia. Qed.

Lemma be_get_put n m a v : be_get n (be_put n a v m) a = v mod 256 ^ Z.of_nat n.
Proof.
  revert m v. induction n as [|n IH]; intros m v; [by rewrite Z.mod_1_r|].
  cbn [be_get be_put]. rewrite IH, be_put_ne, aget_aset_eq by lia.
  unfold u8. rewrite (Z.mod_mod v) by lia.
  rewrite Nat2Z.inj_succ, Z.pow_succ_r, Z.rem_mul_r by lia. lia.
Qed.

(** A load in two parts. *)
Lemma be_get_app j k m a :
  be_get (j + k) m a = be_get j m a * 256 ^ Z.of_nat k + be_get k m (a + Z.of_nat j).
Proof.
  induction k as [|k IH]; [rewrite Nat.add_0_r; cbn [be_get]; change (256 ^ Z.of_nat 0) with 1; lia|].
  rewrite Nat.add_succ_r. cbn [be_get].
  rewrite IH, !Nat2Z.inj_add, !Nat2Z.inj_succ, Z.pow_succ_r, Z.add_assoc by lia. lia.
Qed.

(** A store in two parts. *)
Lemma be_put_app j k m a v :
  be_put (j + k) a v m = be_put j a (v / 256 ^ Z.of_nat k) (be_put k (a + Z.of_nat j) v m).
Proof.
  revert m v. induction k as [|k IH]; intros m v.
  - rewrite Nat.add_0_r. cbn [be_put]. change (256 ^ Z.of_nat 0) with 1. by rewrite Z.div_1_r.
  - rewrite Nat.add_succ_r. cbn [be_put]. rewrite IH, !Nat2Z.inj_add, Nat2Z.inj_succ, Z.pow_succ_r by lia.
    rewrite Z.div_div, (Z.mul_comm 256), Z.add_assoc by lia. done.
Qed.

(** ** Regions *)

Section Regions.
Context {cfg : Config} {ok : ConfigOk}.

Definition page_of (a : Z) : Z := a / 4096.

(** An address of which all four bytes are writable RAM in both modes. *)
Definition plain_ram (a : Z) : Prop :=
  (0x800 <= a ∧ a + 4 <= 0xe00000) ∨ (0x1000000 <= a ∧ a + 4 <= 0x1000000 + FastRAM_SIZE).

Lemma test_ram_boundary_host a super write :
  0 <= a → test_ram_boundary a 1 super write = true →
  ∀ b n, page_of b = page_of a → page_of (b + n - 1) = page_of a → host_ok b n = true.
Proof.
  intros Ha Ht b n Hb Hn. destruct ok as [H1 H2 H3 H4 H5]. unfold page_of in *.
  assert (a <= 0x1000000 + FastRAM_SIZE - 1 ∨ (VideoRAMBase <= a ∧ a <= VideoRAMBase + 0x100000 - 1)) as Hc.
  { unfold test_ram_boundary in Ht. rewrite u32_small in Ht by lia.
    repeat case_match; lia. }
  unfold host_ok. apply orb_true_iff.
  rewrite !andb_true_iff, !Z.leb_le. destruct Hc as [Hc|Hc]; [left|right];
    Z.to_euclidean_division_equations; lia.
Qed.

(** The same of [n] bytes. *)
Definition ram_span (n a : Z) : Prop :=
  (0x800 <= a ∧ a + n <= 0xe00000) ∨ (0x1000000 <= a ∧ a + n <= 0x1000000 + FastRAM_SIZE).

Lemma ram_span_host n a : ram_span n a → host_ok a n = true.
Proof.
  intros H. destruct ok. unfold host_ok, ram_span in *. apply orb_true_iff. left.
  rewrite andb_true_iff, !Z.leb_le. lia.
Qed.

Lemma ram_span_boundary n a super write : 0 < n → ram_span n a → test_ram_boundary a n super write = true.
Proof.
  intros Hn H. destruct ok. unfold test_ram_boundary, ram_span in *.
  rewrite (proj2 (Z.leb_le a (0x1000000 + FastRAM_SIZE - n))) by lia.
  rewrite (proj2 (Z.ltb_ge a 0x800)), andb_false_r by lia.
  destruct (Z.leb_spec 0x1000000 a); [by rewrite orb_true_r|].
  rewrite (proj2 (Z.leb_le 8 a)), (proj2 (Z.leb_le a (0xe00000 - n))) by lia.
  by rewrite !orb_true_r.
Qed.

Lemma plain_ram_host a : plain_ram a → host_ok a 4 = true.
Proof. exact (ram_span_host 4 a). Qed.

Lemma plain_ram_boundary a super write : plain_ram a → test_ram_boundary a 4 super write = true.
Proof. by apply (ram_span_boundary 4). Qed.

(** The top twelve bits of an address. *)
Lemma top12 a : 0 <= a < 2 ^ 32 → a .& 0xfff00000 = a / 1048576 * 1048576.
Proof. intros. change 0xfff00000 with (2 ^ 32 - 2 ^ 20). rewrite land_high by lia. done. Qed.

Lemma in_hw_space_spec a : 0 <= a < 2 ^ 32 → in_hw_space a = (a / 1048576 =? 15).
Proof. intros Ha. unfold in_hw_space. rewrite top12 by done. apply eq_true_iff_eq. rewrite !Z.eqb_eq. lia. Qed.

Lemma ram_span_mirror n a : 0 < n → ram_span n a → hw_mirror a = a.
Proof.
  intros Hn H. destruct ok. unfold hw_mirror, ram_span in *. by rewrite (proj2 (Z.ltb_lt a 0xff000000)) by lia.
Qed.

Lemma ram_span_not_hw n a : 0 < n → ram_span n a → in_hw_space a = false.
Proof.
  intros Hn H. destruct ok. unfold ram_span in H.
  rewrite in_hw_space_spec by lia. apply Z.eqb_neq. Z.to_euclidean_division_equations. lia.
Qed.

Lemma plain_ram_mirror a : plain_ram a → hw_mirror a = a.
Proof. by apply (ram_span_mirror 4). Qed.

Lemma plain_ram_not_hw a : plain_ram a → in_hw_space a = false.
Proof. by apply (ram_span_not_hw 4). Qed.
End Regions.

(** ** Physical accesses to RAM *)

(** Equal up to the pages remembered by [ARAM_PAGE_CHECK]. *)
Definition upto_pages {D} (s s' : machine D) : Prop :=
  ∃ p q, s' = set_read_page p (set_write_page q s).

Lemma upto_pages_refl {D} (s : machine D) : upto_pages s s.
Proof. exists (read_page s), (write_page s). by destruct s. Qed.

Lemma upto_pages_trans {D} (s1 s2 s3 : machine D) :
  upto_pages s1 s2 → upto_pages s2 s3 → upto_pages s1 s3.
Proof. intros (p & q & ->) (p' & q' & ->). by exists p', q'. Qed.

Section Phys.
Context {cfg : Config} {ok : ConfigOk} {D : Type} {hwd : Hardware D}.

Lemma check_ram_boundary_span n a write (s : machine D) :
  0 < n → ram_span n a → check_ram_boundary a n write s = (Ret tt, s).
Proof. intros Hn Ha. unfold check_ram_boundary, xbind, xget. by rewrite ram_span_boundary. Qed.

Lemma check_ram_boundary_ram a write (s : machine D) :
  plain_ram a → check_ram_boundary a 4 write s = (Ret tt, s).
Proof. by apply (check_ram_boundary_span 4). Qed.

Lemma phys_get_ram n hwget a (s : machine D) : (0 < n)%nat → ram_span (Z.of_nat n) a →
  ∃ s', phys_get n hwget a s = (Ret (be_get n s.(mem) a), s') ∧ upto_pages s s'.
Proof.
  intros Hn Ha. unfold phys_get. cbv zeta.
  rewrite (ram_span_mirror (Z.of_nat n) a), (ram_span_not_hw (Z.of_nat n)) by (done || lia).
  unfold do_get_mem. rewrite ram_span_host by done.
  erewrite xbind_ret by done. destruct ARAM_PAGE_CHECK; cbn [andb xwhen].
  - destruct (_ <=? _); [eexists; split; [done|apply upto_pages_refl]|].
    erewrite xbind_ret by (apply check_ram_boundary_span; (done || lia)).
    eexists. split; [done|]. exists a, s.(write_page). by destruct s.
  - erewrite xbind_ret by (apply check_ram_boundary_span; (done || lia)).
    eexists. split; [done|apply upto_pages_refl].
Qed.

Lemma phys_put_ram n hwput a v (s : machine D) : (0 < n)%nat → ram_span (Z.of_nat n) a →
  ∃ s', phys_put n hwput a v s = (Ret tt, s') ∧ upto_pages (set_mem (be_put n a v s.(mem)) s) s'.
Proof.
  intros Hn Ha. unfold phys_put. cbv zeta.
  rewrite (ram_span_mirror (Z.of_nat n) a), (ram_span_not_hw (Z.of_nat n)) by (done || lia).
  unfold do_put_mem. rewrite ram_span_host by done.
  erewrite xbind_ret by done. destruct ARAM_PAGE_CHECK; cbn [andb xwhen].
  - destruct (_ <=? _); [eexists; split; [done|apply upto_pages_refl]|].
    erewrite xbind_ret by (apply check_ram_boundary_span; (done || lia)).
    eexists. split; [done|]. exists s.(read_page), a. by destruct s.
  - erewrite xbind_ret by (apply check_ram_boundary_span; (done || lia)).
    eexists. split; [done|apply upto_pages_refl].
Qed.

Lemma phys_get_long_ram a s : plain_ram a →
  ∃ s', phys_get_long a s = (Ret (be_get 4 s.(mem) a), s') ∧ upto_pages s s'.
Proof. apply (phys_get_ram 4). lia. Qed.

Lemma phys_put_long_ram a v s : plain_ram a →
  ∃ s', phys_put_long a v s = (Ret tt, s') ∧ upto_pages (set_mem (be_put 4 a v s.(mem)) s) s'.
Proof. apply (phys_put_ram 4). lia. Qed.
End Phys.

(** ** Host memory *)

Lemma host_ok_sub {cfg : Config} a n b k : host_ok a n = true → a <= b → b + k <= a + n → host_ok b k = true.
Proof.
  unfold host_ok. rewrite !orb_true_iff, !andb_true_iff, !Z.leb_le. lia.
Qed.

Lemma do_get_mem_run {cfg : Config} {D} n a (s : machine D) : host_ok a (Z.of_nat n) = true →
  do_get_mem n a s = (Ret (be_get n s.(mem) a), s).
Proof. intros H. unfold do_get_mem. by rewrite H. Qed.

Lemma do_put_mem_run {cfg : Config} {D} n a v (s : machine D) : host_ok a (Z.of_nat n) = true →
  do_put_mem n a v s = (Ret tt, set_mem (be_put n a v s.(mem)) s).
Proof. intros H. unfold do_put_mem. by rewrite H. Qed.

(** [n] bytes from [base] on. *)
Definition line_bytes (m : gmap Z Z) (n : nat) (base : Z) : list Z := (λ i, u8 (aget m (base + i))) <$> seqZ 0 (Z.of_nat n).

Lemma line_bytes_byte m n base : Forall (λ v, 0 <= v < 256) (line_bytes m n base).
Proof. apply Forall_fmap, Forall_forall. intros. apply u8_range. Qed.
Lemma line_bytes_length m n base : length (line_bytes m n base) = n.
Proof. unfold line_bytes. rewrite length_fmap, length_seqZ. lia. Qed.
