(* ===== verification/Mmu.v ===== *)
(** * Mmu: the 68040 memory management unit

    Models [src/uae_cpu/cpummu.cpp] and [cpummu.h] (configuration [FULLMMU]) and
    the [mmu_*], [get_*] and [put_*] accesses of [src/uae_cpu/memory-uae.h]:
    transparent translation, the table walk, the two levels of address translation
    cache, the access errors, accesses that cross a page, PFLUSH and PTEST. *)

From S2P Require Import Prelude Throws Machine.
From stdpp Require Import base gmap list numbers.
Open Scope Z_scope.
Open Scope c_scope.
Open Scope x_scope.

Abbreviation MMU_TTR_LOGICAL_BASE := 0xff000000 (only parsing).
Abbreviation MMU_TTR_LOGICAL_MASK := 0x00ff0000 (only parsing).
Abbreviation MMU_TTR_BIT_ENABLED := 0x8000 (only parsing).
Abbreviation MMU_TTR_BIT_SFIELD_ENABLED := 0x4000 (only parsing).
Abbreviation MMU_TTR_BIT_SFIELD_SUPER := 0x2000 (only parsing).
Abbreviation MMU_TTR_BIT_WRITE_PROTECT := 0x4 (only parsing).
Abbreviation MMU_DES_WP := 0x4 (only parsing).
Abbreviation MMU_DES_USED := 0x8 (only parsing).
Abbreviation MMU_DES_MODIFIED := 0x10 (only parsing).
Abbreviation MMU_ROOT_PTR_ADDR_MASK := 0xfffffe00 (only parsing).
Abbreviation MMU_PTR_PAGE_ADDR_MASK_8 := 0xffffff80 (only parsing).
Abbreviation MMU_PTR_PAGE_ADDR_MASK_4 := 0xffffff00 (only parsing).
Abbreviation MMU_PAGE_INDIRECT_MASK := 0xfffffffc (only parsing).
Abbreviation MMU_MMUSR_B := 0x800 (only parsing).
Abbreviation MMU_MMUSR_G := 0x400 (only parsing).
Abbreviation MMU_MMUSR_Ux := 0x300 (only parsing).
Abbreviation MMU_MMUSR_S := 0x80 (only parsing).
Abbreviation MMU_MMUSR_CM := 0x60 (only parsing).
Abbreviation MMU_MMUSR_M := 0x10 (only parsing).
Abbreviation MMU_MMUSR_W := 0x4 (only parsing).
Abbreviation MMU_MMUSR_T := 0x2 (only parsing).
Abbreviation MMU_MMUSR_R := 0x1 (only parsing).
Abbreviation MMU_SSW_TM := 0x0007 (only parsing).
Abbreviation MMU_SSW_SIZE_B := 0x0020 (only parsing).
Abbreviation MMU_SSW_SIZE_W := 0x0040 (only parsing).
Abbreviation MMU_SSW_SIZE_L := 0x0000 (only parsing).
Abbreviation MMU_SSW_RW := 0x0100 (only parsing).
Abbreviation MMU_SSW_ATC := 0x0400 (only parsing).
Abbreviation MMU_SSW_MA := 0x0800 (only parsing).
Abbreviation TTR_I0 := 4 (only parsing).
Abbreviation TTR_I1 := 5 (only parsing).
Abbreviation TTR_D0 := 6 (only parsing).
Abbreviation TTR_D1 := 7 (only parsing).

(** [enum wordsizes] of [readcpu.h]. *)
Inductive wordsizes := sz_byte | sz_word | sz_long.

Inductive ttr_match := TTR_NO_MATCH | TTR_NO_WRITE | TTR_OK_MATCH.
#[export] Instance ttr_match_eq_dec : EqDecision ttr_match.
Proof. solve_decision. Defined.

Abbreviation ATC_L1_SIZE := 256 (only parsing).
Abbreviation ATC_L2_SIZE := 4096 (only parsing).

Definition ATC_TAG (addr : Z) : Z := addr >> 18.
Definition ATC_L1_INDEX (addr : Z) : Z := (addr >> 12) mod ATC_L1_SIZE.
Definition ATC_L2_INDEX (addr : Z) : Z := ((addr >> 12) .^ (addr >> (32 - 12))) mod ATC_L2_SIZE.

(** The position of [atc_l1[super][data][rw][i]]. *)
Definition l1_slot (super data rw : bool) (i : Z) : Z :=
  ((c_bool super * 2 + c_bool data) * 2 + c_bool rw) * ATC_L1_SIZE + i.

(** ** Transparent translation *)

(** check if an address matches a ttr *)
Definition mmu_do_match_ttr (ttr addr : Z) (super : bool) : ttr_match :=
  if tst ttr MMU_TTR_BIT_ENABLED then
    let msb := u8 (((addr .^ ttr) .& MMU_TTR_LOGICAL_BASE) >> 24) in
    let mask := u8 ((ttr .& MMU_TTR_LOGICAL_MASK) >> 16) in
    if negb (tst msb (Z.lnot mask)) then
      if negb (tst ttr MMU_TTR_BIT_SFIELD_ENABLED)
         && negb (eqb (negb (tst ttr MMU_TTR_BIT_SFIELD_SUPER)) (negb super))
      then TTR_NO_MATCH
      else if tst ttr MMU_TTR_BIT_WRITE_PROTECT then TTR_NO_WRITE else TTR_OK_MATCH
    else TTR_NO_MATCH
  else TTR_NO_MATCH.

Definition mmu_match_ttr (r : regstruct) (addr : Z) (super data : bool) : ttr_match :=
  if data then
    let res := mmu_do_match_ttr r.(dtt0) addr super in
    if bool_decide (res = TTR_NO_MATCH) then mmu_do_match_ttr r.(dtt1) addr super else res
  else
    let res := mmu_do_match_ttr r.(itt0) addr super in
    if bool_decide (res = TTR_NO_MATCH) then mmu_do_match_ttr r.(itt1) addr super else res.

Definition mmu_make_transparent_region (baseaddr size : Z) (datamode : bool) (r : regstruct) : regstruct :=
  let value := (baseaddr .& MMU_TTR_LOGICAL_BASE)
    .| (((baseaddr +u size -u 1) .& MMU_TTR_LOGICAL_BASE) >> 8) .| MMU_TTR_BIT_ENABLED in
  let ttr0 := if datamode then r.(dtt0) else r.(itt0) in
  let ttr1 := if datamode then r.(dtt1) else r.(itt1) in
  if negb (tst ttr1 MMU_TTR_BIT_ENABLED) then
    if datamode then set_dtt1 value r else set_itt1 value r
  else if negb (tst ttr0 MMU_TTR_BIT_ENABLED) then
    if datamode then set_dtt0 value r else set_itt0 value r
  else r.

(** ** Access errors *)

Definition mmu_get_fc (super data : bool) : Z :=
  (if super then 4 else 0) .| (if data then 1 else 2).

Definition ssw_size (size : wordsizes) : Z :=
  match size with
  | sz_byte => MMU_SSW_SIZE_B
  | sz_word => MMU_SSW_SIZE_W
  | sz_long => MMU_SSW_SIZE_L
  end.

Section Mmu.
Context {cfg : Config} {D : Type} {hwd : Hardware D}.
Abbreviation M := (X (machine D)).

Definition mmu_bus_error (addr fc : Z) (write : bool) (size : wordsizes) : M unit :=
  let ssw := (fc .& MMU_SSW_TM) .| ssw_size size in
  mod_regs (set_wb3_status (if write then 0x80 .| ssw else 0)) ;;
  let ssw := if write then ssw else ssw .| MMU_SSW_RW in
  mod_regs (set_mmu_fault_addr addr) ;;
  mod_regs (set_mmu_ssw (ssw .| MMU_SSW_ATC)) ;;
  throw 2.

(** ** The table walk *)

(** Fetches a root or pointer table descriptor; [None] if it is invalid. *)
Definition fetch_table_desc (desc_addr : Z) : M (option Z) :=
  let* desc := phys_get_long desc_addr in
  if negb (tst desc 2) then xret None else
  xwhen (negb (tst desc MMU_DES_USED)) (phys_put_long desc_addr (desc .| MMU_DES_USED)) ;;
  xret (Some desc).

(** Marks a valid page descriptor used, and modified by a write that is allowed. *)
Definition update_page_desc (desc_addr desc : Z) (write : bool) : M Z :=
  let put d := phys_put_long desc_addr d ;; xret d in
  if write then
    if tst desc MMU_DES_WP then
      if negb (tst desc MMU_DES_USED) then put (desc .| MMU_DES_USED) else xret desc
    else if negb ((desc .& (MMU_DES_USED .| MMU_DES_MODIFIED)) =? (MMU_DES_USED .| MMU_DES_MODIFIED))
    then put (desc .| (MMU_DES_USED .| MMU_DES_MODIFIED)) else xret desc
  else
    if negb (tst desc MMU_DES_USED) then put (desc .| MMU_DES_USED) else xret desc.

(** The address of the page descriptor, and the descriptor, through at most one
    indirection. *)
Definition fetch_page_desc (desc_addr : Z) : M (Z * Z) :=
  let* desc := phys_get_long desc_addr in
  if (desc .& 3) =? 2 then
    let desc_addr := desc .& MMU_PAGE_INDIRECT_MASK in
    let* desc := phys_get_long desc_addr in
    xret (desc_addr, desc)
  else xret (desc_addr, desc).

Definition page_desc_addr (pagesize_8k : bool) (desc addr : Z) : Z :=
  if pagesize_8k then (desc .& MMU_PTR_PAGE_ADDR_MASK_8) .| ((addr >> 11) .& 0x7c)
  else (desc .& MMU_PTR_PAGE_ADDR_MASK_4) .| ((addr >> 10) .& 0xfc).

Definition mmu_lookup_pagetable (addr : Z) (super write : bool) : M Z :=
  let* r := xget regs in
  let desc := if super then r.(srp) else r.(urp) in
  let* root := fetch_table_desc ((desc .& MMU_ROOT_PTR_ADDR_MASK) .| ((addr >> 23) .& 0x1fc)) in
  match root with
  | None => xret 0
  | Some root =>
    let* ptr := fetch_table_desc ((root .& MMU_ROOT_PTR_ADDR_MASK) .| ((addr >> 16) .& 0x1fc)) in
    match ptr with
    | None => xret 0
    | Some ptr =>
      let* size_8k := xget (λ s, s.(regs).(mmu_pagesize_8k)) in
      let* page := fetch_page_desc (page_desc_addr size_8k ptr addr) in
      let '(desc_addr, desc) := page in
      if negb (tst desc 1) then xret desc else
      update_page_desc desc_addr (desc .| ((root .| ptr) .& MMU_DES_WP)) write
    end
  end.

(** ** The address translation caches *)

Definition mod_l1 (k : Z) (f : mmu_atc_line → mmu_atc_line) : M unit :=
  xmod (λ s, set_atc_l1 (λ j, if j =? k then f (s.(atc_l1) j) else s.(atc_l1) j) s).

Definition mod_l2 (super : bool) (i : Z) (f : mmu_atc_line → mmu_atc_line) : M unit :=
  xmod (λ s, set_atc_l2 (λ b j, if eqb b super && (j =? i) then f (s.(atc_l2) b j)
                                else s.(atc_l2) b j) s).

(** The assignments of [mmu_fill_atc_l2] to the line [l], by case. *)
Definition line_start (addr : Z) (l : mmu_atc_line) : mmu_atc_line :=
  set_bus_fault false (set_hw false (set_tag (ATC_TAG addr) l)).

Definition line_ttr (r : regstruct) (addr : Z) (super data : bool) (res : ttr_match)
    (l : mmu_atc_line) : mmu_atc_line :=
  let l := set_is_tt true l in
  let l := if data
    then set_valid_inst (bool_decide (mmu_match_ttr r addr super false = res)) (set_valid_data true l)
    else set_valid_data (bool_decide (mmu_match_ttr r addr super true = res)) (set_valid_inst true l) in
  set_phys 0 (set_write_protect (bool_decide (res = TTR_NO_WRITE)) (set_modified true (set_global true l))).

Definition line_disabled (l : mmu_atc_line) : mmu_atc_line :=
  set_phys 0 (set_write_protect false (set_modified true (set_global true
    (set_valid_data true (set_valid_inst true l))))).

Definition line_fail (l : mmu_atc_line) : mmu_atc_line :=
  set_global false (set_valid_data false (set_valid_inst false l)).

Definition page_mask (pagesize_8k : bool) : Z := if pagesize_8k then 0xffffe000 else 0xfffff000.

Definition line_desc (pagesize_8k : bool) (addr desc : Z) (l : mmu_atc_line) : mmu_atc_line :=
  let l := set_valid_data true (set_valid_inst true l) in
  let l := set_phys ((desc .& page_mask pagesize_8k) -u (addr .& page_mask pagesize_8k)) l in
  set_write_protect (tst desc MMU_MMUSR_W) (set_modified (tst desc MMU_MMUSR_M)
    (set_global (tst desc MMU_MMUSR_G) l)).

(** Update the atc line for a given address by doing a mmu lookup; the line is
    [atc_l2[super][i]]. *)
Definition mmu_fill_atc_l2 (addr : Z) (super data write : bool) (i : Z) : M Z :=
  mod_l2 super i (line_start addr) ;;
  let* r := xget regs in
  let res := mmu_match_ttr r addr super data in
  if negb (bool_decide (res = TTR_NO_MATCH)) then
    mod_l2 super i (line_ttr r addr super data res) ;; xret 0
  else
  mod_l2 super i (set_is_tt false) ;;
  if negb r.(mmu_enabled) then mod_l2 super i line_disabled ;; xret 0 else
  let* desc := try_catch (let* d := mmu_lookup_pagetable addr super write in xret (Some d))
                         (λ _, xret None) in
  match desc with
  | None => mod_l2 super i line_fail ;; xret 0
  | Some desc =>
      if negb (tst desc 1) || (negb super && tst desc MMU_MMUSR_S)
      then mod_l2 super i line_fail ;; xret desc
      else
        let* size_8k := xget (λ s, s.(regs).(mmu_pagesize_8k)) in
        mod_l2 super i (line_desc size_8k addr desc) ;; xret desc
  end.

Definition line_valid (data : bool) (l : mmu_atc_line) : bool :=
  if data then l.(valid_data) else l.(valid_inst).

(** The part of [mmu_fill_atc_l1] up to [*l1 = *l]: [false] is [goto fail].  The
    backward jump to [restart] is the recursive call. *)
Fixpoint fill_atc_l1_check (fuel : nat) (restart : bool) (addr : Z) (super data write : bool) : M bool :=
  match fuel with
  | O => xundef No_fuel
  | S fuel =>
    let i := ATC_L2_INDEX addr in
    let* l := xget (λ s, s.(atc_l2) super i) in
    xwhen (restart || negb (l.(tag) =? ATC_TAG addr))
      (mmu_fill_atc_l2 addr super data write i ;; xret tt) ;;
    let* l := xget (λ s, s.(atc_l2) super i) in
    if negb (line_valid data l) then xret false
    else if write && l.(write_protect) then xret false
    else if write && negb l.(modified) then fill_atc_l1_check fuel true addr super data write
    else xret true
  end.

(** [l1] is the line [k] of [atc_l1]. *)
Definition mmu_fill_atc_l1 (addr : Z) (super data write : bool) (k : Z) : M bool :=
  let fail := mod_l1 k (λ l, set_tag (u16 (Z.lnot l.(tag))) l) ;; xret false in
  let* ok := fill_atc_l1_check 2 false addr super data write in
  if negb ok then fail else
  let* l := xget (λ s, s.(atc_l2) super (ATC_L2_INDEX addr)) in
  mod_l1 k (λ _, l) ;;
  let phys_addr := addr +u l.(phys) in
  if (phys_addr .& 0xfff00000) =? 0x00f00000 then
    mod_l1 k (set_hw true) ;; fail
  else if (phys_addr .& 0xfff00000) =? 0xfff00000 then
    mod_l1 k (λ l, set_phys (l.(phys) -u 0xff000000) (set_hw true l)) ;; fail
  else if negb (test_ram_boundary phys_addr 1 super write) then
    mod_l1 k (set_bus_fault true) ;; fail
  else xret true.

Definition mmu_translate (addr : Z) (super data write : bool) : M Z :=
  let i := ATC_L2_INDEX addr in
  mmu_fill_atc_l2 addr super data write i ;;
  let* l := xget (λ s, s.(atc_l2) super i) in
  if negb (line_valid data l) then throw 2 else
  xret (addr +u l.(phys)).

(** ** Accesses *)

(** [mmu_get_byte_slow], [mmu_get_word_slow], [mmu_get_long_slow]: [n] bytes,
    [hwget] the access to the devices, [k] the line [cl]. *)
Definition mmu_get_slow (n : nat) (hwget : Z → M Z) (addr : Z) (super data : bool)
    (size : wordsizes) (k : Z) : M Z :=
  let redo :=
    let* cl := xget (λ s, s.(atc_l1) k) in
    if cl.(hw) then hwget (cl.(phys) +u addr)
    else mmu_bus_error addr (mmu_get_fc super data) false size ;; xret 0 in
  let* cl := xget (λ s, s.(atc_l1) k) in
  if cl.(tag) =? u16 (Z.lnot (ATC_TAG addr)) then redo else
  let* ok := mmu_fill_atc_l1 addr super data false k in
  if negb ok then redo else
  let* cl := xget (λ s, s.(atc_l1) k) in
  do_get_mem n (cl.(phys) +u addr).

Definition mmu_get_byte_slow := mmu_get_slow 1 HWget_b.
Definition mmu_get_word_slow := mmu_get_slow 2 HWget_w.
Definition mmu_get_long_slow := mmu_get_slow 4 HWget_l.

Definition mmu_get_quad_slow (addr : Z) (super data : bool) (k : Z) : M Z :=
  let* h := mmu_get_long_slow addr super data sz_long k in
  let* l := mmu_get_long_slow (addr +u 4) super data sz_long k in
  xret (Z.shiftl h 32 .| l).

Definition mmu_put_slow (n : nat) (hwput : Z → Z → M unit) (addr val : Z) (super data : bool)
    (size : wordsizes) (k : Z) : M unit :=
  let redo :=
    let* cl := xget (λ s, s.(atc_l1) k) in
    if cl.(hw) then hwput (cl.(phys) +u addr) val
    else mod_regs (set_wb3_data val) ;; mmu_bus_error addr (mmu_get_fc super data) true size in
  let* cl := xget (λ s, s.(atc_l1) k) in
  if cl.(tag) =? u16 (Z.lnot (ATC_TAG addr)) then redo else
  let* ok := mmu_fill_atc_l1 addr super data true k in
  if negb ok then redo else
  let* cl := xget (λ s, s.(atc_l1) k) in
  do_put_mem n (cl.(phys) +u addr) val.

Definition mmu_put_byte_slow := mmu_put_slow 1 HWput_b.
Definition mmu_put_word_slow := mmu_put_slow 2 HWput_w.
Definition mmu_put_long_slow := mmu_put_slow 4 HWput_l.

Definition mmu_put_quad_slow (addr val : Z) (super data : bool) (k : Z) : M unit :=
  mmu_put_long_slow addr (u32 (val >> 32)) super data sz_long k ;;
  mmu_put_long_slow (addr +u 4) (u32 val) super data sz_long k.

(** [mmu_lookup] and [mmu_user_lookup]: is the line of [addr] in this half of the
    first level cache a hit? *)
Definition mmu_user_lookup (addr : Z) (super data write : bool) : M bool :=
  let* cl := xget (λ s, s.(atc_l1) (l1_slot super data write (ATC_L1_INDEX addr))) in
  xret (cl.(tag) =? ATC_TAG addr).

Definition mmu_lookup (addr : Z) (data write : bool) : M bool :=
  let* super := xget current_atc in
  mmu_user_lookup addr super data write.

(** The body shared by the accesses of all sizes: [half] selects the cache, [super]
    the mode. *)
Definition mmu_get_at (n : nat) (hwget : Z → M Z) (half super : bool) (addr : Z) (data : bool)
    (size : wordsizes) : M Z :=
  let k := l1_slot half data false (ATC_L1_INDEX addr) in
  let* hit := mmu_user_lookup addr half data false in
  if hit then
    let* cl := xget (λ s, s.(atc_l1) k) in do_get_mem n (cl.(phys) +u addr)
  else mmu_get_slow n hwget addr super data size k.

Definition mmu_put_at (n : nat) (hwput : Z → Z → M unit) (half super : bool) (addr val : Z)
    (data : bool) (size : wordsizes) : M unit :=
  let k := l1_slot half data true (ATC_L1_INDEX addr) in
  let* hit := mmu_user_lookup addr half data true in
  if hit then
    let* cl := xget (λ s, s.(atc_l1) k) in do_put_mem n (cl.(phys) +u addr) val
  else mmu_put_slow n hwput addr val super data size k.

Definition mmu_get (n : nat) (hwget : Z → M Z) (addr : Z) (data : bool) (size : wordsizes) : M Z :=
  let* half := xget current_atc in
  let* super := xget (λ s, s.(regs).(sr_s)) in
  mmu_get_at n hwget half super addr data size.

Definition mmu_put (n : nat) (hwput : Z → Z → M unit) (addr val : Z) (data : bool)
    (size : wordsizes) : M unit :=
  let* half := xget current_atc in
  let* super := xget (λ s, s.(regs).(sr_s)) in
  mmu_put_at n hwput half super addr val data size.

Definition mmu_get_byte := mmu_get 1 HWget_b.
Definition mmu_get_word := mmu_get 2 HWget_w.
Definition mmu_get_long := mmu_get 4 HWget_l.
Definition mmu_put_byte addr val := mmu_put 1 HWput_b addr (u8 val).
Definition mmu_put_word addr val := mmu_put 2 HWput_w addr (u16 val).
Definition mmu_put_long addr val := mmu_put 4 HWput_l addr (u32 val).

(** [mmu_get_quad] returns a [uae_u32], [put_quad] takes one. *)
Definition mmu_get_quad (addr : Z) (data : bool) : M Z :=
  let* half := xget current_atc in
  let k := l1_slot half data false (ATC_L1_INDEX addr) in
  let* hit := mmu_user_lookup addr half data false in
  let* v := (if hit then
      let* cl := xget (λ s, s.(atc_l1) k) in do_get_mem 8 (cl.(phys) +u addr)
    else let* super := xget (λ s, s.(regs).(sr_s)) in mmu_get_quad_slow addr super data k) in
  xret (u32 v).
Definition get_quad (addr : Z) : M Z := mmu_get_quad addr true.

Definition mmu_put_quad (addr val : Z) (data : bool) : M unit :=
  let* half := xget current_atc in
  let k := l1_slot half data true (ATC_L1_INDEX addr) in
  let* hit := mmu_user_lookup addr half data true in
  if hit then
    let* cl := xget (λ s, s.(atc_l1) k) in do_put_mem 8 (cl.(phys) +u addr) val
  else let* super := xget (λ s, s.(regs).(sr_s)) in mmu_put_quad_slow addr val super data k.
Definition put_quad (addr val : Z) : M unit := mmu_put_quad addr (u32 val) true.

Definition mmu_get_user_byte super addr data size := mmu_get_at 1 HWget_b super super addr data size.
Definition mmu_get_user_word super addr data size := mmu_get_at 2 HWget_w super super addr data size.
Definition mmu_get_user_long super addr data size := mmu_get_at 4 HWget_l super super addr data size.
Definition mmu_put_user_byte super addr val data size :=
  mmu_put_at 1 HWput_b super super addr (u8 val) data size.
Definition mmu_put_user_word super addr val data size :=
  mmu_put_at 2 HWput_w super super addr (u16 val) data size.
Definition mmu_put_user_long super addr val data size :=
  mmu_put_at 4 HWput_l super super addr (u32 val) data size.

(** ** Accesses that cross a page *)

Definition is_unaligned (addr size : Z) : bool :=
  tst addr (size - 1) && tst (addr .^ (addr +u (size - 1))) 0x1000.

(** The handlers of the misaligned reads and writes. *)
Definition read_fault {A} (addr prb : Z) : M A :=
  mod_regs (set_mmu_fault_addr addr) ;;
  mod_regs (λ r, set_mmu_ssw (r.(mmu_ssw) .| MMU_SSW_MA) r) ;;
  throw prb.

Definition write_fault (addr val prb : Z) : M unit :=
  mod_regs (set_wb3_data val) ;;
  let* fault := xget (λ s, s.(regs).(mmu_fault_addr)) in
  xwhen (negb (fault =? addr))
    (mod_regs (set_mmu_fault_addr addr) ;;
     mod_regs (λ r, set_mmu_ssw (r.(mmu_ssw) .| MMU_SSW_MA) r)) ;;
  throw prb.

(** A word from two byte reads, a long from two word or four byte reads: the first
    read is outside [TRY]. *)
Definition word_by_bytes (byte : Z → M Z) (addr : Z) : M Z :=
  let* hi := byte addr in
  try_catch (let* lo := byte (addr +u 1) in xret (u16 (Z.shiftl hi 8) .| lo)) (read_fault addr).

Definition long_by_parts (byte word : Z → M Z) (addr : Z) : M Z :=
  if negb (tst addr 1) then
    let* hi := word addr in
    try_catch (let* lo := word (addr +u 2) in xret ((hi << 16) .| lo)) (read_fault addr)
  else
    let* b0 := byte addr in
    let res := b0 << 8 in
    try_catch
      (let* b1 := byte (addr +u 1) in
       let res := (res .| b1) << 8 in
       let* b2 := byte (addr +u 2) in
       let res := (res .| b2) << 8 in
       let* b3 := byte (addr +u 3) in
       xret (res .| b3)) (read_fault addr).

Definition put_word_by_bytes (byte : Z → Z → M unit) (addr val : Z) : M unit :=
  byte addr (val >> 8) ;; byte (addr +u 1) val.

Definition put_long_by_parts (byte word : Z → Z → M unit) (addr val : Z) : M unit :=
  if negb (tst addr 1) then
    word addr (val >> 16) ;; word (addr +u 2) val
  else
    byte addr (val >> 24) ;; byte (addr +u 1) (val >> 16) ;;
    byte (addr +u 2) (val >> 8) ;; byte (addr +u 3) val.

Definition mmu_get_word_unaligned (addr : Z) (data : bool) : M Z :=
  word_by_bytes (λ a, mmu_get_byte a data sz_word) addr.
Definition mmu_get_long_unaligned (addr : Z) (data : bool) : M Z :=
  long_by_parts (λ a, mmu_get_byte a data sz_long) (λ a, mmu_get_word a data sz_long) addr.
Definition mmu_put_word_unaligned (addr val : Z) (data : bool) : M unit :=
  try_catch (put_word_by_bytes (λ a v, mmu_put_byte a v data sz_word) addr val) (write_fault addr val).
Definition mmu_put_long_unaligned (addr val : Z) (data : bool) : M unit :=
  try_catch (put_long_by_parts (λ a v, mmu_put_byte a v data sz_long)
                               (λ a v, mmu_put_word a v data sz_long) addr val)
            (write_fault addr val).

Definition get_long (addr : Z) : M Z :=
  if is_unaligned addr 4 then mmu_get_long_unaligned addr true else mmu_get_long addr true sz_long.
Definition get_word (addr : Z) : M Z :=
  if is_unaligned addr 2 then mmu_get_word_unaligned addr true else mmu_get_word addr true sz_word.
Definition get_byte (addr : Z) : M Z := mmu_get_byte addr true sz_byte.
Definition put_long (addr val : Z) : M unit :=
  let val := u32 val in
  if is_unaligned addr 4 then mmu_put_long_unaligned addr val true else mmu_put_long addr val true sz_long.
Definition put_word (addr val : Z) : M unit :=
  let val := u16 val in
  if is_unaligned addr 2 then mmu_put_word_unaligned addr val true else mmu_put_word addr val true sz_word.
Definition put_byte (addr val : Z) : M unit := mmu_put_byte addr val true sz_byte.

(** The accesses of MOVES: mode and space come from [sfc] and [dfc]. *)
Definition fc_super (fc : Z) : bool := tst fc 4.
Definition fc_data (fc : Z) : bool := negb ((fc .& 3) =? 2).

Definition sfc_get_long (addr : Z) : M Z :=
  let* fc := xget (λ s, s.(regs).(sfc)) in
  if negb (is_unaligned addr 4) then mmu_get_user_long (fc_super fc) addr (fc_data fc) sz_long
  else long_by_parts (λ a, mmu_get_user_byte (fc_super fc) a (fc_data fc) sz_long)
                     (λ a, mmu_get_user_word (fc_super fc) a (fc_data fc) sz_long) addr.

Definition sfc_get_word (addr : Z) : M Z :=
  let* fc := xget (λ s, s.(regs).(sfc)) in
  if negb (is_unaligned addr 2) then mmu_get_user_word (fc_super fc) addr (fc_data fc) sz_word
  else word_by_bytes (λ a, mmu_get_user_byte (fc_super fc) a (fc_data fc) sz_word) addr.

Definition sfc_get_byte (addr : Z) : M Z :=
  let* fc := xget (λ s, s.(regs).(sfc)) in
  mmu_get_user_byte (fc_super fc) addr (fc_data fc) sz_byte.

Definition dfc_put_long (addr val : Z) : M unit :=
  let val := u32 val in
  let* fc := xget (λ s, s.(regs).(dfc)) in
  let super := fc_super fc in let data := fc_data fc in
  try_catch
    (if negb (is_unaligned addr 4) then mmu_put_user_long super addr val data sz_long
     else put_long_by_parts (λ a v, mmu_put_user_byte super a v data sz_long)
                            (λ a v, mmu_put_user_word super a v data sz_long) addr val)
    (write_fault addr val).

Definition dfc_put_word (addr val : Z) : M unit :=
  let val := u16 val in
  let* fc := xget (λ s, s.(regs).(dfc)) in
  let super := fc_super fc in let data := fc_data fc in
  try_catch
    (if negb (is_unaligned addr 2) then mmu_put_user_word super addr val data sz_word
     else put_word_by_bytes (λ a v, mmu_put_user_byte super a v data sz_word) addr val)
    (write_fault addr val).

Definition dfc_put_byte (addr val : Z) : M unit :=
  let val := u8 val in
  let* fc := xget (λ s, s.(regs).(dfc)) in
  try_catch (mmu_put_user_byte (fc_super fc) addr val (fc_data fc) sz_byte)
    (λ prb, mod_regs (set_wb3_data val) ;; throw prb).

Definition get_real_address (addr : Z) (write : bool) : M Z :=
  let* super := xget (λ s, s.(regs).(sr_s)) in
  mmu_translate addr super true write.

Definition valid_address (addr : Z) (write : bool) (sz : Z) : M bool :=
  try_catch
    (let* super := xget (λ s, s.(regs).(sr_s)) in
     let* a := mmu_translate addr super true write in
     check_ram_boundary a sz write ;; xret true)
    (λ _, xret false).

(** ** Flushing and control *)

Definition flush_line (glob : bool) (l : mmu_atc_line) : mmu_atc_line :=
  if glob || negb l.(global) then set_tag 0x8000 l else l.

(** [l[i]] for a pointer [l] into the array of 2048 lines. *)
Definition flush_l1 (glob : bool) (k : Z) : M unit :=
  if in_range 0 2048 k then mod_l1 k (flush_line glob) else xundef Oob_atc.

Definition mmu_flush_atc (addr : Z) (super glob : bool) : M unit :=
  let l := l1_slot super false false 0 in
  let i := ATC_L1_INDEX addr in
  flush_l1 glob (l + i) ;;
  flush_l1 glob (l + 256 + i) ;;
  flush_l1 glob (l + 2 * 256 + i) ;;
  flush_l1 glob (l + 3 * 256 + i) ;;
  let l := l + 4 * 256 in
  let* size_8k := xget (λ s, s.(regs).(mmu_pagesize_8k)) in
  xwhen size_8k
    (let i := i .^ 1 in
     flush_l1 glob (l + i) ;;
     flush_l1 glob (l + 256 + i) ;;
     flush_l1 glob (l + 2 * 256 + i) ;;
     flush_l1 glob (l + 3 * 256 + i)) ;;
  let i := ATC_L2_INDEX addr in
  mod_l2 super i (flush_line glob) ;;
  xwhen size_8k (mod_l2 super (i .^ 1) (flush_line glob)).

Definition mmu_flush_atc_all (glob : bool) : M unit :=
  xmod (λ s, set_atc_l1 (λ k, flush_line glob (s.(atc_l1) k)) s) ;;
  xmod (λ s, set_atc_l2 (λ b i, flush_line glob (s.(atc_l2) b i)) s).

(** The status PTEST stores for the line it filled. *)
Definition ptest_status (data : bool) (l : mmu_atc_line) (desc : Z) : Z :=
  if negb (line_valid data l) then MMU_MMUSR_B
  else if l.(is_tt) then MMU_MMUSR_T .| MMU_MMUSR_R
  else (desc .& (0xfffff000 .| MMU_MMUSR_G .| MMU_MMUSR_Ux .| MMU_MMUSR_S .| MMU_MMUSR_CM
                 .| MMU_MMUSR_M .| MMU_MMUSR_W)) .| MMU_MMUSR_R.

(** [op_illg], the treatment of an illegal instruction, is in [newcpu.cpp]. *)
Definition mmu_op (op_illg : Z → M unit) (opcode : Z) : M unit :=
  let* r := xget regs in
  let super := tst r.(dfc) 4 in
  if (opcode .& 0xFE0) =? 0x0500 then
    let glob := tst opcode 8 in
    (if tst opcode 16 then mmu_flush_atc_all glob
     else mmu_flush_atc (r.(m68k_areg) (opcode .& 7)) super glob) ;;
    flush_internals
  else if (opcode .& 0x0FD8) =? 0x548 then
    let write := (opcode .& 32) =? 0 in
    let addr := r.(m68k_areg) (opcode .& 7) in
    mmu_flush_atc addr super true ;;
    let data := negb ((r.(dfc) .& 3) =? 2) in
    try_catch
      (let i := ATC_L2_INDEX addr in
       let* desc := mmu_fill_atc_l2 addr super data write i in
       let* l := xget (λ s, s.(atc_l2) super i) in
       mod_regs (set_mmusr (ptest_status data l desc)))
      (λ _, mod_regs (set_mmusr MMU_MMUSR_B))
  else op_illg opcode.

Definition mmu_reset : M unit :=
  mmu_flush_atc_all true ;;
  mod_regs (λ r, set_urp 0 (set_srp 0 r)) ;;
  mod_regs (λ r, set_itt0 0 (set_itt1 0 r)) ;;
  mod_regs (λ r, set_dtt0 0 (set_dtt1 0 r)) ;;
  mod_regs (set_mmusr 0).

Definition mmu_set_tc (v : Z) : M unit :=
  let* r := xget regs in
  if r.(mmu_tc) =? v then xret tt else
  mod_regs (set_mmu_tc v) ;;
  mod_regs (set_mmu_enabled (tst v 0x8000)) ;;
  mod_regs (set_mmu_pagesize_8k (tst v 0x4000)) ;;
  mmu_flush_atc_all true.

Definition mmu_set_super (super : bool) : M unit := xmod (set_current_atc super).

Definition mmu_set_ttr (regno val : Z) : M unit :=
  if regno =? TTR_I0 then mod_regs (set_itt0 val)
  else if regno =? TTR_I1 then mod_regs (set_itt1 val)
  else if regno =? TTR_D0 then mod_regs (set_dtt0 val)
  else if regno =? TTR_D1 then mod_regs (set_dtt1 val)
  else xundef Abort_called.

Definition mmu_set_mmusr (val : Z) : M unit := mod_regs (set_mmusr val).

End Mmu.
