(* ===== verification/MmuWalk.v ===== *)
(** * MmuWalk: the table walk against a translation tree

    [tables] is a translation tree as the operating system wrote it: descriptor
    words by address, each with its role (root or pointer table, page, indirect).
    [t_walk] is the search the 68040 manual describes, on the tree; it never sees
    the U and M bits, which the walk itself updates in memory.  A memory
    [implements] a tree when it holds the descriptors up to these two bits.
    [lookup_walks]: [mmu_lookup_pagetable] finds what [t_walk] finds and leaves a
    memory that implements the same tree. *)

From S2P Require Import Prelude Throws Machine MachineSpec Mmu.
From stdpp Require Import base gmap list numbers.
Open Scope Z_scope.
Open Scope c_scope.
Open Scope x_scope.

(** ** Translation trees *)

Inductive dkind := KTable | KPage | KIndirect.
#[export] Instance dkind_eq_dec : EqDecision dkind.
Proof. solve_decision. Defined.
Definition tables := gmap Z (dkind * Z).

(** Equal descriptors up to U (bit 3) and M (bit 4). *)
Definition um_eq (d d' : Z) : Prop :=
  ∀ i, 0 <= i → i ≠ 3 → i ≠ 4 → Z.testbit d i = Z.testbit d' i.

Definition word_ok (k : dkind) (d w : Z) : Prop :=
  match k with KIndirect => w = d | _ => um_eq d w end.

Definition implements (T : tables) (m : gmap Z Z) : Prop :=
  ∀ A k d, T !! A = Some (k, d) → word_ok k d (be_get 4 m A).

(** Descriptors are longwords in plain RAM, and of the type of their role. *)
Class TablesOk `{cfg : Config} (T : tables) : Prop := {
  t_aligned A k d : T !! A = Some (k, d) → A mod 4 = 0;
  t_ram A k d : T !! A = Some (k, d) → plain_ram A;
  t_word A k d : T !! A = Some (k, d) → 0 <= d < 2 ^ 32;
  t_page A d : T !! A = Some (KPage, d) → d mod 4 ≠ 2;
  t_indirect A d : T !! A = Some (KIndirect, d) → d mod 4 = 2;
}.

Inductive walk := Missing | NotResident | Page (d : Z).
#[export] Instance walk_eq_dec : EqDecision walk.
Proof. solve_decision. Defined.

Definition root_entry (rp a : Z) : Z := rp / 512 * 512 + (a / 2 ^ 25) mod 128 * 4.
Definition ptr_entry (root a : Z) : Z := root / 512 * 512 + (a / 2 ^ 18) mod 128 * 4.
Definition page_entry (size_8k : bool) (ptr a : Z) : Z :=
  if size_8k then ptr / 128 * 128 + (a / 2 ^ 13) mod 32 * 4
  else ptr / 256 * 256 + (a / 2 ^ 12) mod 64 * 4.

(** The last step: the page descriptor must be resident; write protection of an
    upper level must be in the page descriptor too, else the tree is not described
    ([Missing]), because the walk would copy it there. *)
Definition t_leaf (T : tables) (root ptr : Z) (e : option (dkind * Z)) : walk :=
  match e with
  | Some (KPage, d) =>
      if negb (Z.testbit d 0) then NotResident
      else if (Z.testbit root 2 || Z.testbit ptr 2) && negb (Z.testbit d 2) then Missing
      else Page d
  | _ => Missing
  end.

Definition t_walk (T : tables) (size_8k : bool) (rp a : Z) : walk :=
  match T !! root_entry rp a with
  | Some (KTable, root) =>
    if negb (Z.testbit root 1) then NotResident else
    match T !! ptr_entry root a with
    | Some (KTable, ptr) =>
      if negb (Z.testbit ptr 1) then NotResident else
      match T !! page_entry size_8k ptr a with
      | Some (KIndirect, i) => t_leaf T root ptr (T !! (i / 4 * 4))
      | e => t_leaf T root ptr e
      end
    | _ => Missing
    end
  | _ => Missing
  end.

(** ** Descriptor words *)

Lemma um_eq_refl d : um_eq d d.
Proof. done. Qed.
Lemma um_eq_sym d d' : um_eq d d' → um_eq d' d.
Proof. intros H i ???. symmetry. by apply H. Qed.
Lemma um_eq_trans d1 d2 d3 : um_eq d1 d2 → um_eq d2 d3 → um_eq d1 d3.
Proof. intros H1 H2 i ???. by rewrite H1, H2. Qed.
#[export] Instance um_eq_equiv : Equivalence um_eq.
Proof. split; [exact um_eq_refl|exact um_eq_sym|exact um_eq_trans]. Qed.

(** Or-ing in U and M, or bits that are there already. *)
Lemma um_eq_lor d m : (∀ i, 0 <= i → Z.testbit m i = true → i = 3 ∨ i = 4 ∨ Z.testbit d i = true) →
  um_eq d (d .| m).
Proof.
  intros Hm i Hi H3 H4. rewrite Z.lor_spec. destruct (Z.testbit m i) eqn:E.
  - destruct (Hm i Hi E) as [?|[?| ->]]; done.
  - by rewrite orb_false_r.
Qed.

Lemma um_eq_div n d d' : 5 <= n → um_eq d d' → d / 2 ^ n = d' / 2 ^ n.
Proof. intros Hn H. apply div_pow2_bits; [lia|]. intros i Hi. apply H; lia. Qed.

Lemma um_eq_tst d d' k m : um_eq d d' → 0 <= k → k ≠ 3 → k ≠ 4 → m = 2 ^ k → tst d m = tst d' m.
Proof. intros H ??? ->. rewrite !(tst_pow _ _ k) by done. by apply H. Qed.

Lemma um_eq_mod4 d d' : um_eq d d' → d mod 4 = d' mod 4.
Proof.
  intros H. change 4 with (2 ^ 2). apply Z.bits_inj'. intros i Hi.
  destruct (Z.lt_ge_cases i 2); [rewrite !Z.mod_pow2_bits_low by lia; apply H; lia|].
  by rewrite !Z.mod_pow2_bits_high by lia.
Qed.

Lemma be_get4_range m a : 0 <= be_get 4 m a < 2 ^ 32.
Proof. apply (be_get_range 4). Qed.

(** ** The addresses the code computes *)

Lemma entry_addr d n x k j : 0 <= k → 0 <= j → j + 2 <= n <= 32 → 0 <= d < 2 ^ 32 →
  (d .& (2 ^ 32 - 2 ^ n)) .| ((x >> k) .& (2 ^ (j + 2) - 4)) =
  d / 2 ^ n * 2 ^ n + (x / 2 ^ (k + 2)) mod 2 ^ j * 4.
Proof.
  intros. rewrite land_high, land_field by lia. apply lor_disjoint_add; [lia|].
  assert (0 <= (x / 2 ^ (k + 2)) mod 2 ^ j < 2 ^ j) by (apply Z.mod_pos_bound; lia).
  assert (2 ^ (j + 2) <= 2 ^ n) by (apply Z.pow_le_mono_r; lia).
  rewrite Z.pow_add_r in * by lia. change (2 ^ 2) with 4 in *. lia.
Qed.

Lemma root_entry_addr d a : 0 <= d < 2 ^ 32 →
  (d .& 0xfffffe00) .| ((a >> 23) .& 0x1fc) = root_entry d a.
Proof. intros. by apply (entry_addr d 9 a 23 7). Qed.

Lemma ptr_entry_addr d a : 0 <= d < 2 ^ 32 →
  (d .& 0xfffffe00) .| ((a >> 16) .& 0x1fc) = ptr_entry d a.
Proof. intros. by apply (entry_addr d 9 a 16 7). Qed.

Lemma page_entry_addr size_8k d a : 0 <= d < 2 ^ 32 →
  page_desc_addr size_8k d a = page_entry size_8k d a.
Proof.
  intros. unfold page_desc_addr, page_entry. destruct size_8k.
  - by apply (entry_addr d 7 a 11 5).
  - by apply (entry_addr d 8 a 10 6).
Qed.

Lemma indirect_addr d : 0 <= d < 2 ^ 32 → d .& 0xfffffffc = d / 4 * 4.
Proof. intros. by apply (land_high d 2 32). Qed.

Lemma ptr_entry_um d d' a : um_eq d d' → ptr_entry d a = ptr_entry d' a.
Proof. intros H. unfold ptr_entry. change 512 with (2 ^ 9). by rewrite (um_eq_div 9 d d'). Qed.

Lemma page_entry_um size_8k d d' a : um_eq d d' → page_entry size_8k d a = page_entry size_8k d' a.
Proof.
  intros H. unfold page_entry. change 128 with (2 ^ 7). change 256 with (2 ^ 8).
  by rewrite (um_eq_div 7 d d'), (um_eq_div 8 d d').
Qed.

(** ** What a walk may change *)

Section Walk.
Context {cfg : Config} {ok : ConfigOk} {D : Type} {hwd : Hardware D} (T : tables) {Tok : TablesOk T}.
Implicit Types (s : machine D) (A a d w : Z).

(** A byte that belongs to no descriptor. *)
Definition outside (x : Z) : Prop := ∀ A k d, T !! A = Some (k, d) → x < A ∨ A + 4 <= x.

(** From [s] to [s'] only U and M bits of descriptors changed. *)
Definition touched s s' : Prop :=
  ∃ m, upto_pages (set_mem m s) s' ∧ implements T m ∧
       ∀ x, outside x → aget m x = aget s.(mem) x.

Lemma touched_pages s s' : implements T s.(mem) → upto_pages s s' → touched s s'.
Proof. intros Hi Hu. exists s.(mem). split; [|done]. by destruct s. Qed.

Lemma touched_refl s : implements T s.(mem) → touched s s.
Proof. intros Hi. apply touched_pages; [done|apply upto_pages_refl]. Qed.

Lemma touched_trans s1 s2 s3 : touched s1 s2 → touched s2 s3 → touched s1 s3.
Proof.
  intros (m & (p & q & ->) & _ & Hm) (m' & (p' & q' & ->) & Hi & Hm'). exists m'.
  split; [by exists p', q'|]. split; [done|]. intros x Hx. by rewrite Hm', <-Hm.
Qed.

Lemma touched_implements s s' : touched s s' → implements T s'.(mem).
Proof. intros (m & (p & q & ->) & Hi & _). exact Hi. Qed.

Lemma touched_regs s s' : touched s s' → s'.(regs) = s.(regs).
Proof. by intros (m & (p & q & ->) & _). Qed.

(** Storing a descriptor that differs in U and M. *)
Lemma implements_put m A k d w :
  implements T m → T !! A = Some (k, d) → k ≠ KIndirect → um_eq d w → 0 <= w < 2 ^ 32 →
  implements T (be_put 4 A w m).
Proof.
  intros Hi HA Hk Hw Hr B k' d' HB. destruct (decide (A = B)) as [<-|Hne].
  - rewrite be_get_put, HA in *. simplify_eq. rewrite Z.mod_small by (by change (256 ^ _) with (2 ^ 32)).
    by destruct k'.
  - pose proof (t_aligned A k d HA). pose proof (t_aligned B k' d' HB).
    rewrite be_get_put_disjoint; [by apply Hi|]. change (Z.of_nat 4) with 4.
    Z.to_euclidean_division_equations. lia.
Qed.

Lemma put_desc s A k d w :
  implements T s.(mem) → T !! A = Some (k, d) → k ≠ KIndirect → um_eq d w → 0 <= w < 2 ^ 32 →
  ∃ s', phys_put_long A w s = (Ret tt, s') ∧ touched s s'.
Proof.
  intros Hi HA Hk Hw Hr. destruct (phys_put_long_ram A w s (t_ram A k d HA)) as (s' & -> & Hu).
  exists s'. split; [done|]. exists (be_put 4 A w s.(mem)).
  split; [done|]. split; [by eapply implements_put|].
  intros x Hx. apply be_put_ne. destruct (Hx _ _ _ HA); [by left|by right].
Qed.

Lemma get_desc s A k d :
  implements T s.(mem) → T !! A = Some (k, d) →
  ∃ w s', phys_get_long A s = (Ret w, s') ∧ touched s s' ∧ word_ok k d w ∧ 0 <= w < 2 ^ 32.
Proof.
  intros Hi HA. destruct (phys_get_long_ram A s (t_ram A k d HA)) as (s' & -> & Hu).
  exists (be_get 4 s.(mem) A), s'. split; [done|]. split; [by apply touched_pages|].
  split; [by apply Hi|apply be_get4_range].
Qed.

(** ** The steps of the walk *)

Lemma lor_word_range w m : 0 <= w < 2 ^ 32 → 0 <= m < 2 ^ 32 → 0 <= w .| m < 2 ^ 32.
Proof. intros. apply lor_range; lia. Qed.

Lemma um_eq_used w : um_eq w (w .| 0x8).
Proof.
  apply um_eq_lor. intros i Hi Hb. left. change 0x8 with (2 ^ 3) in Hb.
  rewrite Z.pow2_bits_eqb in Hb by lia. lia.
Qed.

Lemma um_eq_used_modified w : um_eq w (w .| (0x8 .| 0x10)).
Proof.
  apply um_eq_lor. intros i Hi Hb. change 0x8 with (2 ^ 3) in Hb. change 0x10 with (2 ^ 4) in Hb.
  rewrite Z.lor_spec, !Z.pow2_bits_eqb in Hb by lia. lia.
Qed.

Lemma fetch_table_desc_ok s A d :
  implements T s.(mem) → T !! A = Some (KTable, d) →
  ∃ r s', fetch_table_desc A s = (Ret r, s') ∧ touched s s' ∧
    match r with
    | Some w => Z.testbit d 1 = true ∧ um_eq d w ∧ 0 <= w < 2 ^ 32
    | None => Z.testbit d 1 = false
    end.
Proof.
  intros Hi HA. destruct (get_desc s A _ _ Hi HA) as (w & s1 & Hg & Ht & Hw & Hr).
  unfold fetch_table_desc. rewrite (xbind_ret _ _ _ _ _ Hg).
  rewrite (tst_pow w 2 1) by done.
  rewrite <-(Hw 1) by done. destruct (Z.testbit d 1) eqn:E; cbn [negb].
  - destruct (tst w 0x8); cbn [negb xwhen].
    + exists (Some w), s1. done.
    + destruct (put_desc s1 A KTable d (w .| 0x8)) as (s2 & Hp & Ht2); try done.
      { by eapply touched_implements. }
      { etrans; [exact Hw|apply um_eq_used]. }
      { by apply lor_word_range. }
      rewrite (xbind_ret _ _ _ _ _ Hp). exists (Some w), s2. split; [done|].
      split; [by eapply touched_trans|done].
  - by exists None, s1.
Qed.

(** The word of a page descriptor after the walk: the descriptor up to U and M, with
    M set by a write the descriptor allows. *)
Definition page_word (write : bool) (d w : Z) : Prop :=
  um_eq d w ∧ 0 <= w < 2 ^ 32 ∧ (write = true → Z.testbit d 2 = false → Z.testbit w 4 = true).

Lemma lor_bit w m i : Z.testbit m i = true → Z.testbit (w .| m) i = true.
Proof. intros H. by rewrite Z.lor_spec, H, orb_true_r. Qed.

Lemma used_modified_bit4 w : ((w .& (0x8 .| 0x10)) =? (0x8 .| 0x10)) = true → Z.testbit w 4 = true.
Proof.
  intros H. apply Z.eqb_eq in H. apply (f_equal (λ z, Z.testbit z 4)) in H.
  rewrite Z.land_spec in H. by destruct (Z.testbit w 4).
Qed.

Lemma update_page_desc_ok s A d w write :
  implements T s.(mem) → T !! A = Some (KPage, d) → um_eq d w → 0 <= w < 2 ^ 32 →
  ∃ w' s', update_page_desc A w write s = (Ret w', s') ∧ touched s s' ∧ page_word write d w'.
Proof.
  intros Hi HA Hw Hr. pose proof (touched_refl s Hi) as Hrefl.
  assert (∀ m, um_eq w (w .| m) → 0 <= m < 2 ^ 32 →
    (write = true → Z.testbit d 2 = false → Z.testbit (w .| m) 4 = true) →
    ∃ w' s', (phys_put_long A (w .| m) ;; xret (w .| m)) s = (Ret w', s') ∧ touched s s' ∧
      page_word write d w') as Hput.
  { intros m Hm Hmr Hb.
    destruct (put_desc s A KPage d (w .| m)) as (s1 & Hp & Ht); try done.
    { by etrans. } { by apply lor_word_range. }
    rewrite (xbind_ret _ _ _ _ _ Hp). exists (w .| m), s1. split; [done|]. split; [done|].
    split; [by etrans|]. split; [by apply lor_word_range|done]. }
  assert ((write = true → Z.testbit d 2 = false → Z.testbit w 4 = true) →
    ∃ w' s', xret w s = (Ret w', s') ∧ touched s s' ∧ page_word write d w') as Hkeep.
  { intros Hb. by exists w, s. }
  assert (tst w 0x4 = Z.testbit d 2) as Hwp.
  { rewrite (tst_pow w 0x4 2) by done. symmetry. by apply Hw. }
  unfold update_page_desc. cbv zeta. rewrite Hwp. destruct write; [destruct (Z.testbit d 2) eqn:E|].
  - destruct (tst w 0x8); cbn [negb]; [by apply Hkeep|].
    by apply Hput; [apply um_eq_used|lia|].
  - destruct (_ =? _) eqn:Eum; cbn [negb].
    + apply Hkeep. intros _ _. by apply used_modified_bit4.
    + apply Hput; [apply um_eq_used_modified|done|]. intros _ _. by apply lor_bit.
  - destruct (tst w 0x8); cbn [negb]; [by apply Hkeep|].
    by apply Hput; [apply um_eq_used|lia|].
Qed.

Lemma fetch_page_desc_ok s A e :
  implements T s.(mem) → T !! A = Some e → e.1 ≠ KTable →
  ∀ B d, match e with (KIndirect, i) => B = i / 4 * 4 ∧ T !! B = Some (KPage, d)
         | (_, d') => B = A ∧ d = d' end →
  ∃ w s', fetch_page_desc A s = (Ret (B, w), s') ∧ touched s s' ∧ um_eq d w ∧ 0 <= w < 2 ^ 32.
Proof.
  intros Hi HA Hk B d HB. destruct e as [k d0].
  destruct (get_desc s A _ _ Hi HA) as (w & s1 & Hg & Ht & Hw & Hr).
  unfold fetch_page_desc. rewrite (xbind_ret _ _ _ _ _ Hg), mask_3. destruct k; [done| |].
  - destruct HB as [-> ->]. rewrite <-(um_eq_mod4 d0 w Hw).
    rewrite (proj2 (Z.eqb_neq _ 2)) by (by eapply t_page). by exists w, s1.
  - cbn in Hw. subst w. rewrite (t_indirect A d0 HA), Z.eqb_refl. destruct HB as [HB HT].
    rewrite indirect_addr, <-HB by done. cbv zeta.
    destruct (get_desc s1 B _ _ (touched_implements _ _ Ht) HT) as (w & s2 & Hg2 & Ht2 & Hw2 & Hr2).
    rewrite (xbind_ret _ _ _ _ _ Hg2). exists w, s2. split; [done|].
    split; [by eapply touched_trans|done].
Qed.

(** The inherited write protection is in the page descriptor already. *)
Lemma um_eq_inherit root ptr wr wp d w :
  um_eq root wr → um_eq ptr wp → um_eq d w →
  (Z.testbit root 2 || Z.testbit ptr 2) && negb (Z.testbit d 2) = false →
  um_eq d (w .| ((wr .| wp) .& 0x4)).
Proof.
  intros Hr Hp Hw H. etrans; [exact Hw|]. apply um_eq_lor. intros i Hi Hb. right. right.
  change 0x4 with (2 ^ 2) in Hb. rewrite Z.land_spec, Z.lor_spec, Z.pow2_bits_eqb in Hb by lia.
  apply andb_true_iff in Hb as [Hb Hi2]. assert (i = 2) as -> by lia.
  rewrite <-(Hr 2), <-(Hp 2) in Hb by done. rewrite Hb in H. rewrite <-(Hw 2) by done.
  by destruct (Z.testbit d 2).
Qed.

Lemma inherit_range wr wp : 0 <= (wr .| wp) .& 0x4 < 2 ^ 32.
Proof. apply land_range_r; lia. Qed.

(** The last part of the walk, from the page table entry on. *)
Lemma leaf_walks s root ptr wr wp e addr size_8k write :
  implements T s.(mem) → um_eq root wr → um_eq ptr wp → 0 <= wp < 2 ^ 32 →
  T !! page_entry size_8k ptr addr = Some e →
  match (match e with (KIndirect, i) => t_leaf T root ptr (T !! (i / 4 * 4))
         | _ => t_leaf T root ptr (Some e) end) with
  | Missing => True
  | l => ∃ w s', (let* page := fetch_page_desc (page_desc_addr size_8k wp addr) in
          let '(desc_addr, desc) := page in
          if negb (tst desc 1) then xret desc else
          update_page_desc desc_addr (desc .| ((wr .| wp) .& MMU_DES_WP)) write) s = (Ret w, s') ∧
        touched s s' ∧
        match l with Page d => Z.testbit d 0 = true ∧ page_word write d w | _ => Z.testbit w 0 = false end
  end.
Proof.
  intros Hi Hr Hp Hwr HT.
  rewrite page_entry_addr, <-(page_entry_um _ ptr wp) by done.
  assert (∃ B d, T !! B = Some (KPage, d) ∧
     (match e with (KIndirect, i) => t_leaf T root ptr (T !! (i / 4 * 4))
      | _ => t_leaf T root ptr (Some e) end) = t_leaf T root ptr (Some (KPage, d)) ∧
     e.1 ≠ KTable ∧
     match e with (KIndirect, i) => B = i / 4 * 4 ∧ T !! B = Some (KPage, d)
     | (_, d') => B = page_entry size_8k ptr addr ∧ d = d' end
   ∨ (match e with (KIndirect, i) => t_leaf T root ptr (T !! (i / 4 * 4))
      | _ => t_leaf T root ptr (Some e) end) = Missing) as (B & d & [(HB & -> & Hk & He) | ->]); [| |done].
  { destruct e as [[] d]; cbn [t_leaf].
    - exists 0, 0. by right.
    - eexists _, d. left. done.
    - destruct (T !! (d / 4 * 4)) as [[[] d']|] eqn:EB; try (exists 0, 0; by right).
      eexists _, d'. left. done. }
  destruct (fetch_page_desc_ok s _ e Hi HT Hk B d He) as (w & s1 & Hf & Ht & Hw & Hwr1).
  rewrite (xbind_ret _ _ _ _ _ Hf). cbn [t_leaf].
  rewrite (tst_pow w 1 0), <-(Hw 0) by done.
  destruct (Z.testbit d 0) eqn:E0; cbn [negb].
  2:{ exists w, s1. split; [done|]. split; [done|]. rewrite <-(Hw 0) by done. done. }
  destruct (_ && _) eqn:Einh; [done|].
  destruct (update_page_desc_ok s1 B d (w .| ((wr .| wp) .& 0x4)) write) as (w' & s2 & Hu & Ht2 & Hpw);
    try done.
  { by eapply touched_implements. }
  { by eapply um_eq_inherit. }
  { apply lor_word_range; [done|apply inherit_range]. }
  exists w', s2. split; [exact Hu|]. split; [by eapply touched_trans|done].
Qed.

(** [mmu_lookup_pagetable] finds what the tree says and only touches U and M. *)
Lemma lookup_walks s addr (super write : bool) :
  let rp := if super then s.(regs).(srp) else s.(regs).(urp) in
  implements T s.(mem) → 0 <= rp < 2 ^ 32 →
  match t_walk T s.(regs).(mmu_pagesize_8k) rp addr with
  | Missing => True
  | l => ∃ w s', mmu_lookup_pagetable addr super write s = (Ret w, s') ∧ touched s s' ∧
        match l with Page d => Z.testbit d 0 = true ∧ page_word write d w | _ => Z.testbit w 0 = false end
  end.
Proof.
  intros rp Hi Hrp. unfold t_walk, mmu_lookup_pagetable. erewrite xbind_ret by done. cbv zeta.
  change (if super then srp (regs s) else urp (regs s)) with rp.
  rewrite root_entry_addr by done.
  destruct (T !! root_entry rp addr) as [[[] root]|] eqn:ER; [|done..].
  destruct (fetch_table_desc_ok s _ root Hi ER) as (r & s1 & Hf & Ht & Hr).
  rewrite (xbind_ret _ _ _ _ _ Hf). destruct r as [wr|]; [|rewrite Hr; cbn [negb]; by exists 0, s1].
  destruct Hr as (-> & Hwr & Hwrr). cbn [negb]. rewrite ptr_entry_addr, <-(ptr_entry_um root wr) by done.
  destruct (T !! ptr_entry root addr) as [[[] ptr]|] eqn:EP; [|done..].
  pose proof (touched_implements _ _ Ht) as Hi1.
  destruct (fetch_table_desc_ok s1 _ ptr Hi1 EP) as (r & s2 & Hf2 & Ht2 & Hr2).
  rewrite (xbind_ret _ _ _ _ _ Hf2). pose proof (touched_trans _ _ _ Ht Ht2) as Ht12.
  destruct r as [wp|]; [|rewrite Hr2; cbn [negb]; by exists 0, s2].
  destruct Hr2 as (-> & Hwp & Hwpr). cbn [negb]. erewrite xbind_ret by done.
  rewrite (touched_regs _ _ Ht12).
  destruct (T !! page_entry (mmu_pagesize_8k (regs s)) ptr addr) as [e|] eqn:EE; [|done].
  pose proof (leaf_walks s2 root ptr wr wp e addr _ write (touched_implements _ _ Ht2) Hwr Hwp Hwpr EE) as H.
  assert (∀ P : walk → Prop, P (match e with (KIndirect, i) => t_leaf T root ptr (T !! (i / 4 * 4))
         | _ => t_leaf T root ptr (Some e) end) →
     P (match Some e with Some (KIndirect, i) => t_leaf T root ptr (T !! (i / 4 * 4))
        | e => t_leaf T root ptr e end)) as HP by (by destruct e as [[] ?]).
  apply HP. clear HP. destruct (match e with (KIndirect, i) => _ | _ => _ end); [done|..];
    destruct H as (w & s3 & Hl & Ht3 & Hx); exists w, s3; (split; [exact Hl|]); (split; [by eapply touched_trans|done]).
Qed.
End Walk.
