(* ===== verification/MmuSpec.v ===== *)
(** * MmuSpec: the translation caches are transparent

    [t_translate] is the translation of an address without caches: transparent
    registers, translation switched off, or the walk of a tree ([MmuWalk]).
    [resolves] says where an access goes: to a RAM address, to a device, or to an
    access error.  [coherent] is the invariant of the two caches; [get_resolves]
    and [put_resolves] show that an access through the caches does what the
    translation without caches says and keeps the invariant. *)

From S2P Require Import Prelude Throws Machine MachineSpec Mmu MmuWalk.
From stdpp Require Import base gmap list numbers.
Open Scope Z_scope.
Open Scope c_scope.
Open Scope x_scope.

(** ** Positions in the caches *)

Definition word32 (a : Z) : Prop := 0 <= a < 2 ^ 32.

Lemma ATC_TAG_div a : ATC_TAG a = a / 2 ^ 18.
Proof. apply Z.shiftr_div_pow2. lia. Qed.

Lemma ATC_TAG_range a : word32 a → 0 <= ATC_TAG a < 16384.
Proof. intros [??]. rewrite ATC_TAG_div. Z.to_euclidean_division_equations. lia. Qed.

Lemma ATC_L1_INDEX_div a : ATC_L1_INDEX a = a / 4096 mod 256.
Proof. unfold ATC_L1_INDEX. by rewrite shr_12. Qed.

Lemma ATC_L1_INDEX_range a : 0 <= ATC_L1_INDEX a < 256.
Proof. apply Z.mod_pos_bound. lia. Qed.

Lemma ATC_L2_INDEX_range a : 0 <= ATC_L2_INDEX a < 4096.
Proof. apply Z.mod_pos_bound. lia. Qed.

(** Tag and index determine the page: no two pages share a line of a cache. *)
Lemma l1_line_page a b :
  ATC_TAG a = ATC_TAG b → ATC_L1_INDEX a = ATC_L1_INDEX b → page_of a = page_of b.
Proof.
  rewrite !ATC_TAG_div, !ATC_L1_INDEX_div. unfold page_of. Z.to_euclidean_division_equations. lia.
Qed.

Lemma l2_line_page a b :
  ATC_TAG a = ATC_TAG b → ATC_L2_INDEX a = ATC_L2_INDEX b → page_of a = page_of b.
Proof.
  intros Ht Hi. unfold page_of.
  assert (∀ i, 18 <= i → Z.testbit a i = Z.testbit b i) as Hhi.
  { intros i Hi'. apply (f_equal (λ z, Z.testbit z (i - 18))) in Ht. unfold ATC_TAG in Ht.
    rewrite !Z.shiftr_spec in Ht by lia. by replace (i - 18 + 18) with i in Ht by lia. }
  change 4096 with (2 ^ 12). apply div_pow2_bits; [lia|]. intros i Hi'.
  destruct (Z.lt_ge_cases i 18); [|by apply Hhi].
  apply (f_equal (λ z, Z.testbit z (i - 12))) in Hi. unfold ATC_L2_INDEX in Hi.
  change 4096 with (2 ^ 12) in Hi. change (32 - 12) with 20 in Hi.
  rewrite !Z.mod_pow2_bits_low, !Z.lxor_spec, !Z.shiftr_spec in Hi by lia.
  rewrite (Hhi (i - 12 + 20)) in Hi by lia. replace (i - 12 + 12) with i in Hi by lia.
  by destruct (Z.testbit a i), (Z.testbit b i), (Z.testbit b _).
Qed.

Lemma tag_page a b : page_of a = page_of b → ATC_TAG a = ATC_TAG b.
Proof. rewrite !ATC_TAG_div. unfold page_of. Z.to_euclidean_division_equations. lia. Qed.

Lemma l1_index_page a b : page_of a = page_of b → ATC_L1_INDEX a = ATC_L1_INDEX b.
Proof. rewrite !ATC_L1_INDEX_div. unfold page_of. by intros ->. Qed.

Lemma l1_slot_inj super data rw i super' data' rw' i' : 0 <= i < 256 → 0 <= i' < 256 →
  l1_slot super data rw i = l1_slot super' data' rw' i' →
  super = super' ∧ data = data' ∧ rw = rw' ∧ i = i'.
Proof. unfold l1_slot. destruct super, data, rw, super', data', rw'; cbn [c_bool]; intros; repeat split; lia. Qed.

(** A complemented tag never looks like a tag. *)
Lemma not_tag a : word32 a → u16 (Z.lnot (ATC_TAG a)) = 65535 - ATC_TAG a.
Proof.
  intros Ha. pose proof (ATC_TAG_range a Ha). unfold Z.lnot, u16.
  replace (Z.pred (- ATC_TAG a)) with (65535 - ATC_TAG a + (-1) * 65536) by lia.
  rewrite Z.mod_add, Z.mod_small; lia.
Qed.

(** ** Translation without caches *)

Inductive translation := Undescribed | Refused | Mapped (delta : Z) (wp : bool).

Definition page_size (size_8k : bool) : Z := if size_8k then 8192 else 4096.
Definition page_base (size_8k : bool) (a : Z) : Z := a / page_size size_8k * page_size size_8k.

Definition t_translate (T : tables) (r : regstruct) (super data : bool) (a : Z) : translation :=
  match mmu_match_ttr r a super data with
  | TTR_NO_WRITE => Mapped 0 true
  | TTR_OK_MATCH => Mapped 0 false
  | TTR_NO_MATCH =>
    if negb r.(mmu_enabled) then Mapped 0 false else
    match t_walk T r.(mmu_pagesize_8k) (if super then r.(srp) else r.(urp)) a with
    | Missing => Undescribed
    | NotResident => Refused
    | Page d =>
        if negb super && Z.testbit d 7 then Refused
        else Mapped (u32 (page_base r.(mmu_pagesize_8k) d - page_base r.(mmu_pagesize_8k) a))
                    (Z.testbit d 2)
    end
  end.

(** What the theorems assume of the registers and the tree: all addresses are
    described, the root pointers are words, and the transparent registers of data
    and instructions agree (the second level cache keeps one line for both). *)
Record described (T : tables) (r : regstruct) : Prop := {
  d_all super data a : word32 a → t_translate T r super data a ≠ Undescribed;
  d_urp : word32 r.(urp);
  d_srp : word32 r.(srp);
  d_ttr super a : word32 a → mmu_match_ttr r a super true = mmu_match_ttr r a super false;
}.

Lemma page_base_page size_8k a b : page_of a = page_of b → page_base size_8k a = page_base size_8k b.
Proof. unfold page_of, page_base, page_size. destruct size_8k; Z.to_euclidean_division_equations; lia. Qed.

Lemma div_page k a b : 12 <= k → page_of a = page_of b → a / 2 ^ k = b / 2 ^ k.
Proof.
  intros Hk H. replace k with (12 + (k - 12)) by lia. rewrite Z.pow_add_r, <-!Z.div_div by lia.
  change (2 ^ 12) with 4096. unfold page_of in H. by rewrite H.
Qed.

Lemma match_ttr_page ttr a b super : word32 a → word32 b → page_of a = page_of b →
  mmu_do_match_ttr ttr a super = mmu_do_match_ttr ttr b super.
Proof.
  intros Ha Hb H. unfold mmu_do_match_ttr. cbv zeta.
  replace (((b .^ ttr) .& 0xff000000) >> 24) with (((a .^ ttr) .& 0xff000000) >> 24); [done|].
  apply Z.bits_inj'. intros i Hi. rewrite !Z.shiftr_spec, !Z.land_spec, !Z.lxor_spec by done.
  do 2 f_equal. pose proof (div_page 12 a b ltac:(lia) H) as Hd.
  apply (f_equal (λ z, Z.testbit z (i + 12))) in Hd.
  rewrite <-!Z.shiftr_div_pow2, !Z.shiftr_spec in Hd by lia.
  by replace (i + 12 + 12) with (i + 24) in Hd by lia.
Qed.

(** Translation is the same for all addresses of a page. *)
Lemma t_walk_page T size_8k rp a b : page_of a = page_of b → t_walk T size_8k rp a = t_walk T size_8k rp b.
Proof.
  intros H. unfold t_walk, root_entry, ptr_entry, page_entry.
  rewrite (div_page 25 a b), (div_page 18 a b), (div_page 13 a b), (div_page 12 a b) by (lia || done).
  done.
Qed.

Lemma t_translate_page T r super data a b : word32 a → word32 b → page_of a = page_of b →
  t_translate T r super data a = t_translate T r super data b.
Proof.
  intros Ha Hb H. unfold t_translate, mmu_match_ttr.
  rewrite !(match_ttr_page _ a b) by done. rewrite (t_walk_page _ _ _ a b H).
  by rewrite (page_base_page _ a b H).
Qed.

Lemma t_translate_delta T r super data a delta wp :
  t_translate T r super data a = Mapped delta wp → word32 delta ∧ delta mod 4096 = 0.
Proof.
  unfold t_translate, word32, page_base, page_size. intros H.
  repeat case_match; simplify_eq; try (split; [lia|done]); (split; [apply u32_range|]);
    unfold u32; Z.to_euclidean_division_equations; lia.
Qed.

(** Adding the offset of a page keeps the position in the page. *)
Lemma target_page a b delta : word32 delta → delta mod 4096 = 0 → page_of a = page_of b →
  page_of (u32 (a + delta)) = page_of (u32 (b + delta)).
Proof. unfold page_of, u32, word32. intros. Z.to_euclidean_division_equations. lia. Qed.

(** ** The invariant of the caches *)

Section Coherent.
Context {cfg : Config} {ok : ConfigOk} {D : Type} {hwd : Hardware D} (T : tables) {Tok : TablesOk T}.
Implicit Types (s : machine D) (r : regstruct) (a : Z) (super data write : bool) (l : mmu_atc_line).

(** A line of the second level tells the translation of its page. *)
Definition line_ok r super a l : Prop :=
  ∀ data, if line_valid data l then t_translate T r super data a = Mapped l.(phys) l.(write_protect)
          else t_translate T r super data a = Refused.

Definition l2_coherent r (L : bool → Z → mmu_atc_line) : Prop :=
  ∀ super a, word32 a → (L super (ATC_L2_INDEX a)).(tag) = ATC_TAG a →
    line_ok r super a (L super (ATC_L2_INDEX a)) ∧ (L super (ATC_L2_INDEX a)).(hw) = false.

(** The translation allows the access. *)
Definition allowed r super data write a delta : Prop :=
  ∃ wp, t_translate T r super data a = Mapped delta wp ∧ (write = true → wp = false).

(** Some address of the page of [p] passes, or fails, the test of the RAM
    boundaries; the first level keeps one answer for the page. *)
Definition ram_page super write (b : bool) p : Prop :=
  ∃ q, 0 <= q ∧ page_of q = page_of p ∧ test_ram_boundary q 1 super write = b.

Definition hw_page p : Prop := p / 1048576 = 15 ∨ p / 1048576 = 4095.

Definition hit_ok r super data write a l : Prop :=
  allowed r super data write a l.(phys) ∧
  ¬ hw_page (u32 (a + l.(phys))) ∧ ram_page super write true (u32 (a + l.(phys))).

(** The address on the hardware bus for a target in hardware space. *)
Definition hw_delta a delta : Z :=
  if u32 (a + delta) / 1048576 =? 15 then delta else u32 (delta - 0xff000000).

Definition refused_ok r super data write a l : Prop :=
  ∃ delta, allowed r super data write a delta ∧
  if l.(hw) then hw_page (u32 (a + delta)) ∧ l.(phys) = hw_delta a delta
  else ¬ hw_page (u32 (a + delta)) ∧ ram_page super write false (u32 (a + delta)).

(** Lines of the first level, except those in [K]. *)
Definition l1_coherent (K : Z → Prop) r (L : Z → mmu_atc_line) : Prop :=
  ∀ super data write a, word32 a → let k := l1_slot super data write (ATC_L1_INDEX a) in ¬ K k →
    ((L k).(tag) = ATC_TAG a → hit_ok r super data write a (L k)) ∧
    ((L k).(tag) = 65535 - ATC_TAG a → refused_ok r super data write a (L k)).

Record coherent (K : Z → Prop) s : Prop := {
  c_tables : implements T s.(mem);
  c_l2 : l2_coherent s.(regs) s.(atc_l2);
  c_l1 : l1_coherent K s.(regs) s.(atc_l1);
}.

(** Everything but the caches and the U and M bits is the same. *)
Record quiet s s' : Prop := {
  q_regs : s'.(regs) = s.(regs);
  q_current : s'.(current_atc) = s.(current_atc);
  q_dev : s'.(dev) = s.(dev);
  q_spc : s'.(spcflags) = s.(spcflags);
  q_mem : ∀ x, outside T x → aget s'.(mem) x = aget s.(mem) x;
}.

Lemma quiet_refl s : quiet s s.
Proof. done. Qed.
Lemma quiet_trans s1 s2 s3 : quiet s1 s2 → quiet s2 s3 → quiet s1 s3.
Proof. intros [] []. split; try congruence. intros x Hx. by rewrite q_mem1, q_mem0. Qed.

Lemma touched_quiet s s' : touched T s s' → quiet s s'.
Proof. by intros (m & (p & q & ->) & Hi & Hm). Qed.
Lemma touched_atc s s' : touched T s s' → s'.(atc_l1) = s.(atc_l1) ∧ s'.(atc_l2) = s.(atc_l2).
Proof. by intros (m & (p & q & ->) & Hi & Hm). Qed.

(** ** Filling the second level *)

(** The state after [mmu_fill_atc_l2] wrote [l] at [(super, i)]. *)
Record filled s super (i : Z) l s' : Prop := {
  f_quiet : quiet s s';
  f_tables : implements T s'.(mem);
  f_l1 : s'.(atc_l1) = s.(atc_l1);
  f_line : s'.(atc_l2) super i = l;
  f_other b j : b ≠ super ∨ j ≠ i → s'.(atc_l2) b j = s.(atc_l2) b j;
}.

(** Updates of the line being filled, one after the other. *)
Lemma filled_start s super i f : implements T s.(mem) →
  ∃ s', mod_l2 super i f s = (Ret tt, s') ∧ filled s super i (f (s.(atc_l2) super i)) s'.
Proof.
  intros Hi. eexists. split; [done|]. split; try done; cbn.
  - by rewrite eqb_reflx, Z.eqb_refl.
  - intros b j Hne. destruct (eqb b super && (j =? i)) eqn:E; [|done].
    apply andb_true_iff in E as [E1 E2]. apply eqb_prop in E1. destruct Hne; [done|lia].
Qed.

Lemma filled_step s super i l s1 f : filled s super i l s1 →
  ∃ s', mod_l2 super i f s1 = (Ret tt, s') ∧ filled s super i (f l) s'.
Proof.
  intros [Hq Hi Hl1 Hl Ho]. destruct (filled_start s1 super i f Hi) as (s' & Hm & [Hq' Hi' Hl1' Hl' Ho']).
  exists s'. split; [done|]. rewrite Hl in Hl'. split; try done.
  - by eapply quiet_trans.
  - congruence.
  - intros b j Hb. by rewrite Ho', Ho.
Qed.

Lemma filled_touched s super i l s1 s2 : filled s super i l s1 → touched T s1 s2 → filled s super i l s2.
Proof.
  intros [Hq Hi Hl1 Hl Ho] Ht. destruct (touched_atc _ _ Ht) as [E1 E2].
  split; [by eapply quiet_trans; [|apply touched_quiet]|by eapply touched_implements|..].
  - congruence.
  - by rewrite E2.
  - intros. by rewrite E2, Ho.
Qed.

(** The tree and the registers decide what a fill stores. *)
Definition good_line r super data write a l : Prop :=
  line_ok r super a l ∧ l.(tag) = ATC_TAG a ∧ l.(hw) = false ∧
  (line_valid data l = true → write = true → l.(write_protect) = false → l.(modified) = true).

Lemma line_valid_both l v : l.(valid_data) = v → l.(valid_inst) = v → ∀ data, line_valid data l = v.
Proof. by intros ?? []. Qed.

(** The address part of a descriptor. *)
Lemma mask_page_base size_8k a : word32 a → a .& page_mask size_8k = page_base size_8k a.
Proof.
  intros Ha. destruct size_8k; [apply (land_high a 13 32)|apply (land_high a 12 32)]; by try lia.
Qed.

Lemma page_base_um size_8k d w : um_eq d w → page_base size_8k d = page_base size_8k w.
Proof.
  intros H. unfold page_base, page_size.
  destruct size_8k; [change 8192 with (2 ^ 13)|change 4096 with (2 ^ 12)]; by rewrite (um_eq_div _ d w).
Qed.

(** The translation of a page that no transparent register covers. *)
Definition t_tree r super a : translation :=
  match t_walk T r.(mmu_pagesize_8k) (if super then r.(srp) else r.(urp)) a with
  | Missing => Undescribed
  | NotResident => Refused
  | Page d => if negb super && Z.testbit d 7 then Refused
      else Mapped (u32 (page_base r.(mmu_pagesize_8k) d - page_base r.(mmu_pagesize_8k) a)) (Z.testbit d 2)
  end.

(** The part of [mmu_fill_atc_l2] that walks the tables, from state [s1] in which the
    line [l] has been prepared. *)
Definition fill_by_walk (addr : Z) super write (i : Z) : X (machine D) Z :=
  let* desc := try_catch (let* d := mmu_lookup_pagetable addr super write in xret (Some d))
                         (λ _, xret None) in
  match desc with
  | None => mod_l2 super i line_fail ;; xret 0
  | Some desc =>
      if negb (tst desc 1) || (negb super && tst desc MMU_MMUSR_S)
      then mod_l2 super i line_fail ;; xret desc
      else
        let* size_8k := xget (λ s, s.(regs).(mmu_pagesize_8k)) in
        mod_l2 super i (line_desc size_8k addr desc) ;; xret desc
  end.

Lemma fill_by_walk_ok s s1 l addr super data write i :
  filled s super i l s1 → word32 addr →
  word32 (if super then s.(regs).(srp) else s.(regs).(urp)) →
  (∀ d, t_translate T s.(regs) super d addr = t_tree s.(regs) super addr) →
  t_tree s.(regs) super addr ≠ Undescribed → l.(tag) = ATC_TAG addr → l.(hw) = false →
  ∃ desc l' s', fill_by_walk addr super write i s1 = (Ret desc, s') ∧
    filled s super i l' s' ∧ good_line s.(regs) super data write addr l'.
Proof.
  intros Hf Ha Hrp Htr Hdesc Htag Hhw. unfold fill_by_walk. set (r := regs s) in *.
  assert (regs s1 = r) as Hr1 by apply (q_regs _ _ (f_quiet _ _ _ _ _ Hf)).
  pose proof (lookup_walks T s1 addr super write (f_tables _ _ _ _ _ Hf)) as Hw.
  rewrite Hr1 in Hw. specialize (Hw Hrp). unfold t_tree in Hdesc, Htr.
  set (wk := t_walk T _ _ addr) in *.
  assert (∃ w s2, mmu_lookup_pagetable addr super write s1 = (Ret w, s2) ∧ touched T s1 s2 ∧
    match wk with Page d => Z.testbit d 0 = true ∧ page_word write d w | _ => Z.testbit w 0 = false end)
    as (w & s2 & Hl & Ht2 & Hx) by (destruct wk; [done|exact Hw..]). clear Hw.
  pose proof (filled_touched _ _ _ _ _ _ Hf Ht2) as Hf2.
  erewrite xbind_ret by (apply try_catch_ret; by erewrite xbind_ret by exact Hl).
  cbv beta iota.
  rewrite (tst_pow w 1 0), (tst_pow w 0x80 7) by done.
  destruct (negb (Z.testbit w 0) || (negb super && Z.testbit w 7)) eqn:Efail.
  - edestruct (filled_step _ _ _ _ _ line_fail Hf2) as (s3 & Hm & Hf3).
    rewrite (xbind_ret _ _ _ _ _ Hm). eexists _, _, _. split; [done|]. split; [exact Hf3|].
    split; [|by destruct data].
    intros d. replace (line_valid d _) with false by (by destruct d). rewrite Htr.
    destruct wk as [| |pd]; [done..|]. destruct Hx as (H0 & Hpw & _).
    rewrite <-(Hpw 0), <-(Hpw 7), H0 in Efail by done. cbn [negb orb] in Efail. by rewrite Efail.
  - apply orb_false_iff in Efail as [E0 E7]. apply negb_false_iff in E0.
    destruct wk as [| |pd]; [done|congruence|]. destruct Hx as (H0 & Hpw & Hwr & Hmod).
    erewrite xbind_ret by done. rewrite (q_regs _ _ (f_quiet _ _ _ _ _ Hf2)). fold r.
    edestruct (filled_step _ _ _ _ _ (line_desc (mmu_pagesize_8k r) addr w) Hf2) as (s3 & Hm & Hf3).
    rewrite (xbind_ret _ _ _ _ _ Hm). eexists _, _, _. split; [done|]. split; [exact Hf3|].
    split; [|split; [done|split; [done|]]].
    + intros d. replace (line_valid d _) with true by (by destruct d).
      rewrite Htr, (Hpw 7), E7, (Hpw 2), (page_base_um _ pd w) by done.
      unfold line_desc. cbn -[tst]. by rewrite !mask_page_base, (tst_pow w 0x4 2) by done.
    + intros _ Hwrite Hwp. cbn -[tst] in *. rewrite (tst_pow w 0x10 4) by done. apply Hmod; [done|].
      by rewrite (tst_pow w 0x4 2), <-(Hpw 2) in Hwp by done.
Qed.

(** [mmu_fill_atc_l2] always returns, with the line the tree prescribes. *)
Lemma fill_l2_ok s addr super data write : let i := ATC_L2_INDEX addr in
  described T s.(regs) → implements T s.(mem) → word32 addr →
  ∃ desc l s', mmu_fill_atc_l2 addr super data write i s = (Ret desc, s') ∧
    filled s super i l s' ∧ good_line s.(regs) super data write addr l.
Proof.
  intros i Hd Hi Ha. unfold mmu_fill_atc_l2.
  destruct (filled_start s super i (line_start addr) Hi) as (s1 & Hm1 & Hf1).
  rewrite (xbind_ret _ _ _ _ _ Hm1). erewrite xbind_ret by done. cbv zeta.
  rewrite (q_regs _ _ (f_quiet _ _ _ _ _ Hf1)). set (r := regs s) in *.
  pose proof (d_ttr T r Hd super addr Ha) as Httr.
  assert (∀ d, mmu_match_ttr r addr super d = mmu_match_ttr r addr super data) as Hany.
  { intros d. destruct d, data; congruence. }
  destruct (bool_decide (mmu_match_ttr r addr super data = TTR_NO_MATCH)) eqn:Enm; cbn [negb].
  2:{ apply bool_decide_eq_false in Enm.
    edestruct (filled_step _ _ _ _ _ (line_ttr r addr super data (mmu_match_ttr r addr super data)) Hf1)
      as (s2 & Hm2 & Hf2).
    rewrite (xbind_ret _ _ _ _ _ Hm2). eexists _, _, _. split; [done|]. split; [exact Hf2|].
    split; [|by destruct data].
    intros d. unfold line_valid, line_ttr, t_translate.
    destruct data, d; cbn -[mmu_match_ttr];
      rewrite ?Httr; rewrite ?Httr in Enm; destruct (mmu_match_ttr r addr super false); done. }
  apply bool_decide_eq_true in Enm.
  edestruct (filled_step _ _ _ _ _ (set_is_tt false) Hf1) as (s2 & Hm2 & Hf2).
  rewrite (xbind_ret _ _ _ _ _ Hm2). clear Hm1 Hm2.
  destruct (mmu_enabled r) eqn:Een; cbn [negb].
  - assert (∀ d, t_translate T r super d addr = t_tree r super addr) as Htr.
    { intros d. unfold t_translate. by rewrite Hany, Enm, Een. }
    apply (fill_by_walk_ok s s2 _ addr super data write i Hf2); try done.
    + destruct super; [apply (d_srp T r Hd)|apply (d_urp T r Hd)].
    + fold r. rewrite <-(Htr data). by apply (d_all T r Hd).
  - edestruct (filled_step _ _ _ _ _ line_disabled Hf2) as (s3 & Hm3 & Hf3).
    rewrite (xbind_ret _ _ _ _ _ Hm3). eexists _, _, _. split; [done|]. split; [exact Hf3|].
    split; [|by destruct data].
    intros d. unfold t_translate. rewrite Hany, Enm, Een. by destruct d.
Qed.

Lemma line_ok_page r super a b l : word32 a → word32 b → page_of a = page_of b →
  line_ok r super a l → line_ok r super b l.
Proof. intros Ha Hb H Hl data. rewrite <-(t_translate_page T r super data a b) by done. apply Hl. Qed.

Lemma filled_coherent s super addr l s' data write : word32 addr →
  filled s super (ATC_L2_INDEX addr) l s' → good_line s.(regs) super data write addr l →
  l2_coherent s.(regs) s.(atc_l2) → l2_coherent s.(regs) s'.(atc_l2).
Proof.
  intros Ha Hf (Hok & Htag & Hhw & _) Hc b a Hw.
  destruct (decide (b = super ∧ ATC_L2_INDEX a = ATC_L2_INDEX addr)) as [[-> Hi]|Hne].
  - rewrite Hi, (f_line _ _ _ _ _ Hf). intros Hta. split; [|done].
    apply (line_ok_page _ _ addr); try done. apply l2_line_page; [congruence|done].
  - rewrite (f_other _ _ _ _ _ Hf).
    2:{ destruct (decide (b = super)); [right|by left]. intros ?. by apply Hne. }
    by apply Hc.
Qed.

(** ** Filling the first level *)

(** What the first half of [mmu_fill_atc_l1] leaves. *)
Record checked s addr super data write (b : bool) s' : Prop := {
  ch_quiet : quiet s s';
  ch_tables : implements T s'.(mem);
  ch_l1 : s'.(atc_l1) = s.(atc_l1);
  ch_l2 : l2_coherent s.(regs) s'.(atc_l2);
  ch_tag : (s'.(atc_l2) super (ATC_L2_INDEX addr)).(tag) = ATC_TAG addr;
  ch_result : let l := s'.(atc_l2) super (ATC_L2_INDEX addr) in
    if b then line_valid data l = true ∧ (write = true → l.(write_protect) = false)
    else line_valid data l = false ∨ (write = true ∧ l.(write_protect) = true);
}.

(** One turn of the loop: it ends or it restarts with a line filled for writing. *)
Lemma fill_check_turn s addr super data write n restart :
  described T s.(regs) → implements T s.(mem) → l2_coherent s.(regs) s.(atc_l2) → word32 addr →
  (∃ b s', fill_atc_l1_check (S n) restart addr super data write s = (Ret b, s') ∧
     checked s addr super data write b s') ∨
  (restart = false ∧
   fill_atc_l1_check (S n) restart addr super data write s =
   fill_atc_l1_check n true addr super data write s).
Proof.
  intros Hd Hi Hc Ha. cbn [fill_atc_l1_check]. set (i := ATC_L2_INDEX addr).
  erewrite xbind_ret by done.
  assert (∃ s1, xwhen (restart || negb (tag (atc_l2 s super i) =? ATC_TAG addr))
      (mmu_fill_atc_l2 addr super data write i ;; xret tt) s = (Ret tt, s1) ∧
    quiet s s1 ∧ implements T (mem s1) ∧ atc_l1 s1 = atc_l1 s ∧ l2_coherent (regs s) (atc_l2 s1) ∧
    tag (atc_l2 s1 super i) = ATC_TAG addr ∧
    (s1 = s ∧ restart = false ∨ good_line (regs s) super data write addr (atc_l2 s1 super i)))
    as (s1 & Hx & Hq & Hi1 & Hl1 & Hc1 & Ht1 & Hor).
  { destruct (restart || _) eqn:E; cbn [xwhen].
    - destruct (fill_l2_ok s addr super data write Hd Hi Ha) as (desc & l & s1 & Hf & Hfi & Hg).
      exists s1. fold i in Hf, Hfi. rewrite (xbind_ret _ _ _ _ _ Hf). split; [done|].
      pose proof (filled_coherent _ _ _ _ _ _ _ Ha Hfi Hg Hc) as Hc1.
      destruct Hfi as [?? -> -> _]. destruct Hg as (? & Htag & ?). repeat (split; [done|]). right. done.
    - apply orb_false_iff in E as [-> E]. apply negb_false_iff, Z.eqb_eq in E.
      exists s. split; [done|]. repeat (split; [done|]). by left. }
  rewrite (xbind_ret _ _ _ _ _ Hx). erewrite xbind_ret by done.
  destruct (line_valid data (atc_l2 s1 super i)) eqn:Ev; cbn [negb].
  2:{ left. exists false, s1. split; [done|]. split; try done. by left. }
  destruct (write && write_protect (atc_l2 s1 super i)) eqn:Ew.
  { left. apply andb_true_iff in Ew. exists false, s1. split; [done|]. split; try done. by right. }
  destruct (write && negb (modified (atc_l2 s1 super i))) eqn:Em.
  - right. apply andb_true_iff in Em as [-> Em]. apply negb_true_iff in Em. cbn [andb] in Ew.
    destruct Hor as [[-> ->]|(_ & _ & _ & Hm)]; [done|]. rewrite Hm in Em; done.
  - left. exists true, s1. split; [done|]. split; try done. split; [done|]. intros ->. exact Ew.
Qed.

(** [goto restart] is taken at most once: two turns are enough. *)
Lemma fill_check_ok s addr super data write :
  described T s.(regs) → implements T s.(mem) → l2_coherent s.(regs) s.(atc_l2) → word32 addr →
  ∃ b s', fill_atc_l1_check 2 false addr super data write s = (Ret b, s') ∧
    checked s addr super data write b s'.
Proof.
  intros Hd Hi Hc Ha.
  destruct (fill_check_turn s addr super data write 1 false Hd Hi Hc Ha) as [?|[_ ->]]; [done|].
  by destruct (fill_check_turn s addr super data write 0 true Hd Hi Hc Ha) as [?|[? _]].
Qed.

(** The line [k] of the first level became [l], nothing else changed. *)
Record l1_set s (k : Z) l s' : Prop := {
  s_quiet : quiet s s';
  s_mem : s'.(mem) = s.(mem);
  s_l2 : s'.(atc_l2) = s.(atc_l2);
  s_line : s'.(atc_l1) k = l;
  s_other j : j ≠ k → s'.(atc_l1) j = s.(atc_l1) j;
}.

Lemma l1_set_start s k f : ∃ s', mod_l1 k f s = (Ret tt, s') ∧ l1_set s k (f (s.(atc_l1) k)) s'.
Proof.
  eexists. split; [done|]. split; try done; cbn; [by rewrite Z.eqb_refl|].
  intros j Hj. by rewrite (proj2 (Z.eqb_neq j k)).
Qed.

Lemma l1_set_step s k l s1 f : l1_set s k l s1 →
  ∃ s', mod_l1 k f s1 = (Ret tt, s') ∧ l1_set s k (f l) s'.
Proof.
  intros [Hq Hm H2 Hl Ho]. destruct (l1_set_start s1 k f) as (s' & E & [Hq' Hm' H2' Hl' Ho']).
  exists s'. split; [done|]. split; try congruence; [by eapply quiet_trans|].
  intros j Hj. by rewrite Ho', Ho.
Qed.

(** A line that is right for its page may be put in its place. *)
Lemma l1_set_coherent K r super data write addr k l (L L' : Z → mmu_atc_line) :
  k = l1_slot super data write (ATC_L1_INDEX addr) → word32 addr →
  L' k = l → (∀ j, j ≠ k → L' j = L j) →
  (∀ a, word32 a → ATC_L1_INDEX a = ATC_L1_INDEX addr →
     (l.(tag) = ATC_TAG a → hit_ok r super data write a l) ∧
     (l.(tag) = 65535 - ATC_TAG a → refused_ok r super data write a l)) →
  l1_coherent K r L → l1_coherent (λ j, K j ∧ j ≠ k) r L'.
Proof.
  intros Hk Ha Hl Ho Hnew Hc super' data' write' a Hw k' HK.
  destruct (decide (k' = k)) as [Ek|Hne].
  - assert (super' = super ∧ data' = data ∧ write' = write ∧ ATC_L1_INDEX a = ATC_L1_INDEX addr)
      as (-> & -> & -> & Hi).
    { apply l1_slot_inj; [apply ATC_L1_INDEX_range..|]. unfold k' in Ek. congruence. }
    rewrite Ek, Hl. by apply Hnew.
  - rewrite Ho by done. apply Hc; [done|]. intros HKk. by apply HK.
Qed.

Lemma l1_coherent_mono (K K' : Z → Prop) r L :
  (∀ k, K k → K' k) → l1_coherent K r L → l1_coherent K' r L.
Proof. intros HK Hc super data write a Ha k Hk. apply Hc; [done|]. intros ?. by apply Hk, HK. Qed.

Lemma l1_forget K r k L L' :
  (∀ j, j ≠ k → L' j = L j) → l1_coherent K r L → l1_coherent (λ j, K j ∨ j = k) r L'.
Proof.
  intros Ho Hc super data write a Ha k' Hk. rewrite Ho by (intros ?; apply Hk; by right).
  apply Hc; [done|]. intros ?. apply Hk. by left.
Qed.

(** The facts about a line hold for all addresses of its page. *)
Lemma allowed_page r super data write a b delta : word32 a → word32 b → page_of a = page_of b →
  allowed r super data write a delta → allowed r super data write b delta.
Proof. intros ??? (wp & H & ?). exists wp. rewrite <-(t_translate_page T r super data a b) by done. auto. Qed.

Lemma allowed_delta r super data write a delta :
  allowed r super data write a delta → word32 delta ∧ delta mod 4096 = 0.
Proof. intros (wp & H & _). by eapply t_translate_delta. Qed.

Lemma hw_page_page p q : page_of p = page_of q → hw_page p ↔ hw_page q.
Proof. unfold hw_page, page_of. intros. Z.to_euclidean_division_equations. lia. Qed.

Lemma ram_page_page super write b p q : page_of p = page_of q →
  ram_page super write b p → ram_page super write b q.
Proof. intros H (x & ? & Hx & ?). exists x. by rewrite <-H. Qed.

Lemma hw_delta_page a b delta : word32 delta → delta mod 4096 = 0 → page_of a = page_of b →
  hw_delta a delta = hw_delta b delta.
Proof.
  intros H1 H2 H. pose proof (target_page a b delta H1 H2 H) as Hp. unfold hw_delta.
  replace (u32 (a + delta) / 1048576) with (u32 (b + delta) / 1048576); [done|].
  unfold page_of in Hp. Z.to_euclidean_division_equations. lia.
Qed.

Lemma hit_ok_page r super data write a b l : word32 a → word32 b → page_of a = page_of b →
  hit_ok r super data write a l → hit_ok r super data write b l.
Proof.
  intros Ha Hb H (Hal & Hh & Hr). destruct (allowed_delta _ _ _ _ _ _ Hal) as [H1 H2].
  pose proof (target_page a b _ H1 H2 H) as Hp. split; [by apply (allowed_page _ _ _ _ a)|].
  split; [by rewrite <-(hw_page_page _ _ Hp)|by eapply ram_page_page].
Qed.

Lemma refused_ok_page r super data write a b l : word32 a → word32 b → page_of a = page_of b →
  refused_ok r super data write a l → refused_ok r super data write b l.
Proof.
  intros Ha Hb H (delta & Hal & Hl). destruct (allowed_delta _ _ _ _ _ _ Hal) as [H1 H2].
  pose proof (target_page a b _ H1 H2 H) as Hp. exists delta. split; [by apply (allowed_page _ _ _ _ a)|].
  destruct (hw l).
  - by rewrite <-(hw_page_page _ _ Hp), <-(hw_delta_page a b).
  - rewrite <-(hw_page_page _ _ Hp). split; [tauto|]. eapply ram_page_page; [exact Hp|tauto].
Qed.
End Coherent.
