(* ===== verification/MmuAccess.v ===== *)
(** * MmuAccess: accesses through the caches

    Where an access goes ([resolves]), and that the loads and stores of the
    emulator go there ([get_resolves], [put_resolves]) and keep the caches
    coherent. *)

From S2P Require Import Prelude Throws Machine MachineSpec Mmu MmuWalk MmuSpec.
From stdpp Require Import base gmap list numbers.
Open Scope Z_scope.
Open Scope c_scope.
Open Scope x_scope.

(** Where an access goes: a RAM address, an address on the hardware bus, or an
    access error. *)
Inductive target := ToRam (p : Z) | ToHw (p : Z) | ToFault.

Section Access.
Context {cfg : Config} {ok : ConfigOk} {D : Type} {hwd : Hardware D} (T : tables) {Tok : TablesOk T}.
Implicit Types (s : machine D) (r : regstruct) (a addr : Z) (super data write : bool) (l : mmu_atc_line).

Inductive resolves r super data write a : target → Prop :=
  | resolves_ram delta : allowed T r super data write a delta → ¬ hw_page (u32 (a + delta)) →
      ram_page super write true (u32 (a + delta)) →
      resolves r super data write a (ToRam (u32 (a + delta)))
  | resolves_hw delta : allowed T r super data write a delta → hw_page (u32 (a + delta)) →
      resolves r super data write a (ToHw (u32 (a + hw_delta a delta)))
  | resolves_boundary delta : allowed T r super data write a delta → ¬ hw_page (u32 (a + delta)) →
      ram_page super write false (u32 (a + delta)) → resolves r super data write a ToFault
  | resolves_refused : t_translate T r super data a = Refused → resolves r super data write a ToFault
  | resolves_protected delta : t_translate T r super data a = Mapped delta true → write = true →
      resolves r super data write a ToFault.

(** ** Filling a line of the first level *)

Definition same_lines (k : Z) s s' : Prop := ∀ j, j ≠ k → s'.(atc_l1) j = s.(atc_l1) j.

Inductive l1_filled K s addr super data write (k : Z) : bool → machine D → Prop :=
  | l1f_hit s' : quiet T s s' → same_lines k s s' → coherent T (λ j, K j ∧ j ≠ k) s' →
      (s'.(atc_l1) k).(tag) = ATC_TAG addr → hit_ok T s.(regs) super data write addr (s'.(atc_l1) k) →
      l1_filled K s addr super data write k true s'
  | l1f_miss s' : quiet T s s' → same_lines k s s' → coherent T (λ j, K j ∧ j ≠ k) s' →
      refused_ok T s.(regs) super data write addr (s'.(atc_l1) k) →
      l1_filled K s addr super data write k false s'
  | l1f_refused s' : quiet T s s' → same_lines k s s' → coherent T (λ j, K j ∨ j = k) s' →
      (s'.(atc_l1) k).(hw) = (s.(atc_l1) k).(hw) → resolves s.(regs) super data write addr ToFault →
      (∀ delta, ¬ allowed T s.(regs) super data write addr delta) →
      l1_filled K s addr super data write k false s'.

Lemma tag_not_complement a b : word32 a → word32 b → ATC_TAG a ≠ 65535 - ATC_TAG b.
Proof. intros Ha Hb. pose proof (ATC_TAG_range a Ha). pose proof (ATC_TAG_range b Hb). lia. Qed.

(** A line built for [addr] is right for every address that shares it. *)
Lemma new_hit r super data write addr l : word32 addr → l.(tag) = ATC_TAG addr →
  hit_ok T r super data write addr l →
  ∀ a, word32 a → ATC_L1_INDEX a = ATC_L1_INDEX addr →
     (l.(tag) = ATC_TAG a → hit_ok T r super data write a l) ∧
     (l.(tag) = 65535 - ATC_TAG a → refused_ok T r super data write a l).
Proof.
  intros Ha Ht Hh a Hw Hi. rewrite Ht. split; intros E; [|by apply tag_not_complement in E].
  apply (hit_ok_page T _ _ _ _ addr); try done. by apply l1_line_page.
Qed.

Lemma new_miss r super data write addr l : word32 addr → l.(tag) = 65535 - ATC_TAG addr →
  refused_ok T r super data write addr l →
  ∀ a, word32 a → ATC_L1_INDEX a = ATC_L1_INDEX addr →
     (l.(tag) = ATC_TAG a → hit_ok T r super data write a l) ∧
     (l.(tag) = 65535 - ATC_TAG a → refused_ok T r super data write a l).
Proof.
  intros Ha Ht Hh a Hw Hi. rewrite Ht. split; intros E.
  - symmetry in E. by apply tag_not_complement in E.
  - apply (refused_ok_page T _ _ _ _ addr); try done. apply l1_line_page; [lia|done].
Qed.

Lemma install K s s1 s2 super data write addr k l :
  k = l1_slot super data write (ATC_L1_INDEX addr) → word32 addr →
  quiet T s s1 → implements T s1.(mem) → s1.(atc_l1) = s.(atc_l1) → l2_coherent T s.(regs) s1.(atc_l2) →
  l1_coherent T K s.(regs) s.(atc_l1) → l1_set T s1 k l s2 →
  (∀ a, word32 a → ATC_L1_INDEX a = ATC_L1_INDEX addr →
     (l.(tag) = ATC_TAG a → hit_ok T s.(regs) super data write a l) ∧
     (l.(tag) = 65535 - ATC_TAG a → refused_ok T s.(regs) super data write a l)) →
  quiet T s s2 ∧ same_lines k s s2 ∧ coherent T (λ j, K j ∧ j ≠ k) s2.
Proof.
  intros Hk Ha Hq Hi Hl1 H2 Hc [Hq2 Hm2 H22 Hl2 Ho2] Hnew.
  assert (quiet T s s2) as Hq' by (by eapply quiet_trans). split; [done|].
  split; [intros j Hj; by rewrite Ho2, Hl1|].
  pose proof (q_regs _ _ _ Hq') as Hr. split.
  - by rewrite Hm2.
  - by rewrite Hr, H22.
  - rewrite Hr. eapply l1_set_coherent; [exact Hk|exact Ha|exact Hl2| |exact Hnew|exact Hc].
    intros j Hj. by rewrite Ho2, Hl1.
Qed.

(** The second half of [mmu_fill_atc_l1], from the copied line [l] on. *)
Lemma install_l1 K s s1 addr super data write k l :
  k = l1_slot super data write (ATC_L1_INDEX addr) → word32 addr →
  quiet T s s1 → implements T s1.(mem) → s1.(atc_l1) = s.(atc_l1) → l2_coherent T s.(regs) s1.(atc_l2) →
  l1_coherent T K s.(regs) s.(atc_l1) →
  allowed T s.(regs) super data write addr l.(phys) → l.(tag) = ATC_TAG addr → l.(hw) = false →
  ∃ b s', (mod_l1 k (λ _, l) ;;
    let phys_addr := addr +u l.(phys) in
    if (phys_addr .& 0xfff00000) =? 0x00f00000 then
      mod_l1 k (set_hw true) ;; mod_l1 k (λ l, set_tag (u16 (Z.lnot l.(tag))) l) ;; xret false
    else if (phys_addr .& 0xfff00000) =? 0xfff00000 then
      mod_l1 k (λ l, set_phys (l.(phys) -u 0xff000000) (set_hw true l)) ;;
      mod_l1 k (λ l, set_tag (u16 (Z.lnot l.(tag))) l) ;; xret false
    else if negb (test_ram_boundary phys_addr 1 super write) then
      mod_l1 k (set_bus_fault true) ;; mod_l1 k (λ l, set_tag (u16 (Z.lnot l.(tag))) l) ;; xret false
    else xret true) s1 = (Ret b, s') ∧ l1_filled K s addr super data write k b s'.
Proof.
  intros Hk Ha Hq Hi Hl1 H2 Hc Hal Htag Hhw. set (p := addr +u phys l).
  assert (word32 p) as Hp by apply u32_range.
  destruct (l1_set_start T s1 k (λ _, l)) as (s2 & E2 & Hs2). rewrite (xbind_ret _ _ _ _ _ E2). cbv zeta.
  fold p. rewrite (top12 p Hp).
  assert (∀ f l', f l = l' → l'.(tag) = ATC_TAG addr →
    refused_ok T s.(regs) super data write addr (set_tag (65535 - ATC_TAG addr) l') →
    ∃ b s', (mod_l1 k f ;; mod_l1 k (λ l, set_tag (u16 (Z.lnot l.(tag))) l) ;; xret false) s2 = (Ret b, s') ∧
      l1_filled K s addr super data write k b s') as Hfail.
  { intros f l' <- Ht' Hr. destruct (l1_set_step T _ _ _ _ f Hs2) as (s3 & E3 & Hs3).
    destruct (l1_set_step T _ _ _ _ (λ l, set_tag (u16 (Z.lnot l.(tag))) l) Hs3) as (s4 & E4 & Hs4).
    rewrite Ht', not_tag in Hs4 by done. exists false, s4.
    rewrite (xbind_ret _ _ _ _ _ E3), (xbind_ret _ _ _ _ _ E4). split; [done|].
    destruct (install K s s1 s4 super data write addr k _ Hk Ha Hq Hi Hl1 H2 Hc Hs4) as (Hq4 & Hs & Hc4).
    { apply (new_miss _ _ _ _ addr); done. }
    apply l1f_miss; [done..|]. by rewrite (s_line _ _ _ _ _ Hs4). }
  destruct (Z.eqb_spec (p / 1048576 * 1048576) 0x00f00000) as [H15|H15].
  { apply Hfail with (set_hw true l); [done..|]. exists (phys l). split; [done|]. cbn. fold p.
    split; [left; lia|]. unfold hw_delta. fold p. by rewrite (proj2 (Z.eqb_eq (p / 1048576) 15)) by lia. }
  destruct (Z.eqb_spec (p / 1048576 * 1048576) 0xfff00000) as [H4095|H4095].
  { apply Hfail with (set_phys (phys l -u 0xff000000) (set_hw true l)); [done..|].
    exists (phys l). split; [done|]. cbn. fold p. split; [right; lia|]. unfold hw_delta. fold p.
    by rewrite (proj2 (Z.eqb_neq (p / 1048576) 15)) by lia. }
  assert (¬ hw_page p) as Hnh by (unfold hw_page; lia).
  destruct (test_ram_boundary p 1 super write) eqn:Et; cbn [negb].
  - exists true, s2. split; [done|].
    assert (hit_ok T s.(regs) super data write addr l) as Hh.
    { split; [done|]. split; [done|]. exists p. unfold word32 in Hp. split; [lia|done]. }
    destruct (install K s s1 s2 super data write addr k _ Hk Ha Hq Hi Hl1 H2 Hc Hs2) as (Hq2 & Hs & Hc2).
    { by apply (new_hit _ _ _ _ addr). }
    apply l1f_hit; rewrite ?(s_line _ _ _ _ _ Hs2); done.
  - apply Hfail with (set_bus_fault true l); [done..|]. exists (phys l). split; [done|]. cbn. rewrite Hhw.
    split; [done|]. exists p. unfold word32 in Hp. split; [lia|done].
Qed.

Lemma fill_l1_ok K s addr super data write k :
  k = l1_slot super data write (ATC_L1_INDEX addr) → word32 addr →
  described T s.(regs) → coherent T K s →
  ∃ b s', mmu_fill_atc_l1 addr super data write k s = (Ret b, s') ∧
    l1_filled K s addr super data write k b s'.
Proof.
  intros Hk Ha Hd [Hi H2 H1]. unfold mmu_fill_atc_l1.
  destruct (fill_check_ok T s addr super data write Hd Hi H2 Ha) as (b & s1 & E & [Hq Hi1 Hl1 Hc2 Ht Hr]).
  rewrite (xbind_ret _ _ _ _ _ E). destruct b; cbn [negb].
  - erewrite xbind_ret by done. destruct Hr as [Hv Hwp].
    destruct (Hc2 super addr Ha Ht) as [Hok Hhw]. specialize (Hok data). rewrite Hv in Hok.
    apply install_l1; try done. eexists. split; [exact Hok|exact Hwp].
  - destruct (l1_set_start T s1 k (λ l, set_tag (u16 (Z.lnot l.(tag))) l)) as (s2 & E2 & [Hq2 Hm2 H22 Hl2 Ho2]).
    rewrite (xbind_ret _ _ _ _ _ E2). exists false, s2. split; [done|].
    assert (quiet T s s2) as Hqs by (by eapply quiet_trans). pose proof (q_regs _ _ _ Hqs) as Hrg.
    assert (t_translate T s.(regs) super data addr = Refused ∨
      ∃ delta, t_translate T s.(regs) super data addr = Mapped delta true ∧ write = true) as Hno.
    { destruct (Hc2 super addr Ha Ht) as [Hok _]. specialize (Hok data).
      revert Hok Hr. cbv zeta. destruct (line_valid data _); intros Hok Hr; [right|by left].
      destruct Hr as [?|[Hw Hp]]; [done|]. rewrite Hp in Hok. by eexists. }
    apply l1f_refused; [done|intros j Hj; by rewrite Ho2, Hl1| |by rewrite Hl2, Hl1|..].
    + split; rewrite ?Hm2, ?Hrg, ?H22; [done..|]. apply l1_forget with (atc_l1 s); [|done].
      intros j Hj. by rewrite Ho2, Hl1.
    + destruct Hno as [?|(delta & ? & ?)]; [by apply resolves_refused|by eapply resolves_protected].
    + intros delta (wp & Htr & Hwp). destruct Hno as [?|(delta' & ? & ?)]; [congruence|].
      specialize (Hwp ltac:(done)). congruence.
Qed.

(** ** Loads and stores *)

(** The bytes of an access within a page are in allocated memory. *)
Lemma ram_page_host r super data write addr delta n : (0 < n)%nat →
  page_of (addr + Z.of_nat n - 1) = page_of addr →
  allowed T r super data write addr delta → ram_page super write true (u32 (addr + delta)) →
  host_ok (u32 (addr + delta)) (Z.of_nat n) = true.
Proof.
  intros Hn Hp Hal (q & Hq0 & Hq & Ht). destruct (allowed_delta _ _ _ _ _ _ _ Hal) as [H1 H2].
  eapply test_ram_boundary_host; [exact Hq0|exact Ht|by rewrite Hq|].
  rewrite Hq. unfold page_of, u32, word32 in *. Z.to_euclidean_division_equations. lia.
Qed.

Lemma hit_load r super data addr l n s : (0 < n)%nat → page_of (addr + Z.of_nat n - 1) = page_of addr →
  hit_ok T r super data false addr l →
  do_get_mem n (l.(phys) +u addr) s = (Ret (be_get n s.(mem) (u32 (addr + l.(phys)))), s).
Proof.
  intros Hn Hp (Hal & _ & Hr). unfold do_get_mem. rewrite Z.add_comm.
  by rewrite (ram_page_host _ _ _ _ _ _ _ Hn Hp Hal Hr).
Qed.

Lemma hit_store r super data addr l n v s : (0 < n)%nat → page_of (addr + Z.of_nat n - 1) = page_of addr →
  hit_ok T r super data true addr l →
  do_put_mem n (l.(phys) +u addr) v s =
  (Ret tt, set_mem (be_put n (u32 (addr + l.(phys))) v s.(mem)) s).
Proof.
  intros Hn Hp (Hal & _ & Hr). unfold do_put_mem. rewrite Z.add_comm.
  by rewrite (ram_page_host _ _ _ _ _ _ _ Hn Hp Hal Hr).
Qed.

Lemma coherent_mono (K K' : Z → Prop) s : (∀ k, K k → K' k) → coherent T K s → coherent T K' s.
Proof. intros HK []. split; [done..|]. by eapply l1_coherent_mono. Qed.

(** [redo]: what the slow path does with a line that refuses the access. *)
Lemma refused_resolves r super data write addr l :
  refused_ok T r super data write addr l →
  if l.(hw) then resolves r super data write addr (ToHw (u32 (addr + l.(phys))))
  else resolves r super data write addr ToFault.
Proof.
  intros (delta & Hal & Hl). destruct (hw l).
  - destruct Hl as [Hh ->]. by apply resolves_hw.
  - destruct Hl. by eapply resolves_boundary.
Qed.

(** The outcome of an access that resolves to [t], on the line [k]; [hwdo] is the
    access to a device, [fault] the access error, and [ram] the access to memory.
    An access error of the translation is only reported if the line did not
    belong to a device before. *)
Definition outcome {A} K s super data write addr k (hwdo : Z → X (machine D) A)
    (ram : Z → machine D → xout A * machine D) (fault : X (machine D) A)
    (res : xout A * machine D) : Prop :=
  ∃ t s1, resolves s.(regs) super data write addr t ∧ quiet T s s1 ∧ same_lines k s s1 ∧
  match t with
  | ToRam p => res = ram p s1 ∧ coherent T K s1
  | ToHw p => res = hwdo p s1 ∧ coherent T K s1
  | ToFault => coherent T (λ j, K j ∨ j = k) s1 ∧
      ((s.(atc_l1) k).(hw) = false ∨ (∃ delta, allowed T s.(regs) super data write addr delta) →
       res = fault s1)
  end.

Lemma mmu_user_lookup_eq s addr super data write :
  mmu_user_lookup addr super data write s =
  (Ret ((s.(atc_l1) (l1_slot super data write (ATC_L1_INDEX addr))).(tag) =? ATC_TAG addr), s).
Proof. done. Qed.

(** The shape shared by loads and stores of every size. *)
Definition access_shape {A} (ram hwdo : mmu_atc_line → X (machine D) A) (fault : X (machine D) A)
    super data write addr : X (machine D) A :=
  let k := l1_slot super data write (ATC_L1_INDEX addr) in
  let redo := let* cl := xget (λ s, s.(atc_l1) k) in if cl.(hw) then hwdo cl else fault in
  let* hit := mmu_user_lookup addr super data write in
  if hit then let* cl := xget (λ s, s.(atc_l1) k) in ram cl else
  let* cl := xget (λ s, s.(atc_l1) k) in
  if cl.(tag) =? u16 (Z.lnot (ATC_TAG addr)) then redo else
  let* ok := mmu_fill_atc_l1 addr super data write k in
  if negb ok then redo else
  let* cl := xget (λ s, s.(atc_l1) k) in ram cl.

Lemma shape_resolves {A} (ram hwdo : mmu_atc_line → X (machine D) A) ramout hwout fault K s super data write addr :
  let k := l1_slot super data write (ATC_L1_INDEX addr) in
  (∀ l s', hit_ok T s.(regs) super data write addr l → ram l s' = ramout (u32 (addr + l.(phys))) s') →
  (∀ l s', hwdo l s' = hwout (u32 (addr + l.(phys))) s') →
  described T s.(regs) → coherent T K s → ¬ K k → word32 addr →
  outcome K s super data write addr k hwout ramout fault (access_shape ram hwdo fault super data write addr s).
Proof.
  intros k Hram Hhwdo Hd Hc HK Ha. unfold access_shape. fold k.
  pose proof (c_l1 _ _ _ Hc super data write addr Ha HK) as [Hhit Hmiss]. fold k in Hhit, Hmiss.
  rewrite (xbind_ret _ _ _ _ _ (mmu_user_lookup_eq s addr super data write)). fold k.
  destruct (Z.eqb_spec (tag (atc_l1 s k)) (ATC_TAG addr)) as [E|E]; cbv iota.
  { specialize (Hhit E). erewrite xbind_ret by done. rewrite Hram by done.
    eexists (ToRam _), s. split; [apply resolves_ram; apply Hhit|]. by split. }
  erewrite xbind_ret by done. rewrite not_tag by done.
  destruct (Z.eqb_spec (tag (atc_l1 s k)) (65535 - ATC_TAG addr)) as [E'|E']; cbv iota.
  { specialize (Hmiss E'). erewrite xbind_ret by done. pose proof (refused_resolves _ _ _ _ _ _ Hmiss) as Hr.
    destruct (hw (atc_l1 s k)).
    - eexists (ToHw _), s. split; [exact Hr|]. rewrite Hhwdo. by split.
    - exists ToFault, s. split; [exact Hr|]. split; [done|]. split; [done|]. split; [|done].
      eapply coherent_mono; [|done]. by left. }
  destruct (fill_l1_ok K s addr super data write k eq_refl Ha Hd Hc) as (b & s1 & Ef & Hf).
  rewrite (xbind_ret _ _ _ _ _ Ef).
  assert (∀ s', coherent T (λ j, K j ∧ j ≠ k) s' → coherent T K s') as Hweak
    by (intros s'; apply coherent_mono; tauto).
  destruct Hf as [s1 Hq Hs Hc1 Ht Hh|s1 Hq Hs Hc1 Hm|s1 Hq Hs Hc1 Hhw Hr Hna]; cbn [negb]; erewrite xbind_ret by done.
  - rewrite Hram by done. eexists (ToRam _), s1.
    split; [apply resolves_ram; apply Hh|]. do 3 (split; [done|]). by apply Hweak.
  - pose proof (refused_resolves _ _ _ _ _ _ Hm) as Hr. destruct (hw (atc_l1 s1 k)).
    + eexists (ToHw _), s1. split; [exact Hr|]. rewrite Hhwdo. do 3 (split; [done|]). by apply Hweak.
    + exists ToFault, s1. split; [exact Hr|]. do 2 (split; [done|]). split; [|done].
      eapply coherent_mono; [|by apply Hweak]. by left.
  - exists ToFault, s1. do 4 (split; [done|]).
    intros [Hst|(delta & Hal)]; [by rewrite Hhw, Hst|]. by apply Hna in Hal.
Qed.

Lemma get_resolves K s n hwget addr super data size : (0 < n)%nat →
  let k := l1_slot super data false (ATC_L1_INDEX addr) in
  described T s.(regs) → coherent T K s → ¬ K k → word32 addr →
  page_of (addr + Z.of_nat n - 1) = page_of addr →
  outcome K s super data false addr k hwget (λ p s1, (Ret (be_get n s1.(mem) p), s1))
    (mmu_bus_error addr (mmu_get_fc super data) false size ;; xret 0)
    (mmu_get_at n hwget super super addr data size s).
Proof.
  intros Hn k Hd Hc HK Ha Hp.
  change (mmu_get_at n hwget super super addr data size)
    with (access_shape (λ l, do_get_mem n (l.(phys) +u addr)) (λ l, hwget (l.(phys) +u addr))
      (mmu_bus_error addr (mmu_get_fc super data) false size ;; xret 0) super data false addr).
  apply shape_resolves; try done.
  - intros l s' Hh. by rewrite (hit_load _ _ _ _ _ _ _ Hn Hp Hh).
  - intros l s'. by rewrite Z.add_comm.
Qed.

Lemma put_resolves K s n hwput addr v super data size : (0 < n)%nat →
  let k := l1_slot super data true (ATC_L1_INDEX addr) in
  described T s.(regs) → coherent T K s → ¬ K k → word32 addr →
  page_of (addr + Z.of_nat n - 1) = page_of addr →
  outcome K s super data true addr k (λ p, hwput p v)
    (λ p s1, (Ret tt, set_mem (be_put n p v s1.(mem)) s1))
    (mod_regs (set_wb3_data v) ;; mmu_bus_error addr (mmu_get_fc super data) true size)
    (mmu_put_at n hwput super super addr v data size s).
Proof.
  intros Hn k Hd Hc HK Ha Hp.
  change (mmu_put_at n hwput super super addr v data size)
    with (access_shape (λ l, do_put_mem n (l.(phys) +u addr) v) (λ l, hwput (l.(phys) +u addr) v)
      (mod_regs (set_wb3_data v) ;; mmu_bus_error addr (mmu_get_fc super data) true size)
      super data true addr).
  apply shape_resolves; try done.
  - intros l s' Hh. by rewrite (hit_store _ _ _ _ _ _ _ _ Hn Hp Hh).
  - intros l s'. by rewrite Z.add_comm.
Qed.

(** A store outside the descriptors keeps the caches coherent. *)
Lemma coherent_store K s n p v : (0 < n)%nat → coherent T K s →
  (∀ x, p <= x < p + Z.of_nat n → outside T x) →
  coherent T K (set_mem (be_put n p v s.(mem)) s).
Proof.
  intros Hn [Hi H2 H1] Ho. split; [|done..]. intros A k d HA. cbn [mem set_mem].
  rewrite be_get_put_disjoint; [by apply Hi|]. change (Z.of_nat 4) with 4.
  destruct (decide (p + Z.of_nat n <= A)); [by right|]. destruct (decide (A + 4 <= p)); [by left|].
  destruct (Ho (Z.max p A) ltac:(lia) A k d HA); lia.
Qed.
End Access.
