(* ===== verification/MmuTheorems.v ===== *)
(** * MmuTheorems: what the memory management unit promises

    - [atc_refines_flat_memory]: runs of loads and stores through the two caches
      are runs on a flat memory behind the translation.
    - [put_get_long]: a longword is read back, also across two pages. *)

From S2P Require Import Prelude Throws Machine MachineSpec Mmu MmuWalk MmuSpec MmuAccess.
From stdpp Require Import base gmap list numbers.
Open Scope Z_scope.
Open Scope c_scope.
Open Scope x_scope.

Section Theorems.
Context {cfg : Config} {ok : ConfigOk} {D : Type} {hwd : Hardware D} (T : tables) {Tok : TablesOk T}.
Implicit Types (s : machine D) (r : regstruct) (a : Z) (super data write : bool).

Definition none (_ : Z) : Prop := False.

(** The processor runs with registers [r] and coherent caches, in the mode the
    current cache belongs to. *)
Record ready r s : Prop := {
  rd_regs : s.(regs) = r;
  rd_mode : s.(current_atc) = r.(sr_s);
  rd_coherent : coherent T none s;
}.

(** Reads and writes of the page of [a] go to plain RAM; [p] is the physical
    address of [a]. *)
Record plain r super a p : Prop := {
  pl_word : word32 a;
  pl_map data : t_translate T r super data a = Mapped (u32 (p - a)) false;
  pl_target : word32 p ∧ ¬ hw_page p;
  pl_page : page_of p * 4096 - p = page_of a * 4096 - a;
  pl_ram q write : 0 <= q → page_of q = page_of p → test_ram_boundary q 1 super write = true;
}.

Lemma plain_target a p : word32 a → word32 p → u32 (a + u32 (p - a)) = p.
Proof. unfold word32, u32. intros. rewrite Z.add_mod_idemp_r by lia. rewrite Z.mod_small; lia. Qed.

Lemma plain_resolves r super data write a p t :
  plain r super a p → resolves T r super data write a t → t = ToRam p.
Proof.
  intros [Ha Hm [Hp Hh] Hpg Hr] Ht. pose proof (plain_target a p Ha Hp) as Hpt.
  assert (∀ delta, allowed T r super data write a delta → u32 (a + delta) = p) as Hal.
  { intros delta (wp & H & _). rewrite Hm in H. by simplify_eq. }
  destruct Ht as [delta Hd _ _|delta Hd Hx|delta Hd _ (q & Hq0 & Hq & Hb)|H|delta H Hw].
  - by rewrite Hal.
  - rewrite (Hal _ Hd) in Hx. done.
  - rewrite (Hal _ Hd) in Hq. by rewrite Hr in Hb.
  - by rewrite Hm in H.
  - by rewrite Hm in H.
Qed.

(** Another address of the same page. *)
Lemma plain_same_page r super a p b :
  plain r super a p → word32 b → page_of b = page_of a → plain r super b (p + (b - a)).
Proof.
  intros [Ha Hm [Hp Hh] Hpg Hr] Hb Hab.
  assert (page_of (p + (b - a)) = page_of p) as Hpp.
  { unfold page_of in *. Z.to_euclidean_division_equations. lia. }
  split; [done| | | |].
  - intros data. rewrite <-(t_translate_page T r super data a b), Hm by done.
    by replace (p + (b - a) - b) with (p - a) by lia.
  - rewrite <-(hw_page_page _ _ (eq_sym Hpp)). split; [|done].
    unfold page_of, word32 in *. Z.to_euclidean_division_equations. lia.
  - unfold page_of in *. Z.to_euclidean_division_equations. lia.
  - intros q write Hq. rewrite Hpp. by apply Hr.
Qed.

Definition away (n : nat) (p : Z) : Prop := ∀ x, p <= x < p + Z.of_nat n → outside T x.
Definition in_page (n : nat) (a : Z) : Prop := (0 < n)%nat ∧ page_of (a + Z.of_nat n - 1) = page_of a.

(** Equal memories outside the descriptors. *)
Definition same_mem (m m' : gmap Z Z) : Prop := ∀ x, outside T x → aget m x = aget m' x.
#[global] Instance same_mem_equiv : Equivalence same_mem.
Proof.
  split; [done|by intros ?? H x Hx; rewrite H|]. intros ??? H1 H2 x Hx. by rewrite H1, H2.
Qed.

Lemma same_mem_get n p m m' : away n p → same_mem m m' → be_get n m p = be_get n m' p.
Proof. intros Ha H. apply be_get_ext. intros x Hx. by apply H, Ha. Qed.

Lemma be_put_value n p v m x : p <= x < p + Z.of_nat n →
  aget (be_put n p v m) x = u8 (v / 256 ^ (p + Z.of_nat n - 1 - x)).
Proof.
  revert m v. induction n as [|n IH]; intros m v Hx; [lia|]. cbn [be_put].
  destruct (decide (x = p + Z.of_nat n)) as [->|Hne].
  - rewrite be_put_ne, aget_aset_eq by lia.
    replace (p + Z.of_nat (S n) - 1 - (p + Z.of_nat n)) with 0 by lia. by rewrite Z.div_1_r.
  - rewrite IH, Z.div_div, <-Z.pow_succ_r by lia. f_equal. f_equal. f_equal. lia.
Qed.

#[global] Instance be_put_proper n p v : Proper (same_mem ==> same_mem) (be_put n p v).
Proof.
  intros m m' H x Hx. destruct (decide (p <= x < p + Z.of_nat n)).
  - by rewrite !be_put_value.
  - rewrite !be_put_ne by lia. by apply H.
Qed.

(** ** One access *)

Lemma quiet_ready r s s1 : ready r s → quiet T s s1 → coherent T none s1 → ready r s1.
Proof. intros [<- Hm _] Hq Hc. split; [apply Hq| |done]. by rewrite (q_current _ _ _ Hq). Qed.

Lemma load_ready_lines r s n hwget a p data size :
  ready r s → described T r → plain r r.(sr_s) a p → in_page n a → away n p →
  ∃ s', mmu_get n hwget a data size s = (Ret (be_get n s.(mem) p), s') ∧ ready r s' ∧
    same_mem s'.(mem) s.(mem) ∧ same_lines (l1_slot r.(sr_s) data false (ATC_L1_INDEX a)) s s'.
Proof.
  intros Hrd Hd Hpl [Hn Hp] Haw. pose proof Hrd as [Hr Hm Hc].
  assert (mmu_get n hwget a data size s = mmu_get_at n hwget r.(sr_s) r.(sr_s) a data size s) as ->.
  { unfold mmu_get. erewrite xbind_ret by done. erewrite xbind_ret by done. by rewrite Hm, Hr. }
  destruct (get_resolves T none s n hwget a r.(sr_s) data size Hn) as (t & s1 & Ht & Hq & Hsl & Hx); try done.
  { by rewrite Hr. } { by intros []. } { apply Hpl. }
  rewrite Hr in Ht. apply (plain_resolves r _ data false a p) in Ht as ->; [|done]. destruct Hx as [-> Hc1].
  exists s1. split; [|split; [by eapply quiet_ready|split; [intros x Hx; by apply Hq|done]]].
  f_equal. f_equal. apply same_mem_get; [done|]. intros x Hx. by apply Hq.
Qed.

Lemma store_ready_lines r s n hwput a p v data size :
  ready r s → described T r → plain r r.(sr_s) a p → in_page n a → away n p →
  ∃ s', mmu_put n hwput a v data size s = (Ret tt, s') ∧ ready r s' ∧
    same_mem s'.(mem) (be_put n p v s.(mem)) ∧ same_lines (l1_slot r.(sr_s) data true (ATC_L1_INDEX a)) s s'.
Proof.
  intros Hrd Hd Hpl [Hn Hp] Haw. pose proof Hrd as [Hr Hm Hc].
  assert (mmu_put n hwput a v data size s = mmu_put_at n hwput r.(sr_s) r.(sr_s) a v data size s) as ->.
  { unfold mmu_put. erewrite xbind_ret by done. erewrite xbind_ret by done. by rewrite Hm, Hr. }
  destruct (put_resolves T none s n hwput a v r.(sr_s) data size Hn) as (t & s1 & Ht & Hq & Hsl & Hx); try done.
  { by rewrite Hr. } { by intros []. } { apply Hpl. }
  rewrite Hr in Ht. apply (plain_resolves r _ data true a p) in Ht as ->; [|done]. destruct Hx as [-> Hc1].
  eexists. split; [done|]. split; [|split; [cbn [mem set_mem]; f_equiv; intros x Hx; by apply Hq|done]].
  split; cbn [regs current_atc set_mem]; [by rewrite (q_regs _ _ _ Hq)|by rewrite (q_current _ _ _ Hq)|].
  by apply coherent_store.
Qed.

Lemma load_ready r s n hwget a p data size :
  ready r s → described T r → plain r r.(sr_s) a p → in_page n a → away n p →
  ∃ s', mmu_get n hwget a data size s = (Ret (be_get n s.(mem) p), s') ∧ ready r s' ∧
    same_mem s'.(mem) s.(mem).
Proof.
  intros Hr Hd Hpl Hin Haw.
  destruct (load_ready_lines r s n hwget a p data size Hr Hd Hpl Hin Haw) as (s' & ? & ? & ? & _). by exists s'.
Qed.

Lemma store_ready r s n hwput a p v data size :
  ready r s → described T r → plain r r.(sr_s) a p → in_page n a → away n p →
  ∃ s', mmu_put n hwput a v data size s = (Ret tt, s') ∧ ready r s' ∧
    same_mem s'.(mem) (be_put n p v s.(mem)).
Proof.
  intros Hr Hd Hpl Hin Haw.
  destruct (store_ready_lines r s n hwput a p v data size Hr Hd Hpl Hin Haw) as (s' & ? & ? & ? & _). by exists s'.
Qed.

(** A store only looks at the low bytes of its value. *)
Lemma be_put_wrap n p v m : be_put n p (v mod 256 ^ Z.of_nat n) m = be_put n p v m.
Proof.
  revert m v. induction n as [|n IH]; intros m v; [done|]. cbn [be_put].
  rewrite Nat2Z.inj_succ, Z.pow_succ_r, Z.rem_mul_r by lia. unfold u8.
  rewrite <-(IH _ (v / 256)). f_equal.
  - rewrite (Z.mul_comm 256), Z.div_add, Z.div_small by (lia || apply Z.mod_pos_bound; lia). lia.
  - by rewrite (Z.mul_comm 256), Z.mod_add, Z.mod_mod by lia.
Qed.

Lemma be_put_u8 p v m : be_put 1 p (u8 v) m = be_put 1 p v m.
Proof. exact (be_put_wrap 1 p v m). Qed.
Lemma be_put_u16 p v m : be_put 2 p (u16 v) m = be_put 2 p v m.
Proof. exact (be_put_wrap 2 p v m). Qed.
Lemma be_put_u32 p v m : be_put 4 p (u32 v) m = be_put 4 p v m.
Proof. exact (be_put_wrap 4 p v m). Qed.

(** ** Runs of accesses *)

Inductive access := Load (size : wordsizes) (data : bool) (a : Z) | Store (size : wordsizes) (data : bool) (a v : Z).

Definition bytes (size : wordsizes) : nat :=
  match size with sz_byte => 1 | sz_word => 2 | sz_long => 4 end%nat.

(** The emulator. *)
Definition do_access (x : access) : X (machine D) Z :=
  match x with
  | Load sz_byte data a => mmu_get_byte a data sz_byte
  | Load sz_word data a => mmu_get_word a data sz_word
  | Load sz_long data a => mmu_get_long a data sz_long
  | Store sz_byte data a v => mmu_put_byte a v data sz_byte ;; xret 0
  | Store sz_word data a v => mmu_put_word a v data sz_word ;; xret 0
  | Store sz_long data a v => mmu_put_long a v data sz_long ;; xret 0
  end.

Fixpoint do_accesses (l : list access) : X (machine D) (list Z) :=
  match l with
  | [] => xret []
  | x :: l => let* v := do_access x in let* vs := do_accesses l in xret (v :: vs)
  end.

(** The flat memory: the access [x] goes to the physical address [p]. *)
Definition flat_access (x : access) (p : Z) (m : gmap Z Z) : Z * gmap Z Z :=
  match x with
  | Load size _ _ => (be_get (bytes size) m p, m)
  | Store size _ _ v => (0, be_put (bytes size) p v m)
  end.

Fixpoint flat_accesses (l : list (access * Z)) (m : gmap Z Z) : list Z * gmap Z Z :=
  match l with
  | [] => ([], m)
  | (x, p) :: l => let '(v, m) := flat_access x p m in
                   let '(vs, m) := flat_accesses l m in (v :: vs, m)
  end.

(** The access stays in a page of plain RAM, away from the descriptors. *)
Definition access_plain r (xp : access * Z) : Prop :=
  match xp with
  | (Load size _ a, p) | (Store size _ a _, p) =>
      plain r r.(sr_s) a p ∧ in_page (bytes size) a ∧ away (bytes size) p
  end.

Lemma flat_step r s x p m :
  ready r s → described T r → access_plain r (x, p) → same_mem s.(mem) m →
  ∃ s', do_access x s = (Ret (flat_access x p m).1, s') ∧ ready r s' ∧
    same_mem s'.(mem) (flat_access x p m).2.
Proof.
  intros Hrd Hd Hx Hm. destruct x as [size data a|size data a v]; destruct Hx as (Hpl & Hin & Haw).
  - destruct size; cbn [do_access bytes flat_access fst snd] in *;
      (edestruct load_ready as (s' & E & Hrd' & Hm'); [exact Hrd|exact Hd|exact Hpl|exact Hin|exact Haw|]);
      exists s'; (split; [unfold mmu_get_byte, mmu_get_word, mmu_get_long; rewrite E; do 2 f_equal;
        by apply same_mem_get|]); (split; [done|by etrans]).
  - destruct size; cbn [do_access bytes flat_access fst snd] in *;
      (edestruct store_ready as (s' & E & Hrd' & Hm'); [exact Hrd|exact Hd|exact Hpl|exact Hin|exact Haw|]);
      exists s'; (split; [by erewrite xbind_ret by exact E|]); (split; [done|]);
      (etrans; [exact Hm'|]).
    all: rewrite ?be_put_u8, ?be_put_u16, ?be_put_u32; by f_equiv.
Qed.

(** C1: Loads and stores of every size, data or instruction space, behave through the
    two translation caches as on a flat memory accessed at the translated addresses:
    same results, same memory outside the descriptors, and the caches stay coherent.
    Assumed: the caches are coherent at the start and the current half is that of the mode ([ready]); the tree describes all addresses, and the
    transparent translation registers for data and for instructions agree at every address ([described]; where they do not, a line filled
    for the one space is refused to the other, see [MmuExample.data_ttr_hides_code]); and each access stays within one page, which is mapped writable to
    plain RAM, and away from the descriptors ([access_plain]). *)
Theorem atc_refines_flat_memory r s (l : list (access * Z)) m :
  ready r s → described T r → Forall (access_plain r) l → same_mem s.(mem) m →
  ∃ s', do_accesses l.*1 s = (Ret (flat_accesses l m).1, s') ∧ ready r s' ∧
    same_mem s'.(mem) (flat_accesses l m).2.
Proof.
  intros Hrd Hd Hl. revert s m Hrd. induction Hl as [|[x p] l Hx Hl IH]; intros s m Hrd Hm.
  { by exists s. }
  destruct (flat_step r s x p m Hrd Hd Hx Hm) as (s1 & E1 & Hrd1 & Hm1).
  cbn [fmap list_fmap fst do_accesses flat_accesses]. rewrite (xbind_ret _ _ _ _ _ E1).
  destruct (flat_access x p m) as [v m1]. cbn [fst snd] in *.
  destruct (IH s1 m1 Hrd1 Hm1) as (s2 & E2 & Hrd2 & Hm2). unfold fmap in E2.
  rewrite (xbind_ret _ _ _ _ _ E2). destruct (flat_accesses l m1) as [vs m2]. by exists s2.
Qed.

(** ** Longwords across pages *)

Lemma bit12_page a b : 0 <= b - a < 4096 → tst (a .^ b) 0x1000 = negb (page_of a =? page_of b).
Proof.
  intros Hab. rewrite (tst_pow _ 0x1000 12), Z.lxor_spec by done. unfold page_of.
  assert (∀ z, Z.testbit z 12 = Z.odd (z / 4096)) as Hb.
  { intros z. change (z / 4096) with (z / 2 ^ 12). by rewrite <-Z.bit0_odd, <-(Z.shiftr_div_pow2 z 12), Z.shiftr_spec by lia. }
  rewrite !Hb. destruct (Z.eqb_spec (a / 4096) (b / 4096)) as [->|Hne]; [by rewrite xorb_nilpotent|].
  assert (b / 4096 = a / 4096 + 1) as -> by (Z.to_euclidean_division_equations; lia).
  rewrite Z.odd_add. by destruct (Z.odd (a / 4096)).
Qed.

Lemma is_unaligned_spec a k : 0 <= k <= 2 → word32 a → a + (2 ^ k - 1) < 2 ^ 32 →
  is_unaligned a (2 ^ k) = negb (page_of a =? page_of (a + (2 ^ k - 1))).
Proof.
  intros Hk Ha Hs. unfold is_unaligned, word32 in *.
  assert (0 < 2 ^ k <= 2 ^ 2) as H2k by (split; [lia|apply Z.pow_le_mono_r; lia]).
  rewrite u32_small by lia. rewrite bit12_page by lia.
  destruct (negb (_ =? _)) eqn:E; [|by rewrite andb_false_r]. rewrite andb_true_r.
  unfold tst. apply negb_true_iff, Z.eqb_neq in E. apply negb_true_iff, Z.eqb_neq.
  replace (2 ^ k - 1) with (Z.ones k) by (rewrite Z.ones_equiv; lia).
  rewrite Z.land_ones by lia. intros H0. apply E. unfold page_of.
  assert (k = 0 ∨ k = 1 ∨ k = 2) as [->|[->| ->]] by lia;
    [change (2 ^ 0) with 1 in *|change (2 ^ 1) with 2 in *|change (2 ^ 2) with 4 in *];
    Z.to_euclidean_division_equations; lia.
Qed.

(** The physical address of [a + i], when [a] is at [p] and [a + 3] at [q]. *)
Definition loc a p q (i : Z) : Z := if page_of (a + i) =? page_of a then p + i else q - (3 - i).

Lemma loc_plain r super a p q i : plain r super a p → plain r super (a + 3) q → 0 <= i <= 3 →
  plain r super (a + i) (loc a p q i).
Proof.
  intros Hp Hq Hi. pose proof (pl_word _ _ _ _ Hp). pose proof (pl_word _ _ _ _ Hq). unfold loc, word32 in *.
  destruct (Z.eqb_spec (page_of (a + i)) (page_of a)) as [E|E].
  - replace (p + i) with (p + (a + i - a)) by lia. apply plain_same_page; [done|unfold word32; lia|done].
  - replace (q - (3 - i)) with (q + (a + i - (a + 3))) by lia.
    apply plain_same_page; [done|unfold word32; lia|].
    unfold page_of in *. Z.to_euclidean_division_equations. lia.
Qed.

Lemma loc_offset r super a p q i : plain r super a p → plain r super (a + 3) q → 0 <= i <= 3 →
  loc a p q i mod 4096 = (a + i) mod 4096.
Proof.
  intros Hp Hq Hi. pose proof (pl_page _ _ _ _ (loc_plain r super a p q i Hp Hq Hi)) as H.
  unfold page_of in H. Z.to_euclidean_division_equations. lia.
Qed.

Lemma loc_inj r super a p q i j : plain r super a p → plain r super (a + 3) q →
  0 <= i <= 3 → 0 <= j <= 3 → i ≠ j → loc a p q i ≠ loc a p q j.
Proof.
  intros Hp Hq Hi Hj Hne E. pose proof (loc_offset r super a p q i Hp Hq Hi) as Hoi.
  rewrite E, (loc_offset r super a p q j Hp Hq Hj) in Hoi. Z.to_euclidean_division_equations. lia.
Qed.
Lemma loc_succ a p q i : page_of (a + i) = page_of (a + (i + 1)) → loc a p q (i + 1) = loc a p q i + 1.
Proof. intros H. unfold loc. rewrite <-H. destruct (_ =? _); lia. Qed.

(** [j] bytes from [a + i] on lie in one page, and so at [loc i]. *)
Lemma loc_run r super a p q i (j : nat) : plain r super a p → plain r super (a + 3) q → 0 <= i →
  (0 < j)%nat → i + Z.of_nat j <= 4 → page_of (a + i) = page_of (a + (i + Z.of_nat j - 1)) →
  (∀ i, 0 <= i <= 3 → outside T (loc a p q i)) →
  in_page j (a + i) ∧ away j (loc a p q i) ∧
  (∀ k, 0 <= k < Z.of_nat j → loc a p q i + k = loc a p q (i + k)).
Proof.
  intros Hp Hq Hi Hj Hij Hpg Ho.
  assert (∀ k, 0 <= k < Z.of_nat j → loc a p q i + k = loc a p q (i + k)) as Hl.
  { intros k Hk. replace k with (Z.of_nat (Z.to_nat k)) in * by lia. generalize dependent (Z.to_nat k).
    intros n Hn. induction n as [|n IH]; [by rewrite !Z.add_0_r|].
    rewrite Nat2Z.inj_succ, <-Z.add_1_r, !Z.add_assoc, IH by lia. symmetry. apply loc_succ.
    unfold page_of in *. Z.to_euclidean_division_equations. lia. }
  split; [|split; [|done]].
  - split; [done|]. rewrite Hpg. f_equal. lia.
  - intros x Hx. replace x with (loc a p q i + (x - loc a p q i)) by lia. rewrite Hl by lia. apply Ho. lia.
Qed.

(** Byte [i] of a longword. *)
Definition byte_of v (i : Z) : Z := u8 (v / 256 ^ (3 - i)).

Section Longs.
Context (r : regstruct) (a p q : Z).
Hypothesis Hd : described T r.
Hypothesis Hp : plain r r.(sr_s) a p.
Hypothesis Hq : plain r r.(sr_s) (a + 3) q.
Hypothesis Ho : ∀ i, 0 <= i <= 3 → outside T (loc a p q i).

(** Storing [j] bytes at [a + i]; the bytes stored and those that stay. *)
Lemma store_part s i (j : nat) hwput v size : ready r s → 0 <= i → (0 < j)%nat → i + Z.of_nat j <= 4 →
  page_of (a + i) = page_of (a + (i + Z.of_nat j - 1)) →
  ∃ s', mmu_put j hwput (a + i) v true size s = (Ret tt, s') ∧ ready r s' ∧
    (∀ k, 0 <= k < Z.of_nat j → aget s'.(mem) (loc a p q (i + k)) = u8 (v / 256 ^ (Z.of_nat j - 1 - k))) ∧
    (∀ k, 0 <= k <= 3 → k < i ∨ i + Z.of_nat j <= k → aget s'.(mem) (loc a p q k) = aget s.(mem) (loc a p q k)).
Proof.
  intros Hr Hi Hj Hij Hpg. destruct (loc_run r _ a p q i j Hp Hq Hi Hj Hij Hpg Ho) as (Hin & Haw & Hl).
  destruct (store_ready r s j hwput (a + i) (loc a p q i) v true size Hr Hd) as (s' & E & Hr' & Hm); try done.
  { apply (loc_plain r _ a p q i Hp Hq). lia. }
  exists s'. split; [done|]. split; [done|]. split.
  - intros k Hk. rewrite Hm by (apply Ho; lia). rewrite <-Hl by done. rewrite be_put_value by lia.
    do 3 f_equal. lia.
  - intros k Hk Hout. rewrite Hm by (apply Ho; lia). apply be_put_ne.
    destruct (decide (loc a p q i <= loc a p q k < loc a p q i + Z.of_nat j)) as [H|]; [|lia].
    exfalso. replace (loc a p q k) with (loc a p q i + (loc a p q k - loc a p q i)) in H by lia.
    destruct (decide (k = i + (loc a p q k - loc a p q i))) as [|Hne]; [lia|].
    apply (loc_inj r (sr_s r) a p q k (i + (loc a p q k - loc a p q i)) Hp Hq) in Hne; [|lia..].
    rewrite <-Hl in Hne by lia. lia.
Qed.

(** Loading [j] bytes at [a + i]. *)
Lemma load_part s i (j : nat) hwget size : ready r s → 0 <= i → (0 < j)%nat → i + Z.of_nat j <= 4 →
  page_of (a + i) = page_of (a + (i + Z.of_nat j - 1)) →
  ∃ s', mmu_get j hwget (a + i) true size s = (Ret (be_get j s.(mem) (loc a p q i)), s') ∧ ready r s' ∧
    (∀ k, 0 <= k <= 3 → aget s'.(mem) (loc a p q k) = aget s.(mem) (loc a p q k)) ∧
    (∀ k, 0 <= k < Z.of_nat j → loc a p q i + k = loc a p q (i + k)).
Proof.
  intros Hr Hi Hj Hij Hpg. destruct (loc_run r _ a p q i j Hp Hq Hi Hj Hij Hpg Ho) as (Hin & Haw & Hl).
  destruct (load_ready r s j hwget (a + i) (loc a p q i) true size Hr Hd) as (s' & E & Hr' & Hm); try done.
  { apply (loc_plain r _ a p q i Hp Hq). lia. }
  exists s'. split; [done|]. split; [done|]. split; [|done]. intros k Hk. by apply Hm, Ho.
Qed.

Lemma no_wrap i : 0 <= i <= 3 → u32 (a + i) = a + i.
Proof.
  intros Hi. pose proof (pl_word _ _ _ _ Hp). pose proof (pl_word _ _ _ _ Hq). unfold word32 in *.
  apply u32_small. lia.
Qed.

(** In which pages the parts of a misaligned longword are. *)
Lemma unaligned_parts : is_unaligned a 4 = true →
  if negb (tst a 1) then page_of (a + 0) = page_of (a + (0 + 2 - 1)) ∧ page_of (a + 2) = page_of (a + (2 + 2 - 1))
  else True.
Proof.
  pose proof (pl_word _ _ _ _ Hp). pose proof (pl_word _ _ _ _ Hq). unfold word32 in *.
  change 4 with (2 ^ 2) at 1. rewrite is_unaligned_spec by (unfold word32; lia).
  intros E%negb_true_iff%Z.eqb_neq. destruct (negb (tst a 1)) eqn:Eo; [|done].
  apply negb_true_iff in Eo. unfold tst in Eo. apply negb_false_iff, Z.eqb_eq in Eo. rewrite mask_1 in Eo.
  change (2 ^ 2 - 1) with 3 in E. unfold page_of in *. Z.to_euclidean_division_equations. lia.
Qed.
(** Dividing by the bytes already stored. *)
Lemma shr_byte v k j : 0 <= j → 0 <= k → (v >> (8 * j)) / 256 ^ k = v / 256 ^ (j + k).
Proof.
  intros. rewrite Z.shiftr_div_pow2, Z.pow_mul_r, Z.div_div, <-Z.pow_add_r by lia. done.
Qed.

Lemma u8_u8 x : u8 (u8 x) = u8 x.
Proof. apply u8_small, u8_range. Qed.

Lemma byte_u8 v i : 0 <= i <= 3 → u8 (u8 (v >> (8 * (3 - i))) / 256 ^ 0) = byte_of v i.
Proof.
  intros. rewrite Z.div_1_r, u8_u8. unfold byte_of. f_equal.
  rewrite <-(Z.div_1_r (v >> _)). change 1 with (256 ^ 0) at 1. rewrite shr_byte by lia. do 2 f_equal. lia.
Qed.

Lemma byte_u16 v k : 0 <= k < 2 → u8 (u16 v / 256 ^ (1 - k)) = u8 (v / 256 ^ (1 - k)).
Proof.
  intros. unfold u8, u16. assert (k = 0 ∨ k = 1) as [->| ->] by lia;
    [change (256 ^ (1 - 0)) with 256|change (256 ^ (1 - 1)) with 1]; Z.to_euclidean_division_equations; lia.
Qed.

Lemma put_long_bytes s v : ready r s → word32 v →
  ∃ s', put_long a v s = (Ret tt, s') ∧ ready r s' ∧
    ∀ i, 0 <= i <= 3 → aget s'.(mem) (loc a p q i) = byte_of v i.
Proof.
  intros Hr Hv. unfold put_long. rewrite u32_small by done.
  pose proof (pl_word _ _ _ _ Hp) as Ha. pose proof (pl_word _ _ _ _ Hq) as Ha3.
  destruct (is_unaligned a 4) eqn:Eu.
  - unfold mmu_put_long_unaligned, put_long_by_parts. pose proof (unaligned_parts Eu) as Hpg.
    destruct (negb (tst a 1)).
    + destruct Hpg as [Hpg0 Hpg2].
      destruct (store_part s 0 2 HWput_w (u16 (v >> 16)) sz_long Hr) as (s1 & E1 & Hr1 & Hn1 & Ho1); [lia..|exact Hpg0|].
      destruct (store_part s1 2 2 HWput_w (u16 v) sz_long Hr1) as (s2 & E2 & Hr2 & Hn2 & Ho2); [lia..|exact Hpg2|].
      rewrite Z.add_0_r in E1. exists s2. split; [apply try_catch_ret|split; [done|]].
      { erewrite xbind_ret by exact E1. by rewrite no_wrap by lia. }
      intros i Hi. change (Z.of_nat 2) with 2 in *. destruct (decide (i < 2)).
      * rewrite Ho2, <-(Z.add_0_l i), Hn1, byte_u16 by lia. unfold byte_of. f_equal.
        change 16 with (8 * 2). rewrite shr_byte by lia. do 2 f_equal. lia.
      * replace i with (2 + (i - 2)) by lia. rewrite Hn2, byte_u16 by lia. unfold byte_of.
        do 3 f_equal. lia.
    + destruct (store_part s 0 1 HWput_b (u8 (v >> 24)) sz_long Hr) as (s1 & E1 & Hr1 & Hn1 & Ho1); [lia..|done|].
      destruct (store_part s1 1 1 HWput_b (u8 (v >> 16)) sz_long Hr1) as (s2 & E2 & Hr2 & Hn2 & Ho2); [lia..|done|].
      destruct (store_part s2 2 1 HWput_b (u8 (v >> 8)) sz_long Hr2) as (s3 & E3 & Hr3 & Hn3 & Ho3); [lia..|done|].
      destruct (store_part s3 3 1 HWput_b (u8 v) sz_long Hr3) as (s4 & E4 & Hr4 & Hn4 & Ho4); [lia..|done|].
      rewrite Z.add_0_r in E1. exists s4. split; [apply try_catch_ret|split; [done|]].
      { erewrite xbind_ret by exact E1. rewrite !no_wrap by lia.
        erewrite xbind_ret by exact E2. erewrite xbind_ret by exact E3. exact E4. }
      change (Z.of_nat 1) with 1 in *. specialize (Hn1 0 ltac:(lia)). specialize (Hn2 0 ltac:(lia)).
      specialize (Hn3 0 ltac:(lia)). specialize (Hn4 0 ltac:(lia)).
      rewrite Z.add_0_r in Hn1, Hn2, Hn3, Hn4.
      intros i Hi. assert (i = 0 ∨ i = 1 ∨ i = 2 ∨ i = 3) as [->|[->|[->| ->]]] by lia.
      * rewrite Ho4, Ho3, Ho2, Hn1 by lia. by apply (byte_u8 v 0).
      * rewrite Ho4, Ho3, Hn2 by lia. by apply (byte_u8 v 1).
      * rewrite Ho4, Hn3 by lia. by apply (byte_u8 v 2).
      * rewrite Hn4 by lia. by apply (byte_u8 v 3).
  - change 4 with (2 ^ 2) in Eu at 1. unfold word32 in *.
    rewrite is_unaligned_spec in Eu by (unfold word32; lia). apply negb_false_iff, Z.eqb_eq in Eu.
    destruct (store_part s 0 4 HWput_l (u32 v) sz_long Hr) as (s1 & E1 & Hr1 & Hn1 & _); [lia..|by rewrite Z.add_0_r|].
    rewrite Z.add_0_r in E1. exists s1. split; [exact E1|]. split; [done|].
    intros i Hi. rewrite <-(Z.add_0_l i), Hn1, u32_small by lia. done.
Qed.

Lemma be_get1 m x : be_get 1 m x = u8 (aget m x).
Proof. cbn [be_get]. rewrite Z.add_0_r. lia. Qed.
Lemma be_get2 m x : be_get 2 m x = u8 (aget m x) * 256 + u8 (aget m (x + 1)).
Proof. cbn [be_get]. rewrite Z.add_0_r. change (Z.of_nat 1) with 1. lia. Qed.

(** Shifting in a byte or a word. *)
Lemma shift_in x n y : 0 <= n → 0 <= x * 2 ^ n < 2 ^ 32 → 0 <= y < 2 ^ n → (x << n) .| y = x * 2 ^ n + y.
Proof.
  intros Hn Hx Hy. rewrite Z.shiftl_mul_pow2, u32_small by done. by apply lor_disjoint_add.
Qed.

Definition long_of (b : Z → Z) : Z := ((b 0 * 256 + b 1) * 256 + b 2) * 256 + b 3.

Lemma shift_in_byte x y : 0 <= x < 2 ^ 24 → 0 <= y < 256 → (x << 8) .| y = x * 256 + y.
Proof. intros. apply (shift_in x 8); [lia| |done]. change (2 ^ 8) with 256. lia. Qed.

Lemma get_long_bytes s : ready r s →
  ∃ s', get_long a s = (Ret (long_of (λ i, u8 (aget s.(mem) (loc a p q i)))), s') ∧ ready r s' ∧
    ∀ i, 0 <= i <= 3 → aget s'.(mem) (loc a p q i) = aget s.(mem) (loc a p q i).
Proof.
  intros Hr. unfold get_long, long_of. set (b := λ i, u8 (aget (mem s) (loc a p q i))).
  assert (∀ i, 0 <= b i < 256) as Hb by (intros i; apply u8_range).
  pose proof (Hb 0). pose proof (Hb 1). pose proof (Hb 2). pose proof (Hb 3).
  pose proof (pl_word _ _ _ _ Hp) as Ha. pose proof (pl_word _ _ _ _ Hq) as Ha3.
  destruct (is_unaligned a 4) eqn:Eu.
  - unfold mmu_get_long_unaligned, long_by_parts. pose proof (unaligned_parts Eu) as Hpg.
    destruct (negb (tst a 1)).
    + destruct Hpg as [Hpg0 Hpg2].
      destruct (load_part s 0 2 HWget_w sz_long Hr) as (s1 & E1 & Hr1 & Ho1 & Hl1); [lia..|exact Hpg0|].
      destruct (load_part s1 2 2 HWget_w sz_long Hr1) as (s2 & E2 & Hr2 & Ho2 & Hl2); [lia..|exact Hpg2|].
      rewrite Z.add_0_r in E1. exists s2. split; [|split; [done|intros i Hi; by rewrite Ho2, Ho1]].
      erewrite xbind_ret by exact E1. apply try_catch_ret. rewrite no_wrap by lia.
      erewrite xbind_ret by exact E2. rewrite !be_get2, !Hl1, !Hl2, !Ho1 by lia.
      change (0 + 1) with 1. change (2 + 1) with 3. change (u8 (aget (mem s) (loc a p q ?i))) with (b i).
      rewrite (shift_in _ 16) by (change (2 ^ 16) with 65536; lia).
      change (2 ^ 16) with 65536. unfold xret. do 2 f_equal. lia.
    + destruct (load_part s 0 1 HWget_b sz_long Hr) as (s1 & E1 & Hr1 & Ho1 & _); [lia..|done|].
      destruct (load_part s1 1 1 HWget_b sz_long Hr1) as (s2 & E2 & Hr2 & Ho2 & _); [lia..|done|].
      destruct (load_part s2 2 1 HWget_b sz_long Hr2) as (s3 & E3 & Hr3 & Ho3 & _); [lia..|done|].
      destruct (load_part s3 3 1 HWget_b sz_long Hr3) as (s4 & E4 & Hr4 & Ho4 & _); [lia..|done|].
      rewrite Z.add_0_r in E1. exists s4. split; [|split; [done|intros i Hi; by rewrite Ho4, Ho3, Ho2, Ho1]].
      erewrite xbind_ret by exact E1. apply try_catch_ret. rewrite !no_wrap by lia.
      erewrite xbind_ret by exact E2. erewrite xbind_ret by exact E3. erewrite xbind_ret by exact E4.
      rewrite !be_get1, Ho3, !Ho2, !Ho1 by lia.
      change (u8 (aget (mem s) (loc a p q ?i))) with (b i). unfold xret. do 2 f_equal.
      rewrite (shift_in_byte (b 0)), (shift_in_byte (_ + b 1)), (shift_in_byte (_ + b 2)) by lia. done.
  - change 4 with (2 ^ 2) in Eu at 1. unfold word32 in *.
    rewrite is_unaligned_spec in Eu by (unfold word32; lia). apply negb_false_iff, Z.eqb_eq in Eu.
    destruct (load_part s 0 4 HWget_l sz_long Hr) as (s1 & E1 & Hr1 & Ho1 & Hl1); [lia..|by rewrite Z.add_0_r|].
    rewrite Z.add_0_r in E1. exists s1. split; [|done]. unfold mmu_get_long. rewrite E1. do 2 f_equal.
    cbn [be_get]. rewrite !Hl1 by lia. by change (u8 (aget (mem s) (loc a p q (0 + Z.of_nat ?i)))) with (b (Z.of_nat i)).
Qed.

Lemma long_of_bytes v : word32 v → long_of (byte_of v) = v.
Proof.
  intros [? ?]. unfold long_of, byte_of, u8. cbn [Z.sub Z.pow_pos].
  change (256 ^ (3 - 0)) with 16777216. change (256 ^ (3 - 1)) with 65536.
  change (256 ^ (3 - 2)) with 256. change (256 ^ (3 - 3)) with 1. Z.to_euclidean_division_equations. lia.
Qed.
End Longs.

(** C23: A longword stored with [put_long] is read back by [get_long], whatever its
    alignment, also when it lies in two pages that are mapped to different places.  Both pages are mapped writable to plain RAM ([plain]) and the four bytes lie outside the
    descriptors; the caches are coherent at the start, the current half is that of the mode ([ready]), the tree describes all addresses and the transparent translation registers for data
    and instructions agree ([described]). *)
Theorem put_get_long r s a p q v :
  ready r s → described T r → plain r r.(sr_s) a p → plain r r.(sr_s) (a + 3) q →
  (∀ i, 0 <= i <= 3 → outside T (loc a p q i)) → word32 v →
  ∃ s', (put_long a v ;; get_long a) s = (Ret v, s') ∧ ready r s'.
Proof.
  intros Hr Hd Hp Hq Ho Hv.
  destruct (put_long_bytes r a p q Hd Hp Hq Ho s v Hr Hv) as (s1 & E1 & Hr1 & Hb).
  destruct (get_long_bytes r a p q Hd Hp Hq Ho s1 Hr1) as (s2 & E2 & Hr2 & _).
  exists s2. split; [|done]. erewrite xbind_ret by exact E1. rewrite E2. do 2 f_equal.
  transitivity (long_of (byte_of v)); [|by apply long_of_bytes]. unfold long_of. rewrite !Hb by lia. unfold byte_of. by rewrite !u8_u8.
Qed.
End Theorems.
