(* ===== verification/MmuErrors.v ===== *)
(** * MmuErrors: access errors and flushing

    - [access_error_frame]: an access that is denied throws a bus error, leaves the
      description of the access in the registers the exception frame is built from,
      and changes neither memory nor devices.
    - [misaligned_load_error], [misaligned_store_error]: the second page of a
      longword is denied.
    - [pflush_all_coherent], [pflush_page_coherent]: after the operating system has
      changed the tables, flushing makes the caches agree with them. *)

From S2P Require Import Prelude Throws Machine MachineSpec Mmu MmuWalk MmuSpec MmuAccess MmuTheorems.
From stdpp Require Import base gmap list numbers.
Open Scope Z_scope.
Open Scope c_scope.
Open Scope x_scope.

Section Errors.
Context {cfg : Config} {ok : ConfigOk} {D : Type} {hwd : Hardware D} (T : tables) {Tok : TablesOk T}.
Implicit Types (s : machine D) (r : regstruct) (a : Z) (super data write : bool).

(** The translation refuses the access, or its target is no RAM. *)
Inductive denied r super data write a : Prop :=
  | denied_refused : t_translate T r super data a = Refused → denied r super data write a
  | denied_protected delta : t_translate T r super data a = Mapped delta true → write = true →
      denied r super data write a
  | denied_boundary delta : allowed T r super data write a delta → ¬ hw_page (u32 (a + delta)) →
      (∀ q, 0 <= q → page_of q = page_of (u32 (a + delta)) → test_ram_boundary q 1 super write = false) →
      denied r super data write a.

Lemma denied_resolves r super data write a t :
  denied r super data write a → resolves T r super data write a t → t = ToFault.
Proof.
  intros Hd Ht. destruct Ht as [delta Hal Hh (q & Hq0 & Hq & Hb)|delta Hal Hh| | |]; [| |done..];
    destruct Hal as (wp & Htr & Hw).
  - destruct Hd as [H|delta' H -> |delta' (wp' & H & _) _ Hr]; [congruence| |].
    + rewrite Htr in H. simplify_eq. by specialize (Hw eq_refl).
    + rewrite Htr in H. simplify_eq. by rewrite Hr in Hb.
  - destruct Hd as [H|delta' H -> |delta' (wp' & H & _) Hn _]; [congruence| |].
    + rewrite Htr in H. simplify_eq. by specialize (Hw eq_refl).
    + rewrite Htr in H. by simplify_eq.
Qed.

Lemma denied_page r super data write a b : word32 a → word32 b → page_of a = page_of b →
  denied r super data write a → denied r super data write b.
Proof.
  intros Ha Hb H [Hd|delta Hd Hw|delta Hd Hh Hr].
  - apply denied_refused. by rewrite <-(t_translate_page T r super data a b).
  - eapply denied_protected; [|done]. by rewrite <-(t_translate_page T r super data a b).
  - destruct (allowed_delta _ _ _ _ _ _ _ Hd) as [H1 H2]. pose proof (target_page a b delta H1 H2 H) as Hp.
    eapply denied_boundary; [by apply (allowed_page T _ _ _ _ a)|by rewrite <-(hw_page_page _ _ Hp)|].
    intros q Hq. rewrite <-Hp. by apply Hr.
Qed.

(** ** The registers after an access error *)

(** Transfer modifier and size of the special status word. *)
Definition frame_word super data (size : wordsizes) : Z :=
  match size with sz_byte => 0x20 | sz_word => 0x40 | sz_long => 0 end
  + (if super then 4 else 0) + (if data then 1 else 2).

Definition load_frame super data size a r : regstruct :=
  set_mmu_ssw (0x400 + 0x100 + frame_word super data size) (set_mmu_fault_addr a (set_wb3_status 0 r)).

Definition store_frame super data size a v r : regstruct :=
  set_mmu_ssw (0x400 + frame_word super data size) (set_mmu_fault_addr a
    (set_wb3_status (0x80 + frame_word super data size) (set_wb3_data v r))).

Lemma load_bus_error {A} a super data size s (k : X (machine D) A) :
  (mmu_bus_error a (mmu_get_fc super data) false size ;; k) s =
  (Throw 2, set_regs (load_frame super data size a s.(regs)) s).
Proof. by destruct super, data, size, s, regs. Qed.

Lemma store_bus_error a super data size v s :
  (mod_regs (set_wb3_data v) ;; mmu_bus_error a (mmu_get_fc super data) true size) s =
  (Throw 2, set_regs (store_frame super data size a v s.(regs)) s).
Proof. by destruct super, data, size, s, regs. Qed.

(** The line of the first level did not belong to a device. *)
Definition no_device s data write a : Prop :=
  (s.(atc_l1) (l1_slot s.(regs).(sr_s) data write (ATC_L1_INDEX a))).(hw) = false.

(** What an access error leaves: the frame, and the rest as it was. *)
Record faulted data write a (f : regstruct → regstruct) s s' : Prop := {
  ft_regs : s'.(regs) = f s.(regs);
  ft_mem : same_mem T s'.(mem) s.(mem);
  ft_dev : s'.(dev) = s.(dev);
  ft_lines : same_lines (l1_slot s.(regs).(sr_s) data write (ATC_L1_INDEX a)) s s';
  ft_l1 : l1_coherent T (λ k, k = l1_slot s.(regs).(sr_s) data write (ATC_L1_INDEX a)) s.(regs) s'.(atc_l1);
  ft_l2 : l2_coherent T s.(regs) s'.(atc_l2);
}.

Lemma faulted_intro r s s1 data write a f :
  let k := l1_slot r.(sr_s) data write (ATC_L1_INDEX a) in
  s.(regs) = r → quiet T s s1 → same_lines k s s1 → coherent T (λ j, none j ∨ j = k) s1 →
  faulted data write a f s (set_regs (f s1.(regs)) s1).
Proof.
  intros k <- Hq Hsl [_ H2 H1]. rewrite (q_regs _ _ _ Hq) in *.
  split; cbn [regs mem dev atc_l1 atc_l2 set_regs]; [done|intros x Hx; by apply Hq|apply Hq|done| |done].
  eapply l1_coherent_mono; [|done]. by intros j [[]|].
Qed.

Lemma load_faults r s n hwget a data size :
  ready T r s → described T r → denied r r.(sr_s) data false a → in_page n a → word32 a →
  no_device s data false a →
  ∃ s', mmu_get n hwget a data size s = (Throw 2, s') ∧
    faulted data false a (load_frame r.(sr_s) data size a) s s'.
Proof.
  intros [Hr Hm Hc] Hd Hden [Hn Hp] Ha Hst. unfold no_device in Hst. rewrite Hr in Hst.
  assert (mmu_get n hwget a data size s = mmu_get_at n hwget r.(sr_s) r.(sr_s) a data size s) as ->.
  { unfold mmu_get. erewrite xbind_ret by done. erewrite xbind_ret by done. by rewrite Hm, Hr. }
  destruct (get_resolves T none s n hwget a r.(sr_s) data size Hn) as (t & s1 & Ht & Hq & Hsl & Hx); try done.
  { by rewrite Hr. } { by intros []. }
  rewrite Hr in Ht. apply (denied_resolves r _ data false a) in Ht as ->; [|done]. destruct Hx as [Hc1 Hres].
  rewrite Hres by (by left). rewrite load_bus_error. eexists. split; [done|].
  by apply (faulted_intro r).
Qed.

Lemma store_faults r s n hwput a v data size :
  ready T r s → described T r → denied r r.(sr_s) data true a → in_page n a → word32 a →
  no_device s data true a →
  ∃ s', mmu_put n hwput a v data size s = (Throw 2, s') ∧
    faulted data true a (store_frame r.(sr_s) data size a v) s s'.
Proof.
  intros [Hr Hm Hc] Hd Hden [Hn Hp] Ha Hst. unfold no_device in Hst. rewrite Hr in Hst.
  assert (mmu_put n hwput a v data size s = mmu_put_at n hwput r.(sr_s) r.(sr_s) a v data size s) as ->.
  { unfold mmu_put. erewrite xbind_ret by done. erewrite xbind_ret by done. by rewrite Hm, Hr. }
  destruct (put_resolves T none s n hwput a v r.(sr_s) data size Hn) as (t & s1 & Ht & Hq & Hsl & Hx); try done.
  { by rewrite Hr. } { by intros []. }
  rewrite Hr in Ht. apply (denied_resolves r _ data true a) in Ht as ->; [|done]. destruct Hx as [Hc1 Hres].
  rewrite Hres by (by left). rewrite store_bus_error. eexists. split; [done|].
  by apply (faulted_intro r).
Qed.

(** The access is denied, lies in one page, and its line was no device line. *)
Definition access_denied r s (x : access) : Prop :=
  match x with
  | Load size data a => denied r r.(sr_s) data false a ∧ in_page (bytes size) a ∧ word32 a ∧ no_device s data false a
  | Store size data a v => denied r r.(sr_s) data true a ∧ in_page (bytes size) a ∧ word32 a ∧ no_device s data true a
  end.

Definition access_frame (x : access) r : regstruct :=
  match x with
  | Load size data a => load_frame r.(sr_s) data size a r
  | Store size data a v => store_frame r.(sr_s) data size a (v mod 256 ^ Z.of_nat (bytes size)) r
  end.

(** C22: A load or store within one page that the translation refuses (page not resident, supervisor page in
    user mode, write to a protected page) or that goes to a page that is no RAM throws
    a bus error; the registers describe the access (address, size, direction, function
    code, and the data of a store), and neither devices nor memory outside the
    descriptors change.  Assumed: the caches are coherent and the current half is that of the mode ([ready]); the tree describes all addresses and the transparent
    translation registers for data and instructions agree ([described]); and the line of the first-level cache the access would use is not one of a
    hardware page: with such a leftover line the code accesses the device instead ([no_device]; see [MmuExample.denied_asks_hardware]). *)
Theorem access_error_frame r s (x : access) :
  ready T r s → described T r → access_denied r s x →
  ∃ s', do_access x s = (Throw 2, s') ∧ s'.(regs) = access_frame x r ∧
    same_mem T s'.(mem) s.(mem) ∧ s'.(dev) = s.(dev).
Proof.
  intros Hr Hd Hx. destruct x as [size data a|size data a v]; destruct Hx as (Hden & Hin & Ha & Hst).
  - destruct size; cbn [do_access bytes access_frame] in *;
      (edestruct load_faults as (s' & E & [Hf Hm Hdv _ _ _]); [exact Hr|exact Hd|exact Hden|exact Hin|exact Ha|exact Hst|]);
      (exists s'; split; [exact E|]); (split; [by rewrite Hf, (rd_regs _ _ _ Hr)|done]).
  - destruct size; cbn [do_access bytes access_frame] in *;
      (edestruct store_faults as (s' & E & [Hf Hm Hdv _ _ _]); [exact Hr|exact Hd|exact Hden|exact Hin|exact Ha|exact Hst|]);
      (exists s'; split; [by erewrite xbind_throw by exact E|]);
      (split; [by rewrite Hf, (rd_regs _ _ _ Hr)|done]).
Qed.

(** ** Longwords whose second page is denied *)

Section Misaligned.
Context (r : regstruct) (a p : Z).
Hypothesis Hd : described T r.
Hypothesis Hp : plain T r r.(sr_s) a p.
Hypothesis Ho : ∀ i, 0 <= i <= 3 → page_of (a + i) = page_of a → outside T (p + i).
Hypothesis Ha3 : word32 (a + 3).
Hypothesis Hcross : page_of (a + 3) ≠ page_of a.

Lemma crosses : is_unaligned a 4 = true.
Proof.
  pose proof (pl_word _ _ _ _ _ Hp) as Ha. unfold word32 in *. change 4 with (2 ^ 2) at 1.
  rewrite is_unaligned_spec by (unfold word32; lia). by apply negb_true_iff, Z.eqb_neq, not_eq_sym.
Qed.

Lemma part_word i : 0 <= i <= 3 → word32 (a + i) ∧ u32 (a + i) = a + i.
Proof. intros Hi. pose proof (pl_word _ _ _ _ _ Hp) as Ha. unfold word32 in *. split; [lia|]. apply u32_small. lia. Qed.

Lemma second_page i : 0 <= i <= 3 → page_of (a + i) ≠ page_of a → page_of (a + 3) = page_of (a + i).
Proof. intros. unfold page_of in *. Z.to_euclidean_division_equations. lia. Qed.

(** Parts of the first page are not cached in the line of the second. *)
Lemma other_slot data write i : page_of (a + i) = page_of a →
  l1_slot r.(sr_s) data write (ATC_L1_INDEX (a + 3)) ≠ l1_slot r.(sr_s) data write (ATC_L1_INDEX (a + i)).
Proof.
  intros Hpg E. apply l1_slot_inj in E as (_ & _ & _ & E); [|apply ATC_L1_INDEX_range..].
  rewrite !ATC_L1_INDEX_div in E. unfold page_of in *. Z.to_euclidean_division_equations. lia.
Qed.

Lemma first_part n i : 0 <= i → (0 < n)%nat → i + Z.of_nat n <= 4 → page_of (a + i) = page_of a →
  in_page n (a + i) → plain T r r.(sr_s) (a + i) (p + i) ∧ away T n (p + i).
Proof.
  intros Hi Hn Hin Hpg [_ Hpn]. destruct (part_word i) as [Hw _]; [lia|]. split.
  - replace (p + i) with (p + (a + i - a)) by lia. by apply plain_same_page.
  - intros x Hx. replace x with (p + (x - p)) by lia. apply Ho; [lia|].
    unfold page_of in *. Z.to_euclidean_division_equations. lia.
Qed.

(** The state in which the parts of the access run. *)
Record started write s0 s : Prop := {
  st_ready : ready T r s;
  st_line : no_device s true write (a + 3);
  st_dev : write = false → same_mem T s.(mem) s0.(mem);
}.

Inductive part {A} (i : Z) write (f : regstruct → regstruct) s0 : xout A * machine D → Prop :=
  | part_done v s' : page_of (a + i) = page_of a → started write s0 s' → part i write f s0 (Ret v, s')
  | part_fault s' : page_of (a + i) ≠ page_of a → s'.(regs) = f r →
      (write = false → same_mem T s'.(mem) s0.(mem)) → part i write f s0 (Throw 2, s').

Lemma load_parts s0 s n hwget i b : denied r r.(sr_s) true false (a + 3) → started false s0 s →
  b = u32 (a + i) → 0 <= i → (0 < n)%nat → i + Z.of_nat n <= 4 → in_page n (a + i) →
  part i false (load_frame r.(sr_s) true sz_long (a + i)) s0 (mmu_get n hwget b true sz_long s).
Proof.
  intros Hden [Hr Hst Hm0] -> Hi Hn Hin Hpn. destruct (part_word i) as [Hw ->]; [lia|]. specialize (Hm0 eq_refl).
  destruct (decide (page_of (a + i) = page_of a)) as [Hpg|Hpg].
  - destruct (first_part n i Hi Hn Hin Hpg Hpn) as [Hpl Haw].
    destruct (load_ready_lines T r s n hwget (a + i) (p + i) true sz_long Hr Hd Hpl Hpn Haw)
      as (s' & -> & Hr' & Hm & Hsl).
    apply part_done; [done|]. split; [done| |intros _; by etrans].
    unfold no_device in *. rewrite (rd_regs _ _ _ Hr), (rd_regs _ _ _ Hr') in *.
    by rewrite Hsl by (by apply other_slot).
  - pose proof (second_page i ltac:(lia) Hpg) as H3.
    destruct (load_faults r s n hwget (a + i) true sz_long Hr Hd) as (s' & -> & [Hf Hm _ _ _ _]); try done.
    + by apply (denied_page r _ _ _ (a + 3)).
    + unfold no_device in *. by rewrite <-(l1_index_page _ _ H3).
    + apply part_fault; [done|by rewrite Hf, (rd_regs _ _ _ Hr)|intros _; by etrans].
Qed.

Lemma store_parts s0 s n hwput i b v : denied r r.(sr_s) true true (a + 3) → started true s0 s →
  b = u32 (a + i) → 0 <= i → (0 < n)%nat → i + Z.of_nat n <= 4 → in_page n (a + i) →
  part i true (store_frame r.(sr_s) true sz_long (a + i) v) s0 (mmu_put n hwput b v true sz_long s).
Proof.
  intros Hden [Hr Hst _] -> Hi Hn Hin Hpn. destruct (part_word i) as [Hw ->]; [lia|].
  destruct (decide (page_of (a + i) = page_of a)) as [Hpg|Hpg].
  - destruct (first_part n i Hi Hn Hin Hpg Hpn) as [Hpl Haw].
    destruct (store_ready_lines T r s n hwput (a + i) (p + i) v true sz_long Hr Hd Hpl Hpn Haw)
      as (s' & -> & Hr' & Hm & Hsl).
    apply part_done; [done|]. split; [done| |done].
    unfold no_device in *. rewrite (rd_regs _ _ _ Hr), (rd_regs _ _ _ Hr') in *.
    by rewrite Hsl by (by apply other_slot).
  - pose proof (second_page i ltac:(lia) Hpg) as H3.
    destruct (store_faults r s n hwput (a + i) v true sz_long Hr Hd) as (s' & -> & [Hf Hm _ _ _ _]); try done.
    + by apply (denied_page r _ _ _ (a + 3)).
    + unfold no_device in *. by rewrite <-(l1_index_page _ _ H3).
    + apply part_fault; [done|by rewrite Hf, (rd_regs _ _ _ Hr)|done].
Qed.

(** The parts of a longword: two words at an even address, four bytes at an odd one. *)
Lemma parts_in_page : if negb (tst a 1) then in_page 2 (a + 0) ∧ in_page 2 (a + 2) ∧ page_of (a + 2) ≠ page_of a
  else ∀ i, 0 <= i <= 3 → in_page 1 (a + i).
Proof.
  destruct (negb (tst a 1)) eqn:E.
  - unfold tst in E. rewrite negb_involutive, Z.eqb_eq, mask_1 in E.
    unfold in_page, page_of in *. change (Z.of_nat 2) with 2. Z.to_euclidean_division_equations. lia.
  - intros i Hi. unfold in_page. split; [lia|]. f_equal. lia.
Qed.

(** The handlers turn the fault of a part into one of the whole longword. *)
Definition misaligned_load_frame super a r : regstruct :=
  set_mmu_ssw (0x800 + 0x400 + 0x100 + frame_word super true sz_long)
    (set_mmu_fault_addr a (set_wb3_status 0 r)).

Definition misaligned_store_frame super a v r : regstruct :=
  set_mmu_ssw (0x800 + 0x400 + frame_word super true sz_long) (set_mmu_fault_addr a
    (set_wb3_status (0x80 + frame_word super true sz_long) (set_wb3_data v r))).

Lemma read_fault_frame {A} s b : s.(regs) = load_frame r.(sr_s) true sz_long b r →
  read_fault (A := A) a 2 s = (Throw 2, set_regs (misaligned_load_frame r.(sr_s) a r) s).
Proof. intros H. destruct s. cbn in H. subst. by destruct r as [? [] ????????????????]. Qed.

Lemma write_fault_frame s v w b : b ≠ a → s.(regs) = store_frame r.(sr_s) true sz_long b w r →
  write_fault a v 2 s = (Throw 2, set_regs (misaligned_store_frame r.(sr_s) a v r) s).
Proof.
  intros Hb H. destruct s. cbn in H. subst. unfold write_fault, xbind, mod_regs, xmod, xget.
  cbn [regs set_regs set_wb3_data store_frame set_mmu_ssw set_mmu_fault_addr set_wb3_status mmu_fault_addr].
  rewrite (proj2 (Z.eqb_neq b a)) by done. by destruct r as [? [] ????????????????].
Qed.

(** Some part of the second page faulted. *)
Definition fails {A} write s0 (res : xout A * machine D) : Prop :=
  ∃ b w s', res = (Throw 2, s') ∧ b ≠ a ∧ (write = false → same_mem T s'.(mem) s0.(mem)) ∧
    s'.(regs) = if write then store_frame r.(sr_s) true sz_long b w r else load_frame r.(sr_s) true sz_long b r.

Definition part_frame write (w b : Z) : regstruct → regstruct :=
  if write then store_frame r.(sr_s) true sz_long b w else load_frame r.(sr_s) true sz_long b.

Lemma part_then {A B} write w i s0 (m : X (machine D) A) (k : A → X (machine D) B) s :
  part i write (part_frame write w (a + i)) s0 (m s) →
  (page_of (a + i) = page_of a → ∀ v s', started write s0 s' → fails write s0 (k v s')) →
  fails write s0 (xbind m k s).
Proof.
  intros H Hk. inversion H as [v s' Hpg Hs E|s' Hpg Hf Hm E].
  - rewrite (xbind_ret _ _ _ _ _ (eq_sym E)). by apply Hk.
  - rewrite (xbind_throw _ _ _ _ _ (eq_sym E)). exists (a + i), w, s'. split; [done|].
    split; [intros Hb; by rewrite Hb in Hpg|]. split; [done|]. rewrite Hf. by destruct write.
Qed.

Lemma part_last write w i s0 (m : X (machine D) unit) s :
  part i write (part_frame write w (a + i)) s0 (m s) → page_of (a + i) ≠ page_of a → fails write s0 (m s).
Proof.
  intros H Hne. inversion H as [v s' Hpg Hs E|s' Hpg Hf Hm E]; [done|]. exists (a + i), w, s'. split; [done|].
  split; [intros Hb; by rewrite Hb in Hpg|]. split; [done|]. rewrite Hf. by destruct write.
Qed.

Lemma start_word : u32 (a + 0) = a.
Proof. destruct (part_word 0) as [_ ->]; lia. Qed.

Ltac part_side := first [lia | done | by rewrite start_word | match goal with H : ∀ i, _ |- _ => by apply H; lia end].

Lemma load_long_fails s : denied r r.(sr_s) true false (a + 3) → started false s s →
  ∃ s', get_long a s = (Throw 2, s') ∧ s'.(regs) = misaligned_load_frame r.(sr_s) a r ∧
    same_mem T s'.(mem) s.(mem).
Proof.
  intros Hden Hst. unfold get_long. rewrite crosses. unfold mmu_get_long_unaligned, long_by_parts.
  pose proof parts_in_page as Hpg.
  assert (∀ (m : X (machine D) Z) s1, fails false s (m s1) →
    ∃ s', try_catch m (read_fault a) s1 = (Throw 2, s') ∧
      s'.(regs) = misaligned_load_frame r.(sr_s) a r ∧ same_mem T s'.(mem) s.(mem)) as Hcatch.
  { intros m s1 (b & w & s' & E & Hb & Hm & Hf). rewrite (try_catch_throw _ _ _ _ _ E), (read_fault_frame s' b Hf).
    eexists. split; [done|]. split; [done|]. by apply Hm. }
  assert (page_of (a + 0) = page_of a) as H0 by (by rewrite Z.add_0_r).
  destruct (negb (tst a 1)).
  - destruct Hpg as (Hp0 & Hp2 & Hne).
    assert (part 0 false (load_frame r.(sr_s) true sz_long (a + 0)) s (mmu_get 2 HWget_w a true sz_long s)) as Hl
      by (apply load_parts; part_side).
    inversion Hl as [v s1 _ Hs E|]; [|done].
    unfold mmu_get_word. rewrite (xbind_ret _ _ _ _ _ (eq_sym E)).
    apply Hcatch. eapply (part_then false 0 2); [apply load_parts; part_side|done].
  - assert (part 0 false (load_frame r.(sr_s) true sz_long (a + 0)) s (mmu_get 1 HWget_b a true sz_long s)) as Hl
      by (apply load_parts; part_side).
    inversion Hl as [v s1 _ Hs E|]; [|done].
    unfold mmu_get_byte. rewrite (xbind_ret _ _ _ _ _ (eq_sym E)). apply Hcatch.
    eapply (part_then false 0 1); [apply load_parts; part_side|]. intros _ v1 s2 Hs2.
    eapply (part_then false 0 2); [apply load_parts; part_side|]. intros _ v2 s3 Hs3.
    eapply (part_then false 0 3); [apply load_parts; part_side|done].
Qed.

Lemma store_long_fails s v : word32 v → denied r r.(sr_s) true true (a + 3) → started true s s →
  ∃ s', put_long a v s = (Throw 2, s') ∧ s'.(regs) = misaligned_store_frame r.(sr_s) a v r.
Proof.
  intros Hv Hden Hst. unfold put_long. rewrite crosses, (u32_small v) by done.
  unfold mmu_put_long_unaligned, put_long_by_parts. pose proof parts_in_page as Hpg.
  assert (∀ (m : X (machine D) unit), fails true s (m s) →
    ∃ s', try_catch m (write_fault a v) s = (Throw 2, s') ∧
      s'.(regs) = misaligned_store_frame r.(sr_s) a v r) as Hcatch.
  { intros m (b & w & s' & E & Hb & Hm & Hf).
    rewrite (try_catch_throw _ _ _ _ _ E), (write_fault_frame s' v w b Hb Hf). by eexists. }
  apply Hcatch. clear Hcatch. unfold mmu_put_word, mmu_put_byte.
  destruct (negb (tst a 1)).
  - destruct Hpg as (Hp0 & Hp2 & Hne).
    eapply (part_then true _ 0); [apply store_parts; part_side|]. intros _ _ s1 Hs1.
    eapply (part_last true _ 2); [apply store_parts; part_side|done].
  - eapply (part_then true _ 0); [apply store_parts; part_side|]. intros _ _ s1 Hs1.
    eapply (part_then true _ 1); [apply store_parts; part_side|]. intros _ _ s2 Hs2.
    eapply (part_then true _ 2); [apply store_parts; part_side|]. intros _ _ s3 Hs3.
    eapply (part_last true _ 3); [apply store_parts; part_side|done].
Qed.
End Misaligned.

(** When the second of the two pages of a longword is denied, [get_long] and
    [put_long] throw a bus error whose frame has the address of the longword, the
    size long and the MA (misaligned) bit, and for a store the whole value. *)
Theorem misaligned_error_frame r s a p v :
  ready T r s → described T r → plain T r r.(sr_s) a p →
  (∀ i, 0 <= i <= 3 → page_of (a + i) = page_of a → outside T (p + i)) →
  word32 (a + 3) → page_of (a + 3) ≠ page_of a → word32 v →
  (denied r r.(sr_s) true false (a + 3) → no_device s true false (a + 3) →
   ∃ s', get_long a s = (Throw 2, s') ∧ s'.(regs) = misaligned_load_frame r.(sr_s) a r ∧
     same_mem T s'.(mem) s.(mem)) ∧
  (denied r r.(sr_s) true true (a + 3) → no_device s true true (a + 3) →
   ∃ s', put_long a v s = (Throw 2, s') ∧ s'.(regs) = misaligned_store_frame r.(sr_s) a v r).
Proof.
  intros Hr Hd Hp Ho Ha3 Hc Hv. split; intros Hden Hst.
  - by apply (load_long_fails r a p).
  - by apply (store_long_fails r a p).
Qed.
End Errors.

(** ** Flushing *)

(** The tag of a flushed line is neither a tag nor the complement of one. *)
Lemma flushed_tag a : word32 a → 0x8000 ≠ ATC_TAG a ∧ 0x8000 ≠ 65535 - ATC_TAG a.
Proof. intros Ha. pose proof (ATC_TAG_range a Ha). lia. Qed.

Section Flush.
Context {cfg : Config} {ok : ConfigOk} {D : Type} {hwd : Hardware D}.
Implicit Types (s : machine D) (r : regstruct) (a : Z) (super data write : bool).
Context (op_illg : Z → X (machine D) unit).

Lemma upto_pages_coherent T K s s' : upto_pages s s' → coherent T K s → coherent T K s'.
Proof. by intros (p & q & ->) []. Qed.

Lemma flush_internals_pages s : ∃ s', flush_internals s = (Ret tt, s') ∧ upto_pages s s'.
Proof.
  unfold flush_internals. destruct ARAM_PAGE_CHECK; cbn [xwhen].
  - eexists. split; [done|]. exists 0xeeeeeeee, 0xeeeeeeee. by destruct s.
  - eexists. split; [done|apply upto_pages_refl].
Qed.

(** C29: PFLUSHA makes the caches agree with the tables in memory, whatever they held. *)
Theorem pflush_all_coherent T n s : 0 <= n < 8 → implements T s.(mem) →
  ∃ s', mmu_op op_illg (0xf518 + n) s = (Ret tt, s') ∧ coherent T none s' ∧
    s'.(regs) = s.(regs) ∧ s'.(mem) = s.(mem) ∧ s'.(dev) = s.(dev).
Proof.
  intros Hn Hi.
  assert (mmu_op op_illg (0xf518 + n) s = (mmu_flush_atc_all true ;; flush_internals) s) as ->.
  { assert (n = 0 ∨ n = 1 ∨ n = 2 ∨ n = 3 ∨ n = 4 ∨ n = 5 ∨ n = 6 ∨ n = 7) as Hc by lia.
    destruct_or! Hc; by subst. }
  set (s1 := (mmu_flush_atc_all true s).2). destruct (flush_internals_pages s1) as (s' & E & Hp).
  exists s'. split; [exact E|].
  assert (coherent T none s1) as Hc.
  { split; [done|intros super a Ha Ht|intros super data write a Ha k _].
    - assert (tag (atc_l2 s1 super (ATC_L2_INDEX a)) = 0x8000) as E8 by done. rewrite E8 in Ht.
      by destruct (proj1 (flushed_tag a Ha)).
    - assert (tag (atc_l1 s1 k) = 0x8000) as -> by done. destruct (flushed_tag a Ha) as [N1 N2]. by split. }
  split; [by eapply upto_pages_coherent|]. by destruct Hp as (? & ? & ->).
Qed.

(** The tables [T'] differ from [T] at most in the page of [addr], for mode [super]. *)
Definition edited (T T' : tables) r super addr : Prop :=
  ∀ super' data a, word32 a → super' ≠ super ∨ page_of a ≠ page_of addr →
    t_translate T r super' data a = t_translate T' r super' data a.

(** The lines of the first level an access error may have spoiled. *)
Definition page_slots super addr (k : Z) : Prop :=
  ∃ data write, k = l1_slot super data write (ATC_L1_INDEX addr).

Section Edit.
Context (T T' : tables) (r : regstruct) (super : bool) (addr : Z).
Hypothesis Haddr : word32 addr.
Hypothesis Hed : edited T T' r super addr.

Lemma edited_l2 (L L' : bool → Z → mmu_atc_line) :
  l2_coherent T r L → (L' super (ATC_L2_INDEX addr)).(tag) = 0x8000 →
  (∀ b i, b ≠ super ∨ i ≠ ATC_L2_INDEX addr → L' b i = L b i) → l2_coherent T' r L'.
Proof.
  intros Hc Hf Ho b a Ha Ht. destruct (decide (b = super ∧ ATC_L2_INDEX a = ATC_L2_INDEX addr)) as [[-> Hi]|Hne].
  { rewrite Hi, Hf in Ht. by destruct (proj1 (flushed_tag a Ha)). }
  assert (b ≠ super ∨ ATC_L2_INDEX a ≠ ATC_L2_INDEX addr) as Hor
    by (destruct (decide (b = super)); [right; intros ?; by apply Hne|by left]).
  rewrite Ho in * by done. destruct (Hc b a Ha Ht) as [Hl Hh]. split; [|done]. intros data.
  specialize (Hl data). rewrite <-Hed; [done|done|]. destruct Hor as [?|Hi]; [by left|right].
  intros Hp. apply Hi. unfold ATC_L2_INDEX. unfold page_of in Hp.
  rewrite !shr_12, Hp, !(Z.shiftr_div_pow2 _ (32 - 12)) by lia. change (32 - 12) with (12 + 8).
  rewrite Z.pow_add_r, <-!Z.div_div by lia. change (2 ^ 12) with 4096. by rewrite Hp.
Qed.

Lemma edited_l1 (L L' : Z → mmu_atc_line) :
  l1_coherent T (page_slots super addr) r L →
  (∀ k, page_slots super addr k → (L' k).(tag) = 0x8000) →
  (∀ k, ¬ page_slots super addr k → L' k = L k) → l1_coherent T' none r L'.
Proof.
  intros Hc Hf Ho b data write a Ha k _.
  assert (page_slots super addr k ∨ ¬ page_slots super addr k) as [Hk|Hk].
  { destruct (decide (b = super ∧ ATC_L1_INDEX a = ATC_L1_INDEX addr)) as [[-> Hi]|Hne].
    - left. exists data, write. unfold k. by rewrite Hi.
    - right. intros (d & w & E). apply l1_slot_inj in E as (-> & _ & _ & Hi); [|apply ATC_L1_INDEX_range..].
      by apply Hne. }
  { rewrite (Hf k Hk). destruct (flushed_tag a Ha) as [N1 N2]. by split. }
  rewrite (Ho k Hk). destruct (Hc b data write a Ha Hk) as [H1 H2].
  assert (∀ delta, allowed T r b data write a delta → allowed T' r b data write a delta) as Hal.
  { intros delta (wp & Htr & Hw). exists wp. split; [|done]. rewrite <-Hed; [done|done|].
    destruct (decide (b = super)) as [->|]; [right|by left]. intros Hp. apply Hk. exists data, write.
    unfold k. by rewrite (l1_index_page _ _ Hp). }
  split; intros Ht.
  - destruct (H1 Ht) as (? & ? & ?). split; [by apply Hal|done].
  - destruct (H2 Ht) as (delta & ? & ?). exists delta. split; [by apply Hal|done].
Qed.
End Edit.

(** What [mmu_flush_atc] does with 4K pages. *)
Lemma flush_page s super addr : s.(regs).(mmu_pagesize_8k) = false →
  ∃ L1 L2, mmu_flush_atc addr super true s = (Ret tt, set_atc_l2 L2 (set_atc_l1 L1 s)) ∧
    (∀ k, page_slots super addr k → (L1 k).(tag) = 0x8000) ∧
    (∀ k, ¬ page_slots super addr k → L1 k = s.(atc_l1) k) ∧
    (L2 super (ATC_L2_INDEX addr)).(tag) = 0x8000 ∧
    (∀ b i, b ≠ super ∨ i ≠ ATC_L2_INDEX addr → L2 b i = s.(atc_l2) b i).
Proof.
  intros H8. pose proof (ATC_L1_INDEX_range addr) as Hi.
  assert (∀ k s, 0 <= k < 2048 → flush_l1 true k s =
    (Ret tt, set_atc_l1 (λ j, if j =? k then set_tag 0x8000 (s.(atc_l1) j) else s.(atc_l1) j) s)) as Hf.
  { intros k s' Hk. unfold flush_l1, in_range. by rewrite (proj2 (Z.leb_le 0 k)), (proj2 (Z.ltb_lt k 2048)) by lia. }
  set (i := ATC_L1_INDEX addr) in *. set (l := l1_slot super false false 0).
  assert (∀ data write, 0 <= l1_slot super data write i < 2048) as Hb.
  { intros [] []; unfold l1_slot; destruct super; cbn [c_bool]; lia. }
  assert (l + i = l1_slot super false false i) as E0 by (unfold l, l1_slot; lia).
  assert (l + 256 + i = l1_slot super false true i) as E1 by (unfold l, l1_slot; cbn [c_bool]; lia).
  assert (l + 2 * 256 + i = l1_slot super true false i) as E2 by (unfold l, l1_slot; cbn [c_bool]; lia).
  assert (l + 3 * 256 + i = l1_slot super true true i) as E3 by (unfold l, l1_slot; cbn [c_bool]; lia).
  unfold mmu_flush_atc. cbv zeta. fold i l. rewrite E0, E1, E2, E3.
  do 4 erewrite xbind_ret by (apply Hf, Hb).
  erewrite xbind_ret by done. cbn [regs set_atc_l1]. rewrite H8. cbn [xwhen].
  erewrite xbind_ret by done. erewrite xbind_ret by done.
  eexists _, _. split; [done|]. cbv beta.
  split; [|split; [|split]].
  - intros k (data & write & ->). fold i. cbn [atc_l1 set_atc_l1].
    destruct data, write; by repeat (case_match; [done|]); rewrite Z.eqb_refl in *.
  - intros k Hk. cbn [atc_l1 set_atc_l1].
    repeat (case_match; [exfalso; apply Hk; eexists _, _; by apply Z.eqb_eq|]). done.
  - by rewrite eqb_reflx, Z.eqb_refl.
  - intros b j Hne. destruct (eqb b super && (j =? _)) eqn:E; [|done].
    apply andb_true_iff in E as [Eb%eqb_prop Ej%Z.eqb_eq]. destruct Hne; done.
Qed.

(** ** Serving a page fault *)

Definition acc_addr (x : access) : Z := match x with Load _ _ a | Store _ _ a _ => a end.

(** The caches agree with [T] but for the lines of the page of [a]. *)
Definition spoiled T r a s : Prop :=
  l2_coherent T r s.(atc_l2) ∧ l1_coherent T (page_slots r.(sr_s) a) r s.(atc_l1).

Lemma fault_spoils T {Tok : TablesOk T} r s x : ready T r s → described T r → access_denied T r s x →
  ∃ s', do_access x s = (Throw 2, s') ∧ spoiled T r (acc_addr x) s'.
Proof.
  intros Hr Hd Hx. pose proof (rd_regs _ _ _ Hr) as Hrs.
  assert (∀ data write a f s', faulted T data write a f s s' → spoiled T r a s') as Hsp.
  { intros data write a f s' [_ _ _ _ H1 H2]. rewrite Hrs in H1, H2. split; [done|].
    eapply l1_coherent_mono; [|exact H1]. intros k ->. by exists data, write. }
  destruct x as [size data a|size data a v]; destruct Hx as (Hden & Hin & Ha & Hst).
  - destruct size; cbn [do_access bytes acc_addr] in *;
      (edestruct (load_faults T) as (s' & E & Hf); [exact Hr|exact Hd|exact Hden|exact Hin|exact Ha|exact Hst|]);
      (exists s'; split; [exact E|by eapply Hsp]).
  - destruct size; cbn [do_access bytes acc_addr] in *;
      (edestruct (store_faults T) as (s' & E & Hf); [exact Hr|exact Hd|exact Hden|exact Hin|exact Ha|exact Hst|]);
      (exists s'; split; [by erewrite xbind_throw by exact E|by eapply Hsp]).
Qed.

(** PFLUSH (An) after an edit of the tables. *)
Lemma pflush_page_coherent T T' r s super addr n :
  edited T T' r super addr → word32 addr → 0 <= n < 8 →
  s.(regs).(m68k_areg) n = addr → tst s.(regs).(dfc) 4 = super → s.(regs).(mmu_pagesize_8k) = false →
  implements T' s.(mem) → l2_coherent T r s.(atc_l2) → l1_coherent T (page_slots super addr) r s.(atc_l1) →
  ∃ s', mmu_op op_illg (0xf508 + n) s = (Ret tt, s') ∧ s'.(regs) = s.(regs) ∧ s'.(mem) = s.(mem) ∧
    l2_coherent T' r s'.(atc_l2) ∧ l1_coherent T' none r s'.(atc_l1).
Proof.
  intros Hed Ha Hn Hareg Hdfc H8 Hi H2 H1.
  assert (mmu_op op_illg (0xf508 + n) s = (mmu_flush_atc addr super true ;; flush_internals) s) as ->.
  { subst addr super. assert (n = 0 ∨ n = 1 ∨ n = 2 ∨ n = 3 ∨ n = 4 ∨ n = 5 ∨ n = 6 ∨ n = 7) as Hc by lia.
    destruct_or! Hc; by subst. }
  destruct (flush_page s super addr H8) as (L1 & L2 & E & Hs & Hns & Hl2 & Hnl2).
  rewrite (xbind_ret _ _ _ _ _ E).
  destruct (flush_internals_pages (set_atc_l2 L2 (set_atc_l1 L1 s))) as (s' & -> & (? & ? & ->)).
  eexists. do 3 (split; [done|]). split.
  - by eapply (edited_l2 T T' r super addr).
  - by eapply (edited_l1 T T' r super addr).
Qed.

(** C12: An access within one page that is denied throws, and can be served: the handler changes the tables for this page in this mode only, so that they map it
    writable to plain RAM, leaves the caches no worse than the fault did ([spoiled]: coherent but for the lines of this page), and flushes the page with PFLUSH, DFC
    selecting the mode of the access, with 4K pages; then, with the registers and the mode of the program restored, the repeated access goes
    through, to the place the new tables say, and the caches are coherent with them.  At the start the caches are coherent and the current half is
    that of the mode ([ready]); old and new tables describe all addresses, with transparent registers for data and instructions that agree ([described]);
    and the cache line of the access holds no device, whose leftover would be accessed instead of the fault ([no_device], in [access_denied]). *)
Theorem page_fault_service T T' {Tok : TablesOk T} {Tok' : TablesOk T'} r s x p n :
  ready T r s → described T r → access_denied T r s x →
  edited T T' r r.(sr_s) (acc_addr x) → described T' r → access_plain T' r (x, p) → 0 <= n < 8 →
  ∃ s1, do_access x s = (Throw 2, s1) ∧ spoiled T r (acc_addr x) s1 ∧
  ∀ s2, spoiled T r (acc_addr x) s2 → implements T' s2.(mem) →
    s2.(regs).(m68k_areg) n = acc_addr x → tst s2.(regs).(dfc) 4 = r.(sr_s) →
    s2.(regs).(mmu_pagesize_8k) = false →
  ∃ s3 s4, mmu_op op_illg (0xf508 + n) s2 = (Ret tt, s3) ∧
    do_access x (set_current_atc r.(sr_s) (set_regs r s3)) = (Ret (flat_access x p s2.(mem)).1, s4) ∧
    ready T' r s4 ∧ same_mem T' s4.(mem) (flat_access x p s2.(mem)).2.
Proof.
  intros Hr Hd Hx Hed Hd' Hpl Hn. destruct (fault_spoils T r s x Hr Hd Hx) as (s1 & E1 & Hs1).
  exists s1. split; [done|]. split; [done|]. intros s2 [H2 H1] Hi Hareg Hdfc H8.
  assert (word32 (acc_addr x)) as Ha by (destruct x; by destruct Hx as (_ & _ & ? & _)).
  destruct (pflush_page_coherent T T' r s2 _ _ n Hed Ha Hn Hareg Hdfc H8 Hi H2 H1) as (s3 & E3 & _ & Hm3 & H23 & H13).
  exists s3. set (s3' := set_current_atc r.(sr_s) (set_regs r s3)).
  assert (ready T' r s3') as Hr3.
  { split; [done|done|]. split; cbn; [by rewrite Hm3|done..]. }
  destruct (flat_step T' r s3' x p s2.(mem) Hr3 Hd' Hpl) as (s4 & E4 & Hr4 & Hm4).
  { intros y _. cbn. by rewrite Hm3. }
  by exists s4.
Qed.
End Flush.
