(* ===== verification/MmuExample.v ===== *)
(** * MmuExample: a machine with translation switched on

    A translation tree in memory, checked by computation, and the theorems of
    [MmuTheorems] and [MmuErrors] applied to it.  Also the places where the caches
    are not transparent, each shown by a run. *)

From S2P Require Import Prelude Throws Machine MachineSpec Mmu MmuWalk MmuSpec MmuAccess MmuTheorems MmuErrors.
From stdpp Require Import base gmap list numbers.
Open Scope Z_scope.
Open Scope c_scope.
Open Scope x_scope.

(** ** Checking trees by computation *)

Definition tables_check (lo hi : Z) (T : tables) : bool :=
  forallb (λ '(A, (k, d)), (A mod 4 =? 0) && (lo <=? A) && (A + 4 <=? hi) && (0 <=? d) && (d <? 2 ^ 32) &&
    match k with KTable => true | KPage => negb (d mod 4 =? 2) | KIndirect => d mod 4 =? 2 end)
  (map_to_list T).

Lemma tables_check_ok lo hi T : tables_check lo hi T = true →
  ∀ A k d, T !! A = Some (k, d) → A mod 4 = 0 ∧ lo <= A ∧ A + 4 <= hi ∧ 0 <= d < 2 ^ 32 ∧
    match k with KTable => True | KPage => d mod 4 ≠ 2 | KIndirect => d mod 4 = 2 end.
Proof.
  intros H A k d HA. unfold tables_check in H. rewrite forallb_forall in H.
  specialize (H (A, (k, d))). apply elem_of_map_to_list, list_elem_of_In in HA. specialize (H HA). cbv beta iota in H.
  rewrite !andb_true_iff, !Z.leb_le, Z.ltb_lt, Z.eqb_eq in H. destruct H as [[[[[? ?] ?] ?] ?] Hk].
  repeat (split; [done|]). destruct k; [done|by apply negb_true_iff, Z.eqb_neq in Hk|by apply Z.eqb_eq].
Qed.

Lemma tables_check_class `{cfg : Config} {ok : ConfigOk} lo hi T : 0x800 <= lo → hi <= 0xe00000 →
  tables_check lo hi T = true → TablesOk T.
Proof.
  intros Hlo Hhi H. pose proof (tables_check_ok lo hi T H) as Ht. split.
  - intros A k d HA. by apply Ht in HA as (? & _).
  - intros A k d HA. apply Ht in HA as (_ & ? & ? & _). left. lia.
  - intros A k d HA. by apply Ht in HA as (_ & _ & _ & ? & _).
  - intros A d HA. by apply Ht in HA as (_ & _ & _ & _ & ?).
  - intros A d HA. by apply Ht in HA as (_ & _ & _ & _ & ?).
Qed.

Lemma tables_check_outside lo hi T x : tables_check lo hi T = true → x < lo ∨ hi <= x → outside T x.
Proof. intros H Hx A k d HA. apply (tables_check_ok lo hi T H) in HA. lia. Qed.

Definition implements_check (T : tables) (m : gmap Z Z) : bool :=
  forallb (λ '(A, (_, d)), be_get 4 m A =? d) (map_to_list T).

Lemma implements_check_ok T m : implements_check T m = true → implements T m.
Proof.
  intros H A k d HA. unfold implements_check in H. rewrite forallb_forall in H.
  specialize (H (A, (k, d))). apply elem_of_map_to_list, list_elem_of_In in HA. specialize (H HA).
  apply Z.eqb_eq in H. rewrite H. by destruct k.
Qed.

(** Every address is described. *)
Definition walk_check (T : tables) (size_8k : bool) (rp : Z) : bool :=
  forallb (λ i, match T !! (rp / 512 * 512 + i * 4) with
    | Some (KTable, root) => negb (Z.testbit root 1) ||
      forallb (λ j, match T !! (root / 512 * 512 + j * 4) with
        | Some (KTable, ptr) => negb (Z.testbit ptr 1) ||
          forallb (λ k, bool_decide (match T !! (if size_8k then ptr / 128 * 128 + k * 4 else ptr / 256 * 256 + k * 4) with
            | Some (KIndirect, i) => t_leaf T root ptr (T !! (i / 4 * 4))
            | e => t_leaf T root ptr e end ≠ Missing)) (seqZ 0 (if size_8k then 32 else 64))
        | _ => false end) (seqZ 0 128)
    | _ => false end) (seqZ 0 128).

Lemma forallb_seqZ f n i : forallb f (seqZ 0 n) = true → 0 <= i < n → f i = true.
Proof. rewrite forallb_forall. intros H Hi. apply H, list_elem_of_In, elem_of_seqZ. lia. Qed.

Lemma walk_check_ok T size_8k rp a : walk_check T size_8k rp = true → t_walk T size_8k rp a ≠ Missing.
Proof.
  intros H. apply (forallb_seqZ _ _ ((a / 2 ^ 25) mod 128)) in H; [|apply Z.mod_pos_bound; lia]. cbv beta in H.
  unfold t_walk, root_entry. destruct (T !! _) as [[[] root]|]; [|done..].
  destruct (Z.testbit root 1); cbn [negb orb] in *; [|done].
  apply (forallb_seqZ _ _ ((a / 2 ^ 18) mod 128)) in H; [|apply Z.mod_pos_bound; lia]. cbv beta in H.
  unfold ptr_entry. destruct (T !! _) as [[[] ptr]|]; [|done..].
  destruct (Z.testbit ptr 1); cbn [negb orb] in *; [|done].
  apply (forallb_seqZ _ _ (if size_8k then (a / 2 ^ 13) mod 32 else (a / 2 ^ 12) mod 64)) in H;
    [|destruct size_8k; apply Z.mod_pos_bound; lia].
  apply bool_decide_eq_true in H. unfold page_entry. by destruct size_8k.
Qed.

(** No transparent registers. *)
Lemma no_ttr r : r.(dtt0) = 0 → r.(dtt1) = 0 → r.(itt0) = 0 → r.(itt1) = 0 →
  ∀ a super data, mmu_match_ttr r a super data = TTR_NO_MATCH.
Proof. intros H0 H1 H2 H3 a super []; unfold mmu_match_ttr; by rewrite ?H0, ?H1, ?H2, ?H3. Qed.

Lemma described_check T r : r.(dtt0) = 0 → r.(dtt1) = 0 → r.(itt0) = 0 → r.(itt1) = 0 →
  word32 r.(urp) → word32 r.(srp) →
  walk_check T r.(mmu_pagesize_8k) r.(urp) = true → walk_check T r.(mmu_pagesize_8k) r.(srp) = true →
  described T r.
Proof.
  intros H0 H1 H2 H3 Hu Hs Wu Ws. pose proof (no_ttr r H0 H1 H2 H3) as Hn. split; [|done..|by intros; rewrite !Hn].
  intros super data a Ha. unfold t_translate. rewrite Hn. destruct (mmu_enabled r); cbn [negb]; [|done].
  pose proof (walk_check_ok T r.(mmu_pagesize_8k) (if super then r.(srp) else r.(urp)) a) as Hw.
  destruct (t_walk _ _ _ a) as [| |d]; [|done|by destruct (negb super && _)].
  destruct Hw; [by destruct super|done].
Qed.

(** Caches with nothing in them. *)
Lemma empty_ready `{cfg : Config} {D} {hwd : Hardware D} (T : tables) r (s : machine D) :
  s.(regs) = r → s.(current_atc) = r.(sr_s) → implements T s.(mem) →
  (∀ k, (s.(atc_l1) k).(tag) = 0x8000) → (∀ b k, (s.(atc_l2) b k).(tag) = 0x8000) → ready T r s.
Proof.
  intros Hr Hc Hi H1 H2. split; [done..|]. split; [done|intros super a Ha Ht|intros super data write a Ha k _].
  - rewrite H2 in Ht. by destruct (proj1 (flushed_tag a Ha)).
  - rewrite H1. destruct (flushed_tag a Ha) as [N1 N2]. by split.
Qed.

(** A page of ST RAM. *)
Lemma st_page `{cfg : Config} {ok : ConfigOk} T r super a p :
  word32 a → (∀ data, t_translate T r super data a = Mapped (u32 (p - a)) false) →
  p mod 4096 = a mod 4096 → 0x1000 <= p < 0xdff000 → plain T r super a p.
Proof.
  intros Ha Hm Hp Hr. destruct ok. split; [done..| | |].
  - unfold word32, hw_page. Z.to_euclidean_division_equations. lia.
  - unfold page_of. Z.to_euclidean_division_equations. lia.
  - intros q write Hq Hpq. assert (0x1000 <= q < 0xe00000).
    { unfold page_of in Hpq. Z.to_euclidean_division_equations. lia. }
    unfold test_ram_boundary. rewrite (proj2 (Z.leb_le q _)) by lia. rewrite (proj2 (Z.ltb_ge q 0x800)), andb_false_r by lia.
    rewrite (proj2 (Z.leb_le 8 q)), (proj2 (Z.leb_le q (0xe00000 - 1))) by lia. by rewrite !orb_true_r.
Qed.

(** ** The machine *)

#[global] Instance ex_cfg : Config := { FastRAM_SIZE := 0; VideoRAMBase := 0xf0000000; ARAM_PAGE_CHECK := true }.
#[global] Instance ex_ok : ConfigOk.
Proof. split; vm_compute; congruence. Qed.
#[global] Instance ex_hw : Hardware unit := [].

(** [n] longwords from [A] on. *)
Definition table (A : Z) (k : dkind) (l : list (Z * Z)) (n : Z) : list (Z * (dkind * Z)) :=
  (λ i, (A + i * 4, (k, default 0 ((list_to_map l : gmap Z Z) !! i)))) <$> seqZ 0 n.

(** Root table, one pointer table, one page table: pages 5 and 6 of the logical
    space are mapped apart from each other, page 8 is write protected, page 9 leads to
    the hardware, page 10 outside RAM; [seven] is the descriptor of page 7.  The user
    space has a root table of its own, with nothing resident. *)
Definition ex_tables (seven : Z) : tables :=
  list_to_map (table 0x10000 KTable [(0, 0x10203)] 128 ++ table 0x10200 KTable [(0, 0x10403)] 128 ++
    table 0x10400 KPage [(5, 0x20001); (6, 0x30001); (7, seven); (8, 0x40005); (9, 0xff8001); (10, 0x8000001)] 64 ++
    table 0x10600 KTable [] 128).

Definition ex_mem (T : tables) : gmap Z Z :=
  foldr (λ '(A, (_, d)) m, be_put 4 A d m) ∅ (map_to_list T).

Definition ex_regs : regstruct :=
  Regs (λ n, if n =? 1 then 0x7010 else 0) true 5 5 0x10600 0x10000 0x8000 true false 0 0 0 0 0 0 0 0 0.

Definition ex_line : mmu_atc_line := Line 0x8000 false false false false false false false false 0.

Definition ex_machine (m : gmap Z Z) : machine unit :=
  Machine ex_regs m (λ _, ex_line) (λ _ _, ex_line) true 0xeeeeeeee 0xeeeeeeee 0 tt.

#[local] Opaque ex_tables ex_mem.
Abbreviation T0 := (ex_tables 0) (only parsing).
Abbreviation T7 := (ex_tables 0x50001) (only parsing).

Lemma T0_check : tables_check 0x10000 0x10800 T0 = true.
Proof. vm_compute. reflexivity. Qed.
Lemma T7_check : tables_check 0x10000 0x10800 T7 = true.
Proof. vm_compute. reflexivity. Qed.
#[global] Instance T0_ok : TablesOk T0.
Proof. apply (tables_check_class 0x10000 0x10800); [lia..|exact T0_check]. Qed.
#[global] Instance T7_ok : TablesOk T7.
Proof. apply (tables_check_class 0x10000 0x10800); [lia..|exact T7_check]. Qed.

Lemma T0_mem : implements T0 (ex_mem T0).
Proof. apply implements_check_ok. vm_compute. reflexivity. Qed.
Lemma T7_mem : implements T7 (ex_mem T7).
Proof. apply implements_check_ok. vm_compute. reflexivity. Qed.

Lemma T0_described : described T0 ex_regs.
Proof. apply described_check; by vm_compute. Qed.
Lemma T7_described : described T7 ex_regs.
Proof. apply described_check; by vm_compute. Qed.

Lemma ex_ready T m : implements T m → ready T ex_regs (ex_machine m).
Proof. intros H. by apply empty_ready. Qed.

Lemma T0_away n p : 0x10800 <= p → away T0 n p.
Proof. intros Hp x Hx. apply (tables_check_outside _ _ _ _ T0_check). lia. Qed.
Lemma T7_away n p : 0x10800 <= p → away T7 n p.
Proof. intros Hp x Hx. apply (tables_check_outside _ _ _ _ T7_check). lia. Qed.

Lemma T0_page5 : plain T0 ex_regs true 0x5ffe 0x20ffe.
Proof. apply st_page; [by vm_compute|by intros []; vm_compute|done|lia]. Qed.
Lemma T0_page6 : plain T0 ex_regs true (0x5ffe + 3) 0x30001.
Proof. apply st_page; [by vm_compute|by intros []; vm_compute|done|lia]. Qed.
Lemma T7_page7 : plain T7 ex_regs true 0x7010 0x50010.
Proof. apply st_page; [by vm_compute|by intros []; vm_compute|done|lia]. Qed.

(** ** The theorems at work *)

Lemma in_page_check n a : (0 <? n)%nat && (page_of (a + Z.of_nat n - 1) =? page_of a) = true → in_page n a.
Proof. intros [H1 H2%Z.eqb_eq]%andb_true_iff. split; [by apply Nat.ltb_lt|done]. Qed.

(** A word is stored in page 5 and read back through page 5. *)
Definition ex_run : list (access * Z) :=
  [(Store sz_word true 0x5ffe 0x1234, 0x20ffe); (Load sz_byte false 0x5fff, 0x20fff); (Load sz_word true 0x5ffe, 0x20ffe)].

Lemma ex_run_plain : Forall (access_plain T0 ex_regs) ex_run.
Proof.
  pose proof T0_page5 as Hp.
  assert (plain T0 ex_regs true 0x5fff 0x20fff) as Hp' by (apply (plain_same_page T0 ex_regs true 0x5ffe 0x20ffe 0x5fff Hp); by vm_compute).
  repeat (apply Forall_cons_2; [split; [assumption|split; [by apply in_page_check|apply T0_away; lia]]|]).
  apply Forall_nil_2.
Qed.

Lemma atc_refines_flat_memory_witness :
  ∃ s', do_accesses ex_run.*1 (ex_machine (ex_mem T0)) = (Ret [0; 0x34; 0x1234], s') ∧ ready T0 ex_regs s'.
Proof.
  destruct (atc_refines_flat_memory T0 ex_regs (ex_machine (ex_mem T0)) ex_run (ex_mem T0)
    (ex_ready _ _ T0_mem) T0_described ex_run_plain ltac:(done)) as (s' & E & Hr & _).
  exists s'. split; [|exact Hr]. rewrite E. f_equal.
Defined.

Lemma put_get_long_witness :
  ∃ s', (put_long 0x5ffe 0xdeadbeef ;; get_long 0x5ffe) (ex_machine (ex_mem T0)) = (Ret 0xdeadbeef, s') ∧
    ready T0 ex_regs s'.
Proof.
  apply (put_get_long T0 ex_regs _ 0x5ffe 0x20ffe 0x30001 0xdeadbeef (ex_ready _ _ T0_mem) T0_described T0_page5 T0_page6);
    [|by vm_compute].
  intros i Hi. apply (tables_check_outside _ _ _ _ T0_check). right. unfold loc. case_match; lia.
Defined.

(** A read of page 7, which is not resident, in a state where its line is empty. *)
Lemma T0_page7_denied : access_denied T0 ex_regs (ex_machine (ex_mem T0)) (Load sz_long true 0x7010).
Proof.
  split; [apply denied_refused; by vm_compute|]. split; [by apply in_page_check|]. split; [by vm_compute|done].
Qed.

Lemma access_error_frame_witness :
  ∃ s', do_access (Load sz_long true 0x7010) (ex_machine (ex_mem T0)) = (Throw 2, s') ∧
    s'.(regs).(mmu_fault_addr) = 0x7010 ∧ s'.(regs).(mmu_ssw) = 0x505.
Proof.
  destruct (access_error_frame T0 ex_regs (ex_machine (ex_mem T0)) (Load sz_long true 0x7010)
    (ex_ready _ _ T0_mem) T0_described T0_page7_denied) as (s' & E & Hr & _).
  exists s'. split; [exact E|]. rewrite Hr. by split.
Defined.

Lemma T0_page6_end : plain T0 ex_regs true 0x6ffe 0x30ffe.
Proof. apply st_page; [by vm_compute|by intros []; vm_compute|done|lia]. Qed.

Lemma misaligned_error_frame_witness :
  (∃ s', get_long 0x6ffe (ex_machine (ex_mem T0)) = (Throw 2, s') ∧ s'.(regs).(mmu_fault_addr) = 0x6ffe) ∧
  (∃ s', put_long 0x6ffe 0x12345678 (ex_machine (ex_mem T0)) = (Throw 2, s') ∧ s'.(regs).(wb3_data) = 0x12345678).
Proof.
  destruct (misaligned_error_frame T0 ex_regs (ex_machine (ex_mem T0)) 0x6ffe 0x30ffe 0x12345678
    (ex_ready _ _ T0_mem) T0_described T0_page6_end) as [Hl Hs].
  - intros i Hi _. apply (tables_check_outside _ _ _ _ T0_check). lia.
  - by vm_compute.
  - by vm_compute.
  - by vm_compute.
  - split.
    + destruct Hl as (s' & E & Hr & _); [apply denied_refused; by vm_compute|reflexivity|].
      exists s'. split; [exact E|]. by rewrite Hr.
    + destruct Hs as (s' & E & Hr); [apply denied_refused; by vm_compute|reflexivity|].
      exists s'. split; [exact E|]. by rewrite Hr.
Defined.

Lemma pflush_all_coherent_witness :
  ∃ s', mmu_op (λ _, throw 4) 0xf518 (ex_machine (ex_mem T7)) = (Ret tt, s') ∧ coherent T7 none s'.
Proof.
  destruct (pflush_all_coherent (λ _, throw 4) T7 0 (ex_machine (ex_mem T7)) ltac:(lia) T7_mem) as (s' & E & Hc & _).
  by exists s'.
Defined.

(** The trees differ in page 7 of the supervisor only. *)
Lemma T7_insert : T7 = <[0x1041c := (KPage, 0x50001)]> T0.
Proof. apply (bool_decide_eq_true_1 _). vm_compute. reflexivity. Qed.

Lemma T0_root i : 0 <= i < 128 →
  T0 !! (0x10000 + i * 4) = Some (KTable, if i =? 0 then 0x10203 else 0) ∧ T0 !! (0x10600 + i * 4) = Some (KTable, 0) ∧
  T0 !! (0x10200 + i * 4) = Some (KTable, if i =? 0 then 0x10403 else 0).
Proof.
  intros Hi. pose proof (forallb_seqZ (λ i, bool_decide (
    T0 !! (0x10000 + i * 4) = Some (KTable, if i =? 0 then 0x10203 else 0) ∧ T0 !! (0x10600 + i * 4) = Some (KTable, 0) ∧
    T0 !! (0x10200 + i * 4) = Some (KTable, if i =? 0 then 0x10403 else 0))) 128 i) as H.
  eapply bool_decide_eq_true, H; [vm_compute; reflexivity|done].
Qed.

Lemma T7_lookup A : A ≠ 0x1041c → T7 !! A = T0 !! A.
Proof. intros H. rewrite T7_insert. by apply lookup_insert_ne. Qed.

Lemma T0_pages k : 0 <= k < 64 → ∃ d, T0 !! (0x10400 + k * 4) = Some (KPage, d).
Proof.
  intros Hk. pose proof (forallb_seqZ (λ k, bool_decide (fst <$> T0 !! (0x10400 + k * 4) = Some KPage)) 64 k) as H.
  specialize (H ltac:(vm_compute; reflexivity) Hk). apply bool_decide_eq_true, fmap_Some in H as ([k' d] & -> & ->).
  by exists d.
Qed.

(** The same for any trees that are so related. *)
Lemma walk_edited (T T' : tables) super a :
  (∀ A, A ≠ 0x1041c → T' !! A = T !! A) →
  (∀ i, 0 <= i < 128 → T !! (0x10000 + i * 4) = Some (KTable, if i =? 0 then 0x10203 else 0) ∧
     T !! (0x10600 + i * 4) = Some (KTable, 0) ∧ T !! (0x10200 + i * 4) = Some (KTable, if i =? 0 then 0x10403 else 0)) →
  (∀ k, 0 <= k < 64 → ∃ d, T !! (0x10400 + k * 4) = Some (KPage, d)) →
  word32 a → super ≠ true ∨ page_of a ≠ 7 →
  t_walk T false (if super : bool then 0x10000 else 0x10600) a = t_walk T' false (if super then 0x10000 else 0x10600) a.
Proof.
  intros Hne7 Htab Hpages Ha Hne.
  unfold t_walk, root_entry. set (i := (a / 2 ^ 25) mod 128). set (j := (a / 2 ^ 18) mod 128).
  assert (0 <= i < 128) as Hi by (apply Z.mod_pos_bound; lia).
  assert (0 <= j < 128) as Hj by (apply Z.mod_pos_bound; lia).
  destruct (Htab i Hi) as (R0 & R1 & _). destruct (Htab j Hj) as (_ & _ & P0).
  destruct super; [change (0x10000 / 512 * 512) with 0x10000|change (0x10600 / 512 * 512) with 0x10600];
    rewrite Hne7 by lia; rewrite ?R0, ?R1; [|done].
  destruct (Z.eqb_spec i 0) as [Hi0|]; [|done]. change (Z.testbit 0x10203 1) with true. cbn [negb].
  unfold ptr_entry. fold j. change (0x10203 / 512 * 512) with 0x10200. rewrite Hne7, P0 by lia.
  destruct (Z.eqb_spec j 0) as [Hj0|]; [|done]. change (Z.testbit 0x10403 1) with true. cbn [negb].
  unfold page_entry. change (0x10403 / 256 * 256) with 0x10400.
  assert ((a / 2 ^ 12) mod 64 ≠ 7) as Hk.
  { intros Hk. destruct Hne as [|Hp]; [done|]. apply Hp. unfold page_of, i, j, word32 in *.
    change (2 ^ 25) with 33554432 in *. change (2 ^ 18) with 262144 in *. change (2 ^ 12) with 4096 in *.
    clear -Hk Hi0 Hj0 Ha. Z.to_euclidean_division_equations. lia. }
  rewrite Hne7 by lia. destruct (Hpages ((a / 2 ^ 12) mod 64)) as (d & ->); [apply Z.mod_pos_bound; lia|done].
Qed.

Lemma T0_T7_edited : edited T0 T7 ex_regs true 0x7010.
Proof.
  intros super data a Ha Hne. pose proof (walk_edited T0 T7 super a T7_lookup T0_root T0_pages Ha Hne) as H.
  generalize dependent T0. generalize dependent T7. intros T1 T2 H. unfold t_translate.
  rewrite (no_ttr ex_regs) by done. cbn [mmu_enabled ex_regs negb mmu_pagesize_8k srp urp]. by rewrite H.
Qed.

Lemma page_fault_service_witness :
  ∃ s1 s3 s4, do_access (Load sz_long true 0x7010) (ex_machine (ex_mem T0)) = (Throw 2, s1) ∧
    mmu_op (λ _, throw 4) 0xf509 (set_mem (ex_mem T7) (set_regs ex_regs s1)) = (Ret tt, s3) ∧
    do_access (Load sz_long true 0x7010) (set_current_atc true (set_regs ex_regs s3)) = (Ret 0, s4) ∧
    ready T7 ex_regs s4.
Proof.
  destruct (page_fault_service (λ _, throw 4) T0 T7 ex_regs (ex_machine (ex_mem T0)) (Load sz_long true 0x7010) 0x50010 1
    (ex_ready _ _ T0_mem) T0_described T0_page7_denied T0_T7_edited T7_described) as (s1 & E1 & Hs1 & Hsrv).
  - split; [exact T7_page7|]. split; [by apply in_page_check|apply T7_away; lia].
  - lia.
  - destruct (Hsrv (set_mem (ex_mem T7) (set_regs ex_regs s1))) as (s3 & s4 & E3 & E4 & Hr & _);
      [exact Hs1|exact T7_mem|reflexivity..|].
    exists s1, s3, s4. split; [exact E1|]. split; [exact E3|]. split; [|exact Hr].
    transitivity (Ret (A := Z) (flat_access (Load sz_long true 0x7010) 0x50010 (ex_mem T7)).1, s4);
      [exact E4|]. f_equal.
Defined.

(** ** Where the caches are not transparent *)

Definition value {S A} (r : xout A * S) : xout A := r.1.

(** An access error flips the tag of whatever line is there.  Page 9 leads to the
    hardware (no device is there, so a read is a bus error), and page 0x109, which is
    not resident, shares its line: after a denied read of that page the line of the
    hardware looks like a hit in RAM, and a read of it returns a value. *)
Definition hw_then_denied : X (machine unit) Z :=
  try_catch (mmu_get_byte 0x9000 true sz_byte) (λ _, xret 0) ;;
  try_catch (mmu_get_byte 0x109000 true sz_byte) (λ _, xret 0) ;;
  mmu_get_byte 0x9000 true sz_byte.

Lemma stale_line_becomes_hit :
  value (mmu_get_byte 0x9000 true sz_byte (ex_machine (ex_mem T0))) = Throw 2 ∧
  value (hw_then_denied (ex_machine (ex_mem T0))) = Ret 0.
Proof. vm_compute. by split. Qed.

(** The denied read itself goes to the hardware, to the address the leftover line makes of it: the fault is the one of the bus, at that address,
    and a device there would have been read. *)
Lemma denied_asks_hardware :
  let s := (try_catch (mmu_get_byte 0x9000 true sz_byte) (λ _, xret 0) (ex_machine (ex_mem T0))).2 in
  let fault (s : machine unit) := ((mmu_get_byte 0x109000 true sz_byte s).2).(regs).(mmu_fault_addr) in
  fault (ex_machine (ex_mem T0)) = 0x109000 ∧ fault s = 0xff8000 + (0x109000 - 0x9000).
Proof. vm_compute. by split. Qed.

Definition with_regs (f : regstruct → regstruct) (s : machine unit) : machine unit := set_regs (f s.(regs)) s.

(** With 8K pages the second group of lines is looked for after the first half of
    [atc_l1], not in the same half: for the supervisor that is outside the array. *)
Lemma flush_8k_out_of_bounds :
  value (mmu_flush_atc 0x5000 true true (with_regs (set_mmu_pagesize_8k true) (ex_machine (ex_mem T0)))) = Undef Oob_atc.
Proof. vm_compute. reflexivity. Qed.

(** ... and for the user the other 4K of the page stay cached. *)
Definition slot_tag (super : bool) (a : Z) (s : machine unit) : Z :=
  (s.(atc_l1) (l1_slot super true false (ATC_L1_INDEX a))).(tag).

Lemma flush_8k_misses_half :
  let s := set_atc_l1 (λ _, set_tag 0 ex_line) (with_regs (set_mmu_pagesize_8k true) (ex_machine (ex_mem T0))) in
  let s' := (mmu_flush_atc 0x5000 false true s).2 in
  slot_tag false 0x5000 s' = 0x8000 ∧ slot_tag false 0x4000 s' = 0 ∧ slot_tag true 0x4000 s' = 0x8000.
Proof. vm_compute. done. Qed.

(** A transparent register for data only: after a data access the line of the second
    level makes the fetch of an instruction from the same page an access error. *)
Definition fetch (a : Z) : X (machine unit) Z := mmu_get_word a false sz_word.

Lemma data_ttr_hides_code :
  let s := with_regs (set_dtt0 0x0000c000) (ex_machine (ex_mem T0)) in
  value (fetch 0x5000 s) = Ret 0 ∧ value ((mmu_get_word 0x5000 true sz_word ;; fetch 0x5000) s) = Throw 2.
Proof. vm_compute. by split. Qed.

(** The protection of the first 2K is decided once for the page: after a user access
    to its other half the supervisor's area is open to the user. *)
Definition user_machine : machine unit :=
  set_current_atc false (set_regs (Regs (λ _, 0) false 1 1 0 0 0 false false 0 0 0 0 0 0 0 0 0) (ex_machine ∅)).

Lemma low_memory_opened :
  value (get_long 0x100 user_machine) = Throw 2 ∧
  value ((get_long 0x900 ;; get_long 0x100) user_machine) = Ret 0.
Proof. vm_compute. by split. Qed.

(** [get_quad] gives the low half of a quadword. *)
Lemma get_quad_truncates :
  value ((put_long 0x5000 1 ;; put_long 0x5004 2 ;; get_quad 0x5000) (ex_machine (ex_mem T0))) = Ret 2.
Proof. vm_compute. reflexivity. Qed.

(** The transparent region of 1 MB at 0xf0000000 covers the RAM at 0 too. *)
Lemma transparent_region_too_wide :
  let r := mmu_make_transparent_region 0xf0000000 0x100000 true ex_regs in
  mmu_match_ttr r 0xf0000000 true true = TTR_NO_MATCH ∧
  mmu_match_ttr r 0xf0000000 false true = TTR_OK_MATCH ∧ mmu_match_ttr r 0 false true = TTR_OK_MATCH.
Proof. vm_compute. done. Qed.
