(* ===== verification/Mfp.v ===== *)
(** * Mfp: the MC68901 multi function peripheral

    Models [src/mfp.cpp] with [include/mfp.h]: the timers, the registers, the input
    port, interrupt requests and the acknowledge cycle; [TriggerMFP]
    ([uae_cpu/aranym_glue.cpp]); the part of [SERVE_VBL_MFP] ([uae_cpu/newcpu.cpp])
    that polls the MFP; and [invoke200HzInterrupt] ([main.cpp]), which feeds timer C.

    The state is the object and what the code reaches from it: the special flags of
    the processor and the two counters of [main.cpp].  The parallel port is not part
    of the file: [parallel] is [Some busy] when it is enabled ([check_pipe], its poll at
    the end of [invoke200HzInterrupt], is left out).  An [int] that overflows is
    [Undef Int_overflow].  [RTC_TIMER] is not defined and no debugger runs. *)

From S2P Require Import Prelude Throws.
From stdpp Require Import base gmap list numbers.
Open Scope Z_scope.
Open Scope c_scope.
Open Scope x_scope.

Abbreviation SPCFLAG_STOP := 0x01 (only parsing).
Abbreviation SPCFLAG_MFP := 0x200 (only parsing).
Abbreviation MFP_VR_VECTOR := 0xF0 (only parsing).
Abbreviation MFP_VR_SEI := 0x08 (only parsing).

Record MFP_Timer := Timer {
  control : Z;
  start_data : Z;
  current_data : Z;
  state : bool;
}.

Definition upd_control (v : Z) (x : MFP_Timer) : MFP_Timer :=
  Timer v x.(start_data) x.(current_data) x.(state).
Definition upd_start_data (v : Z) (x : MFP_Timer) : MFP_Timer :=
  Timer x.(control) v x.(current_data) x.(state).
Definition upd_current_data (v : Z) (x : MFP_Timer) : MFP_Timer :=
  Timer x.(control) x.(start_data) v x.(state).
Definition upd_state (v : bool) (x : MFP_Timer) : MFP_Timer :=
  Timer x.(control) x.(start_data) x.(current_data) v.

Record MFP := Mfp {
  input : Z;
  GPIP_data : Z;
  active_edge : Z;
  data_direction : Z;
  irq_enable : Z;
  irq_pending : Z;
  irq_inservice : Z;
  irq_mask : Z;
  timerA : MFP_Timer;  (* [A] *)
  timerB : MFP_Timer;  (* [B] *)
  timerC : MFP_Timer;  (* [C] *)
  timerD : MFP_Timer;  (* [D] *)
  timerCounter : Z;
  vr : Z;
  cpu_flags : Z;  (* [regs.spcflags] *)
  lastTicks : Z;  (* of [main.cpp] *)
  VBL_counter : Z;  (* of [invoke200HzInterrupt] *)
}.

Definition upd_input (v : Z) (x : MFP) : MFP :=
  Mfp v x.(GPIP_data) x.(active_edge) x.(data_direction) x.(irq_enable) x.(irq_pending)
    x.(irq_inservice) x.(irq_mask) x.(timerA) x.(timerB) x.(timerC) x.(timerD) x.(timerCounter)
    x.(vr) x.(cpu_flags) x.(lastTicks) x.(VBL_counter).
Definition upd_GPIP_data (v : Z) (x : MFP) : MFP :=
  Mfp x.(input) v x.(active_edge) x.(data_direction) x.(irq_enable) x.(irq_pending)
    x.(irq_inservice) x.(irq_mask) x.(timerA) x.(timerB) x.(timerC) x.(timerD) x.(timerCounter)
    x.(vr) x.(cpu_flags) x.(lastTicks) x.(VBL_counter).
Definition upd_active_edge (v : Z) (x : MFP) : MFP :=
  Mfp x.(input) x.(GPIP_data) v x.(data_direction) x.(irq_enable) x.(irq_pending)
    x.(irq_inservice) x.(irq_mask) x.(timerA) x.(timerB) x.(timerC) x.(timerD) x.(timerCounter)
    x.(vr) x.(cpu_flags) x.(lastTicks) x.(VBL_counter).
Definition upd_data_direction (v : Z) (x : MFP) : MFP :=
  Mfp x.(input) x.(GPIP_data) x.(active_edge) v x.(irq_enable) x.(irq_pending) x.(irq_inservice)
    x.(irq_mask) x.(timerA) x.(timerB) x.(timerC) x.(timerD) x.(timerCounter) x.(vr)
    x.(cpu_flags) x.(lastTicks) x.(VBL_counter).
Definition upd_irq_enable (v : Z) (x : MFP) : MFP :=
  Mfp x.(input) x.(GPIP_data) x.(active_edge) x.(data_direction) v x.(irq_pending)
    x.(irq_inservice) x.(irq_mask) x.(timerA) x.(timerB) x.(timerC) x.(timerD) x.(timerCounter)
    x.(vr) x.(cpu_flags) x.(lastTicks) x.(VBL_counter).
Definition upd_irq_pending (v : Z) (x : MFP) : MFP :=
  Mfp x.(input) x.(GPIP_data) x.(active_edge) x.(data_direction) x.(irq_enable) v
    x.(irq_inservice) x.(irq_mask) x.(timerA) x.(timerB) x.(timerC) x.(timerD) x.(timerCounter)
    x.(vr) x.(cpu_flags) x.(lastTicks) x.(VBL_counter).
Definition upd_irq_inservice (v : Z) (x : MFP) : MFP :=
  Mfp x.(input) x.(GPIP_data) x.(active_edge) x.(data_direction) x.(irq_enable) x.(irq_pending)
    v x.(irq_mask) x.(timerA) x.(timerB) x.(timerC) x.(timerD) x.(timerCounter) x.(vr)
    x.(cpu_flags) x.(lastTicks) x.(VBL_counter).
Definition upd_irq_mask (v : Z) (x : MFP) : MFP :=
  Mfp x.(input) x.(GPIP_data) x.(active_edge) x.(data_direction) x.(irq_enable) x.(irq_pending)
    x.(irq_inservice) v x.(timerA) x.(timerB) x.(timerC) x.(timerD) x.(timerCounter) x.(vr)
    x.(cpu_flags) x.(lastTicks) x.(VBL_counter).
Definition upd_timerA (v : MFP_Timer) (x : MFP) : MFP :=
  Mfp x.(input) x.(GPIP_data) x.(active_edge) x.(data_direction) x.(irq_enable) x.(irq_pending)
    x.(irq_inservice) x.(irq_mask) v x.(timerB) x.(timerC) x.(timerD) x.(timerCounter) x.(vr)
    x.(cpu_flags) x.(lastTicks) x.(VBL_counter).
Definition upd_timerB (v : MFP_Timer) (x : MFP) : MFP :=
  Mfp x.(input) x.(GPIP_data) x.(active_edge) x.(data_direction) x.(irq_enable) x.(irq_pending)
    x.(irq_inservice) x.(irq_mask) x.(timerA) v x.(timerC) x.(timerD) x.(timerCounter) x.(vr)
    x.(cpu_flags) x.(lastTicks) x.(VBL_counter).
Definition upd_timerC (v : MFP_Timer) (x : MFP) : MFP :=
  Mfp x.(input) x.(GPIP_data) x.(active_edge) x.(data_direction) x.(irq_enable) x.(irq_pending)
    x.(irq_inservice) x.(irq_mask) x.(timerA) x.(timerB) v x.(timerD) x.(timerCounter) x.(vr)
    x.(cpu_flags) x.(lastTicks) x.(VBL_counter).
Definition upd_timerD (v : MFP_Timer) (x : MFP) : MFP :=
  Mfp x.(input) x.(GPIP_data) x.(active_edge) x.(data_direction) x.(irq_enable) x.(irq_pending)
    x.(irq_inservice) x.(irq_mask) x.(timerA) x.(timerB) x.(timerC) v x.(timerCounter) x.(vr)
    x.(cpu_flags) x.(lastTicks) x.(VBL_counter).
Definition upd_timerCounter (v : Z) (x : MFP) : MFP :=
  Mfp x.(input) x.(GPIP_data) x.(active_edge) x.(data_direction) x.(irq_enable) x.(irq_pending)
    x.(irq_inservice) x.(irq_mask) x.(timerA) x.(timerB) x.(timerC) x.(timerD) v x.(vr)
    x.(cpu_flags) x.(lastTicks) x.(VBL_counter).
Definition upd_vr (v : Z) (x : MFP) : MFP :=
  Mfp x.(input) x.(GPIP_data) x.(active_edge) x.(data_direction) x.(irq_enable) x.(irq_pending)
    x.(irq_inservice) x.(irq_mask) x.(timerA) x.(timerB) x.(timerC) x.(timerD) x.(timerCounter)
    v x.(cpu_flags) x.(lastTicks) x.(VBL_counter).
Definition upd_cpu_flags (v : Z) (x : MFP) : MFP :=
  Mfp x.(input) x.(GPIP_data) x.(active_edge) x.(data_direction) x.(irq_enable) x.(irq_pending)
    x.(irq_inservice) x.(irq_mask) x.(timerA) x.(timerB) x.(timerC) x.(timerD) x.(timerCounter)
    x.(vr) v x.(lastTicks) x.(VBL_counter).
Definition upd_lastTicks (v : Z) (x : MFP) : MFP :=
  Mfp x.(input) x.(GPIP_data) x.(active_edge) x.(data_direction) x.(irq_enable) x.(irq_pending)
    x.(irq_inservice) x.(irq_mask) x.(timerA) x.(timerB) x.(timerC) x.(timerD) x.(timerCounter)
    x.(vr) x.(cpu_flags) v x.(VBL_counter).
Definition upd_VBL_counter (v : Z) (x : MFP) : MFP :=
  Mfp x.(input) x.(GPIP_data) x.(active_edge) x.(data_direction) x.(irq_enable) x.(irq_pending)
    x.(irq_inservice) x.(irq_mask) x.(timerA) x.(timerB) x.(timerC) x.(timerD) x.(timerCounter)
    x.(vr) x.(cpu_flags) x.(lastTicks) v.

(** ** Timers *)

Definition timer_reset (t : MFP_Timer) : MFP_Timer := Timer 0 0 0 false.

Definition isRunning (t : MFP_Timer) : bool := 0 <? (t.(control) .& 0x0f).

Definition setControl (value : Z) (t : MFP_Timer) : MFP_Timer :=
  let t := upd_control (value .& 0x0f) t in
  if tst value 0x10 then upd_state false t else t.

Definition getControl (t : MFP_Timer) : Z := u8 (t.(control) .| Z.shiftl (c_bool t.(state)) 5).

Definition setData (value : Z) (t : MFP_Timer) : MFP_Timer :=
  let t := upd_start_data value t in
  if negb (isRunning t) then upd_current_data value t else t.

Definition resetCounter (t : MFP_Timer) : MFP_Timer :=
  if isRunning t then upd_current_data t.(start_data) (upd_state true t) else t.

Definition getData (t : MFP_Timer) : Z * MFP_Timer :=
  let t := if isRunning t && (2 <? t.(current_data)) then upd_current_data (t.(current_data) - 1) t else t in
  (t.(current_data), t).

Definition MFP_FREQ : Z := 2457600.

Definition compute_timer_freq (t : MFP_Timer) : Z :=
  let freq := MFP_FREQ / (match t.(control) with
    | 1 => 4 | 2 => 10 | 3 => 16 | 4 => 50 | 5 => 64 | 6 => 100 | 7 => 200 | _ => 64 end) in
  if negb (t.(start_data) =? 0) then freq / t.(start_data) else freq / 192.

(** ** The chip *)

Local Abbreviation M := (X MFP).

Definition TriggerMFP (enable : bool) : M unit :=
  if enable then xmod (λ x, upd_cpu_flags (x.(cpu_flags) .| SPCFLAG_MFP) x)
  else xmod (λ x, upd_cpu_flags (Z.ldiff x.(cpu_flags) SPCFLAG_MFP) x).

Definition mfp_reset : M unit := xmod (λ x,
  Mfp 0xff 0xff 0 0 0 0 0 0 (timer_reset x.(timerA)) (timer_reset x.(timerB)) (timer_reset x.(timerC))
    (timer_reset x.(timerD)) 0 0x0100 x.(cpu_flags) x.(lastTicks) x.(VBL_counter)).

(** [irq_pending & irq_mask] as a condition. *)
Definition unmasked (x : MFP) : bool := tst x.(irq_pending) x.(irq_mask).

Definition IRQ (int_level count : Z) : M unit :=
  let i := Z.shiftl 1 int_level in
  xwhen (int_level =? 5) (xmod (λ x, upd_timerC (resetCounter x.(timerC)) x)) ;;
  let* x := xget id in
  if (x.(irq_enable) .& i) =? 0 then xret tt else
  xwhen (int_level =? 5)
    (let* n := int_result (x.(timerCounter) + count) in xmod (upd_timerCounter n)) ;;
  if tst x.(irq_pending) i then xret tt else
  xmod (λ x, upd_irq_pending (u16 (x.(irq_pending) .| i)) x) ;;
  if negb (tst x.(irq_mask) i) then xret tt else
  if i <? x.(irq_inservice) then xret tt else
  TriggerMFP true.

(** Line [j] of the port and its interrupt: [map_gpip_to_ier]. *)
Definition map_gpip_to_ier : list (Z * Z) :=
  [(0, 0); (1, 1); (2, 2); (3, 3); (4, 6); (5, 7); (6, 14); (7, 15)].

Definition set_active_edge (value : Z) : M unit :=
  xfor map_gpip_to_ier (λ '(j, level),
    let i := Z.shiftl 1 j in
    let* x := xget id in
    xwhen (negb ((x.(active_edge) .& i) =? (value .& i)) && negb (tst x.(data_direction) i)
           && negb ((x.(active_edge) .& i) =? (x.(input) .& i)))
      (IRQ level 1)) ;;
  xmod (upd_active_edge value).

Definition setGPIPbit (mask value : Z) : M unit :=
  let mask := mask .& 0xff in
  let* oldGPIP := xget GPIP_data in
  xmod (λ x, upd_input (Z.ldiff x.(input) mask .| (value .& mask)) x) ;;
  let* ddr := xget data_direction in
  let mask := Z.ldiff mask ddr in
  xmod (λ x, upd_GPIP_data ((Z.ldiff x.(GPIP_data) mask .| (value .& mask)) .& 0xff) x) ;;
  xfor map_gpip_to_ier (λ '(j, level),
    let i := Z.shiftl 1 j in
    let* x := xget id in
    if (oldGPIP .& i) =? (x.(GPIP_data) .& i) then xret tt
    else if tst x.(active_edge) i
    then if tst oldGPIP i then xret tt else IRQ level 1
    else if tst x.(GPIP_data) i then xret tt else IRQ level 1).

(** The loop of [doInterrupt]: the highest bit of [x] below [n]. *)
Fixpoint highest (n : nat) (x : Z) : option Z :=
  match n with
  | O => None
  | S k => if tst x (Z.shiftl 1 (Z.of_nat k)) then Some (Z.of_nat k) else highest k x
  end.

Definition doInterrupt : M Z :=
  let* x := xget id in
  match highest 16 (x.(irq_pending) .& x.(irq_mask)) with
  | None => TriggerMFP false ;; xret 0
  | Some j =>
    let i := Z.shiftl 1 j in
    if i <=? x.(irq_inservice) then TriggerMFP false ;; xret 0 else
    let vector := (x.(vr) .& MFP_VR_VECTOR) + j in
    let* over := (if negb (j =? 5) then xret true else
      let* n := int_result (x.(timerCounter) - 1) in
      xmod (upd_timerCounter n) ;; xret (n <=? 0)) in
    xwhen over (xmod (λ x, upd_irq_pending (Z.ldiff x.(irq_pending) i) x) ;; TriggerMFP false) ;;
    (if tst x.(vr) MFP_VR_SEI then xmod (λ x, upd_irq_inservice (u16 (x.(irq_inservice) .| i)) x)
     else let* x := xget id in xwhen (unmasked x) (TriggerMFP true)) ;;
    xret vector
  end.

Definition timerC_ms_ticks : M Z :=
  let* t := xget timerC in
  let freq := compute_timer_freq t in
  if freq =? 0 then xundef Div_by_zero else xret (Z.quot 1000 freq).

(** ** The registers *)

Section Registers.
Context (HWoffset HWsize : Z).

(** A read that changes a timer. *)
Definition read_timer (get : MFP → MFP_Timer) (put : MFP_Timer → MFP → MFP) : M Z :=
  let* t := xget get in
  let '(v, t) := getData t in
  xmod (put t) ;; xret v.

Definition mfp_handleRead (parallel : option Z) (addr : Z) : M Z :=
  let addr := addr -u HWoffset in
  if HWsize <? addr then xret 0 else
  let* x := xget id in
  match addr with
  | 0x01 => xret (u8 (Z.ldiff x.(GPIP_data) 0x21 .| default 0x01 parallel))
  | 0x03 => xret x.(active_edge)
  | 0x05 => xret x.(data_direction)
  | 0x07 => xret (u8 (x.(irq_enable) >> 8))
  | 0x09 => xret (u8 x.(irq_enable))
  | 0x0b => xret 0x20
  | 0x0d => xret (u8 x.(irq_pending))
  | 0x0f => xret (u8 (x.(irq_inservice) >> 8))
  | 0x11 => xret (u8 x.(irq_inservice))
  | 0x13 => xret (u8 (x.(irq_mask) >> 8))
  | 0x15 => xret (u8 x.(irq_mask))
  | 0x17 => xret (u8 x.(vr))
  | 0x19 => xret (getControl x.(timerA))
  | 0x1b => xret (getControl x.(timerB))
  | 0x1d => xret (u8 (Z.shiftl (getControl x.(timerC)) 4 .| getControl x.(timerD)))
  | 0x1f => read_timer timerA upd_timerA
  | 0x21 => read_timer timerB upd_timerB
  | 0x23 => read_timer timerC upd_timerC
  | 0x25 => read_timer timerD upd_timerD
  | 0x2d => xret 0x80
  | _ => xret 0
  end.

Definition mfp_handleWrite (addr value : Z) : M unit :=
  let addr := addr -u HWoffset in
  if HWsize <? addr then xret tt else
  match addr with
  | 0x01 => xmod (λ x, upd_GPIP_data (Z.ldiff x.(GPIP_data) x.(data_direction) .| (value .& x.(data_direction))) x)
  | 0x03 => set_active_edge value
  | 0x05 =>
      xmod (upd_data_direction value) ;;
      xmod (λ x, upd_GPIP_data ((x.(GPIP_data) .& x.(data_direction)) .| Z.ldiff x.(input) x.(data_direction)) x)
  | 0x07 =>
      xmod (λ x, upd_irq_enable ((x.(irq_enable) .& 0x00ff) .| Z.shiftl value 8) x) ;;
      xmod (λ x, upd_irq_pending (x.(irq_pending) .& x.(irq_enable)) x)
  | 0x09 =>
      xmod (λ x, upd_irq_enable ((x.(irq_enable) .& 0xff00) .| value) x) ;;
      xmod (λ x, upd_irq_pending (x.(irq_pending) .& x.(irq_enable)) x)
  | 0x0b =>
      xmod (λ x, upd_irq_pending (x.(irq_pending) .& (Z.shiftl value 8 .| 0xff)) x) ;;
      let* x := xget id in xwhen (negb (unmasked x)) (TriggerMFP false)
  | 0x0d =>
      xmod (λ x, upd_irq_pending (x.(irq_pending) .& (0xff00 .| value)) x) ;;
      let* x := xget id in xwhen (negb (unmasked x)) (TriggerMFP false)
  | 0x0f =>
      xmod (λ x, upd_irq_inservice (x.(irq_inservice) .& (Z.shiftl value 8 .| 0xff)) x) ;;
      let* x := xget id in xwhen (unmasked x) (TriggerMFP true)
  | 0x11 =>
      xmod (λ x, upd_irq_inservice (x.(irq_inservice) .& (0xff00 .| value)) x) ;;
      let* x := xget id in xwhen (unmasked x) (TriggerMFP true)
  | 0x13 =>
      xmod (λ x, upd_irq_mask ((x.(irq_mask) .& 0x00ff) .| Z.shiftl value 8) x) ;;
      let* x := xget id in TriggerMFP (unmasked x)
  | 0x15 =>
      xmod (λ x, upd_irq_mask ((x.(irq_mask) .& 0xff00) .| value) x) ;;
      let* x := xget id in TriggerMFP (unmasked x)
  | 0x17 =>
      xmod (upd_vr value) ;;
      if tst value MFP_VR_SEI then xret tt else
      xmod (upd_irq_inservice 0) ;;
      let* x := xget id in TriggerMFP (unmasked x)
  | 0x19 => xmod (λ x, upd_timerA (setControl value x.(timerA)) x)
  | 0x1b => xmod (λ x, upd_timerB (setControl value x.(timerB)) x)
  | 0x1d =>
      xmod (λ x, upd_timerC (setControl (value >> 4) x.(timerC)) x) ;;
      xmod (λ x, upd_timerD (setControl (value .& 0x0f) x.(timerD)) x)
  | 0x1f => xmod (λ x, upd_timerA (setData value x.(timerA)) x)
  | 0x21 => xmod (λ x, upd_timerB (setData value x.(timerB)) x)
  | 0x23 => xmod (λ x, upd_timerC (setData value x.(timerC)) x)
  | 0x25 => xmod (λ x, upd_timerD (setData value x.(timerD)) x)
  | _ => xret tt
  end.
End Registers.

(** ** The processor's side *)

(** The last part of [SERVE_VBL_MFP]: the vector of the exception taken, 0 if none. *)
Definition serve_MFP (intmask : Z) (resetStop : bool) : M Z :=
  let* x := xget id in
  if negb (tst x.(cpu_flags) SPCFLAG_MFP) then xret 0 else
  if negb (intmask <? 6) then xret 0 else
  let* vector_number := doInterrupt in
  (if negb (vector_number =? 0) then
     xwhen resetStop (xmod (λ x, upd_cpu_flags (Z.ldiff x.(cpu_flags) SPCFLAG_STOP) x))
   else xmod (λ x, upd_cpu_flags (Z.ldiff x.(cpu_flags) SPCFLAG_MFP) x)) ;;
  xret vector_number.

(** [newTicks] is the clock of the host in milliseconds; [scc_IRQ] is the interrupt
    of the serial controller and [do_vbl_irq] the vertical blank. *)
Definition invoke200HzInterrupt (scc_IRQ do_vbl_irq : M unit) (newTicks : Z) : M unit :=
  let* ms_ticks := timerC_ms_ticks in
  let* last := xget lastTicks in
  xwhen (last =? 0) (xmod (upd_lastTicks (newTicks -u ms_ticks))) ;;
  let* last := xget lastTicks in
  if ms_ticks =? 0 then xundef Div_by_zero else
  let count := s32 (u32 (newTicks - last) / ms_ticks) in
  if count =? 0 then xret tt else
  let* milliseconds := int_result (count * ms_ticks) in
  xmod (λ x, upd_lastTicks (u32 (x.(lastTicks) + milliseconds)) x) ;;
  IRQ 5 count ;;
  scc_IRQ ;;
  let* x := xget id in
  let* n := int_result (x.(VBL_counter) + milliseconds) in
  xmod (upd_VBL_counter n) ;;
  if 20 <=? n then xmod (upd_VBL_counter (n - 20)) ;; do_vbl_irq else xret tt.
