(* ===== verification/MfpSpec.v ===== *)
(** * MfpSpec: no interrupt is lost

    [mfp_ok] is the invariant of the chip: registers keep their widths, only enabled
    interrupts are pending, input lines show the input, and whenever a pending
    unmasked interrupt has priority over those in service the processor's flag is
    up.  Every operation keeps it, so the processor never misses a request
    ([mfp_invariant]); the acknowledge cycle takes the most urgent request
    ([acknowledge_takes_highest]); with automatic end of interrupt all requests are
    served, in order of priority ([drain_serves_all]); a request is made exactly by
    the active edges of the port ([port_edges_request]). *)

From S2P Require Import Prelude Throws Mfp.
From stdpp Require Import base gmap list numbers.
Open Scope Z_scope.
Open Scope c_scope.
Open Scope x_scope.

Implicit Types (x : MFP).

(** ** Widths *)

Definition wd (n z : Z) : Prop := 0 <= z < 2 ^ n.

Lemma wd_land_l n a b : 0 <= n → wd n a → wd n (a .& b).
Proof. apply land_range_l. Qed.
Lemma wd_land_r n a b : 0 <= n → wd n b → wd n (a .& b).
Proof. apply land_range_r. Qed.
Lemma wd_lor n a b : 0 <= n → wd n a → wd n b → wd n (a .| b).
Proof. apply lor_range. Qed.
Lemma wd_ldiff n a b : 0 <= n → wd n a → wd n (Z.ldiff a b).
Proof. intros Hn Ha. apply bits_range; [done|]. intros i Hi. by rewrite Z.ldiff_spec, (range_bits a n). Qed.
Lemma wd_shl8 a : wd 8 a → wd 16 (Z.shiftl a 8).
Proof. unfold wd. rewrite Z.shiftl_mul_pow2 by lia. change (2 ^ 8) with 256. change (2 ^ 16) with 65536. lia. Qed.
Lemma wd_8_16 a : wd 8 a → wd 16 a.
Proof. unfold wd. change (2 ^ 8) with 256. change (2 ^ 16) with 65536. lia. Qed.
Lemma wd_u16 a : wd 16 (u16 a).
Proof. apply u16_range. Qed.
Lemma wd_bit n k : 0 <= k < n → wd n (Z.shiftl 1 k).
Proof. intros Hk. unfold wd. rewrite Z.shiftl_1_l. split; [lia|]. apply Z.pow_lt_mono_r; lia. Qed.
Lemma wd_const n c : (0 <=? c) && (c <? 2 ^ n) = true → wd n c.
Proof. intros [?%Z.leb_le ?%Z.ltb_lt]%andb_true_iff. by split. Qed.

Create HintDb wd.
#[export] Hint Resolve wd_lor wd_ldiff wd_shl8 wd_8_16 wd_u16 : wd.
#[export] Hint Extern 2 (wd _ (_ .& _)) => apply wd_land_l; [lia|] : wd.
#[export] Hint Extern 3 (wd _ (_ .& _)) => apply wd_land_r; [lia|] : wd.
#[export] Hint Extern 1 (0 <= _) => lia : wd.
#[export] Hint Extern 1 (wd _ _) => (by apply wd_const) : wd.

(** ** The invariant *)

(** No pending unmasked interrupt with priority is hidden from the processor. *)
Definition signalled (pending mask inservice flags : Z) : Prop :=
  ∀ j, 0 <= j < 16 → Z.testbit pending j = true → Z.testbit mask j = true → inservice < 2 ^ j →
    Z.testbit flags 9 = true.

Record timer_ok (t : MFP_Timer) : Prop := {
  to_control : wd 4 t.(control);
  to_start : wd 8 t.(start_data);
  to_current : wd 8 t.(current_data);
}.

Record mfp_ok x : Prop := {
  ok_input : wd 8 x.(input);
  ok_gpip : wd 8 x.(GPIP_data);
  ok_edge : wd 8 x.(active_edge);
  ok_ddr : wd 8 x.(data_direction);
  ok_enable : wd 16 x.(irq_enable);
  ok_pending : wd 16 x.(irq_pending);
  ok_inservice : wd 16 x.(irq_inservice);
  ok_mask : wd 16 x.(irq_mask);
  ok_vr : wd 9 x.(vr);
  ok_A : timer_ok x.(timerA);
  ok_B : timer_ok x.(timerB);
  ok_C : timer_ok x.(timerC);
  ok_D : timer_ok x.(timerD);
  ok_enabled : Z.ldiff x.(irq_pending) x.(irq_enable) = 0;
  ok_port : Z.ldiff x.(GPIP_data) x.(data_direction) = Z.ldiff x.(input) x.(data_direction);
  ok_signalled : signalled x.(irq_pending) x.(irq_mask) x.(irq_inservice) x.(cpu_flags);
}.

(** *** Flags *)

Lemma signalled_up p m i f : signalled p m i (f .| 0x200).
Proof. intros j _ _ _ _. by rewrite Z.lor_spec, orb_true_r. Qed.

Lemma signalled_none p m i f : p .& m = 0 → signalled p m i f.
Proof.
  intros H j _ Hp Hm _. apply (f_equal (λ z, Z.testbit z j)) in H.
  by rewrite Z.land_spec, Hp, Hm, Z.bits_0 in H.
Qed.

(** Fewer requests, or more in service. *)
Lemma signalled_less p p' m i i' f :
  (∀ j, 0 <= j < 16 → Z.testbit p' j = true → Z.testbit p j = true) → i <= i' →
  signalled p m i f → signalled p' m i' f.
Proof. intros Hp Hi H j Hj Hp' Hm Hi'. apply (H j Hj); [by apply Hp|done|lia]. Qed.

Lemma signalled_land p m i f c : signalled p m i f → signalled (p .& c) m i f.
Proof. apply signalled_less; [|lia]. intros j _. rewrite Z.land_spec. by destruct (Z.testbit p j). Qed.

(** Everything pending is at most as urgent as what is in service. *)
Lemma signalled_busy p m i f : (∀ j, 0 <= j < 16 → Z.testbit p j = true → Z.testbit m j = true → 2 ^ j <= i) →
  signalled p m i f.
Proof. intros H j Hj Hp Hm Hi. specialize (H j Hj Hp Hm). lia. Qed.

Lemma tst_land a b : tst a b = negb (a .& b =? 0).
Proof. done. Qed.

Lemma unmasked_false x : unmasked x = false → x.(irq_pending) .& x.(irq_mask) = 0.
Proof. unfold unmasked, tst. by rewrite negb_false_iff, Z.eqb_eq. Qed.

(** [TriggerMFP(irq_pending & irq_mask)] establishes the invariant of the flag. *)
Definition set_flag (b : bool) x : MFP :=
  upd_cpu_flags (if b then x.(cpu_flags) .| 0x200 else Z.ldiff x.(cpu_flags) 0x200) x.

Lemma TriggerMFP_eq b x : TriggerMFP b x = (Ret tt, set_flag b x).
Proof. by destruct b. Qed.

Lemma set_flag_ok b x : mfp_ok (set_flag true x) → (b = false → x.(irq_pending) .& x.(irq_mask) = 0) →
  mfp_ok (set_flag b x).
Proof. destruct b; [done|]. intros [] H. split; try done. by apply signalled_none, H. Qed.

(** The invariant but for the flag. *)
Definition mfp_quiet x : Prop := mfp_ok (set_flag true x).

Lemma mfp_ok_quiet x : mfp_ok x → mfp_quiet x.
Proof. intros []. split; try done. apply signalled_up. Qed.

Lemma quiet_ok x : mfp_quiet x → signalled x.(irq_pending) x.(irq_mask) x.(irq_inservice) x.(cpu_flags) → mfp_ok x.
Proof. by intros []. Qed.

(** ** Timers *)

Lemma timer_reset_ok t : timer_ok (timer_reset t).
Proof. split; by apply wd_const. Qed.

Lemma resetCounter_ok t : timer_ok t → timer_ok (resetCounter t).
Proof. intros []. unfold resetCounter. by destruct (isRunning t). Qed.

Lemma setControl_ok v t : timer_ok t → timer_ok (setControl v t).
Proof.
  intros []. unfold setControl. assert (wd 4 (v .& 0x0f)) by (apply wd_land_r; [lia|by apply wd_const]).
  by destruct (tst v 0x10).
Qed.

Lemma setData_ok v t : wd 8 v → timer_ok t → timer_ok (setData v t).
Proof. intros Hv []. unfold setData. by destruct (negb _). Qed.

Lemma getData_ok t : timer_ok t → timer_ok (getData t).2 ∧ wd 8 (getData t).1.
Proof.
  intros [Hc Hs Hd]. unfold getData. destruct (isRunning t && (2 <? current_data t)) eqn:E; [|by split].
  apply andb_true_iff in E as [_ E%Z.ltb_lt]. unfold wd in *. cbn. split; [split|]; cbn; unfold wd; lia.
Qed.

(** ** Requests *)

Lemma tst_shiftl a k : 0 <= k → tst a (Z.shiftl 1 k) = Z.testbit a k.
Proof. intros Hk. apply tst_pow; [done|]. by rewrite Z.shiftl_1_l. Qed.

Lemma bit_spec k j : 0 <= k → Z.testbit (Z.shiftl 1 k) j = (j =? k).
Proof.
  intros Hk. rewrite Z.shiftl_1_l, Z.eqb_sym. by apply Z.pow2_bits_eqb.
Qed.

(** The requests after one more. *)
Lemma or_bit_spec p k j : 0 <= k < 16 → 0 <= j < 16 →
  Z.testbit (u16 (p .| Z.shiftl 1 k)) j = Z.testbit p j || (j =? k).
Proof.
  intros Hk Hj. unfold u16. change 65536 with (2 ^ 16).
  by rewrite Z.mod_pow2_bits_low, Z.lor_spec, bit_spec by lia.
Qed.

Lemma or_bit_wd p k : 0 <= k < 16 → wd 16 p → u16 (p .| Z.shiftl 1 k) = p .| Z.shiftl 1 k.
Proof. intros Hk Hp. apply u16_small, (wd_lor 16); [lia|done|by apply wd_bit]. Qed.

Lemma request_quiet x k : mfp_ok x → 0 <= k < 16 → Z.testbit x.(irq_enable) k = true →
  mfp_quiet (upd_irq_pending (u16 (x.(irq_pending) .| Z.shiftl 1 k)) x).
Proof.
  intros [] Hk He. split; try done; cbn; [apply wd_u16| |apply signalled_up].
  rewrite or_bit_wd by done. apply Z.bits_inj_0. intros j.
  apply (f_equal (λ z, Z.testbit z j)) in ok_enabled0. rewrite Z.bits_0, Z.ldiff_spec in ok_enabled0.
  rewrite Z.ldiff_spec, Z.lor_spec, bit_spec by lia. destruct (Z.eqb_spec j k) as [->|]; [by rewrite He, andb_false_r|].
  by rewrite orb_false_r.
Qed.

Lemma request_signalled x k : mfp_ok x → 0 <= k < 16 →
  Z.testbit x.(irq_mask) k = false ∨ 2 ^ k < x.(irq_inservice) →
  signalled (u16 (x.(irq_pending) .| Z.shiftl 1 k)) x.(irq_mask) x.(irq_inservice) x.(cpu_flags).
Proof.
  intros Hx Hk Hor j Hj Hp Hm Hi. rewrite or_bit_spec in Hp by done.
  destruct (Z.eqb_spec j k) as [->|]; [destruct Hor; [congruence|lia]|].
  rewrite orb_false_r in Hp. by apply (ok_signalled x Hx j).
Qed.

Lemma upd_timerC_ok t x : mfp_ok x → timer_ok t → mfp_ok (upd_timerC t x).
Proof. by intros [] ?. Qed.
Lemma upd_counter_ok n x : mfp_ok x → mfp_ok (upd_timerCounter n x).
Proof. by intros []. Qed.

Lemma IRQ_keeps level count : 0 <= level < 16 → xkeeps mfp_ok (IRQ level count).
Proof.
  intros Hl. unfold IRQ. apply xkeeps_bind.
  { apply xkeeps_when, xkeeps_mod. intros x Hx. apply upd_timerC_ok; [done|]. apply resetCounter_ok, Hx. }
  intros _. apply xkeeps_look. intros x Hx. unfold id.
  destruct (_ =? 0) eqn:Ee; [done|].
  assert (Z.testbit x.(irq_enable) level = true) as He.
  { rewrite <-tst_shiftl by lia. unfold tst. by rewrite Ee. }
  assert (∀ x', mfp_ok x' → x'.(irq_enable) = x.(irq_enable) → x'.(irq_pending) = x.(irq_pending) →
    x'.(irq_mask) = x.(irq_mask) → x'.(irq_inservice) = x.(irq_inservice) →
    match (if tst x.(irq_pending) (Z.shiftl 1 level) then xret tt else
      xmod (λ x, upd_irq_pending (u16 (x.(irq_pending) .| Z.shiftl 1 level)) x) ;;
      if negb (tst x.(irq_mask) (Z.shiftl 1 level)) then xret tt else
      if Z.shiftl 1 level <? x.(irq_inservice) then xret tt else TriggerMFP true) x'
    with (Undef _, _) => True | (_, s') => mfp_ok s' end) as Hrest.
  { intros x' Hx' E1 E2 E3 E4. destruct (tst (irq_pending x) _); [done|].
    erewrite xbind_ret by done. rewrite !tst_shiftl by lia. rewrite <-E1 in He.
    pose proof (request_quiet x' level Hx' Hl He) as Hq.
    destruct (Z.testbit (irq_mask x) level) eqn:Em; cbn [negb].
    - destruct (Z.ltb_spec (Z.shiftl 1 level) (irq_inservice x)) as [Hlt|]; [|done].
      apply quiet_ok; [done|]. apply (request_signalled x' level); [done..|]. right. by rewrite <-Z.shiftl_1_l, E4.
    - apply quiet_ok; [done|]. apply (request_signalled x' level); [done..|]. left. by rewrite E3. }
  destruct (level =? 5); cbn [xwhen]; [|by apply Hrest].
  unfold int_result. destruct (in_range _ _ _); [|done].
  by apply (Hrest (upd_timerCounter (x.(timerCounter) + count) x)); [apply upd_counter_ok|..].
Qed.

(** Lines of the port request valid interrupts. *)
Lemma map_gpip_level j level : (j, level) ∈ map_gpip_to_ier → 0 <= j < 8 ∧ 0 <= level < 16.
Proof.
  unfold map_gpip_to_ier. rewrite !elem_of_cons, elem_of_nil. intros H.
  repeat (destruct H as [H|H]; [simplify_eq; lia|]). done.
Qed.

Lemma upd_edge_ok v x : wd 8 v → mfp_ok x → mfp_ok (upd_active_edge v x).
Proof. by intros ? []. Qed.

Lemma set_active_edge_keeps v : wd 8 v → xkeeps mfp_ok (set_active_edge v).
Proof.
  intros Hv. unfold set_active_edge. xkeeps_step; [|apply xkeeps_mod; intros x Hx; by apply upd_edge_ok].
  apply xkeeps_for. intros [j level] Hin. apply map_gpip_level in Hin as [_ Hl]. xkeeps.
  by apply IRQ_keeps.
Qed.

(** The port after an input changed. *)
Lemma port_ok m v x : wd 8 m → mfp_ok x → let m' := Z.ldiff m x.(data_direction) in
  mfp_ok (upd_GPIP_data ((Z.ldiff x.(GPIP_data) m' .| (v .& m')) .& 0xff)
    (upd_input (Z.ldiff x.(input) m .| (v .& m)) x)).
Proof.
  intros Hm [] m'. assert (wd 8 m') by eauto with wd. split; try done; cbn; [eauto 8 with wd..|].
  apply Z.bits_inj'. intros i Hi. apply (f_equal (λ z, Z.testbit z i)) in ok_port0. revert ok_port0.
  rewrite !Z.ldiff_spec, Z.land_spec, !Z.lor_spec, !Z.land_spec, !Z.ldiff_spec.
  unfold m'. rewrite Z.ldiff_spec. change 0xff with (Z.ones 8). rewrite Z.testbit_ones_nonneg by lia.
  destruct (Z.ltb_spec i 8); [|rewrite (range_bits m 8), (range_bits (input x) 8), (range_bits (GPIP_data x) 8) by done;
    by destruct (Z.testbit v i), (Z.testbit (data_direction x) i)].
  destruct (Z.testbit (data_direction x) i), (Z.testbit m i), (Z.testbit v i), (Z.testbit (GPIP_data x) i),
    (Z.testbit (input x) i); done.
Qed.

Lemma setGPIPbit_keeps mask v : xkeeps mfp_ok (setGPIPbit mask v).
Proof.
  intros x Hx. unfold setGPIPbit. do 4 erewrite xbind_ret by done.
  apply (xkeeps_for mfp_ok).
  - intros [j level] Hin. apply map_gpip_level in Hin as [_ Hl]. xkeeps; by apply IRQ_keeps.
  - apply (port_ok (mask .& 0xff) v x); [eauto with wd|done].
Qed.

(** ** The acknowledge cycle *)

Lemma highest_some n z j : highest n z = Some j →
  0 <= j < Z.of_nat n ∧ Z.testbit z j = true ∧ ∀ k, j < k < Z.of_nat n → Z.testbit z k = false.
Proof.
  induction n as [|n IH]; [done|]. cbn [highest]. rewrite tst_shiftl by lia.
  destruct (Z.testbit z (Z.of_nat n)) eqn:E; intros H; simplify_eq.
  - split; [lia|]. split; [done|]. intros k Hk. lia.
  - destruct (IH H) as (Hj & Hb & Hk). split; [lia|]. split; [done|]. intros k Hkn.
    destruct (decide (k = Z.of_nat n)) as [->|]; [done|]. apply Hk. lia.
Qed.

Lemma highest_none n z : highest n z = None → ∀ k, 0 <= k < Z.of_nat n → Z.testbit z k = false.
Proof.
  induction n as [|n IH]; intros H k Hk; [lia|]. cbn [highest] in H. rewrite tst_shiftl in H by lia.
  destruct (Z.testbit z (Z.of_nat n)) eqn:E; [done|].
  destruct (decide (k = Z.of_nat n)) as [->|]; [done|]. apply IH; [done|lia].
Qed.

Lemma highest_none_zero x : mfp_ok x → highest 16 (x.(irq_pending) .& x.(irq_mask)) = None →
  x.(irq_pending) .& x.(irq_mask) = 0.
Proof.
  intros Hx H. apply Z.bits_inj_0. intros k. destruct (decide (0 <= k)); [|by rewrite Z.testbit_neg_r by lia].
  destruct (decide (k < 16)); [by apply (highest_none 16)|].
  rewrite Z.land_spec, (range_bits _ 16) by (apply Hx || lia). done.
Qed.

(** After the most urgent request has been taken, in service at least as urgent. *)
Lemma taken_busy x j p : highest 16 (x.(irq_pending) .& x.(irq_mask)) = Some j →
  (∀ k, 0 <= k < 16 → Z.testbit p k = true → Z.testbit x.(irq_pending) k = true) →
  ∀ i, 2 ^ j <= i → ∀ k, 0 <= k < 16 → Z.testbit p k = true → Z.testbit x.(irq_mask) k = true → 2 ^ k <= i.
Proof.
  intros (Hj & _ & Hhi)%highest_some Hp i Hi k Hk Hpk Hmk.
  assert (k <= j) as Hkj.
  { destruct (decide (j < k)) as [Hlt|]; [|lia]. specialize (Hhi k ltac:(lia)).
    rewrite Z.land_spec, (Hp k Hk Hpk), Hmk in Hhi. done. }
  assert (2 ^ k <= 2 ^ j) by (apply Z.pow_le_mono_r; lia). lia.
Qed.

Lemma lor_ge a b : 0 <= a → 0 <= b → b <= a .| b.
Proof. intros Ha Hb. pose proof (Z.lor_nonneg a b). rewrite <-(Z.add_0_l b) at 1.
  assert (a .| b = Z.ldiff a b + b) as ->.
  { rewrite Z.add_nocarry_lxor.
    - apply Z.bits_inj'. intros i Hi. rewrite Z.lor_spec, Z.lxor_spec, Z.ldiff_spec.
      by destruct (Z.testbit a i), (Z.testbit b i).
    - apply Z.bits_inj'. intros i Hi. rewrite Z.land_spec, Z.ldiff_spec, Z.bits_0.
      by destruct (Z.testbit a i), (Z.testbit b i). }
  assert (0 <= Z.ldiff a b) by (apply Z.ldiff_nonneg; lia). lia.
Qed.

(** The three ends of the cycle. *)
Definition idle_end x : MFP := set_flag false x.

Definition taken (over : bool) (j : Z) x : MFP :=
  let x := if over then set_flag false (upd_irq_pending (Z.ldiff x.(irq_pending) (Z.shiftl 1 j)) x) else x in
  if tst x.(vr) 0x08 then upd_irq_inservice (u16 (x.(irq_inservice) .| Z.shiftl 1 j)) x
  else if unmasked x then set_flag true x else x.

Lemma doInterrupt_none x : highest 16 (x.(irq_pending) .& x.(irq_mask)) = None →
  doInterrupt x = (Ret 0, idle_end x).
Proof. intros H. unfold doInterrupt. erewrite xbind_ret by done. unfold id. by rewrite H. Qed.

Lemma doInterrupt_busy x j : highest 16 (x.(irq_pending) .& x.(irq_mask)) = Some j →
  2 ^ j <= x.(irq_inservice) → doInterrupt x = (Ret 0, idle_end x).
Proof.
  intros H Hi. unfold doInterrupt. erewrite xbind_ret by done. unfold id. rewrite H. cbv zeta.
  by rewrite Z.shiftl_1_l, (proj2 (Z.leb_le (2 ^ j) _)).
Qed.

(** The state in which request [j] is taken, and whether it is over. *)
Definition counted j x : MFP := if j =? 5 then upd_timerCounter (x.(timerCounter) - 1) x else x.
Definition is_over j x : bool := negb (j =? 5) || (x.(timerCounter) - 1 <=? 0).

Lemma doInterrupt_taken x j : highest 16 (x.(irq_pending) .& x.(irq_mask)) = Some j →
  x.(irq_inservice) < 2 ^ j →
  doInterrupt x =
  if negb (j =? 5) || in_range (- 2 ^ 31) (2 ^ 31) (x.(timerCounter) - 1)
  then (Ret ((x.(vr) .& 0xF0) + j), taken (is_over j x) j (counted j x)) else (Undef Int_overflow, x).
Proof.
  intros H Hi. unfold doInterrupt. erewrite xbind_ret by done. unfold id. rewrite H. cbv zeta.
  assert ((Z.shiftl 1 j <=? x.(irq_inservice)) = false) as -> by (rewrite Z.shiftl_1_l; by apply Z.leb_gt).
  unfold is_over, counted. destruct (j =? 5); cbn [negb orb].
  - unfold int_result. destruct (in_range _ _ _); [|done]. unfold taken.
    unfold xbind at 1 2 3, xmod, xret. destruct (x.(timerCounter) - 1 <=? 0); cbn [xwhen].
    + erewrite xbind_ret by done. cbn [vr set_flag upd_cpu_flags upd_irq_pending upd_timerCounter].
      destruct (tst (vr x) 8); [done|]. unfold xbind, xget, id. by destruct (unmasked _).
    + erewrite xbind_ret by done. cbn [vr upd_timerCounter].
      destruct (tst (vr x) 8); [done|]. unfold xbind, xget, id. by destruct (unmasked _).
  - erewrite xbind_ret by done. cbn [xwhen]. unfold taken. erewrite xbind_ret by done.
    cbn [vr set_flag upd_cpu_flags upd_irq_pending].
    destruct (tst (vr x) 8); [done|]. unfold xbind, xget, id. by destruct (unmasked _).
Qed.

Lemma quiet_flag b x : mfp_quiet x → mfp_quiet (set_flag b x).
Proof. intros []. split; try done. apply signalled_up. Qed.

Lemma idle_ok x : mfp_ok x → (∀ j, highest 16 (x.(irq_pending) .& x.(irq_mask)) = Some j → 2 ^ j <= x.(irq_inservice)) →
  mfp_ok (idle_end x).
Proof.
  intros Hx Hj. apply quiet_ok; [by apply quiet_flag, mfp_ok_quiet|]. cbn.
  destruct (highest 16 _) as [j|] eqn:E; [|by apply signalled_none, highest_none_zero].
  apply signalled_busy. by eapply taken_busy; [exact E| |apply Hj].
Qed.

(** Removing a request and lowering the flag leaves the rest of the invariant. *)
Lemma remove_quiet j x : mfp_ok x → mfp_quiet (set_flag false (upd_irq_pending (Z.ldiff x.(irq_pending) (Z.shiftl 1 j)) x)).
Proof.
  intros []. split; try done; cbn; [eauto with wd| |apply signalled_up].
  apply Z.bits_inj_0. intros i. apply (f_equal (λ z, Z.testbit z i)) in ok_enabled0.
  rewrite Z.bits_0, Z.ldiff_spec in ok_enabled0. rewrite !Z.ldiff_spec.
  by destruct (Z.testbit (irq_pending x) i), (Z.testbit (irq_enable x) i), (Z.testbit (Z.shiftl 1 j) i).
Qed.

Lemma taken_ok over j x : mfp_ok x → highest 16 (x.(irq_pending) .& x.(irq_mask)) = Some j →
  mfp_ok (taken over j x).
Proof.
  intros Hx Hh. destruct (highest_some _ _ _ Hh) as (Hj & _ & _).
  assert (∀ p, (∀ k, 0 <= k < 16 → Z.testbit p k = true → Z.testbit x.(irq_pending) k = true) → ∀ f,
    signalled p x.(irq_mask) (u16 (x.(irq_inservice) .| Z.shiftl 1 j)) f) as Hbusy.
  { intros p Hp f. apply signalled_busy. eapply taken_busy; [exact Hh|exact Hp|].
    rewrite or_bit_wd by (apply Hx || done). rewrite Z.shiftl_1_l. apply lor_ge; [apply Hx|lia]. }
  unfold taken. set (y := if over then _ else x).
  assert (mfp_quiet y) as Hy by (unfold y; destruct over; [by apply remove_quiet|by apply mfp_ok_quiet]).
  assert (∀ k, 0 <= k < 16 → Z.testbit y.(irq_pending) k = true → Z.testbit x.(irq_pending) k = true) as Hp.
  { intros k Hk. unfold y. destruct over; [|done]. cbn. rewrite Z.ldiff_spec. by destruct (Z.testbit (irq_pending x) k). }
  assert (y.(irq_inservice) = x.(irq_inservice) ∧ y.(irq_mask) = x.(irq_mask)) as [E1 E2] by (unfold y; by destruct over).
  destruct (tst (vr y) 8).
  - apply quiet_ok.
    + destruct Hy. split; try done; cbn; [apply wd_u16|apply signalled_up].
    + cbn. rewrite E1, E2. by apply Hbusy.
  - destruct (unmasked y) eqn:Eu; [exact Hy|]. apply quiet_ok; [done|]. by apply signalled_none, unmasked_false.
Qed.

Lemma doInterrupt_keeps : xkeeps mfp_ok doInterrupt.
Proof.
  intros x Hx. destruct (highest 16 (x.(irq_pending) .& x.(irq_mask))) as [j|] eqn:E.
  - destruct (decide (2 ^ j <= x.(irq_inservice))) as [Hi|Hi].
    + rewrite (doInterrupt_busy x j E Hi). apply idle_ok; [done|]. intros k Hk. by simplify_eq.
    + rewrite (doInterrupt_taken x j E) by lia. destruct (negb _ || _); [|done].
      unfold counted. destruct (j =? 5); apply taken_ok; try done. by apply upd_counter_ok.
  - rewrite (doInterrupt_none x E). apply idle_ok; [done|]. by rewrite E.
Qed.

(** ** The registers *)

Section Registers.
Context (off size : Z).

Lemma read_timer_keeps get put : (∀ x, mfp_ok x → timer_ok (get x)) →
  (∀ t x, timer_ok t → mfp_ok x → mfp_ok (put t x)) → xkeeps mfp_ok (read_timer get put).
Proof.
  intros Hg Hp x Hx. unfold read_timer, xbind, xget. pose proof (getData_ok (get x) (Hg x Hx)) as [Ht _].
  destruct (getData (get x)) as [v t]. by apply Hp.
Qed.

Lemma handleRead_keeps parallel addr : xkeeps mfp_ok (mfp_handleRead off size parallel addr).
Proof.
  unfold mfp_handleRead. cbv zeta. apply xkeeps_if; [apply xkeeps_ret|].
  apply xkeeps_bind; [apply xkeeps_get|intros y].
  repeat case_match; first [apply xkeeps_ret | apply read_timer_keeps; [by intros x []|by intros t x ? []]].
Qed.

(** What writing each group of registers does to the invariant. *)
Lemma write_data_ok v x : wd 8 v → mfp_ok x →
  mfp_ok (upd_GPIP_data (Z.ldiff x.(GPIP_data) x.(data_direction) .| (v .& x.(data_direction))) x).
Proof.
  intros Hv []. split; try done; cbn; [eauto with wd|].
  apply Z.bits_inj'. intros i Hi. apply (f_equal (λ z, Z.testbit z i)) in ok_port0. revert ok_port0.
  rewrite !Z.ldiff_spec, Z.lor_spec, Z.ldiff_spec, Z.land_spec.
  by destruct (Z.testbit (GPIP_data x) i), (Z.testbit (data_direction x) i), (Z.testbit v i).
Qed.

Lemma write_direction_ok v x : wd 8 v → mfp_ok x →
  mfp_ok (upd_GPIP_data ((x.(GPIP_data) .& v) .| Z.ldiff x.(input) v) (upd_data_direction v x)).
Proof.
  intros Hv []. split; try done; cbn; [eauto with wd|].
  apply Z.bits_inj'. intros i Hi. rewrite !Z.ldiff_spec, Z.lor_spec, Z.ldiff_spec, Z.land_spec.
  by destruct (Z.testbit (GPIP_data x) i), (Z.testbit v i), (Z.testbit (input x) i).
Qed.

Lemma write_enable_ok e x : wd 16 e → mfp_ok x →
  mfp_ok (upd_irq_pending (x.(irq_pending) .& e) (upd_irq_enable e x)).
Proof.
  intros He []. split; try done; cbn; [eauto with wd| |by apply signalled_land].
  apply Z.bits_inj_0. intros i. rewrite Z.ldiff_spec, Z.land_spec.
  by destruct (Z.testbit (irq_pending x) i), (Z.testbit e i).
Qed.

Lemma write_pending_ok c x : mfp_ok x → mfp_ok (upd_irq_pending (x.(irq_pending) .& c) x).
Proof.
  intros []. split; try done; cbn; [eauto with wd| |by apply signalled_land].
  apply Z.bits_inj_0. intros i. apply (f_equal (λ z, Z.testbit z i)) in ok_enabled0. revert ok_enabled0.
  rewrite Z.bits_0, !Z.ldiff_spec, Z.land_spec.
  by destruct (Z.testbit (irq_pending x) i), (Z.testbit (irq_enable x) i), (Z.testbit c i).
Qed.

Lemma write_inservice_quiet c x : wd 16 c → mfp_ok x → mfp_quiet (upd_irq_inservice c x).
Proof. intros Hc []. split; try done. apply signalled_up. Qed.

Lemma write_mask_quiet c x : wd 16 c → mfp_ok x → mfp_quiet (upd_irq_mask c x).
Proof. intros Hc []. split; try done. apply signalled_up. Qed.

Lemma write_vr_ok v x : wd 8 v → mfp_ok x → mfp_ok (upd_vr v x).
Proof. intros Hv []. split; try done. unfold wd in *. cbn. change (2 ^ 9) with 512. change (2 ^ 8) with 256 in *. lia. Qed.

(** A change of the registers followed by the update of the flag. *)
Lemma trigger_keeps f : (∀ x, mfp_ok x → mfp_quiet (f x)) →
  xkeeps mfp_ok (xmod f ;; let* x := xget id in TriggerMFP (unmasked x)).
Proof.
  intros Hf x Hx. specialize (Hf x Hx). erewrite xbind_ret by done. erewrite xbind_ret by done.
  rewrite TriggerMFP_eq. apply set_flag_ok; [done|apply unmasked_false].
Qed.

Lemma raise_keeps f : (∀ x, mfp_ok x → mfp_quiet (f x)) →
  xkeeps mfp_ok (xmod f ;; let* x := xget id in xwhen (unmasked x) (TriggerMFP true)).
Proof.
  intros Hf x Hx. specialize (Hf x Hx). erewrite xbind_ret by done. erewrite xbind_ret by done. unfold id.
  destruct (unmasked (f x)) eqn:E; [done|]. apply quiet_ok; [done|]. by apply signalled_none, unmasked_false.
Qed.

Lemma lower_keeps f : (∀ x, mfp_ok x → mfp_ok (f x)) →
  xkeeps mfp_ok (xmod f ;; let* x := xget id in xwhen (negb (unmasked x)) (TriggerMFP false)).
Proof.
  intros Hf x Hx. specialize (Hf x Hx). erewrite xbind_ret by done. erewrite xbind_ret by done. unfold id.
  destruct (unmasked (f x)) eqn:E; [done|]. cbn [negb xwhen]. rewrite TriggerMFP_eq.
  apply set_flag_ok; [by apply mfp_ok_quiet|]. intros _. by apply unmasked_false.
Qed.

Lemma handleWrite_keeps addr v : wd 8 v → xkeeps mfp_ok (mfp_handleWrite off size addr v).
Proof.
  intros Hv. unfold mfp_handleWrite. cbv zeta. apply xkeeps_if; [apply xkeeps_ret|].
  repeat case_match; try apply xkeeps_ret; try (by apply set_active_edge_keeps);
    try (apply xkeeps_mod; intros x []; split; try done; by first [apply setControl_ok|apply setData_ok]);
    try (apply trigger_keeps; intros x Hx; apply write_mask_quiet; [destruct Hx; cbn; solve [eauto with wd]|done]);
    try (apply lower_keeps; intros x Hx; by apply write_pending_ok);
    try (apply raise_keeps; intros x Hx; apply write_inservice_quiet; [destruct Hx; cbn; solve [eauto with wd]|done]);
    try (intros x Hx; apply (write_enable_ok _ x); [destruct Hx; cbn; solve [eauto with wd]|done]).
  - apply xkeeps_bind; [apply xkeeps_mod; intros x Hx; by apply write_vr_ok|intros _; apply xkeeps_ret].
  - apply xkeeps_bind; [apply xkeeps_mod; intros x Hx; by apply write_vr_ok|intros _].
    apply trigger_keeps. intros x Hx. apply write_inservice_quiet; [by apply wd_const|done].
  - intros x Hx. apply (write_direction_ok v x Hv Hx).
  - apply xkeeps_mod. intros x Hx. by apply write_data_ok.
Qed.
End Registers.

(** *** Polling *)

Lemma flags_ok f x : mfp_ok x → (Z.testbit x.(cpu_flags) 9 = true → Z.testbit f 9 = true) → mfp_ok (upd_cpu_flags f x).
Proof. intros [] Hf. split; try done. intros j Hj Hp Hm Hi. by eapply Hf, ok_signalled0. Qed.

(** A cycle that gives no vector leaves nothing to signal. *)
Lemma no_vector x y : mfp_ok x → doInterrupt x = (Ret 0, y) → mfp_ok (set_flag false y).
Proof.
  intros Hx E. pose proof (doInterrupt_keeps x Hx) as Hy. rewrite E in Hy.
  apply quiet_ok; [by apply quiet_flag, mfp_ok_quiet|]. cbn.
  destruct (highest 16 (x.(irq_pending) .& x.(irq_mask))) as [j|] eqn:Eh.
  2:{ rewrite (doInterrupt_none x Eh) in E. simplify_eq. by apply signalled_none, highest_none_zero. }
  destruct (decide (2 ^ j <= x.(irq_inservice))) as [Hi|Hi].
  { rewrite (doInterrupt_busy x j Eh Hi) in E. simplify_eq. cbn. apply signalled_busy. by eapply taken_busy. }
  destruct (highest_some _ _ _ Eh) as (Hj & _ & Hhi). rewrite (doInterrupt_taken x j Eh) in E by lia.
  assert (0 <= x.(vr) .& 0xF0) by (apply Z.land_nonneg; lia).
  destruct (decide (j = 0)) as [->|]; [|destruct (negb _ || _); [|done]; inversion E; lia].
  cbn [Z.eqb negb orb] in E. assert (taken (is_over 0 x) 0 (counted 0 x) = y) as <- by (by inversion E).
  apply signalled_none. apply Z.bits_inj_0. intros k. rewrite Z.land_spec.
  unfold taken, counted, is_over. cbn [Z.eqb negb orb].
  set (z := set_flag false _). assert (∀ b : bool, irq_pending (if b then upd_irq_inservice (u16 (z.(irq_inservice) .| Z.shiftl 1 0)) z
    else if unmasked z then set_flag true z else z) = Z.ldiff x.(irq_pending) 1) as -> by (intros []; [|destruct (unmasked z)]; done).
  assert (∀ b : bool, irq_mask (if b then upd_irq_inservice (u16 (z.(irq_inservice) .| Z.shiftl 1 0)) z
    else if unmasked z then set_flag true z else z) = x.(irq_mask)) as -> by (intros []; [|destruct (unmasked z)]; done).
  rewrite Z.ldiff_spec. change 1 with (2 ^ 0) at 1.
  destruct (decide (0 <= k)); [|by rewrite !Z.testbit_neg_r by lia]. rewrite Z.pow2_bits_eqb by lia.
  destruct (Z.eqb_spec 0 k); [by rewrite andb_false_r|]. rewrite andb_true_r.
  destruct (decide (k < 16)); [rewrite <-Z.land_spec; apply Hhi; lia|]. by rewrite (range_bits _ 16) by (apply Hx || lia).
Qed.

Lemma serve_keeps intmask resetStop : xkeeps mfp_ok (serve_MFP intmask resetStop).
Proof.
  unfold serve_MFP. apply xkeeps_look. intros x Hx. unfold id.
  destruct (tst (cpu_flags x) 0x200); [|done]. destruct (intmask <? 6); [|done]. cbn [negb].
  pose proof (doInterrupt_keeps x Hx) as Hd. unfold xbind at 1. destruct (doInterrupt x) as [[v|n|f] y] eqn:E; [|done..].
  destruct (Z.eqb_spec v 0) as [->|Hv]; cbn [negb]; [by apply (no_vector x)|].
  destruct resetStop; [|done]. apply (flags_ok _ y Hd). by rewrite Z.ldiff_spec, andb_true_r.
Qed.

(** ** Reachable states *)

Inductive mfp_op :=
  | OReset | ORead (parallel : option Z) (addr : Z) | OWrite (addr v : Z) | ORequest (level count : Z)
  | OPort (mask v : Z) | OPoll (intmask : Z) (resetStop : bool).

(** What the guest, the devices and the processor may do. *)
Definition op_ok (o : mfp_op) : Prop :=
  match o with
  | OWrite _ v => wd 8 v
  | ORequest level _ => 0 <= level < 16
  | _ => True
  end.

Definition run_op (off size : Z) (o : mfp_op) : X MFP unit :=
  match o with
  | OReset => mfp_reset
  | ORead parallel addr => mfp_handleRead off size parallel addr ;; xret tt
  | OWrite addr v => mfp_handleWrite off size addr v
  | ORequest level count => IRQ level count
  | OPort mask v => setGPIPbit mask v
  | OPoll intmask resetStop => serve_MFP intmask resetStop ;; xret tt
  end.

Inductive mfp_reachable off size : MFP → Prop :=
  | reach_new x y : mfp_reset x = (Ret tt, y) → mfp_reachable off size y
  | reach_op o x y : mfp_reachable off size x → op_ok o → run_op off size o x = (Ret tt, y) →
      mfp_reachable off size y.

Lemma reset_ok x : mfp_ok (mfp_reset x).2.
Proof.
  split; cbn; try (by apply wd_const); try apply timer_reset_ok; try done. by apply signalled_none.
Qed.

Lemma run_op_keeps off size o : op_ok o → xkeeps mfp_ok (run_op off size o).
Proof.
  intros Ho. destruct o; cbn [run_op].
  - intros x _. apply reset_ok.
  - apply xkeeps_bind; [apply handleRead_keeps|intros _; apply xkeeps_ret].
  - by apply handleWrite_keeps.
  - by apply IRQ_keeps.
  - apply setGPIPbit_keeps.
  - apply xkeeps_bind; [apply serve_keeps|intros _; apply xkeeps_ret].
Qed.

(** C15: In every state the chip can get into, through any sequence of register accesses,
    requests, port changes and polls, the registers have their widths, only enabled
    interrupts are pending, the input lines show the input, and a pending unmasked
    interrupt more urgent than those in service is signalled to the processor. *)
Theorem mfp_invariant off size x : mfp_reachable off size x → mfp_ok x.
Proof.
  induction 1 as [x y E|o x y _ IH Ho E].
  - pose proof (reset_ok x) as H. by rewrite E in H.
  - pose proof (run_op_keeps off size o Ho x IH) as H. by rewrite E in H.
Qed.

(** ** The acknowledge cycle *)

(** One poll, with everything it leaves. *)
Lemma poll_effect x intmask resetStop j : mfp_ok x → intmask < 6 →
  highest 16 (x.(irq_pending) .& x.(irq_mask)) = Some j → x.(irq_inservice) < 2 ^ j →
  - 2 ^ 31 < x.(timerCounter) < 2 ^ 31 → x.(vr) .& 0xF0 ≠ 0 →
  ∃ y, serve_MFP intmask resetStop x = (Ret ((x.(vr) .& 0xF0) + j), y) ∧
    Z.testbit y.(irq_pending) j = (j =? 5) && (1 <? x.(timerCounter)) ∧
    (∀ k, k ≠ j → Z.testbit y.(irq_pending) k = Z.testbit x.(irq_pending) k) ∧
    y.(irq_inservice) = (if tst x.(vr) 0x08 then x.(irq_inservice) .| 2 ^ j else x.(irq_inservice)) ∧
    y.(irq_mask) = x.(irq_mask) ∧ y.(vr) = x.(vr) ∧
    y.(timerCounter) = (if j =? 5 then x.(timerCounter) - 1 else x.(timerCounter)).
Proof.
  intros Hx Hm Hh Hi Ht Hvr. destruct (highest_some _ _ _ Hh) as (Hj & Hb & _).
  rewrite Z.land_spec, andb_true_iff in Hb. destruct Hb as [Hbp Hbm].
  assert (Z.testbit x.(cpu_flags) 9 = true) as Hf by (by apply (ok_signalled x Hx j)).
  assert (0 <= x.(vr) .& 0xF0) by (apply Z.land_nonneg; lia).
  set (x1 := taken (is_over j x) j (counted j x)).
  exists (if resetStop then upd_cpu_flags (Z.ldiff x1.(cpu_flags) 0x01) x1 else x1). split; [|split; [|split; [|split]]].
  - unfold serve_MFP. erewrite xbind_ret by done. unfold id.
    rewrite (tst_pow _ 0x200 9), Hf, (proj2 (Z.ltb_lt intmask 6)) by done. cbn [negb].
    erewrite xbind_ret.
    2:{ rewrite (doInterrupt_taken x j Hh Hi). unfold in_range.
        rewrite (proj2 (Z.leb_le _ _)), (proj2 (Z.ltb_lt _ _)), orb_true_r by lia. done. }
    rewrite (proj2 (Z.eqb_neq _ 0)) by lia. by destruct resetStop.
  - transitivity (Z.testbit x1.(irq_pending) j); [by destruct resetStop|]. unfold x1, taken, is_over, counted.
    destruct (j =? 5) eqn:E5; cbn [negb orb andb].
    + destruct (Z.leb_spec (x.(timerCounter) - 1) 0), (Z.ltb_spec 1 x.(timerCounter)); try lia;
        repeat case_match; cbn; rewrite ?Z.ldiff_spec, ?bit_spec, ?Z.eqb_refl, ?Hbp by lia; done.
    + repeat case_match; cbn; by rewrite Z.ldiff_spec, bit_spec, Z.eqb_refl, andb_false_r by lia.
  - intros k Hk. transitivity (Z.testbit x1.(irq_pending) k); [by destruct resetStop|]. unfold x1, taken, counted.
    destruct (j =? 5), (is_over j x); repeat case_match; cbn;
      rewrite ?Z.ldiff_spec, ?bit_spec, ?(proj2 (Z.eqb_neq k j)), ?andb_true_r by (lia || done); done.
  - transitivity x1.(irq_inservice); [by destruct resetStop|]. rewrite <-Z.shiftl_1_l.
    rewrite <-(or_bit_wd x.(irq_inservice) j) by (apply Hx || lia). unfold x1, taken, counted.
    destruct (j =? 5), (is_over j x); cbn; destruct (tst (vr x) 8); cbn; try done; by destruct (unmasked _).
  - assert (∀ g : MFP → Z, (∀ b y, g (set_flag b y) = g y) → (∀ p y, g (upd_irq_pending p y) = g y) →
      (∀ p y, g (upd_irq_inservice p y) = g y) → (∀ f y, g (upd_cpu_flags f y) = g y) →
      g (if resetStop then upd_cpu_flags (Z.ldiff x1.(cpu_flags) 0x01) x1 else x1) = g (counted j x)) as Hg.
    { intros g H1 H2 H3 H4. transitivity (g x1); [destruct resetStop; by rewrite ?H4|]. unfold x1, taken.
      destruct (is_over j x); repeat case_match; by rewrite ?H3, ?H1, ?H2. }
    rewrite !Hg by done. unfold counted. by destruct (j =? 5).
Qed.

(** A poll with the processor's mask below 6 takes the most urgent pending unmasked
    interrupt that is more urgent than those in service: its vector is delivered, it
    is no longer pending (timer C stays pending while ticks are outstanding), and it
    is in service if software ends interrupts. *)
Theorem poll_takes_highest x intmask resetStop j : mfp_ok x → intmask < 6 →
  highest 16 (x.(irq_pending) .& x.(irq_mask)) = Some j → x.(irq_inservice) < 2 ^ j →
  - 2 ^ 31 < x.(timerCounter) < 2 ^ 31 → x.(vr) .& 0xF0 ≠ 0 →
  ∃ y, serve_MFP intmask resetStop x = (Ret ((x.(vr) .& 0xF0) + j), y) ∧
    Z.testbit y.(irq_pending) j = (j =? 5) && (1 <? x.(timerCounter)) ∧
    (∀ k, k ≠ j → Z.testbit y.(irq_pending) k = Z.testbit x.(irq_pending) k) ∧
    y.(irq_inservice) = if tst x.(vr) 0x08 then x.(irq_inservice) .| 2 ^ j else x.(irq_inservice).
Proof.
  intros Hx Hm Hh Hi Ht Hvr. destruct (poll_effect x intmask resetStop j) as (y & ? & ? & ? & ? & _); try done. by exists y.
Qed.

(** ** Everything is served *)

(** How often request [j] is delivered: timer C once for each outstanding tick. *)
Definition times (c j : Z) : nat := if j =? 5 then Z.to_nat (Z.max 1 c) else 1%nat.

(** The requests in [p] below [n], the most urgent first. *)
Fixpoint requests (n : nat) (p c : Z) : list Z :=
  match n with
  | O => []
  | S k => (if Z.testbit p (Z.of_nat k) then replicate (times c (Z.of_nat k)) (Z.of_nat k) else [])
           ++ requests k p c
  end.

Lemma requests_ext n p p' c : (∀ k, 0 <= k < Z.of_nat n → Z.testbit p k = Z.testbit p' k) →
  requests n p c = requests n p' c.
Proof.
  induction n as [|n IH]; intros H; [done|]. cbn [requests]. rewrite H by lia. f_equal. apply IH. intros; apply H; lia.
Qed.

Lemma requests_counter n p c c' : Z.of_nat n <= 5 ∨ Z.testbit p 5 = false → requests n p c = requests n p c'.
Proof.
  induction n as [|n IH]; intros H; [done|]. cbn [requests]. rewrite IH by (destruct H; [left; lia|by right]). f_equal.
  destruct (Z.testbit p (Z.of_nat n)) eqn:E; [|done]. unfold times.
  destruct (Z.eqb_spec (Z.of_nat n) 5) as [H5|]; [|done]. rewrite H5 in E. destruct H; [lia|congruence].
Qed.

(** Down to the most urgent request nothing is delivered. *)
Lemma requests_highest n p c j : highest n p = Some j →
  requests n p c = replicate (times c j) j ++ requests (Z.to_nat j) p c.
Proof.
  induction n as [|n IH]; [done|]. cbn [highest requests]. rewrite tst_shiftl by lia.
  destruct (Z.testbit p (Z.of_nat n)); intros H; simplify_eq; [by rewrite Nat2Z.id|]. by apply IH.
Qed.

Lemma requests_none n p c : highest n p = None → requests n p c = [].
Proof.
  induction n as [|n IH]; [done|]. cbn [highest requests]. rewrite tst_shiftl by lia.
  destruct (Z.testbit p (Z.of_nat n)); [done|]. intros H. by rewrite IH.
Qed.

Lemma requests_below n (m : nat) p c : (m <= n)%nat → (∀ k, Z.of_nat m <= k < Z.of_nat n → Z.testbit p k = false) →
  requests n p c = requests m p c.
Proof.
  intros Hm. induction n as [|n IH]; intros H; [by replace m with 0%nat by lia|].
  destruct (decide (m = S n)) as [->|]; [done|]. cbn [requests]. rewrite H, IH by (lia || (intros; apply H; lia)). done.
Qed.

Fixpoint polls (n : nat) (intmask : Z) : X MFP (list Z) :=
  match n with
  | O => xret []
  | S n => let* v := serve_MFP intmask false in let* vs := polls n intmask in xret (v :: vs)
  end.

(** With automatic end of interrupt: the state after one poll. *)
Lemma poll_automatic x intmask j : mfp_ok x → intmask < 6 →
  highest 16 (x.(irq_pending) .& x.(irq_mask)) = Some j → x.(irq_inservice) = 0 → tst x.(vr) 0x08 = false →
  - 2 ^ 31 < x.(timerCounter) < 2 ^ 31 → x.(vr) .& 0xF0 ≠ 0 →
  ∃ y, serve_MFP intmask false x = (Ret ((x.(vr) .& 0xF0) + j), y) ∧ mfp_ok y ∧
    y.(irq_mask) = x.(irq_mask) ∧ y.(irq_inservice) = 0 ∧ y.(vr) = x.(vr) ∧
    y.(timerCounter) = (if j =? 5 then x.(timerCounter) - 1 else x.(timerCounter)) ∧
    requests 16 (x.(irq_pending) .& x.(irq_mask)) x.(timerCounter) =
      j :: requests 16 (y.(irq_pending) .& y.(irq_mask)) y.(timerCounter) ∧
    (Z.testbit y.(irq_pending) 5 = true → if j =? 5 then 1 < x.(timerCounter) else Z.testbit x.(irq_pending) 5 = true).
Proof.
  intros Hx Hm Hh Hi Hv Ht Hvr. destruct (highest_some _ _ _ Hh) as (Hj & Hb & Hhi).
  assert (x.(irq_inservice) < 2 ^ j) as Hij by (rewrite Hi; apply Z.pow_pos_nonneg; lia).
  destruct (poll_effect x intmask false j Hx Hm Hh Hij Ht Hvr) as (y & E & Hpj & Hpk & Hin & Hmy & Hvy & Hty).
  exists y. split; [done|]. rewrite Hv, Hi in Hin.
  split; [pose proof (serve_keeps intmask false x Hx) as H; by rewrite E in H|]. do 4 (split; [done|]).
  split; cycle 1.
  { destruct (Z.eqb_spec j 5) as [->|]; [rewrite Hpj; apply Z.ltb_lt|by rewrite Hpk]. }
  rewrite Hmy, (requests_highest 16 _ _ j Hh). set (p := x.(irq_pending) .& x.(irq_mask)) in *.
  set (q := y.(irq_pending) .& x.(irq_mask)).
  assert (∀ k, k ≠ j → Z.testbit q k = Z.testbit p k) as Hq by (intros k Hk; unfold p, q; by rewrite !Z.land_spec, Hpk).
  assert (requests (Z.to_nat j) q y.(timerCounter) = requests (Z.to_nat j) p x.(timerCounter)) as Hlow.
  { rewrite (requests_ext (Z.to_nat j) q p) by (intros; apply Hq; lia). rewrite Hty.
    destruct (Z.eqb_spec j 5); [|done]. apply requests_counter. left. lia. }
  rewrite <-Hlow. unfold p in Hb. rewrite Z.land_spec, andb_true_iff in Hb. destruct Hb as [_ Hbm].
  destruct (Z.testbit y.(irq_pending) j) eqn:Ey.
  - symmetry in Hpj. apply andb_true_iff in Hpj as [E5 Hc]. apply Z.eqb_eq in E5 as ->. apply Z.ltb_lt in Hc.
    rewrite (requests_highest 16 q _ 5), Hty.
    + unfold times. rewrite Z.eqb_refl. cbv iota. rewrite !Z.max_r by lia.
      replace (Z.to_nat (timerCounter x)) with (S (Z.to_nat (timerCounter x - 1))) by lia. done.
    + assert (q = p) as ->; [|done]. apply Z.bits_inj'. intros k _. destruct (decide (k = 5)) as [->|]; [|by apply Hq].
      unfold p, q. rewrite !Z.land_spec, Ey. apply highest_some in Hh as (_ & Hb & _).
      unfold p in Hb. rewrite Z.land_spec in Hb. by rewrite Hb, Hbm.
  - rewrite (requests_below 16 (Z.to_nat j) q).
    + replace (times (timerCounter x) j) with 1%nat; [done|]. unfold times. destruct (Z.eqb_spec j 5); [|done].
      cbn [andb] in Hpj. symmetry in Hpj. apply Z.ltb_ge in Hpj. lia.
    + lia.
    + intros k Hk. destruct (decide (k = j)) as [->|]; [unfold q; by rewrite Z.land_spec, Ey|].
      rewrite Hq by done. apply Hhi. lia.
Qed.

(** C16: With automatic end of interrupt, an interrupt vector base that is not 0, nothing in service, the processor's mask below 6 and no new requests, polling delivers every
    pending unmasked interrupt, each once (timer C once for each outstanding tick), in
    order of priority, and then nothing unmasked is pending any more.  (With vector base 0, as after a reset, line 0 is dropped,
    see [MfpTick.vector_zero_is_dropped].) *)
Theorem polls_serve_all x intmask : mfp_ok x → intmask < 6 → x.(irq_inservice) = 0 →
  tst x.(vr) 0x08 = false → x.(vr) .& 0xF0 ≠ 0 → 0 <= x.(timerCounter) < 2 ^ 31 →
  let l := requests 16 (x.(irq_pending) .& x.(irq_mask)) x.(timerCounter) in
  ∃ y, polls (length l) intmask x = (Ret ((λ j, (x.(vr) .& 0xF0) + j) <$> l), y) ∧ unmasked y = false.
Proof.
  intros Hx Hm Hi Hv Hvr Ht.
  assert (-1 <= x.(timerCounter) < 2 ^ 31 ∧ (Z.testbit x.(irq_pending) 5 = true → 0 <= x.(timerCounter))) as [Hc H5]
    by (split; [lia|intros _; apply Ht]). clear Ht. cbv zeta.
  remember (requests 16 _ _) as l eqn:El. symmetry in El. revert x Hx Hi Hv Hvr Hc H5 El.
  induction l as [|j l IH]; intros x Hx Hi Hv Hvr Hc H5 El.
  - exists x. split; [done|]. unfold unmasked, tst. rewrite negb_false_iff, Z.eqb_eq. apply highest_none_zero; [done|].
    destruct (highest 16 _) as [j|] eqn:Eh; [|done]. rewrite (requests_highest 16 _ _ j Eh) in El. exfalso.
    unfold times in El. destruct (j =? 5); [|done]. by destruct (Z.to_nat (Z.max 1 (timerCounter x))) eqn:E; [lia|].
  - destruct (highest 16 (x.(irq_pending) .& x.(irq_mask))) as [j'|] eqn:Eh; [|by rewrite (requests_none 16 _ _ Eh) in El].
    destruct (poll_automatic x intmask j' Hx Hm Eh Hi Hv) as (y & E & Hy & Hmy & Hiy & Hvy & Hty & Hr & H5y); [lia|done|].
    rewrite Hr in El. injection El as -> Hl.
    destruct (IH y Hy Hiy) as (z & Ez & Hz); [by rewrite Hvy..| | |done|].
    + rewrite Hty. destruct (Z.eqb_spec j 5) as [->|]; [|done].
      apply highest_some in Eh as (_ & Hb & _). rewrite Z.land_spec, andb_true_iff in Hb. destruct Hb as [Hb _].
      specialize (H5 Hb). lia.
    + intros Hb. specialize (H5y Hb). rewrite Hty. destruct (j =? 5); [lia|by apply H5].
    + exists z. split; [|done]. cbn [length polls fmap list_fmap].
      rewrite (xbind_ret _ _ _ _ _ E), (xbind_ret _ _ _ _ _ Ez). by rewrite Hvy.
Qed.

(** ** Edges of the port *)

(** Only requests and the flag differ. *)
Definition requested x (p : Z) y : Prop := ∃ f, y = upd_cpu_flags f (upd_irq_pending p x).

Lemma IRQ_effect level x : 0 <= level < 16 → level ≠ 5 → wd 16 x.(irq_pending) →
  ∃ y, IRQ level 1 x = (Ret tt, y) ∧
    requested x (x.(irq_pending) .| (if Z.testbit x.(irq_enable) level then Z.shiftl 1 level else 0)) y.
Proof.
  intros Hl H5 Hp. unfold IRQ. rewrite (proj2 (Z.eqb_neq level 5)) by done. cbn [xwhen].
  erewrite xbind_ret by done. erewrite xbind_ret by done. unfold id.
  assert ((x.(irq_enable) .& Z.shiftl 1 level =? 0) = negb (Z.testbit x.(irq_enable) level)) as ->.
  { rewrite <-tst_shiftl by lia. unfold tst. by rewrite negb_involutive. }
  destruct (Z.testbit (irq_enable x) level); cbn [negb].
  2:{ exists x. split; [done|]. exists x.(cpu_flags). rewrite Z.lor_0_r. by destruct x. }
  erewrite xbind_ret by done. rewrite !tst_shiftl by lia. destruct (Z.testbit (irq_pending x) level) eqn:Ep.
  { exists x. split; [done|]. exists x.(cpu_flags).
    replace (irq_pending x .| Z.shiftl 1 level) with x.(irq_pending); [by destruct x|].
    apply Z.bits_inj'. intros i Hi. rewrite Z.lor_spec, bit_spec by lia.
    destruct (Z.eqb_spec i level) as [->|]; [by rewrite Ep|by rewrite orb_false_r]. }
  erewrite xbind_ret by done. rewrite or_bit_wd by done.
  destruct (negb _); [|destruct (_ <? _)]; (eexists; split; [done|]); by eexists.
Qed.

(** A loop over the lines in which line [j] requests its interrupt if [P j]. *)
Lemma lines_effect (l : list (Z * Z)) (body : Z * Z → X MFP unit) (P : Z → bool) x : wd 16 x.(irq_pending) →
  (∀ j level, (j, level) ∈ l → 0 <= level < 16 ∧ level ≠ 5) →
  (∀ j level p y, (j, level) ∈ l → requested x p y → body (j, level) y = (if P j then IRQ level 1 else xret tt) y) →
  ∃ p y, xfor l body x = (Ret tt, y) ∧ requested x p y ∧
    ∀ k, 0 <= k < 16 → Z.testbit p k = Z.testbit x.(irq_pending) k ||
      (Z.testbit x.(irq_enable) k && existsb (λ '(j, level), (level =? k) && P j) l).
Proof.
  revert x. induction l as [|[j level] l IH]; intros x Hw Hl Hbody.
  { exists x.(irq_pending), x. split; [done|]. split; [exists x.(cpu_flags); by destruct x|].
    intros k _. cbn. by rewrite andb_false_r, orb_false_r. }
  destruct (Hl j level) as [Hlev H5]; [by left|]. cbn [xfor].
  assert (∃ p1 y1, body (j, level) x = (Ret tt, y1) ∧ requested x p1 y1 ∧ wd 16 p1 ∧
    (∀ k, 0 <= k < 16 → Z.testbit p1 k = Z.testbit x.(irq_pending) k || (Z.testbit x.(irq_enable) k && ((level =? k) && P j))))
    as (p1 & y1 & E1 & [f1 ->] & Hw1 & Hp1).
  { rewrite (Hbody j level x.(irq_pending) x) by (by left || (exists x.(cpu_flags); by destruct x)). destruct (P j).
    - destruct (IRQ_effect level x Hlev H5 Hw) as (y1 & -> & Hy1). eexists _, y1. split; [done|]. split; [done|].
      split; [apply wd_lor; [lia|done|case_match; [by apply wd_bit|by apply wd_const]]|].
      intros k Hk. rewrite Z.lor_spec, andb_true_r, Z.eqb_sym. f_equal.
      destruct (Z.eqb_spec k level) as [->|Hne].
      + rewrite andb_true_r. case_match; [by rewrite bit_spec, Z.eqb_refl by lia|by rewrite Z.bits_0].
      + rewrite andb_false_r. case_match; [|apply Z.bits_0]. rewrite bit_spec by lia. by apply Z.eqb_neq.
    - exists x.(irq_pending), x. split; [done|]. split; [exists x.(cpu_flags); by destruct x|]. split; [done|].
      intros k _. by rewrite !andb_false_r, orb_false_r. }
  rewrite (xbind_ret _ _ _ _ _ E1).
  destruct (IH (upd_cpu_flags f1 (upd_irq_pending p1 x))) as (p & y & E & [f ->] & Hp); [done|intros j' ? ?; apply (Hl j'); by right|..].
  { intros j' level' p' y' Hin [f' ->]. apply (Hbody _ _ p'); [by right|]. by exists f'. }
  exists p, (upd_cpu_flags f (upd_irq_pending p x)). split; [exact E|]. split; [by exists f|].
  intros k Hk. rewrite Hp by done. cbn. rewrite Hp1 by done.
  by destruct (Z.testbit (irq_pending x) k), (Z.testbit (irq_enable x) k), ((level =? k) && P j).
Qed.

(** The interrupts of the lines in [P] are requested, if they are enabled. *)
Definition lines_request (P : Z → bool) x y : Prop :=
  ∀ k, 0 <= k < 16 → Z.testbit y.(irq_pending) k = Z.testbit x.(irq_pending) k ||
    (Z.testbit x.(irq_enable) k && existsb (λ '(j, level), (level =? k) && P j) map_gpip_to_ier).

Lemma map_gpip_not_5 j level : (j, level) ∈ map_gpip_to_ier → 0 <= j < 8 ∧ 0 <= level < 16 ∧ level ≠ 5.
Proof.
  unfold map_gpip_to_ier. rewrite !elem_of_cons, elem_of_nil. intros H.
  repeat (destruct H as [H|H]; [simplify_eq; lia|]). done.
Qed.

(** A line differs between two registers. *)
Lemma bit_differs a b j : 0 <= j → (a .& Z.shiftl 1 j =? b .& Z.shiftl 1 j) = eqb (Z.testbit a j) (Z.testbit b j).
Proof.
  intros Hj. apply eq_true_iff_eq. rewrite Z.eqb_eq, eqb_true_iff. split; intros H.
  - apply (f_equal (λ z, Z.testbit z j)) in H. by rewrite !Z.land_spec, bit_spec, Z.eqb_refl, !andb_true_r in H by done.
  - apply Z.bits_inj'. intros i _. rewrite !Z.land_spec, bit_spec by done.
    destruct (Z.eqb_spec i j) as [->|]; [by rewrite H|by rewrite !andb_false_r].
Qed.

(** The detector of the chip: line exclusive-or edge bit, from 1 to 0. *)
Definition falls (line edge line' edge' j : Z) : bool :=
  Z.testbit (line .^ edge) j && negb (Z.testbit (line' .^ edge') j).

(** Writing the active edge register. *)
Lemma edge_write_effect x v : mfp_ok x →
  ∃ y, set_active_edge v x = (Ret tt, y) ∧ y.(active_edge) = v ∧ y.(GPIP_data) = x.(GPIP_data) ∧
     lines_request (λ j, negb (Z.testbit x.(data_direction) j)
       && falls x.(GPIP_data) x.(active_edge) x.(GPIP_data) v j) x y.
Proof.
  intros Hx.
  destruct (lines_effect map_gpip_to_ier (λ '(j, level), let i := Z.shiftl 1 j in let* y := xget id in
    xwhen (negb ((y.(active_edge) .& i) =? (v .& i)) && negb (tst y.(data_direction) i)
           && negb ((y.(active_edge) .& i) =? (y.(input) .& i))) (IRQ level 1))
    (λ j, negb (Z.testbit x.(data_direction) j) && falls x.(GPIP_data) x.(active_edge) x.(GPIP_data) v j) x)
    as (p & y & E & [f ->] & Hp); [apply Hx|intros j level Hin; apply (map_gpip_not_5 j level Hin)|..].
  { intros j level p y (Hj & _)%map_gpip_not_5 [f ->]. cbv zeta. erewrite xbind_ret by done. unfold id.
    cbn [active_edge data_direction input upd_cpu_flags upd_irq_pending].
    rewrite !bit_differs, !tst_shiftl by lia. unfold falls, xwhen. rewrite !Z.lxor_spec.
    pose proof (ok_port x Hx) as Hport. apply (f_equal (λ z, Z.testbit z j)) in Hport. rewrite !Z.ldiff_spec in Hport.
    destruct (Z.testbit (data_direction x) j); [by rewrite andb_false_r|].
    rewrite !andb_true_r in Hport. rewrite Hport.
    by destruct (Z.testbit (input x) j), (Z.testbit v j), (Z.testbit (active_edge x) j). }
  eexists. split; [unfold set_active_edge; rewrite (xbind_ret _ _ _ _ _ E); reflexivity|].
  split; [done|]. split; [done|exact Hp].
Qed.

(** The port after its inputs in [mask] have changed to [v]. *)
Definition port_write (mask v : Z) x : MFP :=
  let m := mask .& 0xff in let d := Z.ldiff m x.(data_direction) in
  upd_GPIP_data ((Z.ldiff x.(GPIP_data) d .| (v .& d)) .& 0xff) (upd_input (Z.ldiff x.(input) m .| (v .& m)) x).

Lemma port_write_bits x mask v j : 0 <= j < 8 → Z.testbit (port_write mask v x).(GPIP_data) j =
  if Z.testbit mask j && negb (Z.testbit x.(data_direction) j) then Z.testbit v j else Z.testbit x.(GPIP_data) j.
Proof.
  intros Hj. cbn. change 0xff with (Z.ones 8).
  rewrite Z.land_spec, Z.lor_spec, Z.land_spec, !Z.ldiff_spec, Z.land_spec, Z.testbit_ones_nonneg by lia.
  rewrite (proj2 (Z.ltb_lt j 8)), !andb_true_r by lia.
  by destruct (Z.testbit mask j), (Z.testbit (data_direction x) j), (Z.testbit v j), (Z.testbit (GPIP_data x) j).
Qed.

(** Changing the inputs. *)
Lemma port_write_effect x mask v : mfp_ok x → let x2 := port_write mask v x in
  ∃ p f, setGPIPbit mask v x = (Ret tt, upd_cpu_flags f (upd_irq_pending p x2)) ∧
    lines_request (falls x.(GPIP_data) x.(active_edge) x2.(GPIP_data) x.(active_edge)) x (upd_irq_pending p x).
Proof.
  intros Hx x2.
  destruct (lines_effect map_gpip_to_ier (λ '(j, level), let i := Z.shiftl 1 j in let* y := xget id in
    if (x.(GPIP_data) .& i) =? (y.(GPIP_data) .& i) then xret tt
    else if tst y.(active_edge) i then if tst x.(GPIP_data) i then xret tt else IRQ level 1
    else if tst y.(GPIP_data) i then xret tt else IRQ level 1)
    (falls x.(GPIP_data) x.(active_edge) x2.(GPIP_data) x.(active_edge)) x2) as (p & y & E & [f ->] & Hp);
    [apply Hx|intros j level Hin; apply (map_gpip_not_5 j level Hin)|..].
  { intros j level p y (Hj & _)%map_gpip_not_5 [f ->]. cbv zeta. erewrite xbind_ret by done. unfold id.
    change (GPIP_data (upd_cpu_flags f (upd_irq_pending p x2))) with x2.(GPIP_data).
    change (active_edge (upd_cpu_flags f (upd_irq_pending p x2))) with x.(active_edge).
    rewrite bit_differs, !tst_shiftl by lia. unfold falls. rewrite !Z.lxor_spec.
    by destruct (Z.testbit (GPIP_data x) j), (Z.testbit (GPIP_data x2) j), (Z.testbit (active_edge x) j). }
  exists p, f. split; [|exact Hp]. unfold setGPIPbit. cbv zeta. do 4 erewrite xbind_ret by done. exact E.
Qed.

(** A change of the inputs, or of the active edge register, requests exactly the
    enabled interrupts of those input lines for which (line xor edge) goes from 1 to 0;
    lines that are outputs never request. *)
Theorem port_edges_request x mask v : mfp_ok x →
  (∃ y, setGPIPbit mask v x = (Ret tt, y) ∧ y.(active_edge) = x.(active_edge) ∧
     (∀ j, 0 <= j < 8 → Z.testbit y.(GPIP_data) j =
        if Z.testbit mask j && negb (Z.testbit x.(data_direction) j) then Z.testbit v j else Z.testbit x.(GPIP_data) j) ∧
     lines_request (falls x.(GPIP_data) x.(active_edge) y.(GPIP_data) y.(active_edge)) x y) ∧
  (∃ y, set_active_edge v x = (Ret tt, y) ∧ y.(active_edge) = v ∧ y.(GPIP_data) = x.(GPIP_data) ∧
     lines_request (λ j, negb (Z.testbit x.(data_direction) j)
       && falls x.(GPIP_data) x.(active_edge) x.(GPIP_data) v j) x y).
Proof.
  intros Hx. split; [|by apply edge_write_effect].
  destruct (port_write_effect x mask v Hx) as (p & f & E & Hp). eexists. split; [exact E|].
  split; [done|]. split; [apply port_write_bits|exact Hp].
Qed.

(** ** The port never fails, in any state *)

Lemma IRQ_returns level count x : level ≠ 5 → ∃ y, IRQ level count x = (Ret tt, y).
Proof.
  intros Hl. unfold IRQ. rewrite (proj2 (Z.eqb_neq level 5) Hl). cbn [xwhen]. do 2 erewrite xbind_ret by reflexivity.
  destruct (_ =? 0); [by eexists|]. erewrite xbind_ret by reflexivity. destruct (tst _ _); [by eexists|].
  erewrite xbind_ret by reflexivity. destruct (negb _); [by eexists|]. destruct (_ <? _); by eexists.
Qed.

Lemma setGPIPbit_returns mask v x : ∃ y, setGPIPbit mask v x = (Ret tt, y).
Proof.
  unfold setGPIPbit. do 4 erewrite xbind_ret by reflexivity. apply xfor_returns. intros [j level] s Hj.
  assert (level ≠ 5) as Hl by (intros ->; repeat (apply elem_of_cons in Hj as [?|Hj]; [done|]); by apply elem_of_nil in Hj).
  erewrite xbind_ret by reflexivity. repeat case_match; try (by eexists); by apply IRQ_returns.
Qed.
