(* ===== verification/MfpTick.v ===== *)
(** * MfpTick: timer C and the 200 Hz tick; the MFP at work

    [timerC_rate]: the period computed for timer C is always defined.
    [tick_no_drift]: the tick accounts for all elapsed time, so no time is lost
    between ticks however late they come.  Register round trips, runs of the
    theorems of [MfpSpec] on concrete states, and two defects shown by runs. *)

From S2P Require Import Prelude Throws Mfp MfpSpec.
From stdpp Require Import base gmap list numbers.
Open Scope Z_scope.
Open Scope c_scope.
Open Scope x_scope.

Lemma freq_bounds t : timer_ok t → 48 <= compute_timer_freq t <= 614400.
Proof.
  intros [_ [Hs0 Hs1] _]. change (2 ^ 8) with 256 in Hs1. unfold compute_timer_freq, MFP_FREQ.
  set (d := match control t with 1 => 4 | 2 => 10 | 3 => 16 | 4 => 50 | 5 => 64 | 6 => 100 | 7 => 200 | _ => 64 end).
  assert (4 <= d <= 200) as Hd by (unfold d; repeat case_match; lia).
  assert (12288 <= 2457600 / d <= 614400).
  { split; [apply Z.div_le_lower_bound; lia|apply Z.div_le_upper_bound; lia]. }
  destruct (Z.eqb_spec (start_data t) 0); cbn [negb].
  - Z.to_euclidean_division_equations. lia.
  - split; [apply Z.div_le_lower_bound; nia|apply Z.div_le_upper_bound; nia].
Qed.

(** The period in milliseconds. *)
Definition period (t : MFP_Timer) : Z := 1000 / compute_timer_freq t.

Lemma ticks_eq x : timer_ok x.(timerC) → timerC_ms_ticks x = (Ret (period x.(timerC)), x).
Proof.
  intros Ht. pose proof (freq_bounds _ Ht). unfold timerC_ms_ticks. erewrite xbind_ret by done. cbv zeta.
  rewrite (proj2 (Z.eqb_neq (compute_timer_freq (timerC x)) 0)) by lia. by rewrite Z.quot_div_nonneg by lia.
Qed.

(** The period of timer C is computed without a division by zero, lies between 0
    and 20 ms, and is 0 exactly when the timer is faster than 1 kHz. *)
Theorem timerC_rate x : timer_ok x.(timerC) →
  timerC_ms_ticks x = (Ret (period x.(timerC)), x) ∧ 0 <= period x.(timerC) <= 20 ∧
  (period x.(timerC) = 0 ↔ 1000 < compute_timer_freq x.(timerC)).
Proof.
  intros Ht. split; [by apply ticks_eq|]. pose proof (freq_bounds _ Ht) as Hf. unfold period.
  set (f := compute_timer_freq (timerC x)) in *.
  split; [split; [apply Z.div_pos; lia|apply Z.lt_succ_r, Z.div_lt_upper_bound; lia]|].
  rewrite Z.div_small_iff by lia. lia.
Qed.

Section Tick.
Context (scc_IRQ do_vbl_irq : X MFP unit).

(** The other devices return and leave the clock of the tick alone. *)
Definition leaves_clock (m : X MFP unit) : Prop :=
  ∀ y, ∃ y', m y = (Ret tt, y') ∧ y'.(lastTicks) = y.(lastTicks) ∧ y'.(VBL_counter) = y.(VBL_counter).
Hypothesis scc_clock : leaves_clock scc_IRQ.
Hypothesis vbl_clock : leaves_clock do_vbl_irq.

(** Timer C's request leaves the clock alone. *)
Lemma IRQ_clock x count : - 2 ^ 31 <= x.(timerCounter) + count < 2 ^ 31 →
  ∃ y, IRQ 5 count x = (Ret tt, y) ∧ y.(lastTicks) = x.(lastTicks) ∧ y.(VBL_counter) = x.(VBL_counter).
Proof.
  intros Hc. unfold IRQ. cbn [Z.eqb Pos.eqb xwhen]. erewrite xbind_ret by done. erewrite xbind_ret by done. unfold id.
  destruct (_ =? 0); [by eexists|]. erewrite xbind_ret by (by erewrite xbind_ret by (by apply int_run)).
  destruct (tst _ _); [by eexists|]. erewrite xbind_ret by done.
  destruct (negb _); [by eexists|]. destruct (_ <? _); by eexists.
Qed.


(** The 200 Hz tick asks timer C for one interrupt per period of the time since the
    last tick and moves the clock on by exactly that, so the time that is left over is
    less than a period: late ticks are made up for and no time is lost. *)
Theorem tick_no_drift x newTicks : timer_ok x.(timerC) → 1 <= period x.(timerC) →
  0 < x.(lastTicks) < 2 ^ 32 → 0 <= u32 (newTicks - x.(lastTicks)) < 2 ^ 30 →
  0 <= x.(timerCounter) < 2 ^ 30 → 0 <= x.(VBL_counter) < 2 ^ 30 →
  ∃ y, invoke200HzInterrupt scc_IRQ do_vbl_irq newTicks x = (Ret tt, y) ∧
    y.(lastTicks) = u32 (x.(lastTicks) + u32 (newTicks - x.(lastTicks)) / period x.(timerC) * period x.(timerC)) ∧
    u32 (newTicks - y.(lastTicks)) < period x.(timerC).
Proof.
  intros Ht Hp Hl He Hc Hv. set (e := u32 (newTicks - lastTicks x)) in *. set (p := period (timerC x)) in *.
  assert (0 <= e / p <= e) as Hq by (split; [apply Z.div_pos; lia|apply Z.div_le_upper_bound; nia]).
  pose proof (Z.div_mod e p ltac:(lia)) as Hdm. pose proof (Z.mod_pos_bound e p ltac:(lia)) as Hm.
  assert (u32 (newTicks - u32 (x.(lastTicks) + e / p * p)) < p) as Hleft.
  { assert (u32 (newTicks - u32 (x.(lastTicks) + e / p * p)) = e mod p) as ->; [|lia].
    unfold u32 in *. rewrite Zminus_mod_idemp_r.
    replace (newTicks - (lastTicks x + e / p * p)) with ((newTicks - lastTicks x) - e / p * p) by lia.
    rewrite <-Zminus_mod_idemp_l. fold e. rewrite Z.mod_small by lia. lia. }
  unfold invoke200HzInterrupt. erewrite xbind_ret by (by apply ticks_eq). fold p.
  erewrite xbind_ret by done. rewrite (proj2 (Z.eqb_neq (lastTicks x) 0)) by lia. cbn [xwhen].
  erewrite xbind_ret by done. erewrite xbind_ret by done. rewrite (proj2 (Z.eqb_neq p 0)) by lia. cbv zeta. fold e.
  rewrite s32_small by lia. destruct (Z.eqb_spec (e / p) 0) as [E0|E0].
  { assert (u32 (x.(lastTicks) + e / p * p) = x.(lastTicks)) as EL by (rewrite E0, Z.mul_0_l, Z.add_0_r; apply u32_small; lia).
    exists x. rewrite EL in *. by split. }
  erewrite xbind_ret by (apply int_run; lia). erewrite xbind_ret by done.
  set (x1 := upd_lastTicks _ x). destruct (IRQ_clock x1 (e / p)) as (x2 & E2 & Hl2 & Hv2); [cbn; lia|].
  rewrite (xbind_ret _ _ _ _ _ E2). destruct (scc_clock x2) as (x3 & E3 & Hl3 & Hv3). rewrite (xbind_ret _ _ _ _ _ E3).
  erewrite xbind_ret by done. unfold id.
  assert (x3.(lastTicks) = u32 (x.(lastTicks) + e / p * p)) as Hlast by (by rewrite Hl3, Hl2).
  erewrite xbind_ret by (apply int_run; rewrite Hv3, Hv2; cbn; lia). erewrite xbind_ret by done.
  destruct (20 <=? _).
  - erewrite xbind_ret by done. edestruct vbl_clock as (x4 & E4 & Hl4 & _). exists x4. split; [exact E4|].
    rewrite Hl4. cbn. by rewrite Hlast.
  - eexists. split; [done|]. cbn. by rewrite Hlast.
Qed.
End Tick.

(** ** Registers *)

(** The registers the guest can read back, as offsets. *)
Definition plain_registers : list Z := [0x03; 0x05; 0x07; 0x09; 0x13; 0x15; 0x17].

(** Reading the high or low byte of a register pair just written. *)
Lemma pair_high a v : wd 16 a → wd 8 v → u8 ((a .& 0x00ff .| Z.shiftl v 8) >> 8) = v.
Proof.
  intros Ha Hv. apply Z.bits_inj'. intros i Hi. unfold u8. change 256 with (2 ^ 8). change 0x00ff with (Z.ones 8).
  destruct (Z.lt_ge_cases i 8); [|by rewrite Z.mod_pow2_bits_high, (range_bits v 8) by (done || lia)].
  rewrite Z.mod_pow2_bits_low, Z.shiftr_spec, Z.lor_spec, Z.land_spec, Z.testbit_ones_nonneg, Z.shiftl_spec by lia.
  rewrite (proj2 (Z.ltb_ge (i + 8) 8)), andb_false_r, orb_false_l by lia. f_equal. lia.
Qed.

Lemma pair_low a v : wd 8 v → u8 (a .& 0xff00 .| v) = v.
Proof.
  intros Hv. apply Z.bits_inj'. intros i Hi. unfold u8. change 256 with (2 ^ 8).
  destruct (Z.lt_ge_cases i 8); [|by rewrite Z.mod_pow2_bits_high, (range_bits v 8) by (done || lia)].
  rewrite Z.mod_pow2_bits_low, Z.lor_spec, Z.land_spec by lia.
  assert (Z.testbit 0xff00 i = false) as ->; [|by rewrite andb_false_r].
  assert (i = 0 ∨ i = 1 ∨ i = 2 ∨ i = 3 ∨ i = 4 ∨ i = 5 ∨ i = 6 ∨ i = 7) as Hc by lia. destruct_or! Hc; by subst.
Qed.

(** The edge, direction, enable, mask and vector registers read back the byte last
    written to them. *)
Theorem register_roundtrip off size parallel x a v : mfp_ok x → wd 8 v → a ∈ plain_registers →
  0 <= off → off + 0x30 < 2 ^ 32 → 0x30 <= size →
  ∃ y, (mfp_handleWrite off size (off + a) v ;; mfp_handleRead off size parallel (off + a)) x = (Ret v, y).
Proof.
  intros Hx Hv Ha Ho Ho2 Hs.
  assert (0 <= a <= 0x17) as Hr.
  { unfold plain_registers in Ha. rewrite !elem_of_cons, elem_of_nil in Ha.
    repeat (destruct Ha as [->|Ha]; [lia|]). done. }
  assert ((off + a) -u off = a) as Haddr by (rewrite u32_small; lia).
  assert ((size <? a) = false) as Hsz by (apply Z.ltb_ge; lia).
  assert (u8 v = v) as Hu by (apply u8_small, Hv).
  unfold mfp_handleWrite, mfp_handleRead. rewrite Haddr, Hsz.
  unfold plain_registers in Ha. rewrite !elem_of_cons, elem_of_nil in Ha.
  destruct Ha as [->|[->|[->|[->|[->|[->|[->|[]]]]]]]].
  - destruct (edge_write_effect x v Hx) as (y & E & He & _).
    rewrite (xbind_ret _ _ _ _ _ E). exists y. unfold xbind, xget, xret, id. by rewrite He.
  - eexists. reflexivity.
  - eexists. unfold xbind, xmod, xget, xret, id. cbn -[Z.shiftl]. rewrite pair_high by (apply Hx || done). reflexivity.
  - eexists. unfold xbind, xmod, xget, xret, id. cbn. rewrite pair_low by done. reflexivity.
  - eexists. unfold xbind, xmod, xget, xret, id. rewrite TriggerMFP_eq. cbn -[Z.shiftl].
    rewrite pair_high by (apply Hx || done). reflexivity.
  - eexists. unfold xbind, xmod, xget, xret, id. rewrite TriggerMFP_eq. cbn. rewrite pair_low by done. reflexivity.
  - destruct (tst v 0x08); eexists; unfold xbind, xmod, xget, xret, id; rewrite ?TriggerMFP_eq; cbn; by rewrite Hu.
Qed.

(** ** The theorems at work *)

Definition mfp_new : MFP :=
  Mfp 0xff 0xff 0 0 0 0 0 0 (Timer 0 0 0 false) (Timer 0 0 0 false) (Timer 0 0 0 false) (Timer 0 0 0 false)
    0 0x0100 0 0 0.

Definition after {A} (m : X MFP A) : MFP := (m mfp_new).2.

(** Vector base 0x40, all interrupts enabled and unmasked, automatic end of interrupt;
    two requests. *)
Definition mfp_busy : X MFP unit :=
  mfp_handleWrite 0xfffa00 0x30 0xfffa17 0x40 ;;
  mfp_handleWrite 0xfffa00 0x30 0xfffa07 0xff ;; mfp_handleWrite 0xfffa00 0x30 0xfffa09 0xff ;;
  mfp_handleWrite 0xfffa00 0x30 0xfffa13 0xff ;; mfp_handleWrite 0xfffa00 0x30 0xfffa15 0xff ;;
  IRQ 6 1 ;; IRQ 13 1.

Lemma mfp_reach o x : mfp_reachable 0xfffa00 0x30 x → op_ok o → ∀ y, run_op 0xfffa00 0x30 o x = (Ret tt, y) →
  mfp_reachable 0xfffa00 0x30 y.
Proof. intros. by eapply reach_op. Qed.

Lemma mfp_busy_reachable : mfp_reachable 0xfffa00 0x30 (after mfp_busy).
Proof.
  assert (mfp_reachable 0xfffa00 0x30 mfp_new) as H0 by (by apply (reach_new _ _ mfp_new)).
  eapply (mfp_reach (OWrite 0xfffa17 0x40)) in H0; [|by apply wd_const|by vm_compute].
  eapply (mfp_reach (OWrite 0xfffa07 0xff)) in H0; [|by apply wd_const|by vm_compute].
  eapply (mfp_reach (OWrite 0xfffa09 0xff)) in H0; [|by apply wd_const|by vm_compute].
  eapply (mfp_reach (OWrite 0xfffa13 0xff)) in H0; [|by apply wd_const|by vm_compute].
  eapply (mfp_reach (OWrite 0xfffa15 0xff)) in H0; [|by apply wd_const|by vm_compute].
  eapply (mfp_reach (ORequest 6 1)) in H0; [|cbn; lia|by vm_compute].
  eapply (mfp_reach (ORequest 13 1)) in H0; [|cbn; lia|by vm_compute].
  exact H0.
Qed.

Lemma mfp_busy_ok : mfp_ok (after mfp_busy).
Proof.
  assert (xkeeps mfp_ok mfp_busy) as H.
  { unfold mfp_busy. xkeeps; first [apply handleWrite_keeps; by apply wd_const | apply IRQ_keeps; lia]. }
  specialize (H mfp_new (reset_ok mfp_new)). unfold after.
  assert ((mfp_busy mfp_new).1 = Ret tt) as E by (vm_compute; reflexivity).
  destruct (mfp_busy mfp_new) as [r y]. cbn [fst snd] in *. by rewrite E in H.
Qed.

Lemma mfp_invariant_witness : mfp_ok (after mfp_busy).
Proof. apply (mfp_invariant 0xfffa00 0x30), mfp_busy_reachable. Defined.

Lemma poll_takes_highest_witness : ∃ y, serve_MFP 3 false (after mfp_busy) = (Ret 0x4d, y) ∧ y.(irq_pending) = 0x40.
Proof.
  destruct (poll_takes_highest (after mfp_busy) 3 false 13 mfp_busy_ok) as (y & E & H1 & H2 & H3);
    [lia|by vm_compute|by vm_compute|by vm_compute|by vm_compute|].
  assert (y = (serve_MFP 3 false (after mfp_busy)).2) as -> by (by rewrite E). by exists (serve_MFP 3 false (after mfp_busy)).2.
Defined.

Lemma polls_serve_all_witness : ∃ y, polls 2 3 (after mfp_busy) = (Ret [0x4d; 0x46], y) ∧ unmasked y = false.
Proof.
  apply (polls_serve_all (after mfp_busy) 3 mfp_busy_ok); [lia|by vm_compute..].
Defined.

Lemma port_edges_request_witness :
  ∃ y, setGPIPbit 0x10 0 (after mfp_busy) = (Ret tt, y) ∧ Z.testbit y.(irq_pending) 6 = true.
Proof.
  destruct (port_edges_request (after mfp_busy) 0x10 0 mfp_busy_ok) as [(y & E & _ & _ & H) _].
  exists y. split; [exact E|]. rewrite H by lia. by vm_compute.
Defined.

(** Timer C as TOS sets it: divisor 64, 192 counts, 200 Hz. *)
Definition mfp_tos : MFP :=
  after (mfp_handleWrite 0xfffa00 0x30 0xfffa1d 0x51 ;; mfp_handleWrite 0xfffa00 0x30 0xfffa23 192).

Lemma timerC_rate_witness : timerC_ms_ticks mfp_tos = (Ret 5, mfp_tos).
Proof. apply (timerC_rate mfp_tos). split; by apply wd_const. Defined.

Lemma tick_no_drift_witness :
  ∃ y, invoke200HzInterrupt (xret tt) (xret tt) 1013 (upd_lastTicks 1000 mfp_tos) = (Ret tt, y) ∧ y.(lastTicks) = 1010.
Proof.
  destruct (tick_no_drift (xret tt) (xret tt) (λ y, ex_intro _ y (conj eq_refl (conj eq_refl eq_refl)))
    (λ y, ex_intro _ y (conj eq_refl (conj eq_refl eq_refl))) (upd_lastTicks 1000 mfp_tos) 1013) as (y & E & H & _);
    [split; by apply wd_const|by vm_compute..|].
  exists y. split; [exact E|]. rewrite H. by vm_compute.
Defined.

Lemma register_roundtrip_witness :
  ∃ y, (mfp_handleWrite 0xfffa00 0x30 (0xfffa00 + 0x13) 0x5a ;; mfp_handleRead 0xfffa00 0x30 None (0xfffa00 + 0x13))
    (after mfp_busy) = (Ret 0x5a, y).
Proof.
  apply (register_roundtrip 0xfffa00 0x30 None (after mfp_busy) 0x13 0x5a mfp_busy_ok);
    [by apply wd_const|by vm_compute; repeat constructor|lia..].
Defined.

(** ** Defects *)

(** A guest that makes timer C faster than 1 kHz stops the emulator: the period in
    milliseconds is 0 and the tick divides by it. *)
Lemma fast_timer_divides_by_zero :
  (let x := after (mfp_handleWrite 0xfffa00 0x30 0xfffa1d 0x11 ;; mfp_handleWrite 0xfffa00 0x30 0xfffa23 1) in
   invoke200HzInterrupt (xret tt) (xret tt) 1013 x).1 = Undef Div_by_zero.
Proof. vm_compute. reflexivity. Qed.

(** With vector base 0 the request of line 0 is acknowledged and then dropped. *)
Lemma vector_zero_is_dropped :
  let x := after (mfp_handleWrite 0xfffa00 0x30 0xfffa17 0x00 ;; mfp_handleWrite 0xfffa00 0x30 0xfffa09 0x01 ;;
                  mfp_handleWrite 0xfffa00 0x30 0xfffa15 0x01 ;; IRQ 0 1) in
  unmasked x = true ∧ (serve_MFP 3 false x).1 = Ret 0 ∧ unmasked (serve_MFP 3 false x).2 = false.
Proof. vm_compute. done. Qed.
