(* ===== verification/Blitter.v ===== *)
(** * Blitter: the bit block transfer processor

    Models [src/blitter.cpp] with [include/blitter.h].  The 128 functions the macro
    [HOP_OPS] makes are one function [hop_op] with the arguments of the macro; which
    of them read the source is [reads_source].  The bus ([ReadAtariInt16] and
    [WriteAtariInt16] of [cpu_emulation.h]) is the interface [Bus]: the blitter's
    theorems need of it only the laws [RamBus], which the machine's physical memory
    satisfies.  [BLITTER_MEMMOVE] and [BLITTER_SDLBLIT] are not defined (the file
    undefines them).  A blit that writes the blitter's own registers through the
    mirror of the hardware space is outside the interface. *)

From S2P Require Import Prelude Throws.
From stdpp Require Import base gmap list numbers.
Open Scope Z_scope.
Open Scope c_scope.
Open Scope x_scope.

(** ** State *)

Record BLITTER := Blitter {
  halftone_ram : gmap Z Z;
  end_mask_1 : Z;
  end_mask_2 : Z;
  end_mask_3 : Z;
  NFSR : bool;
  FXSR : bool;
  x_count : Z;
  y_count : Z;
  hop : Z;
  op : Z;
  line_num : Z;
  skewreg : Z;
  halftone_curroffset : Z;
  halftone_direction : Z;
  source_x_inc : Z;
  source_y_inc : Z;
  dest_x_inc : Z;
  dest_y_inc : Z;
  source_addr : Z;
  source_addr_backup : Z;
  dest_addr : Z;
  dest_addr_backup : Z;
  blit : bool;
}.

Definition put_halftone_ram (v : gmap Z Z) (b : BLITTER) : BLITTER :=
  Blitter v b.(end_mask_1) b.(end_mask_2) b.(end_mask_3) b.(NFSR) b.(FXSR) b.(x_count)
    b.(y_count) b.(hop) b.(op) b.(line_num) b.(skewreg) b.(halftone_curroffset)
    b.(halftone_direction) b.(source_x_inc) b.(source_y_inc) b.(dest_x_inc) b.(dest_y_inc)
    b.(source_addr) b.(source_addr_backup) b.(dest_addr) b.(dest_addr_backup) b.(blit).
Definition put_end_mask_1 (v : Z) (b : BLITTER) : BLITTER :=
  Blitter b.(halftone_ram) v b.(end_mask_2) b.(end_mask_3) b.(NFSR) b.(FXSR) b.(x_count)
    b.(y_count) b.(hop) b.(op) b.(line_num) b.(skewreg) b.(halftone_curroffset)
    b.(halftone_direction) b.(source_x_inc) b.(source_y_inc) b.(dest_x_inc) b.(dest_y_inc)
    b.(source_addr) b.(source_addr_backup) b.(dest_addr) b.(dest_addr_backup) b.(blit).
Definition put_end_mask_2 (v : Z) (b : BLITTER) : BLITTER :=
  Blitter b.(halftone_ram) b.(end_mask_1) v b.(end_mask_3) b.(NFSR) b.(FXSR) b.(x_count)
    b.(y_count) b.(hop) b.(op) b.(line_num) b.(skewreg) b.(halftone_curroffset)
    b.(halftone_direction) b.(source_x_inc) b.(source_y_inc) b.(dest_x_inc) b.(dest_y_inc)
    b.(source_addr) b.(source_addr_backup) b.(dest_addr) b.(dest_addr_backup) b.(blit).
Definition put_end_mask_3 (v : Z) (b : BLITTER) : BLITTER :=
  Blitter b.(halftone_ram) b.(end_mask_1) b.(end_mask_2) v b.(NFSR) b.(FXSR) b.(x_count)
    b.(y_count) b.(hop) b.(op) b.(line_num) b.(skewreg) b.(halftone_curroffset)
    b.(halftone_direction) b.(source_x_inc) b.(source_y_inc) b.(dest_x_inc) b.(dest_y_inc)
    b.(source_addr) b.(source_addr_backup) b.(dest_addr) b.(dest_addr_backup) b.(blit).
Definition put_NFSR (v : bool) (b : BLITTER) : BLITTER :=
  Blitter b.(halftone_ram) b.(end_mask_1) b.(end_mask_2) b.(end_mask_3) v b.(FXSR) b.(x_count)
    b.(y_count) b.(hop) b.(op) b.(line_num) b.(skewreg) b.(halftone_curroffset)
    b.(halftone_direction) b.(source_x_inc) b.(source_y_inc) b.(dest_x_inc) b.(dest_y_inc)
    b.(source_addr) b.(source_addr_backup) b.(dest_addr) b.(dest_addr_backup) b.(blit).
Definition put_FXSR (v : bool) (b : BLITTER) : BLITTER :=
  Blitter b.(halftone_ram) b.(end_mask_1) b.(end_mask_2) b.(end_mask_3) b.(NFSR) v b.(x_count)
    b.(y_count) b.(hop) b.(op) b.(line_num) b.(skewreg) b.(halftone_curroffset)
    b.(halftone_direction) b.(source_x_inc) b.(source_y_inc) b.(dest_x_inc) b.(dest_y_inc)
    b.(source_addr) b.(source_addr_backup) b.(dest_addr) b.(dest_addr_backup) b.(blit).
Definition put_x_count (v : Z) (b : BLITTER) : BLITTER :=
  Blitter b.(halftone_ram) b.(end_mask_1) b.(end_mask_2) b.(end_mask_3) b.(NFSR) b.(FXSR) v
    b.(y_count) b.(hop) b.(op) b.(line_num) b.(skewreg) b.(halftone_curroffset)
    b.(halftone_direction) b.(source_x_inc) b.(source_y_inc) b.(dest_x_inc) b.(dest_y_inc)
    b.(source_addr) b.(source_addr_backup) b.(dest_addr) b.(dest_addr_backup) b.(blit).
Definition put_y_count (v : Z) (b : BLITTER) : BLITTER :=
  Blitter b.(halftone_ram) b.(end_mask_1) b.(end_mask_2) b.(end_mask_3) b.(NFSR) b.(FXSR)
    b.(x_count) v b.(hop) b.(op) b.(line_num) b.(skewreg) b.(halftone_curroffset)
    b.(halftone_direction) b.(source_x_inc) b.(source_y_inc) b.(dest_x_inc) b.(dest_y_inc)
    b.(source_addr) b.(source_addr_backup) b.(dest_addr) b.(dest_addr_backup) b.(blit).
Definition put_hop (v : Z) (b : BLITTER) : BLITTER :=
  Blitter b.(halftone_ram) b.(end_mask_1) b.(end_mask_2) b.(end_mask_3) b.(NFSR) b.(FXSR)
    b.(x_count) b.(y_count) v b.(op) b.(line_num) b.(skewreg) b.(halftone_curroffset)
    b.(halftone_direction) b.(source_x_inc) b.(source_y_inc) b.(dest_x_inc) b.(dest_y_inc)
    b.(source_addr) b.(source_addr_backup) b.(dest_addr) b.(dest_addr_backup) b.(blit).
Definition put_op (v : Z) (b : BLITTER) : BLITTER :=
  Blitter b.(halftone_ram) b.(end_mask_1) b.(end_mask_2) b.(end_mask_3) b.(NFSR) b.(FXSR)
    b.(x_count) b.(y_count) b.(hop) v b.(line_num) b.(skewreg) b.(halftone_curroffset)
    b.(halftone_direction) b.(source_x_inc) b.(source_y_inc) b.(dest_x_inc) b.(dest_y_inc)
    b.(source_addr) b.(source_addr_backup) b.(dest_addr) b.(dest_addr_backup) b.(blit).
Definition put_line_num (v : Z) (b : BLITTER) : BLITTER :=
  Blitter b.(halftone_ram) b.(end_mask_1) b.(end_mask_2) b.(end_mask_3) b.(NFSR) b.(FXSR)
    b.(x_count) b.(y_count) b.(hop) b.(op) v b.(skewreg) b.(halftone_curroffset)
    b.(halftone_direction) b.(source_x_inc) b.(source_y_inc) b.(dest_x_inc) b.(dest_y_inc)
    b.(source_addr) b.(source_addr_backup) b.(dest_addr) b.(dest_addr_backup) b.(blit).
Definition put_skewreg (v : Z) (b : BLITTER) : BLITTER :=
  Blitter b.(halftone_ram) b.(end_mask_1) b.(end_mask_2) b.(end_mask_3) b.(NFSR) b.(FXSR)
    b.(x_count) b.(y_count) b.(hop) b.(op) b.(line_num) v b.(halftone_curroffset)
    b.(halftone_direction) b.(source_x_inc) b.(source_y_inc) b.(dest_x_inc) b.(dest_y_inc)
    b.(source_addr) b.(source_addr_backup) b.(dest_addr) b.(dest_addr_backup) b.(blit).
Definition put_halftone_curroffset (v : Z) (b : BLITTER) : BLITTER :=
  Blitter b.(halftone_ram) b.(end_mask_1) b.(end_mask_2) b.(end_mask_3) b.(NFSR) b.(FXSR)
    b.(x_count) b.(y_count) b.(hop) b.(op) b.(line_num) b.(skewreg) v b.(halftone_direction)
    b.(source_x_inc) b.(source_y_inc) b.(dest_x_inc) b.(dest_y_inc) b.(source_addr)
    b.(source_addr_backup) b.(dest_addr) b.(dest_addr_backup) b.(blit).
Definition put_halftone_direction (v : Z) (b : BLITTER) : BLITTER :=
  Blitter b.(halftone_ram) b.(end_mask_1) b.(end_mask_2) b.(end_mask_3) b.(NFSR) b.(FXSR)
    b.(x_count) b.(y_count) b.(hop) b.(op) b.(line_num) b.(skewreg) b.(halftone_curroffset) v
    b.(source_x_inc) b.(source_y_inc) b.(dest_x_inc) b.(dest_y_inc) b.(source_addr)
    b.(source_addr_backup) b.(dest_addr) b.(dest_addr_backup) b.(blit).
Definition put_source_x_inc (v : Z) (b : BLITTER) : BLITTER :=
  Blitter b.(halftone_ram) b.(end_mask_1) b.(end_mask_2) b.(end_mask_3) b.(NFSR) b.(FXSR)
    b.(x_count) b.(y_count) b.(hop) b.(op) b.(line_num) b.(skewreg) b.(halftone_curroffset)
    b.(halftone_direction) v b.(source_y_inc) b.(dest_x_inc) b.(dest_y_inc) b.(source_addr)
    b.(source_addr_backup) b.(dest_addr) b.(dest_addr_backup) b.(blit).
Definition put_source_y_inc (v : Z) (b : BLITTER) : BLITTER :=
  Blitter b.(halftone_ram) b.(end_mask_1) b.(end_mask_2) b.(end_mask_3) b.(NFSR) b.(FXSR)
    b.(x_count) b.(y_count) b.(hop) b.(op) b.(line_num) b.(skewreg) b.(halftone_curroffset)
    b.(halftone_direction) b.(source_x_inc) v b.(dest_x_inc) b.(dest_y_inc) b.(source_addr)
    b.(source_addr_backup) b.(dest_addr) b.(dest_addr_backup) b.(blit).
Definition put_dest_x_inc (v : Z) (b : BLITTER) : BLITTER :=
  Blitter b.(halftone_ram) b.(end_mask_1) b.(end_mask_2) b.(end_mask_3) b.(NFSR) b.(FXSR)
    b.(x_count) b.(y_count) b.(hop) b.(op) b.(line_num) b.(skewreg) b.(halftone_curroffset)
    b.(halftone_direction) b.(source_x_inc) b.(source_y_inc) v b.(dest_y_inc) b.(source_addr)
    b.(source_addr_backup) b.(dest_addr) b.(dest_addr_backup) b.(blit).
Definition put_dest_y_inc (v : Z) (b : BLITTER) : BLITTER :=
  Blitter b.(halftone_ram) b.(end_mask_1) b.(end_mask_2) b.(end_mask_3) b.(NFSR) b.(FXSR)
    b.(x_count) b.(y_count) b.(hop) b.(op) b.(line_num) b.(skewreg) b.(halftone_curroffset)
    b.(halftone_direction) b.(source_x_inc) b.(source_y_inc) b.(dest_x_inc) v b.(source_addr)
    b.(source_addr_backup) b.(dest_addr) b.(dest_addr_backup) b.(blit).
Definition put_source_addr (v : Z) (b : BLITTER) : BLITTER :=
  Blitter b.(halftone_ram) b.(end_mask_1) b.(end_mask_2) b.(end_mask_3) b.(NFSR) b.(FXSR)
    b.(x_count) b.(y_count) b.(hop) b.(op) b.(line_num) b.(skewreg) b.(halftone_curroffset)
    b.(halftone_direction) b.(source_x_inc) b.(source_y_inc) b.(dest_x_inc) b.(dest_y_inc) v
    b.(source_addr_backup) b.(dest_addr) b.(dest_addr_backup) b.(blit).
Definition put_source_addr_backup (v : Z) (b : BLITTER) : BLITTER :=
  Blitter b.(halftone_ram) b.(end_mask_1) b.(end_mask_2) b.(end_mask_3) b.(NFSR) b.(FXSR)
    b.(x_count) b.(y_count) b.(hop) b.(op) b.(line_num) b.(skewreg) b.(halftone_curroffset)
    b.(halftone_direction) b.(source_x_inc) b.(source_y_inc) b.(dest_x_inc) b.(dest_y_inc)
    b.(source_addr) v b.(dest_addr) b.(dest_addr_backup) b.(blit).
Definition put_dest_addr (v : Z) (b : BLITTER) : BLITTER :=
  Blitter b.(halftone_ram) b.(end_mask_1) b.(end_mask_2) b.(end_mask_3) b.(NFSR) b.(FXSR)
    b.(x_count) b.(y_count) b.(hop) b.(op) b.(line_num) b.(skewreg) b.(halftone_curroffset)
    b.(halftone_direction) b.(source_x_inc) b.(source_y_inc) b.(dest_x_inc) b.(dest_y_inc)
    b.(source_addr) b.(source_addr_backup) v b.(dest_addr_backup) b.(blit).
Definition put_dest_addr_backup (v : Z) (b : BLITTER) : BLITTER :=
  Blitter b.(halftone_ram) b.(end_mask_1) b.(end_mask_2) b.(end_mask_3) b.(NFSR) b.(FXSR)
    b.(x_count) b.(y_count) b.(hop) b.(op) b.(line_num) b.(skewreg) b.(halftone_curroffset)
    b.(halftone_direction) b.(source_x_inc) b.(source_y_inc) b.(dest_x_inc) b.(dest_y_inc)
    b.(source_addr) b.(source_addr_backup) b.(dest_addr) v b.(blit).
Definition put_blit (v : bool) (b : BLITTER) : BLITTER :=
  Blitter b.(halftone_ram) b.(end_mask_1) b.(end_mask_2) b.(end_mask_3) b.(NFSR) b.(FXSR)
    b.(x_count) b.(y_count) b.(hop) b.(op) b.(line_num) b.(skewreg) b.(halftone_curroffset)
    b.(halftone_direction) b.(source_x_inc) b.(source_y_inc) b.(dest_x_inc) b.(dest_y_inc)
    b.(source_addr) b.(source_addr_backup) b.(dest_addr) b.(dest_addr_backup) v.

(** [ReadAtariInt16] and [WriteAtariInt16]. *)
Class Bus (S : Type) := {
  ReadAtariInt16 : Z → X S Z;
  WriteAtariInt16 : Z → Z → X S unit;
}.

Definition blitter_reset (b : BLITTER) : BLITTER :=
  Blitter b.(halftone_ram) 0 0 0 false false 0 0 0 0 0 0 0 0 0 0 0 0 0 b.(source_addr_backup) 0
    b.(dest_addr_backup) false.

(** ** The logic operations *)

(** The sixteen operations, [_op] in the macro: an [int]. *)
Definition blit_op (o opd dst : Z) : Z :=
  match o with
  | 0 => 0
  | 1 => opd .& dst
  | 2 => opd .& Z.lnot dst
  | 3 => opd
  | 4 => Z.lnot opd .& dst
  | 5 => dst
  | 6 => opd .^ dst
  | 7 => opd .| dst
  | 8 => Z.lnot opd .& Z.lnot dst
  | 9 => Z.lnot opd .^ dst
  | 10 => Z.lnot dst
  | 11 => opd .| Z.lnot dst
  | 12 => Z.lnot opd
  | 13 => Z.lnot opd .| dst
  | 14 => Z.lnot opd .| Z.lnot dst
  | _ => 0xffff
  end.

(** Which of the functions fetch source words ([_SRC_READ_N], [_SRC_READ_P]). *)
Definition reads_source (h o : Z) : bool :=
  (2 <=? h) && negb ((o =? 0) || (o =? 5) || (o =? 10) || (o =? 15)).

Section Blitter.
Context {S : Type} {bus : Bus S}.
Local Abbreviation M := (X (BLITTER * S)).

Definition bget {A} (f : BLITTER → A) : M A := xget (λ s, f s.1).
Definition bmod (f : BLITTER → BLITTER) : M unit := xmod (λ s, (f s.1, s.2)).
Definition on_bus {A} (m : X S A) : M A := xzoom snd (λ t s, (s.1, t)) m.

Definition LM_UW (addr : Z) : M Z := on_bus (ReadAtariInt16 addr).

Definition SM_UW (addr value : Z) : M unit :=
  if (addr <=? 0x800) || ((0x0e00000 <=? addr) && (addr <? 0x1000000)) then xret tt
  else on_bus (WriteAtariInt16 addr value).

(** ** One transfer

    [neg] chooses between the functions ending in [_N] and [_P]; [h] and [o] are the
    indices into the tables. *)
Section Hop.
Context (neg : bool) (h o : Z).

Definition source_shift (buf : Z) : Z := if neg then buf >> 16 else buf << 16.

Definition get_source_data (buf : Z) : M Z :=
  if negb (reads_source h o) then xret buf else
  let* a := bget source_addr in
  let* w := LM_UW a in
  xret (buf .| (if neg then w << 16 else w)).

(** [_shifted_hopd_data], as a [UW]. *)
Definition shifted_hopd_data (b : BLITTER) (buf : Z) : Z :=
  let skew := b.(skewreg) .& 15 in
  u16 (match h with
       | 0 => 0xffff
       | 1 => aget b.(halftone_ram) b.(halftone_curroffset)
       | 2 => buf >> skew
       | _ => (buf >> skew) .& aget b.(halftone_ram) b.(halftone_curroffset)
       end).

Definition source_step : M unit := bmod (λ b, put_source_addr (b.(source_addr) +u b.(source_x_inc)) b).
Definition dest_step : M unit := bmod (λ b, put_dest_addr (b.(dest_addr) +u b.(dest_x_inc)) b).

(** The destination word is read, combined under the mask and written back. *)
Definition combine_word (mask : BLITTER → Z) (buf : Z) : M unit :=
  let* a := bget dest_addr in
  let* dst_data := LM_UW a in
  let* b := bget id in
  let opd_data := shifted_hopd_data b buf in
  SM_UW a (Z.ldiff dst_data (mask b) .| (blit_op o opd_data dst_data .& mask b)).

(** The words between the first and the last: [n] turns of the [for] loop. *)
Fixpoint middle_words (n : nat) (buf : Z) : M Z :=
  match n with
  | O => xret buf
  | Datatypes.S n =>
      source_step ;; dest_step ;;
      let* buf := get_source_data (source_shift buf) in
      combine_word end_mask_2 buf ;;
      middle_words n buf
  end.

(** [(~(0xffff>>skew)) > b.end_mask_3] compares [int]s. *)
Definition final_fetch (b : BLITTER) : bool :=
  negb b.(NFSR) || (b.(end_mask_3) <? Z.lnot (0xffff >> (b.(skewreg) .& 15))).

Definition last_word (buf : Z) : M Z :=
  dest_step ;;
  let buf := source_shift buf in
  let* b := bget id in
  let* buf := (if final_fetch b then source_step ;; get_source_data buf else xret buf) in
  combine_word end_mask_3 buf ;;
  xret buf.

Definition halftone_inc : M unit :=
  if (h =? 1) || (h =? 3) then
    bmod (λ b, put_halftone_curroffset ((b.(halftone_curroffset) + b.(halftone_direction)) .& 15) b)
  else xret tt.

(** The body of the [do] loop: the words of a line, and the step to the next line. *)
Definition blit_words (buf : Z) : M Z :=
  let* fxsr := bget FXSR in
  let* buf := (if fxsr then
      let* buf := get_source_data (source_shift buf) in source_step ;; xret buf
    else xret buf) in
  let* buf := get_source_data (source_shift buf) in
  combine_word end_mask_1 buf ;;
  let* n := bget x_count in
  let* buf := middle_words (Z.to_nat (n - 2)) buf in
  if 2 <=? n then last_word buf else xret buf.

Definition blit_line (buf : Z) : M Z :=
  let* buf := blit_words buf in
  bmod (λ b, put_source_addr (b.(source_addr) +u b.(source_y_inc)) b) ;;
  bmod (λ b, put_dest_addr (b.(dest_addr) +u b.(dest_y_inc)) b) ;;
  halftone_inc ;;
  xret buf.

(** [do ... while (--b.y_count > 0)], at most [fuel] turns. *)
Fixpoint blit_lines (fuel : nat) (buf : Z) : M unit :=
  match fuel with
  | O => xundef No_fuel
  | Datatypes.S fuel =>
      let* buf := blit_line buf in
      bmod (λ b, put_y_count (u16 (b.(y_count) - 1)) b) ;;
      let* n := bget y_count in
      if 0 <? n then blit_lines fuel buf else xret tt
  end.

Definition halftone_start (b : BLITTER) : BLITTER :=
  if tst b.(hop) 1 then
    let b := put_halftone_curroffset (if tst b.(line_num) 0x20 then b.(skewreg) .& 15 else b.(line_num) .& 15) b in
    put_halftone_direction (if 0 <=? b.(dest_y_inc) then 1 else -1) b
  else b.

Definition hop_op : M unit :=
  bmod halftone_start ;;
  blit_lines (Z.to_nat 65536) 0.
End Hop.

Definition Do_Blit : M unit :=
  let* b := bget id in
  xwhen (negb (b.(source_addr) =? b.(source_addr_backup))) (bmod (λ b, put_source_addr b.(source_addr_backup) b)) ;;
  xwhen (negb (b.(dest_addr) =? b.(dest_addr_backup))) (bmod (λ b, put_dest_addr b.(dest_addr_backup) b)) ;;
  let* b := bget id in
  let outside a hi := (a <=? 0x800) || ((hi <=? a) && (a <? 0x1000000)) in
  if negb (b.(hop) =? 0) && negb (b.(hop) =? 1) && negb (b.(op) =? 0) && negb (b.(op) =? 5)
     && negb (b.(op) =? 10) && negb (b.(op) =? 15) && outside b.(source_addr) 0x0e80000 then xret tt
  else if outside b.(dest_addr) 0x0e00000 then xret tt
  else hop_op (b.(source_x_inc) <? 0) b.(hop) b.(op).

(** ** The registers *)

Definition LOAD_B_ff8a3c (b : BLITTER) : Z := b.(line_num) .& 0x3f.
Definition STORE_B_ff8a3a (v : Z) : BLITTER → BLITTER := put_hop (v .& 3).
Definition STORE_B_ff8a3b (v : Z) : BLITTER → BLITTER := put_op (v .& 15).
Definition STORE_B_ff8a3c (v : Z) (b : BLITTER) : BLITTER :=
  let b := put_line_num (v .& 0x3f) b in
  if negb (b.(y_count) =? 0) && tst v 0x80 then put_blit true b else b.
Definition STORE_B_ff8a3d (v : Z) (b : BLITTER) : BLITTER :=
  put_skewreg (v .& 0xcf) (put_FXSR (tst v 0x80) (put_NFSR (tst v 0x40) b)).

(** The end of the write handlers: a blit that was started runs to its end. *)
Definition start_blit : M unit :=
  let* go := bget blit in
  xwhen go (Do_Blit ;; bmod (put_blit false)).

Context (HWoffset : Z).

Definition blitter_handleRead (addr : Z) : M Z :=
  let* b := bget id in
  match addr -u HWoffset with
  | 0x3a => xret b.(hop)
  | 0x3b => xret b.(op)
  | 0x3c => xret (LOAD_B_ff8a3c b)
  | 0x3d => xret b.(skewreg)
  | _ => xret 0
  end.

Definition blitter_handleReadW (addr : Z) : M Z :=
  let a := addr -u HWoffset in
  let* b := bget id in
  if a <? 0x20 then xret (aget b.(halftone_ram) (a / 2)) else
  match a with
  | 0x20 => xret (u16 b.(source_x_inc))
  | 0x22 => xret (u16 b.(source_y_inc))
  | 0x24 => xret ((b.(source_addr) >> 16) .& 0xffff)
  | 0x26 => xret (b.(source_addr) .& 0xffff)
  | 0x28 => xret b.(end_mask_1)
  | 0x2a => xret b.(end_mask_2)
  | 0x2c => xret b.(end_mask_3)
  | 0x2e => xret (u16 b.(dest_x_inc))
  | 0x30 => xret (u16 b.(dest_y_inc))
  | 0x32 => xret ((b.(dest_addr) >> 16) .& 0xffff)
  | 0x34 => xret (b.(dest_addr) .& 0xffff)
  | 0x36 => xret b.(x_count)
  | 0x38 => xret b.(y_count)
  | 0x3a | 0x3c =>
      let* hi := blitter_handleRead addr in
      let* lo := blitter_handleRead (addr +u 1) in
      xret (Z.shiftl hi 8 .| lo)
  | _ => xret 0
  end.

Definition blitter_handleReadL (addr : Z) : M Z :=
  let a := addr -u HWoffset in
  let* b := bget id in
  if a <? 0x20 then
    let* hi := blitter_handleReadW addr in
    let* lo := blitter_handleReadW (addr +u 2) in
    xret ((hi << 16) .| lo)
  else
  match a with
  | 0x24 => xret b.(source_addr)
  | 0x32 => xret b.(dest_addr)
  | _ => xret 0
  end.

Definition blitter_handleWrite (addr value : Z) : M unit :=
  (match addr -u HWoffset with
   | 0x3a => bmod (STORE_B_ff8a3a value)
   | 0x3b => bmod (STORE_B_ff8a3b value)
   | 0x3c => bmod (STORE_B_ff8a3c value)
   | 0x3d => bmod (STORE_B_ff8a3d value)
   | _ => xret tt
   end) ;;
  start_blit.

Definition set_source (v : Z) (b : BLITTER) : BLITTER := put_source_addr_backup v (put_source_addr v b).
Definition set_dest (v : Z) (b : BLITTER) : BLITTER := put_dest_addr_backup v (put_dest_addr v b).

Definition blitter_handleWriteW (addr value : Z) : M unit :=
  let a := addr -u HWoffset in
  if a <? 0x20 then bmod (λ b, put_halftone_ram (aset (a / 2) value b.(halftone_ram)) b) else
  (match a with
   | 0x20 => bmod (put_source_x_inc (s16 value))
   | 0x22 => bmod (put_source_y_inc (s16 value))
   | 0x24 => bmod (λ b, set_source ((b.(source_addr) .& 0x0000ffff) .| (value << 16)) b)
   | 0x26 => bmod (λ b, set_source ((b.(source_addr) .& 0xffff0000) .| (value .& 0xfffe)) b)
   | 0x28 => bmod (put_end_mask_1 value)
   | 0x2a => bmod (put_end_mask_2 value)
   | 0x2c => bmod (put_end_mask_3 value)
   | 0x2e => bmod (put_dest_x_inc (s16 value))
   | 0x30 => bmod (put_dest_y_inc (s16 value))
   | 0x32 => bmod (λ b, set_dest ((b.(dest_addr) .& 0x0000ffff) .| (value << 16)) b)
   | 0x34 => bmod (λ b, set_dest ((b.(dest_addr) .& 0xffff0000) .| (value .& 0xfffe)) b)
   | 0x36 => bmod (put_x_count value)
   | 0x38 => bmod (put_y_count value)
   | 0x3a => bmod (STORE_B_ff8a3a (value >> 8)) ;; bmod (STORE_B_ff8a3b (u8 value))
   | 0x3c => bmod (STORE_B_ff8a3c (value >> 8)) ;; bmod (STORE_B_ff8a3d (u8 value))
   | _ => xret tt
   end) ;;
  start_blit.

Definition blitter_handleWriteL (addr value : Z) : M unit :=
  match addr -u HWoffset with
  | 0x24 => bmod (set_source (value .& 0xfffffffe))
  | 0x32 => bmod (set_dest (value .& 0xfffffffe))
  | _ => blitter_handleWriteW addr (value >> 16) ;; blitter_handleWriteW (addr +u 2) (u16 value)
  end.
End Blitter.
