(* ===== verification/BlitterSpec.v ===== *)
(** * BlitterSpec: what a blit does to memory

    A blit walks over [lines] lines of [width] words; [D y x] is the address of a
    destination word and [W y x] the source word that belongs to it, both in closed
    form.  [blit_paints]: if the words of the destination are apart from each other
    and from the source, the blit replaces each destination word by the combination,
    under the mask of its column, of the old word and the skewed and halftoned source,
    and leaves all other memory alone; the counters and addresses it leaves are those
    of the closed form. *)

From S2P Require Import Prelude Throws Blitter.
From stdpp Require Import base gmap list numbers.
Open Scope Z_scope.
Open Scope c_scope.
Open Scope x_scope.

(** Two words that share no byte. *)
Definition apart (a b : Z) : Prop := a + 2 <= b ∨ b + 2 <= a.

(** The memory behind the bus: words at the addresses in [ram_ok]. *)
Class RamBus (S : Type) {bus : Bus S} := {
  ram_ok : Z → Prop;
  word_at : S → Z → Z;
  word_range s a : 0 <= word_at s a < 65536;
  ram_writable a : ram_ok a → 0x800 < a ∧ (a < 0x0e00000 ∨ 0x1000000 <= a);
  ram_read a s : ram_ok a →
    ∃ s', ReadAtariInt16 a s = (Ret (word_at s a), s') ∧ ∀ b, word_at s' b = word_at s b;
  ram_write a v s : ram_ok a → 0 <= v < 65536 →
    ∃ s', WriteAtariInt16 a v s = (Ret tt, s') ∧ word_at s' a = v ∧ ∀ b, apart a b → word_at s' b = word_at s b;
}.

(** ** Words and masks *)

Lemma blend_range d mask r : 0 <= d < 65536 → 0 <= mask < 65536 → 0 <= Z.ldiff d mask .| (r .& mask) < 65536.
Proof.
  intros Hd Hm. apply (lor_range _ _ 16); [lia| |by apply (land_range_r _ _ 16)].
  apply bits_range; [lia|]. intros i Hi. by rewrite Z.ldiff_spec, (range_bits d 16).
Qed.

(** The source buffer: the word before and the word of this column. *)
Definition buffer (neg : bool) (prev cur : Z) : Z := if neg then cur * 65536 + prev else prev * 65536 + cur.

(** The part of the buffer that the next shift keeps. *)
Lemma shift_in_word neg prev cur w : 0 <= prev < 65536 → 0 <= cur < 65536 → 0 <= w < 65536 →
  source_shift neg (buffer neg prev cur) .| (if neg then w << 16 else w) = buffer neg cur w.
Proof.
  intros Hp Hc Hw. unfold source_shift, buffer. destruct neg.
  - rewrite Z.shiftr_div_pow2, Z.shiftl_mul_pow2 by lia. change (2 ^ 16) with 65536.
    rewrite u32_small by lia. rewrite Z.div_add_l, Z.div_small, Z.add_0_r by lia. rewrite Z.lor_comm.
    change 65536 with (2 ^ 16). apply lor_disjoint_add; [lia|done].
  - rewrite Z.shiftl_mul_pow2 by lia. change (2 ^ 16) with 65536. unfold u32.
    replace ((prev * 65536 + cur) * 65536) with (cur * 65536 + prev * 4294967296) by lia.
    rewrite Z.mod_add, Z.mod_small by lia. change 65536 with (2 ^ 16). apply lor_disjoint_add; [lia|done].
Qed.

Lemma shift_no_word neg prev cur : 0 <= prev < 65536 → 0 <= cur < 65536 →
  source_shift neg (buffer neg prev cur) = buffer neg cur 0.
Proof.
  intros Hp Hc. rewrite <-(shift_in_word neg prev cur 0) by lia. destruct neg; by rewrite Z.lor_0_r.
Qed.

(** ** The geometry of a blit *)

Section Geometry.
Context (b0 : BLITTER) (neg : bool) (h o : Z).

Definition width : Z := Z.max 1 b0.(x_count).
Definition lines : Z := b0.(y_count).
Definition fx : Z := if b0.(FXSR) then 1 else 0.

(** The last column fetches a source word, unless NFSR forbids it. *)
Definition fetches (x : Z) : bool := negb ((0 <? x) && (x =? width - 1)) || final_fetch b0.

(** Source words of a line, and the step to the next line. *)
Definition line_words : Z := fx + (width - 1) - (if fetches (width - 1) then 0 else 1).
Definition source_line : Z := line_words * b0.(source_x_inc) + b0.(source_y_inc).
Definition dest_line : Z := (width - 1) * b0.(dest_x_inc) + b0.(dest_y_inc).

Definition Src (y x : Z) : Z := u32 (b0.(source_addr) + y * source_line + (fx + x) * b0.(source_x_inc)).
Definition D (y x : Z) : Z := u32 (b0.(dest_addr) + y * dest_line + x * b0.(dest_x_inc)).

Definition inside (y x : Z) : Prop := 0 <= y < lines ∧ 0 <= x < width.

Definition column_mask (x : Z) : Z :=
  if x =? 0 then b0.(end_mask_1) else if x =? width - 1 then b0.(end_mask_3) else b0.(end_mask_2).

(** The row of the halftone pattern for line [y]. *)
Definition tone (y : Z) : Z :=
  if (h =? 1) || (h =? 3) then (b0.(halftone_curroffset) + y * b0.(halftone_direction)) mod 16
  else b0.(halftone_curroffset).

(** The words that meet in the source buffer, from the memory [m]. *)
Definition cur (m : Z → Z) (y x : Z) : Z :=
  if reads_source h o && fetches x then m (Src y x) else 0.
Definition prev (m : Z → Z) (y x : Z) : Z :=
  if 0 <? x then cur m y (x - 1)
  else if b0.(FXSR) then (if reads_source h o then m (Src y (-1)) else 0)
  else if 0 <? y then cur m (y - 1) (width - 1) else 0.

Definition source_word (m : Z → Z) (y x : Z) : Z :=
  shifted_hopd_data h (put_halftone_curroffset (tone y) b0) (buffer neg (prev m y x) (cur m y x)).

Definition new_word (m : Z → Z) (y x : Z) : Z :=
  let old := m (D y x) in
  Z.ldiff old (column_mask x) .| (blit_op o (source_word m y x) old .& column_mask x).
End Geometry.

(** ** Running a blit *)

Section Run.
Context {S : Type} {bus : Bus S} {ram : RamBus S}.
Context (b0 : BLITTER) (s0 : S) (neg : bool) (h o : Z).
Local Abbreviation m0 := (word_at s0).
Local Abbreviation D := (D b0).
Local Abbreviation Src := (Src b0).
Local Abbreviation cur := (cur b0 h o m0).
Local Abbreviation prev := (prev b0 h o m0).
Local Abbreviation inside := (inside b0).
Implicit Types (x y : Z) (s : S).

(** What the blit is given: registers in range, all words it touches in RAM, and
    destination words apart from each other and from the source. *)
Record blit_fits : Prop := {
  bf_mask1 : 0 <= b0.(end_mask_1) < 65536;
  bf_mask2 : 0 <= b0.(end_mask_2) < 65536;
  bf_mask3 : 0 <= b0.(end_mask_3) < 65536;
  bf_x : 0 <= b0.(x_count) < 65536;
  bf_y : 0 < b0.(y_count) < 65536;
  bf_source : 0 <= b0.(source_addr) < 2 ^ 32;
  bf_dest : 0 <= b0.(dest_addr) < 2 ^ 32;
  bf_tone : (h =? 1) || (h =? 3) = true → 0 <= b0.(halftone_curroffset) < 16;
  bf_dest_ram y x : inside y x → ram_ok (D y x);
  bf_dest_apart y x y' x' : inside y x → inside y' x' → y ≠ y' ∨ x ≠ x' → apart (D y x) (D y' x');
  bf_source_ram y x : reads_source h o = true → 0 <= y < lines b0 → - fx b0 <= x < width b0 → ram_ok (Src y x);
  bf_source_apart y x y' x' : reads_source h o = true → 0 <= y < lines b0 → - fx b0 <= x < width b0 →
    inside y' x' → apart (D y' x') (Src y x);
}.
Hypothesis fits : blit_fits.

Definition at_ (sa da yc ho : Z) : BLITTER :=
  put_source_addr sa (put_dest_addr da (put_y_count yc (put_halftone_curroffset ho b0))).

Definition same_words s s' : Prop := ∀ a, word_at s' a = word_at s a.

Definition before (y' x' y x : Z) : Prop := y' < y ∨ (y' = y ∧ x' < x).

(** All cells before [(y, x)] are done, the rest is as it was. *)
Record painted (y x : Z) s : Prop := {
  p_done y' x' : inside y' x' → before y' x' y x → word_at s (D y' x') = new_word b0 neg h o m0 y' x';
  p_rest a : (∀ y' x', inside y' x' → before y' x' y x → apart (D y' x') a) → word_at s a = m0 a;
}.

Lemma painted_same y x s s' : painted y x s → same_words s s' → painted y x s'.
Proof. intros [H1 H2] Hs. split; intros; rewrite Hs; auto. Qed.

(** Before the first cell of the next line is after the last one of this. *)
Lemma painted_next_line y s : painted y (width b0) s → painted (y + 1) 0 s.
Proof.
  intros [H1 H2]. split.
  - intros y' x' Hin Hb. apply H1; [done|]. unfold before, inside in *. lia.
  - intros a Ha. apply H2. intros y' x' Hin Hb. apply Ha; [done|]. unfold before in *. lia.
Qed.

Lemma painted_start : painted 0 0 s0.
Proof. split; [|done]. intros y' x' Hin Hb. unfold before, inside in *. lia. Qed.

Lemma LM_ok a b s : ram_ok a → ∃ s', LM_UW a (b, s) = (Ret (word_at s a), (b, s')) ∧ same_words s s'.
Proof.
  intros Ha. destruct (ram_read a s Ha) as (s' & E & Hs). exists s'. split; [|done].
  unfold LM_UW, on_bus, xzoom. cbn [snd fst]. by rewrite E.
Qed.

(** Source and unpainted words still hold what they held at the start. *)
Lemma source_kept y x y' x' s : reads_source h o = true → 0 <= y < lines b0 → - fx b0 <= x < width b0 →
  painted y' x' s → word_at s (Src y x) = m0 (Src y x).
Proof. intros Hr Hy Hx [_ Hp]. apply Hp. intros. by apply (bf_source_apart fits). Qed.

Lemma dest_kept y x s : inside y x → painted y x s → word_at s (D y x) = m0 (D y x).
Proof.
  intros Hin [_ Hp]. apply Hp. intros y' x' Hin' Hb. apply (bf_dest_apart fits); [done..|].
  unfold before in Hb. lia.
Qed.

Lemma column_mask_range x : 0 <= column_mask b0 x < 65536.
Proof. unfold column_mask. repeat case_match; apply fits. Qed.

Lemma combine_ok y x sa yc mask s : inside y x → painted y x s →
  mask (at_ sa (D y x) yc (tone b0 h y)) = column_mask b0 x →
  ∃ s', combine_word h o mask (buffer neg (prev y x) (cur y x)) (at_ sa (D y x) yc (tone b0 h y), s) =
    (Ret tt, (at_ sa (D y x) yc (tone b0 h y), s')) ∧ painted y (x + 1) s'.
Proof.
  intros Hin Hp Hm. pose proof (bf_dest_ram fits y x Hin) as Hram. unfold combine_word.
  erewrite xbind_ret by done. set (b := at_ sa (D y x) yc (tone b0 h y)) in *. change (dest_addr (b, s).1) with (D y x).
  destruct (LM_ok (D y x) b s Hram) as (s1 & E1 & Hs1). rewrite (xbind_ret _ _ _ _ _ E1).
  erewrite xbind_ret by done. unfold id. cbn [fst]. cbv zeta. rewrite Hm.
  change (shifted_hopd_data h b (buffer neg (prev y x) (cur y x))) with (source_word b0 neg h o m0 y x).
  rewrite (dest_kept y x s Hin Hp).
  change (Z.ldiff (m0 (D y x)) (column_mask b0 x) .| (blit_op o (source_word b0 neg h o m0 y x) (m0 (D y x)) .& column_mask b0 x))
    with (new_word b0 neg h o m0 y x).
  assert (0 <= new_word b0 neg h o m0 y x < 65536) as Hr by (apply blend_range; [apply word_range|apply column_mask_range]).
  destruct (ram_write (D y x) (new_word b0 neg h o m0 y x) s1 Hram Hr) as (s2 & E2 & Hw & Ho).
  exists s2. split.
  - unfold SM_UW. destruct (ram_writable _ Hram) as [H1 H2].
    rewrite (proj2 (Z.leb_gt (D y x) 0x800)) by lia. cbn [orb].
    assert ((0x0e00000 <=? D y x) && (D y x <? 0x1000000) = false) as ->.
    { apply andb_false_iff. rewrite Z.leb_gt, Z.ltb_ge. lia. }
    unfold on_bus, xzoom. cbn [snd fst]. by rewrite E2.
  - apply (painted_same y x s s1) in Hp as [H1 H2]; [|done]. split.
    + intros y' x' Hin' Hb. destruct (decide (y' = y ∧ x' = x)) as [[-> ->]|Hne]; [done|].
      assert (before y' x' y x) by (unfold before in *; lia).
      rewrite Ho; [by apply H1|]. apply (bf_dest_apart fits); [done..|]. lia.
    + intros a Ha. rewrite Ho by (apply Ha; [done|unfold before; lia]). apply H2. intros y' x' Hin' Hb. apply Ha; [done|].
      unfold before in *. lia.
Qed.

Lemma word_or_zero (c : bool) a : 0 <= (if c then m0 a else 0) < 65536.
Proof. destruct c; [apply word_range|lia]. Qed.

Lemma cur_range y x : 0 <= cur y x < 65536.
Proof. apply word_or_zero. Qed.

Lemma prev_range y x : 0 <= prev y x < 65536.
Proof.
  unfold BlitterSpec.prev. destruct (0 <? x); [apply cur_range|]. destruct (FXSR b0); [apply word_or_zero|].
  destruct (0 <? y); [apply cur_range|lia].
Qed.

(** Fetching a word of the source. *)
Lemma fetch_ok y x y' x' p c da yc ho s : 0 <= y < lines b0 → - fx b0 <= x < width b0 → painted y' x' s →
  0 <= p < 65536 → 0 <= c < 65536 →
  let b := at_ (Src y x) da yc ho in
  ∃ s', get_source_data neg h o (source_shift neg (buffer neg p c)) (b, s) =
    (Ret (buffer neg c (if reads_source h o then m0 (Src y x) else 0)), (b, s')) ∧ same_words s s'.
Proof.
  intros Hy Hx Hp Hpr Hc b. unfold get_source_data. destruct (reads_source h o) eqn:Er; cbn [negb].
  - erewrite xbind_ret by done. change (source_addr (b, s).1) with (Src y x).
    destruct (LM_ok (Src y x) b s) as (s1 & E1 & Hs1); [by apply (bf_source_ram fits)|].
    rewrite (xbind_ret _ _ _ _ _ E1). exists s1. split; [|done].
    rewrite (source_kept y x y' x') by done. rewrite shift_in_word by (done || apply word_range). done.
  - exists s. split; [|done]. by rewrite shift_no_word.
Qed.

Lemma cur_fetched y x : fetches b0 x = true → (if reads_source h o then m0 (Src y x) else 0) = cur y x.
Proof. intros H. unfold BlitterSpec.cur. by rewrite H, andb_true_r. Qed.

(** The addresses move as the closed form says. *)
Lemma source_next y x : u32 (Src y x + b0.(source_x_inc)) = Src y (x + 1).
Proof. unfold BlitterSpec.Src, u32. rewrite Z.add_mod_idemp_l by lia. f_equal. lia. Qed.
Lemma dest_next y x : u32 (D y x + b0.(dest_x_inc)) = D y (x + 1).
Proof. unfold BlitterSpec.D, u32. rewrite Z.add_mod_idemp_l by lia. f_equal. lia. Qed.

Lemma source_step_ok y x da yc ho s :
  source_step (at_ (Src y x) da yc ho, s) = (Ret tt, (at_ (Src y (x + 1)) da yc ho, s)).
Proof. unfold source_step, bmod, xmod. do 2 f_equal. rewrite <-source_next. done. Qed.
Lemma dest_step_ok y x sa yc ho s :
  dest_step (at_ sa (D y x) yc ho, s) = (Ret tt, (at_ sa (D y (x + 1)) yc ho, s)).
Proof. unfold dest_step, bmod, xmod. do 2 f_equal. rewrite <-dest_next. done. Qed.

Lemma fetches_inner x : x < width b0 - 1 → fetches b0 x = true.
Proof. intros H. unfold fetches. rewrite (proj2 (Z.eqb_neq x _)) by lia. by rewrite andb_false_r. Qed.

Lemma prev_next y x : 0 <= x → prev y (x + 1) = cur y x.
Proof. intros Hx. unfold BlitterSpec.prev. rewrite (proj2 (Z.ltb_lt 0 (x + 1))) by lia. f_equal. lia. Qed.

(** The state after column [x] of line [y]. *)
Definition col_state y x yc : BLITTER := at_ (Src y x) (D y x) yc (tone b0 h y).
Definition col_buffer y x : Z := buffer neg (prev y x) (cur y x).

Lemma middle_words_ok n : ∀ y x yc s, 0 <= y < lines b0 → 0 <= x → x + Z.of_nat n <= width b0 - 2 → painted y (x + 1) s →
  ∃ s', middle_words neg h o n (col_buffer y x) (col_state y x yc, s) =
    (Ret (col_buffer y (x + Z.of_nat n)), (col_state y (x + Z.of_nat n) yc, s')) ∧ painted y (x + Z.of_nat n + 1) s'.
Proof.
  induction n as [|n IH]; intros y x yc s Hy Hx Hn Hp.
  { exists s. by rewrite Z.add_0_r. }
  cbn [middle_words]. unfold col_state at 1. rewrite (xbind_ret _ _ _ _ _ (source_step_ok y x _ _ _ s)).
  rewrite (xbind_ret _ _ _ _ _ (dest_step_ok y x _ _ _ s)).
  assert (0 <= fx b0) by (unfold fx; destruct (FXSR b0); lia).
  destruct (fetch_ok y (x + 1) y (x + 1) (prev y x) (cur y x) (D y (x + 1)) yc (tone b0 h y) s) as (s1 & E1 & Hs1);
    [done|lia|done|apply prev_range|apply cur_range|].
  unfold col_buffer at 1. rewrite (xbind_ret _ _ _ _ _ E1), (cur_fetched y (x + 1)) by (apply fetches_inner; lia).
  rewrite <-(prev_next y x) by done.
  destruct (combine_ok y (x + 1) (Src y (x + 1)) yc end_mask_2 s1) as (s2 & E2 & Hp2).
  { unfold BlitterSpec.inside. lia. }
  { by eapply painted_same. }
  { unfold column_mask. rewrite (proj2 (Z.eqb_neq (x + 1) 0)), (proj2 (Z.eqb_neq (x + 1) (width b0 - 1))) by lia. done. }
  rewrite (xbind_ret _ _ _ _ _ E2).
  destruct (IH y (x + 1) yc s2) as (s3 & E3 & Hp3); [done|lia|lia|done|].
  exists s3. replace (x + Z.of_nat (Datatypes.S n)) with (x + 1 + Z.of_nat n) by lia. done.
Qed.

(** The source address at the end of the words of a line. *)
Definition line_end y : Z := if fetches b0 (width b0 - 1) then Src y (width b0 - 1) else Src y (width b0 - 2).

Lemma last_word_ok y yc s : 0 <= y < lines b0 → 2 <= width b0 → painted y (width b0 - 1) s →
  ∃ s', last_word neg h o (col_buffer y (width b0 - 2)) (col_state y (width b0 - 2) yc, s) =
    (Ret (col_buffer y (width b0 - 1)), (at_ (line_end y) (D y (width b0 - 1)) yc (tone b0 h y), s')) ∧
    painted y (width b0) s'.
Proof.
  intros Hy Hw Hp. unfold last_word, col_state. rewrite (xbind_ret _ _ _ _ _ (dest_step_ok y (width b0 - 2) _ _ _ s)).
  replace (width b0 - 2 + 1) with (width b0 - 1) by lia. erewrite xbind_ret by done. cbv zeta. unfold id. cbn [fst].
  assert (0 <= fx b0) by (unfold fx; destruct (FXSR b0); lia).
  assert (∀ sa da ho, final_fetch (at_ sa da yc ho) = fetches b0 (width b0 - 1)) as Hf.
  { intros sa da ho. unfold fetches. rewrite (proj2 (Z.ltb_lt 0 _)), Z.eqb_refl by lia. done. }
  rewrite Hf.
  assert (∃ s1, (if fetches b0 (width b0 - 1) then
      source_step ;; get_source_data neg h o (source_shift neg (col_buffer y (width b0 - 2)))
      else xret (source_shift neg (col_buffer y (width b0 - 2))))
      (at_ (Src y (width b0 - 2)) (D y (width b0 - 1)) yc (tone b0 h y), s) =
    (Ret (col_buffer y (width b0 - 1)), (at_ (line_end y) (D y (width b0 - 1)) yc (tone b0 h y), s1)) ∧ same_words s s1)
    as (s1 & E1 & Hs1).
  { unfold line_end. assert (prev y (width b0 - 1) = cur y (width b0 - 2)) as Hpv.
    { rewrite <-(prev_next y (width b0 - 2)) by lia. f_equal. lia. }
    unfold col_buffer. rewrite Hpv. destruct (fetches b0 (width b0 - 1)) eqn:Ef.
    - rewrite (xbind_ret _ _ _ _ _ (source_step_ok y (width b0 - 2) _ _ _ s)).
      replace (width b0 - 2 + 1) with (width b0 - 1) by lia.
      destruct (fetch_ok y (width b0 - 1) y (width b0 - 1) (prev y (width b0 - 2)) (cur y (width b0 - 2))
        (D y (width b0 - 1)) yc (tone b0 h y) s) as (s1 & E1 & Hs1); [done|lia|done|apply prev_range|apply cur_range|].
      rewrite E1, (cur_fetched y (width b0 - 1)) by done. by exists s1.
    - exists s. split; [|done]. rewrite shift_no_word by (apply prev_range || apply cur_range).
      assert (cur y (width b0 - 1) = 0) as -> by (unfold BlitterSpec.cur; by rewrite Ef, andb_false_r). done. }
  rewrite (xbind_ret _ _ _ _ _ E1).
  destruct (combine_ok y (width b0 - 1) (line_end y) yc end_mask_3 s1) as (s2 & E2 & Hp2).
  { unfold BlitterSpec.inside. lia. }
  { by eapply painted_same. }
  { unfold column_mask. rewrite (proj2 (Z.eqb_neq (width b0 - 1) 0)), Z.eqb_refl by lia. done. }
  rewrite (xbind_ret _ _ _ _ _ E2). replace (width b0 - 1 + 1) with (width b0) in Hp2 by lia. exists s2. by split.
Qed.

(** The word the buffer holds when line [y] begins. *)
Definition held y : Z := if 0 <? y then cur (y - 1) (width b0 - 1) else 0.

Lemma held_range y : 0 <= held y < 65536.
Proof. unfold held. destruct (0 <? y); [apply cur_range|lia]. Qed.

Definition line_state y yc : BLITTER := at_ (Src y (- fx b0)) (D y 0) yc (tone b0 h y).

(** The optional extra fetch. *)
Lemma extra_fetch_ok y p yc s : 0 <= y < lines b0 → painted y 0 s → 0 <= p < 65536 →
  ∃ p' s', (let* fxsr := bget FXSR in
     if fxsr then let* buf := get_source_data neg h o (source_shift neg (buffer neg p (held y))) in source_step ;; xret buf
     else xret (buffer neg p (held y))) (line_state y yc, s) =
    (Ret (buffer neg p' (prev y 0)), (col_state y 0 yc, s')) ∧ same_words s s' ∧ 0 <= p' < 65536.
Proof.
  intros Hy Hp Hpr. erewrite xbind_ret by done. change (FXSR (line_state y yc, s).1) with b0.(FXSR).
  assert (1 <= width b0) by (unfold width; lia). unfold line_state, col_state. unfold BlitterSpec.prev. cbn [Z.ltb Z.compare].
  destruct (FXSR b0) eqn:Ef.
  - assert (fx b0 = 1) as Hfx by (unfold fx; by rewrite Ef). rewrite Hfx.
    destruct (fetch_ok y (-1) y 0 p (held y) (D y 0) yc (tone b0 h y) s) as (s1 & E1 & Hs1);
      [done|lia|done|done|apply held_range|].
    rewrite (xbind_ret _ _ _ _ _ E1), (xbind_ret _ _ _ _ _ (source_step_ok y (-1) _ _ _ s1)).
    exists (held y), s1. split; [done|]. split; [done|apply held_range].
  - assert (fx b0 = 0) as Hfx by (unfold fx; by rewrite Ef). rewrite Hfx. exists p, s. by split.
Qed.

(** The words of a line. *)
Lemma line_words_ok y p yc s : 0 <= y < lines b0 → painted y 0 s → 0 <= p < 65536 →
  ∃ s', blit_words neg h o (buffer neg p (held y)) (line_state y yc, s) =
    (Ret (col_buffer y (width b0 - 1)), (at_ (line_end y) (D y (width b0 - 1)) yc (tone b0 h y), s')) ∧
    painted (y + 1) 0 s'.
Proof.
  intros Hy Hp Hpr. assert (1 <= width b0) as Hw by (unfold width; lia).
  assert (0 <= fx b0) as Hfx by (unfold fx; destruct (FXSR b0); lia).
  destruct (extra_fetch_ok y p yc s Hy Hp Hpr) as (p' & s1 & E1 & Hs1 & Hp').
  unfold blit_words. rewrite (xbind_ret _ _ _ b0.(FXSR) (line_state y yc, s)) by done. erewrite xbind_ret in E1 by done.
  rewrite (xbind_ret _ _ _ _ _ E1). pose proof (painted_same _ _ _ _ Hp Hs1) as Hp1. unfold col_state.
  destruct (fetch_ok y 0 y 0 p' (prev y 0) (D y 0) yc (tone b0 h y) s1) as (s2 & E2 & Hs2);
    [done|lia|done|done|apply prev_range|].
  rewrite (xbind_ret _ _ _ _ _ E2), (cur_fetched y 0) by done.
  destruct (combine_ok y 0 (Src y 0) yc end_mask_1 s2) as (s3 & E3 & Hp3);
    [unfold BlitterSpec.inside; lia|by eapply painted_same|done|].
  rewrite (xbind_ret _ _ _ _ _ E3), (xbind_ret _ _ _ b0.(x_count) (at_ (Src y 0) (D y 0) yc (tone b0 h y), s3)) by done.
  pose proof (bf_x fits) as Hx. destruct (Z.leb_spec 2 b0.(x_count)) as [H2|H2].
  - assert (width b0 = b0.(x_count)) as Hwx by (unfold width; lia).
    destruct (middle_words_ok (Z.to_nat (b0.(x_count) - 2)) y 0 yc s3) as (s4 & E4 & Hp4); [done|lia|lia|done|].
    rewrite (xbind_ret _ _ _ _ _ E4). replace (0 + Z.of_nat (Z.to_nat (x_count b0 - 2))) with (width b0 - 2) in * by lia.
    destruct (last_word_ok y yc s4) as (s5 & E5 & Hp5); [done|lia| |].
    { replace (width b0 - 1) with (width b0 - 2 + 1) by lia. done. }
    rewrite E5. exists s5. split; [done|]. by apply painted_next_line.
  - assert (width b0 = 1) as Hw1 by (unfold width; lia). replace (Z.to_nat (x_count b0 - 2)) with 0%nat by lia.
    cbn [middle_words]. erewrite xbind_ret by done. exists s3. unfold line_end. rewrite Hw1 in *. change (1 - 1) with 0.
    split; [|apply painted_next_line; by rewrite Hw1].
    assert (fetches b0 0 = true) as -> by done. done.
Qed.

Lemma next_source y : u32 (line_end y + b0.(source_y_inc)) = Src (y + 1) (- fx b0).
Proof.
  unfold line_end, BlitterSpec.Src, source_line, line_words, u32.
  destruct (fetches b0 (width b0 - 1)); rewrite Z.add_mod_idemp_l by lia; f_equal; lia.
Qed.
Lemma next_dest y : u32 (D y (width b0 - 1) + b0.(dest_y_inc)) = D (y + 1) 0.
Proof. unfold BlitterSpec.D, dest_line, u32. rewrite Z.add_mod_idemp_l by lia. f_equal. lia. Qed.

Lemma next_tone y : (h =? 1) || (h =? 3) = true → (tone b0 h y + b0.(halftone_direction)) .& 15 = tone b0 h (y + 1).
Proof.
  intros Hh. unfold tone. rewrite Hh. change 15 with (Z.ones 4). rewrite Z.land_ones by lia. change (2 ^ 4) with 16.
  rewrite Z.add_mod_idemp_l by lia. f_equal. lia.
Qed.

Lemma blit_line_ok y p yc s : 0 <= y < lines b0 → painted y 0 s → 0 <= p < 65536 →
  ∃ s', blit_line neg h o (buffer neg p (held y)) (line_state y yc, s) =
    (Ret (col_buffer y (width b0 - 1)), (line_state (y + 1) yc, s')) ∧ painted (y + 1) 0 s'.
Proof.
  intros Hy Hp Hpr. destruct (line_words_ok y p yc s Hy Hp Hpr) as (s1 & E1 & Hp1). exists s1. split; [|done].
  unfold blit_line. rewrite (xbind_ret _ _ _ _ _ E1). erewrite xbind_ret by done. erewrite xbind_ret by done.
  unfold line_state. rewrite <-next_source, <-next_dest. unfold halftone_inc.
  destruct ((h =? 1) || (h =? 3)) eqn:Eh.
  - erewrite xbind_ret by done. by rewrite <-next_tone.
  - erewrite xbind_ret by done. unfold tone. by rewrite Eh.
Qed.

(** The lines from [y] on. *)
Lemma blit_lines_ok fuel : ∀ y p s, 0 <= y < lines b0 → painted y 0 s → 0 <= p < 65536 → lines b0 - y <= Z.of_nat fuel →
  ∃ s', blit_lines neg h o fuel (buffer neg p (held y)) (line_state y (lines b0 - y), s) =
    (Ret tt, (line_state (lines b0) 0, s')) ∧ painted (lines b0) 0 s'.
Proof.
  pose proof (bf_y fits) as Hly. fold (lines b0) in Hly.
  induction fuel as [|fuel IH]; intros y p s Hy Hp Hpr Hf; [lia|]. cbn [blit_lines].
  destruct (blit_line_ok y p (lines b0 - y) s Hy Hp Hpr) as (s1 & E1 & Hp1). rewrite (xbind_ret _ _ _ _ _ E1).
  erewrite xbind_ret by done.
  assert (put_y_count (u16 (lines b0 - y - 1)) (line_state (y + 1) (lines b0 - y)) = line_state (y + 1) (lines b0 - (y + 1))) as E.
  { rewrite u16_small by lia. replace (lines b0 - y - 1) with (lines b0 - (y + 1)) by lia. done. }
  cbn [fst snd]. change (y_count (line_state (y + 1) (lines b0 - y))) with (lines b0 - y). rewrite E.
  rewrite (xbind_ret _ _ _ (lines b0 - (y + 1)) (line_state (y + 1) (lines b0 - (y + 1)), s1)) by done.
  destruct (Z.ltb_spec 0 (lines b0 - (y + 1))) as [Hlt|Hge].
  - assert (col_buffer y (width b0 - 1) = buffer neg (prev y (width b0 - 1)) (held (y + 1))) as ->.
    { unfold col_buffer, held. rewrite (proj2 (Z.ltb_lt 0 (y + 1))) by lia. by replace (y + 1 - 1) with y by lia. }
    apply IH; [lia|done|apply prev_range|lia].
  - assert (y + 1 = lines b0) as Hend by lia. exists s1. rewrite Hend in *. by rewrite Z.sub_diag.
Qed.

(** All cells are painted, and nothing else. *)
Definition all_painted s : Prop :=
  (∀ y x, inside y x → word_at s (D y x) = new_word b0 neg h o m0 y x) ∧
  (∀ a, (∀ y x, inside y x → apart (D y x) a) → word_at s a = m0 a).

Lemma blit_lines_paint : ∃ s', blit_lines neg h o (Z.to_nat 65536) 0 (b0, s0) = (Ret tt, (line_state (lines b0) 0, s')) ∧
  all_painted s'.
Proof.
  pose proof (bf_y fits) as Hly. destruct (blit_lines_ok (Z.to_nat 65536) 0 0 s0) as (s' & E & Hp);
    [unfold lines; lia|apply painted_start|lia|unfold lines; lia|].
  exists s'. split.
  - assert (buffer neg 0 (held 0) = 0) as Eb by (unfold held, buffer; by destruct neg). rewrite Eb in E.
    assert (line_state 0 (lines b0 - 0) = b0) as Es; [|by rewrite Es in E].
    unfold line_state, at_, BlitterSpec.Src, BlitterSpec.D, lines.
    replace (source_addr b0 + 0 * source_line b0 + (fx b0 + - fx b0) * source_x_inc b0) with (source_addr b0) by lia.
    replace (dest_addr b0 + 0 * dest_line b0 + 0 * dest_x_inc b0) with (dest_addr b0) by lia.
    rewrite !u32_small by apply fits. rewrite Z.sub_0_r.
    assert (tone b0 h 0 = b0.(halftone_curroffset)) as ->; [|by destruct b0].
    unfold tone. destruct ((h =? 1) || (h =? 3)) eqn:Eh; [|done]. rewrite Z.mul_0_l, Z.add_0_r.
    apply Z.mod_small. by apply (bf_tone fits).
  - destruct Hp as [H1 H2]. split.
    + intros y x Hin. apply H1; [done|]. left. apply Hin.
    + intros a Ha. apply H2. intros y x Hin _. by apply Ha.
Qed.
End Run.

(** ** The theorems *)

(** Where the register of the operation looks up a pair of source and destination bits. *)
Definition op_index (sb db : bool) : Z := (if sb then 0 else 2) + (if db then 0 else 1).

(** The operation register is the truth table of the sixteen operations: bit by bit
    the result is the bit of the register the source and destination bits select. *)
Theorem op_truth_table o opd dst i : 0 <= o < 16 → 0 <= i < 16 →
  Z.testbit (blit_op o opd dst) i = Z.testbit o (op_index (Z.testbit opd i) (Z.testbit dst i)).
Proof.
  intros Ho Hi.
  assert (Z.testbit 0xffff i = true) as H1.
  { change 0xffff with (Z.ones 16). rewrite Z.testbit_ones_nonneg by lia. apply Z.ltb_lt. lia. }
  assert (o = 0 ∨ o = 1 ∨ o = 2 ∨ o = 3 ∨ o = 4 ∨ o = 5 ∨ o = 6 ∨ o = 7 ∨ o = 8 ∨ o = 9 ∨ o = 10 ∨ o = 11 ∨
    o = 12 ∨ o = 13 ∨ o = 14 ∨ o = 15) as Hc by lia.
  destruct_or! Hc; subst o; cbn [blit_op];
    rewrite ?Z.bits_0, ?H1, ?Z.lor_spec, ?Z.land_spec, ?Z.lxor_spec, ?Z.lnot_spec by lia;
    by destruct (Z.testbit opd i), (Z.testbit dst i).
Qed.

(** The registers as the transfer finds them: addresses restored, halftone row set. *)
Definition restored (b : BLITTER) : BLITTER :=
  put_dest_addr b.(dest_addr_backup) (put_source_addr b.(source_addr_backup) b).
Definition blit_start (b : BLITTER) : BLITTER := halftone_start (restored b).

Section Start.
Context {S : Type} {bus : Bus S} {ram : RamBus S}.
Implicit Types (b : BLITTER) (s : S).

Lemma restore_ok b s :
  (let* b := bget id in
   xwhen (negb (b.(source_addr) =? b.(source_addr_backup))) (bmod (λ b, put_source_addr b.(source_addr_backup) b)) ;;
   xwhen (negb (b.(dest_addr) =? b.(dest_addr_backup))) (bmod (λ b, put_dest_addr b.(dest_addr_backup) b)) ;;
   bget id) (b, s) = (Ret (restored b), (restored b, s)).
Proof.
  erewrite xbind_ret by done. unfold id. cbn [fst]. unfold restored.
  destruct (Z.eqb_spec b.(source_addr) b.(source_addr_backup)) as [Es|_],
    (Z.eqb_spec b.(dest_addr) b.(dest_addr_backup)) as [Ed|_]; cbn [negb xwhen];
    erewrite xbind_ret by done; erewrite xbind_ret by done; unfold bget, xget, id; cbn [fst];
    rewrite <-?Es, <-?Ed; by destruct b.
Qed.

Lemma Do_Blit_eq b s : let r := restored b in
  (reads_source r.(hop) r.(op) = true → 0x800 < r.(source_addr) ∧ (r.(source_addr) < 0x0e00000 ∨ 0x1000000 <= r.(source_addr))) →
  0x800 < r.(dest_addr) ∧ (r.(dest_addr) < 0x0e00000 ∨ 0x1000000 <= r.(dest_addr)) → 0 <= r.(hop) <= 3 →
  Do_Blit (b, s) = hop_op (r.(source_x_inc) <? 0) r.(hop) r.(op) (r, s).
Proof.
  intros r Hs Hd Hh. pose proof (restore_ok b s) as E. unfold Do_Blit.
  assert (∀ (A C : Type) (m : X (BLITTER * S) A) (f g : A → X (BLITTER * S) unit) (k : BLITTER → X (BLITTER * S) C) st r' st',
    (let* a := m in f a ;; g a ;; bget id) st = (Ret r', st') →
    (let* a := m in f a ;; g a ;; let* b := bget id in k b) st = k r' st') as Hassoc.
  { intros A C m f g k st r' st'. unfold xbind. destruct (m st) as [[a| |] st1]; [|done..].
    destruct (f a st1) as [[[]| |] st2]; [|done..]. destruct (g a st2) as [[[]| |] st3]; [|done..].
    unfold bget, xget. intros H. by inversion H. }
  rewrite (Hassoc _ _ _ _ _ _ _ _ _ E). fold r. cbv zeta.
  assert (∀ a hi, 0x0e00000 <= hi → 0x800 < a ∧ (a < 0x0e00000 ∨ 0x1000000 <= a) →
    (a <=? 0x800) || ((hi <=? a) && (a <? 0x1000000)) = false) as Hout.
  { intros a hi Hhi Ha. rewrite orb_false_iff, andb_false_iff, !Z.leb_gt, Z.ltb_ge. lia. }
  rewrite (Hout (dest_addr r) 0x0e00000) by (lia || done).
  destruct (reads_source (hop r) (op r)) eqn:Er.
  - rewrite (Hout (source_addr r) 0x0e80000) by (lia || auto). by rewrite andb_false_r.
  - assert (negb (hop r =? 0) && negb (hop r =? 1) && negb (op r =? 0) && negb (op r =? 5)
      && negb (op r =? 10) && negb (op r =? 15) = false) as ->; [|done].
    unfold reads_source in Er. destruct (Z.leb_spec 2 (hop r)); cbn [andb] in Er.
    + destruct (op r =? 0), (op r =? 5), (op r =? 10), (op r =? 15); try done; by rewrite ?andb_false_r.
    + assert (hop r = 0 ∨ hop r = 1) as [->| ->] by lia; done.
Qed.

(** C5: Writing the busy bit runs the whole transfer before the write returns.  Each
    destination word becomes the combination, under the mask of its column, of its old
    value and the source (skewed, with the halftone row of its line); no other word
    changes; the line counter ends at 0 and both addresses where the transfer ends.  For transfers of at least one line, with a halftone operation of 0 to 3 and
    registers of their width, whose destination words all lie in writable RAM and apart from each other and, if the
    source is read, apart from its words, which are in RAM, too ([blit_fits]); transfers that overlap or leave RAM are not covered. *)
Theorem blit_paints off v b s : let b0 := blit_start (STORE_B_ff8a3c v b) in
  0 <= off < 2 ^ 32 - 0x40 → tst v 0x80 = true → 0 <= b.(hop) <= 3 →
  blit_fits b0 b.(hop) b.(op) →
  ∃ b' s', blitter_handleWrite off (off + 0x3c) v (b, s) = (Ret tt, (b', s')) ∧
    all_painted b0 s (b.(source_x_inc) <? 0) b.(hop) b.(op) s' ∧
    b'.(y_count) = 0 ∧ b'.(blit) = false ∧
    b'.(source_addr) = Src b0 (lines b0) (- fx b0) ∧ b'.(dest_addr) = D b0 (lines b0) 0.
Proof.
  intros b0 Hoff Hv Hh Hfits. set (b1 := STORE_B_ff8a3c v b) in *.
  assert (b0.(y_count) = b.(y_count) ∧ b0.(hop) = b.(hop) ∧ b0.(op) = b.(op) ∧ b0.(source_x_inc) = b.(source_x_inc)) as (Ey & Eh & Eo & Ex).
  { unfold b0, blit_start, halftone_start, b1, STORE_B_ff8a3c. repeat case_match; done. }
  pose proof (bf_y _ _ _ Hfits) as Hy. rewrite Ey in Hy.
  assert (b1.(blit) = true) as Hb1.
  { unfold b1, STORE_B_ff8a3c. cbn [y_count put_line_num]. rewrite (proj2 (Z.eqb_neq (y_count b) 0)), Hv by lia. done. }
  unfold blitter_handleWrite. replace ((off + 0x3c) -u off) with 0x3c by (rewrite u32_small; lia).
  erewrite xbind_ret by done. unfold start_blit. erewrite xbind_ret by done. cbn [fst snd].
  change (STORE_B_ff8a3c v b) with b1. rewrite Hb1. cbn [xwhen].
  assert ((restored b1).(hop) = b.(hop) ∧ (restored b1).(op) = b.(op) ∧ (restored b1).(source_x_inc) = b.(source_x_inc)
    ∧ (restored b1).(source_addr) = b0.(source_addr) ∧ (restored b1).(dest_addr) = b0.(dest_addr)) as (Rh & Ro & Rx & Rs & Rd).
  { unfold b0, blit_start, halftone_start, restored, b1, STORE_B_ff8a3c. repeat case_match; done. }
  assert (Src b0 0 (- fx b0) = b0.(source_addr)) as Es0.
  { unfold Src. rewrite u32_small; [lia|]. pose proof (bf_source _ _ _ Hfits). lia. }
  assert (D b0 0 0 = b0.(dest_addr)) as Ed0.
  { unfold D. rewrite u32_small; [lia|]. pose proof (bf_dest _ _ _ Hfits). lia. }
  assert (1 <= width b0) by (unfold width; lia).
  pose proof (Do_Blit_eq b1 s) as E. cbv zeta in E. rewrite Rh, Ro, Rx, Rs, Rd in E.
  destruct (blit_lines_paint b0 s (b.(source_x_inc) <? 0) b.(hop) b.(op) Hfits) as (s' & El & Hp).
  assert (Do_Blit (b1, s) = (Ret tt, (line_state b0 b.(hop) (lines b0) 0, s'))) as EB.
  { rewrite E; [| | |done].
    - unfold hop_op. erewrite xbind_ret by done. exact El.
    - intros Hrs. rewrite <-Es0. apply ram_writable, (bf_source_ram _ _ _ Hfits); [done|unfold lines; lia|].
      assert (0 <= fx b0) by (unfold fx; destruct (FXSR b0); lia). lia.
    - rewrite <-Ed0. apply ram_writable, (bf_dest_ram _ _ _ Hfits). unfold inside, lines. lia. }
  rewrite (xbind_ret _ _ _ _ _ EB). eexists _, s'. split; [done|]. by repeat (split; [done|]).
Qed.
End Start.
