(* ===== verification/BlitterBus.v ===== *)
(** * BlitterBus: the blitter on the machine's memory

    The physical memory of [Machine] satisfies what the blitter's theorems ask of the
    bus ([machine_ram]); a blit on a concrete machine; and where the blitter differs
    from the chip it stands for. *)

From S2P Require Import Prelude Throws Machine MachineSpec Blitter BlitterSpec.
From stdpp Require Import base gmap list numbers.
Open Scope Z_scope.
Open Scope c_scope.
Open Scope x_scope.

Section Bus.
Context {cfg : Config} {ok : ConfigOk} {D : Type} {hwd : Hardware D}.

#[global] Instance machine_bus : Bus (machine D) := {
  ReadAtariInt16 := phys_get_word;
  WriteAtariInt16 := phys_put_word;
}.

(** A word of RAM the blitter may write. *)
Definition blit_ram (a : Z) : Prop :=
  (0x800 < a ∧ a + 2 <= 0xe00000) ∨ (0x1000000 <= a ∧ a + 2 <= 0x1000000 + FastRAM_SIZE).

Lemma blit_ram_checks a super write : blit_ram a →
  hw_mirror a = a ∧ in_hw_space a = false ∧ host_ok a 2 = true ∧ test_ram_boundary a 2 super write = true.
Proof.
  intros H. destruct ok. unfold blit_ram in H. split; [|split; [|split]].
  - unfold hw_mirror. by rewrite (proj2 (Z.ltb_lt a 0xff000000)) by lia.
  - rewrite in_hw_space_spec by lia. apply Z.eqb_neq. Z.to_euclidean_division_equations. lia.
  - unfold host_ok. apply orb_true_iff. left. rewrite andb_true_iff, !Z.leb_le. lia.
  - unfold test_ram_boundary. rewrite (proj2 (Z.leb_le a (0x1000000 + FastRAM_SIZE - 2))) by lia.
    rewrite (proj2 (Z.ltb_ge a 0x800)), andb_false_r by lia.
    destruct (Z.leb_spec 0x1000000 a); [by rewrite orb_true_r|].
    rewrite (proj2 (Z.leb_le 8 a)), (proj2 (Z.leb_le a (0xe00000 - 2))) by lia. by rewrite !orb_true_r.
Qed.

Lemma check_word a write (s : machine D) : blit_ram a → check_ram_boundary a 2 write s = (Ret tt, s).
Proof.
  intros Ha. unfold check_ram_boundary, xbind, xget.
  by destruct (blit_ram_checks a s.(regs).(sr_s) write Ha) as (_ & _ & _ & ->).
Qed.

Lemma phys_get_word_ram a (s : machine D) : blit_ram a →
  ∃ s', phys_get_word a s = (Ret (be_get 2 s.(mem) a), s') ∧ s'.(mem) = s.(mem).
Proof.
  intros Ha. destruct (blit_ram_checks a true false Ha) as (Hm & Hh & Ho & _).
  unfold phys_get_word, phys_get. erewrite xbind_ret by done. cbv zeta. rewrite Hm, Hh.
  unfold do_get_mem. change (Z.of_nat 2) with 2. rewrite Ho.
  destruct (ARAM_PAGE_CHECK && _); [by eexists|]. erewrite xbind_ret by (by apply check_word).
  destruct ARAM_PAGE_CHECK; by eexists.
Qed.

Lemma phys_put_word_ram a v (s : machine D) : blit_ram a →
  ∃ s', phys_put_word a v s = (Ret tt, s') ∧ s'.(mem) = be_put 2 a v s.(mem).
Proof.
  intros Ha. destruct (blit_ram_checks a true true Ha) as (Hm & Hh & Ho & _).
  unfold phys_put_word, phys_put. erewrite xbind_ret by done. cbv zeta. rewrite Hm, Hh.
  unfold do_put_mem. change (Z.of_nat 2) with 2. rewrite Ho.
  destruct (ARAM_PAGE_CHECK && _); [by eexists|]. erewrite xbind_ret by (by apply check_word).
  destruct ARAM_PAGE_CHECK; by eexists.
Qed.

#[global] Program Instance machine_ram : RamBus (machine D) := {
  ram_ok := blit_ram;
  word_at s a := be_get 2 s.(mem) a;
}.
Next Obligation. intros s a. apply (be_get_range 2). Qed.
Next Obligation. intros a Ha. destruct ok. unfold blit_ram in Ha. lia. Qed.
Next Obligation.
  intros a s Ha. destruct (phys_get_word_ram a s Ha) as (s' & E & Hm). exists s'. split; [exact E|]. intros b. by rewrite Hm.
Qed.
Next Obligation.
  intros a v s Ha Hv. destruct (phys_put_word_ram a v s Ha) as (s' & E & Hm). exists s'. split; [exact E|].
  rewrite Hm. split.
  - rewrite be_get_put. by apply Z.mod_small.
  - intros b Hb. apply be_get_put_disjoint. change (Z.of_nat 2) with 2. unfold apart in Hb. lia.
Qed.
End Bus.

(** ** Registers *)

Lemma u16_s16 v : 0 <= v < 65536 → u16 (s16 v) = v.
Proof. intros. unfold u16, s16. Z.to_euclidean_division_equations. lia. Qed.

(** The upper and lower half of an address register. *)
Lemma high_half a v : 0 <= v < 65536 → (((a .& 0x0000ffff) .| (v << 16)) >> 16) .& 0xffff = v.
Proof.
  intros Hv. rewrite Z.shiftl_mul_pow2, u32_small by (change (2 ^ 16) with 65536; lia).
  rewrite Z.lor_comm, lor_disjoint_add; [|lia|apply (land_range_r a 0xffff 16); lia].
  assert (0 <= a .& 0x0000ffff < 2 ^ 16) by (apply (land_range_r a 0xffff 16); lia).
  rewrite Z.shiftr_div_pow2, Z.div_add_l, Z.div_small, Z.add_0_r by lia.
  change 0xffff with (Z.ones 16). rewrite Z.land_ones by lia. by apply Z.mod_small.
Qed.

Lemma low_half a v : 0 <= v < 65536 → ((a .& 0xffff0000) .| (v .& 0xfffe)) .& 0xffff = v .& 0xfffe.
Proof.
  intros Hv. rewrite Z.land_lor_distr_l, <-!Z.land_assoc. change (0xffff0000 .& 0xffff) with 0.
  change (0xfffe .& 0xffff) with 0xfffe. by rewrite Z.land_0_r, Z.lor_0_l.
Qed.

Definition word_registers : list Z := [0x20; 0x22; 0x24; 0x28; 0x2a; 0x2c; 0x2e; 0x30; 0x32; 0x36; 0x38].

(** The halftone words, increments, masks, counts and the upper halves of the
    addresses read back the word written; the lower halves read back an even word. *)
Theorem blitter_registers {S} {bus : Bus S} off b (s : S) a v : b.(blit) = false → 0 <= v < 65536 →
  0 <= off < 2 ^ 32 - 0x40 →
  (a ∈ word_registers ∨ 0 <= a < 0x20 →
   ∃ st, (blitter_handleWriteW off (off + a) v ;; blitter_handleReadW off (off + a)) (b, s) = (Ret v, st)) ∧
  (a = 0x26 ∨ a = 0x34 →
   ∃ st, (blitter_handleWriteW off (off + a) v ;; blitter_handleReadW off (off + a)) (b, s) = (Ret (v .& 0xfffe), st)).
Proof.
  intros Hb Hv Ho.
  assert (∀ x, 0 <= x < 0x40 → (off + x) -u off = x) as Haddr by (intros x Hx; rewrite u32_small; lia).
  assert (∀ f, (∀ b, (f b).(blit) = b.(blit)) → (bmod f ;; start_blit) (b, s) = (Ret tt, (f b, s))) as Hw.
  { intros f Hf. erewrite xbind_ret by done. unfold start_blit. erewrite xbind_ret by done. cbn [fst]. by rewrite Hf, Hb. }
  split; intros Ha.
  - destruct Ha as [Ha|Ha].
    + unfold word_registers in Ha. rewrite !elem_of_cons, elem_of_nil in Ha.
      unfold blitter_handleWriteW, blitter_handleReadW. rewrite Haddr by (repeat (destruct Ha as [->|Ha]; [lia|]); done).
      destruct Ha as [->|[->|[->|[->|[->|[->|[->|[->|[->|[->|[->|[]]]]]]]]]]]];
        cbv zeta; cbn [Z.ltb Z.compare Pos.compare Pos.compare_cont];
        (erewrite xbind_ret by (by apply Hw)); (erewrite xbind_ret by done); eexists; unfold xret, id;
        cbn -[Z.shiftl Z.shiftr Z.land Z.lor u16 s16]; rewrite ?u16_s16, ?high_half by done; reflexivity.
    + assert ((a <? 0x20) = true) as Hlt by (apply Z.ltb_lt; lia).
      unfold blitter_handleWriteW, blitter_handleReadW. rewrite Haddr by lia. cbv zeta. rewrite Hlt.
      erewrite xbind_ret by done. erewrite xbind_ret by done. eexists. unfold id, xret. cbn.
      by rewrite aget_aset_eq.
  - unfold blitter_handleWriteW, blitter_handleReadW. rewrite Haddr by lia.
    destruct Ha as [->| ->]; cbv zeta; cbn [Z.ltb Z.compare Pos.compare Pos.compare_cont];
      (erewrite xbind_ret by (by apply Hw)); (erewrite xbind_ret by done); eexists; unfold xret, id;
      cbn -[Z.shiftl Z.shiftr Z.land Z.lor]; rewrite low_half by done; reflexivity.
Qed.

(** ** A blit *)

#[local] Instance blit_cfg : Config := { FastRAM_SIZE := 0; VideoRAMBase := 0xf0000000; ARAM_PAGE_CHECK := true }.
#[local] Instance blit_cfg_ok : ConfigOk.
Proof. split; vm_compute; congruence. Qed.
#[local] Instance blit_hw : Hardware unit := [].

Definition blit_machine : machine unit :=
  Machine (Regs (λ _, 0) true 0 0 0 0 0 false false 0 0 0 0 0 0 0 0 0)
    (be_put 4 0x2004 0x9abcdef0 (be_put 4 0x2000 0x12345678 (be_put 4 0x4000 0xffffffff ∅)))
    (λ _, Line 0 false false false false false false false false 0)
    (λ _ _, Line 0 false false false false false false false false 0) true 0 0 0 tt.

(** Two lines of two words, copied with a skew of four bits. *)
Definition blit_example (xc yc : Z) (nf : bool) : BLITTER :=
  Blitter ∅ 0x0fff 0xffff 0xff00 nf false xc yc 2 3 0 4 0 0 2 2 2 10 0x2000 0x2000 0x4000 0x4000 false.

Lemma blit_example_fits : blit_fits (S := machine unit) (blit_start (STORE_B_ff8a3c 0x80 (blit_example 2 2 false))) 2 3.
Proof.
  assert (∀ y x, inside (blit_start (STORE_B_ff8a3c 0x80 (blit_example 2 2 false))) y x →
    (y = 0 ∨ y = 1) ∧ (x = 0 ∨ x = 1)) as Hin.
  { intros y x [Hy Hx]. change (lines _) with 2 in Hy. change (width _) with 2 in Hx. lia. }
  assert (∀ y x, 0 <= y < 2 → - 0 <= x < 2 → (y = 0 ∨ y = 1) ∧ (x = 0 ∨ x = 1)) as Hsrc by lia.
  split; [vm_compute; split; congruence..|discriminate| | | |].
  - intros y x [[->| ->] [->| ->]]%Hin; left; vm_compute; split; congruence.
  - intros y x y' x' [[->| ->] [->| ->]]%Hin [[->| ->] [->| ->]]%Hin [H|H]; try done;
      first [left; vm_compute; congruence|right; vm_compute; congruence].
  - intros y x _ Hy Hx. destruct (Hsrc y x Hy Hx) as [[->| ->] [->| ->]]; left; vm_compute; split; congruence.
  - intros y x y' x' _ Hy Hx [[->| ->] [->| ->]]%Hin. all: destruct (Hsrc y x Hy Hx) as [[->| ->] [->| ->]];
      first [left; vm_compute; congruence|right; vm_compute; congruence].
Qed.

Lemma blit_paints_witness :
  ∃ b' s', blitter_handleWrite 0xff8a00 (0xff8a00 + 0x3c) 0x80 (blit_example 2 2 false, blit_machine) = (Ret tt, (b', s')) ∧
    word_at s' 0x4000 = 0xf123 ∧ word_at s' 0x4002 = 0x45ff ∧ b'.(y_count) = 0 ∧ b'.(dest_addr) = 0x4018.
Proof.
  destruct (blit_paints 0xff8a00 0x80 (blit_example 2 2 false) blit_machine) as (b' & s' & E & [Hp _] & Hy & _ & _ & Hd);
    [lia|done|cbn; lia|apply blit_example_fits|].
  exists b', s'. split; [exact E|].
  pose proof (Hp 0 0 ltac:(vm_compute; repeat split; congruence)) as H0.
  pose proof (Hp 0 1 ltac:(vm_compute; repeat split; congruence)) as H1.
  split; [exact H0|]. split; [exact H1|]. by split.
Defined.

Lemma op_truth_table_witness : Z.testbit (blit_op 6 0xf0f0 0xff00) 4 = true.
Proof. rewrite (op_truth_table 6 0xf0f0 0xff00 4); [reflexivity|lia|lia]. Defined.

Lemma blitter_registers_witness :
  ∃ st, (blitter_handleWriteW 0xff8a00 (0xff8a00 + 0x24) 0x1234 ;; blitter_handleReadW 0xff8a00 (0xff8a00 + 0x24))
    (blit_example 2 2 false, blit_machine) = (Ret 0x1234, st).
Proof.
  apply (proj1 (blitter_registers 0xff8a00 (blit_example 2 2 false) blit_machine 0x24 0x1234 eq_refl ltac:(lia) ltac:(lia))).
  left. apply list_elem_of_In. cbn. tauto.
Defined.

(** ** Differences from the chip *)

(** NFSR always suppresses the last fetch: the second condition compares a negative
    [int] with a mask and is never true. *)
Lemma final_fetch_never b : 0 <= b.(end_mask_3) → final_fetch b = negb b.(NFSR).
Proof.
  intros Hm. unfold final_fetch. destruct (Z.ltb_spec b.(end_mask_3) (Z.lnot (0xffff >> (b.(skewreg) .& 15)))) as [Hlt|_];
    [|by rewrite orb_false_r].
  assert (0 <= 0xffff >> (b.(skewreg) .& 15)) by (apply Z.shiftr_nonneg; lia).
  unfold Z.lnot in Hlt. lia.
Qed.

(** A width of 0 stands for 65536 words; here one word is transferred. *)
Lemma zero_width_is_one :
  let r := blitter_handleWrite 0xff8a00 0xff8a3c 0x80 (blit_example 0 1 false, blit_machine) in
  word_at r.2.2 0x4000 = 0xf123 ∧ word_at r.2.2 0x4002 = 0xffff.
Proof. vm_compute. by split. Qed.

(** A height of 0 stands for 65536 lines; here nothing is transferred. *)
Lemma zero_height_is_nothing :
  let r := blitter_handleWrite 0xff8a00 0xff8a3c 0x80 (blit_example 2 0 false, blit_machine) in
  word_at r.2.2 0x4000 = 0xffff ∧ word_at r.2.2 0x4002 = 0xffff.
Proof. vm_compute. by split. Qed.
