(* ===== verification/Rtc.v ===== *)
(** * Rtc: the clock and the non-volatile memory

    Models [src/rtc.cpp] with [include/rtc.h]: the 64 bytes of [nvram], the address and
    data registers, the clock with its binary and BCD modes, patching by the
    configuration, the checksum, and loading and saving.  The clock of the host
    ([time], [localtime]) is an argument [now], and a file is its bytes. *)

From S2P Require Import Prelude Throws.
From stdpp Require Import base gmap list numbers.
Open Scope Z_scope.
Open Scope c_scope.
Open Scope x_scope.

(** [struct tm]. *)
Record tm := Tm {
  tm_sec : Z; tm_min : Z; tm_hour : Z; tm_mday : Z; tm_mon : Z; tm_year : Z; tm_wday : Z;
}.

Record RTC := Rtc {
  nvram : list Z;
  index : Z;
  frozen_time : tm;
}.

(** The options [patch] looks at; -1 is "not set". *)
Record rtc_options := RtcOptions {
  video_monitor : Z;
  boot_color_depth : Z;
  cookie_akp : Z;
}.

Abbreviation CKS_RANGE_START := 14 (only parsing).
Abbreviation CKS_RANGE_END := 61 (only parsing).
Abbreviation CKS_RANGE_LEN := 48 (only parsing).
Abbreviation CKS_LOC := 62 (only parsing).
Abbreviation NVRAM_SYSTEM_LANGUAGE := 20 (only parsing).
Abbreviation NVRAM_KEYBOARD_LAYOUT := 21 (only parsing).

Definition nvram_init : list Z :=
  [48; 255; 21; 255; 23; 255; 1; 25; 3; 33; 42; 14; 112; 128;
   0; 0; 0; 0; 0; 0; 0; 0; 17; 46; 32; 1; 255; 0; 0; 56; 135; 0; 0; 0; 0; 0; 0; 0;
   0; 0; 0; 0; 0; 0; 0; 0; 0; 0; 0; 0; 0; 0; 0; 0; 0; 0; 0; 0; 0; 0; 0; 0; 224; 31].

Local Abbreviation M := (X RTC).

(** [nvram[i]]. *)
Definition nv_get (i : Z) : M Z :=
  if in_range 0 64 i then xget (λ r, r.(nvram) !!! Z.to_nat i) else xundef Oob_device.
Definition nv_put (i v : Z) : M unit :=
  if in_range 0 64 i then xmod (λ r, Rtc (<[Z.to_nat i := v]> r.(nvram)) r.(index) r.(frozen_time))
  else xundef Oob_device.
Definition nv_mod (i : Z) (f : Z → Z) : M unit := let* v := nv_get i in nv_put i (f v).

(** ** Checksum and start *)

(** The sum over [CKS_RANGE_START] .. [CKS_RANGE_END], an [unsigned char]. *)
Fixpoint cks_sum (i : Z) (n : nat) (sum : Z) : M Z :=
  match n with
  | O => xret sum
  | S n => let* v := nv_get i in cks_sum (i + 1) n (u8 (sum + v))
  end.

Definition setChecksum : M unit :=
  let* sum := cks_sum CKS_RANGE_START (Z.to_nat CKS_RANGE_LEN) 0 in
  nv_put CKS_LOC (u8 (Z.lnot sum)) ;;
  nv_put (CKS_LOC + 1) sum.

(** The three parts of [patch]: monitor type, colour depth, and language. *)
Definition patch_monitor (o : rtc_options) : M unit :=
  xwhen (negb (o.(video_monitor) =? -1))
    (nv_mod 29 (λ v, if o.(video_monitor) =? 0 then v .| 0x10 else Z.ldiff v 0x10)).

Definition patch_depth (o : rtc_options) : M unit :=
  xwhen (negb (o.(boot_color_depth) =? -1))
    (let* v := nv_get 29 in
     let res := match o.(boot_color_depth) with
       | 1 => 0 | 2 => 1 | 4 => 2 | 8 => 3 | 16 => 4 | _ => v .& 0x07 end in
     nv_mod 29 (λ v, Z.ldiff v 0x07) ;;
     nv_mod 29 (λ v, v .| res)).

Definition patch_language (o : rtc_options) : M unit :=
  xwhen (negb (o.(cookie_akp) =? -1))
    (nv_put NVRAM_SYSTEM_LANGUAGE (o.(cookie_akp) .& 0xff) ;;
     nv_put NVRAM_KEYBOARD_LAYOUT ((o.(cookie_akp) >> 8) .& 0xff)).

Definition patch (o : rtc_options) : M unit :=
  patch_monitor o ;; patch_depth o ;; patch_language o ;; setChecksum.

Definition rtc_reset (o : rtc_options) : M unit :=
  patch o ;; xmod (λ r, Rtc r.(nvram) 0 r.(frozen_time)).

(** [memcpy] into [nvram] from [i] on. *)
Fixpoint nv_copy (i : Z) (l : list Z) : M unit :=
  match l with
  | [] => xret tt
  | v :: l => nv_put i v ;; nv_copy (i + 1) l
  end.

(** The file is [None] when it cannot be opened, else its bytes. *)
Definition rtc_load (file : option (list Z)) : M bool :=
  match file with
  | None => xret false
  | Some bytes =>
      if (length bytes <? Z.to_nat CKS_RANGE_LEN)%nat then xret false
      else nv_copy CKS_RANGE_START (take (Z.to_nat CKS_RANGE_LEN) bytes) ;; xret true
  end.

(** The bytes [save] writes. *)
Definition rtc_save (r : RTC) : list Z :=
  take (Z.to_nat CKS_RANGE_LEN) (drop (Z.to_nat CKS_RANGE_START) r.(nvram)).

(** ** Registers *)

Definition setAddr (value : Z) : M unit :=
  if value <? 64 then xmod (λ r, Rtc r.(nvram) value r.(frozen_time)) else xret tt.

Definition freezeTime (now : tm) : M unit := xmod (λ r, Rtc r.(nvram) r.(index) now).

Definition getFrozenTime (now : tm) : M tm :=
  let* b := nv_get 11 in
  xwhen (negb (tst b 0x80)) (freezeTime now) ;;
  xget frozen_time.

Definition bcd (value : Z) : Z := u8 (Z.shiftl (value / 10) 4 .| (value mod 10)).

Definition BIN_TO_BCD (value : Z) : M Z :=
  let* b := nv_get 11 in
  xret (if negb (tst b 0x04) then bcd value else value).

(** A field of the clock, as the [uint8] it is stored in. *)
Definition clock_field (now : tm) (f : tm → Z) : M Z :=
  let* t := getFrozenTime now in BIN_TO_BCD (u8 (f t)).

Definition hour_field (now : tm) : M Z :=
  let* t := getFrozenTime now in
  let value := u8 t.(tm_hour) in
  let* b := nv_get 11 in
  if negb (tst b 0x02) then
    let pmflag := if (value =? 0) || (13 <=? value) then 0x80 else 0 in
    let value := value mod 12 in
    let value := if value =? 0 then 12 else value in
    let* value := BIN_TO_BCD value in
    xret (value .| pmflag)
  else BIN_TO_BCD value.

Definition rtc_getData (now : tm) : M Z :=
  let* i := xget index in
  match i with
  | 0 => clock_field now tm_sec
  | 2 => clock_field now tm_min
  | 4 => hour_field now
  | 6 => clock_field now (λ t, t.(tm_wday) + 1)
  | 7 => clock_field now tm_mday
  | 8 => clock_field now (λ t, t.(tm_mon) + 1)
  | 9 => clock_field now (λ t, t.(tm_year) - 68)
  | 1 | 3 | 5 => let* v := nv_get i in BIN_TO_BCD v
  | 10 => nv_mod i (λ v, v .^ 0x80) ;; nv_get i
  | _ => nv_get i
  end.

Definition rtc_setData (now : tm) (value : Z) : M unit :=
  let* i := xget index in
  xwhen ((i =? 11) && tst value 0x80) (freezeTime now) ;;
  nv_put i value.

Definition getNvramKeyboard : M Z := nv_get NVRAM_KEYBOARD_LAYOUT.

Section Registers.
Context (HWoffset HWsize : Z).

Definition rtc_handleRead (now : tm) (addr : Z) : M Z :=
  let addr := addr -u HWoffset in
  if HWsize <? addr then xret 0 else
  match addr with
  | 1 => xget index
  | 3 => rtc_getData now
  | _ => xret 0
  end.

Definition rtc_handleWrite (now : tm) (addr value : Z) : M unit :=
  let addr := addr -u HWoffset in
  if HWsize <? addr then xret tt else
  match addr with
  | 1 => setAddr value
  | 3 => rtc_setData now value
  | _ => xret tt
  end.
End Registers.
