(* ===== verification/RtcSpec.v ===== *)
(** * RtcSpec: the clock and its memory

    [rtc_total]: no access leaves the array or the ranges of its bytes.
    [reset_checksum]: a reset leaves a valid checksum.  [save_load]: what is saved is
    restored.  [nvram_roundtrip], [clock_reads]: memory cells read back, and clock
    fields read as the time of the host in either number format. *)

From S2P Require Import Prelude Throws Rtc.
From stdpp Require Import base gmap list numbers.
Open Scope Z_scope.
Open Scope c_scope.
Open Scope x_scope.

Definition byte (v : Z) : Prop := 0 <= v < 256.

Record rtc_ok (r : RTC) : Prop := {
  ro_length : length r.(nvram) = 64%nat;
  ro_bytes : Forall byte r.(nvram);
  ro_index : 0 <= r.(index) < 64;
}.

Local Abbreviation total := (xtotal rtc_ok).
Definition any {A} (_ : A) : Prop := True.

Lemma byte_lor a b : byte a → byte b → byte (a .| b).
Proof. apply (lor_range a b 8). lia. Qed.
Lemma byte_lxor a b : byte a → byte b → byte (a .^ b).
Proof. apply (lxor_range a b 8). lia. Qed.
Lemma byte_ldiff a b : byte a → byte (Z.ldiff a b).
Proof.
  intros Ha. apply (bits_range _ 8); [lia|]. intros i Hi. rewrite Z.ldiff_spec, (range_bits a 8) by done. done.
Qed.
Lemma byte_land a b : byte b → byte (a .& b).
Proof. apply (land_range_r a b 8). lia. Qed.
Lemma rtc_byte_u8 a : byte (u8 a).
Proof. apply u8_range. Qed.

Lemma nv_get_eq i r : 0 <= i < 64 → nv_get i r = (Ret (r.(nvram) !!! Z.to_nat i), r).
Proof. intros Hi. unfold nv_get, in_range. by rewrite (proj2 (Z.leb_le 0 i)), (proj2 (Z.ltb_lt i 64)) by lia. Qed.
Lemma nv_put_eq i v r : 0 <= i < 64 →
  nv_put i v r = (Ret tt, Rtc (<[Z.to_nat i := v]> r.(nvram)) r.(index) r.(frozen_time)).
Proof. intros Hi. unfold nv_put, in_range. by rewrite (proj2 (Z.leb_le 0 i)), (proj2 (Z.ltb_lt i 64)) by lia. Qed.

Lemma nv_get_total i : 0 <= i < 64 → total byte (nv_get i).
Proof.
  intros Hi r [Hl Hb Hx]. rewrite nv_get_eq by done. eexists _, r. split; [done|]. split; [|done].
  apply (Forall_lookup_1 _ _ (Z.to_nat i) _ Hb), list_lookup_lookup_total_lt. lia.
Qed.
Lemma nv_put_total i v : 0 <= i < 64 → byte v → total any (nv_put i v).
Proof.
  intros Hi Hv r [Hl Hb Hx]. rewrite nv_put_eq by done. eexists _, _. split; [done|]. split; [done|].
  split; cbn; [by rewrite length_insert|by apply Forall_insert|done].
Qed.
Lemma nv_mod_total i f : 0 <= i < 64 → (∀ v, byte v → byte (f v)) → total any (nv_mod i f).
Proof.
  intros Hi Hf. eapply xtotal_bind; [by apply nv_get_total|]. intros v Hv. by apply nv_put_total; [|apply Hf].
Qed.

Lemma cks_sum_total n : ∀ i sum, 0 <= i → i + Z.of_nat n <= 64 → byte sum → total byte (cks_sum i n sum).
Proof.
  induction n as [|n IH]; intros i sum Hi Hn Hs; [by apply xtotal_ret|].
  eapply xtotal_bind; [apply nv_get_total; lia|]. intros v Hv. apply IH; [lia|lia|apply rtc_byte_u8].
Qed.

Lemma setChecksum_total : total any setChecksum.
Proof.
  eapply xtotal_bind; [by apply cks_sum_total|]. intros sum Hs.
  eapply xtotal_bind; [apply nv_put_total; [lia|apply rtc_byte_u8]|]. intros _ _. by apply nv_put_total.
Qed.

Lemma patch_monitor_total o : total any (patch_monitor o).
Proof.
  apply xtotal_when; [done|]. intros _. apply nv_mod_total; [lia|]. intros v Hv.
  destruct (_ =? 0); [by apply byte_lor|by apply byte_ldiff].
Qed.

Lemma patch_depth_total o : total any (patch_depth o).
Proof.
  apply xtotal_when; [done|]. intros _. eapply xtotal_bind; [by apply nv_get_total|]. intros v Hv. cbv zeta.
  eapply xtotal_bind; [apply nv_mod_total; [lia|intros w Hw; by apply byte_ldiff]|]. intros _ _.
  apply nv_mod_total; [lia|]. intros w Hw. apply byte_lor; [done|].
  assert (byte (v .& 0x07)) by (by apply byte_land). repeat case_match; done.
Qed.

Lemma patch_language_total o : total any (patch_language o).
Proof.
  apply xtotal_when; [done|]. intros _. eapply xtotal_bind; [apply nv_put_total; [lia|by apply byte_land]|].
  intros _ _. apply nv_put_total; [lia|by apply byte_land].
Qed.

Lemma freezeTime_total now : total any (freezeTime now).
Proof. apply xtotal_mod; [done|]. by intros r []. Qed.

Lemma getFrozenTime_total now : total any (getFrozenTime now).
Proof.
  eapply xtotal_bind; [by apply nv_get_total|]. intros b Hb.
  eapply (xtotal_bind _ any); [apply xtotal_when; [done|intros _; apply freezeTime_total]|].
  intros _ _. by apply xtotal_get.
Qed.

Lemma bcd_byte v : byte (bcd v).
Proof. apply rtc_byte_u8. Qed.

Lemma BIN_TO_BCD_total v : byte v → total byte (BIN_TO_BCD v).
Proof.
  intros Hv. eapply xtotal_bind; [by apply nv_get_total|]. intros b Hb. apply xtotal_ret.
  destruct (negb _); [apply bcd_byte|done].
Qed.

Lemma clock_field_total now f : total byte (clock_field now f).
Proof. eapply xtotal_bind; [apply getFrozenTime_total|]. intros t _. apply BIN_TO_BCD_total, rtc_byte_u8. Qed.

Lemma hour_field_total now : total byte (hour_field now).
Proof.
  eapply xtotal_bind; [apply getFrozenTime_total|]. intros t _. cbv zeta.
  eapply xtotal_bind; [by apply nv_get_total|]. intros b Hb.
  assert (byte (u8 (tm_hour t))) as Hh by apply rtc_byte_u8.
  apply xtotal_if; intros _; [|by apply BIN_TO_BCD_total]. eapply xtotal_bind.
  - apply BIN_TO_BCD_total. assert (0 <= u8 (tm_hour t) mod 12 < 12) by (apply Z.mod_pos_bound; lia).
    unfold byte. destruct (_ =? 0); lia.
  - intros v Hv. apply xtotal_ret, byte_lor; [done|]. unfold byte. destruct (_ || _); lia.
Qed.

Lemma getData_total now : total byte (rtc_getData now).
Proof.
  unfold rtc_getData. eapply (xtotal_bind _ (λ i, 0 <= i < 64)); [by apply xtotal_get; intros r []|]. intros i Hi.
  assert (total byte (nv_get i)) as Hg by (by apply nv_get_total).
  repeat case_match; try done; try apply clock_field_total; try apply hour_field_total.
  all: try (eapply xtotal_bind; [exact Hg|intros v Hv; by apply BIN_TO_BCD_total]).
  all: eapply xtotal_bind; [apply nv_mod_total; [lia|intros v Hv; by apply byte_lxor]|by intros _ _].
Qed.

Lemma setData_total now v : byte v → total any (rtc_setData now v).
Proof.
  intros Hv. unfold rtc_setData. eapply (xtotal_bind _ (λ i, 0 <= i < 64)); [by apply xtotal_get; intros r []|].
  intros i Hi. eapply (xtotal_bind _ any); [apply xtotal_when; [done|intros _; apply freezeTime_total]|].
  intros _ _. by apply nv_put_total.
Qed.

Lemma setAddr_total v : byte v → total any (setAddr v).
Proof.
  intros [Hv _]. unfold setAddr. apply xtotal_if; intros E; [|by apply xtotal_ret].
  apply Z.ltb_lt in E. apply xtotal_mod; [done|]. by intros r [].
Qed.

(** ** The checksum *)

Definition sum_list (l : list Z) : Z := foldr Z.add 0 l.

Lemma sum_list_cons v l : sum_list (v :: l) = v + sum_list l.
Proof. done. Qed.

(** The bytes the checksum covers. *)
Definition covered (r : RTC) : list Z := take 48 (drop 14 r.(nvram)).

Lemma cks_sum_eq n : ∀ i sum r, rtc_ok r → 0 <= i → i + Z.of_nat n <= 64 →
  cks_sum i n sum r = (Ret (if (n =? 0)%nat then sum else u8 (sum + sum_list (take n (drop (Z.to_nat i) r.(nvram))))), r).
Proof.
  induction n as [|n IH]; intros i sum r Hr Hi Hn; [done|]. cbn [cks_sum Nat.eqb].
  rewrite (xbind_ret _ _ _ _ _ (nv_get_eq i r ltac:(lia))), IH by (done || lia).
  assert (Z.to_nat i < length r.(nvram))%nat as Hl by (rewrite (ro_length r Hr); lia).
  rewrite (drop_S r.(nvram) (r.(nvram) !!! Z.to_nat i) (Z.to_nat i)) by (by apply list_lookup_lookup_total_lt).
  rewrite firstn_cons, sum_list_cons. replace (Z.to_nat (i + 1)) with (Datatypes.S (Z.to_nat i)) by lia.
  do 2 f_equal. destruct n as [|n]; cbn [Nat.eqb].
  - change (sum_list (take 0 ?l)) with 0. by rewrite Z.add_0_r.
  - unfold u8. rewrite Z.add_mod_idemp_l by lia. by rewrite Z.add_assoc.
Qed.

(** Writing outside the covered bytes. *)
Lemma covered_insert l x t i v : (62 <= i)%nat → covered (Rtc (<[i := v]> l) x t) = covered (Rtc l x t).
Proof. intros Hi. unfold covered. cbn [nvram]. rewrite drop_insert_ge by lia. by rewrite take_insert_ge by lia. Qed.

Lemma setChecksum_eq r : rtc_ok r → ∃ r', setChecksum r = (Ret tt, r') ∧ rtc_ok r' ∧ covered r' = covered r ∧
  r'.(nvram) !! 63%nat = Some (u8 (sum_list (covered r))) ∧ r'.(nvram) !! 62%nat = Some (255 - u8 (sum_list (covered r))).
Proof.
  intros Hr. destruct (setChecksum_total r Hr) as ([] & r' & E & _ & Hr'). exists r'. split; [done|]. split; [done|].
  unfold setChecksum in E. rewrite (xbind_ret _ _ _ _ _ (cks_sum_eq 48 14 0 r Hr ltac:(lia) ltac:(lia))) in E.
  change (48 =? 0)%nat with false in E. cbv iota in E. change (take 48 (drop (Z.to_nat 14) r.(nvram))) with (covered r) in E.
  rewrite Z.add_0_l in E. set (s := u8 (sum_list (covered r))) in *.
  rewrite (xbind_ret _ _ _ _ _ (nv_put_eq 62 (u8 (Z.lnot s)) r ltac:(lia))), nv_put_eq in E by lia. inversion E as [E'].
  pose proof (ro_length r Hr) as Hl. split; [|split].
  - cbn [nvram index frozen_time]. rewrite !covered_insert by lia. done.
  - cbn [nvram]. change (Z.to_nat (62 + 1)) with 63%nat. apply list_lookup_insert_eq. rewrite length_insert. lia.
  - cbn [nvram]. change (Z.to_nat (62 + 1)) with 63%nat. change (Z.to_nat 62) with 62%nat.
    rewrite list_lookup_insert_ne, list_lookup_insert_eq by lia. f_equal.
    assert (0 <= s < 256) by apply u8_range. unfold Z.lnot, u8.
    replace (Z.pred (- s)) with (255 - s + (-1) * 256) by lia. rewrite Z.mod_add, Z.mod_small; lia.
Qed.

(** [patch] ends with the checksum. *)
Lemma patch_ok o r : rtc_ok r → ∃ r', patch o r = (Ret tt, r') ∧ rtc_ok r' ∧
  r'.(nvram) !! 63%nat = Some (u8 (sum_list (covered r'))) ∧
  r'.(nvram) !! 62%nat = Some (255 - u8 (sum_list (covered r'))).
Proof.
  intros Hr. unfold patch.
  destruct (patch_monitor_total o r Hr) as ([] & r1 & E1 & _ & Hr1). rewrite (xbind_ret _ _ _ _ _ E1).
  destruct (patch_depth_total o r1 Hr1) as ([] & r2 & E2 & _ & Hr2). rewrite (xbind_ret _ _ _ _ _ E2).
  destruct (patch_language_total o r2 Hr2) as ([] & r3 & E3 & _ & Hr3). rewrite (xbind_ret _ _ _ _ _ E3).
  destruct (setChecksum_eq r3 Hr3) as (r4 & E4 & Hr4 & Hc & H63 & H62). exists r4. by rewrite Hc.
Qed.

(** Whatever the guest writes to the address register, the array is only accessed
    inside its 64 bytes: reads and writes of the registers and a reset always return,
    reads give bytes, and the state stays well formed. *)
Theorem rtc_total off size now o addr v : byte v →
  total byte (rtc_handleRead off size now addr) ∧ total any (rtc_handleWrite off size now addr v) ∧
  total any (rtc_reset o).
Proof.
  intros Hv. split; [|split].
  - unfold rtc_handleRead. cbv zeta. apply xtotal_if; intros _; [by apply xtotal_ret|].
    repeat case_match; try (by apply xtotal_ret); [apply getData_total|].
    apply xtotal_get. intros r [_ _ Hx]. unfold byte. lia.
  - unfold rtc_handleWrite. cbv zeta. apply xtotal_if; intros _; [by apply xtotal_ret|].
    repeat case_match; try (by apply xtotal_ret); [by apply setData_total|by apply setAddr_total].
  - intros r Hr. destruct (patch_ok o r Hr) as (r1 & E1 & [Hl Hb Hx] & _). exists tt, (Rtc r1.(nvram) 0 r1.(frozen_time)).
    unfold rtc_reset. rewrite (xbind_ret _ _ _ _ _ E1). by repeat split.
Qed.

(** A reset leaves a valid checksum over the 48 bytes of the user area: the sum of
    the bytes in the last byte and its complement before it. *)
Theorem reset_checksum o r : rtc_ok r → ∃ r', rtc_reset o r = (Ret tt, r') ∧ rtc_ok r' ∧ r'.(index) = 0 ∧
  r'.(nvram) !! 63%nat = Some (u8 (sum_list (covered r'))) ∧
  r'.(nvram) !! 62%nat = Some (255 - u8 (sum_list (covered r'))).
Proof.
  intros Hr. destruct (patch_ok o r Hr) as (r1 & E1 & [Hl Hb _] & H63 & H62).
  exists (Rtc r1.(nvram) 0 r1.(frozen_time)). unfold rtc_reset. rewrite (xbind_ret _ _ _ _ _ E1).
  split; [done|]. split; [by split|]. by split.
Qed.

(** ** Saving and loading *)

Lemma nv_copy_eq l : ∀ i r, 0 <= i → i + Z.of_nat (length l) <= 64 → length r.(nvram) = 64%nat →
  nv_copy i l r = (Ret tt, Rtc (take (Z.to_nat i) r.(nvram) ++ l ++ drop (Z.to_nat i + length l) r.(nvram)) r.(index) r.(frozen_time)).
Proof.
  induction l as [|v l IH]; intros i r Hi Hl Hr; cbn [nv_copy length] in *.
  { rewrite Nat.add_0_r. cbn [app]. rewrite take_drop. by destruct r. }
  rewrite (xbind_ret _ _ _ _ _ (nv_put_eq i v r ltac:(lia))), IH; cbn [nvram index frozen_time]; [|lia..|by rewrite length_insert].
  replace (Z.to_nat (i + 1)) with (Datatypes.S (Z.to_nat i)) by lia.
  rewrite (take_S_r _ _ v) by (apply list_lookup_insert_eq; lia).
  rewrite take_insert_ge, drop_insert_lt, Nat.add_succ_l, Nat.add_succ_r by lia. by rewrite <-(app_assoc (take _ _)).
Qed.

Lemma rtc_save_length r : rtc_ok r → length (rtc_save r) = 48%nat.
Proof. intros Hr. unfold rtc_save. rewrite length_take, length_drop, (ro_length r Hr). done. Qed.

(** Loading a saved file restores the saved bytes and changes no others; a file
    that is missing or too short changes nothing. *)
Theorem save_load r r0 file : rtc_ok r → rtc_ok r0 →
  (∃ r1, rtc_load (Some (rtc_save r)) r0 = (Ret true, r1) ∧ rtc_save r1 = rtc_save r ∧
     take 14 r1.(nvram) = take 14 r0.(nvram) ∧ drop 62 r1.(nvram) = drop 62 r0.(nvram)) ∧
  (match file with Some l => (length l < 48)%nat | None => True end → rtc_load file r0 = (Ret false, r0)).
Proof.
  intros Hr Hr0. pose proof (rtc_save_length r Hr) as Hl. pose proof (ro_length r0 Hr0) as Hl0. split.
  - unfold rtc_load. change (Z.to_nat 48) with 48%nat. rewrite Hl. cbn [Nat.ltb Nat.leb].
    rewrite take_ge by lia. erewrite xbind_ret by (apply nv_copy_eq; lia). eexists. split; [done|].
    cbn [nvram]. change (Z.to_nat 14) with 14%nat. rewrite Hl.
    assert (length (take 14 r0.(nvram)) = 14%nat) as H14 by (rewrite length_take; lia).
    split; [|split].
    + unfold rtc_save at 1. cbn [nvram]. change (Z.to_nat 14) with 14%nat. change (Z.to_nat 48) with 48%nat.
      rewrite drop_app_length' by done. by rewrite take_app_length'.
    + by rewrite take_app_length'.
    + rewrite app_assoc. rewrite drop_app_length'; [done|]. rewrite length_app. lia.
  - destruct file as [l|]; [|done]. intros Hs. unfold rtc_load. change (Z.to_nat 48) with 48%nat.
    by rewrite (proj2 (Nat.ltb_lt (length l) 48)).
Qed.

(** ** Reading back *)

(** A byte written to a cell of the memory (above the clock's registers) is read
    back, through the two registers of the chip. *)
Theorem nvram_roundtrip off size now now' r i v : rtc_ok r → byte v → 11 <= i < 64 →
  0 <= off < 2 ^ 32 - 4 → 3 <= size →
  ∃ r', (rtc_handleWrite off size now (off + 1) i ;; rtc_handleWrite off size now (off + 3) v ;;
         rtc_handleRead off size now' (off + 3)) r = (Ret v, r').
Proof.
  intros Hr Hv Hi Ho Hs. pose proof (ro_length r Hr) as Hl.
  assert (∀ k, 0 <= k <= 3 → (off + k) -u off = k) as Ha by (intros k Hk; rewrite u32_small; lia).
  assert ((size <? 1) = false ∧ (size <? 3) = false) as [H1 H3] by (rewrite !Z.ltb_ge; lia).
  unfold rtc_handleWrite, rtc_handleRead. rewrite !Ha, H1, H3 by lia. cbv zeta.
  unfold setAddr. rewrite (proj2 (Z.ltb_lt i 64)) by lia. erewrite xbind_ret by done.
  unfold rtc_setData. set (r1 := Rtc _ _ _).
  assert (∃ t, (let* i := xget index in xwhen ((i =? 11) && tst v 0x80) (freezeTime now) ;; nv_put i v) r1 =
    (Ret tt, Rtc (<[Z.to_nat i := v]> r.(nvram)) i t)) as (t & E).
  { erewrite xbind_ret by done. cbn [index r1]. destruct ((i =? 11) && tst v 0x80); cbn [xwhen];
      erewrite xbind_ret by done; rewrite nv_put_eq by lia; by eexists. }
  rewrite (xbind_ret _ _ _ _ _ E). unfold rtc_getData. erewrite xbind_ret by done. cbn [index].
  eexists. assert (∀ m : X RTC Z, (match i with
    | 0 => clock_field now' tm_sec | 2 => clock_field now' tm_min | 4 => hour_field now'
    | 6 => clock_field now' (λ t, t.(tm_wday) + 1) | 7 => clock_field now' tm_mday
    | 8 => clock_field now' (λ t, t.(tm_mon) + 1) | 9 => clock_field now' (λ t, t.(tm_year) - 68)
    | 1 | 3 | 5 => let* v := nv_get i in BIN_TO_BCD v
    | 10 => nv_mod i (λ v, v .^ 0x80) ;; nv_get i | _ => m end) = m) as Hm.
  { intros m. repeat case_match; try done; lia. }
  rewrite Hm, nv_get_eq by lia. cbn [nvram]. rewrite list_lookup_total_insert_eq by lia. reflexivity.
Qed.

(** Reading a BCD byte. *)
Definition from_bcd (v : Z) : Z := v / 16 * 10 + v mod 16.

Lemma bcd_value v : 0 <= v < 100 → from_bcd (bcd v) = v.
Proof.
  intros Hv. unfold bcd, from_bcd. rewrite Z.shiftl_mul_pow2 by lia. change (2 ^ 4) with 16.
  assert (0 <= v mod 10 < 10) by (apply Z.mod_pos_bound; lia).
  assert (0 <= v / 10 < 10) by (split; [apply Z.div_pos; lia|apply Z.div_lt_upper_bound; lia]).
  assert (v / 10 * 16 .| v mod 10 = v / 10 * 16 + v mod 10) as -> by (apply (lor_disjoint_add (v / 10) _ 4); lia).
  rewrite u8_small by lia.
  rewrite Z.div_add_l, (Z.div_small (v mod 10) 16), Z.add_0_r by lia.
  rewrite (Z.add_comm (v / 10 * 16)), Z.mod_add, (Z.mod_small (v mod 10) 16) by lia. pose proof (Z.div_mod v 10). lia.
Qed.

(** A field as the guest decodes it, by the data mode of register B. *)
Definition decode (r : RTC) (v : Z) : Z := if tst (r.(nvram) !!! 11%nat) 0x04 then v else from_bcd v.

(** The time the clock shows: the frozen one while the SET bit is on, else the host's. *)
Definition shown (r : RTC) (now : tm) : tm := if tst (r.(nvram) !!! 11%nat) 0x80 then r.(frozen_time) else now.

(** What the C library promises of [localtime], and the years the chip counts. *)
Record valid_tm (t : tm) : Prop := {
  vt_sec : 0 <= t.(tm_sec) <= 60; vt_min : 0 <= t.(tm_min) < 60; vt_hour : 0 <= t.(tm_hour) < 24;
  vt_mday : 1 <= t.(tm_mday) <= 31; vt_mon : 0 <= t.(tm_mon) < 12; vt_wday : 0 <= t.(tm_wday) < 7;
  vt_year : 68 <= t.(tm_year) < 168;
}.

Lemma getFrozenTime_eq now r : rtc_ok r →
  getFrozenTime now r = (Ret (shown r now), Rtc r.(nvram) r.(index) (shown r now)).
Proof.
  intros Hr. unfold getFrozenTime, shown. rewrite (xbind_ret _ _ _ _ _ (nv_get_eq 11 r ltac:(lia))).
  change (Z.to_nat 11) with 11%nat. destruct (tst _ _); [by destruct r|done].
Qed.

Lemma BIN_TO_BCD_eq v r : 0 <= v < 100 → ∃ w, BIN_TO_BCD v r = (Ret w, r) ∧ decode r w = v.
Proof.
  intros Hv. unfold BIN_TO_BCD, decode. rewrite (xbind_ret _ _ _ _ _ (nv_get_eq 11 r ltac:(lia))).
  change (Z.to_nat 11) with 11%nat. eexists. split; [done|].
  destruct (tst _ 0x04); cbn [negb]; [done|by apply bcd_value].
Qed.

Lemma clock_field_eq now f r : rtc_ok r → 0 <= f (shown r now) < 100 →
  ∃ w r', clock_field now f r = (Ret w, r') ∧ decode r w = f (shown r now).
Proof.
  intros Hr Hf. unfold clock_field. rewrite (xbind_ret _ _ _ _ _ (getFrozenTime_eq now r Hr)), u8_small by lia.
  destruct (BIN_TO_BCD_eq (f (shown r now)) (Rtc r.(nvram) r.(index) (shown r now)) Hf) as (w & E & D). by eexists _, _.
Qed.

Lemma hour_field_eq now r : rtc_ok r → 0 <= tm_hour (shown r now) < 24 → tst (r.(nvram) !!! 11%nat) 0x02 = true →
  ∃ w r', hour_field now r = (Ret w, r') ∧ decode r w = tm_hour (shown r now).
Proof.
  intros Hr Hf H24. unfold hour_field. rewrite (xbind_ret _ _ _ _ _ (getFrozenTime_eq now r Hr)), u8_small by lia.
  set (r1 := Rtc _ _ _). cbv zeta. rewrite (xbind_ret _ _ _ _ _ (nv_get_eq 11 r1 ltac:(lia))).
  change (Z.to_nat 11) with 11%nat. change (nvram r1) with (nvram r). rewrite H24. cbn [negb].
  destruct (BIN_TO_BCD_eq (tm_hour (shown r now)) r1 ltac:(lia)) as (w & E & D). by eexists _, _.
Qed.

(** The field of the time a register of the clock stands for. *)
Definition clock_register (i : Z) (t : tm) : option Z :=
  match i with
  | 0 => Some t.(tm_sec) | 2 => Some t.(tm_min) | 4 => Some t.(tm_hour) | 6 => Some (t.(tm_wday) + 1)
  | 7 => Some t.(tm_mday) | 8 => Some (t.(tm_mon) + 1) | 9 => Some (t.(tm_year) - 68) | _ => None
  end.

(** With the chip in 24-hour mode, reading a register of the clock gives the
    matching field of the time shown, in the number format register B selects; the time
    shown is the host's, or the frozen one while updates are inhibited. *)
Theorem clock_reads now r v : rtc_ok r → valid_tm (shown r now) → tst (r.(nvram) !!! 11%nat) 0x02 = true →
  clock_register r.(index) (shown r now) = Some v →
  ∃ w r', rtc_getData now r = (Ret w, r') ∧ decode r w = v.
Proof.
  intros Hr [] H24 Hv. unfold rtc_getData. erewrite xbind_ret by done. unfold clock_register in Hv.
  repeat case_match; simplify_eq.
  all: first [apply (clock_field_eq now tm_sec)|apply (clock_field_eq now tm_min)|apply hour_field_eq
    |apply (clock_field_eq now (λ t, t.(tm_wday) + 1))|apply (clock_field_eq now tm_mday)
    |apply (clock_field_eq now (λ t, t.(tm_mon) + 1))|apply (clock_field_eq now (λ t, t.(tm_year) - 68))]; try done; lia.
Qed.

(** ** A concrete chip *)

Definition noon : tm := Tm 30 15 12 24 11 125 3.
Definition chip : RTC := Rtc nvram_init 4 noon.
Definition no_options : rtc_options := RtcOptions (-1) (-1) (-1).

Lemma chip_ok : rtc_ok chip.
Proof.
  split; [done| |done]. unfold chip, nvram_init. repeat constructor; done.
Qed.

Lemma rtc_total_witness : byte 0x80 ∧
  total byte (rtc_handleRead 0xff8960 4 noon 0xff8963) ∧ total any (rtc_handleWrite 0xff8960 4 noon 0xff8963 0x80) ∧
  total any (rtc_reset no_options).
Proof. split; [done|]. apply rtc_total. done. Defined.

Lemma reset_checksum_witness : rtc_ok chip ∧ ∃ r', rtc_reset no_options chip = (Ret tt, r') ∧
  r'.(nvram) !! 63%nat = Some (u8 (sum_list (covered r'))).
Proof.
  split; [apply chip_ok|]. destruct (reset_checksum no_options chip chip_ok) as (r' & ? & _ & _ & ? & _). by exists r'.
Defined.

Lemma save_load_witness : rtc_ok chip ∧ rtc_load (Some [1; 2]) chip = (Ret false, chip) ∧
  ∃ r1, rtc_load (Some (rtc_save chip)) chip = (Ret true, r1) ∧ rtc_save r1 = rtc_save chip.
Proof.
  split; [apply chip_ok|]. destruct (save_load chip chip (Some [1; 2]) chip_ok chip_ok) as [(r1 & ? & ? & _) H].
  split; [apply H; cbn; lia|by exists r1].
Defined.

Lemma nvram_roundtrip_witness : ∃ r',
  (rtc_handleWrite 0xff8960 4 noon (0xff8960 + 1) 30 ;; rtc_handleWrite 0xff8960 4 noon (0xff8960 + 3) 0x5a ;;
   rtc_handleRead 0xff8960 4 noon (0xff8960 + 3)) chip = (Ret 0x5a, r').
Proof. apply nvram_roundtrip; [apply chip_ok|done|done|done|done]. Defined.

Lemma clock_reads_witness : ∃ w r', rtc_getData noon chip = (Ret w, r') ∧ decode chip w = 12.
Proof. apply (clock_reads noon chip 12); [apply chip_ok|by split|done|done]. Defined.

(** ** What the chip does differently *)

(** In 12-hour mode the flag for the afternoon is off at noon and on at midnight. *)
Lemma noon_is_am : fst (rtc_getData noon (Rtc (<[11%nat := 4]> nvram_init) 4 noon)) = Ret 12 ∧
  fst (rtc_getData (Tm 0 0 0 24 11 125 3) (Rtc (<[11%nat := 4]> nvram_init) 4 noon)) = Ret (12 .| 0x80).
Proof. done. Qed.

(** In BCD mode an alarm register, which keeps what the guest wrote, is converted when it
    is read: the guest writes 0x30 and reads 0x48. *)
Lemma alarm_converted_twice :
  fst ((rtc_setData noon 0x30 ;; rtc_getData noon) (Rtc (<[11%nat := 2]> nvram_init) 1 noon)) = Ret 0x48.
Proof. done. Qed.
