(* ===== verification/Ikbd.v ===== *)
(** * Ikbd: the keyboard processor and its serial interface

    Models [src/acia.cpp] ([include/acia.h]), the serial interface, and [src/ikbd.cpp]
    ([include/ikbd.h]), the keyboard processor behind it: the queue of bytes for the
    guest, the commands of the guest, and the events of the host (keys, mouse,
    joysticks).  A byte in the queue pulls line 4 of the MFP's port, so the state holds
    the MFP of [Mfp] next to the object.

    The buffers are allocated.  The clock of the host is an argument [now].  Line
    numbers of the hat switch belong to SDL and are an argument, too. *)

From S2P Require Import Prelude Throws Mfp Rtc.
From stdpp Require Import base gmap list numbers.
Open Scope Z_scope.
Open Scope c_scope.
Open Scope x_scope.

Inductive ikbd_packet_t := IKBD_PACKET_UNKNOWN | IKBD_PACKET_KEYBOARD | IKBD_PACKET_MOUSE | IKBD_PACKET_JOYSTICK.

(** The fields of the class and of its base class [ACIA]; [mousex], [mousey] and
    [mouseb], which are only ever zeroed, are left out. *)
Record IKBD := Ikbd {
  sr : Z;
  cr : Z;
  rxdr : Z;
  txdr : Z;
  mouse_enabled : bool;
  mouserel_enabled : bool;
  yaxis_reversed : bool;
  joy_enabled : list bool;
  joy_state : list Z;
  outbuffer : gmap Z Z;
  outwrite : Z;
  inbuffer : gmap Z Z;
  inwrite : Z;
  inread : Z;
  intype : ikbd_packet_t;
}.

Definition to_sr (v : Z) (k : IKBD) : IKBD :=
    Ikbd v k.(cr) k.(rxdr) k.(txdr) k.(mouse_enabled) k.(mouserel_enabled) k.(yaxis_reversed)
    k.(joy_enabled) k.(joy_state) k.(outbuffer) k.(outwrite) k.(inbuffer) k.(inwrite) k.(inread)
    k.(intype).
Definition to_cr (v : Z) (k : IKBD) : IKBD :=
    Ikbd k.(sr) v k.(rxdr) k.(txdr) k.(mouse_enabled) k.(mouserel_enabled) k.(yaxis_reversed)
    k.(joy_enabled) k.(joy_state) k.(outbuffer) k.(outwrite) k.(inbuffer) k.(inwrite) k.(inread)
    k.(intype).
Definition to_rxdr (v : Z) (k : IKBD) : IKBD :=
    Ikbd k.(sr) k.(cr) v k.(txdr) k.(mouse_enabled) k.(mouserel_enabled) k.(yaxis_reversed)
    k.(joy_enabled) k.(joy_state) k.(outbuffer) k.(outwrite) k.(inbuffer) k.(inwrite) k.(inread)
    k.(intype).
Definition to_txdr (v : Z) (k : IKBD) : IKBD :=
    Ikbd k.(sr) k.(cr) k.(rxdr) v k.(mouse_enabled) k.(mouserel_enabled) k.(yaxis_reversed)
    k.(joy_enabled) k.(joy_state) k.(outbuffer) k.(outwrite) k.(inbuffer) k.(inwrite) k.(inread)
    k.(intype).
Definition to_mouse_enabled (v : bool) (k : IKBD) : IKBD :=
    Ikbd k.(sr) k.(cr) k.(rxdr) k.(txdr) v k.(mouserel_enabled) k.(yaxis_reversed) k.(joy_enabled)
    k.(joy_state) k.(outbuffer) k.(outwrite) k.(inbuffer) k.(inwrite) k.(inread) k.(intype).
Definition to_mouserel_enabled (v : bool) (k : IKBD) : IKBD :=
    Ikbd k.(sr) k.(cr) k.(rxdr) k.(txdr) k.(mouse_enabled) v k.(yaxis_reversed) k.(joy_enabled)
    k.(joy_state) k.(outbuffer) k.(outwrite) k.(inbuffer) k.(inwrite) k.(inread) k.(intype).
Definition to_yaxis_reversed (v : bool) (k : IKBD) : IKBD :=
    Ikbd k.(sr) k.(cr) k.(rxdr) k.(txdr) k.(mouse_enabled) k.(mouserel_enabled) v k.(joy_enabled)
    k.(joy_state) k.(outbuffer) k.(outwrite) k.(inbuffer) k.(inwrite) k.(inread) k.(intype).
Definition to_joy_enabled (v : list bool) (k : IKBD) : IKBD :=
    Ikbd k.(sr) k.(cr) k.(rxdr) k.(txdr) k.(mouse_enabled) k.(mouserel_enabled) k.(yaxis_reversed) v
    k.(joy_state) k.(outbuffer) k.(outwrite) k.(inbuffer) k.(inwrite) k.(inread) k.(intype).
Definition to_joy_state (v : list Z) (k : IKBD) : IKBD :=
    Ikbd k.(sr) k.(cr) k.(rxdr) k.(txdr) k.(mouse_enabled) k.(mouserel_enabled) k.(yaxis_reversed)
    k.(joy_enabled) v k.(outbuffer) k.(outwrite) k.(inbuffer) k.(inwrite) k.(inread) k.(intype).
Definition to_outbuffer (v : gmap Z Z) (k : IKBD) : IKBD :=
    Ikbd k.(sr) k.(cr) k.(rxdr) k.(txdr) k.(mouse_enabled) k.(mouserel_enabled) k.(yaxis_reversed)
    k.(joy_enabled) k.(joy_state) v k.(outwrite) k.(inbuffer) k.(inwrite) k.(inread) k.(intype).
Definition to_outwrite (v : Z) (k : IKBD) : IKBD :=
    Ikbd k.(sr) k.(cr) k.(rxdr) k.(txdr) k.(mouse_enabled) k.(mouserel_enabled) k.(yaxis_reversed)
    k.(joy_enabled) k.(joy_state) k.(outbuffer) v k.(inbuffer) k.(inwrite) k.(inread) k.(intype).
Definition to_inbuffer (v : gmap Z Z) (k : IKBD) : IKBD :=
    Ikbd k.(sr) k.(cr) k.(rxdr) k.(txdr) k.(mouse_enabled) k.(mouserel_enabled) k.(yaxis_reversed)
    k.(joy_enabled) k.(joy_state) k.(outbuffer) k.(outwrite) v k.(inwrite) k.(inread) k.(intype).
Definition to_inwrite (v : Z) (k : IKBD) : IKBD :=
    Ikbd k.(sr) k.(cr) k.(rxdr) k.(txdr) k.(mouse_enabled) k.(mouserel_enabled) k.(yaxis_reversed)
    k.(joy_enabled) k.(joy_state) k.(outbuffer) k.(outwrite) k.(inbuffer) v k.(inread) k.(intype).
Definition to_inread (v : Z) (k : IKBD) : IKBD :=
    Ikbd k.(sr) k.(cr) k.(rxdr) k.(txdr) k.(mouse_enabled) k.(mouserel_enabled) k.(yaxis_reversed)
    k.(joy_enabled) k.(joy_state) k.(outbuffer) k.(outwrite) k.(inbuffer) k.(inwrite) v k.(intype).
Definition to_intype (v : ikbd_packet_t) (k : IKBD) : IKBD :=
    Ikbd k.(sr) k.(cr) k.(rxdr) k.(txdr) k.(mouse_enabled) k.(mouserel_enabled) k.(yaxis_reversed)
    k.(joy_enabled) k.(joy_state) k.(outbuffer) k.(outwrite) k.(inbuffer) k.(inwrite) k.(inread) v.

Abbreviation ACIA_CR_PREDIV_MASK := 0x03 (only parsing).
Abbreviation ACIA_CR_RESET := 0x03 (only parsing).
Abbreviation ACIA_CR_REC_INTER := 7 (only parsing).
Abbreviation ACIA_SR_RXFULL := 0 (only parsing).
Abbreviation ACIA_SR_TXEMPTY := 1 (only parsing).
Abbreviation ACIA_SR_INTERRUPT := 7 (only parsing).
Abbreviation INBUFFERLEN := 8192 (only parsing).
Abbreviation OUTBUFFERLEN := 16 (only parsing).
Abbreviation MOUSE_DELTA_MAX := 63 (only parsing).
Abbreviation JOYSTICK_THRESHOLD := 16384 (only parsing).
Abbreviation IKBD_JOY_UP := 0 (only parsing).
Abbreviation IKBD_JOY_DOWN := 1 (only parsing).
Abbreviation IKBD_JOY_LEFT := 2 (only parsing).
Abbreviation IKBD_JOY_RIGHT := 3 (only parsing).
Abbreviation IKBD_JOY_FIRE := 7 (only parsing).
Abbreviation bit := (Z.shiftl 1).

(** The keyboard and the MFP it is wired to. *)
Record keyboard := Keyboard { kbd : IKBD; wired : MFP }.

Local Abbreviation M := (X keyboard).
Definition with_mfp {A} (m : X MFP A) : M A := xzoom wired (λ x s, Keyboard s.(kbd) x) m.
Definition kget {A} (f : IKBD → A) : M A := xget (λ s, f s.(kbd)).
Definition kmod (f : IKBD → IKBD) : M unit := xmod (λ s, Keyboard (f s.(kbd)) s.(wired)).

(** ** The serial interface *)

Definition acia_reset : M unit :=
  kmod (to_cr 0) ;; kmod (to_rxdr 0) ;; kmod (to_txdr 0) ;; kmod (to_sr (bit ACIA_SR_TXEMPTY)).

(** The registers; the arguments are the virtual methods of the derived class. *)
Section Acia.
Context (HWoffset : Z).
Context (ReadStatus ReadData : M Z) (WriteControl WriteData : Z → M unit).

Definition acia_handleRead (addr : Z) : M Z :=
  match addr -u HWoffset with
  | 0 => ReadStatus
  | 2 => ReadData
  | _ => xret 0
  end.

Definition acia_handleWrite (addr value : Z) : M unit :=
  match addr -u HWoffset with
  | 0 => if (value .& ACIA_CR_PREDIV_MASK) =? ACIA_CR_RESET then acia_reset else WriteControl value
  | 2 => WriteData value
  | _ => xret tt
  end.
End Acia.

(** ** The queue *)

(** [inbuffer[i]], with [i] kept in range by the mask of the callers. *)
Definition in_get (i : Z) : M Z :=
  if in_range 0 INBUFFERLEN i then kget (λ k, aget k.(inbuffer) i) else xundef Oob_device.
Definition in_put (i v : Z) : M unit :=
  if in_range 0 INBUFFERLEN i then kmod (λ k, to_inbuffer (aset i v k.(inbuffer)) k) else xundef Oob_device.

Definition ThrowInterrupt : M unit :=
  let* k := kget id in
  if (k.(cr) .& bit ACIA_CR_REC_INTER) =? 0 then xret tt else
  kmod (λ k, to_sr (k.(sr) .| bit ACIA_SR_INTERRUPT) k) ;;
  let* ier := with_mfp (mfp_handleRead 0xfffa00 0x30 None 0xfffa09) in
  if (ier .& 0x40) =? 0 then xret tt else
  with_mfp (setGPIPbit 0x10 0x10) ;;
  with_mfp (setGPIPbit 0x10 0).

(** How much [send] drops when the queue is full, by its oldest byte. *)
Definition cleanup_length (head : Z) : Z :=
  match head with
  | 0xf6 => 8
  | 0xf7 => 6
  | 0xf8 | 0xf9 | 0xfa | 0xfb => 3
  | 0xfc => 7
  | 0xfe | 0xff => 2
  | _ => 1
  end.

Definition ikbd_send (value : Z) : M unit :=
  let* w := kget inwrite in
  in_put w value ;;
  kmod (to_inwrite (w + 1)) ;;
  kmod (λ k, to_inwrite (k.(inwrite) .& (INBUFFERLEN - 1)) k) ;;
  let* k := kget id in
  xwhen (k.(inread) =? k.(inwrite))
    (let* head := in_get k.(inread) in
     kmod (λ k, to_inread (k.(inread) + cleanup_length head) k) ;;
     kmod (λ k, to_inread (k.(inread) .& (INBUFFERLEN - 1)) k)) ;;
  kmod (λ k, to_sr (k.(sr) .| bit ACIA_SR_RXFULL) k) ;;
  ThrowInterrupt.

Definition ikbd_ReadStatus : M Z := kget sr.

Definition ikbd_WriteControl (value : Z) : M unit := kmod (to_cr value).

Definition ikbd_ReadData : M Z :=
  let* k := kget id in
  xwhen (negb (k.(inread) =? k.(inwrite)))
    (let* v := in_get k.(inread) in
     kmod (to_rxdr v) ;;
     kmod (to_inread (k.(inread) + 1)) ;;
     kmod (λ k, to_inread (k.(inread) .& (INBUFFERLEN - 1)) k) ;;
     let* k := kget id in
     if k.(inread) =? k.(inwrite) then
       with_mfp (setGPIPbit 0x10 0x10) ;;
       kmod (λ k, to_sr (Z.ldiff k.(sr) (bit ACIA_SR_INTERRUPT .| bit ACIA_SR_RXFULL)) k)
     else
       kmod (λ k, to_sr (k.(sr) .| bit ACIA_SR_RXFULL) k) ;;
       ThrowInterrupt) ;;
  kget rxdr.

(** ** Commands of the guest *)

Definition ikbd_reset : M unit :=
  kmod (to_inread 0) ;; kmod (to_inwrite 0) ;;
  kmod (to_outwrite 0) ;;
  kmod (to_intype IKBD_PACKET_UNKNOWN) ;;
  kmod (to_mouse_enabled true) ;;
  kmod (to_mouserel_enabled true) ;;
  kmod (to_yaxis_reversed false) ;;
  kmod (to_joy_enabled [false; true]) ;;
  kmod (to_joy_state [0; 0]).

Definition int2bcd (a : Z) : Z := u8 (Z.rem a 10 + Z.shiftl (Z.quot a 10) 4).

(** [joy_enabled[n]], [joy_state[n]]. *)
Definition joy_get {A} `{Inhabited A} (f : IKBD → list A) (n : Z) : M A :=
  if in_range 0 2 n then kget (λ k, f k !!! Z.to_nat n) else xundef Oob_device.
Definition joy_put_enabled (n : Z) (v : bool) : M unit :=
  if in_range 0 2 n then kmod (λ k, to_joy_enabled (<[Z.to_nat n := v]> k.(joy_enabled)) k) else xundef Oob_device.
Definition joy_put_state (n v : Z) : M unit :=
  if in_range 0 2 n then kmod (λ k, to_joy_state (<[Z.to_nat n := v]> k.(joy_state)) k) else xundef Oob_device.

Definition out_get (i : Z) : M Z :=
  if in_range 0 OUTBUFFERLEN i then kget (λ k, aget k.(outbuffer) i) else xundef Oob_device.
Definition out_put (i v : Z) : M unit :=
  if in_range 0 OUTBUFFERLEN i then kmod (λ k, to_outbuffer (aset i v k.(outbuffer)) k) else xundef Oob_device.

Definition command_done : M unit := kmod (to_outwrite 0).

(** Command 0x1c. *)
Definition send_time (now : tm) : M unit :=
  ikbd_send 0xfc ;;
  ikbd_send (int2bcd (Z.rem now.(tm_year) 100)) ;;
  ikbd_send (int2bcd (now.(tm_mon) + 1)) ;;
  ikbd_send (int2bcd now.(tm_mday)) ;;
  ikbd_send (int2bcd now.(tm_hour)) ;;
  ikbd_send (int2bcd now.(tm_min)) ;;
  ikbd_send (int2bcd now.(tm_sec)).

(** The cases of the switch on [outwrite], each by the first byte of the command. *)
Definition command1 (now : tm) (c : Z) : M unit :=
  match c with
  | 0x08 => kmod (to_mouse_enabled true) ;; kmod (to_mouserel_enabled true) ;; joy_put_enabled 1 true ;; command_done
  | 0x0d => command_done
  | 0x0f => kmod (to_yaxis_reversed true) ;; command_done
  | 0x10 => kmod (to_yaxis_reversed false) ;; command_done
  | 0x11 => command_done
  | 0x12 => kmod (to_mouse_enabled false) ;; command_done
  | 0x13 | 0x14 | 0x15 => command_done
  | 0x16 =>
      kmod (to_intype IKBD_PACKET_JOYSTICK) ;;
      ikbd_send (0xfe .| 1) ;;
      let* v := joy_get joy_state 1 in ikbd_send (u8 v) ;;
      command_done
  | 0x18 => command_done
  | 0x1a => joy_put_enabled 1 false ;; joy_put_enabled 0 false ;; command_done
  | 0x1c => send_time now ;; command_done
  | _ => xret tt
  end.

Definition command2 (c : Z) : M unit :=
  match c with
  | 0x07 | 0x17 => command_done
  | 0x80 =>
      let* a := out_get 1 in
      xwhen (a =? 0x01) (ikbd_reset ;; command_done ;; ikbd_send 0xf1)
  | _ => xret tt
  end.

Definition command3 (c : Z) : M unit :=
  match c with
  | 0x0a => kmod (to_mouse_enabled true) ;; joy_put_enabled 1 true ;; command_done
  | 0x0b | 0x0c | 0x20 | 0x21 => command_done
  | _ => xret tt
  end.

Definition command4 (c : Z) : M unit :=
  match c with
  | 0x09 => kmod (to_mouse_enabled true) ;; kmod (to_mouserel_enabled false) ;; joy_put_enabled 1 true ;; command_done
  | _ => xret tt
  end.

Definition command5 (c : Z) : M unit := match c with 0x0e => command_done | _ => xret tt end.

Definition command6 (c : Z) : M unit := match c with 0x19 | 0x1b => command_done | _ => xret tt end.

Definition ikbd_WriteData (now : tm) (value : Z) : M unit :=
  let* w := kget outwrite in
  kmod (to_outwrite (w + 1)) ;;
  kmod (to_txdr value) ;;
  out_put w value ;;
  let* n := kget outwrite in
  let* c := out_get 0 in
  match n with
  | 1 => command1 now c
  | 2 => command2 c
  | 3 => command3 c
  | 4 => command4 c
  | 5 => command5 c
  | 6 => command6 c
  | _ => command_done
  end.

Definition ikbd_handleRead (HWoffset : Z) : Z → M Z := acia_handleRead HWoffset ikbd_ReadStatus ikbd_ReadData.
Definition ikbd_handleWrite (HWoffset : Z) (now : tm) : Z → Z → M unit :=
  acia_handleWrite HWoffset ikbd_WriteControl (ikbd_WriteData now).

(** ** Events of the host *)

Definition SendKey (scancode : Z) : M unit :=
  kmod (to_intype IKBD_PACKET_KEYBOARD) ;; ikbd_send scancode.

Definition ReleaseShiftKeys (bootOs altgr : bool) : M unit :=
  if negb bootOs then xret tt else
  SendKey (0x80 .| 0x2a) ;;
  SendKey (0x80 .| 0x36) ;;
  SendKey (0x80 .| 0x1d) ;;
  SendKey (0x80 .| 0x38) ;;
  xwhen altgr (SendKey (0x80 .| 0x4c)).

(** The new [relx] and [rely]. *)
Definition MergeMousePacket (relx rely buttons : Z) : M (Z * Z) :=
  let* k := kget id in
  match k.(intype) with
  | IKBD_PACKET_MOUSE =>
    if k.(inread) =? k.(inwrite) then xret (relx, rely) else
    let mouse_inwrite := (k.(inwrite) - 3) .& (INBUFFERLEN - 1) in
    let mouse_inwrite1 := (mouse_inwrite + 1) .& (INBUFFERLEN - 1) in
    let mouse_inwrite2 := (mouse_inwrite + 2) .& (INBUFFERLEN - 1) in
    if (k.(inread) =? mouse_inwrite) || (k.(inread) =? mouse_inwrite1) || (k.(inread) =? mouse_inwrite2)
    then xret (relx, rely) else
    let* header := in_get mouse_inwrite in
    if (header <=? 0xf8) && (0xfb <=? header) then xret (relx, rely) else
    if negb (header =? (0xf8 .| (buttons .& 3))) then xret (relx, rely) else
    let* x := in_get mouse_inwrite1 in
    let distx := relx + x in
    if MOUSE_DELTA_MAX <? Z.abs distx then xret (relx, rely) else
    let* y := in_get mouse_inwrite2 in
    let disty := rely + y in
    if MOUSE_DELTA_MAX <? Z.abs disty then xret (relx, rely) else
    kmod (to_inwrite mouse_inwrite) ;;
    xret (distx, disty)
  | _ => xret (relx, rely)
  end.

(** One component of a packet: [movex] from [relx]. *)
Definition mouse_step (slow : bool) (rel : Z) : Z :=
  if slow then (if 0 <? rel then 1 else if rel <? 0 then -1 else 0)
  else if MOUSE_DELTA_MAX <? Z.abs rel then (if 0 <? rel then MOUSE_DELTA_MAX else - MOUSE_DELTA_MAX)
  else rel.

(** The loop of [SendMouseMotion], with a bound on its turns. *)
Fixpoint mouse_loop (fuel : nat) (relx rely buttons : Z) (slow : bool) : M unit :=
  match fuel with
  | O => xundef No_fuel
  | S fuel =>
    let movex := mouse_step slow relx in
    let movey := mouse_step slow rely in
    let relx := relx - movex in
    let rely := rely - movey in
    let* move := (if negb slow then MergeMousePacket movex movey buttons else xret (movex, movey)) in
    kmod (to_intype IKBD_PACKET_MOUSE) ;;
    ikbd_send (0xf8 .| (buttons .& 3)) ;;
    ikbd_send (u8 move.1) ;;
    let* rev := kget yaxis_reversed in
    ikbd_send (u8 (if rev then - move.2 else move.2)) ;;
    if negb (relx =? 0) || negb (rely =? 0) then mouse_loop fuel relx rely buttons slow else xret tt
  end.

(** The turns that are enough: every turn brings both parts nearer to 0. *)
Definition mouse_turns (relx rely : Z) : nat := S (Z.to_nat (Z.max (Z.abs relx) (Z.abs rely))).

Definition SendMouseMotion (relx rely buttons : Z) (slow : bool) : M unit :=
  let* enabled := kget mouse_enabled in
  if negb enabled then xret tt else
  if negb slow && ((relx =? - 2 ^ 31) || (rely =? - 2 ^ 31)) then xundef Int_overflow else
  if negb slow && ((2048 <? Z.abs relx) || (2048 <? Z.abs rely)) then xret tt else
  mouse_loop (mouse_turns relx rely) relx rely buttons slow.

(** The end of the three joystick handlers. *)
Definition joy_changed (numjoy newjoy_state : Z) : M unit :=
  let* old := joy_get joy_state numjoy in
  xwhen (negb (old =? newjoy_state))
    (joy_put_state numjoy newjoy_state ;;
     kmod (to_intype IKBD_PACKET_JOYSTICK) ;;
     ikbd_send (u8 (0xfe .| numjoy)) ;;
     let* v := joy_get joy_state numjoy in ikbd_send (u8 v)).

(** A stick's axis: the two direction bits. *)
Definition axis_bits (low high value state : Z) : Z :=
  let state := Z.ldiff state (bit low .| bit high) in
  let state := if value <? - JOYSTICK_THRESHOLD then state .| bit low else state in
  if JOYSTICK_THRESHOLD <? value then state .| bit high else state.

Definition SendJoystickAxis (numjoy numaxis value : Z) : M unit :=
  let* enabled := joy_get joy_enabled numjoy in
  if negb enabled then xret tt else
  let* state := joy_get joy_state numjoy in
  joy_changed numjoy (match numaxis with
    | 0 => axis_bits IKBD_JOY_LEFT IKBD_JOY_RIGHT value (u8 state)
    | 1 => axis_bits IKBD_JOY_UP IKBD_JOY_DOWN value (u8 state)
    | _ => u8 state end).

(** The constants [SDL_HAT_*]. *)
Record hat_bits := HatBits { SDL_HAT_LEFT : Z; SDL_HAT_RIGHT : Z; SDL_HAT_UP : Z; SDL_HAT_DOWN : Z }.

Definition SendJoystickHat (hat : hat_bits) (numjoy value : Z) : M unit :=
  let* enabled := joy_get joy_enabled numjoy in
  if negb enabled then xret tt else
  let* state := joy_get joy_state numjoy in
  let new := u8 (state .& bit IKBD_JOY_FIRE) in
  let new := if tst value hat.(SDL_HAT_LEFT) then new .| bit IKBD_JOY_LEFT else new in
  let new := if tst value hat.(SDL_HAT_RIGHT) then new .| bit IKBD_JOY_RIGHT else new in
  let new := if tst value hat.(SDL_HAT_UP) then new .| bit IKBD_JOY_UP else new in
  let new := if tst value hat.(SDL_HAT_DOWN) then new .| bit IKBD_JOY_DOWN else new in
  joy_changed numjoy new.

Definition SendJoystickButton (numjoy pressed : Z) : M unit :=
  let* enabled := joy_get joy_enabled numjoy in
  if negb enabled then xret tt else
  let* state := joy_get joy_state numjoy in
  joy_changed numjoy (Z.ldiff (u8 state) (bit IKBD_JOY_FIRE) .| Z.shiftl (pressed .& 1) IKBD_JOY_FIRE).
