(* ===== verification/IkbdSpec.v ===== *)
(** * IkbdSpec: the queue of the keyboard

    The ring buffer as a list ([queue]), what [send] and [ReadData] do to it, and that
    no access leaves the buffers.  [ikbd_fifo]: the ring refines a bounded queue. *)

From S2P Require Import Prelude Throws Mfp MfpSpec Rtc Ikbd.
From stdpp Require Import base gmap list numbers.
Open Scope Z_scope.
Open Scope c_scope.
Open Scope x_scope.

Definition is_byte (v : Z) : Prop := 0 <= v < 256.

Record ikbd_ok (k : IKBD) : Prop := {
  io_read : 0 <= k.(inread) < 8192;
  io_write : 0 <= k.(inwrite) < 8192;
  io_out : 0 <= k.(outwrite) <= 6;
  io_buffer : ∀ i, is_byte (aget k.(inbuffer) i);
  io_rxdr : is_byte k.(rxdr);
  io_enabled : length k.(joy_enabled) = 2%nat;
  io_state : length k.(joy_state) = 2%nat;
}.
Definition kbd_ok (s : keyboard) : Prop := ikbd_ok s.(kbd) ∧ mfp_ok s.(wired).

(** ** The ring as a list *)

Definition ring (buf : gmap Z Z) (r n : Z) : list Z := (λ i, aget buf ((r + i) mod 8192)) <$> seqZ 0 n.

Definition queue_length (k : IKBD) : Z := (k.(inwrite) - k.(inread)) mod 8192.
Definition queue (k : IKBD) : list Z := ring k.(inbuffer) k.(inread) (queue_length k).

Lemma ring_length buf r n : length (ring buf r n) = Z.to_nat n.
Proof. unfold ring. by rewrite length_fmap, length_seqZ. Qed.

Lemma ring_push buf r n b : 0 <= n < 8192 → ring (aset ((r + n) mod 8192) b buf) r (n + 1) = ring buf r n ++ [b].
Proof.
  intros Hn. unfold ring. rewrite seqZ_app, fmap_app by lia. f_equal.
  - apply list_fmap_ext. intros i x Hi. apply lookup_seqZ in Hi as [-> Hi]. apply aget_aset_ne.
    intros E.
    assert ((r + n - (r + (0 + Z.of_nat i))) mod 8192 = 0) as E' by (by rewrite Zminus_mod, E, Z.sub_diag).
    replace (r + n - (r + (0 + Z.of_nat i))) with (n - Z.of_nat i) in E' by lia. rewrite Z.mod_small in E' by lia. lia.
  - rewrite (seqZ_cons (0 + n)), seqZ_nil by lia. cbn. by rewrite aget_aset_eq.
Qed.

Lemma ring_drop buf r n d : 0 <= d <= n → ring buf ((r + d) mod 8192) (n - d) = drop (Z.to_nat d) (ring buf r n).
Proof.
  intros Hd. unfold ring. replace n with (d + (n - d)) at 2 by lia.
  rewrite seqZ_app, fmap_app, drop_app_length' by (rewrite ?length_fmap, ?length_seqZ; lia).
  replace (0 + d) with (d + 0) by lia. rewrite <-fmap_add_seqZ, <-list_fmap_compose.
  apply list_fmap_ext. intros i x _. cbn. rewrite Zplus_mod_idemp_l. do 2 f_equal. lia.
Qed.

Lemma ring_head buf r n : 0 < n → 0 <= r < 8192 → head (ring buf r n) = Some (aget buf r).
Proof. intros Hn Hr. unfold ring. rewrite seqZ_cons by lia. cbn. by rewrite Z.add_0_r, Z.mod_small. Qed.

Lemma queue_range k : 0 <= queue_length k < 8192.
Proof. apply Z.mod_pos_bound. lia. Qed.

Lemma queue_write k : ikbd_ok k → k.(inwrite) = (k.(inread) + queue_length k) mod 8192.
Proof.
  intros []. unfold queue_length. rewrite Zplus_mod_idemp_r. replace (_ + _) with k.(inwrite) by lia.
  by rewrite Z.mod_small.
Qed.

(** ** Pushing and popping *)

Lemma land_8191 z : z .& (8192 - 1) = z mod 8192.
Proof. apply (Z.land_ones z 13). lia. Qed.

(** The state [send] leaves, but for the status register. *)
Definition pushed (b : Z) (k : IKBD) : IKBD :=
  let buf := aset k.(inwrite) b k.(inbuffer) in
  let w := (k.(inwrite) + 1) mod 8192 in
  let r := if k.(inread) =? w then (k.(inread) + cleanup_length (aget buf k.(inread))) mod 8192 else k.(inread) in
  to_inread r (to_inwrite w (to_inbuffer buf k)).

(** The abstract queue: 8191 bytes, and a packet dropped when it is full. *)
Definition enqueue (b : Z) (q : list Z) : list Z :=
  let q := q ++ [b] in
  if Z.of_nat (length q) =? 8192 then drop (Z.to_nat (cleanup_length (hd 0 q))) q else q.

Lemma cleanup_range h : 1 <= cleanup_length h <= 8.
Proof. unfold cleanup_length. repeat case_match; lia. Qed.

Lemma queue_pushed b k : ikbd_ok k → queue (pushed b k) = enqueue b (queue k).
Proof.
  intros Hk. pose proof (queue_range k) as Hn. pose proof (queue_write k Hk) as Hw. destruct Hk as [Hr Hw' _ _ _ _ _].
  set (n := queue_length k) in *.
  assert (ring (aset k.(inwrite) b k.(inbuffer)) k.(inread) (n + 1) = queue k ++ [b]) as Hpush by (rewrite Hw; by apply ring_push).
  assert ((inwrite k + 1) mod 8192 = (inread k + (n + 1)) mod 8192) as Hw1 by (rewrite Hw at 1; rewrite Zplus_mod_idemp_l; f_equal; lia).
  unfold enqueue. rewrite <-Hpush, ring_length. unfold queue, queue_length, pushed. cbn [inread inwrite inbuffer to_inread to_inwrite to_inbuffer].
  rewrite Hw1. destruct (decide (n + 1 = 8192)) as [E|E].
  - rewrite E. change (Z.of_nat (Z.to_nat 8192) =? 8192) with true. cbv iota.
    rewrite Z.add_mod, Z.mod_same, Z.add_0_r, Z.mod_mod, (Z.mod_small (inread k)), Z.eqb_refl by lia.
    set (buf := aset _ _ _). set (d := cleanup_length _). assert (1 <= d <= 8) by apply cleanup_range.
    assert (hd 0 (ring buf (inread k) 8192) = aget buf (inread k)) as ->.
    { pose proof (ring_head buf (inread k) 8192 ltac:(lia) Hr) as H'. by destruct (ring _ _ _); simplify_eq/=. }
    fold d. rewrite Zminus_mod_idemp_r. replace (inread k - (inread k + d)) with (8192 - d + (-1) * 8192) by lia.
    rewrite Z.mod_add, (Z.mod_small (8192 - d)) by lia. by rewrite <-ring_drop by lia.
  - rewrite Z2Nat.id, (proj2 (Z.eqb_neq (n + 1) 8192)) by lia. rewrite (proj2 (Z.eqb_neq _ _)).
    + rewrite Zminus_mod_idemp_l. replace (inread k + (n + 1) - inread k) with (n + 1) by lia. by rewrite Z.mod_small by lia.
    + intros E'. assert ((inread k + (n + 1) - inread k) mod 8192 = 0) as E0 by (by rewrite <-Zminus_mod_idemp_l, <-E', Z.sub_diag).
      replace (inread k + (n + 1) - inread k) with (n + 1) in E0 by lia. rewrite Z.mod_small in E0; lia.
Qed.

Lemma pushed_ok b k : is_byte b → ikbd_ok k → ikbd_ok (pushed b k).
Proof.
  intros Hb []. unfold pushed. split; cbn; try done.
  - case_match; [apply Z.mod_pos_bound; lia|done].
  - apply Z.mod_pos_bound; lia.
  - by apply aset_forall.
Qed.

(** The state [ReadData] leaves when there is a byte, but for the status register. *)
Definition popped (k : IKBD) : IKBD :=
  to_inread ((k.(inread) + 1) mod 8192) (to_rxdr (aget k.(inbuffer) k.(inread)) k).

Lemma queue_nil k : ikbd_ok k → (k.(inread) =? k.(inwrite)) = true ↔ queue k = [].
Proof.
  intros Hk. pose proof (queue_range k) as Hn. pose proof (queue_write k Hk) as Hw. destruct Hk as [Hr Hw' _ _ _ _ _].
  rewrite Z.eqb_eq. split; intros E.
  - unfold queue, queue_length. rewrite E, Z.sub_diag. done.
  - assert (length (queue k) = 0%nat) as El by (by rewrite E). unfold queue in El. rewrite ring_length in El.
    rewrite Hw. replace (queue_length k) with 0 by lia. by rewrite Z.add_0_r, Z.mod_small.
Qed.

Lemma queue_popped k : ikbd_ok k → (k.(inread) =? k.(inwrite)) = false →
  queue k = aget k.(inbuffer) k.(inread) :: queue (popped k).
Proof.
  intros Hk E. pose proof (queue_range k) as Hn. pose proof (queue_write k Hk) as Hw.
  assert (queue_length k ≠ 0) as H0.
  { intros H0. apply Z.eqb_neq in E. apply E. rewrite Hw, H0, Z.add_0_r, Z.mod_small; [done|apply Hk]. }
  assert (queue (popped k) = drop 1 (queue k)) as ->.
  { unfold queue at 2. rewrite <-(ring_drop _ _ _ 1) by lia. unfold queue, queue_length at 1, popped. cbn. f_equal.
    rewrite Zminus_mod_idemp_r, Hw, Zminus_mod_idemp_l.
    replace (inread k + queue_length k - (inread k + 1)) with (queue_length k - 1) by lia. by rewrite Z.mod_small by lia. }
  pose proof (ring_head k.(inbuffer) k.(inread) (queue_length k) ltac:(lia) (io_read k Hk)) as Hh.
  change (head (queue k) = Some (aget (inbuffer k) (inread k))) in Hh. by destruct (queue k); simplify_eq/=.
Qed.

Lemma popped_ok k : ikbd_ok k → ikbd_ok (popped k).
Proof. intros []. split; cbn; try done; apply Z.mod_pos_bound; lia. Qed.

(** ** The interrupt line *)

(** What a change of the port leaves alone. *)
Definition port_frame (x y : MFP) : Prop :=
  y.(vr) = x.(vr) ∧ y.(irq_mask) = x.(irq_mask) ∧ y.(irq_enable) = x.(irq_enable) ∧ y.(irq_inservice) = x.(irq_inservice) ∧
  y.(timerCounter) = x.(timerCounter) ∧ y.(active_edge) = x.(active_edge) ∧ y.(data_direction) = x.(data_direction).

Lemma port_frame_trans x y z : port_frame x y → port_frame y z → port_frame x z.
Proof. intros (? & ? & ? & ? & ? & ? & ?) (? & ? & ? & ? & ? & ? & ?). repeat split; congruence. Qed.

(** Line 4 is an input and requests its interrupt when it falls. *)
Definition falling_edge (x : MFP) : Prop :=
  Z.testbit x.(active_edge) 4 = false ∧ Z.testbit x.(data_direction) 4 = false.

Lemma line_effect x v : mfp_ok x → ∃ y, setGPIPbit 0x10 v x = (Ret tt, y) ∧ mfp_ok y ∧ port_frame x y ∧
  (falling_edge x → Z.testbit y.(GPIP_data) 4 = Z.testbit v 4 ∧
   ∀ k, 0 <= k < 16 → Z.testbit y.(irq_pending) k = Z.testbit x.(irq_pending) k ||
     (Z.testbit x.(irq_enable) k && ((6 =? k) && (Z.testbit x.(GPIP_data) 4 && negb (Z.testbit v 4))))).
Proof.
  intros Hx. destruct (port_write_effect x 0x10 v Hx) as (p & f & E & Hp). eexists. split; [exact E|]. split.
  { pose proof (setGPIPbit_keeps 0x10 v x Hx) as H. by rewrite E in H. }
  split; [done|]. intros [He Hd]. split; [cbn [GPIP_data upd_cpu_flags upd_irq_pending]; rewrite port_write_bits by lia; by rewrite Hd|].
  intros k Hk. specialize (Hp k Hk). cbn [irq_pending upd_cpu_flags upd_irq_pending] in *. rewrite Hp. do 2 f_equal.
  assert (∀ j, 0 <= j < 8 → falls x.(GPIP_data) x.(active_edge) (port_write 0x10 v x).(GPIP_data) x.(active_edge) j =
    (j =? 4) && (Z.testbit x.(GPIP_data) 4 && negb (Z.testbit v 4))) as Hf.
  { intros j Hj. unfold falls. rewrite !Z.lxor_spec, port_write_bits by done. destruct (Z.eqb_spec j 4) as [->|Hne].
    - by rewrite Hd, He, !xorb_false_r.
    - change 0x10 with (2 ^ 4). rewrite Z.pow2_bits_false by lia. cbn [andb].
      by destruct (xorb _ _). }
  unfold map_gpip_to_ier. cbn [existsb]. rewrite !Hf by lia. cbn [Z.eqb Pos.eqb andb]. rewrite !andb_false_r.
  cbn [orb]. by rewrite !orb_false_r.
Qed.

(** The MFP after an interrupt of the keyboard. *)
Lemma pull_effect x : mfp_ok x →
  ∃ y, (setGPIPbit 0x10 0x10 ;; setGPIPbit 0x10 0) x = (Ret tt, y) ∧ mfp_ok y ∧ port_frame x y ∧
    (falling_edge x → ∀ k, 0 <= k < 16 → Z.testbit y.(irq_pending) k =
       Z.testbit x.(irq_pending) k || (Z.testbit x.(irq_enable) k && (6 =? k))).
Proof.
  intros Hx. destruct (line_effect x 0x10 Hx) as (y & E & Hy & Hf & Hp). rewrite (xbind_ret _ _ _ _ _ E).
  destruct (line_effect y 0 Hy) as (z & Ez & Hz & Hfz & Hpz). exists z. split; [done|]. split; [done|].
  split; [by eapply port_frame_trans|]. intros He. destruct (Hp He) as [Hg Hk].
  pose proof Hf as (_ & _ & Hen & _ & _ & Hae & Hdd).
  destruct Hpz as [_ Hkz]; [unfold falling_edge; by rewrite Hae, Hdd|]. intros k Hk'.
  rewrite Hkz, Hk, Hg, Hen by done. change (Z.testbit 0x10 4) with true. change (Z.testbit 0 4) with false.
  cbn [negb andb]. by rewrite !andb_false_r, orb_false_r, andb_true_r.
Qed.

Lemma read_enable x : mfp_handleRead 0xfffa00 0x30 None 0xfffa09 x = (Ret (u8 x.(irq_enable)), x).
Proof. done. Qed.

(** The receive interrupt reaches the MFP. *)
Definition interrupting (s : keyboard) : Prop :=
  Z.testbit s.(kbd).(cr) 7 = true ∧ Z.testbit s.(wired).(irq_enable) 6 = true ∧ falling_edge s.(wired).

Lemma ThrowInterrupt_effect s : mfp_ok s.(wired) →
  ∃ v y, ThrowInterrupt s = (Ret tt, Keyboard (to_sr v s.(kbd)) y) ∧ mfp_ok y ∧ port_frame s.(wired) y ∧
    (∀ i, i ≠ 7 → Z.testbit v i = Z.testbit s.(kbd).(sr) i) ∧
    (interrupting s → Z.testbit v 7 = true ∧ ∀ k, 0 <= k < 16 → Z.testbit y.(irq_pending) k =
       Z.testbit s.(wired).(irq_pending) k || (6 =? k)).
Proof.
  intros Hx. destruct s as [k x]. cbn [kbd wired] in *. unfold ThrowInterrupt.
  erewrite xbind_ret by done. unfold id. cbn [kbd].
  assert (∀ z n, 0 <= n → (z .& Z.shiftl 1 n =? 0) = negb (Z.testbit z n)) as Hb.
  { intros z n Hn. rewrite <-tst_shiftl by done. unfold tst. by rewrite negb_involutive. }
  rewrite Hb by done. unfold interrupting. cbn [kbd wired]. destruct (Z.testbit (cr k) 7) eqn:Ec; cbn [negb].
  2:{ exists k.(sr), x. split; [by destruct k|]. split; [done|]. split; [done|]. split; [done|]. by intros []. }
  erewrite xbind_ret by done. erewrite xbind_ret by (unfold with_mfp, xzoom; rewrite read_enable; reflexivity). cbn [kbd wired].
  set (v := k.(sr) .| Z.shiftl 1 7).
  assert ((∀ i, i ≠ 7 → Z.testbit v i = Z.testbit k.(sr) i) ∧ Z.testbit v 7 = true) as [Hv H7].
  { unfold v. split; [intros i Hi|]; rewrite Z.lor_spec; [|by rewrite orb_true_r].
    destruct (decide (i < 0)); [by rewrite !Z.testbit_neg_r|]. rewrite bit_spec by lia.
    by rewrite (proj2 (Z.eqb_neq i 7)), orb_false_r. }
  change 0x40 with (Z.shiftl 1 6). rewrite Hb, u8_bits by done. rewrite andb_true_r.
  destruct (Z.testbit (irq_enable x) 6) eqn:Ee; cbn [negb].
  - destruct (pull_effect x Hx) as (y & E & Hy & Hf & Hp). exists v, y. split.
    + unfold with_mfp, xzoom, xbind in *. cbn [kbd wired]. destruct (setGPIPbit 16 16 x) as [[] x1]; [|done..].
      cbn [kbd wired]. destruct (setGPIPbit 16 0 x1) as [r x2]. by inversion E.
    + split; [done|]. split; [done|]. split; [done|]. intros (_ & _ & He). split; [done|]. intros j Hj.
      rewrite Hp by done. destruct (Z.eqb_spec 6 j) as [<-|]; [by rewrite Ee|by rewrite andb_false_r].
  - exists v, x. split; [done|]. split; [done|]. split; [done|]. split; [done|]. by intros (_ & ? & _).
Qed.

(** ** The two ends of the queue *)

Lemma to_sr_ok v k : ikbd_ok k → ikbd_ok (to_sr v k).
Proof. by intros []. Qed.

Lemma send_effect b s : kbd_ok s →
  ∃ v y, ikbd_send b s = (Ret tt, Keyboard (to_sr v (pushed b s.(kbd))) y) ∧ mfp_ok y ∧ port_frame s.(wired) y ∧
    Z.testbit v 0 = true ∧
    (interrupting s → Z.testbit v 7 = true ∧ ∀ k, 0 <= k < 16 → Z.testbit y.(irq_pending) k =
       Z.testbit s.(wired).(irq_pending) k || (6 =? k)).
Proof.
  intros [Hk Hx]. destruct s as [k x]. cbn [kbd wired] in *. unfold ikbd_send, in_put, in_get.
  erewrite xbind_ret by done. cbn [kbd]. rewrite in_range_true by apply Hk. do 3 erewrite xbind_ret by done.
  erewrite xbind_ret by done. cbn [kbd inwrite to_inwrite inread to_inread to_inbuffer wired id inbuffer]. rewrite land_8191.
  set (v := k.(sr) .| Z.shiftl 1 0).
  assert (Z.testbit v 0 = true) as H0 by (unfold v; by rewrite Z.lor_spec, orb_true_r).
  destruct (ThrowInterrupt_effect (Keyboard (to_sr v (pushed b k)) x) Hx) as (v' & y & E & Hy & Hf & Hv & Hi).
  exists v', y. cbn [kbd wired] in *. split; [|split; [done|split; [done|split; [by rewrite Hv|exact Hi]]]].
  erewrite xbind_ret.
  2:{ instantiate (1 := Keyboard (pushed b k) x). instantiate (1 := tt). unfold pushed. set (buf := aset _ _ _).
      destruct (inread k =? _); [|by destruct k]. unfold xwhen. rewrite in_range_true by apply Hk.
      erewrite xbind_ret by done. unfold kmod, xmod, xbind. cbn. rewrite land_8191. done. }
  erewrite xbind_ret by done. etransitivity; [exact E|]. by destruct k.
Qed.

Lemma ReadData_empty s : (s.(kbd).(inread) =? s.(kbd).(inwrite)) = true → ikbd_ReadData s = (Ret s.(kbd).(rxdr), s).
Proof. intros E. unfold ikbd_ReadData. erewrite xbind_ret by done. unfold id. rewrite E. done. Qed.

Lemma ReadData_effect s : kbd_ok s → (s.(kbd).(inread) =? s.(kbd).(inwrite)) = false →
  ∃ v y, ikbd_ReadData s = (Ret (aget s.(kbd).(inbuffer) s.(kbd).(inread)), Keyboard (to_sr v (popped s.(kbd))) y) ∧
    mfp_ok y ∧ port_frame s.(wired) y ∧ Z.testbit v 0 = negb (inread (popped s.(kbd)) =? inwrite s.(kbd)).
Proof.
  intros [Hk Hx] E. destruct s as [k x]. cbn [kbd wired] in *. unfold ikbd_ReadData, in_get.
  erewrite xbind_ret by done. cbn [kbd id]. rewrite E. cbn [negb xwhen]. rewrite in_range_true by apply Hk.
  set (b := aget k.(inbuffer) k.(inread)).
  assert (∃ v y, (let* k := kget id in
     if k.(inread) =? k.(inwrite) then
       with_mfp (setGPIPbit 0x10 0x10) ;;
       kmod (λ k, to_sr (Z.ldiff k.(sr) (Z.shiftl 1 7 .| Z.shiftl 1 0)) k)
     else kmod (λ k, to_sr (k.(sr) .| Z.shiftl 1 0) k) ;; ThrowInterrupt) (Keyboard (popped k) x) =
     (Ret tt, Keyboard (to_sr v (popped k)) y) ∧ mfp_ok y ∧ port_frame x y ∧
     Z.testbit v 0 = negb (inread (popped k) =? inwrite k)) as (v & y & Er & Hy & Hf & Hv).
  { erewrite xbind_ret by done. cbn [kbd id]. change (inwrite (popped k)) with (inwrite k).
    destruct (inread (popped k) =? inwrite k).
    - destruct (line_effect x 0x10 Hx) as (y & Ey & Hy & Hf & _). exists (Z.ldiff k.(sr) (Z.shiftl 1 7 .| Z.shiftl 1 0)), y.
      split; [unfold with_mfp, xzoom, xbind; cbn [wired kbd]; by rewrite Ey|]. split; [done|]. split; [done|].
      by rewrite Z.ldiff_spec, andb_false_r.
    - erewrite xbind_ret by done. set (v := k.(sr) .| Z.shiftl 1 0).
      destruct (ThrowInterrupt_effect (Keyboard (to_sr v (popped k)) x) Hx) as (v' & y & Ey & Hy & Hf & Hv & _).
      exists v', y. cbn [kbd wired] in *. split; [etransitivity; [exact Ey|]; by destruct k|]. split; [done|]. split; [done|].
      rewrite Hv by done. cbn [sr to_sr]. unfold v. by rewrite Z.lor_spec, orb_true_r. }
  exists v, y. split; [|done]. rewrite (xbind_ret _ _ _ tt (Keyboard (to_sr v (popped k)) y)); [reflexivity|].
  erewrite xbind_ret by done. do 3 erewrite xbind_ret by done.
  rewrite <-Er. f_equal. unfold popped, b. cbn. by rewrite land_8191.
Qed.

(** ** The refinement *)

Inductive fifo_op := Put (b : Z) | Take.

Definition fifo_run1 (o : fifo_op) : X keyboard (list Z) :=
  match o with
  | Put b => ikbd_send b ;; xret []
  | Take => let* v := ikbd_ReadData in xret [v]
  end.
Fixpoint fifo_run (l : list fifo_op) : X keyboard (list Z) :=
  match l with
  | [] => xret []
  | o :: l => let* v := fifo_run1 o in let* vs := fifo_run l in xret (v ++ vs)
  end.

(** The abstract machine: the bytes waiting and the last one read. *)
Fixpoint fifo_spec (l : list fifo_op) (q : list Z) (last : Z) : list Z * list Z :=
  match l with
  | [] => ([], q)
  | Put b :: l => fifo_spec l (enqueue b q) last
  | Take :: l =>
    match q with
    | [] => let '(vs, q) := fifo_spec l [] last in (last :: vs, q)
    | v :: q => let '(vs, q) := fifo_spec l q v in (v :: vs, q)
    end
  end.

Lemma send_ok b s : is_byte b → kbd_ok s →
  ∃ s', ikbd_send b s = (Ret tt, s') ∧ kbd_ok s' ∧ queue s'.(kbd) = enqueue b (queue s.(kbd)) ∧ s'.(kbd).(rxdr) = s.(kbd).(rxdr).
Proof.
  intros Hb [Hk Hx]. destruct (send_effect b s (conj Hk Hx)) as (v & y & E & Hy & _). eexists. split; [exact E|].
  split; [split; [by apply to_sr_ok, pushed_ok|done]|]. split; [by apply queue_pushed|done].
Qed.

(** C17: The ring buffer refines a bounded queue: for any interleaving of bytes sent by
    the keyboard processor and reads of the data register, the guest reads the bytes in
    order, the last one again when there is none, and only when 8191 bytes are waiting
    does a further byte drop the oldest bytes, as many as a packet has that starts with the oldest of them. *)
Theorem ikbd_fifo l s : kbd_ok s → Forall (λ o, match o with Put b => is_byte b | Take => True end) l →
  ∃ out s', fifo_run l s = (Ret out, s') ∧ kbd_ok s' ∧
    (out, queue s'.(kbd)) = fifo_spec l (queue s.(kbd)) s.(kbd).(rxdr).
Proof.
  intros Hs Hl. revert s Hs. induction Hl as [|o l Ho _ IH]; intros s Hs; [by eexists _, _|].
  destruct o as [b|]; cbn [fifo_run fifo_run1 fifo_spec].
  - destruct (send_ok b s Ho Hs) as (s1 & E & Hs1 & Hq & Hr). destruct (IH s1 Hs1) as (out & s2 & E2 & Hs2 & Ho2).
    exists out, s2. erewrite xbind_ret by (rewrite (xbind_ret _ _ _ _ _ E); reflexivity).
    rewrite (xbind_ret _ _ _ _ _ E2), <-Hq, <-Hr. done.
  - destruct (inread (kbd s) =? inwrite (kbd s)) eqn:E.
    + destruct (IH s Hs) as (out & s2 & E2 & Hs2 & Ho2). exists (rxdr (kbd s) :: out), s2.
      erewrite xbind_ret by (rewrite (xbind_ret _ _ _ _ _ (ReadData_empty s E)); reflexivity).
      rewrite (xbind_ret _ _ _ _ _ E2). split; [done|]. split; [done|].
      apply queue_nil in E; [|apply Hs]. rewrite E in *. by rewrite <-Ho2.
    + destruct (ReadData_effect s Hs E) as (v & y & Er & Hy & _). destruct Hs as [Hk Hx].
      set (s1 := Keyboard (to_sr v (popped s.(kbd))) y).
      destruct (IH s1) as (out & s2 & E2 & Hs2 & Ho2); [split; [by apply to_sr_ok, popped_ok|done]|].
      eexists _, s2. erewrite xbind_ret by (rewrite (xbind_ret _ _ _ _ _ Er); reflexivity).
      rewrite (xbind_ret _ _ _ _ _ E2). split; [reflexivity|]. split; [done|].
      rewrite (queue_popped _ Hk E).
      change (queue (kbd s1)) with (queue (popped (kbd s))) in Ho2.
      change (rxdr (kbd s1)) with (aget (inbuffer (kbd s)) (inread (kbd s))) in Ho2. by rewrite <-Ho2.
Qed.

(** ** Reading the last byte, in any state of the MFP *)

Lemma last_byte_read b s : ikbd_ok s.(kbd) → queue s.(kbd) = [b] → ∃ s', ikbd_ReadData s = (Ret b, s').
Proof.
  intros Hk Hq. destruct s as [k x]. cbn [kbd] in *. assert ((inread k =? inwrite k) = false) as Hne.
  { apply not_true_iff_false. rewrite queue_nil by done. by rewrite Hq. }
  pose proof (queue_popped k Hk Hne) as Hp. rewrite Hq in Hp. injection Hp as -> Hnil.
  assert ((inread (popped k) =? inwrite (popped k)) = true) as He by (apply queue_nil; [by apply popped_ok|done]).
  unfold ikbd_ReadData, in_get. erewrite xbind_ret by reflexivity. unfold id. cbn [kbd]. rewrite Hne. cbn [negb xwhen].
  rewrite in_range_true by apply Hk. destruct (setGPIPbit_returns 0x10 0x10 x) as (y & E).
  set (s' := Keyboard (to_sr (Z.ldiff k.(sr) (bit ACIA_SR_INTERRUPT .| bit ACIA_SR_RXFULL)) (popped k)) y). exists s'.
  rewrite (xbind_ret _ _ _ tt s'); [done|]. do 5 erewrite xbind_ret by reflexivity.
  cbn [kbd inread to_inread to_rxdr inwrite id]. rewrite land_8191. unfold popped in He. cbn in He. rewrite He.
  unfold with_mfp. erewrite xbind_ret; [|unfold xzoom; cbn [wired]; by rewrite E].
  by unfold kmod, xmod.
Qed.
