(* ===== verification/IkbdEvents.v ===== *)
(** * IkbdEvents: commands of the guest and events of the host

    [ikbd_total]: every access of the guest and every event of the host is handled
    inside the buffers, terminates, and keeps the state well formed.
    [command_framing]: the command parser takes each command with its own number of
    bytes. *)

From S2P Require Import Prelude Throws Mfp MfpSpec MfpTick Rtc Ikbd IkbdSpec.
From stdpp Require Import base gmap list numbers.
Open Scope Z_scope.
Open Scope c_scope.
Open Scope x_scope.

(** ** Everything returns *)

Local Abbreviation total := (xtotal kbd_ok (λ _, True)).

Lemma kmod_total f : (∀ k, ikbd_ok k → ikbd_ok (f k)) → total (kmod f).
Proof. intros H. apply xtotal_mod; [done|]. intros s [? ?]. split; [by apply H|done]. Qed.
Lemma kget_total {A} (f : IKBD → A) : total (kget f).
Proof. by apply xtotal_get. Qed.
Lemma send_total b : is_byte b → total (ikbd_send b).
Proof. intros Hb s Hs. destruct (send_ok b s Hb Hs) as (s' & ? & ? & _). by exists tt, s'. Qed.
Lemma send_u8_total b : total (ikbd_send (u8 b)).
Proof. apply send_total, u8_range. Qed.
Lemma int2bcd_total a : total (ikbd_send (int2bcd a)).
Proof. apply send_u8_total. Qed.

Lemma ReadData_total : total ikbd_ReadData.
Proof.
  intros s Hs. destruct (inread (kbd s) =? inwrite (kbd s)) eqn:E; [eexists _, _; by rewrite ReadData_empty|].
  destruct (ReadData_effect s Hs E) as (v & y & Er & Hy & _). eexists _, _. split; [exact Er|]. split; [done|].
  split; [apply to_sr_ok, popped_ok, Hs|done].
Qed.

Lemma joy_get_total {A} `{Inhabited A} (f : IKBD → list A) n : 0 <= n < 2 → total (joy_get f n).
Proof. intros Hn. unfold joy_get. rewrite in_range_true by done. apply kget_total. Qed.
Lemma joy_enable_total n v : 0 <= n < 2 → total (joy_put_enabled n v).
Proof.
  intros Hn. unfold joy_put_enabled. rewrite in_range_true by done. apply kmod_total.
  intros k []. split; cbn; try done. by rewrite length_insert.
Qed.
Lemma joy_state_total n v : 0 <= n < 2 → total (joy_put_state n v).
Proof.
  intros Hn. unfold joy_put_state. rewrite in_range_true by done. apply kmod_total.
  intros k []. split; cbn; try done. by rewrite length_insert.
Qed.
Lemma out_get_total i : 0 <= i < 16 → total (out_get i).
Proof. intros Hi. unfold out_get. rewrite in_range_true by done. apply kget_total. Qed.

Create HintDb ktotal.
#[export] Hint Resolve kget_total send_u8_total int2bcd_total ReadData_total : ktotal.
#[export] Hint Extern 1 (xtotal kbd_ok _ (ikbd_send _)) => (apply send_total; done) : ktotal.
#[export] Hint Extern 1 (xtotal kbd_ok _ (joy_get _ _)) => (apply joy_get_total; lia) : ktotal.
#[export] Hint Extern 1 (xtotal kbd_ok _ (joy_put_enabled _ _)) => (apply joy_enable_total; lia) : ktotal.
#[export] Hint Extern 1 (xtotal kbd_ok _ (joy_put_state _ _)) => (apply joy_state_total; lia) : ktotal.
#[export] Hint Extern 1 (xtotal kbd_ok _ (out_get _)) => (apply out_get_total; lia) : ktotal.
#[export] Hint Extern 1 (xtotal kbd_ok _ (xret _)) => (apply xtotal_ret; done) : ktotal.
#[export] Hint Extern 1 (xtotal kbd_ok _ (kmod _)) => (apply kmod_total; intros ? []; split; cbn; done) : ktotal.
Ltac ktotal_step :=
  lazymatch goal with
  | |- xtotal _ _ (xbind _ _) => eapply (xtotal_bind _ (λ _, True)); [|intros ? _]
  | |- xtotal _ _ (xwhen _ _) => apply xtotal_when; [done|intros ?]
  | |- xtotal _ _ (if _ then _ else _) => apply xtotal_if; intros ?
  | |- xtotal _ _ (match ?x with _ => _ end) => destruct x
  end.
Ltac ktotal := repeat first [solve [eauto 2 with ktotal nocore] | progress ktotal_step; cbv beta].

Lemma ikbd_reset_total : total ikbd_reset.
Proof. unfold ikbd_reset. ktotal. Qed.
Lemma acia_reset_total : total acia_reset.
Proof. unfold acia_reset. ktotal. Qed.
#[export] Hint Resolve ikbd_reset_total acia_reset_total : ktotal.

Lemma command_total now n c : total (match n with
  | 1 => command1 now c | 2 => command2 c | 3 => command3 c | 4 => command4 c | 5 => command5 c | 6 => command6 c
  | _ => command_done end).
Proof. unfold command1, command2, command3, command4, command5, command6, command_done, send_time. ktotal. Qed.

(** The state in which a command is looked at. *)
Definition written (v : Z) (s : keyboard) : keyboard :=
  let w := s.(kbd).(outwrite) in
  Keyboard (to_outbuffer (aset w v s.(kbd).(outbuffer)) (to_txdr v (to_outwrite (w + 1) s.(kbd)))) s.(wired).
Definition command_byte (s : keyboard) : Z := aget s.(kbd).(outbuffer) 0.

Lemma WriteData_eq now v s : ikbd_ok s.(kbd) → let s1 := written v s in
  ikbd_WriteData now v s = (match s1.(kbd).(outwrite) with
    | 1 => command1 now (command_byte s1) | 2 => command2 (command_byte s1) | 3 => command3 (command_byte s1)
    | 4 => command4 (command_byte s1) | 5 => command5 (command_byte s1) | 6 => command6 (command_byte s1)
    | _ => command_done end) s1.
Proof.
  intros Hk. unfold ikbd_WriteData. do 3 erewrite xbind_ret by done. unfold out_put.
  rewrite in_range_true by (destruct Hk; lia). by do 3 erewrite xbind_ret by done.
Qed.

Lemma written_ok v s : kbd_ok s → s.(kbd).(outwrite) <= 5 → kbd_ok (written v s).
Proof. intros [[] Hx] Hw. split; [|done]. split; cbn; try done. lia. Qed.

Lemma WriteData_total now v : total (ikbd_WriteData now v).
Proof.
  intros s Hs. rewrite WriteData_eq by apply Hs. destruct (decide (s.(kbd).(outwrite) = 6)) as [E|E].
  - cbn [kbd outwrite written to_outbuffer to_txdr to_outwrite]. rewrite E. eexists _, _. split; [reflexivity|]. split; [done|].
    destruct Hs as [[] ?]. by split.
  - apply command_total, written_ok; [done|]. pose proof (io_out _ (proj1 Hs)). lia.
Qed.
#[export] Hint Resolve WriteData_total : ktotal.

Lemma MergeMouse_total relx rely b : total (MergeMousePacket relx rely b).
Proof.
  assert (∀ i, total (in_get (i .& (8192 - 1)))) as Hg.
  { intros i. unfold in_get. rewrite land_8191, in_range_true by (apply Z.mod_pos_bound; lia). apply kget_total. }
  unfold MergeMousePacket. ktotal; try apply Hg.
  apply kmod_total. intros k []. split; cbn; try done. rewrite land_8191. apply Z.mod_pos_bound. lia.
Qed.

Lemma header_byte b : is_byte (0xf8 .| (b .& 3)).
Proof. apply (lor_range _ _ 8); [lia|done|]. apply (land_range_r b 3 8); lia. Qed.

(** The motion left after a turn. *)
Lemma mouse_step_left slow rel : rel ≠ 0 → Z.abs (rel - mouse_step slow rel) < Z.abs rel.
Proof. intros H. unfold mouse_step. repeat case_match; lia. Qed.
Lemma mouse_step_zero slow : mouse_step slow 0 = 0.
Proof. by destruct slow. Qed.

Lemma mouse_loop_total b slow n : ∀ relx rely, Z.max (Z.abs relx) (Z.abs rely) < Z.of_nat n → total (mouse_loop n relx rely b slow).
Proof.
  induction n as [|n IH]; intros relx rely Hn; [lia|]. cbn [mouse_loop].
  pose proof header_byte b as Hb. pose proof MergeMouse_total as Hm. ktotal; try (by apply send_total); try apply Hm.
  apply IH. rewrite orb_true_iff, !negb_true_iff, !Z.eqb_neq in H.
  assert (∀ rel, Z.abs (rel - mouse_step slow rel) < Z.abs rel ∨ rel = 0 ∧ rel - mouse_step slow rel = 0) as Hs.
  { intros rel. destruct (decide (rel = 0)) as [->|]; [rewrite mouse_step_zero; by right|left; by apply mouse_step_left]. }
  destruct (Hs relx), (Hs rely); lia.
Qed.

(** An [int]. *)
Definition is_int (z : Z) : Prop := - 2 ^ 31 <= z < 2 ^ 31.

Lemma SendMouseMotion_total relx rely b slow : (slow = false → relx ≠ - 2 ^ 31 ∧ rely ≠ - 2 ^ 31) →
  total (SendMouseMotion relx rely b slow).
Proof.
  intros H. unfold SendMouseMotion. ktotal.
  - exfalso. destruct slow; [done|]. destruct H as [Hx Hy]; [done|].
    by rewrite (proj2 (Z.eqb_neq _ _) Hx), (proj2 (Z.eqb_neq _ _) Hy) in *.
  - apply mouse_loop_total. unfold mouse_turns. lia.
Qed.

Lemma joy_changed_total n v : 0 <= n < 2 → total (joy_changed n v).
Proof. intros Hn. unfold joy_changed. ktotal. Qed.

(** An event: of the guest, who accesses the registers, or of the host. *)
Inductive ikbd_event :=
  | Ev_read (addr : Z)
  | Ev_write (now : tm) (addr v : Z)
  | Ev_reset
  | Ev_key (scancode : Z)
  | Ev_release (bootOs altgr : bool)
  | Ev_mouse (relx rely buttons : Z) (slow : bool)
  | Ev_axis (numjoy numaxis v : Z)
  | Ev_hat (hat : hat_bits) (numjoy v : Z)
  | Ev_button (numjoy pressed : Z).

Definition event_ok (e : ikbd_event) : Prop :=
  match e with
  | Ev_key c => is_byte c
  | Ev_mouse relx rely _ slow => is_int relx ∧ is_int rely ∧ (slow = false → relx ≠ - 2 ^ 31 ∧ rely ≠ - 2 ^ 31)
  | Ev_axis j _ _ | Ev_hat _ j _ | Ev_button j _ => 0 <= j < 2
  | _ => True
  end.

Definition run_event (off : Z) (e : ikbd_event) : X keyboard unit :=
  match e with
  | Ev_read a => ikbd_handleRead off a ;; xret tt
  | Ev_write now a v => ikbd_handleWrite off now a v
  | Ev_reset => ikbd_reset
  | Ev_key c => SendKey c
  | Ev_release boot altgr => ReleaseShiftKeys boot altgr
  | Ev_mouse relx rely b slow => SendMouseMotion relx rely b slow
  | Ev_axis j a v => SendJoystickAxis j a v
  | Ev_hat h j v => SendJoystickHat h j v
  | Ev_button j p => SendJoystickButton j p
  end.

(** From a well-formed state, any sequence of guest accesses and host events is
    handled without leaving the buffers: each handler returns (the loop that splits mouse
    motion terminates within its bound), and the state stays well formed. *)
Theorem ikbd_total off l : Forall event_ok l → total (xfor l (run_event off)).
Proof.
  induction 1 as [|e l He _ IH]; cbn [xfor]; [by apply xtotal_ret|]. eapply (xtotal_bind _ (λ _, True)); [|by intros _ _].
  destruct e; cbn [run_event event_ok] in *.
  - unfold ikbd_handleRead, acia_handleRead, ikbd_ReadStatus. ktotal.
  - unfold ikbd_handleWrite, acia_handleWrite, ikbd_WriteControl. ktotal.
  - ktotal.
  - unfold SendKey. ktotal.
  - unfold ReleaseShiftKeys, SendKey. ktotal.
  - destruct He as (_ & _ & He). by apply SendMouseMotion_total.
  - unfold SendJoystickAxis. ktotal. by apply joy_changed_total.
  - unfold SendJoystickHat. ktotal. by apply joy_changed_total.
  - unfold SendJoystickButton. ktotal. by apply joy_changed_total.
Qed.

(** ** Framing of commands *)

(** The bytes a command takes, by its first two. *)
Definition command_length (c a : Z) : Z :=
  match c with
  | 0x08 | 0x0d | 0x0f | 0x10 | 0x11 | 0x12 | 0x13 | 0x14 | 0x15 | 0x16 | 0x18 | 0x1a | 0x1c => 1
  | 0x07 | 0x17 => 2
  | 0x80 => if a =? 1 then 2 else 7
  | 0x0a | 0x0b | 0x0c | 0x20 | 0x21 => 3
  | 0x09 => 4
  | 0x0e => 5
  | 0x19 | 0x1b => 6
  | _ => 7
  end.

(** The parser has [w] bytes, in [B]. *)
Definition parser (w : Z) (B : gmap Z Z) (s : keyboard) : Prop :=
  kbd_ok s ∧ s.(kbd).(outwrite) = w ∧ s.(kbd).(outbuffer) = B.

(** [m] returns and takes the parser from [w] to [w'] bytes. *)
Definition parses {A} (B : gmap Z Z) (w w' : Z) (m : X keyboard A) : Prop :=
  ∀ s, parser w B s → ∃ a s', m s = (Ret a, s') ∧ parser w' B s'.

Section Parses.
Context (B : gmap Z Z).

Lemma parses_bind {A C} w w1 w2 (m : X keyboard A) (f : A → X keyboard C) :
  parses B w w1 m → (∀ a, parses B w1 w2 (f a)) → parses B w w2 (xbind m f).
Proof. intros Hm Hf s Hs. destruct (Hm s Hs) as (a & s1 & E & Hs1). rewrite (xbind_ret _ _ _ _ _ E). by apply Hf. Qed.
Lemma parses_ret {A} w (a : A) : parses B w w (xret a).
Proof. intros s Hs. by exists a, s. Qed.
Lemma parses_kmod w f : (∀ k, ikbd_ok k → ikbd_ok (f k)) → (∀ k, outwrite (f k) = outwrite k) →
  (∀ k, outbuffer (f k) = outbuffer k) → parses B w w (kmod f).
Proof.
  intros H1 H2 H3 s ([Hk Hx] & Hw & Hb). eexists _, _. split; [done|]. split; [split; [by apply H1|done]|].
  cbn. by rewrite H2, H3.
Qed.
Lemma parses_done w : parses B w 0 command_done.
Proof. intros s ([[] Hx] & Hw & Hb). eexists _, _. split; [done|]. split; [|done]. split; [by split|done]. Qed.
Lemma parses_send w b : is_byte b → parses B w w (ikbd_send b).
Proof.
  intros H s (Hs & Hw & Hb). destruct (send_effect b s Hs) as (v & y & E & Hy & _). eexists _, _. split; [exact E|].
  split; [|done]. split; [apply to_sr_ok, pushed_ok; [done|apply Hs]|done].
Qed.
Lemma parses_joy_get {A} `{Inhabited A} w (f : IKBD → list A) n : 0 <= n < 2 → parses B w w (joy_get f n).
Proof. intros Hn s Hs. unfold joy_get. rewrite in_range_true by done. by eexists _, _. Qed.
Lemma parses_enable w n v : 0 <= n < 2 → parses B w w (joy_put_enabled n v).
Proof.
  intros Hn. unfold joy_put_enabled. rewrite in_range_true by done. apply parses_kmod; [|done..].
  intros k []. split; cbn; try done. by rewrite length_insert.
Qed.
Lemma parses_reset w : parses B w 0 ikbd_reset.
Proof. intros s ([[] Hx] & Hw & Hb). eexists _, _. split; [done|]. split; [|done]. split; [by split|done]. Qed.
End Parses.

Create HintDb parses.
#[export] Hint Resolve parses_ret parses_done parses_reset : parses.
#[export] Hint Extern 1 (parses _ _ _ (ikbd_send _)) => (apply parses_send; first [apply u8_range | done]) : parses.
#[export] Hint Extern 1 (parses _ _ _ (joy_get _ _)) => (apply parses_joy_get; lia) : parses.
#[export] Hint Extern 1 (parses _ _ _ (joy_put_enabled _ _)) => (apply parses_enable; lia) : parses.
#[export] Hint Extern 1 (parses _ _ _ (kmod _)) => (apply parses_kmod; [by intros ? []; split|done..]) : parses.
Ltac parses := repeat first [solve [eauto 2 with parses nocore] | eapply parses_bind; [|intros ?]; cbv beta].

(** What is left in [outwrite] after the command has been looked at. *)
Definition frame_left (n c a : Z) : Z := if n =? command_length c a then 0 else n.

Lemma command1_parses B now c a : parses B 1 (frame_left 1 c a) (command1 now c).
Proof.
  unfold frame_left, command_length, command1, send_time. repeat case_match; subst; try done; parses.
Qed.

Lemma command2_parses B c : parses B 2 (frame_left 2 c (aget B 1)) (command2 c).
Proof.
  destruct (decide (c = 0x80)) as [->|].
  - intros s Hs. assert (out_get 1 s = (Ret (aget B 1), s)) as E by (destruct Hs as (_ & _ & <-); done).
    unfold command2. rewrite (xbind_ret _ _ _ _ _ E). unfold frame_left, command_length. revert s Hs E.
    destruct (aget B 1 =? 1); cbn [xwhen]; intros s Hs _; revert s Hs; fold (parses (A := unit) B).
    + enough (parses B 2 0 (ikbd_reset;; command_done;; ikbd_send 0xf1)) as H by exact H. parses.
    + enough (parses B 2 2 (xret (S := keyboard) tt)) as H by exact H. parses.
  - unfold frame_left, command_length, command2. repeat case_match; subst; try done; parses.
Qed.
Lemma command3_parses B c a : parses B 3 (frame_left 3 c a) (command3 c).
Proof. unfold frame_left, command_length, command3. repeat case_match; subst; try done; parses. Qed.
Lemma command4_parses B c a : parses B 4 (frame_left 4 c a) (command4 c).
Proof. unfold frame_left, command_length, command4. repeat case_match; subst; try done; parses. Qed.
Lemma command5_parses B c a : parses B 5 (frame_left 5 c a) (command5 c).
Proof. unfold frame_left, command_length, command5. repeat case_match; subst; try done; parses. Qed.
Lemma command6_parses B c a : parses B 6 (frame_left 6 c a) (command6 c).
Proof. unfold frame_left, command_length, command6. repeat case_match; subst; try done; parses. Qed.

(** One byte of a command. *)
Lemma WriteData_frame now v w B s : parser w B s → let B1 := aset w v B in
  let c := aget B1 0 in let a := aget B1 1 in 0 <= w → w + 1 <= command_length c a →
  ∃ s', ikbd_WriteData now v s = (Ret tt, s') ∧ parser (frame_left (w + 1) c a) B1 s'.
Proof.
  intros (Hs & Hw & Hb) B1 c a H0 Hle. rewrite WriteData_eq by apply Hs. subst w.
  assert (command_byte (written v s) = c) as -> by (unfold command_byte, written, c, B1; cbn; by rewrite Hb).
  change (outwrite (kbd (written v s))) with (outwrite (kbd s) + 1).
  destruct (decide (outwrite (kbd s) = 6)) as [E|E].
  { rewrite E in *. assert (command_length c a = 7) as E7 by (revert Hle; unfold command_length; repeat case_match; lia).
    unfold frame_left. rewrite E7. eexists. split; [reflexivity|]. split; [|split; [done|]; cbn; unfold B1; by rewrite Hb, ?E].
    destruct Hs as [[] ?]. by split. }
  pose proof (io_out _ (proj1 Hs)) as Hout.
  assert (parser (outwrite (kbd s) + 1) B1 (written v s)) as Hp.
  { split; [apply written_ok; [done|lia]|]. split; [done|]. cbn. by rewrite Hb. }
  assert (∀ n (m : X keyboard unit), outwrite (kbd s) + 1 = n → parses B1 n (frame_left n c a) m →
    ∃ s', m (written v s) = (Ret tt, s') ∧ parser (frame_left n c a) B1 s') as Hgo.
  { intros n m <- Hm. destruct (Hm _ Hp) as ([] & s' & ? & ?). by exists s'. }
  assert (outwrite (kbd s) ∈ [0; 1; 2; 3; 4; 5]) as Hin by (rewrite !elem_of_cons; lia).
  rewrite !elem_of_cons, elem_of_nil in Hin.
  destruct Hin as [Hn|[Hn|[Hn|[Hn|[Hn|[Hn|[]]]]]]]; rewrite Hn in *; (apply Hgo; [done|]).
  - apply command1_parses.
  - apply command2_parses.
  - apply command3_parses.
  - apply command4_parses.
  - apply command5_parses.
  - apply command6_parses.
Qed.

Lemma command_length_1 c a a' : command_length c a = 1 → command_length c a' = 1.
Proof. unfold command_length. repeat case_match; lia. Qed.

Lemma xfor_snoc {S A} (l : list A) a (f : A → X S unit) s s' : xfor l f s = (Ret tt, s') → xfor (l ++ [a]) f s = f a s'.
Proof.
  revert s. induction l as [|b l IH]; intros s E; cbn [xfor app] in *.
  - inversion E; subst. unfold xbind. by destruct (f a s') as [[[]|n|e] s1].
  - unfold xbind in E |- *. destruct (f b s) as [[[]|n|e] s1]; [by apply IH|done..].
Qed.

(** The bytes of a command that have come in are in the buffer. *)
Definition has_prefix (c : Z) (args : list Z) (m : nat) (B : gmap Z Z) : Prop :=
  ((1 <= m)%nat → aget B 0 = c) ∧ ((2 <= m)%nat → aget B 1 = hd 0 args).

Lemma prefix_step c args m B v : Z.of_nat (length (c :: args)) = command_length c (hd 0 args) →
  (c :: args) !! m = Some v → has_prefix c args m B → let B1 := aset (Z.of_nat m) v B in
  let len := command_length (aget B1 0) (aget B1 1) in
  has_prefix c args (S m) B1 ∧ Z.of_nat m + 1 <= len ∧ (Z.of_nat m + 1 = len ↔ S m = length (c :: args)).
Proof.
  intros Hlen Hv [Hc Ha] B1 len.
  assert (aget B1 0 = c) as Hc1.
  { unfold B1. rewrite aget_aset. case_decide; [|apply Hc; lia]. replace m with 0%nat in Hv by lia. by inversion Hv. }
  assert ((1 <= m)%nat → aget B1 1 = hd 0 args) as Ha1.
  { intros H1. unfold B1. rewrite aget_aset. case_decide; [|apply Ha; lia]. replace m with 1%nat in Hv by lia.
    by destruct args; inversion Hv. }
  split; [split; [done|intros; apply Ha1; lia]|]. apply lookup_lt_Some in Hv.
  unfold len. rewrite Hc1. destruct m as [|m]; [|rewrite Ha1 by lia; lia].
  assert (1 <= command_length c (aget B1 1)) by (unfold command_length; repeat case_match; lia).
  split; [lia|]. split; intros E.
  - symmetry in E. apply (command_length_1 _ _ (hd 0 args)) in E. lia.
  - symmetry. apply (command_length_1 _ (hd 0 args)). lia.
Qed.

Lemma framing_prefix now c args s m : kbd_ok s → s.(kbd).(outwrite) = 0 →
  Z.of_nat (length (c :: args)) = command_length c (hd 0 args) → (m <= length (c :: args))%nat →
  ∃ s' B, xfor (take m (c :: args)) (ikbd_WriteData now) s = (Ret tt, s') ∧
    parser (if (m =? length (c :: args))%nat then 0 else Z.of_nat m) B s' ∧ has_prefix c args m B.
Proof.
  intros Hs Hw Hlen. induction m as [|m IH]; intros Hm.
  { exists s, s.(kbd).(outbuffer). split; [done|]. split; [done|]. split; lia. }
  destruct IH as (s1 & B & E & Hp & Hb); [lia|]. rewrite (proj2 (Nat.eqb_neq _ _)) in Hp by lia.
  destruct (lookup_lt_is_Some_2 (c :: args) m) as [v Hv]; [lia|].
  destruct (prefix_step c args m B v Hlen Hv Hb) as (Hb1 & Hle & Hlast).
  destruct (WriteData_frame now v (Z.of_nat m) B s1 Hp) as (s2 & E2 & Hp2); [lia|done|].
  exists s2, (aset (Z.of_nat m) v B). rewrite (take_S_r _ _ v Hv), (xfor_snoc _ _ _ _ _ E). split; [done|]. split; [|done].
  unfold frame_left in Hp2. destruct (Nat.eqb_spec (S m) (length (c :: args))) as [El|El].
  - apply Hlast in El. by rewrite (proj2 (Z.eqb_eq _ _) El) in Hp2.
  - rewrite (proj2 (Z.eqb_neq _ _)) in Hp2 by (by intros ?%Hlast). by replace (Z.of_nat (S m)) with (Z.of_nat m + 1) by lia.
Qed.

(** The command parser takes each command with its own number of bytes (7 for an
    unknown one): while the bytes of a command come in, [outwrite] counts them, and with
    the last one it is back at 0, so that the next byte starts a command. *)
Theorem command_framing now c args s m : kbd_ok s → s.(kbd).(outwrite) = 0 →
  Z.of_nat (length (c :: args)) = command_length c (hd 0 args) → (m <= length (c :: args))%nat →
  ∃ s', xfor (take m (c :: args)) (ikbd_WriteData now) s = (Ret tt, s') ∧ kbd_ok s' ∧
    s'.(kbd).(outwrite) = if (m =? length (c :: args))%nat then 0 else Z.of_nat m.
Proof.
  intros Hs Hw Hlen Hm. destruct (framing_prefix now c args s m Hs Hw Hlen Hm) as (s' & B & E & (Hk & Ho & _) & _). by exists s'.
Qed.
