(* ===== verification/IkbdMouse.v ===== *)
(** * IkbdMouse: mouse packets

    [mouse_motion]: the packets queued for a motion add up to it, also when the motion
    is merged with the packet that waits at the end of the queue.  [key_delivered]: a key
    reaches the guest through the interrupt of the MFP. *)

From S2P Require Import Prelude Throws Mfp MfpSpec MfpTick Rtc Ikbd IkbdSpec IkbdEvents.
From stdpp Require Import base gmap list numbers.
Open Scope Z_scope.
Open Scope c_scope.
Open Scope x_scope.

Lemma ring_app buf r a b : 0 <= a → 0 <= b → ring buf r (a + b) = ring buf r a ++ ring buf ((r + a) mod 8192) b.
Proof.
  intros Ha Hb. replace b with (a + b - a) at 2 by lia. rewrite ring_drop by lia.
  replace (ring buf r a) with (take (Z.to_nat a) (ring buf r (a + b))); [by rewrite take_drop|].
  unfold ring. rewrite seqZ_app, fmap_app by lia. apply take_app_length'. rewrite length_fmap, length_seqZ. done.
Qed.

Lemma ring3 buf r : ring buf r 3 = [aget buf (r mod 8192); aget buf ((r + 1) mod 8192); aget buf ((r + 2) mod 8192)].
Proof. unfold ring. change (seqZ 0 3) with [0; 1; 2]. cbn [fmap list_fmap]. by rewrite Z.add_0_r. Qed.

Definition packet (b : Z) (m : Z * Z) : list Z := [0xf8 .| (b .& 3); u8 m.1; u8 m.2].

(** Merging takes the last packet out of the queue, or changes nothing. *)
Lemma merge_effect dx dy b s : kbd_ok s → Z.abs dx <= 63 → Z.abs dy <= 63 →
  ∃ m s1, MergeMousePacket dx dy b s = (Ret m, s1) ∧ kbd_ok s1 ∧ s1.(kbd).(yaxis_reversed) = s.(kbd).(yaxis_reversed) ∧
    Z.abs m.1 <= 63 ∧ Z.abs m.2 <= 63 ∧
    ((queue s1.(kbd) = queue s.(kbd) ∧ m = (dx, dy)) ∨
     ∃ x y, queue s.(kbd) = queue s1.(kbd) ++ packet b (x, y) ∧ 0 <= x <= 126 ∧ 0 <= y <= 126 ∧ m = (dx + x, dy + y)).
Proof.
  intros Hs Hx Hy.
  assert (∃ m s1, (Ret (dx, dy), s) = (Ret m, s1) ∧ kbd_ok s1 ∧ s1.(kbd).(yaxis_reversed) = s.(kbd).(yaxis_reversed) ∧
    Z.abs m.1 <= 63 ∧ Z.abs m.2 <= 63 ∧ ((queue s1.(kbd) = queue s.(kbd) ∧ m = (dx, dy)) ∨
     ∃ x y, queue s.(kbd) = queue s1.(kbd) ++ packet b (x, y) ∧ 0 <= x <= 126 ∧ 0 <= y <= 126 ∧ m = (dx + x, dy + y))) as Hno.
  { eexists _, _. split; [done|]. split; [done|]. split; [done|]. split; [done|]. split; [done|]. by left. }
  unfold MergeMousePacket. erewrite xbind_ret by done. unfold id. destruct (intype (kbd s)); try exact Hno.
  destruct (inread (kbd s) =? inwrite (kbd s)) eqn:E0; [exact Hno|]. cbv zeta. rewrite !land_8191.
  set (w3 := (inwrite (kbd s) - 3) mod 8192).
  destruct (_ || _ || _) eqn:E1; [exact Hno|]. unfold in_get.
  rewrite !in_range_true by (apply Z.mod_pos_bound; lia). erewrite xbind_ret by done.
  destruct (_ && _); [exact Hno|]. destruct (negb _) eqn:Eh; [exact Hno|]. erewrite xbind_ret by done.
  set (x := aget _ ((w3 + 1) mod 8192)). destruct (63 <? Z.abs (dx + x)) eqn:Ex; [exact Hno|]. erewrite xbind_ret by done.
  set (y := aget _ ((w3 + 2) mod 8192)). destruct (63 <? Z.abs (dy + y)) eqn:Ey; [exact Hno|].
  apply Z.ltb_ge in Ex, Ey. apply negb_false_iff, Z.eqb_eq in Eh. rewrite !orb_false_iff, !Z.eqb_neq in E1.
  apply Z.eqb_neq in E0. destruct E1 as [[E1 E2] E3].
  destruct Hs as [Hk Hm]. pose proof (queue_range (kbd s)) as Hn. pose proof (queue_write (kbd s) Hk) as Hw.
  set (n := queue_length (kbd s)) in *.
  assert (∀ d, 0 <= d <= 3 → (w3 + d) mod 8192 = (inread (kbd s) + (n - 3 + d)) mod 8192) as Hd.
  { intros d Hd. unfold w3. rewrite Zplus_mod_idemp_l, Hw. replace (_ - 3 + d) with ((inread (kbd s) + n) mod 8192 + (d - 3)) by lia.
    rewrite Zplus_mod_idemp_l. f_equal. lia. }
  assert (∀ d, inread (kbd s) ≠ (inread (kbd s) + d) mod 8192 → d ≠ 0) as Hne.
  { intros d H ->. apply H. rewrite Z.add_0_r, Z.mod_small; [done|apply Hk]. }
  assert (4 <= n).
  { assert (w3 = (w3 + 0) mod 8192) as E by (rewrite Z.add_0_r, Z.mod_small; [done|apply Z.mod_pos_bound; lia]).
    rewrite E, Hd in E1 by lia. rewrite Hd in E2, E3 by lia. rewrite Hw in E0. apply Hne in E0, E1, E2, E3. lia. }
  assert (is_byte x ∧ is_byte y) as [Hbx Hby] by (split; apply Hk). unfold is_byte in *.
  eexists (dx + x, dy + y), _. split; [reflexivity|]. split.
  { split; [|done]. destruct Hk. split; cbn; try done. apply Z.mod_pos_bound. lia. }
  split; [done|]. split; [done|]. split; [done|]. right. exists x, y. split; [|split; [lia|split; [lia|done]]].
  assert (queue_length (to_inwrite w3 (kbd s)) = n - 3) as Hl.
  { unfold queue_length. cbn. unfold w3. rewrite Zminus_mod_idemp_l.
    replace (inwrite (kbd s) - 3 - inread (kbd s)) with (inwrite (kbd s) - inread (kbd s) - 3) by lia.
    rewrite <-Zminus_mod_idemp_l. change ((inwrite (kbd s) - inread (kbd s)) mod 8192) with n. by rewrite Z.mod_small by lia. }
  cbn [kbd]. unfold queue at 2. rewrite Hl. cbn [inread inbuffer to_inwrite].
  unfold queue. fold n. replace n with (n - 3 + 3) at 1 by lia. rewrite ring_app, ring3 by lia. unfold packet. cbn [fst snd].
  rewrite (u8_small x), (u8_small y) by lia. rewrite !Z.mod_mod by lia. rewrite !Zplus_mod_idemp_l, <-!Z.add_assoc.
  rewrite <-(Hd 1), <-(Hd 2) by lia. fold x y.
  assert ((inread (kbd s) + (n - 3)) mod 8192 = w3) as ->; [|by rewrite Eh].
  rewrite <-(Z.add_0_r (n - 3)), <-(Hd 0), Z.add_0_r by lia. apply Z.mod_small, Z.mod_pos_bound. lia.
Qed.

Lemma send_room b s : kbd_ok s → is_byte b → Z.of_nat (length (queue s.(kbd))) < 8191 →
  ∃ s', ikbd_send b s = (Ret tt, s') ∧ kbd_ok s' ∧ queue s'.(kbd) = queue s.(kbd) ++ [b] ∧
    s'.(kbd).(yaxis_reversed) = s.(kbd).(yaxis_reversed).
Proof.
  intros [Hk Hx] Hb Hr. destruct (send_effect b s (conj Hk Hx)) as (v & y & E & Hy & _). eexists. split; [exact E|].
  split; [split; [by apply to_sr_ok, pushed_ok|done]|]. split; [|done].
  change (queue (kbd (Keyboard (to_sr v (pushed b (kbd s))) y))) with (queue (pushed b (kbd s))).
  rewrite queue_pushed by done. unfold enqueue. rewrite length_app. cbn [length].
  by rewrite (proj2 (Z.eqb_neq _ 8192)) by lia.
Qed.

Lemma send_packet b m s : kbd_ok s → s.(kbd).(yaxis_reversed) = false → Z.of_nat (length (queue s.(kbd))) < 8189 →
  ∃ s', (kmod (to_intype IKBD_PACKET_MOUSE) ;; ikbd_send (0xf8 .| (b .& 3)) ;; ikbd_send (u8 m.1) ;;
     let* rev := kget yaxis_reversed in ikbd_send (u8 (if rev then - m.2 else m.2))) s = (Ret tt, s') ∧ kbd_ok s' ∧
    queue s'.(kbd) = queue s.(kbd) ++ packet b m ∧ s'.(kbd).(yaxis_reversed) = false.
Proof.
  intros Hs Hrev Hr. erewrite xbind_ret by done. remember (Keyboard _ _) as s0 eqn:E0.
  assert (kbd_ok s0 ∧ queue (kbd s0) = queue (kbd s) ∧ yaxis_reversed (kbd s0) = false) as (H0 & Q0 & R0).
  { subst s0. destruct Hs as [[] ?]. split; [split; [by split|done]|done]. } clear E0. rewrite <-Q0 in *.
  destruct (send_room (0xf8 .| (b .& 3)) s0 H0 (header_byte b)) as (s1 & E1 & H1 & Q1 & R1); [lia|].
  destruct (send_room (u8 m.1) s1 H1 (u8_range _)) as (s2 & E2 & H2 & Q2 & R2); [rewrite Q1, length_app; cbn; lia|].
  destruct (send_room (u8 m.2) s2 H2 (u8_range _)) as (s3 & E3 & H3 & Q3 & R3);
    [rewrite Q2, Q1, !length_app; cbn; lia|].
  exists s3. rewrite (xbind_ret _ _ _ _ _ E1), (xbind_ret _ _ _ _ _ E2). erewrite xbind_ret by done.
  rewrite R2, R1, R0. split; [done|]. split; [done|]. split; [|congruence].
  rewrite Q3, Q2, Q1, <-!app_assoc. done.
Qed.

(** The packets a motion takes. *)
Definition turns (slow : bool) (relx rely : Z) : Z :=
  let m := Z.max (Z.abs relx) (Z.abs rely) in Z.max 1 (if slow then m else (m + 62) / 63).

Lemma mouse_step_small slow rel : Z.abs (mouse_step slow rel) <= 63.
Proof. unfold mouse_step. repeat case_match; lia. Qed.

Lemma turns_step slow relx rely : let relx' := relx - mouse_step slow relx in let rely' := rely - mouse_step slow rely in
  relx' ≠ 0 ∨ rely' ≠ 0 → turns slow relx' rely' = turns slow relx rely - 1.
Proof.
  cbv zeta. unfold turns, mouse_step. destruct slow; [repeat case_match; lia|].
  set (m' := Z.max (Z.abs (relx - _)) _). set (m := Z.max (Z.abs relx) _). intros H.
  assert (m = m' + 1 * 63 ∧ 1 <= m') as [Em Hm] by (revert H; unfold m, m'; repeat case_match; lia). rewrite Em. clear m Em H.
  replace (m' + 1 * 63 + 62) with (m' + 62 + 1 * 63) by lia. rewrite Z.div_add by lia.
  assert (1 <= (m' + 62) / 63) by (apply Z.div_le_lower_bound; lia). lia.
Qed.

Lemma turns_pos slow relx rely : 1 <= turns slow relx rely.
Proof. unfold turns. lia. Qed.

(** The sum of the moves. *)
Definition motion (moves : list (Z * Z)) : Z * Z :=
  foldr (λ m acc, (m.1 + acc.1, m.2 + acc.2)) (0, 0) moves.

Definition small_move (m : Z * Z) : Prop := Z.abs m.1 <= 63 ∧ Z.abs m.2 <= 63.

(** [moves] are queued for the motion [rel]: added to the queue [q], or in place of the
    packet at its end, whose motion they then contain. *)
Definition queued (b : Z) (rel : Z * Z) (q q' : list Z) (moves : list (Z * Z)) : Prop :=
  Forall small_move moves ∧
  ∃ kept, q' = kept ++ (moves ≫= packet b) ∧
    ((q = kept ∧ motion moves = rel) ∨
     ∃ x y, q = kept ++ packet b (x, y) ∧ 0 <= x <= 126 ∧ 0 <= y <= 126 ∧ motion moves = (rel.1 + x, rel.2 + y)).

Lemma packet_length b m : length (packet b m) = 3%nat.
Proof. done. Qed.

(** A packet of small moves determines them. *)
Lemma u8_inj_small x m : 0 <= x <= 126 → Z.abs m <= 63 → u8 m = u8 x → x = m.
Proof.
  intros Hx Hm. rewrite (u8_small x) by lia. unfold u8. destruct (decide (0 <= m)); [rewrite Z.mod_small by lia; lia|].
  replace m with (m + 256 + (-1) * 256) at 1 by lia. rewrite Z.mod_add, Z.mod_small by lia. lia.
Qed.

Lemma queued_step b rel q k1 m1 rel' q' moves :
  small_move m1 → queued b rel' (k1 ++ packet b m1) q' moves →
  (q = k1 ∧ (m1.1 + rel'.1, m1.2 + rel'.2) = rel ∨
   ∃ x y, q = k1 ++ packet b (x, y) ∧ 0 <= x <= 126 ∧ 0 <= y <= 126 ∧ (m1.1 + rel'.1, m1.2 + rel'.2) = (rel.1 + x, rel.2 + y)) →
  ∃ moves', queued b rel q q' moves'.
Proof.
  intros H1 (Hm & kept & Hq' & [[Hk Hs]|(x & y & Hk & Hx & Hy & Hs)]) Hq.
  - exists (m1 :: moves). split; [by constructor|]. exists k1. split.
    + cbn [mbind list_bind]. by rewrite Hq', <-Hk, <-app_assoc.
    + cbn [motion foldr]. fold (motion moves). by rewrite Hs.
  - apply app_inj_2 in Hk as [<- Hp]; [|done]. injection Hp as Hpx Hpy. cbn [fst snd] in *.
    apply u8_inj_small in Hpx, Hpy; [|done|apply H1|done|apply H1]. subst x y.
    exists moves. split; [done|]. exists k1. split; [done|]. rewrite Hs.
    destruct Hq as [[-> <-]|(x & y & -> & ? & ? & E)]; [left; split; [done|]; f_equal; cbn; lia|].
    right. exists x, y. split; [done|]. split; [done|]. split; [done|]. rewrite <-E. f_equal; lia.
Qed.

(** One turn of the loop: [m] is sent in place of [(dx, dy)]. *)
Definition turn_moves (b dx dy : Z) (m : Z * Z) (q k1 : list Z) : Prop :=
  (q = k1 ∧ m = (dx, dy)) ∨
  ∃ x y, q = k1 ++ packet b (x, y) ∧ 0 <= x <= 126 ∧ 0 <= y <= 126 ∧ m = (dx + x, dy + y).

Lemma turn_effect b (slow : bool) dx dy s (rest : X keyboard unit) : kbd_ok s → s.(kbd).(yaxis_reversed) = false →
  Z.abs dx <= 63 → Z.abs dy <= 63 → Z.of_nat (length (queue s.(kbd))) < 8189 →
  ∃ m k1 s2, (let* move := (if negb slow then MergeMousePacket dx dy b else xret (dx, dy)) in
    kmod (to_intype IKBD_PACKET_MOUSE) ;; ikbd_send (0xf8 .| (b .& 3)) ;; ikbd_send (u8 move.1) ;;
    let* rev := kget yaxis_reversed in ikbd_send (u8 (if rev then - move.2 else move.2)) ;; rest) s = rest s2 ∧
    kbd_ok s2 ∧ s2.(kbd).(yaxis_reversed) = false ∧ small_move m ∧ queue s2.(kbd) = k1 ++ packet b m ∧
    (length k1 <= length (queue s.(kbd)))%nat ∧ turn_moves b dx dy m (queue s.(kbd)) k1.
Proof.
  intros Hs Hrev Hdx Hdy Hroom.
  assert (∃ m s1, (if negb slow then MergeMousePacket dx dy b else xret (dx, dy)) s = (Ret m, s1) ∧ kbd_ok s1 ∧
    s1.(kbd).(yaxis_reversed) = false ∧ small_move m ∧ (length (queue s1.(kbd)) <= length (queue s.(kbd)))%nat ∧
    turn_moves b dx dy m (queue s.(kbd)) (queue s1.(kbd))) as (m & s1 & E1 & Hs1 & Hrev1 & Hm & Hl1 & Hq1).
  { destruct slow; cbn [negb].
    - eexists _, _. split; [done|]. split; [done|]. split; [done|]. split; [done|]. split; [lia|]. by left.
    - destruct (merge_effect dx dy b s Hs Hdx Hdy) as (m & s1 & E & Hs1 & Hr1 & Hmx & Hmy & Hq).
      exists m, s1. split; [done|]. split; [done|]. split; [congruence|]. split; [done|].
      destruct Hq as [[Hq ->]|(x & y & Hq & ? & ? & ->)]; rewrite Hq, ?length_app; (split; [lia|]); [by left|].
      right. by exists x, y. }
  destruct (send_packet b m s1 Hs1 Hrev1) as (s2 & E2 & Hs2 & Hq2 & Hrev2); [lia|].
  exists m, (queue (kbd s1)), s2. split; [|done]. rewrite (xbind_ret _ _ _ _ _ E1).
  clear -E2. unfold xbind in *. repeat (case_match; simplify_eq; try done).
Qed.

(** How far a motion has come after a turn. *)
Lemma turn_progress slow relx rely n : Z.max (Z.abs relx) (Z.abs rely) < n + 1 →
  relx - mouse_step slow relx ≠ 0 ∨ rely - mouse_step slow rely ≠ 0 →
  Z.max (Z.abs (relx - mouse_step slow relx)) (Z.abs (rely - mouse_step slow rely)) < n.
Proof.
  intros Hn Hor.
  assert (∀ rel, Z.abs (rel - mouse_step slow rel) < Z.abs rel ∨ rel = 0 ∧ rel - mouse_step slow rel = 0) as Hst.
  { intros rel. destruct (decide (rel = 0)) as [->|]; [rewrite mouse_step_zero; by right|left; by apply mouse_step_left]. }
  destruct (Hst relx), (Hst rely); lia.
Qed.

Lemma mouse_loop_effect b slow n : ∀ relx rely s, Z.max (Z.abs relx) (Z.abs rely) < Z.of_nat n →
  kbd_ok s → s.(kbd).(yaxis_reversed) = false →
  Z.of_nat (length (queue s.(kbd))) + 3 * turns slow relx rely <= 8191 →
  ∃ s' moves, mouse_loop n relx rely b slow s = (Ret tt, s') ∧
    queued b (relx, rely) (queue s.(kbd)) (queue s'.(kbd)) moves.
Proof.
  induction n as [|n IH]; intros relx rely s Hn Hs Hrev Hroom; [lia|]. cbn [mouse_loop]. cbv zeta.
  pose proof (turns_pos slow relx rely) as Hpos.
  set (dx := mouse_step slow relx). set (dy := mouse_step slow rely).
  edestruct (turn_effect b slow dx dy s) as (m & k1 & s2 & E & Hs2 & Hrev2 & Hm & Hq2 & Hl & Ht); try apply mouse_step_small; [done|done|lia|].
  rewrite E. clear E. destruct (_ || _) eqn:Eor.
  - rewrite orb_true_iff, !negb_true_iff, !Z.eqb_neq in Eor. pose proof (turns_step slow relx rely Eor) as Hturns.
    cbv zeta in Hturns. fold dx dy in Hturns.
    destruct (IH (relx - dx) (rely - dy) s2) as (s3 & moves & E3 & Hq3); [apply turn_progress; [lia|done]|done|done| |].
    { rewrite Hq2, length_app, packet_length. lia. }
    exists s3. rewrite Hq2 in Hq3.
    destruct (queued_step b (relx, rely) (queue (kbd s)) _ _ _ _ _ Hm Hq3) as (moves' & Hmoves); [|by exists moves'].
    destruct Ht as [[-> ->]|(x & y & -> & ? & ? & ->)]; cbn [fst snd].
    + left. split; [done|]. f_equal; lia.
    + right. exists x, y. split; [done|]. split; [done|]. split; [done|]. f_equal; lia.
  - rewrite orb_false_iff, !negb_false_iff, !Z.eqb_eq in Eor. destruct Eor as [Ex Ey].
    exists s2, [m]. split; [done|]. split; [by constructor|]. exists k1. split; [done|]. cbn [motion foldr fst snd].
    destruct Ht as [[-> ->]|(x & y & -> & ? & ? & ->)]; cbn [fst snd]; [left; split; [done|]; f_equal; lia|].
    right. exists x, y. split; [done|]. split; [done|]. split; [done|]. f_equal; lia.
Qed.

(** C11: With the mouse enabled, the Y origin at the top and room in the queue, a motion of the host's mouse of at most 2048 in each
    direction, or of any size when it is sent slowly, is queued as packets of the current buttons whose motions, each within 63, add up to
    it; if the motion is merged with the packet that waited at the end of the queue, they
    add up to the motion of both, and nothing else in the queue changes.  (The code drops larger motions, and all motions while the mouse is disabled.) *)
Theorem mouse_motion relx rely b (slow : bool) s : kbd_ok s →
  s.(kbd).(mouse_enabled) = true → s.(kbd).(yaxis_reversed) = false →
  (if slow then is_int relx ∧ is_int rely else Z.abs relx <= 2048 ∧ Z.abs rely <= 2048) →
  Z.of_nat (length (queue s.(kbd))) + 3 * turns slow relx rely <= 8191 →
  ∃ s' moves, SendMouseMotion relx rely b slow s = (Ret tt, s') ∧
    queued b (relx, rely) (queue s.(kbd)) (queue s'.(kbd)) moves.
Proof.
  intros Hs He Hrev Hrel Hroom.
  destruct (mouse_loop_effect b slow (mouse_turns relx rely) relx rely s) as (s' & moves & E & Hq); try done.
  { unfold mouse_turns. lia. }
  exists s', moves. split; [|done]. unfold SendMouseMotion. erewrite xbind_ret by done. rewrite He. cbn [negb].
  destruct slow; cbn [negb andb]; [done|].
  rewrite !(proj2 (Z.eqb_neq _ (- 2 ^ 31))), !(proj2 (Z.ltb_ge 2048 _)) by lia. done.
Qed.

(** ** From a key to the guest *)

(** With the receive interrupt enabled in the interface and in the MFP and nothing
    more urgent pending or in service, a key pressed while the queue is empty interrupts
    the processor with the keyboard's vector at its next poll; the guest then reads a
    status with the receive and interrupt bits on, reads the scan code from the data
    register, and finds the receive bit off. *)
Theorem key_delivered off c intmask resetStop s : kbd_ok s → is_byte c → 0 <= off < 2 ^ 32 - 2 → intmask < 6 →
  queue s.(kbd) = [] → interrupting s → Z.testbit s.(wired).(irq_mask) 6 = true →
  (∀ k, 7 <= k < 16 → Z.testbit s.(wired).(irq_pending) k && Z.testbit s.(wired).(irq_mask) k = false) →
  s.(wired).(irq_inservice) < 2 ^ 6 → s.(wired).(vr) .& 0xF0 ≠ 0 →
  - 2 ^ 31 < s.(wired).(timerCounter) < 2 ^ 31 →
  ∃ s1 s2 s3 status status',
    SendKey c s = (Ret tt, s1) ∧
    with_mfp (serve_MFP intmask resetStop) s1 = (Ret ((s.(wired).(vr) .& 0xF0) + 6), s2) ∧
    ikbd_handleRead off off s2 = (Ret status, s2) ∧ Z.testbit status 0 = true ∧ Z.testbit status 7 = true ∧
    ikbd_handleRead off (off + 2) s2 = (Ret c, s3) ∧ queue s3.(kbd) = [] ∧
    ikbd_handleRead off off s3 = (Ret status', s3) ∧ Z.testbit status' 0 = false.
Proof.
  intros Hs Hc Hoff Hmask Hq Hi Him Hhigh Hserv Hvr Htc.
  assert (∀ k, 0 <= k <= 2 → (off + k) -u off = k) as Ha by (intros k Hk; rewrite u32_small; lia).
  set (s0 := Keyboard (to_intype IKBD_PACKET_KEYBOARD s.(kbd)) s.(wired)).
  assert (kbd_ok s0) as H0 by (destruct Hs as [[] ?]; split; [by split|done]).
  destruct (send_effect c s0 H0) as (v & y & E1 & Hy & (Fvr & Fim & _ & Fis & Ftc & _) & Hv0 & Hint).
  destruct (Hint Hi) as [Hv7 Hp]. cbn [wired s0] in *. clear Hint.
  assert (highest 16 (y.(irq_pending) .& y.(irq_mask)) = Some 6) as Hh.
  { destruct (highest 16 _) as [j|] eqn:Eh.
    - destruct (highest_some _ _ _ Eh) as (Hj & Hb & Habove). rewrite Z.land_spec, Hp, Fim in Hb by lia.
      destruct (decide (j = 6)) as [->|Hne]; [done|]. exfalso. destruct (decide (j < 6)).
      + specialize (Habove 6 ltac:(lia)). rewrite Z.land_spec, Hp, Fim, Him in Habove by lia.
        by rewrite orb_true_r in Habove.
      + rewrite (proj2 (Z.eqb_neq 6 j)), orb_false_r in Hb by lia. by rewrite Hhigh in Hb by lia.
    - pose proof (highest_none _ _ Eh 6 ltac:(lia)) as H. rewrite Z.land_spec, Hp, Fim, Him in H by lia. by rewrite orb_true_r in H. }
  destruct (poll_effect y intmask resetStop 6) as (z & E2 & _); try done; [by rewrite Fis|by rewrite Ftc|by rewrite Fvr|].
  assert (mfp_ok z) as Hz by (pose proof (serve_keeps intmask resetStop y Hy) as H; by rewrite E2 in H).
  set (k1 := to_sr v (pushed c (kbd s0))).
  assert (ikbd_ok k1) as Hk1 by (apply to_sr_ok, pushed_ok; [done|apply H0]).
  assert (queue k1 = [c]) as Q1.
  { change (queue k1) with (queue (pushed c (kbd s0))). rewrite queue_pushed by apply H0. 
    change (queue (kbd s0)) with (queue (kbd s)). by rewrite Hq. }
  assert ((inread k1 =? inwrite k1) = false) as Ene.
  { apply not_true_iff_false. rewrite queue_nil, Q1 by done. done. }
  pose proof (queue_popped k1 Hk1 Ene) as Q2. rewrite Q1 in Q2. injection Q2 as Ec Q2.
  destruct (ReadData_effect (Keyboard k1 z) (conj Hk1 Hz) Ene) as (v' & x & E3 & _ & _ & Hv'). cbn [kbd] in *.
  eexists _, (Keyboard k1 z), _, v, v'. split; [unfold SendKey; erewrite xbind_ret by done; exact E1|].
  split; [unfold with_mfp, xzoom; cbn [wired kbd]; by rewrite E2, Fvr|].
  unfold ikbd_handleRead, acia_handleRead. rewrite Ha by lia. pose proof (Ha 0 ltac:(lia)) as Ha0. rewrite Z.add_0_r in Ha0.
  rewrite Ha0. split; [done|]. split; [done|]. split; [done|]. split; [rewrite Ec; exact E3|]. split; [symmetry; exact Q2|].
  split; [done|]. rewrite Hv'. symmetry in Q2. change (inwrite k1) with (inwrite (popped k1)).
  apply queue_nil in Q2; [|by apply popped_ok]. by rewrite Q2.
Qed.
