(* ===== verification/IkbdExample.v ===== *)
(** * IkbdExample: the keyboard at work

    A keyboard as the operating system sets it up, the theorems on it, and what the code
    does differently from what it means to. *)

From S2P Require Import Prelude Throws Mfp MfpSpec MfpTick Rtc RtcSpec Ikbd IkbdSpec IkbdEvents IkbdMouse.
From stdpp Require Import base gmap list numbers.
Open Scope Z_scope.
Open Scope c_scope.
Open Scope x_scope.

(** Vector base 0x40, the keyboard's interrupt enabled and unmasked. *)
Definition mfp_setup : X MFP unit :=
  mfp_handleWrite 0xfffa00 0x30 0xfffa17 0x40 ;;
  mfp_handleWrite 0xfffa00 0x30 0xfffa09 0x40 ;; mfp_handleWrite 0xfffa00 0x30 0xfffa15 0x40.

Lemma mfp_setup_ok : mfp_ok (after mfp_setup).
Proof.
  assert (xkeeps mfp_ok mfp_setup) as H.
  { unfold mfp_setup. xkeeps; apply handleWrite_keeps; by apply wd_const. }
  specialize (H mfp_new (reset_ok mfp_new)). unfold after.
  assert ((mfp_setup mfp_new).1 = Ret tt) as E by (vm_compute; reflexivity).
  destruct (mfp_setup mfp_new) as [r y]. cbn [fst snd] in *. by rewrite E in H.
Qed.

(** Control register 0x96: receive interrupt on, eight bits, clock divided by 64. *)
Definition kbd_new : keyboard :=
  Keyboard (Ikbd 2 0x96 0 0 true true false [false; true] [0; 0] ∅ 0 ∅ 0 0 IKBD_PACKET_UNKNOWN) (after mfp_setup).

Lemma kbd_new_ok : kbd_ok kbd_new.
Proof. split; [|apply mfp_setup_ok]. by split. Qed.

(** The keyboard after [m], which returned. *)
Definition kbd_after (m : X keyboard unit) : keyboard := (m kbd_new).2.

Lemma ikbd_fifo_witness : ∃ out s',
  fifo_run [Put 0x1e; Put 0x9e; Take; Take; Take] kbd_new = (Ret out, s') ∧
  (out, queue s'.(kbd)) = ([0x1e; 0x9e; 0x9e], []).
Proof.
  destruct (ikbd_fifo [Put 0x1e; Put 0x9e; Take; Take; Take] kbd_new kbd_new_ok) as (out & s' & E & _ & H);
    [by repeat constructor|]. exists out, s'. split; [exact E|exact H].
Defined.

Lemma ikbd_total_witness : xtotal kbd_ok (λ _, True) (xfor [Ev_key 0x1e; Ev_mouse 100 (-5) 1 false; Ev_read 0xfffc02;
  Ev_write noon 0xfffc02 0x1c; Ev_axis 1 0 20000] (run_event 0xfffc00)).
Proof. apply ikbd_total. repeat constructor; cbn; unfold is_byte, is_int; lia. Defined.

(** Set the absolute mode of the mouse: a command of five bytes (0x0e). *)
Lemma command_framing_witness :
  ∃ s', xfor [0x0e; 0; 1; 2; 3] (ikbd_WriteData noon) kbd_new = (Ret tt, s') ∧ s'.(kbd).(outwrite) = 0.
Proof.
  destruct (command_framing noon 0x0e [0; 1; 2; 3] kbd_new 5 kbd_new_ok) as (s' & E & _ & H); [done|done|cbn; lia|].
  by exists s'.
Defined.

(** A key and a motion; the second motion is merged with the first. *)
Lemma mouse_motion_witness : let s := kbd_after (SendKey 0x1e ;; SendMouseMotion 10 4 1 false) in
  ∃ s' moves, SendMouseMotion 20 5 1 false s = (Ret tt, s') ∧ queued 1 (20, 5) (queue s.(kbd)) (queue s'.(kbd)) moves ∧
    queue s'.(kbd) = [0x1e; 0xf9; 30; 9].
Proof.
  set (m := SendKey 0x1e ;; SendMouseMotion 10 4 1 false). intros s.
  assert (kbd_ok s) as Hs.
  { assert (xtotal kbd_ok (λ _, True) m) as H by (apply (xtotal_bind _ (λ _, True)); [unfold SendKey; ktotal|intros _ _; by apply SendMouseMotion_total]).
    destruct (H kbd_new kbd_new_ok) as (a & s0 & E & _ & Hs0). unfold s, kbd_after. by rewrite E. }
  destruct (mouse_motion 20 5 1 false s Hs) as (s' & moves & E & H); [by vm_compute..|lia|by vm_compute|].
  exists s', moves. split; [exact E|]. split; [exact H|].
  assert (s' = (SendMouseMotion 20 5 1 false s).2) as -> by (by rewrite E). by vm_compute.
Defined.

Lemma key_delivered_witness : ∃ s1 s2 s3,
  SendKey 0x1e kbd_new = (Ret tt, s1) ∧ with_mfp (serve_MFP 3 false) s1 = (Ret 0x46, s2) ∧
  ikbd_handleRead 0xfffc00 (0xfffc00 + 2) s2 = (Ret 0x1e, s3) ∧ queue s3.(kbd) = [].
Proof.
  destruct (key_delivered 0xfffc00 0x1e 3 false kbd_new kbd_new_ok) as (s1 & s2 & s3 & st & st' & E1 & E2 & _ & _ & _ & E3 & Q & _);
    [done|lia|lia|by vm_compute|by vm_compute|by vm_compute| |by vm_compute|by vm_compute|by vm_compute|].
  - intros k Hk. change (irq_pending (wired kbd_new)) with 0. by rewrite Z.bits_0.
  - exists s1, s2, s3. split; [exact E1|]. split; [exact E2|]. split; [exact E3|exact Q].
Defined.

(** ** What the code does differently *)

(** With the Y origin at the bottom, merging adds the new motion to the negated old one:
    5 up and 3 down read as 8 down, not as 2 up. *)
Lemma reversed_merge_wrong :
  queue (kbd_after (kmod (to_yaxis_reversed true) ;; SendKey 0x1e ;; SendMouseMotion 0 (-5) 0 false)).(kbd)
    = [0x1e; 0xf8; 0; 5] ∧
  queue (kbd_after (kmod (to_yaxis_reversed true) ;; SendKey 0x1e ;; SendMouseMotion 0 (-5) 0 false ;;
    SendMouseMotion 0 3 0 false)).(kbd) = [0x1e; 0xf8; 0; u8 (-8)].
Proof. by vm_compute. Qed.

(** The test of the header of a packet to merge with never rejects anything. *)
Lemma header_test_vacuous h : (h <=? 0xf8) && (0xfb <=? h) = false.
Proof. apply andb_false_iff. destruct (Z.leb_spec h 0xf8); [right; apply Z.leb_gt; lia|by left]. Qed.

(** A reset of the hardware empties the queue but leaves the receive bit on. *)
Lemma reset_keeps_rxfull : let s := kbd_after (SendKey 0x1e ;; ikbd_reset) in
  queue s.(kbd) = [] ∧ Z.testbit s.(kbd).(sr) 0 = true.
Proof. by vm_compute. Qed.

(** A master reset of the interface turns the receive bit off with a byte waiting. *)
Lemma master_reset_hides_byte : let s := kbd_after (SendKey 0x1e ;; ikbd_handleWrite 0xfffc00 noon 0xfffc00 3) in
  queue s.(kbd) = [0x1e] ∧ Z.testbit s.(kbd).(sr) 0 = false.
Proof. by vm_compute. Qed.
