(* ===== verification/Planes.v ===== *)
(** * Planes: bitplanes and pixels

    Models [bitplaneToChunky] and [chunkyToBitplane] of [src/hostscreen.cpp].  The guest
    keeps 16 pixels as one big-endian word per plane; the host wants a byte per pixel.
    [planes_to_pixels]: the parallel bit exchange of the code computes exactly that, for
    all depths, scroll distances and byte orders of the host. *)

From S2P Require Import Prelude.
From stdpp Require Import base list numbers.
Open Scope Z_scope.
Open Scope c_scope.

(** ** The code *)

Section Planes.
(** [SDL_BYTEORDER == SDL_BIG_ENDIAN]. *)
Context (big_endian : bool).

Definition SDL_SwapBE16 (x : Z) : Z :=
  if big_endian then x else u16 (Z.shiftl x 8) .| (x >> 8).

(** The 32-bit load of two 16-bit words. *)
Definition load32 (w : Z → Z) (k : Z) : Z :=
  if big_endian then (w (2 * k) << 16) .| w (2 * k + 1) else w (2 * k) .| (w (2 * k + 1) << 16).

Definition scrolled (atariBitplaneData : Z → Z) (bpp horiz_shift i : Z) : Z :=
  let x := (SDL_SwapBE16 (atariBitplaneData i) << 16) .| SDL_SwapBE16 (atariBitplaneData (i + bpp)) in
  SDL_SwapBE16 ((x << horiz_shift) >> 16).

(** The exchanges between two of the four words. *)
Definition swap4 (a c : Z) : Z * Z :=
  ((a .& 0xf0f0f0f0) .| ((c .& 0xf0f0f0f0) >> 4), ((a .& 0x0f0f0f0f) << 4) .| (c .& 0x0f0f0f0f)).
Definition swap2 (a b : Z) : Z * Z :=
  ((a .& 0xcccccccc) .| ((b .& 0xcccccccc) >> 2), ((a .& 0x33333333) << 2) .| (b .& 0x33333333)).
Definition swap1 (a : Z) : Z :=
  if big_endian then (a .& 0x5555aaaa) .| ((a .& 0x00005555) << 17) .| ((a .& 0xaaaa0000) >> 17)
  else (a .& 0xaaaa5555) .| ((a .& 0x0000aaaa) << 15) .| ((a .& 0x55550000) >> 15).

(** Byte [k] of a word, as the assignments after [k] shifts by 8 store it. *)
Definition byte_at (x k : Z) : Z := u8 (x >> (8 * k)).

(** The stores into [colorValues]. *)
Definition stores (a b c d : Z) : list Z :=
  if big_endian then
    [byte_at a 1; byte_at a 3; byte_at b 1; byte_at b 3; byte_at c 1; byte_at c 3; byte_at d 1; byte_at d 3;
     byte_at a 0; byte_at a 2; byte_at b 0; byte_at b 2; byte_at c 0; byte_at c 2; byte_at d 0; byte_at d 2]
  else
    [byte_at a 2; byte_at a 0; byte_at b 2; byte_at b 0; byte_at c 2; byte_at c 0; byte_at d 2; byte_at d 0;
     byte_at a 3; byte_at a 1; byte_at b 3; byte_at b 1; byte_at c 3; byte_at c 1; byte_at d 3; byte_at d 1].

Definition exchange (a b c d : Z) : list Z :=
  let '(a, c) := swap4 a c in
  let '(b, d) := swap4 b d in
  let '(a, b) := swap2 a b in
  let '(c, d) := swap2 c d in
  stores (swap1 a) (swap1 b) (swap1 c) (swap1 d).

Definition bitplaneToChunky (atariBitplaneData : Z → Z) (bpp horiz_shift : Z) : list Z :=
  let source := if horiz_shift =? 0 then atariBitplaneData else scrolled atariBitplaneData bpp horiz_shift in
  if bpp =? 8 then exchange (load32 source 3) (load32 source 2) (load32 source 1) (load32 source 0)
  else if bpp =? 4 then exchange 0 0 (load32 source 1) (load32 source 0)
  else if bpp =? 2 then exchange 0 0 0 (load32 source 0)
  else exchange 0 0 0 (if big_endian then source 0 << 16 else source 0).

(** One turn of the loop of [chunkyToBitplane] on one of the words. *)
Definition shift_in (p data w : Z) : Z := u16 (Z.shiftl w 1) .| ((data >> p) .& 1).

Definition chunkyToBitplane (sdlPixelData bitplaneWords : list Z) : list Z :=
  foldl (λ words data, imap (λ p w, shift_in (Z.of_nat p) data w) words) bitplaneWords sdlPixelData.
End Planes.

(** ** What they mean *)

(** The two words of plane [p] at a group of 16 pixels and its right neighbour, as the
    guest sees them. *)
Definition plane (be : bool) (w : Z → Z) (bpp p : Z) : Z :=
  (SDL_SwapBE16 be (w p) << 16) .| SDL_SwapBE16 be (w (p + bpp)).

(** The colour number whose bit [p] is bit [k] of plane [p]. *)
Fixpoint pixel_of (planes : Z → Z) (n : nat) (k : Z) : Z :=
  match n with
  | O => 0
  | S m => pixel_of planes m k .| Z.shiftl (Z.b2z (Z.testbit (planes (Z.of_nat m)) k)) (Z.of_nat m)
  end.

Lemma b2z_shift_bit b n j : 0 <= n → 0 <= j → Z.testbit (Z.shiftl (Z.b2z b) n) j = b && (j =? n).
Proof.
  intros Hn Hj. rewrite Z.shiftl_spec by done. destruct (Z.eqb_spec j n) as [->|]; rewrite ?andb_true_r, ?andb_false_r.
  - rewrite Z.sub_diag. apply Z.b2z_bit0.
  - destruct (Z.lt_ge_cases j n); [apply Z.testbit_neg_r; lia|]. destruct b; [|apply Z.bits_0].
    cbn [Z.b2z]. apply (range_bits 1 1); lia.
Qed.

Lemma pixel_of_bit planes n k j : 0 <= j →
  Z.testbit (pixel_of planes n k) j = (j <? Z.of_nat n) && Z.testbit (planes j) k.
Proof.
  intros Hj. induction n as [|n IH]; cbn [pixel_of].
  { rewrite Z.bits_0. destruct (Z.ltb_spec j (Z.of_nat 0)); [lia|done]. }
  rewrite Z.lor_spec, IH, b2z_shift_bit by lia. destruct (Z.eqb_spec j (Z.of_nat n)) as [->|Hne].
  - rewrite (proj2 (Z.ltb_ge _ _)), (proj2 (Z.ltb_lt _ _)) by lia. by rewrite andb_true_r.
  - rewrite andb_false_r, orb_false_r. f_equal. apply eq_true_iff_eq. rewrite !Z.ltb_lt. lia.
Qed.

Lemma pixel_of_ext f g n k : (∀ p, 0 <= p < Z.of_nat n → Z.testbit (f p) k = Z.testbit (g p) k) → pixel_of f n k = pixel_of g n k.
Proof. induction n as [|n IH]; intros H; [done|]. cbn [pixel_of]. rewrite IH, H by (lia || (intros; apply H; lia)). done. Qed.

(** ** Bits of the operations on words *)

Lemma u32_bit x n : 0 <= n < 32 → Z.testbit (u32 x) n = Z.testbit x n.
Proof. intros Hn. unfold u32. change 4294967296 with (2 ^ 32). by rewrite Z.mod_pow2_bits_low by lia. Qed.
Lemma u32_shiftl_bit x k n : 0 <= n < 32 → Z.testbit (x << k) n = Z.testbit x (n - k).
Proof. intros Hn. rewrite u32_bit, Z.shiftl_spec by lia. done. Qed.
Lemma u16_bit x n : 0 <= n < 16 → Z.testbit (u16 x) n = Z.testbit x n.
Proof. intros Hn. unfold u16. change 65536 with (2 ^ 16). by rewrite Z.mod_pow2_bits_low by lia. Qed.
Lemma byte_at_bit x k n : 0 <= k → 0 <= n < 8 → Z.testbit (byte_at x k) n = Z.testbit x (n + 8 * k).
Proof.
  intros Hk Hn. unfold byte_at, u8. change 256 with (2 ^ 8). rewrite Z.mod_pow2_bits_low by lia.
  by rewrite Z.shiftr_spec by lia.
Qed.
Lemma byte_at_range x k : 0 <= byte_at x k < 256.
Proof. apply u8_range. Qed.

Lemma swapBE_bit be x i : 0 <= x < 65536 → 0 <= i < 16 →
  Z.testbit (SDL_SwapBE16 be x) i = Z.testbit x (if be then i else if i <? 8 then i + 8 else i - 8).
Proof.
  intros Hx Hi. unfold SDL_SwapBE16. destruct be; [done|]. rewrite Z.lor_spec, u16_bit, Z.shiftl_spec, Z.shiftr_spec by lia.
  destruct (Z.ltb_spec i 8).
  - by rewrite Z.testbit_neg_r by lia.
  - rewrite (range_bits x 16 (i + 8)) by lia. by rewrite orb_false_r.
Qed.
Lemma swapBE_range be x : 0 <= x < 65536 → 0 <= SDL_SwapBE16 be x < 65536.
Proof.
  intros Hx. unfold SDL_SwapBE16. destruct be; [done|]. apply (lor_range _ _ 16); [lia|apply u16_range|].
  apply shiftr_range; lia.
Qed.

(** Evaluate the bits of an expression at a number. *)
Ltac word_bits :=
  repeat match goal with
  | |- context [Z.testbit (?a .| ?b) ?n] => rewrite (Z.lor_spec a b n)
  | |- context [Z.testbit (?a .& ?m) ?n] => rewrite (Z.land_spec a m n)
  | |- context [Z.testbit (?a >> ?k) ?n] => rewrite (Z.shiftr_spec a k n) by lia
  | |- context [Z.testbit (?a << ?k) ?n] => rewrite (u32_shiftl_bit a k n) by lia
  end.

(** Split [0 <= n < N], for a number [N], into its cases. *)
Ltac all_below n N :=
  let Hin := fresh in
  assert (n ∈ seqZ 0 N) as Hin by (apply elem_of_seqZ; lia); cbv in Hin;
  repeat (apply elem_of_cons in Hin as [->|Hin]); [..|by apply not_elem_of_nil in Hin].

Ltac eval_nat :=
  match goal with |- context [Z.to_nat ?z] => let v := eval vm_compute in (Z.to_nat z) in change (Z.to_nat z) with v end.

Ltac bit_cases := word_bits; cbn; rewrite ?andb_true_r, ?andb_false_r, ?orb_false_r; reflexivity.

Lemma swap4_bits a c n : 0 <= n < 32 →
  Z.testbit (fst (swap4 a c)) n = (if n mod 8 <? 4 then Z.testbit c (n + 4) else Z.testbit a n) ∧
  Z.testbit (snd (swap4 a c)) n = (if n mod 8 <? 4 then Z.testbit c n else Z.testbit a (n - 4)).
Proof. intros Hn. unfold swap4, fst, snd. all_below n 32; split; bit_cases. Qed.

Lemma swap2_bits a b n : 0 <= n < 32 →
  Z.testbit (fst (swap2 a b)) n = (if n mod 4 <? 2 then Z.testbit b (n + 2) else Z.testbit a n) ∧
  Z.testbit (snd (swap2 a b)) n = (if n mod 4 <? 2 then Z.testbit b n else Z.testbit a (n - 2)).
Proof. intros Hn. unfold swap2, fst, snd. all_below n 32; split; bit_cases. Qed.

Definition exch1 (be : bool) (n : Z) : Z :=
  if be then if n <? 16 then if n mod 2 =? 0 then n + 17 else n else if n mod 2 =? 0 then n else n - 17
  else if n <? 16 then if n mod 2 =? 0 then n else n + 15 else if n mod 2 =? 0 then n - 15 else n.

Lemma swap1_bits be a n : 0 <= n < 32 →
  Z.testbit (swap1 be a) n = Z.testbit a (exch1 be n) ∧ 0 <= exch1 be n < 32.
Proof. intros Hn. split; [|unfold exch1; destruct be; all_below n 32; done]. unfold swap1. destruct be; all_below n 32; bit_cases. Qed.

Definition words_ok (w : Z → Z) : Prop := ∀ k, 0 <= w k < 65536.

Lemma load32_bits be w k n : words_ok w → 0 <= n < 32 →
  Z.testbit (load32 be w k) n =
    if n <? 16 then Z.testbit (w (if be then 2 * k + 1 else 2 * k)) n
    else Z.testbit (w (if be then 2 * k else 2 * k + 1)) (n - 16).
Proof.
  intros Hw Hn. unfold load32. destruct be; rewrite Z.lor_spec, u32_shiftl_bit by lia; destruct (Z.ltb_spec n 16).
  - by rewrite (Z.testbit_neg_r _ (n - 16)) by lia.
  - by rewrite (range_bits (w (2 * k + 1)) 16 n), orb_false_r by (try apply Hw; lia).
  - by rewrite (Z.testbit_neg_r _ (n - 16)), orb_false_r by lia.
  - by rewrite (range_bits (w (2 * k)) 16 n) by (try apply Hw; lia).
Qed.

Definition stored_byte (be : bool) (i : Z) : Z :=
  if be then 2 * (i mod 2) + (if i <? 8 then 1 else 0) else 2 * (1 - i mod 2) + (if i <? 8 then 0 else 1).

Lemma stores_bits be (f : Z → Z → bool) a b c d :
  (∀ n, 0 <= n < 32 → Z.testbit a n = f 0 n) → (∀ n, 0 <= n < 32 → Z.testbit b n = f 1 n) →
  (∀ n, 0 <= n < 32 → Z.testbit c n = f 2 n) → (∀ n, 0 <= n < 32 → Z.testbit d n = f 3 n) →
  ∀ i p, 0 <= i < 16 → 0 <= p < 8 →
  Z.testbit (nth (Z.to_nat i) (stores be a b c d) 0) p =
    f (i mod 8 / 2) (p + 8 * stored_byte be i).
Proof.
  intros Ha Hb Hc Hd i p Hi Hp. unfold stores. 
  destruct be; all_below i 16; eval_nat; cbn [nth]; rewrite byte_at_bit by lia;
    rewrite ?Ha, ?Hb, ?Hc, ?Hd by lia; reflexivity.
Qed.

(** Bit [n] of word [k] after the exchanges, [w] holding the bits before. *)
Definition exch4 (w : Z → Z → bool) (k n : Z) : bool :=
  if k <? 2 then if n mod 8 <? 4 then w (k + 2) (n + 4) else w k n
  else if n mod 8 <? 4 then w k n else w (k - 2) (n - 4).
Definition exch2 (w : Z → Z → bool) (k n : Z) : bool :=
  if k mod 2 =? 0 then if n mod 4 <? 2 then w (k + 1) (n + 2) else w k n
  else if n mod 4 <? 2 then w k n else w (k - 1) (n - 2).

Lemma exchange_stores be (f : Z → Z → bool) a b c d :
  (∀ n, 0 <= n < 32 → Z.testbit a n = f 0 n) → (∀ n, 0 <= n < 32 → Z.testbit b n = f 1 n) →
  (∀ n, 0 <= n < 32 → Z.testbit c n = f 2 n) → (∀ n, 0 <= n < 32 → Z.testbit d n = f 3 n) →
  ∀ i p, 0 <= i < 16 → 0 <= p < 8 →
  Z.testbit (nth (Z.to_nat i) (exchange be a b c d) 0) p =
    exch2 (exch4 f) (i mod 8 / 2) (exch1 be (p + 8 * stored_byte be i)).
Proof.
  intros Ha Hb Hc Hd i p Hi Hp. unfold exchange.
  pose proof (swap4_bits a c) as H1. destruct (swap4 a c) as [a1 c1]. cbn [fst snd] in H1.
  pose proof (swap4_bits b d) as H2. destruct (swap4 b d) as [b1 d1]. cbn [fst snd] in H2.
  pose proof (swap2_bits a1 b1) as H3. destruct (swap2 a1 b1) as [a2 b2]. cbn [fst snd] in H3.
  pose proof (swap2_bits c1 d1) as H4. destruct (swap2 c1 d1) as [c2 d2]. cbn [fst snd] in H4.
  apply (stores_bits be (λ k n, exch2 (exch4 f) k (exch1 be n))); [..|done|done]; intros n Hn;
    destruct (swap1_bits be a2 n Hn) as [E Hm]; rewrite ?(proj1 (swap1_bits be _ n Hn)); clear E; revert Hm;
    generalize (exch1 be n) as m; clear dependent n; intros m Hm; rewrite ?(proj1 (H3 m Hm)), ?(proj2 (H3 m Hm)),
    ?(proj1 (H4 m Hm)), ?(proj2 (H4 m Hm)); clear H3 H4;
    unfold exch2, exch4; all_below m 32; cbv -[Z.testbit];
    match goal with
    | |- Z.testbit a1 ?k = _ => rewrite (proj1 (H1 k ltac:(lia)))
    | |- Z.testbit c1 ?k = _ => rewrite (proj2 (H1 k ltac:(lia)))
    | |- Z.testbit b1 ?k = _ => rewrite (proj1 (H2 k ltac:(lia)))
    | |- Z.testbit d1 ?k = _ => rewrite (proj2 (H2 k ltac:(lia)))
    end; cbv -[Z.testbit]; first [apply Ha | apply Hb | apply Hc | apply Hd]; lia.
Qed.

Lemma exchange_planes be w i p : words_ok w → 0 <= i < 16 → 0 <= p < 8 →
  Z.testbit (nth (Z.to_nat i) (exchange be (load32 be w 3) (load32 be w 2) (load32 be w 1) (load32 be w 0)) 0) p =
  Z.testbit (SDL_SwapBE16 be (w p)) (15 - i).
Proof.
  intros Hw Hi Hp. rewrite swapBE_bit by (try apply Hw; lia).
  rewrite (exchange_stores be (λ k n, if n <? 16 then Z.testbit (w (if be then 2 * (3 - k) + 1 else 2 * (3 - k))) n
    else Z.testbit (w (if be then 2 * (3 - k) else 2 * (3 - k) + 1)) (n - 16))) by (done || intros n Hn; by apply load32_bits).
  destruct be; all_below i 16; all_below p 8; reflexivity.
Qed.

(** ** The conversion *)

Lemma swapBE_involutive be x : 0 <= x < 65536 → SDL_SwapBE16 be (SDL_SwapBE16 be x) = x.
Proof.
  intros Hx. pose proof (swapBE_range be x Hx) as Hr. pose proof (swapBE_range be _ Hr) as Hr'. apply Z.bits_inj'. intros n Hn.
  destruct (Z.lt_ge_cases n 16); [|by rewrite !(range_bits _ 16) by lia].
  rewrite swapBE_bit by lia. destruct be; [done|].
  destruct (Z.ltb_spec n 8); rewrite swapBE_bit by lia; [rewrite (proj2 (Z.ltb_ge _ _)) by lia|rewrite (proj2 (Z.ltb_lt _ _)) by lia];
    f_equal; lia.
Qed.

Lemma plane_range be w bpp p : words_ok w → 0 <= plane be w bpp p < 2 ^ 32.
Proof.
  intros Hw. apply lor_range; [lia|apply u32_range|]. pose proof (swapBE_range be (w (p + bpp)) (Hw _)). lia.
Qed.

Lemma scrolled_ok be w bpp sh : words_ok (scrolled be w bpp sh).
Proof.
  intros k. apply swapBE_range. pose proof (u32_range (Z.shiftl (plane be w bpp k) sh)) as Hr.
  fold (plane be w bpp k). rewrite Z.shiftr_div_pow2 by lia. change (2 ^ 16) with 65536. Z.to_euclidean_division_equations. lia.
Qed.

(** The words the exchange works on show bits 31 - shift .. 16 - shift of the planes. *)
Definition source_words (be : bool) (w : Z → Z) (bpp sh : Z) : Z → Z :=
  if sh =? 0 then w else scrolled be w bpp sh.

Lemma source_words_ok be w bpp sh : words_ok w → words_ok (source_words be w bpp sh).
Proof. intros Hw. unfold source_words. destruct (sh =? 0); [done|apply scrolled_ok]. Qed.

Lemma source_bits be w bpp sh p i : words_ok w → 0 <= sh < 16 → 0 <= i < 16 →
  Z.testbit (SDL_SwapBE16 be (source_words be w bpp sh p)) (15 - i) = Z.testbit (plane be w bpp p) (31 - sh - i).
Proof.
  intros Hw Hs Hi. unfold source_words. destruct (Z.eqb_spec sh 0) as [->|Hne].
  - unfold plane. rewrite Z.lor_spec, u32_shiftl_bit by lia.
    rewrite (range_bits (SDL_SwapBE16 be (w (p + bpp))) 16) by (try apply swapBE_range, Hw; lia). rewrite orb_false_r. f_equal; lia.
  - unfold scrolled. fold (plane be w bpp p). pose proof (u32_range (Z.shiftl (plane be w bpp p) sh)).
    rewrite swapBE_involutive by (rewrite Z.shiftr_div_pow2 by lia; change (2 ^ 16) with 65536; Z.to_euclidean_division_equations; lia).
    rewrite Z.shiftr_spec, u32_shiftl_bit by lia. f_equal; lia.
Qed.

(** Planes that are not there read as 0. *)
Definition cut (bpp : Z) (w : Z → Z) (k : Z) : Z := if k <? bpp then w k else 0.

Lemma chunky_exchange be w bpp sh : words_ok w → bpp ∈ [1; 2; 4; 8] →
  let c := cut bpp (source_words be w bpp sh) in
  bitplaneToChunky be w bpp sh = exchange be (load32 be c 3) (load32 be c 2) (load32 be c 1) (load32 be c 0).
Proof.
  intros Hw Hb c. unfold bitplaneToChunky. fold (source_words be w bpp sh). subst c.
  pose proof (source_words_ok be w bpp sh Hw) as Hs. revert Hs. generalize (source_words be w bpp sh) as s. intros s Hs.
  assert (∀ x, 0 <= x < 65536 → (x << 16) .| 0 = x << 16 ∧ x .| (0 << 16) = x ∧ (0 << 16) .| 0 = 0) as E.
  { intros x Hx. change (0 << 16) with 0. by rewrite !Z.lor_0_r. }
  rewrite !elem_of_cons, elem_of_nil in Hb. unfold load32, cut.
  destruct Hb as [->|[->|[->|[->|[]]]]]; cbv -[Z.lor u32 Z.shiftl exchange]; destruct be; try done;
    by rewrite ?(proj1 (E _ (Hs _))), ?(proj1 (proj2 (E _ (Hs _)))).
Qed.

Lemma chunky_length be w bpp sh : length (bitplaneToChunky be w bpp sh) = 16%nat.
Proof.
  unfold bitplaneToChunky, exchange.
  destruct (bpp =? 8); [|destruct (bpp =? 4); [|destruct (bpp =? 2)]];
    repeat match goal with |- context [let '(_, _) := ?x in _] => destruct x end; unfold stores; by destruct be.
Qed.

Lemma chunky_byte be w bpp sh i : (i < 16)%nat → 0 <= nth i (bitplaneToChunky be w bpp sh) 0 < 256.
Proof.
  intros Hi. unfold bitplaneToChunky, exchange.
  destruct (bpp =? 8); [|destruct (bpp =? 4); [|destruct (bpp =? 2)]];
    repeat match goal with |- context [let '(_, _) := ?x in _] => destruct x end; unfold stores;
    destruct be; do 16 (destruct i as [|i]; [apply byte_at_range|]); lia.
Qed.

(** [bitplaneToChunky] turns planes into pixels: bit p of the colour of pixel i is bit
    31 - i of plane p, the planes shifted left by the scroll distance, for every depth,
    every distance and either byte order of the host. *)
Lemma planes_to_pixels be w bpp sh i : words_ok w → bpp ∈ [1; 2; 4; 8] → 0 <= sh < 16 → 0 <= i < 16 →
  nth (Z.to_nat i) (bitplaneToChunky be w bpp sh) 0 = pixel_of (plane be w bpp) (Z.to_nat bpp) (31 - sh - i).
Proof.
  intros Hw Hb Hs Hi. assert (0 <= bpp <= 8) as Hb8 by (rewrite !elem_of_cons, elem_of_nil in Hb; lia).
  apply Z.bits_inj'. intros p Hp. rewrite pixel_of_bit, Z2Nat.id by lia.
  destruct (Z.lt_ge_cases p 8).
  - rewrite chunky_exchange, exchange_planes by (done || (intros k; unfold cut; destruct (k <? bpp); [by apply source_words_ok|lia])).
    unfold cut. destruct (p <? bpp); [by rewrite source_bits|]. destruct be; apply Z.bits_0.
  - rewrite (range_bits _ 8) by (try apply chunky_byte; lia). by rewrite (proj2 (Z.ltb_ge p bpp)) by lia.
Qed.

(** ** And back *)

Lemma shift_in_bit p d w j : 0 <= p → 0 <= j < 16 →
  Z.testbit (shift_in p d w) j = if j =? 0 then Z.testbit d p else Z.testbit w (j - 1).
Proof.
  intros Hp Hj. unfold shift_in. rewrite Z.lor_spec, u16_bit, Z.shiftl_spec, Z.land_spec, Z.shiftr_spec by lia.
  destruct (Z.eqb_spec j 0) as [->|].
  - rewrite Z.testbit_neg_r by lia. cbn. by rewrite andb_true_r.
  - rewrite (range_bits 1 1 j) by lia. by rewrite andb_false_r, orb_false_r.
Qed.

Lemma shift_in_range p d w : 0 <= shift_in p d w < 65536.
Proof.
  apply (lor_range _ _ 16); [lia|apply u16_range|]. pose proof (land_range_r (d >> p) 1 1 ltac:(lia) ltac:(lia)). lia.
Qed.

Lemma chunkyToBitplane_word l ws p w : ws !! p = Some w →
  chunkyToBitplane l ws !! p = Some (foldl (λ w d, shift_in (Z.of_nat p) d w) w l).
Proof.
  revert ws w. induction l as [|d l IH]; intros ws w H; [done|]. cbn. apply IH. by rewrite list_lookup_imap, H.
Qed.

Lemma shifted_bits p l w j : (p < 8)%nat → 0 <= j < 16 → j < Z.of_nat (length l) →
  Z.testbit (foldl (λ w d, shift_in (Z.of_nat p) d w) w l) j =
  Z.testbit (nth (length l - 1 - Z.to_nat j) l 0) (Z.of_nat p).
Proof.
  intros Hp. revert j. induction l as [|d l IH] using rev_ind; intros j Hj Hl; [cbn in Hl; lia|].
  rewrite foldl_app. cbn [foldl]. rewrite shift_in_bit by lia. rewrite length_app in Hl |- *. cbn [length] in Hl |- *.
  destruct (Z.eqb_spec j 0) as [->|Hne].
  - rewrite app_nth2 by lia. by replace (_ - _)%nat with 0%nat by lia.
  - rewrite IH by lia. rewrite app_nth1 by lia. do 2 f_equal. lia.
Qed.

(** Pixels survive the way to bitplanes and back, with any words in the buffer before. *)
Theorem pixels_roundtrip be l ws : length l = 16%nat → Forall (λ d, 0 <= d < 256) l → length ws = 8%nat →
  bitplaneToChunky be (λ k, SDL_SwapBE16 be (nth (Z.to_nat k) (chunkyToBitplane l ws) 0)) 8 0 = l.
Proof.
  intros Hl Hd Hw. set (w := λ k, _).
  assert (∀ k, 0 <= nth k (chunkyToBitplane l ws) 0 < 65536) as Hr.
  { intros k. destruct (ws !! k) as [x|] eqn:Ek.
    - erewrite nth_lookup, chunkyToBitplane_word by done. destruct l as [|d l _] using rev_ind; [done|].
      rewrite foldl_app. apply shift_in_range.
    - rewrite nth_overflow; [lia|]. apply lookup_ge_None in Ek. etransitivity; [|exact Ek]. clear.
      revert ws. induction l as [|d l IH]; intros ws; [done|]. cbn. etransitivity; [apply IH|]. by rewrite length_imap. }
  assert (words_ok w) as Hok by (intros k; by apply swapBE_range).
  apply (nth_ext _ _ 0 0); [by rewrite chunky_length|]. intros i Hi. rewrite chunky_length in Hi.
  assert (Z.of_nat i < 16) as Hi' by lia. rewrite <-(Nat2Z.id i) at 1.
  apply Z.bits_inj'. intros p Hp. destruct (Z.lt_ge_cases p 8).
  - change (bitplaneToChunky be w 8 0) with (exchange be (load32 be w 3) (load32 be w 2) (load32 be w 1) (load32 be w 0)).
    rewrite exchange_planes by lia || done. subst w. cbn beta. rewrite swapBE_involutive by done.
    destruct (lookup_lt_is_Some_2 ws (Z.to_nat p)) as [x Hx]; [lia|]. erewrite nth_lookup, chunkyToBitplane_word by done.
    cbn. rewrite shifted_bits by lia. rewrite Z2Nat.id by lia. do 2 f_equal. lia.
  - rewrite Nat2Z.id. rewrite (range_bits _ 8) by (try apply chunky_byte; lia). symmetry. apply (range_bits _ 8); [|done].
    change (2 ^ 8) with 256. eapply (proj1 (Forall_nth _ l) Hd). by rewrite Hl.
Qed.
