(* ===== verification/Videl.v ===== *)
(** * Videl: the video chip and the surface it draws on

    Models [src/videl.cpp] with [include/videl.h], [src/dirty_rects.cpp],
    [src/host_surface.cpp], [src/adler32.c] and [HostScreen::createSurface].

    The registers of the chip are bytes of the hardware space in memory ([BASE_IO]
    keeps them there), so the chip is modelled on the machine with the object as the
    state of its device.  SDL is the interface [SDL].  The pixels of a surface are
    numbered in units of one pixel; a store outside the surface is [Undef Oob_host].
    Coordinates come from 16-bit registers and stay far from the bounds of [int], so
    that they are plain integers.  The constructor that takes a pixel format, [update]
    and the destructors are left out. *)

From S2P Require Import Prelude Throws Machine Planes.
From stdpp Require Import base gmap list numbers.
Open Scope Z_scope.
Open Scope c_scope.
Open Scope x_scope.

(** ** Dirty rectangles *)

Record DirtyRects := Dirty {
  dirtyMarker : gmap Z Z;
  dirtyW : Z;
  dirtyH : Z;
  areaW : Z;
  areaH : Z;
  minDirtX : Z;
  minDirtY : Z;
  maxDirtX : Z;
  maxDirtY : Z;
}.

(** [n] bytes of an array, all [v]. *)
Definition filled (n v : Z) : gmap Z Z := foldr (λ i, aset i v) ∅ (seqZ 0 n).

Definition blocks_of (n : Z) : Z := (n >> 4) + (if (n .& 15) =? 0 then 0 else 1).

Definition resizeDirty (width height : Z) : DirtyRects :=
  let dirtyW := blocks_of width in
  let dirtyH := blocks_of height in
  Dirty (filled (dirtyW * dirtyH) 1) dirtyW dirtyH width height 0 0 (width - 1) (height - 1).

Definition round_up16 (z : Z) : Z := if (z .& 15) =? 0 then z else (z .| 15) + 1.

(** The marks of the blocks in columns [x1 .. x2 - 1] and rows [y1 .. y2 - 1]. *)
Definition mark_blocks (x1 x2 y1 y2 : Z) (d : DirtyRects) : gmap Z Z :=
  foldl (λ m y, foldl (λ m x,
      if (0 <=? x) && (x <? d.(dirtyW)) && (0 <=? y) && (y <? d.(dirtyH))
      then aset (y * d.(dirtyW) + x) 1 m else m)
    m (seqZ x1 (x2 - x1))) d.(dirtyMarker) (seqZ y1 (y2 - y1)).

Definition setDirtyRect (x y w h : Z) (d : DirtyRects) : DirtyRects :=
  let minX := if x <? d.(minDirtX) then s32 (u32 x .& 0xfffffff0) else d.(minDirtX) in
  let minY := if y <? d.(minDirtY) then s32 (u32 y .& 0xfffffff0) else d.(minDirtY) in
  let maxX := if d.(maxDirtX) <? x + w - 1 then x + w - 1 else d.(maxDirtX) in
  let maxY := if d.(maxDirtY) <? y + h - 1 then y + h - 1 else d.(maxDirtY) in
  let x2 := round_up16 (x + w) >> 4 in
  let y2 := round_up16 (y + h) >> 4 in
  Dirty (mark_blocks (x >> 4) x2 (y >> 4) y2 d) d.(dirtyW) d.(dirtyH) d.(areaW) d.(areaH) minX minY maxX maxY.

Definition setDirtyLine (x1 y1 x2 y2 : Z) (d : DirtyRects) : DirtyRects :=
  let '(min_x, max_x) := if x1 <=? x2 then (x1, x2) else (x2, x1) in
  let '(min_y, max_y) := if y1 <=? y2 then (y1, y2) else (y2, y1) in
  setDirtyRect min_x min_y (max_x - min_x + 1) (max_y - min_y + 1) d.

Definition clearDirtyRects (d : DirtyRects) : DirtyRects :=
  Dirty (filled (d.(dirtyW) * d.(dirtyH)) 0) d.(dirtyW) d.(dirtyH) d.(areaW) d.(areaH) d.(areaW) d.(areaH) 0 0.

Definition hasDirtyRect (d : DirtyRects) : bool := d.(minDirtX) <=? d.(maxDirtX).

(** ** Surfaces *)

Definition color : Type := Z * Z * Z.

Record SDL_Surface := Surface {
  sf_w : Z;
  sf_h : Z;
  sf_pitch : Z;
  sf_bpp : Z;  (* [format->BitsPerPixel] *)
  sf_masks : Z * Z * Z * Z;  (* [format->Rmask] .. [format->Amask] *)
  sf_pixels : gmap Z Z;
  sf_colors : list color;  (* [format->palette->colors] *)
}.

(** What the code uses of SDL; [None] is a null pointer. *)
Class SDL := {
  SDL_CreateRGBSurface : Z → Z → Z → Z * Z * Z * Z → option SDL_Surface;
  SDL_SetPaletteColors : list color → Z → SDL_Surface → SDL_Surface;
}.

Record HostSurface := HSurface {
  hs_dirty : DirtyRects;
  hs_surface : option SDL_Surface;
  clip_w : Z;
  clip_h : Z;
  draw_mode : Z;
  use_alpha : Z;
  alpha_coef : Z;
}.
Definition set_hs_dirty (v : DirtyRects) (h : HostSurface) : HostSurface :=
  HSurface v h.(hs_surface) h.(clip_w) h.(clip_h) h.(draw_mode) h.(use_alpha) h.(alpha_coef).
Definition set_hs_surface (v : option SDL_Surface) (h : HostSurface) : HostSurface :=
  HSurface h.(hs_dirty) v h.(clip_w) h.(clip_h) h.(draw_mode) h.(use_alpha) h.(alpha_coef).
Definition set_hs_clip (w hh : Z) (h : HostSurface) : HostSurface :=
  HSurface h.(hs_dirty) h.(hs_surface) w hh h.(draw_mode) h.(use_alpha) h.(alpha_coef).

Abbreviation SURF_DRAW := 0 (only parsing).
Abbreviation SURF_USE_ALPHA := 1 (only parsing).
Abbreviation SURF_ALPHA := 2 (only parsing).
Abbreviation DRAW_CROP_AND_CENTER := 0 (only parsing).
Abbreviation DRAW_RESCALE := 1 (only parsing).

Definition setParam (num_param value : Z) (h : HostSurface) : HostSurface :=
  match num_param with
  | SURF_DRAW => HSurface h.(hs_dirty) h.(hs_surface) h.(clip_w) h.(clip_h) value h.(use_alpha) h.(alpha_coef)
  | SURF_ALPHA => HSurface h.(hs_dirty) h.(hs_surface) h.(clip_w) h.(clip_h) h.(draw_mode) h.(use_alpha) value
  | SURF_USE_ALPHA => HSurface h.(hs_dirty) h.(hs_surface) h.(clip_w) h.(clip_h) h.(draw_mode) value h.(alpha_coef)
  | _ => h
  end.
Definition getParam (num_param : Z) (h : HostSurface) : Z :=
  match num_param with
  | SURF_DRAW => h.(draw_mode)
  | SURF_ALPHA => h.(alpha_coef)
  | SURF_USE_ALPHA => h.(use_alpha)
  | _ => 0
  end.

Section HostSurface.
Context {sdl : SDL}.

(** The constructor [HostSurface(width, height, bpp)]; the parameters start as stack or heap
    garbage, which it overwrites. *)
Definition new_HostSurface (width height bpp : Z) : HostSurface :=
  let surface := SDL_CreateRGBSurface width height bpp (0, 0, 0, 0) in
  let clip := match surface with Some s => (s.(sf_w), s.(sf_h)) | None => (0, 0) end in
  setParam SURF_ALPHA 100 (setParam SURF_USE_ALPHA 0 (setParam SURF_DRAW DRAW_CROP_AND_CENTER
    (HSurface (resizeDirty width height) surface clip.1 clip.2 0 0 0))).

Definition createSurface : Z → Z → Z → HostSurface := new_HostSurface.

Definition hs_getBpp (h : HostSurface) : Z :=
  match h.(hs_surface) with Some s => s.(sf_bpp) | None => 0 end.

Definition setPalette (palette : list color) (first : Z) (h : HostSurface) : HostSurface :=
  match h.(hs_surface) with
  | None => h
  | Some s => set_hs_surface (Some (SDL_SetPaletteColors palette first s)) h
  end.

Definition resize_to (new_width new_height surf_width surf_height : Z) (force_recreate : bool) (h : HostSurface)
    : HostSurface :=
  let surf_width := round_up16 surf_width in
  let surf_height := round_up16 surf_height in
  let recreate := match h.(hs_surface) with
    | None => true
    | Some s => (s.(sf_w) <? surf_width) || (s.(sf_h) <? surf_height) || force_recreate
    end in
  let h := match h.(hs_surface) with None => h | Some _ => set_hs_clip new_width new_height h end in
  let h := if negb recreate then h else
    match h.(hs_surface) with
    | None => set_hs_surface (SDL_CreateRGBSurface surf_width surf_height 8 (0, 0, 0, 0)) h
    | Some s =>
        let h' := set_hs_surface (SDL_CreateRGBSurface surf_width surf_height s.(sf_bpp) s.(sf_masks)) h in
        if s.(sf_bpp) =? 8 then setPalette s.(sf_colors) 0 h' else h'
    end in
  set_hs_dirty (resizeDirty h.(clip_w) h.(clip_h)) h.

Definition hs_resize (new_width new_height : Z) (force_recreate : bool) : HostSurface → HostSurface :=
  resize_to new_width new_height new_width new_height force_recreate.
End HostSurface.

(** ** Checksums *)

Section Videl.
Context {cfg : Config} {sdl : SDL}.

Record VIDEL := Videl {
  surface : option HostSurface;
  prevVidelWidth : Z;
  prevVidelHeight : Z;
  prevVidelBpp : Z;
  updatePalette : bool;
  crcList : option (Z * gmap Z Z);  (* its size and content *)
  aspect_x : Z;
  aspect_y : Z;
}.
Definition set_surface (v : option HostSurface) (c : VIDEL) : VIDEL :=
  Videl v c.(prevVidelWidth) c.(prevVidelHeight) c.(prevVidelBpp) c.(updatePalette) c.(crcList) c.(aspect_x) c.(aspect_y).
Definition set_prev (w h b : Z) (c : VIDEL) : VIDEL :=
  Videl c.(surface) w h b c.(updatePalette) c.(crcList) c.(aspect_x) c.(aspect_y).
Definition set_updatePalette (v : bool) (c : VIDEL) : VIDEL :=
  Videl c.(surface) c.(prevVidelWidth) c.(prevVidelHeight) c.(prevVidelBpp) v c.(crcList) c.(aspect_x) c.(aspect_y).
Definition set_crcList (v : option (Z * gmap Z Z)) (c : VIDEL) : VIDEL :=
  Videl c.(surface) c.(prevVidelWidth) c.(prevVidelHeight) c.(prevVidelBpp) c.(updatePalette) v c.(aspect_x) c.(aspect_y).
Definition set_aspect (x y : Z) (c : VIDEL) : VIDEL :=
  Videl c.(surface) c.(prevVidelWidth) c.(prevVidelHeight) c.(prevVidelBpp) c.(updatePalette) c.(crcList) x y.

Abbreviation M := (X (machine VIDEL)).
Definition vget {A} (f : VIDEL → A) : M A := xget (λ s, f s.(dev)).
Definition vmod (f : VIDEL → VIDEL) : M unit := xmod (λ s, set_dev (f s.(dev)) s).

(** The inner and the outer loop of [calc_adler]; [ab] are the sums. *)
Fixpoint adler_line (rows : nat) (base_line : Z) (ab : Z * Z) : M (Z * Z) :=
  match rows with
  | O => xret ab
  | S n =>
      let* v := do_get_mem 1 base_line in
      let a := ab.1 +u v in
      adler_line n (base_line + 1) (a, ab.2 +u a)
  end.
Fixpoint adler_lines (rows lines : nat) (base pitch : Z) (ab : Z * Z) : M (Z * Z) :=
  match lines with
  | O => xret ab
  | S n => let* ab := adler_line rows base ab in adler_lines rows n (base + pitch) pitch ab
  end.

Abbreviation MOD_ADLER := 65521 (only parsing).
Definition adler_fold (a : Z) : Z := (a .& 0xffff) +u u32 ((a >> 16) * (65536 - MOD_ADLER)).

Definition calc_adler (base rows lines pitch : Z) : M Z :=
  let* ab := adler_lines (Z.to_nat rows) (Z.to_nat lines) base pitch (1, 0) in
  let a := adler_fold ab.1 in
  let b := adler_fold ab.2 in
  let a := if MOD_ADLER <=? a then a -u MOD_ADLER else a in
  let b := adler_fold b in
  let b := if MOD_ADLER <=? b then b -u MOD_ADLER else b in
  xret ((b << 16) .| a).

(** ** Registers *)

Context (HW monitor : Z).  (* [getHWoffset()], [bx_options.video.monitor] *)

Definition readW : Z → M Z := base_handleReadW base_handleRead.

Definition videl_reset : M unit := vmod (λ c, set_updatePalette false (set_aspect 1 1 c)).

Definition useStPalette : M bool :=
  let* st_shift := readW (HW +u 0x60) in
  if st_shift =? 0 then
    let* hreg := readW (HW +u 0x82) in
    xret ((hreg =? 0x10) || (hreg =? 0x17) || (hreg =? 0x3e))
  else xret true.

(** The left shift of an [int]. *)
Definition twice (z : Z) : M Z := if z <? 2 ^ 30 then xret (2 * z) else xundef Int_overflow.

Definition updateAspect : M unit :=
  let* vco := readW (HW +u 0xc2) in
  let* ax := vget aspect_x in
  let ax := match (vco >> 2) .& 3 with 0 => 4 | 1 => 2 | 2 => 1 | _ => ax end in
  let ay := match vco .& 3 with 0 => 2 | 1 => 4 | 2 => 1 | _ => 2 end in
  if monitor =? 1 then
    let ax := ax >> 1 in
    if ax =? 0 then let* ay := twice ay in vmod (set_aspect 1 ay) else vmod (set_aspect ax ay)
  else
    let ay := ay >> 1 in
    if ay =? 0 then let* ax := twice ax in vmod (set_aspect ax 1) else vmod (set_aspect ax ay).

Definition getVramAddress : M Z :=
  let* h := base_handleRead (HW +u 1) in
  let* m := base_handleRead (HW +u 3) in
  let* l := base_handleRead (HW +u 0x0d) in
  xret ((h << 16) .| (m << 8) .| l).

Definition getBpp : M Z :=
  let* f_shift := readW (HW +u 0x66) in
  let* st_shift := base_handleRead (HW +u 0x60) in
  xret (if tst f_shift 0x400 then 1
        else if tst f_shift 0x100 then 16
        else if tst f_shift 0x010 then 8
        else if st_shift =? 0 then 4
        else if st_shift =? 1 then 2
        else 1).

Definition getWidth : M Z :=
  let* w := readW (HW +u 0x10) in
  let* bpp := getBpp in
  xret (w * 16 / bpp).

Definition getHeight : M Z :=
  let* vdb := readW (HW +u 0xa8) in
  let* vde := readW (HW +u 0xaa) in
  let* vmode := readW (HW +u 0xc2) in
  let yres := vde - vdb in
  let yres := if tst vmode 0x02 then yres else yres >> 1 in
  xret (if tst vmode 0x01 then yres >> 1 else yres).

Definition forceRefresh : M unit :=
  let* sf := vget surface in
  match sf with
  | None => xret tt
  | Some h => vmod (set_surface (Some (set_hs_dirty (setDirtyRect 0 0 h.(clip_w) h.(clip_h) h.(hs_dirty)) h)))
  end.

Abbreviation VIDEL_COLOR_REGS_BEGIN := 0xff9800 (only parsing).
Abbreviation VIDEL_COLOR_REGS_END := (0xff9800 + 256 * 4) (only parsing).

Definition videl_isMyHWRegister (size addr : Z) : bool :=
  if (VIDEL_COLOR_REGS_BEGIN <=? addr) && (addr <? VIDEL_COLOR_REGS_END) then true
  else base_isMyHWRegister HW size addr.

Definition videl_handleWrite (addr value : Z) : M unit :=
  base_handleWrite addr value ;;
  if ((VIDEL_COLOR_REGS_BEGIN <=? addr) && (addr <? VIDEL_COLOR_REGS_END))
     || ((0xff8240 <=? addr) && (addr <? 0xff8260)) then vmod (set_updatePalette true)
  else
  let reg := addr .& 0xfffffffe in
  (if reg =? HW +u 0x60 then xret tt
   else if (reg =? HW +u 0x64) || (reg =? HW +u 0x0e) || (reg =? HW +u 0x10) then forceRefresh
   else xwhen (reg =? HW +u 0x66)
     (let* f_shift := readW (HW +u 0x66) in
      xwhen (f_shift =? 0) (base_handleWrite (HW +u 0x60) 0))) ;;
  xwhen (reg =? HW +u 0xc2) updateAspect.

(** ** Palette *)

Definition ste_component (c : Z) : Z :=
  let c := Z.shiftl (c .& 7) 1 .| ((c .& 1) >> 3) in u8 (Z.shiftl c 4 .| c).
Definition ste_color (i : Z) : M color :=
  let* color := readW (0xff8240 +u Z.shiftl i 1) in
  xret (ste_component ((color >> 8) .& 0x0f), ste_component ((color >> 4) .& 0x0f), ste_component (color .& 0x0f)).

Definition falcon_component (c : Z) : Z := let c := c .& 0xfc in c .| ((c >> 6) .& 3).
Definition falcon_color (i : Z) : M color :=
  let offset := Z.shiftl i 2 in
  let* r := base_handleRead (VIDEL_COLOR_REGS_BEGIN +u offset) in
  let* g := base_handleRead (VIDEL_COLOR_REGS_BEGIN +u (offset + 1)) in
  let* b := base_handleRead (VIDEL_COLOR_REGS_BEGIN +u (offset + 3)) in
  xret (falcon_component r, falcon_component g, falcon_component b).

Definition on_surface (f : HostSurface → HostSurface) : M unit := vmod (λ c, set_surface (f <$> c.(surface)) c).

Definition refreshPalette : M unit :=
  let* st := useStPalette in
  let* palette := if st then xmap ste_color (seqZ 0 16) else xmap falcon_color (seqZ 0 256) in
  on_surface (setPalette palette 0).

(** ** Drawing *)

Definition sdl_of (c : VIDEL) : option SDL_Surface := h ← c.(surface); h.(hs_surface).
Definition set_pixel (i v : Z) (sf : SDL_Surface) : SDL_Surface :=
  Surface sf.(sf_w) sf.(sf_h) sf.(sf_pitch) sf.(sf_bpp) sf.(sf_masks) (aset i v sf.(sf_pixels)) sf.(sf_colors).

(** The length of a line, and of the whole array, in pixels. *)
Definition stride (sf : SDL_Surface) : Z := if sf.(sf_bpp) =? 16 then sf.(sf_pitch) >> 1 else sf.(sf_pitch).
Definition pixel_count (sf : SDL_Surface) : Z := stride sf * sf.(sf_h).

(** A store through a pointer into [sdl_surf->pixels]. *)
Definition put_pixel (i v : Z) : M unit :=
  let* sf := vget sdl_of in
  match sf with
  | None => xundef Oob_host
  | Some sf =>
      if in_range 0 (pixel_count sf) i
      then on_surface (λ h, set_hs_surface (set_pixel i v <$> h.(hs_surface)) h)
      else xundef Oob_host
  end.

(** The arrays [crcList] and [dirtyRects]. *)
Definition get_crc (i : Z) : M Z :=
  let* l := vget crcList in
  match l with
  | Some (n, crcs) => if in_range 0 n i then xret (aget crcs i) else xundef Oob_device
  | None => xundef Oob_device
  end.
Definition put_crc (i v : Z) : M unit :=
  let* l := vget crcList in
  match l with
  | Some (n, crcs) => if in_range 0 n i then vmod (set_crcList (Some (n, aset i v crcs))) else xundef Oob_device
  | None => xundef Oob_device
  end.

Definition set_marker (m : gmap Z Z) (d : DirtyRects) : DirtyRects :=
  Dirty m d.(dirtyW) d.(dirtyH) d.(areaW) d.(areaH) d.(minDirtX) d.(minDirtY) d.(maxDirtX) d.(maxDirtY).
Definition get_mark (i : Z) : M Z :=
  let* sf := vget surface in
  match sf with
  | Some h => if in_range 0 (h.(hs_dirty).(dirtyW) * h.(hs_dirty).(dirtyH)) i
              then xret (aget h.(hs_dirty).(dirtyMarker) i) else xundef Oob_device
  | None => xundef Oob_device
  end.
Definition put_mark (i v : Z) : M unit :=
  let* sf := vget surface in
  match sf with
  | Some h => if in_range 0 (h.(hs_dirty).(dirtyW) * h.(hs_dirty).(dirtyH)) i
              then on_surface (λ h, set_hs_dirty (set_marker (aset i v h.(hs_dirty).(dirtyMarker)) h.(hs_dirty)) h)
              else xundef Oob_device
  | None => xundef Oob_device
  end.

Context (big_endian : bool).

(** One line of a block of 16 by 16 pixels, from [src] to pixel [dst]: true colour, and planes. *)
Definition copy_line (src dst : Z) : M unit :=
  xfor (seqZ 0 16) (λ i, let* pixel := do_get_mem 2 (src + 2 * i) in put_pixel (dst + i) pixel).

Definition plane_line (videlBpp hscroll src dst : Z) : M unit :=
  let n := if hscroll =? 0 then videlBpp else 2 * videlBpp in
  let* words := xmap (λ k, do_get_mem 2 (src + 2 * k)) (seqZ 0 n) in
  let atariBitplaneData k := SDL_SwapBE16 big_endian (nth (Z.to_nat k) words 0) in
  let colorValues := bitplaneToChunky big_endian atariBitplaneData videlBpp hscroll in
  xfor (seqZ 0 16) (λ i, put_pixel (dst + i) (nth (Z.to_nat i) colorValues 0)).

(** What the two branches of [refreshScreen] share: [line] converts a line, [step] is the
    distance of two blocks in memory in words, pitches are in words and pixels. *)
Section Blocks.
Context (line : Z → Z → M unit) (step src_pitch dst_pitch dirty_w height : Z).

Fixpoint convert_lines (n : nat) (src_line1 dst_line1 : Z) : M unit :=
  match n with
  | O => xret tt
  | S n => line src_line1 dst_line1 ;; convert_lines n (src_line1 + 2 * src_pitch) (dst_line1 + dst_pitch)
  end.

Definition refresh_block (x y src_line dst_line num_lines : Z) : M unit :=
  let* newCrc := calc_adler src_line (2 * step) num_lines (Z.shiftl src_pitch 1) in
  let* oldCrc := get_crc (y * dirty_w + x) in
  xwhen (negb (newCrc =? oldCrc)) (put_crc (y * dirty_w + x) newCrc ;; put_mark (y * dirty_w + x) 1) ;;
  let* dirty := get_mark (y * dirty_w + x) in
  xwhen (negb (dirty =? 0)) (convert_lines (Z.to_nat num_lines) src_line dst_line).

Fixpoint refresh_row (n : nat) (x y src_line dst_line num_lines : Z) : M unit :=
  match n with
  | O => xret tt
  | S n =>
      refresh_block x y src_line dst_line num_lines ;;
      refresh_row n (x + 1) y (src_line + 2 * step) (dst_line + 16) num_lines
  end.

Fixpoint refresh_rows (n : nat) (y src dst : Z) : M unit :=
  match n with
  | O => xret tt
  | S n =>
      let num_lines := Z.min 16 (height - Z.shiftl y 4) in
      refresh_row (Z.to_nat dirty_w) 0 y src dst num_lines ;;
      refresh_rows n (y + 1) (src + 2 * (src_pitch * 16)) (dst + dst_pitch * 16)
  end.
End Blocks.

Definition refreshScreen : M unit :=
  let* sf := vget sdl_of in
  match sf with
  | None => xret tt
  | Some sdl_surf =>
      let* up := vget updatePalette in
      xwhen up
        (refreshPalette ;;
         vmod (set_updatePalette false) ;;
         on_surface (λ h, set_hs_dirty (setDirtyRect 0 0 h.(clip_w) h.(clip_h) h.(hs_dirty)) h)) ;;
      let* videlBpp := getBpp in
      let* lineoffset := readW (HW +u 0x0e) in
      let* linewidth := readW (HW +u 0x10) in
      let linewidth := linewidth .& 0x03ff in
      let* hscroll := readW (HW +u 0x64) in
      let hscroll := hscroll .& 15 in
      let lineoffset := if hscroll =? 0 then lineoffset else lineoffset + videlBpp in
      let* src := getVramAddress in
      let src_pitch := linewidth + lineoffset in
      let dst_pitch := sdl_surf.(sf_pitch) in
      let* sf := vget surface in
      match sf with
      | None => xret tt
      | Some h =>
          let dirty_w := h.(hs_dirty).(dirtyW) in
          let dirty_h := h.(hs_dirty).(dirtyH) in
          if videlBpp =? 16
          then refresh_rows copy_line 16 src_pitch (dst_pitch >> 1) dirty_w h.(clip_h) (Z.to_nat dirty_h) 0 src 0
          else refresh_rows (plane_line videlBpp hscroll) videlBpp src_pitch dst_pitch dirty_w h.(clip_h) (Z.to_nat dirty_h) 0 src 0
      end
  end.

(** ** The surface of the screen *)

Context (rescale : bool).  (* [bx_options.opengl.enabled && bx_options.autozoom.enabled] *)

(** The surface and the list of checksums for a screen of the given size. *)
Definition fit_surface (width height bpp : Z) (c : VIDEL) : VIDEL :=
  let c := match c.(surface) with
    | None => c
    | Some h =>
        if c.(prevVidelBpp) =? bpp then
          if (c.(prevVidelWidth) =? width) && (c.(prevVidelHeight) =? height) then c
          else set_crcList None (set_surface (Some (hs_resize width height false h)) c)
        else set_crcList None (set_surface None c)
    end in
  let h := match c.(surface) with Some h => h | None => createSurface width height bpp end in
  let c := set_surface (Some h) c in
  match c.(crcList) with
  | Some _ => c
  | None => set_crcList (Some (h.(hs_dirty).(dirtyW) * h.(hs_dirty).(dirtyH), ∅)) c
  end.

Definition getSurface : M unit :=
  let* videlBpp := getBpp in
  let bpp := if videlBpp <=? 8 then 8 else 16 in
  let* width := getWidth in
  let* height := getHeight in
  let width := Z.max 64 width in
  let height := Z.max 64 height in
  vmod (fit_surface width height bpp) ;;
  vmod (λ c, if (c.(prevVidelBpp) =? 16) && negb (bpp =? 16) then set_updatePalette true c else c) ;;
  vmod (set_prev width height bpp) ;;
  refreshScreen ;;
  xwhen rescale (on_surface (setParam SURF_DRAW DRAW_RESCALE)).
End Videl.
