(* ===== verification/VidelSpec.v ===== *)
(** * VidelSpec: the checksum and the drawing of blocks

    [calc_adler] is the Adler-32 checksum of a block.  The loops of [refreshScreen] in
    closed form: which pixels, marks and checksums they leave. *)

From S2P Require Import Prelude Throws Machine MachineSpec Planes Videl.
From stdpp Require Import base gmap list numbers.
Open Scope Z_scope.
Open Scope c_scope.
Open Scope x_scope.

(** ** The checksum *)

(** The bytes of a block. *)
Fixpoint block_bytes (m : gmap Z Z) (rows lines : nat) (base pitch : Z) : list Z :=
  match lines with
  | O => []
  | S n => line_bytes m rows base ++ block_bytes m rows n (base + pitch) pitch
  end.

(** The definition of Adler-32, and the sums without the modulus. *)
Definition adler_step (ab : Z * Z) (v : Z) : Z * Z := (ab.1 + v, ab.2 + (ab.1 + v)).
Definition adler_sums (l : list Z) : Z * Z := foldl adler_step (1, 0) l.
Definition adler32 (l : list Z) : Z := (adler_sums l).2 mod 65521 * 65536 + (adler_sums l).1 mod 65521.

Lemma adler_sums_bound l a b : Forall (λ v, 0 <= v < 256) l → 0 <= a → 0 <= b →
  let n := Z.of_nat (length l) in
  let ab := foldl adler_step (a, b) l in
  0 <= ab.1 <= a + 255 * n ∧ 0 <= ab.2 <= b + n * (a + 255 * n).
Proof.
  intros Hl. revert a b. induction l as [|v l IH]; intros a b Ha Hb; [cbn; lia|].
  apply Forall_cons_1 in Hl as [Hv Hl]. specialize (IH Hl (a + v) (b + (a + v)) ltac:(lia) ltac:(lia)). cbv zeta in IH |- *.
  change (foldl adler_step (a, b) (v :: l)) with (foldl adler_step (a + v, b + (a + v)) l).
  cbn [length]. rewrite Nat2Z.inj_succ. destruct IH as [[? ?] [? ?]]. repeat split; [done|lia|done|nia].
Qed.

Lemma block_bytes_byte m rows lines base pitch : Forall (λ v, 0 <= v < 256) (block_bytes m rows lines base pitch).
Proof.
  revert base. induction lines as [|n IH]; intros base; [by constructor|]. apply Forall_app_2; [apply line_bytes_byte|apply IH].
Qed.
Lemma block_bytes_length m rows lines base pitch : length (block_bytes m rows lines base pitch) = (rows * lines)%nat.
Proof.
  revert base. induction lines as [|n IH]; intros base; [cbn; lia|]. cbn [block_bytes].
  rewrite length_app, line_bytes_length, IH. lia.
Qed.

(** The sums of the code wrap around at 32 bits, which a block never reaches. *)
Definition u32_step (ab : Z * Z) (v : Z) : Z * Z := (ab.1 +u v, ab.2 +u (ab.1 +u v)).

Lemma u32_sums l a b : Forall (λ v, 0 <= v < 256) l → 0 <= a → 0 <= b →
  let n := Z.of_nat (length l) in
  b + (n + 1) * (a + 255 * n) < 2 ^ 32 → foldl u32_step (a, b) l = foldl adler_step (a, b) l.
Proof.
  intros Hl. revert a b. induction l as [|v l IH]; intros a b Ha Hb n Hn; [done|]. subst n.
  apply Forall_cons_1 in Hl as [Hv Hl]. cbn [length foldl] in Hn |- *. rewrite Nat2Z.inj_succ in Hn.
  unfold u32_step at 2, adler_step at 2. cbn [fst snd]. rewrite (u32_small (a + v)), u32_small by nia.
  apply IH; [done|lia|lia|nia].
Qed.

Section Adler.
Context {cfg : Config} {sdl : SDL}.

Lemma adler_line_run rows base ab s : host_ok base (Z.of_nat rows) = true →
  adler_line rows base ab s = (Ret (foldl u32_step ab (line_bytes s.(mem) rows base)), s).
Proof.
  revert base ab. induction rows as [|n IH]; intros base ab H; [done|].
  cbn [adler_line]. erewrite xbind_ret by (apply do_get_mem_run; eapply host_ok_sub; [exact H|lia|lia]).
  rewrite IH by (eapply host_ok_sub; [exact H|lia|lia]). unfold line_bytes.
  rewrite Nat2Z.inj_succ, <-Z.add_1_l, seqZ_app by lia. rewrite fmap_app, foldl_app. do 2 f_equal.
  change (seqZ 0 1) with [0]. cbn [fmap list_fmap foldl be_get]. rewrite Z.mul_0_l, !Z.add_0_l, Z.add_0_r.
  f_equal; [by unfold u32_step; rewrite Z.add_0_r|].
  rewrite <-(fmap_add_seqZ 1 0 (Z.of_nat n) : _ = seqZ 1 _), <-list_fmap_compose. apply list_fmap_ext.
  intros i x _. cbn. do 2 f_equal. lia.
Qed.

Lemma adler_lines_run rows lines base pitch ab s :
  (∀ y, 0 <= y < Z.of_nat lines → host_ok (base + y * pitch) (Z.of_nat rows) = true) →
  adler_lines rows lines base pitch ab s = (Ret (foldl u32_step ab (block_bytes s.(mem) rows lines base pitch)), s).
Proof.
  revert base ab. induction lines as [|n IH]; intros base ab H; [done|]. cbn [adler_lines block_bytes].
  erewrite xbind_ret by (apply adler_line_run; specialize (H 0 ltac:(lia)); by rewrite Z.add_0_r in H).
  rewrite IH, foldl_app; [done|]. intros y Hy. specialize (H (y + 1) ltac:(lia)). by replace (base + pitch + y * pitch) with (base + (y + 1) * pitch) by lia.
Qed.
End Adler.

Lemma adler_fold_value a : 0 <= a < 2 ^ 32 → adler_fold a = a mod 65536 + a / 65536 * 15.
Proof.
  intros Ha. unfold adler_fold. rewrite (Z.land_ones _ 16), Z.shiftr_div_pow2 by lia.
  change (2 ^ 16) with 65536. change (65536 - 65521) with 15. rewrite (u32_small (_ * 15)), u32_small; [done|..]; zdiv_lia.
Qed.

Lemma adler_fold_mod a : (a mod 65536 + a / 65536 * 15) mod 65521 = a mod 65521.
Proof.
  rewrite (Z.div_mod a 65536) at 3 by lia. replace (65536 * (a / 65536) + a mod 65536) with (a mod 65536 + a / 65536 * 15 + a / 65536 * 65521) by lia.
  by rewrite Z.mod_add by lia.
Qed.

Lemma subtract_mod a : 0 <= a < 2 * 65521 → (if 65521 <=? a then a -u 65521 else a) = a mod 65521.
Proof.
  intros Ha. destruct (Z.leb_spec 65521 a).
  - rewrite u32_small by lia. apply (Z.mod_unique _ _ 1); lia.
  - by rewrite Z.mod_small by lia.
Qed.

(** The checksum of a block of the screen (up to 16 lines of 32 bytes) is its Adler-32
    checksum: the sums do not overflow, and the folding the code does instead of a
    division is enough. *)
Lemma calc_adler_run {cfg : Config} {sdl : SDL} rows lines base pitch s : 0 <= rows <= 32 → 0 <= lines <= 16 →
  (∀ y, 0 <= y < lines → host_ok (base + y * pitch) rows = true) →
  calc_adler base rows lines pitch s =
    (Ret (adler32 (block_bytes s.(mem) (Z.to_nat rows) (Z.to_nat lines) base pitch)), s).
Proof.
  intros Hr Hl Hh. unfold calc_adler. erewrite xbind_ret by (apply adler_lines_run; intros y Hy; rewrite Z2Nat.id by lia; apply Hh; lia).
  set (l := block_bytes _ _ _ _ _). pose proof (block_bytes_byte (mem s) (Z.to_nat rows) (Z.to_nat lines) base pitch) as Hb.
  fold l in Hb. assert (Z.of_nat (length l) <= 512) as Hn by (subst l; rewrite block_bytes_length; nia).
  rewrite u32_sums by (done || nia). pose proof (adler_sums_bound l 1 0 Hb ltac:(lia) ltac:(lia)) as B. cbv zeta in B.
  unfold adler32. fold (adler_sums l) in B |- *. destruct (adler_sums l) as [a b]. cbn [fst snd] in B |- *.
  assert (a <= 130561 ∧ b <= 66847232) as [Ba Bb] by nia. cbv zeta.
  assert (0 <= b mod 65536 + b / 65536 * 15 <= 80850) as Hb1 by zdiv_lia.
  rewrite (adler_fold_value a), (adler_fold_value b) by lia. rewrite (adler_fold_value (_ + _)) by lia.
  rewrite (subtract_mod (a mod _ + _)) by zdiv_lia. rewrite subtract_mod by zdiv_lia. rewrite !adler_fold_mod.
  unfold xret. do 2 f_equal. pose proof (Z.mod_pos_bound a 65521). pose proof (Z.mod_pos_bound b 65521).
  rewrite Z.shiftl_mul_pow2 by lia. change (2 ^ 16) with 65536. rewrite u32_small by lia.
  apply (lor_disjoint_add _ _ 16); lia.
Qed.

(** ** Drawing a block *)

Section Drawing.
Context {cfg : Config} {sdl : SDL}.
(** The state before: its surface, and the size of its list of checksums. *)
Context (s0 : machine VIDEL) (h0 : HostSurface) (sf0 : SDL_Surface) (n0 : Z).

Definition with_pixels (px : gmap Z Z) : SDL_Surface :=
  Surface sf0.(sf_w) sf0.(sf_h) sf0.(sf_pitch) sf0.(sf_bpp) sf0.(sf_masks) px sf0.(sf_colors).

(** The state with other pixels, marks and checksums. *)
Definition repaint (px mk cr : gmap Z Z) : machine VIDEL :=
  set_dev (set_crcList (Some (n0, cr)) (set_surface
    (Some (set_hs_surface (Some (with_pixels px)) (set_hs_dirty (set_marker mk h0.(hs_dirty)) h0))) s0.(dev))) s0.

Abbreviation marks_size := (h0.(hs_dirty).(dirtyW) * h0.(hs_dirty).(dirtyH)).

Lemma put_pixel_run i v px mk cr : 0 <= i < pixel_count sf0 →
  put_pixel i v (repaint px mk cr) = (Ret tt, repaint (aset i v px) mk cr).
Proof.
  intros Hi. unfold put_pixel. erewrite xbind_ret by done. cbn [repaint sdl_of dev set_dev set_crcList set_surface surface mbind option_bind hs_surface set_hs_surface].
  change (pixel_count (with_pixels px)) with (pixel_count sf0). by rewrite in_range_true.
Qed.
Lemma get_crc_run i px mk cr : 0 <= i < n0 → get_crc i (repaint px mk cr) = (Ret (aget cr i), repaint px mk cr).
Proof. intros Hi. unfold get_crc. erewrite xbind_ret by done. cbn. by rewrite in_range_true. Qed.
Lemma put_crc_run i v px mk cr : 0 <= i < n0 → put_crc i v (repaint px mk cr) = (Ret tt, repaint px mk (aset i v cr)).
Proof. intros Hi. unfold put_crc. erewrite xbind_ret by done. cbn. by rewrite in_range_true. Qed.
Lemma get_mark_run i px mk cr : 0 <= i < marks_size → get_mark i (repaint px mk cr) = (Ret (aget mk i), repaint px mk cr).
Proof. intros Hi. unfold get_mark. erewrite xbind_ret by done. cbn. by rewrite in_range_true. Qed.
Lemma put_mark_run i v px mk cr : 0 <= i < marks_size → put_mark i v (repaint px mk cr) = (Ret tt, repaint px (aset i v mk) cr).
Proof. intros Hi. unfold put_mark. erewrite xbind_ret by done. cbn. by rewrite in_range_true. Qed.

(** Sixteen pixels. *)
Definition paste (dst : Z) (f : Z → Z) (px : gmap Z Z) : gmap Z Z := foldl (λ px i, aset (dst + i) (f i) px) px (seqZ 0 16).

Lemma paste_get dst f px j :
  aget (paste dst f px) j = if (dst <=? j) && (j <? dst + 16) then f (j - dst) else aget px j.
Proof.
  unfold paste. assert (∀ n, 0 <= n → aget (foldl (λ px i, aset (dst + i) (f i) px) px (seqZ 0 n)) j =
    if (dst <=? j) && (j <? dst + n) then f (j - dst) else aget px j) as H; [|by apply H].
  apply natlike_ind.
  - change (seqZ 0 0) with (@nil Z). cbn. destruct (Z.leb_spec dst j), (Z.ltb_spec j (dst + 0)); done || lia.
  - intros n Hn IH. rewrite <-Z.add_1_r, seqZ_app, foldl_app by lia. change (seqZ (0 + n) 1) with [n]. cbn [foldl].
    rewrite aget_aset, IH. case_decide as E.
    + subst j. rewrite (proj2 (Z.leb_le _ _)), (proj2 (Z.ltb_lt _ _)) by lia. cbn. f_equal. lia.
    + destruct (Z.leb_spec dst j), (Z.ltb_spec j (dst + n)), (Z.ltb_spec j (dst + (n + 1))); done || lia.
Qed.

Lemma put_line_run dst f px mk cr : 0 <= dst → dst + 16 <= pixel_count sf0 →
  xfor (seqZ 0 16) (λ i, put_pixel (dst + i) (f i)) (repaint px mk cr) = (Ret tt, repaint (paste dst f px) mk cr).
Proof.
  intros Hd Hc. unfold paste. assert (∀ l, (∀ i, i ∈ l → 0 <= i < 16) → ∀ px,
    xfor l (λ i, put_pixel (dst + i) (f i)) (repaint px mk cr) = (Ret tt, repaint (foldl (λ px i, aset (dst + i) (f i) px) px l) mk cr)) as H.
  { induction l as [|i l IH]; intros Hl px'; [done|]. cbn [xfor foldl].
    erewrite xbind_ret by (apply put_pixel_run; specialize (Hl i ltac:(by left)); lia). apply IH. intros k Hk. apply Hl. by right. }
  apply H. intros i Hi%elem_of_seqZ. lia.
Qed.

(** *** Lines *)

(** A line of a block in true colour, and the pixels of a line of planes, in memory [m]. *)
Definition copy_pixel (m : gmap Z Z) (src i : Z) : Z := be_get 2 m (src + 2 * i).

Lemma copy_line_run src dst px mk cr : host_ok src 32 = true → 0 <= dst → dst + 16 <= pixel_count sf0 →
  copy_line src dst (repaint px mk cr) = (Ret tt, repaint (paste dst (copy_pixel s0.(mem) src) px) mk cr).
Proof.
  intros Hh Hd Hc. rewrite <-(put_line_run dst (copy_pixel (mem s0) src)) by done. unfold copy_line.
  assert (∀ l, (∀ i, i ∈ l → 0 <= i < 16) → ∀ px,
    xfor l (λ i, let* pixel := do_get_mem 2 (src + 2 * i) in put_pixel (dst + i) pixel) (repaint px mk cr) =
    xfor l (λ i, put_pixel (dst + i) (copy_pixel (mem s0) src i)) (repaint px mk cr)) as H.
  { induction l as [|i l IH]; intros Hl px'; [done|]. cbn [xfor]. pose proof (Hl i ltac:(by left)) as Hi.
    pose proof (put_pixel_run (dst + i) (copy_pixel (mem s0) src i) px' mk cr ltac:(lia)) as E.
    rewrite (xbind_ret _ _ _ _ _ E). erewrite xbind_ret; [apply IH; intros k Hk; apply Hl; by right|].
    erewrite xbind_ret by (apply do_get_mem_run; eapply host_ok_sub; [exact Hh|lia|lia]). exact E. }
  apply H. intros i Hi%elem_of_seqZ. lia.
Qed.
End Drawing.

Definition screen_plane (m : gmap Z Z) (src bpp p : Z) : Z := be_get 2 m (src + 2 * p) * 65536 + be_get 2 m (src + 2 * (p + bpp)).
Definition plane_pixel (bpp hscroll : Z) (m : gmap Z Z) (src i : Z) : Z :=
  pixel_of (screen_plane m src bpp) (Z.to_nat bpp) (31 - hscroll - i).

(** The bytes a line of planes reads. *)
Definition plane_bytes (bpp hscroll : Z) : Z := if hscroll =? 0 then 2 * bpp else 4 * bpp.

Lemma chunky_plane_pixel be bpp hscroll m src i : bpp ∈ [1; 2; 4; 8] → 0 <= hscroll < 16 → 0 <= i < 16 →
  let words := (λ k, be_get 2 m (src + 2 * k)) <$> seqZ 0 (if hscroll =? 0 then bpp else 2 * bpp) in
  nth (Z.to_nat i) (bitplaneToChunky be (λ k, SDL_SwapBE16 be (nth (Z.to_nat k) words 0)) bpp hscroll) 0 =
  plane_pixel bpp hscroll m src i.
Proof.
  intros Hb Hh Hi words. assert (1 <= bpp <= 8) as Hb8 by (rewrite !elem_of_cons, elem_of_nil in Hb; lia).
  assert (∀ k, 0 <= nth k words 0 < 65536) as Hr.
  { intros k. destruct (words !! k) as [x|] eqn:E.
    - rewrite (nth_lookup_Some _ _ _ _ E). apply list_lookup_fmap_Some in E as (y & -> & _). apply (be_get_range 2).
    - rewrite nth_overflow; [lia|by apply lookup_ge_None]. }
  assert (∀ k, 0 <= k < (if hscroll =? 0 then bpp else 2 * bpp) → nth (Z.to_nat k) words 0 = be_get 2 m (src + 2 * k)) as Hn.
  { intros k Hk. apply nth_lookup_Some. unfold words. rewrite list_lookup_fmap, lookup_seqZ_lt by lia. by rewrite Z.add_0_l, Z2Nat.id by lia. }
  rewrite planes_to_pixels by (done || (intros k; by apply swapBE_range)). apply pixel_of_ext. intros p Hp. rewrite Z2Nat.id in Hp by lia.
  unfold plane, screen_plane. rewrite !swapBE_involutive by done. rewrite Hn by (destruct (hscroll =? 0); lia).
  pose proof (be_get_range 2 m (src + 2 * p)). rewrite Z.shiftl_mul_pow2, u32_small by lia.
  destruct (Z.eqb_spec hscroll 0) as [->|Hne].
  - rewrite (Z.lor_spec), (range_bits (nth _ _ _) 16), orb_false_r by (try apply Hr; lia).
    rewrite <-(lor_disjoint_add _ _ 16) by (try apply (be_get_range 2); lia).
    rewrite Z.lor_spec, (range_bits (be_get _ _ _) 16 (31 - 0 - i)), orb_false_r by (try apply (be_get_range 2); lia). done.
  - rewrite Hn by lia. rewrite lor_disjoint_add by (try apply (be_get_range 2); lia). done.
Qed.

Lemma paste_ext dst f g px : (∀ i, 0 <= i < 16 → f i = g i) → paste dst f px = paste dst g px.
Proof.
  intros E. unfold paste. assert (∀ l px, (∀ i, i ∈ l → 0 <= i < 16) →
    foldl (λ px i, aset (dst + i) (f i) px) px l = foldl (λ px i, aset (dst + i) (g i) px) px l) as H.
  { induction l as [|i l IH]; intros px' Hl; [done|]. cbn [foldl]. rewrite E by (apply Hl; by left).
    apply IH. intros j Hj. apply Hl. by right. }
  apply H. intros i Hi%elem_of_seqZ. lia.
Qed.

Lemma plane_line_run {cfg : Config} {sdl : SDL} s0 h0 sf0 n0 be bpp hscroll src dst px mk cr :
  bpp ∈ [1; 2; 4; 8] → 0 <= hscroll < 16 → host_ok src (plane_bytes bpp hscroll) = true → 0 <= dst → dst + 16 <= pixel_count sf0 →
  plane_line be bpp hscroll src dst (repaint s0 h0 sf0 n0 px mk cr) =
    (Ret tt, repaint s0 h0 sf0 n0 (paste dst (plane_pixel bpp hscroll s0.(mem) src) px) mk cr).
Proof.
  intros Hb Hs Hh Hd Hc. assert (1 <= bpp) by (rewrite !elem_of_cons, elem_of_nil in Hb; lia). unfold plane_line, plane_bytes in *.
  erewrite xbind_ret.
  2: { apply (xmap_run _ (λ k, be_get 2 s0.(mem) (src + 2 * k))). intros k Hk%elem_of_seqZ.
       apply (do_get_mem_run 2 _ (repaint _ _ _ _ _ _ _)). eapply host_ok_sub; [exact Hh|lia|destruct (hscroll =? 0); lia]. }
  rewrite put_line_run, (paste_ext dst _ (plane_pixel bpp hscroll (mem s0) src)); [done| |done|done].
  intros i Hi. by apply chunky_plane_pixel.
Qed.

(** *** Blocks *)

Section Blocks.
Context {cfg : Config} {sdl : SDL}.
Context (s0 : machine VIDEL) (h0 : HostSurface) (sf0 : SDL_Surface).
(** A line of 16 pixels: its code, its pixels in a memory, the bytes it reads. *)
Context (line : Z → Z → X (machine VIDEL) unit) (dec : gmap Z Z → Z → Z → Z) (bytes : Z).
(** Where the screen begins, the distance of blocks and lines in words, the length of a
    line of the surface, the number of blocks, and the height. *)
Context (src0 step src_pitch P W H height : Z).
Abbreviation n0 := (W * H).
Abbreviation paint := (repaint s0 h0 sf0 n0).

Record drawable : Prop := {
  dr_w : h0.(hs_dirty).(dirtyW) = W;
  dr_h : h0.(hs_dirty).(dirtyH) = H;
  dr_pos : 0 <= W ∧ 0 <= H;
  dr_count : pixel_count sf0 = P * sf0.(sf_h);
  dr_wide : 16 * W <= P;
  dr_high : height <= sf0.(sf_h);
  dr_blocks : height <= 16 * H < height + 16;
  dr_step : 1 <= step <= 16;
  dr_bytes : 2 * step <= bytes;
  dr_line : ∀ src dst px mk cr, host_ok src bytes = true → 0 <= dst → dst + 16 <= pixel_count sf0 →
    line src dst (paint px mk cr) = (Ret tt, paint (paste dst (dec s0.(mem) src) px) mk cr);
}.

Definition line_addr (bx Y : Z) : Z := src0 + 2 * (Y * src_pitch + bx * step).
Definition readable : Prop := ∀ bx Y, 0 <= bx < W → 0 <= Y < height → host_ok (line_addr bx Y) bytes = true.

Definition block_lines (by' : Z) : Z := Z.min 16 (height - 16 * by').
(** The checksum of a block in a memory. *)
Definition block_crc (m : gmap Z Z) (bx by' : Z) : Z :=
  adler32 (block_bytes m (Z.to_nat (2 * step)) (Z.to_nat (block_lines by')) (line_addr bx (16 * by')) (2 * src_pitch)).
(** The pixel at column [x] and line [y] in a memory. *)
Definition screen_pixel (m : gmap Z Z) (x y : Z) : Z := dec m (line_addr (x / 16) y) (x mod 16).

Context (Hdr : drawable) (Hrd : readable).

Lemma paste_at dst f px x0 y0 x y : dst = y0 * P + x0 → 0 <= x0 → x0 + 16 <= P → 0 <= x < P →
  aget (paste dst f px) (y * P + x) =
    if (y =? y0) && ((x0 <=? x) && (x <? x0 + 16)) then f (x - x0) else aget px (y * P + x).
Proof.
  intros -> Hx0 Hx1 Hx. rewrite paste_get. destruct (Z.eqb_spec y y0) as [->|Hne].
  - replace (y0 * P + x0 <=? y0 * P + x) with (x0 <=? x) by (apply eq_true_iff_eq; rewrite !Z.leb_le; lia).
    replace (y0 * P + x <? y0 * P + x0 + 16) with (x <? x0 + 16) by (apply eq_true_iff_eq; rewrite !Z.ltb_lt; lia).
    cbn. destruct ((x0 <=? x) && (x <? x0 + 16)); [|done]. f_equal. lia.
  - cbn. destruct (Z.leb_spec (y0 * P + x0) (y * P + x)), (Z.ltb_spec (y * P + x) (y0 * P + x0 + 16)); cbn; try done. nia.
Qed.

Lemma convert_lines_run n bx y0 px mk cr : 0 <= bx < W → 0 <= y0 → y0 + Z.of_nat n <= height →
  ∃ px', convert_lines line src_pitch P n (line_addr bx y0) (y0 * P + 16 * bx) (paint px mk cr) = (Ret tt, paint px' mk cr) ∧
    ∀ x y, 0 <= x < P → aget px' (y * P + x) =
      if (y0 <=? y) && (y <? y0 + Z.of_nat n) && (x / 16 =? bx) then screen_pixel s0.(mem) x y else aget px (y * P + x).
Proof.
  intros Hb. revert y0 px. induction n as [|n IH]; intros y0 px Hy Hn.
  - exists px. split; [done|]. intros x y Hx. destruct (Z.leb_spec y0 y), (Z.ltb_spec y (y0 + Z.of_nat 0)); cbn; done || lia.
  - pose proof (dr_wide Hdr). pose proof (dr_high Hdr). cbn [convert_lines].
    erewrite xbind_ret by (apply (dr_line Hdr); [apply Hrd; lia|nia|rewrite (dr_count Hdr); nia]).
    destruct (IH (y0 + 1) (paste (y0 * P + 16 * bx) (dec (mem s0) (line_addr bx y0)) px)) as (px' & E & Hpx); [lia|lia|].
    exists px'. split.
    { rewrite <-E. f_equal; [unfold line_addr|]; lia. }
    intros x y Hx. rewrite Hpx, (paste_at _ _ _ (16 * bx) y0) by lia.
    assert ((16 * bx <=? x) && (x <? 16 * bx + 16) = (x / 16 =? bx)) as Eb.
    { apply eq_true_iff_eq. rewrite andb_true_iff, Z.leb_le, Z.ltb_lt, Z.eqb_eq. zdiv_lia. }
    rewrite Eb. destruct (Z.eqb_spec (x / 16) bx) as [Ex|]; [|by rewrite !andb_false_r]. rewrite !andb_true_r.
    destruct (Z.eqb_spec y y0) as [->|Hne].
    + rewrite (proj2 (Z.leb_gt (y0 + 1) y0)), Z.leb_refl, (proj2 (Z.ltb_lt y0 (y0 + Z.of_nat (S n)))) by lia. cbn [andb].
      unfold screen_pixel. rewrite Ex. f_equal. rewrite Z.mod_eq, Ex by lia. lia.
    + destruct (Z.leb_spec (y0 + 1) y), (Z.ltb_spec y (y0 + 1 + Z.of_nat n)), (Z.leb_spec y0 y), (Z.ltb_spec y (y0 + Z.of_nat (S n)));
        cbn; done || lia.
Qed.

(** *** The loops over the blocks *)

Lemma block_crc_run bx by' px mk cr : 0 <= bx < W → 0 <= by' →
  calc_adler (line_addr bx (16 * by')) (2 * step) (block_lines by') (Z.shiftl src_pitch 1) (paint px mk cr) =
    (Ret (block_crc s0.(mem) bx by'), paint px mk cr).
Proof.
  intros Hb Hy. rewrite Z.shiftl_mul_pow2 by lia. change (2 ^ 1) with 2. rewrite (Z.mul_comm src_pitch 2).
  pose proof (dr_step Hdr). pose proof (dr_bytes Hdr). unfold block_crc.
  destruct (Z.lt_ge_cases (block_lines by') 0) as [Hneg|Hpos].
  { unfold calc_adler. replace (Z.to_nat (block_lines by')) with 0%nat by lia. done. }
  apply (calc_adler_run (2 * step) (block_lines by') _ _ (paint px mk cr)); [lia|unfold block_lines in *; lia|].
  intros y Hyl. unfold block_lines in *. eapply host_ok_sub; [apply (Hrd bx (16 * by' + y)); lia|unfold line_addr; lia..].
Qed.

(** The pixels, marks and checksums before. *)
Context (px0 mk0 cr0 : gmap Z Z).

Definition block_index (bx by' : Z) : Z := by' * W + bx.
Definition changed (bx by' : Z) : bool := negb (block_crc s0.(mem) bx by' =? aget cr0 (block_index bx by')).
Definition redrawn (bx by' : Z) : bool := changed bx by' || negb (aget mk0 (block_index bx by') =? 0).

(** What is left when the blocks in the set [B] are done. *)
Record blocks_done (B : Z → Z → bool) (px mk cr : gmap Z Z) : Prop := {
  bd_px : ∀ x y, 0 <= x < P → 0 <= y → aget px (y * P + x) =
    if B (x / 16) (y / 16) && redrawn (x / 16) (y / 16) && (y <? height)
    then screen_pixel s0.(mem) x y else aget px0 (y * P + x);
  bd_mk : ∀ bx by', 0 <= bx < W → 0 <= by' < H → aget mk (block_index bx by') =
    if B bx by' && changed bx by' then 1 else aget mk0 (block_index bx by');
  bd_cr : ∀ bx by', 0 <= bx < W → 0 <= by' < H → aget cr (block_index bx by') =
    if B bx by' then block_crc s0.(mem) bx by' else aget cr0 (block_index bx by');
}.

Lemma block_index_inj bx by' bx' by'' : 0 <= bx < W → 0 <= bx' < W →
  block_index bx by' = block_index bx' by'' → bx = bx' ∧ by' = by''.
Proof.
  unfold block_index. intros Hb Hb' E. assert (by' = by'') as ->; [|lia].
  transitivity ((by' * W + bx) / W); [apply (Z.div_unique _ _ _ bx); lia|rewrite E; symmetry; apply (Z.div_unique _ _ _ bx'); lia].
Qed.

Lemma block_index_range bx by' : 0 <= bx < W → 0 <= by' < H → 0 <= block_index bx by' < n0.
Proof. unfold block_index. intros. nia. Qed.

(** The blocks before column [x0] of row [y0]. *)
Definition before (x0 y0 bx by' : Z) : bool := (bx <? W) && ((by' <? y0) || ((by' =? y0) && (bx <? x0))).

Lemma before_next x0 y0 bx by' : x0 < W →
  before (x0 + 1) y0 bx by' = before x0 y0 bx by' || ((bx =? x0) && (by' =? y0)).
Proof.
  intros Hx. unfold before. apply eq_true_iff_eq. rewrite !orb_true_iff, !andb_true_iff, !orb_true_iff, !andb_true_iff, !Z.ltb_lt, !Z.eqb_eq. lia.
Qed.
Lemma before_self x0 y0 : before x0 y0 x0 y0 = false.
Proof. unfold before. by rewrite !Z.ltb_irrefl, andb_false_r, andb_false_r. Qed.

Lemma block_lines_in y0 y : 0 <= y0 < H →
  (16 * y0 <=? y) && (y <? 16 * y0 + Z.of_nat (Z.to_nat (block_lines y0))) = (y / 16 =? y0) && (y <? height).
Proof.
  intros Hy. pose proof (dr_blocks Hdr). unfold block_lines. rewrite Z2Nat.id by lia.
  apply eq_true_iff_eq. rewrite !andb_true_iff, Z.leb_le, !Z.ltb_lt, Z.eqb_eq. zdiv_lia.
Qed.

(** Drawing one more block. *)
Lemma blocks_done_draw x0 y0 px px' mk cr : 0 <= y0 < H → redrawn x0 y0 = true → x0 < W →
  blocks_done (before x0 y0) px mk cr →
  (∀ x y, 0 <= x < P → aget px' (y * P + x) =
    if (16 * y0 <=? y) && (y <? 16 * y0 + Z.of_nat (Z.to_nat (block_lines y0))) && (x / 16 =? x0)
    then screen_pixel s0.(mem) x y else aget px (y * P + x)) →
  ∀ x y, 0 <= x < P → 0 <= y → aget px' (y * P + x) =
    if before (x0 + 1) y0 (x / 16) (y / 16) && redrawn (x / 16) (y / 16) && (y <? height)
    then screen_pixel s0.(mem) x y else aget px0 (y * P + x).
Proof.
  intros Hy Hr Hx [Bp _ _] Hc x y Hxx Hyy. rewrite Hc, block_lines_in, before_next, Bp by done.
  destruct (Z.eqb_spec (x / 16) x0) as [->|]; [|by rewrite andb_false_r, orb_false_r].
  destruct (Z.eqb_spec (y / 16) y0) as [->|]; [|by rewrite andb_false_r, orb_false_r].
  rewrite Hr, before_self. cbn. by destruct (y <? height).
Qed.

Lemma blocks_done_skip x0 y0 px mk cr : redrawn x0 y0 = false → x0 < W →
  blocks_done (before x0 y0) px mk cr →
  ∀ x y, 0 <= x < P → 0 <= y → aget px (y * P + x) =
    if before (x0 + 1) y0 (x / 16) (y / 16) && redrawn (x / 16) (y / 16) && (y <? height)
    then screen_pixel s0.(mem) x y else aget px0 (y * P + x).
Proof.
  intros Hr Hx [Bp _ _] x y Hxx Hyy. rewrite before_next, Bp by done.
  destruct (Z.eqb_spec (x / 16) x0) as [->|]; [|by rewrite orb_false_r].
  destruct (Z.eqb_spec (y / 16) y0) as [->|]; [|by rewrite andb_false_r, orb_false_r].
  by rewrite Hr, before_self.
Qed.

Lemma index_set i x0 y0 bx by' v m : 0 <= x0 < W → 0 <= bx < W → i = block_index x0 y0 →
  aget (aset i v m) (block_index bx by') = if (bx =? x0) && (by' =? y0) then v else aget m (block_index bx by').
Proof.
  intros Hx Hb ->. rewrite aget_aset. case_decide as E.
  - apply block_index_inj in E as [-> ->]; [|done..]. by rewrite !Z.eqb_refl.
  - destruct (Z.eqb_spec bx x0) as [->|]; [|done]. destruct (Z.eqb_spec by' y0) as [->|]; done.
Qed.

Lemma refresh_block_run x0 y0 px mk cr : 0 <= x0 < W → 0 <= y0 < H → blocks_done (before x0 y0) px mk cr →
  ∃ px' mk' cr', refresh_block line step src_pitch P W x0 y0 (line_addr x0 (16 * y0)) (16 * y0 * P + 16 * x0) (block_lines y0) (paint px mk cr) =
    (Ret tt, paint px' mk' cr') ∧ blocks_done (before (x0 + 1) y0) px' mk' cr'.
Proof.
  intros Hx Hy HB. pose proof HB as [Bp Bm Bc]. pose proof (dr_blocks Hdr).
  pose proof (block_index_range x0 y0 Hx Hy) as Hi. assert (0 <= block_index x0 y0 < dirtyW (hs_dirty h0) * dirtyH (hs_dirty h0)) as Hi'
    by (by rewrite (dr_w Hdr), (dr_h Hdr)).
  assert (16 * y0 + Z.of_nat (Z.to_nat (block_lines y0)) <= height) as Hl by (unfold block_lines; lia).
  unfold refresh_block. erewrite xbind_ret by (apply block_crc_run; lia). fold (block_index x0 y0).
  erewrite xbind_ret by (by apply get_crc_run). rewrite Bc, before_self by done. fold (changed x0 y0).
  destruct (changed x0 y0) eqn:Ec; cbn [xwhen].
  - erewrite xbind_ret by (erewrite xbind_ret by (by apply put_crc_run); by apply put_mark_run).
    erewrite xbind_ret by (by apply get_mark_run). rewrite aget_aset_eq. cbn [Z.eqb negb xwhen].
    destruct (convert_lines_run (Z.to_nat (block_lines y0)) x0 (16 * y0) px (aset (block_index x0 y0) 1 mk)
      (aset (block_index x0 y0) (block_crc (mem s0) x0 y0) cr)) as (px' & E & Hp); [done|lia|done|].
    eexists px', _, _. split; [exact E|]. split.
    + eapply blocks_done_draw; [done| |lia|done|done]. unfold redrawn. by rewrite Ec.
    + intros bx by' Hbx Hby. rewrite (index_set _ x0 y0), Bm, before_next by (done || lia).
      destruct (Z.eqb_spec bx x0) as [->|]; [|by rewrite orb_false_r]. destruct (Z.eqb_spec by' y0) as [->|]; [|by rewrite orb_false_r].
      by rewrite orb_true_r, Ec.
    + intros bx by' Hbx Hby. rewrite (index_set _ x0 y0), Bc, before_next by (done || lia).
      destruct (Z.eqb_spec bx x0) as [->|]; [|by rewrite orb_false_r]. destruct (Z.eqb_spec by' y0) as [->|]; [|by rewrite orb_false_r].
      by rewrite orb_true_r.
  - erewrite xbind_ret by done. erewrite xbind_ret by (by apply get_mark_run). rewrite Bm, before_self by done. cbn [andb].
    assert (∀ bx by', 0 <= bx < W → 0 <= by' < H → aget mk (block_index bx by') =
      if before (x0 + 1) y0 bx by' && changed bx by' then 1 else aget mk0 (block_index bx by')) as Bm'.
    { intros bx by' Hbx Hby. rewrite Bm, before_next by (done || lia). destruct (Z.eqb_spec bx x0) as [->|]; [|by rewrite orb_false_r].
      destruct (Z.eqb_spec by' y0) as [->|]; [|by rewrite orb_false_r]. by rewrite Ec, !andb_false_r. }
    assert (∀ bx by', 0 <= bx < W → 0 <= by' < H → aget cr (block_index bx by') =
      if before (x0 + 1) y0 bx by' then block_crc s0.(mem) bx by' else aget cr0 (block_index bx by')) as Bc'.
    { intros bx by' Hbx Hby. rewrite Bc, before_next by (done || lia). destruct (Z.eqb_spec bx x0) as [->|]; [|by rewrite orb_false_r].
      destruct (Z.eqb_spec by' y0) as [->|]; [|by rewrite orb_false_r]. rewrite before_self. cbn.
      unfold changed in Ec. by apply negb_false_iff, Z.eqb_eq in Ec. }
    destruct (aget mk0 (block_index x0 y0) =? 0) eqn:Em; cbn [negb xwhen].
    + eexists px, mk, cr. split; [done|]. split; [|done|done]. eapply blocks_done_skip; [|lia|done]. unfold redrawn. by rewrite Ec, Em.
    + destruct (convert_lines_run (Z.to_nat (block_lines y0)) x0 (16 * y0) px mk cr) as (px' & E & Hp); [done|lia|done|].
      eexists px', mk, cr. split; [exact E|]. split; [|done|done]. eapply blocks_done_draw; [done| |lia|done|done].
      unfold redrawn. by rewrite Ec, Em.
Qed.

Lemma blocks_done_ext B B' px mk cr : (∀ bx by', 0 <= bx → B bx by' = B' bx by') → blocks_done B px mk cr → blocks_done B' px mk cr.
Proof.
  intros He [Bp Bm Bc]. split.
  - intros x y Hx Hy. rewrite Bp, He by (done || apply Z.div_pos; lia). done.
  - intros bx by' Hb Hy. by rewrite Bm, He by (done || lia).
  - intros bx by' Hb Hy. by rewrite Bc, He by (done || lia).
Qed.

Lemma refresh_row_run n x0 y0 px mk cr : 0 <= x0 → x0 + Z.of_nat n = W → 0 <= y0 < H → blocks_done (before x0 y0) px mk cr →
  ∃ px' mk' cr', refresh_row line step src_pitch P W n x0 y0 (line_addr x0 (16 * y0)) (16 * y0 * P + 16 * x0) (block_lines y0) (paint px mk cr) =
    (Ret tt, paint px' mk' cr') ∧ blocks_done (before W y0) px' mk' cr'.
Proof.
  revert x0 px mk cr. induction n as [|n IH]; intros x0 px mk cr Hx Hn Hy HB.
  { exists px, mk, cr. split; [done|]. by replace W with x0 by lia. }
  cbn [refresh_row]. destruct (refresh_block_run x0 y0 px mk cr) as (px1 & mk1 & cr1 & E1 & HB1); [lia|done|done|].
  rewrite (xbind_ret _ _ _ _ _ E1). destruct (IH (x0 + 1) px1 mk1 cr1) as (px2 & mk2 & cr2 & E2 & HB2); [lia|lia|done|done|].
  exists px2, mk2, cr2. split; [|done]. rewrite <-E2. f_equal; [unfold line_addr|]; lia.
Qed.

Lemma refresh_rows_run n y0 px mk cr : 0 <= y0 → y0 + Z.of_nat n = H → blocks_done (before 0 y0) px mk cr →
  ∃ px' mk' cr', refresh_rows line step src_pitch P W height n y0 (line_addr 0 (16 * y0)) (16 * y0 * P) (paint px mk cr) =
    (Ret tt, paint px' mk' cr') ∧ blocks_done (before 0 H) px' mk' cr'.
Proof.
  revert y0 px mk cr. induction n as [|n IH]; intros y0 px mk cr Hy Hn HB.
  { exists px, mk, cr. split; [done|]. by replace H with y0 by lia. }
  pose proof (dr_pos Hdr). cbn [refresh_rows]. cbv zeta. rewrite Z.shiftl_mul_pow2 by lia. change (2 ^ 4) with 16. rewrite (Z.mul_comm y0 16).
  fold (block_lines y0). destruct (refresh_row_run (Z.to_nat W) 0 y0 px mk cr) as (px1 & mk1 & cr1 & E1 & HB1); [lia|lia|lia|done|].
  rewrite Z.mul_0_r, Z.add_0_r in E1. rewrite (xbind_ret _ _ _ _ _ E1).
  destruct (IH (y0 + 1) px1 mk1 cr1) as (px2 & mk2 & cr2 & E2 & HB2); [lia|lia| |].
  { eapply blocks_done_ext; [|done]. intros bx by' Hbx. unfold before. apply eq_true_iff_eq.
    rewrite !andb_true_iff, !orb_true_iff, !andb_true_iff, !Z.ltb_lt, !Z.eqb_eq. lia. }
  exists px2, mk2, cr2. split; [|done]. rewrite <-E2. f_equal; [unfold line_addr|]; lia.
Qed.

(** All blocks: those whose checksum differs from the one on record, or that are marked,
    are drawn; the others keep their pixels; all checksums are the ones of now. *)
Record screen_done (px mk cr : gmap Z Z) : Prop := {
  sd_px : ∀ x y, 0 <= x < 16 * W → 0 <= y < height → aget px (y * P + x) =
    if redrawn (x / 16) (y / 16) then screen_pixel s0.(mem) x y else aget px0 (y * P + x);
  sd_mk : ∀ bx by', 0 <= bx < W → 0 <= by' < H → aget mk (block_index bx by') =
    if changed bx by' then 1 else aget mk0 (block_index bx by');
  sd_cr : ∀ bx by', 0 <= bx < W → 0 <= by' < H → aget cr (block_index bx by') = block_crc s0.(mem) bx by';
}.

Lemma refresh_all : ∃ px mk cr,
  refresh_rows line step src_pitch P W height (Z.to_nat H) 0 src0 0 (paint px0 mk0 cr0) = (Ret tt, paint px mk cr) ∧ screen_done px mk cr.
Proof.
  pose proof (dr_pos Hdr). pose proof (dr_wide Hdr). pose proof (dr_blocks Hdr).
  assert (∀ bx by', 0 <= by' → before 0 0 bx by' = (bx <? 0) && (bx <? W) && (by' =? 0)) as B0.
  { intros bx by' Hb. unfold before. apply eq_true_iff_eq. rewrite !andb_true_iff, orb_true_iff, andb_true_iff, !Z.ltb_lt, Z.eqb_eq. lia. }
  destruct (refresh_rows_run (Z.to_nat H) 0 px0 mk0 cr0) as (px & mk & cr & E & [Bp Bm Bc]); [lia|lia| |].
  { split.
    - intros x y Hx Hy. rewrite B0 by (apply Z.div_pos; lia). by rewrite (proj2 (Z.ltb_ge (x / 16) 0)) by (apply Z.div_pos; lia).
    - intros bx by' Hx Hy. rewrite B0 by lia. by rewrite (proj2 (Z.ltb_ge bx 0)) by lia.
    - intros bx by' Hx Hy. rewrite B0 by lia. by rewrite (proj2 (Z.ltb_ge bx 0)) by lia. }
  exists px, mk, cr. split.
  { rewrite <-E. f_equal. unfold line_addr. lia. }
  assert (∀ bx by', bx < W → by' < H → before 0 H bx by' = true) as BH.
  { intros bx by' Hb Hy. unfold before. rewrite (proj2 (Z.ltb_lt bx W)), (proj2 (Z.ltb_lt by' H)) by done. done. }
  split.
  - intros x y Hx Hy. rewrite Bp, BH by (lia || zdiv_lia). rewrite (proj2 (Z.ltb_lt y height)), andb_true_r by lia. done.
  - intros bx by' Hb Hy. by rewrite Bm, BH by lia.
  - intros bx by' Hb Hy. by rewrite Bc, BH by lia.
Qed.
End Blocks.
