(* ===== verification/VidelScreen.v ===== *)
(** * VidelScreen: the surface shows the video memory

    [screen_up_to_date]: after [getSurface], every block of the surface shows what a
    memory with the checksum of the video memory would show, and the video memory itself
    where it was redrawn.  [dirty_rect_marks]: the marks cover what was changed.  At
    the end of the file a small screen. *)

From S2P Require Import Prelude Throws Machine MachineSpec Planes Videl VidelSpec.
From stdpp Require Import base gmap list numbers.
Open Scope Z_scope.
Open Scope c_scope.
Open Scope x_scope.

(** What the code relies on in SDL: a surface has the size and depth that were asked for,
    its lines are long enough, and setting colours changes nothing else. *)
Class SDLOk {sdl : SDL} : Prop := {
  sdl_create w h bpp masks : 0 < w → 0 < h → bpp = 8 ∨ bpp = 16 →
    ∃ sf, SDL_CreateRGBSurface w h bpp masks = Some sf ∧ sf.(sf_w) = w ∧ sf.(sf_h) = h ∧ sf.(sf_bpp) = bpp ∧
      w * (bpp / 8) <= sf.(sf_pitch) ∧ (bpp = 8 → length sf.(sf_colors) = 256%nat);
  sdl_palette colors first sf : ∃ l, SDL_SetPaletteColors colors first sf =
    Surface sf.(sf_w) sf.(sf_h) sf.(sf_pitch) sf.(sf_bpp) sf.(sf_masks) sf.(sf_pixels) l ∧ length l = length sf.(sf_colors);
  sdl_colors colors first sf i : sf.(sf_bpp) = 8 → 0 <= first → length sf.(sf_colors) = 256%nat →
    first + Z.of_nat (length colors) <= 256 → (i < length colors)%nat →
    sf_colors (SDL_SetPaletteColors colors first sf) !! (Z.to_nat first + i)%nat = colors !! i;
}.

(** ** Marks *)

Lemma filled_get n v i : 0 <= i < n → aget (filled n v) i = v.
Proof.
  intros Hi. unfold filled. assert (i ∈ seqZ 0 n) as Hin by (apply elem_of_seqZ; lia). revert Hin.
  generalize (seqZ 0 n) as l. induction l as [|j l IH]; intros Hin; [by apply not_elem_of_nil in Hin|]. cbn [foldr].
  rewrite aget_aset. case_decide; [done|]. apply IH. apply elem_of_cons in Hin as [->|]; done.
Qed.

Lemma blocks_of_spec n : 0 <= n → blocks_of n = (n + 15) / 16.
Proof.
  intros Hn. unfold blocks_of. rewrite Z.shiftr_div_pow2, (Z.land_ones _ 4) by lia. change (2 ^ 4) with 16.
  destruct (Z.eqb_spec (n mod 16) 0); zdiv_lia.
Qed.

Lemma round_up16_spec n : 0 <= n → round_up16 n = (n + 15) / 16 * 16.
Proof.
  intros Hn. unfold round_up16. rewrite (Z.land_ones _ 4) by lia. change (2 ^ 4) with 16.
  destruct (Z.eqb_spec (n mod 16) 0); [zdiv_lia|].
  assert (n .| 15 = n / 16 * 16 + 15) as ->; [|zdiv_lia].
  transitivity ((n / 16 * 2 ^ 4) .| 15); [|by rewrite lor_disjoint_add by lia].
  assert (n = (n / 16 * 2 ^ 4) .| (n mod 16)) as E.
  { rewrite lor_disjoint_add by (change (2 ^ 4) with 16; try apply Z.mod_pos_bound; lia). change (2 ^ 4) with 16. zdiv_lia. }
  rewrite E at 1. rewrite <-Z.lor_assoc. f_equal. pose proof (Z.mod_pos_bound n 16 ltac:(lia)).
  revert H. generalize (n mod 16) as r. intros r Hr. all_below r 16; done.
Qed.

(** The mark of a block after marking columns [lx] of rows [ly]. *)
Lemma index_inj W bx by' x y : 0 <= bx < W → 0 <= x < W → by' * W + bx = y * W + x → bx = x ∧ by' = y.
Proof. intros. by apply (block_index_inj W). Qed.

Lemma mark_row_get d y l m bx by' : 0 <= bx < d.(dirtyW) → 0 <= by' < d.(dirtyH) →
  aget (foldl (λ m x, if (0 <=? x) && (x <? d.(dirtyW)) && (0 <=? y) && (y <? d.(dirtyH))
      then aset (y * d.(dirtyW) + x) 1 m else m) m l) (by' * d.(dirtyW) + bx) =
  if decide (by' = y ∧ bx ∈ l) then 1 else aget m (by' * d.(dirtyW) + bx).
Proof.
  intros Hx Hy. revert m. induction l as [|x l IH]; intros m.
  { cbn [foldl]. case_decide as E; [|done]. by destruct E as [_ E%not_elem_of_nil]. }
  cbn [foldl]. rewrite IH. destruct (decide (by' = y ∧ bx ∈ l)) as [E|E].
  { rewrite decide_True; [done|]. destruct E. split; [done|by right]. }
  destruct (decide (by' = y ∧ bx ∈ x :: l)) as [[-> E']|E'].
  - apply elem_of_cons in E' as [->|]; [|by exfalso; apply E].
    rewrite !(proj2 (Z.leb_le _ _)), !(proj2 (Z.ltb_lt _ _)) by lia. apply aget_aset_eq.
  - destruct ((0 <=? x) && _ && _ && _) eqn:Eb; [|done]. rewrite !andb_true_iff, !Z.leb_le, !Z.ltb_lt in Eb.
    apply aget_aset_ne. intros Ei. apply index_inj in Ei as [-> ->]; [|lia..]. apply E'. split; [done|by left].
Qed.

Lemma mark_blocks_get d x1 x2 y1 y2 bx by' : 0 <= bx < d.(dirtyW) → 0 <= by' < d.(dirtyH) →
  aget (mark_blocks x1 x2 y1 y2 d) (by' * d.(dirtyW) + bx) =
  if decide (y1 <= by' < y2 ∧ x1 <= bx < x2) then 1 else aget d.(dirtyMarker) (by' * d.(dirtyW) + bx).
Proof.
  intros Hx Hy. unfold mark_blocks.
  assert (∀ l m, aget (foldl (λ m y, foldl (λ m x, if (0 <=? x) && (x <? d.(dirtyW)) && (0 <=? y) && (y <? d.(dirtyH))
      then aset (y * d.(dirtyW) + x) 1 m else m) m (seqZ x1 (x2 - x1))) m l) (by' * d.(dirtyW) + bx) =
    if decide (by' ∈ l ∧ bx ∈ seqZ x1 (x2 - x1)) then 1 else aget m (by' * d.(dirtyW) + bx)) as Hl.
  { induction l as [|y l IH]; intros m.
    { cbn [foldl]. case_decide as E; [|done]. by destruct E as [E%not_elem_of_nil _]. }
    cbn [foldl]. rewrite IH, mark_row_get by done. repeat case_decide; try done; exfalso; set_solver. }
  rewrite Hl. repeat case_decide; rewrite !elem_of_seqZ in *; try done; exfalso; lia.
Qed.

(** A rectangle of pixels marks exactly the blocks it touches. *)
Lemma dirty_rect_marks x y w h d bx by' : 0 <= x → 0 <= y → 0 < w → 0 < h → 0 <= bx < d.(dirtyW) → 0 <= by' < d.(dirtyH) →
  aget (setDirtyRect x y w h d).(dirtyMarker) (by' * d.(dirtyW) + bx) =
  if decide (x < 16 * bx + 16 ∧ 16 * bx < x + w ∧ y < 16 * by' + 16 ∧ 16 * by' < y + h) then 1
  else aget d.(dirtyMarker) (by' * d.(dirtyW) + bx).
Proof.
  intros Hx Hy Hw Hh Hbx Hby. cbn [setDirtyRect dirtyMarker]. rewrite mark_blocks_get by done.
  rewrite !round_up16_spec, !Z.shiftr_div_pow2 by lia. change (2 ^ 4) with 16. rewrite !Z.div_mul by lia.
  repeat case_decide; try done; exfalso; zdiv_lia.
Qed.

Lemma dirty_screen d bx by' w h : 0 <= bx < d.(dirtyW) → 0 <= by' < d.(dirtyH) → 0 <= w → 0 <= h →
  d.(dirtyW) = blocks_of w → d.(dirtyH) = blocks_of h →
  aget (setDirtyRect 0 0 w h d).(dirtyMarker) (by' * d.(dirtyW) + bx) = 1.
Proof.
  intros Hx Hy Hw Hh Ew Eh. rewrite blocks_of_spec in Ew, Eh by done.
  assert (0 < w ∧ 0 < h) as [] by zdiv_lia. rewrite dirty_rect_marks by done || lia.
  rewrite decide_True; [done|]. zdiv_lia.
Qed.

(** ** Registers *)

Section Screen.
Context {cfg : Config} {ok : ConfigOk} {sdl : SDL} {sdl_ok : SDLOk}.
Context (be rescale : bool).
Abbreviation HW := 0xff8200.
Implicit Types (s : machine VIDEL) (c : VIDEL) (m : gmap Z Z).

Lemma hw_ok a n : 0 <= a → a + n <= 0x1000000 → host_ok a n = true.
Proof.
  intros Ha Hn. unfold host_ok. pose proof fastram_size. apply orb_true_iff. left. rewrite andb_true_iff, !Z.leb_le. lia.
Qed.

Lemma be_get_1 m a : be_get 1 m a = u8 (aget m a).
Proof. cbn [be_get]. rewrite Z.mul_0_l, Z.add_0_l. do 2 f_equal. lia. Qed.

Lemma be_get_2 m a : be_get 2 m a = u8 (aget m a) * 256 + u8 (aget m (a + 1)).
Proof. change (be_get 2 m a) with (be_get 1 m a * 256 + u8 (aget m (a + 1))). by rewrite be_get_1. Qed.

Lemma readW_run a s : 0 <= a → a + 2 <= 0x1000000 → readW a s = (Ret (be_get 2 s.(mem) a), s).
Proof.
  intros Ha Hn. unfold readW, base_handleReadW, base_handleRead. rewrite u32_small by lia.
  erewrite xbind_ret by (apply do_get_mem_run, hw_ok; lia). erewrite xbind_ret by (apply do_get_mem_run, hw_ok; lia).
  unfold xret. do 2 f_equal. rewrite !be_get_1, be_get_2. pose proof (u8_range (aget (mem s) (a + 1))).
  rewrite Z.shiftl_mul_pow2 by lia. apply (lor_disjoint_add _ _ 8); lia.
Qed.

(** The mode the registers in a memory select. *)
Definition mode_bpp m : Z :=
  let f_shift := be_get 2 m (HW + 0x66) in
  let st_shift := be_get 1 m (HW + 0x60) in
  if tst f_shift 0x400 then 1 else if tst f_shift 0x100 then 16 else if tst f_shift 0x010 then 8
  else if st_shift =? 0 then 4 else if st_shift =? 1 then 2 else 1.
Definition mode_width m : Z := Z.max 64 (be_get 2 m (HW + 0x10) * 16 / mode_bpp m).
Definition mode_height m : Z :=
  let yres := be_get 2 m (HW + 0xaa) - be_get 2 m (HW + 0xa8) in
  let vmode := be_get 2 m (HW + 0xc2) in
  let yres := if tst vmode 0x02 then yres else yres >> 1 in
  Z.max 64 (if tst vmode 0x01 then yres >> 1 else yres).
Definition mode_hscroll m : Z := be_get 2 m (HW + 0x64) .& 15.
Definition mode_pitch m : Z :=
  (be_get 2 m (HW + 0x10) .& 0x03ff) +
  (if mode_hscroll m =? 0 then be_get 2 m (HW + 0x0e) else be_get 2 m (HW + 0x0e) + mode_bpp m).
Definition mode_src m : Z :=
  (be_get 1 m (HW + 1) << 16) .| (be_get 1 m (HW + 3) << 8) .| be_get 1 m (HW + 0x0d).

Lemma mode_bpp_cases m : mode_bpp m ∈ [1; 2; 4; 8; 16].
Proof.
  unfold mode_bpp. repeat match goal with |- context [if ?b then _ else _] => destruct b end; by rewrite !elem_of_cons; auto 10.
Qed.
Lemma mode_hscroll_range m : 0 <= mode_hscroll m < 16.
Proof. apply (land_range_r _ 15 4); lia. Qed.

Lemma getBpp_run s : getBpp HW s = (Ret (mode_bpp s.(mem)), s).
Proof.
  unfold getBpp. erewrite xbind_ret by (by apply readW_run).
  erewrite xbind_ret by (by apply do_get_mem_run, hw_ok). done.
Qed.
Lemma getWidth_run s : getWidth HW s = (Ret (be_get 2 s.(mem) (HW + 0x10) * 16 / mode_bpp s.(mem)), s).
Proof. unfold getWidth. erewrite xbind_ret by (by apply readW_run). by erewrite xbind_ret by apply getBpp_run. Qed.
Lemma getHeight_run s : ∃ h, getHeight HW s = (Ret h, s) ∧ Z.max 64 h = mode_height s.(mem).
Proof. eexists. split; [|reflexivity]. unfold getHeight. by do 3 (erewrite xbind_ret by (by apply readW_run)). Qed.
Lemma getVramAddress_run s : getVramAddress HW s = (Ret (mode_src s.(mem)), s).
Proof. unfold getVramAddress. by do 3 (erewrite xbind_ret by (by apply do_get_mem_run, hw_ok)). Qed.

(** ** The surface *)

Definition blocks_w m : Z := blocks_of (mode_width m).
Definition blocks_h m : Z := blocks_of (mode_height m).

(** The surface and the list of checksums fit a screen of the given size. *)
Record fits (width height bpp : Z) c h sf (crcs : gmap Z Z) : Prop := {
  ft_surface : c.(surface) = Some h;
  ft_sdl : h.(hs_surface) = Some sf;
  ft_crc : c.(crcList) = Some (blocks_of width * blocks_of height, crcs);
  ft_bpp : sf.(sf_bpp) = bpp;
  ft_clip : h.(clip_w) = width ∧ h.(clip_h) = height;
  ft_w : h.(hs_dirty).(dirtyW) = blocks_of width;
  ft_h : h.(hs_dirty).(dirtyH) = blocks_of height;
  ft_wide : 16 * blocks_of width <= stride sf;
  ft_pitch : sf.(sf_w) <= stride sf;
  ft_high : height <= sf.(sf_h);
  ft_colors : bpp = 8 → length sf.(sf_colors) = 256%nat;
}.

(** The object between two frames: no surface yet, or one that fits the previous mode. *)
Definition videl_ok c : Prop :=
  (c.(surface) = None ∧ c.(crcList) = None) ∨
  (∃ h sf crcs, fits c.(prevVidelWidth) c.(prevVidelHeight) c.(prevVidelBpp) c h sf crcs ∧
     (c.(prevVidelBpp) = 8 ∨ c.(prevVidelBpp) = 16) ∧ 0 < c.(prevVidelWidth) ∧ 0 < c.(prevVidelHeight)).

Lemma stride_wide sf w bpp : bpp = 8 ∨ bpp = 16 → sf.(sf_bpp) = bpp → w * (bpp / 8) <= sf.(sf_pitch) → w <= stride sf.
Proof.
  intros [->| ->] E Hp; unfold stride; rewrite E; [change (8 / 8) with 1 in Hp; cbn; lia|].
  change (16 / 8) with 2 in Hp. cbn. rewrite Z.shiftr_div_pow2 by lia. change (2 ^ 1) with 2. zdiv_lia.
Qed.

(** All blocks are marked. *)
Definition all_marked h : Prop := ∀ bx by', 0 <= bx < h.(hs_dirty).(dirtyW) → 0 <= by' < h.(hs_dirty).(dirtyH) →
  aget h.(hs_dirty).(dirtyMarker) (by' * h.(hs_dirty).(dirtyW) + bx) = 1.

Lemma resizeDirty_marked w h bx by' : 0 <= w → 0 <= h → 0 <= bx < blocks_of w → 0 <= by' < blocks_of h →
  aget (resizeDirty w h).(dirtyMarker) (by' * blocks_of w + bx) = 1.
Proof. intros Hw Hh Hx Hy. cbn. apply filled_get. nia. Qed.

Lemma created_fits width height bpp : 0 < width → 0 < height → width mod 16 = 0 → bpp = 8 ∨ bpp = 16 →
  let h := createSurface width height bpp in
  ∃ sf, (∀ c crcs, c.(surface) = Some h → c.(crcList) = Some (blocks_of width * blocks_of height, crcs) →
    fits width height bpp c h sf crcs) ∧ all_marked h.
Proof.
  intros Hw Hh Hm Hb h. destruct (sdl_create width height bpp (0, 0, 0, 0) Hw Hh Hb) as (sf & E & Ew & Eh & Eb & Hp & Hcol).
  pose proof (stride_wide sf width bpp Hb Eb Hp). exists sf. subst h. unfold createSurface, new_HostSurface. rewrite E.
  cbn [setParam fst snd]. split.
  - intros c crcs Hs Hc. assert (16 * blocks_of width <= width) by (rewrite blocks_of_spec by lia; zdiv_lia).
    split; cbn [clip_w clip_h hs_dirty resizeDirty dirtyW dirtyH hs_surface]; done || lia.
  - intros bx by' Hx Hy. apply resizeDirty_marked; [lia|lia|done|done].
Qed.

Lemma resized_fits width height c h sf crcs0 : 0 < width → 0 < height → c.(prevVidelBpp) = 8 ∨ c.(prevVidelBpp) = 16 →
  fits c.(prevVidelWidth) c.(prevVidelHeight) c.(prevVidelBpp) c h sf crcs0 →
  let h' := hs_resize width height false h in
  ∃ sf', (∀ c' crcs, c'.(surface) = Some h' → c'.(crcList) = Some (blocks_of width * blocks_of height, crcs) →
    fits width height c.(prevVidelBpp) c' h' sf' crcs) ∧ all_marked h'.
Proof.
  intros Hw Hh Hb Hf h'. pose proof (ft_sdl _ _ _ _ _ _ _ Hf) as Es. pose proof (ft_bpp _ _ _ _ _ _ _ Hf) as Eb.
  pose proof (ft_pitch _ _ _ _ _ _ _ Hf) as Hp.
  assert (width <= round_up16 width ∧ 16 * blocks_of width = round_up16 width) as [Hrw Hbw].
  { rewrite round_up16_spec, blocks_of_spec by lia. zdiv_lia. }
  assert (height <= round_up16 height) as Hrh by (rewrite round_up16_spec by lia; zdiv_lia).
  assert (∃ sf', hs_surface h' = Some sf' ∧ sf_bpp sf' = c.(prevVidelBpp) ∧
      round_up16 width <= stride sf' ∧ sf_w sf' <= stride sf' ∧ height <= sf_h sf' ∧
      (c.(prevVidelBpp) = 8 → length (sf_colors sf') = 256%nat)) as (sf' & E' & Hb' & Hw' & Hp' & Hh' & Hc').
  { subst h'. unfold hs_resize, resize_to. rewrite Es. cbv zeta. cbn [hs_surface set_hs_clip]. rewrite Es.
    destruct ((sf_w sf <? _) || _ || false) eqn:Er; cbn [negb].
    - destruct (sdl_create (round_up16 width) (round_up16 height) (sf_bpp sf) (sf_masks sf)) as (sn & En & Ew & Eh & Ebn & Hpn & Hcn);
        [lia|lia|by rewrite Eb|]. pose proof (stride_wide sn (round_up16 width) (sf_bpp sf) ltac:(by rewrite Eb) Ebn Hpn) as Hs.
      rewrite En. destruct (sf_bpp sf =? 8).
      + unfold setPalette. cbn [hs_surface set_hs_surface set_hs_clip set_hs_dirty]. destruct (sdl_palette (sf_colors sf) 0 sn) as (l & -> & Hl).
        eexists. split; [done|]. unfold stride in *. cbn [sf_bpp sf_pitch sf_w sf_h sf_colors]. rewrite Hl. rewrite Ebn in *. rewrite Ew, Eh. rewrite Eb in *. auto.
      + eexists. split; [done|]. rewrite Ebn, Ew, Eh. rewrite Eb in *. auto.
    - exists sf. split; [exact Es|]. rewrite !orb_false_iff, !Z.ltb_ge in Er. pose proof (ft_colors _ _ _ _ _ _ _ Hf).
      repeat split; done || lia. }
  assert (clip_w h' = width ∧ clip_h h' = height ∧ hs_dirty h' = resizeDirty width height) as (Ecw & Ech & Ed).
  { subst h'. unfold hs_resize, resize_to. rewrite Es. cbv zeta. cbn [hs_surface set_hs_clip]. rewrite Es.
    destruct (negb _); [done|]. unfold setPalette. destruct (sf_bpp sf =? 8); [|done].
    cbn [hs_surface set_hs_surface]. by destruct (SDL_CreateRGBSurface _ _ _ _). }
  exists sf'. split.
  - intros c' crcs Hs Hc. split; try done; rewrite ?Ed; cbn [resizeDirty dirtyW dirtyH]; done || lia.
  - intros bx by'. rewrite Ed. intros Hx Hy. apply resizeDirty_marked; [lia|lia|done|done].
Qed.

Lemma fit_surface_ok width height bpp c : videl_ok c → 0 < width → 0 < height → width mod 16 = 0 → bpp = 8 ∨ bpp = 16 →
  ∃ h sf crcs, fits width height bpp (fit_surface width height bpp c) h sf crcs ∧
    ((fit_surface width height bpp c = c ∧ (c.(prevVidelWidth), c.(prevVidelHeight), c.(prevVidelBpp)) = (width, height, bpp)) ∨
     all_marked h).
Proof.
  intros Hok Hw Hh Hm Hb. destruct (created_fits width height bpp Hw Hh Hm Hb) as (sfn & Hn & Hmn). unfold fit_surface.
  destruct Hok as [[Hs Hc]|(h & sf & crcs & Hf & Hbp & Hpw & Hph)].
  { rewrite Hs. cbv zeta. rewrite Hs. cbn [surface set_surface crcList]. rewrite Hc. eexists _, sfn, _. split; [|by right]. apply Hn; reflexivity. }
  rewrite (ft_surface _ _ _ _ _ _ _ Hf). destruct (Z.eqb_spec (prevVidelBpp c) bpp) as [Eb|Nb].
  - destruct (Z.eqb_spec (prevVidelWidth c) width) as [Ew|Nw], (Z.eqb_spec (prevVidelHeight c) height) as [Eh|Nh]; cbn [andb].
    1: { subst. exists h, sf, crcs. rewrite (ft_surface _ _ _ _ _ _ _ Hf).
      assert (set_surface (Some h) c = c) as ->
        by (pose proof (ft_surface _ _ _ _ _ _ _ Hf) as Hs; destruct c; cbn in Hs |- *; unfold set_surface; cbn; by rewrite Hs).
      rewrite (ft_crc _ _ _ _ _ _ _ Hf). split; [done|by left]. }
    all: destruct (resized_fits width height c h sf crcs Hw Hh Hbp Hf) as (sf' & Hr & Hmr); rewrite <-Eb;
      cbn [surface set_surface set_crcList crcList]; eexists _, sf', _; (split; [|by right]); apply Hr; [done|];
      by destruct (Hr (set_crcList (Some (blocks_of width * blocks_of height, ∅)) (set_surface (Some (hs_resize width height false h)) c)) ∅ eq_refl eq_refl)
        as [_ _ _ _ _ -> -> _ _ _ _].
  - cbn [surface set_surface set_crcList crcList]. eexists _, sfn, _. split; [|by right]. apply Hn; reflexivity.
Qed.
(** ** The palette *)

Definition st_palette m : bool :=
  if be_get 2 m (HW + 0x60) =? 0 then
    let hreg := be_get 2 m (HW + 0x82) in (hreg =? 0x10) || (hreg =? 0x17) || (hreg =? 0x3e)
  else true.
Definition ste_entry m (i : Z) : color :=
  let c := be_get 2 m (0xff8240 + 2 * i) in
  (ste_component ((c >> 8) .& 0x0f), ste_component ((c >> 4) .& 0x0f), ste_component (c .& 0x0f)).
Definition falcon_entry m (i : Z) : color :=
  (falcon_component (be_get 1 m (0xff9800 + 4 * i)), falcon_component (be_get 1 m (0xff9800 + 4 * i + 1)),
   falcon_component (be_get 1 m (0xff9800 + 4 * i + 3))).
(** The colours the registers select. *)
Definition mode_palette m : list color :=
  if st_palette m then ste_entry m <$> seqZ 0 16 else falcon_entry m <$> seqZ 0 256.

Lemma useStPalette_run s : useStPalette HW s = (Ret (st_palette s.(mem)), s).
Proof.
  unfold useStPalette, st_palette. erewrite xbind_ret by (by apply readW_run). destruct (_ =? 0); [|done].
  by erewrite xbind_ret by (by apply readW_run).
Qed.

Lemma refreshPalette_run s : refreshPalette HW s =
  (Ret tt, set_dev (set_surface (setPalette (mode_palette s.(mem)) 0 <$> s.(dev).(surface)) s.(dev)) s).
Proof.
  unfold refreshPalette, mode_palette. erewrite xbind_ret by apply useStPalette_run. destruct (st_palette (mem s)).
  - erewrite xbind_ret; [done|]. apply xmap_run. intros i Hi%elem_of_seqZ. unfold ste_color.
    rewrite Z.shiftl_mul_pow2, (Z.mul_comm i) by lia. change (2 ^ 1) with 2. rewrite u32_small by lia.
    by erewrite xbind_ret by (apply readW_run; lia).
  - erewrite xbind_ret; [done|]. apply xmap_run. intros i Hi%elem_of_seqZ. unfold falcon_color.
    rewrite Z.shiftl_mul_pow2, (Z.mul_comm i) by lia. change (2 ^ 2) with 4. cbv zeta. rewrite !u32_small by lia.
    do 3 (erewrite xbind_ret by (apply do_get_mem_run, hw_ok; lia)). by rewrite !Z.add_assoc.
Qed.

Lemma mode_palette_length m : (length (mode_palette m) <= 256)%nat.
Proof. unfold mode_palette. destruct (st_palette m); rewrite length_fmap, length_seqZ; lia. Qed.

Definition colors_set m sf : Prop := ∀ i, (i < length (mode_palette m))%nat → sf.(sf_colors) !! i = mode_palette m !! i.

(** What [fits] says is about the surface and the list of checksums only. *)
Lemma fits_ext w h b c c' hs sf crcs : c'.(surface) = c.(surface) → c'.(crcList) = c.(crcList) →
  fits w h b c hs sf crcs → fits w h b c' hs sf crcs.
Proof. intros Es Ec []. split; congruence || done. Qed.

(** The first part of [refreshScreen]: a new palette marks everything. *)
Definition palette_part : X (machine VIDEL) unit :=
  let* up := vget updatePalette in
  xwhen up
    (refreshPalette HW ;;
     vmod (set_updatePalette false) ;;
     on_surface (λ h, set_hs_dirty (setDirtyRect 0 0 h.(clip_w) h.(clip_h) h.(hs_dirty)) h)).

Lemma palette_part_run s w hh b h sf crcs : 0 < w → 0 < hh → fits w hh b s.(dev) h sf crcs →
  ∃ s1 h1 sf1, palette_part s = (Ret tt, s1) ∧ s1.(mem) = s.(mem) ∧ fits w hh b s1.(dev) h1 sf1 crcs ∧
    sf1.(sf_pitch) = sf.(sf_pitch) ∧
    prevVidelWidth s1.(dev) = prevVidelWidth s.(dev) ∧ prevVidelHeight s1.(dev) = prevVidelHeight s.(dev) ∧
    prevVidelBpp s1.(dev) = prevVidelBpp s.(dev) ∧ updatePalette s1.(dev) = false ∧
    (if updatePalette s.(dev) then all_marked h1 ∧ (b = 8 → colors_set s.(mem) sf1) else s1 = s ∧ h1 = h ∧ sf1 = sf).
Proof.
  intros Hw Hh Hf. unfold palette_part. erewrite xbind_ret by done. destruct (updatePalette (dev s)) eqn:Eu; cbn [xwhen].
  2: { exists s, h, sf. auto 20. }
  erewrite xbind_ret by apply refreshPalette_run. destruct (sdl_palette (mode_palette (mem s)) 0 sf) as (l & El & Hl).
  pose proof Hf as [Es Ed Ec Eb [Ecw Ech] Ew Eh Hwide Hp Hhigh Hcol].
  assert (set_surface (setPalette (mode_palette (mem s)) 0 <$> surface (dev s)) (dev s) =
    set_surface (Some (set_hs_surface (Some (SDL_SetPaletteColors (mode_palette (mem s)) 0 sf)) h)) (dev s)) as ->.
  { rewrite Es. cbn [fmap option_fmap option_map]. unfold setPalette. by rewrite Ed. }
  erewrite xbind_ret by done. unfold on_surface, vmod, xmod. cbn [dev set_dev surface set_surface set_updatePalette fmap option_fmap option_map].
  eexists _, _, (SDL_SetPaletteColors (mode_palette (mem s)) 0 sf). split; [done|]. split; [done|]. split.
  { split; cbn [dev set_dev surface set_surface set_updatePalette crcList hs_dirty set_hs_dirty setDirtyRect dirtyW dirtyH clip_w clip_h set_hs_surface hs_surface];
      try done; rewrite El; unfold stride in *; cbn [sf_bpp sf_pitch sf_w sf_h sf_colors]; rewrite ?Hl; done. }
  split; [by rewrite El|]. do 3 (split; [done|]). split; [done|]. split.
  - intros bx by'. cbn [hs_dirty set_hs_dirty clip_w clip_h set_hs_surface]. rewrite Ecw, Ech. intros Hx Hy.
    apply (dirty_screen (hs_dirty h) bx by' w hh); [done|done|lia|lia|done|done].
  - intros Hb i Hi. apply (sdl_colors (mode_palette (mem s)) 0 sf i); [by rewrite Eb|lia|by apply Hcol|pose proof (mode_palette_length (mem s)); lia|done].
Qed.
(** ** The picture *)

(** The pixel at column [x] and line [y], and the checksum of a block, for a picture in
    memory [m'] in the mode of the registers in [m]. *)
Definition mode_dec m : gmap Z Z → Z → Z → Z :=
  if mode_bpp m =? 16 then copy_pixel else plane_pixel (mode_bpp m) (mode_hscroll m).
Definition mode_bytes m : Z := if mode_bpp m =? 16 then 32 else plane_bytes (mode_bpp m) (mode_hscroll m).
Definition mode_depth m : Z := if mode_bpp m <=? 8 then 8 else 16.
Definition video_pixel m m' (x y : Z) : Z := screen_pixel (mode_dec m) (mode_src m) (mode_bpp m) (mode_pitch m) m' x y.
Definition video_crc m m' (bx by' : Z) : Z := block_crc (mode_src m) (mode_bpp m) (mode_pitch m) (mode_height m) m' bx by'.
Definition video_line m : Z → Z → X (machine VIDEL) unit :=
  if mode_bpp m =? 16 then copy_line else plane_line be (mode_bpp m) (mode_hscroll m).

(** The picture lies in memory. *)
Definition video_readable m : Prop := readable (mode_bytes m) (mode_src m) (mode_bpp m) (mode_pitch m) (blocks_w m) (mode_height m).

(** The block of the pixels shows the picture in memory [m']. *)
Definition shows m m' sf (bx by' : Z) : Prop := ∀ x y, x / 16 = bx → y / 16 = by' → 0 <= x → 0 <= y < mode_height m →
  aget sf.(sf_pixels) (y * stride sf + x) = video_pixel m m' x y.

Lemma mode_depth_cases m : mode_depth m = 8 ∨ mode_depth m = 16.
Proof. unfold mode_depth. destruct (_ <=? _); auto. Qed.
Lemma mode_size m : 64 <= mode_width m ∧ 64 <= mode_height m.
Proof. unfold mode_width, mode_height. lia. Qed.

Lemma mode_drawable s h sf crcs : fits (mode_width s.(mem)) (mode_height s.(mem)) (mode_depth s.(mem)) s.(dev) h sf crcs →
  drawable s h sf (video_line s.(mem)) (mode_dec s.(mem)) (mode_bytes s.(mem)) (mode_bpp s.(mem)) (stride sf)
    (blocks_w s.(mem)) (blocks_h s.(mem)) (mode_height s.(mem)).
Proof.
  intros [Es Ed Ec Eb [Ecw Ech] Ew Eh Hwide Hp Hhigh Hcol]. pose proof (mode_size (mem s)) as [Hmw Hmh].
  pose proof (mode_bpp_cases (mem s)) as Hb. pose proof (mode_hscroll_range (mem s)). unfold blocks_w, blocks_h in *.
  rewrite !blocks_of_spec in * by lia. split; try done.
  - zdiv_lia.
  - zdiv_lia.
  - rewrite !elem_of_cons, elem_of_nil in Hb. lia.
  - unfold mode_bytes, plane_bytes. destruct (Z.eqb_spec (mode_bpp (mem s)) 16); [lia|].
    rewrite !elem_of_cons, elem_of_nil in Hb. destruct (_ =? 0); lia.
  - intros src dst px mk cr Hh Hd Hcnt. unfold video_line, mode_dec, mode_bytes in *.
    destruct (Z.eqb_spec (mode_bpp (mem s)) 16).
    + by apply copy_line_run.
    + apply plane_line_run; try done. rewrite !elem_of_cons, elem_of_nil in *. lia.
Qed.

(** The state is its own repainting. *)
Lemma repaint_self s w hh b h sf crcs : fits w hh b s.(dev) h sf crcs →
  s = repaint s h sf (blocks_of w * blocks_of hh) sf.(sf_pixels) h.(hs_dirty).(dirtyMarker) crcs.
Proof.
  intros [Es Ed Ec Eb [Ecw Ech] Ew Eh Hwide Hp Hhigh Hcol].
  destruct s as [? ? ? ? ? ? ? ? c]. cbn [dev] in *. unfold repaint. cbn [dev set_dev]. f_equal.
  destruct c; cbn in *. subst. unfold set_crcList, set_surface; cbn. do 2 f_equal.
  destruct h as [d ? ? ? ? ? ?]; cbn in *. subst. unfold set_hs_surface, set_hs_dirty; cbn. destruct d, sf; done.
Qed.

(** The second part of [refreshScreen]. *)
Definition drawing_part (sdl_surf : SDL_Surface) : X (machine VIDEL) unit :=
  let* videlBpp := getBpp HW in
  let* lineoffset := readW (HW +u 0x0e) in
  let* linewidth := readW (HW +u 0x10) in
  let linewidth := linewidth .& 0x03ff in
  let* hscroll := readW (HW +u 0x64) in
  let hscroll := hscroll .& 15 in
  let lineoffset := if hscroll =? 0 then lineoffset else lineoffset + videlBpp in
  let* src := getVramAddress HW in
  let src_pitch := linewidth + lineoffset in
  let dst_pitch := sdl_surf.(sf_pitch) in
  let* sf := vget surface in
  match sf with
  | None => xret tt
  | Some h =>
      let dirty_w := h.(hs_dirty).(dirtyW) in
      let dirty_h := h.(hs_dirty).(dirtyH) in
      if videlBpp =? 16
      then refresh_rows copy_line 16 src_pitch (dst_pitch >> 1) dirty_w h.(clip_h) (Z.to_nat dirty_h) 0 src 0
      else refresh_rows (plane_line be videlBpp hscroll) videlBpp src_pitch dst_pitch dirty_w h.(clip_h) (Z.to_nat dirty_h) 0 src 0
  end.

Lemma refreshScreen_parts s sf : sdl_of s.(dev) = Some sf → refreshScreen HW be s = (palette_part ;; drawing_part sf) s.
Proof.
  intros E. unfold refreshScreen. erewrite xbind_ret by done. rewrite E. unfold palette_part, xbind.
  cbn [vget xget]. destruct (xwhen _ _ s) as [[] ?]; done.
Qed.

Lemma drawing_part_run s h sf sdl_surf crcs : sdl_surf.(sf_pitch) = sf.(sf_pitch) →
  fits (mode_width s.(mem)) (mode_height s.(mem)) (mode_depth s.(mem)) s.(dev) h sf crcs →
  drawing_part sdl_surf s = refresh_rows (video_line s.(mem)) (mode_bpp s.(mem)) (mode_pitch s.(mem)) (stride sf)
    (blocks_w s.(mem)) (mode_height s.(mem)) (Z.to_nat (blocks_h s.(mem))) 0 (mode_src s.(mem)) 0 s.
Proof.
  intros Ep [Es Ed Ec Eb [Ecw Ech] Ew Eh Hwide Hp Hhigh Hcol]. unfold drawing_part.
  erewrite xbind_ret by apply getBpp_run. do 3 (erewrite xbind_ret by (by apply readW_run)). erewrite xbind_ret by apply getVramAddress_run.
  erewrite xbind_ret by done. rewrite Es, Ew, Eh, Ech, Ep. fold (mode_hscroll (mem s)).
  unfold video_line, stride. rewrite Eb. unfold mode_depth.
  pose proof (mode_bpp_cases (mem s)) as Hb. destruct (Z.eqb_spec (mode_bpp (mem s)) 16) as [E|N].
  - unfold mode_pitch. rewrite !E. done.
  - rewrite !elem_of_cons, elem_of_nil in Hb. rewrite (proj2 (Z.leb_le _ 8)) by lia. done.
Qed.
(** A block of a surface that fits the mode of the registers in [m]. *)
Definition in_screen m (bx by' : Z) : Prop := 0 <= bx < blocks_w m ∧ 0 <= by' < blocks_h m.
Definition block_mark m h (bx by' : Z) : Z := aget h.(hs_dirty).(dirtyMarker) (block_index (blocks_w m) bx by').

(** The blocks that are not marked show a picture with the checksum on record. *)
Definition shown m h sf (crcs : gmap Z Z) : Prop := ∀ bx by', in_screen m bx by' → block_mark m h bx by' = 0 →
  ∃ m', video_crc m m' bx by' = aget crcs (block_index (blocks_w m) bx by') ∧ shows m m' sf bx by'.

(** Memories with the same registers. *)
Definition same_mode m m2 : Prop := ∀ a, HW <= a < HW + 0xc4 → aget m a = aget m2 a.

Lemma shown_mode m m2 h sf crcs : same_mode m m2 → shown m h sf crcs → shown m2 h sf crcs.
Proof.
  intros E. assert (∀ a n, HW <= a → a + Z.of_nat n <= HW + 0xc4 → be_get n m a = be_get n m2 a) as Eg.
  { intros a n Ha Hn. apply be_get_ext. intros x Hx. apply E. lia. }
  assert (mode_bpp m = mode_bpp m2) as E1 by (unfold mode_bpp; by rewrite !Eg by lia).
  assert (mode_height m = mode_height m2) as E2 by (unfold mode_height; by rewrite !Eg by lia).
  assert (mode_hscroll m = mode_hscroll m2) as E3 by (unfold mode_hscroll; by rewrite !Eg by lia).
  assert (mode_pitch m = mode_pitch m2) as E4 by (unfold mode_pitch; by rewrite E1, E3, !Eg by lia).
  assert (mode_src m = mode_src m2) as E5 by (unfold mode_src; by rewrite !Eg by lia).
  assert (mode_width m = mode_width m2) as E6 by (unfold mode_width; by rewrite E1, !Eg by lia).
  unfold shown, in_screen, block_mark, shows, video_pixel, video_crc, mode_dec, blocks_w, blocks_h.
  by rewrite E1, E2, E3, E4, E5, E6.
Qed.

Lemma drawn_shows s h sf sdl_surf crcs : let m := s.(mem) in sdl_surf.(sf_pitch) = sf.(sf_pitch) →
  fits (mode_width m) (mode_height m) (mode_depth m) s.(dev) h sf crcs → video_readable m → shown m h sf crcs →
  ∃ h1 sf1 crcs1, drawing_part sdl_surf s = (Ret tt, repaint s h sf (blocks_w m * blocks_h m) sf1.(sf_pixels) h1.(hs_dirty).(dirtyMarker) crcs1) ∧
    h1 = set_hs_surface (Some sf1) (set_hs_dirty (set_marker h1.(hs_dirty).(dirtyMarker) h.(hs_dirty)) h) ∧
    sf1 = with_pixels sf sf1.(sf_pixels) ∧
    ∀ bx by', in_screen m bx by' →
      aget crcs1 (block_index (blocks_w m) bx by') = video_crc m m bx by' ∧
      (block_mark m h bx by' = 1 → block_mark m h1 bx by' = 1) ∧
      ∃ m', video_crc m m' bx by' = video_crc m m bx by' ∧ shows m m' sf1 bx by' ∧ (block_mark m h1 bx by' ≠ 0 → m' = m).
Proof.
  intros m Ep Hf Hr Hs. subst m. rewrite (drawing_part_run s h sf sdl_surf crcs Ep Hf).
  pose proof (mode_drawable s h sf crcs Hf) as Hd.
  destruct (refresh_all s h sf _ _ _ _ _ _ _ _ _ _ Hd Hr (sf_pixels sf) (dirtyMarker (hs_dirty h)) crcs) as (px & mk & cr & E & Hdone).
  unfold blocks_w, blocks_h in E. rewrite <-(repaint_self s _ _ _ _ _ _ Hf) in E.
  set (m := mem s) in *.
  exists (set_hs_surface (Some (with_pixels sf px)) (set_hs_dirty (set_marker mk (hs_dirty h)) h)), (with_pixels sf px), cr.
  split; [exact E|]. split; [done|]. split; [done|]. destruct Hdone as [Dp Dm Dc]. intros bx by' [Hbx Hby]. split; [by apply Dc|].
  unfold block_mark. cbn [hs_dirty set_hs_surface set_hs_dirty set_marker dirtyMarker]. rewrite Dm by done.
  split; [intros ->; by destruct (changed _ _ _ _ _ _ _ _ _)|].
  assert (∀ x y, x / 16 = bx → y / 16 = by' → 0 <= x → 0 <= y < mode_height m → 0 <= x < 16 * blocks_w m) as Hin by (intros; zdiv_lia).
  destruct (redrawn s (mode_src m) (mode_bpp m) (mode_pitch m) (blocks_w m) (mode_height m) (dirtyMarker (hs_dirty h)) crcs bx by') eqn:Er.
  - exists m. split; [done|]. split; [|done]. intros x y Hx Hy Hx0 Hyr.
    change (stride (with_pixels sf px)) with (stride sf). cbn [sf_pixels with_pixels]. rewrite Dp by eauto.
    subst bx by'. by rewrite Er.
  - unfold redrawn in Er. apply orb_false_iff in Er as [Ec Em]. apply negb_false_iff, Z.eqb_eq in Em. rewrite Ec, Em.
    destruct (Hs bx by' (conj Hbx Hby) Em) as (m' & Ecrc & Hsh). exists m'. split; [|split; [|done]].
    + rewrite Ecrc. unfold changed in Ec. by apply negb_false_iff, Z.eqb_eq in Ec.
    + intros x y Hx Hy Hx0 Hyr. change (stride (with_pixels sf px)) with (stride sf). cbn [sf_pixels with_pixels]. rewrite Dp by eauto.
      unfold redrawn. subst bx by'. rewrite Ec, Em. by apply Hsh.
Qed.
(** [getSurface] up to the drawing. *)
Lemma getSurface_prepare s : let m := s.(mem) in
  let c := fit_surface (mode_width m) (mode_height m) (mode_depth m) s.(dev) in
  let c := if (c.(prevVidelBpp) =? 16) && negb (mode_depth m =? 16) then set_updatePalette true c else c in
  getSurface HW be rescale s =
    (refreshScreen HW be ;; xwhen rescale (on_surface (setParam SURF_DRAW DRAW_RESCALE)))
      (set_dev (set_prev (mode_width m) (mode_height m) (mode_depth m) c) s).
Proof.
  intros m c c'. unfold getSurface. erewrite xbind_ret by apply getBpp_run. erewrite xbind_ret by apply getWidth_run.
  destruct (getHeight_run s) as (y & E & Ey). erewrite xbind_ret by exact E. cbv zeta. rewrite Ey.
  fold (mode_width (mem s)). fold (mode_depth (mem s)). by do 3 (erewrite xbind_ret by done).
Qed.

(** The state after drawing. *)
Lemma repaint_fits s w hh b h sf crcs px mk cr : fits w hh b s.(dev) h sf crcs →
  fits w hh b (repaint s h sf (blocks_of w * blocks_of hh) px mk cr).(dev)
    (set_hs_surface (Some (with_pixels sf px)) (set_hs_dirty (set_marker mk h.(hs_dirty)) h)) (with_pixels sf px) cr.
Proof. by intros []. Qed.

Lemma rescale_run s w hh b h sf crcs : fits w hh b s.(dev) h sf crcs → ∃ s' h',
  xwhen rescale (on_surface (setParam SURF_DRAW DRAW_RESCALE)) s = (Ret tt, s') ∧ s'.(mem) = s.(mem) ∧
  fits w hh b s'.(dev) h' sf crcs ∧ h'.(hs_dirty) = h.(hs_dirty) ∧
  prevVidelWidth s'.(dev) = prevVidelWidth s.(dev) ∧ prevVidelHeight s'.(dev) = prevVidelHeight s.(dev) ∧
  prevVidelBpp s'.(dev) = prevVidelBpp s.(dev).
Proof.
  intros Hf. destruct rescale; cbn [xwhen]; [|by exists s, h]. destruct Hf as [Es Ed Ec Eb Ecl Ew Eh Hwide Hp Hhigh Hcol].
  eexists _, (setParam SURF_DRAW DRAW_RESCALE h). split; [done|]. split; [done|].
  split; [|done]. by split; cbn [dev set_dev set_surface surface crcList]; rewrite ?Es.
Qed.

Lemma fit_keeps w hh b c : updatePalette (fit_surface w hh b c) = updatePalette c ∧ prevVidelBpp (fit_surface w hh b c) = prevVidelBpp c.
Proof.
  unfold fit_surface. destruct (surface c) eqn:Es; cbv zeta;
    repeat match goal with |- context [if ?b then _ else _] => destruct b end; cbn [surface set_surface set_crcList crcList];
    repeat match goal with |- context [match ?x with Some _ => _ | None => _ end] => destruct x end; done.
Qed.

Lemma all_marked_block m c h sf crcs bx by' : fits (mode_width m) (mode_height m) (mode_depth m) c h sf crcs → all_marked h →
  in_screen m bx by' → block_mark m h bx by' = 1.
Proof.
  intros Hf Hall [Hx Hy]. unfold block_mark, block_index. rewrite <-(ft_w _ _ _ _ _ _ _ Hf : _ = blocks_w m).
  apply Hall; [by rewrite (ft_w _ _ _ _ _ _ _ Hf)|by rewrite (ft_h _ _ _ _ _ _ _ Hf)].
Qed.

(** The rest of [getSurface]: the blocks are drawn and the host screen is told. *)
Lemma draw_rescale s h sf sdl_surf crcs : let m := s.(mem) in sdl_surf.(sf_pitch) = sf.(sf_pitch) →
  fits (mode_width m) (mode_height m) (mode_depth m) s.(dev) h sf crcs → video_readable m → shown m h sf crcs →
  ∃ s' h1 sf1 crcs1, (drawing_part sdl_surf ;; xwhen rescale (on_surface (setParam SURF_DRAW DRAW_RESCALE))) s = (Ret tt, s') ∧
    s'.(mem) = m ∧ fits (mode_width m) (mode_height m) (mode_depth m) s'.(dev) h1 sf1 crcs1 ∧ sf1 = with_pixels sf sf1.(sf_pixels) ∧
    prevVidelWidth s'.(dev) = prevVidelWidth s.(dev) ∧ prevVidelHeight s'.(dev) = prevVidelHeight s.(dev) ∧
    prevVidelBpp s'.(dev) = prevVidelBpp s.(dev) ∧
    ∀ bx by', in_screen m bx by' →
      aget crcs1 (block_index (blocks_w m) bx by') = video_crc m m bx by' ∧
      (block_mark m h bx by' = 1 → block_mark m h1 bx by' = 1) ∧
      ∃ m', video_crc m m' bx by' = video_crc m m bx by' ∧ shows m m' sf1 bx by' ∧ (block_mark m h1 bx by' ≠ 0 → m' = m).
Proof.
  intros m Ep Hf Hr Hs. destruct (drawn_shows s h sf sdl_surf crcs Ep Hf Hr Hs) as (h4 & sf4 & crcs4 & E4 & Eh4 & Esf4 & Hblk).
  assert (h4 = set_hs_surface (Some (with_pixels sf (sf_pixels sf4))) (set_hs_dirty (set_marker (dirtyMarker (hs_dirty h4)) (hs_dirty h)) h)) as Eh4'
    by (by rewrite <-Esf4).
  pose proof (repaint_fits _ _ _ _ _ _ _ (sf_pixels sf4) (dirtyMarker (hs_dirty h4)) crcs4 Hf) as Hf4. rewrite <-Eh4', <-Esf4 in Hf4.
  destruct (rescale_run _ _ _ _ _ _ _ Hf4) as (s5 & h5 & E5 & Em5 & Hf5 & Ed5 & Epw5 & Eph5 & Epb5).
  exists s5, h5, sf4, crcs4. split; [by rewrite (xbind_ret _ _ _ _ _ E4)|]. rewrite Epw5, Eph5, Epb5. split_and!; try done.
  intros bx by' Hin. unfold block_mark. rewrite Ed5. exact (Hblk bx by' Hin).
Qed.

(** C6: After [getSurface] every block of the surface shows the picture of a memory that has
    the Adler-32 checksum of the block in the video memory; it is the video memory itself
    in the blocks the host still has to copy to its screen, and in all blocks after a
    change of the mode or of the palette.  This gives back the assumption for the next
    frame in the same mode, whatever the guest writes to memory and with any marks.  If an update of the palette was asked for and the surface has 8 bits per pixel, its
    colours become those of the registers.  Assumed: the width of the mode is a multiple of 16 (else stores leave the surface, see
    [narrow_surface_overrun]), the video memory is readable, the surface and the checksums have the sizes of the last mode ([videl_ok]), and if that is still the mode, each block
    shows a memory with its checksum ([shown]).  Under these assumptions no store leaves the surface. *)
Theorem screen_up_to_date s : let m := s.(mem) in
  videl_ok s.(dev) → mode_width m mod 16 = 0 → video_readable m →
  (∀ h sf crcs, fits (mode_width m) (mode_height m) (mode_depth m) s.(dev) h sf crcs → shown m h sf crcs) →
  ∃ s' h sf crcs, getSurface HW be rescale s = (Ret tt, s') ∧ s'.(mem) = m ∧ videl_ok s'.(dev) ∧
    fits (mode_width m) (mode_height m) (mode_depth m) s'.(dev) h sf crcs ∧
    (updatePalette s.(dev) = true → mode_depth m = 8 → colors_set m sf) ∧
    (∀ h' m2, same_mode m m2 → shown m2 h' sf crcs) ∧
    ∀ bx by', in_screen m bx by' → aget crcs (block_index (blocks_w m) bx by') = video_crc m m bx by' ∧
      ∃ m', video_crc m m' bx by' = video_crc m m bx by' ∧ shows m m' sf bx by' ∧
        (block_mark m h bx by' ≠ 0 ∨ updatePalette s.(dev) = true ∨
         (prevVidelWidth s.(dev), prevVidelHeight s.(dev), prevVidelBpp s.(dev)) ≠ (mode_width m, mode_height m, mode_depth m) → m' = m).
Proof.
  intros m Hok Hw16 Hr Hsh. pose proof (mode_size m) as [Hmw Hmh]. pose proof (mode_depth_cases m) as Hdep.
  destruct (fit_surface_ok (mode_width m) (mode_height m) (mode_depth m) s.(dev) Hok ltac:(lia) ltac:(lia) Hw16 Hdep)
    as (h & sf & crcs & Hf & Hsame). destruct (fit_keeps (mode_width m) (mode_height m) (mode_depth m) s.(dev)) as [Eup1 Epb1].
  rewrite getSurface_prepare. cbv zeta. fold m. set (c1 := fit_surface _ _ _ _) in *.
  match goal with |- context [set_prev _ _ _ ?x] => set (c2 := x) end. set (s2 := set_dev (set_prev _ _ _ c2) s).
  assert (fits (mode_width m) (mode_height m) (mode_depth m) s2.(dev) h sf crcs) as Hf2.
  { eapply fits_ext; [| |exact Hf]; subst c2 s2; cbn [dev set_dev]; by destruct (_ && _). }
  assert (updatePalette s.(dev) = true → updatePalette s2.(dev) = true) as Hup2.
  { intros Hu. subst s2 c2. cbn [dev set_dev]. destruct (_ && _); [done|]. cbn. by rewrite Eup1. }
  destruct (palette_part_run s2 (mode_width m) (mode_height m) (mode_depth m) h sf crcs ltac:(lia) ltac:(lia) Hf2)
    as (s3 & h3 & sf3 & E3 & Em3 & Hf3 & Epi & Epw & Eph & Epb & Eup & Hcase).
  change (mem s2) with m in Em3, Hcase.
  assert (all_marked h3 ∨ updatePalette s2.(dev) = false ∧ h3 = h ∧ sf3 = sf ∧ c1 = s.(dev) ∧
    (prevVidelWidth s.(dev), prevVidelHeight s.(dev), prevVidelBpp s.(dev)) = (mode_width m, mode_height m, mode_depth m)) as Hall.
  { destruct (updatePalette (dev s2)); [by left; destruct Hcase|]. destruct Hcase as (_ & -> & ->).
    destruct Hsame as [[E1 E2]|Hm]; [|by left]. right. auto. }
  assert (shown m h3 sf3 crcs) as Hsh3.
  { destruct Hall as [Hm|(_ & -> & -> & E1 & _)].
    - intros bx by' Hin H0. by rewrite (all_marked_block m _ _ _ _ _ _ Hf3 Hm Hin) in H0.
    - apply Hsh. by rewrite <-E1. }
  rewrite <-Em3 in Hf3, Hr, Hsh3.
  destruct (draw_rescale s3 h3 sf3 sf crcs (eq_sym Epi) Hf3 Hr Hsh3) as (s5 & h5 & sf4 & crcs4 & E & Em5 & Hf5 & Esf4 & Epw5 & Eph5 & Epb5 & Hblk).
  rewrite Em3 in *. exists s5, h5, sf4, crcs4. split.
  { rewrite <-E. unfold xbind at 1. rewrite (refreshScreen_parts s2 sf), (xbind_ret _ _ _ _ _ E3); [done|].
    unfold sdl_of. rewrite (ft_surface _ _ _ _ _ _ _ Hf2). apply Hf2. }
  split; [done|]. split.
  { right. exists h5, sf4, crcs4. rewrite Epw5, Eph5, Epb5, Epw, Eph, Epb. split; [exact Hf5|]. split; [done|]. split; cbn; lia. }
  split; [exact Hf5|]. split.
  { intros Hu Hd8. rewrite (Hup2 Hu) in Hcase. destruct Hcase as [_ Hcol]. rewrite Esf4. by apply Hcol. }
  split.
  { intros h' m2 Hm2. apply (shown_mode m m2); [done|]. intros bx by' Hin H0. destruct (Hblk bx by' Hin) as (Ec & _ & m' & Ec' & Hs' & _). exists m'. by rewrite Ec. }
  intros bx by' Hin. destruct (Hblk bx by' Hin) as (Ec & Hm1 & m' & Ec' & Hs' & Hm'). split; [done|]. exists m'. split; [done|]. split; [done|].
  intros [H0|Hch]; [by apply Hm'|]. apply Hm'. rewrite Hm1; [done|].
  destruct Hall as [Hall|(Eu & _ & _ & _ & Eprev)].
  - exact (all_marked_block m _ _ _ _ _ _ Hf3 Hall Hin).
  - exfalso. destruct Hch as [Hu|Hne]; [|by apply Hne]. by rewrite (Hup2 Hu) in Eu.
Qed.
End Screen.

(** ** A screen

    The theorem of [VidelScreen] on a machine whose screen has 64 by 64 pixels in four
    planes, and where the code does not do what it means to. *)

Local Instance screen_config : Config := {| FastRAM_SIZE := 0x1000000; VideoRAMBase := 0xf0000000; ARAM_PAGE_CHECK := true |}.
Local Instance screen_config_ok : ConfigOk.
Proof. by split. Qed.

(** Surfaces whose lines are aligned to four bytes. *)
Local Instance plain_sdl : SDL := {|
  SDL_CreateRGBSurface w h bpp masks :=
    Some (Surface w h ((w * (bpp / 8) + 3) / 4 * 4) bpp masks ∅ (if bpp =? 8 then replicate 256 (0, 0, 0) else []));
  SDL_SetPaletteColors colors first sf :=
    let old := sf.(sf_colors) in
    let l := take (length old) (take (Z.to_nat first) old ++ colors ++ drop (Z.to_nat first + length colors) old) in
    Surface sf.(sf_w) sf.(sf_h) sf.(sf_pitch) sf.(sf_bpp) sf.(sf_masks) sf.(sf_pixels)
      (if sf.(sf_bpp) =? 8 then if (Z.to_nat first + length colors <=? length old)%nat then l else old else old);
|}.
Local Instance plain_sdl_ok : SDLOk.
Proof.
  split.
  - intros w h bpp masks Hw Hh Hb. eexists. do 4 (split; [done|]). split; [cbn [sf_pitch]; Z.to_euclidean_division_equations; lia|].
    by intros ->.
  - intros colors first sf. cbn [SDL_SetPaletteColors plain_sdl]. eexists. split; [done|].
    destruct (_ =? 8); [|done]. destruct (Nat.leb_spec (Z.to_nat first + length colors) (length (sf_colors sf))); [|done].
    rewrite length_take, !length_app, length_take, length_drop. lia.
  - intros colors first sf i E8 Hf Hl Hle Hi. cbn [SDL_SetPaletteColors plain_sdl sf_colors]. rewrite E8, Hl. cbn [Z.eqb Pos.eqb].
    rewrite (proj2 (Nat.leb_le _ _)) by lia. rewrite lookup_take_lt by lia. rewrite lookup_app_r; rewrite length_take; [|lia].
    rewrite lookup_app_l by lia. f_equal. lia.
Qed.

(** The registers of a screen at address 0x10000 with [words] words per line. *)
Definition video_registers (words : Z) : gmap Z Z :=
  be_put 1 0xff8201 1 (be_put 2 0xff8210 words (be_put 2 0xff82aa 128 ∅)).

Definition new_videl : VIDEL := Videl None (-1) (-1) (-1) false None 1 1.
Definition screen_machine (m : gmap Z Z) : machine VIDEL :=
  Machine (Regs (λ _, 0) true 0 0 0 0 0 false false 0 0 0 0 0 0 0 0 0) m
    (λ _, Line 0 false false false false false false false false 0)
    (λ _ _, Line 0 false false false false false false false false 0) true 0xeeeeeeee 0xeeeeeeee 0 new_videl.

Abbreviation frame := (getSurface 0xff8200 false false).

Example first_mode : let m := video_registers 16 in
  (mode_bpp m, mode_width m, mode_height m, mode_src m, mode_pitch m, mode_hscroll m) = (4, 64, 64, 0x10000, 16, 0).
Proof. by vm_compute. Qed.

Lemma in_first bx by' : 0 <= bx < 4 → 0 <= by' < 4 → in_screen (video_registers 16) bx by'.
Proof. done. Qed.

Lemma screen_up_to_date_witness : ∃ s' h sf crcs, let m := video_registers 16 in
  frame (screen_machine m) = (Ret tt, s') ∧
  fits (mode_width m) (mode_height m) (mode_depth m) s'.(dev) h sf crcs ∧ shows m m sf 3 2.
Proof.
  destruct (screen_up_to_date false false (screen_machine (video_registers 16))) as (s' & h & sf & crcs & E & _ & _ & Hf & _ & _ & Hb).
  - by left.
  - by vm_compute.
  - intros bx Y Hx Hy. change (blocks_w _) with 4 in Hx. change (mode_height _) with 64 in Hy.
    unfold line_addr. change (mode_src _) with 0x10000. change (mode_pitch _) with 16. change (mode_bpp _) with 4. change (mode_bytes _) with 8.
    apply hw_ok; lia.
  - intros h sf crcs Hf. discriminate (ft_surface _ _ _ _ _ _ _ Hf).
  - exists s', h, sf, crcs. split; [exact E|]. split; [exact Hf|].
    destruct (Hb 3 2 (in_first 3 2 ltac:(lia) ltac:(lia))) as (_ & m' & _ & Hs & Hm).
    rewrite Hm in Hs; [exact Hs|]. right; right. discriminate.
Defined.

(** ** Where the picture is not that of the video memory *)

Definition after (r : xout unit * machine VIDEL) : machine VIDEL := r.2.
Definition pixel_at (s : machine VIDEL) (x y : Z) : option Z :=
  sf ← sdl_of s.(dev); Some (aget sf.(sf_pixels) (y * stride sf + x)).
(** The host copies the surface to its screen and clears the marks. *)
Definition copied (s : machine VIDEL) : machine VIDEL :=
  set_dev (set_surface ((λ h, set_hs_dirty (clearDirtyRects h.(hs_dirty)) h) <$> s.(dev).(surface)) s.(dev)) s.
(** The guest stores a byte. *)
Definition stored (a v : Z) (s : machine VIDEL) : machine VIDEL := set_mem (aset a v s.(mem)) s.

(** The first surface has the exact width, but blocks of 16 pixels are drawn: with 72 pixels
    per line the last block leaves the surface. *)
Lemma narrow_surface_overrun : mode_width (video_registers 18) = 72 ∧
  (frame (screen_machine (video_registers 18))).1 = Undef Oob_host.
Proof. split; by vm_compute. Qed.

(** Scrolled by one pixel, a block shows a pixel of its right neighbour, which its checksum
    does not cover: the first plane of block 1 changes, and block 0 is not redrawn. *)
Definition scrolled_screen : machine VIDEL :=
  copied (after (frame (screen_machine (be_put 2 0xff8264 1 (video_registers 16))))).
Lemma scrolled_neighbour_stale :
  let s := after (frame (stored 0x10008 0x80 scrolled_screen)) in
  pixel_at s 15 0 = Some 0 ∧ video_pixel s.(mem) s.(mem) 15 0 = 1.
Proof. split; by vm_compute. Qed.

(** Three bytes that change by 1, -2 and 1 leave the checksum as it is, and the block is not
    redrawn. *)
Definition collision_screen : machine VIDEL :=
  copied (after (frame (screen_machine (be_put 4 0x10000 0x00020000 (video_registers 16))))).
Lemma checksum_collision_stale :
  let s := after (frame (stored 0x10000 1 (stored 0x10001 0 (stored 0x10002 1 collision_screen)))) in
  pixel_at s 14 0 = Some 1 ∧ video_pixel s.(mem) s.(mem) 14 0 = 0.
Proof. split; by vm_compute. Qed.

(** The lowest bit of a colour of the STe, which is bit 3 of the register, is lost. *)
Lemma ste_low_bit_lost c : 0 <= c < 8 → ste_component (c + 8) = ste_component c.
Proof. intros Hc. all_below c 8; done. Qed.

(** A video mode with a horizontal aspect that has no meaning doubles the aspect of the
    last mode each time it is written (a word is written as two bytes). *)
Lemma aspect_runaway :
  let write_mode s := after (base_handleWriteW (videl_handleWrite 0xff8200 0) 0xff82c2 0x0e s) in
  let s := write_mode (write_mode (screen_machine ∅)) in
  (s.(dev).(aspect_x), s.(dev).(aspect_y)) = (32, 1).
Proof. by vm_compute. Qed.
