(* ===== verification/M68k.v ===== *)
(** * M68k: the processor

    Models [src/uae_cpu/newcpu.cpp] with [registers.h], [newcpu.h], [spcflags.h] and the
    portable part of [m68k.h]: bit fields, effective addresses, the status register,
    exceptions and their return, control registers, long multiplication and division,
    interrupts, and the loop around the instructions.  The instructions themselves are
    generated by [gencpu.c] during the build; their table [cpufunctbl] is an argument.

    Configuration: [FULLMMU], no JIT compiler, C++ exceptions, 64-bit integers; the code
    for hosts without them ([div_unsigned], [mul_unsigned]) is modelled, too.  What the host does
    in a call ([EmulOp], [nf_call], [rts68000]) and the reset of the FPU are arguments. *)

From S2P Require Import Prelude Throws Machine Mmu.
From stdpp Require Import base gmap list numbers.
Open Scope Z_scope.
Open Scope c_scope.
Open Scope x_scope.

(** ** State *)

Record flag_struct := Flags { CFLG : bool; ZFLG : bool; NFLG : bool; VFLG : bool; XFLG : bool }.
Definition SET_CFLG (b : bool) (f : flag_struct) : flag_struct := Flags b f.(ZFLG) f.(NFLG) f.(VFLG) f.(XFLG).
Definition SET_ZFLG (b : bool) (f : flag_struct) : flag_struct := Flags f.(CFLG) b f.(NFLG) f.(VFLG) f.(XFLG).
Definition SET_NFLG (b : bool) (f : flag_struct) : flag_struct := Flags f.(CFLG) f.(ZFLG) b f.(VFLG) f.(XFLG).
Definition SET_VFLG (b : bool) (f : flag_struct) : flag_struct := Flags f.(CFLG) f.(ZFLG) f.(NFLG) b f.(XFLG).
Definition SET_XFLG (b : bool) (f : flag_struct) : flag_struct := Flags f.(CFLG) f.(ZFLG) f.(NFLG) f.(VFLG) b.

(** The processor: [regstruct] and the static variables around it. *)
Record m68k (D : Type) := M68k {
  mach : machine D;  (* the MMU, memory, [spcflags], [regs[8..15]] and [s] *)
  dregs : Z → Z;  (* [regs[0..7]] *)
  usp : Z;
  isp : Z;
  msp : Z;
  sr : Z;
  t1 : bool;
  t0 : bool;
  mflag : bool;  (* [m] *)
  stopped : bool;
  intmask : Z;
  pc : Z;
  fault_pc : Z;
  vbr : Z;
  cacr : Z;
  caar : Z;
  flags : flag_struct;  (* [regflags] *)
  fixup : option (Z * Z);  (* [fixup]: register and value, if its flag is set *)
  last_addr_for_exception_3 : Z;
  last_fault_for_exception_3 : Z;
  last_trace_ad : Z;
  quit_program : Z;
}.
Arguments M68k {D} _ _ _ _ _ _ _ _ _ _ _ _ _ _ _ _ _ _ _ _ _ _.
Arguments mach {D} _.
Arguments dregs {D} _.
Arguments usp {D} _.
Arguments isp {D} _.
Arguments msp {D} _.
Arguments sr {D} _.
Arguments t1 {D} _.
Arguments t0 {D} _.
Arguments mflag {D} _.
Arguments stopped {D} _.
Arguments intmask {D} _.
Arguments pc {D} _.
Arguments fault_pc {D} _.
Arguments vbr {D} _.
Arguments cacr {D} _.
Arguments caar {D} _.
Arguments flags {D} _.
Arguments fixup {D} _.
Arguments last_addr_for_exception_3 {D} _.
Arguments last_fault_for_exception_3 {D} _.
Arguments last_trace_ad {D} _.
Arguments quit_program {D} _.

Section Setters.
Context {D : Type}.
Definition w_mach (v : machine D) (c : m68k D) : m68k D :=
  M68k v c.(dregs) c.(usp) c.(isp) c.(msp) c.(sr) c.(t1) c.(t0) c.(mflag) c.(stopped) c.(intmask) c.(pc)
    c.(fault_pc) c.(vbr) c.(cacr) c.(caar) c.(flags) c.(fixup) c.(last_addr_for_exception_3)
    c.(last_fault_for_exception_3) c.(last_trace_ad) c.(quit_program).
Definition w_dregs (v : Z → Z) (c : m68k D) : m68k D :=
  M68k c.(mach) v c.(usp) c.(isp) c.(msp) c.(sr) c.(t1) c.(t0) c.(mflag) c.(stopped) c.(intmask) c.(pc)
    c.(fault_pc) c.(vbr) c.(cacr) c.(caar) c.(flags) c.(fixup) c.(last_addr_for_exception_3)
    c.(last_fault_for_exception_3) c.(last_trace_ad) c.(quit_program).
Definition w_usp (v : Z) (c : m68k D) : m68k D :=
  M68k c.(mach) c.(dregs) v c.(isp) c.(msp) c.(sr) c.(t1) c.(t0) c.(mflag) c.(stopped) c.(intmask) c.(pc)
    c.(fault_pc) c.(vbr) c.(cacr) c.(caar) c.(flags) c.(fixup) c.(last_addr_for_exception_3)
    c.(last_fault_for_exception_3) c.(last_trace_ad) c.(quit_program).
Definition w_isp (v : Z) (c : m68k D) : m68k D :=
  M68k c.(mach) c.(dregs) c.(usp) v c.(msp) c.(sr) c.(t1) c.(t0) c.(mflag) c.(stopped) c.(intmask) c.(pc)
    c.(fault_pc) c.(vbr) c.(cacr) c.(caar) c.(flags) c.(fixup) c.(last_addr_for_exception_3)
    c.(last_fault_for_exception_3) c.(last_trace_ad) c.(quit_program).
Definition w_msp (v : Z) (c : m68k D) : m68k D :=
  M68k c.(mach) c.(dregs) c.(usp) c.(isp) v c.(sr) c.(t1) c.(t0) c.(mflag) c.(stopped) c.(intmask) c.(pc)
    c.(fault_pc) c.(vbr) c.(cacr) c.(caar) c.(flags) c.(fixup) c.(last_addr_for_exception_3)
    c.(last_fault_for_exception_3) c.(last_trace_ad) c.(quit_program).
Definition w_sr (v : Z) (c : m68k D) : m68k D :=
  M68k c.(mach) c.(dregs) c.(usp) c.(isp) c.(msp) v c.(t1) c.(t0) c.(mflag) c.(stopped) c.(intmask) c.(pc)
    c.(fault_pc) c.(vbr) c.(cacr) c.(caar) c.(flags) c.(fixup) c.(last_addr_for_exception_3)
    c.(last_fault_for_exception_3) c.(last_trace_ad) c.(quit_program).
Definition w_t1 (v : bool) (c : m68k D) : m68k D :=
  M68k c.(mach) c.(dregs) c.(usp) c.(isp) c.(msp) c.(sr) v c.(t0) c.(mflag) c.(stopped) c.(intmask) c.(pc)
    c.(fault_pc) c.(vbr) c.(cacr) c.(caar) c.(flags) c.(fixup) c.(last_addr_for_exception_3)
    c.(last_fault_for_exception_3) c.(last_trace_ad) c.(quit_program).
Definition w_t0 (v : bool) (c : m68k D) : m68k D :=
  M68k c.(mach) c.(dregs) c.(usp) c.(isp) c.(msp) c.(sr) c.(t1) v c.(mflag) c.(stopped) c.(intmask) c.(pc)
    c.(fault_pc) c.(vbr) c.(cacr) c.(caar) c.(flags) c.(fixup) c.(last_addr_for_exception_3)
    c.(last_fault_for_exception_3) c.(last_trace_ad) c.(quit_program).
Definition w_mflag (v : bool) (c : m68k D) : m68k D :=
  M68k c.(mach) c.(dregs) c.(usp) c.(isp) c.(msp) c.(sr) c.(t1) c.(t0) v c.(stopped) c.(intmask) c.(pc)
    c.(fault_pc) c.(vbr) c.(cacr) c.(caar) c.(flags) c.(fixup) c.(last_addr_for_exception_3)
    c.(last_fault_for_exception_3) c.(last_trace_ad) c.(quit_program).
Definition w_stopped (v : bool) (c : m68k D) : m68k D :=
  M68k c.(mach) c.(dregs) c.(usp) c.(isp) c.(msp) c.(sr) c.(t1) c.(t0) c.(mflag) v c.(intmask) c.(pc)
    c.(fault_pc) c.(vbr) c.(cacr) c.(caar) c.(flags) c.(fixup) c.(last_addr_for_exception_3)
    c.(last_fault_for_exception_3) c.(last_trace_ad) c.(quit_program).
Definition w_intmask (v : Z) (c : m68k D) : m68k D :=
  M68k c.(mach) c.(dregs) c.(usp) c.(isp) c.(msp) c.(sr) c.(t1) c.(t0) c.(mflag) c.(stopped) v c.(pc)
    c.(fault_pc) c.(vbr) c.(cacr) c.(caar) c.(flags) c.(fixup) c.(last_addr_for_exception_3)
    c.(last_fault_for_exception_3) c.(last_trace_ad) c.(quit_program).
Definition w_pc (v : Z) (c : m68k D) : m68k D :=
  M68k c.(mach) c.(dregs) c.(usp) c.(isp) c.(msp) c.(sr) c.(t1) c.(t0) c.(mflag) c.(stopped) c.(intmask) v
    c.(fault_pc) c.(vbr) c.(cacr) c.(caar) c.(flags) c.(fixup) c.(last_addr_for_exception_3)
    c.(last_fault_for_exception_3) c.(last_trace_ad) c.(quit_program).
Definition w_fault_pc (v : Z) (c : m68k D) : m68k D :=
  M68k c.(mach) c.(dregs) c.(usp) c.(isp) c.(msp) c.(sr) c.(t1) c.(t0) c.(mflag) c.(stopped) c.(intmask)
    c.(pc) v c.(vbr) c.(cacr) c.(caar) c.(flags) c.(fixup) c.(last_addr_for_exception_3)
    c.(last_fault_for_exception_3) c.(last_trace_ad) c.(quit_program).
Definition w_vbr (v : Z) (c : m68k D) : m68k D :=
  M68k c.(mach) c.(dregs) c.(usp) c.(isp) c.(msp) c.(sr) c.(t1) c.(t0) c.(mflag) c.(stopped) c.(intmask)
    c.(pc) c.(fault_pc) v c.(cacr) c.(caar) c.(flags) c.(fixup) c.(last_addr_for_exception_3)
    c.(last_fault_for_exception_3) c.(last_trace_ad) c.(quit_program).
Definition w_cacr (v : Z) (c : m68k D) : m68k D :=
  M68k c.(mach) c.(dregs) c.(usp) c.(isp) c.(msp) c.(sr) c.(t1) c.(t0) c.(mflag) c.(stopped) c.(intmask)
    c.(pc) c.(fault_pc) c.(vbr) v c.(caar) c.(flags) c.(fixup) c.(last_addr_for_exception_3)
    c.(last_fault_for_exception_3) c.(last_trace_ad) c.(quit_program).
Definition w_caar (v : Z) (c : m68k D) : m68k D :=
  M68k c.(mach) c.(dregs) c.(usp) c.(isp) c.(msp) c.(sr) c.(t1) c.(t0) c.(mflag) c.(stopped) c.(intmask)
    c.(pc) c.(fault_pc) c.(vbr) c.(cacr) v c.(flags) c.(fixup) c.(last_addr_for_exception_3)
    c.(last_fault_for_exception_3) c.(last_trace_ad) c.(quit_program).
Definition w_flags (v : flag_struct) (c : m68k D) : m68k D :=
  M68k c.(mach) c.(dregs) c.(usp) c.(isp) c.(msp) c.(sr) c.(t1) c.(t0) c.(mflag) c.(stopped) c.(intmask)
    c.(pc) c.(fault_pc) c.(vbr) c.(cacr) c.(caar) v c.(fixup) c.(last_addr_for_exception_3)
    c.(last_fault_for_exception_3) c.(last_trace_ad) c.(quit_program).
Definition w_fixup (v : option (Z * Z)) (c : m68k D) : m68k D :=
  M68k c.(mach) c.(dregs) c.(usp) c.(isp) c.(msp) c.(sr) c.(t1) c.(t0) c.(mflag) c.(stopped) c.(intmask)
    c.(pc) c.(fault_pc) c.(vbr) c.(cacr) c.(caar) c.(flags) v c.(last_addr_for_exception_3)
    c.(last_fault_for_exception_3) c.(last_trace_ad) c.(quit_program).
Definition w_last_addr_for_exception_3 (v : Z) (c : m68k D) : m68k D :=
  M68k c.(mach) c.(dregs) c.(usp) c.(isp) c.(msp) c.(sr) c.(t1) c.(t0) c.(mflag) c.(stopped) c.(intmask)
    c.(pc) c.(fault_pc) c.(vbr) c.(cacr) c.(caar) c.(flags) c.(fixup) v c.(last_fault_for_exception_3)
    c.(last_trace_ad) c.(quit_program).
Definition w_last_fault_for_exception_3 (v : Z) (c : m68k D) : m68k D :=
  M68k c.(mach) c.(dregs) c.(usp) c.(isp) c.(msp) c.(sr) c.(t1) c.(t0) c.(mflag) c.(stopped) c.(intmask)
    c.(pc) c.(fault_pc) c.(vbr) c.(cacr) c.(caar) c.(flags) c.(fixup) c.(last_addr_for_exception_3) v
    c.(last_trace_ad) c.(quit_program).
Definition w_last_trace_ad (v : Z) (c : m68k D) : m68k D :=
  M68k c.(mach) c.(dregs) c.(usp) c.(isp) c.(msp) c.(sr) c.(t1) c.(t0) c.(mflag) c.(stopped) c.(intmask)
    c.(pc) c.(fault_pc) c.(vbr) c.(cacr) c.(caar) c.(flags) c.(fixup) c.(last_addr_for_exception_3)
    c.(last_fault_for_exception_3) v c.(quit_program).
Definition w_quit_program (v : Z) (c : m68k D) : m68k D :=
  M68k c.(mach) c.(dregs) c.(usp) c.(isp) c.(msp) c.(sr) c.(t1) c.(t0) c.(mflag) c.(stopped) c.(intmask)
    c.(pc) c.(fault_pc) c.(vbr) c.(cacr) c.(caar) c.(flags) c.(fixup) c.(last_addr_for_exception_3)
    c.(last_fault_for_exception_3) c.(last_trace_ad) v.
End Setters.

(** The fields of [regstruct] in [Machine]. *)
Definition set_sr_s (b : bool) (r : regstruct) : regstruct :=
  Regs r.(m68k_areg) b r.(sfc) r.(dfc) r.(urp) r.(srp) r.(mmu_tc) r.(mmu_enabled) r.(mmu_pagesize_8k) r.(dtt0) r.(dtt1)
    r.(itt0) r.(itt1) r.(mmusr) r.(mmu_fault_addr) r.(mmu_ssw) r.(wb3_data) r.(wb3_status).
Definition set_areg (n v : Z) (r : regstruct) : regstruct :=
  Regs (λ k, if k =? n then v else r.(m68k_areg) k) r.(sr_s) r.(sfc) r.(dfc) r.(urp) r.(srp) r.(mmu_tc) r.(mmu_enabled)
    r.(mmu_pagesize_8k) r.(dtt0) r.(dtt1) r.(itt0) r.(itt1) r.(mmusr) r.(mmu_fault_addr) r.(mmu_ssw) r.(wb3_data) r.(wb3_status).
Definition set_sfc (v : Z) (r : regstruct) : regstruct :=
  Regs r.(m68k_areg) r.(sr_s) v r.(dfc) r.(urp) r.(srp) r.(mmu_tc) r.(mmu_enabled) r.(mmu_pagesize_8k) r.(dtt0) r.(dtt1)
    r.(itt0) r.(itt1) r.(mmusr) r.(mmu_fault_addr) r.(mmu_ssw) r.(wb3_data) r.(wb3_status).
Definition set_dfc (v : Z) (r : regstruct) : regstruct :=
  Regs r.(m68k_areg) r.(sr_s) r.(sfc) v r.(urp) r.(srp) r.(mmu_tc) r.(mmu_enabled) r.(mmu_pagesize_8k) r.(dtt0) r.(dtt1)
    r.(itt0) r.(itt1) r.(mmusr) r.(mmu_fault_addr) r.(mmu_ssw) r.(wb3_data) r.(wb3_status).

Section M68k.
Context {cfg : Config} {D : Type} {hwd : Hardware D}.
Abbreviation M := (X (m68k D)).
Definition cmod (f : m68k D → m68k D) : M unit := xmod f.
Definition cget {A} (f : m68k D → A) : M A := xget f.
(** The operations of the MMU. *)
Definition on_mach {A} : X (machine D) A → M A := xzoom mach w_mach.

Definition areg (n : Z) (c : m68k D) : Z := c.(mach).(regs).(m68k_areg) n.
Definition w_regs (f : regstruct → regstruct) (c : m68k D) : m68k D := w_mach (set_regs (f c.(mach).(regs)) c.(mach)) c.
Definition w_areg (n v : Z) : m68k D → m68k D := w_regs (set_areg n v).
Definition w_dreg (n v : Z) (c : m68k D) : m68k D := w_dregs (λ k, if k =? n then v else c.(dregs) k) c.
(** [regs.regs[n]] for a register number of 4 bits. *)
Definition any_reg (n : Z) (c : m68k D) : Z := if n <? 8 then c.(dregs) n else areg (n - 8) c.
Definition s_flag (c : m68k D) : bool := c.(mach).(regs).(sr_s).
Definition w_flags' (f : flag_struct → flag_struct) (c : m68k D) : m68k D := w_flags (f c.(flags)) c.

Abbreviation SPCFLAG_STOP := 0x01 (only parsing).
Abbreviation SPCFLAG_INTERNAL_IRQ := 0x02 (only parsing).
Abbreviation SPCFLAG_BRK := 0x04 (only parsing).
Abbreviation SPCFLAG_TRACE := 0x08 (only parsing).
Abbreviation SPCFLAG_DOTRACE := 0x10 (only parsing).
Abbreviation SPCFLAG_DOINT := 0x20 (only parsing).
Abbreviation SPCFLAG_VBL := 0x100 (only parsing).
Abbreviation SPCFLAG_MFP := 0x200 (only parsing).
Abbreviation SPCFLAG_INT3 := 0x800 (only parsing).
Abbreviation SPCFLAG_INT5 := 0x1000 (only parsing).
Abbreviation SPCFLAG_SCC := 0x2000 (only parsing).
Definition SPCFLAG_ALL_BUT_EXEC_RETURN : Z :=
  SPCFLAG_STOP .| SPCFLAG_INTERNAL_IRQ .| SPCFLAG_BRK .| SPCFLAG_TRACE .| SPCFLAG_DOTRACE .| SPCFLAG_DOINT
  .| SPCFLAG_INT3 .| SPCFLAG_VBL .| SPCFLAG_INT5 .| SPCFLAG_SCC .| SPCFLAG_MFP.

Definition spc (c : m68k D) : Z := c.(mach).(spcflags).
Definition SPCFLAGS_TEST (m : Z) : M bool := cget (λ c, tst (spc c) m).
Definition SPCFLAGS_SET (m : Z) : M unit := cmod (λ c, w_mach (set_spcflags (spc c .| m) c.(mach)) c).
Definition SPCFLAGS_CLEAR (m : Z) : M unit := cmod (λ c, w_mach (set_spcflags (Z.ldiff (spc c) m) c.(mach)) c).
Definition SPCFLAGS_INIT (m : Z) : M unit := cmod (λ c, w_mach (set_spcflags m c.(mach)) c).

Definition m68k_getpc : M Z := cget pc.
Definition m68k_setpc (newpc : Z) : M unit := cmod (λ c, w_pc newpc (w_fault_pc newpc c)).
Definition m68k_incpc (o : Z) : M unit := cmod (λ c, w_pc (c.(pc) +u o) c).

Definition m68k_setstopped (stop : bool) : M unit :=
  cmod (w_stopped stop) ;;
  let* dotrace := SPCFLAGS_TEST SPCFLAG_DOTRACE in
  xwhen (stop && negb dotrace) (SPCFLAGS_SET SPCFLAG_STOP).

(** ** Instruction words *)

Definition get_iword (o : Z) : M Z := let* p := m68k_getpc in on_mach (mmu_get_word (p +u o) false sz_word).
Definition get_ilong (o : Z) : M Z :=
  let* p := m68k_getpc in
  let addr := p +u o in
  if is_unaligned addr 4 then on_mach (mmu_get_long_unaligned addr false) else on_mach (mmu_get_long addr false sz_long).
Definition get_ibyte (o : Z) : M Z := let* p := m68k_getpc in on_mach (mmu_get_byte ((p +u o) +u 1) false sz_byte).
Definition next_ibyte : M Z := let* r := get_ibyte 0 in m68k_incpc 2 ;; xret r.
Definition next_iword : M Z := let* r := get_iword 0 in m68k_incpc 2 ;; xret r.
Definition next_ilong : M Z := let* r := get_ilong 0 in m68k_incpc 4 ;; xret r.

Definition m68k_do_rts : M unit :=
  let* sp := cget (areg 7) in
  let* a := on_mach (get_long sp) in
  m68k_setpc a ;;
  cmod (λ c, w_areg 7 (areg 7 c +u 4) c).
Definition push_return (oldpc : Z) : M unit :=
  let* sp := cget (areg 7) in
  on_mach (put_long (sp -u 4) oldpc) ;;
  cmod (λ c, w_areg 7 (areg 7 c -u 4) c).
Definition m68k_do_bsr (oldpc offset : Z) : M unit := push_return oldpc ;; m68k_incpc offset.
Definition m68k_do_jsr (oldpc dest : Z) : M unit := push_return oldpc ;; m68k_setpc dest.

(** ** Conditions *)

Definition cctrue (f : flag_struct) (cc : Z) : bool :=
  match cc with
  | 0 => true
  | 1 => false
  | 2 => negb f.(CFLG) && negb f.(ZFLG)
  | 3 => f.(CFLG) || f.(ZFLG)
  | 4 => negb f.(CFLG)
  | 5 => f.(CFLG)
  | 6 => negb f.(ZFLG)
  | 7 => f.(ZFLG)
  | 8 => negb f.(VFLG)
  | 9 => f.(VFLG)
  | 10 => negb f.(NFLG)
  | 11 => f.(NFLG)
  | 12 => eqb f.(NFLG) f.(VFLG)
  | 13 => negb (eqb f.(NFLG) f.(VFLG))
  | 14 => negb f.(ZFLG) && eqb f.(NFLG) f.(VFLG)
  | 15 => f.(ZFLG) || negb (eqb f.(NFLG) f.(VFLG))
  | _ => false
  end.

(** ** Bit fields *)

(** [tmp & ~mask]. *)
Definition but (tmp mask : Z) : Z := Z.ldiff tmp mask.

(** The result, and [bdata]. *)
Definition get_bitfield (src : Z) (bdata : Z * Z) (offset width : Z) : M (Z * (Z * Z)) :=
  let offset := offset .& 7 in
  let mask := 0xffffffff << (32 - width) in
  match (offset + width + 7) >> 3 with
  | 1 =>
      let* tmp := on_mach (get_byte src) in
      xret (tmp << (24 + offset), (but tmp (mask >> (24 + offset)), bdata.2))
  | 2 =>
      let* tmp := on_mach (get_word src) in
      xret (tmp << (16 + offset), (but tmp (mask >> (16 + offset)), bdata.2))
  | 3 =>
      let* tmp := on_mach (get_word src) in
      let* tmp2 := on_mach (get_byte (src +u 2)) in
      xret ((tmp << (16 + offset)) .| (tmp2 << (8 + offset)),
            (but tmp (mask >> (16 + offset)), but tmp2 (mask >> (8 + offset))))
  | 4 =>
      let* tmp := on_mach (get_long src) in
      xret (tmp << offset, (but tmp (mask >> offset), bdata.2))
  | 5 =>
      let* tmp := on_mach (get_long src) in
      let* tmp2 := on_mach (get_byte (src +u 4)) in
      xret ((tmp << offset) .| (tmp2 >> (8 - offset)), (but tmp (mask >> offset), but tmp2 (mask << (8 - offset))))
  | _ => xret (0, bdata)
  end.

Definition put_bitfield (dst : Z) (bdata : Z * Z) (val offset width : Z) : M unit :=
  let offset := (offset .& 7) + width in
  match (offset + 7) >> 3 with
  | 1 => on_mach (put_byte dst (bdata.1 .| (val << (8 - offset))))
  | 2 => on_mach (put_word dst (bdata.1 .| (val << (16 - offset))))
  | 3 =>
      on_mach (put_word dst (bdata.1 .| (val >> (offset - 16)))) ;;
      on_mach (put_byte (dst +u 2) (bdata.2 .| (val << (24 - offset))))
  | 4 => on_mach (put_long dst (bdata.1 .| (val << (32 - offset))))
  | 5 =>
      on_mach (put_long dst (bdata.1 .| (val >> (offset - 32)))) ;;
      on_mach (put_byte (dst +u 4) (bdata.2 .| (val << (40 - offset))))
  | _ => xret tt
  end.

(** ** Effective addresses *)

Definition s8 (z : Z) : Z := (z + 128) mod 256 - 128.

(** The index register, sign extended and scaled. *)
Definition index_reg (dp : Z) (c : m68k D) : Z :=
  let regd := s32 (any_reg ((dp >> 12) .& 15) c) in
  if (dp .& 0x800) =? 0 then s16 regd else regd.

Definition get_disp_ea_020 (base dp : Z) : M Z :=
  let* regd := cget (index_reg dp) in
  let regd := s32 (Z.shiftl regd ((dp >> 9) .& 3)) in
  if tst dp 0x100 then
    let base := if tst dp 0x80 then 0 else base in
    let regd := if tst dp 0x40 then 0 else regd in
    let* base := if (dp .& 0x30) =? 0x20 then let* w := next_iword in xret (base +u s16 w) else xret base in
    let* base := if (dp .& 0x30) =? 0x30 then let* l := next_ilong in xret (base +u l) else xret base in
    let* outer := if (dp .& 3) =? 2 then let* w := next_iword in xret (s16 w) else xret 0 in
    let* outer := if (dp .& 3) =? 3 then let* l := next_ilong in xret (s32 l) else xret outer in
    let base := if (dp .& 4) =? 0 then base +u regd else base in
    let* base := if tst dp 3 then on_mach (get_long base) else xret base in
    let base := if tst dp 4 then base +u regd else base in
    xret (base +u outer)
  else xret (base +u (s8 dp + regd)).

Definition get_disp_ea_000 (base dp : Z) : M Z :=
  let* regd := cget (index_reg dp) in
  xret (base +u (s8 dp + regd)).

(** ** The status register *)

Definition sr_value (c : m68k D) : Z :=
  Z.shiftl (c_bool c.(t1)) 15 .| Z.shiftl (c_bool c.(t0)) 14 .| Z.shiftl (c_bool (s_flag c)) 13
  .| Z.shiftl (c_bool c.(mflag)) 12 .| Z.shiftl c.(intmask) 8 .| Z.shiftl (c_bool c.(flags).(XFLG)) 4
  .| Z.shiftl (c_bool c.(flags).(NFLG)) 3 .| Z.shiftl (c_bool c.(flags).(ZFLG)) 2
  .| Z.shiftl (c_bool c.(flags).(VFLG)) 1 .| c_bool c.(flags).(CFLG).

Definition MakeSR : M unit := cmod (λ c, w_sr (u16 (sr_value c)) c).

Definition sr_bit (v k : Z) : bool := negb (((v >> k) .& 1) =? 0).

(** The change of the stack pointer when S or M change. *)
Definition swap_stacks (olds oldm : bool) (c : m68k D) : m68k D :=
  if negb (eqb olds (s_flag c)) then
    if olds then
      let c := if oldm then w_msp (areg 7 c) c else w_isp (areg 7 c) c in
      w_areg 7 c.(usp) c
    else
      let c := w_usp (areg 7 c) c in
      w_areg 7 (if c.(mflag) then c.(msp) else c.(isp)) c
  else if olds && negb (eqb oldm c.(mflag)) then
    if oldm then w_areg 7 c.(isp) (w_msp (areg 7 c) c) else w_areg 7 c.(msp) (w_isp (areg 7 c) c)
  else c.

Definition MakeFromSR : M unit :=
  let* oldm := cget mflag in
  let* olds := cget s_flag in
  let* v := cget sr in
  cmod (w_t1 (sr_bit v 15)) ;;
  cmod (w_t0 (sr_bit v 14)) ;;
  cmod (w_regs (set_sr_s (sr_bit v 13))) ;;
  on_mach (mmu_set_super (sr_bit v 13)) ;;
  cmod (w_mflag (sr_bit v 12)) ;;
  cmod (w_intmask ((v >> 8) .& 7)) ;;
  cmod (w_flags (Flags (sr_bit v 0) (sr_bit v 2) (sr_bit v 3) (sr_bit v 1) (sr_bit v 4))) ;;
  cmod (swap_stacks olds oldm) ;;
  if sr_bit v 15 || sr_bit v 14 then SPCFLAGS_SET SPCFLAG_TRACE else SPCFLAGS_CLEAR SPCFLAG_TRACE.

(** ** Exceptions *)

Definition exc_push_word (w : Z) : M unit :=
  cmod (λ c, w_areg 7 (areg 7 c -u 2) c) ;;
  let* sp := cget (areg 7) in
  on_mach (put_word sp w).
Definition exc_push_long (l : Z) : M unit :=
  cmod (λ c, w_areg 7 (areg 7 c -u 4) c) ;;
  let* sp := cget (areg 7) in
  on_mach (put_long sp l).

Definition exc_make_frame (format sr currpc nr x0 x1 : Z) : M unit :=
  match format with
  | 4 => exc_push_long x1 ;; exc_push_long x0
  | 3 | 2 => exc_push_long x0
  | _ => xret tt
  end ;;
  exc_push_word (u16 (Z.shiftl format 12 + nr * 4)) ;;
  exc_push_long currpc ;;
  exc_push_word sr.

Definition Quit680x0 : M unit := cmod (w_quit_program 1) ;; SPCFLAGS_SET SPCFLAG_BRK.
Definition report_double_bus_error : M unit := Quit680x0.

(** The frame of a bus error. *)
Definition bus_error_frame : M unit :=
  exc_push_long 0 ;; exc_push_long 0 ;; exc_push_long 0 ;; exc_push_long 0 ;;
  exc_push_long 0 ;; exc_push_long 0 ;; exc_push_long 0 ;;
  let* r := cget (λ c, c.(mach).(regs)) in
  exc_push_long r.(wb3_data) ;;
  exc_push_long r.(mmu_fault_addr) ;;
  exc_push_long r.(mmu_fault_addr) ;;
  exc_push_word 0 ;;
  exc_push_word 0 ;;
  exc_push_word r.(wb3_status) ;;
  cmod (w_regs (set_wb3_status 0)) ;;
  exc_push_word r.(mmu_ssw) ;;
  exc_push_long r.(mmu_fault_addr) ;;
  let* v := cget sr in
  let* fpc := cget fault_pc in
  exc_make_frame 7 v fpc 2 0 0.

(** The end of [Exception]. *)
Definition enter_handler (nr : Z) : M unit :=
  let* base := cget vbr in
  let* a := on_mach (get_long (base +u 4 * nr)) in
  m68k_setpc a ;;
  cmod (λ c, w_t1 false (w_t0 false (w_mflag false c))) ;;
  SPCFLAGS_CLEAR (SPCFLAG_TRACE .| SPCFLAG_DOTRACE).

Definition apply_fixup : M unit :=
  cmod (λ c, match c.(fixup) with Some (r, v) => w_fixup None (w_areg r v c) | None => c end).

Definition enter_supervisor : M unit :=
  let* s := cget s_flag in
  xwhen (negb s)
    (cmod (λ c, w_usp (areg 7 c) c) ;;
     cmod (λ c, w_areg 7 (if c.(mflag) then c.(msp) else c.(isp)) c) ;;
     cmod (w_regs (set_sr_s true)) ;;
     on_mach (mmu_set_super true)).

Definition Exception (nr oldpc : Z) : M unit :=
  let* currpc := m68k_getpc in
  MakeSR ;;
  apply_fixup ;;
  enter_supervisor ;;
  let* v := cget sr in
  let* m := cget mflag in
  if nr =? 2 then
    let* built := try_catch (bus_error_frame ;; xret true) (λ _, report_double_bus_error ;; xret false) in
    xwhen built (enter_handler nr)
  else
    (if nr =? 3 then
       let* a := cget last_addr_for_exception_3 in
       let* f := cget last_fault_for_exception_3 in
       exc_make_frame 2 v a nr (f .& 0xfffffffe) 0
     else if (nr =? 5) || (nr =? 6) || (nr =? 7) || (nr =? 9) then exc_make_frame 2 v currpc nr oldpc 0
     else if m && (24 <=? nr) && (nr <? 32) then
       exc_make_frame 0 v currpc nr 0 0 ;;
       cmod (λ c, w_sr (c.(sr) .| 0x2000) c) ;;
       cmod (λ c, w_msp (areg 7 c) c) ;;
       cmod (λ c, w_areg 7 c.(isp) c) ;;
       let* v := cget sr in
       exc_make_frame 1 v currpc nr 0 0
     else exc_make_frame 0 v currpc nr 0 0) ;;
    enter_handler nr.

(** The bytes a frame has beyond the first eight; [None] for a format RTE does not know. *)
Definition frame_rest (format : Z) : option Z :=
  match format with
  | 0x0 => Some 0
  | 0x2 => Some 4
  | 0x7 => Some 52
  | 0x8 => Some 50
  | 0x9 => Some 12
  | 0xa => Some 24
  | 0xb => Some 84
  | _ => None
  end.

Definition add_sp (n : Z) : M unit := cmod (λ c, w_areg 7 (areg 7 c +u n) c).

(** [fuel] bounds the number of throwaway frames. *)
Fixpoint ex_rte (fuel : nat) : M unit :=
  match fuel with
  | O => xundef No_fuel
  | S fuel =>
      let* sp := cget (areg 7) in
      let* newsr := on_mach (get_word sp) in
      add_sp 2 ;;
      let* sp := cget (areg 7) in
      let* newpc := on_mach (get_long sp) in
      add_sp 4 ;;
      let* sp := cget (areg 7) in
      let* format := on_mach (get_word sp) in
      add_sp 2 ;;
      if (format >> 12) =? 1 then
        cmod (w_sr newsr) ;;
        MakeFromSR ;;
        ex_rte fuel
      else
      match frame_rest (format >> 12) with
      | None => Exception 14 0
      | Some n =>
          add_sp n ;;
          cmod (w_sr newsr) ;;
          MakeFromSR ;;
          m68k_setpc newpc
      end
  end.

Definition Interrupt (nr : Z) : M unit :=
  if in_range 0 8 nr then Exception (nr + 24) 0 ;; cmod (w_intmask nr) else xundef Abort_called.
Definition SCCInterrupt (nr : Z) : M unit := Exception nr 0 ;; cmod (w_intmask 5).
Definition MFPInterrupt (nr : Z) : M unit := Exception nr 0 ;; cmod (w_intmask 6).

(** ** Illegal instructions *)

(** [rts68000] continues in the host, by [siglongjmp]. *)
Context (rts68000 : M unit).

Definition op_illg (opcode : Z) : M unit :=
  let* p := m68k_getpc in
  if (opcode .& 0xF000) =? 0xA000 then
    if opcode =? 0xa0ff then
      let* call := on_mach (do_get_mem 4 (p +u 2)) in
      if call =? 13 then rts68000 else m68k_setpc (p +u 6) ;; Exception 0xA 0
    else Exception 0xA 0
  else if (opcode .& 0xF000) =? 0xF000 then Exception 0xB 0
  else Exception 4 0.

(** ** Control registers *)

Abbreviation MMU_ROOT_PTR_ADDR_MASK := 0xfffffe00 (only parsing).

Definition m68k_move2c (regno v : Z) : M bool :=
  match regno with
  | 0 => cmod (w_regs (set_sfc (v .& 7))) ;; xret true
  | 1 => cmod (w_regs (set_dfc (v .& 7))) ;; xret true
  | 2 => cmod (w_cacr (v .& 0x80008000)) ;; xret true
  | 3 => on_mach (mmu_set_tc (v .& 0xc000)) ;; xret true
  | 4 | 5 | 6 | 7 => on_mach (mmu_set_ttr regno (v .& 0xffffe364)) ;; xret true
  | 0x800 => cmod (w_usp v) ;; xret true
  | 0x801 => cmod (w_vbr v) ;; xret true
  | 0x802 => cmod (w_caar (v .& 0xfc)) ;; xret true
  | 0x803 => cmod (w_msp v) ;; cmod (λ c, if c.(mflag) then w_areg 7 c.(msp) c else c) ;; xret true
  | 0x804 => cmod (w_isp v) ;; cmod (λ c, if c.(mflag) then c else w_areg 7 c.(isp) c) ;; xret true
  | 0x805 => on_mach (mmu_set_mmusr v) ;; xret true
  | 0x806 => cmod (w_regs (set_urp (v .& MMU_ROOT_PTR_ADDR_MASK))) ;; xret true
  | 0x807 => cmod (w_regs (set_srp (v .& MMU_ROOT_PTR_ADDR_MASK))) ;; xret true
  | _ => op_illg 0x4E7B ;; xret false
  end.

(** [None]: the register does not exist. *)
Definition movec_value (regno : Z) (c : m68k D) : option Z :=
  let r := c.(mach).(regs) in
  match regno with
  | 0 => Some r.(sfc)
  | 1 => Some r.(dfc)
  | 2 => Some c.(cacr)
  | 3 => Some r.(mmu_tc)
  | 4 => Some r.(itt0)
  | 5 => Some r.(itt1)
  | 6 => Some r.(dtt0)
  | 7 => Some r.(dtt1)
  | 0x800 => Some c.(usp)
  | 0x801 => Some c.(vbr)
  | 0x802 => Some c.(caar)
  | 0x803 => Some (if c.(mflag) then areg 7 c else c.(msp))
  | 0x804 => Some (if c.(mflag) then c.(isp) else areg 7 c)
  | 0x805 => Some r.(mmusr)
  | 0x806 => Some r.(urp)
  | 0x807 => Some r.(srp)
  | _ => None
  end.
Definition m68k_movec2 (regno : Z) : M (option Z) :=
  let* v := cget (movec_value regno) in
  match v with
  | Some _ => xret v
  | None => op_illg 0x4E7A ;; xret None
  end.

(** ** Long division and multiplication *)

Definition s64 (z : Z) : Z := (z + 2 ^ 63) mod 2 ^ 64 - 2 ^ 63.

(** The flags and registers of a result, and of an overflow. *)
Definition div_result (extra quot rem : Z) : M unit :=
  cmod (w_flags' (λ f, SET_NFLG (s32 quot <? 0) (SET_ZFLG (s32 quot =? 0) (SET_CFLG false (SET_VFLG false f))))) ;;
  cmod (w_dreg (extra .& 7) (u32 rem)) ;;
  cmod (w_dreg ((extra >> 12) .& 7) (u32 quot)).
Definition div_overflow : M unit :=
  cmod (w_flags' (λ f, SET_CFLG false (SET_NFLG true (SET_VFLG true f)))).

(** The 64-bit dividend: [a & 0xffffffff | dreg << 32]. *)
Definition m68k_divl (src extra oldpc : Z) : M unit :=
  if src =? 0 then Exception 5 oldpc else
  let* lo := cget (λ c, c.(dregs) ((extra >> 12) .& 7)) in
  let* hi := cget (λ c, c.(dregs) (extra .& 7)) in
  if tst extra 0x800 then
    let a := s32 lo in
    let a := if tst extra 0x400 then s64 ((a .& 0xffffffff) .| Z.shiftl hi 32) else a in
    let d := s32 src in
    if (a =? - 2 ^ 63) && (d =? -1) then xundef Int_overflow else
    let rem := Z.rem a d in
    let quot := Z.quot a d in
    let top := quot .& 0xffffffff80000000 in
    if negb (top =? 0) && negb (top =? 0xffffffff80000000) then div_overflow
    else
      let rem := if negb (eqb (s32 rem <? 0) (a <? 0)) then - rem else rem in
      div_result extra quot rem
  else
    let a := if tst extra 0x400 then (lo .& 0xffffffff) .| Z.shiftl hi 32 else lo in
    let rem := a mod src in
    let quot := a / src in
    if 0xffffffff <? quot then div_overflow else div_result extra quot rem.

Definition m68k_mull (src extra : Z) : M unit :=
  let* lo := cget (λ c, c.(dregs) ((extra >> 12) .& 7)) in
  let signed := tst extra 0x800 in
  let a := if signed then s32 lo * s32 src else lo * src in
  cmod (w_flags' (λ f, SET_NFLG (s64 a <? 0) (SET_ZFLG (a =? 0) (SET_CFLG false (SET_VFLG false f))))) ;;
  (if tst extra 0x400 then cmod (w_dreg (extra .& 7) (u32 (a >> 32)))
   else
     let top := if signed then a .& 0xffffffff80000000 else a .& 0xffffffff00000000 in
     xwhen (negb (top =? 0) && negb (signed && (top =? 0xffffffff80000000))) (cmod (w_flags' (SET_VFLG true)))) ;;
  cmod (w_dreg ((extra >> 12) .& 7) (u32 a)).

(** The functions for hosts without 64-bit integers. *)
Fixpoint div_loop (n : nat) (src_hi src_lo div q : Z) : Z * Z :=
  match n with
  | O => (q, src_hi)
  | S n =>
      let cbit := src_hi .& 0x80000000 in
      let src_hi := src_hi << 1 in
      let src_hi := if tst src_lo 0x80000000 then src_hi +u 1 else src_hi in
      let src_lo := src_lo << 1 in
      let q := q << 1 in
      if negb (cbit =? 0) || (div <=? src_hi) then div_loop n (src_hi -u div) src_lo div (q .| 1)
      else div_loop n src_hi src_lo div q
  end.
(** [None] is the return value 1. *)
Definition div_unsigned (src_hi src_lo div : Z) : option (Z * Z) :=
  if div <=? src_hi then None else Some (div_loop 32 src_hi src_lo div 0).

(** The result is [dst_hi] and [dst_lo]. *)
Definition mul_unsigned (src1 src2 : Z) : Z * Z :=
  let r0 := u32 ((src1 .& 0xffff) * (src2 .& 0xffff)) in
  let r1 := u32 (((src1 >> 16) .& 0xffff) * (src2 .& 0xffff)) in
  let r2 := u32 ((src1 .& 0xffff) * ((src2 >> 16) .& 0xffff)) in
  let r3 := u32 (((src1 >> 16) .& 0xffff) * ((src2 >> 16) .& 0xffff)) in
  let lo := r0 +u ((r1 << 16) .& 0xffff0000) in
  let r3 := if lo <? r0 then r3 +u 1 else r3 in
  let r0 := lo in
  let lo := r0 +u ((r2 << 16) .& 0xffff0000) in
  let r3 := if lo <? r0 then r3 +u 1 else r3 in
  (r3 +u (((r1 >> 16) .& 0xffff) + ((r2 >> 16) .& 0xffff)), lo).

(** ** Start and host calls *)

Definition m68k_reset (fpu_reset : M unit) : M unit :=
  cmod (w_regs (set_sr_s true)) ;;
  cmod (λ c, w_mflag false (w_stopped false (w_t1 false (w_t0 false c)))) ;;
  cmod (w_flags (Flags false false false false false)) ;;
  SPCFLAGS_INIT 0 ;;
  cmod (w_intmask 7) ;;
  cmod (λ c, w_vbr 0 (w_regs (λ r, set_sfc 0 (set_dfc 0 r)) c)) ;;
  let* tc := cget (λ c, c.(mach).(regs).(mmu_tc)) in
  on_mach (mmu_set_tc (Z.ldiff tc 0x8000)) ;;
  let* sp := on_mach (phys_get_long 0) in
  cmod (w_areg 7 sp) ;;
  let* p := on_mach (phys_get_long 4) in
  m68k_setpc p ;;
  fpu_reset ;;
  on_mach mmu_reset ;;
  on_mach (mmu_set_super true) ;;
  cmod (λ c, w_cacr 0 (w_caar 0 c)).

Record M68kRegisters := SavedRegs {
  r_d : Z → Z;
  r_a : Z → Z;
  r_usp : Z;
  r_isp : Z;
  r_msp : Z;
  r_sr : Z;
  r_pc : Z;
}.

Definition save_regs : M M68kRegisters :=
  MakeSR ;;
  cget (λ c,
    let a7 := areg 7 c in
    let user := (c.(sr) .& 0x2000) =? 0 in
    let master := negb ((c.(sr) .& 0x1000) =? 0) in
    SavedRegs c.(dregs) (λ n, areg n c) (if user then a7 else c.(usp))
      (if negb user && negb master then a7 else c.(isp)) (if negb user && master then a7 else c.(msp)) c.(sr) c.(pc)).

Definition restore_regs (r : M68kRegisters) : M unit :=
  cmod (w_dregs r.(r_d)) ;;
  cmod (λ c, foldr (λ n, w_areg n (r.(r_a) n)) c (seqZ 0 8)) ;;
  cmod (λ c, w_isp r.(r_isp) (w_usp r.(r_usp) (w_msp r.(r_msp) c))) ;;
  cmod (w_sr r.(r_sr)) ;;
  MakeFromSR.

(** The calls of the host: an emulated operation gets the registers and may change them; it says whether they are to be
    loaded.  A native feature gets the address of its arguments and returns a value in D0. *)
Definition with_d0 (v : Z) (r : M68kRegisters) : M68kRegisters :=
  SavedRegs (λ n, if n =? 0 then v else r.(r_d) n) r.(r_a) r.(r_usp) r.(r_isp) r.(r_msp) r.(r_sr) r.(r_pc).

Definition m68k_emulop (EmulOp : Z → M68kRegisters → M (bool * M68kRegisters)) (opcode : Z) : M unit :=
  let* r := save_regs in
  let* res := EmulOp opcode r in
  xwhen res.1 (restore_regs res.2).

Definition m68k_natfeat_id (nf_get_id : Z → M Z) : M unit :=
  let* r := save_regs in
  let* v := nf_get_id (r.(r_a) 7 +u 4) in
  restore_regs (with_d0 v r).

Definition m68k_natfeat_call (nf_call : Z → bool → M Z) : M unit :=
  let* r := save_regs in
  let* v := nf_call (r.(r_a) 7 +u 4) ((r.(r_sr) .& 0x2000) =? 0x2000) in
  restore_regs (with_d0 v r).

(** ** Interrupts *)

(** The interrupt acknowledge of the two chips, and the timer of the host. *)
Context (SCCdoInterrupt MFPdoInterrupt : M Z) (invoke200HzInterrupt : M unit).

Definition do_trace : M unit :=
  let* c := cget id in
  if c.(t0) then
    m68k_setpc c.(pc) ;;
    let* opcode := on_mach (get_word c.(pc)) in
    xwhen
      ((opcode =? 0x4e72) || (opcode =? 0x4e74) || (opcode =? 0x4e75) || (opcode =? 0x4e77) || (opcode =? 0x4e76)
       || ((opcode .& 0xffc0) =? 0x4e80) || ((opcode .& 0xffc0) =? 0x4ec0) || ((opcode .& 0xff00) =? 0x6100)
       || (((opcode .& 0xf000) =? 0x6000) && cctrue c.(flags) ((opcode >> 8) .& 0xf))
       || (((opcode .& 0xf0f0) =? 0x5050) && negb (cctrue c.(flags) ((opcode >> 8) .& 0xf))
           && negb (s16 (c.(dregs) (opcode .& 7)) =? 0)))
      (cmod (λ c, w_last_trace_ad c.(pc) c) ;; SPCFLAGS_CLEAR SPCFLAG_TRACE ;; SPCFLAGS_SET SPCFLAG_DOTRACE)
  else xwhen c.(t1)
    (cmod (λ c, w_last_trace_ad c.(pc) c) ;; SPCFLAGS_CLEAR SPCFLAG_TRACE ;; SPCFLAGS_SET SPCFLAG_DOTRACE).

(** One of the three autovectored requests. *)
Definition serve_level (flag level : Z) (resetStop : bool) : M unit :=
  let* req := SPCFLAGS_TEST flag in
  let* mask := cget intmask in
  xwhen (req && (mask <? level))
    (Interrupt level ;;
     cmod (w_stopped false) ;;
     SPCFLAGS_CLEAR flag ;;
     xwhen resetStop (SPCFLAGS_CLEAR SPCFLAG_STOP)).

Definition serve_scc (resetStop : bool) : M unit :=
  let* req := SPCFLAGS_TEST SPCFLAG_SCC in
  let* mask := cget intmask in
  xwhen (req && (mask <? 5))
    (let* vector_number := SCCdoInterrupt in
     if negb (vector_number =? 0) then
       SCCInterrupt vector_number ;;
       cmod (w_stopped false) ;;
       SPCFLAGS_CLEAR SPCFLAG_SCC ;;
       xwhen resetStop (SPCFLAGS_CLEAR SPCFLAG_STOP)
     else SPCFLAGS_CLEAR SPCFLAG_SCC).

Definition serve_mfp (resetStop : bool) : M unit :=
  let* req := SPCFLAGS_TEST SPCFLAG_MFP in
  let* mask := cget intmask in
  xwhen (req && (mask <? 6))
    (let* vector_number := MFPdoInterrupt in
     if negb (vector_number =? 0) then
       MFPInterrupt vector_number ;;
       cmod (w_stopped false) ;;
       xwhen resetStop (SPCFLAGS_CLEAR SPCFLAG_STOP)
     else SPCFLAGS_CLEAR SPCFLAG_MFP).

Definition SERVE_VBL_MFP (resetStop : bool) : M unit :=
  let* any := SPCFLAGS_TEST (SPCFLAG_INT3 .| SPCFLAG_VBL .| SPCFLAG_INT5 .| SPCFLAG_SCC .| SPCFLAG_MFP) in
  xwhen any
    (serve_level SPCFLAG_INT3 3 resetStop ;;
     serve_level SPCFLAG_VBL 4 resetStop ;;
     serve_level SPCFLAG_INT5 5 resetStop ;;
     serve_scc resetStop ;;
     serve_mfp resetStop).

Definition SERVE_INTERNAL_IRQ : M unit :=
  let* req := SPCFLAGS_TEST SPCFLAG_INTERNAL_IRQ in
  xwhen req (SPCFLAGS_CLEAR SPCFLAG_INTERNAL_IRQ ;; invoke200HzInterrupt).

(** The loop of a stopped processor; each element of [sleeps] is what other threads do during
    one [SleepAndWait].  [true]: stopped for good. *)
Fixpoint stopped_loop (sleeps : list (M unit)) : M bool :=
  let* stop := SPCFLAGS_TEST SPCFLAG_STOP in
  if negb stop then xret false else
  let* v := cget sr in
  if (v .& 0x700) =? 0x700 then xret true else
  match sleeps with
  | [] => xundef No_fuel
  | SleepAndWait :: sleeps =>
      SleepAndWait ;;
      SERVE_INTERNAL_IRQ ;;
      SERVE_VBL_MFP true ;;
      let* brk := SPCFLAGS_TEST SPCFLAG_BRK in
      if brk then xret false else stopped_loop sleeps
  end.

Definition m68k_do_specialties (sleeps : list (M unit)) : M bool :=
  SERVE_INTERNAL_IRQ ;;
  let* dotrace := SPCFLAGS_TEST SPCFLAG_DOTRACE in
  let* ad := cget last_trace_ad in
  xwhen dotrace (Exception 9 ad) ;;
  let* dead := stopped_loop sleeps in
  if dead then xret true else
  let* trace := SPCFLAGS_TEST SPCFLAG_TRACE in
  xwhen trace do_trace ;;
  SERVE_VBL_MFP false ;;
  let* brk := SPCFLAGS_TEST SPCFLAG_BRK in
  if brk then SPCFLAGS_CLEAR SPCFLAG_BRK ;; xret true else xret false.

(** ** Execution *)

(** The table of the instructions, and the counter of emulated ticks. *)
Context (cpufunctbl : Z → M unit) (cpu_check_ticks : M unit).

(** One turn of the loop of [m68k_do_execute]; [true]: it returns. *)
Definition execute_one (sleeps : list (M unit)) : M bool :=
  cmod (λ c, w_fault_pc c.(pc) c) ;;
  let* opcode := get_iword 0 in
  cpufunctbl opcode ;;
  cpu_check_ticks ;;
  cmod (λ c, w_fault_pc c.(pc) c) ;;
  let* special := SPCFLAGS_TEST SPCFLAG_ALL_BUT_EXEC_RETURN in
  if special then m68k_do_specialties sleeps else xret false.

(** A turn with the exceptions it throws, which [m68k_execute] catches; an exception starts
    the loops again. *)
Definition execute_caught (sleeps : list (M unit)) : M bool :=
  try_catch (execute_one sleeps) (λ prb, Exception prb 0 ;; xret true).

(** The loops of [m68k_execute] and [m68k_do_execute], for as many turns as there are elements. *)
Fixpoint m68k_execute (fpu_reset : M unit) (outer : bool) (turns : list (list (M unit))) : M unit :=
  match turns with
  | [] => xundef No_fuel
  | sleeps :: turns =>
      let* q := cget quit_program in
      if outer && (q =? 1) then xret tt else
      xwhen (outer && (0 <? q)) (cmod (w_quit_program 0) ;; try_catch (m68k_reset fpu_reset) (λ prb, Exception prb 0)) ;;
      let* outer := execute_caught sleeps in
      m68k_execute fpu_reset outer turns
  end.
End M68k.
