(* ===== verification/M68kArith.v ===== *)
(** * M68kArith: long multiplication and division

    [mul_unsigned] and [div_unsigned], which build a 64-bit product from 16-bit halves
    and divide by shifting, compute product, quotient and remainder; MULU.L, MULS.L, DIVU.L and
    DIVS.L ([m68k_mull], [m68k_divl]) do what the manual says of the result registers and
    the flags, for results that fit and for those that do not. *)

From S2P Require Import Prelude Throws Machine Mmu M68k.
From stdpp Require Import base gmap list numbers.
Open Scope Z_scope.
Open Scope c_scope.
Open Scope x_scope.

(** ** Halves and signs *)

Lemma low_16 x : x .& 0xffff = x mod 65536.
Proof. apply (Z.land_ones x 16). lia. Qed.
Lemma high_16 x : 0 <= x < 2 ^ 32 → (x >> 16) .& 0xffff = x / 65536.
Proof. intros. rewrite low_16, shr_16, Z.mod_small; zdiv_lia. Qed.
Lemma half_up x : 0 <= x → (x << 16) .& 0xffff0000 = x mod 65536 * 65536.
Proof.
  intros. change 0xffff0000 with (2 ^ 32 - 2 ^ 16). rewrite land_high by (lia || apply u32_range).
  unfold u32. rewrite Z.shiftl_mul_pow2 by lia. change (2 ^ 16) with 65536.
  zdiv_lia.
Qed.

Lemma s32_range z : - 2 ^ 31 <= s32 z < 2 ^ 31.
Proof. unfold s32. pose proof (Z.mod_pos_bound (z + 2 ^ 31) (2 ^ 32)). lia. Qed.
Lemma s32_id z : - 2 ^ 31 <= z < 2 ^ 31 → s32 z = z.
Proof. intros. unfold s32. rewrite Z.mod_small; lia. Qed.
Lemma s64_id z : - 2 ^ 63 <= z < 2 ^ 63 → s64 z = z.
Proof. intros. unfold s64. rewrite Z.mod_small; lia. Qed.

(** The bits from 31 on tell whether a 64-bit number is a 32-bit number. *)
Lemma top_bits z : - 2 ^ 63 <= z < 2 ^ 63 →
  z .& 0xffffffff80000000 = (z / 2 ^ 31) mod 2 ^ 33 * 2 ^ 31.
Proof.
  intros. rewrite <-(Z.land_ones (z / 2 ^ 31) 33), <-Z.shiftl_mul_pow2, <-Z.shiftr_div_pow2 by lia.
  rewrite Z.shiftl_land, <-Z.ldiff_ones_r by lia. change (Z.shiftl (Z.ones 33) 31) with 0xffffffff80000000.
  rewrite Z.ldiff_land, <-Z.land_assoc. done.
Qed.

Lemma top_signed z : - 2 ^ 63 <= z < 2 ^ 63 →
  let top := z .& 0xffffffff80000000 in
  negb (top =? 0) && negb (top =? 0xffffffff80000000) = negb (in_range (- 2 ^ 31) (2 ^ 31) z).
Proof.
  intros Hz top. unfold top. rewrite top_bits by done. unfold in_range.
  assert ((z / 2 ^ 31) mod 2 ^ 33 = if z <? 0 then z / 2 ^ 31 + 2 ^ 33 else z / 2 ^ 31) as ->.
  { destruct (Z.ltb_spec z 0).
    - rewrite <-(Z.mod_small (z / 2 ^ 31 + 2 ^ 33) (2 ^ 33)) by zdiv_lia.
      rewrite <-(Z.mul_1_l (2 ^ 33)) at 2. by rewrite Z.mod_add.
    - apply Z.mod_small. zdiv_lia. }
  change (0xffffffff80000000) with ((2 ^ 33 - 1) * 2 ^ 31).
  apply eq_true_iff_eq. rewrite andb_true_iff, !negb_true_iff, andb_false_iff, !Z.eqb_neq, Z.leb_gt, Z.ltb_ge.
  destruct (Z.ltb_spec z 0); zdiv_lia.
Qed.

(** ** Without 64-bit integers *)

Lemma carry_in (b : bool) x y : b = (x +u y <? x) → 0 <= x < 2 ^ 32 → 0 <= y < 2 ^ 32 →
  (x +u y) + 2 ^ 32 * c_bool b = x + y.
Proof.
  intros -> Hx Hy. unfold u32. destruct (Z.ltb_spec ((x + y) mod 4294967296) x); cbn [c_bool]; zdiv_lia.
Qed.

(** [mul_unsigned] returns the high and the low word of the product of two words. *)
Theorem mul_unsigned_product a b : 0 <= a < 2 ^ 32 → 0 <= b < 2 ^ 32 →
  mul_unsigned a b = (a * b / 2 ^ 32, (a * b) mod 2 ^ 32).
Proof.
  intros Ha Hb. unfold mul_unsigned. rewrite !(low_16 a), !(low_16 b), !(high_16 a), !(high_16 b) by done.
  pose proof (Z.div_mod a 65536 ltac:(lia)) as Ea. pose proof (Z.div_mod b 65536 ltac:(lia)) as Eb.
  assert (0 <= a / 65536 < 65536) as Hah by zdiv_lia. assert (0 <= b / 65536 < 65536) as Hbh by zdiv_lia.
  pose proof (Z.mod_pos_bound a 65536 ltac:(lia)) as Hal. pose proof (Z.mod_pos_bound b 65536 ltac:(lia)) as Hbl.
  revert Ea Eb Hah Hbh Hal Hbl. generalize (a / 65536) (b / 65536) (a mod 65536) (b mod 65536).
  intros ah bh al bl -> -> Hah Hbh Hal Hbl. clear Ha Hb.
  rewrite !(u32_small (_ * _)) by nia.
  assert (∃ r0 r1 r2 r3, r0 = al * bl ∧ r1 = ah * bl ∧ r2 = al * bh ∧ r3 = ah * bh ∧
    0 <= r0 <= 65535 * 65535 ∧ 0 <= r1 <= 65535 * 65535 ∧ 0 <= r2 <= 65535 * 65535 ∧ 0 <= r3 <= 65535 * 65535)
    as (r0 & r1 & r2 & r3 & E0 & E1 & E2 & E3 & H0 & H1 & H2 & H3) by (do 4 eexists; do 4 (split; [done|]); nia).
  replace ((65536 * ah + al) * (65536 * bh + bl)) with (r3 * 2 ^ 32 + (r1 + r2) * 65536 + r0)
    by (rewrite E0, E1, E2, E3; lia).
  rewrite <-E0, <-E1, <-E2, <-E3. clear E0 E1 E2 E3 Hah Hbh Hal Hbl.
  rewrite !(high_16 r1), !(high_16 r2), !half_up by lia. cbv zeta.
  destruct (r0 +u _ <? r0) eqn:C1; symmetry in C1; apply carry_in in C1; try zdiv_lia;
  cbn [c_bool] in C1;
  pose proof (u32_range (r0 + r1 mod 65536 * 65536)) as R1;
  revert C1 R1; generalize (r0 +u (r1 mod 65536 * 65536)); intros lo1 C1 R1;
  (destruct (lo1 +u _ <? lo1) eqn:C2; symmetry in C2; apply carry_in in C2; try zdiv_lia;
   cbn [c_bool] in C2;
   pose proof (u32_range (lo1 + r2 mod 65536 * 65536)) as R2;
   revert C2 R2; generalize (lo1 +u (r2 mod 65536 * 65536)); intros lo2 C2 R2);
  unfold u32; f_equal; zdiv_lia.
Qed.

(** The step of the division: [h] is the dividend so far, less than twice the divisor. *)
Lemma div_step n h div k : 0 < div → 0 <= n →
  (h * 2 ^ n + k) / div = (if div <=? h then 2 ^ n else 0) + ((if div <=? h then h - div else h) * 2 ^ n + k) / div ∧
  (h * 2 ^ n + k) mod div = ((if div <=? h then h - div else h) * 2 ^ n + k) mod div.
Proof.
  intros Hd Hn. destruct (div <=? h); [|done].
  replace (h * 2 ^ n + k) with ((h - div) * 2 ^ n + k + 2 ^ n * div) by lia.
  rewrite Z.div_add, Z.mod_add by lia. split; [lia|done].
Qed.

Lemma shift_low x n : (n < 32)%nat → 0 <= x < 2 ^ 32 →
  x / 2 ^ (32 - Z.of_nat (S n)) = x / 2 ^ 31 * 2 ^ Z.of_nat n + (x << 1) / 2 ^ (32 - Z.of_nat n).
Proof.
  intros Hn Hx. set (k := Z.of_nat n). assert (0 <= k < 32) as Hk by lia.
  replace (32 - Z.of_nat (S n)) with (31 - k) by lia.
  assert (x << 1 = x * 2 - x / 2 ^ 31 * 2 ^ 32) as ->.
  { unfold u32. rewrite shl_1. zdiv_lia. }
  replace (32 - k) with (31 - k + 1) by lia. rewrite Z.pow_add_r, (Z.mul_comm (2 ^ (31 - k))) by lia.
  rewrite <-Z.div_div by lia. replace (2 ^ 32) with (2 ^ 31 * 2) by done. rewrite Z.mul_assoc, <-Z.mul_sub_distr_r.
  change (2 ^ 1) with 2. rewrite Z.div_mul by lia.
  assert (2 ^ 31 = 2 ^ k * 2 ^ (31 - k)) as E by (rewrite <-Z.pow_add_r by lia; f_equal; lia).
  generalize dependent (x / 2 ^ 31). intros c. rewrite E.
  replace (x - c * (2 ^ k * 2 ^ (31 - k))) with (x + - (c * 2 ^ k) * 2 ^ (31 - k)) by lia. rewrite Z.div_add by lia. lia.
Qed.

Lemma div_loop_spec n hi lo div q : (n <= 32)%nat → 0 <= hi < div → div < 2 ^ 32 → 0 <= lo < 2 ^ 32 →
  0 <= q → (q + 1) * 2 ^ Z.of_nat n <= 2 ^ 32 →
  let dividend := hi * 2 ^ Z.of_nat n + lo / 2 ^ (32 - Z.of_nat n) in
  div_loop n hi lo div q = (q * 2 ^ Z.of_nat n + dividend / div, dividend mod div).
Proof.
  revert hi lo q. induction n as [|n IH]; intros hi lo q Hn Hhi Hd Hlo Hq0 Hq.
  { cbn [div_loop]. change (2 ^ Z.of_nat 0) with 1. change (32 - Z.of_nat 0) with 32. cbv zeta.
    rewrite (Z.div_small lo), !Z.mul_1_r, Z.add_0_r, Z.div_small, Z.mod_small by lia. f_equal. lia. }
  cbn [div_loop]. cbv zeta. rewrite (shift_low lo n) by lia.
  rewrite Nat2Z.inj_succ, Z.pow_succ_r in * by lia. set (k := Z.of_nat n) in *.
  assert (0 < 2 ^ k) as Hk by lia. set (h := 2 * hi + lo / 2 ^ 31).
  assert (tst lo 0x80000000 = (lo / 2 ^ 31 =? 1)) as Eb.
  { unfold tst. change 0x80000000 with (2 ^ 32 - 2 ^ 31). rewrite land_high by lia.
    destruct (Z.eqb_spec (lo / 2 ^ 31) 1) as [->|]; [done|]. assert (lo / 2 ^ 31 = 0) as -> by zdiv_lia. done. }
  assert ((if tst lo 0x80000000 then (hi << 1) +u 1 else hi << 1) = u32 h) as Eh.
  { rewrite Eb. unfold u32, h. rewrite shl_1. destruct (Z.eqb_spec (lo / 2 ^ 31) 1); zdiv_lia. }
  rewrite Eh.
  assert (negb (hi .& 0x80000000 =? 0) || (div <=? u32 h) = (div <=? h)) as Ec.
  { change 0x80000000 with (2 ^ 32 - 2 ^ 31). rewrite land_high by lia. unfold u32, h.
    apply eq_true_iff_eq. rewrite orb_true_iff, negb_true_iff, Z.eqb_neq, !Z.leb_le. zdiv_lia. }
  rewrite Ec. replace (hi * (2 * 2 ^ k) + (lo / 2 ^ 31 * 2 ^ k + (lo << 1) / 2 ^ (32 - k)))
    with (h * 2 ^ k + (lo << 1) / 2 ^ (32 - k)) by (unfold h; lia).
  destruct (div_step k h div ((lo << 1) / 2 ^ (32 - k)) ltac:(lia) ltac:(lia)) as [-> ->].
  assert (q << 1 = 2 * q) as -> by (rewrite shl_1, u32_small by nia; lia).
  assert (0 <= h < 2 * div) as Hh by (unfold h; zdiv_lia). pose proof (u32_range (Z.shiftl lo 1)) as Hl.
  destruct (Z.leb_spec div h).
  - assert (u32 h -u div = h - div) as -> by (unfold u32; zdiv_lia).
    assert (2 * q .| 1 = 2 * q + 1) as -> by (rewrite Z.mul_comm; apply (lor_disjoint_add q 1 1); lia).
    rewrite IH by (lia || nia). f_equal. lia.
  - rewrite u32_small by lia. rewrite IH by (lia || nia). f_equal. lia.
Qed.

(** [div_unsigned] refuses exactly the divisions whose quotient does not fit into a
    word (division by zero included) and else returns quotient and remainder of the 64-bit
    dividend. *)
Theorem div_unsigned_quotient hi lo div : 0 <= hi < 2 ^ 32 → 0 <= lo < 2 ^ 32 → 0 <= div < 2 ^ 32 →
  let n := hi * 2 ^ 32 + lo in
  div_unsigned hi lo div =
  if (div =? 0) || (2 ^ 32 <=? n / div) then None else Some (n / div, n mod div).
Proof.
  intros Hhi Hlo Hd n. unfold div_unsigned. destruct (Z.leb_spec div hi) as [Hle|Hlt].
  - destruct (Z.eqb_spec div 0) as [->|]; [done|]. cbn [orb].
    rewrite (proj2 (Z.leb_le _ _)); [done|]. apply Z.div_le_lower_bound; unfold n; nia.
  - rewrite (proj2 (Z.eqb_neq div 0)) by lia. cbn [orb].
    rewrite (proj2 (Z.leb_gt _ _)) by (apply Z.div_lt_upper_bound; unfold n; nia).
    rewrite div_loop_spec by (done || lia). cbn -[Z.div Z.modulo Z.pow Z.mul Z.add].
    change (32 - Z.of_nat 32) with 0. change (2 ^ 0) with 1. change (2 ^ Z.of_nat 32) with (2 ^ 32). rewrite Z.div_1_r.
    done.
Qed.

(** ** MULU.L, MULS.L, DIVU.L, DIVS.L *)

Section LongArith.
Context {cfg : Config} {D : Type} {hwd : Hardware D} (rts68000 : X (m68k D) unit).
Implicit Types (c : m68k D) (src extra : Z).

(** The second word of the instruction. *)
Definition is_signed extra : bool := Z.testbit extra 11.
Definition is_long extra : bool := Z.testbit extra 10.
Definition lo_reg extra : Z := (extra / 4096) mod 8.
Definition hi_reg extra : Z := extra mod 8.

Lemma extra_signed extra : tst extra 0x800 = is_signed extra.
Proof. by apply tst_pow. Qed.
Lemma extra_long extra : tst extra 0x400 = is_long extra.
Proof. by apply tst_pow. Qed.
Lemma extra_lo extra : (extra >> 12) .& 7 = lo_reg extra.
Proof. rewrite shr_12. by apply (Z.land_ones _ 3). Qed.
Lemma extra_hi extra : extra .& 7 = hi_reg extra.
Proof. by apply (Z.land_ones _ 3). Qed.

(** A word as the instruction reads it. *)
Definition operand (signed : bool) (x : Z) : Z := if signed then s32 x else x.
(** A result that fits into 32 bits. *)
Definition fits32 (signed : bool) (z : Z) : bool :=
  if signed then in_range (- 2 ^ 31) (2 ^ 31) z else in_range 0 (2 ^ 32) z.

Definition product extra src c : Z :=
  operand (is_signed extra) (c.(dregs) (lo_reg extra)) * operand (is_signed extra) src.

Definition mul_effect extra src c : m68k D :=
  let p := product extra src c in
  w_flags (Flags false (p =? 0) (Z.testbit p 63) (negb (is_long extra) && negb (fits32 (is_signed extra) p)) c.(flags).(XFLG))
    (w_dreg (lo_reg extra) (p mod 2 ^ 32)
      (if is_long extra then w_dreg (hi_reg extra) ((p / 2 ^ 32) mod 2 ^ 32) c else c)).

Lemma bit63 p : - 2 ^ 63 <= p < 2 ^ 64 → (s64 p <? 0) = Z.testbit p 63.
Proof.
  intros Hp. rewrite Z.testbit_odd, Z.shiftr_div_pow2 by lia. unfold s64.
  destruct (Z.ltb_spec p 0).
  - assert (p / 2 ^ 63 = -1) as -> by zdiv_lia. apply Z.ltb_lt. zdiv_lia.
  - destruct (Z.ltb_spec p (2 ^ 63)).
    + rewrite (Z.div_small p) by lia. apply Z.ltb_ge. zdiv_lia.
    + assert (p / 2 ^ 63 = 1) as -> by zdiv_lia. apply Z.ltb_lt. zdiv_lia.
Qed.

Lemma product_range extra src c : 0 <= src < 2 ^ 32 → 0 <= c.(dregs) (lo_reg extra) < 2 ^ 32 →
  if is_signed extra then - 2 ^ 63 <= product extra src c < 2 ^ 63 else 0 <= product extra src c < 2 ^ 64.
Proof.
  intros Hs Hc. unfold product, operand. pose proof (s32_range src). pose proof (s32_range (dregs c (lo_reg extra))).
  destruct (is_signed extra); nia.
Qed.

Lemma top_unsigned z : 0 <= z < 2 ^ 64 → negb (z .& 0xffffffff00000000 =? 0) = negb (in_range 0 (2 ^ 32) z).
Proof.
  intros. change 0xffffffff00000000 with (2 ^ 64 - 2 ^ 32). rewrite land_high by lia. unfold in_range.
  f_equal. apply eq_true_iff_eq. rewrite andb_true_iff, Z.eqb_eq, Z.leb_le, Z.ltb_lt. zdiv_lia.
Qed.

(** MULU.L and MULS.L: the low word of the product goes to its register, for the long form
    after the high word to the other one; Z, N and (for the short form, when the
    product does not fit) V are set, C is cleared, X and the rest of the processor stay. *)
Theorem mull_multiplies src extra c : 0 <= src < 2 ^ 32 → (∀ n, 0 <= c.(dregs) n < 2 ^ 32) →
  m68k_mull src extra c = (Ret tt, mul_effect extra src c).
Proof.
  intros Hs Hc. pose proof (product_range extra src c Hs (Hc _)) as Hp.
  assert ((s64 (product extra src c) <? 0) = Z.testbit (product extra src c) 63) as En
    by (apply bit63; destruct (is_signed extra); lia).
  unfold m68k_mull, mul_effect. erewrite xbind_ret by done.
  rewrite extra_signed, extra_long, extra_lo, extra_hi. cbv zeta.
  replace (if is_signed extra then _ else _) with (product extra src c)
    by (unfold product, operand; by destruct (is_signed extra)).
  erewrite xbind_ret by done. destruct (is_long extra).
  - rewrite <-En, Z.shiftr_div_pow2 by lia. done.
  - cbn [negb andb]. rewrite <-En. unfold fits32. destruct (is_signed extra); cbn [andb].
    + rewrite top_signed by done. by destruct (in_range _ _ _).
    + rewrite andb_true_r, top_unsigned by done. by destruct (in_range _ _ _).
Qed.

Definition dividend extra c : Z :=
  let lo := c.(dregs) (lo_reg extra) in
  let n := if is_long extra then c.(dregs) (hi_reg extra) * 2 ^ 32 + lo else operand (is_signed extra) lo in
  if is_signed extra then s64 n else n.

Definition div_effect extra src c : m68k D :=
  let n := dividend extra c in
  let d := operand (is_signed extra) src in
  let q := Z.quot n d in
  if fits32 (is_signed extra) q then
    w_flags (Flags false (q =? 0) (Z.testbit q 31) false c.(flags).(XFLG))
      (w_dreg (lo_reg extra) (q mod 2 ^ 32) (w_dreg (hi_reg extra) (Z.rem n d mod 2 ^ 32) c))
  else w_flags (Flags false c.(flags).(ZFLG) true true c.(flags).(XFLG)) c.

Lemma bit31 q : - 2 ^ 31 <= q < 2 ^ 32 → (s32 q <? 0) = Z.testbit q 31.
Proof.
  intros Hq. rewrite Z.testbit_odd, Z.shiftr_div_pow2 by lia. unfold s32.
  destruct (Z.ltb_spec q 0).
  - assert (q / 2 ^ 31 = -1) as -> by zdiv_lia. apply Z.ltb_lt. zdiv_lia.
  - destruct (Z.ltb_spec q (2 ^ 31)).
    + rewrite (Z.div_small q) by lia. apply Z.ltb_ge. zdiv_lia.
    + assert (q / 2 ^ 31 = 1) as -> by zdiv_lia. apply Z.ltb_lt. zdiv_lia.
Qed.
Lemma zero32 q : - 2 ^ 31 <= q < 2 ^ 32 → (s32 q =? 0) = (q =? 0).
Proof. intros Hq. apply eq_true_iff_eq. rewrite !Z.eqb_eq. unfold s32. zdiv_lia. Qed.

Lemma fits32_range signed q : fits32 signed q = true → - 2 ^ 31 <= q < 2 ^ 32.
Proof. unfold fits32, in_range. destruct signed; lia. Qed.

Lemma div_result_effect extra q r c : - 2 ^ 31 <= q < 2 ^ 32 →
  div_result extra q r c = (Ret tt, w_flags (Flags false (q =? 0) (Z.testbit q 31) false c.(flags).(XFLG))
    (w_dreg (lo_reg extra) (q mod 2 ^ 32) (w_dreg (hi_reg extra) (r mod 2 ^ 32) c))).
Proof.
  intros Hq. unfold div_result. rewrite extra_lo, extra_hi, bit31, zero32 by done. done.
Qed.

(** The sign of the remainder is already right. *)
Lemma rem_sign n d : d ≠ 0 → Z.abs d <= 2 ^ 31 →
  (if negb (eqb (s32 (Z.rem n d) <? 0) (n <? 0)) then - Z.rem n d else Z.rem n d) = Z.rem n d.
Proof.
  intros Hd Hab. pose proof (Z.rem_bound_abs n d Hd) as Hb. rewrite s32_id by lia.
  destruct (Z.ltb_spec n 0).
  - assert (Z.rem n d <= 0) by (apply Z.rem_nonpos; lia).
    destruct (Z.ltb_spec (Z.rem n d) 0); cbn [eqb negb]; lia.
  - assert (0 <= Z.rem n d) by (apply Z.rem_nonneg; lia).
    destruct (Z.ltb_spec (Z.rem n d) 0); cbn [eqb negb]; lia.
Qed.

Lemma dividend_word hi lo : 0 <= hi < 2 ^ 32 → 0 <= lo < 2 ^ 32 →
  (s32 lo .& 0xffffffff) .| Z.shiftl hi 32 = hi * 2 ^ 32 + lo ∧ (lo .& 0xffffffff) .| Z.shiftl hi 32 = hi * 2 ^ 32 + lo.
Proof.
  intros Hh Hl. assert (∀ x, x .& 0xffffffff = x mod 2 ^ 32) as Hm by (intros; by apply (Z.land_ones _ 32)).
  assert (s32 lo mod 2 ^ 32 = lo) as E1 by (unfold s32; zdiv_lia). assert (lo mod 2 ^ 32 = lo) as E2 by zdiv_lia.
  rewrite !Hm, E1, E2, Z.lor_comm, Z.shiftl_mul_pow2, lor_disjoint_add by lia. done.
Qed.

Lemma quot_range n d : d ≠ 0 → - 2 ^ 63 <= n < 2 ^ 63 → ¬ (n = - 2 ^ 63 ∧ d = -1) → - 2 ^ 63 <= Z.quot n d < 2 ^ 63.
Proof.
  intros Hd Hn Ho. assert (d = 1 ∨ d = -1 ∨ 2 <= Z.abs d) as [->|[->|H2]] by lia.
  - rewrite Z.quot_1_r. lia.
  - change (n `quot` (-1)) with (n `quot` (- (1))). rewrite Z.quot_opp_r, Z.quot_1_r by lia. lia.
  - assert (Z.abs (Z.quot n d) <= 2 ^ 62); [|lia]. rewrite <-Z.quot_abs by lia. apply Z.quot_le_upper_bound; [lia|]. nia.
Qed.

(** C24: DIVU.L and DIVS.L by a divisor that is not zero: quotient (truncated towards zero) and remainder, which
    has the sign of the dividend, go to their registers, N and Z are those of the quotient, V and C
    are cleared; a quotient that does not fit sets V and leaves the registers.  The
    division of -2^63 by -1 is excepted, the host cannot do it. *)
Theorem divl_divides src extra oldpc c :
  0 < src < 2 ^ 32 → (∀ n, 0 <= c.(dregs) n < 2 ^ 32) →
  ¬ (dividend extra c = - 2 ^ 63 ∧ operand (is_signed extra) src = -1) →
  m68k_divl src extra oldpc c = (Ret tt, div_effect extra src c).
Proof.
  intros Hs Hc Ho. unfold m68k_divl. rewrite (proj2 (Z.eqb_neq src 0)) by lia.
  erewrite xbind_ret by done. erewrite xbind_ret by done. cbv beta.
  rewrite extra_signed, extra_long, extra_lo, extra_hi. cbv zeta.
  destruct (dividend_word (c.(dregs) (hi_reg extra)) (c.(dregs) (lo_reg extra)) (Hc _) (Hc _)) as [-> ->].
  unfold div_effect, dividend, operand in *.
  pose proof (s32_range src). pose proof (s32_range (c.(dregs) (lo_reg extra))).
  destruct (is_signed extra) eqn:Es.
  - replace (if is_long extra then s64 _ else s32 _)
      with (s64 (if is_long extra then dregs c (hi_reg extra) * 2 ^ 32 + dregs c (lo_reg extra) else s32 (dregs c (lo_reg extra))))
      by (destruct (is_long extra); [done|by rewrite s64_id by lia]).
    revert Ho. generalize (if is_long extra then dregs c (hi_reg extra) * 2 ^ 32 + dregs c (lo_reg extra) else s32 (dregs c (lo_reg extra))).
    intros n' Ho. assert (- 2 ^ 63 <= s64 n' < 2 ^ 63) as Hn by (unfold s64; zdiv_lia).
    revert Ho Hn. generalize (s64 n'). intros n Ho Hn.
    assert (s32 src ≠ 0) as Hd by (unfold s32; zdiv_lia).
    replace ((n =? - 2 ^ 63) && (s32 src =? -1)) with false by lia. pose proof (quot_range n (s32 src) Hd Hn Ho).
    rewrite top_signed, rem_sign by lia.
    unfold fits32. destruct (in_range _ _ _) eqn:Ef; cbn [negb]; [|done].
    apply div_result_effect. unfold in_range in Ef. lia.
  - set (n := if is_long extra then _ else _). pose proof (Hc (hi_reg extra)). pose proof (Hc (lo_reg extra)).
    assert (0 <= n < 2 ^ 64) as Hn by (unfold n; destruct (is_long extra); lia).
    rewrite <-Z.quot_div_nonneg, <-Z.rem_mod_nonneg by lia. unfold fits32, in_range.
    assert (0 <= Z.quot n src) as Hq by (apply Z.quot_pos; lia).
    rewrite (proj2 (Z.leb_le _ _) Hq). cbn [andb].
    destruct (Z.ltb_spec 0xffffffff (Z.quot n src)), (Z.ltb_spec (Z.quot n src) (2 ^ 32)); try lia; [done|].
    apply div_result_effect. lia.
Qed.
End LongArith.
