(* ===== verification/M68kStack.v ===== *)
(** * M68kStack: the memory behind the stack

    What exception processing needs of memory, as an interface ([RamIn], for a mode of the processor; [Ram] for
    supervisor mode): words and longwords at even addresses of a window can be stored and read back, and
    nothing else changes.  [mmu_ram] shows that the memory management unit implements
    it, for any window whose pages are mapped to plain RAM. *)

From S2P Require Import Prelude Throws Machine MachineSpec Mmu MmuWalk MmuSpec MmuAccess MmuTheorems M68k.
From stdpp Require Import base gmap list numbers.
Open Scope Z_scope.
Open Scope c_scope.
Open Scope x_scope.

(** ** Bytes of memory *)

Fixpoint load (n : nat) (f : Z → Z) (a : Z) : Z :=
  match n with
  | O => 0
  | S n => load n f a * 256 + f (a + Z.of_nat n)
  end.

Definition store (n : nat) (a v : Z) (f : Z → Z) : Z → Z := λ x,
  if in_range a (a + Z.of_nat n) x then u8 (v / 256 ^ (a + Z.of_nat n - 1 - x)) else f x.

Lemma load_ext n f g a : (∀ x, a <= x < a + Z.of_nat n → f x = g x) → load n f a = load n g a.
Proof.
  induction n as [|n IH]; intros H; [done|]. cbn [load]. rewrite IH, H by (lia || intros; apply H; lia). done.
Qed.

Lemma store_out n a v f x : x < a ∨ a + Z.of_nat n <= x → store n a v f x = f x.
Proof. intros H. unfold store, in_range. destruct (Z.leb_spec a x), (Z.ltb_spec x (a + Z.of_nat n)); (done || lia). Qed.

Lemma store_in n a v f x : a <= x < a + Z.of_nat n → store n a v f x = u8 (v / 256 ^ (a + Z.of_nat n - 1 - x)).
Proof. intros H. unfold store. by rewrite in_range_true. Qed.

Lemma load_store n a v f : load n (store n a v f) a = v mod 256 ^ Z.of_nat n.
Proof.
  assert (∀ k : nat, (k <= n)%nat → load k (store n a v f) a = (v / 256 ^ (Z.of_nat (n - k))) mod 256 ^ Z.of_nat k) as H.
  { induction k as [|k IH]; intros Hk; [by rewrite Z.mod_1_r|]. cbn [load].
    rewrite IH, store_in by lia. rewrite (Nat2Z.inj_succ k), Z.pow_succ_r by lia.
    replace (n - k)%nat with (S (n - S k)) by lia. rewrite Nat2Z.inj_succ, Z.pow_succ_r by lia.
    replace (a + Z.of_nat n - 1 - (a + Z.of_nat k)) with (Z.of_nat (n - S k)) by lia.
    rewrite (Z.mul_comm 256 (256 ^ Z.of_nat (n - S k))), <-Z.div_div by lia.
    generalize (v / 256 ^ Z.of_nat (n - S k)). intros w. rewrite Z.rem_mul_r by lia. unfold u8. lia. }
  rewrite H by lia. by rewrite Nat.sub_diag, Z.div_1_r.
Qed.

Lemma store_wrap n a v f x : store n a (v mod 256 ^ Z.of_nat n) f x = store n a v f x.
Proof.
  unfold store. destruct (in_range a (a + Z.of_nat n) x) eqn:E; [|done]. unfold in_range in E.
  set (k := a + Z.of_nat n - 1 - x). unfold u8. assert (0 <= k < Z.of_nat n) as Hk by lia.
  replace (Z.of_nat n) with (k + (1 + (Z.of_nat n - 1 - k))) by lia.
  rewrite (Z.pow_add_r 256 k), Z.pow_add_r by lia. rewrite Z.rem_mul_r by lia.
  rewrite (Z.mul_comm (256 ^ k)), Z.div_add, Z.div_small by (lia || apply Z.mod_pos_bound; lia).
  rewrite Z.add_0_l. change (256 ^ 1) with 256. rewrite Z.rem_mul_r by lia.
  rewrite Z.mul_comm, Z.mod_add, Z.mod_mod by lia. done.
Qed.

Lemma store_u16 a v f x : store 2 a (u16 v) f x = store 2 a v f x.
Proof. exact (store_wrap 2 a v f x). Qed.
Lemma store_u32 a v f x : store 4 a (u32 v) f x = store 4 a v f x.
Proof. exact (store_wrap 4 a v f x). Qed.
Lemma store_ext n a v f g x : f x = g x → store n a v f x = store n a v g x.
Proof. unfold store. by intros ->. Qed.

Lemma load_bytes n f a : (∀ x, 0 <= f x < 256) → 0 <= load n f a < 256 ^ Z.of_nat n.
Proof.
  intros Hf. induction n as [|n IH]; [cbn; lia|]. cbn [load]. specialize (Hf (a + Z.of_nat n)).
  rewrite Nat2Z.inj_succ, Z.pow_succ_r by lia. lia.
Qed.

(** ** The interface *)

(** The registers the translation looks at are the same. *)
Record mmu_same (r r' : regstruct) : Prop := {
  ms_urp : r'.(urp) = r.(urp);
  ms_srp : r'.(srp) = r.(srp);
  ms_enabled : r'.(mmu_enabled) = r.(mmu_enabled);
  ms_pagesize : r'.(mmu_pagesize_8k) = r.(mmu_pagesize_8k);
  ms_dtt0 : r'.(dtt0) = r.(dtt0);
  ms_dtt1 : r'.(dtt1) = r.(dtt1);
  ms_itt0 : r'.(itt0) = r.(itt0);
  ms_itt1 : r'.(itt1) = r.(itt1);
}.

#[export] Instance mmu_same_equiv : Equivalence mmu_same.
Proof. split; [done|by intros ?? []|intros ??? [] []; split; congruence]. Qed.

(** Memory and translation are the same; other registers may differ. *)
Record soft {D} (s s' : machine D) : Prop := {
  so_mem : s'.(mem) = s.(mem);
  so_l1 : s'.(atc_l1) = s.(atc_l1);
  so_l2 : s'.(atc_l2) = s.(atc_l2);
  so_regs : mmu_same s.(regs) s'.(regs);
}.

(** The processor is in supervisor mode ([md]) or in user mode, and so is the memory management unit. *)
Definition in_mode {D} (md : bool) (s : machine D) : Prop := s.(regs).(sr_s) = md ∧ s.(current_atc) = md.
Abbreviation super := (in_mode true).

(** What an access leaves alone. *)
Record same_cpu {D} (s s' : machine D) : Prop := {
  sc_regs : s'.(regs) = s.(regs);
  sc_current : s'.(current_atc) = s.(current_atc);
  sc_spc : s'.(spcflags) = s.(spcflags);
  sc_dev : s'.(dev) = s.(dev);
}.

Lemma same_cpu_trans {D} (s1 s2 s3 : machine D) : same_cpu s1 s2 → same_cpu s2 s3 → same_cpu s1 s3.
Proof. intros [] []. split; congruence. Qed.
Lemma same_cpu_mode {D} md (s s' : machine D) : same_cpu s s' → in_mode md s → in_mode md s'.
Proof. intros [E1 E2 _ _] []. split; congruence. Qed.
Lemma same_cpu_super {D} (s s' : machine D) : same_cpu s s' → super s → super s'.
Proof. apply same_cpu_mode. Qed.

Definition span (win : Z → Prop) (a n : Z) : Prop :=
  a mod 2 = 0 ∧ 0 <= a ∧ a + n <= 2 ^ 32 ∧ ∀ x, a <= x < a + n → win x.

Lemma span_sub win a n b k : span win a n → a <= b → b + k <= a + n → b mod 2 = 0 → span win b k.
Proof. intros (? & ? & ? & H) ???. split_and!; [done|lia|lia|]. intros x Hx. apply H. lia. Qed.

Class RamIn {cfg : Config} {D : Type} {hwd : Hardware D} (md : bool) (win : Z → Prop) (good : machine D → Prop)
    (cell : machine D → Z → Z) : Prop := {
  ram_byte s x : 0 <= cell s x < 256;
  ram_soft s s' : soft s s' → good s → good s';
  ram_soft_cell s s' x : soft s s' → cell s' x = cell s x;
  ram_get_word s a : good s → in_mode md s → span win a 2 →
    ∃ s', get_word a s = (Ret (load 2 (cell s) a), s') ∧ good s' ∧ same_cpu s s' ∧ (∀ x, win x → cell s' x = cell s x);
  ram_get_long s a : good s → in_mode md s → span win a 4 →
    ∃ s', get_long a s = (Ret (load 4 (cell s) a), s') ∧ good s' ∧ same_cpu s s' ∧ (∀ x, win x → cell s' x = cell s x);
  ram_put_word s a v : good s → in_mode md s → span win a 2 →
    ∃ s', put_word a v s = (Ret tt, s') ∧ good s' ∧ same_cpu s s' ∧ (∀ x, win x → cell s' x = store 2 a v (cell s) x);
  ram_put_long s a v : good s → in_mode md s → span win a 4 →
    ∃ s', put_long a v s = (Ret tt, s') ∧ good s' ∧ same_cpu s s' ∧ (∀ x, win x → cell s' x = store 4 a v (cell s) x);
}.

Abbreviation Ram := (RamIn true).

(** ** The memory management unit *)

Section MmuRam.
Context {cfg : Config} {ok : ConfigOk} {D : Type} {hwd : Hardware D} (T : tables) {Tok : TablesOk T}.
Context {md : bool} (r : regstruct) (win : Z → Prop) (ph : Z → Z).
Implicit Types (s : machine D).

(** The window is plain RAM behind the translation: [x] is at [ph x]. *)
Record mapped_window : Prop := {
  mw_described : described T r;
  mw_plain x : win x → plain T r md x (ph x);
  mw_outside x : win x → outside T (ph x);
  mw_inj x y : win x → win y → ph x = ph y → x = y;
}.

Definition mmu_good s : Prop := coherent T none s ∧ mmu_same r s.(regs).
Definition mmu_cell s (x : Z) : Z := u8 (aget s.(mem) (ph x)).

Lemma translate_same r1 r2 sup data a : mmu_same r1 r2 → t_translate T r2 sup data a = t_translate T r1 sup data a.
Proof. intros [E1 E2 E3 E4 E5 E6 E7 E8]. unfold t_translate, mmu_match_ttr. by rewrite E1, E2, E3, E4, E5, E6, E7, E8. Qed.

Lemma match_ttr_same r1 r2 a sup data : mmu_same r1 r2 → mmu_match_ttr r2 a sup data = mmu_match_ttr r1 a sup data.
Proof. intros [E1 E2 E3 E4 E5 E6 E7 E8]. unfold mmu_match_ttr. by rewrite E5, E6, E7, E8. Qed.

Lemma described_same r1 r2 : mmu_same r1 r2 → described T r1 → described T r2.
Proof.
  intros Hs [Ha Hu Hsr Ht]. split.
  - intros. rewrite (translate_same r1 r2) by done. by apply Ha.
  - by rewrite (ms_urp _ _ Hs).
  - by rewrite (ms_srp _ _ Hs).
  - intros. rewrite !(match_ttr_same r1 r2) by done. by apply Ht.
Qed.

Lemma plain_regs r1 r2 sup a p : mmu_same r1 r2 → plain T r1 sup a p → plain T r2 sup a p.
Proof. intros Hs [Hw Hm Ht Hp Hr]. split; [done| |done..]. intros. by rewrite (translate_same r1 r2). Qed.

Lemma coherent_same s s' : soft s s' → coherent T none s → coherent T none s'.
Proof.
  intros [Em E1 E2 Hs] [Hi H2 H1]. split.
  - by rewrite Em.
  - rewrite E2. intros sup a Ha Ht. destruct (H2 sup a Ha Ht) as [Hl Hh]. split; [|done].
    intros data. rewrite (translate_same (regs s) (regs s')) by done. apply Hl.
  - rewrite E1. intros sup data write a Ha k Hk. destruct (H1 sup data write a Ha Hk) as [Hh Hr].
    assert (∀ delta, allowed T (regs s) sup data write a delta → allowed T (regs s') sup data write a delta) as Hal.
    { intros delta (wp & E & Hw). exists wp. by rewrite (translate_same (regs s) (regs s')). }
    split; intros E.
    + destruct (Hh E) as (? & ? & ?). split; [by apply Hal|done].
    + destruct (Hr E) as (delta & ? & ?). exists delta. split; [by apply Hal|done].
Qed.

Lemma plain_unique sup a p q : plain T r sup a p → plain T r sup a q → p = q.
Proof.
  intros [Ha Hm [Hp _] _ _] [_ Hm' [Hq _] _ _]. specialize (Hm true). rewrite Hm' in Hm. simplify_eq.
  rewrite <-(plain_target a p), <-(plain_target a q) by done. congruence.
Qed.

Context (Hw : mapped_window).

(** Within a page, the window is contiguous. *)
Lemma window_run a n : (0 < n)%nat → (∀ x, a <= x < a + Z.of_nat n → win x) → in_page n a →
  ∀ x, a <= x < a + Z.of_nat n → ph x = ph a + (x - a).
Proof.
  intros Hn Hx [_ Hp] x Hxr. pose proof (mw_plain Hw a (Hx a ltac:(lia))) as Ha. pose proof (mw_plain Hw x (Hx x Hxr)) as Hpx.
  eapply plain_unique; [exact Hpx|]. apply plain_same_page; [done|apply Hpx|].
  unfold page_of in *. zdiv_lia.
Qed.

Lemma window_away a n : (0 < n)%nat → (∀ x, a <= x < a + Z.of_nat n → win x) → in_page n a → away T n (ph a).
Proof.
  intros Hn Hx Hp y Hy. pose proof (window_run a n Hn Hx Hp (a + (y - ph a)) ltac:(lia)) as E.
  replace y with (ph (a + (y - ph a))) by lia. apply (mw_outside Hw), Hx. lia.
Qed.

Lemma quiet_cells s s' : quiet T s s' → ∀ x, win x → mmu_cell s' x = mmu_cell s x.
Proof. intros Hq x Hx. unfold mmu_cell. by rewrite (q_mem _ _ _ Hq) by (by apply (mw_outside Hw)). Qed.

Lemma quiet_cpu s s' : quiet T s s' → same_cpu s s'.
Proof. by intros []. Qed.

Lemma window_load s n hwget a size : (0 < n)%nat → mmu_good s → in_mode md s → (∀ x, a <= x < a + Z.of_nat n → win x) →
  in_page n a →
  ∃ s', mmu_get n hwget a true size s = (Ret (load n (mmu_cell s) a), s') ∧ mmu_good s' ∧ same_cpu s s' ∧
    (∀ x, win x → mmu_cell s' x = mmu_cell s x).
Proof.
  intros Hn [Hc Hs] [Hsr Hcur] Hx Hp.
  assert (mmu_get n hwget a true size s = mmu_get_at n hwget md md a true size s) as ->.
  { unfold mmu_get. erewrite xbind_ret by done. erewrite xbind_ret by done. by rewrite Hcur, Hsr. }
  pose proof (mw_plain Hw a (Hx a ltac:(lia))) as Hpl.
  destruct (get_resolves T none s n hwget a md true size Hn) as (t & s1 & Ht & Hq & _ & Ho); try done.
  { by eapply described_same, Hw. } { by intros []. } { apply Hpl. } { apply Hp. }
  apply (plain_resolves T _ _ _ _ _ (ph a)) in Ht as ->; [|by eapply plain_regs]. destruct Ho as [-> Hc1].
  exists s1. split; [|split; [|split; [by apply quiet_cpu|by apply quiet_cells]]].
  - f_equal. f_equal. transitivity (load n (mmu_cell s1) a); [|apply load_ext; intros x Hxr; apply quiet_cells; auto].
    assert (∀ k : nat, (k <= n)%nat → be_get k s1.(mem) (ph a) = load k (mmu_cell s1) a) as H; [|by apply H].
    induction k as [|k IH]; intros Hk; [done|]. cbn [be_get load]. rewrite IH by lia. unfold mmu_cell.
    rewrite (window_run a n Hn Hx Hp (a + Z.of_nat k)) by lia. do 3 f_equal. lia.
  - split; [done|]. by rewrite (q_regs _ _ _ Hq).
Qed.

Lemma window_store s n hwput a v size : (0 < n)%nat → mmu_good s → in_mode md s → (∀ x, a <= x < a + Z.of_nat n → win x) →
  in_page n a →
  ∃ s', mmu_put n hwput a v true size s = (Ret tt, s') ∧ mmu_good s' ∧ same_cpu s s' ∧
    (∀ x, win x → mmu_cell s' x = store n a v (mmu_cell s) x).
Proof.
  intros Hn [Hc Hs] [Hsr Hcur] Hx Hp.
  assert (mmu_put n hwput a v true size s = mmu_put_at n hwput md md a v true size s) as ->.
  { unfold mmu_put. erewrite xbind_ret by done. erewrite xbind_ret by done. by rewrite Hcur, Hsr. }
  pose proof (mw_plain Hw a (Hx a ltac:(lia))) as Hpl.
  destruct (put_resolves T none s n hwput a v md true size Hn) as (t & s1 & Ht & Hq & _ & Ho); try done.
  { by eapply described_same, Hw. } { by intros []. } { apply Hpl. } { apply Hp. }
  apply (plain_resolves T _ _ _ _ _ (ph a)) in Ht as ->; [|by eapply plain_regs]. destruct Ho as [-> Hc1].
  eexists. split; [done|]. split; [|split].
  - split; [|cbn; by rewrite (q_regs _ _ _ Hq)]. apply coherent_store; [done..|]. by apply window_away.
  - by apply quiet_cpu in Hq as [].
  - intros x Hxw. unfold mmu_cell. cbn [mem set_mem]. destruct (decide (a <= x < a + Z.of_nat n)) as [Hin|Hout].
    + rewrite store_in, (window_run a n Hn Hx Hp x) by done. rewrite be_put_value by lia.
      rewrite u8_u8. do 3 f_equal. lia.
    + rewrite store_out by lia. rewrite be_put_ne; [by apply quiet_cells|].
      destruct (decide (ph a <= ph x < ph a + Z.of_nat n)) as [Hin|]; [|lia]. exfalso.
      pose proof (window_run a n Hn Hx Hp (a + (ph x - ph a)) ltac:(lia)) as E.
      assert (x = a + (ph x - ph a)); [|lia]. apply (mw_inj Hw); [done|apply Hx; lia|lia].
Qed.

Lemma even_word_page a : a mod 2 = 0 → page_of (a + 1) = page_of a.
Proof. unfold page_of. intros. zdiv_lia. Qed.

Lemma even_in_page a : a mod 2 = 0 → in_page 2 a.
Proof. intros Ha. split; [lia|]. rewrite <-(even_word_page a Ha). f_equal. lia. Qed.

Lemma even_tst a : a mod 2 = 0 → tst a 1 = false.
Proof. intros Ha. unfold tst. by rewrite mask_1, Ha. Qed.

Lemma word_aligned a : span win a 2 → is_unaligned a 2 = false.
Proof.
  intros (He & H0 & H1 & _). change 2 with (2 ^ 1). rewrite is_unaligned_spec by (unfold word32; lia).
  change (2 ^ 1 - 1) with 1. by rewrite even_word_page, Z.eqb_refl.
Qed.

Lemma long_aligned a : span win a 4 → is_unaligned a 4 = negb (page_of a =? page_of (a + 3)).
Proof. intros (He & H0 & H1 & _). change 4 with (2 ^ 2) at 1. rewrite is_unaligned_spec by (unfold word32; lia). done. Qed.

Lemma span_win a n x : span win a n → a <= x < a + n → win x.
Proof. intros (_ & _ & _ & H). apply H. Qed.

Lemma span_half a : span win a 4 → span win a 2 ∧ span win (a + 2) 2.
Proof. intros H. pose proof H as (He & _). split; (eapply span_sub; [exact H|lia..|]); [done|]. zdiv_lia. Qed.

Lemma mmu_get_even_word s a size : mmu_good s → in_mode md s → span win a 2 →
  ∃ s', mmu_get_word a true size s = (Ret (load 2 (mmu_cell s) a), s') ∧ mmu_good s' ∧ same_cpu s s' ∧
    (∀ x, win x → mmu_cell s' x = mmu_cell s x).
Proof.
  intros Hg Hs Ha. apply window_load; [lia|done..|by intros x; apply span_win|]. by apply even_in_page, Ha.
Qed.

Lemma mmu_put_even_word s a v size : mmu_good s → in_mode md s → span win a 2 →
  ∃ s', mmu_put_word a v true size s = (Ret tt, s') ∧ mmu_good s' ∧ same_cpu s s' ∧
    (∀ x, win x → mmu_cell s' x = store 2 a v (mmu_cell s) x).
Proof.
  intros Hg Hs Ha.
  destruct (window_store s 2 HWput_w a (u16 v) size) as (s' & E & ? & ? & Hx);
    [lia|done..|by intros x; apply span_win|apply even_in_page, Ha|].
  exists s'. split; [exact E|]. do 2 (split; [done|]). intros x Hxw. by rewrite Hx, store_u16.
Qed.

Lemma load4 f a : load 4 f a = load 2 f a * 65536 + load 2 f (a + 2).
Proof. cbn [load]. rewrite <-!Z.add_assoc. change (2 + Z.of_nat 0) with 2. change (2 + Z.of_nat 1) with 3.
  change (Z.of_nat 2) with 2. change (Z.of_nat 3) with 3. lia. Qed.

Lemma store4 a v f x : store 2 (a + 2) (u16 v) (store 2 a (u16 (v >> 16)) f) x = store 4 a v f x.
Proof.
  unfold store, in_range. change (Z.of_nat 2) with 2. change (Z.of_nat 4) with 4.
  destruct (decide (a + 2 <= x < a + 4)) as [H|H].
  - rewrite (proj2 (Z.leb_le (a + 2) x)), (proj2 (Z.ltb_lt x (a + 2 + 2))) by lia. cbn [andb].
    rewrite (proj2 (Z.leb_le a x)), (proj2 (Z.ltb_lt x (a + 4))) by lia. cbn [andb].
    assert (x = a + 2 ∨ x = a + 3) as [->| ->] by lia.
    + replace (a + 2 + 2 - 1 - (a + 2)) with 1 by lia. replace (a + 4 - 1 - (a + 2)) with 1 by lia.
      change (256 ^ 1) with 256. unfold u8, u16. zdiv_lia.
    + replace (a + 2 + 2 - 1 - (a + 3)) with 0 by lia. replace (a + 4 - 1 - (a + 3)) with 0 by lia.
      change (256 ^ 0) with 1. unfold u8, u16. zdiv_lia.
  - replace ((a + 2 <=? x) && (x <? a + 2 + 2)) with false by lia.
    destruct (decide (a <= x < a + 2)) as [H'|H'].
    + rewrite (proj2 (Z.leb_le a x)), (proj2 (Z.ltb_lt x (a + 2))), (proj2 (Z.ltb_lt x (a + 4))) by lia. cbn [andb].
      rewrite shr_16. assert (x = a ∨ x = a + 1) as [->| ->] by lia.
      * replace (a + 2 - 1 - a) with 1 by lia. replace (a + 4 - 1 - a) with 3 by lia.
        change (256 ^ 1) with 256. change (256 ^ 3) with (65536 * 256). rewrite <-Z.div_div by lia.
        generalize (v / 65536). intros w. unfold u8, u16. zdiv_lia.
      * replace (a + 2 - 1 - (a + 1)) with 0 by lia. replace (a + 4 - 1 - (a + 1)) with 2 by lia.
        change (256 ^ 0) with 1. change (256 ^ 2) with 65536.
        generalize (v / 65536). intros w. unfold u8, u16. zdiv_lia.
    + replace ((a <=? x) && (x <? a + 2)) with false by lia. by replace ((a <=? x) && (x <? a + 4)) with false by lia.
Qed.

Lemma mmu_get_even_long s a : mmu_good s → in_mode md s → span win a 4 →
  ∃ s', get_long a s = (Ret (load 4 (mmu_cell s) a), s') ∧ mmu_good s' ∧ same_cpu s s' ∧
    (∀ x, win x → mmu_cell s' x = mmu_cell s x).
Proof.
  intros Hg Hs Ha. unfold get_long. rewrite long_aligned by done.
  destruct (Z.eqb_spec (page_of a) (page_of (a + 3))) as [E|E]; cbn [negb].
  - apply window_load; [lia|done..|by intros x; apply span_win|]. split; [lia|]. rewrite E. f_equal. lia.
  - destruct (span_half a Ha) as [H1 H2]. unfold mmu_get_long_unaligned, long_by_parts.
    rewrite even_tst by apply Ha. cbn [negb].
    destruct (mmu_get_even_word s a sz_long Hg Hs H1) as (s1 & E1 & Hg1 & Hc1 & Hx1).
    destruct (mmu_get_even_word s1 (a + 2) sz_long Hg1 (same_cpu_mode md _ _ Hc1 Hs) H2) as (s2 & E2 & Hg2 & Hc2 & Hx2).
    exists s2. split; [|split; [done|split; [by eapply same_cpu_trans|intros x Hx; by rewrite Hx2, Hx1]]].
    erewrite xbind_ret by exact E1. apply try_catch_ret. rewrite u32_small by (destruct Ha; lia).
    erewrite xbind_ret by exact E2. unfold xret. do 2 f_equal.
    assert (∀ b, 0 <= load 2 (mmu_cell s) b < 2 ^ 16) as Hb by (intros b; apply (load_bytes 2); intros; apply u8_range).
    rewrite (load_ext 2 (mmu_cell s1) (mmu_cell s)) by (intros x Hx; apply Hx1, (span_win (a + 2) 2 x H2); lia).
    pose proof (Hb a). pose proof (Hb (a + 2)). rewrite (shift_in _ 16), load4; lia.
Qed.

Lemma mmu_put_even_long s a v : mmu_good s → in_mode md s → span win a 4 →
  ∃ s', put_long a v s = (Ret tt, s') ∧ mmu_good s' ∧ same_cpu s s' ∧
    (∀ x, win x → mmu_cell s' x = store 4 a v (mmu_cell s) x).
Proof.
  intros Hg Hs Ha. unfold put_long. rewrite long_aligned by done.
  destruct (Z.eqb_spec (page_of a) (page_of (a + 3))) as [E|E]; cbn [negb].
  - destruct (window_store s 4 HWput_l a (u32 (u32 v)) sz_long) as (s' & E' & Hg' & Hc' & Hx');
      [lia|done..|by intros x; apply span_win|split; [lia|rewrite E; f_equal; lia]|].
    exists s'. split; [exact E'|]. do 2 (split; [done|]). intros x Hx. by rewrite Hx', !store_u32.
  - destruct (span_half a Ha) as [H1 H2]. unfold mmu_put_long_unaligned, put_long_by_parts.
    rewrite even_tst by apply Ha. cbn [negb].
    destruct (mmu_put_even_word s a (u32 v >> 16) sz_long Hg Hs H1) as (s1 & E1 & Hg1 & Hc1 & Hx1).
    destruct (mmu_put_even_word s1 (a + 2) (u32 v) sz_long Hg1 (same_cpu_mode md _ _ Hc1 Hs) H2) as (s2 & E2 & Hg2 & Hc2 & Hx2).
    exists s2. split; [|split; [done|split; [by eapply same_cpu_trans|]]].
    + apply try_catch_ret. erewrite xbind_ret by exact E1. by rewrite u32_small by (destruct Ha; lia).
    + intros x Hx. rewrite Hx2 by done. rewrite <-(store_u32 a v), <-store4, !store_u16. apply store_ext. rewrite store_u16. by apply Hx1.
Qed.

(** The memory management unit is such a memory. *)
#[export] Instance mmu_ram : RamIn md win mmu_good mmu_cell.
Proof.
  split.
  - intros s x. apply u8_range.
  - intros s s' Hs [Hc Hm]. split; [by eapply coherent_same|]. etrans; [exact Hm|apply Hs].
  - intros s s' x Hs. unfold mmu_cell. by rewrite (so_mem _ _ Hs).
  - intros s a Hg Hs Ha. unfold get_word. rewrite word_aligned by done. by apply mmu_get_even_word.
  - apply mmu_get_even_long.
  - intros s a v Hg Hs Ha. unfold put_word. rewrite word_aligned by done.
    destruct (mmu_put_even_word s a (u16 v) sz_word Hg Hs Ha) as (s' & E & ? & ? & Hx).
    exists s'. split; [exact E|]. do 2 (split; [done|]). intros x Hxw. by rewrite Hx, store_u16.
  - apply mmu_put_even_long.
Qed.
End MmuRam.
