(* ===== verification/M68kFrame.v ===== *)
(** * M68kFrame: stack frames

    What the stacking of values leaves ([stacked]), the effect of the status register on the
    three stack pointers ([from_sr_banks]), and what RTE does with a frame ([rte_frame],
    [rte_throwaway]), all against the interface [Ram]. *)

From S2P Require Import Prelude Throws Machine Mmu M68k M68kStack.
From stdpp Require Import base gmap list numbers.
Open Scope Z_scope.
Open Scope c_scope.
Open Scope x_scope.

Lemma add_even a b : a mod 2 = 0 → b mod 2 = 0 → (a + b) mod 2 = 0.
Proof. intros. zdiv_lia. Qed.
Lemma sub_even a b : a mod 2 = 0 → b mod 2 = 0 → (a - b) mod 2 = 0.
Proof. intros. zdiv_lia. Qed.

(** A frame: sizes and values, from the stack pointer upwards. *)
Abbreviation frame := (list (nat * Z)).

Fixpoint fsize (l : frame) : Z :=
  match l with [] => 0 | (n, _) :: l => Z.of_nat n + fsize l end.

Fixpoint frame_at (f : Z → Z) (a : Z) (l : frame) : Prop :=
  match l with
  | [] => True
  | (n, v) :: l => load n f a = v mod 256 ^ Z.of_nat n ∧ frame_at f (a + Z.of_nat n) l
  end.

Lemma fsize_nonneg l : 0 <= fsize l.
Proof. induction l as [|[n v] l IH]; cbn [fsize]; lia. Qed.
Lemma fsize_app l k : fsize (l ++ k) = fsize l + fsize k.
Proof. induction l as [|[n v] l IH]; cbn [fsize app]; lia. Qed.

Lemma frame_at_ext f g a l : (∀ x, a <= x < a + fsize l → f x = g x) → frame_at f a l → frame_at g a l.
Proof.
  revert a. induction l as [|[n v] l IH]; intros a H; cbn [frame_at fsize] in *; [done|]. intros [<- Hl]. pose proof (fsize_nonneg l). split.
  - symmetry. apply load_ext. intros x Hx. apply H. lia.
  - apply IH; [|done]. intros x Hx. apply H. lia.
Qed.

Lemma frame_at_app f a l k : frame_at f a l → frame_at f (a + fsize l) k → frame_at f a (l ++ k).
Proof.
  revert a. induction l as [|[n v] l IH]; intros a; cbn [frame_at fsize app]; [by rewrite Z.add_0_r|].
  intros [? ?] Hk. split; [done|]. apply IH; [done|]. by rewrite Z.add_assoc in Hk.
Qed.

Definition set_aregs (f : Z → Z) (r : regstruct) : regstruct :=
  Regs f r.(sr_s) r.(sfc) r.(dfc) r.(urp) r.(srp) r.(mmu_tc) r.(mmu_enabled) r.(mmu_pagesize_8k) r.(dtt0) r.(dtt1)
    r.(itt0) r.(itt1) r.(mmusr) r.(mmu_fault_addr) r.(mmu_ssw) r.(wb3_data) r.(wb3_status).

Section Frames.
Context {cfg : Config} {D : Type} {hwd : Hardware D}.
Context {win : Z → Prop} {good : machine D → Prop} {cell : machine D → Z → Z} {R : Ram win good cell}.
Implicit Types (c : m68k D) (s : machine D) (l : frame).

Lemma on_mach_ret {A} (m : X (machine D) A) c a s : m c.(mach) = (Ret a, s) → on_mach m c = (Ret a, w_mach s c).
Proof. intros E. unfold on_mach, xzoom. by rewrite E. Qed.

(** Only memory and the stack pointer differ. *)
Record moved c c' : Prop := {
  mv_good : good c'.(mach);
  mv_cpu : c' = w_mach c'.(mach) c;
  mv_regs : c'.(mach).(regs) = set_aregs c'.(mach).(regs).(m68k_areg) c.(mach).(regs);
  mv_areg n : n ≠ 7 → areg n c' = areg n c;
  mv_current : c'.(mach).(current_atc) = c.(mach).(current_atc);
  mv_spc : c'.(mach).(spcflags) = c.(mach).(spcflags);
  mv_dev : c'.(mach).(dev) = c.(mach).(dev);
}.

Lemma moved_refl c : good c.(mach) → moved c c.
Proof. intros. split; try done; destruct c as [[[]]]; done. Qed.

Lemma moved_trans c1 c2 c3 : moved c1 c2 → moved c2 c3 → moved c1 c3.
Proof.
  intros [_ E1 E2 E3 E4 E5 E6] [G F1 F2 F3 F4 F5 F6]. split; [done| | | |congruence..].
  - rewrite F1, E1 at 1. done.
  - rewrite F2 at 1. rewrite E2. done.
  - intros n Hn. by rewrite F3, E3.
Qed.

Lemma moved_access c s : good s → same_cpu c.(mach) s → moved c (w_mach s c).
Proof.
  intros Hg [E1 E2 E3 E4]. split; cbn [mach w_mach]; [done|done| | |done..].
  - rewrite E1. by destruct (regs (mach c)).
  - intros n _. unfold areg. cbn. by rewrite E1.
Qed.

Lemma soft_regs s f : mmu_same s.(regs) f → soft s (set_regs f s).
Proof. by split. Qed.

Lemma moved_sp c v : good c.(mach) → moved c (w_areg 7 v c).
Proof.
  intros Hg. split; try done.
  - cbn. eapply ram_soft; [|done]. by apply soft_regs.
  - intros n Hn. unfold areg. cbn. by rewrite (proj2 (Z.eqb_neq n 7)).
Qed.

Lemma moved_super c c' : moved c c' → super c.(mach) → super c'.(mach).
Proof. intros [_ _ Er _ Ec _ _] [H1 H2]. split; [by rewrite Er|by rewrite Ec]. Qed.

(** ** Pushing *)

(** [c'] is [c] after the frame [l] was pushed. *)
Record stacked l c c' : Prop := {
  st_moved : moved c c';
  st_sp : areg 7 c' = areg 7 c - fsize l;
  st_frame : frame_at (cell c'.(mach)) (areg 7 c') l;
  st_rest x : win x → x < areg 7 c' ∨ areg 7 c <= x → cell c'.(mach) x = cell c.(mach) x;
}.

Lemma stacked_nil c : good c.(mach) → stacked [] c c.
Proof. intros. split; [by apply moved_refl|cbn; lia|done|done]. Qed.

Definition exc_push (n : nat) (v : Z) : X (m68k D) unit := match n with 2%nat => exc_push_word v | _ => exc_push_long v end.

Lemma stacked_push n v l c c' : n = 2%nat ∨ n = 4%nat → stacked l c c' → super c.(mach) →
  areg 7 c <= 2 ^ 32 → span win (areg 7 c - (Z.of_nat n + fsize l)) (Z.of_nat n + fsize l) → fsize l mod 2 = 0 →
  ∃ c'', exc_push n v c' = (Ret tt, c'') ∧ stacked ((n, v) :: l) c c''.
Proof.
  intros Hn [Hm Hsp Hf Hr] Hs Hw Hroom He. set (a := areg 7 c - (Z.of_nat n + fsize l)) in *. pose proof (fsize_nonneg l).
  assert (areg 7 c' -u Z.of_nat n = a) as Ea by (rewrite Hsp, u32_small; destruct Hroom as (? & ? & ? & ?); lia).
  assert (span win a (Z.of_nat n)) as Ha by (eapply span_sub; [exact Hroom|lia..|apply Hroom]).
  set (c1 := w_areg 7 a c'). assert (moved c' c1) as Hm1 by (apply moved_sp, Hm).
  assert (∀ x, cell c1.(mach) x = cell c'.(mach) x) as Hc1.
  { intros x. apply ram_soft_cell. by apply soft_regs. }
  assert (super c1.(mach)) as Hs1 by (by apply (moved_super c'), (moved_super c)).
  assert (∃ s', (match n with 2%nat => put_word a v | _ => put_long a v end) c1.(mach) = (Ret tt, s') ∧ good s' ∧
    same_cpu c1.(mach) s' ∧ (∀ x, win x → cell s' x = store n a v (cell c1.(mach)) x)) as (s' & E & Hg & Hcpu & Hx).
  { destruct Hn as [->| ->]; [apply ram_put_word|apply ram_put_long]; try done; apply Hm1. }
  exists (w_mach s' c1). split.
  - unfold exc_push. destruct Hn as [->| ->].
    + unfold exc_push_word. erewrite xbind_ret by done. erewrite xbind_ret by done.
      change (areg 7 c' -u 2) with (areg 7 c' -u Z.of_nat 2). rewrite Ea. by apply on_mach_ret.
    + unfold exc_push_long. erewrite xbind_ret by done. erewrite xbind_ret by done.
      change (areg 7 c' -u 4) with (areg 7 c' -u Z.of_nat 4). rewrite Ea. by apply on_mach_ret.
  - assert (areg 7 (w_mach s' c1) = a) as Ea'.
    { unfold areg. cbn [mach w_mach]. by rewrite (sc_regs _ _ Hcpu). }
    assert (∀ x, win x → x < a ∨ a + Z.of_nat n <= x → cell s' x = cell c'.(mach) x) as Hout.
    { intros x Hxw Hx'. rewrite Hx, store_out, Hc1 by done. done. }
    split.
    + eapply moved_trans; [exact Hm|]. eapply moved_trans; [exact Hm1|]. by apply moved_access.
    + rewrite Ea'. cbn [fsize]. done.
    + rewrite Ea'. cbn [frame_at mach w_mach]. split.
      * rewrite <-(load_store n a v (cell c1.(mach))). apply load_ext. intros x Hxr. apply Hx. by apply Ha.
      * replace (a + Z.of_nat n) with (areg 7 c') by lia. eapply frame_at_ext; [|exact Hf].
        intros x Hxr. symmetry. apply Hout; [|lia]. apply Hroom. lia.
    + rewrite Ea'. intros x Hxw Hx'. cbn [mach w_mach]. rewrite Hout by (done || lia). apply Hr; [done|lia].
Qed.

(** A sequence of pushes, and what comes after. *)
Fixpoint pushes (l : frame) (k : X (m68k D) unit) : X (m68k D) unit :=
  match l with [] => k | (n, v) :: l => exc_push n v ;; pushes l k end.

Definition sizes_ok (l : frame) : Prop := Forall (λ x, x.1 = 2%nat ∨ x.1 = 4%nat) l.

Lemma sizes_even l : sizes_ok l → fsize l mod 2 = 0.
Proof.
  induction 1 as [|[n v] l Hn _ IH]; [done|]. cbn [fsize]. apply add_even; [|done]. by destruct Hn as [H|H]; cbn in H; rewrite H.
Qed.

Lemma stacked_pushes l l0 c c1 : stacked l0 c c1 → sizes_ok l → sizes_ok l0 → super c.(mach) → areg 7 c < 2 ^ 32 →
  areg 7 c mod 2 = 0 → span win (areg 7 c - (fsize l + fsize l0)) (fsize l + fsize l0) →
  ∃ c2, (∀ k, pushes l k c1 = k c2) ∧ stacked (rev l ++ l0) c c2.
Proof.
  intros Hst Hl Hl0 Hs Hw He. revert l0 c1 Hst Hl0. induction Hl as [|[n v] l Hn Hl IH]; intros l0 c1 Hst Hl0 Hroom.
  { by exists c1. }
  cbn [fsize] in Hroom. pose proof (fsize_nonneg l). pose proof (sizes_even _ Hl). pose proof (sizes_even _ Hl0).
  assert (sizes_ok ((n, v) :: l0)) as Hl1 by (by constructor). pose proof (sizes_even _ Hl1).
  destruct (stacked_push n v l0 c c1) as (c2 & E2 & S2); [done..|lia| |done|].
  { eapply span_sub; [exact Hroom|lia..|]. by apply sub_even. }
  destruct (IH _ _ S2 Hl1) as (c3 & E3 & S3).
  { cbn [fsize]. by replace (fsize l + (Z.of_nat n + fsize l0)) with (Z.of_nat n + fsize l + fsize l0) by lia. }
  exists c3. cbn [rev]. rewrite <-app_assoc. split; [|done]. intros k. cbn [pushes]. erewrite xbind_ret by exact E2. apply E3.
Qed.

(** The last push. *)
Lemma push_last n v c : exc_push n v c = pushes [(n, v)] (xret tt) c.
Proof. cbn [pushes]. unfold xbind. by destruct (exc_push n v c) as [[[]| |] ?]. Qed.

(** Two frames, one pushed after the other. *)
Lemma stacked_app l k c c1 c2 c3 : stacked l c c1 → soft c1.(mach) c2.(mach) → areg 7 c2 = areg 7 c1 → stacked k c2 c3 →
  (∀ x, areg 7 c1 <= x < areg 7 c → win x) → frame_at (cell c3.(mach)) (areg 7 c3) (k ++ l).
Proof.
  intros [_ Hsp Hf _] Hs Ha [_ Hsp' Hf' Hr'] Hw. apply frame_at_app; [done|].
  replace (areg 7 c3 + fsize k) with (areg 7 c1) by lia. eapply frame_at_ext; [|exact Hf].
  intros x Hx. rewrite Hr' by (apply Hw || lia; lia). symmetry. by apply ram_soft_cell.
Qed.

(** ** The status register *)

Lemma c_bool_bit b i : 0 <= i → Z.testbit (c_bool b) i = (i =? 0) && b.
Proof. intros. destruct b; cbn [c_bool]; [|by rewrite Z.testbit_0_l, andb_false_r]. rewrite andb_true_r. destruct i; done. Qed.

Lemma sr_bit_testbit v k : 0 <= k → sr_bit v k = Z.testbit v k.
Proof.
  intros. unfold sr_bit. rewrite mask_1, <-Z.bit0_mod, Z.shiftr_spec by lia. by destruct (Z.testbit v (0 + k)) eqn:E; rewrite Z.add_0_l in E; rewrite E.
Qed.

(** Bit [i] of the status register. *)
Definition sr_flag c (i : Z) : bool :=
  match i with
  | 0 => c.(flags).(CFLG) | 1 => c.(flags).(VFLG) | 2 => c.(flags).(ZFLG) | 3 => c.(flags).(NFLG) | 4 => c.(flags).(XFLG)
  | 8 => Z.testbit c.(intmask) 0 | 9 => Z.testbit c.(intmask) 1 | 10 => Z.testbit c.(intmask) 2
  | 12 => c.(mflag) | 13 => s_flag c | 14 => c.(t0) | 15 => c.(t1)
  | _ => false
  end.

Lemma sr_flag_high c i : 16 <= i → sr_flag c i = false.
Proof. intros. unfold sr_flag. destruct i as [|p|p]; try lia. do 4 (destruct p as [p|p|]; try lia; try done). Qed.

Lemma sr_value_bits c i : 0 <= c.(intmask) < 8 → 0 <= i → Z.testbit (sr_value c) i = sr_flag c i.
Proof.
  intros Hm Hi. unfold sr_value. rewrite !Z.lor_spec, !Z.shiftl_spec by done.
  assert (∀ b k, 0 <= k → Z.testbit (c_bool b) (i - k) = (i =? k) && b) as Hb.
  { intros b k Hk. destruct (Z.lt_ge_cases i k).
    - rewrite Z.testbit_neg_r by lia. by rewrite (proj2 (Z.eqb_neq i k)) by lia.
    - rewrite c_bool_bit by lia. f_equal. apply eq_true_iff_eq. rewrite !Z.eqb_eq. lia. }
  rewrite !Hb, c_bool_bit by lia.
  destruct (Z.lt_ge_cases i 16) as [Hlt|Hge].
  - assert (i ∈ seqZ 0 16) as Hin by (apply elem_of_seqZ; lia). revert Hin.
    assert (∀ j, 3 <= j → Z.testbit (intmask c) j = false) as Hh by (intros j Hj; apply (range_bits _ 3); done).
    assert (∀ j, j < 0 → Z.testbit (intmask c) j = false) as Hl by (intros j Hj; by apply Z.testbit_neg_r).
    cbn [seqZ]. change (seqZ 0 16) with [0;1;2;3;4;5;6;7;8;9;10;11;12;13;14;15].
    rewrite !elem_of_cons. clear Hb Hlt Hi.
    intros Hin. repeat destruct Hin as [->|Hin]; [..|by apply elem_of_nil in Hin]; cbn -[Z.testbit];
      rewrite ?Hh, ?Hl by lia; rewrite ?orb_false_r; reflexivity.
  - rewrite (range_bits (intmask c) 3) by lia.
    rewrite sr_flag_high by done. rewrite !(proj2 (Z.eqb_neq i _)) by lia. done.
Qed.

Definition sr_word c : Z := u16 (sr_value c).

Lemma sr_word_bits c i : 0 <= c.(intmask) < 8 → 0 <= i → Z.testbit (sr_word c) i = sr_flag c i.
Proof.
  intros Hm Hi. unfold sr_word, u16. change 65536 with (2 ^ 16). destruct (Z.lt_ge_cases i 16).
  - rewrite Z.mod_pow2_bits_low by lia. by apply sr_value_bits.
  - rewrite Z.mod_pow2_bits_high by lia. by rewrite sr_flag_high.
Qed.

(** The effect of loading the status register. *)
Definition sr_loaded (v : Z) c : m68k D :=
  let c1 := w_flags (Flags (sr_bit v 0) (sr_bit v 2) (sr_bit v 3) (sr_bit v 1) (sr_bit v 4))
    (w_intmask ((v >> 8) .& 7) (w_mflag (sr_bit v 12)
      (w_mach (set_current_atc (sr_bit v 13) (set_regs (set_sr_s (sr_bit v 13) c.(mach).(regs)) c.(mach)))
        (w_t0 (sr_bit v 14) (w_t1 (sr_bit v 15) (w_sr v c)))))) in
  let c2 := swap_stacks (s_flag c) c.(mflag) c1 in
  w_mach (set_spcflags (if sr_bit v 15 || sr_bit v 14 then spc c2 .| 0x08 else Z.ldiff (spc c2) 0x08) c2.(mach)) c2.

Lemma MakeFromSR_loaded v c : (cmod (w_sr v) ;; MakeFromSR) c = (Ret tt, sr_loaded v c).
Proof.
  unfold MakeFromSR, sr_loaded. repeat erewrite xbind_ret by done. cbv beta. cbn [sr w_sr].
  destruct (sr_bit v 15 || sr_bit v 14); done.
Qed.

(** The three stack pointers; the one in use is in A7. *)
Definition banks c : Z * Z * Z :=
  (if s_flag c then c.(usp) else areg 7 c,
   if s_flag c && negb c.(mflag) then areg 7 c else c.(isp),
   if s_flag c && c.(mflag) then areg 7 c else c.(msp)).

Lemma sr_loaded_banks v c : banks (sr_loaded v c) = banks c.
Proof.
  unfold banks, sr_loaded, swap_stacks. destruct c as [[[]]]. cbn -[sr_bit].
  destruct sr_s, mflag, (sr_bit v 13), (sr_bit v 12); cbn -[sr_bit]; done.
Qed.

(** The fields the status register is made of. *)
Lemma sr_loaded_fields v c :
  (sr_loaded v c).(t1) = sr_bit v 15 ∧ (sr_loaded v c).(t0) = sr_bit v 14 ∧ s_flag (sr_loaded v c) = sr_bit v 13 ∧
  (sr_loaded v c).(mflag) = sr_bit v 12 ∧ (sr_loaded v c).(intmask) = (v >> 8) .& 7 ∧
  (sr_loaded v c).(flags) = Flags (sr_bit v 0) (sr_bit v 2) (sr_bit v 3) (sr_bit v 1) (sr_bit v 4) ∧
  (sr_loaded v c).(mach).(current_atc) = sr_bit v 13 ∧
  (sr_loaded v c).(dregs) = c.(dregs) ∧ (sr_loaded v c).(pc) = c.(pc) ∧ (sr_loaded v c).(vbr) = c.(vbr) ∧
  (∀ n, n ≠ 7 → areg n (sr_loaded v c) = areg n c).
Proof.
  unfold sr_loaded, swap_stacks, areg, s_flag. destruct c as [[[]]]. cbn -[sr_bit].
  destruct sr_s, mflag, (sr_bit v 13), (sr_bit v 12); cbn -[sr_bit]; split_and!; try done;
    intros n Hn; by rewrite ?(proj2 (Z.eqb_neq n 7)).
Qed.

(** A7 afterwards, for each change of mode. *)
Lemma sr_loaded_soft v c : soft c.(mach) (sr_loaded v c).(mach).
Proof.
  unfold sr_loaded, swap_stacks. destruct c as [[[]]]. cbn -[sr_bit].
  destruct sr_s, mflag, (sr_bit v 13), (sr_bit v 12); cbn -[sr_bit]; done.
Qed.

Lemma sr_loaded_mask_range v : 0 <= (v >> 8) .& 7 < 8.
Proof. apply (land_range_r _ 7 3); lia. Qed.

Lemma sr_flag_loaded v c i : 0 <= i → sr_flag (sr_loaded v c) i = Z.testbit (v .& 0xf71f) i.
Proof.
  intros Hi. rewrite Z.land_spec.
  destruct (sr_loaded_fields v c) as (E1 & E2 & E3 & E4 & E5 & E6 & _).
  destruct (Z.lt_ge_cases i 16) as [Hlt|Hge].
  - assert (i ∈ seqZ 0 16) as Hin by (apply elem_of_seqZ; lia). revert Hin.
    change (seqZ 0 16) with [0;1;2;3;4;5;6;7;8;9;10;11;12;13;14;15]. rewrite !elem_of_cons.
    assert (∀ k, 0 <= k < 3 → Z.testbit ((v >> 8) .& 7) k = Z.testbit v (k + 8)) as Hm.
    { intros k Hk. rewrite Z.land_spec, Z.shiftr_spec by lia. change 7 with (Z.ones 3). rewrite Z.ones_spec_low by lia.
      by rewrite andb_true_r. }
    intros Hin. repeat destruct Hin as [->|Hin]; [..|by apply elem_of_nil in Hin]; unfold sr_flag;
      rewrite ?E1, ?E2, ?E3, ?E4, ?E5, ?E6; cbn [CFLG ZFLG NFLG VFLG XFLG]; rewrite ?sr_bit_testbit, ?Hm by lia;
      cbn -[Z.testbit Z.land Z.shiftr]; rewrite ?andb_true_r, ?andb_false_r; done.
  - rewrite (range_bits 0xf71f 16 i), andb_false_r by lia. by apply sr_flag_high.
Qed.

Lemma sr_value_loaded v c : sr_value (sr_loaded v c) = v .& 0xf71f.
Proof.
  apply Z.bits_inj'. intros i Hi. rewrite sr_value_bits, sr_flag_loaded; [done..| |done].
  destruct (sr_loaded_fields v c) as (_ & _ & _ & _ & -> & _). apply sr_loaded_mask_range.
Qed.

(** The bits of a status register that was made from its fields. *)
Lemma sr_word_masked c : 0 <= c.(intmask) < 8 → sr_word c .& 0xf71f = sr_value c.
Proof.
  intros Hm. apply Z.bits_inj'. intros i Hi. rewrite Z.land_spec, sr_word_bits, sr_value_bits by done.
  destruct (sr_flag c i) eqn:E; [|done]. unfold sr_flag in E. destruct i as [|p|p]; [done| |lia].
  do 4 (destruct p as [p|p|]; try done).
Qed.

(** Loading the status register of [c] in another state. *)
Lemma sr_restored c c2 : 0 <= c.(intmask) < 8 → sr_value (sr_loaded (sr_word c) c2) = sr_value c.
Proof. intros. by rewrite sr_value_loaded, sr_word_masked. Qed.

(** C25: Loading a status register and reading it back gives its implemented bits, and
    each of the three stack pointers, whichever of them A7 was and is now, keeps its value. *)
Theorem status_register_roundtrip v c :
  ∃ c', (cmod (w_sr v) ;; MakeFromSR ;; MakeSR) c = (Ret tt, c') ∧ c'.(sr) = v .& 0xf71f ∧ banks c' = banks c.
Proof.
  eexists. split.
  - pose proof (MakeFromSR_loaded v c) as E. erewrite xbind_ret in E by done. erewrite xbind_ret by done.
    erewrite xbind_ret by exact E. done.
  - split.
    + cbn [sr w_sr cmod]. rewrite sr_value_loaded. apply u16_small. apply (land_range_r _ _ 16); done.
    + rewrite <-(sr_loaded_banks v c). done.
Qed.

(** ** Return from exception *)

(** [c'] is [c] with [k] bytes popped. *)
Record popped k c c' : Prop := {
  po_moved : moved c c';
  po_sp : areg 7 c' = areg 7 c + k;
  po_cells x : win x → cell c'.(mach) x = cell c.(mach) x;
}.

Lemma popped_trans j k c1 c2 c3 : popped j c1 c2 → popped k c2 c3 → popped (j + k) c1 c3.
Proof.
  intros [Hm Hs Hc] [Hm' Hs' Hc']. split; [by eapply moved_trans|lia|]. intros x Hx. by rewrite Hc', Hc.
Qed.

Lemma add_sp_popped k c : good c.(mach) → 0 <= areg 7 c → 0 <= k → areg 7 c + k < 2 ^ 32 →
  ∃ c', add_sp k c = (Ret tt, c') ∧ popped k c c'.
Proof.
  intros Hg H0 Hk H1. eexists. split; [done|]. split; [by apply moved_sp| |].
  - unfold areg at 1. cbn. rewrite u32_small by lia. done.
  - intros x _. apply ram_soft_cell. by apply soft_regs.
Qed.

Lemma pop_word c a v l : frame_at (cell c.(mach)) a ((2%nat, v) :: l) → areg 7 c = a → good c.(mach) → super c.(mach) →
  span win a 2 → a + 2 < 2 ^ 32 →
  ∃ c', (∀ B (k : Z → X (m68k D) B),
      (let* sp := cget (areg 7) in let* w := on_mach (get_word sp) in add_sp 2 ;; k w) c = k (u16 v) c') ∧ popped 2 c c'.
Proof.
  intros [Hv _] Ha Hg Hs Hw Hb.
  destruct (ram_get_word c.(mach) a Hg Hs Hw) as (s' & E & Hg' & Hcpu & Hx).
  assert (popped 0 c (w_mach s' c)) as Hp.
  { split; [by apply moved_access| |done]. unfold areg. cbn [mach w_mach]. rewrite (sc_regs _ _ Hcpu). lia. }
  destruct (add_sp_popped 2 (w_mach s' c)) as (c' & E' & Hp'); [done|rewrite ?(po_sp _ _ _ Hp), ?Ha; destruct Hw as (? & ? & ? & ?); lia..|].
  exists c'. split; [|by apply (popped_trans 0 2 _ _ _ Hp)]. intros B k. erewrite xbind_ret by done. rewrite Ha.
  rewrite (xbind_ret _ _ _ _ _ (on_mach_ret _ _ _ _ E)). erewrite xbind_ret by exact E'. by rewrite Hv.
Qed.

Lemma pop_long c a v l : frame_at (cell c.(mach)) a ((4%nat, v) :: l) → areg 7 c = a → good c.(mach) → super c.(mach) →
  span win a 4 → a + 4 < 2 ^ 32 →
  ∃ c', (∀ B (k : Z → X (m68k D) B),
      (let* sp := cget (areg 7) in let* w := on_mach (get_long sp) in add_sp 4 ;; k w) c = k (u32 v) c') ∧ popped 4 c c'.
Proof.
  intros [Hv _] Ha Hg Hs Hw Hb.
  destruct (ram_get_long c.(mach) a Hg Hs Hw) as (s' & E & Hg' & Hcpu & Hx).
  assert (popped 0 c (w_mach s' c)) as Hp.
  { split; [by apply moved_access| |done]. unfold areg. cbn [mach w_mach]. rewrite (sc_regs _ _ Hcpu). lia. }
  destruct (add_sp_popped 4 (w_mach s' c)) as (c' & E' & Hp'); [done|rewrite ?(po_sp _ _ _ Hp), ?Ha; destruct Hw as (? & ? & ? & ?); lia..|].
  exists c'. split; [|by apply (popped_trans 0 4 _ _ _ Hp)]. intros B k. erewrite xbind_ret by done. rewrite Ha.
  rewrite (xbind_ret _ _ _ _ _ (on_mach_ret _ _ _ _ E)). erewrite xbind_ret by exact E'. by rewrite Hv.
Qed.

(** The first eight bytes of every frame. *)
Lemma rte_head fuel c v p fmt l : frame_at (cell c.(mach)) (areg 7 c) ((2%nat, v) :: (4%nat, p) :: (2%nat, fmt) :: l) →
  good c.(mach) → super c.(mach) → span win (areg 7 c) 8 → areg 7 c + 8 < 2 ^ 32 →
  ∃ c', popped 8 c c' ∧
    ex_rte (S fuel) c =
    (if (u16 fmt >> 12) =? 1 then cmod (w_sr (u16 v)) ;; MakeFromSR ;; ex_rte fuel
     else match frame_rest (u16 fmt >> 12) with
          | None => Exception 14 0
          | Some n => add_sp n ;; cmod (w_sr (u16 v)) ;; MakeFromSR ;; m68k_setpc (u32 p)
          end) c'.
Proof.
  intros Hf Hg Hs Hw Hb. set (a := areg 7 c) in *. pose proof Hf as (_ & Hf2 & Hf3 & _).
  pose proof Hw as (He & H0 & _).
  destruct (pop_word c a v _ Hf eq_refl Hg Hs) as (c1 & E1 & P1); [eapply span_sub; [exact Hw|lia..|done]|lia|].
  assert (∀ k c', popped k c c' → ∀ b l, a <= b → b + fsize l <= a + 8 →
    frame_at (cell c.(mach)) b l → frame_at (cell c'.(mach)) b l) as Hk.
  { intros k c' [_ _ Hc] b m Hb0 Hb1. apply frame_at_ext. intros x Hx. symmetry. apply Hc, Hw. lia. }
  destruct (pop_long c1 (a + 2) p []) as (c2 & E2 & P2).
  { eapply Hk; [exact P1|lia|cbn; lia|]. split; [apply Hf2|done]. }
  { apply P1. } { apply P1. } { eapply moved_super; [apply P1|done]. }
  { eapply span_sub; [exact Hw|lia..|]. by apply add_even. } { lia. }
  pose proof (popped_trans _ _ _ _ _ P1 P2) as P12.
  destruct (pop_word c2 (a + 2 + 4) fmt []) as (c3 & E3 & P3).
  { eapply Hk; [exact P12|lia|cbn; lia|]. split; [apply Hf3|done]. }
  { rewrite (po_sp _ _ _ P12). fold a. lia. } { apply P2. } { eapply moved_super; [apply P12|done]. }
  { eapply span_sub; [exact Hw|lia..|]. by repeat apply add_even. } { lia. }
  exists c3. split; [by apply (popped_trans 6 2 _ _ _ P12)|]. cbn [ex_rte].
  rewrite E1, E2, E3. done.
Qed.

(** A frame of a format with [n] bytes after the first eight. *)
Lemma rte_frame fuel c v p fmt l n : frame_at (cell c.(mach)) (areg 7 c) ((2%nat, v) :: (4%nat, p) :: (2%nat, fmt) :: l) →
  good c.(mach) → super c.(mach) → span win (areg 7 c) 8 →
  frame_rest (u16 fmt >> 12) = Some n → areg 7 c + 8 + n < 2 ^ 32 →
  ∃ c', popped (8 + n) c c' ∧
    ex_rte (S fuel) c = (Ret tt, w_pc (u32 p) (w_fault_pc (u32 p) (sr_loaded (u16 v) c'))).
Proof.
  intros Hf Hg Hs Hw Hn Hb. pose proof Hw as (_ & H0 & _).
  assert (0 <= n) as Hn0.
  { unfold frame_rest in Hn. repeat case_match; simplify_eq; lia. }
  destruct (rte_head fuel c v p fmt l Hf Hg Hs Hw ltac:(lia)) as (c1 & P1 & ->).
  destruct (Z.eqb_spec (u16 fmt >> 12) 1) as [E|_]; [by rewrite E in Hn|]. rewrite Hn.
  destruct (add_sp_popped n c1) as (c2 & E2 & P2); [apply P1|rewrite ?(po_sp _ _ _ P1); lia..|].
  exists c2. split; [by eapply popped_trans|]. erewrite xbind_ret by exact E2.
  pose proof (MakeFromSR_loaded (u16 v) c2) as E. erewrite xbind_ret in E by done.
  erewrite xbind_ret by done. by erewrite xbind_ret by exact E.
Qed.

(** A throwaway frame: the status register is loaded and RTE goes on with the next frame. *)
Lemma rte_throwaway fuel c v p fmt : frame_at (cell c.(mach)) (areg 7 c) [(2%nat, v); (4%nat, p); (2%nat, fmt)] →
  good c.(mach) → super c.(mach) → span win (areg 7 c) 8 → u16 fmt >> 12 = 1 → areg 7 c + 8 < 2 ^ 32 →
  ∃ c', popped 8 c c' ∧ ex_rte (S fuel) c = ex_rte fuel (sr_loaded (u16 v) c').
Proof.
  intros Hf Hg Hs Hw Hn Hb. destruct (rte_head fuel c v p fmt [] Hf Hg Hs Hw Hb) as (c1 & P1 & ->).
  exists c1. split; [done|]. rewrite Hn. cbn [Z.eqb Pos.eqb].
  pose proof (MakeFromSR_loaded (u16 v) c1) as E. erewrite xbind_ret in E by done.
  erewrite xbind_ret by done. by erewrite xbind_ret by exact E.
Qed.
End Frames.
