(* ===== verification/M68kExc.v ===== *)
(** * M68kExc: exceptions and their return

    [exception_return]: an exception stacks its frame, enters the handler, and RTE
    continues the interrupted program as it was, for every exception but bus errors (see [M68kBus]), in master mode
    for the autovector interrupts, which use both supervisor stacks. *)

From S2P Require Import Prelude Throws Machine Mmu M68k M68kStack M68kFrame.
From stdpp Require Import base gmap list numbers.
Open Scope Z_scope.
Open Scope c_scope.
Open Scope x_scope.

Section Exc.
Context {cfg : Config} {D : Type} {hwd : Hardware D}.
Context {win : Z → Prop} {good : machine D → Prop} {cell : machine D → Z → Z} {R : Ram win good cell}.
Implicit Types (c : m68k D) (s : machine D) (l : frame).

(** ** Frames *)

Definition short_frame (format v p nr : Z) : frame := [(2%nat, v); (4%nat, p); (2%nat, u16 (Z.shiftl format 12 + nr * 4))].

Definition format_rest (format x0 : Z) : frame := if format =? 2 then [(4%nat, x0)] else [].

Abbreviation stacked := (stacked (win := win) (good := good) (cell := cell)).

(** [exc_make_frame] in the formats that are used. *)
Lemma make_frame_ok format v p nr x0 x1 l c c1 : format = 0 ∨ format = 1 ∨ format = 2 ∨ format = 7 →
  stacked l c c1 → sizes_ok l → super c.(mach) → areg 7 c < 2 ^ 32 → areg 7 c mod 2 = 0 →
  let k := 8 + fsize (format_rest format x0) + fsize l in span win (areg 7 c - k) k →
  ∃ c2, exc_make_frame format v p nr x0 x1 c1 = (Ret tt, c2) ∧
    stacked (short_frame format v p nr ++ format_rest format x0 ++ l) c c2.
Proof.
  intros Hf Hst Hl Hs Hw He k Hroom.
  destruct (stacked_pushes (format_rest format x0 ++ rev (short_frame format v p nr)) l c c1) as (c2 & E & S); [done| |done..| |].
  { unfold format_rest. destruct (format =? 2); repeat constructor; (by left) || by right. }
  { by replace (fsize (format_rest format x0 ++ rev (short_frame format v p nr)) + fsize l) with k
      by (rewrite fsize_app; unfold k; cbn [short_frame rev app fsize]; lia). }
  exists c2. split.
  - etransitivity; [|exact (E (xret tt))]. unfold exc_make_frame.
    assert (∀ f c', (exc_push_word f ;; exc_push_long p ;; exc_push_word v) c' =
      pushes [(2%nat, f); (4%nat, p); (2%nat, v)] (xret tt) c') as Hp.
    { intros f c'. cbn [pushes]. do 2 (apply xbind_ext; intros _ ?). apply (push_last 2). }
    destruct Hf as [->|[->|[->| ->]]]; unfold format_rest; cbn [Z.eqb Pos.eqb app].
    + erewrite xbind_ret by done. apply Hp.
    + erewrite xbind_ret by done. apply Hp.
    + cbn [pushes]. apply xbind_ext. intros _ c'. apply Hp.
    + erewrite xbind_ret by done. apply Hp.
  - replace (rev _ ++ l) with (short_frame format v p nr ++ format_rest format x0 ++ l) in S; [done|].
    rewrite rev_app_distr, rev_involutive, <-app_assoc. f_equal. f_equal. unfold format_rest. by destruct (format =? 2).
Qed.

(** ** Entering the handler *)

(** [c'] is [c] at the start of the handler. *)
Record at_handler nr c c' : Prop := {
  ah_good : good c'.(mach);
  ah_regs : c'.(mach).(regs) = c.(mach).(regs);
  ah_current : c'.(mach).(current_atc) = c.(mach).(current_atc);
  ah_pc : c'.(pc) = load 4 (cell c.(mach)) (c.(vbr) +u 4 * nr);
  ah_trace : c'.(t1) = false ∧ c'.(t0) = false;
  ah_master : c'.(mflag) = false;
  ah_stacks : c'.(usp) = c.(usp) ∧ c'.(isp) = c.(isp) ∧ c'.(msp) = c.(msp);
  ah_dregs : c'.(dregs) = c.(dregs);
  ah_mask : c'.(intmask) = c.(intmask) ∧ c'.(flags) = c.(flags);
  ah_other : c'.(vbr) = c.(vbr) ∧ c'.(fixup) = c.(fixup);
  ah_spc : spc c' = Z.ldiff (spc c) 0x18;
  ah_dev : c'.(mach).(dev) = c.(mach).(dev);
  ah_cells x : win x → cell c'.(mach) x = cell c.(mach) x;
}.

Lemma enter_handler_ok nr c : good c.(mach) → super c.(mach) → span win (c.(vbr) +u 4 * nr) 4 →
  ∃ c', enter_handler nr c = (Ret tt, c') ∧ at_handler nr c c'.
Proof.
  intros Hg Hs Hw. unfold enter_handler. destruct (ram_get_long c.(mach) _ Hg Hs Hw) as (s' & E & Hg' & [E1 E2 E3 E4] & Hx).
  erewrite xbind_ret by done. erewrite xbind_ret by (apply on_mach_ret; exact E).
  eexists. split; [reflexivity|]. split; try done.
  - cbn. eapply ram_soft; [|exact Hg']. by split.
  - unfold spc. cbn. by rewrite E3.
  - intros x Hxw. etransitivity; [|by apply Hx]. apply (ram_soft_cell s'). by split.
Qed.

(** The processor before it stacks anything: in supervisor mode, with SR made. *)
Definition fixed c : m68k D :=
  match c.(fixup) with Some (r, v) => w_fixup None (w_areg r v c) | None => c end.
Definition prepared c : m68k D :=
  let c := w_sr (sr_word c) c in
  if s_flag c then c else
  w_mach (set_current_atc true (set_regs (set_sr_s true (set_areg 7 (if c.(mflag) then c.(msp) else c.(isp)) c.(mach).(regs))) c.(mach)))
    (w_usp (areg 7 c) c).

(** The stack an exception uses. *)
Definition ssp c : Z := if s_flag c then areg 7 c else if c.(mflag) then c.(msp) else c.(isp).

(** What [Exception] does after that. *)
Definition exception_body nr oldpc currpc : X (m68k D) unit :=
  let* v := cget sr in
  let* m := cget mflag in
  if nr =? 2 then
    let* built := try_catch (bus_error_frame ;; xret true) (λ _, report_double_bus_error ;; xret false) in
    xwhen built (enter_handler nr)
  else
    (if nr =? 3 then
       let* a := cget last_addr_for_exception_3 in
       let* f := cget last_fault_for_exception_3 in
       exc_make_frame 2 v a nr (f .& 0xfffffffe) 0
     else if (nr =? 5) || (nr =? 6) || (nr =? 7) || (nr =? 9) then exc_make_frame 2 v currpc nr oldpc 0
     else if m && (24 <=? nr) && (nr <? 32) then
       exc_make_frame 0 v currpc nr 0 0 ;;
       cmod (λ c, w_sr (c.(sr) .| 0x2000) c) ;;
       cmod (λ c, w_msp (areg 7 c) c) ;;
       cmod (λ c, w_areg 7 c.(isp) c) ;;
       let* v := cget sr in
       exc_make_frame 1 v currpc nr 0 0
     else exc_make_frame 0 v currpc nr 0 0) ;;
    enter_handler nr.

Lemma sr_word_fixed c : sr_word (fixed c) = sr_word c.
Proof. unfold fixed. destruct (fixup c) as [[]|]; [|done]. destruct c as [[[]]]. reflexivity. Qed.

Lemma enter_supervisor_prepared c : enter_supervisor (w_sr (sr_word c) c) = (Ret tt, prepared c).
Proof.
  unfold enter_supervisor, prepared. generalize (sr_word c). intros v. cbv zeta. erewrite xbind_ret by reflexivity.
  change (s_flag (w_sr v c)) with (s_flag c). destruct (s_flag c); [reflexivity|]. destruct c as [[[]]]. reflexivity.
Qed.

Lemma apply_fixup_fixed c v : apply_fixup (w_sr v c) = (Ret tt, w_sr v (fixed c)).
Proof. unfold apply_fixup, cmod, xmod, fixed. cbn [fixup w_sr]. by destruct (fixup c) as [[]|]. Qed.

Lemma Exception_prepared nr oldpc c :
  Exception nr oldpc c = exception_body nr oldpc c.(pc) (prepared (fixed c)).
Proof.
  unfold Exception. erewrite xbind_ret by done. erewrite xbind_ret by done.
  erewrite xbind_ret by (apply (apply_fixup_fixed c (sr_word c))). rewrite <-(sr_word_fixed c).
  erewrite xbind_ret by apply enter_supervisor_prepared. done.
Qed.

Lemma fixed_fixup c : (fixed c).(fixup) = None.
Proof. unfold fixed. destruct (fixup c) as [[]|] eqn:E; done. Qed.

(** What [prepared] keeps. *)
Lemma prepared_fields c :
  areg 7 (prepared c) = ssp c ∧ s_flag (prepared c) = true ∧ (prepared c).(usp) = (banks c).1.1 ∧
  (prepared c).(isp) = c.(isp) ∧ (prepared c).(msp) = c.(msp) ∧ (prepared c).(mflag) = c.(mflag) ∧
  (prepared c).(sr) = sr_word c ∧ (prepared c).(vbr) = c.(vbr) ∧
  (prepared c).(last_addr_for_exception_3) = c.(last_addr_for_exception_3) ∧ (prepared c).(dregs) = c.(dregs) ∧
  (prepared c).(intmask) = c.(intmask) ∧ (prepared c).(fault_pc) = c.(fault_pc) ∧
  (∀ n, n ≠ 7 → areg n (prepared c) = areg n c) ∧
  (prepared c).(last_fault_for_exception_3) = c.(last_fault_for_exception_3) ∧
  soft c.(mach) (prepared c).(mach).
Proof.
  unfold prepared, ssp, banks, areg, s_flag. cbn. destruct (sr_s (regs (mach c))) eqn:E; cbn -[sr_word].
  - rewrite E. split_and!; done.
  - split_and!; try done. intros n Hn. by rewrite (proj2 (Z.eqb_neq n 7)).
Qed.

Lemma prepared_super c : c.(mach).(current_atc) = s_flag c → super (prepared c).(mach).
Proof.
  intros H. split; [apply (prepared_fields c)|]. unfold prepared, s_flag in *. cbn.
  by destruct (sr_s (regs (mach c))).
Qed.

(** ** Exceptions with a short frame *)

Definition exc_format nr : Z := if (nr =? 3) || (nr =? 5) || (nr =? 6) || (nr =? 7) || (nr =? 9) then 2 else 0.
Definition return_pc nr c : Z := if nr =? 3 then c.(last_addr_for_exception_3) else c.(pc).
Definition exc_extra nr oldpc c : Z := if nr =? 3 then c.(last_fault_for_exception_3) .& 0xfffffffe else oldpc.
Definition exc_frame nr oldpc c : frame :=
  short_frame (exc_format nr) (sr_word c) (return_pc nr c) nr ++ format_rest (exc_format nr) (exc_extra nr oldpc c).

(** The interrupts of the autovectors use two stacks in master mode. *)
Definition two_stacks nr c : bool := c.(mflag) && (24 <=? nr) && (nr <? 32).

(** The exception can be taken: there is room on the stacks it uses. *)
Record can_take nr c : Prop := {
  ct_nr : 0 <= nr < 256 ∧ nr ≠ 2;
  ct_good : good c.(mach);
  ct_mode : c.(mach).(current_atc) = s_flag c;
  ct_mask : 0 <= c.(intmask) < 8;
  ct_pc : 0 <= return_pc nr c < 2 ^ 32;
  ct_room : span win (ssp c - 12) 12 ∧ ssp c < 2 ^ 32;
  ct_vector : span win (c.(vbr) +u 4 * nr) 4;
  ct_master : c.(mflag) = false ∨ two_stacks nr c = true ∧ span win (c.(isp) - 8) 8 ∧ c.(isp) < 2 ^ 32 ∧
    (c.(isp) <= ssp c - 8 ∨ ssp c <= c.(isp) - 8);
}.

Lemma ct_even nr c : can_take nr c → ssp c mod 2 = 0.
Proof. intros H. destruct (ct_room _ _ H) as [(He & _) _]. Z.to_euclidean_division_equations. lia. Qed.

Lemma fixed_prepared c : c.(fixup) = None → fixed c = c.
Proof. unfold fixed. by intros ->. Qed.

Lemma short_exception nr oldpc c : can_take nr c → two_stacks nr c = false →
  ∃ c2 c1, exception_body nr oldpc c.(pc) (prepared c) = (Ret tt, c1) ∧ stacked (exc_frame nr oldpc c) (prepared c) c2 ∧
    at_handler nr c2 c1.
Proof.
  intros Hct Htwo. pose proof (ct_even _ _ Hct) as He. destruct Hct as [[Hnr Hn2] Hg Hmode Hmask Hpc [Hroom Hssp] Hvec _].
  destruct (prepared_fields c) as (Esp & _ & _ & _ & _ & Em & Esr & Evbr & Ela & _ & _ & _ & _ & Elf & Hsoft).
  pose proof (ram_soft _ _ Hsoft Hg) as Hgp. pose proof (prepared_super c Hmode) as Hsp. set (q := prepared c) in *.
  assert (exc_format nr = 0 ∨ exc_format nr = 2) as Hfmt by (unfold exc_format; destruct (_ || _ || _ || _); auto).
  destruct (make_frame_ok (exc_format nr) (sr_word c) (return_pc nr c) nr (exc_extra nr oldpc c) 0 [] q q) as (c2 & E2 & S2);
    [destruct Hfmt; auto|by apply stacked_nil|constructor|done|by rewrite Esp|by rewrite Esp| |].
  { rewrite Esp. eapply span_sub; [exact Hroom|destruct Hfmt as [-> | ->]; cbn; lia..|].
    destruct Hfmt as [-> | ->]; cbn; by apply sub_even. }
  rewrite app_nil_r in S2.
  destruct (enter_handler_ok nr c2) as (c1 & E1 & A1); [apply S2|eapply moved_super; [apply S2|done]| |].
  { rewrite (mv_cpu _ _ (st_moved _ _ _ S2)). cbn [vbr w_mach]. by rewrite Evbr. }
  exists c2, c1. split; [|done]. unfold exception_body. erewrite xbind_ret by reflexivity. erewrite xbind_ret by reflexivity.
  rewrite (proj2 (Z.eqb_neq nr 2) Hn2), Esr, Em. unfold two_stacks in Htwo. rewrite Htwo.
  erewrite xbind_ret; [exact E1|]. rewrite <-E2. unfold exc_format, return_pc, exc_extra.
  destruct (nr =? 3); cbn [orb].
  - erewrite xbind_ret by reflexivity. erewrite xbind_ret by reflexivity. by rewrite Ela, Elf.
  - destruct ((nr =? 5) || (nr =? 6) || (nr =? 7) || (nr =? 9)); done.
Qed.

(** ** Interrupts in master mode *)

(** The state between the two frames: on the interrupt stack. *)
Definition switched c : m68k D := w_areg 7 c.(isp) (w_msp (areg 7 c) (w_sr (c.(sr) .| 0x2000) c)).

Lemma switched_soft c : soft c.(mach) (switched c).(mach).
Proof. by split. Qed.

Lemma two_stack_interrupt nr oldpc c : can_take nr c → two_stacks nr c = true →
  ∃ c2 c3 c1, exception_body nr oldpc c.(pc) (prepared c) = (Ret tt, c1) ∧
    stacked (short_frame 0 (sr_word c) c.(pc) nr) (prepared c) c2 ∧
    stacked (short_frame 1 (sr_word c .| 0x2000) c.(pc) nr) (switched c2) c3 ∧ at_handler nr c3 c1.
Proof.
  intros Hct Htwo. pose proof (ct_even _ _ Hct) as He.
  destruct Hct as [[Hnr Hn2] Hg Hmode Hmask Hpc [Hroom Hssp] Hvec [Hm0|(_ & Hiroom & Hisp & _)]].
  { unfold two_stacks in Htwo. by rewrite Hm0 in Htwo. }
  destruct (prepared_fields c) as (Esp & _ & _ & Eisp & _ & Em & Esr & Evbr & _ & _ & _ & _ & _ & _ & Hsoft).
  pose proof (ram_soft _ _ Hsoft Hg) as Hgp. pose proof (prepared_super c Hmode) as Hsp. set (q := prepared c) in *.
  assert (c.(isp) mod 2 = 0) as Hie.
  { destruct Hiroom as (Hi & _). Z.to_euclidean_division_equations. lia. }
  destruct (make_frame_ok 0 (sr_word c) c.(pc) nr 0 0 [] q q) as (c2 & E2 & S2);
    [by left|by apply stacked_nil|constructor|done|by rewrite Esp|by rewrite Esp| |].
  { rewrite Esp. cbn. eapply span_sub; [exact Hroom|lia..|]. by apply sub_even. }
  cbn [format_rest Z.eqb app] in S2. pose proof (st_moved _ _ _ S2) as M2.
  assert (super c2.(mach)) as Hs2 by (by eapply moved_super).
  assert (c2.(isp) = c.(isp)) as Eisp2 by (rewrite (mv_cpu _ _ M2); exact Eisp).
  assert (c2.(sr) = sr_word c) as Esr2 by (rewrite (mv_cpu _ _ M2); exact Esr).
  assert (areg 7 (switched c2) = c.(isp)) as Esw by (rewrite <-Eisp2; done).
  destruct (make_frame_ok 1 (sr_word c .| 0x2000) c.(pc) nr 0 0 [] (switched c2) (switched c2)) as (c3 & E3 & S3);
    [by right; left|apply stacked_nil; eapply ram_soft; [apply switched_soft|apply M2]|constructor|done|by rewrite Esw..| |].
  { rewrite Esw. cbn. eapply span_sub; [exact Hiroom|lia..|]. by apply sub_even. }
  cbn [format_rest Z.eqb app] in S3.
  destruct (enter_handler_ok nr c3) as (c1 & E1 & A1); [apply S3|eapply moved_super; [apply S3|done]| |].
  { rewrite (mv_cpu _ _ (st_moved _ _ _ S3)). cbn [vbr w_mach switched w_areg w_regs w_msp w_sr].
    rewrite (mv_cpu _ _ M2). cbn [vbr w_mach]. by rewrite Evbr. }
  exists c2, c3, c1. split; [|done]. unfold exception_body. erewrite xbind_ret by reflexivity. erewrite xbind_ret by reflexivity.
  rewrite (proj2 (Z.eqb_neq nr 2) Hn2), Esr, Em. pose proof Htwo as Htwo'. unfold two_stacks in Htwo. rewrite Htwo.
  apply andb_true_iff in Htwo as [H1%andb_true_iff H2]. destruct H1 as [_ H1].
  replace (nr =? 3) with false by lia. replace ((nr =? 5) || (nr =? 6) || (nr =? 7) || (nr =? 9)) with false by lia.
  erewrite xbind_ret; [exact E1|]. erewrite xbind_ret by exact E2. rewrite <-E3, <-Esr2. reflexivity.
Qed.

(** ** The round trip *)

(** From the start of the handler [c1] to its RTE in [c2]: the handler may have done anything
    but to lose its stack pointers and the frames. *)
Record handled (two : bool) c1 c2 : Prop := {
  ha_good : good c2.(mach);
  ha_super : super c2.(mach);
  ha_master : c2.(mflag) = c1.(mflag);
  ha_sp : areg 7 c2 = areg 7 c1;
  ha_stacks : c2.(usp) = c1.(usp) ∧ c2.(isp) = c1.(isp) ∧ c2.(msp) = c1.(msp);
  ha_cells x : win x → areg 7 c1 <= x < areg 7 c1 + 8 ∨ two = true ∧ c1.(msp) <= x < c1.(msp) + 8 →
    cell c2.(mach) x = cell c1.(mach) x;
}.

(** [c3] goes on at [p] where [c] was interrupted, with what the handler [c2] left in the other registers. *)
Record resumed p c c2 c3 : Prop := {
  re_pc : c3.(pc) = p;
  re_sr : sr_value c3 = sr_value c;
  re_banks : banks c3 = banks c;
  re_mode : c3.(mach).(current_atc) = s_flag c3;
  re_dregs : c3.(dregs) = c2.(dregs);
  re_aregs n : n ≠ 7 → areg n c3 = areg n c2;
}.

Lemma u16_sr_word c : u16 (sr_word c) = sr_word c.
Proof. apply u16_small. unfold sr_word. apply u16_range. Qed.

(** The program counter is in none of these. *)
Lemma pc_apart a c : let c' := w_pc a (w_fault_pc a c) in
  sr_value c' = sr_value c ∧ banks c' = banks c ∧ s_flag c' = s_flag c ∧ (∀ n, areg n c' = areg n c).
Proof. destruct c as [[[]]]. by split_and!. Qed.

Lemma frame_format format nr : 0 <= format < 8 → 0 <= nr < 256 → u16 (u16 (Z.shiftl format 12 + nr * 4)) >> 12 = format.
Proof. intros Hf Hn. rewrite shl_12, !(u16_small (format * 4096 + nr * 4)), shr_12 by lia. zdiv_lia. Qed.

(** The last step: the frame of [c] is popped in [h], where the stack pointers are those of the interrupted
    program but for the frame. *)
Lemma resume fuel c h v p fmt l n : frame_at (cell h.(mach)) (areg 7 h) ((2%nat, v) :: (4%nat, p) :: (2%nat, fmt) :: l) →
  good h.(mach) → super h.(mach) → span win (areg 7 h) 8 → frame_rest (u16 fmt >> 12) = Some n →
  areg 7 h + 8 + n < 2 ^ 32 → v = sr_word c → 0 <= c.(intmask) < 8 → 0 <= p < 2 ^ 32 →
  banks (w_areg 7 (areg 7 h + (8 + n)) h) = banks c →
  ∃ c3, ex_rte (S fuel) h = (Ret tt, c3) ∧ resumed p c h c3.
Proof.
  intros Hf Hg Hs Hw Hn Hb -> Hmask Hp Hbk.
  destruct (rte_frame fuel h _ p fmt l n Hf Hg Hs Hw Hn Hb) as (c' & [Hm Hsp _] & E).
  rewrite u16_sr_word, u32_small in E by done. eexists. split; [exact E|].
  destruct (sr_loaded_fields (sr_word c) c') as (_ & _ & Es & _ & _ & _ & Ec & Ed & _ & _ & Ea).
  destruct (pc_apart p (sr_loaded (sr_word c) c')) as (P1 & P2 & P3 & P4).
  split.
  - done.
  - rewrite P1. by apply sr_restored.
  - rewrite P2, sr_loaded_banks, <-Hbk.
    unfold banks. rewrite Hsp. rewrite (mv_cpu _ _ Hm). unfold s_flag. cbn [mach w_mach usp isp msp mflag].
    rewrite (mv_regs _ _ Hm). reflexivity.
  - rewrite P3, Es. exact Ec.
  - cbn [dregs w_pc w_fault_pc]. rewrite Ed. by rewrite (mv_cpu _ _ Hm).
  - intros k Hk. rewrite P4, Ea by done. by apply (mv_areg _ _ Hm).
Qed.

(** What an exception leaves for the handler. *)
Lemma handler_super nr c1 c2 : at_handler nr c1 c2 → super c1.(mach) → super c2.(mach).
Proof. intros A [H1 H2]. split; [by rewrite (ah_regs _ _ _ A)|by rewrite (ah_current _ _ _ A)]. Qed.

Lemma handler_areg nr c1 c2 n : at_handler nr c1 c2 → areg n c2 = areg n c1.
Proof. intros A. unfold areg. by rewrite (ah_regs _ _ _ A). Qed.

Lemma return_short fuel nr oldpc c c2 c1 h : can_take nr c → two_stacks nr c = false →
  stacked (exc_frame nr oldpc c) (prepared c) c2 → at_handler nr c2 c1 → handled false c1 h →
  ∃ c3, ex_rte (S fuel) h = (Ret tt, c3) ∧ resumed (return_pc nr c) c h c3.
Proof.
  intros Hct Htwo S2 A1 Hh. pose proof (ct_even _ _ Hct) as He.
  assert (c.(mflag) = false) as Hm0 by (destruct (ct_master _ _ Hct) as [?|(E & _)]; [done|congruence]).
  destruct Hct as [[Hnr Hn2] Hg Hmode Hmask Hpc [Hroom Hssp] Hvec _].
  destruct (prepared_fields c) as (Esp & Eps & Eusp & Eisp & Emsp & Em & Esr & _).
  pose proof (st_moved _ _ _ S2) as M2. pose proof (st_sp _ _ _ S2) as Ssp. rewrite Esp in Ssp.
  destruct (ah_stacks _ _ _ A1) as (Eu1 & Ei1 & Em1). destruct (ha_stacks _ _ _ Hh) as (Eu & Ei & Emm).
  assert (areg 7 h = ssp c - fsize (exc_frame nr oldpc c)) as Eh
    by (rewrite (ha_sp _ _ _ Hh), (handler_areg _ _ _ 7 A1); exact Ssp).
  set (n := fsize (format_rest (exc_format nr) (exc_extra nr oldpc c))).
  assert (fsize (exc_frame nr oldpc c) = 8 + n) as Ef by (unfold exc_frame; rewrite fsize_app; done).
  assert ((exc_format nr = 0 ∧ n = 0) ∨ (exc_format nr = 2 ∧ n = 4)) as Hfmt
    by (unfold n, exc_format; destruct (_ || _ || _ || _); auto).
  assert (span win (areg 7 h) 8) as Hw8.
  { rewrite Eh, Ef. eapply span_sub; [exact Hroom|lia..|]. apply sub_even; [done|]. by destruct Hfmt as [[_ ->]|[_ ->]]. }
  assert (frame_at (cell h.(mach)) (areg 7 h) (short_frame (exc_format nr) (sr_word c) (return_pc nr c) nr)) as Hfr.
  { pose proof (st_frame _ _ _ S2) as Hfr. rewrite <-(handler_areg _ _ _ 7 A1), <-(ha_sp _ _ _ Hh) in Hfr.
    eapply frame_at_ext with (f := cell c2.(mach)).
    - intros x Hx. change (fsize _) with 8 in Hx. assert (win x) by (apply Hw8; lia).
      rewrite (ha_cells _ _ _ Hh), (ah_cells _ _ _ A1); [done..|]. rewrite <-(ha_sp _ _ _ Hh). by left.
    - destruct Hfr as (F1 & F2 & F3 & _). by split_and!. }
  eapply (resume fuel c h _ _ _ [] n); [exact Hfr|apply Hh|apply Hh|done| |lia|done|done|done|].
  - rewrite frame_format by (destruct Hfmt as [[? _]|[? _]]; lia). by destruct Hfmt as [[-> ->]|[-> ->]].
  - unfold banks. change (areg 7 (w_areg 7 ?v h)) with v. unfold s_flag. cbn [mach w_areg w_regs w_mach set_regs regs set_areg sr_s usp isp msp mflag].
    destruct (ha_super _ _ _ Hh) as [-> _]. rewrite (ha_master _ _ _ Hh), (ah_master _ _ _ A1), Eu, Emm, Eu1, Em1. cbn [andb negb].
    rewrite (mv_cpu _ _ M2). cbn [usp msp w_mach]. rewrite Eusp, Emsp.
    replace (areg 7 h + (8 + n)) with (ssp c) by lia. unfold banks, ssp. fold (s_flag c). rewrite Hm0.
    destruct (s_flag c); done.
Qed.

Lemma sr_super c : 0 <= c.(intmask) < 8 → c.(mflag) = true →
  sr_bit (sr_word c .| 0x2000) 13 = true ∧ sr_bit (sr_word c .| 0x2000) 12 = true ∧ u16 (sr_word c .| 0x2000) = sr_word c .| 0x2000.
Proof.
  intros Hm Hmf. rewrite !sr_bit_testbit, !Z.lor_spec, !sr_word_bits by lia. cbn [sr_flag]. rewrite Hmf.
  split; [by rewrite orb_true_r|]. split; [done|]. apply u16_small, (lor_range _ _ 16); [lia| |lia].
  rewrite <-u16_sr_word. apply u16_range.
Qed.

(** On the master stack, A7 is the third stack pointer. *)
Lemma banks_master c : s_flag c = true → c.(mflag) = true → banks c = (c.(usp), c.(isp), areg 7 c).
Proof. intros H1 H2. unfold banks. by rewrite H1, H2. Qed.
Lemma banks_interrupt c : s_flag c = true → c.(mflag) = false → banks c = (c.(usp), areg 7 c, c.(msp)).
Proof. intros H1 H2. unfold banks. by rewrite H1, H2. Qed.
Lemma banks_ssp c : c.(mflag) = true → banks c = ((banks c).1.1, c.(isp), ssp c).
Proof. intros H. unfold banks, ssp. rewrite H, andb_false_r, andb_true_r. by destruct (s_flag c). Qed.

(** The frames of an interrupt in master mode: the one of the program on the master stack, a throwaway frame on the interrupt stack. *)
Definition two_frames nr c c1 : Prop :=
  areg 7 c1 = c.(isp) - 8 ∧ c1.(msp) = ssp c - 8 ∧
  frame_at (cell c1.(mach)) (areg 7 c1) (short_frame 1 (sr_word c .| 0x2000) c.(pc) nr) ∧
  frame_at (cell c1.(mach)) c1.(msp) (short_frame 0 (sr_word c) c.(pc) nr).

Lemma two_frames_stacked nr c c2 c3 c1 : can_take nr c → two_stacks nr c = true →
  stacked (short_frame 0 (sr_word c) c.(pc) nr) (prepared c) c2 →
  stacked (short_frame 1 (sr_word c .| 0x2000) c.(pc) nr) (switched c2) c3 → at_handler nr c3 c1 → two_frames nr c c1.
Proof.
  intros Hct Htwo S2 S3 A1.
  assert (c.(mflag) = true) as Hmf by (unfold two_stacks in Htwo; by destruct c.(mflag)).
  destruct Hct as [_ _ _ _ _ [Hroom _] _ [Hm0|(_ & Hiroom & _ & Hdisj)]]; [congruence|].
  destruct (prepared_fields c) as (Esp & _ & _ & Eisp & _).
  pose proof (st_moved _ _ _ S2) as M2. pose proof (st_moved _ _ _ S3) as M3. destruct (ah_stacks _ _ _ A1) as (_ & _ & Em1).
  assert (areg 7 c2 = ssp c - 8) as Ec2 by (rewrite (st_sp _ _ _ S2), Esp; done).
  assert (c2.(isp) = c.(isp)) as Eisp2 by (rewrite (mv_cpu _ _ M2); exact Eisp).
  assert (areg 7 c3 = c.(isp) - 8) as Esp3 by (rewrite (st_sp _ _ _ S3), <-Eisp2; done).
  assert (c1.(msp) = ssp c - 8) as Emsp1 by (rewrite Em1, (mv_cpu _ _ M3); exact Ec2).
  unfold two_frames. rewrite (handler_areg _ _ _ 7 A1), Esp3, Emsp1. split_and!; [done..| |].
  - rewrite <-Esp3. eapply frame_at_ext; [|apply (st_frame _ _ _ S3)]. intros x Hx. symmetry. apply (ah_cells _ _ _ A1), Hiroom.
    rewrite Esp3 in Hx. cbn in Hx. lia.
  - rewrite <-Ec2. eapply frame_at_ext; [|apply (st_frame _ _ _ S2)]. intros x Hx. rewrite Ec2 in Hx. cbn in Hx.
    assert (win x) by (apply Hroom; lia). rewrite (ah_cells _ _ _ A1) by done.
    rewrite (st_rest _ _ _ S3); [symmetry; by apply ram_soft_cell, switched_soft|done|].
    rewrite (st_sp _ _ _ S3). change (areg 7 (switched c2)) with c2.(isp). rewrite Eisp2. cbn. lia.
Qed.

Lemma return_two fuel nr c c2 c3 c1 h : can_take nr c → two_stacks nr c = true →
  stacked (short_frame 0 (sr_word c) c.(pc) nr) (prepared c) c2 →
  stacked (short_frame 1 (sr_word c .| 0x2000) c.(pc) nr) (switched c2) c3 → at_handler nr c3 c1 → handled true c1 h →
  ∃ c4, ex_rte (S (S fuel)) h = (Ret tt, c4) ∧ resumed (return_pc nr c) c h c4.
Proof.
  intros Hct Htwo S2 S3 A1 Hh. pose proof (ct_even _ _ Hct) as He.
  destruct (two_frames_stacked nr c c2 c3 c1 Hct Htwo S2 S3 A1) as (Esp1 & Emsp1 & F1 & F0).
  assert (nr ≠ 3 ∧ c.(mflag) = true) as [Hn3 Hmf] by (unfold two_stacks in Htwo; destruct c.(mflag); lia).
  destruct Hct as [[Hnr Hn2] Hg Hmode Hmask Hpc [Hroom Hssp] Hvec [Hm0|(_ & Hiroom & Hisp & Hdisj)]]; [congruence|].
  unfold return_pc in *. rewrite (proj2 (Z.eqb_neq nr 3) Hn3) in *.
  destruct (prepared_fields c) as (Esp & Eps & Eusp & Eisp & _ & _ & Esr & _).
  destruct (sr_super c Hmask Hmf) as (B13 & B12 & Bu). set (v1 := sr_word c .| 0x2000) in *.
  assert (c.(isp) mod 2 = 0) as Hie by (destruct Hiroom as (Hi & _); Z.to_euclidean_division_equations; lia).
  pose proof (st_moved _ _ _ S2) as M2. pose proof (st_moved _ _ _ S3) as M3.
  destruct (ah_stacks _ _ _ A1) as (Eu1 & Ei1 & Em1). destruct (ha_stacks _ _ _ Hh) as (Eu & Ei & Emm).
  assert (h.(usp) = (banks c).1.1) as Ehu by (rewrite Eu, Eu1, (mv_cpu _ _ M3), <-Eusp; cbn; by rewrite (mv_cpu _ _ M2)).
  pose proof (ha_sp _ _ _ Hh) as Ehs. rewrite Esp1 in Ehs.
  destruct (rte_throwaway (S fuel) h v1 c.(pc) (u16 (Z.shiftl 1 12 + nr * 4))) as (c' & [Mp Sp Cp] & Er).
  { rewrite Ehs, <-Esp1. eapply frame_at_ext; [|exact F1]. intros x Hx. cbn in Hx. symmetry.
    apply (ha_cells _ _ _ Hh); [apply Hiroom; lia|left; lia]. }
  { apply Hh. } { apply Hh. } { by rewrite Ehs. } { by rewrite frame_format by lia. } { lia. }
  rewrite Bu in Er. rewrite Er. set (g := sr_loaded v1 c') in *.
  destruct (sr_loaded_fields v1 c') as (_ & _ & Es & Emf & _ & _ & Ecur & Ed & _ & _ & Ea). fold g in Es, Emf, Ecur, Ed, Ea.
  rewrite B13 in Es, Ecur. rewrite B12 in Emf.
  assert (banks g = (h.(usp), c.(isp), ssp c - 8)) as Ebk.
  { unfold g. rewrite sr_loaded_banks, banks_interrupt.
    - rewrite Sp, Ehs, (mv_cpu _ _ Mp). cbn [usp msp w_mach]. rewrite Emm, Emsp1. do 2 f_equal. lia.
    - unfold s_flag. rewrite (mv_regs _ _ Mp). apply Hh.
    - rewrite (mv_cpu _ _ Mp). cbn [mflag w_mach]. by rewrite (ha_master _ _ _ Hh), (ah_master _ _ _ A1). }
  assert (soft c'.(mach) g.(mach)) as Hsg by apply sr_loaded_soft. clearbody g.
  rewrite banks_master in Ebk by done. apply pair_equal_spec in Ebk as [Ebk Eg3]. apply pair_equal_spec in Ebk as [Eg1 Eg2].
  destruct (resume fuel c g (sr_word c) c.(pc) (u16 (Z.shiftl 0 12 + nr * 4)) [] 0) as (c4 & E4 & R4);
    [..|done|done|done| |].
  - rewrite Eg3, <-Emsp1. eapply frame_at_ext; [|exact F0]. intros x Hx. cbn in Hx. assert (win x) by (apply Hroom; lia).
    rewrite (ram_soft_cell _ _ _ Hsg), Cp by done. symmetry. apply (ha_cells _ _ _ Hh); [done|right; split; [done|lia]].
  - eapply ram_soft; [exact Hsg|apply Mp].
  - split; [exact Es|exact Ecur].
  - rewrite Eg3. eapply span_sub; [exact Hroom|lia..|]. by apply sub_even.
  - by rewrite frame_format by lia.
  - lia.
  - rewrite banks_master by done. change (areg 7 (w_areg 7 ?v g)) with v. cbn [usp isp w_areg w_regs w_mach].
    rewrite Eg1, Eg2, Ehu, (banks_ssp c Hmf). cbn. do 2 f_equal. lia.
  - exists c4. split; [done|]. destruct R4 as [R1 R2 R3 R5 R6 R7]. split; try done.
    + rewrite R6, Ed. by rewrite (mv_cpu _ _ Mp).
    + intros n Hn. rewrite R7, Ea by done. by apply (mv_areg _ _ Mp).
Qed.

(** The handler starts: supervisor mode, no trace, at the address of the vector; registers and flags as before. *)
Record handler_entered nr c c1 : Prop := {
  he_super : super c1.(mach);
  he_pc : c1.(pc) = load 4 (cell c1.(mach)) (c.(vbr) +u 4 * nr);
  he_trace : c1.(t1) = false ∧ c1.(t0) = false ∧ c1.(mflag) = false;
  he_dregs : c1.(dregs) = c.(dregs);
  he_aregs n : n ≠ 7 → areg n c1 = areg n c;
  he_flags : c1.(flags) = c.(flags) ∧ c1.(intmask) = c.(intmask);
  he_spc : spc c1 = Z.ldiff (spc c) 0x18;
  he_other : c1.(vbr) = c.(vbr) ∧ c1.(mach).(dev) = c.(mach).(dev) ∧ c1.(fixup) = c.(fixup);
  he_good : good c1.(mach);
}.

(** [c'] has the registers of [c], but for the stack pointers. *)
Record same_program c c' : Prop := {
  sp_vbr : c'.(vbr) = c.(vbr);
  sp_dregs : c'.(dregs) = c.(dregs);
  sp_aregs n : n ≠ 7 → areg n c' = areg n c;
  sp_flags : c'.(flags) = c.(flags) ∧ c'.(intmask) = c.(intmask);
  sp_other : spc c' = spc c ∧ c'.(mach).(dev) = c.(mach).(dev) ∧ c'.(fixup) = c.(fixup);
}.

Lemma same_program_trans c1 c2 c3 : same_program c1 c2 → same_program c2 c3 → same_program c1 c3.
Proof.
  intros [E1 E2 E3 [E4 E5] (E6 & E7 & E8)] [F1 F2 F3 [F4 F5] (F6 & F7 & F8)].
  split; [congruence..| |split; congruence|split_and!; congruence]. intros n Hn. by rewrite F3, E3.
Qed.

Lemma prepared_program c : same_program c (prepared c).
Proof.
  destruct (prepared_fields c) as (_ & _ & _ & _ & _ & _ & _ & E1 & _ & E2 & E3 & _ & E4 & _). split; [done..| |].
  - split; [|done]. unfold prepared. cbn. by destruct (s_flag _).
  - unfold prepared. cbn. by destruct (s_flag _).
Qed.

Lemma moved_program c c' : moved (good := good) c c' → same_program c c'.
Proof.
  intros M. split; [by rewrite (mv_cpu _ _ M)..|apply (mv_areg _ _ M)|by rewrite (mv_cpu _ _ M)|].
  split; [apply (mv_spc _ _ M)|]. split; [apply (mv_dev _ _ M)|]. by rewrite (mv_cpu _ _ M).
Qed.

Lemma switched_program c : same_program c (switched c).
Proof. split; try done. intros n Hn. unfold areg. cbn. by rewrite (proj2 (Z.eqb_neq n 7)). Qed.

Lemma entered nr c c2 c1 : same_program c c2 → super c2.(mach) → at_handler nr c2 c1 →
  span win (c.(vbr) +u 4 * nr) 4 → handler_entered nr c c1.
Proof.
  intros [E1 E2 E3 [E4 E5] (E6 & E7 & E8)] Hs A Hw. split.
  - by eapply handler_super.
  - rewrite (ah_pc _ _ _ A), E1. apply load_ext. intros x Hx. symmetry. apply (ah_cells _ _ _ A), Hw. done.
  - destruct (ah_trace _ _ _ A). split_and!; [done..|]. apply (ah_master _ _ _ A).
  - by rewrite (ah_dregs _ _ _ A).
  - intros n Hn. rewrite (handler_areg _ _ _ n A). by apply E3.
  - destruct (ah_mask _ _ _ A) as [F1 F2]. by rewrite F1, F2.
  - by rewrite (ah_spc _ _ _ A), E6.
  - destruct (ah_other _ _ _ A) as [F1 F2]. by rewrite F1, F2, (ah_dev _ _ _ A), E1, E7, E8.
  - apply (ah_good _ _ _ A).
Qed.

Lemma exception_return_core nr oldpc c : can_take nr (fixed c) →
  ∃ c1, Exception nr oldpc c = (Ret tt, c1) ∧ handler_entered nr (fixed c) c1 ∧
    (two_stacks nr (fixed c) = false → areg 7 c1 = ssp (fixed c) - fsize (exc_frame nr oldpc (fixed c)) ∧
       frame_at (cell c1.(mach)) (areg 7 c1) (exc_frame nr oldpc (fixed c))) ∧
    (two_stacks nr (fixed c) = true → two_frames nr (fixed c) c1) ∧
    ∀ fuel c2, handled (two_stacks nr (fixed c)) c1 c2 →
    ∃ c3, ex_rte (S (S fuel)) c2 = (Ret tt, c3) ∧ resumed (return_pc nr (fixed c)) (fixed c) c2 c3.
Proof.
  intros Hct. rewrite Exception_prepared. replace c.(pc) with (fixed c).(pc) by (unfold fixed; by destruct (fixup c) as [[]|]).
  generalize dependent (fixed c). clear c. intros c Hct.
  pose proof (prepared_super c (ct_mode _ _ Hct)) as Hs. pose proof (ct_vector _ _ Hct) as Hv.
  destruct (two_stacks nr c) eqn:Htwo.
  - destruct (two_stack_interrupt nr oldpc c Hct Htwo) as (c2 & c3 & c1 & E & S2 & S3 & A).
    pose proof (st_moved _ _ _ S2) as M2. pose proof (st_moved _ _ _ S3) as M3.
    exists c1. split; [done|]. split; [|split; [done|split]].
    + apply (entered nr c c3); [|eapply moved_super; [exact M3|exact (moved_super _ _ M2 Hs)]|done..].
      eapply same_program_trans; [apply prepared_program|]. eapply same_program_trans; [apply moved_program, M2|].
      eapply same_program_trans; [apply switched_program|apply moved_program, M3].
    + intros _. by eapply two_frames_stacked.
    + intros fuel h Hh. by eapply return_two.
  - destruct (short_exception nr oldpc c Hct Htwo) as (c2 & c1 & E & S2 & A). pose proof (st_moved _ _ _ S2) as M2.
    exists c1. split; [done|]. split; [|split; [|split; [done|]]].
    + apply (entered nr c c2); [|by eapply moved_super|done..].
      eapply same_program_trans; [apply prepared_program|apply moved_program, M2].
    + intros _. rewrite (handler_areg _ _ _ 7 A). destruct (prepared_fields c) as (<- & _).
      split; [apply (st_sp _ _ _ S2)|]. eapply frame_at_ext; [|apply (st_frame _ _ _ S2)].
      intros x Hx. symmetry. apply (ah_cells _ _ _ A). rewrite (st_sp _ _ _ S2) in Hx.
      destruct (prepared_fields c) as (Esp & _). rewrite Esp in Hx. apply (ct_room _ _ Hct).
      assert (fsize (exc_frame nr oldpc c) <= 12); [|lia]. unfold exc_frame, format_rest. rewrite fsize_app.
      destruct (_ =? 2); cbn; lia.
    + intros fuel h Hh. by eapply return_short.
Qed.

(** C2: Exceptions and interrupts (all vectors but the bus error).  Outside master mode any of them; in master mode only the autovectors
    24 to 31, since any other vector taken there, of a trap, the MFP or the SCC, loses the stack pointers ([M68kExample.master_trap_loses_stacks]).  The
    processor enters the handler whose address is in the vector, in supervisor mode, with the registers of the program and a frame of status register,
    program counter, vector and possibly an address on the stack; in master mode such a frame is on the master stack and a throwaway frame
    on the interrupt stack.  When the handler, whatever it did, executes RTE with its mode, its stack pointers and these frames intact, the program goes on at the
    stacked address with its status register and all three stack pointers as they were.  The stack has room in RAM, in master mode both stacks and apart from each other,
    and the vector is readable ([can_take]); a pending register fixup is applied first ([fixed]). *)
Theorem exception_return nr oldpc c : can_take nr (fixed c) →
  ∃ c1, Exception nr oldpc c = (Ret tt, c1) ∧ handler_entered nr (fixed c) c1 ∧
    (two_stacks nr (fixed c) = false → areg 7 c1 = ssp (fixed c) - fsize (exc_frame nr oldpc (fixed c)) ∧
       frame_at (cell c1.(mach)) (areg 7 c1) (exc_frame nr oldpc (fixed c))) ∧
    (two_stacks nr (fixed c) = true → two_frames nr (fixed c) c1) ∧
    ∀ fuel c2, handled (two_stacks nr (fixed c)) c1 c2 →
    ∃ c3, ex_rte (S (S fuel)) c2 = (Ret tt, c3) ∧ resumed (return_pc nr (fixed c)) (fixed c) c2 c3.
Proof. apply exception_return_core. Qed.
End Exc.
