(* ===== verification/M68kBus.v ===== *)
(** * M68kBus: bus errors

    The frame of a bus error (format 7), the return from it ([bus_error_return]), and what happens when the
    frame cannot be stacked (used by [M68kRegs]). *)

From S2P Require Import Prelude Throws Machine Mmu M68k M68kStack M68kFrame M68kExc.
From stdpp Require Import base gmap list numbers.
Open Scope Z_scope.
Open Scope c_scope.
Open Scope x_scope.

Section Bus.
Context {cfg : Config} {D : Type} {hwd : Hardware D}.
Context {win : Z → Prop} {good : machine D → Prop} {cell : machine D → Z → Z} {R : Ram win good cell}.
Implicit Types (c : m68k D) (s : machine D) (l : frame).
Abbreviation stacked := (stacked (win := win) (good := good) (cell := cell)).

(** The registers of the frame: fault address, special status, and the third write-back
    with status, address and data; the other write-backs are empty. *)
Definition access_rest (r : regstruct) : frame :=
  [(4%nat, r.(mmu_fault_addr)); (2%nat, r.(mmu_ssw)); (2%nat, r.(wb3_status)); (2%nat, 0); (2%nat, 0);
   (4%nat, r.(mmu_fault_addr)); (4%nat, r.(mmu_fault_addr)); (4%nat, r.(wb3_data)); (4%nat, 0); (4%nat, 0); (4%nat, 0);
   (4%nat, 0); (4%nat, 0); (4%nat, 0); (4%nat, 0)].
Definition access_frame c : frame := short_frame 7 (sr_word c) c.(fault_pc) 2 ++ access_rest c.(mach).(regs).

(** There is room for the frame of a bus error; not in master mode. *)
Record can_fault c : Prop := {
  cf_good : good c.(mach);
  cf_mode : c.(mach).(current_atc) = s_flag c;
  cf_mask : 0 <= c.(intmask) < 8;
  cf_pc : 0 <= c.(fault_pc) < 2 ^ 32;
  cf_room : span win (ssp c - 60) 60 ∧ ssp c < 2 ^ 32;
  cf_vector : span win (c.(vbr) +u 4 * 2) 4;
  cf_master : c.(mflag) = false;
}.

(** The part above the status word and below it. *)
Definition high_part : frame :=
  [(4%nat, 0); (4%nat, 0); (4%nat, 0); (4%nat, 0); (4%nat, 0); (4%nat, 0); (4%nat, 0)].
Definition mid_part (r : regstruct) : frame :=
  [(4%nat, r.(wb3_data)); (4%nat, r.(mmu_fault_addr)); (4%nat, r.(mmu_fault_addr)); (2%nat, 0); (2%nat, 0); (2%nat, r.(wb3_status))].
Definition low_part (r : regstruct) : frame := [(2%nat, r.(mmu_ssw)); (4%nat, r.(mmu_fault_addr))].

Lemma bus_frame_parts c : bus_error_frame c =
  pushes high_part (let* r := cget (λ c, c.(mach).(regs)) in
    pushes (mid_part r) (cmod (w_regs (set_wb3_status 0)) ;;
      pushes (low_part r) (let* v := cget sr in let* fpc := cget fault_pc in exc_make_frame 7 v fpc 2 0 0))) c.
Proof. reflexivity. Qed.

Definition cleared c : m68k D := w_regs (set_wb3_status 0) c.

Lemma sizes_decide l : forallb (λ x, (x.1 =? 2)%nat || (x.1 =? 4)%nat) l = true → sizes_ok l.
Proof.
  intros H. apply Forall_forall. intros x Hx. rewrite forallb_forall in H. specialize (H x Hx).
  apply orb_true_iff in H as [H%Nat.eqb_eq|H%Nat.eqb_eq]; auto.
Qed.

(** A push does not touch the registers of the fault. *)
Lemma moved_fault c c' : moved (good := good) c c' →
  mid_part c'.(mach).(regs) = mid_part c.(mach).(regs) ∧ low_part c'.(mach).(regs) = low_part c.(mach).(regs).
Proof. intros M. by rewrite (mv_regs _ _ M). Qed.

Lemma bus_frame_ok c : good c.(mach) → super c.(mach) → span win (areg 7 c - 60) 60 → areg 7 c < 2 ^ 32 →
  ∃ c1 c2, bus_error_frame c = (Ret tt, c2) ∧ moved (good := good) c c1 ∧ moved (good := good) (cleared c1) c2 ∧
    areg 7 c2 = areg 7 c - 60 ∧
    frame_at (cell c2.(mach)) (areg 7 c2) (short_frame 7 c.(sr) c.(fault_pc) 2 ++ access_rest c.(mach).(regs)).
Proof.
  intros Hg Hs Hroom Hw. assert (areg 7 c mod 2 = 0) as He by (destruct Hroom as (H & _); Z.to_euclidean_division_equations; lia).
  assert (∀ k, k mod 2 = 0 → 0 <= k <= 60 → span win (areg 7 c - k) k) as Hk.
  { intros k Hk2 Hk. eapply span_sub; [exact Hroom|lia..|]. by apply sub_even. }
  set (r := regs (mach c)).
  destruct (stacked_pushes high_part [] c c) as (ca & Ea & Sa);
    [by apply stacked_nil|by apply sizes_decide|constructor|done..|by apply Hk|].
  destruct (stacked_pushes (mid_part r) (rev high_part ++ []) c ca Sa) as (c1 & E1 & S1);
    [by apply sizes_decide..|done|done|done|by apply Hk|].
  pose proof (st_moved _ _ _ Sa) as Ma. pose proof (st_moved _ _ _ S1) as M1.
  assert (soft c1.(mach) (cleared c1).(mach)) as Hsoft by by split.
  assert (areg 7 (cleared c1) = areg 7 c - 46) as Esp.
  { change (areg 7 (cleared c1)) with (areg 7 c1). by rewrite (st_sp _ _ _ S1). }
  assert (super (cleared c1).(mach)) as Hs1 by exact (moved_super _ _ M1 Hs).
  assert (areg 7 c - 46 < 2 ^ 32) as Hw1 by lia. assert ((areg 7 c - 46) mod 2 = 0) as He1 by (by apply sub_even).
  destruct (stacked_pushes (low_part r) [] (cleared c1) (cleared c1)) as (cb & Eb & Sb);
    [apply stacked_nil; eapply ram_soft; [exact Hsoft|apply M1]|by apply sizes_decide|constructor|done|by rewrite Esp..| |].
  { rewrite Esp. eapply span_sub; [exact Hroom|cbn; lia..|]. cbn. by apply sub_even. }
  destruct (make_frame_ok 7 c.(sr) c.(fault_pc) 2 0 0 (rev (low_part r) ++ []) (cleared c1) cb) as (c2 & E2 & S2);
    [by do 3 right|exact Sb|by apply sizes_decide|done|by rewrite Esp..| |].
  { rewrite Esp. eapply span_sub; [exact Hroom|cbn; lia..|]. cbn. by apply sub_even. }
  exists c1, c2. split; [|split; [done|split; [apply S2|split]]].
  - rewrite bus_frame_parts, Ea. erewrite xbind_ret by reflexivity.
    destruct (moved_fault c ca Ma) as [-> ->]. fold r. rewrite E1. erewrite xbind_ret by reflexivity.
    fold (cleared c1). rewrite Eb. erewrite xbind_ret by reflexivity. erewrite xbind_ret by reflexivity.
    assert (cb.(sr) = c.(sr) ∧ cb.(fault_pc) = c.(fault_pc)) as [-> ->]; [|exact E2].
    rewrite (mv_cpu _ _ (st_moved _ _ _ Sb)). cbn [sr fault_pc w_mach cleared w_regs]. by rewrite (mv_cpu _ _ M1).
  - rewrite (st_sp _ _ _ S2), Esp. cbn. lia.
  - eapply (stacked_app _ _ c c1 (cleared c1) c2 S1 Hsoft eq_refl S2).
    intros x Hx. apply Hroom. rewrite (st_sp _ _ _ S1) in Hx. cbn in Hx. lia.
Qed.

Lemma cleared_program c : same_program c (cleared c).
Proof. by split. Qed.

(** What the handler of a bus error finds. *)
Lemma bus_error_entered oldpc c : can_fault (fixed c) →
  ∃ c2 c1, Exception 2 oldpc c = (Ret tt, c1) ∧ at_handler (win := win) (good := good) (cell := cell) 2 c2 c1 ∧
    same_program (fixed c) c2 ∧ super c2.(mach) ∧ c2.(mach).(regs).(wb3_status) = 0 ∧
    areg 7 c2 = ssp (fixed c) - 60 ∧ frame_at (cell c2.(mach)) (areg 7 c2) (access_frame (fixed c)) ∧
    c2.(usp) = (banks (fixed c)).1.1 ∧ c2.(msp) = (fixed c).(msp).
Proof.
  rewrite Exception_prepared. replace c.(pc) with (fixed c).(pc) by (unfold fixed; by destruct (fixup c) as [[]|]).
  generalize (fixed c). clear c. intros c [Hg Hmode Hmask Hpc [Hroom Hssp] Hvec Hmf].
  destruct (prepared_fields c) as (Esp & _ & Eusp & _ & Emsp & _ & Esr & Evbr & _ & _ & _ & Efp & _ & _ & Hsoft).
  pose proof (prepared_super c Hmode) as Hs. pose proof (prepared_program c) as Hpp.
  assert (access_rest (prepared c).(mach).(regs) = access_rest c.(mach).(regs)) as Ear.
  { unfold prepared. cbn. by destruct (s_flag _). }
  set (q := prepared c) in *.
  destruct (bus_frame_ok q) as (ca & c2 & E & M1 & M2 & E7 & Hf); [by eapply ram_soft|done|by rewrite Esp..|].
  assert (same_program c c2) as Hpr.
  { eapply same_program_trans; [exact Hpp|]. eapply same_program_trans; [exact (moved_program _ _ M1)|].
    eapply same_program_trans; [apply cleared_program|exact (moved_program _ _ M2)]. }
  assert (super c2.(mach)) as Hs2 by exact (moved_super _ _ M2 (moved_super _ _ M1 Hs)).
  destruct (enter_handler_ok 2 c2) as (c1 & E1 & A1); [apply M2|done|by rewrite (sp_vbr _ _ Hpr)|].
  exists c2, c1. split; [|split_and!; try done].
  - unfold exception_body. erewrite xbind_ret by reflexivity. erewrite xbind_ret by reflexivity.
    cbn [Z.eqb Pos.eqb]. erewrite xbind_ret; [|apply try_catch_ret; by erewrite xbind_ret by exact E]. exact E1.
  - by rewrite (mv_regs _ _ M2).
  - rewrite E7, Esp. done.
  - rewrite Esr, Efp, Ear in Hf. exact Hf.
  - rewrite (mv_cpu _ _ M2). cbn [usp w_mach cleared w_regs]. rewrite (mv_cpu _ _ M1). exact Eusp.
  - rewrite (mv_cpu _ _ M2). cbn [msp w_mach cleared w_regs]. rewrite (mv_cpu _ _ M1). exact Emsp.
Qed.

(** C10: Bus errors outside master mode.  The handler gets a frame of format 7 with the fault address, the special
    status word and the pending write-back; the write-back is withdrawn from the processor.  RTE after it, with mode, stack pointers
    and the start of the frame intact, restarts the faulting instruction with the status register and the stack pointers it had,
    the address register of a half-done predecrement or postincrement being restored.  The supervisor stack has room for the 60 bytes in RAM and the vector is
    readable ([can_fault]).  In master mode the stack pointers are lost ([M68kExample.master_trap_loses_stacks]). *)
Theorem bus_error_return oldpc c : can_fault (fixed c) →
  ∃ c1, Exception 2 oldpc c = (Ret tt, c1) ∧ handler_entered (good := good) (cell := cell) 2 (fixed c) c1 ∧
    areg 7 c1 = ssp (fixed c) - 60 ∧ frame_at (cell c1.(mach)) (areg 7 c1) (access_frame (fixed c)) ∧
    c1.(mach).(regs).(wb3_status) = 0 ∧
    ∀ fuel c2, handled (win := win) (good := good) (cell := cell) false c1 c2 →
    ∃ c3, ex_rte (S fuel) c2 = (Ret tt, c3) ∧ resumed (fixed c).(fault_pc) (fixed c) c2 c3.
Proof.
  intros Hcf. destruct (bus_error_entered oldpc c Hcf) as (c2 & c1 & E & A & Hpr & Hs2 & Ewb & E7 & Hf & Eu & Emsp).
  revert Hcf Hpr E7 Hf Eu Emsp. generalize (fixed c). intros f [Hg Hmode Hmask Hpc [Hroom Hssp] Hvec Hmf] Hpr E7 Hf Eu Emsp.
  assert (ssp f mod 2 = 0) as He by (destruct Hroom as (H & _); Z.to_euclidean_division_equations; lia).
  exists c1. split; [done|]. split; [by eapply entered|]. rewrite (handler_areg _ _ _ 7 A). split; [done|]. split; [|split].
  - eapply frame_at_ext; [|exact Hf]. intros x Hx. symmetry. apply (ah_cells _ _ _ A), Hroom. cbn in Hx. lia.
  - by rewrite (ah_regs _ _ _ A).
  - intros fuel h Hh. pose proof (ha_sp _ _ _ Hh) as Ehs. rewrite (handler_areg _ _ _ 7 A), E7 in Ehs.
    destruct (ah_stacks _ _ _ A) as (Eu1 & _ & Em1). destruct (ha_stacks _ _ _ Hh) as (Eu2 & _ & Em2).
    assert (span win (areg 7 h) 8) as Hw8.
    { rewrite Ehs. eapply span_sub; [exact Hroom|lia..|]. by apply sub_even. }
    eapply (resume fuel f h _ _ (u16 (Z.shiftl 7 12 + 2 * 4)) [] 52);
      [|apply Hh|apply Hh|done|by rewrite frame_format by lia|lia|reflexivity|done|done|].
    + eapply (frame_at_ext (cell c2.(mach))).
      * intros x Hx. cbn in Hx. assert (win x) by (apply Hw8; lia). symmetry.
        rewrite (ha_cells _ _ _ Hh), (ah_cells _ _ _ A); [done..|]. left. rewrite (handler_areg _ _ _ 7 A), E7. lia.
      * rewrite Ehs, <-E7. destruct Hf as (F1 & F2 & F3 & _). by split_and!.
    + rewrite banks_interrupt; [|apply Hh|].
      * change (areg 7 (w_areg 7 ?v h)) with v. cbn [usp msp w_areg w_regs w_mach].
        rewrite Eu2, Eu1, Eu, Em2, Em1, Emsp, Ehs. unfold banks, ssp. rewrite Hmf, andb_false_r.
        destruct (s_flag f); cbn; do 2 f_equal; lia.
      * cbn [mflag w_areg w_regs w_mach]. by rewrite (ha_master _ _ _ Hh), (ah_master _ _ _ A).
Qed.
End Bus.
