(* ===== verification/M68kIrq.v ===== *)
(** * M68kIrq: interrupts

    [interrupts_served]: what the processor does with pending interrupt requests between
    two instructions.  Against the interfaces [Ram] (the stacks) and [Acks] (the interrupt acknowledge
    of the SCC and the MFP). *)

From S2P Require Import Prelude Throws Machine Mmu M68k M68kStack M68kFrame M68kExc.
From stdpp Require Import base gmap list numbers.
Open Scope Z_scope.
Open Scope c_scope.
Open Scope x_scope.

(** The chips, while their state is in [dev_ok], name a vector, which is 0 when there is nothing to do, and change their own state
    and request flag only; the SCC does not influence the MFP.  [dev_end] holds of the devices when both have been asked. *)
Class Acks {D : Type} (dev_ok dev_end : D → Prop) (SCCdoInterrupt MFPdoInterrupt : X (m68k D) Z) (vec_scc vec_mfp : D → Z) : Prop := {
  ack_scc c : dev_ok c.(mach).(dev) → ∃ d f,
    SCCdoInterrupt c = (Ret (vec_scc c.(mach).(dev)), w_mach (set_dev d (set_spcflags f c.(mach))) c) ∧
    (∀ i, i ≠ 13 → Z.testbit f i = Z.testbit (spc c) i) ∧ dev_ok d ∧ vec_mfp d = vec_mfp c.(mach).(dev);
  ack_mfp c : dev_ok c.(mach).(dev) → ∃ d f,
    MFPdoInterrupt c = (Ret (vec_mfp c.(mach).(dev)), w_mach (set_dev d (set_spcflags f c.(mach))) c) ∧
    (∀ i, i ≠ 9 → Z.testbit f i = Z.testbit (spc c) i) ∧ dev_end d;
  ack_end d : dev_ok d → dev_end d;
}.

Section Irq.
Context {cfg : Config} {D : Type} {hwd : Hardware D}.
Context {win : Z → Prop} {good : machine D → Prop} {cell : machine D → Z → Z} {R : Ram win good cell}.
Context {dev_ok dev_end : D → Prop} {SCCdoInterrupt MFPdoInterrupt : X (m68k D) Z} {vec_scc vec_mfp : D → Z}.
Context {A : Acks dev_ok dev_end SCCdoInterrupt MFPdoInterrupt vec_scc vec_mfp}.
Implicit Types (c : m68k D) (s : machine D).

(** A request: its bit in [spcflags], its level and its vector. *)
Record request := Request { rq_bit : Z; rq_level : Z; rq_vector : Z }.

(** In the order in which the code looks at them. *)
Definition requests (d : D) : list request :=
  [Request 11 3 27; Request 8 4 28; Request 12 5 29; Request 13 5 (vec_scc d); Request 9 6 (vec_mfp d)].

Definition pending c (q : request) : bool := Z.testbit (spc c) q.(rq_bit).

(** ** Room for the interrupts *)

(** [k] interrupts can be taken, with vectors from [vs]. *)
Record servable (k : nat) (vs : list Z) c : Prop := {
  sb_good : good c.(mach);
  sb_mode : c.(mach).(current_atc) = s_flag c;
  sb_mask : 0 <= c.(intmask) < 8;
  sb_pc : 0 <= c.(pc) < 2 ^ 32;
  sb_fixup : c.(fixup) = None;
  sb_master : c.(mflag) = false;
  sb_room : span win (ssp c - 12 * Z.of_nat k) (12 * Z.of_nat k) ∧ ssp c < 2 ^ 32;
  sb_vectors v : v ∈ vs → v ≠ 0 → 0 <= v < 256 ∧ v ≠ 2 ∧ v ≠ 3 ∧ span win (c.(vbr) +u 4 * v) 4;
}.

Lemma servable_less k j vs c : (k <= j)%nat → servable j vs c → servable k vs c.
Proof.
  intros Hk [H1 H2 H3 H4 H5 H6 [Hr Hs] H8]. split; try done. split; [|done].
  eapply span_sub; [exact Hr|lia..|]. destruct Hr as (He & _). Z.to_euclidean_division_equations. lia.
Qed.

(** Other masks, flags and devices do not matter. *)
Definition tweak (l : Z) (b : bool) (f : Z) (d : D) c : m68k D :=
  w_mach (set_dev d (set_spcflags f c.(mach))) (w_stopped b (w_intmask l c)).

Lemma tweak_soft l b f d c : soft c.(mach) (tweak l b f d c).(mach).
Proof. by split. Qed.

Lemma servable_tweak l b f d k vs c : 0 <= l < 8 → servable k vs c → servable k vs (tweak l b f d c).
Proof. intros Hl [H1 H2 H3 H4 H5 H6 Hr H8]. split; try done. eapply ram_soft; [apply tweak_soft|done]. Qed.

Lemma take k vs v c : servable (S k) vs c → v ∈ vs → v ≠ 0 →
  ∃ c1, Exception v 0 c = (Ret tt, c1) ∧ servable k vs c1 ∧ handler_entered (good := good) (cell := cell) v c c1.
Proof.
  intros [H1 H2 H3 H4 H5 H6 [Hr Hs] H8] Hv Hv0. destruct (H8 v Hv Hv0) as (Hv1 & Hv2 & Hv3 & Hw).
  assert (ssp c mod 2 = 0) as He by (destruct Hr as (He & _); Z.to_euclidean_division_equations; lia).
  assert (two_stacks v c = false) as Htwo by (unfold two_stacks; by rewrite H6).
  assert (can_take (win := win) (good := good) v c) as Hct.
  { split; try done; [unfold return_pc; by rewrite (proj2 (Z.eqb_neq v 3) Hv3)| |by left].
    split; [|done]. eapply span_sub; [exact Hr|lia..|]. by apply sub_even. }
  rewrite <-(fixed_prepared c H5) in Hct.
  destruct (exception_return_core v 0 c Hct) as (c1 & E & He1 & Hf & _ & _). rewrite (fixed_prepared c H5) in *.
  exists c1. split; [done|]. split; [|done]. destruct (Hf Htwo) as [Hsp _].
  assert (8 <= fsize (exc_frame v 0 c) <= 12 ∧ fsize (exc_frame v 0 c) mod 2 = 0) as [Hfs Hfe].
  { unfold exc_frame, format_rest. rewrite fsize_app. destruct (_ =? 2); cbn; (split; [lia|done]). }
  destruct (he_super _ _ _ He1) as [S1 S2]. destruct (he_trace _ _ _ He1) as (_ & _ & Hm1).
  destruct (he_flags _ _ _ He1) as [_ Hi1]. destruct (he_other _ _ _ He1) as (Hb1 & _ & Hf1).
  assert (ssp c1 = ssp c - fsize (exc_frame v 0 c)) as Essp by (unfold ssp at 1; unfold s_flag; by rewrite S1).
  split; [apply (he_good _ _ _ He1)|by unfold s_flag; rewrite S1|by rewrite Hi1| |by rewrite Hf1|done| |].
  - rewrite (he_pc _ _ _ He1). apply (load_bytes 4). intros x. apply ram_byte.
  - rewrite Essp. split; [|lia]. eapply span_sub; [exact Hr|lia..|]. repeat apply sub_even; [done..|].
    Z.to_euclidean_division_equations. lia.
  - intros u Hu Hu0. rewrite Hb1. by apply H8.
Qed.

(** ** One request *)

(** The request is taken: pending, acknowledged and above the mask. *)
Definition taken c (q : request) : bool :=
  pending c q && negb (q.(rq_vector) =? 0) && (c.(intmask) <? q.(rq_level)).

(** [c'] is [c] after the request [q] was looked at. *)
Record served (k : nat) (vs : list Z) (q : request) c c' : Prop := {
  sv_servable : servable k vs c';
  sv_vbr : c'.(vbr) = c.(vbr);
  sv_mask : c'.(intmask) = if taken c q then q.(rq_level) else c.(intmask);
  sv_pc : c'.(pc) = if taken c q then load 4 (cell c'.(mach)) (c.(vbr) +u 4 * q.(rq_vector)) else c.(pc);
  sv_idle : taken c q = false → soft c.(mach) c'.(mach);
  sv_left : pending c' q = true → q.(rq_level) <= c'.(intmask);
  sv_flags i : i ≠ q.(rq_bit) → 5 <= i → Z.testbit (spc c') i = Z.testbit (spc c) i;
}.

Lemma pending_tst c q m : 0 <= q.(rq_bit) → m = 2 ^ q.(rq_bit) → tst (spc c) m = pending c q.
Proof. intros Hb ->. by apply tst_pow. Qed.

Lemma cleared_bit x j i : 0 <= i → 0 <= j → Z.testbit (Z.ldiff x (2 ^ j)) i = Z.testbit x i && negb (i =? j).
Proof. intros Hi Hj. rewrite Z.ldiff_spec, Z.pow2_bits_eqb by lia. by rewrite Z.eqb_sym. Qed.

(** Bits 3 and 4, of tracing. *)
Lemma trace_bits x i : 5 <= i → Z.testbit (Z.ldiff x 0x18) i = Z.testbit x i.
Proof. intros Hi. rewrite Z.ldiff_spec, (range_bits 0x18 5) by lia. apply andb_true_r. Qed.
Lemma stop_bit x i : 5 <= i → Z.testbit (Z.ldiff x 1) i = Z.testbit x i.
Proof. intros Hi. rewrite Z.ldiff_spec, (range_bits 1 1) by lia. apply andb_true_r. Qed.

Lemma idle_served k vs q c b f d : taken c q = false → servable k vs c →
  (∀ i, i ≠ q.(rq_bit) → 5 <= i → Z.testbit f i = Z.testbit (spc c) i) →
  (Z.testbit f q.(rq_bit) = true → q.(rq_level) <= c.(intmask)) →
  served k vs q c (tweak c.(intmask) b f d c).
Proof.
  intros Ht Hs Hf Hl. split; try rewrite Ht; try done. apply servable_tweak; [apply (sb_mask _ _ _ Hs)|done].
Qed.

Lemma taken_served k vs q c d0 f0 c1 b f d : taken c q = true → 0 <= q.(rq_level) < 8 → servable k vs c1 →
  handler_entered (good := good) (cell := cell) q.(rq_vector) (w_mach (set_dev d0 (set_spcflags f0 c.(mach))) c) c1 →
  (∀ i, i ≠ q.(rq_bit) → Z.testbit f0 i = Z.testbit (spc c) i) →
  (∀ i, i ≠ q.(rq_bit) → 5 <= i → Z.testbit f i = Z.testbit (spc c1) i) →
  served k vs q c (tweak q.(rq_level) b f d c1).
Proof.
  intros Ht Hl Hs He Hf0 Hf. destruct (he_other _ _ _ He) as (Hb & _ & _). split; try rewrite Ht; try done.
  - by apply servable_tweak.
  - cbn [pc tweak w_mach w_stopped w_intmask]. rewrite (he_pc _ _ _ He). apply load_ext. intros x _.
    symmetry. apply ram_soft_cell, tweak_soft.
  - intros i Hi H5. etransitivity; [by apply Hf|]. rewrite (he_spc _ _ _ He), trace_bits by done. by apply Hf0.
Qed.

(** The flags after a request was taken. *)
Lemma stop_cleared (rs : bool) x j i : 0 <= j → i ≠ j → 5 <= i →
  Z.testbit (if rs then Z.ldiff (Z.ldiff x (2 ^ j)) 1 else Z.ldiff x (2 ^ j)) i = Z.testbit x i.
Proof.
  intros Hj Hi H5. assert (Z.testbit (Z.ldiff x (2 ^ j)) i = Z.testbit x i) as E.
  { rewrite cleared_bit, (proj2 (Z.eqb_neq i j) Hi) by lia. apply andb_true_r. }
  destruct rs; [|done]. by rewrite stop_bit.
Qed.

Lemma serve_level_ok k vs q flag rs c : servable (S k) vs c → q.(rq_vector) ∈ vs → 5 <= q.(rq_bit) → flag = 2 ^ q.(rq_bit) →
  0 <= q.(rq_level) < 8 → q.(rq_vector) = q.(rq_level) + 24 →
  ∃ c', serve_level flag q.(rq_level) rs c = (Ret tt, c') ∧ served k vs q c c' ∧ c'.(mach).(dev) = c.(mach).(dev).
Proof.
  intros Hs Hv Hb Hf Hl Hvec. unfold serve_level. erewrite xbind_ret by reflexivity. erewrite xbind_ret by reflexivity.
  rewrite (pending_tst c q flag) by (done || lia). unfold id.
  assert (taken c q = pending c q && (c.(intmask) <? q.(rq_level))) as Et.
  { unfold taken. rewrite (proj2 (Z.eqb_neq (rq_vector q) 0)) by lia. by rewrite andb_true_r. }
  destruct (pending c q && _) eqn:E; cbn [xwhen].
  - destruct (take k vs q.(rq_vector) c Hs Hv) as (c1 & E1 & S1 & He); [lia|].
    exists (tweak q.(rq_level) false (if rs then Z.ldiff (Z.ldiff (spc c1) flag) 1 else Z.ldiff (spc c1) flag) c1.(mach).(dev) c1).
    split; [|split; [|destruct (he_other _ _ _ He) as (_ & Ed & _); exact Ed]].
    + unfold Interrupt. rewrite in_range_true by done. rewrite <-Hvec.
      erewrite xbind_ret by (erewrite xbind_ret by exact E1; reflexivity). destruct rs; reflexivity.
    + apply (taken_served k vs q c c.(mach).(dev) (spc c) c1); [done..| |done|].
      * by replace (w_mach (set_dev (dev (mach c)) (set_spcflags (spc c) (mach c))) c) with c by (by destruct c as [[]]).
      * intros i Hi H5. rewrite Hf. apply stop_cleared; lia.
  - eexists. split; [reflexivity|]. split; [|done].
    replace c with (tweak c.(intmask) c.(stopped) (spc c) c.(mach).(dev) c) at 2 by (by destruct c as [[]]).
    apply idle_served; [done|eapply servable_less; [|done]; lia|done|].
    intros Hp. unfold pending in E. rewrite Hp in E. cbn in E. lia.
Qed.

Lemma serve_scc_ok k vs rs c : servable (S k) vs c → vec_scc c.(mach).(dev) ∈ vs → dev_ok c.(mach).(dev) →
  ∃ c', serve_scc SCCdoInterrupt rs c = (Ret tt, c') ∧ served k vs (Request 13 5 (vec_scc c.(mach).(dev))) c c' ∧
    vec_mfp c'.(mach).(dev) = vec_mfp c.(mach).(dev) ∧ dev_ok c'.(mach).(dev).
Proof.
  intros Hs Hv Hd. set (q := Request 13 5 _). unfold serve_scc. erewrite xbind_ret by reflexivity. erewrite xbind_ret by reflexivity.
  rewrite (pending_tst c q) by done. change 5 with q.(rq_level) at 1.
  destruct (pending c q && (c.(intmask) <? q.(rq_level))) eqn:E; cbn [xwhen].
  - destruct (ack_scc c Hd) as (d & f & Ea & Hf & Hd' & Ed). erewrite xbind_ret by exact Ea.
    set (c0 := w_mach (set_dev d (set_spcflags f c.(mach))) c). assert (servable (S k) vs c0) as Hs0.
    { replace c0 with (tweak c.(intmask) c.(stopped) f d c) by (unfold c0; by destruct c as [[]]).
      apply servable_tweak; [apply (sb_mask _ _ _ Hs)|done]. }
    change (vec_scc (dev (mach c))) with q.(rq_vector) in Hv |- *.
    destruct (Z.eqb_spec q.(rq_vector) 0) as [E0|E0]; cbn [negb].
    + exists (tweak c.(intmask) c.(stopped) (Z.ldiff f (2 ^ 13)) d c). split; [by destruct c as [[]]|].
      assert (taken c q = false) as Et by (unfold taken; rewrite E0; by rewrite andb_false_r).
      split; [|done]. apply idle_served; [done|eapply servable_less; [|done]; lia| |].
      * intros i Hi H5. cbn in Hi. rewrite cleared_bit, (proj2 (Z.eqb_neq i 13) Hi), andb_true_r by lia. by apply Hf.
      * cbn [rq_bit q]. by rewrite cleared_bit, andb_false_r by lia.
    + destruct (take k vs q.(rq_vector) c0 Hs0 Hv E0) as (c1 & E1 & S1 & He).
      exists (tweak 5 false (if rs then Z.ldiff (Z.ldiff (spc c1) (2 ^ 13)) 1 else Z.ldiff (spc c1) (2 ^ 13)) c1.(mach).(dev) c1).
      assert (taken c q = true) as Et.
      { unfold taken. rewrite (proj2 (Z.eqb_neq _ 0) E0), andb_true_r. done. }
      split; [|split].
      * unfold SCCInterrupt. erewrite xbind_ret by (erewrite xbind_ret by exact E1; reflexivity). destruct rs; reflexivity.
      * apply (taken_served k vs q c d f c1); [done|by cbn|done..|].
        intros i Hi H5. cbn in Hi. apply stop_cleared; lia.
      * cbn. destruct (he_other _ _ _ He) as (_ & -> & _). by split.
  - exists c. split; [reflexivity|]. split; [|done].
    replace c with (tweak c.(intmask) c.(stopped) (spc c) c.(mach).(dev) c) at 2 by (by destruct c as [[]]).
    apply idle_served; [|eapply servable_less; [|done]; lia|done|].
    + unfold taken. destruct (pending c q); [|done]. cbn in E. cbn. by rewrite E, andb_false_r.
    + intros Hp. unfold pending in E. rewrite Hp in E. cbn in *. lia.
Qed.

Lemma serve_mfp_ok k vs rs c : servable (S k) vs c → vec_mfp c.(mach).(dev) ∈ vs → dev_ok c.(mach).(dev) →
  ∃ c', serve_mfp MFPdoInterrupt rs c = (Ret tt, c') ∧ served k vs (Request 9 6 (vec_mfp c.(mach).(dev))) c c' ∧
    dev_end c'.(mach).(dev).
Proof.
  intros Hs Hv Hd. set (q := Request 9 6 _). unfold serve_mfp. erewrite xbind_ret by reflexivity. erewrite xbind_ret by reflexivity.
  rewrite (pending_tst c q) by done. change 6 with q.(rq_level) at 1.
  destruct (pending c q && (c.(intmask) <? q.(rq_level))) eqn:E; cbn [xwhen].
  - destruct (ack_mfp c Hd) as (d & f & Ea & Hf & Hend). erewrite xbind_ret by exact Ea.
    set (c0 := w_mach (set_dev d (set_spcflags f c.(mach))) c). assert (servable (S k) vs c0) as Hs0.
    { replace c0 with (tweak c.(intmask) c.(stopped) f d c) by (unfold c0; by destruct c as [[]]).
      apply servable_tweak; [apply (sb_mask _ _ _ Hs)|done]. }
    change (vec_mfp (dev (mach c))) with q.(rq_vector) in Hv |- *.
    destruct (Z.eqb_spec q.(rq_vector) 0) as [E0|E0]; cbn [negb].
    + exists (tweak c.(intmask) c.(stopped) (Z.ldiff f (2 ^ 9)) d c). split; [by destruct c as [[]]|]. split; [|done].
      apply idle_served; [unfold taken; rewrite E0; by rewrite andb_false_r|eapply servable_less; [|done]; lia| |].
      * intros i Hi H5. cbn in Hi. rewrite cleared_bit, (proj2 (Z.eqb_neq i 9) Hi), andb_true_r by lia. by apply Hf.
      * cbn [rq_bit q]. by rewrite cleared_bit, andb_false_r by lia.
    + destruct (take k vs q.(rq_vector) c0 Hs0 Hv E0) as (c1 & E1 & S1 & He).
      exists (tweak 6 false (if rs then Z.ldiff (spc c1) 1 else spc c1) c1.(mach).(dev) c1). split; [|split].
      * unfold MFPInterrupt. erewrite xbind_ret by (erewrite xbind_ret by exact E1; reflexivity).
        destruct rs; [reflexivity|]. destruct c1 as [[]]. reflexivity.
      * apply (taken_served k vs q c d f c1); [|by cbn|done..|].
        { unfold taken. rewrite (proj2 (Z.eqb_neq _ 0) E0), andb_true_r. done. }
        intros i Hi H5. destruct rs; [by apply stop_bit|done].
      * cbn. by destruct (he_other _ _ _ He) as (_ & -> & _).
  - exists c. split; [reflexivity|]. split; [|by eapply ack_end].
    replace c with (tweak c.(intmask) c.(stopped) (spc c) c.(mach).(dev) c) at 2 by (by destruct c as [[]]).
    apply idle_served; [|eapply servable_less; [|done]; lia|done|].
    + unfold taken. destruct (pending c q); [|done]. cbn in E. cbn. by rewrite E, andb_false_r.
    + intros Hp. unfold pending in E. rewrite Hp in E. cbn in *. lia.
Qed.

(** ** All of them *)

Definition at_vector (q : request) c c' : Prop :=
  taken c q = true ∧ c'.(intmask) = q.(rq_level) ∧ c'.(pc) = load 4 (cell c'.(mach)) (c.(vbr) +u 4 * q.(rq_vector)).

(** After the requests [seen], with [todo] left. *)
Record progress (k : nat) (vs : list Z) (seen todo : list request) c c' : Prop := {
  pg_servable : servable k vs c';
  pg_vbr : c'.(vbr) = c.(vbr);
  pg_up : c.(intmask) <= c'.(intmask);
  pg_seen q : q ∈ seen → pending c q = true → q.(rq_vector) ≠ 0 → q.(rq_level) <= c'.(intmask);
  pg_left q : q ∈ seen → pending c' q = true → q.(rq_level) <= c'.(intmask);
  pg_todo q : q ∈ todo → pending c' q = pending c q;
  pg_best : c'.(intmask) = c.(intmask) ∧ c'.(pc) = c.(pc) ∨ ∃ q, q ∈ seen ∧ at_vector q c c';
}.

Lemma progress_start k vs todo c : servable k vs c → progress k vs [] todo c c.
Proof. intros H. split; try done; [by intros q ?%elem_of_nil..|by left]. Qed.

Lemma progress_step k vs seen q todo c c1 c2 : progress (S k) vs seen (q :: todo) c c1 → served k vs q c1 c2 →
  (∀ p, p ∈ seen ++ todo → p.(rq_bit) ≠ q.(rq_bit) ∧ 5 <= p.(rq_bit)) →
  progress k vs (seen ++ [q]) todo c c2.
Proof.
  intros [P1 P2 P3 P4 P5 P6 P7] [S1 S2 S3 S4 S5 S6 S7] Hb.
  assert (pending c1 q = pending c q) as Hp by (apply P6; by left).
  assert (c1.(intmask) <= c2.(intmask)) as Hup.
  { rewrite S3. destruct (taken c1 q) eqn:E; [|lia]. unfold taken in E. lia. }
  assert (∀ p, p ∈ seen ++ todo → pending c2 p = pending c1 p) as Hsame.
  { intros p Hp'. destruct (Hb p Hp'). by apply S7. }
  split; [done|congruence|lia| | | |].
  - intros p [Hp'|Hp']%elem_of_app Hpe Hv; [specialize (P4 p Hp' Hpe Hv); lia|].
    apply list_elem_of_singleton in Hp' as ->. rewrite S3. unfold taken. rewrite Hp, Hpe, (proj2 (Z.eqb_neq _ 0) Hv). cbn [andb negb].
    destruct (Z.ltb_spec (intmask c1) (rq_level q)); lia.
  - intros p [Hp'|Hp']%elem_of_app Hpe; [|apply list_elem_of_singleton in Hp' as ->; by apply S6].
    rewrite Hsame in Hpe by (apply elem_of_app; by left). specialize (P5 p Hp' Hpe). lia.
  - intros p Hp'. rewrite Hsame by (apply elem_of_app; by right). apply P6. by right.
  - destruct (taken c1 q) eqn:E.
    + right. exists q. split; [apply elem_of_app; right; by apply list_elem_of_singleton|]. unfold at_vector. rewrite S3, S4, P2.
      split; [|done]. unfold taken in *. rewrite Hp in E. rewrite !andb_true_iff in *. destruct E as [? ?]. split; [done|lia].
    + rewrite S3, S4. destruct P7 as [?|(p & Hp' & Ht & Hm & Hpc)]; [by left|]. right. exists p.
      split; [apply elem_of_app; by left|]. split; [done|]. rewrite S3, S4. split; [done|]. rewrite Hpc. apply load_ext.
      intros x _. symmetry. by apply ram_soft_cell, S5.
Qed.

Lemma no_flags c : tst (spc c) 0x3b00 = false → ∀ d q, q ∈ requests d → pending c q = false.
Proof.
  intros H d q Hq. assert (∀ i, Z.testbit 0x3b00 i = true → Z.testbit (spc c) i = false) as Hi.
  { intros i Hi. unfold tst in H. apply negb_false_iff, Z.eqb_eq in H.
    pose proof (Z.land_spec (spc c) 0x3b00 i) as Hl. rewrite H, Z.bits_0, Hi, andb_true_r in Hl. done. }
  unfold requests in Hq. rewrite !elem_of_cons, elem_of_nil in Hq.
  unfold pending. by destruct Hq as [->|[->|[->|[->|[->|[]]]]]]; apply Hi.
Qed.

Ltac apart :=
  let p := fresh "p" in let Hp := fresh "Hp" in
  intros p Hp; cbn [app] in Hp; repeat (apply elem_of_cons in Hp as [->|Hp]; [cbn; lia|]); by apply elem_of_nil in Hp.

(** All requests are looked at, in the order of the list. *)
Lemma serve_all rs c : servable 5 (rq_vector <$> requests c.(mach).(dev)) c → dev_ok c.(mach).(dev) →
  ∃ c', SERVE_VBL_MFP SCCdoInterrupt MFPdoInterrupt rs c = (Ret tt, c') ∧ dev_end c'.(mach).(dev) ∧
    (progress 0 (rq_vector <$> requests c.(mach).(dev)) (requests c.(mach).(dev)) [] c c' ∨
     c' = c ∧ ∀ q, q ∈ requests c.(mach).(dev) → pending c q = false).
Proof.
  intros Hs Hdev. set (d := dev (mach c)) in *. set (vs := rq_vector <$> requests d) in *. unfold SERVE_VBL_MFP. erewrite xbind_ret by reflexivity.
  change (tst (spc c) _) with (tst (spc c) 0x3b00). destruct (tst (spc c) 0x3b00) eqn:Eany; cbn [xwhen].
  2: { exists c. split_and!; [done|by eapply ack_end|]. right. split; [done|]. apply (no_flags c Eany d). }
  pose proof (progress_start 5 vs (requests d) c Hs) as P0.
  destruct (serve_level_ok 4 vs (Request 11 3 27) 0x800 rs c) as (c1 & E1 & S1 & D1); [done|by left|done..|].
  apply (progress_step _ _ _ _ _ _ _ _ P0) in S1 as P1; [|apart].
  destruct (serve_level_ok 3 vs (Request 8 4 28) 0x100 rs c1) as (c2 & E2 & S2 & D2); [apply P1|by right; left|done..|].
  apply (progress_step _ _ _ _ _ _ _ _ P1) in S2 as P2; [|apart].
  destruct (serve_level_ok 2 vs (Request 12 5 29) 0x1000 rs c2) as (c3 & E3 & S3 & D3); [apply P2|by do 2 right; left|done..|].
  apply (progress_step _ _ _ _ _ _ _ _ P2) in S3 as P3; [|apart].
  assert (c3.(mach).(dev) = d) as Dd by (by rewrite D3, D2, D1).
  destruct (serve_scc_ok 1 vs rs c3) as (c4 & E4 & S4 & D4 & D5); [apply P3|rewrite Dd; by do 3 right; left|by rewrite Dd|]. rewrite Dd in S4, D4.
  apply (progress_step _ _ _ _ _ _ _ _ P3) in S4 as P4; [|apart].
  destruct (serve_mfp_ok 0 vs rs c4) as (c5 & E5 & S5 & D6); [apply P4|rewrite D4; by do 4 right; left|done|]. rewrite D4 in S5.
  apply (progress_step _ _ _ _ _ _ _ _ P4) in S5 as P5; [|apart].
  exists c5. split; [|split; [done|by left]].
  erewrite xbind_ret by exact E1. erewrite xbind_ret by exact E2. erewrite xbind_ret by exact E3.
  erewrite xbind_ret by exact E4. exact E5.
Qed.

(** C3: Between two instructions the processor serves the pending interrupt requests: afterwards the mask is at least the level of every
    request that was pending and acknowledged, no request that is still pending is above the mask, and either mask and program counter are unchanged
    or the processor is at the handler of one of the requests above the old mask, with the mask raised to its
    level.  Assumed ([servable]): the processor is not in master mode, no register fixup is pending, the supervisor stack has room for five frames in RAM, and the
    vectors of the requests are below 256, none of them 2 or 3, and readable; the chips acknowledge as the interface [Acks] says. *)
Theorem interrupts_served rs c : servable 5 (rq_vector <$> requests c.(mach).(dev)) c → dev_ok c.(mach).(dev) →
  ∃ c', SERVE_VBL_MFP SCCdoInterrupt MFPdoInterrupt rs c = (Ret tt, c') ∧
    (∀ q, q ∈ requests c.(mach).(dev) → pending c q = true → q.(rq_vector) ≠ 0 → q.(rq_level) <= c'.(intmask)) ∧
    (∀ q, q ∈ requests c.(mach).(dev) → pending c' q = true → q.(rq_level) <= c'.(intmask)) ∧
    (c'.(intmask) = c.(intmask) ∧ c'.(pc) = c.(pc) ∨ ∃ q, q ∈ requests c.(mach).(dev) ∧ at_vector q c c').
Proof.
  intros Hs Hdev. destruct (serve_all rs c Hs Hdev) as (c' & E & _ & [[_ _ _ Q1 Q2 _ Q3]|[-> Hn]]); [by exists c'|].
  exists c. split_and!; [done|..|by left]; intros q Hq Hp; by rewrite Hn in Hp.
Qed.
End Irq.
