(* ===== verification/M68kRegs.v ===== *)
(** * M68kRegs: control registers, host calls, and the end of the emulation

    [movec_roundtrip]: MOVEC reads back what it wrote, as far as the register has the bits;
    [host_call_transparent]: [save_regs] and [restore_regs] around a call of the host;
    [double_bus_error_stops]: a fault while a bus error is stacked ends [m68k_execute]. *)

From S2P Require Import Prelude Throws Machine Mmu M68k M68kStack M68kFrame M68kExc.
From stdpp Require Import base gmap list numbers.
Open Scope Z_scope.
Open Scope c_scope.
Open Scope x_scope.

Section Regs.
Context {cfg : Config} {D : Type} {hwd : Hardware D} (rts68000 : X (m68k D) unit).
Implicit Types (c : m68k D).

(** ** MOVEC *)

(** The bits a control register has; [None]: there is no such register. *)
Definition control_mask (regno : Z) : option Z :=
  match regno with
  | 0 | 1 => Some 7
  | 2 => Some 0x80008000
  | 3 => Some 0xc000
  | 4 | 5 | 6 | 7 => Some 0xffffe364
  | 0x800 | 0x801 | 0x803 | 0x804 | 0x805 => Some 0xffffffff
  | 0x802 => Some 0xfc
  | 0x806 | 0x807 => Some 0xfffffe00
  | _ => None
  end.

Lemma land_pow2 x k : 0 <= k → x .& 2 ^ k = if Z.testbit x k then 2 ^ k else 0.
Proof.
  intros Hk. apply Z.bits_inj'. intros i Hi. rewrite Z.land_spec, Z.pow2_bits_eqb by lia.
  destruct (Z.testbit x k) eqn:E; rewrite ?Z.pow2_bits_eqb, ?Z.bits_0 by lia;
    destruct (Z.eqb_spec k i) as [<-|]; rewrite ?E; by rewrite ?andb_false_r.
Qed.

Lemma whole_word v : 0 <= v < 2 ^ 32 → v .& 0xffffffff = v.
Proof. intros. change 0xffffffff with (Z.ones 32). rewrite Z.land_ones by lia. by apply Z.mod_small. Qed.

Lemma mmu_set_tc_value v (s : machine D) : ∃ s', mmu_set_tc v s = (Ret tt, s') ∧ s'.(regs).(mmu_tc) = v.
Proof.
  unfold mmu_set_tc. erewrite xbind_ret by reflexivity. destruct (Z.eqb_spec (mmu_tc (regs s)) v); [by exists s|].
  eexists. split; reflexivity.
Qed.

(** C26: For every control register of the processor, MOVEC stores the bits the register has and
    reads them back; the stack pointers keep their value also when they are the active A7. *)
Theorem movec_roundtrip regno v m c : control_mask regno = Some m → 0 <= v < 2 ^ 32 →
  ∃ c', m68k_move2c rts68000 regno v c = (Ret true, c') ∧ m68k_movec2 rts68000 regno c' = (Ret (Some (v .& m)), c').
Proof.
  intros Hm Hv. unfold control_mask in Hm.
  assert (regno = 3 ∨ regno ≠ 3) as [->|H3] by lia.
  { injection Hm as <-. destruct (mmu_set_tc_value (v .& 0xc000) c.(mach)) as (s' & E & Et).
    exists (w_mach s' c). unfold m68k_move2c, m68k_movec2. erewrite xbind_ret by (unfold on_mach, xzoom; rewrite E; reflexivity).
    split; [done|]. erewrite xbind_ret by reflexivity. cbn [movec_value mach w_mach]. by rewrite Et. }
  repeat case_match; simplify_eq; rewrite ?whole_word by done;
    (eexists; split; [reflexivity|]); try reflexivity; unfold m68k_movec2; erewrite xbind_ret by reflexivity; cbn;
    destruct (mflag c) eqn:Em; cbn; rewrite ?Em; reflexivity.
Qed.

(** ** Calls of the host *)

Lemma save_regs_value c :
  ∃ r, save_regs c = (Ret r, w_sr (sr_word c) c) ∧ r.(r_d) = c.(dregs) ∧ r.(r_sr) = sr_word c ∧
    (∀ n, r.(r_a) n = areg n c) ∧
    (0 <= c.(intmask) < 8 → (r.(r_usp), r.(r_isp), r.(r_msp)) = banks c).
Proof.
  unfold save_regs. erewrite xbind_ret by reflexivity. change (u16 (sr_value c)) with (sr_word c).
  assert (0 <= c.(intmask) < 8 → ∀ k m, 0 <= k → m = 2 ^ k → (sr_word c .& m =? 0) = negb (sr_flag c k)) as Hb.
  { intros Hm k m Hk Hkm. pose proof (tst_pow (sr_word c) m k Hk Hkm) as H. unfold tst in H. rewrite sr_word_bits in H by done.
    rewrite <-H. by rewrite negb_involutive. }
  revert Hb. generalize (sr_word c). intros v Hb. eexists. split; [reflexivity|]. split_and!; try done. intros Hm.
  cbn [r_usp r_isp r_msp sr w_sr usp isp msp]. rewrite (Hb Hm 13), (Hb Hm 12) by done. cbn [sr_flag]. unfold banks.
  by destruct (s_flag c), (mflag c).
Qed.

(** Loading the address registers. *)
Definition load_aregs (f : Z → Z) c : m68k D := foldr (λ n, w_areg n (f n)) c (seqZ 0 8).

Lemma load_aregs_value f c n : 0 <= n < 8 → areg n (load_aregs f c) = f n.
Proof.
  intros Hn. unfold load_aregs. change (seqZ 0 8) with [0; 1; 2; 3; 4; 5; 6; 7]. unfold areg. cbn -[Z.eqb].
  assert (n = 0 ∨ n = 1 ∨ n = 2 ∨ n = 3 ∨ n = 4 ∨ n = 5 ∨ n = 6 ∨ n = 7) as H by lia.
  by destruct H as [->|[->|[->|[->|[->|[->|[->| ->]]]]]]].
Qed.

Lemma load_aregs_other f c : ∃ g, load_aregs f c = w_regs (set_aregs g) c.
Proof. unfold load_aregs. change (seqZ 0 8) with [0; 1; 2; 3; 4; 5; 6; 7]. eexists. reflexivity. Qed.

(** Loading the status register without a change of mode. *)
Lemma sr_loaded_same_mode v c : sr_bit v 13 = s_flag c → sr_bit v 12 = c.(mflag) →
  (∀ n, areg n (sr_loaded v c) = areg n c) ∧ (sr_loaded v c).(dregs) = c.(dregs) ∧ (sr_loaded v c).(pc) = c.(pc) ∧
  (sr_loaded v c).(mach).(mem) = c.(mach).(mem) ∧ (sr_loaded v c).(mach).(dev) = c.(mach).(dev).
Proof.
  unfold sr_loaded, swap_stacks, areg, s_flag. destruct c as [[[]]]. cbn -[sr_bit]. intros -> ->.
  destruct sr_s, mflag; cbn -[sr_bit]; by split_and!.
Qed.

Lemma restore_regs_value r c : r.(r_sr) = sr_word c → 0 <= c.(intmask) < 8 → ∀ c1, s_flag c1 = s_flag c → c1.(mflag) = c.(mflag) →
  (∀ n, r.(r_a) n = areg n c) → (r.(r_usp), r.(r_isp), r.(r_msp)) = banks c →
  ∃ c', restore_regs r c1 = (Ret tt, c') ∧ c'.(dregs) = r.(r_d) ∧ (∀ n, 0 <= n < 8 → areg n c' = areg n c) ∧
    sr_value c' = sr_value c ∧ banks c' = banks c ∧ c'.(pc) = c1.(pc) ∧
    c'.(mach).(mem) = c1.(mach).(mem) ∧ c'.(mach).(dev) = c1.(mach).(dev).
Proof.
  intros Hr Hi c1 Hs Hm Ha Hb. unfold restore_regs. do 3 erewrite xbind_ret by reflexivity.
  match goal with |- context [w_isp _ ?x] => change x with (w_usp (r_usp r) (w_msp (r_msp r) (load_aregs (r_a r) (w_dregs (r_d r) c1)))) end.
  pose proof (load_aregs_value r.(r_a) (w_dregs r.(r_d) c1)) as Hl.
  destruct (load_aregs_other r.(r_a) (w_dregs r.(r_d) c1)) as [g Eg]. rewrite Eg in *. clear Eg.
  set (c2 := w_isp _ _). rewrite MakeFromSR_loaded. eexists. split; [reflexivity|].
  rewrite Hr. pose proof (sr_word_bits c) as Hbits.
  destruct (sr_loaded_same_mode (sr_word c) c2) as (E1 & E2 & E3 & E4 & E5).
  { rewrite sr_bit_testbit, Hbits by done. symmetry. exact Hs. }
  { rewrite sr_bit_testbit, Hbits by done. symmetry. exact Hm. }
  split_and!.
  - by rewrite E2.
  - intros n Hn. rewrite E1. change (areg n c2) with (areg n (w_regs (set_aregs g) (w_dregs (r_d r) c1))). by rewrite Hl, Ha.
  - by apply sr_restored.
  - rewrite sr_loaded_banks. specialize (Hl 7 ltac:(lia)). rewrite Ha in Hl. unfold banks in *.
    change (areg 7 c2) with (areg 7 (w_regs (set_aregs g) (w_dregs (r_d r) c1))). rewrite Hl.
    change (s_flag c2) with (s_flag c1). change (mflag c2) with (mflag c1). rewrite Hs, Hm.
    apply pair_equal_spec in Hb as [Hb B3]. apply pair_equal_spec in Hb as [B1 B2].
    change (usp c2) with (r_usp r). change (isp c2) with (r_isp r). change (msp c2) with (r_msp r).
    rewrite B1, B2, B3. by destruct (s_flag c), (mflag c).
  - by rewrite E3.
  - by rewrite E4.
  - by rewrite E5.
Qed.

(** A native feature is called with the address of its arguments and the mode of the program, and it
    changes D0 only: the other registers, the status register and the stack pointers are those of before
    the call, memory and devices what the host made of them. *)
Theorem host_call_transparent nf_call c c1 v : 0 <= c.(intmask) < 8 →
  nf_call (areg 7 c +u 4) (s_flag c) (w_sr (sr_word c) c) = (Ret v, c1) → s_flag c1 = s_flag c → c1.(mflag) = c.(mflag) →
  ∃ c', m68k_natfeat_call nf_call c = (Ret tt, c') ∧
    (∀ n, c'.(dregs) n = if n =? 0 then v else c.(dregs) n) ∧ (∀ n, 0 <= n < 8 → areg n c' = areg n c) ∧
    sr_value c' = sr_value c ∧ banks c' = banks c ∧ c'.(pc) = c1.(pc) ∧
    c'.(mach).(mem) = c1.(mach).(mem) ∧ c'.(mach).(dev) = c1.(mach).(dev).
Proof.
  intros Hi Hn Hs Hm. destruct (save_regs_value c) as (r & E & Ed & Er & Ea & Eb). specialize (Eb Hi).
  unfold m68k_natfeat_call. erewrite xbind_ret by exact E. rewrite Ea, Er.
  assert ((sr_word c .& 0x2000 =? 0x2000) = s_flag c) as ->.
  { change (s_flag c) with (sr_flag c 13). rewrite <-(sr_word_bits c 13), <-(tst_pow _ 0x2000) by done. unfold tst.
    rewrite (land_pow2 _ 13) by lia. by destruct (Z.testbit (sr_word c) 13). }
  erewrite xbind_ret by exact Hn.
  destruct (restore_regs_value (with_d0 v r) c Er Hi c1 Hs Hm Ea Eb) as (c' & E' & F1 & F2).
  exists c'. split; [done|]. split; [|done]. intros n. rewrite F1. cbn. by rewrite Ed.
Qed.
End Regs.

(** ** Double bus errors *)

Section Quit.
Context {cfg : Config} {D : Type} {hwd : Hardware D}.
Context (SCCdoInterrupt MFPdoInterrupt : X (m68k D) Z) (invoke200HzInterrupt : X (m68k D) unit).
Context (cpufunctbl : Z → X (m68k D) unit) (cpu_check_ticks fpu_reset : X (m68k D) unit).
Implicit Types (c : m68k D).
Abbreviation execute := (m68k_execute SCCdoInterrupt MFPdoInterrupt invoke200HzInterrupt cpufunctbl cpu_check_ticks).
Abbreviation turn := (execute_one SCCdoInterrupt MFPdoInterrupt invoke200HzInterrupt cpufunctbl cpu_check_ticks).

Lemma double_bus_error oldpc c n c' : bus_error_frame (prepared (fixed c)) = (Throw n, c') →
  ∃ c4, Exception 2 oldpc c = (Ret tt, c4) ∧ c4.(quit_program) = 1 ∧ tst (spc c4) 0x04 = true ∧ c4.(mach).(mem) = c'.(mach).(mem).
Proof.
  intros E. rewrite Exception_prepared. unfold exception_body. erewrite xbind_ret by reflexivity. erewrite xbind_ret by reflexivity.
  cbn [Z.eqb Pos.eqb]. erewrite xbind_ret; [|erewrite try_catch_throw by (by erewrite xbind_throw by exact E); reflexivity].
  eexists. split; [reflexivity|]. split; [done|]. split; [|done]. unfold spc. cbn.
  rewrite (tst_pow _ 4 2), Z.lor_spec by done. by rewrite orb_true_r.
Qed.

(** C28: A bus error whose frame cannot be stacked ends the emulation: the fault is caught, no handler is entered,
    and the execution loop returns at its next turn. *)
Theorem double_bus_error_stops sleeps more turns c c0 n c' :
  turn sleeps c = (Throw 2, c0) → bus_error_frame (prepared (fixed c0)) = (Throw n, c') →
  ∃ c4, execute fpu_reset false (sleeps :: more :: turns) c = (Ret tt, c4) ∧ c4.(quit_program) = 1 ∧
    c4.(mach).(mem) = c'.(mach).(mem).
Proof.
  intros E1 E2. destruct (double_bus_error 0 c0 n c' E2) as (c4 & E & Hq & _ & Hm). exists c4. split; [|done].
  cbn [m68k_execute andb xwhen]. erewrite xbind_ret by reflexivity. erewrite xbind_ret by reflexivity.
  erewrite xbind_ret; [|unfold execute_caught; erewrite try_catch_throw by exact E1; by erewrite xbind_ret by exact E].
  erewrite xbind_ret by reflexivity. by rewrite Hq.
Qed.
End Quit.
