(* ===== verification/M68kExample.v ===== *)
(** * M68kExample: a processor with translation switched on

    The machine of [MmuExample], with stacks and vectors in two pages that are mapped apart from each other; the theorems
    about the processor applied to it, and the places where the code differs from the processor
    it emulates, each shown by a run. *)

From S2P Require Import Prelude Throws Machine MachineSpec Mmu MmuWalk MmuSpec MmuAccess MmuTheorems MmuExample.
From S2P Require Import M68k M68kArith M68kStack M68kFrame M68kExc M68kBus M68kIrq M68kRegs.
From stdpp Require Import base gmap list numbers.
Open Scope Z_scope.
Open Scope c_scope.
Open Scope x_scope.

#[local] Opaque ex_tables ex_mem.
Abbreviation T0 := (ex_tables 0) (only parsing).

(** ** The window: pages 5 and 6 *)

Definition ex_win (x : Z) : Prop := 0x5000 <= x < 0x7000.
Definition ex_ph (x : Z) : Z := if x <? 0x6000 then x + 0x1b000 else x + 0x2a000.

Lemma ex_plain x : ex_win x → plain T0 ex_regs true x (ex_ph x).
Proof.
  intros Hx. unfold ex_ph, ex_win in *. destruct (Z.ltb_spec x 0x6000).
  - replace (x + 0x1b000) with (0x20ffe + (x - 0x5ffe)) by lia. apply plain_same_page; [exact T0_page5|unfold word32; lia|].
    unfold page_of. zdiv_lia.
  - replace (x + 0x2a000) with (0x30001 + (x - 0x6001)) by lia. apply plain_same_page; [exact T0_page6|unfold word32; lia|].
    unfold page_of. zdiv_lia.
Qed.

Lemma ex_window : mapped_window (md := true) T0 ex_regs ex_win ex_ph.
Proof.
  split; [exact T0_described|exact ex_plain| |].
  - intros x Hx. apply (tables_check_outside _ _ _ _ T0_check). unfold ex_ph, ex_win in *. case_match; lia.
  - intros x y Hx Hy. unfold ex_ph, ex_win in *. destruct (Z.ltb_spec x 0x6000), (Z.ltb_spec y 0x6000); lia.
Qed.

Abbreviation ex_good := (mmu_good (D := unit) T0 ex_regs).
Abbreviation ex_cell := (mmu_cell (D := unit) ex_ph).
#[export] Instance ex_ram : Ram ex_win ex_good ex_cell.
Proof. exact (mmu_ram T0 ex_regs ex_win ex_ph ex_window). Qed.

(** A processor in user mode ([s = false]) or supervisor mode, on the master stack if [m]. *)
Definition ex_cpu (s m : bool) (a7 : Z) : m68k unit :=
  M68k (set_current_atc s (set_regs (set_sr_s s (set_areg 7 a7 ex_regs)) (ex_machine (ex_mem T0))))
    (λ n, n) 0x1000 0x6010 0x6800 0 false false m false 3 0x1234 0x1230 0x5000 0 0
    (Flags true false true false true) None 0 0 0 0.

Lemma ex_cpu_good s m a7 : ex_good (ex_cpu s m a7).(mach).
Proof.
  split; [|by split]. pose proof (empty_ready T0 (set_sr_s s (set_areg 7 a7 ex_regs)) (ex_cpu s m a7).(mach)) as H.
  apply H; [done|done|exact T0_mem|done|done].
Qed.

Lemma span_check a n : (a mod 2 =? 0) && (0x5000 <=? a) && (a + n <=? 0x7000) = true → span ex_win a n.
Proof. intros H. unfold span, ex_win. split_and!; lia. Qed.

(** ** Exceptions *)

(** An interrupt of level 4 in user mode, with the master bit set: the frames go to both stacks. *)
Lemma ex_take : can_take (win := ex_win) (good := ex_good) 28 (ex_cpu false true 0x1000).
Proof.
  split; [by vm_compute|apply ex_cpu_good|done|by vm_compute|by vm_compute|split; [by apply span_check|by vm_compute]|by apply span_check|].
  right. split; [done|]. split; [by apply span_check|]. split; [by vm_compute|]. by left.
Qed.

(** A handler that does nothing. *)
Lemma handled_refl {cfg : Config} {D : Type} {hwd : Hardware D} {win : Z → Prop} {good : machine D → Prop} {cell} two nr (c c1 : m68k D) :
  handler_entered (good := good) (cell := cell) nr c c1 → handled (win := win) (good := good) (cell := cell) two c1 c1.
Proof. intros H. split; try done; [apply (he_good _ _ _ H)|apply (he_super _ _ _ H)]. Qed.

Lemma exception_return_witness :
  ∃ c1 c3, Exception 28 0 (ex_cpu false true 0x1000) = (Ret tt, c1) ∧ areg 7 c1 = 0x6008 ∧ c1.(msp) = 0x67f8 ∧ ex_rte 2 c1 = (Ret tt, c3) ∧
    c3.(pc) = 0x1234 ∧ banks c3 = (0x1000, 0x6010, 0x6800).
Proof.
  destruct (exception_return (win := ex_win) (good := ex_good) (cell := ex_cell) 28 0 (ex_cpu false true 0x1000) ex_take)
    as (c1 & E & He & _ & Hf & Hr). destruct (Hf eq_refl) as (Hi & Hm & _).
  destruct (Hr 0%nat c1 (handled_refl _ _ _ _ He)) as (c3 & E3 & [R1 R2 R3 _ _ _]).
  exists c1, c3. split; [exact E|]. split; [exact Hi|]. split; [exact Hm|]. split; [exact E3|]. split; [exact R1|exact R3].
Defined.

Lemma ex_fault : can_fault (win := ex_win) (good := ex_good) (ex_cpu false false 0x1000).
Proof.
  split; [apply ex_cpu_good|done|by vm_compute|by vm_compute|split; [by apply span_check|by vm_compute]|by apply span_check|done].
Qed.

(** The frame lies across the two pages. *)
Lemma bus_error_return_witness :
  ∃ c1 c3, Exception 2 0 (ex_cpu false false 0x1000) = (Ret tt, c1) ∧ areg 7 c1 = 0x5fd4 ∧ ex_rte 1 c1 = (Ret tt, c3) ∧
    c3.(pc) = 0x1230 ∧ banks c3 = (0x1000, 0x6010, 0x6800).
Proof.
  destruct (bus_error_return (win := ex_win) (good := ex_good) (cell := ex_cell) 0 (ex_cpu false false 0x1000) ex_fault)
    as (c1 & E & He & Hsp & _ & _ & Hr).
  destruct (Hr 0%nat c1 (handled_refl _ _ _ _ He)) as (c3 & E3 & [R1 R2 R3 _ _ _]).
  exists c1, c3. split; [exact E|]. split; [exact Hsp|]. split; [exact E3|]. split; [exact R1|exact R3].
Defined.

(** ** Interrupts *)

Definition ex_scc : X (m68k unit) Z := xret 0.
Definition ex_mfp : X (m68k unit) Z := xret 0x45.
#[export] Instance ex_acks : Acks (λ _, True) (λ _, True) ex_scc ex_mfp (λ _, 0) (λ _, 0x45).
Proof.
  split; [intros c _..|done]; exists c.(mach).(dev), (spc c); unfold ex_scc, ex_mfp, xret;
    replace (w_mach (set_dev (dev (mach c)) (set_spcflags (spc c) (mach c))) c) with c by (by destruct c as [[]]); done.
Qed.

(** Level 4 (VBL), level 5 and the MFP are pending, and the mask is 3. *)
Definition ex_pending : m68k unit :=
  let c := ex_cpu true false 0x6100 in w_mach (set_spcflags 0x1300 c.(mach)) c.

Lemma ex_servable : servable (win := ex_win) (good := ex_good) 5 [27; 28; 29; 0; 0x45] ex_pending.
Proof.
  split; [|done|by vm_compute|by vm_compute|done|done|split; [by apply span_check|by vm_compute]|].
  - eapply (ram_soft (ex_cpu true false 0x6100).(mach)); [by split|apply ex_cpu_good].
  - intros v Hv Hv0. repeat (apply elem_of_cons in Hv as [->|Hv]; [done || (split_and!; [lia..|by apply span_check])|]).
    by apply elem_of_nil in Hv.
Qed.

Lemma interrupts_served_witness :
  ∃ c', SERVE_VBL_MFP ex_scc ex_mfp false ex_pending = (Ret tt, c') ∧ 6 <= c'.(intmask).
Proof.
  destruct (interrupts_served (win := ex_win) (good := ex_good) (cell := ex_cell) (SCCdoInterrupt := ex_scc) (MFPdoInterrupt := ex_mfp)
    (vec_scc := λ _, 0) (vec_mfp := λ _, 0x45) false ex_pending ex_servable I) as (c' & E & H & _).
  exists c'. split; [exact E|]. apply (H (Request 9 6 0x45)); [by do 4 right; left|by vm_compute|done].
Defined.

(** ** Registers *)

Lemma movec_roundtrip_witness :
  ∃ c', m68k_move2c (xret tt) 0x804 0x6666 (ex_cpu true false 0x6100) = (Ret true, c') ∧ areg 7 c' = 0x6666 ∧
    m68k_movec2 (xret tt) 0x804 c' = (Ret (Some 0x6666), c').
Proof.
  destruct (movec_roundtrip (xret tt) 0x804 0x6666 0xffffffff (ex_cpu true false 0x6100) eq_refl ltac:(lia)) as (c' & E1 & E2).
  exists c'. split; [exact E1|]. split; [|exact E2].
  assert (c' = (m68k_move2c (xret tt) 0x804 0x6666 (ex_cpu true false 0x6100)).2) as -> by (by rewrite E1). reflexivity.
Defined.

Lemma host_call_transparent_witness :
  ∃ c', m68k_natfeat_call (λ _ super, xret (if super then 0x99 else 0)) (ex_cpu true false 0x6100) = (Ret tt, c') ∧
    c'.(dregs) 0 = 0x99 ∧ c'.(dregs) 1 = 1 ∧ areg 7 c' = 0x6100.
Proof.
  destruct (host_call_transparent (λ _ super, xret (if super then 0x99 else 0)) (ex_cpu true false 0x6100)
    (w_sr (sr_word (ex_cpu true false 0x6100)) (ex_cpu true false 0x6100)) 0x99) as (c' & E & Hd & Ha & _);
    [by vm_compute|reflexivity|reflexivity|reflexivity|].
  exists c'. split; [exact E|]. split; [by rewrite Hd|]. split; [by rewrite Hd|]. by rewrite Ha by lia.
Defined.

(** A processor whose program counter and stack are not mapped. *)
Definition ex_lost : m68k unit := w_isp 0x8000000 (ex_cpu false false 0x1000).

Lemma double_bus_error_stops_witness :
  ∃ c4, m68k_execute ex_scc ex_mfp (xret tt) (λ _, xret tt) (xret tt) (xret tt) false [[]; []] ex_lost = (Ret tt, c4) ∧
    c4.(quit_program) = 1.
Proof.
  destruct (double_bus_error_stops ex_scc ex_mfp (xret tt) (λ _, xret tt) (xret tt) (xret tt) [] [] [] ex_lost
    (execute_one ex_scc ex_mfp (xret tt) (λ _, xret tt) (xret tt) [] ex_lost).2 2
    (bus_error_frame (prepared (fixed (execute_one ex_scc ex_mfp (xret tt) (λ _, xret tt) (xret tt) [] ex_lost).2))).2)
    as (c4 & E & Hq & _).
  - rewrite (surjective_pairing (execute_one _ _ _ _ _ _ _)) at 1. f_equal.
  - rewrite (surjective_pairing (bus_error_frame _)) at 1. f_equal.
  - exists c4. by split.
Defined.

(** ** Arithmetic *)

Lemma mul_unsigned_product_witness : mul_unsigned 0xffffffff 0xfffffffe = (0xfffffffd, 2).
Proof. rewrite (mul_unsigned_product 0xffffffff 0xfffffffe ltac:(lia) ltac:(lia)). reflexivity. Defined.

Lemma div_unsigned_quotient_witness : div_unsigned 1 0 3 = Some (0x55555555, 1) ∧ div_unsigned 3 0 3 = None.
Proof.
  rewrite (div_unsigned_quotient 1 0 3 ltac:(lia) ltac:(lia) ltac:(lia)),
    (div_unsigned_quotient 3 0 3 ltac:(lia) ltac:(lia) ltac:(lia)). done.
Defined.

(** D1 holds -2. *)
Definition ex_negative : m68k unit := w_dregs (λ n, if n =? 1 then 0xfffffffe else 0) (ex_cpu true false 0x6100).
Lemma ex_words n : 0 <= ex_negative.(dregs) n < 2 ^ 32.
Proof. cbn. case_match; lia. Qed.

Lemma mull_multiplies_witness :
  ∃ c', m68k_mull 3 0x1c02 ex_negative = (Ret tt, c') ∧ c'.(dregs) 1 = 0xfffffffa ∧ c'.(dregs) 2 = 0xffffffff ∧
    c'.(flags).(NFLG) = true.
Proof. eexists. rewrite (mull_multiplies 3 0x1c02 ex_negative ltac:(lia) ex_words). split; [reflexivity|]. by vm_compute. Defined.

Lemma divl_divides_witness :
  ∃ c', m68k_divl 0xffffffff 0x1802 0 ex_negative = (Ret tt, c') ∧ c'.(dregs) 1 = 2 ∧ c'.(dregs) 2 = 0.
Proof.
  eexists. rewrite (divl_divides 0xffffffff 0x1802 0 ex_negative ltac:(lia) ex_words ltac:(by vm_compute; intros [? ?])).
  split; [reflexivity|]. by vm_compute.
Defined.

(** ** Where the code differs *)

(** A trap, a bus error or an interrupt of the MFP on the master stack: the handler starts with M cleared but A7 still on the master stack, so RTE takes the stack pointers for
    those of the other stack: it returns with the A7 of before the last change of stacks, and the interrupt stack pointer is lost. *)
Lemma master_trap_loses_stacks :
  let c := ex_cpu true true 0x6700 in
  banks c = (0x1000, 0x6010, 0x6700) ∧
  ∀ nr, nr ∈ [33; 2; 0x46] →
  match (Exception nr 0 ;; ex_rte 1) c with
  | (Ret _, c') => banks c' = (0x1000, 0x6700, 0x6800)
  | _ => False
  end.
Proof.
  split; [reflexivity|]. intros nr Hn. repeat (apply elem_of_cons in Hn as [->|Hn]; [vm_compute; reflexivity|]). by apply elem_of_nil in Hn.
Qed.

(** DIVS.L of -2^63 by -1: the division of the host overflows. *)
Lemma divs_overflow_undefined :
  let c := w_dregs (λ n, if n =? 2 then 0x80000000 else 0) (ex_cpu true false 0x6100) in
  (m68k_divl 0xffffffff 0x1c02 0 c).1 = Undef Int_overflow.
Proof. vm_compute. reflexivity. Qed.

(** MULU.L with a 32-bit result: N is that of the 64-bit product, not of the result in the register. *)
Lemma mulu_sign_of_product :
  let c := w_dregs (λ n, if n =? 1 then 0x10000 else 0) (ex_cpu true false 0x6100) in
  match m68k_mull 0x8000 0x1000 c with
  | (Ret _, c') => c'.(dregs) 1 = 0x80000000 ∧ c'.(flags).(NFLG) = false ∧ c'.(flags).(VFLG) = false
  | _ => False
  end.
Proof. by vm_compute. Qed.

(** A vector table that is not mapped: the access error of the vector is thrown inside the handler of [m68k_execute], where nothing
    catches it. *)
Lemma vector_fault_escapes :
  let c := w_vbr 0x8000000 (ex_cpu true false 0x6100) in
  (m68k_execute ex_scc ex_mfp (xret tt) (λ _, xret tt) (xret tt) (xret tt) false [[]; []] (w_pc 0x8000000 c)).1 = Throw 2.
Proof. vm_compute. reflexivity. Qed.

(** RTE with a frame of format 3: the eight bytes are gone when the format error is raised, and its frame overwrites them. *)
Lemma format_error_pops :
  let c := ex_cpu true false 0x6100 in
  match (on_mach (put_word 0x6106 0x3000) ;; ex_rte 1) c with
  | (Ret _, c') => areg 7 c' = 0x6100 ∧ be_get 2 c'.(mach).(mem) (ex_ph 0x6106) = 14 * 4
  | _ => False
  end.
Proof. by vm_compute. Qed.
