(* ===== verification/Maptab.v ===== *)
(** * Maptab: the character set of the Atari

    Models [src/natfeat/maptab.cpp]: the table from the characters of the Atari to UTF-16 and the table back, which has 65536 entries.
    Of these 167 are characters of the Atari with another number, 13 ranges keep their number, and the rest cannot be converted: the
    entry is not below 256, either the number itself (30 ranges) or [0xffff].

    [tables_inverse]: every character of the Atari is converted and back.  [utf16_not_injective]: not the other way round. *)

From S2P Require Import Prelude.
From stdpp Require Import base list numbers.
Open Scope Z_scope.
Open Scope c_scope.

Definition atari_to_utf16_table : list Z :=
  [0x0; 0x1; 0x2; 0x3; 0x4; 0x5; 0x6; 0x7; 0x8; 0x9; 0xa; 0xb; 0xc; 0xd; 0xe; 0xf;
   0x10; 0x11; 0x12; 0x13; 0x14; 0x15; 0x16; 0x17; 0x18; 0x19; 0x1a; 0x1b; 0x1c; 0x1d; 0x1e; 0x1f;
   0x20; 0x21; 0x22; 0x23; 0x24; 0x25; 0x26; 0x27; 0x28; 0x29; 0x2a; 0x2b; 0x2c; 0x2d; 0x2e; 0x2f;
   0x30; 0x31; 0x32; 0x33; 0x34; 0x35; 0x36; 0x37; 0x38; 0x39; 0x3a; 0x3b; 0x3c; 0x3d; 0x3e; 0x3f;
   0x40; 0x41; 0x42; 0x43; 0x44; 0x45; 0x46; 0x47; 0x48; 0x49; 0x4a; 0x4b; 0x4c; 0x4d; 0x4e; 0x4f;
   0x50; 0x51; 0x52; 0x53; 0x54; 0x55; 0x56; 0x57; 0x58; 0x59; 0x5a; 0x5b; 0x5c; 0x5d; 0x5e; 0x5f;
   0x60; 0x61; 0x62; 0x63; 0x64; 0x65; 0x66; 0x67; 0x68; 0x69; 0x6a; 0x6b; 0x6c; 0x6d; 0x6e; 0x6f;
   0x70; 0x71; 0x72; 0x73; 0x74; 0x75; 0x76; 0x77; 0x78; 0x79; 0x7a; 0x7b; 0x7c; 0x7d; 0x7e; 0x7f;
   0xc7; 0xfc; 0xe9; 0xe2; 0xe4; 0xe0; 0xe5; 0xe7; 0xea; 0xeb; 0xe8; 0xef; 0xee; 0xec; 0xc4; 0xc5;
   0xc9; 0xe6; 0xc6; 0xf4; 0xf6; 0xf2; 0xfb; 0xf9; 0xff; 0xd6; 0xdc; 0xa2; 0xa3; 0xa5; 0xdf; 0x192;
   0xe1; 0xed; 0xf3; 0xfa; 0xf1; 0xd1; 0xaa; 0xba; 0xbf; 0x2310; 0xac; 0xbd; 0xbc; 0xa1; 0xab; 0xbb;
   0xe3; 0xf5; 0xd8; 0xf8; 0x153; 0x152; 0xc0; 0xc3; 0xd5; 0xa8; 0xb4; 0x2020; 0xb6; 0xa9; 0xae; 0x2122;
   0x133; 0x132; 0x5d0; 0x5d1; 0x5d2; 0x5d3; 0x5d4; 0x5d5; 0x5d6; 0x5d7; 0x5d8; 0x5d9; 0x5db; 0x5dc; 0x5de; 0x5e0;
   0x5e1; 0x5e2; 0x5e4; 0x5e6; 0x5e7; 0x5e8; 0x5e9; 0x5ea; 0x5df; 0x5da; 0x5dd; 0x5e3; 0x5e5; 0xa7; 0x2227; 0x221e;
   0x3b1; 0x3b2; 0x393; 0x3c0; 0x3a3; 0x3c3; 0xb5; 0x3c4; 0x3a6; 0x398; 0x3a9; 0x3b4; 0x222e; 0x3c6; 0x2208; 0x2229;
   0x2261; 0xb1; 0x2265; 0x2264; 0x2320; 0x2321; 0xf7; 0x2248; 0xb0; 0x2219; 0xb7; 0x221a; 0x207f; 0xb2; 0xb3; 0xaf].
Definition atari_to_utf16 (c : Z) : Z := nth (Z.to_nat c) atari_to_utf16_table 0.

(** Numbers that are converted to another one. *)
Definition utf16_changed : list (Z * Z) :=
  [(0xa0, 0x20); (0xa1, 0xad); (0xa2, 0x9b); (0xa3, 0x9c); (0xa4, 0xde); (0xa5, 0x9d); (0xa7, 0xdd); (0xa8, 0xb9); (0xa9, 0xbd); (0xaa, 0xa6);
   (0xab, 0xae); (0xac, 0xaa); (0xad, 0x2d); (0xae, 0xbe); (0xaf, 0xff); (0xb0, 0xf8); (0xb1, 0xf1); (0xb2, 0xfd); (0xb3, 0xfe); (0xb4, 0xba);
   (0xb5, 0xe6); (0xb6, 0xbc); (0xb7, 0xfa); (0xba, 0xa7); (0xbb, 0xaf); (0xbc, 0xac); (0xbd, 0xab); (0xbf, 0xa8); (0xc0, 0xb6); (0xc3, 0xb7);
   (0xc4, 0x8e); (0xc5, 0x8f); (0xc6, 0x92); (0xc7, 0x80); (0xc9, 0x90); (0xd1, 0xa5); (0xd5, 0xb8); (0xd6, 0x99); (0xd8, 0xb2); (0xdc, 0x9a);
   (0xdf, 0x9e); (0xe0, 0x85); (0xe1, 0xa0); (0xe2, 0x83); (0xe3, 0xb0); (0xe4, 0x84); (0xe5, 0x86); (0xe6, 0x91); (0xe7, 0x87); (0xe8, 0x8a);
   (0xe9, 0x82); (0xea, 0x88); (0xeb, 0x89); (0xec, 0x8d); (0xed, 0xa1); (0xee, 0x8c); (0xef, 0x8b); (0xf1, 0xa4); (0xf2, 0x95); (0xf3, 0xa2);
   (0xf4, 0x93); (0xf5, 0xb1); (0xf6, 0x94); (0xf7, 0xf6); (0xf8, 0xb3); (0xf9, 0x97); (0xfa, 0xa3); (0xfb, 0x96); (0xfc, 0x81); (0xff, 0x98);
   (0x132, 0xc1); (0x133, 0xc0); (0x152, 0xb5); (0x153, 0xb4); (0x18f, 0x1a); (0x192, 0x9f); (0x393, 0xe2); (0x398, 0xe9); (0x3a3, 0xe4); (0x3a6, 0xe8);
   (0x3a9, 0xea); (0x3b1, 0xe0); (0x3b2, 0xe1); (0x3b4, 0xeb); (0x3bc, 0xe6); (0x3c0, 0xe3); (0x3c3, 0xe5); (0x3c4, 0xe7); (0x3c6, 0xed); (0x5d0, 0xc2);
   (0x5d1, 0xc3); (0x5d2, 0xc4); (0x5d3, 0xc5); (0x5d4, 0xc6); (0x5d5, 0xc7); (0x5d6, 0xc8); (0x5d7, 0xc9); (0x5d8, 0xca); (0x5d9, 0xcb); (0x5da, 0xd9);
   (0x5db, 0xcc); (0x5dc, 0xcd); (0x5dd, 0xda); (0x5de, 0xce); (0x5df, 0xd8); (0x5e0, 0xcf); (0x5e1, 0xd0); (0x5e2, 0xd1); (0x5e3, 0xdb); (0x5e4, 0xd2);
   (0x5e5, 0xdc); (0x5e6, 0xd3); (0x5e7, 0xd4); (0x5e8, 0xd5); (0x5e9, 0xd6); (0x5ea, 0xd7); (0x2020, 0xbb); (0x2022, 0xf9); (0x2038, 0xde); (0x207f, 0xfc);
   (0x20ac, 0xde); (0x2122, 0xbf); (0x21e6, 0x4); (0x21e7, 0x1); (0x21e8, 0x3); (0x21e9, 0x2); (0x2206, 0x7f); (0x2208, 0xee); (0x2219, 0xf9); (0x221a, 0xfb);
   (0x221e, 0xdf); (0x2227, 0xde); (0x2229, 0xef); (0x222e, 0xec); (0x2248, 0xf7); (0x2261, 0xf0); (0x2264, 0xf3); (0x2265, 0xf2); (0x2310, 0xa9); (0x231a, 0x9);
   (0x2320, 0xf4); (0x2321, 0xf5); (0x237e, 0xa); (0x240c, 0xc); (0x240d, 0xd); (0x241b, 0x1b); (0x2460, 0x11); (0x2461, 0x12); (0x2462, 0x13); (0x2463, 0x14);
   (0x2464, 0x15); (0x2465, 0x16); (0x2466, 0x17); (0x2467, 0x18); (0x2468, 0x19); (0x24ea, 0x10); (0x2610, 0x5); (0x2611, 0x6); (0x2612, 0x7); (0x266a, 0xb);
   (0x26f0, 0xe); (0x26f1, 0xf); (0x26f2, 0x1c); (0x26f3, 0x1d); (0x26f4, 0x1e); (0x26f5, 0x1f); (0x2713, 0x8)].

(** Ranges (first and last number) that keep their number; those from 256 on are not characters of the Atari. *)
Definition utf16_same : list (Z * Z) :=
  [(0x0, 0x7f); (0xa6, 0xa6); (0xb8, 0xb8); (0xbe, 0xbe); (0xc1, 0xc2); (0xc8, 0xc8); (0xca, 0xd0); (0xd2, 0xd4); (0xd7, 0xd7);
   (0xd9, 0xdb); (0xdd, 0xde); (0xf0, 0xf0); (0xfd, 0xfe);
   (0x100, 0x131); (0x134, 0x151); (0x154, 0x17f); (0x2c7, 0x2c7); (0x2d8, 0x2d9); (0x2db, 0x2db); (0x2dd, 0x2dd); (0x384, 0x38a);
   (0x38c, 0x38c); (0x38e, 0x392); (0x394, 0x397); (0x399, 0x3a1); (0x3a4, 0x3a5); (0x3a7, 0x3a8); (0x3aa, 0x3b0); (0x3b3, 0x3b3);
   (0x3b5, 0x3bb); (0x3bd, 0x3bf); (0x3c1, 0x3c2); (0x3c5, 0x3c5); (0x3c7, 0x3ce); (0x3d0, 0x3d1); (0x400, 0x44f); (0x600, 0x607);
   (0x2025, 0x2025); (0x2070, 0x2070); (0x2116, 0x2116); (0x2153, 0x2153); (0x25a0, 0x25a0); (0xffff, 0xffff)].

Definition utf16_to_atari (u : Z) : Z :=
  match find (λ p, p.1 =? u) utf16_changed with
  | Some (_, c) => c
  | None => if existsb (λ r, (r.1 <=? u) && (u <=? r.2)) utf16_same then u else 0xffff
  end.

Lemma table_facts : forallb (λ c, let u := atari_to_utf16 c in
  (utf16_to_atari u =? c) && (0 <=? u) && (u <? 2 ^ 16) && implb (c <? 128) (u =? c) && implb (128 <=? c) (128 <=? u)) (seqZ 0 256) = true.
Proof. by vm_compute. Qed.

Lemma table_fact c : 0 <= c < 256 → let u := atari_to_utf16 c in
  utf16_to_atari u = c ∧ 0 <= u < 2 ^ 16 ∧ (c < 128 → u = c) ∧ (128 <= c → 128 <= u).
Proof.
  intros Hc u. pose proof table_facts as H. rewrite forallb_forall in H. specialize (H c).
  rewrite <-list_elem_of_In, elem_of_seqZ in H. specialize (H ltac:(lia)). fold u in H. rewrite !andb_true_iff in H.
  destruct H as ((((H1 & H2) & H3) & H4) & H5). destruct (Z.ltb_spec c 128), (Z.leb_spec 128 c); cbn [implb] in *; lia.
Qed.

(** Every character of the Atari is converted to UTF-16 and back. *)
Lemma tables_inverse c : 0 <= c < 256 → utf16_to_atari (atari_to_utf16 c) = c.
Proof. intros Hc. apply (table_fact c Hc). Qed.

(** Two characters of the host become the same character: the feminine ordinal indicator and the broken bar. *)
Lemma utf16_not_injective : utf16_to_atari 0xaa = 0xa6 ∧ utf16_to_atari 0xa6 = 0xa6.
Proof. by vm_compute. Qed.
