(* ===== verification/NatFeat.v ===== *)
(** * NatFeat: native features

    Models [src/natfeats.cpp] with [include/natfeats.h], [src/natfeat/nf_base.h] and [nf_objs.cpp]: the table of the features,
    by which a program in the emulated machine asks the emulator for a service by name ([nf_get_id]) and calls it by number ([nf_call]), the
    copies of strings between guest and host, with and without conversion of characters; and the features [nf_basicset.cpp]
    (name, version, shutdown, exit, output to [stderr]), [nfbootstrap.cpp] and [debugprintf.cpp].

    The configuration is that of the header: [NATFEAT_PHYS_ADDR], so that strings are at physical addresses while the
    arguments are read through the memory management unit, and [NATFEAT_LIBC_MEMCPY].  [long] has 64 bits.  The other features are
    arguments.  Results of features are 32-bit patterns.  [stderr] is the list of the bytes written to it; a host string is the list
    of its bytes without the zero at its end. *)

From S2P Require Import Prelude Throws Machine Mmu M68k Maptab.
From stdpp Require Import base gmap list numbers strings.
Open Scope Z_scope.
Open Scope c_scope.
Open Scope x_scope.

(** ** State *)

Record natfeats := Natfeats {
  context : Z;
  nf_stderr : list Z;
  exit_val : Z;
}.

(** The variables of the native features are a part of the state of the devices. *)
Class NFState (D : Type) := {
  nf_of : D → natfeats;
  nf_to : natfeats → D → D;
  nf_of_to f d : nf_of (nf_to f d) = f;
  nf_to_to f g d : nf_to f (nf_to g d) = nf_to f d;
  nf_to_of d : nf_to (nf_of d) d = d;
}.

(** What the build, the configuration and the host's files fix: the bytes of the file [bootstrap_path] if it can be opened. *)
Record nf_config := NFConfig {
  name_string : list Z;
  version_string : list Z;
  host_type : list Z;  (* [OS_TYPE "/" CPU_TYPE] *)
  bootstrap_file : option (list Z);
  bootdrive : Z;
  bootstrap_args : list Z;
}.

Definition c_string (s : string) : list Z := (λ a, Z.of_N (Ascii.N_of_ascii a)) <$> String.list_ascii_of_string s.
Definition tolower (c : Z) : Z := if in_range 65 91 c then c + 32 else c.
(** [strcasecmp(a, b) == 0]. *)
Definition same_name (a b : list Z) : bool := bool_decide (tolower <$> a = tolower <$> b).

(** The bytes of a number of UTF-16 in UTF-8. *)
Definition utf8_bytes (ch : Z) : list Z :=
  if ch <? 0x80 then [ch]
  else if ch <? 0x800 then [((ch >> 6) .& 0x3f) .| 0xc0; (ch .& 0x3f) .| 0x80]
  else [((ch >> 12) .& 0x0f) .| 0xe0; ((ch >> 6) .& 0x3f) .| 0x80; (ch .& 0x3f) .| 0x80].

(** Bytes in memory. *)
Definition put_bytes (a : Z) (l : list Z) (m : gmap Z Z) : gmap Z Z :=
  foldr (λ p m, aset (a + Z.of_nat p.1) p.2 m) m (zip (seq 0 (length l)) l).

Section NatFeat.
Context {cfg : Config} {D : Type} {hwd : Hardware D} {nfs : NFState D}.
Context (conf : nf_config) (host_restart : bool → X (m68k D) unit).
Abbreviation M := (X (m68k D)).

Record NF_Base := NFBase {
  nf_name : list Z;
  isSuperOnly : bool;
  nf_reset : M unit;
  dispatch : Z → M Z;
}.

Definition nf_get {A} (f : natfeats → A) : M A := cget (λ c, f (nf_of c.(mach).(dev))).
Definition nf_mod (f : natfeats → natfeats) : M unit :=
  cmod (λ c, w_mach (set_dev (nf_to (f (nf_of c.(mach).(dev))) c.(mach).(dev)) c.(mach)) c).

(** ** Memory of the guest *)

Definition ReadInt32 (addr : Z) : M Z := on_mach (get_long addr).
Definition ReadNFInt8 (addr : Z) : M Z := on_mach (phys_get_byte addr).
Definition WriteNFInt8 (addr v : Z) : M unit := on_mach (phys_put_byte addr v).
(** The two tests before a block is copied. *)
Definition check_block (write : bool) (a count : Z) : M unit :=
  let* ok := on_mach (phys_valid_address a write 1) in
  if negb ok then on_mach (BUS_ERROR a) else
  let e := u32 (a + count - 1) in
  let* ok := on_mach (phys_valid_address e write 1) in
  if negb ok then on_mach (BUS_ERROR e) else xret tt.

(** [memcpy] to the memory of the machine. *)
Definition host_write (a : Z) (l : list Z) : M unit :=
  if host_ok a (Z.of_nat (length l)) then on_mach (xmod (λ s, set_mem (put_bytes a l s.(mem)) s)) else xundef Oob_host.

Definition Host2Atari_memcpy (dst : Z) (l : list Z) : M unit :=
  check_block true dst (Z.of_nat (length l)) ;;
  host_write dst l.

(** The bytes [strncpy] finds: at most [n], up to a zero. *)
Fixpoint host_strn (n : nat) (a : Z) : M (list Z) :=
  match n with
  | O => xret []
  | S n =>
      let* c := on_mach (do_get_mem 1 a) in
      if c =? 0 then xret [] else
      let* l := host_strn n (a + 1) in
      xret (c :: l)
  end.

(** The string that is then in [dst], for [count > 0]. *)
Definition Atari2HostSafeStrncpy (src count : Z) : M (list Z) :=
  check_block false src count ;;
  let* l := host_strn (Z.to_nat count) src in
  xret (take (Z.to_nat (count - 1)) l).

(** [safe_strncpy]: the string and zeros, [count] bytes of which the last is zero. *)
Definition Host2AtariSafeStrncpy (dst : Z) (src : list Z) (count : Z) : M unit :=
  check_block true dst count ;;
  if count =? 0 then xret tt else
  if host_ok dst count then
    on_mach (xmod (λ s, set_mem (put_bytes dst (take (Z.to_nat (count - 1)) (src ++ replicate (Z.to_nat count) 0) ++ [0]) s.(mem)) s))
  else xundef Oob_host.

(** ** Conversion of characters *)

(** The bytes written to [dst]; [fuel] rounds, as many as [count], are enough. *)
Fixpoint Atari2HostUtf8Copy (fuel : nat) (src count : Z) : M (list Z) :=
  match fuel with
  | O => xret []
  | S fuel =>
      let stop := xret (if 0 <? count then [0] else []) in
      if count <=? 1 then stop else
      let* c := ReadNFInt8 src in
      if c =? 0 then stop else
      let ch := atari_to_utf16 c in
      let l :=
        if ch <? 0x80 then [ch]
        else if (ch <? 0x800) || (count <? 3) then [((ch >> 6) .& 0x3f) .| 0xc0; (ch .& 0x3f) .| 0x80]
        else utf8_bytes ch in
      let* rest := Atari2HostUtf8Copy fuel (src +u 1) (count - Z.of_nat (length l)) in
      xret (l ++ rest)
  end.

(** [src[i]], where [src] has the zero at its end; past that this is undefined. *)
Definition src_byte (src : list Z) (i : nat) : M Z :=
  match src !! i with Some c => xret c | None => xundef Oob_device end.

(** The loop; [src] is the rest of the string with its zero, and as many rounds as there are bytes are enough. *)
Fixpoint host_utf8_loop (fuel : nat) (dst : Z) (src : list Z) (count : Z) : M unit :=
  match fuel with
  | O => xundef No_fuel
  | S fuel =>
      let stop := xwhen (0 <? count) (WriteNFInt8 dst 0) in
      if count <=? 1 then stop else
      let* c := src_byte src 0 in
      if c =? 0 then stop else
      let* r :=
        if c <? 0x80 then xret (c, 1)
        else if ((c .& 0xe0) =? 0xc0) || (count <? 3) then
          let* c1 := src_byte src 1 in
          xret (Z.shiftl (c .& 0x1f) 6 .| (c1 .& 0x3f), 2)
        else
          let* c1 := src_byte src 1 in
          let* c2 := src_byte src 2 in
          xret (Z.shiftl (Z.shiftl (c .& 0x0f) 6 .| (c1 .& 0x3f)) 6 .| (c2 .& 0x3f), 3) in
      let '(ch, bytes) := r in
      let rest := drop (Z.to_nat bytes) src in
      let c := utf16_to_atari ch in
      if 0x100 <=? c then
        xfor (zip (seqZ 0 bytes) (take (Z.to_nat bytes) src)) (λ p, WriteNFInt8 (dst +u p.1) p.2) ;;
        host_utf8_loop fuel (dst +u bytes) rest (count - bytes)
      else
        WriteNFInt8 dst c ;;
        host_utf8_loop fuel (dst +u 1) rest (count - 1)
  end.

Definition Host2AtariUtf8Copy (dst : Z) (src : list Z) (count : Z) : M unit :=
  host_utf8_loop (S (length src)) dst (src ++ [0]) count.

(** ** Calls *)

Definition nf_getparameter (i : Z) : M Z :=
  if i <? 0 then xret 0 else
  let* ctx := nf_get context in
  let* o := int_result (i * 4) in
  ReadInt32 (ctx +u o).

Definition IDX2MASTERID (idx : Z) : Z := (idx + 1) << 20.
Definition MASTERID2IDX (id : Z) : Z := (id >> 20) -u 1.
Definition MASKOUTMASTERID (id : Z) : Z := id .& (2 ^ 20 - 1).

Definition nf_get_id (nf_objects : list NF_Base) (stack : Z) : M Z :=
  let* name_ptr := ReadInt32 stack in
  let* name := Atari2HostSafeStrncpy name_ptr 80 in
  xret (match list_find (λ o, same_name name (nf_name o) = true) nf_objects with
        | Some (i, _) => IDX2MASTERID (Z.of_nat i)
        | None => 0
        end).

Definition nf_call (nf_objects : list NF_Base) (stack : Z) (inSuper : bool) : M Z :=
  let* fncode := ReadInt32 stack in
  let idx := MASTERID2IDX fncode in
  if Z.of_nat (length nf_objects) <=? idx then xret 0 else
  match nf_objects !! Z.to_nat idx with
  | None => xret 0
  | Some obj =>
      nf_mod (λ f, Natfeats (stack +u 4) f.(nf_stderr) f.(exit_val)) ;;
      if isSuperOnly obj && negb inSuper then throw 8 else dispatch obj (MASKOUTMASTERID fncode)
  end.

(** ** Output *)

Definition emit (l : list Z) : M unit := nf_mod (λ f, Natfeats f.(context) (f.(nf_stderr) ++ l) f.(exit_val)).

Definition host_putc (c : Z) : M Z :=
  if c =? 0x0d then xret 0 else
  if c =? 0x0a then emit [10] ;; xret 1 else
  let l := utf8_bytes (atari_to_utf16 c) in
  emit l ;; xret (Z.of_nat (length l)).

(** A character [n] times. *)
Fixpoint pad_loop (n : nat) (c put : Z) : M Z :=
  match n with
  | O => xret put
  | S n => let* k := host_putc c in pad_loop n c (put +u k)
  end.

Fixpoint puts_loop (fuel : nat) (s width put : Z) : M (Z * Z) :=
  match fuel with
  | O => xundef No_fuel
  | S fuel =>
      let* c := ReadNFInt8 s in
      if c =? 0 then xret (put, width) else
      let* k := host_putc c in
      let* width := int_result (width - 1) in
      puts_loop fuel (s +u 1) width (put +u k)
  end.

Definition host_puts (fuel : nat) (s width : Z) : M Z :=
  let* r :=
    if s =? 0 then emit (c_string "(null)") ;; let* width := int_result (width - 6) in xret (6, width)
    else puts_loop fuel s width 0 in
  pad_loop (Z.to_nat r.2) 32 r.1.

(** ** The basic features *)

Definition name_dispatch (fncode : Z) : M Z :=
  let* name_ptr := nf_getparameter 0 in
  let* name_maxlen := nf_getparameter 1 in
  let text :=
    match fncode with
    | 0 => conf.(name_string)
    | 1 => conf.(version_string) ++ c_string " (Host: " ++ conf.(host_type) ++ c_string ")"
    | _ => c_string "Unimplemented NF_NAME sub-id"
    end in
  Host2AtariSafeStrncpy name_ptr text (name_maxlen -u 1) ;;
  xret (Z.of_nat (length text)).

Definition version_dispatch (fncode : Z) : M Z := xret 0x10000.

Definition set_exit_val (v : Z) : M unit := nf_mod (λ f, Natfeats f.(context) f.(nf_stderr) v).

(** The host and the operating system's loader start again ([host_restart]: the clock of the timer, the host's devices, the memory of the operating
    system), and the processor. *)
Definition Restart680x0 : M unit := cmod (w_quit_program 2) ;; SPCFLAGS_SET 0x04.
Definition RestartAll (cold : bool) : M unit := host_restart cold ;; Restart680x0.

Definition shutdown_dispatch (fncode : Z) : M Z :=
  match fncode with
  | 0 => set_exit_val 0 ;; Quit680x0
  | 1 => RestartAll false
  | 2 => RestartAll true
  | 3 => set_exit_val 0 ;; Quit680x0
  | _ => xret tt
  end ;;
  xret 0.

Definition exit_dispatch (fncode : Z) : M Z :=
  xwhen (fncode =? 0) (let* v := nf_getparameter 0 in set_exit_val (s32 v) ;; Quit680x0) ;;
  xret 0.

(** [fuel] bounds the length of the string. *)
Definition stderr_dispatch (fuel : nat) (fncode : Z) : M Z :=
  let* str_ptr := nf_getparameter 0 in
  host_puts fuel str_ptr 0.

(** ** Bootstrap *)

(** The file is read in pieces of 2048 bytes; as many rounds as there are bytes are enough. *)
Fixpoint load_file (fuel : nat) (addr size : Z) (file : list Z) (len : Z) : M Z :=
  match fuel with
  | O => xundef No_fuel
  | S fuel =>
      if size =? 0 then xret len else
      let buffer := take 2048 file in
      let n := Z.of_nat (length buffer) in
      if n =? 0 then xret len else
      if size <? n then xret 0 else
      Host2Atari_memcpy (addr +u len) buffer ;;
      load_file fuel addr (size - n) (drop 2048 file) (len + n)
  end.

Definition bootstrap_dispatch (fncode : Z) : M Z :=
  match fncode with
  | 0 =>
      let* addr := nf_getparameter 0 in
      let* size := nf_getparameter 1 in
      match conf.(bootstrap_file) with
      | Some file => load_file (S (length file)) addr size file 0
      | None => xret 0
      end
  | 1 => xret (u32 (tolower conf.(bootdrive) - 97))
  | 2 =>
      let* addr := nf_getparameter 0 in
      let* size := nf_getparameter 1 in
      Host2AtariSafeStrncpy addr conf.(bootstrap_args) size ;;
      xret 0
  | _ => xret (2 ^ 32 - 1)
  end.

(** ** Formatted output *)

Definition PUTC (c width : Z) : M Z :=
  let* put := host_putc (u8 c) in
  pad_loop (Z.to_nat (width - 1)) 32 put.

Definition digit_char (d : Z) : Z := if d <? 10 then 48 + d else 55 + d.

(** The digits into [obuf], the last one first; it has 32 entries. *)
Fixpoint putl_digits (fuel : nat) (u base : Z) (obuf : list Z) : M (list Z) :=
  match fuel with
  | O => xundef No_fuel
  | S fuel =>
      if (32 <=? Z.of_nat (length obuf)) then xundef Oob_device else
      let obuf := obuf ++ [digit_char (u mod base)] in
      let u := u / base in
      if 0 <? u then putl_digits fuel u base obuf else xret obuf
  end.

Fixpoint put_all (l : list Z) (put : Z) : M Z :=
  match l with
  | [] => xret put
  | c :: l => let* k := host_putc c in put_all l (put +u k)
  end.

Definition PUTL (u base width fill_char : Z) : M Z :=
  let* obuf := putl_digits 33 u base [] in
  let* put := pad_loop (Z.to_nat (width - Z.of_nat (length obuf))) fill_char 0 in
  put_all (rev obuf) put.

(** The digits of a width: the character after them, the position and the width. *)
Fixpoint format_width (fuel : nat) (c fmt width : Z) : M (Z * Z * Z) :=
  match fuel with
  | O => xundef No_fuel
  | S fuel =>
      if in_range 48 58 c then
        let* t := int_result (10 * width) in
        let* width := int_result (t + (c - 48)) in
        let* c := ReadNFInt8 fmt in
        format_width fuel c (fmt +u 1) width
      else xret (c, fmt, width)
  end.

(** A conversion: the number of bytes and the number of the next argument. *)
Definition format_one (fuel : nat) (c width : Z) (long_flag : bool) (fill_char param : Z) : M (Z * Z) :=
  let number base :=
    let* v := nf_getparameter (s32 param) in
    let* k := PUTL v base width fill_char in
    xret (k, param +u 1) in
  match c with
  | 37 (* % *) => let* k := PUTC c width in xret (k, param)
  | 99 (* c *) =>
      let* v := nf_getparameter (s32 param) in
      let* k := PUTC v width in
      xret (k, param +u 1)
  | 115 (* s *) =>
      let* buf := nf_getparameter (s32 param) in
      let* k := host_puts fuel buf width in
      xret (k, param +u 1)
  | 105 | 100 (* i, d *) =>
      let* v := nf_getparameter (s32 param) in
      let l_arg := if long_flag then v else s32 v in
      if l_arg <? 0 then
        let* k := PUTC 45 1 in
        let* width := int_result (width - 1) in
        let* j := PUTL (u32 (- l_arg)) 10 width fill_char in
        xret (k +u j, param +u 1)
      else
        let* j := PUTL (u32 l_arg) 10 width fill_char in
        xret (j, param +u 1)
  | 111 (* o *) => number 8
  | 120 (* x *) => number 16
  | 98 (* b *) => number 2
  | 117 (* u *) => number 10
  | _ => xret (0, param)
  end.

(** [fuel] bounds the length of the format and of the strings. *)
Fixpoint debugprintf (fuel : nat) (fmt param len : Z) : M Z :=
  match fuel with
  | O => xundef No_fuel
  | S fuel =>
      let* c := ReadNFInt8 fmt in
      let fmt := fmt +u 1 in
      if c =? 0 then xret len else
      if negb (c =? 37) then let* k := PUTC c 1 in debugprintf fuel fmt param (len +u k) else
      let* c := ReadNFInt8 fmt in
      let fmt := fmt +u 1 in
      let* r :=
        if c =? 48 then let* c := ReadNFInt8 fmt in xret (48, (c, fmt +u 1)) else xret (32, (c, fmt)) in
      let '(fill_char, (c, fmt)) := r in
      let* r := format_width (S fuel) c fmt 0 in
      let '(c, fmt, width) := r in
      let* r :=
        if (c =? 108) || (c =? 76) then let* c := ReadNFInt8 fmt in xret (true, (c, fmt +u 1)) else xret (false, (c, fmt)) in
      let '(long_flag, (c, fmt)) := r in
      if c =? 0 then xret len else
      let* r := format_one fuel c width long_flag fill_char param in
      debugprintf fuel fmt r.2 (len +u r.1)
  end.

Definition debugprintf_dispatch (fuel : nat) (fncode : Z) : M Z :=
  let* str_ptr := nf_getparameter 0 in
  debugprintf fuel str_ptr 1 0.

(** ** The table *)

Definition NFAdd (nf_objects : list NF_Base) (new_nf : NF_Base) : list NF_Base :=
  if (32 <=? length nf_objects)%nat then nf_objects else nf_objects ++ [new_nf].

Definition basic_features (fuel : nat) : list NF_Base :=
  [NFBase (c_string "NF_NAME") false (xret tt) name_dispatch;
   NFBase (c_string "NF_VERSION") false (xret tt) version_dispatch;
   NFBase (c_string "NF_SHUTDOWN") true (xret tt) shutdown_dispatch;
   NFBase (c_string "NF_STDERR") false (xret tt) (stderr_dispatch fuel);
   NFBase (c_string "NF_EXIT") false (xret tt) exit_dispatch;
   NFBase (c_string "BOOTSTRAP") false (xret tt) bootstrap_dispatch;
   NFBase (c_string "DEBUGPRINTF") false (xret tt) (debugprintf_dispatch fuel)].

(** [others] are the features after these. *)
Definition NFCreate (fuel : nat) (others : list NF_Base) : list NF_Base := foldl NFAdd [] (basic_features fuel ++ others).

Definition NFReset (nf_objects : list NF_Base) : M unit := xfor nf_objects nf_reset.

Definition NFGetDriver (nf_objects : list NF_Base) (name : list Z) : option NF_Base :=
  snd <$> list_find (λ o, same_name name (nf_name o) = true) nf_objects.
End NatFeat.
Arguments NF_Base D : clear implicits.
