(* ===== verification/NatFeatSpec.v ===== *)
(** * NatFeatSpec: strings and calls of native features

    - [utf8_roundtrip]: a string of the guest, converted to UTF-8 and back, is the same string.
    - [putl_numeral]: numbers are printed as numerals in their base, within the 32 characters of the buffer, and padded to their width.
    - [feature_called], [stderr_call]: a feature is found by its name and called with its arguments, and the text a
      program sends to [NF_STDERR] is written out.

    At the end of the file a machine with a program that calls them. *)

From S2P Require Import Prelude Throws Machine MachineSpec Mmu MmuWalk MmuSpec MmuAccess MmuTheorems MmuExample M68k M68kStack.
From S2P Require Import M68kFrame M68kRegs M68kExample Maptab NatFeat.
From stdpp Require Import base gmap list numbers strings.
Open Scope Z_scope.
Open Scope c_scope.
Open Scope x_scope.

Lemma u32_add_l a b : u32 a +u b = a +u b.
Proof. unfold u32. by rewrite Zplus_mod_idemp_l. Qed.

(** ** Strings in memory *)

Section Strings.
Context {cfg : Config} {ok : ConfigOk} {D : Type} {hwd : Hardware D} {nfs : NFState D}.
Implicit Types (c : m68k D) (s : machine D) (m : gmap Z Z).

Definition byte_at m (a : Z) : Z := u8 (aget m a).
Definition ram_at (a : Z) : Prop := ram_span 1 a.

(** The string [l] at [a], with a zero after it, in RAM. *)
Fixpoint string_at m (a : Z) (l : list Z) : Prop :=
  ram_at a ∧
  match l with
  | [] => byte_at m a = 0
  | x :: l => byte_at m a = x ∧ 0 < x < 256 ∧ string_at m (a + 1) l
  end.

Lemma ram_at_small a : ram_at a → 0 <= a < 2 ^ 32 - 1.
Proof. destruct ok. unfold ram_at, ram_span. lia. Qed.
Lemma ram_at_next a : ram_at a → a +u 1 = a + 1.
Proof. intros H%ram_at_small. rewrite u32_small; lia. Qed.

Lemma string_at_ext m m' a l : (∀ x, a <= x <= a + Z.of_nat (length l) → byte_at m' x = byte_at m x) →
  string_at m a l → string_at m' a l.
Proof.
  revert a. induction l as [|x l IH]; intros a H; cbn [string_at length] in *; intros [Hr Hs]; (split; [done|]).
  { rewrite H; [done|lia]. }
  destruct Hs as (Hx & Hb & Hs). split; [rewrite H; [done|lia]|]. split; [done|]. apply IH; [|done]. intros y Hy. apply H. lia.
Qed.

(** Nothing but the remembered pages changed. *)
Definition reads_only c c' : Prop := ∃ s', c' = w_mach s' c ∧ upto_pages c.(mach) s'.

Lemma reads_only_refl c : reads_only c c.
Proof. exists c.(mach). split; [by destruct c|apply upto_pages_refl]. Qed.
Lemma reads_only_trans c1 c2 c3 : reads_only c1 c2 → reads_only c2 c3 → reads_only c1 c3.
Proof. intros (s1 & -> & H1) (s2 & -> & H2). exists s2. split; [done|]. by eapply upto_pages_trans. Qed.
Lemma reads_only_mem c c' : reads_only c c' → c'.(mach).(mem) = c.(mach).(mem).
Proof. by intros (s' & -> & p & q & ->). Qed.

Lemma ReadNFInt8_run a c : ram_at a → ∃ c', ReadNFInt8 a c = (Ret (byte_at c.(mach).(mem) a), c') ∧ reads_only c c'.
Proof.
  intros Ha. destruct (phys_get_ram 1 HWget_b a c.(mach)) as (s' & E & H); [lia|exact Ha|].
  exists (w_mach s' c). split; [|by exists s']. unfold ReadNFInt8, on_mach, xzoom, phys_get_byte. rewrite E. cbn [be_get].
  by rewrite Z.mul_0_l, !Z.add_0_r.
Qed.

(** A byte is written: memory, and the remembered pages. *)
Definition wrote (a v : Z) c c' : Prop :=
  ∃ s', c' = w_mach s' c ∧ upto_pages (set_mem (aset a v c.(mach).(mem)) c.(mach)) s'.

Lemma WriteNFInt8_run a v c : ram_at a → 0 <= v < 256 → ∃ c', WriteNFInt8 a v c = (Ret tt, c') ∧ wrote a v c c'.
Proof.
  intros Ha Hv. destruct (phys_put_ram 1 (λ a v, HWput_b a (u8 v)) a v c.(mach)) as (s' & E & H); [lia|exact Ha|].
  exists (w_mach s' c). split; [unfold WriteNFInt8, on_mach, xzoom, phys_put_byte; by rewrite E|].
  exists s'. split; [done|]. cbn [be_put] in H. rewrite Z.add_0_r, u8_small in H by done. exact H.
Qed.

(** ** Conversion of characters *)

Definition utf8 (l : list Z) : list Z := l ≫= λ x, utf8_bytes (atari_to_utf16 x).

(** What the loop back makes of the bytes of a character, if there is room. *)
Definition utf8_decoded (l : list Z) : option Z :=
  match l with
  | [c] => if (0 <? c) && (c <? 0x80) then Some c else None
  | [c; c1] => if (0x80 <=? c) && ((c .& 0xe0) =? 0xc0) then Some (Z.shiftl (c .& 0x1f) 6 .| (c1 .& 0x3f)) else None
  | [c; c1; c2] =>
      if (0x80 <=? c) && negb ((c .& 0xe0) =? 0xc0) then Some (Z.shiftl (Z.shiftl (c .& 0x0f) 6 .| (c1 .& 0x3f)) 6 .| (c2 .& 0x3f)) else None
  | _ => None
  end.

Lemma utf8_decodes x : 0 < x < 256 → ∃ u, utf8_decoded (utf8_bytes (atari_to_utf16 x)) = Some u ∧ utf16_to_atari u = x.
Proof.
  intros Hx.
  assert (forallb (λ x, match utf8_decoded (utf8_bytes (atari_to_utf16 x)) with Some u => utf16_to_atari u =? x | None => false end)
    (seqZ 1 255) = true) as H by (by vm_compute).
  rewrite forallb_forall in H. specialize (H x). rewrite <-list_elem_of_In, elem_of_seqZ in H. specialize (H ltac:(lia)).
  destruct (utf8_decoded _) as [u|]; [|done]. exists u. split; [done|lia].
Qed.

Lemma utf8_bytes_length ch : 1 <= Z.of_nat (length (utf8_bytes ch)) <= 3.
Proof. unfold utf8_bytes. repeat case_match; cbn; lia. Qed.

Lemma Atari2HostUtf8Copy_run l a count fuel c :
  string_at c.(mach).(mem) a l → Z.of_nat (length (utf8 l)) < count → (Z.to_nat count <= fuel)%nat →
  ∃ c', Atari2HostUtf8Copy fuel a count c = (Ret (utf8 l ++ [0]), c') ∧ reads_only c c'.
Proof.
  revert a count fuel c. induction l as [|x l IH]; intros a count fuel c Hs Hn Hf;
    (destruct fuel as [|fuel]; [cbn in Hn; lia|]); cbn [Atari2HostUtf8Copy string_at] in *.
  - cbn in Hn. destruct Hs as [Hr Hz]. rewrite (proj2 (Z.ltb_lt 0 count)) by lia. destruct (Z.leb_spec count 1).
    { exists c. split; [done|apply reads_only_refl]. }
    destruct (ReadNFInt8_run a c Hr) as (c1 & E & Q). exists c1. erewrite xbind_ret by exact E. by rewrite Hz.
  - destruct Hs as (Hr & Hx & Hb & Hs). change (utf8 (x :: l)) with (utf8_bytes (atari_to_utf16 x) ++ utf8 l) in *.
    pose proof (utf8_bytes_length (atari_to_utf16 x)) as Hl. rewrite length_app, Nat2Z.inj_add in Hn.
    rewrite (proj2 (Z.leb_gt count 1)) by lia.
    destruct (ReadNFInt8_run a c Hr) as (c1 & E & Q). erewrite xbind_ret by exact E. rewrite Hx, (proj2 (Z.eqb_neq x 0)) by lia.
    set (bs := if atari_to_utf16 x <? 0x80 then _ else _). assert (bs = utf8_bytes (atari_to_utf16 x)) as ->.
    { subst bs. unfold utf8_bytes in *. destruct (atari_to_utf16 x <? 0x80), (atari_to_utf16 x <? 0x800); cbn [orb length] in *; try done.
      rewrite (proj2 (Z.ltb_ge count 3)) by lia. done. }
    rewrite ram_at_next by done.
    destruct (IH (a + 1) (count - Z.of_nat (length (utf8_bytes (atari_to_utf16 x)))) fuel c1) as (c2 & E2 & Q2); [|lia|lia|].
    { by rewrite (reads_only_mem _ _ Q). }
    exists c2. erewrite xbind_ret by exact E2. split; [by rewrite <-app_assoc|by eapply reads_only_trans].
Qed.

(** One character back. *)
Lemma host_utf8_step x rest dst count fuel c : 0 < x < 256 → 3 <= count → ram_at dst →
  ∃ c1, wrote dst x c c1 ∧
    host_utf8_loop (S fuel) dst (utf8_bytes (atari_to_utf16 x) ++ rest) count c = host_utf8_loop fuel (dst + 1) rest (count - 1) c1.
Proof.
  intros Hx Hc Hd. destruct (utf8_decodes x Hx) as (u & E & Hu).
  destruct (WriteNFInt8_run dst x c Hd ltac:(lia)) as (c1 & Ew & W). exists c1. split; [done|].
  cbn [host_utf8_loop]. rewrite (proj2 (Z.leb_gt count 1)) by lia. rewrite (ram_at_next dst Hd).
  assert ((count <? 3) = false) as Hc3 by lia.
  destruct (utf8_bytes (atari_to_utf16 x)) as [|b0 [|b1 [|b2 [|]]]]; cbn [utf8_decoded app src_byte lookup list_lookup] in *; try done.
  - destruct (Z.ltb_spec 0 b0), (Z.ltb_spec b0 0x80); cbn [andb] in E; try done. injection E as ->.
    erewrite xbind_ret by reflexivity. rewrite (proj2 (Z.eqb_neq u 0)), (proj2 (Z.ltb_lt u 0x80)) by lia. erewrite xbind_ret by reflexivity.
    change (Z.to_nat 1) with 1%nat. cbn [drop]. rewrite Hu, (proj2 (Z.leb_gt 0x100 x)) by lia. by erewrite xbind_ret by exact Ew.
  - destruct (Z.leb_spec 0x80 b0); cbn [andb] in E; [|done]. destruct (_ =? 0xc0) eqn:E0; [|done]. injection E as E.
    erewrite xbind_ret by reflexivity. rewrite (proj2 (Z.eqb_neq b0 0)), (proj2 (Z.ltb_ge b0 0x80)) by lia. rewrite E0. cbn [orb].
    erewrite xbind_ret by (by erewrite xbind_ret by reflexivity).
    change (Z.to_nat 2) with 2%nat. cbn [drop]. rewrite E, Hu, (proj2 (Z.leb_gt 0x100 x)) by lia. by erewrite xbind_ret by exact Ew.
  - destruct (Z.leb_spec 0x80 b0); cbn [andb] in E; [|done]. destruct (_ =? 0xc0) eqn:E0; [done|]. cbn [negb] in E. injection E as E.
    erewrite xbind_ret by reflexivity. rewrite (proj2 (Z.eqb_neq b0 0)), (proj2 (Z.ltb_ge b0 0x80)) by lia. rewrite E0, Hc3. cbn [orb].
    erewrite xbind_ret by (do 2 erewrite xbind_ret by reflexivity; reflexivity).
    change (Z.to_nat 3) with 3%nat. cbn [drop]. rewrite E, Hu, (proj2 (Z.leb_gt 0x100 x)) by lia. by erewrite xbind_ret by exact Ew.
Qed.

(** Outside the bytes from [a] on, [n] of them, and the remembered pages, nothing changed. *)
Definition changed_at (a n : Z) c c' : Prop :=
  ∃ p q, c'.(mach) = set_read_page p (set_write_page q (set_mem c'.(mach).(mem) c.(mach))) ∧ c' = w_mach c'.(mach) c ∧
    ∀ x, x < a ∨ a + n <= x → aget c'.(mach).(mem) x = aget c.(mach).(mem) x.

Lemma wrote_changed a v c c' : wrote a v c c' → changed_at a 1 c c' ∧ aget c'.(mach).(mem) a = v.
Proof.
  intros (s' & -> & p & q & ->). split; [|cbn; by rewrite aget_aset_eq]. exists p, q. split_and!; [done|done|].
  intros x Hx. cbn. apply aget_aset_ne. lia.
Qed.
Lemma changed_at_trans a n k c1 c2 c3 : 0 <= n → 0 <= k → changed_at a n c1 c2 → changed_at (a + n) k c2 c3 → changed_at a (n + k) c1 c3.
Proof.
  intros Hn Hk (p & q & E1 & E2 & H) (p' & q' & E1' & E2' & H'). exists p', q'. split_and!.
  - rewrite E1'. rewrite E1. done.
  - rewrite E2', E2. done.
  - intros x Hx. rewrite H' by lia. apply H. lia.
Qed.

Lemma Host2AtariUtf8Copy_run l dst count fuel c : Forall (λ x, 0 < x < 256) l →
  (∀ x, dst <= x <= dst + Z.of_nat (length l) → ram_at x) → Z.of_nat (length l) + 1 < count → (length l < fuel)%nat →
  ∃ c', host_utf8_loop fuel dst (utf8 l ++ [0]) count c = (Ret tt, c') ∧ changed_at dst (Z.of_nat (length l) + 1) c c' ∧
    string_at c'.(mach).(mem) dst l.
Proof.
  revert dst count fuel c. induction l as [|x l IH]; intros dst count fuel c Hl Hr Hn Hf; (destruct fuel as [|fuel]; [cbn in Hf; lia|]).
  - cbn in Hr, Hn |- *. rewrite (proj2 (Z.leb_gt count 1)) by lia. cbn [utf8 mbind list_bind app src_byte lookup list_lookup].
    erewrite xbind_ret by reflexivity. cbn [Z.eqb]. rewrite (proj2 (Z.ltb_lt 0 count)) by lia. cbn [xwhen].
    assert (ram_at dst) as Hd by (apply Hr; lia). destruct (WriteNFInt8_run dst 0 c Hd) as (c1 & E & W); [lia|].
    destruct (wrote_changed _ _ _ _ W) as [H1 H2]. exists c1. split_and!; [done|done|done|]. unfold byte_at. by rewrite H2.
  - inversion_clear Hl as [|? ? Hx Hl']. cbn [length] in *. rewrite Nat2Z.inj_succ in *.
    assert (ram_at dst) as Hd by (apply Hr; lia).
    change (utf8 (x :: l)) with (utf8_bytes (atari_to_utf16 x) ++ utf8 l). rewrite <-app_assoc.
    destruct (host_utf8_step x (utf8 l ++ [0]) dst count fuel c Hx ltac:(lia) Hd) as (c1 & W & ->).
    destruct (wrote_changed _ _ _ _ W) as [H1 H2].
    destruct (IH (dst + 1) (count - 1) fuel c1 Hl') as (c2 & E2 & C2 & S2); [intros y Hy; apply Hr; lia|lia|lia|].
    exists c2. split; [done|]. split.
    { replace (Z.succ (Z.of_nat (length l)) + 1) with (1 + (Z.of_nat (length l) + 1)) by lia. eapply changed_at_trans; [lia|lia|done|done]. }
    destruct C2 as (p & q & _ & _ & C2). cbn [string_at]. split; [done|]. unfold byte_at. rewrite C2, H2, u8_small by lia. split; [done|]. split; [lia|]. done.
Qed.

Lemma string_at_bytes m a l : string_at m a l → Forall (λ x, 0 < x < 256) l.
Proof. revert a. induction l as [|x l IH]; intros a; [done|]. cbn [string_at]. intros (_ & _ & Hb & Hs). constructor; [done|by eapply IH]. Qed.

(** C27: A string of the guest that is converted to UTF-8 for the host and back to another place is the same string, and no other byte of the memory
    changes: with room for all bytes and the zero in the host's buffer, and for one byte more than that in the guest's; the string and the new place
    are in RAM. *)
Theorem utf8_roundtrip l src dst n k c :
  string_at c.(mach).(mem) src l → Z.of_nat (length (utf8 l)) < n →
  (∀ x, dst <= x <= dst + Z.of_nat (length l) → ram_at x) → Z.of_nat (length l) + 1 < k →
  ∃ c1 c2, Atari2HostUtf8Copy (Z.to_nat n) src n c = (Ret (utf8 l ++ [0]), c1) ∧
    Host2AtariUtf8Copy dst (utf8 l) k c1 = (Ret tt, c2) ∧ string_at c2.(mach).(mem) dst l ∧
    ∀ x, x < dst ∨ dst + Z.of_nat (length l) < x → aget c2.(mach).(mem) x = aget c.(mach).(mem) x.
Proof.
  intros Hs Hn Hd Hk. destruct (Atari2HostUtf8Copy_run l src n (Z.to_nat n) c Hs Hn) as (c1 & E1 & Q1); [lia|].
  destruct (Host2AtariUtf8Copy_run l dst k (S (length (utf8 l))) c1 (string_at_bytes _ _ _ Hs) Hd Hk) as (c2 & E2 & C2 & S2).
  { clear -ok. induction l as [|x l IH]; [cbn; lia|]. change (utf8 (x :: l)) with (utf8_bytes (atari_to_utf16 x) ++ utf8 l).
    pose proof (utf8_bytes_length (atari_to_utf16 x)). rewrite length_app. cbn [length]. lia. }
  exists c1, c2. split_and!; [done|done|done|]. intros x Hx. destruct C2 as (p & q & _ & _ & C2).
  rewrite C2 by lia. by rewrite (reads_only_mem _ _ Q1).
Qed.
End Strings.

(** ** Output *)

(** The bytes printed for a character. *)
Definition console (x : Z) : list Z := if x =? 0x0d then [] else if x =? 0x0a then [10] else utf8_bytes (atari_to_utf16 x).

Lemma console_ascii x : 32 <= x < 128 → console x = [x].
Proof.
  intros Hx. unfold console. rewrite (proj2 (Z.eqb_neq x 0x0d)), (proj2 (Z.eqb_neq x 0x0a)) by lia.
  destruct (table_fact x) as (_ & _ & H & _); [lia|]. rewrite H by lia. unfold utf8_bytes. by rewrite (proj2 (Z.ltb_lt x 0x80)) by lia.
Qed.

Lemma console_list l : Forall (λ x, 32 <= x < 128) l → l ≫= console = l.
Proof. induction 1 as [|x l Hx Hl IH]; [done|]. cbn. rewrite console_ascii by done. cbn. f_equal. exact IH. Qed.

Section Output.
Context {cfg : Config} {D : Type} {hwd : Hardware D} {nfs : NFState D}.
Implicit Types (c : m68k D).

Definition on_nf (f : natfeats → natfeats) c : m68k D :=
  w_mach (set_dev (nf_to (f (nf_of c.(mach).(dev))) c.(mach).(dev)) c.(mach)) c.
Definition printed (l : list Z) c : m68k D := on_nf (λ f, Natfeats f.(context) (f.(nf_stderr) ++ l) f.(exit_val)) c.

Lemma printed_nil c : printed [] c = c.
Proof.
  unfold printed, on_nf. rewrite app_nil_r. destruct c as [[]]. cbn. destruct (nf_of dev) as [x y z] eqn:E. cbn. rewrite <-E. by rewrite nf_to_of.
Qed.
Lemma printed_app a b c : printed b (printed a c) = printed (a ++ b) c.
Proof. unfold printed, on_nf. cbn. rewrite nf_of_to, nf_to_to. cbn. by rewrite app_assoc. Qed.
Lemma printed_stderr l c : (nf_of (printed l c).(mach).(dev)).(nf_stderr) = (nf_of c.(mach).(dev)).(nf_stderr) ++ l.
Proof. unfold printed, on_nf. cbn. by rewrite nf_of_to. Qed.

Lemma host_putc_run x c : host_putc x c = (Ret (Z.of_nat (length (console x))), printed (console x) c).
Proof.
  unfold host_putc, console. destruct (x =? 0x0d); [by rewrite printed_nil|]. destruct (x =? 0x0a); by erewrite xbind_ret by reflexivity.
Qed.

Lemma put_all_run l put c : 0 <= put < 2 ^ 32 →
  put_all l put c = (Ret (put +u Z.of_nat (length (l ≫= console))), printed (l ≫= console) c).
Proof.
  revert put c. induction l as [|x l IH]; intros put c Hp; cbn [put_all].
  { rewrite printed_nil, Z.add_0_r, u32_small by done. done. }
  erewrite xbind_ret by apply host_putc_run. rewrite IH by apply u32_range. rewrite printed_app.
  change ((x :: l) ≫= console) with (console x ++ (l ≫= console)). rewrite length_app, Nat2Z.inj_add. do 2 f_equal.
  rewrite u32_add_l. f_equal. lia.
Qed.

Lemma pad_loop_all n x put c : pad_loop n x put c = put_all (replicate n x) put c.
Proof. revert put c. induction n as [|n IH]; intros put c; [done|]. cbn. apply xbind_ext. intros k c'. apply IH. Qed.

(** ** Numerals *)

Definition digit_value (x : Z) : Z := if x <? 58 then x - 48 else x - 55.
Definition numeral_value (base : Z) (l : list Z) : Z := foldl (λ v x, v * base + digit_value x) 0 l.
(** A digit of the base. *)
Definition is_digit (base x : Z) : Prop := (48 <= x < 58 ∨ 65 <= x < 71) ∧ 0 <= digit_value x < base.

Lemma digit_char_digit base d : base <= 16 → 0 <= d < base → is_digit base (digit_char d) ∧ digit_value (digit_char d) = d.
Proof. intros Hb Hd. unfold is_digit, digit_value, digit_char. destruct (Z.ltb_spec d 10); repeat case_match; lia. Qed.

Lemma numeral_snoc base l x : numeral_value base (l ++ [x]) = numeral_value base l * base + digit_value x.
Proof. unfold numeral_value. by rewrite foldl_app. Qed.

Lemma putl_digits_run base k c : 2 <= base <= 16 → ∀ fuel u obuf,
  0 <= u < base ^ Z.of_nat k → (1 <= k <= fuel)%nat → (length obuf + k <= 32)%nat →
  ∃ ds, putl_digits fuel u base obuf c = (Ret (obuf ++ ds), c) ∧ (1 <= length ds <= k)%nat ∧ numeral_value base (rev ds) = u ∧
    Forall (is_digit base) ds ∧ (0 < u → head (rev ds) ≠ Some 48).
Proof.
  intros Hb. induction k as [|k IH]; intros fuel u obuf Hu Hk Ho; [lia|]. destruct fuel as [|fuel]; [lia|]. cbn [putl_digits].
  rewrite (proj2 (Z.leb_gt 32 (Z.of_nat (length obuf)))) by lia. pose proof (Z.mod_pos_bound u base ltac:(lia)) as Hm.
  destruct (digit_char_digit base (u mod base)) as [Hd Hv]; [lia|done|]. pose proof (Z.div_mod u base ltac:(lia)) as Hdm.
  destruct (Z.ltb_spec 0 (u / base)) as [Hq|Hq].
  - rewrite Nat2Z.inj_succ, Z.pow_succ_r in Hu by lia.
    assert (u / base < base ^ Z.of_nat k) as Hlt by (apply Z.div_lt_upper_bound; lia).
    assert (k ≠ 0%nat) by (intros ->; cbn in Hlt; lia).
    destruct (IH fuel (u / base) (obuf ++ [digit_char (u mod base)])) as (ds & E & Hl & Hn & Hf & Hz); [lia|lia|rewrite length_app; cbn; lia|].
    exists (digit_char (u mod base) :: ds). rewrite E, <-app_assoc. split; [done|]. cbn [length rev]. split; [lia|].
    rewrite numeral_snoc, Hn, Hv. split; [lia|]. split; [by constructor|]. intros _. specialize (Hz Hq).
    destruct (rev ds) as [|y l] eqn:Er; [|exact Hz]. apply (f_equal length) in Er. rewrite length_rev in Er. cbn in Er. lia.
  - assert (u / base = 0) as Hz by (pose proof (Z.div_pos u base); lia). rewrite Hz in Hdm.
    exists [digit_char (u mod base)]. split; [done|]. split; [cbn; lia|]. unfold numeral_value. cbn [rev app foldl]. rewrite Hv.
    split; [lia|]. split; [by constructor|]. intros Hp. cbn. intros [= Hc]. unfold digit_char in Hc. destruct (_ <? 10); lia.
Qed.

(** C40: Numbers of 32 bits are printed as numerals, in the bases 2 to 16, filled with spaces or zeros to a width that is not negative: 32 characters hold the digits even in base 2; read as digits of the
    base they are the number, without zeros in front; they are filled up to the width, and the result is the number of bytes written. *)
Theorem putl_numeral u base width fill c : 0 <= u < 2 ^ 32 → 2 <= base <= 16 → 0 <= width < 2 ^ 31 → fill = 32 ∨ fill = 48 →
  ∃ num, let text := replicate (Z.to_nat (width - Z.of_nat (length num))) fill ++ num in
    PUTL u base width fill c = (Ret (Z.of_nat (length text)), printed text c) ∧
    numeral_value base num = u ∧ Forall (is_digit base) num ∧ (1 <= length num <= 32)%nat ∧ (0 < u → head num ≠ Some 48).
Proof.
  intros Hu Hb Hw Hf. destruct (putl_digits_run base 32 c Hb 33 u []) as (ds & E & Hl & Hn & Hd & Hz); [|lia|cbn; lia|].
  { split; [lia|]. assert (2 ^ Z.of_nat 32 <= base ^ Z.of_nat 32) by (apply Z.pow_le_mono_l; lia).
    change (Z.of_nat 32) with 32 in *. lia. }
  exists (rev ds). cbv zeta. rewrite length_rev. split; [|split_and!; try done; try lia; by apply Forall_rev].
  assert (Forall (λ x, 32 <= x < 128) (rev ds)) as Ha.
  { apply Forall_rev. revert Hd. intros Hd; eapply list.Forall_impl; [exact Hd|]; intros x [Hx _]. lia. }
  assert (Forall (λ x, 32 <= x < 128) (replicate (Z.to_nat (width - Z.of_nat (length ds))) fill)) as Hr by (apply Forall_replicate; lia).
  unfold PUTL. erewrite xbind_ret by exact E. rewrite app_nil_l.
  erewrite xbind_ret by (rewrite pad_loop_all; apply put_all_run; lia).
  rewrite put_all_run by apply u32_range. rewrite !console_list by done. rewrite printed_app, length_app, length_rev, length_replicate.
  rewrite Z.add_0_l, u32_add_l, <-Nat2Z.inj_add, u32_small by lia. done.
Qed.
End Output.

(** ** Calls *)

Section Calls.
Context {cfg : Config} {ok : ConfigOk} {D : Type} {hwd : Hardware D} {nfs : NFState D}.
Context {win : Z → Prop} {good : machine D → Prop} {cell : machine D → Z → Z} {md : bool} {ram : RamIn md win good cell}.
Implicit Types (c : m68k D) (s : machine D).

(** The processor is in the mode [md] and sees its memory; the byte at the physical address [p] is in a page it has mapped. *)
Definition able c : Prop := good c.(mach) ∧ in_mode md c.(mach).
Definition shown (p : Z) : Prop := ∃ x, win x ∧ ∀ s, cell s x = byte_at s.(mem) p.
Definition shown_string c (a : Z) (l : list Z) : Prop :=
  string_at c.(mach).(mem) a l ∧ ∀ p, a <= p <= a + Z.of_nat (length l) → shown p.

(** Reading an argument changes nothing the program can see. *)
Record kept c c' : Prop := {
  kp_mach : c' = w_mach c'.(mach) c;
  kp_cpu : same_cpu c.(mach) c'.(mach);
  kp_good : good c'.(mach);
  kp_cell x : win x → cell c'.(mach) x = cell c.(mach) x;
}.

Lemma kept_able c c' : kept c c' → able c → able c'.
Proof. intros [_ Hc Hg _] [_ Hs]. split; [done|]. by eapply same_cpu_mode. Qed.
Lemma kept_string c c' a l : kept c c' → shown_string c a l → shown_string c' a l.
Proof.
  intros K [Hs Hp]. split; [|done]. revert Hs. apply string_at_ext. intros p Hx. destruct (Hp p Hx) as (x & Hw & E).
  rewrite <-!E. by apply K.
Qed.

Lemma ReadInt32_run a c : able c → span win a 4 → ∃ c', ReadInt32 a c = (Ret (load 4 (cell c.(mach)) a), c') ∧ kept c c'.
Proof.
  intros [Hg Hs] Ha. destruct (ram_get_long c.(mach) a Hg Hs Ha) as (s' & E & Hg' & Hc & Hx).
  exists (w_mach s' c). split; [unfold ReadInt32, on_mach, xzoom; by rewrite E|]. by split.
Qed.

Lemma soft_able f c : able c → able (on_nf f c).
Proof. intros [Hg Hs]. split; [|exact Hs]. eapply ram_soft; [|exact Hg]. by split. Qed.

(** ** By name *)

Lemma check_block_run write a n c : ram_at a → ram_at (a + n - 1) → check_block write a n c = (Ret tt, c).
Proof.
  intros Ha He. unfold check_block. assert (∀ x, ram_at x → on_mach (phys_valid_address x write 1) c = (Ret true, c)) as H.
  { intros x Hx. unfold on_mach, xzoom, phys_valid_address. erewrite xbind_ret by reflexivity.
    rewrite ram_span_boundary by (done || lia). by destruct c. }
  erewrite xbind_ret by (by apply H). cbn [negb]. pose proof (ram_at_small _ He). rewrite u32_small by lia.
  by erewrite xbind_ret by (by apply H).
Qed.

Lemma host_strn_run l a n c : string_at c.(mach).(mem) a l → (length l < n)%nat → host_strn n a c = (Ret l, c).
Proof.
  revert a n. induction l as [|x l IH]; intros a n Hs Hn; (destruct n as [|n]; [cbn in Hn; lia|]); cbn [host_strn string_at length] in *;
    destruct Hs as [Hr Hs].
  all: assert (on_mach (do_get_mem 1 a) c = (Ret (byte_at c.(mach).(mem) a), c)) as E;
    [unfold on_mach, xzoom; rewrite do_get_mem_run by (by apply ram_span_host); cbn [be_get]; rewrite Z.mul_0_l, !Z.add_0_r; by destruct c|].
  - erewrite xbind_ret by exact E. by rewrite Hs.
  - destruct Hs as (Hx & Hb & Hs). erewrite xbind_ret by exact E. rewrite Hx, (proj2 (Z.eqb_neq x 0)) by lia.
    by erewrite xbind_ret by (apply IH; [done|lia]).
Qed.

Lemma nf_get_id_run (objs : list (NF_Base D)) stack p l i o c :
  able c → span win stack 4 → load 4 (cell c.(mach)) stack = p → shown_string c p l → (length l < 80)%nat → ram_at (p + 79) →
  list_find (λ o, same_name l (nf_name o) = true) objs = Some (i, o) →
  ∃ c1, nf_get_id objs stack c = (Ret (IDX2MASTERID (Z.of_nat i)), c1) ∧ kept c c1.
Proof.
  intros Hc Ha Hp Hl Hn He Hf. destruct (ReadInt32_run stack c Hc Ha) as (c1 & E & K). exists c1. split; [|done].
  destruct (kept_string _ _ _ _ K Hl) as [Hs _]. assert (ram_at p) as Hr by (destruct l; apply Hs).
  unfold nf_get_id. erewrite xbind_ret by exact E. rewrite Hp.
  erewrite xbind_ret.
  2:{ unfold Atari2HostSafeStrncpy. erewrite xbind_ret by (apply check_block_run; [done|by replace (p + 80 - 1) with (p + 79) by lia]).
      change (Z.to_nat 80) with 80%nat. by erewrite xbind_ret by (by apply host_strn_run). }
  change (Z.to_nat (80 - 1)) with 79%nat. rewrite take_ge by lia. by rewrite Hf.
Qed.

(** [called stack c]: the arguments follow the number of the function. *)
Definition called (stack : Z) : m68k D → m68k D := on_nf (λ f, Natfeats (stack +u 4) f.(nf_stderr) f.(exit_val)).

Lemma masterid i fn : 0 <= i < 4095 → 0 <= fn < 2 ^ 20 →
  MASTERID2IDX (IDX2MASTERID i + fn) = i ∧ MASKOUTMASTERID (IDX2MASTERID i + fn) = fn.
Proof.
  intros Hi Hf. unfold MASTERID2IDX, MASKOUTMASTERID, IDX2MASTERID. rewrite Z.shiftl_mul_pow2, Z.shiftr_div_pow2 by lia.
  rewrite (u32_small ((i + 1) * 2 ^ 20)) by lia. split.
  - rewrite Z.div_add_l, Z.div_small by lia. rewrite u32_small; lia.
  - change (2 ^ 20 - 1) with (Z.ones 20). rewrite Z.land_ones by lia. rewrite Z.add_comm, Z.mod_add, Z.mod_small; lia.
Qed.

Lemma nf_call_run (objs : list (NF_Base D)) stack i o fn inSuper c :
  able c → span win stack 4 → objs !! i = Some o → (i < 4095)%nat → 0 <= fn < 2 ^ 20 →
  load 4 (cell c.(mach)) stack = IDX2MASTERID (Z.of_nat i) + fn →
  ∃ c1, kept c c1 ∧ nf_call objs stack inSuper c =
    if isSuperOnly o && negb inSuper then (Throw 8, called stack c1) else dispatch o fn (called stack c1).
Proof.
  intros Hc Ha Ho Hi Hf Hl. destruct (ReadInt32_run stack c Hc Ha) as (c1 & E & K). exists c1. split; [done|].
  destruct (masterid (Z.of_nat i) fn) as [H1 H2]; [lia|done|].
  unfold nf_call. erewrite xbind_ret by exact E. rewrite Hl, H1. apply lookup_lt_Some in Ho as Hlt.
  rewrite (proj2 (Z.leb_gt (Z.of_nat (length objs)) (Z.of_nat i))), Nat2Z.id, Ho, H2 by lia. erewrite xbind_ret by reflexivity. by case_match.
Qed.

(** A feature is asked for by its name, in any case of its letters, and called by the number that is returned: whatever the program does between
    the two calls, the feature runs with the number of the function and its arguments behind that number on the stack, unless it
    is for supervisor mode only, which is a privilege violation in user mode. *)
Theorem feature_called (objs : list (NF_Base D)) stack p l i o c :
  able c → span win stack 4 → load 4 (cell c.(mach)) stack = p → shown_string c p l → (length l < 80)%nat → ram_at (p + 79) →
  list_find (λ o, same_name l (nf_name o) = true) objs = Some (i, o) → (i < 4095)%nat →
  ∃ id c1, nf_get_id objs stack c = (Ret id, c1) ∧ kept c c1 ∧
    ∀ stack2 fn inSuper c2, able c2 → span win stack2 4 → 0 <= fn < 2 ^ 20 → load 4 (cell c2.(mach)) stack2 = id + fn →
    ∃ c3, kept c2 c3 ∧ nf_call objs stack2 inSuper c2 =
      if isSuperOnly o && negb inSuper then (Throw 8, called stack2 c3) else dispatch o fn (called stack2 c3).
Proof.
  intros Hc Ha Hp Hl Hn He Hf Hi. destruct (nf_get_id_run objs stack p l i o c Hc Ha Hp Hl Hn He Hf) as (c1 & E & K).
  exists (IDX2MASTERID (Z.of_nat i)), c1. split; [done|]. split; [done|]. intros stack2 fn inSuper c2 Hc2 Ha2 Hfn Hl2.
  apply list_find_Some in Hf as (Ho & _). by eapply nf_call_run.
Qed.
(** ** Text for [stderr] *)

Lemma reads_only_printed l c c' : reads_only c c' → reads_only (printed l c) (printed l c').
Proof. intros (s' & -> & p & q & ->). eexists. split; [reflexivity|]. by exists p, q. Qed.

Lemma puts_loop_run l a fuel width put c : string_at c.(mach).(mem) a l → (length l < fuel)%nat →
  Z.of_nat (length l) < 2 ^ 31 → - 2 ^ 31 + Z.of_nat (length l) <= width < 2 ^ 31 → 0 <= put < 2 ^ 32 →
  ∃ c', puts_loop fuel a width put c = (Ret (put +u Z.of_nat (length (l ≫= console)), width - Z.of_nat (length l)), c') ∧
    reads_only (printed (l ≫= console) c) c'.
Proof.
  revert a fuel width put c. induction l as [|x l IH]; intros a fuel width put c Hs Hf Hn Hw Hp;
    (destruct fuel as [|fuel]; [cbn in Hf; lia|]); cbn [puts_loop string_at length] in *; destruct Hs as [Hr Hs];
    destruct (ReadNFInt8_run a c Hr) as (c1 & E & Q); erewrite xbind_ret by exact E.
  - rewrite Hs. exists c1. cbn [Z.eqb mbind list_bind length]. change (Z.of_nat 0) with 0. rewrite Z.add_0_r, Z.sub_0_r, u32_small by done.
    split; [done|]. by rewrite printed_nil.
  - destruct Hs as (Hx & Hb & Hs). rewrite Hx, (proj2 (Z.eqb_neq x 0)) by lia. rewrite Nat2Z.inj_succ in *.
    erewrite xbind_ret by apply host_putc_run. erewrite xbind_ret by (apply int_run; lia). rewrite ram_at_next by done.
    destruct (IH (a + 1) fuel (width - 1) (put +u Z.of_nat (length (console x))) (printed (console x) c1)) as (c2 & E2 & Q2);
      [|lia|lia|lia|apply u32_range|].
    { cbn. by rewrite (reads_only_mem _ _ Q). }
    exists c2. rewrite E2. change ((x :: l) ≫= console) with (console x ++ (l ≫= console)). rewrite length_app, u32_add_l, Nat2Z.inj_add.
    split; [f_equal; f_equal; f_equal; [f_equal; lia|lia]|]. rewrite printed_app in Q2. eapply reads_only_trans; [|exact Q2]. by apply reads_only_printed.
Qed.

Lemma host_puts_run l a fuel c : string_at c.(mach).(mem) a l → (length l < fuel)%nat → Z.of_nat (length l) < 2 ^ 31 →
  ∃ c', host_puts fuel a 0 c = (Ret (u32 (Z.of_nat (length (l ≫= console)))), c') ∧ reads_only (printed (l ≫= console) c) c'.
Proof.
  intros Hs Hf Hn. assert (ram_at a) as Hr by (destruct l; apply Hs).
  destruct (puts_loop_run l a fuel 0 0 c Hs Hf Hn ltac:(lia) ltac:(lia)) as (c' & E & Q). exists c'. split; [|done].
  unfold host_puts. assert ((a =? 0) = false) as -> by (destruct ok; unfold ram_at, ram_span in Hr; lia).
  erewrite xbind_ret by exact E. cbn [fst snd]. by rewrite Z2Nat.nonpos, Z.add_0_l by lia.
Qed.

Lemma NFAdd_prefix acc (l : list (NF_Base D)) i o : acc !! i = Some o → foldl NFAdd acc l !! i = Some o.
Proof.
  revert acc. induction l as [|x l IH]; intros acc H; [done|]. cbn [foldl]. apply IH. unfold NFAdd. case_match; [done|].
  apply lookup_app_l_Some, H.
Qed.

(** The basic features have their places whatever follows them. *)
Lemma NFCreate_basic conf restart fuel others i o : basic_features conf restart fuel !! i = Some o →
  NFCreate conf restart fuel others !! i = Some o.
Proof. intros H. unfold NFCreate. rewrite foldl_app. apply NFAdd_prefix. exact H. Qed.

Lemma nf_getparameter_run k stack c : able c → 0 <= stack + 4 + 4 * k → stack + 8 + 4 * k <= 2 ^ 32 → 0 <= k < 2 ^ 29 → 0 <= stack →
  (nf_of c.(mach).(dev)).(context) = stack +u 4 → span win (stack + 4 + 4 * k) 4 →
  ∃ c', nf_getparameter k c = (Ret (load 4 (cell c.(mach)) (stack + 4 + 4 * k)), c') ∧ kept c c'.
Proof.
  intros Hc Ha He Hk Hst Hx Hs. unfold nf_getparameter. rewrite (proj2 (Z.ltb_ge k 0)) by lia. erewrite xbind_ret by reflexivity.
  erewrite xbind_ret by (apply int_run; lia). rewrite Hx, u32_add_l, u32_small by lia.
  replace (stack + 4 + k * 4) with (stack + 4 + 4 * k) by lia. by apply ReadInt32_run.
Qed.

(** C21: The text a program sends to [NF_STDERR] is written to [stderr] in UTF-8, without the carriage returns: the program, in user or supervisor mode, calls the native feature with the
    number of the feature and the address of the text on its stack.  D0 becomes the number of bytes written; the other registers, the status register and the stack pointers are kept.  The
    eight bytes on the stack and the text with its final zero lie in RAM in pages mapped for that mode, and the text has less than 2^29 characters; the limit
    of 2048 characters in the comment of the code is not one of the code. *)
Theorem stderr_call conf restart fuel others p l c : let stack := areg 7 c + 4 in
  able c → 0 <= c.(intmask) < 8 → span win stack 8 → 0 <= areg 7 c →
  load 4 (cell c.(mach)) stack = IDX2MASTERID 3 → load 4 (cell c.(mach)) (stack + 4) = p → shown_string c p l →
  (length l < fuel)%nat → Z.of_nat (length l) < 2 ^ 29 →
  ∃ c', m68k_natfeat_call (nf_call (NFCreate conf restart fuel others)) c = (Ret tt, c') ∧
    (nf_of c'.(mach).(dev)).(nf_stderr) = (nf_of c.(mach).(dev)).(nf_stderr) ++ (l ≫= console) ∧
    c'.(dregs) 0 = Z.of_nat (length (l ≫= console)) ∧ (∀ n, 0 < n → c'.(dregs) n = c.(dregs) n) ∧
    (∀ n, 0 <= n < 8 → areg n c' = areg n c) ∧ sr_value c' = sr_value c ∧ banks c' = banks c.
Proof.
  intros stack Hc Hm Hsp Ha Hid Hp Hl Hf Hn. assert (areg 7 c + 4 = stack) as Est by done. clearbody stack. set (cs := w_sr (sr_word c) c). assert (able cs) as Hcs by exact Hc.
  assert (span win stack 4) as S1 by (destruct Hsp as (? & ? & ? & Hw); split_and!; [done|lia|lia|intros; apply Hw; lia]).
  assert (span win (stack + 4 + 4 * 0) 4) as S2.
  { destruct Hsp as (? & ? & ? & Hw). split_and!; [Z.to_euclidean_division_equations; lia|lia|lia|intros; apply Hw; lia]. }
  assert (∃ o, basic_features conf restart fuel !! 3%nat = Some o ∧ isSuperOnly o = false ∧ dispatch o = stderr_dispatch fuel) as (o & Ho & Hu & Hd)
    by (eexists; split_and!; reflexivity).
  destruct (nf_call_run (NFCreate conf restart fuel others) stack 3 o 0 (s_flag c) cs Hcs S1) as (c1 & K & E);
    [by apply NFCreate_basic|lia|lia|rewrite Z.add_0_r; exact Hid|].
  rewrite Hu, Hd in E. cbn [andb] in E. pose proof (kept_able _ _ K Hcs) as Hc1.
  destruct (nf_getparameter_run 0 stack (called stack c1)) as (c2 & E2 & K2);
    [by apply soft_able|lia|destruct Hsp; lia|lia|lia|unfold called, on_nf; cbn; by rewrite nf_of_to|done|].
  assert (load 4 (cell (called stack c1).(mach)) (stack + 4 + 4 * 0) = p) as Ep.
  { rewrite <-Hp. replace (stack + 4 + 4 * 0) with (stack + 4) by lia. apply load_ext. intros x Hx.
    rewrite (ram_soft_cell c1.(mach)) by (by split). apply K. apply Hsp. lia. }
  assert (shown_string c2 p l) as [Hl2 _].
  { eapply kept_string; [exact K2|]. assert (shown_string c1 p l) as [H1 H2] by (by eapply kept_string). by split. }
  destruct (host_puts_run l p fuel c2 Hl2 Hf ltac:(lia)) as (c3 & E3 & Q3).
  assert (Z.of_nat (length (l ≫= console)) <= 3 * Z.of_nat (length l)) as Hlen.
  { clear. induction l as [|x l IH]; [done|]. change ((x :: l) ≫= console) with (console x ++ (l ≫= console)). rewrite length_app.
    cbn [length]. assert (length (console x) <= 3)%nat by (unfold console, utf8_bytes; repeat case_match; cbn; lia). lia. }
  assert (nf_call (NFCreate conf restart fuel others) (areg 7 c +u 4) (s_flag c) cs = (Ret (Z.of_nat (length (l ≫= console))), c3)) as En.
  { rewrite Est, u32_small by (destruct Hsp as (? & ? & ? & _); lia). rewrite E. unfold stderr_dispatch.
    erewrite xbind_ret by exact E2. rewrite Ep, E3, u32_small by lia. done. }
  assert (nf_of (dev (mach c3)) = Natfeats (stack +u 4) ((nf_of (dev (mach c))).(nf_stderr) ++ (l ≫= console)) (exit_val (nf_of (dev (mach c))))
    ∧ s_flag c3 = s_flag c ∧ c3.(mflag) = c.(mflag)) as (Hdev & Hs3 & Hm3).
  { destruct Q3 as (s3 & -> & q1 & q2 & ->). destruct K2 as [K2 [R2 _ _ D2] _ _]. rewrite K2 in *.
    destruct K as [K [R1 _ _ D1] _ _]. rewrite K in *. cbn in *. unfold s_flag. cbn. rewrite nf_of_to, D2. cbn. rewrite nf_of_to, D1, R2, R1.
    done. }
  destruct (host_call_transparent (nf_call (NFCreate conf restart fuel others)) c c3 _ Hm En Hs3 Hm3) as (c' & E' & F1 & F2 & F3 & F4 & _ & _ & F7).
  exists c'. split; [done|]. rewrite F7, Hdev. split; [done|]. split; [by rewrite F1|]. split; [|by split_and!].
  intros n Hn0. rewrite F1. by rewrite (proj2 (Z.eqb_neq n 0)) by lia.
Qed.
End Calls.

(** ** A program that calls native features

    The machine of [MmuExample], in which the stack and the strings of a program are in two pages mapped apart from each other; the theorems
    of [NatFeatSpec] applied to it, and what the code does with strings it does not expect. *)

#[local] Opaque ex_tables ex_mem.

#[local] Instance nf_self : NFState natfeats.
Proof. refine {| nf_of := id; nf_to := λ f _, f |}; done. Defined.
#[local] Instance nf_hw : Hardware natfeats := [].

Definition nf_conf : nf_config := NFConfig (c_string "ARAnyM") (c_string "ARAnyM 1.1.0") (c_string "linux/x86_64") None 67 [].
Definition no_restart (_ : bool) : X (m68k natfeats) unit := xret tt.

(** Physical addresses: the stack is at [0x20f00], which the program sees at [0x5f00], strings are at [0x30100] (a text), [0x30200]
    (a name) and [0x30300] (a format). *)
Definition text : list Z := [72; 105; 13; 10; 0x84; 0xf2].
Definition nf_mem : gmap Z Z :=
  put_bytes 0x20f04 [0; 0x40; 0; 0; 0; 3; 1; 0; 0; 0; 0; 0; 0; 3; 2; 0]
    (put_bytes 0x30100 (text ++ [0]) (put_bytes 0x30200 (c_string "nf_stderr" ++ [0])
      (put_bytes 0x30300 (c_string "%5d|%ld|%04x|%b%%" ++ [0]) (ex_mem (ex_tables 0))))).

(** In user mode, with the tables of [MmuExample]. *)
Definition user_regs : regstruct := set_urp 0x10000 (set_sr_s false ex_regs).
Definition nf_machine : machine natfeats :=
  Machine (set_areg 7 0x5f00 user_regs) nf_mem (λ _, ex_line) (λ _ _, ex_line) false 0xeeeeeeee 0xeeeeeeee 0 (Natfeats 0 [] 0).
Definition nf_cpu : m68k natfeats :=
  M68k nf_machine (λ n, n) 0x1000 0x6010 0x6800 0 false false false false 3 0x1234 0x1230 0x5000 0 0
    (Flags true false true false true) None 0 0 0 0.

Lemma user_described : described (ex_tables 0) user_regs.
Proof. apply described_check; by vm_compute. Qed.
Lemma user_plain x : ex_win x → plain (ex_tables 0) user_regs false x (ex_ph x).
Proof.
  intros Hx. assert (plain (ex_tables 0) user_regs false 0x5000 0x20000 ∧ plain (ex_tables 0) user_regs false 0x6000 0x30000) as [H5 H6].
  { split; (apply st_page; [by vm_compute|by intros []; vm_compute|done|lia]). }
  unfold ex_ph, ex_win in *. destruct (Z.ltb_spec x 0x6000).
  - replace (x + 0x1b000) with (0x20000 + (x - 0x5000)) by lia. apply plain_same_page; [exact H5|unfold word32; lia|]. unfold page_of. zdiv_lia.
  - replace (x + 0x2a000) with (0x30000 + (x - 0x6000)) by lia. apply plain_same_page; [exact H6|unfold word32; lia|]. unfold page_of. zdiv_lia.
Qed.
Lemma user_window : mapped_window (md := false) (ex_tables 0) user_regs ex_win ex_ph.
Proof. split; [exact user_described|exact user_plain|apply (mw_outside _ _ _ _ ex_window)|apply (mw_inj _ _ _ _ ex_window)]. Qed.

Abbreviation nf_good := (mmu_good (D := natfeats) (ex_tables 0) user_regs).
Abbreviation nf_cell := (mmu_cell (D := natfeats) ex_ph).
#[local] Instance nf_ram : RamIn false ex_win nf_good nf_cell.
Proof. exact (mmu_ram (ex_tables 0) user_regs ex_win ex_ph user_window). Qed.

Lemma nf_mem_implements : implements (ex_tables 0) nf_mem.
Proof. apply implements_check_ok. by vm_compute. Qed.

Lemma nf_cpu_able : able (good := nf_good) (md := false) nf_cpu.
Proof.
  split; [|done]. split; [|by split].
  apply (empty_ready (ex_tables 0) (set_areg 7 0x5f00 user_regs) nf_machine); [done|done|exact nf_mem_implements|done|done].
Qed.

(** ** Strings *)

Fixpoint string_check (m : gmap Z Z) (a : Z) (l : list Z) : bool :=
  match l with
  | [] => byte_at m a =? 0
  | x :: l => (byte_at m a =? x) && (0 <? x) && (x <? 256) && string_check m (a + 1) l
  end.

Lemma string_check_ok m l a : 0x800 <= a → a + Z.of_nat (length l) < 0xe00000 → string_check m a l = true → string_at m a l.
Proof.
  revert a. induction l as [|x l IH]; intros a H1 H2; cbn [string_check string_at length] in *; intros H.
  - split; [left; lia|lia].
  - rewrite !andb_true_iff in H. destruct H as (((Hx & Hl) & Hh) & H). split; [left; lia|]. split; [lia|]. split; [lia|]. apply IH; [lia|lia|done].
Qed.

Lemma nf_shown p : 0x30000 <= p < 0x31000 → shown (win := ex_win) (cell := nf_cell) p.
Proof.
  intros Hp. exists (p - 0x2a000). split; [unfold ex_win; lia|]. intros s. unfold mmu_cell, ex_ph, byte_at.
  rewrite (proj2 (Z.ltb_ge (p - 0x2a000) 0x6000)) by lia. by replace (p - 0x2a000 + 0x2a000) with p by lia.
Qed.

Lemma nf_string a l : 0x30000 <= a → a + Z.of_nat (length l) < 0x31000 → string_check nf_mem a l = true →
  shown_string (win := ex_win) (cell := nf_cell) nf_cpu a l.
Proof. intros H1 H2 H3. split; [apply string_check_ok; [lia|lia|done]|]. intros p Hp. apply nf_shown. lia. Qed.

(** ** Witnesses *)

Lemma utf8_roundtrip_witness : ∃ c1 c2,
  Atari2HostUtf8Copy 20 0x30100 20 nf_cpu = (Ret ([72; 105; 13; 10; 0xc3; 0xa4; 0xe2; 0x89; 0xa5] ++ [0]), c1) ∧
  Host2AtariUtf8Copy 0x40000 [72; 105; 13; 10; 0xc3; 0xa4; 0xe2; 0x89; 0xa5] 8 c1 = (Ret tt, c2) ∧ string_at c2.(mach).(mem) 0x40000 text.
Proof.
  destruct (utf8_roundtrip text 0x30100 0x40000 20 8 nf_cpu) as (c1 & c2 & E1 & E2 & S2 & _);
    [apply string_check_ok; [lia|cbn; lia|by vm_compute]|by vm_compute|intros x Hx; left; cbn in Hx; lia|by vm_compute|].
  exists c1, c2. by split_and!.
Defined.

Lemma putl_numeral_witness : ∃ num, PUTL 2989 16 6 48 nf_cpu = (Ret (Z.of_nat (length (replicate (Z.to_nat (6 - Z.of_nat (length num))) 48 ++ num))),
    printed (replicate (Z.to_nat (6 - Z.of_nat (length num))) 48 ++ num) nf_cpu) ∧ numeral_value 16 num = 2989.
Proof.
  destruct (putl_numeral 2989 16 6 48 nf_cpu ltac:(lia) ltac:(lia) ltac:(lia) ltac:(by right)) as (num & E & Hv & _). exists num. split; [exact E|exact Hv].
Defined.

Definition nf_table : list (NF_Base natfeats) := NFCreate nf_conf no_restart 100 [].

Lemma feature_called_witness : ∃ id c1, nf_get_id nf_table 0x5f10 nf_cpu = (Ret id, c1) ∧
  ∀ c2, able (good := nf_good) (md := false) c2 → load 4 (nf_cell c2.(mach)) 0x5f04 = id + 7 →
    ∃ c3, nf_call nf_table 0x5f04 false c2 = stderr_dispatch 100 7 (called 0x5f04 c3).
Proof.
  destruct (feature_called (win := ex_win) (good := nf_good) (cell := nf_cell) nf_table 0x5f10 0x30200 (c_string "nf_stderr") 3
    (NFBase (c_string "NF_STDERR") false (xret tt) (stderr_dispatch 100)) nf_cpu nf_cpu_able) as (id & c1 & E & _ & H);
    [by apply span_check|by vm_compute|apply nf_string; [lia|cbn; lia|by vm_compute]|cbn; lia|left; lia|done|lia|].
  exists id, c1. split; [done|]. intros c2 Hc2 Hl. destruct (H 0x5f04 7 false c2 Hc2) as (c3 & _ & E3); [by apply span_check|lia|done|].
  exists c3. exact E3.
Defined.

Lemma stderr_call_witness : ∃ c', m68k_natfeat_call (nf_call nf_table) nf_cpu = (Ret tt, c') ∧
  c'.(mach).(dev).(nf_stderr) = [72; 105; 10; 0xc3; 0xa4; 0xe2; 0x89; 0xa5] ∧ c'.(dregs) 0 = 8 ∧ c'.(dregs) 1 = 1.
Proof.
  destruct (stderr_call (win := ex_win) (good := nf_good) (cell := nf_cell) nf_conf no_restart 100 [] 0x30100 text nf_cpu nf_cpu_able)
    as (c' & E & Eo & E0 & En & _);
    [by vm_compute|by apply span_check|by vm_compute|by vm_compute|by vm_compute|apply nf_string; [lia|cbn; lia|by vm_compute]|cbn; lia|cbn; lia|].
  exists c'. split; [done|]. split; [exact Eo|]. split; [exact E0|]. by rewrite En.
Defined.

(** ** Where the code differs from what it means to do *)

(** The arguments of a format at [0x20e00], which the program sees at [0x5e00]: the format, -42, -1, [0xbeef] and 5. *)
Definition with_arguments : m68k natfeats :=
  w_mach (set_dev (Natfeats 0x5e00 [] 0) (set_mem (put_bytes 0x20e00
    [0; 3; 3; 0; 0xff; 0xff; 0xff; 0xd6; 0xff; 0xff; 0xff; 0xff; 0; 0; 0xbe; 0xef; 0; 0; 0; 5] nf_mem) nf_machine)) nf_cpu.

(** Numbers are printed in their bases; but [%ld] prints a negative number as a positive one, since [long] has 64 bits on the host, and
    the fill characters of [%d] go between the sign and the digits. *)
Lemma long_loses_sign :
  let r := debugprintf_dispatch 100 0 with_arguments in
  r.1 = Ret 26 ∧ r.2.(mach).(dev).(nf_stderr) = c_string "-  42|4294967295|BEEF|101%".
Proof. by vm_compute. Qed.

(** A buffer that is full after a character of two bytes has no zero at its end. *)
Lemma utf8_unterminated :
  (Atari2HostUtf8Copy 2 0x30100 2 (w_mach (set_mem (put_bytes 0x30100 [0x84; 0] nf_mem) nf_machine) nf_cpu)).1 = Ret [0xc3; 0xa4].
Proof. by vm_compute. Qed.

(** A name of the host that is not UTF-8 is read past its end. *)
Lemma host_name_read_past_end c : (Host2AtariUtf8Copy 0x40000 [0xe9] 10 c).1 = Undef Oob_device.
Proof. reflexivity. Qed.

(** Where the buffer of the guest has just room for the string, a last character of three bytes is taken for one of two: the string is
    another one. *)
Lemma last_character_changed :
  byte_at (Host2AtariUtf8Copy 0x40000 (utf8 [0xf2]) 2 nf_cpu).2.(mach).(mem) 0x40000 ≠ 0xf2.
Proof. by vm_compute. Qed.

(** [NF_NAME] with length 0 writes beyond the memory of the machine, on the host. *)
Lemma name_length_0 : (Host2AtariSafeStrncpy 0x40000 (c_string "ARAnyM") (0 -u 1) nf_cpu).1 = Undef Oob_host.
Proof. by vm_compute. Qed.
