(* ===== verification/Xhdi.v ===== *)
(** * Xhdi: the hard disk driver

    Models [src/natfeat/xhdi.cpp] with [xhdi.h] and the layout of [atari_rootsec.h]: the native feature by which the guest reads and writes
    disk images.  A partition of the host is shown as a disk with one partition, by a root sector that is made up ([sim_root]); the bytes of
    other images are exchanged in pairs, as on an IDE bus, unless the option [byteswap] says that they are already.

    The files of the host are a finite map from paths, which are numbers, to their bytes and permission; [fwrite] may fail, and
    leaves then any contents ([failed_write]).  Files are seekable. *)

From S2P Require Import Prelude Throws Machine MachineSpec Mmu M68k NatFeat.
From stdpp Require Import base gmap list numbers strings.
Open Scope Z_scope.
Open Scope c_scope.
Open Scope x_scope.

(** ** State *)

Record disk_t := Disk {
  d_path : Z;
  d_name : list Z;
  d_present : bool;
  d_readonly : bool;
  d_byteswap : bool;
  d_sim_root : bool;
  d_partID : list Z;
  d_size_blocks : Z;
  d_file : bool;  (* whether it is open *)
}.

Record host_file := HostFile { f_bytes : list Z; f_writable : bool }.

Record xhdi := Xhdi { disks : list disk_t; files : gmap Z host_file }.

Class XHState (D : Type) := {
  xh_of : D → xhdi;
  xh_to : xhdi → D → D;
  xh_of_to f d : xh_of (xh_to f d) = f;
}.

(** The options of a disk. *)
Record device_options := DeviceOptions {
  o_path : Z;
  o_model : list Z;
  o_present : bool;
  o_isCDROM : bool;
  o_readonly : bool;
  o_byteswap : bool;
  o_partID : list Z;
}.

Abbreviation XHDI_BLOCK_SIZE := 512 (only parsing).
Definition TOS_EDRVNR : Z := u32 (-2).
Definition TOS_EWRITF : Z := u32 (-10).
Definition TOS_EREADF : Z := u32 (-11).
Definition TOS_EUNDEV : Z := u32 (-15).
Definition TOS_EINVFN : Z := u32 (-32).
Definition TOS_EACCDN : Z := u32 (-36).

(** ** Disks *)

(** [int size_blocks = blocks]. *)
Definition image_blocks (fs : gmap Z host_file) (d : disk_t) : option Z :=
  if negb d.(d_present) then None else
  match fs !! d.(d_path) with
  | Some f => Some (s32 (Z.of_nat (length f.(f_bytes)) / XHDI_BLOCK_SIZE + (if d.(d_sim_root) then 1 else 0)))
  | None => None
  end.

Definition set_size_blocks (v : Z) (d : disk_t) : disk_t :=
  Disk d.(d_path) d.(d_name) d.(d_present) d.(d_readonly) d.(d_byteswap) d.(d_sim_root) d.(d_partID) v d.(d_file).
Definition set_file (v : bool) (d : disk_t) : disk_t :=
  Disk d.(d_path) d.(d_name) d.(d_present) d.(d_readonly) d.(d_byteswap) d.(d_sim_root) d.(d_partID) d.(d_size_blocks) v.

Definition setDiskSizeInBlocks (fs : gmap Z host_file) (d : disk_t) : disk_t := set_size_blocks (default 0 (image_blocks fs d)) d.

Definition copy_atadevice_settings (fs : gmap Z host_file) (o : device_options) : disk_t :=
  setDiskSizeInBlocks fs (Disk o.(o_path) (take 40 o.(o_model)) (if o.(o_isCDROM) then false else o.(o_present)) o.(o_readonly) o.(o_byteswap)
    false [0; 0; 0] 0 false).

(** The name is ["PARTITION%d"]. *)
Definition copy_scsidevice_settings (fs : gmap Z host_file) (index : Z) (o : device_options) : disk_t :=
  setDiskSizeInBlocks fs (Disk o.(o_path) (c_string "PARTITION" ++ [48 + index]) o.(o_present) o.(o_readonly) o.(o_byteswap) true
    o.(o_partID) 0 false).

Definition no_disk : disk_t := Disk 0 [] false false false false [0; 0; 0] 0 false.

(** Eight ACSI devices, which are never present, eight SCSI and two IDE devices: the options [bx_options.disks] and [bx_options.atadevice[0]]. *)
Definition init_disks (scsi ata : list device_options) (fs : gmap Z host_file) : list disk_t :=
  replicate 8 no_disk ++ imap (λ i o, copy_scsidevice_settings fs (Z.of_nat i) o) scsi ++ (copy_atadevice_settings fs <$> ata).

Definition close_disks (l : list disk_t) : list disk_t := set_file false <$> l.

(** ** Bytes *)

Fixpoint byteSwapBuf (l : list Z) : list Z :=
  match l with
  | a :: b :: l => b :: a :: byteSwapBuf l
  | _ => l
  end.

(** The number at the beginning of a string of at most two characters, in base 16. *)
Definition hex_digit (c : Z) : option Z :=
  if in_range 48 58 c then Some (c - 48) else if in_range 65 71 c then Some (c - 55) else if in_range 97 103 c then Some (c - 87) else None.
Fixpoint hex_number (l : list Z) (v : Z) : Z :=
  match l with
  | [] => v
  | c :: l => match hex_digit c with Some d => hex_number l (16 * v + d) | None => v end
  end.
Fixpoint skip_spaces (l : list Z) : list Z :=
  match l with
  | c :: l' => if (c =? 32) || in_range 9 14 c then skip_spaces l' else l
  | [] => []
  end.
Definition strtol16 (l : list Z) : Z :=
  match skip_spaces l with
  | 45 :: l => - hex_number l 0
  | 43 :: l => hex_number l 0
  | l => hex_number l 0
  end.

(** A C string in an array. *)
Fixpoint until_zero (l : list Z) : list Z :=
  match l with
  | [] => []
  | c :: l => if c =? 0 then [] else c :: until_zero l
  end.

Definition be32 (v : Z) : list Z := [u8 (v >> 24); u8 (v >> 16); u8 (v >> 8); u8 v].

(** [rootsector]: the boot code, the ICD partitions, the size of the disk, four partitions, the list of bad sectors, the checksum. *)
Definition root_sector (d : disk_t) : list Z :=
  let size := d.(d_size_blocks) in
  let id i := nth i d.(d_partID) 0 in
  let ids := if id 0%nat =? 36 then [0; 68; u8 (strtol16 (until_zero [id 1%nat; id 2%nat]))] else [id 0%nat; id 1%nat; id 2%nat] in
  replicate 0x1c2 0 ++ be32 (u32 size) ++ [1] ++ ids ++ be32 1 ++ be32 (u32 (size - 1)) ++ replicate 36 0 ++ replicate 10 0.

(** [fwrite] at an offset: a hole reads as zeros. *)
Definition overwrite (off : nat) (data l : list Z) : list Z :=
  take off (l ++ replicate off 0) ++ data ++ drop (off + length data) l.

Section Xhdi.
Context {cfg : Config} {D : Type} {hwd : Hardware D} {nfs : NFState D} {xhs : XHState D}.
Context (failed_write : list Z → Z → list Z → option (list Z)).
Abbreviation M := (X (m68k D)).

Definition xh_get {A} (f : xhdi → A) : M A := cget (λ c, f (xh_of c.(mach).(dev))).
Definition xh_mod (f : xhdi → xhdi) : M unit :=
  cmod (λ c, w_mach (set_dev (xh_to (f (xh_of c.(mach).(dev))) c.(mach).(dev)) c.(mach)) c).
Definition mod_disk (i : nat) (f : disk_t → disk_t) : M unit := xh_mod (λ x, Xhdi (alter f i x.(disks)) x.(files)).

Definition xhdi_reset (scsi ata : list device_options) : M unit :=
  xh_mod (λ x, Xhdi (close_disks x.(disks)) x.(files)) ;;
  xh_mod (λ x, Xhdi (init_disks scsi ata x.(files)) x.(files)).

Definition dev2disk (major minor : Z) : M (option disk_t) :=
  if negb (minor =? 0) then xret None else
  if (8 <=? major) && (major <=? 17) then
    let* d := xh_get (λ x, x.(disks) !! Z.to_nat major) in
    xret (match d with Some d => if d.(d_present) then Some d else None | None => None end)
  else xret None.

(** The file is opened at the first access: [None] is an error. *)
Definition open_disk (major : Z) (d : disk_t) : M (option host_file) :=
  let* f := xh_get (λ x, x.(files) !! d.(d_path)) in
  if d.(d_file) then xret f else
  match f with
  | Some f =>
      if d.(d_readonly) || f.(f_writable) then mod_disk (Z.to_nat major) (set_file true) ;; xret (Some f) else xret None
  | None => xret None
  end.

(** The sectors from [recno] on in the file. *)
Definition write_records (d : disk_t) (recno count buf : Z) : M Z :=
  let bytes := count * XHDI_BLOCK_SIZE in
  check_block false buf bytes ;;
  if negb (host_ok buf bytes) then xundef Oob_host else
  let* data := cget (λ c, line_bytes c.(mach).(mem) (Z.to_nat bytes) buf) in
  let data := if d.(d_byteswap) then data else byteSwapBuf data in
  let* f := xh_get (λ x, x.(files) !! d.(d_path)) in
  let file := default (HostFile [] true) f in
  let put l := xh_mod (λ x, Xhdi x.(disks) (<[d.(d_path) := HostFile l file.(f_writable)]> x.(files))) in
  match failed_write file.(f_bytes) (recno * XHDI_BLOCK_SIZE) data with
  | Some l => put l ;; xret TOS_EWRITF
  | None => put (overwrite (Z.to_nat (recno * XHDI_BLOCK_SIZE)) data file.(f_bytes)) ;; xret 0
  end.

Definition read_records (d : disk_t) (file : host_file) (recno count buf : Z) : M Z :=
  let bytes := count * XHDI_BLOCK_SIZE in
  check_block true buf bytes ;;
  let data := take (Z.to_nat bytes) (drop (Z.to_nat (recno * XHDI_BLOCK_SIZE)) file.(f_bytes)) in
  if Z.of_nat (length data) <? bytes then host_write buf data ;; xret TOS_EREADF
  else host_write buf (if d.(d_byteswap) then data else byteSwapBuf data) ;; xret 0.

(** The record and the count in the file, and the place of the rest of the buffer; the root sector is made up when it is read. *)
Definition root_part (d : disk_t) (writing : bool) (recno count buf : Z) : M (Z * Z * Z) :=
  if d.(d_sim_root) then
    let* r :=
      if (recno =? 0) && (0 <? count) then
        (if writing then xret tt else Host2Atari_memcpy buf (root_sector d)) ;;
        xret (count - 1, buf +u XHDI_BLOCK_SIZE)
      else xret (count, buf) in
    xret (if 0 <? recno then recno - 1 else recno, r.1, r.2)
  else xret (recno, count, buf).

Definition XHReadWrite (major minor rwflag recno count buf : Z) : M Z :=
  let* od := dev2disk major minor in
  match od with
  | None => xret TOS_EUNDEV
  | Some d =>
      let writing := tst rwflag 1 in
      if writing && d.(d_readonly) then xret TOS_EACCDN else
      let* ofile := open_disk major d in
      match ofile with
      | None => xret TOS_EDRVNR
      | Some file =>
          let* r := root_part d writing recno count buf in
          let '(recno, count, buf) := r in
          if count =? 0 then xret (if writing then TOS_EACCDN else 0) else
          if writing then write_records d recno count buf else read_records d file recno count buf
      end
  end.

Definition XHInqTarget2 (major minor blocksize device_flags product_name stringlen : Z) : M Z :=
  let* od := dev2disk major minor in
  match od with
  | None => xret TOS_EUNDEV
  | Some d =>
      xwhen (negb (blocksize =? 0)) (on_mach (put_long blocksize XHDI_BLOCK_SIZE)) ;;
      xwhen (negb (device_flags =? 0)) (on_mach (put_long device_flags 0)) ;;
      xwhen (negb (product_name =? 0) && negb (stringlen =? 0)) (Host2AtariSafeStrncpy product_name d.(d_name) stringlen) ;;
      xret 0
  end.

Definition XHGetCapacity (major minor blocks blocksize : Z) : M Z :=
  let* od := dev2disk major minor in
  match od with
  | None => xret TOS_EUNDEV
  | Some d =>
      let* fs := xh_get files in
      mod_disk (Z.to_nat major) (setDiskSizeInBlocks fs) ;;
      match image_blocks fs d with
      | None => xret TOS_EDRVNR
      | Some n =>
          xwhen (negb (blocks =? 0)) (on_mach (phys_put_long blocks (u32 n))) ;;
          xwhen (negb (blocksize =? 0)) (on_mach (phys_put_long blocksize XHDI_BLOCK_SIZE)) ;;
          xret 0
      end
  end.

(** The arguments are read in turn; [UWORD] ones are cut. *)
Definition xhdi_dispatch (fncode : Z) : M Z :=
  let arg := nf_getparameter in
  let target len :=
    let* major := arg 0 in let* minor := arg 1 in let* size := arg 2 in let* fl := arg 3 in let* name := arg 4 in
    let* len := len in XHInqTarget2 (u16 major) (u16 minor) size fl name (u16 len) in
  match fncode with
  | 0 => xret 0x0130
  | 1 => target (xret 33)
  | 6 => xret 0
  | 7 => xmap arg (seqZ 0 5) ;; xret TOS_EINVFN
  | 8 => xmap arg (seqZ 0 6) ;; xret TOS_EINVFN
  | 10 =>
      let* major := arg 0 in let* minor := arg 1 in let* rwflag := arg 2 in let* recno := arg 3 in let* count := arg 4 in
      let* buf := arg 5 in XHReadWrite (u16 major) (u16 minor) (u16 rwflag) recno (u16 count) buf
  | 11 => target (arg 5)
  | 12 => xmap arg (seqZ 0 7) ;; xret TOS_EINVFN
  | 14 =>
      let* major := arg 0 in let* minor := arg 1 in let* blocks := arg 2 in let* size := arg 3 in
      XHGetCapacity (u16 major) (u16 minor) blocks size
  | _ => xret TOS_EINVFN
  end.

Definition xhdi_feature (scsi ata : list device_options) : NF_Base D :=
  NFBase (c_string "XHDI") true (xhdi_reset scsi ata) xhdi_dispatch.
End Xhdi.
