(* ===== verification/XhdiSpec.v ===== *)
(** * XhdiSpec: the disk the guest sees

    [xhdi_refines_disk]: for any sequence of requests the driver behaves like a flat array of sectors: the bytes of the image, exchanged in pairs, behind a
    root sector that describes them as one partition.  At the end of the file a small image. *)

From S2P Require Import Prelude Throws Machine MachineSpec Mmu MmuExample M68k NatFeat NatFeatSpec Xhdi.
From stdpp Require Import base gmap list numbers.
Open Scope Z_scope.
Open Scope c_scope.
Open Scope x_scope.

(** ** Bytes *)

Lemma swap_app a b : Nat.even (length a) = true → byteSwapBuf (a ++ b) = byteSwapBuf a ++ byteSwapBuf b.
Proof.
  remember (length a) as n eqn:E. revert a E. induction n as [n IH] using lt_wf_ind. intros [|x [|y a]] -> H; [done|done|].
  cbn [app byteSwapBuf]. do 2 f_equal. by eapply IH; [|done|]; [cbn; lia|].
Qed.

Lemma swap_length l : length (byteSwapBuf l) = length l.
Proof.
  remember (length l) as n eqn:E. revert l E. induction n as [n IH] using lt_wf_ind. intros [|x [|y l]] ->; [done|done|].
  cbn [byteSwapBuf length]. do 2 f_equal. by eapply IH; [|done]; cbn; lia.
Qed.

Lemma swap_swap l : byteSwapBuf (byteSwapBuf l) = l.
Proof.
  remember (length l) as n eqn:E. revert l E. induction n as [n IH] using lt_wf_ind. intros [|x [|y l]] ->; [done|done|].
  cbn [byteSwapBuf]. do 2 f_equal. by eapply IH; [|done]; cbn; lia.
Qed.

Lemma swap_bytes l : Forall (λ v, 0 <= v < 256) l → Forall (λ v, 0 <= v < 256) (byteSwapBuf l).
Proof.
  remember (length l) as n eqn:E. revert l E. induction n as [n IH] using lt_wf_ind. intros [|x [|y l]] -> H; [done|done|].
  cbn [byteSwapBuf]. inversion_clear H as [|? ? Hx H']. inversion_clear H' as [|? ? Hy H]. do 2 (constructor; [done|]).
  by eapply IH; [|done|]; [cbn; lia|].
Qed.

(** The bytes in the order of the guest. *)
Definition guest_order (byteswap : bool) (l : list Z) : list Z := if byteswap then l else byteSwapBuf l.

Section Order.
Context (sw : bool).
Lemma order_app a b : Nat.even (length a) = true → guest_order sw (a ++ b) = guest_order sw a ++ guest_order sw b.
Proof. destruct sw; [done|apply swap_app]. Qed.
Lemma order_length l : length (guest_order sw l) = length l.
Proof. destruct sw; [done|apply swap_length]. Qed.
Lemma order_order l : guest_order sw (guest_order sw l) = l.
Proof. destruct sw; [done|apply swap_swap]. Qed.
Lemma order_bytes l : Forall (λ v, 0 <= v < 256) l → Forall (λ v, 0 <= v < 256) (guest_order sw l).
Proof. destruct sw; [done|apply swap_bytes]. Qed.

Lemma order_take n l : Nat.even n = true → (n <= length l)%nat → guest_order sw (take n l) = take n (guest_order sw l).
Proof.
  intros He Hn. rewrite <-(take_drop n l) at 2. assert (length (take n l) = n) as Hl by (rewrite length_take; lia).
  rewrite order_app by (by rewrite Hl). by rewrite take_app_length' by (by rewrite order_length).
Qed.
Lemma order_drop n l : Nat.even n = true → (n <= length l)%nat → guest_order sw (drop n l) = drop n (guest_order sw l).
Proof.
  intros He Hn. rewrite <-(take_drop n l) at 2. assert (length (take n l) = n) as Hl by (rewrite length_take; lia).
  rewrite order_app by (by rewrite Hl). by rewrite drop_app_length' by (by rewrite order_length).
Qed.

Lemma overwrite_inside off data l : (off <= length l)%nat → overwrite off data l = take off l ++ data ++ drop (off + length data) l.
Proof. intros H. unfold overwrite. by rewrite take_app_le. Qed.

Lemma overwrite_length off data l : (off + length data <= length l)%nat → length (overwrite off data l) = length l.
Proof. intros H. rewrite overwrite_inside by lia. rewrite !length_app, length_take, length_drop. lia. Qed.

Lemma order_overwrite off data l : Nat.even off = true → Nat.even (length data) = true → (off + length data <= length l)%nat →
  guest_order sw (overwrite off data l) = overwrite off (guest_order sw data) (guest_order sw l).
Proof.
  intros H1 H2 H3. rewrite !overwrite_inside by (rewrite ?order_length; lia).
  rewrite !order_app by (rewrite ?length_take_le by lia; done). rewrite order_length, order_take, order_drop by (rewrite ?Nat.even_add, ?H1, ?H2; done || lia).
  done.
Qed.
End Order.

Lemma overwrite_behind root off data l : (off <= length l)%nat →
  overwrite (length root + off) data (root ++ l) = root ++ overwrite off data l.
Proof.
  intros H. rewrite !overwrite_inside by (rewrite ?length_app; lia).
  rewrite take_app_ge, <-app_assoc by lia. replace (length root + off - length root)%nat with off by lia. do 3 f_equal.
  rewrite drop_app_ge by lia. f_equal. lia.
Qed.

(** ** Memory *)

Definition same_bytes (m m' : gmap Z Z) : Prop := ∀ x, aget m x = aget m' x.

Lemma put_bytes_aget a l m x : aget (put_bytes a l m) x =
  if in_range a (a + Z.of_nat (length l)) x then nth (Z.to_nat (x - a)) l 0 else aget m x.
Proof.
  unfold put_bytes. assert (∀ k, aget (foldr (λ p m, aset (a + Z.of_nat p.1) p.2 m) m (zip (seq k (length l)) l)) x =
    if in_range (a + Z.of_nat k) (a + Z.of_nat k + Z.of_nat (length l)) x then nth (Z.to_nat (x - a - Z.of_nat k)) l 0 else aget m x) as H.
  { induction l as [|v l IH]; intros k; cbn [length seq zip_with foldr fst snd].
    - unfold in_range. destruct (Z.leb_spec (a + Z.of_nat k) x), (Z.ltb_spec x (a + Z.of_nat k + Z.of_nat 0)); cbn [andb]; (done || lia).
    - rewrite aget_aset. destruct (decide (a + Z.of_nat k = x)) as [<-|Hne].
      + rewrite in_range_true by lia. replace (a + Z.of_nat k - a - Z.of_nat k) with 0 by lia. done.
      + rewrite IH. unfold in_range. rewrite !Nat2Z.inj_succ.
        destruct (Z.leb_spec (a + Z.succ (Z.of_nat k)) x), (Z.leb_spec (a + Z.of_nat k) x), (Z.ltb_spec x (a + Z.succ (Z.of_nat k) + Z.of_nat (length l))),
          (Z.ltb_spec x (a + Z.of_nat k + Z.succ (Z.of_nat (length l)))); cbn [andb]; try lia; try done.
        replace (Z.to_nat (x - a - Z.of_nat k)) with (S (Z.to_nat (x - a - Z.succ (Z.of_nat k)))) by lia. done. }
  specialize (H 0%nat). rewrite H. change (Z.of_nat 0) with 0. by rewrite Z.add_0_r, Z.sub_0_r.
Qed.

Lemma put_bytes_ext a l m m' : same_bytes m m' → same_bytes (put_bytes a l m) (put_bytes a l m').
Proof. intros H x. rewrite !put_bytes_aget. by case_match. Qed.

Lemma put_bytes_join a l1 l2 m : same_bytes (put_bytes (a + Z.of_nat (length l1)) l2 (put_bytes a l1 m)) (put_bytes a (l1 ++ l2) m).
Proof.
  intros x. rewrite !put_bytes_aget, length_app, Nat2Z.inj_add. unfold in_range.
  destruct (Z.leb_spec a x), (Z.ltb_spec x (a + Z.of_nat (length l1))), (Z.leb_spec (a + Z.of_nat (length l1)) x),
    (Z.ltb_spec x (a + Z.of_nat (length l1) + Z.of_nat (length l2))), (Z.ltb_spec x (a + (Z.of_nat (length l1) + Z.of_nat (length l2))));
    cbn [andb]; try lia; try done.
  - by rewrite app_nth1 by lia.
  - rewrite app_nth2 by lia. f_equal. lia.
Qed.

Lemma line_bytes_ext m m' n a : same_bytes m m' → line_bytes m n a = line_bytes m' n a.
Proof. intros H. unfold line_bytes. apply list_fmap_ext. intros i x _. by rewrite H. Qed.

(** ** The disk *)

Section Disk.
Context {cfg : Config} {ok : ConfigOk} {D : Type} {hwd : Hardware D} {nfs : NFState D} {xhs : XHState D}.
Context (failed_write : list Z → Z → list Z → option (list Z)) (writes_ok : ∀ l off data, failed_write l off data = None).
Implicit Types (c : m68k D) (d : disk_t).

(** What the guest sees of the image [l]. *)
Definition visible d (l : list Z) : list Z := (if d.(d_sim_root) then root_sector d else []) ++ guest_order d.(d_byteswap) l.

(** The disk [d] is device [major], and [l] is its image, which can be opened. *)
Record disk_ready (major : Z) d (l : list Z) c : Prop := {
  dr_major : 8 <= major <= 17;
  dr_present : d.(d_present) = true;
  dr_disk : ∃ b, (xh_of c.(mach).(dev)).(disks) !! Z.to_nat major = Some (set_file b d);
  dr_file : ∃ w, (xh_of c.(mach).(dev)).(files) !! d.(d_path) = Some (HostFile l w) ∧ d.(d_readonly) || w = true;
}.

Lemma root_sector_length d : length (root_sector d) = 512%nat.
Proof. unfold root_sector. cbv zeta. rewrite !length_app, !length_replicate. by case_match. Qed.

Lemma ready_mem major d l c m : disk_ready major d l c → disk_ready major d l (w_mach (set_mem m c.(mach)) c).
Proof. by intros []. Qed.

Lemma opened major d l c : disk_ready major d l c → ∃ b w c1,
  dev2disk major 0 c = (Ret (Some (set_file b d)), c) ∧ open_disk major (set_file b d) c = (Ret (Some (HostFile l w)), c1) ∧
  disk_ready major d l c1 ∧ c1.(mach).(mem) = c.(mach).(mem).
Proof.
  intros [Hm Hp (b & Hd) (w & Hf & Hw)]. exists b, w. assert (dev2disk major 0 c = (Ret (Some (set_file b d)), c)) as E.
  { unfold dev2disk. cbn [Z.eqb negb]. rewrite (proj2 (Z.leb_le 8 major)), (proj2 (Z.leb_le major 17)) by lia. cbn [andb].
    erewrite xbind_ret by reflexivity. rewrite Hd. change (d_present (set_file b d)) with (d_present d). by rewrite Hp. }
  unfold open_disk. change (d_path (set_file b d)) with (d_path d). change (d_readonly (set_file b d)) with (d_readonly d). destruct b.
  - exists c. split; [done|]. erewrite xbind_ret by reflexivity. rewrite Hf. split; [done|]. split; [|done]. split; [done|done|by exists true|by exists w].
  - eexists. split; [done|]. split; [erewrite xbind_ret by reflexivity; rewrite Hf; cbn [d_file set_file f_writable]; rewrite Hw;
      by erewrite xbind_ret by reflexivity|]. split; [|done]. split; [done|done| |]; cbn; rewrite xh_of_to; cbn; [|by exists w].
    exists true. by rewrite list_lookup_alter_eq, Hd.
Qed.

Lemma host_write_run a l c : host_ok a (Z.of_nat (length l)) = true →
  host_write a l c = (Ret tt, w_mach (set_mem (put_bytes a l c.(mach).(mem)) c.(mach)) c).
Proof. intros H. unfold host_write. by rewrite H. Qed.

Lemma span_check_block write a n c : 0 < n → ram_span n a → check_block write a n c = (Ret tt, c).
Proof. intros Hn Ha. apply check_block_run; unfold ram_at, ram_span in *; lia. Qed.

(** Part of the image. *)
Definition part (l : list Z) (recno count : Z) : list Z := take (Z.to_nat (count * 512)) (drop (Z.to_nat (recno * 512)) l).

Lemma part_length l recno count : 0 <= recno → 0 <= count → 512 * (recno + count) <= Z.of_nat (length l) →
  length (part l recno count) = Z.to_nat (count * 512).
Proof. intros. unfold part. rewrite length_take, length_drop. lia. Qed.

Lemma even_512 n : 0 <= n → Nat.even (Z.to_nat (n * 512)) = true.
Proof. intros Hn. rewrite Z2Nat.inj_mul, Nat.even_mul by lia. apply orb_true_r. Qed.

Lemma order_part sw l recno count : 0 <= recno → 0 <= count → 512 * (recno + count) <= Z.of_nat (length l) →
  guest_order sw (part l recno count) = part (guest_order sw l) recno count.
Proof.
  intros. unfold part. rewrite order_take, order_drop by (rewrite ?length_drop; lia || by apply even_512). done.
Qed.

Lemma read_records_run d file recno count buf c : 0 < count → 0 <= recno → 512 * (recno + count) <= Z.of_nat (length file.(f_bytes)) →
  ram_span (count * 512) buf →
  read_records d file recno count buf c =
    (Ret 0, w_mach (set_mem (put_bytes buf (part (guest_order d.(d_byteswap) file.(f_bytes)) recno count) c.(mach).(mem)) c.(mach)) c).
Proof.
  intros Hc Hr Hl Hb. unfold read_records. erewrite xbind_ret by (apply span_check_block; [lia|done]). cbv zeta.
  fold (part file.(f_bytes) recno count). rewrite part_length by lia. rewrite (proj2 (Z.ltb_ge _ _)) by lia.
  fold (guest_order d.(d_byteswap) (part file.(f_bytes) recno count)). rewrite order_part by lia.
  erewrite xbind_ret; [done|]. apply host_write_run. rewrite part_length by (rewrite ?order_length; lia). apply ram_span_host. by rewrite Z2Nat.id by lia.
Qed.
Lemma write_records_run major d l recno count buf c : disk_ready major d l c → 0 < count → 0 <= recno →
  512 * (recno + count) <= Z.of_nat (length l) → ram_span (count * 512) buf →
  ∃ c', write_records failed_write d recno count buf c = (Ret 0, c') ∧ c'.(mach).(mem) = c.(mach).(mem) ∧
    disk_ready major d (overwrite (Z.to_nat (recno * 512))
      (guest_order d.(d_byteswap) (line_bytes c.(mach).(mem) (Z.to_nat (count * 512)) buf)) l) c'.
Proof.
  intros [Hm Hp Hd (w & Hf & Hw)] Hc Hr Hl Hb. unfold write_records. erewrite xbind_ret by (apply span_check_block; [lia|done]). cbv zeta.
  rewrite ram_span_host by done. cbn [negb]. do 2 erewrite xbind_ret by reflexivity. rewrite Hf, writes_ok.
  erewrite xbind_ret by reflexivity. eexists. split; [done|]. split; [done|]. split; [done|done| |]; cbn; rewrite xh_of_to; [done|].
  exists w. cbn. by rewrite lookup_insert_eq.
Qed.

(** ** Requests *)

Inductive request := Read (recno count buf : Z) | Write (recno count buf : Z).

Definition do_request (major : Z) (r : request) : X (m68k D) Z :=
  match r with
  | Read recno count buf => XHReadWrite failed_write major 0 0 recno count buf
  | Write recno count buf => XHReadWrite failed_write major 0 1 recno count buf
  end.

(** A request within the disk, with a buffer in RAM; the root sector cannot be written. *)
Definition request_ok d (n : Z) (r : request) : Prop :=
  match r with
  | Read recno count buf => 0 < count ∧ 0 <= recno ∧ 512 * (recno + count) <= n ∧ ram_span (count * 512) buf
  | Write recno count buf => 0 < count ∧ 0 <= recno ∧ 512 * (recno + count) <= n ∧ ram_span (count * 512) buf ∧
      d.(d_readonly) = false ∧ (d.(d_sim_root) = true → 0 < recno)
  end.

(** The disk as an array: a read copies a part of it to memory, a write a part of memory to it. *)
Definition array_step (r : request) (st : gmap Z Z * list Z) : gmap Z Z * list Z :=
  match r with
  | Read recno count buf => (put_bytes buf (part st.2 recno count) st.1, st.2)
  | Write recno count buf => (st.1, overwrite (Z.to_nat (recno * 512)) (line_bytes st.1 (Z.to_nat (count * 512)) buf) st.2)
  end.

Lemma read_request major d l recno count buf c : disk_ready major d l c →
  request_ok d (Z.of_nat (length (visible d l))) (Read recno count buf) →
  ∃ c', do_request major (Read recno count buf) c = (Ret 0, c') ∧ disk_ready major d l c' ∧
    same_bytes c'.(mach).(mem) (put_bytes buf (part (visible d l) recno count) c.(mach).(mem)).
Proof.
  intros Hd (Hc & Hr & Hl & Hb). destruct (opened major d l c Hd) as (b & w & c1 & E1 & E2 & Hd1 & Hm1).
  cbn [do_request]. unfold XHReadWrite. erewrite xbind_ret by exact E1. change (tst 0 1) with false. cbv zeta. cbn [andb]. erewrite xbind_ret by exact E2.
  unfold root_part, visible in *. change (d_sim_root (set_file b d)) with (d_sim_root d).
  pose proof (root_sector_length d) as Hroot. rewrite length_app, order_length in Hl. destruct (d_sim_root d) eqn:Es.
  2:{ erewrite xbind_ret by reflexivity. cbv beta iota. rewrite (proj2 (Z.eqb_neq count 0)) by lia. rewrite read_records_run by (done || cbn; cbn in Hl; lia).
      eexists. split; [done|]. split; [by apply ready_mem|]. rewrite <-Hm1. by intros x. }
  destruct (Z.eqb_spec recno 0) as [->|Hr0].
  - rewrite (proj2 (Z.ltb_lt 0 count)) by lia. cbn [andb].
    assert (ram_span 512 buf) as Hb1 by (unfold ram_span in *; lia).
    erewrite (xbind_ret _ _ c1); [|erewrite xbind_ret; [reflexivity|];
      erewrite (xbind_ret _ _ c1); [reflexivity|]; unfold Host2Atari_memcpy; change (root_sector (set_file b d)) with (root_sector d);
      rewrite Hroot; erewrite xbind_ret by (by apply span_check_block); apply host_write_run; rewrite Hroot; by apply ram_span_host].
    cbn [fst snd Z.ltb Z.compare]. rewrite u32_small by (unfold ram_span in Hb; destruct ok; lia).
    assert (part (root_sector d ++ guest_order (d_byteswap d) l) 0 count =
      root_sector d ++ part (guest_order (d_byteswap d) l) 0 (count - 1)) as Epart.
    { unfold part. change (Z.to_nat (0 * 512)) with 0%nat. rewrite !drop_0, take_app_ge by lia. f_equal. f_equal. lia. }
    destruct (Z.eqb_spec (count - 1) 0) as [E0|E0].
    + eexists. split; [done|]. split; [by apply ready_mem|]. rewrite Epart, E0. unfold part. cbn [Z.mul Z.to_nat take]. rewrite app_nil_r, <-Hm1.
      by intros x.
    + rewrite read_records_run by (cbn; unfold ram_span in *; lia). eexists. split; [done|]. split; [by apply ready_mem, ready_mem|].
      rewrite Epart, <-Hm1. cbn [mach w_mach mem set_mem set_file d_byteswap f_bytes]. intros x. rewrite <-put_bytes_join, Hroot. done.
  - cbn [andb]. erewrite xbind_ret by (by erewrite xbind_ret by reflexivity). cbn [fst snd]. rewrite (proj2 (Z.ltb_lt 0 recno)) by lia.
    rewrite (proj2 (Z.eqb_neq count 0)) by lia. rewrite read_records_run by (done || cbn; lia). eexists. split; [done|]. split; [by apply ready_mem|].
    rewrite <-Hm1. replace (part (root_sector d ++ _) recno count) with (part (guest_order (d_byteswap d) l) (recno - 1) count); [by intros x|].
    unfold part. rewrite drop_app_ge by lia. f_equal. f_equal. lia.
Qed.

Lemma write_request major d l recno count buf c : disk_ready major d l c →
  request_ok d (Z.of_nat (length (visible d l))) (Write recno count buf) →
  ∃ c' l', do_request major (Write recno count buf) c = (Ret 0, c') ∧ disk_ready major d l' c' ∧ c'.(mach).(mem) = c.(mach).(mem) ∧
    visible d l' = overwrite (Z.to_nat (recno * 512)) (line_bytes c.(mach).(mem) (Z.to_nat (count * 512)) buf) (visible d l) ∧
    length l' = length l.
Proof.
  intros Hd (Hc & Hr & Hl & Hb & Hro & Hs). destruct (opened major d l c Hd) as (b & w & c1 & E1 & E2 & Hd1 & Hm1).
  pose proof (root_sector_length d) as Hroot. unfold visible in Hl. rewrite length_app, order_length in Hl.
  remember (if d.(d_sim_root) then recno - 1 else recno) as k eqn:Ek.
  assert (0 <= k ∧ 512 * (k + count) <= Z.of_nat (length l)) as [Hk1 Hk2].
  { subst k. destruct (d_sim_root d); [specialize (Hs eq_refl); lia|cbn in Hl; lia]. }
  destruct (write_records_run major d l k count buf c1 Hd1 Hc Hk1 Hk2 Hb) as (c2 & E & Hm & Hd2). rewrite Hm1 in *.
  set (data := line_bytes _ _ _) in *. assert (length data = Z.to_nat (count * 512)) as Hdata by apply line_bytes_length.
  exists c2, (overwrite (Z.to_nat (k * 512)) (guest_order (d_byteswap d) data) l).
  split; [|split; [done|split; [done|split]]].
  - cbn [do_request]. unfold XHReadWrite. erewrite xbind_ret by exact E1. change (tst 1 1) with true. cbv beta iota zeta.
    change (d_readonly (set_file b d)) with (d_readonly d). rewrite Hro. cbn [andb]. erewrite xbind_ret by exact E2.
    unfold root_part. change (d_sim_root (set_file b d)) with (d_sim_root d). subst k. destruct (d_sim_root d).
    + specialize (Hs eq_refl). rewrite (proj2 (Z.eqb_neq recno 0)) by lia. cbn [andb].
      erewrite xbind_ret by (by erewrite xbind_ret by reflexivity). cbn [fst snd]. rewrite (proj2 (Z.ltb_lt 0 recno)) by lia.
      rewrite (proj2 (Z.eqb_neq count 0)) by lia. exact E.
    + erewrite xbind_ret by reflexivity. cbv beta iota. rewrite (proj2 (Z.eqb_neq count 0)) by lia. exact E.
  - unfold visible. rewrite order_overwrite, order_order by (rewrite ?order_length, ?Hdata; first [lia|apply even_512; lia]).
    subst k. destruct (d_sim_root d); [|done]. specialize (Hs eq_refl). rewrite <-overwrite_behind by (rewrite order_length; lia). f_equal. lia.
  - apply overwrite_length. rewrite order_length, Hdata. lia.
Qed.

(** C8: Every sequence of reads and writes within the disk is answered as by a flat array of bytes, the one the guest sees of the image: all requests succeed, memory and
    disk are those of the array's run, and the image has the same length.  The requests transfer at least one sector, from and to RAM.  Reads may be anywhere on the disk; writes
    are to a disk that is not read-only and, where the first sector is made up by the emulator, start behind it ([request_ok]; see
    [root_write_ignored] for one that does not).  The image can be opened ([disk_ready]), and the host does not fail to write to it ([writes_ok]). *)
Theorem xhdi_refines_disk major d l rs c m : disk_ready major d l c → Forall (request_ok d (Z.of_nat (length (visible d l)))) rs →
  same_bytes c.(mach).(mem) m →
  ∃ c' l', xmap (do_request major) rs c = (Ret (replicate (length rs) 0), c') ∧ disk_ready major d l' c' ∧ length l' = length l ∧
    let st := foldl (flip array_step) (m, visible d l) rs in same_bytes c'.(mach).(mem) st.1 ∧ visible d l' = st.2.
Proof.
  intros Hd Hrs. revert c l m Hd Hrs. induction rs as [|r rs IH]; intros c l m Hd Hrs Hm; [by exists c, l|].
  inversion_clear Hrs as [|? ? Hr Hrs']. cbn [xmap length replicate foldl]. unfold flip at 2.
  assert (∃ c1 l1, do_request major r c = (Ret 0, c1) ∧ disk_ready major d l1 c1 ∧ length l1 = length l ∧
    same_bytes c1.(mach).(mem) (array_step r (m, visible d l)).1 ∧ visible d l1 = (array_step r (m, visible d l)).2) as (c1 & l1 & E & Hd1 & Hl1 & Hm1 & Hv1).
  { destruct r as [recno count buf|recno count buf].
    - destruct (read_request major d l recno count buf c Hd Hr) as (c1 & E & Hd1 & Hm1). exists c1, l. split_and!; try done. cbn.
      intros x. rewrite Hm1. by apply put_bytes_ext.
    - destruct (write_request major d l recno count buf c Hd Hr) as (c1 & l1 & E & Hd1 & Hm1 & Hv & Hl1). exists c1, l1. split_and!; try done; cbn.
      + by rewrite Hm1.
      + rewrite Hv. f_equal. by apply line_bytes_ext. }
  erewrite xbind_ret by exact E. destruct (IH c1 l1 (array_step r (m, visible d l)).1 Hd1) as (c2 & l2 & E2 & Hd2 & Hl2 & H2); [|done|].
  { revert Hrs'. apply Forall_impl. intros r'. unfold visible. by rewrite !length_app, !order_length, Hl1. }
  exists c2, l2. erewrite xbind_ret by exact E2. split; [done|]. split; [done|]. split; [by rewrite Hl2|]. cbv zeta in H2.
  rewrite Hv1, <-surjective_pairing in H2. exact H2.
Qed.
End Disk.

(** The root sector of a partition describes the image: the disk has one block more than it, and the partition starts behind the root
    sector and is the whole image. *)
Lemma root_partition fs i o f n : o.(o_present) = true → fs !! o.(o_path) = Some f → Z.of_nat (length f.(f_bytes)) = 512 * n → 0 <= n < 2 ^ 31 - 1 →
  let r := root_sector (copy_scsidevice_settings fs i o) in
  take 4 (drop 0x1c2 r) = be32 (n + 1) ∧ take 8 (drop 0x1ca r) = be32 1 ++ be32 n.
Proof.
  intros Hp Hf Hl Hn. assert ((copy_scsidevice_settings fs i o).(d_size_blocks) = n + 1) as E.
  { unfold copy_scsidevice_settings, setDiskSizeInBlocks, image_blocks. cbn. rewrite Hp. cbn. rewrite Hf. cbn.
    rewrite Hl, (Z.mul_comm 512), Z.div_mul by lia. unfold s32. rewrite Z.mod_small; lia. }
  cbv zeta. unfold root_sector. rewrite E. replace (n + 1 - 1) with n by lia. rewrite !u32_small by lia. split; [done|]. by case_match.
Qed.

(** ** A partition of two sectors

    The theorem of [XhdiSpec] applied to a machine with a small image, and where the driver differs from a disk. *)

#[local] Instance xh_self : XHState xhdi.
Proof. refine {| xh_of := id; xh_to := λ f _, f |}; done. Defined.
#[local] Instance xh_hw : Hardware xhdi := [].

Definition image : list Z := replicate 1024 7.
Definition partition : device_options := DeviceOptions 1 [] true false false false [71; 69; 77].
Definition absent : device_options := DeviceOptions 0 [] false false false false [0; 0; 0].
Definition image_files : gmap Z host_file := {[ 1 := HostFile image true ]}.
Definition the_disk : disk_t := copy_scsidevice_settings image_files 0 partition.

Definition xh_machine : machine xhdi :=
  Machine ex_regs (put_bytes 0x40000 [1; 2; 3; 4] ∅) (λ _, ex_line) (λ _ _, ex_line) true 0xeeeeeeee 0xeeeeeeee 0
    (Xhdi (init_disks (partition :: replicate 7 absent) [absent; absent] image_files) image_files).
Definition xh_cpu : m68k xhdi :=
  M68k xh_machine (λ n, n) 0x1000 0x6010 0x6800 0 false false false false 3 0x1234 0x1230 0x5000 0 0
    (Flags true false true false true) None 0 0 0 0.
Definition no_failure (_ : list Z) (_ : Z) (_ : list Z) : option (list Z) := None.

Lemma the_disk_ready : disk_ready 8 the_disk image xh_cpu.
Proof. split; [lia|done|by exists false|]. exists true. by split. Qed.

(** The second sector of the partition is written, and all three sectors are read. *)
Definition requests : list request := [Write 2 1 0x40000; Read 0 3 0x41000].

Lemma xhdi_refines_disk_witness : ∃ c' l', xmap (do_request no_failure 8) requests xh_cpu = (Ret [0; 0], c') ∧
  disk_ready 8 the_disk l' c' ∧
  aget c'.(mach).(mem) (0x41000 + 0x1c5) = 3 ∧ aget c'.(mach).(mem) (0x41000 + 1024) = 1 ∧ take 4 (drop 512 l') = [2; 1; 4; 3].
Proof.
  destruct (xhdi_refines_disk no_failure (λ _ _ _, eq_refl) 8 the_disk image requests xh_cpu xh_machine.(mem) the_disk_ready)
    as (c' & l' & E & Hd & Hl & Hm & Hv); [|by intros x|].
  { repeat constructor; try done; try lia; try (left; lia); cbn [d_sim_root the_disk copy_scsidevice_settings]; vm_compute; try done. }
  exists c', l'. split; [exact E|]. split; [done|]. split_and!.
  - rewrite Hm. by vm_compute.
  - rewrite Hm. by vm_compute.
  - assert (guest_order false (guest_order false l') = l') as <- by apply order_order.
    assert (guest_order false l' = drop 512 (visible the_disk l')) as -> by (unfold visible; by rewrite drop_app_length' by (by vm_compute)).
    rewrite Hv. by vm_compute.
Defined.

(** A write that begins at the root sector leaves it alone but reports success, unless it is of that sector only. *)
Lemma root_write_ignored :
  let r := XHReadWrite no_failure 8 0 1 0 2 0x40000 xh_cpu in
  r.1 = Ret 0 ∧ (XHReadWrite no_failure 8 0 1 0 1 0x40000 xh_cpu).1 = Ret TOS_EACCDN.
Proof. by vm_compute. Qed.

(** A write behind the end makes the image longer. *)
Lemma write_behind_end :
  let r := XHReadWrite no_failure 8 0 1 4 1 0x40000 xh_cpu in
  r.1 = Ret 0 ∧ option_map (λ f, length f.(f_bytes)) (r.2.(mach).(dev).(files) !! 1) = Some 2048%nat.
Proof. by vm_compute. Qed.
