(* ===== verification/Midi.v ===== *)
(** * Midi: the MIDI interface

    Models [src/midi.cpp] and [src/midi_file.cpp] with [include/midi.h]: an ACIA ([src/acia.cpp]) whose data register writes
    to a file.  [midi_written]: the file gets the bytes the guest sends, and silence for every note when it is closed. *)

From S2P Require Import Prelude Throws.
From stdpp Require Import base gmap list numbers.
Open Scope Z_scope.
Open Scope c_scope.
Open Scope x_scope.

Record MIDI := Midi {
  midi_cr : Z;
  midi_rxdr : Z;
  midi_txdr : Z;
  midi_sr : Z;
  midi_fd : Z;
  midi_file : list Z;  (* the bytes of the file *)
}.
Local Abbreviation M := (X MIDI).

(** Whether the option [midi.type] names this class and [midi.file] is not empty, and what [open] returns. *)
Record midi_options := MidiOptions { midi_named : bool; midi_open : Z }.

(** [ACIA::reset]. *)
Definition midi_reset : M unit := xmod (λ m, Midi 0 0 0 2 m.(midi_fd) m.(midi_file)).

Definition midi_WriteData (value : Z) : M unit :=
  xmod (λ m, if 0 <=? m.(midi_fd)
    then Midi m.(midi_cr) m.(midi_rxdr) m.(midi_txdr) m.(midi_sr) m.(midi_fd) (m.(midi_file) ++ [value]) else m).

(** Key [j] is released on all channels, for all [j]. *)
Definition midi_close : M unit :=
  let* m := xget id in
  xwhen (0 <=? m.(midi_fd))
    (xfor (seqZ 0 128) (λ j, xfor (seqZ 0 16) (λ i, midi_WriteData (0x80 + i) ;; midi_WriteData j ;; midi_WriteData 0)) ;;
     xmod (λ m, Midi m.(midi_cr) m.(midi_rxdr) m.(midi_txdr) m.(midi_sr) (-1) m.(midi_file))).

Definition midi_enable (o : midi_options) (bEnable : bool) : M unit :=
  xwhen (negb bEnable) midi_close ;;
  xwhen o.(midi_named)
    (let* m := xget id in
     xwhen (bEnable && (m.(midi_fd) <? 0))
       (xmod (λ m, Midi m.(midi_cr) m.(midi_rxdr) m.(midi_txdr) m.(midi_sr) o.(midi_open) m.(midi_file)))).

Definition midi_handleRead (HWoffset addr : Z) : M Z :=
  match addr -u HWoffset with 0 => xget midi_sr | 2 => xget midi_rxdr | _ => xret 0 end.

Definition midi_handleWrite (HWoffset addr value : Z) : M unit :=
  match addr -u HWoffset with
  | 0 =>
      if (value .& 3) =? 3 then midi_reset
      else xmod (λ m, Midi value m.(midi_rxdr) m.(midi_txdr) m.(midi_sr) m.(midi_fd) m.(midi_file))
  | 2 => midi_WriteData value
  | _ => xret tt
  end.

(** ** What the file gets *)

Lemma send_bytes l m : 0 <= m.(midi_fd) → xfor l midi_WriteData m =
  (Ret tt, Midi m.(midi_cr) m.(midi_rxdr) m.(midi_txdr) m.(midi_sr) m.(midi_fd) (m.(midi_file) ++ l)).
Proof.
  revert m. induction l as [|b l IH]; intros m Hm; [by destruct m; rewrite app_nil_r|]. cbn [xfor].
  erewrite xbind_ret; [|unfold midi_WriteData, xmod; rewrite (proj2 (Z.leb_le _ _)) by done; reflexivity].
  rewrite IH by done. cbn. by rewrite <-app_assoc.
Qed.

Definition silence : list Z := flat_map (λ j, flat_map (λ i, [0x80 + i; j; 0]) (seqZ 0 16)) (seqZ 0 128).

Lemma xfor_flat {A B S} (f : A → list B) (g : B → X S unit) (h : A → X S unit) l s :
  (∀ a s, h a s = xfor (f a) g s) → xfor l h s = xfor (flat_map f l) g s.
Proof.
  assert (∀ l1 l2 s, xfor (l1 ++ l2) g s = (xfor l1 g ;; xfor l2 g) s) as Happ.
  { intros l1 l2. induction l1 as [|b l1 IH]; intros t; [done|]. cbn [app xfor]. unfold xbind in *. by destruct (g b t) as [[] t']. }
  intros H. revert s. induction l as [|a l IH]; intros s; [done|]. cbn [flat_map xfor]. rewrite Happ. unfold xbind. rewrite H.
  by destruct (xfor (f a) g s) as [[] s'].
Qed.

(** From opening to closing: the bytes of the guest in order, then the release of all keys; the file is closed. *)
Theorem midi_written o off l m : 0 <= off < 2 ^ 32 - 2 → o.(midi_named) = true → 0 <= o.(midi_open) → m.(midi_fd) < 0 →
  ∃ m', (midi_enable o true ;; xfor l (midi_handleWrite off (off + 2)) ;; midi_enable o false) m = (Ret tt, m') ∧
    m'.(midi_file) = m.(midi_file) ++ l ++ silence ∧ m'.(midi_fd) = -1.
Proof.
  intros Hoff Hn Ho Hm. set (m1 := Midi m.(midi_cr) m.(midi_rxdr) m.(midi_txdr) m.(midi_sr) o.(midi_open) m.(midi_file)).
  rewrite (xbind_ret _ _ _ tt m1).
  2: { unfold midi_enable. cbn [negb xwhen]. erewrite xbind_ret by reflexivity. rewrite Hn. cbn [xwhen]. erewrite xbind_ret by reflexivity.
       cbn [id andb]. by rewrite (proj2 (Z.ltb_lt _ _)). }
  set (m2 := Midi m.(midi_cr) m.(midi_rxdr) m.(midi_txdr) m.(midi_sr) o.(midi_open) (m.(midi_file) ++ l)).
  rewrite (xbind_ret _ _ _ tt m2).
  2: { unfold midi_handleWrite. replace ((off + 2) -u off) with 2 by (rewrite u32_small; lia). cbv beta iota. by apply (send_bytes l m1). }
  unfold midi_enable. cbn [negb xwhen].
  set (m3 := Midi m.(midi_cr) m.(midi_rxdr) m.(midi_txdr) m.(midi_sr) (-1) ((m.(midi_file) ++ l) ++ silence)).
  rewrite (xbind_ret _ _ _ tt m3).
  2: { unfold midi_close. erewrite xbind_ret by reflexivity. change (midi_fd (id m2)) with o.(midi_open). rewrite (proj2 (Z.leb_le _ _)) by done. cbn [xwhen].
       rewrite (xbind_ret _ _ _ tt (Midi m.(midi_cr) m.(midi_rxdr) m.(midi_txdr) m.(midi_sr) o.(midi_open) ((m.(midi_file) ++ l) ++ silence))); [reflexivity|].
       rewrite (xfor_flat (λ j, flat_map (λ i, [0x80 + i; j; 0]) (seqZ 0 16)) midi_WriteData).
       - by apply (send_bytes silence m2).
       - intros j t. apply (xfor_flat (λ i, [0x80 + i; j; 0]) midi_WriteData). intros i u. cbn [xfor]. unfold xbind.
         by destruct (midi_WriteData (128 + i) u) as [[] u1]. }
  exists m3. split; [|split; [by cbn; rewrite <-app_assoc|done]]. rewrite Hn. reflexivity.
Qed.
