(* ===== verification/Joypads.v ===== *)
(** * Joypads: the enhanced joystick ports

    Models [src/joypads.cpp] with [include/joypads.h]: the switches of two pads as two words, the multiplexer through which
    the guest reads them a row at a time, and the events of the host's joysticks.  [pad_scanned]: the four rows of a pad
    give back all its switches; [events_move_switches]: what an event does to each switch. *)

From S2P Require Import Prelude Throws.
From stdpp Require Import base gmap list numbers.
Open Scope Z_scope.
Open Scope c_scope.
Open Scope x_scope.

(** The bits of a pad. *)
Abbreviation JP_PAUSE := 0 (only parsing).
Abbreviation JP_FIRE0 := 1 (only parsing).
Abbreviation JP_UNDEF0 := 2 (only parsing).
Abbreviation JP_FIRE1 := 3 (only parsing).
Abbreviation JP_FIRE2 := 5 (only parsing).
Abbreviation JP_OPTION := 7 (only parsing).
Abbreviation JP_UP := 8 (only parsing).
Abbreviation JP_DOWN := 9 (only parsing).
Abbreviation JP_LEFT := 10 (only parsing).
Abbreviation JP_RIGHT := 11 (only parsing).
Abbreviation JOYSTICK_THRESHOLD := 16384 (only parsing).

(** Mask, pad, shift and bits of the rows. *)
Definition multiplexer0 : list (Z * nat * Z * Z) :=
  [(0xfffe, 0%nat, 0, 3); (0xfffd, 0%nat, 2, 3); (0xfffb, 0%nat, 4, 3); (0xfff7, 0%nat, 6, 3);
   (0xffef, 1%nat, -2, 12); (0xffdf, 1%nat, 0, 12); (0xffbf, 1%nat, 2, 12); (0xff7f, 1%nat, 4, 12)].
Definition multiplexer1 : list (Z * nat * Z * Z) :=
  [(0xfffe, 0%nat, 8, 15); (0xfffd, 0%nat, 12, 15); (0xfffb, 0%nat, 16, 15); (0xfff7, 0%nat, 20, 15);
   (0xffef, 1%nat, 4, 240); (0xffdf, 1%nat, 8, 240); (0xffbf, 1%nat, 12, 240); (0xff7f, 1%nat, 16, 240)].

Definition buttons : list Z := [1; 3; 5; 0; 7; 16; 15; 19; 23; 14; 18; 22; 13; 17; 21; 12; 20].

Record JOYPADS := Joypads {
  joypada_mapping : list Z;
  joypadb_mapping : list Z;
  joy_mask : Z;
  host_state : list Z;  (* two pads *)
}.
Local Abbreviation M := (X JOYPADS).

(** [sscanf] stores the numbers it finds; the rest of [tmp] keeps what it held. *)
Definition scan_numbers (found tmp : list Z) : list Z := take 17 (found ++ drop (length found) tmp).
Definition invert_mapping (tmp : list Z) : list Z :=
  foldl (λ m i, let t := tmp !!! i in if (0 <=? t) && (t <? 17) then <[Z.to_nat t := Z.of_nat i]> m else m) (seqZ 0 17) (seq 0 17).
(** The constructor, from the numbers of the two options and what [tmp] held at first. *)
Definition new_joypads (founda foundb garbage : list Z) : JOYPADS :=
  let tmpa := scan_numbers founda garbage in
  let tmpb := scan_numbers foundb tmpa in
  Joypads (invert_mapping tmpa) (invert_mapping tmpb) 0xffff [0; 0].

Definition joypads_reset : M unit := xmod (λ j, Joypads j.(joypada_mapping) j.(joypadb_mapping) 0xffff [0; 0]).

(** The row selected by the mask. *)
Definition row_value (rows : list (Z * nat * Z * Z)) (j : JOYPADS) : Z :=
  match find (λ r, r.1.1.1 =? j.(joy_mask)) rows with
  | Some (_, pad, shift, m) =>
      let state := j.(host_state) !!! pad in
      u8 (Z.lnot ((if shift <? 0 then state << - shift else state >> shift) .& m))
  | None => 0xff
  end.

Definition joypads_handleRead (HWoffset addr : Z) : M Z :=
  match addr -u HWoffset with
  | 0 => xret 0xbf
  | 1 => xget (row_value multiplexer0)
  | 2 => xget (row_value multiplexer1)
  | _ => xret 0xff
  end.

Definition joypads_handleWrite (HWoffset addr value : Z) : M unit :=
  let set f := xmod (λ j, Joypads j.(joypada_mapping) j.(joypadb_mapping) (f j.(joy_mask)) j.(host_state)) in
  match addr -u HWoffset with
  | 2 => set (λ m, u16 ((m .& 0xff) .| Z.shiftl value 8))
  | 3 => set (λ m, (m .& 0xff00) .| value)
  | _ => xret tt
  end.

(** ** Events *)

Definition update_state (numjoy : Z) (f : Z → Z) : M unit :=
  if in_range 0 2 numjoy then
    xmod (λ j, Joypads j.(joypada_mapping) j.(joypadb_mapping) j.(joy_mask) (alter f (Z.to_nat numjoy) j.(host_state)))
  else xundef Oob_device.

(** [state &= ~mask] and [state |= 1<<bit] if the condition holds. *)
Definition clear (m state : Z) : Z := state .& u32 (Z.lnot m).
Definition press (c : bool) (b state : Z) : Z := if c then state .| 1 << b else state.

Definition sendJoystickAxis (numjoy numaxis value : Z) : M unit :=
  let move neg pos := update_state numjoy (λ s,
    press (JOYSTICK_THRESHOLD <? value) pos (press (value <? - JOYSTICK_THRESHOLD) neg (clear (1 << neg .| 1 << pos) s))) in
  match numaxis with
  | 0 => move JP_LEFT JP_RIGHT
  | 1 => move JP_UP JP_DOWN
  | _ => xret tt
  end.

(** The bits of SDL: up 1, right 2, down 4, left 8. *)
Definition sendJoystickHat (numjoy value : Z) : M unit :=
  update_state numjoy (λ s,
    press (tst value 4) JP_DOWN (press (tst value 1) JP_UP (press (tst value 2) JP_RIGHT (press (tst value 8) JP_LEFT
      (clear (1 << JP_UP .| 1 << JP_DOWN .| 1 << JP_LEFT .| 1 << JP_RIGHT) s))))).

Definition sendJoystickButton (numjoy which pressed : Z) : M unit :=
  let* j := xget id in
  let maptable := if numjoy =? 0 then j.(joypada_mapping) else j.(joypadb_mapping) in
  let numbit := if in_range 0 17 which then buttons !!! Z.to_nat (maptable !!! Z.to_nat which) else JP_UNDEF0 in
  update_state numjoy (λ s, if negb (pressed =? 0) then press true numbit s else clear (1 << numbit) s).

(** ** The guest's view *)

Section Scan.
Context (off : Z) (off_range : 0 <= off < 2 ^ 32 - 4).

(** Row [r] of pad [p]: the mask with a single zero, and the bits of the pad in the two registers. *)
Definition select_row (p r : Z) : M unit :=
  joypads_handleWrite off (off + 2) 0xff ;;
  joypads_handleWrite off (off + 3) (0xff - 2 ^ (4 * p + r)).
Definition read_row (p : Z) : M (Z * Z) :=
  let* a := joypads_handleRead off (off + 1) in
  let* b := joypads_handleRead off (off + 2) in
  xret (((0xff - a) / 4 ^ p) mod 4, ((0xff - b) / 16 ^ p) mod 16).
Definition scan_pad (p : Z) : M Z :=
  let* l := xmap (λ r, select_row p r ;; read_row p) [0; 1; 2; 3] in
  xret (foldr (λ v acc, v.1 + 4 * acc) 0 l + 256 * foldr (λ v acc, v.2 + 16 * acc) 0 l).

Lemma inverted m x : 0 <= m < 256 → 0xff - u8 (Z.lnot (x .& m)) = x .& m.
Proof.
  intros Hm. pose proof (land_range_r x m 8 ltac:(lia) ltac:(lia)). unfold u8, Z.lnot.
  rewrite <-(Z.mod_add _ 1), Z.mod_small by lia. lia.
Qed.

Definition with_mask (m : Z) (j : JOYPADS) : JOYPADS := Joypads j.(joypada_mapping) j.(joypadb_mapping) m j.(host_state).

Lemma select_row_run p r j : p = 0 ∨ p = 1 → r = 0 ∨ r = 1 ∨ r = 2 ∨ r = 3 →
  select_row p r j = (Ret tt, with_mask (0xffff - 2 ^ (4 * p + r)) j).
Proof.
  intros Hp Hr. unfold select_row, joypads_handleWrite.
  replace ((off + 2) -u off) with 2 by (rewrite u32_small; lia). replace ((off + 3) -u off) with 3 by (rewrite u32_small; lia).
  erewrite xbind_ret by reflexivity. unfold xmod, with_mask. cbn [joy_mask joypada_mapping joypadb_mapping host_state].
  assert (u16 ((joy_mask j .& 255) .| Z.shiftl 255 8) .& 65280 = 0xff00) as ->.
  { apply Z.bits_inj'. intros i Hi. unfold u16. change 65536 with (2 ^ 16). rewrite Z.land_spec.
    destruct (Z.ltb_spec i 16).
    - rewrite Z.mod_pow2_bits_low, Z.lor_spec, Z.land_spec by lia.
      assert (i = 0 ∨ i = 1 ∨ i = 2 ∨ i = 3 ∨ i = 4 ∨ i = 5 ∨ i = 6 ∨ i = 7 ∨ i = 8 ∨ i = 9 ∨ i = 10 ∨ i = 11 ∨ i = 12 ∨ i = 13 ∨ i = 14 ∨ i = 15)
        as Hc by lia.
      repeat destruct Hc as [->|Hc]; [..|subst i]; cbn; rewrite ?andb_false_r, ?andb_true_r, ?orb_true_r; done.
    - rewrite (range_bits 65280 16) by lia. by rewrite andb_false_r. }
  do 3 f_equal. by destruct Hp as [->| ->], Hr as [->|[->|[->| ->]]].
Qed.

Lemma field_0 s k : 0 <= k → (s >> k) .& 3 = s / 2 ^ k mod 4 ∧ (s >> k) .& 15 = s / 2 ^ k mod 16.
Proof. intros Hk. rewrite Z.shiftr_div_pow2 by done. change 3 with (Z.ones 2). change 15 with (Z.ones 4). by rewrite !Z.land_ones by lia. Qed.

Lemma field_high x m n : 0 <= n → (x .& Z.shiftl m n) / 2 ^ n = (x >> n) .& m.
Proof. intros Hn. rewrite <-Z.shiftr_div_pow2, Z.shiftr_land, Z.shiftr_shiftl_l, Z.sub_diag by done. done. Qed.

Lemma read_row_run p r j : p = 0 ∨ p = 1 → r = 0 ∨ r = 1 ∨ r = 2 ∨ r = 3 → j.(joy_mask) = 0xffff - 2 ^ (4 * p + r) →
  0 <= j.(host_state) !!! Z.to_nat p < 2 ^ 24 → let s := j.(host_state) !!! Z.to_nat p in
  read_row p j = (Ret (s / 2 ^ (2 * r) mod 4, s / 2 ^ (8 + 4 * r) mod 16), j).
Proof.
  intros Hp Hr Hm Hs. cbv zeta. unfold read_row, joypads_handleRead.
  replace ((off + 1) -u off) with 1 by (rewrite u32_small; lia). replace ((off + 2) -u off) with 2 by (rewrite u32_small; lia).
  erewrite xbind_ret by reflexivity. erewrite xbind_ret by reflexivity. unfold xret, row_value. rewrite Hm.
  assert (find (λ e, e.1.1.1 =? 0xffff - 2 ^ (4 * p + r)) multiplexer0 =
      Some (0xffff - 2 ^ (4 * p + r), Z.to_nat p, 2 * r - 2 * p, Z.shiftl 3 (2 * p)) ∧
    find (λ e, e.1.1.1 =? 0xffff - 2 ^ (4 * p + r)) multiplexer1 =
      Some (0xffff - 2 ^ (4 * p + r), Z.to_nat p, 8 + 4 * r - 4 * p, Z.shiftl 15 (4 * p))) as [-> ->]
    by (by destruct Hp as [->| ->], Hr as [->|[->|[->| ->]]]).
  set (s := host_state j !!! Z.to_nat p) in *. rewrite !inverted by (destruct Hp as [->| ->]; done).
  assert (4 ^ p = 2 ^ (2 * p) ∧ 16 ^ p = 2 ^ (4 * p)) as [-> ->] by (by destruct Hp as [->| ->]).
  rewrite !field_high by lia. rewrite (proj2 (Z.ltb_ge (8 + 4 * r - 4 * p) 0)) by lia. rewrite Z.shiftr_shiftr by lia.
  replace (8 + 4 * r - 4 * p + 4 * p) with (8 + 4 * r) by lia. rewrite (proj2 (field_0 s (8 + 4 * r) ltac:(lia))).
  assert ((if 2 * r - 2 * p <? 0 then s << - (2 * r - 2 * p) else s >> (2 * r - 2 * p)) >> (2 * p) = s >> (2 * r)) as ->.
  { destruct (Z.ltb_spec (2 * r - 2 * p) 0).
    - assert (p = 1 ∧ r = 0) as [-> ->] by lia. cbn [Z.mul Z.sub Z.opp]. rewrite Z.shiftr_0_r. change (- (2 * 0 - 2 * 1)) with 2.
      rewrite shl_2, u32_small by lia. rewrite Z.shiftr_div_pow2 by lia. change (2 ^ (2 * 1)) with 4. by rewrite Z.div_mul.
    - rewrite Z.shiftr_shiftr by lia. f_equal. lia. }
  rewrite (proj1 (field_0 s (2 * r) ltac:(lia))). rewrite (Z.mod_mod _ 4), (Z.mod_mod _ 16) by lia. done.
Qed.

(** A scan of the four rows gives the 24 switches of the pad; nothing but the mask changes. *)
Theorem pad_scanned p j : p = 0 ∨ p = 1 → 0 <= j.(host_state) !!! Z.to_nat p < 2 ^ 24 →
  scan_pad p j = (Ret (j.(host_state) !!! Z.to_nat p), with_mask (0xffff - 2 ^ (4 * p + 3)) j).
Proof.
  intros Hp Hs. unfold scan_pad. set (row := λ r, select_row p r ;; read_row p).
  assert (∀ r j', r = 0 ∨ r = 1 ∨ r = 2 ∨ r = 3 → j'.(host_state) = j.(host_state) → row r j' =
    (Ret ((j.(host_state) !!! Z.to_nat p) / 2 ^ (2 * r) mod 4, (j.(host_state) !!! Z.to_nat p) / 2 ^ (8 + 4 * r) mod 16),
      with_mask (0xffff - 2 ^ (4 * p + r)) j')) as Hrow.
  { intros r j' Hr Hj. unfold row. erewrite xbind_ret by (by apply select_row_run). rewrite (read_row_run p r); [|done..|]; cbn [with_mask host_state]; by rewrite Hj. }
  set (s := host_state j !!! Z.to_nat p) in *.
  rewrite (xbind_ret _ _ _ ((λ r, (s / 2 ^ (2 * r) mod 4, s / 2 ^ (8 + 4 * r) mod 16)) <$> [0; 1; 2; 3]) (with_mask (0xffff - 2 ^ (4 * p + 3)) j)).
  - unfold xret. do 2 f_equal. cbn [foldr fmap list_fmap fst snd].
    repeat match goal with |- context [2 ^ ?e] => let v := eval vm_compute in (2 ^ e) in change (2 ^ e) with v end.
    assert (∀ x, x mod 4 + 4 * (x / 4 mod 4 + 4 * (x / 16 mod 4 + 4 * (x / 64 mod 4 + 4 * 0))) = x mod 256) as H4 by (intros; zdiv_lia).
    assert (∀ x, x mod 16 + 16 * (x / 16 mod 16 + 16 * (x / 256 mod 16 + 16 * (x / 4096 mod 16 + 16 * 0))) = x mod 65536) as H16 by (intros; zdiv_lia).
    specialize (H4 s). specialize (H16 (s / 256)). rewrite !Z.div_div in H16 by lia. rewrite Z.div_1_r, H4.
    change (256 * 16) with 4096 in H16. change (256 * 256) with 65536 in H16. change (256 * 4096) with 1048576 in H16. rewrite H16, (Z.mod_small (s / 256)) by (split; [apply Z.div_pos; lia|apply Z.div_lt_upper_bound; lia]).
    zdiv_lia.
  - clearbody row. cbn [xmap]. unfold xbind. by rewrite !Hrow by (lia || done).
Qed.
End Scan.

(** ** What events do *)

(** Bit [b] of pad [p]. *)
Definition switch (p b : Z) (j : JOYPADS) : bool := Z.testbit (j.(host_state) !!! Z.to_nat p) b.

Lemma press_bit c b s i : 0 <= b < 32 → 0 <= i → Z.testbit (press c b s) i = Z.testbit s i || c && (i =? b).
Proof.
  intros Hb Hi. unfold press. destruct c; cbn [andb]; [|by rewrite orb_false_r].
  rewrite pow2_32, Z.lor_spec, Z.pow2_bits_eqb by lia. by rewrite (Z.eqb_sym b i).
Qed.

Lemma clear_bits m s i : 0 <= m → 0 <= i < 32 → Z.testbit (clear m s) i = Z.testbit s i && negb (Z.testbit m i).
Proof.
  intros Hm Hi. unfold clear, u32. change 4294967296 with (2 ^ 32). by rewrite Z.land_spec, Z.mod_pow2_bits_low, Z.lnot_spec by lia.
Qed.

Definition pads_ok (j : JOYPADS) : Prop := length j.(host_state) = 2%nat.

Lemma update_switch p q b f j : p = 0 ∨ p = 1 → q = 0 ∨ q = 1 → pads_ok j → ∃ j', update_state p f j = (Ret tt, j') ∧ pads_ok j' ∧
  switch q b j' = if q =? p then Z.testbit (f (j.(host_state) !!! Z.to_nat p)) b else switch q b j.
Proof.
  intros Hp Hq Hj. unfold update_state. rewrite in_range_true by lia. eexists. split; [reflexivity|].
  unfold pads_ok, switch in *. cbn [host_state]. destruct j.(host_state) as [|x [|y []]]; try done.
  destruct Hp as [->| ->], Hq as [->| ->]; done.
Qed.

(** Events move the switches they name, and no others: a button the one the mapping gives it, an axis the two of its
    direction, a hat all four directions. *)
Theorem events_move_switches p q b j : p = 0 ∨ p = 1 → q = 0 ∨ q = 1 → 0 <= b < 24 → pads_ok j →
  (∀ which pressed, 0 <= which < 17 →
     let bit := buttons !!! Z.to_nat ((if p =? 0 then j.(joypada_mapping) else j.(joypadb_mapping)) !!! Z.to_nat which) in
     ∃ j', sendJoystickButton p which pressed j = (Ret tt, j') ∧ pads_ok j' ∧
       (0 <= bit < 24 → switch q b j' = if (q =? p) && (b =? bit) then negb (pressed =? 0) else switch q b j)) ∧
  (∀ value, ∃ j', sendJoystickAxis p 0 value j = (Ret tt, j') ∧ pads_ok j' ∧
     switch q b j' = if (q =? p) && (b =? JP_LEFT) then value <? -16384
       else if (q =? p) && (b =? JP_RIGHT) then 16384 <? value else switch q b j) ∧
  (∀ value, ∃ j', sendJoystickAxis p 1 value j = (Ret tt, j') ∧ pads_ok j' ∧
     switch q b j' = if (q =? p) && (b =? JP_UP) then value <? -16384
       else if (q =? p) && (b =? JP_DOWN) then 16384 <? value else switch q b j) ∧
  (∀ value, ∃ j', sendJoystickHat p value j = (Ret tt, j') ∧ pads_ok j' ∧
     switch q b j' = if negb (q =? p) then switch q b j else
       match b with JP_UP => tst value 1 | JP_RIGHT => tst value 2 | JP_DOWN => tst value 4 | JP_LEFT => tst value 8 | _ => switch q b j end).
Proof.
  intros Hp Hq Hb Hj.
  assert (∀ f, ∃ j', update_state p f j = (Ret tt, j') ∧ pads_ok j' ∧
    switch q b j' = if q =? p then Z.testbit (f (j.(host_state) !!! Z.to_nat p)) b else switch q b j) as Hu by (intros; by apply update_switch).
  assert ((q =? p) = true → switch q b j = Z.testbit (j.(host_state) !!! Z.to_nat p) b) as Hs by (intros ->%Z.eqb_eq; done).
  split_and!.
  - intros which pressed Hw. cbv zeta. unfold sendJoystickButton. erewrite xbind_ret by reflexivity. cbv zeta. rewrite in_range_true by done.
    change (id j) with j. set (bit := buttons !!! _). edestruct Hu as (j' & E & Hok & Hsw). exists j'. split; [exact E|]. split; [done|].
    clearbody bit. intros Hbit. rewrite Hsw. destruct (q =? p); [|done]. rewrite (Hs eq_refl). cbn [andb].
    destruct (negb _); [rewrite press_bit by lia|rewrite pow2_32, clear_bits, Z.pow2_bits_eqb by (lia || (apply Z.pow_nonneg; lia)); rewrite (Z.eqb_sym bit b)];
      destruct (b =? bit); cbn; by rewrite ?orb_true_r, ?orb_false_r, ?andb_true_r, ?andb_false_r.
  - intros value. edestruct Hu as (j' & E & Hok & Hsw). exists j'. split; [exact E|]. split; [done|]. rewrite Hsw.
    destruct (q =? p); [|done]. rewrite (Hs eq_refl), !press_bit, clear_bits by (lia || by vm_compute).
    change (Z.testbit (1 << 10 .| 1 << 11) b) with (Z.testbit (Z.lor (2 ^ 10) (2 ^ 11)) b). rewrite Z.lor_spec, !Z.pow2_bits_eqb by lia. cbn [andb].
    rewrite (Z.eqb_sym 10 b), (Z.eqb_sym 11 b).
    destruct (Z.eqb_spec b 10), (Z.eqb_spec b 11); subst; try lia; cbn; rewrite ?andb_true_r, ?andb_false_r, ?orb_false_r; done.
  - intros value. edestruct Hu as (j' & E & Hok & Hsw). exists j'. split; [exact E|]. split; [done|]. rewrite Hsw.
    destruct (q =? p); [|done]. rewrite (Hs eq_refl), !press_bit, clear_bits by (lia || by vm_compute).
    change (Z.testbit (1 << 8 .| 1 << 9) b) with (Z.testbit (Z.lor (2 ^ 8) (2 ^ 9)) b). rewrite Z.lor_spec, !Z.pow2_bits_eqb by lia. cbn [andb].
    rewrite (Z.eqb_sym 8 b), (Z.eqb_sym 9 b).
    destruct (Z.eqb_spec b 8), (Z.eqb_spec b 9); subst; try lia; cbn; rewrite ?andb_true_r, ?andb_false_r, ?orb_false_r; done.
  - intros value. edestruct Hu as (j' & E & Hok & Hsw). exists j'. split; [exact E|]. split; [done|]. rewrite Hsw.
    destruct (q =? p); [|done]. cbn [negb]. rewrite (Hs eq_refl), !press_bit, clear_bits by (lia || by vm_compute).
    assert (b = 8 ∨ b = 9 ∨ b = 10 ∨ b = 11 ∨ b <> 8 ∧ b <> 9 ∧ b <> 10 ∧ b <> 11) as [->|[->|[->|[->|(N8 & N9 & N10 & N11)]]]] by lia;
      try (cbn; rewrite ?andb_true_r, ?andb_false_r, ?orb_false_r; done).
    rewrite !(proj2 (Z.eqb_neq _ _)) by done. rewrite !andb_false_r, !orb_false_r.
    assert (Z.testbit (1 << 8 .| 1 << 9 .| 1 << 10 .| 1 << 11) b = false) as ->.
    { change (1 << 8 .| 1 << 9 .| 1 << 10 .| 1 << 11) with (Z.lor (Z.lor (Z.lor (2 ^ 8) (2 ^ 9)) (2 ^ 10)) (2 ^ 11)).
      rewrite !Z.lor_spec, !Z.pow2_bits_eqb by lia. lia. }
    rewrite andb_true_r. destruct b as [|[[[[|[]|]|[|[]|]|]|[[|[]|]|[|[]|]|]|]|[[[|[]|]|[|[]|]|]|[[|[]|]|[|[]|]|]|]|]|]; try done; lia.
Qed.

(** Where the code differs: an option with fewer than 17 numbers leaves the rest of [tmp] as it was, so that the second pad takes
    over the numbers of the first, and the first what the stack held. *)
Lemma second_mapping_from_first : (new_joypads [3; 2; 1; 0; 4; 5; 6; 7; 8; 9; 10; 11; 12; 13; 14; 15; 16] [] []).(joypadb_mapping) =
  [3; 2; 1; 0; 4; 5; 6; 7; 8; 9; 10; 11; 12; 13; 14; 15; 16].
Proof. by vm_compute. Qed.
