(* ===== verification/Aradata.v ===== *)
(** * Aradata: the emulator's own registers

    Models [src/aradata.cpp] with [include/aradata.h]: the signature and memory size the guest can read, and the position of the
    guest's mouse pointer, which a mouse driver writes to the registers or the emulator reads and writes among the variables
    of the operating system ([abase], from Line-A).  [mouse_position]: a position that is set is the one read back,
    as far as it is on the screen. *)

From S2P Require Import Prelude Throws Machine MachineSpec.
From stdpp Require Import base gmap list numbers.
Open Scope Z_scope.
Open Scope c_scope.
Open Scope x_scope.

Record ARADATA := Aradata {
  mouseDriver : bool;
  abase : Z;
  mouse_x : Z;
  mouse_y : Z;
}.

Section Aradata.
Context {cfg : Config}.
Abbreviation M := (X (machine ARADATA)).

Definition amod (f : ARADATA → ARADATA) : M unit := xmod (λ s, set_dev (f s.(dev)) s).

Definition aradata_reset : M unit := amod (λ _, Aradata false 0 (-1) (-1)).
Definition setAbase (new_abase : Z) : M unit := amod (λ a, Aradata a.(mouseDriver) new_abase a.(mouse_x) a.(mouse_y)).
Definition isAtariMouseDriver : M bool := xget (λ s, negb (s.(dev).(abase) =? 0) || s.(dev).(mouseDriver)).

(** [ReadHWMemInt16] and [WriteHWMemInt16]: the machine's memory without checks. *)
Definition ReadHWMemInt16 (addr : Z) : M Z := do_get_mem 2 addr.
Definition WriteHWMemInt16 (addr v : Z) : M unit := do_put_mem 2 addr (u16 v).

Definition getAtariMouseX : M Z :=
  let* a := xget dev in if negb (a.(abase) =? 0) then ReadHWMemInt16 (a.(abase) -u 0x25a) else xret a.(mouse_x).
Definition getAtariMouseY : M Z :=
  let* a := xget dev in if negb (a.(abase) =? 0) then ReadHWMemInt16 (a.(abase) -u 0x258) else xret a.(mouse_y).

Definition setAtariMousePosition (x y : Z) : M unit :=
  amod (λ a, Aradata a.(mouseDriver) a.(abase) x y) ;;
  let* a := xget dev in
  xwhen (negb (a.(abase) =? 0))
    (let* width := ReadHWMemInt16 (a.(abase) -u 0x0c) in
     let* height := ReadHWMemInt16 (a.(abase) -u 0x04) in
     xwhen ((0 <=? x) && (x <? width)) (WriteHWMemInt16 (a.(abase) -u 0x25a) x) ;;
     xwhen ((0 <=? y) && (y <? height)) (WriteHWMemInt16 (a.(abase) -u 0x258) y)).

Context (HWoffset : Z).

Definition aradata_handleRead (addr : Z) : M Z :=
  xret (match addr -u HWoffset with
        | 0 => 95 | 1 => 65 | 2 => 82 | 3 => 65  (* "_ARA" *)
        | 6 => u8 (FastRAM_SIZE >> 24)
        | 7 => u8 (FastRAM_SIZE >> 16)
        | 8 => u8 (FastRAM_SIZE >> 8)
        | 9 => u8 FastRAM_SIZE
        | _ => 0
        end).

Definition aradata_handleWrite (addr value : Z) : M unit :=
  let at_x f := amod (λ a, Aradata a.(mouseDriver) a.(abase) (f a.(mouse_x)) a.(mouse_y)) in
  let at_y f := amod (λ a, Aradata a.(mouseDriver) a.(abase) a.(mouse_x) (f a.(mouse_y))) in
  match addr -u HWoffset with
  | 14 => at_x (λ v, (v .& 0xff) .| Z.shiftl value 8)
  | 15 => at_x (λ v, (v .& 0xff00) .| value)
  | 16 => at_y (λ v, (v .& 0xff) .| Z.shiftl value 8)
  | 17 => at_y (λ v, (v .& 0xff00) .| value)
  | _ => xret tt
  end ;;
  amod (λ a, Aradata true a.(abase) a.(mouse_x) a.(mouse_y)).

(** ** The position *)

(** The variables of the operating system are in memory. *)
Definition abase_ok (s : machine ARADATA) : Prop :=
  s.(dev).(abase) = 0 ∨ 0x25a <= s.(dev).(abase) < 2 ^ 32 ∧ host_ok (s.(dev).(abase) - 0x25a) 0x25a = true.

(** The position the guest shows after the emulator moves the pointer to [x], [y]: each coordinate is taken over unless it is
    off the screen. *)
Theorem mouse_position x y s : abase_ok s → ∃ s', setAtariMousePosition x y s = (Ret tt, s') ∧
  (s.(dev).(abase) = 0 → getAtariMouseX s' = (Ret x, s') ∧ getAtariMouseY s' = (Ret y, s')) ∧
  (s.(dev).(abase) ≠ 0 →
     let old a := be_get 2 s.(mem) (s.(dev).(abase) - a) in
     getAtariMouseX s' = (Ret (if (0 <=? x) && (x <? old 0x0c) then x else old 0x25a), s') ∧
     getAtariMouseY s' = (Ret (if (0 <=? y) && (y <? old 0x04) then y else old 0x258), s')).
Proof.
  intros [H0|[Ha Hok]]; unfold setAtariMousePosition, getAtariMouseX, getAtariMouseY.
  { erewrite xbind_ret by reflexivity. erewrite xbind_ret by reflexivity. cbn [dev set_dev abase]. rewrite H0. cbn [Z.eqb negb xwhen].
    eexists. split; [reflexivity|]. split; [|done]. intros _. destruct s as [? ? ? ? ? ? ? ? []]. cbn in H0. by subst. }
  set (b := s.(dev).(abase)) in *. assert (∀ k, 0 <= k <= 0x25a → b -u k = b - k) as Hk by (intros; apply u32_small; lia).
  assert (∀ k, 2 <= k <= 0x25a → host_ok (b - k) (Z.of_nat 2) = true) as Hh by (intros; eapply host_ok_sub; [exact Hok|lia..]).
  erewrite xbind_ret by reflexivity. set (s1 := set_dev _ _). erewrite xbind_ret by reflexivity. change (abase (dev s1)) with b.
  rewrite (proj2 (Z.eqb_neq b 0)) by lia. cbn [negb xwhen]. rewrite !Hk by lia. unfold ReadHWMemInt16, WriteHWMemInt16.
  erewrite xbind_ret by (apply do_get_mem_run, Hh; lia). erewrite xbind_ret by (apply do_get_mem_run, Hh; lia).
  change (mem s1) with s.(mem). set (old := λ k, be_get 2 s.(mem) (b - k)).
  change (be_get 2 (mem s) (b - 12)) with (old 12). change (be_get 2 (mem s) (b - 4)) with (old 4).
  assert (∀ k, 0 <= old k < 65536) as Hold by (intros; apply (be_get_range 2)).
  set (m1 := if (0 <=? x) && (x <? old 12) then be_put 2 (b - 0x25a) (u16 x) s.(mem) else s.(mem)).
  rewrite (xbind_ret _ _ _ tt (set_mem m1 s1)).
  2: { unfold m1. destruct (_ && _); [exact (do_put_mem_run 2 (b - 0x25a) (u16 x) s1 (Hh 0x25a ltac:(lia)))|]. done. }
  set (m2 := if (0 <=? y) && (y <? old 4) then be_put 2 (b - 0x258) (u16 y) m1 else m1).
  exists (set_mem m2 s1). split; [|split].
  - unfold m2. destruct ((0 <=? y) && _); [|done]. exact (do_put_mem_run 2 (b - 0x258) (u16 y) (set_mem m1 s1) (Hh 0x258 ltac:(lia))).
  - lia.
  - intros _. cbv zeta. split; (erewrite xbind_ret by reflexivity); change (abase (dev (set_mem m2 s1))) with b;
      rewrite (proj2 (Z.eqb_neq b 0)), Hk by lia; cbn [negb]; rewrite do_get_mem_run by (apply Hh; lia);
      change (mem (set_mem m2 s1)) with m2; do 2 f_equal; unfold m2, m1.
    + destruct ((0 <=? y) && _); rewrite ?be_get_put_disjoint by lia;
        (destruct ((0 <=? x) && (x <? old 12)) eqn:E; [|done]); rewrite be_get_put; change (256 ^ Z.of_nat 2) with 65536;
        apply andb_true_iff in E as [?%Z.leb_le H0%Z.ltb_lt]; pose proof (Z.lt_trans _ _ _ H0 (proj2 (Hold 12))); unfold u16; by rewrite Z.mod_mod, Z.mod_small by lia.
    + destruct ((0 <=? y) && (y <? old 4)) eqn:E.
      * rewrite be_get_put. change (256 ^ Z.of_nat 2) with 65536. apply andb_true_iff in E as [?%Z.leb_le H0%Z.ltb_lt]. pose proof (Z.lt_trans _ _ _ H0 (proj2 (Hold 4))).
        unfold u16. by rewrite Z.mod_mod, Z.mod_small by lia.
      * destruct ((0 <=? x) && _); [|done]. by rewrite be_get_put_disjoint by lia.
Qed.
End Aradata.
