(* ===== verification/Md5.v ===== *)
(** * Md5: the checksum of ROM images

    Models [src/md5.cpp] with [include/aramd5.h], which identify the TOS image: the compression function with its 64 steps,
    and the functions that feed it with bytes in pieces.  The model is that of a little-endian host, where [byteSwap] does nothing
    and the words of the buffer [in] are its bytes, least significant first. *)

From S2P Require Import Prelude Throws.
From stdpp Require Import base list numbers.
Open Scope Z_scope.
Open Scope c_scope.
Open Scope x_scope.

(** ** The compression function *)

(** [buf]. *)
Record md5_state := Md5State { md_a : Z; md_b : Z; md_c : Z; md_d : Z }.

(** The core functions. *)
Inductive md5_fun := F1 | F2 | F3 | F4.
Definition core (f : md5_fun) (x y z : Z) : Z :=
  match f with
  | F1 => z .^ (x .& (y .^ z))
  | F2 => y .^ (z .& (x .^ y))
  | F3 => x .^ y .^ z
  | F4 => y .^ (x .| u32 (Z.lnot z))
  end.

(** [MD5STEP(f,w,x,y,z,in[k]+c,s)]: [w] is the register that changes, and [x], [y], [z] are the ones that follow it in a cycle. *)
Inductive md5_reg := RA | RB | RC | RD.
Record md5_step := MD5STEP { st_f : md5_fun; st_w : md5_reg; st_in : Z; st_add : Z; st_s : Z }.

Definition step_value (f : md5_fun) (w x y z inp s : Z) : Z :=
  let w := w +u (core f x y z +u inp) in
  ((w << s) .| (w >> (32 - s))) +u x.

Definition do_step (inp : Z → Z) (q : md5_state) (p : md5_step) : md5_state :=
  let '(Md5State a b c d) := q in
  let v w x y z := step_value p.(st_f) w x y z (inp p.(st_in) +u p.(st_add)) p.(st_s) in
  match p.(st_w) with
  | RA => Md5State (v a b c d) b c d
  | RD => Md5State a b c (v d a b c)
  | RC => Md5State a b (v c d a b) d
  | RB => Md5State a (v b c d a) c d
  end.

Definition md5_steps : list md5_step :=
  [MD5STEP F1 RA 0 0xd76aa478 7; MD5STEP F1 RD 1 0xe8c7b756 12;
   MD5STEP F1 RC 2 0x242070db 17; MD5STEP F1 RB 3 0xc1bdceee 22;
   MD5STEP F1 RA 4 0xf57c0faf 7; MD5STEP F1 RD 5 0x4787c62a 12;
   MD5STEP F1 RC 6 0xa8304613 17; MD5STEP F1 RB 7 0xfd469501 22;
   MD5STEP F1 RA 8 0x698098d8 7; MD5STEP F1 RD 9 0x8b44f7af 12;
   MD5STEP F1 RC 10 0xffff5bb1 17; MD5STEP F1 RB 11 0x895cd7be 22;
   MD5STEP F1 RA 12 0x6b901122 7; MD5STEP F1 RD 13 0xfd987193 12;
   MD5STEP F1 RC 14 0xa679438e 17; MD5STEP F1 RB 15 0x49b40821 22;
   MD5STEP F2 RA 1 0xf61e2562 5; MD5STEP F2 RD 6 0xc040b340 9;
   MD5STEP F2 RC 11 0x265e5a51 14; MD5STEP F2 RB 0 0xe9b6c7aa 20;
   MD5STEP F2 RA 5 0xd62f105d 5; MD5STEP F2 RD 10 0x02441453 9;
   MD5STEP F2 RC 15 0xd8a1e681 14; MD5STEP F2 RB 4 0xe7d3fbc8 20;
   MD5STEP F2 RA 9 0x21e1cde6 5; MD5STEP F2 RD 14 0xc33707d6 9;
   MD5STEP F2 RC 3 0xf4d50d87 14; MD5STEP F2 RB 8 0x455a14ed 20;
   MD5STEP F2 RA 13 0xa9e3e905 5; MD5STEP F2 RD 2 0xfcefa3f8 9;
   MD5STEP F2 RC 7 0x676f02d9 14; MD5STEP F2 RB 12 0x8d2a4c8a 20;
   MD5STEP F3 RA 5 0xfffa3942 4; MD5STEP F3 RD 8 0x8771f681 11;
   MD5STEP F3 RC 11 0x6d9d6122 16; MD5STEP F3 RB 14 0xfde5380c 23;
   MD5STEP F3 RA 1 0xa4beea44 4; MD5STEP F3 RD 4 0x4bdecfa9 11;
   MD5STEP F3 RC 7 0xf6bb4b60 16; MD5STEP F3 RB 10 0xbebfbc70 23;
   MD5STEP F3 RA 13 0x289b7ec6 4; MD5STEP F3 RD 0 0xeaa127fa 11;
   MD5STEP F3 RC 3 0xd4ef3085 16; MD5STEP F3 RB 6 0x04881d05 23;
   MD5STEP F3 RA 9 0xd9d4d039 4; MD5STEP F3 RD 12 0xe6db99e5 11;
   MD5STEP F3 RC 15 0x1fa27cf8 16; MD5STEP F3 RB 2 0xc4ac5665 23;
   MD5STEP F4 RA 0 0xf4292244 6; MD5STEP F4 RD 7 0x432aff97 10;
   MD5STEP F4 RC 14 0xab9423a7 15; MD5STEP F4 RB 5 0xfc93a039 21;
   MD5STEP F4 RA 12 0x655b59c3 6; MD5STEP F4 RD 3 0x8f0ccc92 10;
   MD5STEP F4 RC 10 0xffeff47d 15; MD5STEP F4 RB 1 0x85845dd1 21;
   MD5STEP F4 RA 8 0x6fa87e4f 6; MD5STEP F4 RD 15 0xfe2ce6e0 10;
   MD5STEP F4 RC 6 0xa3014314 15; MD5STEP F4 RB 13 0x4e0811a1 21;
   MD5STEP F4 RA 4 0xf7537e82 6; MD5STEP F4 RD 11 0xbd3af235 10;
   MD5STEP F4 RC 2 0x2ad7d2bb 15; MD5STEP F4 RB 9 0xeb86d391 21].

Definition MD5Transform (buf : md5_state) (inp : Z → Z) : md5_state :=
  let '(Md5State a b c d) := foldl (do_step inp) buf md5_steps in
  Md5State (md_a buf +u a) (md_b buf +u b) (md_c buf +u c) (md_d buf +u d).

(** ** The context *)

Record MD5Context := Md5Context {
  md_buf : md5_state;
  bytes0 : Z;
  bytes1 : Z;
  md_in : list Z;  (* the bytes of [in] *)
}.
Local Abbreviation M := (X MD5Context).

(** Words of four bytes. *)
Definition le_word (l : list Z) (k : Z) : Z :=
  let b i := nth (Z.to_nat (4 * k + i)) l 0 in
  b 0 + b 1 * 256 + b 2 * 65536 + b 3 * 16777216.
Definition le_bytes (w : Z) : list Z := [u8 w; u8 (w >> 8); u8 (w >> 16); u8 (w >> 24)].

(** [memcpy] to the buffer from position [pos] on; past its end this is undefined. *)
Definition put_in (pos : Z) (l : list Z) : M unit :=
  if in_range 0 65 (pos + Z.of_nat (length l)) && (0 <=? pos) then
    xmod (λ c, Md5Context c.(md_buf) c.(bytes0) c.(bytes1) (list_inserts (Z.to_nat pos) l c.(md_in)))
  else xundef Oob_device.

(** [MD5Transform(ctx->buf, ctx->in)]. *)
Definition transform_in : M unit :=
  xmod (λ c, Md5Context (MD5Transform c.(md_buf) (le_word c.(md_in))) c.(bytes0) c.(bytes1) c.(md_in)).

Definition MD5Init : M unit :=
  xmod (λ c, Md5Context (Md5State 0x67452301 0xefcdab89 0x98badcfe 0x10325476) 0 0 c.(md_in)).

(** The loop over whole blocks; as many rounds as there are bytes are enough. *)
Fixpoint update_blocks (fuel : nat) (l : list Z) : M unit :=
  match fuel with
  | O => xret tt
  | S fuel =>
      if 64 <=? Z.of_nat (length l) then
        put_in 0 (take 64 l) ;;
        transform_in ;;
        update_blocks fuel (drop 64 l)
      else put_in 0 l
  end.

(** [len], an [unsigned], is the length of the list. *)
Definition MD5Update (l : list Z) : M unit :=
  let len := Z.of_nat (length l) in
  let* t := xget bytes0 in
  xmod (λ c, Md5Context c.(md_buf) (t +u len) c.(bytes1) c.(md_in)) ;;
  xwhen ((t +u len) <? t) (xmod (λ c, Md5Context c.(md_buf) c.(bytes0) (c.(bytes1) +u 1) c.(md_in))) ;;
  let t := 64 -u (t .& 0x3f) in
  if len <? t then put_in (64 - t) l else
  put_in (64 - t) (take (Z.to_nat t) l) ;;
  transform_in ;;
  update_blocks (S (length l)) (drop (Z.to_nat t) l).

Definition MD5Final : M (list Z) :=
  let* c := xget id in
  let count := c.(bytes0) .& 0x3f in
  put_in count [0x80] ;;
  let p := count + 1 in
  let count := 56 - 1 - count in
  let* r :=
    if count <? 0 then
      put_in p (replicate (Z.to_nat (count + 8)) 0) ;;
      transform_in ;;
      xret (0, 56)
    else xret (p, count) in
  let '(p, count) := r in
  put_in p (replicate (Z.to_nat count) 0) ;;
  put_in 56 (le_bytes (c.(bytes0) << 3)) ;;
  put_in 60 (le_bytes ((c.(bytes1) << 3) .| (c.(bytes0) >> 29))) ;;
  transform_in ;;
  let* q := xget md_buf in
  xmod (λ _, Md5Context (Md5State 0 0 0 0) 0 0 (replicate 64 0)) ;;
  xret (le_bytes (md_a q) ++ le_bytes (md_b q) ++ le_bytes (md_c q) ++ le_bytes (md_d q)).

(** ** The sums of a buffer and of a file *)

(** The size is converted from [unsigned long] to [unsigned]. *)
Definition computeSum (l : list Z) : M (list Z) :=
  MD5Init ;;
  MD5Update (take (Z.to_nat (u32 (Z.of_nat (length l)))) l) ;;
  MD5Final.

Definition compareSum (l digest : list Z) : M bool :=
  let* d := computeSum l in
  xret (bool_decide (digest = d)).

(** A file is read in pieces of 1024 bytes and a shorter last one; as many pieces as there are bytes are enough. *)
Fixpoint sum_file (fuel : nat) (l : list Z) : M unit :=
  match fuel with
  | O => xret tt
  | S fuel =>
      let buf := take 1024 l in
      if (0 <? Z.of_nat (length buf)) then MD5Update buf ;; sum_file fuel (drop 1024 l) else xret tt
  end.

(** [error] is what [ferror] returns in the end. *)
Definition computeSum_file (error : bool) (l : list Z) : M (option (list Z)) :=
  MD5Init ;;
  sum_file (S (length l)) l ;;
  let* d := MD5Final in
  xret (if error then None else Some d).

Definition compareSum_file (error : bool) (l digest : list Z) : M bool :=
  let* d := computeSum_file error l in
  xret (match d with None => false | Some d => bool_decide (digest = d) end).
