(* ===== verification/Md5Spec.v ===== *)
(** * Md5Spec: the checksum is MD5

    The algorithm of RFC 1321, written as the text has it: constants from the sine, rounds by index, padding of the whole message.
    [md5_correct]: the code computes it, for a message given in pieces of any length. *)

From S2P Require Import Prelude Throws Md5.
From stdpp Require Import base list numbers.
Open Scope Z_scope.
Open Scope c_scope.
Open Scope x_scope.

(** ** RFC 1321 *)

(** The Taylor polynomial of the sine, as a fraction: [1 - x^2/(2k(2k+1)) (1 - ...)] with [m] levels. *)
Fixpoint sine_levels (m : nat) (x2 k : Z) : Z * Z :=
  match m with
  | O => (1, 1)
  | S m => let '(n, d) := sine_levels m x2 (k + 1) in let e := 2 * k * (2 * k + 1) in (e * d - x2 * n, e * d)
  end.
(** The 32 bits behind the point of [|sin i|], [i] in radians, and their table. *)
Definition sine_bits (i : Z) : Z := let '(n, d) := sine_levels 120 (i * i) 1 in 2 ^ 32 * Z.abs (i * n) / d.
Definition sine_table : list Z := Eval vm_compute in sine_bits <$> seqZ 1 64.
Definition rfc_t (i : Z) : Z := nth (Z.to_nat i) sine_table 0.

Definition not32 (x : Z) : Z := 2 ^ 32 - 1 - x.
Definition rotl (x s : Z) : Z := x * 2 ^ s mod 2 ^ 32 + x / 2 ^ (32 - s).

(** The function, the word and the shift of step [i]. *)
Definition rfc_f (i x y z : Z) : Z :=
  match i / 16 with
  | 0 => (x .& y) .| (not32 x .& z)
  | 1 => (x .& z) .| (y .& not32 z)
  | 2 => x .^ y .^ z
  | _ => y .^ (x .| not32 z)
  end.
Definition rfc_k (i : Z) : Z :=
  match i / 16 with 0 => i | 1 => (5 * i + 1) mod 16 | 2 => (3 * i + 5) mod 16 | _ => 7 * i mod 16 end.
Definition rfc_s (i : Z) : Z :=
  nth (Z.to_nat (i mod 4)) (match i / 16 with 0 => [7; 12; 17; 22] | 1 => [5; 9; 14; 20] | 2 => [4; 11; 16; 23] | _ => [6; 10; 15; 21] end) 0.

Definition rfc_step (M : Z → Z) (q : md5_state) (i : Z) : md5_state :=
  let '(Md5State a b c d) := q in
  Md5State d ((b + rotl ((a + rfc_f i b c d + M (rfc_k i) + rfc_t i) mod 2 ^ 32) (rfc_s i)) mod 2 ^ 32) b c.

Definition rfc_block (q : md5_state) (M : Z → Z) : md5_state :=
  let '(Md5State a b c d) := foldl (rfc_step M) q (seqZ 0 64) in
  Md5State ((md_a q + a) mod 2 ^ 32) ((md_b q + b) mod 2 ^ 32) ((md_c q + c) mod 2 ^ 32) ((md_d q + d) mod 2 ^ 32).

Definition rfc_init : md5_state := Md5State 0x67452301 0xefcdab89 0x98badcfe 0x10325476.

(** [n] blocks of a message. *)
Fixpoint absorb (n : nat) (q : md5_state) (l : list Z) : md5_state :=
  match n with O => q | S n => absorb n (rfc_block q (le_word (take 64 l))) (drop 64 l) end.

(** A one bit, zeros up to a length of 56 modulo 64, and the number of bits in 64 bits. *)
Definition rfc_padding (len : Z) : list Z :=
  let bits := 8 * len mod 2 ^ 64 in
  0x80 :: replicate (Z.to_nat ((55 - len) mod 64)) 0 ++ le_bytes (bits mod 2 ^ 32) ++ le_bytes (bits / 2 ^ 32).

Definition rfc_output (q : md5_state) : list Z :=
  le_bytes (md_a q) ++ le_bytes (md_b q) ++ le_bytes (md_c q) ++ le_bytes (md_d q).

Definition md5 (l : list Z) : list Z :=
  let padded := l ++ rfc_padding (Z.of_nat (length l)) in
  rfc_output (absorb (length padded / 64) rfc_init padded).

(** From the test suite of the RFC: "abc". *)
Example md5_abc : md5 [97; 98; 99] =
  [0x90; 0x01; 0x50; 0x98; 0x3c; 0xd2; 0x4f; 0xb0; 0xd6; 0x96; 0x3f; 0x7d; 0x28; 0xe1; 0x7f; 0x72].
Proof. vm_compute. reflexivity. Qed.

(** ** The compression function *)

Definition word32 (x : Z) : Prop := 0 <= x < 2 ^ 32.
Definition state_ok (q : md5_state) : Prop := word32 (md_a q) ∧ word32 (md_b q) ∧ word32 (md_c q) ∧ word32 (md_d q).

Lemma not32_bits x i : word32 x → 0 <= i → Z.testbit (not32 x) i = negb (Z.testbit x i) && (i <? 32).
Proof.
  intros Hx Hi. replace (not32 x) with (Z.lnot x mod 2 ^ 32).
  - destruct (Z.ltb_spec i 32).
    + by rewrite Z.mod_pow2_bits_low, Z.lnot_spec, andb_true_r by lia.
    + by rewrite Z.mod_pow2_bits_high, andb_false_r by lia.
  - unfold not32, Z.lnot, word32 in *. rewrite <-(Z.mod_add _ 1), Z.mod_small by lia. lia.
Qed.

Lemma u32_lnot x : word32 x → u32 (Z.lnot x) = not32 x.
Proof. intros Hx. unfold u32, not32, Z.lnot, word32 in *. rewrite <-(Z.mod_add _ 1), Z.mod_small by lia. lia. Qed.

Definition core_of (i : Z) : md5_fun := match i / 16 with 0 => F1 | 1 => F2 | 2 => F3 | _ => F4 end.

(** The optimised functions are those of the text. *)
Lemma core_rfc i x y z : 0 <= i < 64 → word32 x → word32 y → word32 z → core (core_of i) x y z = rfc_f i x y z.
Proof.
  intros Hi Hx Hy Hz. assert (i / 16 = 0 ∨ i / 16 = 1 ∨ i / 16 = 2 ∨ i / 16 = 3) as Hc by (Z.to_euclidean_division_equations; lia).
  unfold core_of, rfc_f. destruct Hc as [->|[->|[->| ->]]]; cbn [core]; [..|done|by rewrite u32_lnot]; apply Z.bits_inj'; intros j Hj;
    rewrite ?Z.lor_spec, ?Z.lxor_spec, ?Z.land_spec, ?Z.lxor_spec, not32_bits by done;
    (destruct (Z.ltb_spec j 32); [|rewrite !(range_bits _ 32 j) by (done || lia)]);
    destruct (Z.testbit x j), (Z.testbit y j), (Z.testbit z j); done.
Qed.

Lemma rotl_shifts w s : 0 < s < 32 → word32 w → (w << s) .| (w >> (32 - s)) = rotl w s.
Proof.
  intros Hs Hw. unfold rotl, u32. rewrite Z.shiftl_mul_pow2, Z.shiftr_div_pow2 by lia. change 4294967296 with (2 ^ 32).
  replace (2 ^ 32) with (2 ^ (32 - s) * 2 ^ s) by (rewrite <-Z.pow_add_r by lia; f_equal; lia).
  rewrite Z.mul_mod_distr_r by lia. apply lor_disjoint_add; [lia|].
  split; [apply Z.div_pos; unfold word32 in Hw; lia|]. apply Z.div_lt_upper_bound; [lia|].
  rewrite <-Z.pow_add_r by lia. replace (32 - s + s) with 32 by lia. apply Hw.
Qed.

Lemma rfc_s_range i : 0 <= i < 64 → 0 < rfc_s i < 32.
Proof.
  intros Hi. assert (forallb (λ i, (0 <? rfc_s i) && (rfc_s i <? 32)) (seqZ 0 64) = true) as H by (by vm_compute).
  rewrite forallb_forall in H. specialize (H i). rewrite <-list_elem_of_In, elem_of_seqZ in H. specialize (H ltac:(lia)). lia.
Qed.

Lemma step_value_rfc i w x y z m k : 0 <= i < 64 → word32 x → word32 y → word32 z →
  step_value (core_of i) w x y z (m +u k) (rfc_s i) =
    (x + rotl ((w + rfc_f i x y z + m + k) mod 2 ^ 32) (rfc_s i)) mod 2 ^ 32.
Proof.
  intros Hi Hx Hy Hz. unfold step_value. rewrite core_rfc by done.
  assert (w +u (rfc_f i x y z +u (m +u k)) = (w + rfc_f i x y z + m + k) mod 2 ^ 32) as ->.
  { unfold u32. change 4294967296 with (2 ^ 32). rewrite Zplus_mod_idemp_r, Z.add_assoc, Zplus_mod_idemp_r. f_equal. lia. }
  rewrite rotl_shifts; [|by apply rfc_s_range|apply Z.mod_pos_bound; lia]. unfold u32. f_equal. lia.
Qed.

(** Step [i] of the code; the text renames the registers instead of naming another one in each step. *)
Definition reg_of (i : Z) : md5_reg := match i mod 4 with 0 => RA | 1 => RD | 2 => RC | _ => RB end.
Definition code_step (i : Z) : md5_step := MD5STEP (core_of i) (reg_of i) (rfc_k i) (rfc_t i) (rfc_s i).
Definition seen (i : Z) (q : md5_state) : md5_state :=
  let '(Md5State a b c d) := q in
  match i mod 4 with 0 => Md5State a b c d | 1 => Md5State d a b c | 2 => Md5State c d a b | _ => Md5State b c d a end.

Lemma md5_steps_rfc : md5_steps = code_step <$> seqZ 0 64.
Proof. vm_compute. reflexivity. Qed.

Lemma word32_mod x : word32 (x mod 2 ^ 32).
Proof. apply Z.mod_pos_bound. lia. Qed.

Lemma step_rfc inp q i : 0 <= i < 64 → state_ok (seen i q) →
  seen (i + 1) (do_step inp q (code_step i)) = rfc_step inp (seen i q) i ∧ state_ok (seen (i + 1) (do_step inp q (code_step i))).
Proof.
  intros Hi Hq. assert (i mod 4 = 0 ∧ (i + 1) mod 4 = 1 ∨ i mod 4 = 1 ∧ (i + 1) mod 4 = 2 ∨ i mod 4 = 2 ∧ (i + 1) mod 4 = 3 ∨
    i mod 4 = 3 ∧ (i + 1) mod 4 = 0) as Hc by (Z.to_euclidean_division_equations; lia).
  assert (seen (i + 1) (do_step inp q (code_step i)) = rfc_step inp (seen i q) i) as E.
  { destruct q as [a b c d]. unfold do_step, seen, reg_of, code_step, rfc_step in *. cbn [st_w st_f st_in st_add st_s].
    unfold reg_of. destruct Hc as [[E1 E2]|[[E1 E2]|[[E1 E2]|[E1 E2]]]]; rewrite E1, E2 in *; rewrite step_value_rfc; (done || apply Hq). }
  split; [done|]. rewrite E. destruct (seen i q) as [a b c d]. destruct Hq as (? & ? & ? & ?). unfold rfc_step, state_ok. cbn [md_a md_b md_c md_d] in *.
  split_and!; [done|apply word32_mod|done|done].
Qed.

Lemma steps_rfc inp n q : (n <= 64)%nat → state_ok q →
  let q' := foldl (do_step inp) q (code_step <$> seqZ 0 (Z.of_nat n)) in
  seen (Z.of_nat n) q' = foldl (rfc_step inp) q (seqZ 0 (Z.of_nat n)) ∧ state_ok (seen (Z.of_nat n) q').
Proof.
  intros Hn Hq. induction n as [|n IH]; [by destruct q|].
  destruct IH as [IH Hok]; [lia|]. rewrite Nat2Z.inj_succ. change (Z.succ (Z.of_nat n)) with (Z.of_nat n + 1).
  rewrite seqZ_app by lia. change (seqZ (0 + Z.of_nat n) 1) with [Z.of_nat n]. rewrite fmap_app, !foldl_app. cbn [fmap list_fmap foldl].
  rewrite <-IH. apply step_rfc; [lia|done].
Qed.

Lemma transform_rfc q inp : state_ok q → MD5Transform q inp = rfc_block q inp.
Proof.
  intros Hq. destruct (steps_rfc inp 64 q) as [E _]; [lia|done|]. unfold MD5Transform, rfc_block.
  rewrite md5_steps_rfc. change (Z.of_nat 64) with 64 in E. rewrite <-E. by destruct (foldl _ _ _).
Qed.

Lemma rfc_block_ok q inp : state_ok (rfc_block q inp).
Proof. unfold rfc_block. destruct (foldl _ _ _). split_and!; apply word32_mod. Qed.

(** ** Blocks of a message *)

Lemma absorb_ok n q l : state_ok q → state_ok (absorb n q l).
Proof. revert q l. induction n as [|n IH]; intros q l Hq; [done|]. apply IH, rfc_block_ok. Qed.

Lemma absorb_app n q l1 l2 : (64 * n <= length l1)%nat → absorb n q (l1 ++ l2) = absorb n q l1.
Proof.
  revert q l1. induction n as [|n IH]; intros q l1 Hl; [done|]. cbn [absorb].
  rewrite take_app_le, drop_app_le by lia. apply IH. rewrite length_drop. lia.
Qed.

Lemma absorb_add n m q l : absorb (n + m) q l = absorb m (absorb n q l) (drop (64 * n) l).
Proof.
  revert q l. induction n as [|n IH]; intros q l; [by rewrite Nat.mul_0_r|]. cbn [absorb Nat.add].
  rewrite IH, drop_drop. do 2 f_equal. lia.
Qed.

Lemma absorb_1 q l : length l = 64%nat → absorb 1 q l = rfc_block q (le_word l).
Proof. intros Hl. cbn [absorb]. by rewrite take_ge by lia. Qed.

(** The message so far: whole blocks have gone into the state, the rest is at the start of the buffer. *)
Record absorbed (c : MD5Context) (l : list Z) : Prop := {
  ab_in : length c.(md_in) = 64%nat;
  ab_count : word32 c.(bytes0) ∧ word32 c.(bytes1) ∧ c.(bytes0) + 2 ^ 32 * c.(bytes1) = Z.of_nat (length l) mod 2 ^ 64;
  ab_buf : c.(md_buf) = absorb (length l / 64) rfc_init l;
  ab_rest : take (length l mod 64) c.(md_in) = drop (64 * (length l / 64)) l;
}.

Definition with_in (l : list Z) (c : MD5Context) : MD5Context := Md5Context c.(md_buf) c.(bytes0) c.(bytes1) l.
Definition with_buf (q : md5_state) (c : MD5Context) : MD5Context := Md5Context q c.(bytes0) c.(bytes1) c.(md_in).

(** Bytes at a position of the buffer. *)
Definition overlay (pos : nat) (l m : list Z) : list Z := take pos m ++ l ++ drop (pos + length l) m.

Lemma list_inserts_overlay pos (l m : list Z) : (pos + length l <= length m)%nat → list_inserts pos l m = overlay pos l m.
Proof.
  intros Hl. unfold overlay. rewrite <-(take_drop pos m) at 1. rewrite <-(length_take_le m pos) at 1 by lia.
  rewrite <-(Nat.add_0_r (length (take pos m))), list_inserts_app_r. f_equal.
  rewrite <-(take_drop (length l) (drop pos m)) at 1. rewrite list_inserts_0_r by (rewrite length_take, length_drop; lia).
  by rewrite drop_drop.
Qed.

Lemma put_in_run pos l c : 0 <= pos → (Z.to_nat pos + length l <= 64)%nat → length c.(md_in) = 64%nat →
  put_in pos l c = (Ret tt, with_in (overlay (Z.to_nat pos) l c.(md_in)) c).
Proof.
  intros Hp Hl Hc. unfold put_in. rewrite in_range_true, (proj2 (Z.leb_le 0 pos)) by lia. cbn [andb].
  unfold xmod. by rewrite list_inserts_overlay by lia.
Qed.

Lemma overlay_length pos l m : (pos + length l <= length m)%nat → length (overlay pos l m) = length m.
Proof. intros H. unfold overlay. rewrite !length_app, length_take, length_drop. lia. Qed.

Lemma overlay_take pos l m : (pos + length l <= length m)%nat → take (pos + length l) (overlay pos l m) = take pos m ++ l.
Proof. intros H. unfold overlay. rewrite app_assoc, take_app_length'; [done|]. rewrite length_app, length_take. lia. Qed.

Lemma overlay_full pos l m : (pos + length l = length m)%nat → overlay pos l m = take pos m ++ l.
Proof. intros H. unfold overlay. by rewrite drop_ge, app_nil_r by lia. Qed.

Lemma transform_in_run c : state_ok c.(md_buf) → transform_in c = (Ret tt, with_buf (rfc_block c.(md_buf) (le_word c.(md_in))) c).
Proof. intros Hc. unfold transform_in, xmod. by rewrite transform_rfc. Qed.

(** The loop over the blocks. *)
Lemma update_blocks_run fuel l c : (length l < fuel)%nat → length c.(md_in) = 64%nat → state_ok c.(md_buf) →
  ∃ m, update_blocks fuel l c = (Ret tt, with_in m (with_buf (absorb (length l / 64) c.(md_buf) l) c)) ∧
    length m = 64%nat ∧ take (length l mod 64) m = drop (64 * (length l / 64)) l.
Proof.
  revert l c. induction fuel as [|fuel IH]; intros l c Hf Hc Hq; [lia|]. cbn [update_blocks].
  destruct (Z.leb_spec 64 (Z.of_nat (length l))) as [Hl|Hl].
  - rewrite (xbind_ret _ _ c tt (with_in (take 64 l) c)).
    2: { rewrite put_in_run by (rewrite ?length_take; lia). by rewrite overlay_full by (rewrite length_take; lia). }
    rewrite (xbind_ret _ _ _ tt _ (transform_in_run (with_in (take 64 l) c) Hq)). cbn [with_in md_buf md_in].
    destruct (IH (drop 64 l) (with_buf (rfc_block c.(md_buf) (le_word (take 64 l))) (with_in (take 64 l) c)))
      as (m & E & Hm & Hr); [rewrite length_drop; lia|cbn; rewrite length_take; lia|apply rfc_block_ok|].
    exists m. rewrite length_drop in E, Hr.
    assert (length l / 64 = S ((length l - 64) / 64))%nat as En.
    { replace (length l) with (length l - 64 + 1 * 64)%nat at 1 by lia. rewrite Nat.div_add by lia. lia. }
    assert (length l mod 64 = (length l - 64) mod 64)%nat as Em.
    { replace (length l) with (length l - 64 + 1 * 64)%nat at 1 by lia. by rewrite Nat.Div0.mod_add. }
    rewrite En, Em, Hr, drop_drop. split_and!; [exact E|done|f_equal; lia].
  - rewrite put_in_run by lia. exists (overlay 0 l (md_in c)). rewrite Nat.div_small, Nat.mod_small by lia.
    split_and!; [by destruct c|rewrite overlay_length; lia|]. apply (overlay_take 0). lia.
Qed.

(** The count of the bytes in two words. *)
Lemma count_run (b0 b1 n len : Z) : word32 b0 → word32 b1 → 0 <= n → 0 <= len < 2 ^ 32 → b0 + 2 ^ 32 * b1 = n mod 2 ^ 64 →
  let b1' := if (b0 +u len) <? b0 then b1 +u 1 else b1 in
  word32 (b0 +u len) ∧ word32 b1' ∧ (b0 +u len) + 2 ^ 32 * b1' = (n + len) mod 2 ^ 64.
Proof.
  intros H0 H1 Hn Hlen E. cbv zeta. rewrite <-Zplus_mod_idemp_l, <-E. unfold word32 in *.
  assert (b0 +u len = if b0 + len <? 2 ^ 32 then b0 + len else b0 + len - 2 ^ 32) as ->.
  { unfold u32. destruct (Z.ltb_spec (b0 + len) (2 ^ 32)); [rewrite Z.mod_small; lia|].
    rewrite <-(Z.mod_add _ (-1)), Z.mod_small; lia. }
  destruct (Z.ltb_spec (b0 + len) (2 ^ 32)).
  - rewrite (proj2 (Z.ltb_ge _ _)) by lia. split_and!; [lia..|]. rewrite Z.mod_small; lia.
  - rewrite (proj2 (Z.ltb_lt _ _)) by lia. unfold u32. destruct (Z.eq_dec b1 (2 ^ 32 - 1)) as [->|].
    + change ((2 ^ 32 - 1 + 1) mod 4294967296) with 0. split_and!; [lia..|].
      rewrite <-(Z.mod_add _ (-1)), Z.mod_small; lia.
    + rewrite Z.mod_small by lia. split_and!; [lia..|]. rewrite Z.mod_small; lia.
Qed.

Lemma land_63 x : x .& 0x3f = x mod 64.
Proof. change 0x3f with (Z.ones 6). by rewrite Z.land_ones. Qed.

Lemma count_rest c l : absorbed c l → c.(bytes0) .& 0x3f = Z.of_nat (length l mod 64).
Proof.
  intros [_ (_ & _ & E) _ _]. rewrite land_63, Nat2Z.inj_mod. change (Z.of_nat 64) with 64.
  rewrite <-(Z.mod_mod_divide (Z.of_nat (length l)) (2 ^ 64) 64), <-E by (by exists (2 ^ 58)).
  replace (2 ^ 32 * bytes1 c) with (2 ^ 26 * bytes1 c * 64) by lia. by rewrite Z.mod_add.
Qed.

(** [MD5Update] appends to the message. *)
Lemma update_run c l x : absorbed c l → Z.of_nat (length x) < 2 ^ 32 →
  ∃ c', MD5Update x c = (Ret tt, c') ∧ absorbed c' (l ++ x).
Proof.
  intros H Hx. pose proof (count_rest c l H) as Er. destruct H as [Hin (H0 & H1 & E) Hbuf Hrest].
  destruct (count_run c.(bytes0) c.(bytes1) (Z.of_nat (length l)) (Z.of_nat (length x))) as (C0 & C1 & C); [done|done|lia|lia|done|].
  set (b1 := if _ <? _ then _ else _) in C1, C. set (b0 := bytes0 c +u _) in *.
  set (c1 := Md5Context c.(md_buf) b0 b1 c.(md_in)).
  unfold MD5Update. erewrite xbind_ret by reflexivity. cbv zeta. erewrite xbind_ret by reflexivity.
  rewrite (xbind_ret _ _ _ tt c1) by (unfold c1, b1; by destruct (_ <? _)). rewrite Er.
  set (r := (length l mod 64)%nat) in *. set (n := (length l / 64)%nat) in *.
  assert (length l = 64 * n + r)%nat as El by (apply Nat.div_mod; lia). assert (r < 64)%nat as Hr by (apply Nat.mod_upper_bound; lia).
  assert (64 -u Z.of_nat r = 64 - Z.of_nat r) as -> by (apply u32_small; lia).
  assert (state_ok c.(md_buf)) as Hq by (rewrite Hbuf; apply absorb_ok; by split_and!).
  replace (64 - (64 - Z.of_nat r)) with (Z.of_nat r) by lia.
  assert (Z.of_nat (length (l ++ x)) = Z.of_nat (length l) + Z.of_nat (length x)) as Elen by (rewrite length_app; lia).
  destruct (Z.ltb_spec (Z.of_nat (length x)) (64 - Z.of_nat r)) as [Hs|Hs].
  - rewrite put_in_run by (done || lia). rewrite Nat2Z.id. eexists. split; [reflexivity|]. cbn [md_in c1].
    assert (length (l ++ x) / 64 = n ∧ length (l ++ x) mod 64 = r + length x)%nat as [En Em].
    { rewrite length_app, El. split; [symmetry; apply (Nat.div_unique _ _ _ (r + length x)); lia|].
      symmetry; apply (Nat.mod_unique _ _ n); lia. }
    split; cbn [with_in md_in bytes0 bytes1 md_buf c1].
    + rewrite overlay_length; lia.
    + by rewrite Elen.
    + rewrite En, absorb_app by lia. done.
    + rewrite En, Em, overlay_take by lia. by rewrite Hrest, drop_app_le by lia.
  - set (t := (64 - r)%nat). replace (Z.to_nat (64 - Z.of_nat r)) with t by lia.
    rewrite (xbind_ret _ _ _ tt (with_in (take r c.(md_in) ++ take t x) c1)).
    2: { rewrite put_in_run by (rewrite ?length_take; (done || lia)). rewrite Nat2Z.id. change (md_in c1) with c.(md_in).
         by rewrite overlay_full by (rewrite length_take; lia). }
    erewrite (xbind_ret _ _ _ tt) by (apply transform_in_run; exact Hq). cbn [with_in md_buf md_in c1].
    set (c2 := with_buf _ _). assert (c2.(md_buf) = absorb (n + 1) rfc_init (l ++ x)) as Hb2.
    { rewrite absorb_add, absorb_app by lia. unfold c2. cbn [with_buf md_buf]. rewrite Hrest, drop_app_le by lia. cbn [absorb]. rewrite Hbuf.
      rewrite take_app, (take_ge (drop _ _)), length_drop by (rewrite length_drop; lia).
      by replace (64 - (length l - 64 * n))%nat with t by lia. }
    destruct (update_blocks_run (S (length x)) (drop t x) c2) as (m & Em & Hm & Ht);
      [rewrite length_drop; lia|change (md_in c2) with (take r c.(md_in) ++ take t x); rewrite length_app, !length_take; lia|rewrite Hb2; apply absorb_ok; by split_and!|].
    eexists. split; [exact Em|]. rewrite length_drop in *.
    assert (length (l ++ x) / 64 = (n + 1) + (length x - t) / 64 ∧ length (l ++ x) mod 64 = (length x - t) mod 64)%nat as [En Ed].
    { rewrite length_app, El. replace (64 * n + r + length x)%nat with (length x - t + (n + 1) * 64)%nat by lia.
      rewrite Nat.div_add, Nat.Div0.mod_add by lia. lia. }
    assert (drop (64 * (n + 1)) (l ++ x) = drop t x) as Edrop.
    { rewrite drop_app_ge by lia. f_equal. lia. }
    split; cbn [with_in with_buf md_in bytes0 bytes1 md_buf c1 c2].
    + done.
    + by rewrite Elen.
    + rewrite En, absorb_add, Edrop, <-Hb2. done.
    + rewrite En, Ed, Ht, <-Edrop, drop_drop. f_equal. lia.
Qed.

(** ** Padding *)

(** The buffer starts with [pre]. *)
Definition filled (pre : list Z) (c : MD5Context) : Prop := length c.(md_in) = 64%nat ∧ take (length pre) c.(md_in) = pre.

Lemma put_filled pre l c pos : filled pre c → pos = Z.of_nat (length pre) → (length pre + length l <= 64)%nat →
  ∃ m, put_in pos l c = (Ret tt, with_in m c) ∧ filled (pre ++ l) (with_in m c).
Proof.
  intros [Hc Hp] -> Hl. exists (overlay (length pre) l c.(md_in)). rewrite put_in_run by lia. rewrite Nat2Z.id. split; [done|].
  split; cbn [with_in md_in]; [rewrite overlay_length; lia|]. by rewrite length_app, overlay_take, Hp by lia.
Qed.

Lemma filled_all pre c : filled pre c → length pre = 64%nat → c.(md_in) = pre.
Proof. intros [Hc Hp] Hl. by rewrite <-Hp, take_ge by lia. Qed.

Lemma length_words w1 w2 : length (le_bytes w1 ++ le_bytes w2) = 8%nat.
Proof. done. Qed.

(** The two words of the bit count. *)
Lemma count_words c l : absorbed c l → let bits := 8 * Z.of_nat (length l) mod 2 ^ 64 in
  c.(bytes0) << 3 = bits mod 2 ^ 32 ∧ (c.(bytes1) << 3) .| (c.(bytes0) >> 29) = bits / 2 ^ 32.
Proof.
  intros [_ (H0 & H1 & E) _ _]. cbv zeta. rewrite <-Zmult_mod_idemp_r, <-E. set (b0 := bytes0 c) in *. set (b1 := bytes1 c) in *.
  unfold u32, word32 in *. rewrite !Z.shiftl_mul_pow2, Z.shiftr_div_pow2 by lia. change 4294967296 with (2 ^ 32).
  assert (0 <= b0 / 2 ^ 29 < 2 ^ 3) by (Z.to_euclidean_division_equations; lia).
  assert ((b1 * 2 ^ 3) mod 2 ^ 32 = b1 mod 2 ^ 29 * 2 ^ 3) as ->.
  { change (2 ^ 32) with (2 ^ 29 * 2 ^ 3). by rewrite Z.mul_mod_distr_r. }
  rewrite lor_disjoint_add by lia. Z.to_euclidean_division_equations. lia.
Qed.

(** What is left to do once the buffer holds 56 bytes of the last block. *)
Definition finish (lo hi : Z) : X MD5Context (list Z) :=
  put_in 56 (le_bytes lo) ;;
  put_in 60 (le_bytes hi) ;;
  transform_in ;;
  let* q := xget md_buf in
  xmod (λ _, Md5Context (Md5State 0 0 0 0) 0 0 (replicate 64 0)) ;;
  xret (rfc_output q).
Definition cleared : MD5Context := Md5Context (Md5State 0 0 0 0) 0 0 (replicate 64 0).

Lemma finish_run lo hi pre c : filled pre c → length pre = 56%nat → state_ok c.(md_buf) →
  finish lo hi c = (Ret (rfc_output (rfc_block c.(md_buf) (le_word (pre ++ le_bytes lo ++ le_bytes hi)))), cleared).
Proof.
  intros Hf Hl Hq. unfold finish.
  destruct (put_filled pre (le_bytes lo) c 56 Hf) as (m1 & E1 & H1); [lia|cbn; lia|]. erewrite xbind_ret by exact E1.
  destruct (put_filled _ (le_bytes hi) _ 60 H1) as (m2 & E2 & H2); [rewrite length_app; cbn; lia|rewrite length_app; cbn; lia|].
  erewrite xbind_ret by exact E2. erewrite xbind_ret by (by apply transform_in_run).
  rewrite (filled_all _ _ H2), <-app_assoc by (rewrite !length_app; cbn; lia). reflexivity.
Qed.

Lemma final_run c l : absorbed c l → MD5Final c = (Ret (md5 l), cleared).
Proof.
  intros H. pose proof (count_rest c l H) as Er. destruct (count_words c l H) as [Elo Ehi]. destruct H as [Hin _ Hbuf Hrest].
  unfold md5. set (bits := 8 * _ mod _) in *. set (r := (length l mod 64)%nat) in *. set (n := (length l / 64)%nat) in *.
  assert (length l = 64 * n + r)%nat as El by (apply Nat.div_mod; lia). assert (r < 64)%nat as Hr by (apply Nat.mod_upper_bound; lia).
  clearbody r n.
  assert (state_ok c.(md_buf)) as Hq by (rewrite Hbuf; apply absorb_ok; by split_and!).
  set (pre := drop (64 * n) l) in *. assert (length pre = r) as Hpre by (unfold pre; rewrite length_drop; lia).
  assert (length (pre ++ [128%Z]) = r + 1)%nat as Hpre1 by (rewrite length_app, Hpre; done).
  assert (filled pre c) as Hf by (split; [done|by rewrite Hpre]).
  destruct (put_filled pre [0x80] c (Z.of_nat r) Hf) as (m1 & E1 & H1); [by rewrite Hpre|rewrite Hpre; cbn; lia|].
  assert ((55 - Z.of_nat (length l)) mod 64 = if (r <=? 55)%nat then 55 - Z.of_nat r else 119 - Z.of_nat r) as Ez.
  { rewrite El. destruct (Nat.leb_spec r 55); symmetry; [apply (Zmod_unique _ _ (- Z.of_nat n))|apply (Zmod_unique _ _ (- Z.of_nat n - 1))]; lia. }
  unfold rfc_padding. fold bits. rewrite Ez. unfold MD5Final. erewrite xbind_ret by reflexivity. cbv zeta.
  change (id c) with c. rewrite Er, Elo, Ehi. erewrite xbind_ret by exact E1.
  destruct (Nat.leb_spec r 55) as [Hs|Hs].
  - rewrite (proj2 (Z.ltb_ge _ 0)) by lia. erewrite xbind_ret by reflexivity. cbv beta iota.
    destruct (put_filled _ (replicate (Z.to_nat (56 - 1 - Z.of_nat r)) 0) _ (Z.of_nat r + 1) H1) as (m2 & E2 & H2);
      [lia|rewrite length_replicate; lia|].
    erewrite xbind_ret by exact E2. etrans; [eapply (finish_run _ _ _ _ H2);
      [rewrite length_app, length_replicate; lia|exact Hq]|].
    cbn [with_in md_buf]. do 2 f_equal. rewrite Hbuf. set (pad := 128 :: _ ++ _).
    assert (length pad = 64 - r)%nat as Hpad by (unfold pad; rewrite length_cons, length_app, length_replicate, length_words; lia).
    replace (length (l ++ pad) / 64)%nat with (n + 1)%nat by (rewrite length_app; apply (Nat.div_unique _ _ _ 0); lia).
    rewrite absorb_add, absorb_app, drop_app_le by lia. fold pre. rewrite absorb_1 by (rewrite length_app; lia).
    unfold pad. rewrite <-!app_assoc. cbn [app]. by replace (55 - Z.of_nat r) with (56 - 1 - Z.of_nat r) by lia.
  - rewrite (proj2 (Z.ltb_lt _ 0)) by lia. set (z1 := replicate (Z.to_nat (56 - 1 - Z.of_nat r + 8)) 0).
    assert (length z1 = 63 - r)%nat as Hz1 by (unfold z1; rewrite length_replicate; lia).
    destruct (put_filled _ z1 _ (Z.of_nat r + 1) H1) as (m2 & E2 & H2); [lia..|].
    rewrite (xbind_ret _ _ _ (0, 56) (with_buf (rfc_block c.(md_buf) (le_word m2)) (with_in m2 c))).
    2: { erewrite xbind_ret by exact E2. erewrite xbind_ret by (by apply transform_in_run). done. }
    cbv beta iota. pose proof (filled_all _ _ H2) as Em. rewrite length_app in Em. specialize (Em ltac:(lia)). cbn [with_in md_in] in Em.
    destruct (put_filled [] (replicate (Z.to_nat 56) 0) (with_buf (rfc_block c.(md_buf) (le_word m2)) (with_in m2 c)) 0) as (m3 & E3 & H3);
      [split; [apply H2|done]|done|by apply Nat.leb_le|].
    erewrite xbind_ret by exact E3. etrans; [eapply (finish_run _ _ _ _ H3); [done|apply rfc_block_ok]|].
    cbn [with_in with_buf md_buf]. do 2 f_equal. rewrite Hbuf, Em. set (pad := 128 :: _ ++ _).
    assert (length pad = 128 - r)%nat as Hpad by (unfold pad; rewrite length_cons, length_app, length_replicate, length_words; lia).
    replace (length (l ++ pad) / 64)%nat with (n + 2)%nat by (rewrite length_app; apply (Nat.div_unique _ _ _ 0); lia).
    rewrite absorb_add, absorb_app, drop_app_le by lia. fold pre.
    assert (pre ++ pad = ((pre ++ [128]) ++ z1) ++ (replicate 56 0 ++ le_bytes (bits mod 2 ^ 32) ++ le_bytes (bits / 2 ^ 32))) as ->.
    { unfold pad, z1. replace (Z.to_nat (119 - Z.of_nat r)) with (Z.to_nat (56 - 1 - Z.of_nat r + 8) + 56)%nat by lia.
      by rewrite replicate_add, <-!app_assoc. }
    cbn [absorb]. rewrite take_app_length', drop_app_length' by (rewrite length_app; lia).
    by rewrite take_ge by (rewrite length_app, length_replicate, length_words; lia).
Qed.

(** ** The theorem *)

Lemma init_absorbed c : length c.(md_in) = 64%nat → ∃ c', MD5Init c = (Ret tt, c') ∧ absorbed c' [].
Proof. intros Hc. eexists. split; [reflexivity|]. by split. Qed.

Lemma updates_run ls c l : absorbed c l → Forall (λ x, Z.of_nat (length x) < 2 ^ 32) ls →
  ∃ c', xfor ls MD5Update c = (Ret tt, c') ∧ absorbed c' (l ++ concat ls).
Proof.
  revert c l. induction ls as [|x ls IH]; intros c l Hc Hl; [exists c; by rewrite app_nil_r|]. inversion Hl as [|? ? Hx Hls]; subst.
  destruct (update_run c l x Hc Hx) as (c1 & E1 & H1). destruct (IH c1 _ H1 Hls) as (c2 & E2 & H2).
  exists c2. cbn [xfor concat]. rewrite app_assoc. split; [by erewrite xbind_ret by exact E1|done].
Qed.

(** A file is read to its end. *)
Lemma sum_file_run fuel l c pre : (length l < fuel)%nat → absorbed c pre →
  ∃ c', sum_file fuel l c = (Ret tt, c') ∧ absorbed c' (pre ++ l).
Proof.
  revert l c pre. induction fuel as [|fuel IH]; intros l c pre Hf Hc; [lia|]. cbn [sum_file].
  destruct (Z.ltb_spec 0 (Z.of_nat (length (take 1024 l)))) as [Hl|Hl]; rewrite length_take in Hl.
  - destruct (update_run c pre (take 1024 l) Hc) as (c1 & E1 & H1); [rewrite length_take; lia|].
    destruct (IH (drop 1024 l) c1 (pre ++ take 1024 l)) as (c2 & E2 & H2); [rewrite length_drop; lia|done|].
    exists c2. rewrite <-app_assoc, take_drop in H2. split; [by erewrite xbind_ret by exact E1|done].
  - exists c. destruct l; [by rewrite app_nil_r|cbn in Hl; lia].
Qed.

Section Sums.
Context (c : MD5Context) (buffer : length c.(md_in) = 64%nat).

Lemma pieces_run ls : Forall (λ x, Z.of_nat (length x) < 2 ^ 32) ls →
  (MD5Init ;; xfor ls MD5Update ;; MD5Final) c = (Ret (md5 (concat ls)), cleared).
Proof.
  intros Hls. destruct (init_absorbed c buffer) as (c0 & E0 & H0). destruct (updates_run ls c0 [] H0 Hls) as (c1 & E1 & H1).
  erewrite xbind_ret by exact E0. erewrite xbind_ret by exact E1. by apply final_run.
Qed.

Lemma computeSum_run l : Z.of_nat (length l) < 2 ^ 32 → computeSum l c = (Ret (md5 l), cleared).
Proof.
  intros Hl. destruct (init_absorbed c buffer) as (c0 & E0 & H0). destruct (update_run c0 [] l H0 Hl) as (c1 & E1 & H1).
  unfold computeSum. rewrite u32_small, take_ge by lia.
  erewrite xbind_ret by exact E0. erewrite xbind_ret by exact E1. by apply final_run.
Qed.

Lemma computeSum_file_run error l : computeSum_file error l c = (Ret (if error then None else Some (md5 l)), cleared).
Proof.
  destruct (init_absorbed c buffer) as (c0 & E0 & H0).
  destruct (sum_file_run (S (length l)) l c0 []) as (c1 & E1 & H1); [lia|done|].
  unfold computeSum_file. erewrite xbind_ret by exact E0. erewrite xbind_ret by exact E1.
  by erewrite xbind_ret by (by apply final_run).
Qed.

(** A buffer or a file counts as equal to a digest exactly if its sum is the digest. *)
Lemma compareSum_run l digest :
  (Z.of_nat (length l) < 2 ^ 32 → compareSum l digest c = (Ret (bool_decide (digest = md5 l)), cleared)) ∧
  compareSum_file false l digest c = (Ret (bool_decide (digest = md5 l)), cleared).
Proof.
  split.
  - intros Hl. unfold compareSum. by erewrite xbind_ret by (by apply computeSum_run).
  - unfold compareSum_file. by erewrite xbind_ret by apply computeSum_file_run.
Qed.

(** C31: The checksum of a message given in pieces of any lengths, of a buffer of less than 4 GB and of a file of any size is the MD5
    digest of RFC 1321, whatever the context held before, and the context is cleared. *)
Theorem md5_correct :
  (∀ ls, Forall (λ x, Z.of_nat (length x) < 2 ^ 32) ls →
     (MD5Init ;; xfor ls MD5Update ;; MD5Final) c = (Ret (md5 (concat ls)), cleared)) ∧
  (∀ l, Z.of_nat (length l) < 2 ^ 32 → computeSum l c = (Ret (md5 l), cleared)) ∧
  (∀ l, computeSum_file false l c = (Ret (Some (md5 l)), cleared)).
Proof. split_and!; [exact pieces_run|exact computeSum_run|exact (computeSum_file_run false)]. Qed.
End Sums.

(** Two pieces, the letters "a" and "bc", from a context full of zeros. *)
Lemma md5_correct_witness :
  (MD5Init ;; xfor [[97]; [98; 99]] MD5Update ;; MD5Final) cleared =
    (Ret [0x90; 0x01; 0x50; 0x98; 0x3c; 0xd2; 0x4f; 0xb0; 0xd6; 0x96; 0x3f; 0x7d; 0x28; 0xe1; 0x7f; 0x72], cleared).
Proof.
  destruct (md5_correct cleared) as (H & _ & _); [done|]. rewrite H by (by repeat constructor).
  change (concat [[97]; [98; 99]]) with [97; 98; 99]. by rewrite md5_abc.
Defined.
