(* ===== verification/Scc.v ===== *)
(** * Scc: the serial controller

    Models [src/scc.cpp] with [include/scc.h], and the class [Serial] of [serial.cpp], which is
    used when no serial port is configured.  The port itself is an interface ([SerialPort]), as in the source, where
    [Serial] is a base class. *)

From S2P Require Import Prelude Throws.
From stdpp Require Import base gmap list numbers.
Open Scope Z_scope.
Open Scope c_scope.
Open Scope x_scope.

(** ** The port *)

(** [Serial], with state [S]; [sp_getStatus] returns the status and the new character count. *)
Class SerialPort (S : Type) := {
  sp_reset : X S unit;
  sp_getData : X S Z;
  sp_setData : Z → X S unit;
  sp_setBaud : Z → X S unit;
  sp_getStatus : Z → X S (Z * Z);
  sp_setRTS : bool → X S unit;
  sp_setDTR : bool → X S unit;
}.

(** The base class. *)
#[export] Instance Serial : SerialPort unit := {
  sp_reset := xret tt;
  sp_getData := xret 0;
  sp_setData _ := xret tt;
  sp_setBaud _ := xret tt;
  sp_getStatus _ := xret (0, 0);
  sp_setRTS _ := xret tt;
  sp_setDTR _ := xret tt;
}.

(** ** Registers *)

Abbreviation SCC_RCA := 0x01 (only parsing).
Abbreviation SCC_TBE := 0x04 (only parsing).
Abbreviation SCCB_CTS_INT := 0x01 (only parsing).
Abbreviation SCCB_TXR_INT := 0x02 (only parsing).
Abbreviation SCCB_RCV_INT := 0x04 (only parsing).
Abbreviation SCCA_CTS_INT := 0x08 (only parsing).
Abbreviation SCCA_TXR_INT := 0x10 (only parsing).
Abbreviation SCCA_RCV_INT := 0x20 (only parsing).
Abbreviation SCC_VIS := 0x01 (only parsing).
Abbreviation SCC_NV := 0x02 (only parsing).
Abbreviation SCC_MIE := 0x08 (only parsing).
Abbreviation SCC_STATUS := 0x10 (only parsing).
Abbreviation SCC_INTACK := 0x20 (only parsing).
Abbreviation SCC_RESETB := 0x40 (only parsing).
Abbreviation SCC_RESETA := 0x80 (only parsing).
Abbreviation SPCFLAG_SCC := 0x2000 (only parsing).

Record SCCchannel := Channel {
  is_B : bool;  (* [channel]: 0 is A, 1 is B *)
  active_reg : Z;
  sregs : gmap Z Z;  (* [regs[16]] *)
  wr7_prime : Z;
  charcount : Z;
}.

Definition reg (n : Z) (c : SCCchannel) : Z := aget c.(sregs) n.
Definition set_reg (n v : Z) (c : SCCchannel) : SCCchannel :=
  Channel c.(is_B) c.(active_reg) (aset n v c.(sregs)) c.(wr7_prime) c.(charcount).
Definition set_active_reg (v : Z) (c : SCCchannel) : SCCchannel :=
  Channel c.(is_B) v c.(sregs) c.(wr7_prime) c.(charcount).
Definition set_charcount (v : Z) (c : SCCchannel) : SCCchannel :=
  Channel c.(is_B) c.(active_reg) c.(sregs) c.(wr7_prime) v.

Definition channel_reset (num : bool) : SCCchannel :=
  Channel num 0 (<[0 := SCC_TBE]> (<[9 := 0]> (<[11 := 0x08]> (<[14 := 0xA0]> (<[15 := 0xf8]> ∅))))) 0 0.

Record SCC (S : Type) := Scc {
  chA : SCCchannel;
  chB : SCCchannel;
  RR3 : Z;
  RR3M : Z;
  serial : S;
  scc_flags : Z;  (* the [spcflags] of the processor *)
}.
Arguments Scc {S} _ _ _ _ _ _.
Arguments chA {S} _.
Arguments chB {S} _.
Arguments RR3 {S} _.
Arguments RR3M {S} _.
Arguments serial {S} _.
Arguments scc_flags {S} _.

Section Scc.
Context {S : Type} {port : SerialPort S}.
Abbreviation M := (X (SCC S)).

Definition upd_chA (v : SCCchannel) (x : SCC S) : SCC S := Scc v x.(chB) x.(RR3) x.(RR3M) x.(serial) x.(scc_flags).
Definition upd_chB (v : SCCchannel) (x : SCC S) : SCC S := Scc x.(chA) v x.(RR3) x.(RR3M) x.(serial) x.(scc_flags).
Definition upd_RR3 (v : Z) (x : SCC S) : SCC S := Scc x.(chA) x.(chB) v x.(RR3M) x.(serial) x.(scc_flags).
Definition upd_RR3M (v : Z) (x : SCC S) : SCC S := Scc x.(chA) x.(chB) x.(RR3) v x.(serial) x.(scc_flags).
Definition upd_serial (v : S) (x : SCC S) : SCC S := Scc x.(chA) x.(chB) x.(RR3) x.(RR3M) v x.(scc_flags).
Definition upd_scc_flags (v : Z) (x : SCC S) : SCC S := Scc x.(chA) x.(chB) x.(RR3) x.(RR3M) x.(serial) v.

Definition on_serial {A} : X S A → M A := xzoom serial upd_serial.

(** The channel of an address, and the other one. *)
Definition chan (b : bool) (x : SCC S) : SCCchannel := if b then x.(chB) else x.(chA).
Definition upd_chan (b : bool) (f : SCCchannel → SCCchannel) (x : SCC S) : SCC S :=
  if b then upd_chB (f x.(chB)) x else upd_chA (f x.(chA)) x.
Definition mod_chan (b : bool) (f : SCCchannel → SCCchannel) : M unit := xmod (upd_chan b f).

Definition TriggerSCC (enable : bool) : M unit :=
  xmod (λ x, upd_scc_flags (if enable then x.(scc_flags) .| SPCFLAG_SCC else Z.ldiff x.(scc_flags) SPCFLAG_SCC) x).

Definition scc_reset : M unit :=
  xmod (λ x, upd_RR3M 0 (upd_RR3 0 x)) ;;
  xmod (upd_chA (channel_reset false)) ;;
  xmod (upd_chB (channel_reset true)) ;;
  on_serial sp_reset.

(** ** Reading *)

(** RR0: for channel B the state of the port, which may raise requests. *)
Definition read_rr0 (b : bool) : M Z :=
  if b then
    let* n := xget (λ x, x.(chB).(charcount)) in
    let* st := on_serial (sp_getStatus n) in
    mod_chan true (set_charcount st.2) ;;
    mod_chan true (set_reg 0 (st.1 .& 0xFF)) ;;
    xmod (λ x, upd_RR3 (x.(RR3) .| (x.(RR3M) .& (st.1 >> 8))) x) ;;
    xget (λ x, reg 0 x.(chB))
  else
    mod_chan false (set_reg 0 SCC_TBE) ;;
    xmod (λ x, if reg 9 x.(chA) =? SCC_INTACK then upd_RR3 (x.(RR3) .| (x.(RR3M) .& SCCA_CTS_INT)) x else x) ;;
    xget (λ x, reg 0 x.(chA)).

(** The status bits in the vector that channel B reads. *)
Definition status_high (rr3 : Z) : Z :=
  if rr3 =? 0 then 0x60
  else if tst rr3 SCCA_RCV_INT then 0x30
  else if tst rr3 SCCA_TXR_INT then 0x10
  else if tst rr3 SCCA_CTS_INT then 0x50
  else if tst rr3 SCCB_RCV_INT then 0x20
  else if tst rr3 SCCB_TXR_INT then 0
  else if tst rr3 SCCB_CTS_INT then 0x40
  else 0.
Definition status_low (rr3 : Z) : Z :=
  if rr3 =? 0 then 6
  else if tst rr3 SCCA_RCV_INT then 0xC
  else if tst rr3 SCCA_TXR_INT then 0x8
  else if tst rr3 SCCA_CTS_INT then 0xA
  else if tst rr3 SCCB_RCV_INT then SCCB_TXR_INT
  else if tst rr3 SCCB_CTS_INT then 0
  else if tst rr3 SCCB_CTS_INT then 2
  else 0.

Definition read_rr2 (b : bool) (x : SCC S) : Z :=
  let value := reg 2 (chan b x) in
  let wr9 := reg 9 x.(chA) in
  if negb b then value
  else if (wr9 .& SCC_VIS) =? 0 then value
  else value .| (if tst wr9 SCC_STATUS then status_high x.(RR3) else status_low x.(RR3)).

(** The value of the register selected in channel [b]. *)
Definition read_register (b : bool) : M Z :=
  let* c := xget (chan b) in
  let extended := tst c.(wr7_prime) 0x40 in
  match c.(active_reg) with
  | 0 => read_rr0 b
  | 4 => if extended then xret (reg 4 c) else read_rr0 b
  | 2 | 6 => xget (read_rr2 b)
  | 3 => if b then xret 0 else xget RR3
  | 8 => if b then
           let* v := on_serial sp_getData in
           mod_chan true (set_reg 8 v) ;; xget (λ x, reg 8 x.(chB))
         else xret (reg 8 c)
  | 9 => if extended then xret (reg 3 c) else xret (reg 9 c)
  | 12 => xret (reg 12 c)
  | 13 => xret (reg 13 c)
  | 11 => if extended then xret (reg 10 c) else xret (reg 15 c)
  | 15 => xret (reg 15 c)
  | 5 => if extended then xret (reg 5 c) else xret 0
  | 14 => if extended then xret c.(wr7_prime) else xret 0
  | _ => xret 0
  end.

Context (HWoffset : Z).

Definition scc_handleRead (addr : Z) : M Z :=
  match addr -u HWoffset with
  | 0 => let* v := read_register false in mod_chan false (set_active_reg 0) ;; xret v
  | 4 => let* v := read_register true in mod_chan true (set_active_reg 0) ;; xret v
  | 2 => xget (λ x, reg 8 x.(chA))
  | 6 =>
      let* v := on_serial sp_getData in
      mod_chan true (set_reg 8 v) ;; xget (λ x, reg 8 x.(chB))
  | _ => xret 0
  end.

(** ** Writing *)

(** A request that may interrupt: pending, enabled, and WR9 as expected. *)
Definition wr9_ready (x : SCC S) : bool := ((SCC_MIE .| SCC_NV .| SCC_VIS) .& reg 9 x.(chA)) =? (SCC_MIE .| SCC_VIS).
Definition update_flag : M unit :=
  let* x := xget id in
  TriggerSCC (negb ((x.(RR3) .& x.(RR3M)) =? 0) && wr9_ready x).

(** The loop over the requests, from [SCCA_RCV_INT] down; 0 if there is none. *)
Fixpoint first_bit (n : nat) (pending : Z) : Z :=
  match n with
  | O => 0
  | Datatypes.S n => let i := Z.shiftl 1 (Z.of_nat n) in if tst pending i then i else first_bit n pending
  end.

Definition clear_RR3 (m : Z) : M unit := xmod (λ x, upd_RR3 (Z.ldiff x.(RR3) m) x).

Definition reset_highest_ius : M unit :=
  let* x := xget id in
  let i := first_bit 6 x.(RR3) in
  if i =? SCCB_RCV_INT then
    let* n := int_result (x.(chB).(charcount) - 1) in
    mod_chan true (set_charcount n) ;;
    xwhen (n <=? 0) (clear_RR3 SCCB_RCV_INT)
  else clear_RR3 i.

(** WR0: a register number, or a command. *)
Definition write_wr0 (b : bool) (value : Z) : M unit :=
  if value <=? 15 then mod_chan b (set_active_reg (value .& 0x0f))
  else
    (let cmd := value .& 0x38 in
     if cmd =? 0x38 then reset_highest_ius
     else if cmd =? 0x28 then clear_RR3 (if b then SCCB_TXR_INT else SCCA_TXR_INT)
     else if cmd =? 0x10 then clear_RR3 (if b then SCCB_CTS_INT else SCCA_CTS_INT)
     else xret tt) ;;
    update_flag.

(** WR1: one of the enable bits. *)
Definition enable_int (on : bool) (m : Z) : M unit :=
  if on then xmod (λ x, upd_RR3M (x.(RR3M) .| m) x) else clear_RR3 m.
Definition write_wr1 (b : bool) (value : Z) : M unit :=
  let sh := if b then 0 else 3 in
  enable_int (tst value 1) (Z.shiftl SCCB_CTS_INT sh) ;;
  enable_int (tst value 2) (Z.shiftl SCCB_TXR_INT sh) ;;
  enable_int (tst value 0x18) (Z.shiftl SCCB_RCV_INT sh).

(** WR9: resets. *)
Definition forget (m : Z) : M unit := xmod (λ x, upd_RR3M (Z.ldiff x.(RR3M) m) (upd_RR3 (Z.ldiff x.(RR3) m) x)).
Definition write_wr9 (b : bool) (value : Z) : M unit :=
  let v := Z.ldiff value (SCC_RESETA .| SCC_RESETB) in
  mod_chan b (set_reg 9 v) ;;
  mod_chan (negb b) (set_reg 9 v) ;;
  xwhen (tst value SCC_RESETB) (mod_chan true (λ _, channel_reset true) ;; forget 0x07) ;;
  xwhen (tst value SCC_RESETA) (mod_chan false (λ _, channel_reset false) ;; forget 0x38).

(** The baud rate for the time constant in WR12 and WR13; 0: none. *)
Definition baud_rate (wr13 wr12 : Z) : Z :=
  match wr13 with
  | 0 =>
    match wr12 with
    | 0 => 230400
    | 2 => 115200
    | 6 | 0x7e | 0x44 => 57600
    | 0xa | 0xe4 | 0x7c => 38400
    | 0x16 | 0xb => 19200
    | 0x2e | 0x18 => 9600
    | 0x5e | 0x32 => 4800
    | 0xbe | 0x67 => 2400
    | 0xfe | 0x8a => 1800
    | 0xd0 => 1200
    | 1 => 75
    | 4 => 50
    | _ => 0
    end
  | 1 => match wr12 with 0xa1 => 600 | 0x7e => 1200 | _ => 0 end
  | 2 => if wr12 =? 0xfe then 600 else 0
  | 3 => if wr12 =? 0x45 then 300 else 0
  | 4 => if wr12 =? 0xe8 then 200 else 0
  | 5 => if wr12 =? 0xfe then 300 else 0
  | 6 => if wr12 =? 0x8c then 150 else 0
  | 7 => if wr12 =? 0x4d then 134 else 0
  | 8 => if wr12 =? 0xee then 110 else 0
  | 0xd => if wr12 =? 0x1a then 75 else 0
  | 0x13 => if wr12 =? 0xa8 then 50 else 0
  | _ => 0
  end.

(** The register selected in channel [b] is written. *)
Definition write_register (b : bool) (value : Z) : M unit :=
  let* n := xget (λ x, (chan b x).(active_reg)) in
  let done := mod_chan b (set_active_reg 0) in
  match n with
  | 0 => write_wr0 b value
  | 2 => mod_chan b (set_reg 2 value) ;; mod_chan (negb b) (set_reg 2 value) ;; done ;; update_flag
  | 8 => mod_chan b (set_reg 8 value) ;; xwhen b (on_serial (sp_setData value)) ;; done
  | 1 => mod_chan b (set_reg 1 value) ;; write_wr1 b value ;; done ;; update_flag
  | 5 =>
      mod_chan b (set_reg 5 value) ;;
      xwhen b (on_serial (sp_setRTS (tst value 2)) ;; on_serial (sp_setDTR (tst value 128))) ;;
      done
  | 9 => write_wr9 b value ;; done ;; update_flag
  | 12 => mod_chan b (set_reg 12 value) ;; done
  | 13 =>
      mod_chan b (set_reg 13 value) ;;
      let* low := xget (λ x, reg 12 (chan b x)) in
      let rate := baud_rate value low in
      xwhen (negb (rate =? 0)) (on_serial (sp_setBaud rate)) ;;
      done
  | 15 => mod_chan b (set_reg 15 (Z.ldiff value 0x05)) ;; done
  | 3 | 4 | 6 | 7 | 10 | 11 | 14 => mod_chan b (set_reg n value) ;; done
  | _ => done
  end.

Definition scc_handleWrite (addr value : Z) : M unit :=
  match addr -u HWoffset with
  | 0 => write_register false value
  | 4 => write_register true value
  | 6 => on_serial (sp_setData value)
  | _ => xret tt
  end.

(** ** Interrupts *)

(** The periodic look at the port. *)
Definition scc_IRQ : M unit :=
  let* n := xget (λ x, x.(chB).(charcount)) in
  let* st := on_serial (sp_getStatus n) in
  mod_chan true (set_charcount st.2) ;;
  let* wr9 := xget (λ x, reg 9 x.(chA)) in
  let temp := if wr9 =? SCC_INTACK then st.1 .| Z.shiftl SCCA_CTS_INT 8 else st.1 in
  mod_chan true (set_reg 0 (temp .& 0xFF)) ;;
  xmod (λ x, upd_RR3 (x.(RR3M) .& (temp >> 8)) x) ;;
  let* x := xget id in
  xwhen (negb (x.(RR3) =? 0) && wr9_ready x) (TriggerSCC true).

(** The status in the vector of an acknowledged request. *)
Definition vector_status (i : Z) : Z :=
  match i with 0x01 => 2 | 0x02 => 0 | 0x04 => 4 | 0x08 => 0xA | 0x10 => 8 | 0x20 => 0xC | _ => 0 end.

(** The vector number, 0 if no interrupt. *)
Definition scc_vector (x : SCC S) : Z :=
  let i := first_bit 6 (x.(RR3) .& x.(RR3M)) in
  let vector := reg 2 x.(chA) in
  let wr9 := reg 9 x.(chA) in
  if (wr9 .& (SCC_NV .| SCC_VIS)) =? 0 then vector
  else if negb ((wr9 .& (SCC_NV .| SCC_STATUS .| SCC_INTACK)) =? 0) then 0
  else if i =? 0 then 0
  else vector .| vector_status i.
Definition scc_doInterrupt : M Z := xget scc_vector.
End Scc.
