(* ===== verification/SccSpec.v ===== *)
(** * SccSpec: what the serial controller promises

    - [scc_invariant]: no sequence of register accesses and looks at the port leaves the register numbers, the registers or
      the request flag in a wrong state: the processor is only signalled while WR9 allows it.
    - [scc_acknowledge]: the vector of an interrupt names the most urgent pending request.
    - [scc_register_roundtrip]: the registers that can be read back.

    At the end of the file a concrete controller. *)

From S2P Require Import Prelude Throws Scc.
From stdpp Require Import base gmap list numbers.
Open Scope Z_scope.
Open Scope c_scope.
Open Scope x_scope.

(** What the emulation relies on: the port delivers bytes and a 16-bit status. *)
Class PortOk (S : Type) {port : SerialPort S} : Prop := {
  po_data s : match sp_getData s with (Ret v, _) => 0 <= v < 256 | _ => True end;
  po_status n s : match sp_getStatus n s with (Ret st, _) => 0 <= st.1 < 65536 | _ => True end;
}.

#[export] Instance Serial_ok : PortOk unit.
Proof. split; intros; cbn; lia. Qed.

Definition byte (v : Z) : Prop := 0 <= v < 256.

Record channel_ok (b : bool) (c : SCCchannel) : Prop := {
  co_num : c.(is_B) = b;
  co_active : 0 <= c.(active_reg) < 16;
  co_regs n : byte (reg n c);
  co_wr7 : c.(wr7_prime) = 0;
}.

Section Spec.
Context {S : Type} {port : SerialPort S} {pok : PortOk S}.
Implicit Types (x : SCC S) (b : bool).

Record scc_ok x : Prop := {
  so_A : channel_ok false x.(chA);
  so_B : channel_ok true x.(chB);
  so_RR3 : 0 <= x.(RR3) < 64;
  so_RR3M : 0 <= x.(RR3M) < 64;
  so_flag : Z.testbit x.(scc_flags) 13 = true → wr9_ready x = true;
}.

(** Everything but the flag; the accesses that change WR9 bring the flag up to date at their end. *)
Record scc_parts x : Prop := {
  sp_A : channel_ok false x.(chA);
  sp_B : channel_ok true x.(chB);
  sp_RR3 : 0 <= x.(RR3) < 64;
  sp_RR3M : 0 <= x.(RR3M) < 64;
}.

Lemma scc_ok_parts x : scc_ok x → scc_parts x.
Proof. by intros []. Qed.

(** ** Channels *)

Lemma channel_reset_ok b : channel_ok b (channel_reset b).
Proof.
  split; try done. intros n. unfold reg, channel_reset, aget, byte. cbn [sregs].
  destruct (decide (n = 0)) as [->|]; [by vm_compute|]. rewrite lookup_insert_ne by done.
  destruct (decide (n = 9)) as [->|]; [by vm_compute|]. rewrite lookup_insert_ne by done.
  destruct (decide (n = 11)) as [->|]; [by vm_compute|]. rewrite lookup_insert_ne by done.
  destruct (decide (n = 14)) as [->|]; [by vm_compute|]. rewrite lookup_insert_ne by done.
  destruct (decide (n = 15)) as [->|]; [by vm_compute|]. rewrite lookup_insert_ne, lookup_empty by done. cbn. lia.
Qed.

Lemma set_reg_ok b n v c : byte v → channel_ok b c → channel_ok b (set_reg n v c).
Proof. intros Hv []. split; try done. intros k. unfold reg. cbn [sregs set_reg]. by apply aset_forall. Qed.
Lemma set_active_reg_ok b v c : 0 <= v < 16 → channel_ok b c → channel_ok b (set_active_reg v c).
Proof. by intros Hv []. Qed.
Lemma set_charcount_ok b v c : channel_ok b c → channel_ok b (set_charcount v c).
Proof. by intros []. Qed.

Lemma chan_ok b x : scc_parts x → channel_ok b (chan b x).
Proof. intros []. by destruct b. Qed.

Lemma mod_chan_parts b f : (∀ c, channel_ok b c → channel_ok b (f c)) → xtotal scc_parts (λ _, True) (mod_chan b f).
Proof. intros Hf. apply xtotal_mod; [done|]. intros x []. destruct b; split; cbn; auto. Qed.

Lemma mod_chan_flag b f : (∀ c, channel_ok b c → channel_ok b (f c)) → (∀ c, b = false → reg 9 (f c) = reg 9 c) →
  xkeeps scc_ok (mod_chan b f).
Proof.
  intros Hf H9. apply xkeeps_mod. intros x [HA HB H3 H3M Hfl]. destruct b; split; cbn; auto. intros H. rewrite <-(Hfl H).
  unfold wr9_ready. cbn. by rewrite H9.
Qed.

Lemma reg_set_ne n v k c : n ≠ k → reg k (set_reg n v c) = reg k c.
Proof. intros. unfold reg. cbn. by apply aget_aset_ne. Qed.

(** ** Bits *)

Lemma land64 p q : 0 <= p < 64 → 0 <= p .& q < 64.
Proof. apply (land_range_l p q 6). lia. Qed.
Lemma lor64 p q : 0 <= p < 64 → 0 <= q < 64 → 0 <= p .| q < 64.
Proof. apply (lor_range p q 6). lia. Qed.
Lemma ldiff64 p q : 0 <= p < 64 → 0 <= Z.ldiff p q < 64.
Proof.
  intros Hp. apply (bits_range _ 6); [lia|]. intros i Hi. rewrite Z.ldiff_spec, (range_bits p 6) by done. done.
Qed.

Lemma land_byte v : byte (v .& 0xFF).
Proof. apply (land_range_r _ 0xff 8); lia. Qed.
Lemma ldiff_byte v m : byte v → byte (Z.ldiff v m).
Proof.
  intros Hv. unfold byte. change 256 with (2 ^ 8). apply bits_range; [lia|]. intros i Hi.
  rewrite Z.ldiff_spec, (range_bits v 8) by done. done.
Qed.

(** ** The port *)

Lemma on_serial_keeps {A} (I : SCC S → Prop) (m : X S A) : (∀ s x, I x → I (upd_serial s x)) → xkeeps I (on_serial m).
Proof.
  intros H x Hx. unfold on_serial, xzoom. destruct (m (serial x)) as [r s]. destruct r; auto.
Qed.

Lemma serial_ok s x : scc_ok x → scc_ok (upd_serial s x).
Proof. by intros []. Qed.
Lemma serial_parts s x : scc_parts x → scc_parts (upd_serial s x).
Proof. by intros []. Qed.

(** A read of the port and what is done with it. *)
Lemma data_keeps {A} (k : Z → X (SCC S) A) : (∀ v, byte v → xkeeps scc_ok (k v)) →
  xkeeps scc_ok (let* v := on_serial sp_getData in k v).
Proof.
  intros Hk x Hx. unfold xbind, on_serial, xzoom. pose proof (po_data x.(serial)) as Hd.
  destruct (sp_getData (serial x)) as [[v| |] s]; [|by apply serial_ok|done]. apply Hk; [done|]. by apply serial_ok.
Qed.
Lemma status_keeps {A} n (k : Z * Z → X (SCC S) A) : (∀ st, 0 <= st.1 < 65536 → xkeeps scc_ok (k st)) →
  xkeeps scc_ok (let* st := on_serial (sp_getStatus n) in k st).
Proof.
  intros Hk x Hx. unfold xbind, on_serial, xzoom. pose proof (po_status n x.(serial)) as Hd.
  destruct (sp_getStatus n (serial x)) as [[v| |] s]; [|by apply serial_ok|done]. apply Hk; [done|]. by apply serial_ok.
Qed.

Lemma RR3_ok f : (∀ x, scc_ok x → 0 <= f x < 64) → xkeeps scc_ok (xmod (λ x, upd_RR3 (f x) x)).
Proof. intros Hf. apply xkeeps_mod. intros x Hx. pose proof (Hf x Hx). by destruct Hx. Qed.
Lemma clear_RR3_ok m : xkeeps scc_ok (clear_RR3 m).
Proof. apply RR3_ok. intros x Hx. apply ldiff64, Hx. Qed.
Lemma active_ok b v : 0 <= v < 16 → xkeeps scc_ok (mod_chan b (set_active_reg v)).
Proof. intros Hv. apply mod_chan_flag; [|done]. intros c. by apply set_active_reg_ok. Qed.
Lemma charcount_ok v : xkeeps scc_ok (mod_chan true (set_charcount v)).
Proof. apply mod_chan_flag; [|done]. intros c. by apply set_charcount_ok. Qed.
Lemma reg_ok b n v : byte v → n ≠ 9 → xkeeps scc_ok (mod_chan b (set_reg n v)).
Proof. intros Hv Hn. apply mod_chan_flag; [intros c; by apply set_reg_ok|]. intros c _. by apply reg_set_ne. Qed.

(** After [update_flag] the flag is right whatever it was. *)
Lemma flag_set b f : Z.testbit (if b then f .| 0x2000 else Z.ldiff f 0x2000) 13 = b.
Proof. destruct b; [rewrite Z.lor_spec|rewrite Z.ldiff_spec]; [apply orb_true_r|apply andb_false_r]. Qed.

Lemma update_flag_ok x : scc_parts x → match update_flag x with (Undef _, _) => True | (_, x') => scc_ok x' end.
Proof.
  intros [HA HB H3 H3M]. cbn. split; try done. cbn [scc_flags upd_scc_flags]. rewrite flag_set. intros [_ H]%andb_true_iff. exact H.
Qed.

Lemma then_update (m : X (SCC S) unit) : xtotal scc_parts (λ _, True) m → xkeeps scc_ok (m ;; update_flag).
Proof.
  intros Hm x Hx. destruct (Hm x (scc_ok_parts x Hx)) as ([] & x' & E & _ & Hx'). rewrite (xbind_ret _ _ _ _ _ E).
  by apply update_flag_ok.
Qed.

Lemma reg_parts b n v : byte v → xtotal scc_parts (λ _, True) (mod_chan b (set_reg n v)).
Proof. intros Hv. apply mod_chan_parts. intros c. by apply set_reg_ok. Qed.
Lemma active_parts b v : 0 <= v < 16 → xtotal scc_parts (λ _, True) (mod_chan b (set_active_reg v)).
Proof. intros Hv. apply mod_chan_parts. intros c. by apply set_active_reg_ok. Qed.
Lemma clear_parts m : xtotal scc_parts (λ _, True) (clear_RR3 m).
Proof. apply xtotal_mod; [done|]. intros x []. split; try done. by apply ldiff64. Qed.
Lemma enable_parts on m : 0 <= m < 64 → xtotal scc_parts (λ _, True) (enable_int on m).
Proof.
  intros Hm. destruct on; [|apply clear_parts]. apply xtotal_mod; [done|]. intros x []. split; try done. by apply lor64.
Qed.
Lemma forget_parts m : xtotal scc_parts (λ _, True) (forget m).
Proof. apply xtotal_mod; [done|]. intros x []. split; try done; by apply ldiff64. Qed.

(** ** The accesses *)

Ltac total := repeat (eapply xtotal_bind; [|intros ? _]); auto.

Lemma write_wr1_parts b v : xtotal scc_parts (λ _, True) (write_wr1 b v).
Proof. unfold write_wr1. cbv zeta. total; apply enable_parts; destruct b; done. Qed.

Lemma write_wr9_parts b v : byte v → xtotal scc_parts (λ _, True) (write_wr9 b v).
Proof.
  intros Hv. unfold write_wr9. cbv zeta. pose proof (ldiff_byte v 0xc0 Hv).
  assert (∀ n m (k : bool), xtotal scc_parts (λ _, True) (xwhen k (mod_chan n (λ _, channel_reset n) ;; forget m))) as Hr.
  { intros n m k. apply xtotal_when; [done|]. intros _. total; [|apply forget_parts].
    apply mod_chan_parts. intros _ _. apply channel_reset_ok. }
  total; by apply reg_parts.
Qed.

Lemma reset_ius_ok : xkeeps scc_ok reset_highest_ius.
Proof.
  unfold reset_highest_ius. apply xkeeps_bind; [apply xkeeps_get|]. intros x. apply xkeeps_if; [|apply clear_RR3_ok].
  apply xkeeps_bind; [unfold int_result; destruct (in_range _ _ _); [apply xkeeps_ret|apply xkeeps_undef]|]. intros n.
  apply xkeeps_bind; [apply charcount_ok|]. intros _. apply xkeeps_when, clear_RR3_ok.
Qed.

Lemma update_keeps : xkeeps scc_ok update_flag.
Proof. intros x Hx. by apply update_flag_ok, scc_ok_parts. Qed.

Lemma write_wr0_ok b v : xkeeps scc_ok (write_wr0 b v).
Proof.
  unfold write_wr0. apply xkeeps_if.
  - apply active_ok. apply (land_range_r _ 15 4); lia.
  - apply xkeeps_bind; [|intros _; apply update_keeps]. cbv zeta.
    repeat apply xkeeps_if; try apply clear_RR3_ok; [apply reset_ius_ok|apply xkeeps_ret].
Qed.

(** A register that is stored, with an action in between. *)
Lemma stored_ok b k v (m : X (SCC S) unit) : byte v → k ≠ 9 → xkeeps scc_ok m →
  xkeeps scc_ok (mod_chan b (set_reg k v) ;; m ;; mod_chan b (set_active_reg 0)).
Proof.
  intros Hv Hk Hm. apply xkeeps_bind; [by apply reg_ok|]. intros _. apply xkeeps_bind; [done|]. intros _. apply active_ok. lia.
Qed.

(** A register that belongs to the interrupt logic. *)
Lemma updated_ok b (m : X (SCC S) unit) : xtotal scc_parts (λ _, True) m →
  xkeeps scc_ok (m ;; mod_chan b (set_active_reg 0) ;; update_flag).
Proof.
  intros Hm x Hx. destruct (Hm x (scc_ok_parts x Hx)) as ([] & x' & E & _ & Hx'). rewrite (xbind_ret _ _ _ _ _ E).
  destruct (active_parts b 0 ltac:(lia) x' Hx') as ([] & x2 & E2 & _ & Hx2). rewrite (xbind_ret _ _ _ _ _ E2). by apply update_flag_ok.
Qed.

Lemma xkeeps_assoc {A B C} (I : SCC S → Prop) (m : X (SCC S) A) (n : X (SCC S) B) (k : X (SCC S) C) :
  xkeeps I ((m ;; n) ;; k) → xkeeps I (m ;; n ;; k).
Proof. intros H x Hx. specialize (H x Hx). unfold xbind in *. destruct (m x) as [[]]; done. Qed.

Lemma serial_keeps_ok (m : X S unit) : xkeeps scc_ok (on_serial m).
Proof. apply on_serial_keeps, serial_ok. Qed.

Lemma write_register_ok b v : byte v → xkeeps scc_ok (write_register b v).
Proof.
  intros Hv. unfold write_register. apply xkeeps_bind; [apply xkeeps_get|]. intros n. cbv zeta.
  assert (xkeeps scc_ok (mod_chan b (set_active_reg 0))) as Hd by (apply active_ok; lia).
  assert (∀ k, k ≠ 9 → xkeeps scc_ok (mod_chan b (set_reg k v) ;; mod_chan b (set_active_reg 0))) as Hplain.
  { intros k Hk. apply xkeeps_bind; [by apply reg_ok|done]. }
  assert (xkeeps scc_ok (mod_chan b (set_reg 2 v) ;; mod_chan (negb b) (set_reg 2 v) ;; mod_chan b (set_active_reg 0) ;; update_flag)) as H2.
  { apply xkeeps_assoc, updated_ok. total; by apply reg_parts. }
  assert (xkeeps scc_ok (mod_chan b (set_reg 1 v) ;; write_wr1 b v ;; mod_chan b (set_active_reg 0) ;; update_flag)) as H1.
  { apply xkeeps_assoc, updated_ok. eapply xtotal_bind; [by apply reg_parts|intros ? _; apply write_wr1_parts]. }
  assert (xkeeps scc_ok (mod_chan b (set_reg 15 (Z.ldiff v 5)) ;; mod_chan b (set_active_reg 0))) as H15.
  { apply xkeeps_bind; [apply reg_ok; [by apply ldiff_byte|lia]|done]. }
  assert (xkeeps scc_ok (mod_chan b (set_reg 13 v) ;; let* low := xget (λ x, reg 12 (chan b x)) in
    xwhen (negb (baud_rate v low =? 0)) (on_serial (sp_setBaud (baud_rate v low))) ;; mod_chan b (set_active_reg 0))) as H13.
  { apply xkeeps_bind; [by apply reg_ok|]. intros _. apply xkeeps_bind; [apply xkeeps_get|]. intros low.
    apply xkeeps_bind; [apply xkeeps_when, serial_keeps_ok|done]. }
  assert (xkeeps scc_ok (write_wr9 b v ;; mod_chan b (set_active_reg 0) ;; update_flag)) as H9 by (by apply updated_ok, write_wr9_parts).
  assert (∀ m : X S unit, xkeeps scc_ok (mod_chan b (set_reg 8 v) ;; xwhen b (on_serial m) ;; mod_chan b (set_active_reg 0))) as H8.
  { intros m. apply stored_ok; [done..|]. apply xkeeps_when, serial_keeps_ok. }
  assert (xkeeps scc_ok (mod_chan b (set_reg 5 v) ;; xwhen b (on_serial (sp_setRTS (tst v 2)) ;; on_serial (sp_setDTR (tst v 128))) ;;
    mod_chan b (set_active_reg 0))) as H5.
  { apply stored_ok; [done..|]. apply xkeeps_when, xkeeps_bind; intros; apply serial_keeps_ok. }
  repeat first [exact Hd|exact H1|exact H2|exact H5|apply H8|exact H9|exact H13|exact H15|apply write_wr0_ok|apply Hplain; lia
    |match goal with |- xkeeps _ (match ?n with _ => _ end) => destruct n end].
Qed.

Lemma read_rr0_ok b : xkeeps scc_ok (read_rr0 b).
Proof.
  destruct b; unfold read_rr0.
  - apply xkeeps_bind; [apply xkeeps_get|]. intros n. apply status_keeps. intros st Hst.
    apply xkeeps_bind; [apply charcount_ok|]. intros _. apply xkeeps_bind; [apply reg_ok; [apply land_byte|lia]|]. intros _.
    apply xkeeps_bind; [|intros; apply xkeeps_get]. apply RR3_ok. intros x Hx. apply lor64; [apply Hx|]. apply land64, Hx.
  - apply xkeeps_bind; [apply reg_ok; [by vm_compute|lia]|]. intros _. apply xkeeps_bind; [|intros; apply xkeeps_get].
    apply xkeeps_mod. intros x Hx. destruct (_ =? _); [|done]. destruct Hx. split; try done. apply lor64; [done|by apply land64].
Qed.

Lemma data_read_ok : xkeeps scc_ok (let* v := on_serial sp_getData in mod_chan true (set_reg 8 v) ;; xget (λ x, reg 8 x.(chB))).
Proof. apply data_keeps. intros v Hv. apply xkeeps_bind; [by apply reg_ok|intros; apply xkeeps_get]. Qed.

Lemma read_register_ok b : xkeeps scc_ok (read_register b).
Proof.
  unfold read_register. apply xkeeps_bind; [apply xkeeps_get|]. intros c. cbv zeta.
  repeat first [apply xkeeps_ret|apply xkeeps_get|apply read_rr0_ok|apply data_read_ok
    |match goal with |- xkeeps _ (match ?n with _ => _ end) => destruct n end].
Qed.

Lemma scc_handleRead_ok off a : xkeeps scc_ok (scc_handleRead off a).
Proof.
  unfold scc_handleRead.
  assert (∀ b, xkeeps scc_ok (let* v := read_register b in mod_chan b (set_active_reg 0) ;; xret v)) as Hr.
  { intros b. apply xkeeps_bind; [apply read_register_ok|]. intros v. apply xkeeps_bind; [apply active_ok; lia|]. intros _. apply xkeeps_ret. }
  repeat first [apply Hr|apply xkeeps_ret|apply xkeeps_get|apply data_read_ok
    |match goal with |- xkeeps _ (match ?n with _ => _ end) => destruct n end].
Qed.

Lemma scc_handleWrite_ok off a v : byte v → xkeeps scc_ok (scc_handleWrite off a v).
Proof.
  intros Hv. unfold scc_handleWrite.
  repeat first [by apply write_register_ok|apply serial_keeps_ok|apply xkeeps_ret
    |match goal with |- xkeeps _ (match ?n with _ => _ end) => destruct n end].
Qed.

Lemma scc_IRQ_ok : xkeeps scc_ok scc_IRQ.
Proof.
  unfold scc_IRQ. apply xkeeps_bind; [apply xkeeps_get|]. intros n. apply status_keeps. intros st Hst.
  apply xkeeps_bind; [apply charcount_ok|]. intros _. apply xkeeps_bind; [apply xkeeps_get|]. intros wr9. cbv zeta.
  apply xkeeps_bind; [apply reg_ok; [apply land_byte|lia]|]. intros _.
  apply xkeeps_bind; [apply RR3_ok; intros x Hx; apply land64, Hx|]. intros _.
  apply xkeeps_look. intros x Hx. unfold id. destruct (_ && _) eqn:E; cbn [xwhen]; [|done].
  cbn. destruct Hx. split; try done. intros _. apply andb_true_iff in E as [_ E]. exact E.
Qed.

(** ** Runs *)

Inductive scc_op := SccRead (a : Z) | SccWrite (a v : Z) | SccLook.

Definition do_scc (off : Z) (o : scc_op) : X (SCC S) unit :=
  match o with
  | SccRead a => scc_handleRead off a ;; xret tt
  | SccWrite a v => scc_handleWrite off a v
  | SccLook => scc_IRQ
  end.

Definition op_ok (o : scc_op) : Prop := match o with SccWrite _ v => byte v | _ => True end.

(** C18: Whatever the guest reads and writes and whatever the port reports, the registers of the controller stay bytes, the selected
    register exists, only the six requests are pending or enabled, and the processor is only signalled while WR9
    has interrupts with vectors enabled. *)
Theorem scc_invariant off l x : Forall op_ok l → scc_ok x →
  match xfor l (do_scc off) x with (Undef _, _) => True | (_, x') => scc_ok x' end.
Proof.
  intros Hl. apply xkeeps_for. intros o Ho. rewrite Forall_forall in Hl. specialize (Hl o).
  destruct o as [a|a v|]; cbn [do_scc].
  - apply xkeeps_bind; [apply scc_handleRead_ok|intros; apply xkeeps_ret].
  - apply scc_handleWrite_ok. apply Hl. by apply list_elem_of_In.
  - apply scc_IRQ_ok.
Qed.

(** ** Acknowledge *)

(** The status of source [k] in a vector (channel A above channel B; receiver, transmitter, external in each). *)
Definition source_status (k : Z) : Z :=
  match k with 5 => 0xC | 4 => 0x8 | 3 => 0xA | 2 => 0x4 | 1 => 0 | 0 => 2 | _ => 0 end.

Lemma first_bit_status p : 0 < p < 64 → first_bit 6 p ≠ 0 ∧ vector_status (first_bit 6 p) = source_status (Z.log2 p).
Proof.
  intros Hp. pose proof (indices_forallb 64 (λ p, (p =? 0) ||
    negb (first_bit 6 p =? 0) && (vector_status (first_bit 6 p) =? source_status (Z.log2 p))) ltac:(vm_compute; reflexivity) p ltac:(lia)) as H.
  cbv beta in H. rewrite (proj2 (Z.eqb_neq p 0)) in H by lia. cbn [orb] in H. lia.
Qed.

Lemma wr9_ready_bits w : byte w → 0x0b .& w = 9 → w .& 0x30 = 0 → w .& 3 ≠ 0 ∧ w .& 0x32 = 0.
Proof.
  intros Hw H1 H2. pose proof (indices_forallb 256 (λ w, negb (0x0b .& w =? 9) || negb (w .& 0x30 =? 0) ||
    negb (w .& 3 =? 0) && (w .& 0x32 =? 0)) ltac:(vm_compute; reflexivity) w Hw) as H.
  cbv beta in H. rewrite H1, H2 in H. cbn [Z.eqb Pos.eqb negb orb] in H. lia.
Qed.

(** C19: When the processor acknowledges a request of the controller (status in the low bits, no software acknowledge), it gets the
    vector base of WR2 with the status of the most urgent request that is pending and enabled, or 0 if that has gone
    in the meantime. *)
Theorem scc_acknowledge x : scc_ok x → Z.testbit x.(scc_flags) 13 = true → reg 9 x.(chA) .& 0x30 = 0 →
  scc_doInterrupt x = (Ret (let p := x.(RR3) .& x.(RR3M) in
    if p =? 0 then 0 else reg 2 x.(chA) .| source_status (Z.log2 p)), x).
Proof.
  intros [HA HB H3 H3M Hf] Hfl H9. specialize (Hf Hfl). apply Z.eqb_eq in Hf.
  destruct (wr9_ready_bits (reg 9 (chA x)) (co_regs _ _ HA 9) Hf H9) as [N1 N2].
  unfold scc_doInterrupt, xget, scc_vector. change (0x02 .| 0x01) with 3. change (2 .| 16 .| 32) with 0x32.
  rewrite (proj2 (Z.eqb_neq _ 0) N1), N2. cbn [Z.eqb negb]. do 2 f_equal.
  pose proof (land64 (RR3 x) (RR3M x) H3). destruct (Z.eqb_spec (x.(RR3) .& x.(RR3M)) 0) as [->|Hp]; [done|].
  destruct (first_bit_status (x.(RR3) .& x.(RR3M))) as [E1 ->]; [lia|]. by rewrite (proj2 (Z.eqb_neq _ 0) E1).
Qed.

(** ** Registers *)

(** The control port of channel [b], and an access to a register: its number, then the value. *)
Definition control (off : Z) (b : bool) : Z := off + (if b then 4 else 0).
Definition scc_select off b n : X (SCC S) unit := scc_handleWrite off (control off b) n.

Definition readable (b : bool) (n : Z) : option Z :=
  match n with 12 => Some 0 | 15 => Some 5 | 2 => if b then None else Some 0 | _ => None end.

Lemma control_port off b : 0 <= off < 2 ^ 32 - 8 → control off b -u off = if b then 4 else 0.
Proof. intros Ho. unfold control. replace (off + (if b then 4 else 0) - off) with (if b then 4 else 0) by lia. by destruct b. Qed.

(** A value written to WR12 (time constant) or WR15 of either channel, or to WR2 (vector) through channel A, is read back, but for the two
    bits of WR15 that select features. *)
Theorem scc_register_roundtrip off b n m v x : 0 <= off < 2 ^ 32 - 8 → readable b n = Some m → scc_ok x → (chan b x).(active_reg) = 0 →
  ∃ x', (scc_select off b n ;; scc_handleWrite off (control off b) v ;;
    scc_select off b n ;; scc_handleRead off (control off b)) x = (Ret (Z.ldiff v m), x') ∧ (chan b x').(active_reg) = 0.
Proof.
  intros Ho Hm Hx Ha. unfold scc_select, scc_handleWrite, scc_handleRead. rewrite control_port by done.
  pose proof (co_wr7 _ _ (chan_ok b x (scc_ok_parts x Hx))) as Hw.
  unfold readable in Hm. destruct x as [[] [] ? ? ? ?]. destruct b; cbn in Ha, Hw; subst; cbn;
    repeat case_match; simplify_eq; cbn; rewrite ?Z.ldiff_0_r;
    repeat progress (change (15 .& 15) with 15; change (12 .& 15) with 12; change (2 .& 15) with 2; change (tst 0 64) with false; cbn);
    (eexists; split; [unfold xret, reg, aget; cbn; rewrite ?lookup_insert_eq; reflexivity|done]).
Qed.
End Spec.

(** ** A controller with a port that always has a character

    The theorems of [SccSpec] on a concrete controller, and where it differs from an 85C30. *)

(** A port whose receiver holds one character: RxIP of channel B and the bits of RR0; the state is what was sent last. *)
#[local] Instance loud : SerialPort Z := {
  sp_reset := xret tt;
  sp_getData := xret 0x41;
  sp_setData v := xmod (λ _, v);
  sp_setBaud _ := xret tt;
  sp_getStatus _ := xret (0x0405, 1);
  sp_setRTS _ := xret tt;
  sp_setDTR _ := xret tt;
}.
#[local] Instance loud_ok : PortOk Z.
Proof. split; intros; cbn; lia. Qed.

Definition scc_new : SCC Z := Scc (channel_reset false) (channel_reset true) 0 0 0 0.

Lemma scc_new_ok : scc_ok scc_new.
Proof. split; try apply channel_reset_ok; cbn; try lia; done. Qed.

(** Vector base 0x60, interrupts with status in the vector, and the receiver of channel B enabled; then a look at the port. *)
Definition scc_setup : list scc_op :=
  [SccWrite 0xff8c84 2; SccWrite 0xff8c84 0x60; SccWrite 0xff8c80 9; SccWrite 0xff8c80 9;
   SccWrite 0xff8c84 1; SccWrite 0xff8c84 0x10; SccLook].
Definition scc_after (l : list scc_op) : SCC Z := (xfor l (do_scc 0xff8c80) scc_new).2.

Lemma scc_setup_run : xfor scc_setup (do_scc 0xff8c80) scc_new = (Ret tt, scc_after scc_setup).
Proof. vm_compute. reflexivity. Qed.

Lemma scc_invariant_witness : scc_ok (scc_after scc_setup).
Proof.
  pose proof (scc_invariant 0xff8c80 scc_setup scc_new ltac:(repeat constructor; unfold byte; lia) scc_new_ok) as H.
  rewrite scc_setup_run in H. exact H.
Defined.

Lemma scc_acknowledge_witness : scc_doInterrupt (scc_after scc_setup) = (Ret 0x64, scc_after scc_setup).
Proof.
  pose proof (scc_acknowledge (scc_after scc_setup)) as H.
  rewrite H; [vm_compute; reflexivity|exact scc_invariant_witness|vm_compute; reflexivity|vm_compute; reflexivity].
Defined.

Lemma scc_register_roundtrip_witness :
  ∃ x', (scc_select 0xff8c80 true 15 ;; scc_handleWrite 0xff8c80 (control 0xff8c80 true) 0xff ;;
    scc_select 0xff8c80 true 15 ;; scc_handleRead 0xff8c80 (control 0xff8c80 true)) scc_new = (Ret 0xfa, x').
Proof.
  destruct (scc_register_roundtrip 0xff8c80 true 15 5 0xff scc_new ltac:(lia) eq_refl scc_new_ok eq_refl) as (x' & E & _).
  by exists x'.
Defined.

(** ** Where the code differs *)

(** The receiver interrupt is disabled in WR1, but its bit in the mask stays: the next character interrupts all the same. *)
Lemma disabled_interrupt_signalled :
  let x := scc_after (scc_setup ++ [SccWrite 0xff8c84 1; SccWrite 0xff8c84 0; SccLook]) in
  reg 1 x.(chB) = 0 ∧ Z.testbit x.(scc_flags) 13 = true ∧ scc_vector x = 0x64.
Proof. by vm_compute. Qed.

(** The vector read in RR2 of channel B has another status than the vector of the interrupt. *)
Lemma rr2_status_differs :
  let x := scc_after scc_setup in
  scc_vector x = 0x64 ∧
  (do_scc 0xff8c80 (SccWrite 0xff8c84 2) ;; scc_handleRead 0xff8c80 0xff8c84) x = (Ret 0x62, x).
Proof. split; [by vm_compute|]. vm_compute. reflexivity. Qed.

(** Register 9 reads as WR9, not as an image of RR13. *)
Lemma rr9_reads_wr9 :
  (scc_select 0xff8c80 false 13 ;; scc_handleWrite 0xff8c80 0xff8c80 0x55 ;; scc_select 0xff8c80 false 9 ;;
   scc_handleRead 0xff8c80 0xff8c80) scc_new = (Ret 0, upd_chA (set_reg 13 0x55 (channel_reset false)) scc_new).
Proof. vm_compute. reflexivity. Qed.
