(* ===== verification/Yamaha.v ===== *)
(** * Yamaha: the sound chip's ports

    Models [src/yamaha.cpp] with [include/yamaha.h]: the registers of the YM2149, whose ports select drive and side of
    the floppy, reset the DSP and drive the parallel port; and the parallel port, an interface as in
    [include/parallel.h], with the implementation [src/parallel_file.cpp] that prints to a file. *)

From S2P Require Import Prelude Throws.
From stdpp Require Import base gmap list numbers.
Open Scope Z_scope.
Open Scope c_scope.
Open Scope x_scope.

(** ** The parallel port *)

(** [Parallel], with state [P]. *)
Class Parallel (P : Type) := {
  pp_reset : X P unit;
  pp_getDirection : P → bool;
  pp_setDirection : bool → X P unit;
  pp_getData : X P Z;
  pp_setData : Z → X P unit;
  pp_getBusy : X P Z;
  pp_setStrobe : bool → X P unit;
}.

(** The stream the file backend prints to: one of the standard streams, which it does not close, or a file it opened. *)
Inductive par_handle := HStd | HFile.

Record ParallelFile := ParFile {
  direction : bool;
  handle : option par_handle;
  close_handle : bool;
  printed : list Z;  (* the bytes put into the stream *)
}.

(** The options [parallel.type] (is it "file"?), [parallel.enabled], [parallel.file], and whether this file can be
    opened. *)
Inductive par_name := NStd | NFile | NEmpty.
Record par_options := ParOptions {
  type_file : bool;
  par_enabled : bool;
  par_file : par_name;
  par_opens : bool;
}.

Section ParallelFile.
Context (o : par_options).

(** The stream is opened at the first byte; [None] if this byte is lost with a complaint. *)
Definition file_handle (p : ParallelFile) : option ParallelFile :=
  match p.(handle) with
  | Some _ => Some p
  | None =>
      if o.(type_file) && o.(par_enabled) then
        match o.(par_file) with
        | NStd => Some (ParFile p.(direction) (Some HStd) p.(close_handle) p.(printed))
        | NFile => if o.(par_opens) then Some (ParFile p.(direction) (Some HFile) true p.(printed)) else None
        | NEmpty => Some p
        end
      else Some p
  end.

Definition file_setData (value : Z) : X ParallelFile unit :=
  xmod (λ p, match file_handle p with
             | Some q =>
                 if q.(handle) is Some _ then ParFile q.(direction) q.(handle) q.(close_handle) (q.(printed) ++ [value]) else q
             | None => p
             end).

#[export] Instance parallel_file : Parallel ParallelFile := {
  pp_reset := xret tt;
  pp_getDirection := direction;
  pp_setDirection out := xmod (λ p, ParFile out p.(handle) p.(close_handle) p.(printed));
  pp_getData := xret 0;
  pp_setData := file_setData;
  pp_getBusy := xret 0;
  pp_setStrobe _ := xret tt;
}.

(** The constructors of [ParallelFile] and its base class. *)
Definition new_parallel_file : ParallelFile := ParFile true None false [].
End ParallelFile.

(** ** The chip *)

Record YAMAHA := Yamaha {
  yam_active : Z;  (* [active_reg] *)
  yamaha_regs : gmap Z Z;
}.

(** The chip with the parallel port and the DSP it acts on; there may be no object for the port. *)
Record yamaha_devices (P D : Type) := YamahaDevices {
  ym : YAMAHA;
  par : option P;
  ym_dsp : D;
}.
Arguments YamahaDevices {P D} _ _ _.
Arguments ym {P D} _.
Arguments par {P D} _.
Arguments ym_dsp {P D} _.

Section Yamaha.
Context {P D : Type} `{!Parallel P} (enabled : bool) (dsp_reset : X D unit) (HWoffset : Z).
Abbreviation M := (X (yamaha_devices P D)).

Definition ymod (f : YAMAHA → YAMAHA) : M unit := xmod (λ s, YamahaDevices (f s.(ym)) s.(par) s.(ym_dsp)).

(** A call to the parallel port if there is one. *)
Definition on_par {A} (d : A) (x : X P A) : M A := λ s,
  match s.(par) with
  | None => (Ret d, s)
  | Some p => let '(r, p') := x p in (r, YamahaDevices s.(ym) (Some p') s.(ym_dsp))
  end.
Definition par_direction : M bool := xget (λ s, if s.(par) is Some p then pp_getDirection p else false).

Definition yamaha_reset : M unit :=
  ymod (λ _, Yamaha 0 ∅) ;;
  on_par tt pp_reset.

Definition yamaha_handleRead (addr : Z) : M Z :=
  if (addr -u HWoffset) =? 0 then
    let* y := xget ym in
    if y.(yam_active) =? 15 then
      let* p := xget par in
      let* out := par_direction in
      if (if p is Some _ then enabled else false) && negb out then on_par 0 pp_getData else xret 0
    else xret (u8 (aget y.(yamaha_regs) y.(yam_active)))
  else xret 0.

Definition yamaha_handleWrite (addr value : Z) : M unit :=
  match addr -u HWoffset with
  | 0 => ymod (λ y, Yamaha (value .& 0x0f) y.(yamaha_regs))
  | 2 =>
      ymod (λ y, Yamaha y.(yam_active) (<[y.(yam_active) := value]> y.(yamaha_regs))) ;;
      let* active := xget (λ s, s.(ym).(yam_active)) in
      match active with
      | 7 => xwhen enabled (on_par tt (pp_setDirection (negb ((value >> 7) =? 0))))
      | 14 =>
          xwhen enabled (on_par tt (pp_setStrobe (negb (((value >> 5) .& 1) =? 0)))) ;;
          xwhen (tst value 0x10) (xzoom ym_dsp (λ d s, YamahaDevices s.(ym) s.(par) d) dsp_reset)
      | 15 =>
          let* out := par_direction in
          xwhen (enabled && out) (on_par tt (pp_setData value))
      | _ => xret tt
      end
  | _ => xret tt
  end.

End Yamaha.

(** [getFloppyStat]: the bits of port A that select drive and side. *)
Definition floppy_stat (y : YAMAHA) : Z := aget y.(yamaha_regs) 14 .& 7.

(** ** Printing *)

Section Printing.
Context (o : par_options) {D : Type} (dsp_reset : X D unit) (off : Z) (off_range : 0 <= off < 2 ^ 32 - 2).
Abbreviation chip := (yamaha_devices ParallelFile D).
#[local] Instance here : Parallel ParallelFile := parallel_file o.
Abbreviation write := (yamaha_handleWrite o.(par_enabled) dsp_reset off).
Abbreviation read := (yamaha_handleRead o.(par_enabled) off).

(** The guest's accesses to a register; its printer routine puts a byte into port B and pulls the strobe in port A low
    and high. *)
Definition put_register (r v : Z) : X chip unit := write off r ;; write (off + 2) v.
Definition get_register (r : Z) : X chip Z := write off r ;; read off.
Definition print_byte (port b : Z) : X chip unit :=
  put_register 15 b ;;
  put_register 14 (Z.clearbit port 5) ;;
  put_register 14 (Z.setbit port 5).

(** The effect on the port and the DSP of a value in a register. *)
Definition register_effect (r v : Z) : X chip unit :=
  match r with
  | 7 => xwhen o.(par_enabled) (on_par tt (pp_setDirection (negb ((v >> 7) =? 0))))
  | 14 =>
      xwhen o.(par_enabled) (on_par tt (pp_setStrobe (negb (((v >> 5) .& 1) =? 0)))) ;;
      xwhen (tst v 0x10) (xzoom ym_dsp (λ d s, YamahaDevices s.(ym) s.(par) d) dsp_reset)
  | 15 => let* out := par_direction in xwhen (o.(par_enabled) && out) (on_par tt (pp_setData v))
  | _ => xret tt
  end.

Lemma select_run r (s : chip) : 0 <= r < 16 → write off r s = (Ret tt, YamahaDevices (Yamaha r s.(ym).(yamaha_regs)) s.(par) s.(ym_dsp)).
Proof.
  intros Hr. unfold yamaha_handleWrite. replace (off -u off) with 0 by (rewrite u32_small; lia).
  unfold ymod, xmod. do 3 f_equal. change 0x0f with (Z.ones 4). by rewrite Z.land_ones, Z.mod_small by lia.
Qed.

Lemma put_register_run r v (s : chip) : 0 <= r < 16 → put_register r v s =
  register_effect r v (YamahaDevices (Yamaha r (<[r := v]> s.(ym).(yamaha_regs))) s.(par) s.(ym_dsp)).
Proof.
  intros Hr. unfold put_register. erewrite xbind_ret by (by apply select_run).
  unfold yamaha_handleWrite. replace ((off + 2) -u off) with 2 by (rewrite u32_small; lia).
  erewrite xbind_ret by reflexivity. erewrite xbind_ret by reflexivity. reflexivity.
Qed.

Lemma on_par_ym {A} y d (x : X ParallelFile A) : xkeeps (λ s : chip, s.(ym) = y) (on_par d x).
Proof. intros [y' p e] <-. unfold on_par. cbn. destruct p as [p|]; [|done]. by destruct (x p) as [[] ?]. Qed.

Lemma register_effect_ym r v y : xkeeps (λ s : chip, s.(ym) = y) (register_effect r v).
Proof.
  assert (xkeeps (λ s : chip, s.(ym) = y) (xzoom ym_dsp (λ d s, YamahaDevices s.(ym) s.(par) d) dsp_reset)).
  { intros [y' p e] <-. unfold xzoom. cbn. by destruct (dsp_reset e) as [[] ?]. }
  unfold register_effect, par_direction. xkeeps; by apply on_par_ym || done.
Qed.

(** Every register but the data port reads as it was written. *)
Theorem register_reads_back r v (s s' : chip) : 0 <= r < 15 → 0 <= v < 256 →
  put_register r v s = (Ret tt, s') → (get_register r s').1 = Ret v.
Proof.
  intros Hr Hv. rewrite put_register_run by lia. set (t := YamahaDevices _ _ _). intros E.
  assert (yamaha_regs s'.(ym) !! r = Some v) as Er.
  { pose proof (register_effect_ym r v t.(ym) t eq_refl) as Hy. rewrite E in Hy. rewrite Hy. apply lookup_insert_eq. }
  unfold get_register. erewrite xbind_ret by (apply select_run; lia).
  unfold yamaha_handleRead. replace (off -u off) with 0 by (rewrite u32_small; lia). cbn [Z.eqb]. erewrite xbind_ret by reflexivity.
  cbn [yam_active ym yamaha_regs]. rewrite (proj2 (Z.eqb_neq r 15)) by lia. cbn. unfold aget. rewrite Er. cbn. by rewrite u8_small.
Qed.

(** The stream is open or can be opened. *)
Definition prints (p : ParallelFile) : Prop :=
  p.(direction) = true ∧ (if p.(handle) is Some _ then True else
    o.(type_file) = true ∧ match o.(par_file) with NStd => True | NFile => o.(par_opens) = true | NEmpty => False end).

Lemma setData_prints b p : o.(par_enabled) = true → prints p →
  ∃ q, file_setData o b p = (Ret tt, q) ∧ prints q ∧ q.(printed) = p.(printed) ++ [b].
Proof.
  intros He [Hd Hp]. eexists. split; [reflexivity|]. unfold file_handle. rewrite He. unfold prints.
  destruct p as [d [h|] c l]; cbn in *; [done|]. destruct Hp as [-> Hp]. cbn.
  by destruct (par_file o); [|rewrite Hp|].
Qed.

(** What the guest prints is what the host's file gets: all bytes, in order, and the DSP is left alone. *)
Theorem printer_output port l (s : chip) p : o.(par_enabled) = true → Z.testbit port 4 = false → s.(par) = Some p → prints p →
  ∃ s' q, xfor l (print_byte port) s = (Ret tt, s') ∧ s'.(par) = Some q ∧ q.(printed) = p.(printed) ++ l ∧
    s'.(ym_dsp) = s.(ym_dsp).
Proof.
  intros He Hport. revert s p. induction l as [|b l IH]; intros s p Hs Hp.
  { exists s, p. by rewrite app_nil_r. }
  destruct (setData_prints b p He Hp) as (q & Eq & Hq & Hpr).
  assert (∀ v, Z.testbit v 4 = false → tst v 0x10 = false) as Hv.
  { intros v Hv. change 0x10 with (Z.shiftl 1 4). by rewrite tst_testbit. }
  assert (∃ s1, print_byte port b s = (Ret tt, s1) ∧ s1.(par) = Some q ∧ s1.(ym_dsp) = s.(ym_dsp)) as (s1 & E1 & H1 & D1).
  { unfold print_byte. eexists. split; [|split].
    - erewrite xbind_ret. 2:{ rewrite put_register_run by lia. cbn [register_effect]. destruct s as [y ? d]. cbn in Hs. subst.
        erewrite xbind_ret by reflexivity. cbn [par pp_getDirection here parallel_file]. rewrite (proj1 Hp), He. cbn [andb xwhen].
        unfold on_par. cbn [par pp_setData here parallel_file]. rewrite Eq. reflexivity. }
      assert (∀ v (t : chip), Z.testbit v 4 = false → t.(par) = Some q → put_register 14 v t =
        (Ret tt, YamahaDevices (Yamaha 14 (<[14 := v]> t.(ym).(yamaha_regs))) (Some q) t.(ym_dsp))) as H14.
      { intros v t Hv4 Ht. rewrite put_register_run by lia. cbn [register_effect]. rewrite He, (Hv v Hv4). unfold xwhen, xbind, on_par.
        cbn. by rewrite Ht. }
      erewrite xbind_ret by (apply H14; [by rewrite Z.clearbit_neq|reflexivity]).
      apply H14; [by rewrite Z.setbit_neq|reflexivity].
    - reflexivity.
    - reflexivity. }
  destruct (IH s1 q H1 Hq) as (s' & q' & E & Hs' & Hl & Hd). exists s', q'. split; [|rewrite Hl, Hpr, <-app_assoc; by rewrite Hd].
  cbn [xfor]. by erewrite xbind_ret by exact E1.
Qed.
End Printing.
