(* ===== verification/Fdc.v ===== *)
(** * Fdc: the disk controller

    Models [src/acsifdc.cpp] with [include/acsifdc.h]: the DMA chip, the floppy controller WD1772 behind it and the
    image file of drive A; and [src/ncr5380.cpp], the SCSI controller (which has no devices).  A port of the sound chip
    ([Yamaha]) selects drive and side.

    The controller copies sectors between the file and the machine's memory and pulls line 5 of the MFP, so it works on
    a machine whose devices are [disk_devices].  The file of the host is its bytes and the position of the open
    descriptor; whether it can be opened is an argument ([FloppyHost]). *)

From S2P Require Import Prelude Throws Machine Mfp Yamaha.
From stdpp Require Import base gmap list numbers.
Open Scope Z_scope.
Open Scope c_scope.
Open Scope x_scope.

(** ** State *)

Record ACSIFDC := Acsifdc {
  DMAaddr : Z;
  floppy_changed : bool;
  drive_fd : Z;
  fd_head : Z;  (* [head] *)
  sides : Z;
  tracks : Z;
  spt : Z;  (* sectors per track *)
  secsize : Z;
  dma_mode : Z;
  dma_scr : Z;  (* sector count *)
  dma_car : Z;
  dma_sr : Z;
  fdc_command : Z;
  fdc_track : Z;
  fdc_sector : Z;
  fdc_data : Z;
  fdc_status : Z;
  dir : Z;  (* static in [fdc_exec_command] *)
  panic_floppy_error : Z;
}.
Definition to_DMAaddr (v : Z) (f : ACSIFDC) : ACSIFDC :=
  Acsifdc v f.(floppy_changed) f.(drive_fd) f.(fd_head) f.(sides) f.(tracks) f.(spt) f.(secsize)
    f.(dma_mode) f.(dma_scr) f.(dma_car) f.(dma_sr) f.(fdc_command) f.(fdc_track) f.(fdc_sector)
    f.(fdc_data) f.(fdc_status) f.(dir) f.(panic_floppy_error).
Definition to_floppy_changed (v : bool) (f : ACSIFDC) : ACSIFDC :=
  Acsifdc f.(DMAaddr) v f.(drive_fd) f.(fd_head) f.(sides) f.(tracks) f.(spt) f.(secsize) f.(dma_mode)
    f.(dma_scr) f.(dma_car) f.(dma_sr) f.(fdc_command) f.(fdc_track) f.(fdc_sector) f.(fdc_data)
    f.(fdc_status) f.(dir) f.(panic_floppy_error).
Definition to_drive_fd (v : Z) (f : ACSIFDC) : ACSIFDC :=
  Acsifdc f.(DMAaddr) f.(floppy_changed) v f.(fd_head) f.(sides) f.(tracks) f.(spt) f.(secsize) f.(dma_mode)
    f.(dma_scr) f.(dma_car) f.(dma_sr) f.(fdc_command) f.(fdc_track) f.(fdc_sector) f.(fdc_data)
    f.(fdc_status) f.(dir) f.(panic_floppy_error).
Definition to_fd_head (v : Z) (f : ACSIFDC) : ACSIFDC :=
  Acsifdc f.(DMAaddr) f.(floppy_changed) f.(drive_fd) v f.(sides) f.(tracks) f.(spt) f.(secsize)
    f.(dma_mode) f.(dma_scr) f.(dma_car) f.(dma_sr) f.(fdc_command) f.(fdc_track) f.(fdc_sector)
    f.(fdc_data) f.(fdc_status) f.(dir) f.(panic_floppy_error).
Definition to_sides (v : Z) (f : ACSIFDC) : ACSIFDC :=
  Acsifdc f.(DMAaddr) f.(floppy_changed) f.(drive_fd) f.(fd_head) v f.(tracks) f.(spt) f.(secsize)
    f.(dma_mode) f.(dma_scr) f.(dma_car) f.(dma_sr) f.(fdc_command) f.(fdc_track) f.(fdc_sector)
    f.(fdc_data) f.(fdc_status) f.(dir) f.(panic_floppy_error).
Definition to_tracks (v : Z) (f : ACSIFDC) : ACSIFDC :=
  Acsifdc f.(DMAaddr) f.(floppy_changed) f.(drive_fd) f.(fd_head) f.(sides) v f.(spt) f.(secsize)
    f.(dma_mode) f.(dma_scr) f.(dma_car) f.(dma_sr) f.(fdc_command) f.(fdc_track) f.(fdc_sector)
    f.(fdc_data) f.(fdc_status) f.(dir) f.(panic_floppy_error).
Definition to_spt (v : Z) (f : ACSIFDC) : ACSIFDC :=
  Acsifdc f.(DMAaddr) f.(floppy_changed) f.(drive_fd) f.(fd_head) f.(sides) f.(tracks) v f.(secsize)
    f.(dma_mode) f.(dma_scr) f.(dma_car) f.(dma_sr) f.(fdc_command) f.(fdc_track) f.(fdc_sector)
    f.(fdc_data) f.(fdc_status) f.(dir) f.(panic_floppy_error).
Definition to_secsize (v : Z) (f : ACSIFDC) : ACSIFDC :=
  Acsifdc f.(DMAaddr) f.(floppy_changed) f.(drive_fd) f.(fd_head) f.(sides) f.(tracks) f.(spt) v
    f.(dma_mode) f.(dma_scr) f.(dma_car) f.(dma_sr) f.(fdc_command) f.(fdc_track) f.(fdc_sector)
    f.(fdc_data) f.(fdc_status) f.(dir) f.(panic_floppy_error).
Definition to_dma_mode (v : Z) (f : ACSIFDC) : ACSIFDC :=
  Acsifdc f.(DMAaddr) f.(floppy_changed) f.(drive_fd) f.(fd_head) f.(sides) f.(tracks) f.(spt) f.(secsize) v
    f.(dma_scr) f.(dma_car) f.(dma_sr) f.(fdc_command) f.(fdc_track) f.(fdc_sector) f.(fdc_data)
    f.(fdc_status) f.(dir) f.(panic_floppy_error).
Definition to_dma_scr (v : Z) (f : ACSIFDC) : ACSIFDC :=
  Acsifdc f.(DMAaddr) f.(floppy_changed) f.(drive_fd) f.(fd_head) f.(sides) f.(tracks) f.(spt) f.(secsize)
    f.(dma_mode) v f.(dma_car) f.(dma_sr) f.(fdc_command) f.(fdc_track) f.(fdc_sector) f.(fdc_data)
    f.(fdc_status) f.(dir) f.(panic_floppy_error).
Definition to_dma_car (v : Z) (f : ACSIFDC) : ACSIFDC :=
  Acsifdc f.(DMAaddr) f.(floppy_changed) f.(drive_fd) f.(fd_head) f.(sides) f.(tracks) f.(spt) f.(secsize)
    f.(dma_mode) f.(dma_scr) v f.(dma_sr) f.(fdc_command) f.(fdc_track) f.(fdc_sector) f.(fdc_data)
    f.(fdc_status) f.(dir) f.(panic_floppy_error).
Definition to_dma_sr (v : Z) (f : ACSIFDC) : ACSIFDC :=
  Acsifdc f.(DMAaddr) f.(floppy_changed) f.(drive_fd) f.(fd_head) f.(sides) f.(tracks) f.(spt) f.(secsize)
    f.(dma_mode) f.(dma_scr) f.(dma_car) v f.(fdc_command) f.(fdc_track) f.(fdc_sector) f.(fdc_data)
    f.(fdc_status) f.(dir) f.(panic_floppy_error).
Definition to_fdc_command (v : Z) (f : ACSIFDC) : ACSIFDC :=
  Acsifdc f.(DMAaddr) f.(floppy_changed) f.(drive_fd) f.(fd_head) f.(sides) f.(tracks) f.(spt) f.(secsize)
    f.(dma_mode) f.(dma_scr) f.(dma_car) f.(dma_sr) v f.(fdc_track) f.(fdc_sector) f.(fdc_data)
    f.(fdc_status) f.(dir) f.(panic_floppy_error).
Definition to_fdc_track (v : Z) (f : ACSIFDC) : ACSIFDC :=
  Acsifdc f.(DMAaddr) f.(floppy_changed) f.(drive_fd) f.(fd_head) f.(sides) f.(tracks) f.(spt) f.(secsize)
    f.(dma_mode) f.(dma_scr) f.(dma_car) f.(dma_sr) f.(fdc_command) v f.(fdc_sector) f.(fdc_data)
    f.(fdc_status) f.(dir) f.(panic_floppy_error).
Definition to_fdc_sector (v : Z) (f : ACSIFDC) : ACSIFDC :=
  Acsifdc f.(DMAaddr) f.(floppy_changed) f.(drive_fd) f.(fd_head) f.(sides) f.(tracks) f.(spt) f.(secsize)
    f.(dma_mode) f.(dma_scr) f.(dma_car) f.(dma_sr) f.(fdc_command) f.(fdc_track) v f.(fdc_data)
    f.(fdc_status) f.(dir) f.(panic_floppy_error).
Definition to_fdc_data (v : Z) (f : ACSIFDC) : ACSIFDC :=
  Acsifdc f.(DMAaddr) f.(floppy_changed) f.(drive_fd) f.(fd_head) f.(sides) f.(tracks) f.(spt) f.(secsize)
    f.(dma_mode) f.(dma_scr) f.(dma_car) f.(dma_sr) f.(fdc_command) f.(fdc_track) f.(fdc_sector) v
    f.(fdc_status) f.(dir) f.(panic_floppy_error).
Definition to_fdc_status (v : Z) (f : ACSIFDC) : ACSIFDC :=
  Acsifdc f.(DMAaddr) f.(floppy_changed) f.(drive_fd) f.(fd_head) f.(sides) f.(tracks) f.(spt) f.(secsize)
    f.(dma_mode) f.(dma_scr) f.(dma_car) f.(dma_sr) f.(fdc_command) f.(fdc_track) f.(fdc_sector)
    f.(fdc_data) v f.(dir) f.(panic_floppy_error).
Definition to_dir (v : Z) (f : ACSIFDC) : ACSIFDC :=
  Acsifdc f.(DMAaddr) f.(floppy_changed) f.(drive_fd) f.(fd_head) f.(sides) f.(tracks) f.(spt) f.(secsize)
    f.(dma_mode) f.(dma_scr) f.(dma_car) f.(dma_sr) f.(fdc_command) f.(fdc_track) f.(fdc_sector)
    f.(fdc_data) f.(fdc_status) v f.(panic_floppy_error).
Definition to_panic_floppy_error (v : Z) (f : ACSIFDC) : ACSIFDC :=
  Acsifdc f.(DMAaddr) f.(floppy_changed) f.(drive_fd) f.(fd_head) f.(sides) f.(tracks) f.(spt) f.(secsize)
    f.(dma_mode) f.(dma_scr) f.(dma_car) f.(dma_sr) f.(fdc_command) f.(fdc_track) f.(fdc_sector)
    f.(fdc_data) f.(fdc_status) f.(dir) v.

Record NCR5380 := Ncr {
  hd_status : Z;
  hd_count : Z;
  hd_initiator : Z;
  hd_mode : Z;
}.

(** The image: the bytes of the file, and of the open descriptor its position and whether it was opened for writing. *)
Record image_file := Image {
  content : list Z;
  fpos : Z;
  writable : bool;
}.

Record disk_devices := Disk {
  dk_fdc : ACSIFDC;
  dk_ncr : NCR5380;
  dk_yamaha : YAMAHA;
  dk_mfp : MFP;  (* its [cpu_flags] are those of the machine *)
  dk_file : image_file;
}.

(** The results of [open] on the path of the option [floppy.path], for reading and writing and for reading; negative if
    it fails. *)
Class FloppyHost := {
  path_empty : bool;
  open_rw : Z;
  open_ro : Z;
  boot_netbsd : bool;
}.

Section Fdc.
Context {cfg : Config} {host : FloppyHost}.
Abbreviation M := (X (machine disk_devices)).

Definition dmod (f : disk_devices → disk_devices) : M unit := xmod (λ s, set_dev (f s.(dev)) s).
Definition fget {A} (f : ACSIFDC → A) : M A := xget (λ s, f s.(dev).(dk_fdc)).
Definition fmod (f : ACSIFDC → ACSIFDC) : M unit :=
  dmod (λ d, Disk (f d.(dk_fdc)) d.(dk_ncr) d.(dk_yamaha) d.(dk_mfp) d.(dk_file)).
Definition file_get {A} (f : image_file → A) : M A := xget (λ s, f s.(dev).(dk_file)).
Definition file_mod (f : image_file → image_file) : M unit :=
  dmod (λ d, Disk d.(dk_fdc) d.(dk_ncr) d.(dk_yamaha) d.(dk_mfp) (f d.(dk_file))).

(** The line of the controllers to the MFP. *)
Definition disk_mfp {A} : X MFP A → M A :=
  xzoom (λ s, upd_cpu_flags s.(spcflags) s.(dev).(dk_mfp))
    (λ x s, set_spcflags x.(cpu_flags)
       (set_dev (Disk s.(dev).(dk_fdc) s.(dev).(dk_ncr) s.(dev).(dk_yamaha) x s.(dev).(dk_file)) s)).
Definition set_line (v : Z) : M unit := disk_mfp (setGPIPbit 0x20 v).

(** ** The host's file *)

Definition lseek_set (offset : Z) : M bool :=
  if offset <? 0 then xret false else file_mod (λ i, Image i.(content) offset i.(writable)) ;; xret true.

Definition lseek_end : M Z :=
  let* n := file_get (λ i, Z.of_nat (length i.(content))) in
  file_mod (λ i, Image i.(content) n i.(writable)) ;; xret n.

Definition file_read (n : Z) : M (list Z) :=
  let* l := file_get (λ i, take (Z.to_nat n) (drop (Z.to_nat i.(fpos)) i.(content))) in
  file_mod (λ i, Image i.(content) (i.(fpos) + Z.of_nat (length l)) i.(writable)) ;; xret l.

(** Bytes written at a position; a gap before it is filled with zeros. *)
Definition splice (pos : nat) (l bytes : list Z) : list Z :=
  take pos (bytes ++ replicate (pos - length bytes) 0) ++ l ++ drop (pos + length l) bytes.

Definition file_write (l : list Z) : M Z :=
  let* w := file_get writable in
  if negb w then xret (-1) else
  file_mod (λ i, Image (splice (Z.to_nat i.(fpos)) l i.(content)) (i.(fpos) + Z.of_nat (length l)) i.(writable)) ;;
  xret (Z.of_nat (length l)).

(** [memcpy] to and from the memory of the machine. *)
Fixpoint copy_to (address : Z) (l : list Z) : M unit :=
  match l with
  | [] => xret tt
  | b :: l => do_put_mem 1 address b ;; copy_to (address + 1) l
  end.
Definition copy_from (address n : Z) : M (list Z) := xmap (λ i, do_get_mem 1 (address + i)) (seqZ 0 n).

(** The loops of [read_file] and [write_file]; a buffer without bytes has no first element. *)
Fixpoint read_sectors (n : nat) (address size : Z) : M bool :=
  match n with
  | O => xret true
  | S n =>
      if size <=? 0 then xundef Oob_device else
      let* l := file_read size in
      if negb (Z.of_nat (length l) =? size) then xret false else
      copy_to address l ;;
      read_sectors n (address +u size) size
  end.
Definition read_file (device offset address size count : Z) : M bool :=
  if device <? 0 then xret false else
  let* ok := lseek_set offset in
  if negb ok then xret false else read_sectors (Z.to_nat count) address size.

Fixpoint write_sectors (n : nat) (address size : Z) : M bool :=
  match n with
  | O => xret true
  | S n =>
      if size <=? 0 then xundef Oob_device else
      let* l := copy_from address size in
      let* w := file_write l in
      if negb (w =? size) then xret false else write_sectors n (address +u size) size
  end.
Definition write_file (device offset address size count : Z) : M bool :=
  if device <? 0 then xret false else
  let* ok := lseek_set offset in
  if negb ok then xret false else write_sectors (Z.to_nat count) address size.

(** ** The floppy *)

Abbreviation SECSIZE := 512 (only parsing).
Abbreviation SIDES := 2 (only parsing).
Abbreviation SPT := 18 (only parsing).
Abbreviation TRACKS := 80 (only parsing).

(** The geometry of a boot sector: its sectors, if they all are on the tracks. *)
Definition boot_geometry (buf : list Z) : M (option Z) :=
  let byte i := nth (Z.to_nat i) buf 0 in
  let sectors := Z.shiftl (byte 20) 8 .| byte 19 in
  fmod (to_secsize (Z.shiftl (byte 12) 8 .| byte 11)) ;;
  fmod (to_spt (byte 24)) ;;
  fmod (to_sides (byte 26)) ;;
  let* f := fget id in
  if (f.(secsize) <=? 0) || (sectors <=? 0) || (f.(spt) <=? 0) || (f.(sides) <=? 0) then xret None else
  let* t := int_div sectors f.(spt) in
  let* t := int_div t f.(sides) in
  fmod (to_tracks t) ;;
  let* n := int_result (f.(sides) * f.(spt)) in
  let* n := int_result (n * t) in
  xret (if n =? sectors then Some sectors else None).

(** The geometry from the size of the image: 80 tracks, or a floppy of 1.44 MB. *)
Definition default_geometry : M Z :=
  fmod (to_secsize SECSIZE) ;;
  fmod (to_sides SIDES) ;;
  let* disk_size := lseek_end in
  let bpt := SECSIZE * SIDES * TRACKS in
  fmod (to_spt (if negb (disk_size / bpt =? 0) && (disk_size mod bpt =? 0) then s32 (disk_size / bpt) else SPT)) ;;
  let* n := fget spt in
  let* n := int_result (n * SIDES) in
  int_result (n * TRACKS).

Definition set_floppy_geometry : M unit :=
  let* fd := fget drive_fd in
  xwhen (0 <? fd)
    (lseek_set 0 ;;
     let* buf := file_read 512 in
     let* found := if Z.of_nat (length buf) =? 512 then boot_geometry buf else xret None in
     let* sectors := match found with Some n => xret n | None => default_geometry end in
     let* f := fget id in
     let* t := int_div sectors f.(spt) in
     let* t := int_div t f.(sides) in
     fmod (to_tracks t)).

Definition remove_floppy : M unit := fmod (λ f, if 0 <=? f.(drive_fd) then to_drive_fd (-1) f else f).

Definition insert_floppy : M bool :=
  remove_floppy ;;
  if path_empty then xret false else
  let rw := 0 <=? open_rw in
  let status := if rw then open_rw else open_ro in
  if status <? 0 then xret false else
  file_mod (λ i, Image i.(content) 0 rw) ;;
  fmod (to_drive_fd status) ;;
  set_floppy_geometry ;;
  fmod (to_floppy_changed true) ;;
  fmod (to_panic_floppy_error 0) ;;
  xret true.

Definition is_floppy_inserted : M bool := fget (λ f, 0 <=? f.(drive_fd)).

(** ** The commands of the WD1772 *)

Abbreviation FDC_TRACK0 := 0x04 (only parsing).
Abbreviation FDC_RNF := 0x10 (only parsing).
Abbreviation FDC_RT_SU := 0x20 (only parsing).
Abbreviation FDC_WRI_PRO := 0x40 (only parsing).
Abbreviation FDC_MOTORON := 0x80 (only parsing).

Definition status_or (b : bool) (m : Z) : M unit :=
  xwhen b (fmod (λ f, to_fdc_status (f.(fdc_status) .| m) f)).

(** An [int] field plus a number. *)
Definition add_track (n : Z) : M unit := let* f := fget id in let* t := int_result (f.(fdc_track) + n) in fmod (to_fdc_track t).
Definition add_head (n : Z) : M unit := let* f := fget id in let* t := int_result (f.(fd_head) + n) in fmod (to_fd_head t).

(** Restore, seek and the steps. *)
Definition move_head (command : Z) : M unit :=
  let* f := fget id in
  match command .& 0xf0 with
  | 0x00 => fmod (to_fd_head 0) ;; fmod (to_fdc_track 0)
  | 0x10 =>
      let* d := int_result (f.(fdc_data) - f.(fdc_track)) in
      add_head d ;;
      fmod (to_fdc_track f.(fdc_data)) ;;
      fmod (λ f, if (f.(fd_head) <? 0) || (f.(tracks) <=? f.(fd_head)) then to_fd_head 0 f else f)
  | 0x30 => add_track f.(dir) ;; add_head f.(dir)
  | 0x20 => add_head f.(dir)
  | 0x50 => add_track 1 ;; xwhen (f.(fd_head) <? f.(tracks)) (add_head 1) ;; fmod (to_dir 1)
  | 0x40 => xwhen (f.(fd_head) <? f.(tracks)) (add_head 1) ;; fmod (to_dir 1)
  | 0x70 => add_track (-1) ;; xwhen (0 <? f.(fd_head)) (add_head (-1)) ;; fmod (to_dir (-1))
  | 0x60 => xwhen (0 <? f.(fd_head)) (add_head (-1)) ;; fmod (to_dir (-1))
  | _ => xret tt
  end.

(** What follows a transfer. *)
Definition transfer_done (ok record_not_found : bool) : M unit :=
  if ok then
    let* f := fget id in
    let* n := int_result (f.(dma_scr) * f.(secsize)) in
    fmod (to_DMAaddr (f.(DMAaddr) +u n)) ;;
    fmod (to_dma_scr 0) ;;
    fmod (to_dma_sr 1) ;;
    status_or record_not_found FDC_RNF
  else
    let* f := fget id in
    let* n := int_result (f.(panic_floppy_error) + 1) in
    fmod (to_panic_floppy_error n) ;;
    status_or true FDC_RNF ;;
    fmod (to_dma_sr 1).

(** The position of the sector under the head, by the side. *)
Definition sector_offset (side : Z) : M Z :=
  let* f := fget id in
  let* a := int_result (f.(spt) * f.(sides)) in
  let* a := int_result (a * f.(fd_head)) in
  let* b := int_result (f.(spt) * side) in
  let* a := int_result (a + b) in
  let* c := int_result (f.(fdc_sector) - 1) in
  let* a := int_result (a + c) in
  int_result (f.(secsize) * a).

Definition read_command (offset : Z) (record_not_found : bool) : M unit :=
  let* n := fget dma_scr in
  xwhen ((offset =? 0) && (n =? 1)) (insert_floppy ;; xret tt) ;;
  let* f := fget id in
  let* ok := read_file f.(drive_fd) offset f.(DMAaddr) f.(secsize) f.(dma_scr) in
  transfer_done ok record_not_found.

Definition write_command (offset : Z) (record_not_found : bool) : M unit :=
  let* f := fget id in
  let* ok := write_file f.(drive_fd) offset f.(DMAaddr) f.(secsize) f.(dma_scr) in
  transfer_done ok record_not_found.

(** The commands that read and write. *)
Definition transfer (command side : Z) : M unit :=
  let* offset := sector_offset side in
  let* f := fget id in
  let* newscr := int_result (f.(spt) - f.(fdc_sector)) in
  let* newscr := int_result (newscr + 1) in
  let record_not_found := (newscr <? f.(dma_scr)) && (1 <? f.(spt)) in
  xwhen record_not_found (fmod (to_dma_scr newscr)) ;;
  match command .& 0xf0 with
  | 0x80 => fmod (to_dma_scr 1) ;; read_command offset record_not_found
  | 0x90 => read_command offset record_not_found
  | 0xA0 => fmod (to_dma_scr 1) ;; write_command offset record_not_found
  | 0xB0 => write_command offset record_not_found
  | 0xC0 | 0xE0 | 0xF0 => status_or true FDC_RNF
  | _ => xret tt
  end ;;
  let* f := fget id in
  status_or (negb (f.(fd_head) =? f.(fdc_track))) FDC_RNF.

Definition getFloppyStat : M Z := xget (λ s, floppy_stat s.(dev).(dk_yamaha)).

Definition fdc_exec_command : M unit :=
  let* snd_porta := getFloppyStat in
  let actual_side := Z.lnot snd_porta .& 1 in
  let d := Z.lnot snd_porta .& 6 in
  let drive_a := (d =? 2) || (d =? 6) in
  fmod (to_fdc_status 0) ;;
  let* command := fget fdc_command in
  let* no_intr :=
    if command <? 0x80 then
      (if drive_a then
         move_head command ;;
         let* f := fget id in
         status_or (f.(fd_head) =? 0) FDC_TRACK0 ;;
         status_or (negb (f.(fd_head) =? f.(fdc_track)) && tst command 0x04) FDC_RNF ;;
         status_or true FDC_RT_SU
       else status_or true FDC_RNF) ;;
      xret false
    else if (command .& 0xf0) =? 0xD0 then
      (if command =? 0xD8 then set_line 0 else xwhen (command =? 0xD0) (set_line 0x20)) ;;
      xret boot_netbsd
    else
      (if drive_a then transfer command actual_side else status_or true FDC_RNF) ;;
      xret false in
  status_or (negb boot_netbsd) FDC_MOTORON ;;
  let* st := fget fdc_status in
  xwhen (negb no_intr && ((st .& 1) =? 0)) (set_line 0).

(** ** SCSI *)

Definition ncr_mod (f : NCR5380 → NCR5380) : M unit :=
  dmod (λ d, Disk d.(dk_fdc) (f d.(dk_ncr)) d.(dk_yamaha) d.(dk_mfp) d.(dk_file)).

Definition ncr_reset : M unit := ncr_mod (λ _, Ncr 0 0 0 0).

Definition ncr_ReadData (control : Z) : M Z :=
  match control .& 7 with
  | 1 => ncr_mod (λ n, Ncr n.(hd_status) n.(hd_count) 0x40 n.(hd_mode)) ;; xret 0x40
  | 2 => xget (λ s, s.(dev).(dk_ncr).(hd_mode))
  | 4 => ncr_mod (λ n, Ncr 0x20 n.(hd_count) n.(hd_initiator) n.(hd_mode)) ;; xret 0x20
  | _ => xret 0
  end.

Definition ncr_WriteData (control data : Z) : M unit :=
  match control .& 7 with
  | 1 => ncr_mod (λ n, Ncr n.(hd_status) n.(hd_count) data n.(hd_mode))
  | 2 => ncr_mod (λ n, Ncr n.(hd_status) n.(hd_count) n.(hd_initiator) data)
  | _ => xret tt
  end.

(** ** Registers *)

Definition fdc_reset : M unit :=
  fmod (λ f, Acsifdc 0 false f.(drive_fd) 0 0 0 0 0 0 0 0 0 0 0 0 0 0 f.(dir) f.(panic_floppy_error)) ;;
  insert_floppy ;;
  xret tt.

Definition getDMAData : M Z :=
  let* f := fget id in
  if tst f.(dma_mode) 0x10 then xret (f.(dma_scr) .& 0xff)
  else if tst f.(dma_mode) 0x08 then
    let* v := ncr_ReadData (u16 f.(dma_mode)) in
    fmod (to_dma_car v) ;;
    set_line 0x20 ;;
    xret (v .& 0xff)
  else
    match (f.(dma_mode) >> 1) .& 3 with
    | 0 =>
        set_line 0x20 ;;
        if f.(floppy_changed) then fmod (to_floppy_changed false) ;; xret (u16 (f.(fdc_status) .| FDC_WRI_PRO))
        else xret (f.(fdc_status) .& 0xff)
    | 1 => xret (f.(fdc_track) .& 0xff)
    | 2 => xret (f.(fdc_sector) .& 0xff)
    | _ => xret (f.(fdc_data) .& 0xff)
    end.

Definition getDMAStatus : M Z := fget (λ f, u16 f.(dma_sr)).

Definition setDMASectorCount (vv : Z) : M unit :=
  let* mode := fget dma_mode in
  if tst mode 0x10 then fmod (to_dma_scr vv)
  else if tst mode 0x08 then
    set_line 0x20 ;;
    fmod (to_dma_car vv) ;;
    ncr_WriteData (u16 mode) (u8 vv)
  else
    match (mode >> 1) .& 3 with
    | 0 => fmod (to_fdc_command vv) ;; fdc_exec_command
    | 1 => fmod (to_fdc_track vv)
    | 2 => fmod (to_fdc_sector vv)
    | _ => fmod (to_fdc_data vv)
    end.

Definition setDMAMode (vv : Z) : M unit := fmod (to_dma_mode vv).

Context (HWoffset HWsize : Z).

Definition fdc_handleRead (addr : Z) : M Z :=
  let addr := addr -u HWoffset in
  if HWsize <=? addr then xret 0 else
  match addr with
  | 4 => let* v := getDMAData in xret (u8 (v >> 8))
  | 5 => let* v := getDMAData in xret (u8 v)
  | 6 => let* v := getDMAStatus in xret (u8 (v >> 8))
  | 7 => let* v := getDMAStatus in xret (u8 v)
  | 9 => fget (λ f, u8 (f.(DMAaddr) >> 16))
  | 0x0b => fget (λ f, u8 (f.(DMAaddr) >> 8))
  | 0x0d => fget (λ f, u8 f.(DMAaddr))
  | _ => xret 0
  end.

Definition fdc_handleReadW (addr : Z) : M Z :=
  match addr -u HWoffset with
  | 4 => getDMAData
  | 6 => getDMAStatus
  | _ => base_handleReadW fdc_handleRead addr
  end.

Definition fdc_handleWrite (addr value : Z) : M unit :=
  let addr := addr -u HWoffset in
  if HWsize <=? addr then xret tt else
  match addr with
  | 4 => setDMASectorCount (Z.shiftl value 8)
  | 5 => setDMASectorCount value
  | 6 => setDMAMode (Z.shiftl value 8)
  | 7 => setDMAMode value
  | 9 => fmod (λ f, to_DMAaddr ((f.(DMAaddr) .& 0x00ffff) .| Z.shiftl value 16) f)
  | 0x0b => fmod (λ f, to_DMAaddr ((f.(DMAaddr) .& 0xff00ff) .| Z.shiftl value 8) f)
  | 0x0d => fmod (λ f, to_DMAaddr ((f.(DMAaddr) .& 0xffff00) .| value) f)
  | _ => xret tt
  end.

Definition fdc_handleWriteW (addr value : Z) : M unit :=
  match addr -u HWoffset with
  | 4 => setDMASectorCount value
  | 6 => setDMAMode value
  | _ => base_handleWriteW fdc_handleWrite addr value
  end.
End Fdc.
