(* ===== verification/FdcSpec.v ===== *)
(** * FdcSpec: sectors of the floppy

    [floppy_transfers]: the commands of the disk controller that read and write are accesses to an array of sectors, addressed by
    track, side and sector; [floppy_geometry]: how the array is laid out on the image.  At the end of the
    file a small disk. *)

From S2P Require Import Prelude Throws Machine MachineSpec Mfp MfpSpec MfpTick Yamaha Fdc.
From Stdlib Require Import ZifyBool.
From stdpp Require Import base gmap list numbers.
Open Scope Z_scope.
Open Scope c_scope.
Open Scope x_scope.

(** ** Bytes of a file *)

Definition byte_of (l : list Z) (x : Z) : Z := default 0 (l !! Z.to_nat x).

Lemma byte_of_app l1 l2 x : 0 <= x → byte_of (l1 ++ l2) x =
  if x <? Z.of_nat (length l1) then byte_of l1 x else byte_of l2 (x - Z.of_nat (length l1)).
Proof.
  intros Hx. unfold byte_of. destruct (Z.ltb_spec x (Z.of_nat (length l1))).
  - by rewrite lookup_app_l by lia.
  - rewrite lookup_app_r by lia. do 2 f_equal. lia.
Qed.

Lemma byte_of_take n l x : 0 <= x < Z.of_nat n → byte_of (take n l) x = byte_of l x.
Proof. intros Hx. unfold byte_of. by rewrite lookup_take_lt by lia. Qed.

Lemma byte_of_drop n l x : 0 <= x → byte_of (drop n l) x = byte_of l (Z.of_nat n + x).
Proof. intros Hx. unfold byte_of. rewrite lookup_drop. do 2 f_equal. lia. Qed.

Lemma splice_length pos l bytes : (pos + length l <= length bytes)%nat → length (splice pos l bytes) = length bytes.
Proof.
  intros H. unfold splice. rewrite !length_app, length_take, length_app, length_replicate, length_drop. lia.
Qed.

Lemma splice_byte pos l bytes x : (pos + length l <= length bytes)%nat → 0 <= x → byte_of (splice pos l bytes) x =
  if (Z.of_nat pos <=? x) && (x <? Z.of_nat (pos + length l)) then byte_of l (x - Z.of_nat pos) else byte_of bytes x.
Proof.
  intros H Hx. unfold splice. replace (pos - length bytes)%nat with 0%nat by lia. cbn [replicate]. rewrite app_nil_r.
  rewrite byte_of_app, length_take, Nat.min_l by lia. destruct (Z.ltb_spec x (Z.of_nat pos)).
  - rewrite byte_of_take by lia. by rewrite (proj2 (Z.leb_gt _ _)).
  - rewrite (proj2 (Z.leb_le _ _)) by lia. rewrite byte_of_app by lia. cbn [andb].
    destruct (Z.ltb_spec (x - Z.of_nat pos) (Z.of_nat (length l))).
    + by rewrite (proj2 (Z.ltb_lt _ _)) by lia.
    + rewrite (proj2 (Z.ltb_ge _ _)), byte_of_drop by lia. f_equal. lia.
Qed.

Lemma line_bytes_nth m n base k : 0 <= k < Z.of_nat n → byte_of (line_bytes m n base) k = u8 (aget m (base + k)).
Proof.
  intros Hk. unfold byte_of, line_bytes. rewrite list_lookup_fmap, lookup_seqZ_lt by lia. cbn.
  do 3 f_equal. lia.
Qed.

Section FdcSpec.
Context {cfg : Config} {host : FloppyHost}.
Implicit Types (s : machine disk_devices) (f : ACSIFDC) (i : image_file).

Definition with_file i s : machine disk_devices :=
  set_dev (Disk s.(dev).(dk_fdc) s.(dev).(dk_ncr) s.(dev).(dk_yamaha) s.(dev).(dk_mfp) i) s.
Definition with_fdc f s : machine disk_devices :=
  set_dev (Disk f s.(dev).(dk_ncr) s.(dev).(dk_yamaha) s.(dev).(dk_mfp) s.(dev).(dk_file)) s.
Definition at_pos (p : Z) i : image_file := Image i.(content) p i.(writable).
Abbreviation file s := s.(dev).(dk_file).
Abbreviation fdc s := s.(dev).(dk_fdc).

(** ** The file and memory *)

Lemma copy_to_run a l s : host_ok a (Z.of_nat (length l)) = true → ∃ m, copy_to a l s = (Ret tt, set_mem m s) ∧
  ∀ x, aget m x = if (a <=? x) && (x <? a + Z.of_nat (length l)) then u8 (byte_of l (x - a)) else aget s.(mem) x.
Proof.
  revert a s. induction l as [|b l IH]; intros a s Hok; cbn [length] in *.
  - exists s.(mem). split; [by destruct s|]. intros x. destruct ((a <=? x) && _) eqn:E; [lia|done].
  - cbn [copy_to]. erewrite xbind_ret by (apply do_put_mem_run; eapply host_ok_sub; [exact Hok|lia..]).
    destruct (IH (a + 1) (set_mem (be_put 1 a b s.(mem)) s)) as (m & E & Hm); [eapply host_ok_sub; [exact Hok|lia..]|].
    exists m. split; [exact E|]. intros x. rewrite Hm. cbn [be_put mem set_mem]. rewrite aget_aset, Z.add_0_r.
    destruct (Z.lt_trichotomy x a) as [Hlt|[->|Hgt]].
    + destruct ((a + 1 <=? x) && _) eqn:E1; [lia|]. destruct ((a <=? x) && _) eqn:E2; [lia|]. by rewrite decide_False by lia.
    + destruct ((a + 1 <=? a) && _) eqn:E1; [lia|]. destruct ((a <=? a) && _) eqn:E2; [|lia]. rewrite decide_True by done.
      by rewrite Z.sub_diag.
    + destruct ((a + 1 <=? x) && _) eqn:E1, ((a <=? x) && _) eqn:E2; try lia; [|by rewrite decide_False by lia].
      f_equal. unfold byte_of. replace (Z.to_nat (x - a)) with (S (Z.to_nat (x - (a + 1)))) by lia. done.
Qed.

Lemma copy_from_run a n s : host_ok a (Z.of_nat n) = true → copy_from a (Z.of_nat n) s = (Ret (line_bytes s.(mem) n a), s).
Proof.
  intros H. unfold copy_from, line_bytes. apply xmap_run. intros k Hk%elem_of_seqZ.
  rewrite do_get_mem_run by (eapply host_ok_sub; [done|lia..]). cbn [be_get]. by rewrite Z.add_0_r.
Qed.

Lemma file_read_run n s : 0 <= n → 0 <= (file s).(fpos) → (file s).(fpos) + n <= Z.of_nat (length (file s).(content)) →
  file_read n s = (Ret (take (Z.to_nat n) (drop (Z.to_nat (file s).(fpos)) (file s).(content))),
    with_file (at_pos ((file s).(fpos) + n) (file s)) s).
Proof.
  intros Hn Hp Hl. unfold file_read. erewrite xbind_ret by reflexivity. unfold file_mod, dmod, xmod, xbind, xret.
  do 2 f_equal. unfold with_file, at_pos. do 3 f_equal. rewrite length_take, length_drop. lia.
Qed.

(** Sectors go from the file to memory; the rest of memory stays. *)
Lemma read_sectors_run n a size s : 0 < size → 0 <= a → a + Z.of_nat n * size <= 2 ^ 32 → host_ok a (Z.of_nat n * size) = true →
  0 <= (file s).(fpos) → (file s).(fpos) + Z.of_nat n * size <= Z.of_nat (length (file s).(content)) →
  ∃ m, read_sectors n a size s = (Ret true, set_mem m (with_file (at_pos ((file s).(fpos) + Z.of_nat n * size) (file s)) s)) ∧
    ∀ x, aget m x = if (a <=? x) && (x <? a + Z.of_nat n * size) then u8 (byte_of (file s).(content) ((file s).(fpos) + (x - a)))
      else aget s.(mem) x.
Proof.
  intros Hs. revert a s. induction n as [|n IH]; intros a s Ha Hw Hok Hp Hl.
  { exists s.(mem). split; [|intros x; destruct ((a <=? x) && _) eqn:E; [lia|done]].
    cbn [read_sectors]. unfold xret. do 2 f_equal. replace (_ + Z.of_nat 0 * size) with (file s).(fpos) by lia.
    by destruct s as [? ? ? ? ? ? ? ? [? ? ? ? []]]. }
  cbn [read_sectors]. rewrite (proj2 (Z.leb_gt size 0)) by done. erewrite xbind_ret by (apply file_read_run; lia).
  set (l := take _ _). assert (Z.of_nat (length l) = size) as El by (unfold l; rewrite length_take, length_drop; lia).
  rewrite El, Z.eqb_refl. cbn [negb]. set (s1 := with_file _ s).
  destruct (copy_to_run a l s1) as (m1 & E1 & Hm1); [rewrite El; eapply host_ok_sub; [done|lia..]|].
  erewrite xbind_ret by exact E1. assert (a +u size = a + size ∨ n = 0%nat) as [-> | ->].
  { destruct n; [by right|left]. unfold u32. apply Z.mod_small. lia. }
  2: { exists m1. cbn [read_sectors]. unfold xret. replace (Z.of_nat 1 * size) with size by lia. split; [done|].
       intros x. rewrite Hm1, El. change (aget (mem s1) x) with (aget (mem s) x). destruct (_ && _) eqn:E; [|done].
       unfold l. rewrite byte_of_take, byte_of_drop by lia. do 2 f_equal. lia. }
  destruct (IH (a + size) (set_mem m1 s1)) as (m & E & Hm); cbn [dev set_mem s1 with_file set_dev dk_file at_pos fpos content];
    [lia..|eapply host_ok_sub; [done|lia..]|lia|lia|].
  exists m. split.
  - replace ((file s).(fpos) + Z.of_nat (S n) * size) with ((file s).(fpos) + size + Z.of_nat n * size) by lia. exact E.
  - intros x. rewrite Hm. cbn [dev set_mem s1 with_file set_dev dk_file at_pos fpos content mem]. rewrite Hm1, El.
    change (aget (mem s1) x) with (aget (mem s) x).
    destruct (Z.leb_spec (a + size) x), (Z.leb_spec a x), (Z.ltb_spec x (a + size + Z.of_nat n * size)), (Z.ltb_spec x (a + size)),
      (Z.ltb_spec x (a + Z.of_nat (S n) * size)); cbn [andb]; try lia; try done.
    + do 2 f_equal. lia.
    + unfold l. rewrite byte_of_take, byte_of_drop by lia. do 2 f_equal. lia.
Qed.

(** Sectors go from memory to the file; its length and the rest of it stay. *)
Lemma write_sectors_run n a size s : 0 < size → 0 <= a → a + Z.of_nat n * size <= 2 ^ 32 → host_ok a (Z.of_nat n * size) = true →
  (file s).(writable) = true → 0 <= (file s).(fpos) → (file s).(fpos) + Z.of_nat n * size <= Z.of_nat (length (file s).(content)) →
  ∃ l, write_sectors n a size s = (Ret true, with_file (Image l ((file s).(fpos) + Z.of_nat n * size) true) s) ∧
    length l = length (file s).(content) ∧
    ∀ y, 0 <= y → byte_of l y = if ((file s).(fpos) <=? y) && (y <? (file s).(fpos) + Z.of_nat n * size)
      then u8 (aget s.(mem) (a + (y - (file s).(fpos)))) else byte_of (file s).(content) y.
Proof.
  intros Hs. revert a s. induction n as [|n IH]; intros a s Ha Hw Hok Hwr Hp Hl.
  { exists (file s).(content). split; [|split; [done|intros y Hy; destruct (_ && _) eqn:E; [lia|done]]].
    cbn [write_sectors]. unfold xret. do 2 f_equal. replace (_ + Z.of_nat 0 * size) with (file s).(fpos) by lia.
    destruct s as [? ? ? ? ? ? ? ? [? ? ? ? []]]. cbn in Hwr. by rewrite <-Hwr. }
  cbn [write_sectors]. rewrite (proj2 (Z.leb_gt size 0)) by done.
  assert (copy_from a size s = (Ret (line_bytes s.(mem) (Z.to_nat size) a), s)) as Ec.
  { rewrite <-(Z2Nat.id size) at 1 by lia. apply copy_from_run. eapply host_ok_sub; [done|lia..]. }
  erewrite xbind_ret by exact Ec.
  set (b := line_bytes _ _ _). assert (Z.of_nat (length b) = size) as El by (unfold b; rewrite line_bytes_length; lia).
  set (p := (file s).(fpos)) in *. set (l1 := splice (Z.to_nat p) b (file s).(content)).
  assert (length l1 = length (file s).(content)) as Hl1 by (apply splice_length; lia).
  set (s1 := with_file (Image l1 (p + size) true) s).
  erewrite xbind_ret.
  2: { instantiate (1 := s1). instantiate (1 := size). unfold file_write. erewrite xbind_ret by reflexivity. rewrite Hwr. cbn [negb].
       unfold file_mod, dmod, xmod, xbind, xret. rewrite El, Hwr. reflexivity. }
  rewrite Z.eqb_refl. cbn [negb].
  assert (∀ y, 0 <= y → byte_of l1 y = if (p <=? y) && (y <? p + size) then u8 (aget s.(mem) (a + (y - p))) else byte_of (file s).(content) y) as Hb.
  { intros y Hy. unfold l1. rewrite splice_byte by lia. replace (Z.of_nat (Z.to_nat p + length b)) with (p + size) by lia.
    rewrite Z2Nat.id by lia. destruct (_ && _) eqn:E; [|done]. unfold b. rewrite line_bytes_nth by lia. do 2 f_equal. }
  assert (a +u size = a + size ∨ n = 0%nat) as [-> | ->].
  { destruct n; [by right|left]. unfold u32. apply Z.mod_small. lia. }
  2: { exists l1. cbn [write_sectors]. unfold xret. replace (Z.of_nat 1 * size) with size by lia. by split. }
  destruct (IH (a + size) s1) as (l & E & HL & Hy); cbn [s1 with_file set_dev dev dk_file fpos content writable];
    [lia..|eapply host_ok_sub; [done|lia..]|done|lia|lia|].
  exists l. split; [|split].
  - replace (p + Z.of_nat (S n) * size) with (p + size + Z.of_nat n * size) by lia. exact E.
  - by rewrite HL.
  - intros y Hy0. rewrite Hy by done. cbn [s1 with_file set_dev dev dk_file fpos content mem]. rewrite Hb by done.
    destruct (Z.leb_spec (p + size) y), (Z.leb_spec p y), (Z.ltb_spec y (p + size + Z.of_nat n * size)), (Z.ltb_spec y (p + size)),
      (Z.ltb_spec y (p + Z.of_nat (S n) * size)); cbn [andb]; try lia; try done.
    do 2 f_equal. lia.
Qed.

(** ** The array of sectors *)

(** The number of a sector on the image. *)
Definition lba f (t sd sc : Z) : Z := f.(spt) * f.(sides) * t + f.(spt) * sd + (sc - 1).
Definition sectors f : Z := f.(spt) * f.(sides) * f.(tracks).
Definition on_disk f (t sd sc : Z) : Prop := 0 <= t < f.(tracks) ∧ 0 <= sd < f.(sides) ∧ 1 <= sc <= f.(spt).

(** Byte [k] of a sector. *)
Definition sector_byte s (t sd sc k : Z) : Z := byte_of (file s).(content) ((fdc s).(secsize) * lba (fdc s) t sd sc + k).

(** The geometry describes the image, and positions on it are numbers of type [int]. *)
Record geometry_ok f i : Prop := {
  g_spt : 0 < f.(spt);
  g_sides : 0 < f.(sides);
  g_secsize : 0 < f.(secsize);
  g_image : f.(secsize) * sectors f <= Z.of_nat (length i.(content));
  g_int : f.(secsize) * sectors f < 2 ^ 31;
}.

Lemma lba_range f t sd sc n : 0 < f.(spt) → 0 < f.(sides) → on_disk f t sd sc → sc + n - 1 <= f.(spt) → 0 <= lba f t sd sc ∧ lba f t sd sc + n <= sectors f.
Proof.
  intros Hp Hs (Ht & Hd & Hc) Hn. unfold lba, sectors.
  assert (0 <= f.(spt) * sd ∧ f.(spt) * sd + f.(spt) <= f.(spt) * f.(sides)) by nia.
  assert (0 <= f.(spt) * f.(sides) * t ∧ f.(spt) * f.(sides) * t + f.(spt) * f.(sides) <= f.(spt) * f.(sides) * f.(tracks)) by nia.
  lia.
Qed.

Lemma lba_inj f t sd sc t' sd' sc' : 0 < f.(spt) → 0 < f.(sides) → on_disk f t sd sc → on_disk f t' sd' sc' →
  lba f t sd sc = lba f t' sd' sc' → t = t' ∧ sd = sd' ∧ sc = sc'.
Proof.
  intros Hp Hs (Ht & Hd & Hc) (Ht' & Hd' & Hc') E. unfold lba in E.
  assert (f.(spt) * (f.(sides) * t + sd) + (sc - 1) = f.(spt) * (f.(sides) * t' + sd') + (sc' - 1)) as E1 by lia.
  destruct (Z.div_mod_unique f.(spt) (f.(sides) * t + sd) (f.(sides) * t' + sd') (sc - 1) (sc' - 1)) as [E2 E3]; [lia..|].
  destruct (Z.div_mod_unique f.(sides) t t' sd sd') as [E4 E5]; [lia..|]. lia.
Qed.

(** ** The commands *)

Definition side s : Z := if Z.testbit (aget s.(dev).(dk_yamaha).(yamaha_regs) 14) 0 then 0 else 1.

(** [n] sectors from the one selected on can be transferred. *)
Record transfer_ready (n : Z) s : Prop := {
  tr_fd : 0 <= (fdc s).(drive_fd);
  tr_drive : Z.testbit (aget s.(dev).(dk_yamaha).(yamaha_regs) 14) 1 = false;
  tr_geometry : geometry_ok (fdc s) (file s);
  tr_sector : on_disk (fdc s) (fdc s).(fd_head) (side s) (fdc s).(fdc_sector);
  tr_last : (fdc s).(fdc_sector) + n - 1 <= (fdc s).(spt);
  tr_track : (fdc s).(fdc_track) = (fdc s).(fd_head);
  tr_count : (fdc s).(dma_scr) = n ∧ 0 < n;
  tr_memory : 0 <= (fdc s).(DMAaddr) ∧ (fdc s).(DMAaddr) + n * (fdc s).(secsize) <= 2 ^ 32 ∧
    host_ok (fdc s).(DMAaddr) (n * (fdc s).(secsize)) = true;
}.

Definition position s : Z := (fdc s).(secsize) * lba (fdc s) (fdc s).(fd_head) (side s) (fdc s).(fdc_sector).

Lemma position_range n s : transfer_ready n s →
  0 <= position s ∧ position s + n * (fdc s).(secsize) <= Z.of_nat (length (file s).(content)) ∧
  position s + n * (fdc s).(secsize) < 2 ^ 31 ∧ 0 <= lba (fdc s) (fdc s).(fd_head) (side s) (fdc s).(fdc_sector).
Proof.
  intros [_ _ [Hp Hs Hz Hi Hm] Hd Hl _ [_ Hn] _]. destruct (lba_range _ _ _ _ n Hp Hs Hd Hl) as [H1 H2].
  unfold position. split_and!; [nia..|done].
Qed.

Lemma sector_offset_run n s : transfer_ready n s → sector_offset (side s) s = (Ret (position s), s).
Proof.
  intros H. destruct (position_range n s H) as (Hp0 & _ & Hp2 & Hl). destruct H as [_ _ [Hp Hs Hz Hi Hm] (Ht & Hd & Hc) Hla _ [_ Hn] _].
  unfold position, lba, sectors in *. set (f := fdc s) in *.
  assert (f.(spt) * f.(sides) * f.(tracks) < 2 ^ 31) by nia.
  assert (0 < f.(spt) * f.(sides) <= f.(spt) * f.(sides) * f.(tracks)) by nia.
  assert (0 <= f.(spt) * f.(sides) * f.(fd_head) ∧
    f.(spt) * f.(sides) * f.(fd_head) + f.(spt) * f.(sides) <= f.(spt) * f.(sides) * f.(tracks)) by nia.
  assert (0 <= f.(spt) * side s ∧ f.(spt) * side s + f.(spt) <= f.(spt) * f.(sides)) by nia.
  unfold sector_offset. erewrite xbind_ret by reflexivity. unfold id. change (dk_fdc (dev s)) with f.
  erewrite xbind_ret by (apply int_run; lia). erewrite xbind_ret by (apply int_run; lia). erewrite xbind_ret by (apply int_run; lia).
  erewrite xbind_ret by (apply int_run; lia). erewrite xbind_ret by (apply int_run; lia). erewrite xbind_ret by (apply int_run; lia).
  apply int_run. nia.
Qed.

Definition mfp_of s : MFP := upd_cpu_flags s.(spcflags) s.(dev).(dk_mfp).
Definition with_mfp (y : MFP) s : machine disk_devices :=
  set_spcflags y.(cpu_flags) (set_dev (Disk s.(dev).(dk_fdc) s.(dev).(dk_ncr) s.(dev).(dk_yamaha) y s.(dev).(dk_file)) s).

(** The registers after [n] sectors. *)
Definition moved_on (n : Z) f : ACSIFDC := to_dma_sr 1 (to_dma_scr 0 (to_DMAaddr (f.(DMAaddr) +u n * f.(secsize)) f)).
Definition finished (n : Z) f : ACSIFDC := to_fdc_status (if boot_netbsd then 0 else 0x80) (moved_on n f).

Lemma transfer_ready_status n v s : transfer_ready n s → transfer_ready n (with_fdc (to_fdc_status v (fdc s)) s).
Proof. intros [H1 H2 [] H4 H5 H6 H7 H8]. by split. Qed.

Lemma transfer_done_run n s : transfer_ready n s → transfer_done true false s = (Ret tt, with_fdc (moved_on n (fdc s)) s).
Proof.
  intros H. destruct (position_range n s H) as (? & _ & ? & _). destruct (tr_count n s H) as [<- Hn].
  pose proof (g_secsize _ _ (tr_geometry _ s H)). unfold transfer_done. erewrite xbind_ret by reflexivity. unfold id.
  erewrite xbind_ret by (apply int_run; nia). done.
Qed.

Lemma read_file_run n s : transfer_ready n s → ∃ m,
  read_file (fdc s).(drive_fd) (position s) (fdc s).(DMAaddr) (fdc s).(secsize) n s =
    (Ret true, set_mem m (with_file (at_pos (position s + n * (fdc s).(secsize)) (file s)) s)) ∧
  ∀ x, aget m x = if ((fdc s).(DMAaddr) <=? x) && (x <? (fdc s).(DMAaddr) + n * (fdc s).(secsize))
    then u8 (byte_of (file s).(content) (position s + (x - (fdc s).(DMAaddr)))) else aget s.(mem) x.
Proof.
  intros H. destruct (position_range n s H) as (H1 & H2 & H3 & _). destruct H as [Hfd _ [Hp Hs Hz Hi Hm] _ _ _ [_ Hn] (Ha & Hb & Hok)].
  unfold read_file. rewrite (proj2 (Z.ltb_ge _ 0)) by done. unfold lseek_set. rewrite (proj2 (Z.ltb_ge _ 0)) by done.
  set (s1 := with_file (at_pos (position s) (file s)) s). erewrite xbind_ret by (erewrite xbind_ret by reflexivity; reflexivity). cbn [negb].
  destruct (read_sectors_run (Z.to_nat n) (fdc s).(DMAaddr) (fdc s).(secsize) s1) as (m & E & Hm'); rewrite ?Z2Nat.id in * by lia; try done.
  exists m. by split.
Qed.

Lemma write_file_run n s : transfer_ready n s → (file s).(writable) = true → ∃ l,
  write_file (fdc s).(drive_fd) (position s) (fdc s).(DMAaddr) (fdc s).(secsize) n s =
    (Ret true, with_file (Image l (position s + n * (fdc s).(secsize)) true) s) ∧ length l = length (file s).(content) ∧
  ∀ y, 0 <= y → byte_of l y = if (position s <=? y) && (y <? position s + n * (fdc s).(secsize))
    then u8 (aget s.(mem) ((fdc s).(DMAaddr) + (y - position s))) else byte_of (file s).(content) y.
Proof.
  intros H Hw. destruct (position_range n s H) as (H1 & H2 & H3 & _). destruct H as [Hfd _ [Hp Hs Hz Hi Hm] _ _ _ [_ Hn] (Ha & Hb & Hok)].
  unfold write_file. rewrite (proj2 (Z.ltb_ge _ 0)) by done. unfold lseek_set. rewrite (proj2 (Z.ltb_ge _ 0)) by done.
  set (s1 := with_file (at_pos (position s) (file s)) s). erewrite xbind_ret by (erewrite xbind_ret by reflexivity; reflexivity). cbn [negb].
  destruct (write_sectors_run (Z.to_nat n) (fdc s).(DMAaddr) (fdc s).(secsize) s1) as (l & E & Hl & Hy); rewrite ?Z2Nat.id in * by lia; try done.
  exists l. by split_and!.
Qed.

(** The command is one for [n] sectors: the multiple one, or the one for a single sector. *)
Definition for_sectors (c multi n : Z) : Prop := 0x80 <= c ∧ (c .& 0xf0 = multi ∨ c .& 0xf0 = multi - 0x10 ∧ n = 1).

Lemma count_one s : (fdc s).(dma_scr) = 1 → with_fdc (to_dma_scr 1 (fdc s)) s = s.
Proof. destruct s as [? ? ? ? ? ? ? ? [[] ? ? ? ?]]. cbn. by intros <-. Qed.

(** The bits of the port that select drive A and the side. *)
Lemma port_select x : Z.testbit x 1 = false →
  (Z.lnot (x .& 7) .& 6 =? 2) || (Z.lnot (x .& 7) .& 6 =? 6) = true ∧ Z.lnot (x .& 7) .& 1 = if Z.testbit x 0 then 0 else 1.
Proof.
  intros H1. assert (Z.testbit (x .& 7) 1 = false) as E1 by (by rewrite Z.land_spec, H1).
  assert (Z.testbit (x .& 7) 0 = Z.testbit x 0) as <- by (by rewrite Z.land_spec, andb_true_r).
  pose proof (land_range_r x 7 3 ltac:(lia) ltac:(lia)) as Hr. revert E1 Hr. generalize (x .& 7). intros p E1 Hr.
  assert (p = 0 ∨ p = 1 ∨ p = 2 ∨ p = 3 ∨ p = 4 ∨ p = 5 ∨ p = 6 ∨ p = 7) as Hp by lia.
  by destruct Hp as [->|[->|[->|[->|[->|[->|[->| ->]]]]]]].
Qed.

(** A transfer that succeeds, and what surrounds it. *)
Lemma exec_run n s s1 y : let s0 := with_fdc (to_fdc_status 0 (fdc s)) s in
  transfer_ready n s → 0x80 <= (fdc s).(fdc_command) → ((fdc s).(fdc_command) .& 0xf0 =? 0xD0) = false →
  transfer (fdc s).(fdc_command) (side s) s0 = (Ret tt, with_fdc (moved_on n (to_fdc_status 0 (fdc s))) s1) →
  mfp_of s1 = mfp_of s → setGPIPbit 0x20 0 (mfp_of s) = (Ret tt, y) →
  fdc_exec_command s = (Ret tt, with_mfp y (with_fdc (finished n (fdc s)) s1)).
Proof.
  intros s0 H Hc Hd Ht Hm Ey. unfold fdc_exec_command. erewrite xbind_ret by reflexivity. cbv zeta.
  unfold floppy_stat. destruct (port_select _ (tr_drive _ _ H)) as [-> ->]. fold (side s).
  erewrite xbind_ret by reflexivity. erewrite xbind_ret by reflexivity.
  change (fdc_command _) with (fdc s).(fdc_command). rewrite (proj2 (Z.ltb_ge _ 0x80)), Hd by done.
  erewrite xbind_ret by (erewrite xbind_ret by exact Ht; reflexivity).
  set (s2 := with_fdc (finished n (fdc s)) s1). rewrite (xbind_ret _ _ _ tt s2) by (unfold s2, finished; by destruct boot_netbsd).
  erewrite xbind_ret by reflexivity. assert (((fdc s2).(fdc_status) .& 1 =? 0) = true) as -> by (cbn; by destruct boot_netbsd).
  cbn [negb andb xwhen]. unfold set_line, disk_mfp, xzoom. change (upd_cpu_flags (spcflags s2) _) with (mfp_of s1).
  by rewrite Hm, Ey.
Qed.

(** The part of [transfer] before the command is looked at: the sector count is in order. *)
Lemma transfer_start n s c : transfer_ready n s →
  transfer c (side s) s = (match c .& 0xf0 with
    | 0x80 => fmod (to_dma_scr 1) ;; read_command (position s) false
    | 0x90 => read_command (position s) false
    | 0xA0 => fmod (to_dma_scr 1) ;; write_command (position s) false
    | 0xB0 => write_command (position s) false
    | 0xC0 | 0xE0 | 0xF0 => status_or true 0x10
    | _ => xret tt
    end ;;
    let* f := fget id in
    status_or (negb (f.(fd_head) =? f.(fdc_track))) 0x10) s.
Proof.
  intros H. unfold transfer. erewrite xbind_ret by (by apply (sector_offset_run n)). erewrite xbind_ret by reflexivity.
  cbv zeta. change (id (fdc s)) with (fdc s). destruct (position_range n s H) as (_ & _ & Hi & _). destruct H as [_ _ [Hp Hs Hz _ Hm] (Ht & Hd & Hc) Hl _ [Hn Hn0] _].
  assert ((fdc s).(spt) <= sectors (fdc s)) as Hsp.
  { unfold sectors. assert (1 <= (fdc s).(sides) * (fdc s).(tracks)) by nia. nia. }
  assert (sectors (fdc s) < 2 ^ 31) by nia.
  erewrite xbind_ret by (apply int_run; lia). erewrite xbind_ret by (apply int_run; lia).
  rewrite Hn, (proj2 (Z.ltb_ge _ n)) by lia. cbn [andb xwhen]. erewrite xbind_ret by reflexivity. reflexivity.
Qed.

Lemma same_track s : (fdc s).(fdc_track) = (fdc s).(fd_head) →
  (let* f := fget id in status_or (negb (f.(fd_head) =? f.(fdc_track))) 0x10) s = (Ret tt, s).
Proof. intros H. erewrite xbind_ret by reflexivity. unfold id. rewrite H, Z.eqb_refl. done. Qed.

Lemma read_command_run n s : transfer_ready n s → position s ≠ 0 ∨ n ≠ 1 → ∃ m,
  read_command (position s) false s = (Ret tt,
    with_fdc (moved_on n (fdc s)) (set_mem m (with_file (at_pos (position s + n * (fdc s).(secsize)) (file s)) s))) ∧
  ∀ x, aget m x = if ((fdc s).(DMAaddr) <=? x) && (x <? (fdc s).(DMAaddr) + n * (fdc s).(secsize))
    then u8 (byte_of (file s).(content) (position s + (x - (fdc s).(DMAaddr)))) else aget s.(mem) x.
Proof.
  intros H Hne. destruct (read_file_run n s H) as (m & E & Hm). exists m. split; [|done]. destruct (tr_count _ _ H) as [Hn Hn0].
  unfold read_command. erewrite xbind_ret by reflexivity. rewrite Hn.
  assert ((position s =? 0) && (n =? 1) = false) as -> by lia. cbn [xwhen]. erewrite xbind_ret by reflexivity.
  erewrite xbind_ret by reflexivity. unfold id. rewrite Hn. erewrite xbind_ret by exact E.
  set (s1 := set_mem _ _). apply (transfer_done_run n s1). destruct H as [H1 H2 [] H4 H5 H6 H7 H8]. by split.
Qed.

Lemma write_command_run n s : transfer_ready n s → (file s).(writable) = true → ∃ l,
  write_command (position s) false s = (Ret tt,
    with_fdc (moved_on n (fdc s)) (with_file (Image l (position s + n * (fdc s).(secsize)) true) s)) ∧
  length l = length (file s).(content) ∧
  ∀ y, 0 <= y → byte_of l y = if (position s <=? y) && (y <? position s + n * (fdc s).(secsize))
    then u8 (aget s.(mem) ((fdc s).(DMAaddr) + (y - position s))) else byte_of (file s).(content) y.
Proof.
  intros H Hw. destruct (write_file_run n s H Hw) as (l & E & Hl & Hy). exists l. split; [|done]. destruct (tr_count _ _ H) as [Hn Hn0].
  unfold write_command. erewrite xbind_ret by reflexivity. unfold id. rewrite Hn. erewrite xbind_ret by exact E.
  set (s1 := with_file _ _). apply (transfer_done_run n s1). destruct H as [H1 H2 [G1 G2 G3 G4 G5] H4 H5 H6 H7 H8].
  split; try done. split; try done. by cbn; rewrite Hl.
Qed.

(** The two ways to ask for a transfer of [n] sectors. *)
Lemma transfer_body n s c multi body :
  (c .& 0xf0 = multi ∨ c .& 0xf0 = multi - 0x10 ∧ n = 1) → multi = 0x90 ∧ body = read_command (position s) false ∨
    multi = 0xB0 ∧ body = write_command (position s) false → transfer_ready n s →
  transfer c (side s) s = (body ;; let* f := fget id in status_or (negb (f.(fd_head) =? f.(fdc_track))) 0x10) s.
Proof.
  intros Hc Hb H. rewrite (transfer_start n) by done. destruct (tr_count _ _ H) as [Hn _].
  assert (n = 1 → ∀ m k : X (machine disk_devices) unit, ((fmod (to_dma_scr 1) ;; m) ;; k) s = (m ;; k) s) as Hone.
  { intros -> m k. assert (fmod (to_dma_scr 1) s = (Ret tt, s)) as E.
    { unfold fmod, dmod, xmod. f_equal. exact (count_one s Hn). }
    unfold xbind. by rewrite E. }
  destruct Hb as [[-> ->]|[-> ->]], Hc as [->|[-> ->]]; try done; exact (Hone eq_refl _ _).
Qed.

(** A command that transfers is not the forced interrupt. *)
Lemma not_forced c multi n : for_sectors c multi n → multi = 0x90 ∨ multi = 0xB0 → (c .& 0xf0 =? 0xD0) = false.
Proof. intros [_ Hm] Hc. apply Z.eqb_neq. intros Heq. rewrite Heq in Hm. lia. Qed.

(** Sectors of a track follow each other. *)
Lemma sector_byte_next s t sd sc j k :
  sector_byte s t sd (sc + j) k = byte_of (file s).(content) ((fdc s).(secsize) * lba (fdc s) t sd sc + j * (fdc s).(secsize) + k).
Proof. unfold sector_byte, lba. f_equal. lia. Qed.

(** Sectors that were not written keep their bytes. *)
Lemma written_elsewhere n s l t sd sc k : transfer_ready n s →
  (∀ y, 0 <= y → byte_of l y = if (position s <=? y) && (y <? position s + n * (fdc s).(secsize))
     then u8 (aget s.(mem) ((fdc s).(DMAaddr) + (y - position s))) else byte_of (file s).(content) y) →
  on_disk (fdc s) t sd sc → 0 <= k < (fdc s).(secsize) →
  ¬ (t = (fdc s).(fd_head) ∧ sd = side s ∧ (fdc s).(fdc_sector) <= sc < (fdc s).(fdc_sector) + n) →
  byte_of l ((fdc s).(secsize) * lba (fdc s) t sd sc + k) = sector_byte s t sd sc k.
Proof.
  intros H Hy Hd Hk Hn'. destruct (tr_geometry _ _ H) as [G1 G2 G3 _ _].
  destruct (lba_range (fdc s) t sd sc 1 G1 G2 Hd) as [L1 _]; [destruct Hd as (_ & _ & ?); lia|].
  unfold sector_byte. rewrite Hy by nia. destruct (_ && _) eqn:Eb; [|done]. exfalso. apply Hn'.
  unfold position in Eb. set (L := lba (fdc s) t sd sc) in *. set (L0 := lba (fdc s) (fd_head (fdc s)) _ _) in *.
  assert (L0 <= L < L0 + n) by nia.
  destruct (lba_inj (fdc s) t sd sc (fdc s).(fd_head) (side s) ((fdc s).(fdc_sector) + (L - L0))) as (-> & -> & Hs); [done..| | |].
  - destruct (tr_sector _ _ H) as (? & ? & ?). pose proof (tr_last _ _ H). split_and!; lia.
  - fold L. unfold L0, lba. lia.
  - split_and!; [done..|lia|lia].
Qed.

(** C7: Transfers of the floppy controller.  Drive A is selected, a disk is in it, the track register is the position of the head, the selected sectors are on
    the track, and the DMA range is in memory ([transfer_ready]).  Then a read command copies the sectors
    to the memory at the DMA address, byte by byte and nowhere else, and leaves the image alone; a write command to an image
    that is open for writing copies memory to them, and every other sector of the disk keeps its bytes.  Both
    advance the DMA address, clear the sector count, report success and pull the line to the MFP; nothing else changes.  (Reading the boot
    sector alone opens the image again first; it is left out here.) *)
Theorem floppy_transfers n s : transfer_ready n s →
  let f := fdc s in
  ∃ y, setGPIPbit 0x20 0 (mfp_of s) = (Ret tt, y) ∧
  (for_sectors f.(fdc_command) 0x90 n → position s ≠ 0 ∨ n ≠ 1 →
    ∃ m p, fdc_exec_command s = (Ret tt, with_mfp y (with_fdc (finished n f) (set_mem m (with_file (at_pos p (file s)) s)))) ∧
      (∀ j k, 0 <= j < n → 0 <= k < f.(secsize) →
         aget m (f.(DMAaddr) + j * f.(secsize) + k) = u8 (sector_byte s f.(fd_head) (side s) (f.(fdc_sector) + j) k)) ∧
      (∀ x, x < f.(DMAaddr) ∨ f.(DMAaddr) + n * f.(secsize) <= x → aget m x = aget s.(mem) x)) ∧
  (for_sectors f.(fdc_command) 0xB0 n → (file s).(writable) = true →
    ∃ l p, let s' := with_mfp y (with_fdc (finished n f) (with_file (Image l p true) s)) in
      fdc_exec_command s = (Ret tt, s') ∧ length l = length (file s).(content) ∧
      (∀ j k, 0 <= j < n → 0 <= k < f.(secsize) →
         sector_byte s' f.(fd_head) (side s) (f.(fdc_sector) + j) k = u8 (aget s.(mem) (f.(DMAaddr) + j * f.(secsize) + k))) ∧
      (∀ t sd sc k, on_disk f t sd sc → 0 <= k < f.(secsize) →
         ¬ (t = f.(fd_head) ∧ sd = side s ∧ f.(fdc_sector) <= sc < f.(fdc_sector) + n) →
         sector_byte s' t sd sc k = sector_byte s t sd sc k)).
Proof.
  intros H f. subst f. destruct (setGPIPbit_returns 0x20 0 (mfp_of s)) as (y & Ey). exists y. split; [done|].
  set (s0 := with_fdc (to_fdc_status 0 (fdc s)) s). pose proof (transfer_ready_status n 0 s H) as H0. fold s0 in H0.
  pose proof (position_range n s H) as (Hp & _ & _ & _). destruct (tr_count _ _ H) as [_ Hn]. pose proof (g_secsize _ _ (tr_geometry _ _ H)) as Hz.
  split.
  - intros [Hc Hm] Hne. destruct (read_command_run n s0 H0 Hne) as (m & E & Hx0).
    assert (∀ x, aget m x = if ((fdc s).(DMAaddr) <=? x) && (x <? (fdc s).(DMAaddr) + n * (fdc s).(secsize))
      then u8 (byte_of (file s).(content) (position s + (x - (fdc s).(DMAaddr)))) else aget s.(mem) x) as Hx by exact Hx0. eexists m, _. split; [|split].
    + eapply (exec_run n s); [done..|by eapply not_forced; [split|left]| |reflexivity|exact Ey].
      rewrite (transfer_body n s0 _ 0x90 (read_command (position s0) false)) by (done || by left).
      erewrite xbind_ret by exact E. apply same_track. exact (tr_track _ _ H).
    + intros j k Hj Hk. rewrite Hx, sector_byte_next. unfold position. destruct (_ && _) eqn:Eb; [do 2 f_equal; lia|nia].
    + intros x Hout. rewrite Hx. destruct (_ && _) eqn:Eb; [lia|done].
  - intros [Hc Hm] Hw. destruct (write_command_run n s0 H0 Hw) as (l & E & Hl & Hy0).
    assert (∀ y, 0 <= y → byte_of l y = if (position s <=? y) && (y <? position s + n * (fdc s).(secsize))
      then u8 (aget s.(mem) ((fdc s).(DMAaddr) + (y - position s))) else byte_of (file s).(content) y) as Hy by exact Hy0. eexists l, _. split; [|split; [done|split]].
    + eapply (exec_run n s); [done..|by eapply not_forced; [split|right]| |reflexivity|exact Ey].
      rewrite (transfer_body n s0 _ 0xB0 (write_command (position s0) false)) by (done || by right).
      erewrite xbind_ret by exact E. apply same_track. exact (tr_track _ _ H).
    + intros j k Hj Hk. rewrite sector_byte_next. change (byte_of _ _) with (byte_of l (position s + j * (fdc s).(secsize) + k)).
      rewrite Hy by nia. destruct (_ && _) eqn:Eb; [do 2 f_equal; lia|nia].
    + intros t sd sc k Hd Hk Hn'. by apply (written_elsewhere n s l).
Qed.

(** ** The geometry *)

(** The fields of a boot sector. *)
Definition word_at (l : list Z) (k : Z) : Z := byte_of l (k + 1) * 256 + byte_of l k.
Definition boot_ok (c : list Z) : Prop :=
  512 <= Z.of_nat (length c) ∧ 0 < word_at c 11 ∧ 0 < word_at c 19 ∧ 0 < byte_of c 24 ∧ 0 < byte_of c 26 ∧
  word_at c 19 mod (byte_of c 24 * byte_of c 26) = 0.

(** The geometry found on an image: sector size, sectors per track, sides and tracks. *)
Definition geometry_of (f : ACSIFDC) (g : Z * Z * Z * Z) : Prop := (f.(secsize), f.(spt), f.(sides), f.(tracks)) = g.

Lemma read_boot s : (file s).(fpos) = 0 → file_read 512 s =
  (Ret (take 512 (file s).(content)), with_file (at_pos (Z.min 512 (Z.of_nat (length (file s).(content)))) (file s)) s).
Proof.
  intros Hp. unfold file_read. erewrite xbind_ret by reflexivity. unfold file_mod, dmod, xmod, xbind, xret. rewrite Hp.
  do 2 f_equal. unfold with_file, at_pos. do 3 f_equal. rewrite length_take, length_drop. lia.
Qed.

Definition set_geometry (sz p sd t : Z) f : ACSIFDC := to_tracks t (to_sides sd (to_spt p (to_secsize sz f))).
Definition is_bytes (l : list Z) : Prop := Forall (λ b, 0 <= b < 256) l.

Lemma byte_of_range l k : is_bytes l → 0 <= byte_of l k < 256.
Proof.
  intros Hl. unfold byte_of. destruct (l !! Z.to_nat k) as [b|] eqn:E; [|done]. by apply (Forall_lookup_1 _ _ _ _ Hl E).
Qed.

Lemma nth_byte_of l k : nth (Z.to_nat k) l 0 = byte_of l k.
Proof. unfold byte_of. apply nth_lookup. Qed.

Lemma word_shift l k : is_bytes l → Z.shiftl (byte_of l (k + 1)) 8 .| byte_of l k = word_at l k.
Proof.
  intros Hl. pose proof (byte_of_range l k Hl). rewrite shl_8. change 256 with (2 ^ 8). rewrite lor_disjoint_add by lia. done.
Qed.

Lemma word_at_range l k : is_bytes l → 0 <= word_at l k < 65536.
Proof. intros Hl. pose proof (byte_of_range l k Hl). pose proof (byte_of_range l (k + 1) Hl). unfold word_at. lia. Qed.

(** The boot sector is believed exactly if its sectors fill the tracks. *)
Lemma boot_geometry_run c s : is_bytes c → 512 <= Z.of_nat (length c) → ∃ f g,
  boot_geometry (take 512 c) s = (Ret g, with_fdc f s) ∧
  (boot_ok c → g = Some (word_at c 19) ∧
     f = set_geometry (word_at c 11) (byte_of c 24) (byte_of c 26) (word_at c 19 / (byte_of c 24 * byte_of c 26)) (fdc s)) ∧
  (¬ boot_ok c → g = None) ∧ set_geometry 0 0 0 0 f = set_geometry 0 0 0 0 (fdc s).
Proof.
  intros Hc Hl. assert (∀ k, 0 <= k < 512 → nth (Z.to_nat k) (take 512 c) 0 = byte_of c k) as Hn.
  { intros k Hk. rewrite nth_byte_of. apply byte_of_take. lia. }
  pose proof (byte_of_range c 24 Hc). pose proof (byte_of_range c 26 Hc).
  pose proof (word_at_range c 19 Hc).
  unfold boot_geometry. rewrite !Hn by lia. change 20 with (19 + 1). change 12 with (11 + 1). rewrite !word_shift by done.
  do 3 erewrite xbind_ret by reflexivity. erewrite xbind_ret by reflexivity.
  cbn [id dk_fdc dev set_dev secsize spt sides to_sides to_spt to_secsize].
  destruct (_ || _) eqn:Ebad.
  { exists (to_sides (byte_of c 26) (to_spt (byte_of c 24) (to_secsize (word_at c 11) (fdc s)))), None.
    split_and!; [done| |done|by destruct (fdc s)]. intros (_ & ? & ? & ? & ? & _). lia. }
  erewrite xbind_ret by (apply int_div_run; lia).
  assert (0 <= word_at c 19 / byte_of c 24 < 65536) by (Z.to_euclidean_division_equations; nia).
  erewrite xbind_ret by (apply int_div_run; lia). rewrite Z.div_div by lia.
  set (t := word_at c 19 / _). assert (0 <= t ∧ byte_of c 24 * byte_of c 26 * t <= word_at c 19) as [Ht Ht'].
  { unfold t. split; [apply Z.div_pos; nia|]. apply Z.mul_div_le. nia. }
  erewrite xbind_ret by reflexivity. erewrite xbind_ret by (apply int_run; nia). erewrite xbind_ret by (apply int_run; nia).
  exists (set_geometry (word_at c 11) (byte_of c 24) (byte_of c 26) t (fdc s)).
  assert (word_at c 19 mod (byte_of c 24 * byte_of c 26) = 0 ↔ byte_of c 26 * byte_of c 24 * t = word_at c 19) as Hmod.
  { unfold t. rewrite Z.mod_eq by nia. lia. }
  eexists. split; [reflexivity|]. split_and!; [| |by destruct (fdc s)].
  - intros (_ & _ & _ & _ & _ & Hm). split; [|done]. apply Hmod in Hm. by rewrite Hm, Z.eqb_refl.
  - intros Hno. destruct (Z.eqb_spec (byte_of c 26 * byte_of c 24 * t) (word_at c 19)) as [E|]; [|done].
    exfalso. apply Hno. split_and!; lia.
Qed.

(** Without a boot sector: the sectors per track from the size of the image. *)
Definition default_spt (size : Z) : Z := if (0 <? size) && (size mod 81920 =? 0) then size / 81920 else 18.

Lemma default_geometry_run s : let size := Z.of_nat (length (file s).(content)) in size < 2 ^ 31 →
  default_geometry s = (Ret (default_spt size * 2 * 80),
    with_fdc (to_spt (default_spt size) (to_sides 2 (to_secsize 512 (fdc s)))) (with_file (at_pos size (file s)) s)) ∧ 0 < default_spt size < 2 ^ 20.
Proof.
  intros size Hs. unfold default_geometry. do 2 erewrite xbind_ret by reflexivity.
  erewrite xbind_ret by (unfold lseek_end; do 2 erewrite xbind_ret by reflexivity; reflexivity).
  cbn [dk_file dev set_dev content]. fold size. change (512 * 2 * 80) with 81920.
  assert ((if negb (size / 81920 =? 0) && (size mod 81920 =? 0) then s32 (size / 81920) else 18) = default_spt size ∧ 0 < default_spt size < 2 ^ 20)
    as [-> Hd].
  { assert (0 <= size) by lia. unfold default_spt. destruct (Z.eqb_spec (size mod 81920) 0) as [E|]; rewrite ?andb_false_r, ?andb_true_r; [|done].
    destruct (Z.ltb_spec 0 size); cbn [negb].
    - assert (0 < size / 81920 < 2 ^ 20) by (Z.to_euclidean_division_equations; lia).
      rewrite (proj2 (Z.eqb_neq _ 0)) by lia. cbn [negb]. split; [|lia]. unfold s32. rewrite Z.mod_small; lia.
    - by replace size with 0 by lia. }
  split; [|done]. erewrite xbind_ret by reflexivity. erewrite xbind_ret by reflexivity. cbn [spt dk_fdc dev set_dev to_spt].
  erewrite xbind_ret by (apply int_run; lia). apply int_run. lia.
Qed.

#[local] Instance boot_ok_dec c : Decision (boot_ok c).
Proof. unfold boot_ok. apply _. Defined.

Lemma set_floppy_geometry_run s : let c := (file s).(content) in
  0 < (fdc s).(drive_fd) → is_bytes c → Z.of_nat (length c) < 2 ^ 31 →
  ∃ f p, set_floppy_geometry s = (Ret tt, with_fdc f (with_file (Image c p (file s).(writable)) s)) ∧
    (boot_ok c → geometry_of f (word_at c 11, byte_of c 24, byte_of c 26, word_at c 19 / (byte_of c 24 * byte_of c 26))) ∧
    (¬ boot_ok c → geometry_of f (512, default_spt (Z.of_nat (length c)), 2, 80)) ∧
    set_geometry 0 0 0 0 f = set_geometry 0 0 0 0 (fdc s).
Proof.
  intros c Hfd Hc Hsize. unfold set_floppy_geometry. erewrite xbind_ret by reflexivity. rewrite (proj2 (Z.ltb_lt _ _)) by done.
  cbn [xwhen]. erewrite xbind_ret by reflexivity.
  erewrite xbind_ret by (by apply read_boot). set (s2 := with_file _ _). change (content _) with c.
  assert (∃ f g, (if Z.of_nat (length (take 512 c)) =? 512 then boot_geometry (take 512 c) else xret None) s2 = (Ret g, with_fdc f s2) ∧
    (boot_ok c → g = Some (word_at c 19) ∧
       f = set_geometry (word_at c 11) (byte_of c 24) (byte_of c 26) (word_at c 19 / (byte_of c 24 * byte_of c 26)) (fdc s)) ∧
    (¬ boot_ok c → g = None) ∧ set_geometry 0 0 0 0 f = set_geometry 0 0 0 0 (fdc s)) as (f & g & E & Hyes & Hno & Hf).
  { rewrite length_take. destruct (Z.eqb_spec (Z.of_nat (512 `min` length c)) 512) as [|Hshort]; [exact (boot_geometry_run c s2 Hc ltac:(lia))|].
    exists (fdc s), None. split_and!; [by destruct s as [? ? ? ? ? ? ? ? []]|intros [? _]; lia|done|done]. }
  erewrite xbind_ret by exact E. set (s3 := with_fdc f s2).
  destruct (decide (boot_ok c)) as [Hb|Hb].
  - destruct (Hyes Hb) as [-> ->]. destruct Hb as (? & ? & ? & ? & ? & Hm). erewrite xbind_ret by reflexivity.
    pose proof (word_at_range c 19 Hc).
    erewrite xbind_ret by reflexivity. cbn [id s3 with_fdc dev set_dev dk_fdc set_geometry spt sides to_tracks to_sides to_spt].
    erewrite xbind_ret by (apply int_div_run; lia).
    assert (0 <= word_at c 19 / byte_of c 24 < 65536) by (Z.to_euclidean_division_equations; nia).
    erewrite xbind_ret by (apply int_div_run; lia). rewrite Z.div_div by lia. eexists _, _. split; [reflexivity|].
    split_and!; [done|intros []; by split_and!|by destruct (fdc s)].
  - rewrite (Hno Hb). destruct (default_geometry_run s3) as [Ed Hd]; [done|]. erewrite xbind_ret by exact Ed.
    change (content (file s3)) with c. set (d := default_spt _) in *. erewrite xbind_ret by reflexivity.
    cbn [id with_fdc with_file dev set_dev dk_fdc spt sides to_spt to_sides to_secsize]. erewrite xbind_ret by (apply int_div_run; lia).
    replace (d * 2 * 80 / d) with 160 by (apply Z.div_unique_exact; lia).
    erewrite xbind_ret by (apply int_div_run; lia). eexists _, _. split; [reflexivity|].
    split_and!; [done|done|]. rewrite <-Hf. by destruct f.
Qed.

(** Inserting a floppy.  When the image can be opened, its geometry is that of the boot sector if the sectors it
    counts fill whole tracks; otherwise there are two sides of 80 tracks with sectors of 512 bytes, and the number of sectors
    per track follows from the size of the image if this is possible, else it is 18.  The disk counts as changed, and no
    other register moves. *)
Theorem floppy_geometry s : let c := (file s).(content) in
  path_empty = false → 0 < (if 0 <=? open_rw then open_rw else open_ro) → is_bytes c → Z.of_nat (length c) < 2 ^ 31 →
  ∃ s', insert_floppy s = (Ret true, s') ∧ (file s').(content) = c ∧ (file s').(writable) = (0 <=? open_rw) ∧
    (boot_ok c → geometry_of (fdc s')
       (word_at c 11, byte_of c 24, byte_of c 26, word_at c 19 / (byte_of c 24 * byte_of c 26))) ∧
    (¬ boot_ok c → geometry_of (fdc s') (512, default_spt (Z.of_nat (length c)), 2, 80)) ∧
    set_geometry 0 0 0 0 (fdc s') = set_geometry 0 0 0 0 (to_panic_floppy_error 0 (to_floppy_changed true
      (to_drive_fd (if 0 <=? open_rw then open_rw else open_ro) (fdc s)))).
Proof.
  intros c Hpath Hfd Hc Hsize. unfold insert_floppy. erewrite xbind_ret by reflexivity. rewrite Hpath. cbv zeta.
  set (fd := if 0 <=? open_rw then _ else _) in *. rewrite (proj2 (Z.ltb_ge fd 0)) by lia.
  do 2 erewrite xbind_ret by reflexivity. set (s1 := set_dev _ _).
  assert (set_geometry 0 0 0 0 (fdc s1) = set_geometry 0 0 0 0 (to_drive_fd fd (fdc s))) as Hs1.
  { unfold s1. cbn. destruct (fdc s). cbn. by case_match. }
  destruct (set_floppy_geometry_run s1) as (f & p & E & Hb & Hd & Hf); [done..|].
  erewrite xbind_ret by exact E. do 2 erewrite xbind_ret by reflexivity. eexists. split; [reflexivity|].
  split_and!; [done|done|exact Hb|exact Hd|]. cbn. rewrite Hs1 in Hf. destruct f, (fdc s). cbn in *. by simplify_eq.
Qed.
End FdcSpec.

(** ** A small disk

    The theorems of [FdcSpec] on a disk with two tracks of two sides with three sectors of four bytes, and where the code
    does not do what a drive does. *)

#[local] Instance disk_config : Config := {| FastRAM_SIZE := 0x1000000; VideoRAMBase := 0xf0000000; ARAM_PAGE_CHECK := true |}.
#[local] Instance writable_image : FloppyHost := {| path_empty := false; open_rw := 3; open_ro := 3; boot_netbsd := false |}.

Definition disk_machine (f : ACSIFDC) (port : Z) (c : list Z) : machine disk_devices :=
  Machine (Regs (λ _, 0) true 0 0 0 0 0 false false 0 0 0 0 0 0 0 0 0) ∅
    (λ _, Line 0 false false false false false false false false 0)
    (λ _ _, Line 0 false false false false false false false false 0) true 0xeeeeeeee 0xeeeeeeee 0
    (Disk f (Ncr 0 0 0 0) (Yamaha 14 {[14 := port]}) mfp_new (Image c 0 true)).

(** The head on track 1, DMA to 0x2000 with [count] sectors from [sector] on. *)
Definition small_fdc (command sector count : Z) : ACSIFDC :=
  Acsifdc 0x2000 false 3 1 2 2 3 4 0 count 0 0 command 1 sector 0 0 0 0.
Definition small_disk (command sector count : Z) : machine disk_devices := disk_machine (small_fdc command sector count) 5 (seqZ 0 48).

Lemma small_ready command sector n : 1 <= sector → 0 < n → sector + n - 1 <= 3 → transfer_ready n (small_disk command sector n).
Proof.
  intros Hs Hn Hl. assert (host_ok 0x2000 (n * 4) = true) as Hh.
  { apply (host_ok_sub 0x2000 12); [by vm_compute|lia..]. }
  split; [done|done|by split; vm_compute|..|done| |].
  - change (side _) with 0. unfold on_disk. cbn. lia.
  - cbn. lia.
  - done.
  - split_and!; [done|cbn; lia|done].
Qed.

(** Two sectors of track 1, side 0, are bytes 28 to 35 of the image; a sector is written where memory is zero. *)
Lemma floppy_transfers_witness :
  (∃ s', fdc_exec_command (small_disk 0x90 2 2) = (Ret tt, s') ∧ aget s'.(mem) 0x2005 = 33) ∧
  (∃ s', fdc_exec_command (small_disk 0xA0 3 1) = (Ret tt, s') ∧ sector_byte s' 1 0 3 2 = 0 ∧ sector_byte s' 1 1 1 2 = 38).
Proof.
  split.
  - destruct (floppy_transfers 2 (small_disk 0x90 2 2)) as (y & _ & Hr & _); [by apply small_ready|].
    destruct Hr as (m & p & E & Hm & _); [by split; [|left]|by right|]. eexists. split; [exact E|].
    exact (Hm 1 1 ltac:(lia) ltac:(done)).
  - destruct (floppy_transfers 1 (small_disk 0xA0 3 1)) as (y & _ & _ & Hw); [by apply small_ready|].
    destruct Hw as (l & p & E & _ & Hm & Ho); [by split; [|right]|done|]. eexists. split; [exact E|]. split.
    + exact (Hm 0 2 ltac:(lia) ltac:(done)).
    + apply (Ho 1 1 1 2); [done|done|intros (_ & [=] & _)].
Defined.

(** An image of one track without a boot sector. *)
Lemma floppy_geometry_witness : ∃ s', insert_floppy (disk_machine (small_fdc 0 1 1) 5 (replicate 600 0)) = (Ret true, s') ∧
  geometry_of (dk_fdc s'.(dev)) (512, 18, 2, 80).
Proof.
  set (s := disk_machine _ _ _). destruct (floppy_geometry s) as (s' & E & _ & _ & _ & Hd & _);
    [done|done|apply Forall_replicate; lia|by vm_compute|].
  exists s'. split; [exact E|]. apply Hd. intros (_ & H & _). vm_compute in H. discriminate H.
Defined.

(** ** Where the code differs *)

Abbreviation outcome m := (let '(r, s') := m in (r, s'.(dev).(dk_fdc).(DMAaddr), s'.(dev).(dk_fdc).(dma_sr), s'.(dev).(dk_fdc).(fd_head))).

(** A read of several sectors from a sector behind the end of the track: the remaining count is negative, nothing is read,
    and the DMA address moves backwards, with success in the DMA status. *)
Lemma dma_moves_backwards : outcome (fdc_exec_command (small_disk 0x90 6 1)) = (Ret tt, 0x1ff8, 1, 1).
Proof. vm_compute. reflexivity. Qed.

(** Steps in the last direction move the head without a limit: here two steps out from track 1. *)
Lemma head_below_track_0 :
  outcome ((fdc_exec_command ;; fmod (to_fdc_command 0x20) ;; fdc_exec_command) (small_disk 0x60 1 1)) = (Ret tt, 0x2000, 0, -1).
Proof. vm_compute. reflexivity. Qed.

(** An image that is opened as descriptor 0 counts as inserted, but its geometry is not set: sectors have no bytes, and
    the buffer of [read_file] has no first element. *)
Lemma descriptor_0_no_geometry :
  let s := (insert_floppy (host := {| path_empty := false; open_rw := 0; open_ro := 0; boot_netbsd := false |})
    (disk_machine (Acsifdc 0 false (-1) 0 0 0 0 0 0 1 0 0 0x80 0 1 0 0 0 0) 5 (replicate 600 0))).2 in
  (is_floppy_inserted s).1 = Ret true ∧ geometry_of (dk_fdc s.(dev)) (0, 0, 0, 0).
Proof. by vm_compute. Qed.
