(* ===== verification/Sound.v ===== *)
(** * Sound: DMA sound and the crossbar

    Models [src/audio_crossbar.cpp], the registers of the sound matrix with its clock dividers; [src/audio_dma.cpp], the sound DMA:
    its registers, the position counter, and the function SDL calls to fill its buffer ([audio_callback]); and the
    conversion of sample rates in [src/audio_conv.cpp].

    The conversion of sample formats and the mixing are SDL's ([SDLAudio]); of the buffer of the host, which SDL clears, the model has
    what happens to each of its bytes ([out_byte]).  The volume is the largest ([SDL_MIX_MAXVOLUME]), since nothing calls [setVolume].  The milliseconds of [SDL_GetTicks] are an argument. *)

From S2P Require Import Prelude Throws Machine Mfp.
From stdpp Require Import base gmap list numbers.
Open Scope Z_scope.
Open Scope c_scope.
Open Scope x_scope.

(** ** State *)

Record CROSSBAR := Crossbar {
  xb_input : Z;
  xb_output : Z;
  extfreqdiv : Z;
  intfreqdiv : Z;
  rec_tracks : Z;
  in_source : Z;
  adc_input : Z;
  gain : Z;
  atten : Z;
  gpio_dir : Z;
  gpio_data : Z;
}.

Record AUDIODMA := Audiodma {
  dma_start : Z;
  dma_current : Z;
  dma_end : Z;
  control : Z;
  snd_mode : Z;
  freq : Z;
  start_tic : Z;
  (* static variables of the file *)
  playing : bool;
  start_replay : Z;
  current_replay : Z;
  end_replay : Z;
}.

(** [cvt] and [tmpBuf] are between SDL and [doConversion]; of [cvt] the format of the source stays. *)
Record AudioConv := Audioconv {
  srcFormat : Z;
  srcRate : Z;
  srcChan : Z;
  srcOffset : Z;
  srcSkip : Z;
  dstRate : Z;
}.

(** A byte of the host's buffer: a value is mixed into it, it is overwritten, or it is skipped. *)
Inductive out_byte := Mixed (v : Z) | Stored (v : Z) | Skipped.

Record sound_devices := SoundDevices {
  sd_dma : AUDIODMA;
  sd_crossbar : CROSSBAR;
  sd_conv : AudioConv;
  sd_mfp : MFP;  (* its [cpu_flags] are those of the machine *)
  sd_out : list out_byte;  (* the buffers of the host, one after another *)
}.

(** SDL: the rate of the host, how many bytes of the source format a number of host bytes needs ([(int)(len / cvt.len_ratio)]), the
    conversion ([SDL_ConvertAudio]), and the byte that is silence. *)
Class SDLAudio := {
  obtained_freq : Z;
  cvt_source : Z → Z → Z → Z;  (* format, channels, length *)
  cvt_convert : Z → Z → list Z → list Z;
  audio_silence : Z;
}.

Abbreviation CTRL_TIMERA_PLAYBACK_END := 0x400 (only parsing).
Abbreviation CTRL_MFPI7_PLAYBACK_END := 0x100 (only parsing).
Abbreviation CTRL_RECORD_SELECT := 0x80 (only parsing).
Abbreviation CTRL_PLAYBACK_REPEAT := 0x02 (only parsing).
Abbreviation CTRL_PLAYBACK_ENABLE := 0x01 (only parsing).
Abbreviation AUDIO_S8 := 0x8008 (only parsing).
Abbreviation AUDIO_S16MSB := 0x9010 (only parsing).

Definition set_control (v : Z) (a : AUDIODMA) : AUDIODMA :=
  Audiodma a.(dma_start) a.(dma_current) a.(dma_end) v a.(snd_mode) a.(freq) a.(start_tic) a.(playing) a.(start_replay)
    a.(current_replay) a.(end_replay).
Definition set_start (v : Z) (a : AUDIODMA) : AUDIODMA :=
  Audiodma v a.(dma_current) a.(dma_end) a.(control) a.(snd_mode) a.(freq) a.(start_tic) a.(playing) a.(start_replay)
    a.(current_replay) a.(end_replay).
Definition set_end (v : Z) (a : AUDIODMA) : AUDIODMA :=
  Audiodma a.(dma_start) a.(dma_current) v a.(control) a.(snd_mode) a.(freq) a.(start_tic) a.(playing) a.(start_replay)
    a.(current_replay) a.(end_replay).
Definition set_current (v : Z) (a : AUDIODMA) : AUDIODMA :=
  Audiodma a.(dma_start) v a.(dma_end) a.(control) a.(snd_mode) a.(freq) a.(start_tic) a.(playing) a.(start_replay)
    a.(current_replay) a.(end_replay).
Definition set_snd_mode (v : Z) (a : AUDIODMA) : AUDIODMA :=
  Audiodma a.(dma_start) a.(dma_current) a.(dma_end) a.(control) v a.(freq) a.(start_tic) a.(playing) a.(start_replay)
    a.(current_replay) a.(end_replay).
Definition set_freq (v : Z) (a : AUDIODMA) : AUDIODMA :=
  Audiodma a.(dma_start) a.(dma_current) a.(dma_end) a.(control) a.(snd_mode) v a.(start_tic) a.(playing) a.(start_replay)
    a.(current_replay) a.(end_replay).
Definition set_playing (v : bool) (a : AUDIODMA) : AUDIODMA :=
  Audiodma a.(dma_start) a.(dma_current) a.(dma_end) a.(control) a.(snd_mode) a.(freq) a.(start_tic) v a.(start_replay)
    a.(current_replay) a.(end_replay).
Definition set_current_replay (v : Z) (a : AUDIODMA) : AUDIODMA :=
  Audiodma a.(dma_start) a.(dma_current) a.(dma_end) a.(control) a.(snd_mode) a.(freq) a.(start_tic) a.(playing) a.(start_replay)
    v a.(end_replay).
(** The next frame: the addresses in the registers, from the time [tic] on. *)
Definition next_frame (tic : Z) (a : AUDIODMA) : AUDIODMA :=
  Audiodma a.(dma_start) a.(dma_current) a.(dma_end) a.(control) a.(snd_mode) a.(freq) tic a.(playing) a.(dma_start)
    a.(dma_start) a.(dma_end).

Section Sound.
Context {cfg : Config} {sdl : SDLAudio} (now : Z).
Abbreviation M := (X (machine sound_devices)).

Definition aget_dma {A} (f : AUDIODMA → A) : M A := xget (λ s, f s.(dev).(sd_dma)).
Definition amod_dma (f : AUDIODMA → AUDIODMA) : M unit := xmod (λ s,
  set_dev (SoundDevices (f s.(dev).(sd_dma)) s.(dev).(sd_crossbar) s.(dev).(sd_conv) s.(dev).(sd_mfp) s.(dev).(sd_out)) s).
Definition xbmod (f : CROSSBAR → CROSSBAR) : M unit := xmod (λ s,
  set_dev (SoundDevices s.(dev).(sd_dma) (f s.(dev).(sd_crossbar)) s.(dev).(sd_conv) s.(dev).(sd_mfp) s.(dev).(sd_out)) s).
Definition set_conv (c : AudioConv) : M unit := xmod (λ s,
  set_dev (SoundDevices s.(dev).(sd_dma) s.(dev).(sd_crossbar) c s.(dev).(sd_mfp) s.(dev).(sd_out)) s).
Definition put_out (l : list out_byte) : M unit := xmod (λ s,
  set_dev (SoundDevices s.(dev).(sd_dma) s.(dev).(sd_crossbar) s.(dev).(sd_conv) s.(dev).(sd_mfp) (s.(dev).(sd_out) ++ l)) s).
Definition mix (l : list Z) : M unit := put_out (Mixed <$> l).
Definition fill_out (n v : Z) : M unit := put_out (replicate (Z.to_nat n) (Stored v)).
Definition sound_mfp {A} : X MFP A → M A :=
  xzoom (λ s, upd_cpu_flags s.(spcflags) s.(dev).(sd_mfp))
    (λ x s, set_spcflags x.(cpu_flags)
       (set_dev (SoundDevices s.(dev).(sd_dma) s.(dev).(sd_crossbar) s.(dev).(sd_conv) x s.(dev).(sd_out)) s)).

(** ** The crossbar's clock *)

Definition getClockFreq (x : CROSSBAR) : Z :=
  match (x.(xb_output) >> 1) .& 3 with
  | 0 => 25175040
  | 2 => 32000000
  | _ => if tst x.(gpio_data) 1 then 24576000 else 22579200
  end.

Definition getClockPrediv (x : CROSSBAR) : Z :=
  match (x.(xb_output) >> 1) .& 3 with
  | 0 | 2 => x.(intfreqdiv)
  | _ => x.(extfreqdiv)
  end.

(** ** Sample rates *)

(** The units of a buffer: bytes, or words of two bytes. *)
Definition read_unit (w : nat) (base i : Z) : M (list Z) :=
  xmap (λ k, do_get_mem 1 (base + Z.of_nat w * i + k)) (seqZ 0 (Z.of_nat w)).

(** [rescaleFreq8] and [rescaleFreq16] differ in the width [w] of a unit: [n] samples were written, [srcRead] is the index of the
    next unit, [out] the units written. *)
Fixpoint rescale (fuel w : nat) (c : AudioConv) (base srcLen dst_len curSkip curOffset srcRead n : Z) (out : list (list Z))
    : M (Z * list (list Z)) :=
  match fuel with
  | O => xundef No_fuel
  | S fuel =>
      if negb ((srcRead <? srcLen) && (Z.of_nat (length out) <? dst_len)) then xret (srcRead, out) else
      let* units :=
        match c.(srcChan) with
        | 2 => xmap (read_unit w base) [srcRead; srcRead + 1]
        | 1 => xmap (read_unit w base) [srcRead]
        | _ => xret []
        end in
      let* p := int_result ((n + 1) * c.(srcRate)) in
      let* samples := int_div p c.(dstRate) in
      let* q := int_result (samples * curSkip) in
      let* srcRead := int_result (q + curOffset) in
      rescale fuel w c base srcLen dst_len curSkip curOffset srcRead (n + 1) (out ++ units)
  end.

Definition rescale_fuel (len : Z) : nat := S (Z.to_nat len).

Definition rescaleFreq8 (c : AudioConv) (base src_len dst_len : Z) : M (Z * list Z) :=
  let* r := rescale (rescale_fuel dst_len) 1 c base src_len dst_len c.(srcSkip) c.(srcOffset) 0 0 [] in
  xret (r.1, concat r.2).

Definition rescaleFreq16 (c : AudioConv) (base src_len dst_len : Z) : M (Z * list Z) :=
  let* r := rescale (rescale_fuel (dst_len >> 1)) 2 c base (src_len >> 1) (dst_len >> 1) (c.(srcSkip) >> 1) (c.(srcOffset) >> 1) 0 0 [] in
  xret (Z.shiftl r.1 1, concat r.2).

(** The lengths really read and written; what is written goes to the buffer of the host.  Without a rate the lengths stay and the
    buffer is left as it was. *)
Definition doConversion (base src_len dst_len : Z) : M (Z * Z) :=
  let* c := xget (λ s, s.(dev).(sd_conv)) in
  if (c.(srcRate) =? 0) || (c.(dstRate) =? 0) then put_out (replicate (Z.to_nat dst_len) Skipped) ;; xret (src_len, dst_len) else
  (if c.(dstRate) <? c.(srcRate) then let* p := int_result (dst_len * c.(srcRate)) in int_div p c.(dstRate) else xret dst_len) ;;
  let tmpLen := cvt_source c.(srcFormat) c.(srcChan) dst_len in
  let* r :=
    match c.(srcFormat) .& 0xff with
    | 8 => rescaleFreq8 c base src_len tmpLen
    | 16 => rescaleFreq16 c base src_len tmpLen
    | _ => xret (src_len, [])
    end in
  let out := cvt_convert c.(srcFormat) c.(srcChan) r.2 in
  mix out ;;
  xret (r.1, Z.of_nat (length out)).

(** ** The callback *)

Definition trigger_interrupt : M unit :=
  let* v := aget_dma control in
  if tst v CTRL_TIMERA_PLAYBACK_END then sound_mfp (IRQ 13 1)
  else xwhen (tst v CTRL_MFPI7_PLAYBACK_END) (sound_mfp (IRQ 15 1)).

Fixpoint callback_loop (fuel : nat) (dest_len : Z) : M unit :=
  match fuel with
  | O => xundef No_fuel
  | S fuel =>
      if dest_len <=? 0 then xret tt else
      let* a := aget_dma id in
      let* r := doConversion a.(current_replay) (s32 (a.(end_replay) -u a.(current_replay))) dest_len in
      let '(src_len, dst_len) := r in
      let* dest_len := int_result (dest_len - dst_len) in
      amod_dma (λ a, set_current_replay (a.(current_replay) +u src_len) a) ;;
      let* a := aget_dma id in
      if a.(current_replay) <? a.(end_replay) then callback_loop fuel dest_len else
      if tst a.(control) CTRL_PLAYBACK_ENABLE then
        trigger_interrupt ;;
        let* a := aget_dma id in
        if tst a.(control) CTRL_PLAYBACK_REPEAT then amod_dma (next_frame (s32 now)) ;; callback_loop fuel dest_len
        else
          amod_dma (λ a, set_control (Z.ldiff a.(control) CTRL_PLAYBACK_ENABLE) a) ;;
          amod_dma (set_playing false) ;;
          xwhen (0 <? dest_len) (fill_out dest_len audio_silence)
      else callback_loop fuel dest_len
  end.

Definition audio_callback (fuel : nat) (len : Z) : M unit :=
  let* a := aget_dma id in
  if negb a.(playing) || (a.(start_replay) =? 0) || (a.(end_replay) =? 0) then xret tt else callback_loop fuel len.

(** ** The sound DMA *)

Definition audiodma_reset : M unit :=
  amod_dma (λ a, Audiodma 0 0 0 0 0 a.(freq) (s32 now) false 0 0 0).

Definition sample_shift (mode : Z) : Z := match mode .& 0xc0 with 0 => 1 | 0x80 => 0 | _ => 2 end.

Definition updateCurrent : M unit :=
  let* a := aget_dma id in
  amod_dma (set_current a.(start_replay)) ;;
  xwhen a.(playing)
    (let elapsed := s32 (now -u a.(start_tic)) in
     let shift := sample_shift a.(snd_mode) in
     let total_samples := s32 ((a.(end_replay) -u a.(start_replay)) >> shift) in
     let* p := int_result (total_samples * 1000) in
     let* duration := int_div p a.(freq) in
     let duration := if duration <? 0 then 1 else duration in
     let* p := int_result (elapsed * total_samples) in
     let* q := int_div p duration in
     let* d := int_result (Z.shiftl q shift) in
     let current := a.(start_replay) +u d in
     let current := if current <? a.(start_replay) then a.(start_replay) else current in
     amod_dma (set_current (if a.(end_replay) <? current then a.(end_replay) else current))).

Definition updateControl : M unit :=
  let* a := aget_dma id in
  if tst a.(control) CTRL_PLAYBACK_ENABLE then
    xwhen (negb a.(playing)) (amod_dma (next_frame (s32 now)) ;; amod_dma (set_playing true))
  else xwhen a.(playing) (amod_dma (set_playing false)).

Definition freqs (i : Z) : Z := match i with 0 => 6146 | 1 => 12292 | 2 => 24585 | _ => 49170 end.

Definition updateMode : M unit :=
  let* mode := aget_dma snd_mode in
  let '(format, channels) := match mode .& 0xc0 with 0 => (AUDIO_S8, 2) | 0x80 => (AUDIO_S8, 1) | _ => (AUDIO_S16MSB, 2) end in
  let width := ((format .& 0xff) >> 3) * channels in
  let* x := xget (λ s, s.(dev).(sd_crossbar)) in
  let prediv := getClockPrediv x in
  let f := if prediv =? 0 then freqs (mode .& 3) else getClockFreq x / (256 * (prediv + 1)) in
  amod_dma (set_freq f) ;;
  set_conv (Audioconv format f channels (((mode >> 12) .& 3) * width) ((((mode >> 8) .& 3) + 1) * width) obtained_freq).

Context (HWoffset : Z).

(** The registers of recording read as 0. *)
Definition playback_register (v : M Z) : M Z :=
  let* c := aget_dma control in
  if tst c CTRL_RECORD_SELECT then xret 0 else v.

Definition audiodma_handleRead (addr : Z) : M Z :=
  match addr -u HWoffset with
  | 0x00 => aget_dma (λ a, (a.(control) >> 8) .& 0xff)
  | 0x01 => aget_dma (λ a, a.(control) .& 0xff)
  | 0x03 => playback_register (aget_dma (λ a, (a.(dma_start) >> 16) .& 0xff))
  | 0x05 => playback_register (aget_dma (λ a, (a.(dma_start) >> 8) .& 0xff))
  | 0x07 => playback_register (aget_dma (λ a, a.(dma_start) .& 0xff))
  | 0x09 => playback_register (updateCurrent ;; aget_dma (λ a, (a.(dma_current) >> 16) .& 0xff))
  | 0x0b => playback_register (updateCurrent ;; aget_dma (λ a, (a.(dma_current) >> 8) .& 0xff))
  | 0x0d => playback_register (updateCurrent ;; aget_dma (λ a, a.(dma_current) .& 0xff))
  | 0x0f => playback_register (aget_dma (λ a, (a.(dma_end) >> 16) .& 0xff))
  | 0x11 => playback_register (aget_dma (λ a, (a.(dma_end) >> 8) .& 0xff))
  | 0x13 => playback_register (aget_dma (λ a, a.(dma_end) .& 0xff))
  | 0x20 => aget_dma (λ a, (a.(snd_mode) >> 8) .& 0xff)
  | 0x21 => aget_dma (λ a, a.(snd_mode) .& 0xff)
  | _ => xret 0
  end.

Definition audiodma_handleWrite (addr value : Z) : M unit :=
  let frame f := amod_dma (λ a, if tst a.(control) CTRL_RECORD_SELECT then a else f a) in
  match addr -u HWoffset with
  | 0x00 => amod_dma (λ a, set_control ((a.(control) .& 0x00ff) .| Z.shiftl value 8) a) ;; updateControl
  | 0x01 => amod_dma (λ a, set_control ((a.(control) .& 0xff00) .| value) a) ;; updateControl
  | 0x03 => frame (λ a, set_start ((a.(dma_start) .& 0x0000ffff) .| Z.shiftl value 16) a)
  | 0x05 => frame (λ a, set_start ((a.(dma_start) .& 0x00ff00ff) .| Z.shiftl value 8) a)
  | 0x07 => frame (λ a, set_start ((a.(dma_start) .& 0x00ffff00) .| value) a)
  | 0x0f => frame (λ a, set_end ((a.(dma_end) .& 0x0000ffff) .| Z.shiftl value 16) a)
  | 0x11 => frame (λ a, set_end ((a.(dma_end) .& 0x00ff00ff) .| Z.shiftl value 8) a)
  | 0x13 => frame (λ a, set_end ((a.(dma_end) .& 0x00ffff00) .| value) a)
  | 0x20 => amod_dma (λ a, set_snd_mode ((a.(snd_mode) .& 0x00ff) .| Z.shiftl value 8) a) ;; updateMode
  | 0x21 => amod_dma (λ a, set_snd_mode ((a.(snd_mode) .& 0xff00) .| value) a) ;; updateMode
  | _ => xret tt
  end.

(** ** The crossbar *)

Definition crossbar_reset : M unit := xbmod (λ _, Crossbar 0 0 0 0 0 0 0 0 0 0 0).

Definition crossbar_handleRead (off addr : Z) : M Z :=
  xget (λ s, let x := s.(dev).(sd_crossbar) in
    match addr -u off with
    | 0x00 => (x.(xb_output) >> 8) .& 0xff
    | 0x01 => x.(xb_output) .& 0xff
    | 0x02 => (x.(xb_input) >> 8) .& 0xff
    | 0x03 => x.(xb_input) .& 0xff
    | 0x04 => x.(extfreqdiv)
    | 0x05 => x.(intfreqdiv)
    | 0x06 => x.(rec_tracks) .& 3
    | 0x07 => x.(in_source) .& 3
    | 0x08 => x.(adc_input) .& 3
    | 0x09 => x.(gain)
    | 0x0a => x.(atten)
    | 0x11 => x.(gpio_dir) .& 7
    | 0x13 => x.(gpio_data) .& 7
    | _ => 0
    end).

Definition crossbar_write (reg value : Z) (x : CROSSBAR) : CROSSBAR :=
  let '(Crossbar i o ef if_ rt src adc g at_ gd gv) := x in
  match reg with
  | 0x00 => Crossbar i ((o .& 0x00ff) .| Z.shiftl value 8) ef if_ rt src adc g at_ gd gv
  | 0x01 => Crossbar i ((o .& 0xff00) .| value) ef if_ rt src adc g at_ gd gv
  | 0x02 => Crossbar ((i .& 0x00ff) .| Z.shiftl value 8) o ef if_ rt src adc g at_ gd gv
  | 0x03 => Crossbar ((i .& 0xff00) .| value) o ef if_ rt src adc g at_ gd gv
  | 0x04 => Crossbar i o (value .& 15) if_ rt src adc g at_ gd gv
  | 0x05 => Crossbar i o ef (value .& 15) rt src adc g at_ gd gv
  | 0x06 => Crossbar i o ef if_ (value .& 3) src adc g at_ gd gv
  | 0x07 => Crossbar i o ef if_ rt (value .& 3) adc g at_ gd gv
  | 0x08 => Crossbar i o ef if_ rt src (value .& 3) g at_ gd gv
  | 0x09 => Crossbar i o ef if_ rt src adc (value .& 15) at_ gd gv
  | 0x0a => Crossbar i o ef if_ rt src adc g (value .& 15) gd gv
  | 0x11 => Crossbar i o ef if_ rt src adc g at_ (value .& 7) gv
  | 0x13 => Crossbar i o ef if_ rt src adc g at_ gd (value .& 7)
  | _ => x
  end.

Definition crossbar_handleWrite (off addr value : Z) : M unit :=
  let reg := addr -u off in
  xbmod (crossbar_write reg value) ;;
  xwhen ((reg =? 0x04) || (reg =? 0x05) || (reg =? 0x13)) updateMode.
End Sound.
