(* ===== verification/SoundSpec.v ===== *)
(** * SoundSpec: what is heard

    [playback_repeats] and [playback_ends]: the buffer SDL asks for is filled with the samples of the frame, from the current position on, at the rate of the host ([pick], [tape]), around
    and around or with silence after its end; the program is told at each end of the frame; the loop ends.  At the end of the file a
    frame of three samples. *)

From S2P Require Import Prelude Throws Machine MachineSpec Mfp MfpSpec MfpTick Sound.
From stdpp Require Import base gmap list numbers.
Open Scope Z_scope.
Open Scope c_scope.
Open Scope x_scope.

(** ** Ranges of bytes *)

Lemma line_bytes_app m n k base : line_bytes m (n + k) base = line_bytes m n base ++ line_bytes m k (base + Z.of_nat n).
Proof.
  unfold line_bytes. rewrite Nat2Z.inj_add, seqZ_app, fmap_app by lia. f_equal.
  replace (0 + Z.of_nat n) with (Z.of_nat n + 0) by lia. rewrite <-fmap_add_seqZ, <-list_fmap_compose. apply list_fmap_ext.
  intros i x _. cbn. do 2 f_equal. lia.
Qed.

Section SoundSpec.
Context {cfg : Config} {sdl : SDLAudio} (now : Z).
Implicit Types (s : machine sound_devices) (a : AUDIODMA) (c : AudioConv).

(** ** Copying samples *)

Lemma read_unit_run w base i s : host_ok (base + Z.of_nat w * i) (Z.of_nat w) = true →
  read_unit w base i s = (Ret (line_bytes s.(mem) w (base + Z.of_nat w * i)), s).
Proof.
  intros Hok. unfold read_unit. apply xmap_run. intros k Hk%elem_of_seqZ.
  rewrite do_get_mem_run by (eapply host_ok_sub; [exact Hok|lia..]). cbn [be_get]. by rewrite Z.add_0_r.
Qed.

(** The samples of one instant: [ch] units of [w] bytes. *)
Definition instant (w ch : nat) (m : gmap Z Z) (base i : Z) : list (list Z) :=
  (λ k, line_bytes m w (base + Z.of_nat w * (i * Z.of_nat ch + k))) <$> seqZ 0 (Z.of_nat ch).

Lemma instant_length w ch m base i : length (instant w ch m base i) = ch.
Proof. unfold instant. rewrite length_fmap, length_seqZ. lia. Qed.


Lemma units_bytes w ch m base : concat ((λ k, line_bytes m w (base + Z.of_nat w * k)) <$> seqZ 0 (Z.of_nat ch)) = line_bytes m (w * ch) base.
Proof.
  induction ch as [|ch IH]; [by rewrite Nat.mul_0_r|]. rewrite Nat2Z.inj_succ, <-Z.add_1_r, seqZ_app, fmap_app, concat_app, IH by lia.
  rewrite Nat.mul_succ_r, line_bytes_app. f_equal. change (seqZ (0 + Z.of_nat ch) 1) with [Z.of_nat ch]. cbn [fmap list_fmap concat].
  rewrite app_nil_r. f_equal. lia.
Qed.

Lemma instant_bytes w ch m base i : concat (instant w ch m base i) = line_bytes m (w * ch) (base + Z.of_nat (w * ch) * i).
Proof.
  rewrite <-units_bytes. unfold instant. f_equal. apply list_fmap_ext. intros k x _. f_equal. lia.
Qed.

(** ** Rates *)

(** The guest has [r] instants a second, the host [d].  The instant of the guest the host's [n]-th one comes from, and how many of the host's come
    from [A] of the guest when [K] are asked for. *)
Context (r d : Z).
Definition pick (n : Z) : Z := n * r / d.
Definition steps (A K : Z) : Z := Z.min K ((A * d + r - 1) / r).
Hypothesis rates : 0 < r ∧ 0 < d.

Lemma steps_more A K n : n < steps A K ↔ n < K ∧ pick n < A.
Proof using rates.
  unfold steps, pick. assert (n < (A * d + r - 1) / r ↔ n * r / d < A) as H.
  { trans (n * r < A * d).
    - split; intros Hn; [|apply Z.le_succ_l, Z.div_le_lower_bound; nia]. apply Z.le_succ_l in Hn.
      pose proof (Z.mul_div_le (A * d + r - 1) r). nia.
    - split; intros Hn; [apply Z.div_lt_upper_bound; nia|]. pose proof (Z.mul_succ_div_gt (n * r) d). nia. }
  rewrite Z.min_glb_lt_iff. by rewrite H.
Qed.
Lemma steps_range A K : 0 < A → 0 < K → 0 < steps A K <= K.
Proof using rates.
  intros HA HK. split; [apply steps_more; split; [done|]; unfold pick; by rewrite Z.div_0_l by lia|]. unfold steps. lia.
Qed.
Lemma steps_all A K : steps A K <= K → pick (steps A K) < A → steps A K = K.
Proof using rates. intros H1 H2. destruct (Z.lt_ge_cases (steps A K) K); [|lia]. pose proof (proj2 (steps_more A K (steps A K))). lia. Qed.
Lemma pick_0 : pick 0 = 0.
Proof using rates. unfold pick. by rewrite Z.div_0_l by lia. Qed.
Lemma pick_mono n k : n <= k → pick n <= pick k.
Proof using rates. intros H. apply Z.div_le_mono; nia. Qed.
Lemma pick_pos n : 0 <= n → 0 <= pick n.
Proof using rates. intros H. rewrite <-pick_0. by apply pick_mono. Qed.
Lemma pick_succ n : pick (n + 1) <= pick n + r / d + 1.
Proof using rates.
  unfold pick. pose proof (Z.mul_succ_div_gt (n * r) d). pose proof (Z.mul_succ_div_gt r d). apply Z.lt_succ_r, Z.div_lt_upper_bound; nia.
Qed.
Lemma steps_reach A K : 0 < A → 0 < K → pick (steps A K) <= A + r / d.
Proof using rates.
  intros HA HK. pose proof (steps_range A K HA HK). destruct (proj1 (steps_more A K (steps A K - 1))) as [_ H1]; [lia|].
  pose proof (pick_succ (steps A K - 1)) as H2. rewrite Z.sub_add in H2. lia.
Qed.

(** The samples are picked from the source. *)
Lemma rescale_picks fuel w ch c base (A B n : Z) out s : ch = 1%nat ∨ ch = 2%nat → c.(srcChan) = Z.of_nat ch →
  c.(srcRate) = r → c.(dstRate) = d → 0 < A → 0 < B → 0 <= n <= steps A B → length out = (Z.to_nat n * ch)%nat → (Z.to_nat (steps A B - n) < fuel)%nat →
  (B + 1) * r < 2 ^ 31 → (A + r / d + 1) * Z.of_nat ch < 2 ^ 31 → host_ok base (Z.of_nat (w * ch) * A) = true →
  rescale fuel w c base (A * Z.of_nat ch) (B * Z.of_nat ch) (Z.of_nat ch) 0 (pick n * Z.of_nat ch) n out s =
    (Ret (pick (steps A B) * Z.of_nat ch, out ++ flat_map (λ i, instant w ch s.(mem) base (pick i)) (seqZ n (steps A B - n))), s).
Proof using rates.
  intros Hch Hc Hr Hd HA HB Hn Hout Hf Hint Hsmall Hok. revert n out Hn Hout Hf. induction fuel as [|fuel IH]; intros n out Hn Hout Hf; [lia|].
  cbn [rescale]. pose proof (steps_more A B n) as Hmore. destruct (Z.eq_dec n (steps A B)) as [->|Hne].
  - assert ((pick (steps A B) * Z.of_nat ch <? A * Z.of_nat ch) && (Z.of_nat (length out) <? B * Z.of_nat ch) = false) as ->.
    { apply andb_false_iff. rewrite !Z.ltb_ge, Hout. destruct Hch as [->| ->]; lia. }
    cbn [negb]. rewrite Z.sub_diag. cbn. by rewrite app_nil_r.
  - destruct (proj1 Hmore) as [Hm1 Hm2]; [lia|]. pose proof (pick_pos n) as Hp0. pose proof (pick_pos (n + 1)). pose proof (pick_succ n).
    rewrite (proj2 (Z.ltb_lt _ (A * Z.of_nat ch))), (proj2 (Z.ltb_lt _ (B * Z.of_nat ch))) by (rewrite ?Hout; destruct Hch as [->| ->]; lia).
    cbn [andb negb]. rewrite (xbind_ret _ _ _ (instant w ch s.(mem) base (pick n)) s).
    2: { assert (∀ k, 0 <= k < Z.of_nat ch → read_unit w base (pick n * Z.of_nat ch + k) s =
           (Ret (line_bytes s.(mem) w (base + Z.of_nat w * (pick n * Z.of_nat ch + k))), s)) as Hu.
         { intros k Hk. apply read_unit_run. eapply host_ok_sub; [exact Hok|nia..]. }
         trans (xmap (read_unit w base) ((λ k, pick n * Z.of_nat ch + k) <$> seqZ 0 (Z.of_nat ch)) s).
         { rewrite Hc. destruct Hch as [->| ->]; [change (seqZ 0 (Z.of_nat 1)) with [0]|change (seqZ 0 (Z.of_nat 2)) with [0; 1]];
             cbn [fmap list_fmap]; by rewrite Z.add_0_r. }
         rewrite (xmap_run _ (λ j, line_bytes s.(mem) w (base + Z.of_nat w * j))); [by rewrite <-list_fmap_compose|].
         intros j (k & -> & Hk%elem_of_seqZ)%list_elem_of_fmap. apply Hu. lia. }
    rewrite Hr, Hd. erewrite xbind_ret by (apply int_run; nia). erewrite xbind_ret by (apply int_div_run; nia). fold (pick (n + 1)).
    erewrite xbind_ret by (apply int_run; destruct Hch as [->| ->]; lia). erewrite xbind_ret by (apply int_run; destruct Hch as [->| ->]; lia).
    rewrite Z.add_0_r, IH; [|lia|rewrite length_app, Hout, instant_length; lia|lia].
    rewrite <-app_assoc. rewrite (seqZ_cons n) by lia. cbn [flat_map].
    by replace (Z.pred (steps A B - n)) with (steps A B - (n + 1)) by lia.
Qed.

(** ** Conversion *)

(** The format of the guest's samples: [w] bytes per sample, [ch] channels, [W] bytes per instant.  SDL converts an instant at a time
    ([convert]), to [db] bytes of the host. *)
Context (w ch : nat) (format db : Z) (convert : list Z → list Z).
Abbreviation W := (Z.of_nat (w * ch)).
Record cvt_ok : Prop := {
  cv_width : (w = 1 ∨ w = 2)%nat;
  cv_channels : (ch = 1 ∨ ch = 2)%nat;
  cv_format : format .& 0xff = 8 * Z.of_nat w;
  cv_db : 0 < db;
  cv_source k : 0 <= k → cvt_source format (Z.of_nat ch) (k * db) = k * W;
  cv_nil : cvt_convert format (Z.of_nat ch) [] = [];
  cv_app l1 l2 : length l1 = (w * ch)%nat →
    cvt_convert format (Z.of_nat ch) (l1 ++ l2) = convert l1 ++ cvt_convert format (Z.of_nat ch) l2;
  cv_length l : length l = (w * ch)%nat → Z.of_nat (length (convert l)) = db;
}.
Hypothesis cvt : cvt_ok.

(** The guest's samples at the rate [r], for a host at the rate [d]; one track. *)
Record conv_plain c : Prop := {
  cp_format : c.(srcFormat) = format;
  cp_chan : c.(srcChan) = Z.of_nat ch;
  cp_rate : c.(srcRate) = r ∧ c.(dstRate) = d;
  cp_track : c.(srcOffset) = 0 ∧ c.(srcSkip) = W;
}.

Lemma W_pos : 0 < W <= 4.
Proof using cvt. destruct (cv_width cvt) as [->| ->], (cv_channels cvt) as [->| ->]; cbn; lia. Qed.

(** Instants of memory, as the host hears them. *)
Definition sounds (m : gmap Z Z) (base : Z) (l : list Z) : list Z := flat_map (λ i, convert (line_bytes m (w * ch) (base + W * i))) l.
(** Those of the host's next [n]. *)
Definition picked (n : Z) : list Z := pick <$> seqZ 0 n.

Lemma sounds_app m base l1 l2 : sounds m base (l1 ++ l2) = sounds m base l1 ++ sounds m base l2.
Proof. apply flat_map_app. Qed.
Lemma sounds_shift m b p l : sounds m (b + p * W) l = sounds m b (Z.add p <$> l).
Proof. unfold sounds. induction l as [|i l IH]; [done|]. cbn. rewrite IH. do 3 f_equal. lia. Qed.

Lemma sounds_length m base l : Z.of_nat (length (sounds m base l)) = Z.of_nat (length l) * db.
Proof using cvt.
  unfold sounds. induction l as [|i l IH]; [done|]. cbn [flat_map]. rewrite length_app, Nat2Z.inj_add, IH, (cv_length cvt) by apply line_bytes_length.
  cbn [length]. lia.
Qed.
Lemma picked_length n : 0 <= n → Z.of_nat (length (picked n)) = n.
Proof. intros H. unfold picked. rewrite length_fmap, length_seqZ. lia. Qed.

Lemma convert_sounds m base n :
  cvt_convert format (Z.of_nat ch) (concat (flat_map (λ i, instant w ch m base (pick i)) (seqZ 0 n))) = sounds m base (picked n).
Proof using cvt.
  unfold sounds, picked. generalize (seqZ 0 n). intros l. induction l as [|i l IH]; [apply (cv_nil cvt)|].
  cbn [flat_map fmap list_fmap]. rewrite concat_app, instant_bytes, (cv_app cvt) by apply line_bytes_length. by rewrite IH.
Qed.

Definition mixed (l : list Z) s : machine sound_devices :=
  set_dev (SoundDevices s.(dev).(sd_dma) s.(dev).(sd_crossbar) s.(dev).(sd_conv) s.(dev).(sd_mfp) (s.(dev).(sd_out) ++ (Mixed <$> l))) s.

(** [K] instants can be asked for, and [F] of the guest converted: the numbers fit. *)
Definition asked (K : Z) : Prop := K * db < 2 ^ 31 ∧ (K + 1) * r < 2 ^ 31 ∧ K * db * r < 2 ^ 31.

(** [F] instants of the frame are left, [K] are asked for. *)
Lemma conversion_run base F K s : conv_plain s.(dev).(sd_conv) → 0 < F → 0 < K → asked K → (F + r / d + 1) * W < 2 ^ 31 →
  host_ok base (W * F) = true → let n := steps F K in
  doConversion base (F * W) (K * db) s = (Ret (pick n * W, n * db), mixed (sounds s.(mem) base (picked n)) s).
Proof using cvt rates.
  intros [Hf Hc [Hr Hd] [Ho Hs]] HF HK (Ha1 & Ha2 & Ha3) Hsmall Hok n. pose proof (steps_range F K HF HK) as Hn. fold n in Hn. pose proof (cv_db cvt) as Hdb.
  unfold doConversion. erewrite xbind_ret by reflexivity.
  set (c := sd_conv (dev s)) in *. rewrite Hr, Hd, !(proj2 (Z.eqb_neq _ 0)) by lia. cbn [orb].
  assert (∃ z, (if d <? r then let* p := int_result (K * db * r) in int_div p d else xret (K * db)) s = (Ret z, s)) as [z Ez].
  { destruct (d <? r); [|by eexists]. erewrite xbind_ret by (apply int_run; nia). eexists. apply int_div_run; nia. }
  erewrite xbind_ret by exact Ez. cbv zeta. rewrite Hf, Hc, (cv_format cvt), (cv_source cvt) by lia.
  assert (0 <= r / d) as Hq by (apply Z.div_pos; lia).
  assert (∀ w' W', w' = w → W' = Z.of_nat ch → let u := flat_map (λ i, instant w ch s.(mem) base (pick i)) (seqZ 0 n) in
    rescale (rescale_fuel (K * W')) w' c base (F * W') (K * W') W' 0 0 0 [] s = (Ret (pick n * W', u), s)) as Hres.
  { intros w' W' -> ->. cbv zeta. pose proof (rescale_picks (rescale_fuel (K * Z.of_nat ch)) w ch c base F K 0 [] s) as H. fold n in H.
    rewrite pick_0, Z.mul_0_l, Z.sub_0_r in H. apply H; [apply (cv_channels cvt)|exact Hc|exact Hr|exact Hd|lia|lia|lia|done| |lia| |exact Hok].
    - unfold rescale_fuel. destruct (cv_channels cvt) as [->| ->]; lia.
    - destruct (cv_channels cvt) as [->| ->], (cv_width cvt) as [->| ->]; cbn in *; lia. }
  rewrite (xbind_ret _ _ _ (pick n * W, concat (flat_map (λ i, instant w ch s.(mem) base (pick i)) (seqZ 0 n))) s).
  - cbn [fst snd]. rewrite convert_sounds. erewrite xbind_ret by reflexivity. unfold xret. by rewrite sounds_length, picked_length by lia.
  - destruct (cv_width cvt) as [Ew|Ew].
    + replace (8 * Z.of_nat w) with 8 by lia. cbv iota. unfold rescaleFreq8. rewrite Ho, Hs.
      by erewrite xbind_ret by (apply Hres; lia).
    + replace (8 * Z.of_nat w) with 16 by lia. cbv iota. unfold rescaleFreq16. rewrite Ho, Hs.
      assert (∀ x, x * W >> 1 = x * Z.of_nat ch) as Hhalf.
      { intros x. rewrite shr_1, Ew. replace (x * Z.of_nat (2 * ch)) with (x * Z.of_nat ch * 2) by lia. by rewrite Z.div_mul. }
      assert (W >> 1 = Z.of_nat ch) as Hhalf1 by (rewrite <-(Z.mul_1_l W), Hhalf; lia).
      rewrite !Hhalf, Hhalf1. change (0 >> 1) with 0. erewrite xbind_ret by (by apply Hres). cbn [fst snd]. rewrite shl_1.
      by replace (pick n * Z.of_nat ch * 2) with (pick n * W) by lia.
Qed.

(** ** The end of a frame *)

Abbreviation dma s := (s.(dev).(sd_dma)).
Definition sound_mfp_of s : MFP := upd_cpu_flags s.(spcflags) s.(dev).(sd_mfp).

(** What the program asked for: an interrupt of timer A, or of input 7, or none. *)
Definition tell (v : Z) (x : MFP) : MFP :=
  if tst v 0x400 then (IRQ 13 1 x).2 else if tst v 0x100 then (IRQ 15 1 x).2 else x.

(** The parts of the state that an interrupt does not change. *)
Definition same_sound s s' : Prop :=
  s'.(mem) = s.(mem) ∧ dma s' = dma s ∧ s'.(dev).(sd_conv) = s.(dev).(sd_conv) ∧ s'.(dev).(sd_out) = s.(dev).(sd_out).

Lemma trigger_run s : ∃ s', trigger_interrupt s = (Ret tt, s') ∧ same_sound s s' ∧ sound_mfp_of s' = tell (dma s).(control) (sound_mfp_of s).
Proof.
  unfold trigger_interrupt. erewrite xbind_ret by reflexivity. unfold tell.
  assert (∀ level, level ≠ 5 → ∃ s', sound_mfp (IRQ level 1) s = (Ret tt, s') ∧ same_sound s s' ∧ sound_mfp_of s' = (IRQ level 1 (sound_mfp_of s)).2) as H.
  { intros level Hl. destruct (IRQ_returns level 1 (sound_mfp_of s) Hl) as [y E]. unfold sound_mfp, xzoom. fold (sound_mfp_of s). rewrite E.
    eexists. split; [reflexivity|]. split; [done|]. by destruct y. }
  destruct (tst _ 0x400); [by apply H|]. unfold xwhen. destruct (tst _ 0x100); [by apply H|]. by exists s.
Qed.

(** ** The loop *)

(** A frame of [F] instants from [b] on is played; [p] of them were. *)
Record frame_at (b F p : Z) s : Prop := {
  fr_playing : (dma s).(playing) = true;
  fr_start : (dma s).(start_replay) = b ∧ 0 < b;
  fr_end : (dma s).(end_replay) = b + F * W ∧ b + (F + r / d + 1) * W < 2 ^ 32 ∧ (F + r / d + 1) * W < 2 ^ 31;
  fr_current : (dma s).(current_replay) = b + p * W ∧ 0 <= p < F;
  fr_enabled : tst (dma s).(control) 1 = true;
  fr_memory : host_ok b (F * W) = true;
  fr_conv : conv_plain s.(dev).(sd_conv);
}.

Definition at_replay (v : Z) (l : list Z) s : machine sound_devices :=
  set_dev (SoundDevices (set_current_replay v (dma s)) s.(dev).(sd_crossbar) s.(dev).(sd_conv) s.(dev).(sd_mfp) (s.(dev).(sd_out) ++ (Mixed <$> l))) s.

(** One round: [n] instants of the host are played. *)
Lemma round_run fuel b F p K s : frame_at b F p s → 0 < K → asked K →
  let n := steps (F - p) K in let s1 := at_replay (b + (p + pick n) * W) (sounds s.(mem) b (Z.add p <$> picked n)) s in
  callback_loop now (S fuel) (K * db) s =
    if p + pick n <? F then callback_loop now fuel ((K - n) * db) s1
    else (trigger_interrupt ;;
      let* a := aget_dma id in
      if tst a.(control) 2 then amod_dma (next_frame (s32 now)) ;; callback_loop now fuel ((K - n) * db)
      else
        amod_dma (λ a, set_control (Z.ldiff a.(control) 1) a) ;;
        amod_dma (set_playing false) ;;
        xwhen (0 <? (K - n) * db) (fill_out ((K - n) * db) audio_silence)) s1.
Proof using cvt rates.
  intros [Hpl [Hb Hb0] [He [He1 He2]] [Hc Hp] Hen Hok Hconv] HK Ha. cbv zeta. pose proof W_pos as HW. pose proof (cv_db cvt) as Hdb.
  assert (0 <= r / d) as Hq by (apply Z.div_pos; lia).
  cbn [callback_loop]. rewrite (proj2 (Z.leb_gt _ 0)) by nia. erewrite xbind_ret by reflexivity. unfold id. rewrite He, Hc.
  assert (s32 ((b + F * W) -u (b + p * W)) = (F - p) * W) as ->.
  { rewrite u32_small by nia. rewrite s32_small by nia. lia. }
  erewrite xbind_ret; [|apply conversion_run; [done|lia|lia|done|nia|]].
  2: { eapply host_ok_sub; [exact Hok|nia|]. nia. }
  pose proof (steps_range (F - p) K ltac:(lia) HK) as Hn. pose proof (steps_reach (F - p) K ltac:(lia) HK) as Hreach.
  set (n := steps (F - p) K) in *. pose proof (pick_pos n ltac:(lia)) as Hpn.
  cbv beta iota. replace (K * db - n * db) with ((K - n) * db) by lia. destruct Ha as (Ha1 & _). erewrite xbind_ret by (apply int_run; nia).
  rewrite (xbind_ret _ _ _ tt (at_replay (b + (p + pick n) * W) (sounds s.(mem) b (Z.add p <$> picked n)) s)).
  2: { unfold amod_dma, xmod, at_replay, mixed. cbn [dev set_dev sd_dma sd_crossbar sd_conv sd_mfp sd_out]. rewrite Hc, sounds_shift.
       replace ((b + p * W) +u (pick n * W)) with (b + (p + pick n) * W) by (rewrite u32_small; nia). done. }
  erewrite xbind_ret by reflexivity. set (s1 := at_replay _ _ s). unfold id.
  change (current_replay (dma s1)) with (b + (p + pick n) * W). change (end_replay (dma s1)) with (dma s).(end_replay). rewrite He.
  change (control (dma s1)) with (dma s).(control). rewrite Hen.
  replace (b + (p + pick n) * W <? b + F * W) with (p + pick n <? F); [by destruct (_ <? F)|].
  destruct (Z.ltb_spec (p + pick n) F), (Z.ltb_spec (b + (p + pick n) * W) (b + F * W)); (done || nia).
Qed.

(** *** What is played

    The instants of a frame of [F] that the host's next [K] come from, the position [p] they start at, where they end, and how often the
    end of the frame is passed: at each end the next frame starts with its first instant. *)
Fixpoint tape (fuel : nat) (F p K : Z) : list Z * Z * nat :=
  match fuel with
  | O => ([], p, 0%nat)
  | S fuel =>
      if K <=? 0 then ([], p, 0%nat) else
      let n := steps (F - p) K in
      let l := Z.add p <$> picked n in
      if p + pick n <? F then (l, p + pick n, 0%nat)
      else let '(l', q, e) := tape fuel F 0 (K - n) in (l ++ l', q, S e)
  end.

(** At equal rates: the instants one by one, around and around. *)
Lemma tape_around fuel F p K : r = d → 0 <= p < F → 0 <= K → (Z.to_nat K <= fuel)%nat →
  tape fuel F p K = ((λ i, (p + i) mod F) <$> seqZ 0 K, (p + K) mod F, Z.to_nat ((p + K) / F)).
Proof using rates.
  intros Hrd. assert (∀ n, pick n = n) as Hpick by (intros n; unfold pick; rewrite Hrd, Z.div_mul by lia; done).
  revert p K. induction fuel as [|fuel IH]; intros p K Hp HK Hf; cbn [tape].
  { replace K with 0 by lia. by rewrite Z.add_0_r, Z.mod_small, Z.div_small by lia. }
  destruct (Z.leb_spec K 0) as [HK0|HK0].
  { replace K with 0 by lia. by rewrite Z.add_0_r, Z.mod_small, Z.div_small by lia. }
  cbv zeta. assert (steps (F - p) K = Z.min K (F - p)) as ->.
  { unfold steps. f_equal. rewrite Hrd. replace ((F - p) * d + d - 1) with (d - 1 + (F - p) * d) by lia. rewrite Z.div_add, Z.div_small by lia. lia. }
  assert (∀ n, n <= F - p → Z.add p <$> picked n = (λ i, (p + i) mod F) <$> seqZ 0 n) as Hl.
  { intros n Hn. unfold picked. rewrite <-list_fmap_compose. apply list_fmap_ext. intros k i Hi%list_elem_of_lookup_2%elem_of_seqZ. cbn.
    rewrite Hpick, Z.mod_small by lia. done. }
  rewrite Hpick, Hl by lia. destruct (Z.ltb_spec (p + Z.min K (F - p)) F).
  { rewrite Z.min_l by lia. by rewrite (Z.mod_small (p + K)), (Z.div_small (p + K)) by lia. }
  rewrite Z.min_r, IH by lia. rewrite Z.add_0_l.
  assert ((p + K) mod F = (K - (F - p)) mod F ∧ (p + K) / F = 1 + (K - (F - p)) / F) as [-> ->].
  { replace (p + K) with (K - (F - p) + 1 * F) by lia. rewrite Z.mod_add, Z.div_add by lia. lia. }
  assert (0 <= (K - (F - p)) / F) by (apply Z.div_pos; lia). f_equal; [f_equal|lia].
  replace K with ((F - p) + (K - (F - p))) at 2 by lia. rewrite seqZ_app, fmap_app by lia. f_equal.
  replace (0 + (F - p)) with ((F - p) + 0) by lia. rewrite <-fmap_add_seqZ, <-list_fmap_compose. apply list_fmap_ext. intros k i _. cbn.
  replace (p + (F - p + i)) with (i + 1 * F) by lia. by rewrite Z.mod_add by lia.
Qed.

(** In a loop: the registers hold the frame that is played. *)
Definition looping b F s : Prop :=
  tst (dma s).(control) 2 = true ∧ (dma s).(dma_start) = b ∧ (dma s).(dma_end) = b + F * W.

(** The frame starts again. *)
Lemma frame_again b F p s s2 : frame_at b F p s → looping b F s → dma s2 = next_frame (s32 now) (dma s) → s2.(dev).(sd_conv) = s.(dev).(sd_conv) →
  frame_at b F 0 s2 ∧ looping b F s2.
Proof using cvt.
  intros [Q1 [Q2 Q2'] [Q3 Q3'] [_ Q4] Q5 Q6 Q7] (L1 & L2 & L3) E Ec. split; [split|split_and!]; rewrite ?E, ?Ec; cbn; try done.
  split; [rewrite L2|]; lia.
Qed.

Lemma loop_repeats fuel f b F p K s : frame_at b F p s → looping b F s → 0 <= K → asked K → (Z.to_nat K < fuel)%nat → (Z.to_nat K <= f)%nat →
  let t := tape f F p K in
  ∃ s', callback_loop now fuel (K * db) s = (Ret tt, s') ∧ frame_at b F t.1.2 s' ∧ looping b F s' ∧
    s'.(mem) = s.(mem) ∧ s'.(dev).(sd_out) = s.(dev).(sd_out) ++ (Mixed <$> sounds s.(mem) b t.1.1) ∧
    sound_mfp_of s' = Nat.iter t.2 (tell (dma s).(control)) (sound_mfp_of s).
Proof using cvt rates.
  revert f p K s. induction fuel as [|fuel IH]; intros f p K s H HL HK Ha Hf Hf'; [lia|]. cbv zeta.
  destruct (fr_current _ _ _ _ H) as [Hc Hp]. destruct (Z.eq_dec K 0) as [->|HK0].
  { exists s. cbn [callback_loop]. rewrite Z.mul_0_l. assert (tape f F p 0 = ([], p, 0%nat)) as -> by (by destruct f).
    split_and!; try done. cbn. by rewrite app_nil_r. }
  pose proof (round_run fuel b F p K s H ltac:(lia) Ha) as E. cbv zeta in E. rewrite E. clear E.
  destruct f as [|f]; [lia|]. cbn [tape]. rewrite (proj2 (Z.leb_gt K 0)) by lia. cbv zeta.
  pose proof (steps_range (F - p) K ltac:(lia) ltac:(lia)) as Hn. pose proof (steps_all (F - p) K (proj2 Hn)) as Hall.
  set (n := steps (F - p) K) in *. pose proof (pick_pos n ltac:(lia)) as Hpn. destruct (Z.ltb_spec (p + pick n) F) as [Hlt|Hge].
  - replace (K - n) with 0 by lia. rewrite Z.mul_0_l. destruct fuel as [|fuel]; [lia|]. cbn [callback_loop].
    eexists. split; [reflexivity|]. split_and!; [destruct H as [? ? ? ? ? ? ?]; split; try done; cbn; lia|done..].
  - set (s1 := at_replay _ _ s).
    destruct (trigger_run s1) as (s2 & E2 & (Hm2 & Hd2 & Hc2 & Ho2) & Ht2). erewrite xbind_ret by exact E2.
    erewrite xbind_ret by reflexivity. unfold id. rewrite Hd2. change (control (dma s1)) with (dma s).(control). rewrite (proj1 HL).
    erewrite xbind_ret by reflexivity. set (s3 := set_dev _ s2).
    destruct (frame_again b F p s s3 H HL) as [H3 HL3]; [unfold s3; cbn; by rewrite Hd2|unfold s3; cbn; by rewrite Hc2|].
    destruct (IH f 0 (K - n) s3) as (s' & E & Hfr & HL' & Hm & Ho & Ht); [done|done|lia| |lia|lia|].
    { destruct Ha as (A1 & A2 & A3). pose proof (cv_db cvt). split_and!; nia. }
    exists s'. split; [exact E|]. destruct (tape f F 0 (K - n)) as [[l q] e]. cbn [fst snd] in *.
    split_and!; [done|done|by rewrite Hm; cbn; rewrite Hm2| |].
    + rewrite Ho, sounds_app, fmap_app. cbn. rewrite Hm2, Ho2. cbn. by rewrite <-app_assoc.
    + rewrite Ht. assert (control (dma s3) = control (dma s)) as -> by (unfold s3; cbn; by rewrite Hd2).
      assert (sound_mfp_of s3 = sound_mfp_of s2) as -> by done. rewrite Ht2. by rewrite Nat.iter_succ_r.
Qed.

Lemma callback_starts fuel len b F p s : frame_at b F p s → audio_callback now fuel len s = callback_loop now fuel len s.
Proof using cvt.
  intros H. pose proof W_pos. destruct H as [Hp [Hs Hs0] [He _] [_ Hc] _ _ _]. unfold audio_callback. erewrite xbind_ret by reflexivity. unfold id.
  rewrite Hp, Hs, He, (proj2 (Z.eqb_neq b 0)), (proj2 (Z.eqb_neq (b + F * W) 0)) by nia. done.
Qed.

(** C9: Playing in a loop, at any rate [r] of the guest and [d] of the host.  The buffer gets the instants of the frame from the current position on, over
    and over, converted by SDL: the host's instant [i] since the start of the buffer or of the frame is the guest's [i * r / d], the frame starts again
    with its first instant when its end is reached, the program is told as often as that happens, the frame goes on where it was left, and memory does not change.
    At equal rates these are the instants one by one.  One track is played, the frame lies in memory, the registers still hold it, the products the code
    computes fit in an [int], and SDL converts an instant at a time.  As many rounds as instants are enough. *)
Theorem playback_repeats fuel b F p K s : frame_at b F p s → looping b F s → 0 <= K → asked K → (Z.to_nat K < fuel)%nat →
  let '(l, q, e) := tape (Z.to_nat K) F p K in
  (∃ s', audio_callback now fuel (K * db) s = (Ret tt, s') ∧ frame_at b F q s' ∧ looping b F s' ∧
    s'.(mem) = s.(mem) ∧ s'.(dev).(sd_out) = s.(dev).(sd_out) ++ (Mixed <$> sounds s.(mem) b l) ∧
    sound_mfp_of s' = Nat.iter e (tell (dma s).(control)) (sound_mfp_of s)) ∧
  (r = d → l = (λ i, (p + i) mod F) <$> seqZ 0 K ∧ q = (p + K) mod F ∧ e = Z.to_nat ((p + K) / F)).
Proof using cvt rates.
  intros H HL HK Ha Hf. destruct (fr_current _ _ _ _ H) as [_ Hp]. rewrite (callback_starts _ _ b F p) by done.
  pose proof (loop_repeats fuel (Z.to_nat K) b F p K s H HL HK Ha Hf (le_n _)) as HR.
  pose proof (λ E, tape_around (Z.to_nat K) F p K E Hp HK (le_n _)) as HT. destruct (tape _ F p K) as [[l q] e].
  split; [exact HR|]. intros E. specialize (HT E). by simplify_eq.
Qed.

(** Playing once.  When the end of the frame comes, the program is told, playing stops and the rest of the buffer is
    silence. *)
Theorem playback_ends fuel b F p K s : let n := steps (F - p) K in
  frame_at b F p s → tst (dma s).(control) 2 = false → 0 < K → F <= p + pick n → asked K → (0 < fuel)%nat →
  ∃ s', audio_callback now fuel (K * db) s = (Ret tt, s') ∧
    (dma s').(playing) = false ∧ (dma s').(control) = Z.ldiff (dma s).(control) 1 ∧ s'.(mem) = s.(mem) ∧
    s'.(dev).(sd_out) = s.(dev).(sd_out) ++ (Mixed <$> sounds s.(mem) b (Z.add p <$> picked n)) ++ replicate (Z.to_nat ((K - n) * db)) (Stored audio_silence) ∧
    sound_mfp_of s' = tell (dma s).(control) (sound_mfp_of s).
Proof using cvt rates.
  intros n H Hrep HK Hend Ha Hf. rewrite (callback_starts _ _ b F p) by done. destruct fuel as [|fuel]; [lia|].
  pose proof (round_run fuel b F p K s H HK Ha) as E. cbv zeta in E. fold n in E. rewrite E. clear E.
  rewrite (proj2 (Z.ltb_ge _ F)) by lia. set (s1 := at_replay _ _ s).
  destruct (trigger_run s1) as (s2 & E2 & (Hm2 & Hd2 & Hc2 & Ho2) & Ht2). erewrite xbind_ret by exact E2.
  erewrite xbind_ret by reflexivity. unfold id. rewrite Hd2. change (control (dma s1)) with (dma s).(control). rewrite Hrep.
  do 2 erewrite xbind_ret by reflexivity. pose proof (cv_db cvt). pose proof (steps_range (F - p) K). fold n in H1. destruct (fr_current _ _ _ _ H) as [_ Hp].
  destruct (Z.ltb_spec 0 ((K - n) * db)) as [Hrest|Hrest]; (eexists; split; [reflexivity|]); cbn [dev set_dev sd_dma set_playing playing set_control control mem sd_out].
  - rewrite Hd2, Ho2. split_and!; try done. cbn. by rewrite <-app_assoc.
  - rewrite Hd2, Ho2. replace ((K - n) * db) with 0 by nia. split_and!; try done. cbn. by rewrite app_nil_r.
Qed.

(** ** The position counter *)

(** When the numbers fit, the counter is in the frame, and counts the instants played since its start. *)
Lemma position_counts s : let a := dma s in
  let n := (a.(end_replay) - a.(start_replay)) >> sample_shift a.(snd_mode) in let t := n * 1000 / a.(freq) in
  a.(playing) = true → 0 <= a.(start_replay) <= a.(end_replay) → a.(end_replay) < 2 ^ 30 → 0 <= now - a.(start_tic) < 2 ^ 31 →
  0 < a.(freq) → n * 1000 < 2 ^ 31 → 0 < t → (now - a.(start_tic)) * n < 2 ^ 29 →
  ∃ s', updateCurrent now s = (Ret tt, s') ∧ a.(start_replay) <= (dma s').(dma_current) <= a.(end_replay) ∧
    (dma s').(dma_current) = Z.min a.(end_replay) (a.(start_replay) + Z.shiftl ((now - a.(start_tic)) * n / t) (sample_shift a.(snd_mode))).
Proof using.
  intros a n t Hpl Hs He Htic Hfr Hn Ht Hprod. unfold updateCurrent. erewrite xbind_ret by reflexivity. unfold id. fold a.
  erewrite xbind_ret by reflexivity. rewrite Hpl. cbn [xwhen]. cbv zeta. set (k := sample_shift (snd_mode a)) in *.
  assert (0 <= k <= 2) as Hk by (unfold k, sample_shift; repeat case_match; lia).
  assert (0 <= n <= a.(end_replay) - a.(start_replay)) as Hn0.
  { unfold n. rewrite Z.shiftr_div_pow2 by lia. split; [apply Z.div_pos; lia|]. apply Z.div_le_upper_bound; nia. }
  rewrite (u32_small (end_replay a - start_replay a)) by lia. fold n. rewrite (s32_small n) by lia.
  rewrite (u32_small (now - _)), (s32_small (now - _)) by lia. erewrite xbind_ret by (apply int_run; lia).
  erewrite xbind_ret by (apply int_div_run; lia). fold t. rewrite (proj2 (Z.ltb_ge t 0)) by lia.
  erewrite xbind_ret by (apply int_run; nia). erewrite xbind_ret by (apply int_div_run; nia).
  set (q := (now - start_tic a) * n / t). assert (0 <= q < 2 ^ 29) as Hq.
  { unfold q. split; [apply Z.div_pos; nia|]. apply Z.div_lt_upper_bound; nia. }
  assert (0 <= Z.shiftl q k < 2 ^ 31) as Hsh.
  { rewrite Z.shiftl_mul_pow2 by lia. assert (k = 0 ∨ k = 1 ∨ k = 2) as [->|[->| ->]] by lia; cbn; lia. }
  erewrite xbind_ret by (apply int_run; lia). rewrite u32_small by lia. rewrite (proj2 (Z.ltb_ge (start_replay a + _) _)) by lia.
  eexists. split; [reflexivity|]. cbn [dev set_dev sd_dma set_current dma_current].
  destruct (Z.ltb_spec (end_replay a) (start_replay a + Z.shiftl q k)); lia.
Qed.
End SoundSpec.

(** ** Three samples

    The theorems of [SoundSpec] on a frame of three bytes in mono, on a host that plays bytes as they are, and where the code does not
    do what the chip does. *)

#[local] Instance sound_config : Config := {| FastRAM_SIZE := 0x1000000; VideoRAMBase := 0xf0000000; ARAM_PAGE_CHECK := true |}.
#[local] Instance byte_host : SDLAudio := {|
  obtained_freq := 12292;
  cvt_source _ _ len := len;
  cvt_convert _ _ l := l;
  audio_silence := 0;
|}.

Lemma byte_host_ok : cvt_ok 1 1 0x8008 1 id.
Proof. split; try (by auto); try done; intros; cbn; lia. Qed.

Definition plain (rate : Z) : AudioConv := Audioconv 0x8008 rate 1 0 1 12292.
Definition no_crossbar : CROSSBAR := Crossbar 0 0 0 0 0 0 0 0 0 0 0.
Definition sound_machine (a : AUDIODMA) (c : AudioConv) : machine sound_devices :=
  Machine (Regs (λ _, 0) true 0 0 0 0 0 false false 0 0 0 0 0 0 0 0 0) {[0x2000 := 10; 0x2001 := 20; 0x2002 := 30; 0x2003 := 40]}
    (λ _, Line 0 false false false false false false false false 0)
    (λ _ _, Line 0 false false false false false false false false 0) true 0xeeeeeeee 0xeeeeeeee 0
    (SoundDevices a no_crossbar c mfp_new []).
(** Three bytes at 0x2000 are played, at [rate] a second; the first one was heard. *)
Definition three_bytes (rate control : Z) : machine sound_devices :=
  sound_machine (Audiodma 0x2000 0 0x2003 control 0x80 12292 0 true 0x2000 0x2001 0x2003) (plain rate).

Lemma three_bytes_frame rate control : 0 <= rate < 0x10000 → tst control 1 = true → frame_at rate 12292 1 1 0x8008 0x2000 3 1 (three_bytes rate control).
Proof.
  intros Hr H. assert (0 <= rate / 12292 < 10) by (split; [apply Z.div_pos|apply Z.div_lt_upper_bound]; lia).
  split; try done; try (by split). split; [done|]. change (Z.of_nat (1 * 1)) with 1. lia.
Qed.

(** Five instants of the host, from a slower guest. *)
Lemma playback_repeats_witness : ∃ s', audio_callback 7 6 5 (three_bytes 8195 3) = (Ret tt, s') ∧ s'.(dev).(sd_out) = Mixed <$> [20; 20; 30; 10; 10].
Proof.
  destruct (playback_repeats 7 8195 12292 ltac:(done) 1 1 0x8008 1 id byte_host_ok 6 0x2000 3 1 5 (three_bytes 8195 3)) as ((s' & E & _ & _ & _ & Ho & _) & _);
    [by apply three_bytes_frame|done|done|done|by apply Nat.ltb_lt|].
  exists s'. split; [exact E|]. rewrite Ho. vm_compute. reflexivity.
Defined.

Lemma playback_ends_witness : ∃ s', audio_callback 7 1 5 (three_bytes 12292 1) = (Ret tt, s') ∧ (sd_dma s'.(dev)).(playing) = false ∧
  s'.(dev).(sd_out) = [Mixed 20; Mixed 30; Stored 0; Stored 0; Stored 0].
Proof.
  destruct (playback_ends 7 12292 12292 ltac:(done) 1 1 0x8008 1 id byte_host_ok 1 0x2000 3 1 5 (three_bytes 12292 1)) as (s' & E & Hp & _ & _ & Ho & _);
    [by apply three_bytes_frame|done|done|done|done|by apply Nat.ltb_lt|].
  exists s'. split; [exact E|]. split; [exact Hp|]. rewrite Ho. vm_compute. reflexivity.
Defined.

(** ** Where the code differs *)

(** A frame without bytes in a loop: no number of rounds is enough. *)
Definition no_bytes : machine sound_devices := sound_machine (Audiodma 0x2000 0 0x2000 3 0x80 12292 7 true 0x2000 0x2000 0x2000) (plain 12292).
Lemma empty_frame_hangs fuel : (audio_callback 7 fuel 4 no_bytes).1 = Undef No_fuel.
Proof. change (audio_callback 7 fuel 4 no_bytes) with (callback_loop 7 fuel 4 no_bytes). induction fuel as [|fuel IH]; [done|]. exact IH. Qed.

(** The position in a frame shorter than a millisecond: the duration is 0, and the test meant to prevent the division by it is
    for negative numbers. *)
Lemma short_frame_divides_by_zero : (updateCurrent 7 (three_bytes 12292 3)).1 = Undef Div_by_zero.
Proof. vm_compute. reflexivity. Qed.

(** The position four seconds into a frame of ten: the product of milliseconds and samples overflows. *)
Lemma position_overflows :
  (updateCurrent 4500 (sound_machine (Audiodma 0x10000 0 0x1f0000 1 0x43 49170 0 true 0x10000 0x10000 0x1f0000) (plain 12292))).1 = Undef Int_overflow.
Proof. vm_compute. reflexivity. Qed.

(** Of two tracks the second is to be heard: the first instant of each buffer is from the first all the same. *)
Lemma first_instant_of_track_0 :
  (audio_callback 7 2 2 (sound_machine (Audiodma 0x2000 0 0x2004 1 0x80 12292 0 true 0x2000 0x2000 0x2004) (Audioconv 0x8008 12292 1 1 2 12292))).2.(dev).(sd_out)
  = [Mixed 10; Mixed 40].
Proof. vm_compute. reflexivity. Qed.

(** The gain has four bits for each side; those of the left are dropped. *)
Lemma left_gain_lost x : (crossbar_write 9 0x53 x).(gain) = 3.
Proof. by destruct x. Qed.
