(* ===== verification/System.v ===== *)
(** * System: the devices on the hardware bus

    Models [HWInit] of [src/hardware.cpp]: the table of the devices with their address
    ranges, over the models of all devices and of the memory control register of [src/mmu.cpp].  The IDE interface, the DSP, which
    has a thread of its own, and the blitter are arguments: any objects placed at their ranges.  What the host
    contributes (its clock, the monitor, the ports and files) is the record [surroundings].

    The MFP shares the special flags with the processor ([on_mfp]), and the keyboard
    is wired to the MFP ([on_keyboard]).  [hardware_routing]: in every state reached
    from the start of the machine ([bus_step]), an access in the range of a
    device, or in the mirror of the hardware space at the top of memory, reaches that
    device and no other: the page shortcut of [memory-uae.h] never covers the hardware
    ([bus_pages_ok]); outside the ranges it is a bus error.  [key_over_bus]: a key is
    read by the guest at the keyboard's address on the bus. *)

From S2P Require Import Prelude Throws Machine MachineSpec Mfp MfpSpec Rtc Ikbd IkbdSpec Midi Joypads Aradata Videl Scc Yamaha Fdc Sound.
From stdpp Require Import base gmap list numbers.
Open Scope Z_scope.
Open Scope c_scope.
Open Scope x_scope.

(** The states of the devices; [P] is that of the serial port, [Q] that of the parallel port, [O] that of the devices that are not
    modelled and of the DSP. *)
Record devices (P Q O : Type) := Devices {
  dev_mfp : MFP;  (* its [cpu_flags] are those of the machine *)
  dev_memctl : Z;
  dev_ikbd : IKBD;
  dev_rtc : RTC;
  dev_videl : VIDEL;
  dev_scc : SCC P;  (* its [scc_flags] are those of the machine *)
  dev_fdc : ACSIFDC;
  dev_ncr : NCR5380;
  dev_file : image_file;  (* the floppy *)
  dev_yamaha : YAMAHA;
  dev_par : option Q;
  dev_midi : MIDI;
  dev_joypads : JOYPADS;
  dev_aradata : ARADATA;
  dev_dma : AUDIODMA;
  dev_crossbar : CROSSBAR;
  dev_conv : AudioConv;
  dev_out : list out_byte;  (* the sound buffers of the host *)
  dev_others : O;
}.
Arguments Devices {P Q O} _ _ _ _ _ _ _ _ _ _ _ _ _ _ _ _ _ _ _.
Arguments dev_mfp {P Q O} _.
Arguments dev_memctl {P Q O} _.
Arguments dev_ikbd {P Q O} _.
Arguments dev_rtc {P Q O} _.
Arguments dev_videl {P Q O} _.
Arguments dev_scc {P Q O} _.
Arguments dev_fdc {P Q O} _.
Arguments dev_ncr {P Q O} _.
Arguments dev_file {P Q O} _.
Arguments dev_yamaha {P Q O} _.
Arguments dev_par {P Q O} _.
Arguments dev_midi {P Q O} _.
Arguments dev_joypads {P Q O} _.
Arguments dev_aradata {P Q O} _.
Arguments dev_dma {P Q O} _.
Arguments dev_crossbar {P Q O} _.
Arguments dev_conv {P Q O} _.
Arguments dev_out {P Q O} _.
Arguments dev_others {P Q O} _.

Section Devices.
Context {P Q O : Type}.
Implicit Types d : devices P Q O.
Definition put_dev_mfp (v : MFP) d : devices P Q O :=
  Devices
    v d.(dev_memctl) d.(dev_ikbd) d.(dev_rtc) d.(dev_videl) d.(dev_scc) d.(dev_fdc) d.(dev_ncr) d.(dev_file)
    d.(dev_yamaha) d.(dev_par) d.(dev_midi) d.(dev_joypads) d.(dev_aradata) d.(dev_dma) d.(dev_crossbar) d.(dev_conv)
    d.(dev_out) d.(dev_others).
Definition put_dev_memctl (v : Z) d : devices P Q O :=
  Devices
    d.(dev_mfp) v d.(dev_ikbd) d.(dev_rtc) d.(dev_videl) d.(dev_scc) d.(dev_fdc) d.(dev_ncr) d.(dev_file)
    d.(dev_yamaha) d.(dev_par) d.(dev_midi) d.(dev_joypads) d.(dev_aradata) d.(dev_dma) d.(dev_crossbar) d.(dev_conv)
    d.(dev_out) d.(dev_others).
Definition put_dev_ikbd (v : IKBD) d : devices P Q O :=
  Devices
    d.(dev_mfp) d.(dev_memctl) v d.(dev_rtc) d.(dev_videl) d.(dev_scc) d.(dev_fdc) d.(dev_ncr) d.(dev_file)
    d.(dev_yamaha) d.(dev_par) d.(dev_midi) d.(dev_joypads) d.(dev_aradata) d.(dev_dma) d.(dev_crossbar) d.(dev_conv)
    d.(dev_out) d.(dev_others).
Definition put_dev_rtc (v : RTC) d : devices P Q O :=
  Devices
    d.(dev_mfp) d.(dev_memctl) d.(dev_ikbd) v d.(dev_videl) d.(dev_scc) d.(dev_fdc) d.(dev_ncr) d.(dev_file)
    d.(dev_yamaha) d.(dev_par) d.(dev_midi) d.(dev_joypads) d.(dev_aradata) d.(dev_dma) d.(dev_crossbar) d.(dev_conv)
    d.(dev_out) d.(dev_others).
Definition put_dev_videl (v : VIDEL) d : devices P Q O :=
  Devices
    d.(dev_mfp) d.(dev_memctl) d.(dev_ikbd) d.(dev_rtc) v d.(dev_scc) d.(dev_fdc) d.(dev_ncr) d.(dev_file)
    d.(dev_yamaha) d.(dev_par) d.(dev_midi) d.(dev_joypads) d.(dev_aradata) d.(dev_dma) d.(dev_crossbar) d.(dev_conv)
    d.(dev_out) d.(dev_others).
Definition put_dev_scc (v : SCC P) d : devices P Q O :=
  Devices
    d.(dev_mfp) d.(dev_memctl) d.(dev_ikbd) d.(dev_rtc) d.(dev_videl) v d.(dev_fdc) d.(dev_ncr) d.(dev_file)
    d.(dev_yamaha) d.(dev_par) d.(dev_midi) d.(dev_joypads) d.(dev_aradata) d.(dev_dma) d.(dev_crossbar) d.(dev_conv)
    d.(dev_out) d.(dev_others).
Definition put_dev_fdc (v : ACSIFDC) d : devices P Q O :=
  Devices
    d.(dev_mfp) d.(dev_memctl) d.(dev_ikbd) d.(dev_rtc) d.(dev_videl) d.(dev_scc) v d.(dev_ncr) d.(dev_file)
    d.(dev_yamaha) d.(dev_par) d.(dev_midi) d.(dev_joypads) d.(dev_aradata) d.(dev_dma) d.(dev_crossbar) d.(dev_conv)
    d.(dev_out) d.(dev_others).
Definition put_dev_ncr (v : NCR5380) d : devices P Q O :=
  Devices
    d.(dev_mfp) d.(dev_memctl) d.(dev_ikbd) d.(dev_rtc) d.(dev_videl) d.(dev_scc) d.(dev_fdc) v d.(dev_file)
    d.(dev_yamaha) d.(dev_par) d.(dev_midi) d.(dev_joypads) d.(dev_aradata) d.(dev_dma) d.(dev_crossbar) d.(dev_conv)
    d.(dev_out) d.(dev_others).
Definition put_dev_file (v : image_file) d : devices P Q O :=
  Devices
    d.(dev_mfp) d.(dev_memctl) d.(dev_ikbd) d.(dev_rtc) d.(dev_videl) d.(dev_scc) d.(dev_fdc) d.(dev_ncr) v
    d.(dev_yamaha) d.(dev_par) d.(dev_midi) d.(dev_joypads) d.(dev_aradata) d.(dev_dma) d.(dev_crossbar) d.(dev_conv)
    d.(dev_out) d.(dev_others).
Definition put_dev_yamaha (v : YAMAHA) d : devices P Q O :=
  Devices
    d.(dev_mfp) d.(dev_memctl) d.(dev_ikbd) d.(dev_rtc) d.(dev_videl) d.(dev_scc) d.(dev_fdc) d.(dev_ncr) d.(dev_file)
    v d.(dev_par) d.(dev_midi) d.(dev_joypads) d.(dev_aradata) d.(dev_dma) d.(dev_crossbar) d.(dev_conv) d.(dev_out)
    d.(dev_others).
Definition put_dev_par (v : option Q) d : devices P Q O :=
  Devices
    d.(dev_mfp) d.(dev_memctl) d.(dev_ikbd) d.(dev_rtc) d.(dev_videl) d.(dev_scc) d.(dev_fdc) d.(dev_ncr) d.(dev_file)
    d.(dev_yamaha) v d.(dev_midi) d.(dev_joypads) d.(dev_aradata) d.(dev_dma) d.(dev_crossbar) d.(dev_conv)
    d.(dev_out) d.(dev_others).
Definition put_dev_midi (v : MIDI) d : devices P Q O :=
  Devices
    d.(dev_mfp) d.(dev_memctl) d.(dev_ikbd) d.(dev_rtc) d.(dev_videl) d.(dev_scc) d.(dev_fdc) d.(dev_ncr) d.(dev_file)
    d.(dev_yamaha) d.(dev_par) v d.(dev_joypads) d.(dev_aradata) d.(dev_dma) d.(dev_crossbar) d.(dev_conv) d.(dev_out)
    d.(dev_others).
Definition put_dev_joypads (v : JOYPADS) d : devices P Q O :=
  Devices
    d.(dev_mfp) d.(dev_memctl) d.(dev_ikbd) d.(dev_rtc) d.(dev_videl) d.(dev_scc) d.(dev_fdc) d.(dev_ncr) d.(dev_file)
    d.(dev_yamaha) d.(dev_par) d.(dev_midi) v d.(dev_aradata) d.(dev_dma) d.(dev_crossbar) d.(dev_conv) d.(dev_out)
    d.(dev_others).
Definition put_dev_aradata (v : ARADATA) d : devices P Q O :=
  Devices
    d.(dev_mfp) d.(dev_memctl) d.(dev_ikbd) d.(dev_rtc) d.(dev_videl) d.(dev_scc) d.(dev_fdc) d.(dev_ncr) d.(dev_file)
    d.(dev_yamaha) d.(dev_par) d.(dev_midi) d.(dev_joypads) v d.(dev_dma) d.(dev_crossbar) d.(dev_conv) d.(dev_out)
    d.(dev_others).
Definition put_dev_dma (v : AUDIODMA) d : devices P Q O :=
  Devices
    d.(dev_mfp) d.(dev_memctl) d.(dev_ikbd) d.(dev_rtc) d.(dev_videl) d.(dev_scc) d.(dev_fdc) d.(dev_ncr) d.(dev_file)
    d.(dev_yamaha) d.(dev_par) d.(dev_midi) d.(dev_joypads) d.(dev_aradata) v d.(dev_crossbar) d.(dev_conv)
    d.(dev_out) d.(dev_others).
Definition put_dev_crossbar (v : CROSSBAR) d : devices P Q O :=
  Devices
    d.(dev_mfp) d.(dev_memctl) d.(dev_ikbd) d.(dev_rtc) d.(dev_videl) d.(dev_scc) d.(dev_fdc) d.(dev_ncr) d.(dev_file)
    d.(dev_yamaha) d.(dev_par) d.(dev_midi) d.(dev_joypads) d.(dev_aradata) d.(dev_dma) v d.(dev_conv) d.(dev_out)
    d.(dev_others).
Definition put_dev_conv (v : AudioConv) d : devices P Q O :=
  Devices
    d.(dev_mfp) d.(dev_memctl) d.(dev_ikbd) d.(dev_rtc) d.(dev_videl) d.(dev_scc) d.(dev_fdc) d.(dev_ncr) d.(dev_file)
    d.(dev_yamaha) d.(dev_par) d.(dev_midi) d.(dev_joypads) d.(dev_aradata) d.(dev_dma) d.(dev_crossbar) v d.(dev_out)
    d.(dev_others).
Definition put_dev_out (v : list out_byte) d : devices P Q O :=
  Devices
    d.(dev_mfp) d.(dev_memctl) d.(dev_ikbd) d.(dev_rtc) d.(dev_videl) d.(dev_scc) d.(dev_fdc) d.(dev_ncr) d.(dev_file)
    d.(dev_yamaha) d.(dev_par) d.(dev_midi) d.(dev_joypads) d.(dev_aradata) d.(dev_dma) d.(dev_crossbar) d.(dev_conv)
    v d.(dev_others).
Definition put_dev_others (v : O) d : devices P Q O :=
  Devices
    d.(dev_mfp) d.(dev_memctl) d.(dev_ikbd) d.(dev_rtc) d.(dev_videl) d.(dev_scc) d.(dev_fdc) d.(dev_ncr) d.(dev_file)
    d.(dev_yamaha) d.(dev_par) d.(dev_midi) d.(dev_joypads) d.(dev_aradata) d.(dev_dma) d.(dev_crossbar) d.(dev_conv)
    d.(dev_out) v.
End Devices.

(** The indices of [arhw]. *)
Inductive hw_item :=
  iMFP | iMMU | iIKBD | iMIDI | iFDC | iRTC | iIDE | iDSP | iBLITTER | iVIDEL | iYAMAHA | iARADATA | iAUDIODMA
  | iCROSSBAR | iSCC | iCARTRIDGE | iJOYPADS.
#[export] Instance hw_item_eq_dec : EqDecision hw_item.
Proof. solve_decision. Defined.

Definition hw_items : list hw_item :=
  [iMFP; iMMU; iIKBD; iMIDI; iFDC; iRTC; iIDE; iDSP; iBLITTER; iVIDEL; iYAMAHA; iARADATA; iAUDIODMA;
   iCROSSBAR; iSCC; iCARTRIDGE; iJOYPADS].

(** The arguments of the constructors in [HWInit]. *)
Definition hw_range (i : hw_item) : Z * Z :=
  match i with
  | iMFP => (0xfffa00, 0x30)
  | iMMU => (0xff8000, 8)
  | iIKBD => (0xfffc00, 4)
  | iMIDI => (0xfffc04, 4)
  | iFDC => (0xff8600, 0x10)
  | iRTC => (0xff8960, 4)
  | iIDE => (0xf00000, 0x3a)
  | iDSP => (0xffa200, 8)
  | iBLITTER => (0xff8A00, 0x3e)
  | iVIDEL => (0xff8200, 0xc4)
  | iYAMAHA => (0xff8800, 4)
  | iARADATA => (0xf90000, 18)
  | iAUDIODMA => (0xff8900, 0x22)
  | iCROSSBAR => (0xff8930, 0x14)
  | iSCC => (0xff8c81, 8)
  | iCARTRIDGE => (0xfa0000, 0x20000)
  | iJOYPADS => (0xff9200, 0x24)
  end.

(** [VIDEL] overrides the test of the range: it also has the colour registers. *)
Definition hw_mine (i : hw_item) (addr : Z) : bool :=
  let '(off, size) := hw_range i in
  match i with iVIDEL => videl_isMyHWRegister off size addr | _ => base_isMyHWRegister off size addr end.

(** ** The devices leave the page shortcut alone *)

Definition same_pages {T} (r w : Z) (s : machine T) : Prop := s.(read_page) = r ∧ s.(write_page) = w.

Lemma pages_get {cfg : Config} {T} n a r w : xkeeps (same_pages (T := T) r w) (do_get_mem n a).
Proof. unfold do_get_mem. xkeeps. Qed.
Lemma pages_put {cfg : Config} {T} n a v r w : xkeeps (same_pages (T := T) r w) (do_put_mem n a v).
Proof. unfold do_put_mem. xkeeps. by apply xkeeps_mod. Qed.
Lemma pages_int {T} z r w : xkeeps (same_pages (T := T) r w) (int_result z).
Proof. unfold int_result. xkeeps. Qed.
Lemma pages_div {T} a b r w : xkeeps (same_pages (T := T) r w) (int_div a b).
Proof. unfold int_div, int_result. xkeeps. Qed.
#[local] Hint Resolve pages_get pages_put pages_int pages_div : xkeeps.

Section Disk.
Context {cfg : Config} {host : FloppyHost} (r w : Z).
Abbreviation kept := (xkeeps (same_pages r w)).

Lemma pages_dmod f : kept (dmod f).
Proof. by apply xkeeps_mod. Qed.
Lemma pages_fget {A} (f : ACSIFDC → A) : kept (fget f).
Proof. apply xkeeps_get. Qed.
Lemma pages_fmod f : kept (fmod f).
Proof. apply pages_dmod. Qed.
Lemma pages_line v : kept (set_line v).
Proof. by apply xkeeps_zoom. Qed.
#[local] Hint Resolve pages_dmod pages_fget pages_fmod pages_line : xkeeps.

Lemma pages_seek v : kept (lseek_set v).
Proof. unfold lseek_set, file_mod. xkeeps. Qed.
Lemma pages_seek_end : kept lseek_end.
Proof. unfold lseek_end, file_mod, file_get. xkeeps. Qed.
Lemma pages_file_read n : kept (file_read n).
Proof. unfold file_read, file_mod, file_get. xkeeps. Qed.
Lemma pages_file_write l : kept (file_write l).
Proof. unfold file_write, file_mod, file_get. xkeeps. Qed.
Lemma pages_copy_to l a : kept (copy_to a l).
Proof. revert a. induction l as [|b l IH]; intros a; cbn [copy_to]; xkeeps; try apply IH. Qed.
Lemma pages_copy_from a n : kept (copy_from a n).
Proof. apply xkeeps_map. intros. apply pages_get. Qed.
#[local] Hint Resolve pages_seek pages_seek_end pages_file_read pages_file_write pages_copy_to pages_copy_from : xkeeps.

Lemma pages_read_file d o a z n : kept (read_file d o a z n).
Proof.
  assert (∀ k a, kept (read_sectors k a z)) as H; [|by unfold read_file; xkeeps; try apply H].
  induction k as [|k IH]; intros b; cbn [read_sectors]; xkeeps; try apply IH.
Qed.
Lemma pages_write_file d o a z n : kept (write_file d o a z n).
Proof.
  assert (∀ k a, kept (write_sectors k a z)) as H; [|by unfold write_file; xkeeps; try apply H].
  induction k as [|k IH]; intros b; cbn [write_sectors]; xkeeps; try apply IH.
Qed.
Lemma pages_insert : kept insert_floppy.
Proof.
  unfold insert_floppy, remove_floppy, set_floppy_geometry, boot_geometry, default_geometry, file_mod. xkeeps.
Qed.
#[local] Hint Resolve pages_read_file pages_write_file pages_insert : xkeeps.

Lemma pages_exec : kept fdc_exec_command.
Proof.
  unfold fdc_exec_command, getFloppyStat, status_or, move_head, add_head, add_track, transfer, sector_offset, read_command,
    write_command, transfer_done, status_or. xkeeps.
Qed.
#[local] Hint Resolve pages_exec : xkeeps.

Lemma pages_dma_data : kept getDMAData.
Proof. unfold getDMAData, ncr_ReadData, ncr_mod. xkeeps. Qed.
Lemma pages_sector_count v : kept (setDMASectorCount v).
Proof. unfold setDMASectorCount, ncr_WriteData, ncr_mod. xkeeps. Qed.
#[local] Hint Resolve pages_dma_data pages_sector_count : xkeeps.

Lemma pages_fdc_read o z a : kept (fdc_handleRead o z a).
Proof. unfold fdc_handleRead, getDMAStatus. xkeeps. Qed.
Lemma pages_fdc_write o z a v : kept (fdc_handleWrite o z a v).
Proof. unfold fdc_handleWrite, setDMAMode. xkeeps. Qed.
Lemma pages_fdc_readW o z a : kept (fdc_handleReadW o z a).
Proof. unfold fdc_handleReadW, base_handleReadW, getDMAStatus. xkeeps; apply pages_fdc_read. Qed.
Lemma pages_fdc_writeW o z a v : kept (fdc_handleWriteW o z a v).
Proof. unfold fdc_handleWriteW, base_handleWriteW, setDMAMode. xkeeps; apply pages_fdc_write. Qed.
End Disk.

Section SoundPages.
Context {cfg : Config} {sdl : SDLAudio} (now r w : Z).
Abbreviation kept := (xkeeps (same_pages r w)).

Lemma pages_aget {A} (f : AUDIODMA → A) : kept (aget_dma f).
Proof. apply xkeeps_get. Qed.
Lemma pages_amod f : kept (amod_dma f).
Proof. by apply xkeeps_mod. Qed.
Lemma pages_mode : kept updateMode.
Proof. unfold updateMode, set_conv. xkeeps; by apply xkeeps_mod || apply pages_aget. Qed.
#[local] Hint Resolve pages_aget pages_amod pages_mode : xkeeps.

Lemma pages_dma_read o a : kept (audiodma_handleRead now o a).
Proof. unfold audiodma_handleRead, playback_register, updateCurrent. xkeeps. Qed.
Lemma pages_dma_write o a v : kept (audiodma_handleWrite now o a v).
Proof. unfold audiodma_handleWrite, updateControl. xkeeps. Qed.
Lemma pages_crossbar_read o a : kept (crossbar_handleRead o a).
Proof. apply xkeeps_get. Qed.
Lemma pages_crossbar_write o a v : kept (crossbar_handleWrite o a v).
Proof. unfold crossbar_handleWrite. xkeeps. by apply xkeeps_mod. Qed.
End SoundPages.

Lemma pages_aradata {cfg : Config} o a v r w : xkeeps (same_pages r w) (aradata_handleWrite o a v).
Proof. unfold aradata_handleWrite, amod. xkeeps; by apply xkeeps_mod. Qed.

Lemma pages_videl {cfg : Config} o m a v r w : xkeeps (same_pages r w) (videl_handleWrite o m a v).
Proof.
  unfold videl_handleWrite, forceRefresh, updateAspect, twice, vmod, vget, readW, base_handleReadW, base_handleRead, base_handleWrite.
  xkeeps; by apply xkeeps_mod.
Qed.

Section System.
Context {cfg : Config} {P Q O : Type} {port : SerialPort P} {par : Parallel Q} {floppy : FloppyHost} {sdl : SDLAudio}.
Abbreviation D := (devices P Q O).
Abbreviation M := (X (machine D)).

(** ** The state a device works on *)

Definition with_dev (f : D → D) (s : machine D) : machine D := set_dev (f s.(dev)) s.

Definition get_mfp (s : machine D) : MFP := upd_cpu_flags s.(spcflags) s.(dev).(dev_mfp).
Definition put_mfp (x : MFP) (s : machine D) : machine D := set_spcflags x.(cpu_flags) (with_dev (put_dev_mfp x) s).

Definition get_keyboard (s : machine D) : keyboard := Keyboard s.(dev).(dev_ikbd) (get_mfp s).
Definition put_keyboard (k : keyboard) (s : machine D) : machine D := with_dev (put_dev_ikbd k.(kbd)) (put_mfp k.(wired) s).

Definition get_scc (s : machine D) : SCC P := upd_scc_flags s.(spcflags) s.(dev).(dev_scc).
Definition put_scc (x : SCC P) (s : machine D) : machine D := set_spcflags x.(scc_flags) (with_dev (put_dev_scc x) s).

Definition on_mfp {A} : X MFP A → M A := xzoom get_mfp put_mfp.
Definition on_keyboard {A} : X keyboard A → M A := xzoom get_keyboard put_keyboard.
Definition on_scc {A} : X (SCC P) A → M A := xzoom get_scc put_scc.

(** A device with a state of its own. *)
Definition on_field {T A} (get : D → T) (put : T → D → D) : X T A → M A := xzoom (λ s, get s.(dev)) (λ t, with_dev (put t)).
Definition on_rtc {A} : X RTC A → M A := on_field dev_rtc put_dev_rtc.
Definition on_midi {A} : X MIDI A → M A := on_field dev_midi put_dev_midi.
Definition on_joypads {A} : X JOYPADS A → M A := on_field dev_joypads put_dev_joypads.

(** The sound chip with the parallel port and the DSP, which is among the others. *)
Definition on_yamaha {A} : X (yamaha_devices Q O) A → M A :=
  on_field (λ d, YamahaDevices d.(dev_yamaha) d.(dev_par) d.(dev_others))
    (λ y d, put_dev_yamaha y.(ym) (put_dev_par y.(Yamaha.par) (put_dev_others y.(ym_dsp) d))).

(** A device that works on the machine, too: the video chip, whose registers are in memory; the disk controller and the sound DMA,
    which copy from and to memory and interrupt; the emulator's own registers. *)
Definition view {T} (get : D → T) (s : machine D) : machine T :=
  Machine s.(regs) s.(mem) s.(atc_l1) s.(atc_l2) s.(current_atc) s.(read_page) s.(write_page) s.(spcflags) (get s.(dev)).
Definition put_view {T} (put : T → D → D) (t : machine T) (s : machine D) : machine D :=
  Machine t.(regs) t.(mem) t.(atc_l1) t.(atc_l2) t.(current_atc) t.(read_page) t.(write_page) t.(spcflags) (put t.(dev) s.(dev)).
Definition on_view {T A} (get : D → T) (put : T → D → D) : X (machine T) A → M A := xzoom (view get) (put_view put).

Definition on_videl {A} : X (machine VIDEL) A → M A := on_view dev_videl put_dev_videl.
Definition on_aradata {A} : X (machine ARADATA) A → M A := on_view dev_aradata put_dev_aradata.
Definition get_disk (d : D) : disk_devices := Disk d.(dev_fdc) d.(dev_ncr) d.(dev_yamaha) d.(dev_mfp) d.(dev_file).
Definition put_disk (k : disk_devices) (d : D) : D :=
  put_dev_fdc k.(dk_fdc) (put_dev_ncr k.(dk_ncr) (put_dev_yamaha k.(dk_yamaha) (put_dev_mfp k.(dk_mfp) (put_dev_file k.(dk_file) d)))).
Definition on_disk_controller {A} : X (machine disk_devices) A → M A := on_view get_disk put_disk.
Definition on_sound {A} : X (machine sound_devices) A → M A :=
  on_view (λ d, SoundDevices d.(dev_dma) d.(dev_crossbar) d.(dev_conv) d.(dev_mfp) d.(dev_out))
    (λ k d, put_dev_dma k.(sd_dma) (put_dev_crossbar k.(sd_crossbar) (put_dev_conv k.(sd_conv) (put_dev_mfp k.(sd_mfp) (put_dev_out k.(sd_out) d))))).

(** ** The memory control register *)

Definition put_memctl (v : Z) : M unit := xmod (with_dev (put_dev_memctl v)).

Definition memctl_handleRead (off monitor addr : Z) : M Z :=
  match addr -u off with
  | 1 => xget (λ s, s.(dev).(dev_memctl))
  | 6 => xret (if monitor =? 1 then 0xe6 else 0xa6)
  | 7 => xret 0x61
  | _ => xret 0
  end.

Definition memctl_handleWrite (off addr value : Z) : M unit :=
  match addr -u off with
  | 1 => put_memctl value
  | _ => xret tt
  end.

(** ** The table *)

(** What the devices see of the host: its time and its milliseconds, the options [video.monitor] and [parallel.enabled], the parallel
    port's busy line, the options of the clock; and what is not modelled here: the reset of the DSP, and the objects of the other
    devices (IDE, DSP and blitter). *)
Record surroundings := Surroundings {
  now : tm;
  ticks : Z;
  monitor : Z;
  parallel_on : bool;
  busy : option Z;
  options : rtc_options;
  dsp_reset : X O unit;
  other : hw_item → BASE_IO D;
}.
Context (env : surroundings).

(** An object of another class, at the range [HWInit] gives it. *)
Definition placed (i : hw_item) (b : BASE_IO D) : BASE_IO D :=
  BaseIO (hw_mine i) (reset b) (handleRead b) (handleReadW b) (handleReadL b) (handleWrite b) (handleWriteW b)
    (handleWriteL b).

Definition hw_device (i : hw_item) : BASE_IO D :=
  let '(off, size) := hw_range i in
  match i with
  | iMFP => byte_device off size (on_mfp mfp_reset) (λ a, on_mfp (mfp_handleRead off size env.(busy) a))
              (λ a v, on_mfp (mfp_handleWrite off size a v))
  | iMMU => byte_device off size (put_memctl 0) (memctl_handleRead off env.(monitor)) (memctl_handleWrite off)
  | iIKBD => byte_device off size (on_keyboard ikbd_reset) (λ a, on_keyboard (ikbd_handleRead off a))
              (λ a v, on_keyboard (ikbd_handleWrite off env.(now) a v))
  | iRTC => byte_device off size (on_rtc (rtc_reset env.(options))) (λ a, on_rtc (rtc_handleRead off size env.(now) a))
              (λ a v, on_rtc (rtc_handleWrite off size env.(now) a v))
  | iSCC => byte_device off size (on_scc scc_reset) (λ a, on_scc (scc_handleRead off a))
              (λ a v, on_scc (scc_handleWrite off a v))
  | iVIDEL =>
      let write a v := on_videl (videl_handleWrite off env.(monitor) a v) in
      let b := byte_device off size (on_videl videl_reset) base_handleRead write in
      BaseIO (videl_isMyHWRegister off size) (reset b) (handleRead b) (handleReadW b) (handleReadL b) (handleWrite b)
        (handleWriteW b) (handleWriteL b)
  | iMIDI => byte_device off size (on_midi midi_reset) (λ a, on_midi (midi_handleRead off a)) (λ a v, on_midi (midi_handleWrite off a v))
  | iJOYPADS => byte_device off size (on_joypads joypads_reset) (λ a, on_joypads (joypads_handleRead off a))
              (λ a v, on_joypads (joypads_handleWrite off a v))
  | iARADATA => byte_device off size (on_aradata aradata_reset) (λ a, on_aradata (aradata_handleRead off a))
              (λ a v, on_aradata (aradata_handleWrite off a v))
  | iYAMAHA => byte_device off size (on_yamaha yamaha_reset) (λ a, on_yamaha (yamaha_handleRead env.(parallel_on) off a))
              (λ a v, on_yamaha (yamaha_handleWrite env.(parallel_on) env.(dsp_reset) off a v))
  | iAUDIODMA => byte_device off size (on_sound (audiodma_reset env.(ticks))) (λ a, on_sound (audiodma_handleRead env.(ticks) off a))
              (λ a v, on_sound (audiodma_handleWrite env.(ticks) off a v))
  | iCROSSBAR => byte_device off size (on_sound crossbar_reset) (λ a, on_sound (crossbar_handleRead off a))
              (λ a v, on_sound (crossbar_handleWrite off a v))
  | iFDC =>
      let read a := on_disk_controller (fdc_handleRead off size a) in
      let readW a := on_disk_controller (fdc_handleReadW off size a) in
      let write a v := on_disk_controller (fdc_handleWrite off size a v) in
      let writeW a v := on_disk_controller (fdc_handleWriteW off size a v) in
      BaseIO (base_isMyHWRegister off size) (on_disk_controller fdc_reset) read readW (base_handleReadL readW) write writeW
        (base_handleWriteL writeW)
  | iCARTRIDGE => byte_device off size (xret tt) base_handleRead base_handleWrite
  | _ => placed i (env.(other) i)
  end.

#[global] Instance HWInit : Hardware D := hw_device <$> hw_items.

(** ** Routing *)

(** The address ranges of a device. *)
Definition hw_spans (i : hw_item) : list (Z * Z) :=
  let '(off, size) := hw_range i in
  (off, off + size) :: match i with iVIDEL => [(0xff9800, 0xff9c00)] | _ => [] end.

Lemma hw_mine_spans i a : hw_mine i a = true → ∃ lo hi, (lo, hi) ∈ hw_spans i ∧ lo <= a < hi.
Proof.
  intros H. unfold hw_mine, videl_isMyHWRegister, base_isMyHWRegister in H.
  assert (∃ lo hi, (lo, hi) ∈ hw_spans i ∧ (lo <=? a) && (a <? hi) = true) as (lo & hi & Hin & Hb).
  { destruct i; cbn [hw_range] in H; try (by eexists _, _; split; [by left|exact H]).
    destruct ((0xff9800 <=? a) && _) eqn:E; [by eexists _, _; split; [right; by left|exact E]|].
    by eexists _, _; split; [by left|exact H]. }
  exists lo, hi. split; [done|]. rewrite andb_true_iff, Z.leb_le, Z.ltb_lt in Hb. done.
Qed.

(** No two devices overlap, and all are in the hardware space. *)
Definition apart (r1 r2 : Z * Z) : bool := (r1.2 <=? r2.1) || (r2.2 <=? r1.1).
Definition spans_apart : bool :=
  forallb (λ i, forallb (λ j, bool_decide (i = j) ||
    forallb (λ r1, forallb (apart r1) (hw_spans j)) (hw_spans i)) hw_items) hw_items.
Definition spans_inside : bool :=
  forallb (λ i, forallb (λ r, (0xf00000 <=? r.1) && (r.2 <=? 0x1000000)) (hw_spans i)) hw_items.

Lemma hw_items_all i : In i hw_items.
Proof. destruct i; cbn; tauto. Qed.

Lemma forallb_elem {A} (f : A → bool) l x : forallb f l = true → x ∈ l → f x = true.
Proof. intros Hf Hx. eapply forallb_forall; [exact Hf|by apply list_elem_of_In]. Qed.

Lemma hw_mine_unique i j a : hw_mine i a = true → hw_mine j a = true → i = j.
Proof.
  intros (l1 & h1 & H1 & Ha1)%hw_mine_spans (l2 & h2 & H2 & Ha2)%hw_mine_spans.
  assert (spans_apart = true) as H by (by vm_compute). unfold spans_apart in H.
  eapply forallb_forall in H; [|apply (hw_items_all i)]. eapply forallb_forall in H; [|apply (hw_items_all j)].
  apply orb_true_iff in H as [H|H]; [by apply bool_decide_eq_true in H|]. exfalso.
  eapply forallb_elem in H; [|exact H1]. eapply forallb_elem in H; [|exact H2].
  unfold apart in H. rewrite orb_true_iff, !Z.leb_le in H. cbn in H. lia.
Qed.

Lemma hw_mine_inside i a : hw_mine i a = true → 0xf00000 <= a < 0x1000000.
Proof.
  intros (l & h & H & Ha)%hw_mine_spans. assert (spans_inside = true) as Hs by (by vm_compute). unfold spans_inside in Hs.
  eapply forallb_forall in Hs; [|apply (hw_items_all i)]. eapply forallb_elem in Hs; [|exact H].
  rewrite andb_true_iff, !Z.leb_le in Hs. cbn in Hs. lia.
Qed.

Lemma hw_device_mine i : isMyHWRegister (hw_device i) = hw_mine i.
Proof. by destruct i. Qed.

Lemma getModule_eq a : getModule a = hw_device <$> find (λ i, hw_mine i a) hw_items.
Proof.
  unfold getModule, arhw, HWInit. induction hw_items as [|i l IH]; [done|]. cbn [fmap list_fmap find].
  rewrite hw_device_mine. by destruct (hw_mine i a).
Qed.

Lemma getModule_owner i a : hw_mine i a = true → getModule a = Some (hw_device i).
Proof.
  intros H. rewrite getModule_eq. destruct (find _ hw_items) as [j|] eqn:E.
  - apply find_some in E as [_ Hj]. by rewrite (hw_mine_unique i j a).
  - by rewrite (find_none _ _ E i (hw_items_all i)) in H.
Qed.

Lemma getModule_none a : (∀ i, hw_mine i a = false) → getModule a = None.
Proof.
  intros H. rewrite getModule_eq. destruct (find _ hw_items) as [j|] eqn:E; [|done].
  apply find_some in E as [_ Hj]. by rewrite H in Hj.
Qed.

(** *** The page shortcut never covers the hardware *)

Definition page_plain (p : Z) : Prop := 0 <= p < 0xff000000 ∧ in_hw_space p = false.
Definition pages_ok (s : machine D) : Prop := page_plain s.(read_page) ∧ page_plain s.(write_page).

(** An address of the hardware space or its mirror. *)
Definition hw_address (top a : Z) : Prop := 0xf00000 <= a < 0x1000000 ∧ (top = a ∨ top = 0xff000000 + a).

Lemma hw_address_mirror top a : hw_address top a → hw_mirror top = a ∧ in_hw_space a = true.
Proof.
  intros [Ha Ht]. split.
  - unfold hw_mirror. destruct Ht as [->| ->]; [by rewrite (proj2 (Z.ltb_lt a 0xff000000)) by lia|].
    rewrite (proj2 (Z.ltb_ge _ _)) by lia. rewrite (Z.land_ones _ 24) by lia.
    change (2 ^ 24) with 0x1000000. replace (0xff000000 + a) with (a + 255 * 0x1000000) by lia.
    by rewrite Z.mod_add, Z.mod_small by lia.
  - rewrite in_hw_space_spec by lia. apply Z.eqb_eq. symmetry. apply (Z.div_unique _ _ _ (a - 15 * 1048576)); lia.
Qed.

Lemma page_misses top a p : hw_address top a → page_plain p → ((top .^ p) <=? 0x7ff) = false.
Proof.
  intros [Ha Ht] [Hp Hh]. apply Z.leb_gt. destruct (Z.lt_ge_cases 0x7ff (top .^ p)) as [|Hle]; [done|]. exfalso.
  assert (0 <= top .^ p) by (apply Z.lxor_nonneg; split; lia).
  assert (∀ i, 11 <= i → Z.testbit top i = Z.testbit p i) as Hbits.
  { intros i Hi. pose proof (range_bits (top .^ p) 11 i ltac:(lia) Hi) as Hx. rewrite Z.lxor_spec in Hx.
    by destruct (Z.testbit top i), (Z.testbit p i). }
  assert (top / 2 ^ 11 = p / 2 ^ 11) as E by (by apply div_pow2_bits).
  rewrite in_hw_space_spec in Hh by lia. apply Z.eqb_neq in Hh. change (2 ^ 11) with 2048 in E.
  destruct Ht as [->| ->]; Z.to_euclidean_division_equations; lia.
Qed.

(** Accesses keep the shortcut away from the hardware. *)
Lemma page_plain_set addr : 0 <= addr → in_hw_space (hw_mirror addr) = false → page_plain (hw_mirror addr).
Proof.
  intros Ha Hh. split; [|done]. unfold hw_mirror. destruct (Z.ltb_spec addr 0xff000000); [lia|].
  pose proof (land_range_r addr 0x00ffffff 24 ltac:(lia) ltac:(lia)). lia.
Qed.

Lemma check_keeps_pages addr size write : xkeeps pages_ok (check_ram_boundary addr size write).
Proof.
  unfold check_ram_boundary, mod_regs, throw. by xkeeps; try apply xkeeps_mod.
Qed.

Lemma ram_get_pages n hwget addr : 0 <= addr → in_hw_space (hw_mirror addr) = false →
  xkeeps pages_ok (phys_get n hwget addr).
Proof.
  intros Ha Hh. unfold phys_get, do_get_mem. cbv zeta. rewrite Hh. xkeeps; try apply check_keeps_pages.
  apply xkeeps_mod. intros s [_ Hw]. split; [by apply page_plain_set|done].
Qed.

Lemma ram_put_pages n hwput addr v : 0 <= addr → in_hw_space (hw_mirror addr) = false →
  xkeeps pages_ok (phys_put n hwput addr v).
Proof.
  intros Ha Hh. unfold phys_put, do_put_mem. cbv zeta. rewrite Hh. xkeeps; try apply check_keeps_pages; try (by apply xkeeps_mod).
  apply xkeeps_mod. intros s [Hr _]. split; [done|by apply page_plain_set].
Qed.

Lemma phys_get_hw n hwget top a s : hw_address top a → pages_ok s → phys_get n hwget top s = hwget a s.
Proof.
  intros Ht [Hr _]. destruct (hw_address_mirror top a Ht) as [Em Eh]. unfold phys_get. erewrite xbind_ret by done. cbv zeta.
  by rewrite (page_misses top a), andb_false_r, Em, Eh.
Qed.

Lemma phys_put_hw n hwput top a v s : hw_address top a → pages_ok s → phys_put n hwput top v s = hwput a v s.
Proof.
  intros Ht [_ Hw]. destruct (hw_address_mirror top a Ht) as [Em Eh]. unfold phys_put. erewrite xbind_ret by done. cbv zeta.
  by rewrite (page_misses top a), andb_false_r, Em, Eh.
Qed.

(** *** The shortcut stays valid *)

Lemma view_pages {T A} (get : D → T) put (m : X (machine T) A) : (∀ r w, xkeeps (same_pages r w) m) → xkeeps pages_ok (on_view get put m).
Proof.
  intros H s [Hr Hw]. unfold on_view, xzoom. specialize (H _ _ (view get s) (conj eq_refl eq_refl)). unfold pages_ok, put_view.
  destruct (m (view get s)) as [[] t]; [|..|done]; destruct H as [-> ->]; done.
Qed.

(** The accesses of a device leave the shortcut valid. *)
Record keeps_pages (b : BASE_IO D) : Prop := {
  kp_read a : xkeeps pages_ok (handleRead b a);
  kp_readW a : xkeeps pages_ok (handleReadW b a);
  kp_readL a : xkeeps pages_ok (handleReadL b a);
  kp_write a v : xkeeps pages_ok (handleWrite b a v);
  kp_writeW a v : xkeeps pages_ok (handleWriteW b a v);
  kp_writeL a v : xkeeps pages_ok (handleWriteL b a v);
}.

Lemma wide_pages p q rst read readW write writeW : (∀ a, xkeeps pages_ok (read a)) → (∀ a, xkeeps pages_ok (readW a)) →
  (∀ a v, xkeeps pages_ok (write a v)) → (∀ a v, xkeeps pages_ok (writeW a v)) →
  keeps_pages (BaseIO (base_isMyHWRegister p q) rst read readW (base_handleReadL readW) write writeW (base_handleWriteL writeW)).
Proof. intros H1 H2 H3 H4. split; cbn; [done|done| |done|done|]; intros; unfold base_handleReadL, base_handleWriteL; by xkeeps. Qed.
Lemma byte_pages p q rst read write : (∀ a, xkeeps pages_ok (read a)) → (∀ a v, xkeeps pages_ok (write a v)) →
  keeps_pages (byte_device p q rst read write).
Proof. intros H1 H2. apply wide_pages; [done| |done|]; intros; unfold base_handleReadW, base_handleWriteW; by xkeeps. Qed.
Lemma zoom_pages {T A} get (put : T → machine D → machine D) (m : X T A) :
  (∀ t s, (put t s).(read_page) = s.(read_page) ∧ (put t s).(write_page) = s.(write_page)) → xkeeps pages_ok (xzoom get put m).
Proof. intros H. apply xkeeps_zoom. intros t s [Hr Hw]. destruct (H t s) as [E1 E2]. split; by rewrite ?E1, ?E2. Qed.
Lemma memory_pages n a v : xkeeps pages_ok (do_get_mem n a) ∧ xkeeps pages_ok (do_put_mem n a v).
Proof. split; [unfold do_get_mem|unfold do_put_mem]; xkeeps. by apply xkeeps_mod. Qed.

Lemma hw_device_pages i : (∀ j, keeps_pages (env.(other) j)) → keeps_pages (hw_device i).
Proof.
  intros Ho. assert (∀ j, keeps_pages (placed j (env.(other) j))) as Hp by (intros j; destruct (Ho j); by split).
  destruct i; cbn [hw_device hw_range]; try apply Hp; try (apply byte_pages; intros; by apply zoom_pages).
  - apply byte_pages; intros; [unfold memctl_handleRead|unfold memctl_handleWrite, put_memctl]; xkeeps; by apply xkeeps_mod.
  - apply wide_pages; intros; apply view_pages; intros; [apply pages_fdc_read|apply pages_fdc_readW|apply pages_fdc_write|apply pages_fdc_writeW].
  - assert (keeps_pages (byte_device 0xff8200 0xc4 (xret tt) base_handleRead (λ a v, on_videl (videl_handleWrite 0xff8200 env.(monitor) a v)))) as [].
    { apply byte_pages; intros; [apply (memory_pages 1 a 0)|apply view_pages; intros; apply pages_videl]. }
    by split.
  - apply byte_pages; intros; apply view_pages; intros; [apply xkeeps_ret|apply pages_aradata].
  - apply byte_pages; intros; apply view_pages; intros; [apply pages_dma_read|apply pages_dma_write].
  - apply byte_pages; intros; apply view_pages; intros; [apply pages_crossbar_read|apply pages_crossbar_write].
  - apply byte_pages; intros; [apply (memory_pages 1 a 0)|apply (memory_pages 1 a v)].
Qed.

(** The accesses of the processor. *)
Inductive bus_access :=
  | Get8 (a : Z) | Get16 (a : Z) | Get32 (a : Z) | Get64 (a : Z)
  | Put8 (a v : Z) | Put16 (a v : Z) | Put32 (a v : Z) | Put64 (a v : Z).
Definition bus_address (x : bus_access) : Z :=
  match x with Get8 a | Get16 a | Get32 a | Get64 a | Put8 a _ | Put16 a _ | Put32 a _ | Put64 a _ => a end.
Definition do_bus (x : bus_access) : M unit :=
  match x with
  | Get8 a => phys_get_byte a ;; xret tt
  | Get16 a => phys_get_word a ;; xret tt
  | Get32 a => phys_get_long a ;; xret tt
  | Get64 a => phys_get_quad a ;; xret tt
  | Put8 a v => phys_put_byte a v
  | Put16 a v => phys_put_word a v
  | Put32 a v => phys_put_long a v
  | Put64 a v => phys_put_quad a v
  end.

(** What happens to the machine: an access, which may end with a bus error, or anything that does not touch the shortcut. *)
Inductive bus_step (s s' : machine D) : Prop :=
  | step_access x : 0 <= bus_address x → do_bus x s = (Ret tt, s') → bus_step s s'
  | step_error x n : 0 <= bus_address x → do_bus x s = (Throw n, s') → bus_step s s'
  | step_other : same_pages s.(read_page) s.(write_page) s' → bus_step s s'.

Section Kept.
Context (Ho : ∀ j, keeps_pages (env.(other) j)).

Lemma owner_pages a b : getModule a = Some b → keeps_pages b.
Proof using Ho.
  rewrite getModule_eq. intros H. apply fmap_Some in H as (i & _ & ->). by apply hw_device_pages.
Qed.
Lemma bus_error_pages {A} a : xkeeps pages_ok (BUS_ERROR (A := A) a).
Proof. unfold BUS_ERROR, mod_regs, throw. by xkeeps; try apply xkeeps_mod. Qed.

Lemma phys_get_pages n hwget a : (∀ b, xkeeps pages_ok (hwget b)) → 0 <= a → xkeeps pages_ok (phys_get n hwget a).
Proof.
  intros H Ha. destruct (in_hw_space (hw_mirror a)) eqn:E; [|by apply ram_get_pages].
  unfold phys_get. cbv zeta. rewrite E. xkeeps; try done. apply (memory_pages n a 0).
Qed.
Lemma phys_put_pages n hwput a v : (∀ b u, xkeeps pages_ok (hwput b u)) → 0 <= a → xkeeps pages_ok (phys_put n hwput a v).
Proof.
  intros H Ha. destruct (in_hw_space (hw_mirror a)) eqn:E; [|by apply ram_put_pages].
  unfold phys_put. cbv zeta. rewrite E. xkeeps; try done. apply (memory_pages n a v).
Qed.

Lemma HW_pages a v : xkeeps pages_ok (HWget_b a) ∧ xkeeps pages_ok (HWget_w a) ∧ xkeeps pages_ok (HWget_l a) ∧
  xkeeps pages_ok (HWput_b a v) ∧ xkeeps pages_ok (HWput_w a v) ∧ xkeeps pages_ok (HWput_l a v).
Proof using Ho.
  unfold HWget_b, HWget_w, HWget_l, HWput_b, HWput_w, HWput_l. destruct (getModule a) as [b|] eqn:E.
  - destruct (owner_pages a b E). by split_and!.
  - split_and!; apply bus_error_pages.
Qed.

Lemma do_bus_pages x : 0 <= bus_address x → xkeeps pages_ok (do_bus x).
Proof using Ho.
  intros Ha. destruct x; cbn [do_bus bus_address] in *; repeat (apply xkeeps_bind; [|intros; apply xkeeps_ret]);
    (apply phys_get_pages || apply phys_put_pages); try done; intros; (apply (HW_pages _ 0) || apply HW_pages).
Qed.

Lemma bus_pages_ok s s' : rtc bus_step s s' → pages_ok s → pages_ok s'.
Proof using Ho.
  induction 1 as [s|s s1 s2 Hstep _ IH]; [done|]. intros Hs. apply IH. destruct Hstep as [x Ha E|x n Ha E|[E1 E2]]; [..|by unfold pages_ok; rewrite E1, E2].
  - pose proof (do_bus_pages x Ha s Hs) as H. by rewrite E in H.
  - pose proof (do_bus_pages x Ha s Hs) as H. by rewrite E in H.
Qed.
End Kept.

(** The shortcut covers no page when the machine starts and after a flush. *)
Definition no_page (s : machine D) : Prop := s.(read_page) = 0xeeeeeeee ∧ s.(write_page) = 0xeeeeeeee.
Lemma no_page_ok s : no_page s → pages_ok s.
Proof. intros [E1 E2]. unfold pages_ok. by rewrite E1, E2. Qed.

(** C39: From the start of the machine on, after any accesses of the processor, with and without bus errors, and whatever happens
    between them that does not touch the shortcut for recently used pages: every byte, word or longword access to an address of a device, in the hardware
    space or in its mirror at the top of memory, calls that device's own handler, although the shortcut is tried first and the devices are
    searched in order.  The devices that are not modelled (IDE, DSP, blitter) are
    assumed to leave the shortcut away from the hardware; of the others this is proved. *)
Theorem hardware_routing i top a v s0 s : (∀ j, keeps_pages (env.(other) j)) → no_page s0 → rtc bus_step s0 s →
  hw_mine i a = true → top = a ∨ top = 0xff000000 + a →
  phys_get_byte top s = handleRead (hw_device i) a s ∧
  phys_get_word top s = handleReadW (hw_device i) a s ∧
  phys_get_long top s = handleReadL (hw_device i) a s ∧
  phys_put_byte top v s = handleWrite (hw_device i) a (u8 v) s ∧
  phys_put_word top v s = handleWriteW (hw_device i) a (u16 v) s ∧
  phys_put_long top v s = handleWriteL (hw_device i) a v s.
Proof.
  intros Ho H0 Hrun Hm Ht. pose proof (bus_pages_ok Ho _ _ Hrun (no_page_ok _ H0)) as Hs.
  assert (hw_address top a) as Ha by (split; [by apply (hw_mine_inside i)|done]).
  unfold phys_get_byte, phys_get_word, phys_get_long, phys_put_byte, phys_put_word, phys_put_long.
  rewrite !(phys_get_hw _ _ top a), !(phys_put_hw _ _ top a) by done.
  unfold HWget_b, HWget_w, HWget_l, HWput_b, HWput_w, HWput_l. by rewrite !(getModule_owner i a).
Qed.

(** An access to the hardware space where there is no device is a bus error: the
    exception of vector 2 with the address in [mmu_fault_addr], and nothing else changed. *)
Theorem unmapped_bus_error top a v s : hw_address top a → (∀ i, hw_mine i a = false) → pages_ok s →
  let failed := set_regs (set_mmu_fault_addr a s.(regs)) s in
  phys_get_byte top s = (Throw 2, failed) ∧ phys_get_word top s = (Throw 2, failed) ∧
  phys_get_long top s = (Throw 2, failed) ∧ phys_put_byte top v s = (Throw 2, failed) ∧
  phys_put_word top v s = (Throw 2, failed) ∧ phys_put_long top v s = (Throw 2, failed).
Proof.
  intros Ha Hm Hs.
  unfold phys_get_byte, phys_get_word, phys_get_long, phys_put_byte, phys_put_word, phys_put_long.
  rewrite !(phys_get_hw _ _ top a), !(phys_put_hw _ _ top a) by done.
  unfold HWget_b, HWget_w, HWget_l, HWput_b, HWput_w, HWput_l. by rewrite !(getModule_none a).
Qed.

(** ** A key on the bus *)

Lemma get_put_keyboard k s : get_keyboard (put_keyboard k s) = k.
Proof. by destruct k as [k []]. Qed.

(** A key pressed on the host while the queue is empty raises the processor's own
    interrupt flag (the one its poll looks at), if nothing more urgent is in service, and
    the guest reads the scan code at the keyboard's address on the bus or its mirror. *)
Theorem key_over_bus c top s : kbd_ok (get_keyboard s) → is_byte c → pages_ok s →
  queue s.(dev).(dev_ikbd) = [] → interrupting (get_keyboard s) →
  Z.testbit (get_mfp s).(irq_mask) 6 = true → (get_mfp s).(irq_inservice) < 2 ^ 6 →
  top = 0xfffc02 ∨ top = 0xfffffc02 →
  ∃ s1 s2, on_keyboard (SendKey c) s = (Ret tt, s1) ∧ Z.testbit s1.(spcflags) 9 = true ∧
    phys_get_byte top s1 = (Ret c, s2) ∧ queue s2.(dev).(dev_ikbd) = [].
Proof.
  intros Hk Hc Hp Hq Hi Hm Hs Htop.
  set (k0 := Keyboard (to_intype IKBD_PACKET_KEYBOARD s.(dev).(dev_ikbd)) (get_mfp s)).
  assert (kbd_ok k0) as H0 by (destruct Hk as [[] ?]; split; [by split|done]).
  destruct (send_effect c k0 H0) as (v & y & E1 & Hy & (_ & Fim & _ & Fis & _) & _ & Hint).
  destruct (Hint Hi) as [_ Hpend]. clear Hint.
  set (k1 := Keyboard (to_sr v (pushed c (kbd k0))) y) in *.
  assert (kbd_ok k1) as Hk1 by (split; [apply to_sr_ok, pushed_ok; [done|apply H0]|done]).
  assert (queue k1.(kbd) = [c]) as Q1.
  { change (queue (kbd k1)) with (queue (pushed c (kbd k0))). rewrite queue_pushed by apply H0.
    change (queue (kbd k0)) with (queue s.(dev).(dev_ikbd)). by rewrite Hq. }
  assert ((inread k1.(kbd) =? inwrite k1.(kbd)) = false) as Ene.
  { apply not_true_iff_false. rewrite queue_nil, Q1 by apply Hk1. done. }
  pose proof (queue_popped k1.(kbd) (proj1 Hk1) Ene) as Q2. rewrite Q1 in Q2. injection Q2 as Ec Q2.
  destruct (ReadData_effect k1 Hk1 Ene) as (v' & x & E2 & _).
  exists (put_keyboard k1 s), (put_keyboard (Keyboard (to_sr v' (popped (kbd k1))) x) (put_keyboard k1 s)).
  split; [|split; [|split; [|symmetry; exact Q2]]].
  - unfold on_keyboard, xzoom. assert (SendKey c (get_keyboard s) = (Ret tt, k1)) as -> by exact E1. done.
  - change (spcflags (put_keyboard k1 s)) with y.(cpu_flags). apply (ok_signalled y Hy 6); [lia| | |by rewrite Fis].
    + by rewrite Hpend, orb_true_r by lia.
    + by rewrite Fim.
  - unfold phys_get_byte. rewrite (phys_get_hw _ _ top 0xfffc02) by (done || (split; lia)).
    unfold HWget_b. rewrite (getModule_owner iIKBD) by done. cbn [hw_device hw_range byte_device handleRead].
    unfold on_keyboard, xzoom. rewrite get_put_keyboard.
    change (ikbd_handleRead 0xfffc00 0xfffc02) with ikbd_ReadData. by rewrite E2, Ec.
Qed.
End System.
