(* ===== verification/SystemIrq.v ===== *)
(** * SystemIrq: interrupts of the whole system

    The processor of [M68k] over the devices of [System]: [MFPdoInterrupt] and [SCCdoInterrupt] of
    [src/uae_cpu/aranym_glue.cpp] reach the chips behind the bus, and so implement the interface [Acks]
    the processor's interrupt handling is verified against ([system_acks]).

    [ckept_serve]: the table walks and frames of the interrupts leave the page shortcut away from the hardware.
    [key_reaches_handler] puts the parts together, from a key of the host to the handler of the guest. *)

From S2P Require Import Prelude Throws Machine Mmu Mfp MfpSpec Rtc Ikbd IkbdSpec Videl Scc Yamaha Fdc Sound M68k M68kStack M68kFrame M68kExc M68kIrq System.
From stdpp Require Import base gmap list numbers.
Open Scope Z_scope.
Open Scope c_scope.
Open Scope x_scope.

Section SystemIrq.
Context {cfg : Config} {P Q O : Type} {port : SerialPort P} {par : Parallel Q} {floppy : FloppyHost} {sdl : SDLAudio}.
Abbreviation D := (devices P Q O).

(** ** The acknowledge *)

Definition MFPdoInterrupt : X (m68k D) Z := on_mach (on_mfp doInterrupt).
Definition SCCdoInterrupt : X (m68k D) Z := on_mach (on_scc scc_doInterrupt).

(** The vector the MFP names: of its most urgent request, unless one as urgent is in service. *)
Definition mfp_vector (x : MFP) : Z :=
  match highest 16 (x.(irq_pending) .& x.(irq_mask)) with
  | Some j => if 2 ^ j <=? x.(irq_inservice) then 0 else (x.(vr) .& 0xF0) + j
  | None => 0
  end.

(** The counter of missed ticks is not at the end of its range. *)
Definition ticks_ok (x : MFP) : Prop := - 2 ^ 31 < x.(timerCounter) < 2 ^ 31.

Lemma set_flag_other b x i : i ≠ 9 → Z.testbit (set_flag b x).(cpu_flags) i = Z.testbit x.(cpu_flags) i.
Proof.
  intros Hi. destruct (Z.lt_ge_cases i 0); [by rewrite !Z.testbit_neg_r|].
  unfold set_flag. destruct b; cbn [cpu_flags upd_cpu_flags]; change 0x200 with (2 ^ 9);
    rewrite ?Z.lor_spec, ?Z.ldiff_spec, Z.pow2_bits_eqb, (proj2 (Z.eqb_neq 9 i)) by lia; [apply orb_false_r|apply andb_true_r].
Qed.

Lemma taken_other over j x i : i ≠ 9 → Z.testbit (MfpSpec.taken over j x).(cpu_flags) i = Z.testbit x.(cpu_flags) i.
Proof.
  intros Hi. unfold MfpSpec.taken. set (y := if over then _ else x).
  assert (Z.testbit y.(cpu_flags) i = Z.testbit x.(cpu_flags) i) as E.
  { unfold y. destruct over; [|done]. by rewrite set_flag_other. }
  destruct (tst (vr y) 8); [done|]. destruct (unmasked y); [by rewrite set_flag_other|done].
Qed.

(** The acknowledge always returns; it changes its own flag of the processor only. *)
Lemma doInterrupt_vector x : ticks_ok x → ∃ y, doInterrupt x = (Ret (mfp_vector x), y) ∧
  ∀ i, i ≠ 9 → Z.testbit y.(cpu_flags) i = Z.testbit x.(cpu_flags) i.
Proof.
  intros Ht. unfold mfp_vector. destruct (highest 16 _) as [j|] eqn:E.
  - destruct (Z.leb_spec (2 ^ j) (irq_inservice x)).
    + exists (idle_end x). split; [by apply (doInterrupt_busy x j)|]. intros i Hi. by apply set_flag_other.
    + rewrite (doInterrupt_taken x j) by done. unfold ticks_ok in Ht.
      rewrite (in_range_true (- 2 ^ 31) (2 ^ 31)), orb_true_r by lia.
      eexists. split; [done|]. intros i Hi. rewrite taken_other by done. unfold counted. by destruct (j =? 5).
  - exists (idle_end x). split; [by apply doInterrupt_none|]. intros i Hi. by apply set_flag_other.
Qed.

Definition acks_ok (k : IKBD) (d : D) : Prop := ticks_ok d.(dev_mfp) ∧ d.(dev_ikbd) = k.
Definition acks_end (k : IKBD) (d : D) : Prop := d.(dev_ikbd) = k.

(** The two chips implement the interface, with the keyboard left alone. *)
#[export] Instance system_acks k :
  Acks (acks_ok k) (acks_end k) SCCdoInterrupt MFPdoInterrupt (λ d, scc_vector d.(dev_scc)) (λ d, mfp_vector d.(dev_mfp)).
Proof.
  split.
  - intros c [Ht Hk]. unfold SCCdoInterrupt, on_mach, on_scc, xzoom, scc_doInterrupt, xget.
    eexists _, _. split; [reflexivity|]. by split.
  - intros c [Ht Hk]. unfold MFPdoInterrupt, on_mach, on_mfp, xzoom.
    destruct (doInterrupt_vector (get_mfp c.(mach)) Ht) as (y & -> & Hf).
    eexists _, _. split; [reflexivity|]. by split.
  - by intros d [_ Hk].
Qed.

(** ** A key *)

Context (env : surroundings (P := P) (Q := Q) (O := O)).
#[local] Instance hardware : Hardware D := HWInit env.
Context {win : Z → Prop} {good : machine D → Prop} {cell : machine D → Z → Z} {R : Ram win good cell}.
Implicit Types (c : m68k D) (s : machine D).

Lemma highest_is n z j : 0 <= j < Z.of_nat n → Z.testbit z j = true → (∀ k, j < k < Z.of_nat n → Z.testbit z k = false) →
  highest n z = Some j.
Proof.
  intros Hj Hz Hk. destruct (highest n z) as [i|] eqn:E.
  - destruct (highest_some _ _ _ E) as (Hi & Hi1 & Hi2). f_equal. destruct (Z.lt_trichotomy i j) as [Hlt|[->|Hlt]]; [|done|].
    + by rewrite Hi2 in Hz by lia.
    + by rewrite Hk in Hi1 by lia.
  - by rewrite (highest_none _ _ E j) in Hz by lia.
Qed.

(** What the operating system has set up for the keyboard: the line is enabled, and nothing as urgent is waiting or in service. *)
Record key_ready s : Prop := {
  kr_ok : kbd_ok (get_keyboard s);
  kr_empty : queue s.(dev).(dev_ikbd) = [];
  kr_on : interrupting (get_keyboard s);
  kr_mask : Z.testbit s.(dev).(dev_mfp).(irq_mask) 6 = true;
  kr_urgent j : 6 < j < 16 → Z.testbit (s.(dev).(dev_mfp).(irq_pending) .& s.(dev).(dev_mfp).(irq_mask)) j = false;
  kr_service : s.(dev).(dev_mfp).(irq_inservice) < 2 ^ 6;
  kr_ticks : ticks_ok s.(dev).(dev_mfp);
}.

(** The state after a key: the byte is queued and the MFP has the request. *)
Lemma key_sent code s : key_ready s → is_byte code → ∃ k y,
  let s1 := put_keyboard (Keyboard k y) s in
  on_keyboard (SendKey code) s = (Ret tt, s1) ∧ ikbd_ok k ∧ queue k = [code] ∧ ticks_ok y ∧
  mfp_vector y = (s.(dev).(dev_mfp).(vr) .& 0xF0) + 6 ∧ Z.testbit y.(cpu_flags) 9 = true.
Proof.
  intros [Hk Hq Hi Hm Hu Hs Ht] Hc.
  set (k0 := Keyboard (to_intype IKBD_PACKET_KEYBOARD s.(dev).(dev_ikbd)) (get_mfp s)).
  assert (kbd_ok k0) as H0 by (destruct Hk as [[] ?]; split; [by split|done]).
  destruct (send_effect code k0 H0) as (v & y & E1 & Hy & Hf & _ & Hint).
  destruct (Hint Hi) as [_ Hpend]. clear Hint. destruct Hf as (Fv & Fim & _ & Fis & Frest).
  exists (to_sr v (pushed code (kbd k0))), y. cbv zeta.
  assert (highest 16 (y.(irq_pending) .& y.(irq_mask)) = Some 6) as Hh.
  { apply highest_is; [done| |].
    - rewrite Z.land_spec, Fim, Hpend by lia. change (irq_mask (wired k0)) with (irq_mask (dev_mfp (dev s))).
      by rewrite Hm, orb_true_r.
    - intros j Hj. rewrite Z.land_spec, Fim, Hpend, (proj2 (Z.eqb_neq 6 j)), orb_false_r, <-Z.land_spec by lia. by apply Hu. }
  split; [|split; [|split; [|split; [|split]]]].
  - unfold on_keyboard, xzoom. assert (SendKey code (get_keyboard s) = (Ret tt, Keyboard (to_sr v (pushed code (kbd k0))) y)) as -> by exact E1. done.
  - apply to_sr_ok, pushed_ok; [done|apply H0].
  - change (queue (to_sr v ?k)) with (queue k). rewrite queue_pushed by apply H0.
    change (queue (kbd k0)) with (queue s.(dev).(dev_ikbd)). by rewrite Hq.
  - destruct Frest as [Ft _]. unfold ticks_ok. by rewrite Ft.
  - unfold mfp_vector. rewrite Hh, Fis, Fv. cbn [wired k0 get_mfp irq_inservice vr upd_cpu_flags]. by rewrite (proj2 (Z.leb_gt _ _) Hs).
  - apply (ok_signalled y Hy 6); [lia|by rewrite Hpend, orb_true_r by lia|by rewrite Fim|by rewrite Fis].
Qed.

(** ** The shortcut for recently used pages *)

(** The code between the request and the handler leaves the shortcut away from the hardware: the table walk, the accesses of the
    processor, the exception. *)
Section Shortcut.
Context (Ho : ∀ j, keeps_pages (env.(other) j)).
Abbreviation kept := (xkeeps (pages_ok (P := P) (Q := Q) (O := O))).

Lemma kept_phys a v : 0 <= a → kept (phys_get_long a) ∧ kept (phys_put_long a v).
Proof using Ho. intros Ha. split; [apply phys_get_pages|apply phys_put_pages]; try done; intros; (apply (HW_pages env Ho _ 0) || apply (HW_pages env Ho)). Qed.
Lemma kept_get a : 0 <= a → kept (phys_get_long a).
Proof using Ho. intros Ha. by apply (kept_phys a 0). Qed.
Lemma kept_put a v : 0 <= a → kept (phys_put_long a v).
Proof using Ho. intros Ha. by apply kept_phys. Qed.
Lemma kept_regs f : kept (mod_regs f).
Proof. by apply xkeeps_mod. Qed.
Lemma kept_l1 k f : kept (mod_l1 k f).
Proof. by apply xkeeps_mod. Qed.
Lemma kept_l2 b k f : kept (mod_l2 b k f).
Proof. by apply xkeeps_mod. Qed.
Lemma kept_load n a : kept (do_get_mem n a).
Proof. apply (memory_pages n a 0). Qed.
Lemma kept_store n a v : kept (do_put_mem n a v).
Proof. apply memory_pages. Qed.
#[local] Hint Resolve kept_get kept_put kept_regs kept_l1 kept_l2 kept_load kept_store : xkeeps.

Lemma mask_nonneg x m y n : 0 <= m → 0 <= n → 0 <= (x .& m) .| (y .& n).
Proof. intros Hm Hn. apply Z.lor_nonneg. split; apply Z.land_nonneg; by right. Qed.

Lemma kept_table_desc a : 0 <= a → kept (fetch_table_desc a).
Proof using Ho. intros Ha. unfold fetch_table_desc. xkeeps; by auto with xkeeps. Qed.
Lemma kept_update a d w : 0 <= a → kept (update_page_desc a d w).
Proof using Ho. intros Ha. unfold update_page_desc. xkeeps; by auto with xkeeps. Qed.
Lemma kept_page_desc a : 0 <= a → kept (fetch_page_desc a).
Proof using Ho. intros Ha. unfold fetch_page_desc. xkeeps; try by auto with xkeeps. apply kept_get, Z.land_nonneg. by right. Qed.
Lemma page_desc_place a s r s' : 0 <= a → fetch_page_desc a s = (Ret r, s') → 0 <= r.1.
Proof.
  intros Ha. unfold fetch_page_desc, xbind. destruct (phys_get_long a s) as [[d|n|e] s1]; [|done..].
  destruct (_ =? 2).
  - destruct (phys_get_long _ s1) as [[d'|n|e] s2]; [|done..]. intros [= <- <-]. apply Z.land_nonneg. by right.
  - by intros [= <- <-].
Qed.

Lemma kept_walk a b w : kept (mmu_lookup_pagetable a b w).
Proof using Ho.
  unfold mmu_lookup_pagetable. apply xkeeps_bind; [apply xkeeps_get|]. intros r. cbv zeta.
  apply xkeeps_bind; [by apply kept_table_desc, mask_nonneg|]. intros [root|]; [|apply xkeeps_ret].
  apply xkeeps_bind; [by apply kept_table_desc, mask_nonneg|]. intros [ptr|]; [|apply xkeeps_ret].
  apply xkeeps_bind; [apply xkeeps_get|]. intros k8.
  assert (0 <= page_desc_addr k8 ptr a) as Hp by (unfold page_desc_addr; destruct k8; by apply mask_nonneg).
  apply xkeeps_bind_ret; [by apply kept_page_desc|]. intros [da d] s s' E. apply page_desc_place in E; [|done].
  apply xkeeps_if; [apply xkeeps_ret|]. by apply kept_update.
Qed.
#[local] Hint Resolve kept_walk : xkeeps.

Lemma kept_fill_l2 a b d w i : kept (mmu_fill_atc_l2 a b d w i).
Proof using Ho. unfold mmu_fill_atc_l2. xkeeps. Qed.
#[local] Hint Resolve kept_fill_l2 : xkeeps.
Lemma kept_check n r a b d w : kept (fill_atc_l1_check n r a b d w).
Proof using Ho. revert r. induction n as [|n IH]; intros r; cbn [fill_atc_l1_check]; xkeeps. Qed.
#[local] Hint Resolve kept_check : xkeeps.
Lemma kept_fill_l1 a b d w k : kept (mmu_fill_atc_l1 a b d w k).
Proof using Ho. unfold mmu_fill_atc_l1. xkeeps. Qed.
Lemma kept_bus_error a fc w z : kept (mmu_bus_error a fc w z).
Proof. unfold mmu_bus_error. xkeeps. Qed.
#[local] Hint Resolve kept_fill_l1 kept_bus_error : xkeeps.

Lemma kept_mmu_get n hwget a d z : (∀ b, kept (hwget b)) → kept (mmu_get n hwget a d z).
Proof using Ho. intros H. unfold mmu_get, mmu_get_at, mmu_user_lookup, mmu_get_slow. xkeeps. Qed.
Lemma kept_mmu_put n hwput a v d z : (∀ b u, kept (hwput b u)) → kept (mmu_put n hwput a v d z).
Proof using Ho. intros H. unfold mmu_put, mmu_put_at, mmu_user_lookup, mmu_put_slow. xkeeps. Qed.
Lemma kept_long a : kept (get_long a).
Proof using Ho.
  unfold get_long, mmu_get_long_unaligned, long_by_parts, read_fault, mmu_get_byte, mmu_get_word, mmu_get_long.
  xkeeps; apply kept_mmu_get; intros; apply (HW_pages env Ho _ 0).
Qed.
Lemma kept_put_word a v : kept (put_word a v).
Proof using Ho.
  unfold put_word, mmu_put_word_unaligned, put_word_by_bytes, write_fault, mmu_put_byte, mmu_put_word.
  xkeeps; apply kept_mmu_put; intros; apply (HW_pages env Ho).
Qed.
Lemma kept_put_long a v : kept (put_long a v).
Proof using Ho.
  unfold put_long, mmu_put_long_unaligned, put_long_by_parts, write_fault, mmu_put_byte, mmu_put_word, mmu_put_long.
  xkeeps; apply kept_mmu_put; intros; apply (HW_pages env Ho).
Qed.

Abbreviation ckept := (xkeeps (λ c : m68k D, pages_ok (P := P) (Q := Q) (O := O) c.(mach))).
Lemma ckept_mach {A} (m : X (machine D) A) : kept m → ckept (on_mach m).
Proof. intros H c Hc. specialize (H _ Hc). unfold on_mach, xzoom. by destruct (m (mach c)) as [[] s]. Qed.
Lemma ckept_mod f : (∀ c, same_pages c.(mach).(read_page) c.(mach).(write_page) (f c).(mach)) → ckept (cmod f).
Proof. intros H. apply xkeeps_mod. intros c Hc. destruct (H c) as [E1 E2]. unfold pages_ok. by rewrite E1, E2. Qed.
Lemma ckept_get {A} (f : m68k D → A) : ckept (cget f).
Proof. apply xkeeps_get. Qed.
#[local] Hint Resolve ckept_get : xkeeps.
#[local] Hint Extern 1 (xkeeps _ (on_mach _)) => apply ckept_mach; (apply kept_long || apply kept_put_word || apply kept_put_long) : xkeeps.
#[local] Hint Extern 1 (xkeeps _ (cmod _)) => by apply ckept_mod : xkeeps.

Lemma ckept_push_word v : ckept (exc_push_word v).
Proof using Ho. unfold exc_push_word. xkeeps. Qed.
Lemma ckept_push_long v : ckept (exc_push_long v).
Proof using Ho. unfold exc_push_long. xkeeps. Qed.
#[local] Hint Resolve ckept_push_word ckept_push_long : xkeeps.
Lemma ckept_frame f v p n x y : ckept (exc_make_frame f v p n x y).
Proof using Ho. unfold exc_make_frame. xkeeps. Qed.
#[local] Hint Resolve ckept_frame : xkeeps.
Lemma ckept_bus_frame : ckept bus_error_frame.
Proof using Ho. unfold bus_error_frame. xkeeps. Qed.
Lemma ckept_fixup : ckept apply_fixup.
Proof. apply ckept_mod. intros c. by destruct (fixup c) as [[]|]. Qed.
Lemma ckept_enter n : ckept (enter_handler n).
Proof using Ho. unfold enter_handler, m68k_setpc, SPCFLAGS_CLEAR. xkeeps. Qed.
#[local] Hint Resolve ckept_bus_frame ckept_fixup ckept_enter : xkeeps.
Lemma ckept_supervisor : ckept enter_supervisor.
Proof. unfold enter_supervisor. xkeeps. apply ckept_mach. by apply xkeeps_mod. Qed.
#[local] Hint Resolve ckept_supervisor : xkeeps.
Lemma ckept_exception n p : ckept (Exception n p).
Proof using Ho. unfold Exception, m68k_getpc, MakeSR, report_double_bus_error, Quit680x0, SPCFLAGS_SET. xkeeps. Qed.
#[local] Hint Resolve ckept_exception : xkeeps.

Lemma ckept_acks : ckept SCCdoInterrupt ∧ ckept MFPdoInterrupt.
Proof. split; apply ckept_mach; by apply zoom_pages. Qed.
Lemma ckept_serve rs : ckept (SERVE_VBL_MFP SCCdoInterrupt MFPdoInterrupt rs).
Proof using Ho.
  destruct ckept_acks as [H1 H2].
  unfold SERVE_VBL_MFP, serve_level, serve_scc, serve_mfp, Interrupt, SCCInterrupt, MFPInterrupt, SPCFLAGS_TEST, SPCFLAGS_CLEAR. xkeeps.
Qed.
End Shortcut.

(** C20: From the key to the handler.  The operating system has set the keyboard up: its receive interrupt is on in the ACIA, the MFP has
    its line enabled, on the falling edge, and unmasked, with nothing as urgent pending or in service, and the keyboard's
    queue is empty ([key_ready]).  The processor is not in master mode, its mask is below 6, no register fixup is pending, the
    supervisor stack has room for five frames and, in plain RAM as the stack, the vectors of the pending requests are readable, none of them 2 or 3 ([servable]).  Then a key pressed
    on the host makes the processor enter the handler of the keyboard's vector at its next look at the requests,
    with the mask at 6, whichever requests of lower levels are pending; and when the handler reads the keyboard's data register over the bus
    or its mirror, it gets the scan code.  For the read, the shortcut for recently used pages is off the hardware when the key
    is pressed, as it is from the start on, and the devices that are not modelled keep it so. *)
Theorem key_reaches_handler code rs top c : let v := (c.(mach).(dev).(dev_mfp).(vr) .& 0xF0) + 6 in
  (∀ j, keeps_pages (env.(other) j)) → pages_ok c.(mach) →
  key_ready c.(mach) → is_byte code → c.(intmask) < 6 → top = 0xfffc02 ∨ top = 0xfffffc02 →
  servable (win := win) (good := good) 5 [27; 28; 29; scc_vector c.(mach).(dev).(dev_scc); v] c →
  ∃ s1 c2, on_keyboard (SendKey code) c.(mach) = (Ret tt, s1) ∧
    SERVE_VBL_MFP SCCdoInterrupt MFPdoInterrupt rs (w_mach s1 c) = (Ret tt, c2) ∧
    c2.(pc) = load 4 (cell c2.(mach)) (c.(vbr) +u 4 * v) ∧ c2.(intmask) = 6 ∧
    ∃ s3, phys_get_byte top c2.(mach) = (Ret code, s3).
Proof.
  intros v Ho Hpg Hr Hc Hm Htop Hs. destruct (key_sent code c.(mach) Hr Hc) as (k & y & E1 & Hk & Hq & Ht & Hv & Hf).
  set (s1 := put_keyboard (Keyboard k y) c.(mach)) in *. set (c1 := w_mach s1 c).
  assert (requests (vec_scc := λ d, scc_vector d.(dev_scc)) (vec_mfp := λ d, mfp_vector d.(dev_mfp)) c1.(mach).(dev) =
    [Request 11 3 27; Request 8 4 28; Request 12 5 29; Request 13 5 (scc_vector c.(mach).(dev).(dev_scc)); Request 9 6 v]) as Hrq.
  { unfold requests. change (dev_mfp _) with y. by rewrite Hv. }
  assert (servable (win := win) (good := good) 5 [27; 28; 29; scc_vector c.(mach).(dev).(dev_scc); v] c1) as Hs1.
  { replace c1 with (tweak c.(intmask) c.(stopped) y.(cpu_flags) s1.(dev) c) by (unfold c1, s1; by destruct c as [[]]).
    apply servable_tweak; [apply (sb_mask _ _ _ Hs)|done]. }
  destruct (serve_all (A := system_acks k) rs c1) as (c2 & E2 & He & Hp); [by rewrite Hrq|by split|].
  exists s1, c2. split; [done|]. split; [done|]. rewrite Hrq in Hp.
  assert (pending c1 (Request 9 6 v) = true) as Hpd by exact Hf.
  destruct Hp as [[_ _ _ Q1 _ _ Q3]|[_ Hn]]; [|by rewrite Hn in Hpd by (by do 4 right; left)].
  assert (6 <= c2.(intmask)) as H6.
  { apply (Q1 (Request 9 6 v)); [by do 4 right; left|done|]. cbn. pose proof (land_range_r (vr (dev_mfp (dev (mach c)))) 0xF0 8). subst v. lia. }
  destruct Q3 as [[Eq _]|(q & Hin & _ & Hl & Hpc)]; [change (intmask c1) with (intmask c) in Eq; lia|].
  assert (q = Request 9 6 v) as ->.
  { rewrite Hl in H6. repeat (apply elem_of_cons in Hin as [->|Hin]; [cbn in H6; lia || done|]). by apply elem_of_nil in Hin. }
  split; [exact Hpc|]. split; [exact Hl|]. unfold acks_end in He.
  assert (pages_ok c2.(mach)) as Hpg2 by (pose proof (ckept_serve Ho rs c1 Hpg) as H; by rewrite E2 in H).
  unfold phys_get_byte. rewrite (phys_get_hw _ _ top 0xfffc02) by (done || (split; lia)).
  unfold HWget_b, hardware. rewrite (getModule_owner env iIKBD) by done.
  cbn [hw_device hw_range byte_device handleRead]. unfold on_keyboard, xzoom.
  change (ikbd_handleRead 0xfffc00 0xfffc02) with ikbd_ReadData.
  destruct (last_byte_read code (get_keyboard c2.(mach))) as (s' & ->); [by cbn; rewrite He..|]. by eexists.
Qed.
End SystemIrq.
