(* ===== verification/SystemExample.v ===== *)
(** * SystemExample: the bus of a concrete machine

    The theorems of [System] on a machine with 16 MB of FastRAM whose other devices read
    as 0, and the keyboard set up as the operating system does; that of [SystemIrq] on a
    processor with these devices. *)

From S2P Require Import Prelude Throws Machine Mmu MmuWalk MmuSpec MmuTheorems MmuExample Mfp MfpSpec MfpTick Rtc RtcSpec Ikbd.
From S2P Require Import IkbdSpec IkbdExample Videl M68k M68kStack M68kFrame M68kExc M68kIrq M68kExample Midi Joypads Aradata Scc.
From S2P Require Import Yamaha Fdc Sound System SystemIrq.
From stdpp Require Import base gmap list numbers.
Open Scope Z_scope.
Open Scope c_scope.
Open Scope x_scope.

Local Instance bus_config : Config := {| FastRAM_SIZE := 0x1000000; VideoRAMBase := 0xf0000000; ARAM_PAGE_CHECK := true |}.

(** A device that reads as 0 and ignores writes. *)
Definition silent (i : hw_item) : BASE_IO (devices unit ParallelFile unit) :=
  byte_device 0 0 (xret tt) (λ _, xret 0) (λ _ _, xret tt).

Local Instance bus_printer : Parallel ParallelFile := parallel_file (ParOptions true true NStd true).
Local Instance bus_floppy : FloppyHost := {| path_empty := false; open_rw := 3; open_ro := 3; boot_netbsd := false |}.
Local Instance bus_sdl : SDLAudio := {| obtained_freq := 49170; cvt_source _ _ len := len; cvt_convert _ _ l := l; audio_silence := 0 |}.
Definition bus_env : surroundings (P := unit) (Q := ParallelFile) (O := unit) :=
  {| now := noon; ticks := 0; monitor := 0; parallel_on := true; busy := None; options := no_options; dsp_reset := xret tt; other := silent |}.
Local Instance bus_hardware : Hardware (devices unit ParallelFile unit) := HWInit bus_env.

Definition bus_machine : machine (devices unit ParallelFile unit) :=
  Machine (Regs (λ _, 0) true 0 0 0 0 0 false false 0 0 0 0 0 0 0 0 0) ∅ (λ _, Line 0 false false false false false false false false 0)
    (λ _ _, Line 0 false false false false false false false false 0) true 0xeeeeeeee 0xeeeeeeee 0
    (Devices (after mfp_setup) 0 kbd_new.(kbd) chip (Videl None (-1) (-1) (-1) false None 1 1)
       (Scc (channel_reset false) (channel_reset true) 0 0 tt 0)
       (Acsifdc 0 false (-1) 0 0 0 0 0 0 0 0 0 0 0 0 0 0 1 0) (Ncr 0 0 0 0) (Image [] 0 true) (Yamaha 0 ∅) (Some new_parallel_file)
       (Midi 0 0 0 2 (-1) []) (new_joypads [] [] (seqZ 0 17)) (Aradata false 0 (-1) (-1)) (Audiodma 0 0 0 0 0 0 0 false 0 0 0)
       (Crossbar 0 0 0 0 0 0 0 0 0 0 0) (Audioconv 0 0 0 0 0 0) [] tt).

Lemma bus_pages : pages_ok bus_machine.
Proof. by split. Qed.

Abbreviation bus_device := (hw_device bus_env).

Lemma bus_others j : keeps_pages (bus_env.(other) j).
Proof. by apply byte_pages; intros; apply xkeeps_ret. Qed.

(** The data register of the clock, at its mirror, after a word was stored in RAM, whose page the shortcut remembers, and after a bus error. *)
Definition bus_used : machine (devices unit ParallelFile unit) :=
  (do_bus bus_env (Get8 0xff8700) (do_bus bus_env (Put16 0x2000 0x1234) bus_machine).2).2.

Lemma bus_used_run : rtc (bus_step bus_env) bus_machine bus_used.
Proof.
  apply (rtc_l _ _ (do_bus bus_env (Put16 0x2000 0x1234) bus_machine).2).
  - by apply (step_access _ _ _ (Put16 0x2000 0x1234)).
  - apply rtc_once. by apply (step_error _ _ _ (Get8 0xff8700) 2).
Qed.

Lemma hardware_routing_witness : bus_used.(write_page) = 0x2000 ∧
  phys_get_byte 0xffff8963 bus_used = handleRead (bus_device iRTC) 0xff8963 bus_used ∧
  fst (phys_get_byte 0xffff8963 bus_used) = Ret 12.
Proof.
  destruct (hardware_routing bus_env iRTC 0xffff8963 0xff8963 0 bus_machine bus_used) as (E & _);
    [exact bus_others|done|exact bus_used_run|done|by right|].
  split; [by vm_compute|]. split; [exact E|]. etransitivity; [exact (f_equal fst E)|]. by vm_compute.
Defined.

(** Nothing is at 0xff8700, where a TT has its SCSI DMA. *)
Lemma unmapped_bus_error_witness :
  phys_get_word 0xff8700 bus_machine = (Throw 2, set_regs (set_mmu_fault_addr 0xff8700 bus_machine.(regs)) bus_machine).
Proof.
  destruct (unmapped_bus_error bus_env 0xff8700 0xff8700 0 bus_machine) as (_ & E & _);
    [split; [lia|by left]|by intros []|apply bus_pages|exact E].
Defined.

Lemma bus_keyboard : get_keyboard bus_machine = kbd_new.
Proof. by vm_compute. Qed.

Lemma key_over_bus_witness : ∃ s1 s2, on_keyboard (SendKey 0x1e) bus_machine = (Ret tt, s1) ∧
  Z.testbit s1.(spcflags) 9 = true ∧ phys_get_byte 0xfffffc02 s1 = (Ret 0x1e, s2).
Proof.
  destruct (key_over_bus bus_env 0x1e 0xfffffc02 bus_machine) as (s1 & s2 & E1 & Hf & E2 & _);
    [rewrite bus_keyboard; apply kbd_new_ok|done|apply bus_pages|by vm_compute|by vm_compute|by vm_compute|by vm_compute|by right|].
  by exists s1, s2.
Defined.

(** ** A key on a machine with translation switched on

    The processor of [M68kExample], which has no FastRAM, with the devices above. *)

#[local] Opaque ex_tables ex_mem.
Abbreviation SD := (devices unit ParallelFile unit) (only parsing).
#[local] Existing Instance ex_cfg.
#[local] Instance sys_hardware : Hardware SD := HWInit bus_env.
Abbreviation sys_good := (mmu_good (D := SD) T0 ex_regs).
Abbreviation sys_cell := (mmu_cell (D := SD) ex_ph).
#[local] Instance sys_ram : Ram ex_win sys_good sys_cell.
Proof. exact (mmu_ram T0 ex_regs ex_win ex_ph ex_window). Qed.

Definition sys_machine : machine SD :=
  Machine (set_sr_s false (set_areg 7 0x1000 ex_regs)) (ex_mem T0) (ex_machine (ex_mem T0)).(atc_l1) (ex_machine (ex_mem T0)).(atc_l2)
    false 0xeeeeeeee 0xeeeeeeee 0 bus_machine.(dev).
(** In user mode, with the mask at 3; the level 4 interrupt is pending, too. *)
Definition sys_cpu : m68k SD :=
  M68k (set_spcflags 0x100 sys_machine) (λ n, n) 0x1000 0x6100 0x6800 0 false false false false 3 0x1234 0x1230 0x5000 0 0
    (Flags true false true false true) None 0 0 0 0.

Lemma sys_good_cpu : sys_good sys_cpu.(mach).
Proof.
  split; [|by split]. pose proof (empty_ready T0 (set_sr_s false (set_areg 7 0x1000 ex_regs)) sys_cpu.(mach)) as H.
  apply H; [done|done|exact T0_mem|done|done].
Qed.

Lemma sys_servable : servable (win := ex_win) (good := sys_good) 5 [27; 28; 29; 0; 0x46] sys_cpu.
Proof.
  split; [apply sys_good_cpu|done|by vm_compute|by vm_compute|done|done|split; [by apply span_check|by vm_compute]|].
  intros v Hv Hv0. repeat (apply elem_of_cons in Hv as [->|Hv]; [done || (split_and!; [lia..|by apply span_check])|]).
  by apply elem_of_nil in Hv.
Qed.

Lemma key_ready_sys : key_ready sys_cpu.(mach).
Proof.
  assert (get_keyboard sys_cpu.(mach) = Keyboard kbd_new.(kbd) (upd_cpu_flags 0x100 kbd_new.(wired))) as E by (by vm_compute).
  split; try by vm_compute.
  - rewrite E. destruct kbd_new_ok as [H1 []]. split; [done|]. split; done.
  - intros j Hj. assert ((bus_machine.(dev).(dev_mfp).(irq_pending) .& bus_machine.(dev).(dev_mfp).(irq_mask)) = 0) as H by (by vm_compute).
    change (dev (mach sys_cpu)) with (dev bus_machine). rewrite H. apply Z.bits_0.
Qed.

Lemma key_reaches_handler_witness : ∃ s1 c2, on_keyboard (SendKey 0x1e) sys_cpu.(mach) = (Ret tt, s1) ∧
  SERVE_VBL_MFP SCCdoInterrupt MFPdoInterrupt false (w_mach s1 sys_cpu) = (Ret tt, c2) ∧ c2.(intmask) = 6 ∧
  ∃ s3, phys_get_byte 0xfffffc02 c2.(mach) = (Ret 0x1e, s3).
Proof.
  destruct (key_reaches_handler bus_env (win := ex_win) (good := sys_good) (cell := sys_cell)
    0x1e false 0xfffffc02 sys_cpu bus_others bus_pages key_ready_sys ltac:(done) ltac:(by vm_compute) ltac:(by right) sys_servable)
    as (s1 & c2 & E1 & E2 & _ & Hm & Hr).
  by exists s1, c2.
Defined.
